(* ===== verification/_CoqProject ===== *)
-Q . S2P
Prelude.v
ByteOrder.v
Wire.v
Errors.v
Crc.v
Sanitize.v
Timing.v
Session.v
Records.v
Log.v
Simulation.v
Window.v
Packet.v
Frame.v
Control.v
Silence.v
Handshake.v
Resume.v
Peer.v
Sender.v
Receiver.v
GiveUp.v
Trace.v
Typestate.v
Handles.v
Callbacks.v
DataPhase.v
Link.v
Assembly.v
Windows.v
Lossy.v
StopAndWait.v
Transfer.v
Host.v
Exchange.v
Upload.v
Download.v
Station.v
Batch.v
Faults.v
Tcp.v
Wired.v
Serial.v
Watchdog.v
Cli.v
Report.v
Programs.v
Reported.v
Delivered.v
SerialPrograms.v
