(* ===== verification/Prelude.v ===== *)
(** * A model of the VAL protocol library, and its theorems

    The library ([src/src], [src/include]) moves batches of files between two programs over any
    byte transport: a sender ([val_send_files]) and a receiver ([val_receive_files]), each
    driven by one session object and a table of functions of the caller's - transport, file
    system, clock, allocator, callbacks.  Four example programs ([src/examples/tcp]) put it on
    TCP and on a serial line.  This development is a shallow embedding of all of the library's
    C code and of the programs in functions one can run, with the theorems that say what the
    code promises, and with closed runs for the places where it does not keep the promise.

    ** How the program is modelled

    - C integers are [Z] with their wrap-around written out ([u8], [u16], [u32], [u64], [i64]);
      buffers and texts are [list Z] of bytes, read and written by [zget], [ztake], [zdrop],
      [zslice] and [zwrite].
    - Code that changes the session or calls the caller is in the monad [M (world E)]: the
      session record, an environment of any type [E] and a ghost trace of every call out.  The
      caller's functions are the class [Session.Hooks E]; nothing is assumed of them unless a
      theorem names a class of laws, and [Simulation.sim], or an environment built on it, is an
      instance of each.  A hook can answer anything, so "whatever the peer does" is a
      quantifier over environments.
    - A C loop is [loop fuel body] on its local variables; running out of fuel is [None].
      [wpp] is partial correctness (nothing is said of [None]), [wpt] total correctness: there
      the statement gives the fuel that is enough, always a number that the input determines
      (the length of the stream, the timeout in milliseconds plus a constant, the number of
      packets).  More fuel never changes a result ([loop_fuel_mono]).
    - Statuses are the C codes; an early [return] out of nested loops is a sum type.

    ** The classes of laws

    - Transport: [Frame.StreamLink], a byte stream that a read with a timeout above 0 takes
      some of, once enough has arrived; [Silence.SilentLink], nothing arrives and the clock
      runs; [Link.Faultless], what is sent is answered; [Assembly.Delivery],
      [Windows.HonestPeer] and [Lossy.LossyLink] on top; [Host.Host] and [Host.HonestHost], a
      link with a whole peer and its files at the other end.
    - Files: [Resume.FileStore].
    - What the environment keeps about itself while calls go out: [Trace.View] with
      [Trace.Unseen], [Trace.Announces], [Callbacks.Reports].
    - The operating system, for the programs: [Tcp.Sockets] with [Tcp.TcpStream],
      [Tcp.TcpPrompt], [Tcp.Descriptors]; [Serial.SerialPort] with [Serial.SerialLine] and
      [Serial.LinePrompt]; [Report.Malloc], [Programs.Process].  [Wired.Wired]: a socket whose
      other end is a host; [Delivered.Provides]: memory to be had.

    ** The files

    - [Prelude]: integers, byte lists, the monad, its Hoare rules and the loop rules.
    - [ByteOrder]: [val_byte_order.h] in its three builds.  [Wire]: [val_wire.c], [val_wire.h]
      and the constants of [val_protocol.h]; the class [WireCodec] states what a format owes.
    - [Errors]: [val_errors.h], [val_error_strings.c].  [Log]: the two log functions.
    - [Crc], [Sanitize], [Timing], [Window]: the parts of [val_core.c] on CRC-32, on names and
      paths, on round trip times and timeouts, and on the adaptive window.
    - [Session]: [val_config_t], the session, its creation and destruction, errors, metrics,
      health, the hooks and the trace; the invariant [session_ok] and the predicate [safe],
      which every operation of the later files is shown to satisfy.
    - [Records]: the diagnostic records that the library appends to [resume_trace.log] itself.
    - [Packet]: sending and receiving one frame ([val__internal_send_packet_core],
      [val_internal_recv_packet]).  [Frame]: their specification.
    - [Control]: polling until a deadline, [val_internal_wait_control] and all its wrappers,
      emergency cancel, callbacks.  [Silence]: how they end when nothing arrives.
    - [Handshake]: both roles of the HELLO exchange.  [Resume]: CRC of a file region, the
      resume decision, both sides of VERIFY.
    - [Sender]: [val_sender.c].  [Receiver]: [val_receiver.c] and [val_receive_files].
      [GiveUp]: both calls when nobody answers.
    - [Trace]: which calls out happen at all.  [Typestate]: calls out that follow an automaton;
      on it [Handles], the protocol of file handles, and [Callbacks], that of the file
      callbacks.
    - [DataPhase]: the receiver's data phase on every input.  [Link]: either end on a link
      without faults; on it [Assembly], the receiver's data phase, and [Windows], the sender's
      and both together.  [Lossy]: a line on which any frame may be lost, delayed, repeated or
      overtaken, and what receiving and the session's bookkeeping do on it; on it
      [StopAndWait], the sender's data phase with a window of one packet.  [Transfer]: whole
      calls and complete runs of both ends against each other.
    - [Host], [Exchange], [Upload], [Download], [Station], [Batch]: whole batches on a link
      without faults - the peer as a function of the frames it gets, one exchange after the
      other, the sender's side, the receiver's side, closed instances, and both together.
      [Faults]: what one lost DATA packet and one repeated control packet do to such a call of
      the receiver.
    - [Tcp]: [tcp_util.c] and the TCP programs' transport.  [Serial]: the serial programs'
      port and transport.  [Watchdog]: the thread that runs beside the serial programs.
    - [Cli]: the four command lines and the configurations made of them.  [Report]: what the
      programs' callbacks keep for the report.  [Programs] and [SerialPrograms]: the four
      [main]s.
    - [Wired], [Reported], [Delivered]: the TCP programs from end to end - the sockets are again
      a host's link, the report beside it is not noticed, and so the theorems on batches are
      about the library as the programs set it up.
    - [Simulation] and [Peer]: the environments the examples and witnesses run in - scripted
      arrivals, and a receiver that answers; they model no code.

    ** What the theorems show

    - Whole calls: the session invariant, the buffers and the recursive mutex survive every
      return path of both calls ([transfer_keeps_session]); a sender only reads
      ([sender_reads_only]), a receiver writes only single clean names inside its directory and,
      with stdio of its own in mode NEVER, [resume_trace.log] ([receiver_writes_inside]); every opened file is closed once and not used afterwards
      ([files_closed]), and the application is told of files in an orderly way
      ([files_announced]); a run without loss is consistent on both ends ([lossless_transfer]).
    - Any batch: on a link without faults [val_send_files] and [val_receive_files] transfer any
      list of files that are not empty ([batch_transferred]); the data phase of one file for
      every size, resume offset and window ([file_transferred]); both for packet sizes below
      65548, where the length field of DATA does not wrap ([large_data_truncated]).  The peer that the sender is given
      there ([HonestPeer]) answers as the receiver is shown to ([in_order_stream_assembled]).
    - Any line: with a window of one packet the receiver's file is a prefix of the sender's
      whatever is lost, delayed, repeated or reordered in both directions, through every
      retry, rewind and error, and success means the whole file ([stop_and_wait_safe]).  With
      more packets in a window one lost packet corrupts the file, and both ends report success
      ([lost_packet_corrupts], and [lost_packet_run] for a run of both ends).
    - The data phase: every acknowledgement states exactly what was written
      ([acks_report_written]); each branch on a DATA packet ([handle_data_decides]); an in-order
      stream is assembled, and the phase ends ([in_order_stream_assembled]); a sent packet is
      one slice of the file ([send_data_packet_slices]).
    - Frames: sending is framing, receiving is parsing, and both together a round trip, for
      all types and offsets and for transports that cut frames anywhere
      ([send_packet_frames], [recv_packet_parses], [frame_delivered]); any burst of up to 32
      bits that spares the length field is detected ([damaged_frame_rejected]).
    - Control: a silent peer is given up in bounded time after exactly the configured number of
      resends ([silent_peer_given_up]), also by the whole calls ([unanswered_call_ends]) unless
      the clock shows 0 ([clock_zero_never_returns]); both ends agree after a handshake
      ([adopt_hello_spec], [handshake_agreement]) and after a verification
      ([resume_decision_sound], [verify_outcome_agrees], [crc_region_correct]).
    - Components: the wire formats, the byte order macros, the CRC (as a division of polynomials,
      [crc32_table_driven_correct]), the RTT estimator and
      timeouts, the window's additive increase and multiplicative decrease, session creation,
      name sanitising, the texts of error details.
    - The TCP programs together: the files that one command line names end up in the directory
      that the other names, from [main] to [main] ([programs_deliver]).
    - The programs: every command line ends with an exit code or a configuration that the
      library takes ([command_line_accepted], [parse_uint_value]); the two transports are what
      the library's theorems ask for ([tcp_frame_crosses], [serial_frame_crosses], with
      [tcp_read_all_or_nothing], [tcp_no_descriptor_leak], [serial_io_in_order],
      [serial_opened_8n1]); exit codes and reports of the four programs ([sender_program],
      [receiver_program], [serial_sender_program], [serial_receiver_program],
      [reports_faithful]); the watchdog cancels what stands still and nothing else
      ([watchdog_cancels_stalled]).
    - Where the code does not do what it means to, the theorem states what it does:
      [lost_packet_corrupts], [ack_not_checked], [repeated_control_fatal],
      [window_cap_zero_disagrees],
      [empty_file_not_created], [validator_ignored], [large_data_truncated],
      [verify_window_uncapped], [progress_forgets_files], [session_create_leaks_mutex],
      [clean_path_unsafe_cases], [missing_feature_bits_lost], [skipped_file_announced_twice],
      [serial_report_overruns], [serial_sender_program], [watchdog_outlives_session].

    ** Not modelled

    - The unit tests ([src/unit_tests]): programs that exercise the library, with a simulated
      transport of their own; what they would check of a run is a theorem here.
    - [val_scheduler.h], which declares functions no source defines or calls.
    - What is only printed or logged: the calls of the log macros, and in the programs the usage
      texts, diagnostics, progress lines, metrics tables and the layout of the report.  None of
      it influences the protocol.
    - The Windows branches of the programs.
    - Threads: a session's functions run under its mutex, whose depth is modelled, so the only
      concurrency left is that of a callback cancelling the session, which is modelled, and the
      serial programs' watchdog, whose interleaving with [main] is [Watchdog]'s.
    - Builds without metrics: [VAL_ENABLE_METRICS] is taken as set.  Diagnostics and the log
      level are variables of the model ([BuildOptions]), and so is what uninitialised local
      arrays hold ([stack_junk]).

    ** Open

    Windows of more than one packet on a line that loses only whole windows or only
    acknowledgements; a receiver's waits in the middle of a batch on a link that falls silent
    (the handshake and the single waits are covered); whole batches in which a file is skipped or
    resumed after a verification (the decision, the verification and the data phase from an offset
    are covered one by one). *)
From stdpp Require Export base tactics list numbers option.
From Stdlib Require Export ZArith Lia Bool.

#[global] Open Scope Z_scope.
#[global] Open Scope list_scope.

(** * Machine integers

    A w-bit unsigned C integer is a [Z] in [0 .. 2^w); every operation that can
    wrap is followed by the conversion below that the C type makes. *)

Definition u8 (z : Z) : Z := z mod 2 ^ 8.
Definition u16 (z : Z) : Z := z mod 2 ^ 16.
Definition u32 (z : Z) : Z := z mod 2 ^ 32.
Definition u64 (z : Z) : Z := z mod 2 ^ 64.
(** The two's complement reading of a 32-bit pattern ([(int32_t)x]). *)
Definition i32 (z : Z) : Z :=
  let v := u32 z in if v <? 2 ^ 31 then v else v - 2 ^ 32.

Lemma i32_small z : 0 <= z < 2 ^ 31 → i32 z = z.
Proof. intros H. unfold i32, u32. rewrite Z.mod_small by lia. by replace (z <? 2 ^ 31) with true by lia. Qed.
Definition i64 (z : Z) : Z :=
  let v := u64 z in if v <? 2 ^ 63 then v else v - 2 ^ 64.

Lemma i64_small z : 0 <= z < 2 ^ 63 → i64 z = z.
Proof. intros H. unfold i64, u64. rewrite Z.mod_small by lia. by replace (z <? 2 ^ 63) with true by lia. Qed.

Definition UINT32_MAX : Z := 2 ^ 32 - 1.
Definition UINT64_MAX : Z := 2 ^ 64 - 1.

(** A byte string: every element is a [uint8_t]. *)
Definition byte_ok (b : Z) : Prop := 0 <= b < 256.
Definition bytes_ok (l : list Z) : Prop := Forall byte_ok l.

Create HintDb val discriminated.

Lemma u8_range z : 0 <= u8 z < 256.
Proof. unfold u8. apply Z.mod_pos_bound. lia. Qed.
Lemma u16_range z : 0 <= u16 z < 2 ^ 16.
Proof. unfold u16. apply Z.mod_pos_bound. lia. Qed.
Lemma u32_range z : 0 <= u32 z < 2 ^ 32.
Proof. unfold u32. apply Z.mod_pos_bound. lia. Qed.
Lemma u64_range z : 0 <= u64 z < 2 ^ 64.
Proof. unfold u64. apply Z.mod_pos_bound. lia. Qed.
Lemma u8_ok z : byte_ok (u8 z).
Proof. apply u8_range. Qed.
Lemma byte_ok_0 : byte_ok 0.
Proof. unfold byte_ok. lia. Qed.
Lemma u8_small z : 0 <= z < 2 ^ 8 → u8 z = z.
Proof. apply Z.mod_small. Qed.
Lemma u16_small z : 0 <= z < 2 ^ 16 → u16 z = z.
Proof. apply Z.mod_small. Qed.
Lemma u32_small z : 0 <= z < 2 ^ 32 → u32 z = z.
Proof. apply Z.mod_small. Qed.
Lemma u64_small z : 0 <= z < 2 ^ 64 → u64 z = z.
Proof. apply Z.mod_small. Qed.
Lemma i32_u32 z : - 2 ^ 31 <= z < 2 ^ 31 → i32 (u32 z) = z.
Proof.
  intros Hz. unfold i32, u32. rewrite Z.mod_mod by lia.
  destruct (Z.ltb_spec (z mod 2 ^ 32) (2 ^ 31)) as [H|H];
    destruct (decide (0 <= z)) as [Hp|Hn].
  - rewrite Z.mod_small; lia.
  - exfalso. replace (z mod 2 ^ 32) with (z + 2 ^ 32) in H; [lia|].
    symmetry. rewrite <- (Z.mod_add z 1 (2 ^ 32)) by lia.
    rewrite Z.mul_1_l. apply Z.mod_small. lia.
  - exfalso. rewrite Z.mod_small in H; lia.
  - replace (z mod 2 ^ 32) with (z + 2 ^ 32); [lia|].
    symmetry. rewrite <- (Z.mod_add z 1 (2 ^ 32)) by lia.
    rewrite Z.mul_1_l. apply Z.mod_small. lia.
Qed.

#[export] Hint Resolve u8_ok byte_ok_0 u8_range u16_range u32_range u64_range : val.

(** Put every width bound of the context in view, then close by [lia]. *)
Ltac ranges :=
  repeat match goal with
  | |- context [u8 ?z] => lazymatch goal with H : 0 <= u8 z < 256 |- _ => fail | _ => pose proof (u8_range z) end
  | |- context [u16 ?z] => lazymatch goal with H : 0 <= u16 z < 2 ^ 16 |- _ => fail | _ => pose proof (u16_range z) end
  | |- context [u32 ?z] => lazymatch goal with H : 0 <= u32 z < 2 ^ 32 |- _ => fail | _ => pose proof (u32_range z) end
  | |- context [u64 ?z] => lazymatch goal with H : 0 <= u64 z < 2 ^ 64 |- _ => fail | _ => pose proof (u64_range z) end
  end.
Ltac width_lia := ranges; lia.

(** * Byte buffers *)

Definition zlen {A} (l : list A) : Z := Z.of_nat (length l).
(** [buf[i]]; reading past the end gives 0, and the theorems that read a buffer
    bound the index. *)
Definition zget (l : list Z) (i : Z) : Z := nth (Z.to_nat i) l 0.
Definition ztake {A} (n : Z) (l : list A) : list A := take (Z.to_nat n) l.
Definition zdrop {A} (n : Z) (l : list A) : list A := drop (Z.to_nat n) l.
(** [memcpy(buf + off, src, len src)] inside a buffer. *)
Definition zwrite (buf : list Z) (off : Z) (src : list Z) : list Z :=
  ztake off buf ++ src ++ zdrop (off + zlen src) buf.
(** The [len] bytes at [buf + off]. *)
Definition zslice (buf : list Z) (off len : Z) : list Z := ztake len (zdrop off buf).

Lemma zlen_nonneg {A} (l : list A) : 0 <= zlen l.
Proof. unfold zlen. lia. Qed.
Lemma zlen_app {A} (l k : list A) : zlen (l ++ k) = zlen l + zlen k.
Proof. unfold zlen. rewrite length_app. lia. Qed.
Lemma zlen_cons {A} (x : A) l : zlen (x :: l) = zlen l + 1.
Proof. unfold zlen. cbn [length]. lia. Qed.
Lemma zlen_0_nil {A} (l : list A) : zlen l = 0 → l = [].
Proof. by destruct l. Qed.
Lemma zlen_pos_ne {A} (l : list A) : 0 < zlen l → l ≠ [].
Proof. by destruct l. Qed.
Lemma zlen_ne_pos {A} (l : list A) : l ≠ [] → 0 < zlen l.
Proof. destruct l; [done|]. unfold zlen. cbn [length]. lia. Qed.
Lemma zlen_nil {A} : zlen (@nil A) = 0.
Proof. reflexivity. Qed.
Lemma zlen_ztake {A} n (l : list A) : 0 <= n <= zlen l → zlen (ztake n l) = n.
Proof. unfold zlen, ztake. intros. rewrite length_take. lia. Qed.
Lemma zlen_ztake_le {A} n (l : list A) : 0 <= n → zlen (ztake n l) <= n.
Proof. unfold zlen, ztake. intros. rewrite length_take. lia. Qed.
Lemma zlen_map {A B} (f : A → B) l : zlen (map f l) = zlen l.
Proof. unfold zlen. by rewrite length_map. Qed.
Lemma zlen_zdrop {A} n (l : list A) : 0 <= n <= zlen l → zlen (zdrop n l) = zlen l - n.
Proof. unfold zlen, zdrop. intros. rewrite length_drop. lia. Qed.
Lemma ztake_zdrop {A} n (l : list A) : ztake n l ++ zdrop n l = l.
Proof. apply take_drop. Qed.
Lemma ztake_app_le {A} n (l k : list A) : n <= zlen l → ztake n (l ++ k) = ztake n l.
Proof. unfold zlen, ztake. intros. rewrite take_app_le; [done|lia]. Qed.
Lemma ztake_app_exact {A} n (l k : list A) : n = zlen l → ztake n (l ++ k) = l.
Proof. unfold zlen, ztake. intros ->. rewrite Nat2Z.id. apply take_app_length. Qed.
Lemma zdrop_app_exact {A} n (l k : list A) : n = zlen l → zdrop n (l ++ k) = k.
Proof. unfold zlen, zdrop. intros ->. rewrite Nat2Z.id. apply drop_app_length. Qed.
Lemma ztake_all {A} n (l : list A) : zlen l <= n → ztake n l = l.
Proof. unfold zlen, ztake. intros. apply take_ge. lia. Qed.
Lemma zdrop_0 {A} (l : list A) : zdrop 0 l = l.
Proof. done. Qed.
Lemma zdrop_zdrop {A} a b (l : list A) :
  0 <= a → 0 <= b → zdrop b (zdrop a l) = zdrop (a + b) l.
Proof. unfold zdrop. intros. rewrite drop_drop. f_equal. lia. Qed.
Lemma zlen_zwrite buf off src :
  0 <= off → off + zlen src <= zlen buf → zlen (zwrite buf off src) = zlen buf.
Proof.
  intros. unfold zwrite. pose proof (zlen_nonneg src).
  rewrite !zlen_app, zlen_ztake, zlen_zdrop by lia. lia.
Qed.
Lemma zlen_zwrite_eq buf off src n :
  zlen buf = n → 0 <= off → off + zlen src <= n → zlen (zwrite buf off src) = n.
Proof. intros <-. apply zlen_zwrite. Qed.
Lemma zslice_zwrite buf off src :
  0 <= off → off + zlen src <= zlen buf → zslice (zwrite buf off src) off (zlen src) = src.
Proof.
  intros. unfold zslice, zwrite. pose proof (zlen_nonneg src).
  rewrite zdrop_app_exact by (rewrite zlen_ztake; lia).
  apply ztake_app_exact. done.
Qed.
Lemma bytes_ok_app l k : bytes_ok (l ++ k) ↔ bytes_ok l ∧ bytes_ok k.
Proof. apply Forall_app. Qed.
Lemma bytes_ok_ztake n l : bytes_ok l → bytes_ok (ztake n l).
Proof. apply Forall_take. Qed.
Lemma bytes_ok_zdrop n l : bytes_ok l → bytes_ok (zdrop n l).
Proof. apply Forall_drop. Qed.
Lemma bytes_ok_zeros n : bytes_ok (repeat 0 n).
Proof. induction n; [constructor|constructor; [apply byte_ok_0|done]]. Qed.
Lemma bytes_ok_zwrite buf off src : bytes_ok buf → bytes_ok src → bytes_ok (zwrite buf off src).
Proof.
  intros. unfold zwrite. apply bytes_ok_app; split; [by apply bytes_ok_ztake|].
  apply bytes_ok_app; split; [done|by apply bytes_ok_zdrop].
Qed.
Lemma bytes_ok_map_u8 l : bytes_ok (map u8 l).
Proof. induction l; constructor; [apply u8_ok|done]. Qed.
Lemma map_u8_id l : bytes_ok l → map u8 l = l.
Proof. induction 1 as [|x l H _ IH]; cbn; [done|]. rewrite IH, u8_small; [done|apply H]. Qed.
#[export] Hint Resolve bytes_ok_ztake bytes_ok_zdrop zlen_nonneg bytes_ok_zeros bytes_ok_map_u8 bytes_ok_zwrite : val.
Create Rewrite HintDb zlen.
#[export] Hint Rewrite @zlen_app @zlen_cons @zlen_nil : zlen.

(** Byte strings built from bytes, constants and other byte strings. *)
Ltac solve_bytes :=
  repeat match goal with
  | |- bytes_ok _ => solve [auto with val]
  | |- bytes_ok [] => apply Forall_nil_2
  | |- bytes_ok (_ ++ _) => apply bytes_ok_app; split
  | |- bytes_ok (_ :: _) =>
      apply Forall_cons_2; [first [solve [auto with val] | unfold byte_ok; lia]|];
      change (Forall byte_ok) with bytes_ok
  end.

(** * Bit operations as arithmetic *)

Lemma lor_shiftl_add a b n :
  0 <= n → 0 <= a < 2 ^ n → Z.lor a (Z.shiftl b n) = a + b * 2 ^ n.
Proof.
  intros Hn Ha. rewrite <- Z.shiftl_mul_pow2 by lia.
  symmetry. apply Z.add_nocarry_lor.
  apply Z.bits_inj'. intros i Hi. rewrite Z.land_spec, Z.bits_0.
  destruct (decide (i < n)).
  - rewrite Z.shiftl_spec_low by lia. apply andb_false_r.
  - rewrite andb_false_iff. left.
    destruct (decide (a = 0)) as [->|]; [apply Z.bits_0|].
    apply Z.bits_above_log2; [lia|].
    apply Z.log2_lt_pow2; [lia|].
    apply Z.lt_le_trans with (2 ^ n); [lia|]. apply Z.pow_le_mono_r; lia.
Qed.
Lemma land_mask z n : 0 <= n → Z.land z (2 ^ n - 1) = z mod 2 ^ n.
Proof. intros. rewrite <- Z.land_ones by done. rewrite Z.ones_equiv. done. Qed.
Lemma shiftr_div z n : 0 <= n → Z.shiftr z n = z / 2 ^ n.
Proof. apply Z.shiftr_div_pow2. Qed.

(** * Record update

    [r <| f := v |>] is the C assignment [r.f = v].  A record declares its identity
    with the constructor spelt out ([Eta]); the setter of a field is derived from it. *)

Class Eta (R : Type) := eta : R → R.
Class Setter {R T : Type} (proj : R → T) := set_field : (T → T) → R → R.
Arguments set_field {R T} proj {_} f r.
Ltac derive_setter :=
  lazymatch goal with
  | |- @Setter ?R ?T ?proj =>
      let f := fresh "f" in let r := fresh "r" in
      intros f r;
      let e := eval hnf in (eta r) in
      lazymatch eval pattern (proj r) in e with
      | ?g _ => let b := eval cbv beta in (g (f (proj r))) in exact b
      end
  end.
#[warnings="-postfix-notation-not-level-1"]
Notation "r <| proj := v |>" := (set_field proj (λ _, v) r)
  (at level 12, left associativity, format "r  <| proj  :=  v |>").

(** * A monad for code that reads and changes a world and may loop

    [M W A] is a computation over the world [W]: it gives a result and the world
    it leaves, or [None] when the fuel of one of its loops ran out. *)

Definition M (W A : Type) : Type := W → option (A * W).

Definition mret {W A} (a : A) : M W A := λ w, Some (a, w).
Definition mbind {W A B} (m : M W A) (k : A → M W B) : M W B :=
  λ w, match m w with Some (a, w') => k a w' | None => None end.
Definition mget {W} : M W W := λ w, Some (w, w).
Definition mgets {W A} (f : W → A) : M W A := λ w, Some (f w, w).
Definition mmod {W} (f : W → W) : M W unit := λ w, Some (tt, f w).
(** Run a state transformer that also gives a result. *)
Definition mlift {W A} (f : W → A * W) : M W A := λ w, Some (f w).

Declare Scope val_scope.
Delimit Scope val_scope with val.
Notation "'let!' x ':=' m 'in' k" := (mbind m (λ x, k))
  (at level 20, x name, m at level 100, k at level 200) : val_scope.
Notation "'let!' ' p ':=' m 'in' k" := (mbind m (λ x, match x with p => k end))
  (at level 20, p pattern, m at level 100, k at level 200) : val_scope.
Notation "'do!' m 'in' k" := (mbind m (λ _, k))
  (at level 20, m at level 100, k at level 200) : val_scope.
#[global] Open Scope val_scope.

(** A C loop: the body runs on the loop's local variables and either goes round
    again ([inl]) or leaves with a value ([inr], for [break] and [return]). *)
Fixpoint loop {W S A} (fuel : nat) (body : S → M W (S + A)) (s : S) : M W A :=
  match fuel with
  | O => λ _, None
  | Datatypes.S fuel' =>
      let! r := body s in
      match r with
      | inl s' => loop fuel' body s'
      | inr a => mret a
      end
  end.

(** The two uses of a Hoare rule: [wp True] is partial correctness (nothing is
    said when the fuel runs out), [wp False] total correctness. *)
Definition wp (d : Prop) {W A} (m : M W A) (Q : A → W → Prop) (w : W) : Prop :=
  match m w with Some (a, w') => Q a w' | None => d end.
Abbreviation wpp := (wp True).
Abbreviation wpt := (wp False).

Section wp_rules.
Context {W : Type}.
Implicit Types d : Prop.

Lemma wp_ret d {A} (a : A) (Q : A → W → Prop) w : Q a w → wp d (mret a) Q w.
Proof. done. Qed.
Lemma wp_bind d {A B} (m : M W A) (k : A → M W B) Q w :
  wp d m (λ a w', wp d (k a) Q w') w → wp d (mbind m k) Q w.
Proof. unfold wp, mbind. destruct (m w) as [[a w']|]; done. Qed.
Lemma wp_bind_inv d {A B} (m : M W A) (k : A → M W B) Q w :
  wp d (mbind m k) Q w → wp d m (λ a w', wp d (k a) Q w') w.
Proof. unfold wp, mbind. destruct (m w) as [[a w']|]; done. Qed.
Lemma wp_mono d {A} (m : M W A) (P Q : A → W → Prop) w :
  wp d m P w → (∀ a w', P a w' → Q a w') → wp d m Q w.
Proof. unfold wp. destruct (m w) as [[a w']|]; naive_solver. Qed.
Lemma wp_gets d {A} (f : W → A) Q w : Q (f w) w → wp d (mgets f) Q w.
Proof. done. Qed.
Lemma wp_get d Q (w : W) : Q w w → wp d mget Q w.
Proof. done. Qed.
Lemma wp_mod d f Q (w : W) : Q tt (f w) → wp d (mmod f) Q w.
Proof. done. Qed.
Lemma wp_lift d {A} (f : W → A * W) Q w :
  Q (fst (f w)) (snd (f w)) → wp d (mlift f) Q w.
Proof. unfold wp, mlift. destruct (f w). done. Qed.
Lemma wp_run d {A} (m : M W A) Q w a w' : m w = Some (a, w') → Q a w' → wp d m Q w.
Proof. unfold wp. intros ->. done. Qed.
Lemma wpp_elim {A} (m : M W A) Q w a w' : wpp m Q w → m w = Some (a, w') → Q a w'.
Proof. unfold wp. intros H E. by rewrite E in H. Qed.
(** What a step does is of no interest. *)
Lemma wpp_bind_any {A B} (m : M W A) (k : A → M W B) Q w : (∀ a w', wpp (k a) Q w') → wpp (mbind m k) Q w.
Proof. intros Hk. apply wp_bind. unfold wp at 1. destruct (m w) as [[a w']|]; [apply Hk|done]. Qed.
(** ... or is kept as an equation. *)
Lemma wpp_bind_eq {A B} (m : M W A) (k : A → M W B) Q w : (∀ a w', m w = Some (a, w') → wpp (k a) Q w') → wpp (mbind m k) Q w.
Proof. intros Hk. apply wp_bind. unfold wp at 1. destruct (m w) as [[a w']|]; [by apply Hk|done]. Qed.
Lemma wpp_impl {A} (P : Prop) (m : M W A) Q w : (P → wpp m Q w) → wpp m (λ a w', P → Q a w') w.
Proof. unfold wp. destruct (m w) as [[a w']|]; [auto|done]. Qed.
Lemma wpp_result {A} (m : M W A) Q w r : wpp m Q w → m w = r →
  match r with Some (a, w') => Q a w' | None => True end.
Proof. by intros H <-. Qed.
Lemma wpt_elim {A} (m : M W A) Q w :
  wpt m Q w → ∃ a w', m w = Some (a, w') ∧ Q a w'.
Proof. unfold wp. destruct (m w) as [[a w']|]; [eauto|done]. Qed.
Lemma wpt_wpp {A} (m : M W A) Q w : wpt m Q w → wpp m Q w.
Proof. unfold wp. destruct (m w) as [[a w']|]; done. Qed.

(** The loop rule. An invariant over the locals and the world gives partial
    correctness; with a measure that each further turn decreases and that the
    fuel exceeds, it gives total correctness. *)
Lemma wp_loop d {S A} (Inv : S → W → Prop) (meas : S → W → nat) (body : S → M W (S + A)) Q :
  (∀ s w, Inv s w →
     wp d (body s) (λ r w', match r with
                            | inl s' => Inv s' w' ∧ (d ∨ (meas s' w' < meas s w)%nat)
                            | inr a => Q a w' end) w) →
  ∀ fuel s w, Inv s w → d ∨ (meas s w < fuel)%nat → wp d (loop fuel body s) Q w.
Proof.
  intros Hbody fuel. induction fuel as [|fuel IH]; intros s w HI Hm; cbn [loop].
  - destruct Hm; [done|lia].
  - apply wp_bind. eapply wp_mono; [by apply Hbody|].
    intros [s'|a] w' H; [|by apply wp_ret].
    destruct H as [HI' Hm']. apply IH; [done|].
    destruct Hm; [by left|]. destruct Hm'; [by left|right; lia].
Qed.
Lemma wpp_loop {S A} (Inv : S → W → Prop) (body : S → M W (S + A)) Q :
  (∀ s w, Inv s w →
     wpp (body s) (λ r w', match r with inl s' => Inv s' w' | inr a => Q a w' end) w) →
  ∀ fuel s w, Inv s w → wpp (loop fuel body s) Q w.
Proof.
  intros Hbody fuel s w HI.
  apply (wp_loop True Inv (λ _ _, O)); [|done|by left].
  intros s' w' HI'. eapply wp_mono; [by apply Hbody|]. intros [?|?] ?; auto.
Qed.

(** A computation whose effect on the world is within the relation [R]. *)
Definition keeps {A} (R : W → W → Prop) (m : M W A) : Prop :=
  ∀ w, wpp m (λ _ w', R w w') w.

Section keeps.
Context (R : W → W → Prop) `{!PreOrder R}.
Lemma keeps_ret {A} (a : A) : keeps R (mret a).
Proof. intros w. apply wp_ret. reflexivity. Qed.
Lemma keeps_bind {A B} (m : M W A) (k : A → M W B) :
  keeps R m → (∀ a, keeps R (k a)) → keeps R (mbind m k).
Proof.
  intros Hm Hk w. apply wp_bind. eapply wp_mono; [apply Hm|].
  intros a w' H. eapply wp_mono; [apply Hk|]. intros b w'' H'.
  cbv beta in *. by etrans.
Qed.
Lemma keeps_gets {A} (f : W → A) : keeps R (mgets f).
Proof. intros w. apply wp_gets. reflexivity. Qed.
Lemma keeps_get : keeps R mget.
Proof. intros w. apply wp_get. reflexivity. Qed.
Lemma keeps_loop {S A} fuel (body : S → M W (S + A)) s :
  (∀ s, keeps R (body s)) → keeps R (loop fuel body s).
Proof.
  intros Hb w. apply (wpp_loop (λ _ w', R w w')); [|by cbv beta; reflexivity].
  intros s' w' H'. eapply wp_mono; [apply Hb|]. intros [?|?] w'' H'';
    cbv beta in *; by etrans.
Qed.
Lemma keeps_mod f : (∀ w, R w (f w)) → keeps R (mmod f).
Proof. intros H w. apply wp_mod. apply H. Qed.
Lemma keeps_lift {A} (f : W → A * W) : (∀ w, R w (snd (f w))) → keeps R (mlift f).
Proof. intros H w. apply wp_lift. apply H. Qed.
End keeps.
End wp_rules.

(** More fuel never changes a result. *)
Lemma loop_fuel_mono {W S A} (body : S → M W (S + A)) n m s w r :
  loop n body s w = Some r → (n <= m)%nat → loop m body s w = Some r.
Proof.
  revert m s w. induction n as [|n IH]; intros m s w H Hle; [done|].
  destruct m as [|m]; [lia|]. cbn in *. unfold mbind in *.
  destruct (body s w) as [[[s'|a] w']|]; [|done|done]. apply IH; [done|lia].
Qed.

(** [m'] gives at least the results of [m]: what more fuel does. *)
Definition refines {W A} (m m' : M W A) : Prop := ∀ w r, m w = Some r → m' w = Some r.
Lemma refines_refl {W A} (m : M W A) : refines m m.
Proof. by intros w r. Qed.
Lemma refines_bind {W A B} (m m' : M W A) (k k' : A → M W B) :
  refines m m' → (∀ a, refines (k a) (k' a)) → refines (mbind m k) (mbind m' k').
Proof.
  intros Hm Hk w r. unfold mbind. destruct (m w) as [[a w']|] eqn:E0; [|done].
  rewrite (Hm _ _ E0). apply Hk.
Qed.
Lemma refines_loop {W S A} (body : S → M W (S + A)) n m s : (n <= m)%nat → refines (loop n body s) (loop m body s).
Proof. intros Hle w r Hr. by eapply loop_fuel_mono. Qed.
Lemma wpp_refines {W A} (m m' : M W A) Q w : refines m m' → wpp m' Q w → wpp m Q w.
Proof. intros Hr. unfold wp. destruct (m w) as [[a w']|] eqn:E0; [|done]. by rewrite (Hr _ _ E0). Qed.
