(* ===== verification/ByteOrder.v ===== *)
(** Byte order ([include/val_byte_order.h]): the byte swaps, the host-to-wire
    conversions and the [VAL_PUT_LE*] / [VAL_GET_LE*] macros of each build
    (little endian, big endian, decided at run time), all shown to agree with one
    endianness-free description, [le_bytes] / [le_val], which the other files use. *)
From S2P Require Import Prelude.

(** ** The description: little-endian digits *)

Fixpoint le_bytes (n : nat) (v : Z) : list Z :=
  match n with
  | O => []
  | S n' => v mod 256 :: le_bytes n' (v / 256)
  end.
Fixpoint le_val (l : list Z) : Z :=
  match l with
  | [] => 0
  | b :: l' => b + 256 * le_val l'
  end.

Lemma length_le_bytes n v : length (le_bytes n v) = n.
Proof. revert v. induction n; cbn; auto. Qed.
Lemma le_bytes_ok n v : bytes_ok (le_bytes n v).
Proof.
  revert v. induction n as [|n IH]; intros v; cbn; constructor; [|apply IH].
  unfold byte_ok. apply Z.mod_pos_bound. lia.
Qed.
Lemma le_val_bytes n v : le_val (le_bytes n v) = v mod 256 ^ Z.of_nat n.
Proof.
  revert v. induction n as [|n IH]; intros v.
  - cbn. symmetry. apply Z.mod_1_r.
  - cbn [le_bytes le_val]. rewrite IH, Nat2Z.inj_succ, Z.pow_succ_r by lia.
    rewrite Z.rem_mul_r by lia. done.
Qed.
Lemma le_bytes_val l : bytes_ok l → le_bytes (length l) (le_val l) = l.
Proof.
  induction 1 as [|b l Hb _ IH]; [done|]. unfold byte_ok in Hb. cbn [length le_val le_bytes].
  rewrite (Z.mul_comm 256), Z.mod_add, Z.mod_small by lia.
  rewrite Z.div_add, Z.div_small, Z.add_0_l by lia. by rewrite IH.
Qed.
Lemma le_val_range l : bytes_ok l → 0 <= le_val l < 256 ^ zlen l.
Proof.
  unfold zlen. induction 1 as [|b l Hb _ IH]; [cbn; lia|]. unfold byte_ok in Hb.
  cbn [length le_val]. rewrite Nat2Z.inj_succ, Z.pow_succ_r by lia.
  generalize dependent (256 ^ Z.of_nat (length l)). intros p Hp. lia.
Qed.
#[export] Hint Resolve le_bytes_ok : val.

(** A byte cut out of an integer by shift and mask is a base-256 digit. *)
Lemma digit v w k : 0 <= k → k + 8 <= w →
  Z.land (Z.shiftr (v mod 2 ^ w) k) 255 = (v / 2 ^ k) mod 256.
Proof.
  intros. change 255 with (Z.ones 8). change 256 with (2 ^ 8).
  rewrite <- shiftr_div by lia.
  apply Z.bits_inj'. intros i Hi.
  rewrite Z.land_spec, Z.shiftr_spec by done.
  destruct (decide (i < 8)).
  - rewrite Z.ones_spec_low by lia. rewrite Z.mod_pow2_bits_low by lia.
    rewrite Z.mod_pow2_bits_low, Z.shiftr_spec by lia. apply andb_true_r.
  - rewrite Z.ones_spec_high by lia. rewrite (Z.mod_pow2_bits_high _ 8) by lia.
    apply andb_false_r.
Qed.

(** ** The macros of the portable (byte by byte) branch *)

Definition VAL_PUT_LE16 (val : Z) : list Z :=
  let v := u16 val in
  [Z.land v 255; Z.land (Z.shiftr v 8) 255].
Definition VAL_PUT_LE32 (val : Z) : list Z :=
  let v := u32 val in
  [Z.land v 255; Z.land (Z.shiftr v 8) 255;
   Z.land (Z.shiftr v 16) 255; Z.land (Z.shiftr v 24) 255].
Definition VAL_PUT_LE64 (val : Z) : list Z :=
  let v := u64 val in
  [Z.land v 255; Z.land (Z.shiftr v 8) 255;
   Z.land (Z.shiftr v 16) 255; Z.land (Z.shiftr v 24) 255;
   Z.land (Z.shiftr v 32) 255; Z.land (Z.shiftr v 40) 255;
   Z.land (Z.shiftr v 48) 255; Z.land (Z.shiftr v 56) 255].
Definition VAL_GET_LE16 (buf : list Z) : Z :=
  Z.lor (zget buf 0) (Z.shiftl (zget buf 1) 8).
Definition VAL_GET_LE32 (buf : list Z) : Z :=
  Z.lor (zget buf 0) (Z.lor (Z.shiftl (zget buf 1) 8)
    (Z.lor (Z.shiftl (zget buf 2) 16) (Z.shiftl (zget buf 3) 24))).
Definition VAL_GET_LE64 (buf : list Z) : Z :=
  Z.lor (zget buf 0) (Z.lor (Z.shiftl (zget buf 1) 8)
    (Z.lor (Z.shiftl (zget buf 2) 16) (Z.lor (Z.shiftl (zget buf 3) 24)
    (Z.lor (Z.shiftl (zget buf 4) 32) (Z.lor (Z.shiftl (zget buf 5) 40)
    (Z.lor (Z.shiftl (zget buf 6) 48) (Z.shiftl (zget buf 7) 56))))))).

Ltac digits w :=
  unfold u16, u32, u64;
  rewrite <- (Z.shiftr_0_r (_ mod 2 ^ w)) at 1;
  rewrite ?(digit _ w) by lia; cbn [le_bytes]; rewrite ?Z.div_div by lia;
  change (2 ^ 0) with 1; rewrite Z.div_1_r; reflexivity.

Lemma put16_spec v : VAL_PUT_LE16 v = le_bytes 2 v.
Proof. unfold VAL_PUT_LE16. digits 16. Qed.
Lemma put32_spec v : VAL_PUT_LE32 v = le_bytes 4 v.
Proof. unfold VAL_PUT_LE32. digits 32. Qed.
Lemma put64_spec v : VAL_PUT_LE64 v = le_bytes 8 v.
Proof. unfold VAL_PUT_LE64. digits 64. Qed.

(** Horner's form of a chain of shifted bytes. *)
Lemma lor_horner a b n m : 0 <= n → 0 <= m → byte_ok a → n + 8 = m →
  Z.lor (Z.shiftl a n) (Z.shiftl b m) = Z.shiftl (a + 256 * b) n.
Proof.
  intros ? ? Ha <-. unfold byte_ok in Ha.
  replace (n + 8) with (8 + n) by lia.
  rewrite <- Z.shiftl_shiftl by lia. rewrite <- Z.shiftl_lor.
  rewrite (lor_shiftl_add a b 8) by lia. f_equal. lia.
Qed.
Lemma lor_horner0 a b : byte_ok a → Z.lor a (Z.shiftl b 8) = a + 256 * b.
Proof. intros Ha. unfold byte_ok in Ha. rewrite (lor_shiftl_add a b 8) by lia. lia. Qed.

(** Evaluate reads at literal indices of a buffer whose front is explicit. *)
Ltac zget_cons :=
  repeat match goal with
  | |- context [zget ?l ?i] =>
      let x := eval cbv [zget nth Z.to_nat Pos.to_nat Pos.iter_op Nat.add] in (zget l i) in
      change (zget l i) with x
  end.

Lemma get16_spec a b rest : byte_ok a → byte_ok b →
  VAL_GET_LE16 (a :: b :: rest) = le_val [a; b].
Proof.
  intros. unfold VAL_GET_LE16. zget_cons. cbn [le_val].
  rewrite lor_horner0 by done. lia.
Qed.
Lemma get32_spec a b c d rest :
  byte_ok a → byte_ok b → byte_ok c → byte_ok d →
  VAL_GET_LE32 (a :: b :: c :: d :: rest) = le_val [a; b; c; d].
Proof.
  intros. unfold VAL_GET_LE32. zget_cons. cbn [le_val].
  rewrite (lor_horner c d 16 24), (lor_horner b _ 8 16), lor_horner0 by (done || lia). lia.
Qed.
Lemma get64_spec a b c d e f g h rest :
  byte_ok a → byte_ok b → byte_ok c → byte_ok d →
  byte_ok e → byte_ok f → byte_ok g → byte_ok h →
  VAL_GET_LE64 (a :: b :: c :: d :: e :: f :: g :: h :: rest) = le_val [a; b; c; d; e; f; g; h].
Proof.
  intros. unfold VAL_GET_LE64. zget_cons. cbn [le_val].
  rewrite (lor_horner g h 48 56), (lor_horner f _ 40 48), (lor_horner e _ 32 40),
    (lor_horner d _ 24 32), (lor_horner c _ 16 24), (lor_horner b _ 8 16), lor_horner0
    by (done || lia). lia.
Qed.

(** Reading the integer at the front of a buffer long enough to hold it. *)
Lemma get_le16_val l : bytes_ok l → 2 <= zlen l → VAL_GET_LE16 l = le_val (ztake 2 l).
Proof.
  intros H Hl. destruct l as [|a [|b l]]; unfold zlen in Hl; cbn in Hl; try lia.
  inversion H as [|? ? ? H1]; inversion H1; subst. rewrite get16_spec by done. done.
Qed.
Lemma get_le32_val l : bytes_ok l → 4 <= zlen l → VAL_GET_LE32 l = le_val (ztake 4 l).
Proof.
  intros H Hl. destruct l as [|a [|b [|c [|d l]]]]; unfold zlen in Hl; cbn in Hl; try lia.
  repeat match goal with H : bytes_ok (_ :: _) |- _ => inversion H; subst; clear H
         | H : Forall byte_ok (_ :: _) |- _ => inversion H; subst; clear H end.
  rewrite get32_spec by done. done.
Qed.
Lemma zget_ok l i : bytes_ok l → byte_ok (zget l i).
Proof.
  intros Hl. unfold zget. destruct (decide (Z.to_nat i < length l)%nat).
  - unfold bytes_ok in Hl. rewrite List.Forall_forall in Hl. apply Hl, nth_In. done.
  - rewrite nth_overflow by lia. apply byte_ok_0.
Qed.
Lemma get_le16_nonneg l : bytes_ok l → 0 <= VAL_GET_LE16 l.
Proof.
  intros Hl. unfold VAL_GET_LE16. pose proof (zget_ok l 0 Hl). pose proof (zget_ok l 1 Hl).
  unfold byte_ok in *. apply Z.lor_nonneg. rewrite Z.shiftl_nonneg. lia.
Qed.
Lemma get_put16 v rest : VAL_GET_LE16 (VAL_PUT_LE16 v ++ rest) = u16 v.
Proof.
  rewrite put16_spec. cbn [le_bytes app].
  rewrite get16_spec by (unfold byte_ok; apply Z.mod_pos_bound; lia).
  exact (le_val_bytes 2 v).
Qed.
Lemma get_put32 v rest : VAL_GET_LE32 (VAL_PUT_LE32 v ++ rest) = u32 v.
Proof.
  rewrite put32_spec. cbn [le_bytes app].
  rewrite get32_spec by (unfold byte_ok; apply Z.mod_pos_bound; lia).
  exact (le_val_bytes 4 v).
Qed.
Lemma get_put64 v rest : VAL_GET_LE64 (VAL_PUT_LE64 v ++ rest) = u64 v.
Proof.
  rewrite put64_spec. cbn [le_bytes app].
  rewrite get64_spec by (unfold byte_ok; apply Z.mod_pos_bound; lia).
  exact (le_val_bytes 8 v).
Qed.
Lemma zlen_put16 v : zlen (VAL_PUT_LE16 v) = 2.
Proof. done. Qed.
Lemma zlen_put32 v : zlen (VAL_PUT_LE32 v) = 4.
Proof. done. Qed.
Lemma zlen_put64 v : zlen (VAL_PUT_LE64 v) = 8.
Proof. done. Qed.
Lemma put16_ok v : bytes_ok (VAL_PUT_LE16 v).
Proof. rewrite put16_spec. apply le_bytes_ok. Qed.
Lemma put32_ok v : bytes_ok (VAL_PUT_LE32 v).
Proof. rewrite put32_spec. apply le_bytes_ok. Qed.
Lemma put64_ok v : bytes_ok (VAL_PUT_LE64 v).
Proof. rewrite put64_spec. apply le_bytes_ok. Qed.
#[export] Hint Resolve put16_ok put32_ok put64_ok : val.
#[export] Hint Rewrite zlen_put16 zlen_put32 zlen_put64 : zlen.

(** ** Hosts and builds *)

Inductive endian := LittleEndian | BigEndian.

(** The bytes of an unsigned integer object of [n] bytes on a host (the C object
    representation), and the value such bytes denote. *)
Definition store_native (h : endian) (n : nat) (v : Z) : list Z :=
  match h with LittleEndian => le_bytes n v | BigEndian => rev (le_bytes n v) end.
Definition load_native (h : endian) (l : list Z) : Z :=
  match h with LittleEndian => le_val l | BigEndian => le_val (rev l) end.

Definition val_bswap16 (v : Z) : Z := u16 (Z.lor (Z.shiftr v 8) (Z.shiftl v 8)).
Definition val_bswap32 (v : Z) : Z :=
  Z.lor (u32 (Z.shiftl (Z.land v 0xFF) 24))
   (Z.lor (u32 (Z.shiftl (Z.land v 0xFF00) 8))
    (Z.lor (Z.shiftr (Z.land v 0xFF0000) 8) (Z.shiftr (Z.land v 0xFF000000) 24))).
Definition val_bswap64 (v : Z) : Z :=
  Z.lor (u64 (Z.shiftl (val_bswap32 (u32 (Z.land v 0xFFFFFFFF))) 32))
        (val_bswap32 (u32 (Z.shiftr v 32))).

(** The value of [val_runtime_is_little_endian] on a host: the low byte of 0x00FF. *)
Definition val_runtime_is_little_endian (h : endian) : bool :=
  zget (store_native h 2 0x00FF) 0 =? 0xFF.

Definition val_htole16 (h : endian) (v : Z) : Z :=
  if val_runtime_is_little_endian h then v else val_bswap16 v.
Definition val_htole32 (h : endian) (v : Z) : Z :=
  if val_runtime_is_little_endian h then v else val_bswap32 v.
Definition val_htole64 (h : endian) (v : Z) : Z :=
  if val_runtime_is_little_endian h then v else val_bswap64 v.

(** [val_put_le32_runtime] and the macro branches of the two fixed-endian builds:
    a plain store on a little-endian host, byte by byte otherwise. *)
Definition val_put_le16_runtime (h : endian) (v : Z) : list Z :=
  if val_runtime_is_little_endian h then store_native h 2 (u16 v) else VAL_PUT_LE16 v.
Definition val_put_le32_runtime (h : endian) (v : Z) : list Z :=
  if val_runtime_is_little_endian h then store_native h 4 (u32 v) else VAL_PUT_LE32 v.
Definition val_put_le64_runtime (h : endian) (v : Z) : list Z :=
  if val_runtime_is_little_endian h then store_native h 8 (u64 v) else VAL_PUT_LE64 v.
Definition val_get_le16_runtime (h : endian) (buf : list Z) : Z :=
  if val_runtime_is_little_endian h then load_native h (ztake 2 buf) else VAL_GET_LE16 buf.
Definition val_get_le32_runtime (h : endian) (buf : list Z) : Z :=
  if val_runtime_is_little_endian h then load_native h (ztake 4 buf) else VAL_GET_LE32 buf.
Definition val_get_le64_runtime (h : endian) (buf : list Z) : Z :=
  if val_runtime_is_little_endian h then load_native h (ztake 8 buf) else VAL_GET_LE64 buf.

Lemma le_bytes_mod n v : le_bytes n (v mod 256 ^ Z.of_nat n) = le_bytes n v.
Proof.
  rewrite <- le_val_bytes. rewrite <- (length_le_bytes n v) at 1.
  apply le_bytes_val, le_bytes_ok.
Qed.

(** *** The byte swap is the reversal of the object's bytes *)

Lemma land_byte_at v k : 0 <= k →
  Z.land v (Z.shiftl 255 k) = Z.shiftl ((v / 2 ^ k) mod 256) k.
Proof.
  intros Hk. change 255 with (Z.ones 8). change 256 with (2 ^ 8).
  rewrite <- shiftr_div by done.
  apply Z.bits_inj'. intros i Hi. rewrite Z.land_spec, !Z.shiftl_spec by done.
  destruct (decide (i < k)).
  - rewrite !(Z.testbit_neg_r _ (i - k)) by lia. apply andb_false_r.
  - destruct (decide (i - k < 8)).
    + rewrite Z.ones_spec_low, Z.mod_pow2_bits_low, Z.shiftr_spec by lia.
      rewrite andb_true_r. f_equal. lia.
    + rewrite Z.ones_spec_high by lia. rewrite (Z.mod_pow2_bits_high _ 8) by lia.
      apply andb_false_r.
Qed.
Lemma shiftl_shiftr_cancel v k n : 0 <= k → 0 <= n → k <= n →
  Z.shiftr (Z.shiftl v n) k = Z.shiftl v (n - k).
Proof.
  intros. rewrite Z.shiftr_shiftl_l by lia. done.
Qed.
Lemma lor_reverse4 a b c d : Z.lor a (Z.lor b (Z.lor c d)) = Z.lor d (Z.lor c (Z.lor b a)).
Proof.
  apply Z.bits_inj'. intros i Hi. rewrite !Z.lor_spec.
  repeat match goal with |- context [Z.testbit ?x i] => destruct (Z.testbit x i) end; done.
Qed.
Lemma byte_shiftl_bound b k w : byte_ok b → 0 <= k → k + 8 <= w → 0 <= Z.shiftl b k < 2 ^ w.
Proof.
  intros Hb Hk Hw. unfold byte_ok in Hb. rewrite Z.shiftl_mul_pow2 by done.
  assert (0 < 2 ^ k) by (apply Z.pow_pos_nonneg; lia).
  split; [nia|]. apply Z.lt_le_trans with (256 * 2 ^ k); [nia|].
  change 256 with (2 ^ 8). rewrite <- Z.pow_add_r by lia. apply Z.pow_le_mono_r; lia.
Qed.
Lemma bswap16_val a b : byte_ok a → byte_ok b →
  val_bswap16 (le_val [a; b]) = le_val [b; a].
Proof.
  intros Ha Hb. unfold byte_ok in *. unfold val_bswap16, u16.
  rewrite shiftr_div by lia. cbn [le_val].
  replace ((a + 256 * (b + 256 * 0)) / 2 ^ 8) with b.
  2:{ apply (Z.div_unique_pos _ _ _ a); lia. }
  rewrite lor_horner0 by done. symmetry. apply (Z.mod_unique_pos _ _ b); lia.
Qed.
Lemma bswap32_val a b c d : byte_ok a → byte_ok b → byte_ok c → byte_ok d →
  val_bswap32 (le_val [a; b; c; d]) = le_val [d; c; b; a].
Proof.
  intros Ha Hb Hc Hd. unfold val_bswap32.
  set (v := le_val [a; b; c; d]).
  change 0xFF with (Z.shiftl 255 0) at 1. change 0xFF00 with (Z.shiftl 255 8).
  change 0xFF0000 with (Z.shiftl 255 16). change 0xFF000000 with (Z.shiftl 255 24).
  rewrite !land_byte_at by lia. unfold byte_ok in *.
  replace ((v / 2 ^ 0) mod 256) with a.
  2:{ unfold v; cbn [le_val]. rewrite Z.div_1_r.
      apply (Z.mod_unique_pos _ _ (b + 256 * (c + 256 * d))); lia. }
  replace ((v / 2 ^ 8) mod 256) with b.
  2:{ rewrite <- (Z.div_unique_pos v (2 ^ 8) (b + 256 * (c + 256 * d)) a) by (unfold v; cbn [le_val]; lia).
      apply (Z.mod_unique_pos _ _ (c + 256 * d)); lia. }
  replace ((v / 2 ^ 16) mod 256) with c.
  2:{ rewrite <- (Z.div_unique_pos v (2 ^ 16) (c + 256 * d) (a + 256 * b)) by (unfold v; cbn [le_val]; lia).
      apply (Z.mod_unique_pos _ _ d); lia. }
  replace ((v / 2 ^ 24) mod 256) with d.
  2:{ rewrite <- (Z.div_unique_pos v (2 ^ 24) d (a + 256 * (b + 256 * c))) by (unfold v; cbn [le_val]; lia).
      apply (Z.mod_unique_pos _ _ 0); lia. }
  rewrite !Z.shiftl_shiftl, !shiftl_shiftr_cancel by lia.
  rewrite (u32_small (Z.shiftl a _)) by (apply byte_shiftl_bound; unfold byte_ok; lia).
  rewrite (u32_small (Z.shiftl b _)) by (apply byte_shiftl_bound; unfold byte_ok; lia).
  rewrite lor_reverse4. change (0 + 24) with 24. change (8 + 8) with 16. change (16 - 8) with 8.
  change (24 - 24) with 0. rewrite Z.shiftl_0_r.
  rewrite (lor_horner b a 16 24), (lor_horner c _ 8 16), lor_horner0 by (unfold byte_ok; lia).
  cbn [le_val]. lia.
Qed.

(** A 2-, 4- or 8-byte object read through its digits. *)
Lemma le_split n v : 0 <= v < 256 ^ Z.of_nat n → v = le_val (le_bytes n v).
Proof. intros. rewrite le_val_bytes. symmetry. by apply Z.mod_small. Qed.
Lemma byte_digit v : byte_ok (v mod 256).
Proof. unfold byte_ok. apply Z.mod_pos_bound. lia. Qed.
#[export] Hint Resolve byte_digit : val.

Lemma bswap16_rev v : 0 <= v < 2 ^ 16 → le_bytes 2 (val_bswap16 v) = rev (le_bytes 2 v).
Proof.
  intros Hv. rewrite (le_split 2 v Hv) at 1. cbn [le_bytes].
  rewrite bswap16_val by auto with val.
  apply (le_bytes_val [_; _]). solve_bytes.
Qed.
Lemma bswap32_rev v : 0 <= v < 2 ^ 32 → le_bytes 4 (val_bswap32 v) = rev (le_bytes 4 v).
Proof.
  intros Hv. rewrite (le_split 4 v Hv) at 1. cbn [le_bytes].
  rewrite bswap32_val by auto with val.
  apply (le_bytes_val [_; _; _; _]). solve_bytes.
Qed.
Lemma bswap32_range v : 0 <= v < 2 ^ 32 → 0 <= val_bswap32 v < 2 ^ 32.
Proof.
  intros Hv. rewrite (le_split 4 v Hv). cbn [le_bytes]. rewrite bswap32_val by auto with val.
  apply (le_val_range [_; _; _; _]). solve_bytes.
Qed.
Lemma le_bytes_app n m v : le_bytes (n + m) v = le_bytes n v ++ le_bytes m (v / 256 ^ Z.of_nat n).
Proof.
  revert v. induction n as [|n IH]; intros v; cbn [le_bytes Nat.add app].
  - by rewrite Z.div_1_r.
  - rewrite IH, Nat2Z.inj_succ, Z.pow_succ_r, Z.div_div by lia. done.
Qed.
Lemma bswap64_rev v : 0 <= v < 2 ^ 64 → le_bytes 8 (val_bswap64 v) = rev (le_bytes 8 v).
Proof.
  intros Hv. unfold val_bswap64.
  change 0xFFFFFFFF with (2 ^ 32 - 1). rewrite land_mask, shiftr_div by lia.
  rewrite (u32_small (v mod 2 ^ 32)) by (apply Z.mod_pos_bound; lia).
  assert (Hhi : 0 <= v / 2 ^ 32 < 2 ^ 32).
  { split; [apply Z.div_pos; lia|]. apply Z.div_lt_upper_bound; lia. }
  rewrite (u32_small (v / 2 ^ 32)) by done.
  pose proof (bswap32_range (v / 2 ^ 32) Hhi) as Bh.
  pose proof (bswap32_range (v mod 2 ^ 32) ltac:(apply Z.mod_pos_bound; lia)) as Bl.
  rewrite u64_small by (rewrite Z.shiftl_mul_pow2 by lia; lia).
  rewrite Z.lor_comm, lor_shiftl_add by lia.
  change 8%nat with (4 + 4)%nat. rewrite !le_bytes_app, rev_app_distr.
  change (256 ^ Z.of_nat 4) with (2 ^ 32).
  rewrite Z.div_add, (Z.div_small (val_bswap32 _)), Z.add_0_l by lia. f_equal.
  - rewrite <- bswap32_rev by done. rewrite <- le_bytes_mod. symmetry.
    rewrite <- le_bytes_mod. symmetry. change (256 ^ Z.of_nat 4) with (2 ^ 32).
    by rewrite Z.mod_add by lia.
  - rewrite bswap32_rev by (apply Z.mod_pos_bound; lia).
    by rewrite (le_bytes_mod 4 v : le_bytes 4 (v mod 2 ^ 32) = _).
Qed.

(** On every host and in every build of [val_byte_order.h] (little endian, big
    endian, endianness found at run time) the [VAL_PUT_LE*] macros store the same
    little-endian bytes, the [VAL_GET_LE*] macros read them back, and storing
    [val_htole*(v)] natively gives those same bytes: the wire format does not
    depend on the machine. *)
Theorem byte_order_portable h v rest : 
  (val_put_le16_runtime h v = le_bytes 2 v ∧ val_get_le16_runtime h (le_bytes 2 v ++ rest) = u16 v) ∧
  (val_put_le32_runtime h v = le_bytes 4 v ∧ val_get_le32_runtime h (le_bytes 4 v ++ rest) = u32 v) ∧
  (val_put_le64_runtime h v = le_bytes 8 v ∧ val_get_le64_runtime h (le_bytes 8 v ++ rest) = u64 v) ∧
  store_native h 2 (val_htole16 h (u16 v)) = le_bytes 2 v ∧
  store_native h 4 (val_htole32 h (u32 v)) = le_bytes 4 v ∧
  store_native h 8 (val_htole64 h (u64 v)) = le_bytes 8 v.
Proof.
  assert (Hm : ∀ n w, 2 ^ w = 256 ^ Z.of_nat n → le_bytes n (v mod 2 ^ w) = le_bytes n v).
  { intros n w ->. apply le_bytes_mod. }
  destruct h; unfold val_put_le16_runtime, val_get_le16_runtime, val_put_le32_runtime,
    val_get_le32_runtime, val_put_le64_runtime, val_get_le64_runtime, val_htole16,
    val_htole32, val_htole64, store_native, load_native, val_runtime_is_little_endian.
  - change (zget (store_native LittleEndian 2 255) 0 =? 255) with true. cbv iota.
    unfold u16, u32, u64. rewrite !Hm by done.
    rewrite !ztake_app_exact by (unfold zlen; by rewrite length_le_bytes).
    rewrite !le_val_bytes. done.
  - change (zget (store_native BigEndian 2 255) 0 =? 255) with false. cbv iota.
    rewrite <- !put16_spec, <- !put32_spec, <- !put64_spec, get_put16, get_put32, get_put64.
    rewrite !put16_spec, !put32_spec, !put64_spec.
    rewrite bswap16_rev, bswap32_rev, bswap64_rev, !rev_involutive by width_lia.
    unfold u16, u32, u64. by rewrite !Hm by done.
Qed.
