(* ===== verification/Wire.v ===== *)
(** Wire formats ([include/val_wire.h], [src/val_wire.c], packet types and payload
    structs of [include/val_protocol.h]).

    Each [val_serialize_x] gives the bytes it writes at [wire_data], each
    [val_deserialize_x] reads the buffer it is handed.  [WireCodec] is the contract
    a payload format keeps with its users: a fixed size, byte-valued output, and
    that parsing undoes printing (on a buffer that may hold more). *)
From S2P Require Import Prelude ByteOrder.

(** ** Constants *)

Definition VAL_MAGIC : Z := 0x56414C00.
Definition VAL_VERSION_MAJOR : Z := 0.
Definition VAL_VERSION_MINOR : Z := 7.
Definition VAL_MIN_PACKET_SIZE : Z := 512.
Definition VAL_MAX_PACKET_SIZE : Z := 2 * 1024 * 1024.
Definition VAL_MAX_FILENAME : Z := 127.
Definition VAL_MAX_PATH : Z := 127.

(** [val_packet_type_t]; the type byte of a received frame may hold any value. *)
Definition VAL_PKT_HELLO : Z := 1.
Definition VAL_PKT_SEND_META : Z := 2.
Definition VAL_PKT_RESUME_REQ : Z := 3.
Definition VAL_PKT_RESUME_RESP : Z := 4.
Definition VAL_PKT_DATA : Z := 5.
Definition VAL_PKT_DATA_ACK : Z := 6.
Definition VAL_PKT_VERIFY : Z := 7.
Definition VAL_PKT_DONE : Z := 8.
Definition VAL_PKT_ERROR : Z := 9.
Definition VAL_PKT_EOT : Z := 10.
Definition VAL_PKT_EOT_ACK : Z := 11.
Definition VAL_PKT_DONE_ACK : Z := 12.
Definition VAL_PKT_DATA_NAK : Z := 13.
Definition VAL_PKT_CANCEL : Z := 0x18.

Definition VAL_WIRE_HEADER_SIZE : Z := 8.
Definition VAL_WIRE_HANDSHAKE_SIZE : Z := 44.
Definition VAL_WIRE_META_SIZE : Z := (VAL_MAX_FILENAME + 1) + (VAL_MAX_PATH + 1) + 8.
Definition VAL_WIRE_RESUME_RESP_SIZE : Z := 24.
Definition VAL_WIRE_VERIFY_REQ_PAYLOAD_SIZE : Z := 16.
Definition VAL_WIRE_VERIFY_RESP_PAYLOAD_SIZE : Z := 8.
Definition VAL_WIRE_ERROR_PAYLOAD_SIZE : Z := 8.
Definition VAL_WIRE_TRAILER_SIZE : Z := 4.

(** DATA and ACK flag bits. *)
Definition VAL_DATA_OFFSET_PRESENT : Z := Z.shiftl 1 0.
Definition VAL_DATA_FINAL_CHUNK : Z := Z.shiftl 1 1.
Definition VAL_ACK_DONE_FILE : Z := Z.shiftl 1 1.
Definition VAL_ACK_EOT : Z := Z.shiftl 1 2.

(** [val_resume_action_t] and [val_resume_mode_t]. *)
Definition VAL_RESUME_START_ZERO : Z := 0.
Definition VAL_RESUME_START_OFFSET : Z := 1.
Definition VAL_RESUME_VERIFY_FIRST : Z := 2.
Definition VAL_RESUME_SKIP_FILE : Z := 3.
Definition VAL_RESUME_ABORT_FILE : Z := 4.

Definition VAL_RESUME_NEVER : Z := 0.
Definition VAL_RESUME_SKIP_EXISTING : Z := 1.
Definition VAL_RESUME_TAIL : Z := 2.

(** ** The contract of a payload format *)

Class WireCodec (A : Type) := {
  wire_size : Z;
  wire_wf : A → Prop;
  wire_put : A → list Z;
  wire_get : list Z → A;
  wire_put_size : ∀ a, wire_wf a → zlen (wire_put a) = wire_size;
  wire_put_bytes : ∀ a, wire_wf a → bytes_ok (wire_put a);
  wire_roundtrip : ∀ a rest, wire_wf a → wire_get (wire_put a ++ rest) = a
}.

(** The consequence the users rely on: no two well-formed payloads share a
    serialisation. *)
Lemma wire_put_inj `{WireCodec A} (a b : A) :
  wire_wf a → wire_wf b → wire_put a = wire_put b → a = b.
Proof.
  intros Ha Hb E. rewrite <- (wire_roundtrip a []), <- (wire_roundtrip b []) by done.
  by rewrite E.
Qed.

(** ** Universal frame header *)

Definition val_serialize_frame_header (type flags content_len type_data : Z) : list Z :=
  [u8 type; u8 flags] ++ VAL_PUT_LE16 content_len ++ VAL_PUT_LE32 type_data.
Definition val_deserialize_frame_header (wiredata : list Z) : Z * Z * Z * Z :=
  (zget wiredata 0, zget wiredata 1, VAL_GET_LE16 (zdrop 2 wiredata), VAL_GET_LE32 (zdrop 4 wiredata)).

Lemma frame_header_size t f c d : zlen (val_serialize_frame_header t f c d) = VAL_WIRE_HEADER_SIZE.
Proof. done. Qed.
Lemma frame_header_bytes t f c d : bytes_ok (val_serialize_frame_header t f c d).
Proof. unfold val_serialize_frame_header. solve_bytes. Qed.
Lemma frame_header_roundtrip t f c d rest :
  val_deserialize_frame_header (val_serialize_frame_header t f c d ++ rest) = (u8 t, u8 f, u16 c, u32 d).
Proof.
  unfold val_deserialize_frame_header, val_serialize_frame_header.
  cbn [app]. f_equal; [f_equal|].
  - exact (get_put16 c (VAL_PUT_LE32 d ++ rest)).
  - exact (get_put32 d rest).
Qed.
#[export] Hint Resolve frame_header_bytes : val.
#[export] Hint Rewrite frame_header_size : zlen.

(** ** HELLO *)

Record val_handshake_t := mk_handshake {
  hs_magic : Z;
  hs_version_major : Z;
  hs_version_minor : Z;
  hs_reserved : Z;
  hs_packet_size : Z;
  hs_features : Z;
  hs_required : Z;
  hs_requested : Z;
  hs_tx_max_window_packets : Z;
  hs_rx_max_window_packets : Z;
  hs_ack_stride_packets : Z;
  hs_reserved_capabilities : Z * Z * Z;
  hs_supported_features16 : Z;
  hs_required_features16 : Z;
  hs_requested_features16 : Z;
  hs_reserved2 : Z
}.

Definition val_serialize_handshake (hs : val_handshake_t) : list Z :=
  let '(c0, c1, c2) := hs_reserved_capabilities hs in
  VAL_PUT_LE32 (hs_magic hs) ++
  [u8 (hs_version_major hs); u8 (hs_version_minor hs)] ++
  VAL_PUT_LE16 (hs_reserved hs) ++
  VAL_PUT_LE32 (hs_packet_size hs) ++
  VAL_PUT_LE32 (hs_features hs) ++
  VAL_PUT_LE32 (hs_required hs) ++
  VAL_PUT_LE32 (hs_requested hs) ++
  VAL_PUT_LE16 (hs_tx_max_window_packets hs) ++
  VAL_PUT_LE16 (hs_rx_max_window_packets hs) ++
  [u8 (hs_ack_stride_packets hs); u8 c0; u8 c1; u8 c2] ++
  VAL_PUT_LE16 (hs_supported_features16 hs) ++
  VAL_PUT_LE16 (hs_required_features16 hs) ++
  VAL_PUT_LE16 (hs_requested_features16 hs) ++
  [0; 0] ++
  VAL_PUT_LE32 (hs_reserved2 hs).

Definition val_deserialize_handshake (wire_data : list Z) : val_handshake_t :=
  mk_handshake
    (VAL_GET_LE32 (zdrop 0 wire_data))
    (zget wire_data 4)
    (zget wire_data 5)
    (VAL_GET_LE16 (zdrop 6 wire_data))
    (VAL_GET_LE32 (zdrop 8 wire_data))
    (VAL_GET_LE32 (zdrop 12 wire_data))
    (VAL_GET_LE32 (zdrop 16 wire_data))
    (VAL_GET_LE32 (zdrop 20 wire_data))
    (VAL_GET_LE16 (zdrop 24 wire_data))
    (VAL_GET_LE16 (zdrop 26 wire_data))
    (zget wire_data 28)
    (zget wire_data 29, zget wire_data 30, zget wire_data 31)
    (VAL_GET_LE16 (zdrop 32 wire_data))
    (VAL_GET_LE16 (zdrop 34 wire_data))
    (VAL_GET_LE16 (zdrop 36 wire_data))
    (VAL_GET_LE32 (zdrop 40 wire_data)).

Definition w8 (z : Z) : Prop := 0 <= z < 2 ^ 8.
Definition w16 (z : Z) : Prop := 0 <= z < 2 ^ 16.
Definition w32 (z : Z) : Prop := 0 <= z < 2 ^ 32.
Definition w64 (z : Z) : Prop := 0 <= z < 2 ^ 64.

(** Every field within its C type. *)
Definition handshake_wf (h : val_handshake_t) : Prop :=
  w32 (hs_magic h) ∧ w8 (hs_version_major h) ∧ w8 (hs_version_minor h) ∧ w16 (hs_reserved h) ∧
  w32 (hs_packet_size h) ∧ w32 (hs_features h) ∧ w32 (hs_required h) ∧ w32 (hs_requested h) ∧
  w16 (hs_tx_max_window_packets h) ∧ w16 (hs_rx_max_window_packets h) ∧
  w8 (hs_ack_stride_packets h) ∧
  (let '(c0, c1, c2) := hs_reserved_capabilities h in w8 c0 ∧ w8 c1 ∧ w8 c2) ∧
  w16 (hs_supported_features16 h) ∧ w16 (hs_required_features16 h) ∧
  w16 (hs_requested_features16 h) ∧ w32 (hs_reserved2 h).

Lemma handshake_put_size h : zlen (val_serialize_handshake h) = VAL_WIRE_HANDSHAKE_SIZE.
Proof. unfold val_serialize_handshake. by destruct (hs_reserved_capabilities h) as [[? ?] ?]. Qed.
Lemma handshake_put_bytes h : bytes_ok (val_serialize_handshake h).
Proof.
  unfold val_serialize_handshake. destruct (hs_reserved_capabilities h) as [[? ?] ?].
  solve_bytes.
Qed.

(** Close the equations of a record round trip, one per field: the field's prefix
    is skipped by conversion and the integer's own round trip applies. *)
Ltac codec_fields :=
  unfold w8, w16, w32, w64 in *;
  repeat match goal with
  | |- VAL_GET_LE64 _ = ?v => transitivity (u64 v); [exact (get_put64 v _) | apply u64_small; lia]
  | |- VAL_GET_LE32 _ = ?v => transitivity (u32 v); [exact (get_put32 v _) | apply u32_small; lia]
  | |- VAL_GET_LE16 _ = ?v => transitivity (u16 v); [exact (get_put16 v _) | apply u16_small; lia]
  | |- zget _ _ = ?v => transitivity (u8 v); [reflexivity | apply u8_small; lia]
  | |- (_, _) = (_, _) => f_equal
  end.

Lemma handshake_roundtrip h rest : handshake_wf h →
  val_deserialize_handshake (val_serialize_handshake h ++ rest) = h.
Proof.
  intros (?&?&?&?&?&?&?&?&?&?&?&Hc&?&?&?&?).
  destruct h as [mg vj vn rs ps ft rq rd tx rx st [[c0 c1] c2] s16 r16 q16 r2]; cbn in *.
  destruct Hc as (?&?&?).
  unfold val_deserialize_handshake, val_serialize_handshake.
  cbn -[VAL_GET_LE16 VAL_GET_LE32 zdrop zget]. f_equal; codec_fields.
Qed.
#[export] Instance handshake_codec : WireCodec val_handshake_t := {|
  wire_size := VAL_WIRE_HANDSHAKE_SIZE;
  wire_wf := handshake_wf;
  wire_put := val_serialize_handshake;
  wire_get := val_deserialize_handshake;
  wire_put_size := λ a _, handshake_put_size a;
  wire_put_bytes := λ a _, handshake_put_bytes a;
  wire_roundtrip := handshake_roundtrip
|}.

(** ** SEND_META *)

(** [filename] and [sender_path] are the whole [char[128]] arrays. *)
Record val_meta_payload_t := mk_meta {
  meta_filename : list Z;
  meta_sender_path : list Z;
  meta_file_size : Z
}.

Definition val_serialize_meta (m : val_meta_payload_t) : list Z :=
  ztake (VAL_MAX_FILENAME + 1) (meta_filename m) ++
  ztake (VAL_MAX_PATH + 1) (meta_sender_path m) ++
  VAL_PUT_LE64 (meta_file_size m).
Definition val_deserialize_meta (wire_data : list Z) : val_meta_payload_t :=
  mk_meta
    (zslice wire_data 0 (VAL_MAX_FILENAME + 1))
    (zslice wire_data (VAL_MAX_FILENAME + 1) (VAL_MAX_PATH + 1))
    (VAL_GET_LE64 (zdrop ((VAL_MAX_FILENAME + 1) + (VAL_MAX_PATH + 1)) wire_data)).

Definition meta_wf (m : val_meta_payload_t) : Prop :=
  zlen (meta_filename m) = VAL_MAX_FILENAME + 1 ∧ bytes_ok (meta_filename m) ∧
  zlen (meta_sender_path m) = VAL_MAX_PATH + 1 ∧ bytes_ok (meta_sender_path m) ∧
  w64 (meta_file_size m).

Lemma meta_put_size m : meta_wf m → zlen (val_serialize_meta m) = VAL_WIRE_META_SIZE.
Proof.
  intros (?&?&?&?&?). unfold val_serialize_meta.
  rewrite !ztake_all by lia. autorewrite with zlen. unfold VAL_WIRE_META_SIZE. lia.
Qed.
Lemma meta_put_bytes m : meta_wf m → bytes_ok (val_serialize_meta m).
Proof. intros (?&?&?&?&?). unfold val_serialize_meta. solve_bytes. Qed.
Lemma meta_roundtrip m rest : meta_wf m →
  val_deserialize_meta (val_serialize_meta m ++ rest) = m.
Proof.
  intros (Hf&?&Hp&?&Hs). destruct m as [fn sp sz]; cbn [meta_filename meta_sender_path meta_file_size] in *.
  unfold val_deserialize_meta, val_serialize_meta, zslice, VAL_MAX_FILENAME, VAL_MAX_PATH in *.
  cbn [meta_filename meta_sender_path meta_file_size].
  rewrite (ztake_all _ fn), (ztake_all _ sp), <- !app_assoc by lia. f_equal.
  - rewrite zdrop_0. apply ztake_app_exact. done.
  - rewrite zdrop_app_exact by done. apply ztake_app_exact. done.
  - rewrite (app_assoc fn sp), zdrop_app_exact by (autorewrite with zlen; lia).
    rewrite get_put64. by apply u64_small.
Qed.
#[export] Instance meta_codec : WireCodec val_meta_payload_t := {|
  wire_size := VAL_WIRE_META_SIZE;
  wire_wf := meta_wf;
  wire_put := val_serialize_meta;
  wire_get := val_deserialize_meta;
  wire_put_size := meta_put_size;
  wire_put_bytes := meta_put_bytes;
  wire_roundtrip := meta_roundtrip
|}.

(** ** RESUME_RESP *)

Record val_resume_resp_t := mk_resume_resp {
  rr_action : Z;
  rr_resume_offset : Z;
  rr_verify_crc : Z;
  rr_verify_length : Z
}.
#[export] Instance resume_resp_eq_dec : EqDecision val_resume_resp_t.
Proof. solve_decision. Defined.

Definition val_serialize_resume_resp (resp : val_resume_resp_t) : list Z :=
  VAL_PUT_LE32 (rr_action resp) ++ VAL_PUT_LE64 (rr_resume_offset resp) ++
  VAL_PUT_LE32 (rr_verify_crc resp) ++ VAL_PUT_LE64 (rr_verify_length resp).
Definition val_deserialize_resume_resp (wire_data : list Z) : val_resume_resp_t :=
  mk_resume_resp
    (VAL_GET_LE32 (zdrop 0 wire_data)) (VAL_GET_LE64 (zdrop 4 wire_data))
    (VAL_GET_LE32 (zdrop 12 wire_data)) (VAL_GET_LE64 (zdrop 16 wire_data)).

Definition resume_resp_wf (r : val_resume_resp_t) : Prop :=
  w32 (rr_action r) ∧ w64 (rr_resume_offset r) ∧ w32 (rr_verify_crc r) ∧ w64 (rr_verify_length r).
Lemma resume_resp_put_size r : zlen (val_serialize_resume_resp r) = VAL_WIRE_RESUME_RESP_SIZE.
Proof. done. Qed.
Lemma resume_resp_put_bytes r : bytes_ok (val_serialize_resume_resp r).
Proof. unfold val_serialize_resume_resp. solve_bytes. Qed.
Lemma resume_resp_roundtrip r rest : resume_resp_wf r →
  val_deserialize_resume_resp (val_serialize_resume_resp r ++ rest) = r.
Proof.
  intros (?&?&?&?). destruct r; cbn in *.
  unfold val_deserialize_resume_resp, val_serialize_resume_resp.
  cbn -[VAL_GET_LE64 VAL_GET_LE32 zdrop]. f_equal; codec_fields.
Qed.
#[export] Instance resume_resp_codec : WireCodec val_resume_resp_t := {|
  wire_size := VAL_WIRE_RESUME_RESP_SIZE;
  wire_wf := resume_resp_wf;
  wire_put := val_serialize_resume_resp;
  wire_get := val_deserialize_resume_resp;
  wire_put_size := λ a _, resume_resp_put_size a;
  wire_put_bytes := λ a _, resume_resp_put_bytes a;
  wire_roundtrip := resume_resp_roundtrip
|}.

(** ** VERIFY request and response *)

Record verify_request := mk_verify_request { vq_offset : Z; vq_crc : Z; vq_length : Z }.
Record verify_response := mk_verify_response { vp_result : Z; vp_receiver_crc : Z }.

Definition val_serialize_verify_request (q : verify_request) : list Z :=
  VAL_PUT_LE64 (vq_offset q) ++ VAL_PUT_LE32 (vq_crc q) ++ VAL_PUT_LE32 (vq_length q).
Definition val_deserialize_verify_request (wire_data : list Z) : verify_request :=
  mk_verify_request (VAL_GET_LE64 (zdrop 0 wire_data)) (VAL_GET_LE32 (zdrop 8 wire_data))
    (VAL_GET_LE32 (zdrop 12 wire_data)).
Definition val_serialize_verify_response (p : verify_response) : list Z :=
  VAL_PUT_LE32 (u32 (vp_result p)) ++ VAL_PUT_LE32 (vp_receiver_crc p).
Definition val_deserialize_verify_response (wire_data : list Z) : verify_response :=
  mk_verify_response (i32 (VAL_GET_LE32 (zdrop 0 wire_data))) (VAL_GET_LE32 (zdrop 4 wire_data)).

Definition verify_request_wf (q : verify_request) : Prop :=
  w64 (vq_offset q) ∧ w32 (vq_crc q) ∧ w32 (vq_length q).
Definition verify_response_wf (p : verify_response) : Prop :=
  - 2 ^ 31 <= vp_result p < 2 ^ 31 ∧ w32 (vp_receiver_crc p).
Lemma verify_request_put_bytes q : bytes_ok (val_serialize_verify_request q).
Proof. unfold val_serialize_verify_request. solve_bytes. Qed.
Lemma verify_request_roundtrip q rest : verify_request_wf q →
  val_deserialize_verify_request (val_serialize_verify_request q ++ rest) = q.
Proof.
  intros (?&?&?). destruct q; cbn in *.
  unfold val_deserialize_verify_request, val_serialize_verify_request.
  cbn -[VAL_GET_LE64 VAL_GET_LE32 zdrop]. f_equal; codec_fields.
Qed.
#[export] Instance verify_request_codec : WireCodec verify_request := {|
  wire_size := VAL_WIRE_VERIFY_REQ_PAYLOAD_SIZE;
  wire_wf := verify_request_wf;
  wire_put := val_serialize_verify_request;
  wire_get := val_deserialize_verify_request;
  wire_put_size := λ a _, eq_refl;
  wire_put_bytes := λ a _, verify_request_put_bytes a;
  wire_roundtrip := verify_request_roundtrip
|}.

(** A signed 32-bit status travels as its two's complement pattern. *)
Lemma get_put_i32 z rest : - 2 ^ 31 <= z < 2 ^ 31 →
  i32 (VAL_GET_LE32 (VAL_PUT_LE32 (u32 z) ++ rest)) = z.
Proof. intros. rewrite get_put32, (u32_small (u32 z)) by width_lia. by apply i32_u32. Qed.
Lemma verify_response_put_bytes p : bytes_ok (val_serialize_verify_response p).
Proof. unfold val_serialize_verify_response. solve_bytes. Qed.
Lemma verify_response_roundtrip p rest : verify_response_wf p →
  val_deserialize_verify_response (val_serialize_verify_response p ++ rest) = p.
Proof.
  intros (?&?). destruct p as [r c]; cbn in *.
  unfold val_deserialize_verify_response, val_serialize_verify_response.
  cbn -[VAL_GET_LE32 zdrop]. f_equal; [|codec_fields].
  exact (get_put_i32 r (VAL_PUT_LE32 c ++ rest) ltac:(lia)).
Qed.
#[export] Instance verify_response_codec : WireCodec verify_response := {|
  wire_size := VAL_WIRE_VERIFY_RESP_PAYLOAD_SIZE;
  wire_wf := verify_response_wf;
  wire_put := val_serialize_verify_response;
  wire_get := val_deserialize_verify_response;
  wire_put_size := λ a _, eq_refl;
  wire_put_bytes := λ a _, verify_response_put_bytes a;
  wire_roundtrip := verify_response_roundtrip
|}.

(** ** ERROR *)

Record val_error_payload_t := mk_error_payload { ep_code : Z; ep_detail : Z }.
Definition val_serialize_error_payload (p : val_error_payload_t) : list Z :=
  VAL_PUT_LE32 (u32 (ep_code p)) ++ VAL_PUT_LE32 (ep_detail p).
Definition val_deserialize_error_payload (wire_data : list Z) : val_error_payload_t :=
  mk_error_payload (i32 (VAL_GET_LE32 (zdrop 0 wire_data))) (VAL_GET_LE32 (zdrop 4 wire_data)).
Definition error_payload_wf (p : val_error_payload_t) : Prop :=
  - 2 ^ 31 <= ep_code p < 2 ^ 31 ∧ w32 (ep_detail p).
Lemma error_payload_put_bytes p : bytes_ok (val_serialize_error_payload p).
Proof. unfold val_serialize_error_payload. solve_bytes. Qed.
Lemma error_payload_roundtrip p rest : error_payload_wf p →
  val_deserialize_error_payload (val_serialize_error_payload p ++ rest) = p.
Proof.
  intros (?&?). destruct p as [r c]; cbn in *.
  unfold val_deserialize_error_payload, val_serialize_error_payload.
  cbn -[VAL_GET_LE32 zdrop]. f_equal; [|codec_fields].
  exact (get_put_i32 r (VAL_PUT_LE32 c ++ rest) ltac:(lia)).
Qed.
#[export] Instance error_payload_codec : WireCodec val_error_payload_t := {|
  wire_size := VAL_WIRE_ERROR_PAYLOAD_SIZE;
  wire_wf := error_payload_wf;
  wire_put := val_serialize_error_payload;
  wire_get := val_deserialize_error_payload;
  wire_put_size := λ a _, eq_refl;
  wire_put_bytes := λ a _, error_payload_put_bytes a;
  wire_roundtrip := error_payload_roundtrip
|}.
#[export] Hint Resolve handshake_put_bytes resume_resp_put_bytes verify_request_put_bytes
  verify_response_put_bytes error_payload_put_bytes : val.

(** C30: every wire format parses back to what was serialised, from a buffer that may
    hold more, and has the size the protocol fixes: the 8-byte frame header with all
    its fields, HELLO, SEND_META, RESUME_RESP, the VERIFY request and response (whose
    status may be negative) and ERROR. *)
Theorem wire_formats_roundtrip t f c d h m r q p e rest :
  handshake_wf h → meta_wf m → resume_resp_wf r → verify_request_wf q → verify_response_wf p → error_payload_wf e →
  (val_deserialize_frame_header (val_serialize_frame_header t f c d ++ rest) = (u8 t, u8 f, u16 c, u32 d) ∧
   zlen (val_serialize_frame_header t f c d) = 8) ∧
  (val_deserialize_handshake (val_serialize_handshake h ++ rest) = h ∧ zlen (val_serialize_handshake h) = 44) ∧
  (val_deserialize_meta (val_serialize_meta m ++ rest) = m ∧ zlen (val_serialize_meta m) = 264) ∧
  (val_deserialize_resume_resp (val_serialize_resume_resp r ++ rest) = r ∧ zlen (val_serialize_resume_resp r) = 24) ∧
  (val_deserialize_verify_request (val_serialize_verify_request q ++ rest) = q ∧ zlen (val_serialize_verify_request q) = 16) ∧
  (val_deserialize_verify_response (val_serialize_verify_response p ++ rest) = p ∧ zlen (val_serialize_verify_response p) = 8) ∧
  (val_deserialize_error_payload (val_serialize_error_payload e ++ rest) = e ∧ zlen (val_serialize_error_payload e) = 8).
Proof.
  intros. repeat split; auto using frame_header_roundtrip, handshake_roundtrip, meta_roundtrip, resume_resp_roundtrip,
    verify_request_roundtrip, verify_response_roundtrip, error_payload_roundtrip, handshake_put_size, meta_put_size.
Qed.
Lemma wire_formats_roundtrip_witness :
  val_deserialize_verify_response (val_serialize_verify_response (mk_verify_response (-7) 99) ++ [1; 2]) = mk_verify_response (-7) 99 ∧
  zlen (val_serialize_meta (mk_meta (repeat 65 128) (repeat 0 128) (2 ^ 40))) = 264.
Proof.
  assert (Hb : ∀ x n, byte_ok x → bytes_ok (repeat x n)) by (intros x n Hx; induction n; constructor; auto).
  destruct (wire_formats_roundtrip 1 0 44 0
    (mk_handshake VAL_MAGIC 0 7 0 512 0 0 0 4 4 1 (0, 0, 0) 0 0 0 0)
    (mk_meta (repeat 65 128) (repeat 0 128) (2 ^ 40)) (mk_resume_resp 2 100 7 50) (mk_verify_request 50 7 50)
    (mk_verify_response (-7) 99) (mk_error_payload (-4) 3) [1; 2])
    as (_&_&Hm&_&_&Hp&_).
  - vm_compute. repeat split; congruence.
  - repeat split; try (apply Hb; unfold byte_ok; lia); try (vm_compute; congruence).
  - vm_compute. repeat split; congruence.
  - vm_compute. repeat split; congruence.
  - vm_compute. repeat split; congruence.
  - vm_compute. repeat split; congruence.
  - split; [exact (proj1 Hp)|exact (proj2 Hm)].
Defined.
