(* ===== verification/Errors.v ===== *)
(** Status codes, detail masks and their text ([include/val_errors.h],
    [src/val_error_strings.c]). *)
From S2P Require Import Prelude.
From stdpp Require Import strings pretty.
From Stdlib Require Import String Ascii.
#[local] Open Scope string_scope.
#[local] Open Scope list_scope.
#[local] Open Scope Z_scope.

(** ** [val_status_t]: an [int]; a peer may send any value in a VERIFY response *)

Definition VAL_OK : Z := 0.
Definition VAL_SKIPPED : Z := 1.
Definition VAL_ERR_INVALID_ARG : Z := -1.
Definition VAL_ERR_NO_MEMORY : Z := -2.
Definition VAL_ERR_IO : Z := -3.
Definition VAL_ERR_TIMEOUT : Z := -4.
Definition VAL_ERR_PROTOCOL : Z := -5.
Definition VAL_ERR_CRC : Z := -6.
Definition VAL_ERR_RESUME_VERIFY : Z := -7.
Definition VAL_ERR_INCOMPATIBLE_VERSION : Z := -8.
Definition VAL_ERR_PACKET_SIZE_MISMATCH : Z := -9.
Definition VAL_ERR_FEATURE_NEGOTIATION : Z := -10.
Definition VAL_ERR_ABORTED : Z := -11.
Definition VAL_ERR_MODE_NEGOTIATION_FAILED : Z := -12.
Definition VAL_ERR_UNSUPPORTED_TX_MODE : Z := -14.
Definition VAL_ERR_PERFORMANCE : Z := -15.

(** ** Detail masks *)

Definition VAL_ERROR_DETAIL_NET_MASK : Z := 0x000000FF.
Definition VAL_ERROR_DETAIL_CRC_MASK : Z := 0x0000FF00.
Definition VAL_ERROR_DETAIL_PROTO_MASK : Z := 0x00FF0000.
Definition VAL_ERROR_DETAIL_FS_MASK : Z := 0x0F000000.
Definition VAL_ERROR_DETAIL_CONTEXT_MASK : Z := 0xF0000000.

Definition VAL_ERROR_DETAIL_NETWORK_RESET : Z := 0x00000001.
Definition VAL_ERROR_DETAIL_TIMEOUT_ACK : Z := 0x00000002.
Definition VAL_ERROR_DETAIL_TIMEOUT_DATA : Z := 0x00000004.
Definition VAL_ERROR_DETAIL_TIMEOUT_META : Z := 0x00000008.
Definition VAL_ERROR_DETAIL_TIMEOUT_HELLO : Z := 0x00000010.
Definition VAL_ERROR_DETAIL_SEND_FAILED : Z := 0x00000020.
Definition VAL_ERROR_DETAIL_RECV_FAILED : Z := 0x00000040.
Definition VAL_ERROR_DETAIL_CONNECTION : Z := 0x00000080.

Definition VAL_ERROR_DETAIL_CRC_HEADER : Z := 0x00000100.
Definition VAL_ERROR_DETAIL_CRC_TRAILER : Z := 0x00000200.
Definition VAL_ERROR_DETAIL_CRC_RESUME : Z := 0x00000800.
Definition VAL_ERROR_DETAIL_SIZE_MISMATCH : Z := 0x00001000.
Definition VAL_ERROR_DETAIL_PACKET_CORRUPT : Z := 0x00002000.
Definition VAL_ERROR_DETAIL_SEQ_ERROR : Z := 0x00004000.
Definition VAL_ERROR_DETAIL_OFFSET_ERROR : Z := 0x00008000.

Definition VAL_ERROR_DETAIL_VERSION : Z := 0x00010000.
Definition VAL_ERROR_DETAIL_PACKET_SIZE : Z := 0x00020000.
Definition VAL_ERROR_DETAIL_FEATURE_MISSING : Z := 0x00040000.
Definition VAL_ERROR_DETAIL_INVALID_STATE : Z := 0x00080000.
Definition VAL_ERROR_DETAIL_MALFORMED_PKT : Z := 0x00100000.
Definition VAL_ERROR_DETAIL_UNKNOWN_TYPE : Z := 0x00200000.
Definition VAL_ERROR_DETAIL_PAYLOAD_SIZE : Z := 0x00400000.
Definition VAL_ERROR_DETAIL_EXCESSIVE_RETRIES : Z := 0x00800000.

Definition VAL_ERROR_DETAIL_FILE_NOT_FOUND : Z := 0x01000000.
Definition VAL_ERROR_DETAIL_FILE_LOCKED : Z := 0x02000000.
Definition VAL_ERROR_DETAIL_DISK_FULL : Z := 0x04000000.
Definition VAL_ERROR_DETAIL_PERMISSION : Z := 0x08000000.

Definition VAL_ERROR_CONTEXT_SHIFT : Z := 28.
Definition VAL_ERROR_CONTEXT_NONE : Z := 0.
Definition VAL_ERROR_CONTEXT_MISSING_FEATURES : Z := 1.
Definition VAL_ERROR_CONTEXT_MISSING_HOOKS : Z := 2.

Definition VAL_ERROR_CONTEXT (detail : Z) : Z :=
  Z.shiftr (Z.land (u32 detail) VAL_ERROR_DETAIL_CONTEXT_MASK) VAL_ERROR_CONTEXT_SHIFT.
Definition VAL_SET_MISSING_FEATURE (mask : Z) : Z :=
  Z.lor (u32 (Z.shiftl VAL_ERROR_CONTEXT_MISSING_FEATURES VAL_ERROR_CONTEXT_SHIFT))
    (Z.lor (Z.land mask 0x00FFFFFF) VAL_ERROR_DETAIL_FEATURE_MISSING).
Definition VAL_GET_MISSING_FEATURE (detail : Z) : Z :=
  if VAL_ERROR_CONTEXT detail =? VAL_ERROR_CONTEXT_MISSING_FEATURES
  then Z.land (Z.land detail 0x00FFFFFF) (u32 (Z.lnot VAL_ERROR_DETAIL_PROTO_MASK))
  else 0.
Definition VAL_SET_MISSING_HOOKS : Z :=
  Z.lor (u32 (Z.shiftl VAL_ERROR_CONTEXT_MISSING_HOOKS VAL_ERROR_CONTEXT_SHIFT))
    VAL_ERROR_DETAIL_INVALID_STATE.
Definition VAL_ERROR_IS_MISSING_HOOKS (detail : Z) : bool :=
  VAL_ERROR_CONTEXT detail =? VAL_ERROR_CONTEXT_MISSING_HOOKS.

Definition VAL_ERROR_IS_NETWORK_RELATED (detail : Z) : bool :=
  negb (Z.land detail VAL_ERROR_DETAIL_NET_MASK =? 0).
Definition VAL_ERROR_IS_CRC_RELATED (detail : Z) : bool :=
  negb (Z.land detail VAL_ERROR_DETAIL_CRC_MASK =? 0).
Definition VAL_ERROR_IS_PROTOCOL_RELATED (detail : Z) : bool :=
  negb (Z.land detail VAL_ERROR_DETAIL_PROTO_MASK =? 0).
Definition VAL_ERROR_IS_FILESYSTEM_RELATED (detail : Z) : bool :=
  negb (Z.land detail VAL_ERROR_DETAIL_FS_MASK =? 0).

(** ** Text *)


Definition val_status_to_string (status : Z) : string :=
  if status =? VAL_OK then "OK"
  else if status =? VAL_SKIPPED then "SKIPPED"
  else if status =? VAL_ERR_INVALID_ARG then "INVALID_ARG"
  else if status =? VAL_ERR_NO_MEMORY then "NO_MEMORY"
  else if status =? VAL_ERR_IO then "IO_ERROR"
  else if status =? VAL_ERR_TIMEOUT then "TIMEOUT"
  else if status =? VAL_ERR_PROTOCOL then "PROTOCOL_ERROR"
  else if status =? VAL_ERR_CRC then "CRC_ERROR"
  else if status =? VAL_ERR_RESUME_VERIFY then "RESUME_VERIFY_FAIL"
  else if status =? VAL_ERR_INCOMPATIBLE_VERSION then "INCOMPATIBLE_VERSION"
  else if status =? VAL_ERR_PACKET_SIZE_MISMATCH then "PACKET_SIZE_MISMATCH"
  else if status =? VAL_ERR_FEATURE_NEGOTIATION then "FEATURE_NEGOTIATION"
  else if status =? VAL_ERR_ABORTED then "ABORTED"
  else if status =? VAL_ERR_MODE_NEGOTIATION_FAILED then "MODE_NEGOTIATION_FAILED"
  else if status =? VAL_ERR_UNSUPPORTED_TX_MODE then "UNSUPPORTED_TX_MODE"
  else if status =? VAL_ERR_PERFORMANCE then "PERFORMANCE_UNACCEPTABLE"
  else "UNKNOWN".

(** [append_flag]: the state is the buffer's text and [*len], which keeps growing
    by the untruncated length that [snprintf] returns. *)
Definition append_flag (cap : nat) (st : string * nat) (s : string) : string * nat :=
  let '(buf, len) := st in
  if (cap <=? len)%nat then st
  else
    let txt := (if (len =? 0)%nat then "" else "|") +:+ s in
    (substring 0 len buf +:+ substring 0 (cap - len - 1) txt, (len + String.length txt)%nat).

(** The tests of [val_error_detail_to_string], in order. *)
Definition detail_flags : list (Z * string) := [
  (VAL_ERROR_DETAIL_NETWORK_RESET, "NETWORK_RESET");
  (VAL_ERROR_DETAIL_TIMEOUT_ACK, "TIMEOUT_ACK");
  (VAL_ERROR_DETAIL_TIMEOUT_DATA, "TIMEOUT_DATA");
  (VAL_ERROR_DETAIL_TIMEOUT_META, "TIMEOUT_META");
  (VAL_ERROR_DETAIL_TIMEOUT_HELLO, "TIMEOUT_HELLO");
  (VAL_ERROR_DETAIL_SEND_FAILED, "SEND_FAILED");
  (VAL_ERROR_DETAIL_RECV_FAILED, "RECV_FAILED");
  (VAL_ERROR_DETAIL_CONNECTION, "CONNECTION");
  (VAL_ERROR_DETAIL_CRC_HEADER, "CRC_HEADER");
  (VAL_ERROR_DETAIL_CRC_TRAILER, "CRC_TRAILER");
  (VAL_ERROR_DETAIL_CRC_RESUME, "CRC_RESUME");
  (VAL_ERROR_DETAIL_SIZE_MISMATCH, "SIZE_MISMATCH");
  (VAL_ERROR_DETAIL_PACKET_CORRUPT, "PACKET_CORRUPT");
  (VAL_ERROR_DETAIL_SEQ_ERROR, "SEQ_ERROR");
  (VAL_ERROR_DETAIL_OFFSET_ERROR, "OFFSET_ERROR");
  (VAL_ERROR_DETAIL_VERSION, "VERSION");
  (VAL_ERROR_DETAIL_PACKET_SIZE, "PACKET_SIZE");
  (VAL_ERROR_DETAIL_FEATURE_MISSING, "FEATURE_MISSING");
  (VAL_ERROR_DETAIL_INVALID_STATE, "INVALID_STATE");
  (VAL_ERROR_DETAIL_MALFORMED_PKT, "MALFORMED_PKT");
  (VAL_ERROR_DETAIL_UNKNOWN_TYPE, "UNKNOWN_TYPE");
  (VAL_ERROR_DETAIL_PAYLOAD_SIZE, "PAYLOAD_SIZE");
  (VAL_ERROR_DETAIL_EXCESSIVE_RETRIES, "EXCESSIVE_RETRIES");
  (VAL_ERROR_DETAIL_FILE_NOT_FOUND, "FILE_NOT_FOUND");
  (VAL_ERROR_DETAIL_FILE_LOCKED, "FILE_LOCKED");
  (VAL_ERROR_DETAIL_DISK_FULL, "DISK_FULL");
  (VAL_ERROR_DETAIL_PERMISSION, "PERMISSION") ].

(** [%06X]: at least six upper-case hexadecimal digits. *)
Definition hex_digit (d : Z) : ascii :=
  ascii_of_nat (Z.to_nat (if d <? 10 then 48 + d else 55 + d)).
Fixpoint hex_fixed (n : nat) (v : Z) (acc : string) : string :=
  match n with
  | O => acc
  | S n' => hex_fixed n' (v / 16) (String (hex_digit (v mod 16)) acc)
  end.
Definition format_06X (v : Z) : string :=
  hex_fixed (Nat.max 6 (Z.to_nat (Z.log2 (Z.max 1 v) / 4 + 1))) v "".

Definition append_flags (d : Z) (l : list (Z * string)) (st : string * nat) : string * nat :=
  fold_left
    (λ st '(m, s), if negb (Z.land d m =? 0) then append_flag 256 st s else st) l st.

Definition val_error_detail_to_string (d : Z) : string :=
  let st := append_flags d detail_flags ("", O) in
  let st := if VAL_ERROR_CONTEXT d =? VAL_ERROR_CONTEXT_MISSING_FEATURES
            then append_flag 256 st
                   (substring 0 63 ("MISSING_FEATURES=0x" +:+ format_06X (VAL_GET_MISSING_FEATURE d)))
            else st in
  if (snd st =? 0)%nat then "NONE" else fst st.

Record val_error_info_t := mk_error_info {
  ei_category : string; ei_description : string; ei_suggestion : string }.

Definition val_analyze_error (code detail : Z) : val_error_info_t :=
  if VAL_ERROR_IS_NETWORK_RELATED detail then
    mk_error_info "NETWORK" (val_status_to_string code)
      "Verify connectivity, timeouts, and transport reliability"
  else if VAL_ERROR_IS_CRC_RELATED detail then
    mk_error_info "INTEGRITY" (val_status_to_string code)
      "Investigate data corruption or resume window size"
  else if VAL_ERROR_IS_PROTOCOL_RELATED detail then
    mk_error_info "PROTOCOL" (val_status_to_string code)
      (if VAL_ERROR_CONTEXT detail =? VAL_ERROR_CONTEXT_MISSING_FEATURES
       then "Adjust required/requested features or upgrade peer"
       else "Validate version/packet size and payload formatting")
  else if VAL_ERROR_IS_FILESYSTEM_RELATED detail then
    mk_error_info "FILESYSTEM" (val_status_to_string code)
      "Check file path, permissions, and disk space"
  else mk_error_info "GENERAL" (val_status_to_string code) "Check logs and detail mask".

(** [val_format_error_report]: [None] when there is no room for the NUL. *)
Definition val_format_error_report (code detail : Z) (buffer_size : nat) : option string :=
  match buffer_size with
  | O => None
  | S n => Some (substring 0 n (val_status_to_string code ++ " (" ++ pretty code ++ "); "
                                ++ val_error_detail_to_string detail ++ " (0x" ++ hex_fixed 8 detail "" ++ ")"))
  end.

(** ** Properties *)

Lemma string_length_append a b : (String.length (a +:+ b) = String.length a + String.length b)%nat.
Proof. induction a as [|c a IH]; [done|]. exact (f_equal S IH). Qed.
Lemma substring_length n : ∀ s, (String.length (substring 0 n s) <= n)%nat.
Proof. induction n as [|n IH]; intros [|c s]; cbn; try lia. specialize (IH s). lia. Qed.

(** [append_flag] keeps the text inside the buffer, with room for the NUL. *)
Lemma append_flag_bound cap st s : (0 < cap)%nat →
  (String.length (fst st) < cap)%nat → (String.length (fst (append_flag cap st s)) < cap)%nat.
Proof.
  intros Hc. destruct st as [buf len]; unfold append_flag.
  destruct (Nat.leb_spec cap len); [done|].
  cbn [fst]. intros _. rewrite string_length_append.
  pose proof (substring_length len buf).
  pose proof (substring_length (cap - len - 1) ((if (len =? 0)%nat then "" else "|") +:+ s)). lia.
Qed.
Lemma fold_flags_bound d l st : (String.length (fst st) < 256)%nat →
  (String.length (fst (append_flags d l st)) < 256)%nat.
Proof.
  revert st. induction l as [|[m s] l IH]; intros st H; [done|].
  cbn [append_flags fold_left]. fold (append_flags d l).
  apply IH. destruct (negb _); [apply append_flag_bound; [lia|done]|done].
Qed.

(** Text that is there to be shown: a non-empty length makes a non-empty text. *)
Lemma append_flag_nonempty cap st s : (1 < cap)%nat → s ≠ "" →
  (snd st ≠ O → fst st ≠ "") → fst (append_flag cap st s) ≠ "" ∧ snd (append_flag cap st s) ≠ O
  ∨ append_flag cap st s = st.
Proof.
  intros Hc Hs Hst. destruct st as [buf len]; unfold append_flag; cbn [fst snd] in *.
  destruct (Nat.leb_spec cap len); [by right|left].
  destruct s as [|c s]; [done|].
  destruct len as [|len]; cbn [Nat.eqb].
  - replace (cap - 0 - 1)%nat with (S (cap - 2)) by lia.
    split; [|discriminate]. destruct buf; done.
  - split; [|discriminate]. destruct buf as [|b buf]; [by destruct Hst|done].
Qed.
Lemma fold_flags_nonempty d l st : (∀ m s, In (m, s) l → s ≠ "") →
  (snd st ≠ O → fst st ≠ "") →
  let st' := append_flags d l st in
  snd st' ≠ O → fst st' ≠ "".
Proof.
  revert st. induction l as [|[m s] l IH]; intros st Hl H; cbn [fold_left]; [done|].
  apply IH; [intros; eapply Hl; by right|].
  destruct (negb _); [|done].
  destruct (append_flag_nonempty 256 st s) as [[? ?]| ->]; [lia|eapply Hl; by left|done|done|done].
Qed.

Lemma error_report_fits code detail n :
  match val_format_error_report code detail n with
  | Some s => (String.length s < n)%nat
  | None => n = O
  end.
Proof. destruct n as [|n]; [done|]. cbn [val_format_error_report]. apply Nat.lt_succ_r, substring_length. Qed.

(** Whatever the detail mask, the text of [val_error_detail_to_string] fits its
    256-byte buffer with the terminating NUL (the list of flags is cut when it is
    too long) and is never empty. *)
Theorem detail_string_fits d :
  (0 < String.length (val_error_detail_to_string d) < 256)%nat.
Proof.
  unfold val_error_detail_to_string.
  set (st := append_flags d detail_flags _).
  assert (Hb : (String.length (fst st) < 256)%nat) by (apply fold_flags_bound; cbn; lia).
  assert (Hn : snd st ≠ O → fst st ≠ "").
  { apply fold_flags_nonempty; [|done]. intros m s Hin Hs. subst s.
    cbn in Hin. repeat destruct Hin as [[=]|Hin]; done. }
  set (mf := substring 0 63 _).
  assert (Hm : mf ≠ "") by done.
  set (st' := if _ =? _ then _ else st).
  assert (Hb' : (String.length (fst st') < 256)%nat).
  { unfold st'. destruct (_ =? _); [apply append_flag_bound; [lia|done]|done]. }
  assert (Hn' : snd st' ≠ O → fst st' ≠ "").
  { unfold st'. destruct (_ =? _); [|done].
    destruct (append_flag_nonempty 256 st mf) as [[? ?]| ->]; [lia|done|done|done|done]. }
  clearbody st'. clear - Hb' Hn'.
  destruct (Nat.eqb_spec (snd st') 0) as [_|Hs]; [cbn; lia|].
  destruct (fst st') eqn:E; [by destruct (Hn' Hs)|cbn in *; lia].
Qed.

Lemma missing_feature_cut m : 0 <= m →
  VAL_GET_MISSING_FEATURE (VAL_SET_MISSING_FEATURE m) = Z.land m 0xFFFF.
Proof.
  intros Hm. unfold VAL_GET_MISSING_FEATURE.
  assert (HC : VAL_ERROR_CONTEXT (VAL_SET_MISSING_FEATURE m) = 1).
  { unfold VAL_ERROR_CONTEXT, VAL_SET_MISSING_FEATURE, u32, VAL_ERROR_CONTEXT_SHIFT,
      VAL_ERROR_CONTEXT_MISSING_FEATURES.
    change (Z.shiftl 1 28 mod 2 ^ 32) with 0x10000000.
    rewrite Z.shiftr_land, <- (Z.land_ones _ 32) by lia.
    change (Z.shiftr VAL_ERROR_DETAIL_CONTEXT_MASK 28) with (Z.ones 4).
    rewrite Z.shiftr_land. change (Z.shiftr (Z.ones 32) 28) with (Z.ones 4).
    rewrite <- Z.land_assoc, Z.land_diag.
    rewrite !Z.shiftr_lor, Z.shiftr_land.
    change (Z.shiftr 0xFFFFFF 28) with 0. rewrite Z.land_0_r.
    reflexivity. }
  rewrite HC. cbv beta iota delta [VAL_ERROR_CONTEXT_MISSING_FEATURES Z.eqb Pos.eqb].
  unfold VAL_SET_MISSING_FEATURE.
  change (u32 (Z.lnot VAL_ERROR_DETAIL_PROTO_MASK)) with 0xFF00FFFF.
  change (u32 _) with 0x10000000.
  rewrite <- Z.land_assoc. change (Z.land 0xFFFFFF 0xFF00FFFF) with 0xFFFF.
  rewrite !Z.land_lor_distr_l, <- Z.land_assoc.
  change (Z.land 0xFFFFFF 0xFFFF) with 0xFFFF. change (Z.land 0x10000000 0xFFFF) with 0.
  change (Z.land VAL_ERROR_DETAIL_FEATURE_MISSING 0xFFFF) with 0.
  by rewrite Z.lor_0_l, Z.lor_0_r.
Qed.

(** A missing-feature detail keeps only the low 16 of the 24 feature bits the
    header says it carries: decoding an encoded mask gives the mask back exactly
    when it is below 2^16. *)
Theorem missing_feature_bits_lost m : 0 <= m < 2 ^ 24 →
  VAL_GET_MISSING_FEATURE (VAL_SET_MISSING_FEATURE m) = m mod 2 ^ 16 ∧
  (VAL_GET_MISSING_FEATURE (VAL_SET_MISSING_FEATURE m) = m ↔ m < 2 ^ 16).
Proof.
  intros Hm. rewrite missing_feature_cut by lia.
  change 0xFFFF with (2 ^ 16 - 1). rewrite land_mask by lia. split; [done|].
  split; intros H.
  - rewrite <- H. apply Z.mod_pos_bound. lia.
  - apply Z.mod_small. lia.
Qed.
Lemma missing_feature_bits_lost_witness :
  0 <= 0x10003 < 2 ^ 24 ∧ VAL_GET_MISSING_FEATURE (VAL_SET_MISSING_FEATURE 0x10003) = 3.
Proof.
  split; [lia|]. rewrite (proj1 (missing_feature_bits_lost 0x10003 ltac:(lia))). reflexivity.
Defined.
