(* ===== verification/Crc.v ===== *)
(** CRC-32 ([src/val_core.c]: [crc32_init_table], [val_crc32] and the incremental
    state API), the polynomial division it is shown to compute, and what the checksum
    detects. *)
From S2P Require Import Prelude ByteOrder.

(** ** The code *)

Definition crc32_poly : Z := 0xEDB88320.

(** One turn of the inner loop of [crc32_init_table]. *)
Definition crc32_bit (c : Z) : Z :=
  if Z.land c 1 =? 0 then Z.shiftr c 1 else Z.lxor crc32_poly (Z.shiftr c 1).

Definition crc32_init_table : list Z :=
  map (λ i : nat, Nat.iter 8 crc32_bit (Z.of_nat i)) (seq 0 256).

Definition crc32_table : list Z := Eval vm_compute in crc32_init_table.

Definition crc32_step (c p : Z) : Z :=
  Z.lxor (zget crc32_table (Z.land (Z.lxor c p) 0xFF)) (Z.shiftr c 8).

Definition val_crc32_init_state : Z := 0xFFFFFFFF.
Definition val_crc32_update_state (state : Z) (data : list Z) : Z :=
  fold_left crc32_step data state.
Definition val_crc32_finalize_state (state : Z) : Z := Z.lxor state 0xFFFFFFFF.
Definition val_crc32 (data : list Z) : Z :=
  Z.lxor (fold_left crc32_step data 0xFFFFFFFF) 0xFFFFFFFF.

(** The check value of the CRC-32/ISO-HDLC catalogue entry: "123456789". *)
Example crc32_check_value : val_crc32 [49; 50; 51; 52; 53; 54; 55; 56; 57] = 0xCBF43926.
Proof. vm_compute. reflexivity. Qed.

(** ** The register without the table *)

Definition crc32_ref_byte (c p : Z) : Z := Nat.iter 8 crc32_bit (Z.lxor c p).

Lemma crc32_bit_alt c :
  crc32_bit c = Z.lxor (Z.shiftr c 1) (if Z.testbit c 0 then crc32_poly else 0).
Proof.
  unfold crc32_bit. change 1 with (Z.ones 1) at 1. rewrite Z.land_ones by lia.
  rewrite Z.bit0_odd. pose proof (Zmod_odd c) as E. change (2 ^ 1) with 2. rewrite E.
  destruct (Z.odd c); cbn [Z.eqb]; [apply Z.lxor_comm|by rewrite Z.lxor_0_r].
Qed.
Lemma crc32_bit_lxor a b : crc32_bit (Z.lxor a b) = Z.lxor (crc32_bit a) (crc32_bit b).
Proof.
  rewrite !crc32_bit_alt, Z.shiftr_lxor, Z.lxor_spec.
  apply Z.bits_inj'. intros i Hi. rewrite !Z.lxor_spec.
  destruct (Z.testbit a 0), (Z.testbit b 0); cbn [xorb]; rewrite ?Z.bits_0;
    repeat match goal with |- context [Z.testbit ?x i] => destruct (Z.testbit x i) end; done.
Qed.
Lemma crc32_iter_lxor n a b :
  Nat.iter n crc32_bit (Z.lxor a b) = Z.lxor (Nat.iter n crc32_bit a) (Nat.iter n crc32_bit b).
Proof. induction n as [|n IH]; [done|]. by rewrite !Nat.iter_succ, IH, crc32_bit_lxor. Qed.
Lemma crc32_iter_0 n : Nat.iter n crc32_bit 0 = 0.
Proof. induction n as [|n IH]; [done|]. by rewrite Nat.iter_succ, IH. Qed.
(** Shifting out zero bits never brings the polynomial in. *)
Lemma crc32_iter_shiftl n h : Nat.iter n crc32_bit (Z.shiftl h (Z.of_nat n)) = h.
Proof.
  induction n as [|n IH]; [apply Z.shiftl_0_r|].
  rewrite Nat.iter_succ_r. replace (crc32_bit (Z.shiftl h (Z.of_nat (S n))))
    with (Z.shiftl h (Z.of_nat n)); [done|].
  rewrite crc32_bit_alt, Z.shiftl_spec_low, Z.lxor_0_r, Z.shiftr_shiftl_l by lia.
  f_equal. lia.
Qed.

Lemma lxor_range n a b : 0 <= n → 0 <= a < 2 ^ n → 0 <= b < 2 ^ n → 0 <= Z.lxor a b < 2 ^ n.
Proof.
  intros Hn Ha Hb. assert (0 <= Z.lxor a b) by (apply Z.lxor_nonneg; lia).
  split; [done|]. destruct (decide (Z.lxor a b = 0)) as [->|].
  { apply Z.pow_pos_nonneg; lia. }
  apply Z.log2_lt_pow2; [lia|].
  apply Z.le_lt_trans with (Z.max (Z.log2 a) (Z.log2 b)); [apply Z.log2_lxor; lia|].
  destruct (decide (n = 0)) as [->|]; [exfalso; assert (a = 0 ∧ b = 0) as [-> ->] by (cbn in *; lia); done|].
  apply Z.max_lub_lt; [destruct (decide (a = 0)) as [->|]|destruct (decide (b = 0)) as [->|]];
    try (cbn; lia); apply Z.log2_lt_pow2; lia.
Qed.
Lemma crc32_bit_range c : 0 <= c < 2 ^ 32 → 0 <= crc32_bit c < 2 ^ 32.
Proof.
  intros Hc. rewrite crc32_bit_alt. apply lxor_range; [lia| |by destruct (Z.testbit c 0); vm_compute].
  rewrite shiftr_div by lia. change (2 ^ 1) with 2.
  split; [apply Z.div_pos; lia|]. apply Z.div_lt_upper_bound; lia.
Qed.
Lemma crc32_iter_range n c : 0 <= c < 2 ^ 32 → 0 <= Nat.iter n crc32_bit c < 2 ^ 32.
Proof. induction n as [|n IH]; [done|]. rewrite Nat.iter_succ. intros. by apply crc32_bit_range, IH. Qed.

(** The table is what the code's loop fills it with. *)
Lemma crc32_table_get i : 0 <= i < 256 → zget crc32_table i = Nat.iter 8 crc32_bit i.
Proof.
  intros Hi. change crc32_table with crc32_init_table. unfold zget, crc32_init_table.
  rewrite (nth_indep _ 0 (Nat.iter 8 crc32_bit (Z.of_nat 0))) by (rewrite length_map, length_seq; lia).
  rewrite (map_nth (λ i : nat, Nat.iter 8 crc32_bit (Z.of_nat i)) (seq 0 256) O).
  rewrite seq_nth by lia. f_equal. lia.
Qed.
Lemma low_byte_split x : x = Z.lxor (Z.land x 0xFF) (Z.shiftl (Z.shiftr x 8) 8).
Proof.
  change 0xFF with (Z.ones 8).
  apply Z.bits_inj'. intros i Hi. rewrite Z.lxor_spec, Z.land_spec, Z.shiftl_spec by done.
  destruct (decide (i < 8)).
  - rewrite Z.ones_spec_low, (Z.testbit_neg_r _ (i - 8)) by lia.
    by rewrite andb_true_r, xorb_false_r.
  - rewrite Z.ones_spec_high, Z.shiftr_spec by lia.
    rewrite andb_false_r, xorb_false_l. f_equal. lia.
Qed.
Lemma crc32_step_ref c p : byte_ok p → crc32_step c p = crc32_ref_byte c p.
Proof.
  intros Hp. unfold byte_ok in Hp. unfold crc32_step, crc32_ref_byte.
  rewrite (low_byte_split (Z.lxor c p)) at 2.
  rewrite crc32_iter_lxor, (crc32_iter_shiftl 8).
  rewrite crc32_table_get.
  - f_equal. rewrite Z.shiftr_lxor, (shiftr_div p), (Z.div_small p) by lia. by rewrite Z.lxor_0_r.
  - change 0xFF with (2 ^ 8 - 1). rewrite land_mask by lia. apply Z.mod_pos_bound. lia.
Qed.
Lemma crc32_update_ref s l : bytes_ok l →
  val_crc32_update_state s l = fold_left crc32_ref_byte l s.
Proof.
  intros H. revert s. induction H as [|b l Hb _ IH]; intros s; cbn; [done|].
  rewrite crc32_step_ref by done. apply IH.
Qed.
Lemma crc32_ref_byte_range c p : 0 <= c < 2 ^ 32 → byte_ok p → 0 <= crc32_ref_byte c p < 2 ^ 32.
Proof.
  intros Hc Hp. unfold byte_ok in Hp. apply crc32_iter_range, lxor_range; lia.
Qed.
Lemma crc32_update_range s l : 0 <= s < 2 ^ 32 → bytes_ok l →
  0 <= val_crc32_update_state s l < 2 ^ 32.
Proof.
  intros Hs H. rewrite crc32_update_ref by done. revert s Hs.
  induction H as [|b l Hb _ IH]; intros s Hs; cbn; [done|].
  apply IH. by apply crc32_ref_byte_range.
Qed.
Lemma val_crc32_range l : bytes_ok l → 0 <= val_crc32 l < 2 ^ 32.
Proof.
  intros H. apply lxor_range; [lia| |lia].
  apply (crc32_update_range 0xFFFFFFFF l); [lia|done].
Qed.
(** The incremental API splits anywhere. *)
Lemma crc32_update_app s a b :
  val_crc32_update_state s (a ++ b) = val_crc32_update_state (val_crc32_update_state s a) b.
Proof. apply fold_left_app. Qed.
Lemma crc32_state_api l :
  val_crc32_finalize_state (val_crc32_update_state val_crc32_init_state l) = val_crc32 l.
Proof. done. Qed.

Lemma crc32_updates s chunks :
  fold_left val_crc32_update_state chunks s = val_crc32_update_state s (concat chunks).
Proof.
  revert s. induction chunks as [|c chunks IH]; intros s; [done|]. cbn. rewrite IH. symmetry. apply crc32_update_app.
Qed.
Lemma lxor_ones_sub n c : 0 <= n → 0 <= c < 2 ^ n → Z.lxor c (2 ^ n - 1) = 2 ^ n - 1 - c.
Proof.
  intros Hn Hc. replace (2 ^ n - 1) with (Z.ones n) by (rewrite Z.ones_equiv; lia).
  assert (Hand : Z.land c (Z.lxor c (Z.ones n)) = 0).
  { apply Z.bits_inj'. intros i Hi. rewrite Z.land_spec, Z.lxor_spec, Z.bits_0.
    destruct (decide (i < n)).
    - rewrite Z.ones_spec_low by lia. by destruct (Z.testbit c i).
    - rewrite <- (Z.mod_small c (2 ^ n)), Z.mod_pow2_bits_high by lia. done. }
  pose proof (Z.add_nocarry_lxor _ _ Hand) as E.
  rewrite <- Z.lxor_assoc, Z.lxor_nilpotent, Z.lxor_0_l in E. lia.
Qed.

(** ** What the checksum detects *)

Lemma crc32_bit_inj a b : 0 <= a < 2 ^ 32 → 0 <= b < 2 ^ 32 →
  crc32_bit a = crc32_bit b → a = b.
Proof.
  intros Ha Hb E.
  assert (Htop : ∀ c, 0 <= c < 2 ^ 32 → Z.testbit (crc32_bit c) 31 = Z.testbit c 0).
  { intros c Hc. rewrite crc32_bit_alt, Z.lxor_spec, Z.shiftr_spec by lia.
    replace (Z.testbit c (31 + 1)) with false.
    - by destruct (Z.testbit c 0).
    - symmetry. rewrite Z.testbit_false by lia. change (31 + 1) with 32.
      rewrite Z.div_small by lia. done. }
  pose proof (Htop a Ha) as Ta. pose proof (Htop b Hb) as Tb. rewrite E, Tb in Ta.
  rewrite !crc32_bit_alt, Ta in E.
  assert (Hs : Z.shiftr a 1 = Z.shiftr b 1).
  { set (q := if Z.testbit a 0 then crc32_poly else 0) in *.
    apply (f_equal (λ x, Z.lxor x q)) in E. rewrite !Z.lxor_assoc, Z.lxor_nilpotent, !Z.lxor_0_r in E.
    exact E. }
  apply Z.bits_inj'. intros i Hi. destruct (decide (i = 0)) as [->|]; [done|].
  replace i with ((i - 1) + 1) by lia. rewrite <- !Z.shiftr_spec by lia. by rewrite Hs.
Qed.
Lemma crc32_iter_inj n a b : 0 <= a < 2 ^ 32 → 0 <= b < 2 ^ 32 →
  Nat.iter n crc32_bit a = Nat.iter n crc32_bit b → a = b.
Proof.
  intros Ha Hb. induction n as [|n IH]; [done|]. rewrite !Nat.iter_succ.
  intros E. apply IH. apply crc32_bit_inj in E; auto using crc32_iter_range.
Qed.


(** A run of bytes enters the register as one little-endian number. *)
Lemma crc32_run s l : bytes_ok l → fold_left crc32_ref_byte l s =
  Nat.iter (8 * length l) crc32_bit (Z.lxor s (le_val l)).
Proof.
  intros H. revert s. induction H as [|b l Hb _ IH]; intros s.
  - cbn. by rewrite Z.lxor_0_r.
  - cbn [fold_left length le_val]. rewrite IH.
    replace (8 * S (length l))%nat with (8 * length l + 8)%nat by lia.
    rewrite Nat.iter_add. f_equal. unfold crc32_ref_byte.
    replace (b + 256 * le_val l) with (Z.lxor b (Z.shiftl (le_val l) 8)).
    + rewrite <- (Z.lxor_assoc s).
      by rewrite (crc32_iter_lxor 8 (Z.lxor s b)), (crc32_iter_shiftl 8).
    + unfold byte_ok in Hb. rewrite <- lor_horner0 by done.
      symmetry. rewrite <- Z.lxor_lor; [done|].
      apply Z.bits_inj'. intros i Hi. rewrite Z.land_spec, Z.bits_0.
      destruct (decide (i < 8)); [by rewrite Z.shiftl_spec_low, andb_false_r by lia|].
      rewrite andb_false_iff. left. rewrite Z.testbit_false by lia.
      rewrite Z.div_small; [done|]. split; [lia|].
      apply Z.lt_le_trans with (2 ^ 8); [lia|]. apply Z.pow_le_mono_r; lia.
Qed.
Lemma crc32_fold_range s l : 0 <= s < 2 ^ 32 → bytes_ok l →
  0 <= fold_left crc32_ref_byte l s < 2 ^ 32.
Proof. intros. rewrite <- crc32_update_ref by done. by apply crc32_update_range. Qed.
Lemma val_crc32_ref_fold l : bytes_ok l →
  val_crc32 l = Z.lxor (fold_left crc32_ref_byte l 0xFFFFFFFF) 0xFFFFFFFF.
Proof. intros H. unfold val_crc32. f_equal. exact (crc32_update_ref 0xFFFFFFFF l H). Qed.

(** What follows its checksum in the frame closes it: a body and a trailer belong together
    exactly if the register ends in one fixed state. *)
Lemma crc32_residue body tr : bytes_ok body → bytes_ok tr → length tr = 4%nat →
  le_val tr = val_crc32 body ↔
  fold_left crc32_ref_byte (body ++ tr) 0xFFFFFFFF = Nat.iter 32 crc32_bit 0xFFFFFFFF.
Proof.
  intros Hb Ht Hl. rewrite val_crc32_ref_fold, fold_left_app, (crc32_run _ tr), Hl by done.
  pose proof (crc32_fold_range 0xFFFFFFFF body ltac:(lia) Hb) as Hr.
  set (r := fold_left crc32_ref_byte body 0xFFFFFFFF) in *. split.
  - intros ->. f_equal. by rewrite <- Z.lxor_assoc, Z.lxor_nilpotent, Z.lxor_0_l.
  - intros E. apply crc32_iter_inj in E; [|apply lxor_range; [lia|done|]|lia].
    2:{ pose proof (le_val_range tr Ht) as R. unfold zlen in R. rewrite Hl in R. exact R. }
    by rewrite <- E, <- Z.lxor_assoc, Z.lxor_nilpotent, Z.lxor_0_l.
Qed.

(** A burst of at most 32 bits, anywhere: the bits in the order in which they enter the
    register (the lowest of a byte first) change only within 32 consecutive ones. *)
Definition bit_burst (x y : list Z) : Prop :=
  length x = length y ∧
  ∃ k d, 0 <= k ∧ 0 < d < 2 ^ 32 ∧ Z.lxor (le_val x) (le_val y) = Z.shiftl d k.

(** Two runs of bytes that differ by a burst leave the register in two states. *)
Lemma crc32_bit_burst s x y : 0 <= s < 2 ^ 32 → bytes_ok x → bytes_ok y → bit_burst x y →
  fold_left crc32_ref_byte x s ≠ fold_left crc32_ref_byte y s.
Proof.
  intros Hs Hx Hy (Hl & k & d & Hk & Hd & E). rewrite !crc32_run, <- Hl by done. intros Eq.
  assert (Hkn : k < Z.of_nat (8 * length x)).
  { destruct (Z.lt_ge_cases k (Z.of_nat (8 * length x))) as [|Hge]; [done|exfalso].
    assert (Hr : ∀ l, bytes_ok l → length l = length x → 0 <= le_val l < 2 ^ Z.of_nat (8 * length x)).
    { intros l Hb El. pose proof (le_val_range l Hb) as R. unfold zlen in R. rewrite El in R.
      change 256 with (2 ^ 8) in R. rewrite <- Z.pow_mul_r in R by lia.
      by replace (Z.of_nat (8 * length x)) with (8 * Z.of_nat (length x)) by lia. }
    pose proof (lxor_range (Z.of_nat (8 * length x)) _ _ ltac:(lia) (Hr x Hx eq_refl) (Hr y Hy (eq_sym Hl))) as R.
    rewrite E, Z.shiftl_mul_pow2 in R by done.
    pose proof (Z.pow_le_mono_r 2 (Z.of_nat (8 * length x)) k ltac:(lia) Hge). nia. }
  set (n := (8 * length x)%nat) in *.
  assert (E0 : Nat.iter n crc32_bit (Z.shiftl d k) = 0).
  { rewrite <- E. replace (Z.lxor (le_val x) (le_val y))
      with (Z.lxor (Z.lxor s (le_val x)) (Z.lxor s (le_val y))).
    - by rewrite crc32_iter_lxor, Eq, Z.lxor_nilpotent.
    - rewrite (Z.lxor_comm s (le_val x)), Z.lxor_assoc. f_equal.
      by rewrite <- Z.lxor_assoc, Z.lxor_nilpotent, Z.lxor_0_l. }
  replace n with ((n - Z.to_nat k) + Z.to_nat k)%nat in E0 by lia.
  rewrite Nat.iter_add, <- (Z2Nat.id k), Nat2Z.id, crc32_iter_shiftl in E0 by done.
  rewrite <- (crc32_iter_0 (n - Z.to_nat k)) in E0 at 1. apply crc32_iter_inj in E0; lia.
Qed.
(** So a codeword that a burst has hit is no codeword. *)
Lemma crc32_burst_breaks body tr body' tr' :
  bytes_ok body → bytes_ok tr → bytes_ok body' → bytes_ok tr' →
  length tr = 4%nat → length tr' = 4%nat → le_val tr = val_crc32 body →
  bit_burst (body ++ tr) (body' ++ tr') → le_val tr' ≠ val_crc32 body'.
Proof.
  intros Hb Ht Hb' Ht' Hl Hl' E Hburst E'.
  apply (proj1 (crc32_residue body tr Hb Ht Hl)) in E.
  apply (proj1 (crc32_residue body' tr' Hb' Ht' Hl')) in E'.
  apply (crc32_bit_burst 0xFFFFFFFF) in Hburst; [|lia|solve_bytes..]. exact (Hburst (eq_trans E (eq_sym E'))).
Qed.

(** ** The reference: a remainder of polynomials over GF(2)

    CRC-32 as IEEE 802.3 has it, on lists of coefficients (the highest power first) and with
    nothing of the code in it. The message is the bits of the bytes in the order in which they
    are sent (the lowest of a byte first), followed by 32 zeros; its first 32 coefficients are
    complemented; the remainder of the long division by the generator
    x^32+x^26+x^23+x^22+x^16+x^12+x^11+x^10+x^8+x^7+x^5+x^4+x^2+x+1 is complemented, and its
    highest coefficient is bit 0 of the checksum. *)

Definition generator_exponents : list Z := [26; 23; 22; 16; 12; 11; 10; 8; 7; 5; 4; 2; 1; 0].
(** The coefficients of x^31 to x^0; that of x^32 cancels the leading one of the dividend. *)
Definition generator : list bool :=
  map (λ i, bool_decide (i ∈ generator_exponents)) (reverse (seqZ 0 32)).

Fixpoint add_prefix (g p : list bool) : list bool :=
  match g, p with b :: g, c :: p => xorb b c :: add_prefix g p | _, _ => p end.
(** [n] steps of the long division: the leading coefficient goes, with a multiple of the
    generator under it. *)
Fixpoint long_division (n : nat) (p : list bool) : list bool :=
  match n, p with
  | S n, b :: p => long_division n (if b then add_prefix generator p else p)
  | _, _ => p
  end.
Definition byte_bits (b : Z) : list bool := map (Z.testbit b) (seqZ 0 8).
Definition message_bits (l : list Z) : list bool := l ≫= byte_bits.
Fixpoint of_bits (p : list bool) : Z :=
  match p with [] => 0 | b :: p => Z.b2z b + 2 * of_bits p end.
Definition crc32_division (l : list Z) : Z :=
  of_bits (map negb (long_division (8 * length l)
    (add_prefix (repeat true 32) (message_bits l ++ repeat false 32)))).

Lemma b2z_add_lxor b z : Z.b2z b + 2 * z = Z.lxor (Z.b2z b) (Z.shiftl z 1).
Proof.
  replace (2 * z) with (Z.shiftl z 1) by (rewrite Z.shiftl_mul_pow2 by lia; change (2 ^ 1) with 2; lia).
  apply Z.add_nocarry_lxor, Z.bits_inj'. intros i Hi. rewrite Z.land_spec, Z.bits_0.
  destruct (decide (i = 0)) as [->|]; [by rewrite Z.shiftl_spec_low, andb_false_r by lia|].
  destruct b; cbn [Z.b2z]; [rewrite (Z.bits_above_log2 1) by (cbn; lia)|rewrite Z.bits_0]; done.
Qed.
Lemma of_bits_nonneg p : 0 <= of_bits p.
Proof. induction p as [|[] p IH]; cbn; lia. Qed.
Lemma b2z_lxor a b : Z.b2z (xorb a b) = Z.lxor (Z.b2z a) (Z.b2z b).
Proof. by destruct a, b. Qed.
Lemma of_bits_add_prefix g p : (length g <= length p)%nat →
  of_bits (add_prefix g p) = Z.lxor (of_bits g) (of_bits p).
Proof.
  revert p. induction g as [|a g IH]; intros [|b p] Hl; cbn in *; try done; [lia|].
  rewrite IH by lia. rewrite !b2z_add_lxor, b2z_lxor, Z.shiftl_lxor.
  rewrite !Z.lxor_assoc. f_equal. rewrite <- !Z.lxor_assoc. f_equal. apply Z.lxor_comm.
Qed.
Lemma length_add_prefix g p : length (add_prefix g p) = length p.
Proof. revert p. induction g as [|a g IH]; intros [|b p]; cbn; auto. Qed.
Lemma of_bits_app p q : of_bits (p ++ q) = of_bits p + 2 ^ Z.of_nat (length p) * of_bits q.
Proof.
  induction p as [|b p IH]; [by destruct q; cbn; lia|].
  cbn [app of_bits length]. rewrite IH, Nat2Z.inj_succ, Z.pow_succ_r by lia. ring.
Qed.
Lemma of_bits_false n : of_bits (repeat false n) = 0.
Proof. induction n as [|n IH]; [done|]. cbn. by rewrite IH. Qed.
Lemma of_bits_negb p : of_bits (map negb p) = 2 ^ Z.of_nat (length p) - 1 - of_bits p.
Proof.
  induction p as [|b p IH]; [done|].
  cbn [map of_bits length]. rewrite IH, Nat2Z.inj_succ, Z.pow_succ_r by lia. destruct b; cbn [negb Z.b2z]; lia.
Qed.
Lemma of_bits_bound p : 0 <= of_bits p < 2 ^ Z.of_nat (length p).
Proof.
  split; [apply of_bits_nonneg|]. pose proof (of_bits_nonneg (map negb p)) as Hn.
  rewrite of_bits_negb in Hn. lia.
Qed.
Lemma byte_bits_value b : byte_ok b → of_bits (byte_bits b) = b.
Proof.
  intros Hb. unfold byte_ok in Hb.
  assert (Hall : forallb (λ i : nat, of_bits (byte_bits (Z.of_nat i)) =? Z.of_nat i) (seq 0 256) = true)
    by (vm_compute; reflexivity).
  rewrite forallb_forall in Hall. specialize (Hall (Z.to_nat b) ltac:(apply in_seq; lia)).
  rewrite Z2Nat.id in Hall by lia. by apply Z.eqb_eq.
Qed.
Lemma length_message_bits l : length (message_bits l) = (8 * length l)%nat.
Proof.
  induction l as [|b l IH]; [done|].
  change (message_bits (b :: l)) with (byte_bits b ++ message_bits l).
  rewrite length_app, IH. cbn [length]. change (length (byte_bits b)) with 8%nat. lia.
Qed.
Lemma message_bits_value l : bytes_ok l → of_bits (message_bits l) = le_val l.
Proof.
  induction 1 as [|b l Hb _ IH]; [done|].
  change (message_bits (b :: l)) with (byte_bits b ++ message_bits l).
  rewrite of_bits_app, IH, byte_bits_value by done. done.
Qed.
(** One step of the division is one turn of the code's loop. *)
Lemma long_division_run n p : length p = (n + 32)%nat →
  length (long_division n p) = 32%nat ∧ of_bits (long_division n p) = Nat.iter n crc32_bit (of_bits p).
Proof.
  revert p. induction n as [|n IH]; intros p Hp; [done|].
  destruct p as [|b p]; [done|]. cbn in Hp. cbn [long_division]. rewrite Nat.iter_succ_r.
  assert (Es : crc32_bit (of_bits (b :: p)) = of_bits (if b then add_prefix generator p else p)).
  { rewrite crc32_bit_alt. cbn [of_bits].
    replace (Z.testbit (Z.b2z b + 2 * of_bits p) 0) with b by (by rewrite Z.add_comm, Z.testbit_0_r).
    replace (Z.shiftr (Z.b2z b + 2 * of_bits p) 1) with (of_bits p)
      by (rewrite shiftr_div by lia; symmetry; apply Z.add_b2z_double_div2).
    destruct b; [|apply Z.lxor_0_r].
    rewrite of_bits_add_prefix by (change (length generator) with 32%nat; lia).
    change (of_bits generator) with crc32_poly. apply Z.lxor_comm. }
  rewrite Es. apply IH. destruct b; rewrite ?length_add_prefix; lia.
Qed.
Lemma val_crc32_division l : bytes_ok l → val_crc32 l = crc32_division l.
Proof.
  intros Hl. rewrite val_crc32_ref_fold, crc32_run by done. unfold crc32_division.
  set (p := add_prefix (repeat true 32) (message_bits l ++ repeat false 32)).
  assert (Lp : length p = (8 * length l + 32)%nat)
    by (unfold p; by rewrite length_add_prefix, length_app, length_message_bits).
  destruct (long_division_run _ p Lp) as [L V].
  rewrite of_bits_negb, L, V. unfold p. rewrite of_bits_add_prefix
    by (rewrite length_app, length_message_bits, !repeat_length; lia).
  rewrite of_bits_app, of_bits_false, Z.mul_0_r, Z.add_0_r, message_bits_value by done.
  change (of_bits (repeat true 32)) with 0xFFFFFFFF.
  set (c := Nat.iter _ _ _).
  assert (Hc : 0 <= c < 2 ^ 32).
  { pose proof (crc32_fold_range 0xFFFFFFFF l ltac:(lia) Hl) as R. by rewrite crc32_run in R. }
  change 0xFFFFFFFF with (2 ^ 32 - 1). by apply lxor_ones_sub.
Qed.

(** C32: the checksum is the CRC-32 of IEEE 802.3. For bytes in any number of pieces, the
    table-driven code, fed piece by piece through its state calls (init, update, finalize) or
    in one [val_crc32] of the whole, computes the complemented remainder of the long division
    by the generator polynomial on lists of GF(2) coefficients, and that is a 32-bit value. *)
Theorem crc32_table_driven_correct chunks : Forall bytes_ok chunks →
  val_crc32_finalize_state (fold_left val_crc32_update_state chunks val_crc32_init_state)
    = crc32_division (concat chunks) ∧
  val_crc32 (concat chunks) = crc32_division (concat chunks) ∧
  0 <= val_crc32 (concat chunks) < 2 ^ 32.
Proof.
  intros Hc. assert (Hb : bytes_ok (concat chunks)) by (by apply Forall_concat).
  split; [|by split; [apply val_crc32_division|apply val_crc32_range]].
  rewrite <- val_crc32_division, <- crc32_state_api by done. f_equal. apply crc32_updates.
Qed.
Lemma crc32_table_driven_correct_witness :
  crc32_division [49; 50; 51; 52; 53; 54; 55; 56; 57] = 0xCBF43926 ∧
  val_crc32_finalize_state (fold_left val_crc32_update_state
    [[49; 50; 51; 52]; []; [53; 54; 55; 56; 57]] val_crc32_init_state) = 0xCBF43926.
Proof.
  split; [vm_compute; reflexivity|].
  refine (eq_trans (proj1 (crc32_table_driven_correct [[49; 50; 51; 52]; []; [53; 54; 55; 56; 57]] _)) _);
    [repeat constructor; unfold byte_ok; lia|vm_compute; reflexivity].
Defined.
