(* ===== verification/Sanitize.v ===== *)
(** Names and paths ([src/val_core.c]: [val_internal_strnlen], [val_clean_filename],
    [val_clean_path]; [src/val_internal.h]: [val_internal_join_path]).

    A C string is the list of bytes from its pointer on: reading stops at the first
    NUL, or at the end of the list (the object the pointer points into).  The
    functions return the string they leave in [output], without its NUL; [None]
    says that [output] is not written. *)
From S2P Require Import Prelude Wire.

Definition is_sep (c : Z) : bool := (c =? 47) || (c =? 92).     (* '/' or '\\' *)
Definition is_safe_char (c : Z) : bool :=
  ((65 <=? c) && (c <=? 90)) || ((97 <=? c) && (c <=? 122)) || ((48 <=? c) && (c <=? 57)) ||
  (c =? 46) || (c =? 95) || (c =? 45) || (c =? 32).
Definition underscore : Z := 95.
Definition dot : Z := 46.
Definition slash : Z := 47.

(** The string at a pointer. *)
Fixpoint c_string (mem : list Z) : list Z :=
  match mem with
  | [] => []
  | c :: mem' => if c =? 0 then [] else c :: c_string mem'
  end.

Fixpoint strnlen_loop (maxlen : nat) (s : list Z) : Z :=
  match maxlen, s with
  | S n, c :: s' => if c =? 0 then 0 else 1 + strnlen_loop n s'
  | _, _ => 0
  end.
Definition val_internal_strnlen (s : option (list Z)) (maxlen : Z) : Z :=
  match s with None => 0 | Some s => strnlen_loop (Z.to_nat maxlen) s end.

(** The loop of [val_clean_filename] from [p], with [w] bytes already written:
    the bytes it appends. *)
Fixpoint clean_filename_loop (p : list Z) (w output_size : Z) : list Z :=
  match p with
  | [] => []
  | c :: p' =>
      if negb (c =? 0) && (w + 1 <? output_size) then
        if is_sep c then clean_filename_loop p' w output_size
        else (if is_safe_char c then c else underscore) :: clean_filename_loop p' (w + 1) output_size
      else []
  end.
Definition val_clean_filename (input : option (list Z)) (output_size : Z) : option (list Z) :=
  if output_size =? 0 then None
  else match input with
  | None => Some []
  | Some p =>
      let out := clean_filename_loop p 0 output_size in
      if (zlen out =? 0) && (1 <? output_size) then Some [underscore] else Some out
  end.

(** The scan over a run of dots, and the test for the end of a component after it. *)
Fixpoint skip_dots (q : list Z) : list Z :=
  match q with
  | c :: q' => if c =? dot then skip_dots q' else q
  | [] => []
  end.
Definition at_boundary (q : list Z) : bool :=
  match q with [] => true | c :: _ => is_sep c || (c =? 0) end.

(** The loop of [val_clean_path]; [out] is what has been written, last byte first.
    Every turn consumes input, so [length p] turns are enough. *)
Fixpoint clean_path_loop (fuel : nat) (p out : list Z) (prev_sep : bool) (output_size : Z) : list Z :=
  match fuel, p with
  | S fuel', c :: p' =>
      if negb (c =? 0) && (zlen out + 1 <? output_size) then
        if is_sep c then
          if prev_sep then clean_path_loop fuel' p' out true output_size
          else clean_path_loop fuel' p' (slash :: out) true output_size
        else if (c =? dot) && at_boundary (skip_dots p) then
          clean_path_loop fuel' (skip_dots p) out true output_size
        else
          clean_path_loop fuel' p' ((if is_safe_char c then c else underscore) :: out) false output_size
      else out
  | _, _ => out
  end.
(** [while (w > 0 && output[w - 1] == '/') --w] *)
Fixpoint trim_seps (out : list Z) : list Z :=
  match out with c :: out' => if c =? slash then trim_seps out' else out | [] => [] end.
Definition val_clean_path (input : option (list Z)) (output_size : Z) : option (list Z) :=
  if output_size =? 0 then None
  else match input with
  | None => Some []
  | Some p => Some (rev (trim_seps (clean_path_loop (length p) p [] true output_size)))
  end.

Definition val_internal_path_sep : Z := slash.   (* POSIX build *)

(** [snprintf(dst, cap, ...)]: the text left in [dst] and the returned length. *)
Definition snprintf_text (cap : Z) (txt : list Z) : list Z * Z := (ztake (cap - 1) txt, zlen txt).
Definition val_internal_join_path (cap : Z) (dir name : option (list Z)) : list Z * Z :=
  if cap =? 0 then ([], -1)
  else
    let name := match name with None => [] | Some n => c_string n end in
    match dir with
    | Some (d :: dir') =>
        if d =? 0 then snprintf_text cap name
        else snprintf_text cap (c_string (d :: dir') ++ [val_internal_path_sep] ++ name)
    | _ => snprintf_text cap name
    end.

(** ** Characters *)

Lemma safe_not_sep c : is_safe_char c = true → is_sep c = false ∧ c ≠ 0 ∧ byte_ok c.
Proof. unfold is_safe_char, is_sep, byte_ok. lia. Qed.
Lemma safe_underscore : is_safe_char underscore = true.
Proof. done. Qed.
Lemma emit_safe c : is_safe_char (if is_safe_char c then c else underscore) = true.
Proof. by destruct (is_safe_char c) eqn:E. Qed.
Definition safe_chars (l : list Z) : Prop := Forall (λ c, is_safe_char c = true) l.

(** ** [val_clean_filename] *)

Lemma clean_filename_loop_spec p w size : 0 <= w → w < size →
  safe_chars (clean_filename_loop p w size) ∧ w + zlen (clean_filename_loop p w size) < size.
Proof.
  revert w. induction p as [|c p IH]; intros w Hw Hs; cbn [clean_filename_loop].
  { split; [constructor|rewrite zlen_nil; lia]. }
  destruct (negb (c =? 0) && (w + 1 <? size)) eqn:E.
  2:{ split; [constructor|rewrite zlen_nil; lia]. }
  destruct (is_sep c); [by apply IH|].
  destruct (IH (w + 1)) as [H1 H2]; [lia..|].
  split; [constructor; [apply emit_safe|done]|rewrite zlen_cons; lia].
Qed.
Lemma clean_filename_loop_id p w size : safe_chars p → 0 <= w → w + zlen p < size →
  clean_filename_loop p w size = p.
Proof.
  revert w. induction p as [|c p IH]; intros w Hp Hw Hs; cbn [clean_filename_loop]; [done|].
  inversion Hp as [|? ? Hc Hp']; subst. rewrite zlen_cons in Hs. pose proof (zlen_nonneg p).
  destruct (safe_not_sep c Hc) as (-> & Hc0 & _).
  replace (negb (c =? 0) && (w + 1 <? size)) with true by lia.
  rewrite Hc, IH by (done || lia). done.
Qed.

Lemma clean_filename_ok p size out : 1 < size →
  val_clean_filename (Some p) size = Some out →
  safe_chars out ∧ 0 < zlen out < size ∧ val_clean_filename (Some out) size = Some out.
Proof.
  intros Hs. unfold val_clean_filename. replace (size =? 0) with false by lia.
  destruct (clean_filename_loop_spec p 0 size) as [H1 H2]; [lia..|].
  set (o := clean_filename_loop p 0 size) in *. pose proof (zlen_nonneg o).
  assert (Hid : ∀ l, safe_chars l → 0 < zlen l → zlen l < size →
            (if (zlen (clean_filename_loop l 0 size) =? 0) && (1 <? size)
             then Some [underscore] else Some (clean_filename_loop l 0 size)) = Some l).
  { intros l Hl H0 H3. rewrite clean_filename_loop_id by (done || lia).
    by replace (zlen l =? 0) with false by lia. }
  destruct ((zlen o =? 0) && (1 <? size)) eqn:E; intros [= <-].
  - assert (safe_chars [underscore]) by (repeat constructor).
    split; [done|]. assert (zlen [underscore] = 1) by done. split; [lia|].
    apply Hid; [done|lia..].
  - split; [done|]. split; [lia|]. apply Hid; [done|lia..].
Qed.
(** C35: [val_clean_filename] makes any input safe to use as one path component: the
    result fits the buffer with its NUL, holds only the allowed characters (so no
    separator and no NUL), is not empty, and cleaning it again changes nothing. *)
Theorem clean_filename_safe p size out : 1 < size →
  val_clean_filename (Some p) size = Some out →
  safe_chars out ∧ 0 < zlen out < size ∧ val_clean_filename (Some out) size = Some out.
Proof. apply clean_filename_ok. Qed.
Lemma clean_filename_safe_witness :
  val_clean_filename (Some [46; 46; 47; 97; 10; 0; 98]) 128 = Some [46; 46; 97; 95] ∧
  safe_chars [46; 46; 97; 95].
Proof.
  assert (E : val_clean_filename (Some [46; 46; 47; 97; 10; 0; 98]) 128 = Some [46; 46; 97; 95])
    by reflexivity.
  split; [exact E|].
  exact (proj1 (clean_filename_safe [46; 46; 47; 97; 10; 0; 98] 128 [46; 46; 97; 95] ltac:(lia) E)).
Defined.

(** ** [val_clean_path] *)

Definition not_dots (comp : list Z) : Prop := Exists (λ c, c ≠ dot) comp.
Definition good_component (comp : list Z) : Prop :=
  comp ≠ [] ∧ safe_chars comp ∧ not_dots comp.
(** Components with a separator after each, then an unfinished one. *)
Definition path_open (comps : list (list Z)) (cur : list Z) : list Z :=
  concat (map (λ c, c ++ [slash]) comps) ++ cur.
(** Components with a separator between each two. *)
Fixpoint path_join (comps : list (list Z)) : list Z :=
  match comps with
  | [] => []
  | [c] => c
  | c :: cs => c ++ slash :: path_join cs
  end.

Lemma path_open_join comps cur : path_open comps cur = path_join (comps ++ [cur]).
Proof.
  unfold path_open. induction comps as [|c cs IH]; [done|].
  cbn [map concat app path_join]. destruct (cs ++ [cur]) eqn:E; [by destruct cs|].
  rewrite <- app_assoc. cbn [app]. rewrite <- app_assoc. cbn [app]. do 2 f_equal. exact IH.
Qed.
Lemma path_open_snoc comps cur : path_open (comps ++ [cur]) [] = path_open comps cur ++ [slash].
Proof.
  unfold path_open. rewrite map_app, concat_app. cbn. by rewrite !app_nil_r, <- app_assoc.
Qed.

Lemma skip_dots_not_dot c p : (c =? dot) = false → skip_dots (c :: p) = c :: p.
Proof. cbn. by intros ->. Qed.
Lemma length_skip_dots p : (length (skip_dots p) <= length p)%nat.
Proof. induction p as [|c p IH]; cbn; [lia|]. destruct (c =? dot); cbn; lia. Qed.

(** What the loop knows: the separators written so far close good components; the
    component being written either has a character other than a dot, or it is
    empty at a boundary, or it is a run of dots that more input will end. *)
Definition cp_inv (p out : list Z) (prev_sep : bool) (comps : list (list Z)) (cur : list Z) : Prop :=
  rev out = path_open comps cur ∧ Forall good_component comps ∧ safe_chars cur ∧
  ((cur = [] ∧ prev_sep = true) ∨ (cur ≠ [] ∧ not_dots cur) ∨
   (cur ≠ [] ∧ at_boundary (skip_dots p) = false)).

Lemma path_open_last comps cur : safe_chars cur → cur ≠ [] →
  trim_seps (rev (path_open comps cur)) = rev (path_open comps cur).
Proof.
  intros Hs Hn. destruct cur as [|c cur] using rev_ind; [done|]. unfold path_open.
  rewrite !app_assoc, rev_app_distr. cbn.
  apply Forall_app in Hs as [_ Hc]. inversion Hc as [|? ? Hc']; subst.
  destruct (safe_not_sep c Hc') as (Hsep & _). unfold is_sep in Hsep. by replace (c =? slash) with false by (unfold slash; lia).
Qed.

(** The loop's result: components as the invariant has them, and when there was
    room for all the input, a last component that is good too. *)
Lemma clean_path_loop_spec fuel : ∀ p out prev size comps cur,
  (length p <= fuel)%nat → 0 < size → zlen out < size → cp_inv p out prev comps cur →
  ∃ comps' cur', rev (clean_path_loop fuel p out prev size) = path_open comps' cur' ∧
    Forall good_component comps' ∧ safe_chars cur' ∧
    zlen (clean_path_loop fuel p out prev size) < size ∧
    (zlen out + zlen p < size → cur' = [] ∨ good_component cur').
Proof.
  induction fuel as [|fuel IH]; intros p out prev size comps cur Hf Hs Ho Hinv.
  { destruct p; [|cbn in Hf; lia]. destruct Hinv as (H1 & H2 & H3 & H4).
    exists comps, cur. cbn [clean_path_loop]. repeat split; auto.
    intros _. destruct H4 as [[? ?]|[[? ?]|[? ?]]]; [by left|right; by split_and!|done]. }
  destruct p as [|c p].
  { destruct Hinv as (H1 & H2 & H3 & H4).
    exists comps, cur. cbn [clean_path_loop]. repeat split; auto.
    intros _. destruct H4 as [[? ?]|[[? ?]|[? ?]]]; [by left|right; by split_and!|done]. }
  cbn [clean_path_loop]. cbn [length] in Hf. rewrite zlen_cons. pose proof (zlen_nonneg p).
  pose proof Hinv as (H1 & H2 & H3 & H4).
  destruct (negb (c =? 0) && (zlen out + 1 <? size)) eqn:E.
  2:{ exists comps, cur. repeat split; auto. intros Hroom.
      assert (Hc0 : c = 0) by lia. subst c.
      destruct H4 as [[? ?]|[[? ?]|[? ?]]]; [by left|right; by split_and!|done]. }
  destruct (is_sep c) eqn:Esep.
  - (* a separator *)
    assert (Hb : at_boundary (skip_dots (c :: p)) = true).
    { rewrite skip_dots_not_dot by (unfold is_sep, dot in *; lia). cbn. by rewrite Esep. }
    destruct prev.
    + destruct (IH p out true size comps cur) as (cs & cu & ?&?&?&?&Hr); [lia|done|done| |].
      { split_and!; [done|done|done|]. destruct H4 as [[? ?]|[[? ?]|[? ?]]]; [by left|by right; left|congruence]. }
      exists cs, cu. split_and!; auto. intros. apply Hr. lia.
    + destruct H4 as [[? ?]|[[? ?]|[? ?]]]; [done| |congruence].
      destruct (IH p (slash :: out) true size (comps ++ [cur]) []) as (cs & cu & ?&?&?&?&Hr);
        [lia|done|rewrite zlen_cons; lia| |].
      { split_and!; [|by apply Forall_app_2; [|apply Forall_cons_2; [split_and!|]]|constructor|by left].
        cbn [rev]. by rewrite H1, path_open_snoc. }
      exists cs, cu. split_and!; auto. intros. apply Hr. rewrite zlen_cons. lia.
  - destruct ((c =? dot) && at_boundary (skip_dots (c :: p))) eqn:Edot.
    + (* a component of dots only *)
      pose proof (length_skip_dots p) as Hl.
      assert (Hsk : skip_dots (c :: p) = skip_dots p) by (cbn; by replace (c =? dot) with true by lia).
      rewrite Hsk in *.
      destruct (IH (skip_dots p) out true size comps cur) as (cs & cu & ?&?&?&?&Hr); [lia|done|done| |].
      { split_and!; [done|done|done|]. destruct H4 as [[? ?]|[[? ?]|[? ?]]]; [by left|by right; left|].
        replace (at_boundary (skip_dots p)) with false in Edot by done. lia. }
      exists cs, cu. split_and!; auto. intros. apply Hr. unfold zlen in *. lia.
    + (* an ordinary character *)
      set (e := if is_safe_char c then c else underscore).
      assert (He : is_safe_char e = true) by apply emit_safe.
      destruct (IH p (e :: out) false size comps (cur ++ [e])) as (cs & cu & ?&?&?&?&Hr);
        [lia|done|rewrite zlen_cons; lia| |].
      { split_and!; [cbn [rev]; rewrite H1; unfold path_open; by rewrite app_assoc|done| |].
        - apply Forall_app_2; [done|by repeat constructor].
        - right. assert (Hne : cur ++ [e] ≠ []) by (destruct cur; discriminate).
          destruct (decide (e = dot)) as [Hd|Hd].
          2:{ left. split; [done|]. apply Exists_app. right. by constructor. }
          assert (Hcd : c = dot).
          { unfold e in Hd. destruct (is_safe_char c); [done|]. by unfold underscore, dot in Hd. }
          right. split; [done|]. rewrite Hcd in Edot. cbn in Edot. done. }
      exists cs, cu. split_and!; auto. intros. apply Hr. rewrite zlen_cons. lia.
Qed.

(** The result of [val_clean_path] is a list of separator-joined components,
    each non-empty, of allowed characters only and, except perhaps the last, not
    made of dots only; it fits the buffer.  So there is no leading, trailing or
    double separator and no way up.  When the whole input fits the buffer the last
    component is good as well. *)
Theorem clean_path_components p size out : 1 < size →
  val_clean_path (Some p) size = Some out →
  ∃ comps last, out = path_join (comps ++ last) ∧ zlen out < size ∧
    Forall good_component comps ∧
    (last = [] ∨ ∃ cur, last = [cur] ∧ cur ≠ [] ∧ safe_chars cur ∧
                        (zlen p < size → good_component cur)).
Proof.
  intros Hs. unfold val_clean_path. replace (size =? 0) with false by lia. intros [= <-].
  destruct (clean_path_loop_spec (length p) p [] true size [] []) as (cs & cur & Hr & Hg & Hc & Hl & Hroom);
    [lia|lia|rewrite zlen_nil; lia|by repeat split; [constructor|constructor|left]|].
  set (o := clean_path_loop _ _ _ _ _) in *.
  assert (Ho : o = rev (path_open cs cur)) by (by rewrite <- Hr, rev_involutive).
  assert (Hlen : zlen (rev (trim_seps o)) <= zlen o).
  { unfold zlen. rewrite length_rev. clear. induction o as [|c o IH]; cbn; [lia|].
    destruct (c =? slash); cbn; lia. }
  destruct (decide (cur = [])) as [->|Hne].
  - exists cs, []. split_and!; [|lia|done|by left]. rewrite app_nil_r, Ho.
    destruct cs as [|c cs] using rev_ind; [done|]. clear IHcs.
    apply Forall_app in Hg as [_ Hg]. inversion Hg as [|? ? [Hcn [Hcs _]]]; subst.
    rewrite path_open_snoc, rev_app_distr. cbn [rev app trim_seps].
    change (slash =? slash) with true. cbv iota.
    by rewrite path_open_last, rev_involutive, path_open_join by done.
  - exists cs, [cur]. split_and!; [|lia|done|].
    + by rewrite Ho, path_open_last, rev_involutive, path_open_join by done.
    + right. exists cur. split_and!; [done|done|done|].
      intros Hp. destruct Hroom as [?|?]; [rewrite zlen_nil; lia|done|done].
Qed.
Lemma clean_path_components_witness :
  val_clean_path (Some [46; 46; 47; 47; 97; 47; 46; 47; 98; 47]) 128 = Some [97; 47; 98] ∧
  ∃ comps last, [97; 47; 98] = path_join (comps ++ last) ∧ Forall good_component comps.
Proof.
  assert (E : val_clean_path (Some [46; 46; 47; 47; 97; 47; 46; 47; 98; 47]) 128 = Some [97; 47; 98])
    by reflexivity.
  split; [exact E|].
  destruct (clean_path_components _ 128 _ ltac:(lia) E) as (cs & l & H1 & _ & H2 & _).
  exists cs, l. split; assumption.
Defined.

(** Two ways in which [val_clean_path] does not do what its comments say ("drop
    unsafe components").  A path cut by the buffer can end in a [..] component; and
    dots at the end of a name are taken for a component of their own, so the
    separator after them disappears and two components become one. *)
Theorem clean_path_unsafe_cases :
  (∃ p out, zlen p = 130 ∧ val_clean_path (Some p) 128 = Some (out ++ [slash; dot; dot])) ∧
  val_clean_path (Some [97; 46; 47; 98]) 128 = Some [97; 98].
Proof.
  split; [|reflexivity].
  exists (repeat 97 124 ++ [47; 46; 46; 98; 99; 100]), (repeat 97 124).
  split; vm_compute; reflexivity.
Qed.
