(* ===== verification/Timing.v ===== *)
(** Adaptive timeouts ([src/val_core.c]: [val_sanitize_timeouts_pair],
    [val_internal_init_timing], [val_internal_record_rtt],
    [val_internal_get_timeout]; [src/val_internal.h]: [val_timing_t],
    [val_operation_type_t], [val_internal_backoff_step]).

    The estimator is the integer form of RFC 6298: a smoothed round trip time and
    its variation, 32-bit, updated in 64-bit arithmetic; every timeout the protocol
    uses is a multiple of their combination, clamped to the configured bounds. *)
From S2P Require Import Prelude.

Record val_timing_t := mk_timing {
  srtt_ms : Z;
  rttvar_ms : Z;
  min_timeout_ms : Z;
  max_timeout_ms : Z;
  samples_taken : Z;
  in_retransmit : bool
}.

Definition val_sanitize_timeouts_pair (in_min in_max : Z) : Z * Z :=
  let min_to := if in_min =? 0 then 200 else in_min in
  let max_to := if in_max =? 0 then 8000 else in_max in
  if max_to <? min_to then (max_to, min_to) else (min_to, max_to).

(** [val_internal_init_timing], given the two bounds of the configuration. *)
Definition init_timing (cfg_min cfg_max : Z) : val_timing_t :=
  let '(min_to, max_to) := val_sanitize_timeouts_pair cfg_min cfg_max in
  mk_timing (max_to / 2) (max_to / 4) min_to max_to 0 false.

Definition val_clamp_u32 (v lo hi : Z) : Z :=
  if v <? lo then lo else if hi <? v then hi else v.

(** [val_internal_record_rtt] on the timing state; [None] when Karn's rule discards
    the sample (and the caller counts no sample). *)
Definition record_rtt (measured_rtt_ms : Z) (t : val_timing_t) : option val_timing_t :=
  if in_retransmit t then None
  else
    let rtt := if measured_rtt_ms =? 0 then 1 else measured_rtt_ms in
    if samples_taken t =? 0 then
      Some (mk_timing rtt (rtt / 2) (min_timeout_ms t) (max_timeout_ms t) 1 false)
    else
      let srtt := srtt_ms t in
      let diff := if rtt <? srtt then srtt - rtt else rtt - srtt in
      let rttvar := u32 (Z.shiftr (u64 (3 * rttvar_ms t + diff)) 2) in
      let srtt := u32 (Z.shiftr (u64 (7 * srtt + rtt)) 3) in
      Some (mk_timing srtt rttvar (min_timeout_ms t) (max_timeout_ms t)
              (if samples_taken t <? 0xFF then u8 (samples_taken t + 1) else samples_taken t)
              false).

Inductive val_operation_type_t : Set :=
  | VAL_OP_HANDSHAKE | VAL_OP_META | VAL_OP_DATA_ACK | VAL_OP_VERIFY
  | VAL_OP_DONE_ACK | VAL_OP_EOT_ACK | VAL_OP_DATA_RECV.

Definition op_multiplier (op : val_operation_type_t) : Z :=
  match op with
  | VAL_OP_HANDSHAKE => 5
  | VAL_OP_META => 4
  | VAL_OP_DATA_ACK => 3
  | VAL_OP_VERIFY => 3
  | VAL_OP_DONE_ACK => 4
  | VAL_OP_EOT_ACK => 4
  | VAL_OP_DATA_RECV => 6
  end.

(** [val_internal_get_timeout] on the timing state. *)
Definition timeout_of (t : val_timing_t) (op : val_operation_type_t) : Z :=
  let base := u64 (srtt_ms t + u64 (4 * rttvar_ms t)) in
  let rto := u64 (base * op_multiplier op) in
  let rto := if 0xFFFFFFFF <? rto then 0xFFFFFFFF else rto in
  let '(min_to, max_to) := val_sanitize_timeouts_pair (min_timeout_ms t) (max_timeout_ms t) in
  val_clamp_u32 (u32 rto) min_to max_to.

(** [val_internal_backoff_step] on its two in-out parameters: the time it sleeps
    (0 for none), the next backoff and the retries left. *)
Definition backoff_step (backoff_ms retries : Z) : Z * Z * Z :=
  if retries =? 0 then (0, backoff_ms, retries)
  else
    let next := if backoff_ms =? 0 then 0 else u32 (Z.shiftl backoff_ms 1) in
    let next := if 4000 <? next then 4000 else next in
    (backoff_ms, next, u8 (retries - 1)).

(** The sleeps of [n] successive backoff steps. *)
Fixpoint backoff_sleeps (n : nat) (backoff_ms retries : Z) : list Z :=
  match n with
  | O => []
  | S n =>
      let '(d, b, r) := backoff_step backoff_ms retries in d :: backoff_sleeps n b r
  end.

(** ** Invariants *)

Definition u32_ok (z : Z) : Prop := 0 <= z < 2 ^ 32.
Lemma u32_ok_u32 z : u32_ok (u32 z).
Proof. apply u32_range. Qed.
Definition timing_ok (t : val_timing_t) : Prop :=
  u32_ok (srtt_ms t) ∧ u32_ok (rttvar_ms t) ∧
  u32_ok (min_timeout_ms t) ∧ u32_ok (max_timeout_ms t) ∧ 0 <= samples_taken t < 256.

(** The true weighted mean, which the 64-bit computation does not lose. *)
Definition weighted (k a b n : Z) : Z := (k * a + b) / 2 ^ n.

Lemma sanitize_bounds a b : u32_ok a → u32_ok b →
  let '(lo, hi) := val_sanitize_timeouts_pair a b in
  1 <= lo ∧ lo <= hi ∧ u32_ok hi ∧
  lo = Z.min (if a =? 0 then 200 else a) (if b =? 0 then 8000 else b) ∧
  hi = Z.max (if a =? 0 then 200 else a) (if b =? 0 then 8000 else b).
Proof.
  unfold val_sanitize_timeouts_pair, u32_ok. intros.
  repeat case_match; simplify_eq; lia.
Qed.

Lemma timing_ok_init a b : u32_ok a → u32_ok b → timing_ok (init_timing a b).
Proof.
  intros Ha Hb. pose proof (sanitize_bounds a b Ha Hb) as H.
  unfold init_timing. destruct (val_sanitize_timeouts_pair a b) as [lo hi].
  destruct H as (?&?&?&_). unfold timing_ok, u32_ok in *. cbn.
  pose proof (Z.div_pos hi 2). pose proof (Z.div_pos hi 4).
  assert (hi / 2 <= hi) by (apply Z.div_le_upper_bound; lia).
  assert (hi / 4 <= hi) by (apply Z.div_le_upper_bound; lia). lia.
Qed.

(** A weighted mean lies between what it averages. *)
Lemma weighted_between k a b n : 0 <= n → k + 1 = 2 ^ n → 0 <= k →
  Z.min a b <= weighted k a b n <= Z.max a b.
Proof.
  intros Hn Hk Hk0. unfold weighted. rewrite <- Hk.
  set (lo := Z.min a b). set (hi := Z.max a b).
  assert (lo <= a <= hi ∧ lo <= b <= hi) as [Ha Hb] by lia. clearbody lo hi.
  pose proof (Z.mul_le_mono_nonneg_l lo a k Hk0 ltac:(lia)).
  pose proof (Z.mul_le_mono_nonneg_l a hi k Hk0 ltac:(lia)). split.
  - apply Z.div_le_lower_bound; lia.
  - apply Z.lt_succ_r. apply Z.div_lt_upper_bound; lia.
Qed.

Lemma shiftr_mean k a b n : 0 <= n → k + 1 = 2 ^ n → 0 <= k < 2 ^ 8 → u32_ok a → u32_ok b →
  u32 (Z.shiftr (u64 (k * a + b)) n) = weighted k a b n.
Proof.
  unfold u32_ok. intros Hn Hk Hk0 Ha Hb.
  rewrite u64_small by nia. rewrite shiftr_div by done.
  apply u32_small. pose proof (weighted_between k a b n Hn Hk ltac:(lia)) as H.
  clear Hk. lia.
Qed.

Lemma record_rtt_shape r t t' : timing_ok t → u32_ok r → record_rtt r t = Some t' →
  in_retransmit t = false ∧ in_retransmit t' = false ∧
  min_timeout_ms t' = min_timeout_ms t ∧ max_timeout_ms t' = max_timeout_ms t ∧
  samples_taken t' = Z.min 255 (samples_taken t + 1) ∧
  let r1 := Z.max 1 r in
  if samples_taken t =? 0 then srtt_ms t' = r1 ∧ rttvar_ms t' = r1 / 2
  else srtt_ms t' = weighted 7 (srtt_ms t) r1 3 ∧
       rttvar_ms t' = weighted 3 (rttvar_ms t) (Z.abs (srtt_ms t - r1)) 2.
Proof.
  unfold record_rtt, timing_ok. intros (Hs&Hv&Hm&HM&Hn) Hr.
  destruct (in_retransmit t); [done|].
  assert (Hr1 : (if r =? 0 then 1 else r) = Z.max 1 r) by (unfold u32_ok in *; case_match; lia).
  rewrite Hr1. destruct (Z.eqb_spec (samples_taken t) 0) as [H0|H0]; intros [= <-]; cbn [in_retransmit srtt_ms rttvar_ms min_timeout_ms max_timeout_ms samples_taken].
  - repeat split; lia.
  - unfold u32_ok in *.
    assert (Hd : (if Z.max 1 r <? srtt_ms t then srtt_ms t - Z.max 1 r else Z.max 1 r - srtt_ms t)
                 = Z.abs (srtt_ms t - Z.max 1 r))
      by (destruct (Z.ltb_spec (Z.max 1 r) (srtt_ms t)); lia).
    rewrite Hd, (shiftr_mean 7), (shiftr_mean 3) by (unfold u32_ok; lia).
    repeat split. destruct (Z.ltb_spec (samples_taken t) 255); [rewrite u8_small|]; lia.
Qed.

Lemma record_rtt_ok r t t' : timing_ok t → u32_ok r → record_rtt r t = Some t' → timing_ok t'.
Proof.
  intros Ht Hr E. pose proof (record_rtt_shape r t t' Ht Hr E) as (_&_&H1&H2&H3&H4).
  destruct Ht as (Hs&Hv&Hm&HM&Hn). unfold timing_ok. rewrite H1, H2, H3.
  unfold u32_ok in *. cbv zeta in H4.
  destruct (samples_taken t =? 0).
  - destruct H4 as [-> ->]. assert (0 <= Z.max 1 r / 2 <= Z.max 1 r); [|lia].
    split; [apply Z.div_pos; lia|]. apply Z.div_le_upper_bound; lia.
  - destruct H4 as [-> ->].
    pose proof (weighted_between 7 (srtt_ms t) (Z.max 1 r) 3).
    pose proof (weighted_between 3 (rttvar_ms t) (Z.abs (srtt_ms t - Z.max 1 r)) 2). lia.
Qed.

(** The timeout before the clamp: no intermediate step wraps. *)
Lemma timeout_of_clamped t op : timing_ok t →
  timeout_of t op =
  let '(lo, hi) := val_sanitize_timeouts_pair (min_timeout_ms t) (max_timeout_ms t) in
  val_clamp_u32 (Z.min (2 ^ 32 - 1) ((srtt_ms t + 4 * rttvar_ms t) * op_multiplier op)) lo hi.
Proof.
  intros (Hs&Hv&_). unfold u32_ok in *. unfold timeout_of.
  assert (Hop : 1 <= op_multiplier op <= 6) by (destruct op; cbn; lia).
  rewrite (u64_small (4 * rttvar_ms t)), (u64_small (_ + _)), (u64_small (_ * op_multiplier op)) by nia.
  destruct (val_sanitize_timeouts_pair _ _) as [lo hi].
  assert (0 <= (srtt_ms t + 4 * rttvar_ms t) * op_multiplier op) by nia.
  case_match; rewrite u32_small by lia; f_equal; lia.
Qed.

Lemma clamp_bounds v lo hi : lo <= hi → lo <= val_clamp_u32 v lo hi <= hi.
Proof. unfold val_clamp_u32. repeat case_match; lia. Qed.

Lemma timeout_of_range t op : timing_ok t → 1 <= timeout_of t op < 2 ^ 32.
Proof.
  intros Ht. rewrite timeout_of_clamped by done.
  destruct Ht as (_&_&Hm&HM&_).
  pose proof (sanitize_bounds _ _ Hm HM) as H.
  destruct (val_sanitize_timeouts_pair _ _) as [lo hi].
  pose proof (clamp_bounds (Z.min (2 ^ 32 - 1) ((srtt_ms t + 4 * rttvar_ms t) * op_multiplier op)) lo hi).
  unfold u32_ok in *. lia.
Qed.

(** C34: a timeout is the operation's multiple of SRTT + 4*RTTVAR, saturated at 32
    bits and clamped to the configured bounds: no step of the computation wraps, it
    is never zero, and swapped or missing bounds are repaired. *)
Theorem timeout_within_bounds t op : timing_ok t →
  let lo := Z.min (if min_timeout_ms t =? 0 then 200 else min_timeout_ms t)
                  (if max_timeout_ms t =? 0 then 8000 else max_timeout_ms t) in
  let hi := Z.max (if min_timeout_ms t =? 0 then 200 else min_timeout_ms t)
                  (if max_timeout_ms t =? 0 then 8000 else max_timeout_ms t) in
  1 <= lo <= timeout_of t op ∧ timeout_of t op <= hi ∧
  timeout_of t op = Z.max lo (Z.min hi ((srtt_ms t + 4 * rttvar_ms t) * op_multiplier op)).
Proof.
  intros Ht. rewrite timeout_of_clamped by done.
  pose proof Ht as (_&_&Hm&HM&_). pose proof (sanitize_bounds _ _ Hm HM) as H.
  destruct (val_sanitize_timeouts_pair _ _) as [l h]. destruct H as (H1&H2&H3&-> & ->).
  cbv zeta. unfold val_clamp_u32, u32_ok in *. repeat case_match; lia.
Qed.
Lemma timeout_within_bounds_witness :
  timing_ok (mk_timing 40 10 1000 200 3 false) ∧
  timeout_of (mk_timing 40 10 1000 200 3 false) VAL_OP_DATA_ACK = 240.
Proof.
  assert (H : timing_ok (mk_timing 40 10 1000 200 3 false))
    by (unfold timing_ok, u32_ok; cbn; lia).
  split; [exact H|].
  destruct (timeout_within_bounds _ VAL_OP_DATA_ACK H) as (_ & _ & E). rewrite E. reflexivity.
Defined.

(** The round trip estimator. A sample taken during a retransmission changes
    nothing (Karn's rule); any other sample moves SRTT to the floor of
    (7*SRTT + R)/8, between the old value and the sample, and RTTVAR to the floor
    of (3*RTTVAR + |SRTT - R|)/4, without overflow; the sample count saturates at
    255 and never returns to 0, so the first-sample rule applies once. *)
Theorem rtt_estimator_sound r t : timing_ok t → u32_ok r →
  (in_retransmit t = true → record_rtt r t = None) ∧
  (in_retransmit t = false → ∃ t', record_rtt r t = Some t' ∧ timing_ok t' ∧
     0 < samples_taken t' ∧ samples_taken t' = Z.min 255 (samples_taken t + 1) ∧
     (samples_taken t = 0 → srtt_ms t' = Z.max 1 r) ∧
     (0 < samples_taken t →
        srtt_ms t' = (7 * srtt_ms t + Z.max 1 r) / 8 ∧
        Z.min (srtt_ms t) (Z.max 1 r) <= srtt_ms t' <= Z.max (srtt_ms t) (Z.max 1 r) ∧
        rttvar_ms t' = (3 * rttvar_ms t + Z.abs (srtt_ms t - Z.max 1 r)) / 4)).
Proof.
  intros Ht Hr. split; [unfold record_rtt; by intros ->|]. intros Hk.
  destruct (record_rtt r t) as [t'|] eqn:E.
  2:{ unfold record_rtt in E. rewrite Hk in E. by case_match. }
  exists t'. pose proof (record_rtt_shape r t t' Ht Hr E) as (_&_&_&_&Hn&H).
  pose proof Ht as (_&_&_&_&Hs). cbv zeta in H.
  split; [done|]. split; [by eapply record_rtt_ok|]. split; [lia|]. split; [done|].
  destruct (Z.eqb_spec (samples_taken t) 0); destruct H as [H1 H2]; split; intros; [lia|lia|lia|].
  rewrite H1, H2. unfold weighted. split; [done|]. split; [|done].
  apply (weighted_between 7 _ _ 3); lia.
Qed.
Lemma rtt_estimator_sound_witness :
  ∃ t', record_rtt 100 (mk_timing 20 4 200 8000 5 false) = Some t' ∧ srtt_ms t' = 30.
Proof.
  assert (H : timing_ok (mk_timing 20 4 200 8000 5 false)) by (unfold timing_ok, u32_ok; cbn; lia).
  destruct (rtt_estimator_sound 100 _ H) as [_ G]; [unfold u32_ok; lia|].
  destruct (G eq_refl) as (t' & E & _ & _ & _ & _ & F). exists t'. split; [exact E|].
  destruct F as (F & _); [cbn; lia|]. rewrite F. reflexivity.
Defined.

(** Backoff: every sleep after the first is at most 4 s, and a step consumes a retry. *)
Lemma backoff_step_spec b r : u32_ok b → 0 < r < 256 →
  backoff_step b r = (b, Z.min 4000 (u32 (2 * b)), r - 1).
Proof.
  unfold u32_ok, backoff_step. intros Hb Hr. replace (r =? 0) with false by lia.
  rewrite Z.shiftl_mul_pow2 by lia. change (2 ^ 1) with 2. rewrite (Z.mul_comm b 2).
  rewrite u8_small by lia. do 2 f_equal.
  destruct (Z.eqb_spec b 0) as [->|]; [done|]. case_match; lia.
Qed.
Lemma backoff_step_ok b r d b' r' : u32_ok b → 0 <= r < 256 → backoff_step b r = (d, b', r') →
  u32_ok b' ∧ 0 <= r' < 256 ∧ (0 < r → r' = r - 1 ∧ b' <= 4000).
Proof.
  intros Hb Hr E. destruct (decide (r = 0)) as [->|].
  - unfold backoff_step in E. injection E as <- <- <-. by repeat split; try lia; apply Hb.
  - rewrite backoff_step_spec in E by (done || lia). injection E as <- <- <-.
    pose proof (u32_range (2 * b)). unfold u32_ok in *. lia.
Qed.
Lemma backoff_sleeps_capped n : ∀ b r, u32_ok b → b <= 4000 → 0 <= r < 256 →
  Forall (λ d, 0 <= d <= 4000) (backoff_sleeps n b r).
Proof.
  induction n as [|n IH]; intros b r Hb Hc Hr; cbn [backoff_sleeps]; [constructor|].
  destruct (decide (r = 0)) as [->|].
  - cbn. constructor; [lia|]. apply IH; done.
  - rewrite backoff_step_spec by (done || lia). pose proof (u32_range (2 * b)).
    unfold u32_ok in *. constructor; [lia|]. apply IH; lia.
Qed.
