(* ===== verification/Session.v ===== *)
(** The session ([src/val_internal.h]: [struct val_session_s] and the inline helpers;
    [include/val_protocol.h]: [val_config_t], [val_metrics_t]; [src/val_core.c]: error
    recording, [val_session_create], [val_session_destroy], the accessors).

    The caller's hooks (transport, file system, clock, callbacks, optional CRC) are
    the class [Hooks] over an environment of the caller's choice; nothing is assumed
    of them here.  A computation of the library is [M (world E)]: it changes the
    session, the environment and a ghost trace of the hook calls it made. *)
From S2P Require Import Prelude Wire Errors Crc Timing.

(** Build options the code tests: [VAL_BUILD_DIAGNOSTICS] and the log level that
    session creation stores.  [VAL_ENABLE_METRICS] is taken to be on (the metrics
    only count), and logging is left out.  [stack_junk n] is what an uninitialised
    local array of [n] bytes holds. *)
Class BuildOptions := {
  VAL_BUILD_DIAGNOSTICS : bool;
  VAL_LOG_LEVEL : Z;
  stack_junk : Z → list Z
}.
(** [uint8_t buf[n];] *)
Definition local_array `{!BuildOptions} (n : Z) : list Z :=
  map u8 (ztake n (stack_junk n ++ repeat 0 (Z.to_nat n))).

Definition VAL_FEAT_NONE : Z := 0.
Definition VAL_BUILTIN_FEATURES : Z := VAL_FEAT_NONE.
Definition val_get_builtin_features : Z := VAL_BUILTIN_FEATURES.

(** ** Data *)

(** [val_config_t]: the numbers as they are, each optional hook or buffer as a
    flag that says whether the pointer is set. *)
Record val_config_t := mk_config {
  cfg_has_send : bool;
  cfg_has_recv : bool;
  cfg_has_is_connected : bool;
  cfg_has_flush : bool;
  cfg_has_crc32_provider : bool;
  cfg_has_get_ticks_ms : bool;
  cfg_has_delay_ms : bool;
  cfg_min_timeout_ms : Z;
  cfg_max_timeout_ms : Z;
  cfg_handshake_budget_ms : Z;
  cfg_required : Z;
  cfg_requested : Z;
  cfg_meta_retries : Z;
  cfg_data_retries : Z;
  cfg_ack_retries : Z;
  cfg_handshake_retries : Z;
  cfg_backoff_ms_base : Z;
  cfg_has_send_buffer : bool;
  cfg_has_recv_buffer : bool;
  cfg_packet_size : Z;
  cfg_resume_mode : Z;
  cfg_tail_cap_bytes : Z;
  cfg_min_verify_bytes : Z;
  cfg_mismatch_skip : bool;
  cfg_window_cap_packets : Z;
  cfg_initial_cwnd_packets : Z;
  cfg_degrade_error_threshold : Z;
  cfg_recovery_success_threshold : Z;
  cfg_has_alloc : bool;
  cfg_has_free : bool;
  cfg_has_on_file_start : bool;
  cfg_has_on_file_complete : bool;
  cfg_has_on_progress : bool;
  cfg_has_validator : bool;
  cfg_min_level : Z;
  cfg_has_on_packet : bool
}.
#[export] Instance eta_val_config_t : Eta val_config_t := λ r, mk_config
  (cfg_has_send r) (cfg_has_recv r) (cfg_has_is_connected r) (cfg_has_flush r)
  (cfg_has_crc32_provider r) (cfg_has_get_ticks_ms r) (cfg_has_delay_ms r)
  (cfg_min_timeout_ms r) (cfg_max_timeout_ms r) (cfg_handshake_budget_ms r) (cfg_required r)
  (cfg_requested r) (cfg_meta_retries r) (cfg_data_retries r) (cfg_ack_retries r)
  (cfg_handshake_retries r) (cfg_backoff_ms_base r) (cfg_has_send_buffer r)
  (cfg_has_recv_buffer r) (cfg_packet_size r) (cfg_resume_mode r) (cfg_tail_cap_bytes r)
  (cfg_min_verify_bytes r) (cfg_mismatch_skip r) (cfg_window_cap_packets r)
  (cfg_initial_cwnd_packets r) (cfg_degrade_error_threshold r)
  (cfg_recovery_success_threshold r) (cfg_has_alloc r) (cfg_has_free r)
  (cfg_has_on_file_start r) (cfg_has_on_file_complete r) (cfg_has_on_progress r)
  (cfg_has_validator r) (cfg_min_level r) (cfg_has_on_packet r).
#[export] Instance set_cfg_has_send : Setter cfg_has_send. Proof. derive_setter. Defined.
#[export] Instance set_cfg_has_recv : Setter cfg_has_recv. Proof. derive_setter. Defined.
#[export] Instance set_cfg_has_is_connected : Setter cfg_has_is_connected. Proof. derive_setter. Defined.
#[export] Instance set_cfg_has_flush : Setter cfg_has_flush. Proof. derive_setter. Defined.
#[export] Instance set_cfg_has_crc32_provider : Setter cfg_has_crc32_provider. Proof. derive_setter. Defined.
#[export] Instance set_cfg_has_get_ticks_ms : Setter cfg_has_get_ticks_ms. Proof. derive_setter. Defined.
#[export] Instance set_cfg_has_delay_ms : Setter cfg_has_delay_ms. Proof. derive_setter. Defined.
#[export] Instance set_cfg_min_timeout_ms : Setter cfg_min_timeout_ms. Proof. derive_setter. Defined.
#[export] Instance set_cfg_max_timeout_ms : Setter cfg_max_timeout_ms. Proof. derive_setter. Defined.
#[export] Instance set_cfg_handshake_budget_ms : Setter cfg_handshake_budget_ms. Proof. derive_setter. Defined.
#[export] Instance set_cfg_required : Setter cfg_required. Proof. derive_setter. Defined.
#[export] Instance set_cfg_requested : Setter cfg_requested. Proof. derive_setter. Defined.
#[export] Instance set_cfg_meta_retries : Setter cfg_meta_retries. Proof. derive_setter. Defined.
#[export] Instance set_cfg_data_retries : Setter cfg_data_retries. Proof. derive_setter. Defined.
#[export] Instance set_cfg_ack_retries : Setter cfg_ack_retries. Proof. derive_setter. Defined.
#[export] Instance set_cfg_handshake_retries : Setter cfg_handshake_retries. Proof. derive_setter. Defined.
#[export] Instance set_cfg_backoff_ms_base : Setter cfg_backoff_ms_base. Proof. derive_setter. Defined.
#[export] Instance set_cfg_has_send_buffer : Setter cfg_has_send_buffer. Proof. derive_setter. Defined.
#[export] Instance set_cfg_has_recv_buffer : Setter cfg_has_recv_buffer. Proof. derive_setter. Defined.
#[export] Instance set_cfg_packet_size : Setter cfg_packet_size. Proof. derive_setter. Defined.
#[export] Instance set_cfg_resume_mode : Setter cfg_resume_mode. Proof. derive_setter. Defined.
#[export] Instance set_cfg_tail_cap_bytes : Setter cfg_tail_cap_bytes. Proof. derive_setter. Defined.
#[export] Instance set_cfg_min_verify_bytes : Setter cfg_min_verify_bytes. Proof. derive_setter. Defined.
#[export] Instance set_cfg_mismatch_skip : Setter cfg_mismatch_skip. Proof. derive_setter. Defined.
#[export] Instance set_cfg_window_cap_packets : Setter cfg_window_cap_packets. Proof. derive_setter. Defined.
#[export] Instance set_cfg_initial_cwnd_packets : Setter cfg_initial_cwnd_packets. Proof. derive_setter. Defined.
#[export] Instance set_cfg_degrade_error_threshold : Setter cfg_degrade_error_threshold. Proof. derive_setter. Defined.
#[export] Instance set_cfg_recovery_success_threshold : Setter cfg_recovery_success_threshold. Proof. derive_setter. Defined.
#[export] Instance set_cfg_has_alloc : Setter cfg_has_alloc. Proof. derive_setter. Defined.
#[export] Instance set_cfg_has_free : Setter cfg_has_free. Proof. derive_setter. Defined.
#[export] Instance set_cfg_has_on_file_start : Setter cfg_has_on_file_start. Proof. derive_setter. Defined.
#[export] Instance set_cfg_has_on_file_complete : Setter cfg_has_on_file_complete. Proof. derive_setter. Defined.
#[export] Instance set_cfg_has_on_progress : Setter cfg_has_on_progress. Proof. derive_setter. Defined.
#[export] Instance set_cfg_has_validator : Setter cfg_has_validator. Proof. derive_setter. Defined.
#[export] Instance set_cfg_min_level : Setter cfg_min_level. Proof. derive_setter. Defined.
#[export] Instance set_cfg_has_on_packet : Setter cfg_has_on_packet. Proof. derive_setter. Defined.

(** [val_error_t]; [op] is one of the two static strings the setters record. *)
Inductive error_op : Set := OpNull | OpSetLastError | OpSetErrorDetailed.
Record val_error_t := mk_error { err_code : Z; err_detail : Z; err_op : error_op }.

Record val_inflight_packet_t := mk_slot {
  slot_sequence : Z; slot_file_offset : Z; slot_payload_length : Z;
  slot_send_timestamp : Z; slot_retransmit_count : Z; slot_state : Z
}.
Definition zero_slot : val_inflight_packet_t := mk_slot 0 0 0 0 0 0.

Record val_metrics_t := mk_metrics {
  m_packets_sent : Z;
  m_packets_recv : Z;
  m_bytes_sent : Z;
  m_bytes_recv : Z;
  m_send_by_type : list Z;
  m_recv_by_type : list Z;
  m_timeouts : Z;
  m_timeouts_hard : Z;
  m_retransmits : Z;
  m_crc_errors : Z;
  m_handshakes : Z;
  m_files_sent : Z;
  m_files_recv : Z;
  m_rtt_samples : Z
}.
#[export] Instance eta_val_metrics_t : Eta val_metrics_t := λ r, mk_metrics
  (m_packets_sent r) (m_packets_recv r) (m_bytes_sent r) (m_bytes_recv r) (m_send_by_type r)
  (m_recv_by_type r) (m_timeouts r) (m_timeouts_hard r) (m_retransmits r) (m_crc_errors r)
  (m_handshakes r) (m_files_sent r) (m_files_recv r) (m_rtt_samples r).
#[export] Instance set_m_packets_sent : Setter m_packets_sent. Proof. derive_setter. Defined.
#[export] Instance set_m_packets_recv : Setter m_packets_recv. Proof. derive_setter. Defined.
#[export] Instance set_m_bytes_sent : Setter m_bytes_sent. Proof. derive_setter. Defined.
#[export] Instance set_m_bytes_recv : Setter m_bytes_recv. Proof. derive_setter. Defined.
#[export] Instance set_m_send_by_type : Setter m_send_by_type. Proof. derive_setter. Defined.
#[export] Instance set_m_recv_by_type : Setter m_recv_by_type. Proof. derive_setter. Defined.
#[export] Instance set_m_timeouts : Setter m_timeouts. Proof. derive_setter. Defined.
#[export] Instance set_m_timeouts_hard : Setter m_timeouts_hard. Proof. derive_setter. Defined.
#[export] Instance set_m_retransmits : Setter m_retransmits. Proof. derive_setter. Defined.
#[export] Instance set_m_crc_errors : Setter m_crc_errors. Proof. derive_setter. Defined.
#[export] Instance set_m_handshakes : Setter m_handshakes. Proof. derive_setter. Defined.
#[export] Instance set_m_files_sent : Setter m_files_sent. Proof. derive_setter. Defined.
#[export] Instance set_m_files_recv : Setter m_files_recv. Proof. derive_setter. Defined.
#[export] Instance set_m_rtt_samples : Setter m_rtt_samples. Proof. derive_setter. Defined.
Definition zero_metrics : val_metrics_t :=
  mk_metrics 0 0 0 0 (repeat 0 32) (repeat 0 32) 0 0 0 0 0 0 0 0.

#[export] Instance eta_val_timing_t : Eta val_timing_t := λ r, mk_timing
  (srtt_ms r) (rttvar_ms r) (min_timeout_ms r) (max_timeout_ms r) (samples_taken r) (in_retransmit r).
#[export] Instance set_in_retransmit : Setter in_retransmit. Proof. derive_setter. Defined.

(** [struct val_session_s].  [s_lock_depth] is how often the recursive mutex is
    held; the two buffers are the caller's, which the session alone uses.  The slot
    table and the file handle fields are kept although no code reads them. *)
Record val_session_t := mk_session {
  s_cfg : val_config_t;
  s_output_directory : list Z;
  s_seq_counter : Z;
  s_effective_packet_size : Z;
  s_handshake_done : bool;
  s_peer_features : Z;
  s_timing : val_timing_t;
  s_last_error : val_error_t;
  s_negotiated_window_packets : Z;
  s_current_window_packets : Z;
  s_peer_tx_window_packets : Z;
  s_ack_stride_packets : Z;
  s_consecutive_errors : Z;
  s_consecutive_successes : Z;
  s_packets_since_mode_change : Z;
  s_packets_in_flight : Z;
  s_next_seq_to_send : Z;
  s_oldest_unacked_seq : Z;
  s_tracking_slots : list val_inflight_packet_t;
  s_max_tracking_slots : Z;
  s_current_file_position : Z;
  s_total_file_size : Z;
  s_last_keepalive_send_time : Z;
  s_last_keepalive_recv_time : Z;
  s_health_operations : Z;
  s_health_retries : Z;
  s_health_soft_trips : Z;
  s_metrics : val_metrics_t;
  s_lock_depth : Z;
  s_send_buffer : list Z;
  s_recv_buffer : list Z
}.
#[export] Instance eta_val_session_t : Eta val_session_t := λ r, mk_session
  (s_cfg r) (s_output_directory r) (s_seq_counter r) (s_effective_packet_size r)
  (s_handshake_done r) (s_peer_features r) (s_timing r) (s_last_error r)
  (s_negotiated_window_packets r) (s_current_window_packets r) (s_peer_tx_window_packets r)
  (s_ack_stride_packets r) (s_consecutive_errors r) (s_consecutive_successes r)
  (s_packets_since_mode_change r) (s_packets_in_flight r) (s_next_seq_to_send r)
  (s_oldest_unacked_seq r) (s_tracking_slots r) (s_max_tracking_slots r)
  (s_current_file_position r) (s_total_file_size r) (s_last_keepalive_send_time r)
  (s_last_keepalive_recv_time r) (s_health_operations r) (s_health_retries r)
  (s_health_soft_trips r) (s_metrics r) (s_lock_depth r) (s_send_buffer r) (s_recv_buffer r).
#[export] Instance set_s_cfg : Setter s_cfg. Proof. derive_setter. Defined.
#[export] Instance set_s_output_directory : Setter s_output_directory. Proof. derive_setter. Defined.
#[export] Instance set_s_seq_counter : Setter s_seq_counter. Proof. derive_setter. Defined.
#[export] Instance set_s_effective_packet_size : Setter s_effective_packet_size. Proof. derive_setter. Defined.
#[export] Instance set_s_handshake_done : Setter s_handshake_done. Proof. derive_setter. Defined.
#[export] Instance set_s_peer_features : Setter s_peer_features. Proof. derive_setter. Defined.
#[export] Instance set_s_timing : Setter s_timing. Proof. derive_setter. Defined.
#[export] Instance set_s_last_error : Setter s_last_error. Proof. derive_setter. Defined.
#[export] Instance set_s_negotiated_window_packets : Setter s_negotiated_window_packets. Proof. derive_setter. Defined.
#[export] Instance set_s_current_window_packets : Setter s_current_window_packets. Proof. derive_setter. Defined.
#[export] Instance set_s_peer_tx_window_packets : Setter s_peer_tx_window_packets. Proof. derive_setter. Defined.
#[export] Instance set_s_ack_stride_packets : Setter s_ack_stride_packets. Proof. derive_setter. Defined.
#[export] Instance set_s_consecutive_errors : Setter s_consecutive_errors. Proof. derive_setter. Defined.
#[export] Instance set_s_consecutive_successes : Setter s_consecutive_successes. Proof. derive_setter. Defined.
#[export] Instance set_s_packets_since_mode_change : Setter s_packets_since_mode_change. Proof. derive_setter. Defined.
#[export] Instance set_s_packets_in_flight : Setter s_packets_in_flight. Proof. derive_setter. Defined.
#[export] Instance set_s_next_seq_to_send : Setter s_next_seq_to_send. Proof. derive_setter. Defined.
#[export] Instance set_s_oldest_unacked_seq : Setter s_oldest_unacked_seq. Proof. derive_setter. Defined.
#[export] Instance set_s_tracking_slots : Setter s_tracking_slots. Proof. derive_setter. Defined.
#[export] Instance set_s_max_tracking_slots : Setter s_max_tracking_slots. Proof. derive_setter. Defined.
#[export] Instance set_s_current_file_position : Setter s_current_file_position. Proof. derive_setter. Defined.
#[export] Instance set_s_total_file_size : Setter s_total_file_size. Proof. derive_setter. Defined.
#[export] Instance set_s_last_keepalive_send_time : Setter s_last_keepalive_send_time. Proof. derive_setter. Defined.
#[export] Instance set_s_last_keepalive_recv_time : Setter s_last_keepalive_recv_time. Proof. derive_setter. Defined.
#[export] Instance set_s_health_operations : Setter s_health_operations. Proof. derive_setter. Defined.
#[export] Instance set_s_health_retries : Setter s_health_retries. Proof. derive_setter. Defined.
#[export] Instance set_s_health_soft_trips : Setter s_health_soft_trips. Proof. derive_setter. Defined.
#[export] Instance set_s_metrics : Setter s_metrics. Proof. derive_setter. Defined.
#[export] Instance set_s_lock_depth : Setter s_lock_depth. Proof. derive_setter. Defined.
#[export] Instance set_s_send_buffer : Setter s_send_buffer. Proof. derive_setter. Defined.
#[export] Instance set_s_recv_buffer : Setter s_recv_buffer. Proof. derive_setter. Defined.

(** ** Hooks and the world *)

Definition handle : Set := Z.
Inductive fmode : Set := ModeRead | ModeWrite | ModeAppend.
Inductive whence : Set := SEEK_SET | SEEK_END.

(** [val_packet_record_t], without the session pointer. *)
Inductive val_packet_direction_t : Set := VAL_DIR_TX | VAL_DIR_RX.
Record val_packet_record_t := mk_record {
  rec_direction : val_packet_direction_t;
  rec_type : Z; rec_wire_len : Z; rec_payload_len : Z; rec_offset : Z;
  rec_crc_ok : bool; rec_timestamp_ms : Z
}.

Record val_progress_info_t := mk_progress {
  pi_bytes_transferred : Z; pi_total_bytes : Z; pi_current_file_bytes : Z;
  pi_files_completed : Z; pi_total_files : Z; pi_transfer_rate_bps : Z;
  pi_eta_seconds : Z; pi_current_filename : list Z
}.

(** [transfer_rate_bps], as both sides compute it. *)
Definition progress_rate (transferred elapsed_ms : Z) : Z :=
  if 0 <? elapsed_ms then
    let bps := u64 (transferred * 1000) / elapsed_ms in
    if 0xFFFFFFFF <? bps then 0xFFFFFFFF else u32 bps
  else 0.
(** The caller's functions.  [hk_recv size timeout] gives the return code and the
    bytes put in the buffer; [hk_fread] the bytes read; [hk_fopen] a handle or NULL.
    A callback's boolean says that it called [val_emergency_cancel] on the session
    before returning (the tests do).  [hk_append path data] is not the caller's: it is C's
    [fopen(path, "a")], and if that succeeds [fprintf] of [data] and [fclose], as the library
    uses them for its diagnostic records ([Records]). *)
Class Hooks (E : Type) := {
  hk_send : list Z → E → Z * E;
  hk_recv : Z → Z → E → (Z * list Z) * E;
  hk_is_connected : E → Z * E;
  hk_flush : E → E;
  hk_fopen : list Z → fmode → E → option handle * E;
  hk_fread : handle → Z → E → list Z * E;
  hk_fwrite : handle → list Z → E → Z * E;
  hk_fseek : handle → Z → whence → E → Z * E;
  hk_ftell : handle → E → Z * E;
  hk_fclose : handle → E → E;
  hk_crc32 : Z → list Z → Z;
  hk_get_ticks_ms : E → Z * E;
  hk_delay_ms : Z → E → E;
  hk_on_file_start : list Z → list Z → Z → Z → E → bool * E;
  hk_on_file_complete : list Z → list Z → Z → E → bool * E;
  hk_on_progress : val_progress_info_t → E → bool * E;
  hk_validator : val_meta_payload_t → list Z → E → Z * E;
  hk_on_packet : val_packet_record_t → E → E;
  hk_append : list Z → list Z → E → E
}.

(** The ghost trace: what was asked of the caller and of stdio, newest first. *)
Inductive event : Type :=
  | EvSend (frame : list Z) (rc : Z)
  | EvRecv (size timeout : Z) (rc : Z) (got : list Z)
  | EvFlush
  | EvOpen (path : list Z) (mode : fmode) (res : option handle)
  | EvRead (h : handle) (size : Z) (got : list Z)
  | EvWrite (h : handle) (data : list Z) (rc : Z)
  | EvSeek (h : handle) (off : Z) (w : whence) (rc : Z)
  | EvClose (h : handle)
  | EvDelay (ms : Z)
  | EvFileStart (name path : list Z) (size off : Z)
  | EvFileComplete (name path : list Z) (result : Z)
  | EvProgress (info : val_progress_info_t)
  | EvValidate (meta : val_meta_payload_t) (path : list Z) (action : Z)
  | EvPacket (rec : val_packet_record_t)
  | EvAppend (path data : list Z).

Record world (E : Type) := mk_world {
  w_s : val_session_t;
  w_e : E;
  w_tr : list event
}.
Arguments mk_world {E}.
Arguments w_s {E}.
Arguments w_e {E}.
Arguments w_tr {E}.

Section world.
Context {E : Type} `{!Hooks E}.

Definition get_s : M (world E) val_session_t := mgets w_s.
Definition gets_s {A} (f : val_session_t → A) : M (world E) A := mgets (λ w, f (w_s w)).
Definition upd (f : val_session_t → val_session_t) : M (world E) unit :=
  mmod (λ w, mk_world (f (w_s w)) (w_e w) (w_tr w)).
(** Call a hook and note the call. *)
Definition call {A} (h : E → A * E) (ev : A → event) : M (world E) A :=
  mlift (λ w, let '(a, e) := h (w_e w) in (a, mk_world (w_s w) e (ev a :: w_tr w))).
Definition call_unit (h : E → E) (ev : event) : M (world E) unit :=
  mmod (λ w, mk_world (w_s w) (h (w_e w)) (ev :: w_tr w)).

(** The clock is a [uint32_t]; reading it is not traced. *)
Definition get_ticks_ms : M (world E) Z :=
  mlift (λ w, let '(t, e) := hk_get_ticks_ms (w_e w) in (u32 t, mk_world (w_s w) e (w_tr w))).
Definition delay_ms (ms : Z) : M (world E) unit := call_unit (hk_delay_ms ms) (EvDelay ms).

(** What a hook puts in a buffer are bytes, never more than it was asked for. *)
Definition cut (n : Z) (l : list Z) : list Z := map u8 (ztake n l).
Definition transport_recv (size timeout : Z) : M (world E) (Z * list Z) :=
  call (λ e, let '((r, got), e') := hk_recv size timeout e in ((r, cut size got), e'))
    (λ rg, EvRecv size timeout (fst rg) (snd rg)).
Definition transport_send (frame : list Z) : M (world E) Z :=
  call (hk_send frame) (EvSend frame).

Definition fs_fopen (path : list Z) (mode : fmode) : M (world E) (option handle) :=
  call (hk_fopen path mode) (EvOpen path mode).
Definition fs_fread (h : handle) (size : Z) : M (world E) (list Z) :=
  call (λ e, let '(got, e') := hk_fread h size e in (cut size got, e')) (EvRead h size).
Definition fs_fwrite (h : handle) (data : list Z) : M (world E) Z :=
  call (hk_fwrite h data) (EvWrite h data).
Definition fs_fseek (h : handle) (off : Z) (wh : whence) : M (world E) Z :=
  call (hk_fseek h off wh) (EvSeek h off wh).
Definition fs_ftell (h : handle) : M (world E) Z :=
  mlift (λ w, let '(t, e) := hk_ftell h (w_e w) in (t, mk_world (w_s w) e (w_tr w))).
Definition fs_fclose (h : handle) : M (world E) unit := call_unit (hk_fclose h) (EvClose h).

(** ** Locking *)

Definition val_internal_lock : M (world E) unit :=
  upd (λ s, s <| s_lock_depth := s_lock_depth s + 1 |>).
Definition val_internal_unlock : M (world E) unit :=
  upd (λ s, s <| s_lock_depth := s_lock_depth s - 1 |>).

(** ** Errors *)

Definition val_internal_set_last_error_full (code detail : Z) (op : error_op) : M (world E) unit :=
  upd (λ s, s <| s_last_error := mk_error code detail op |>).
Definition val_internal_set_last_error (code detail : Z) : M (world E) unit :=
  val_internal_set_last_error_full code detail OpSetLastError.
Definition val_internal_set_error_detailed (code detail : Z) : M (world E) unit :=
  val_internal_set_last_error_full code detail OpSetErrorDetailed.
Definition VAL_SET_NETWORK_ERROR (d : Z) := val_internal_set_error_detailed VAL_ERR_IO d.
Definition VAL_SET_CRC_ERROR (d : Z) := val_internal_set_error_detailed VAL_ERR_CRC d.
Definition VAL_SET_TIMEOUT_ERROR (d : Z) := val_internal_set_error_detailed VAL_ERR_TIMEOUT d.
Definition VAL_SET_PROTOCOL_ERROR (d : Z) := val_internal_set_error_detailed VAL_ERR_PROTOCOL d.
Definition VAL_SET_FEATURE_ERROR (mask : Z) :=
  val_internal_set_error_detailed VAL_ERR_FEATURE_NEGOTIATION (VAL_SET_MISSING_FEATURE mask).
Definition VAL_SET_PERFORMANCE_ERROR (d : Z) := val_internal_set_error_detailed VAL_ERR_PERFORMANCE d.

Definition val_check_for_cancel : M (world E) bool :=
  gets_s (λ s, err_code (s_last_error s) =? VAL_ERR_ABORTED).

(** ** Metrics *)

Definition upd_metrics (f : val_metrics_t → val_metrics_t) : M (world E) unit :=
  upd (λ s, s <| s_metrics := f (s_metrics s) |>).
Definition val_metrics_inc_timeout :=
  upd_metrics (λ m, m <| m_timeouts := u32 (m_timeouts m + 1) |>).
Definition val_metrics_inc_timeout_hard :=
  upd_metrics (λ m, m <| m_timeouts := u32 (m_timeouts m + 1) |>
                      <| m_timeouts_hard := u32 (m_timeouts_hard m + 1) |>).
Definition val_metrics_inc_retrans :=
  upd_metrics (λ m, m <| m_retransmits := u32 (m_retransmits m + 1) |>).
Definition val_metrics_inc_crcerr :=
  upd_metrics (λ m, m <| m_crc_errors := u32 (m_crc_errors m + 1) |>).
Definition val_metrics_inc_rtt_sample :=
  upd_metrics (λ m, m <| m_rtt_samples := u32 (m_rtt_samples m + 1) |>).
Definition val_metrics_note_handshake :=
  upd_metrics (λ m, m <| m_handshakes := u32 (m_handshakes m + 1) |>).
Definition val_metrics_inc_files_sent :=
  upd_metrics (λ m, m <| m_files_sent := u32 (m_files_sent m + 1) |>).
Definition val_metrics_inc_files_recv :=
  upd_metrics (λ m, m <| m_files_recv := u32 (m_files_recv m + 1) |>).
Definition bump (l : list Z) (type : Z) : list Z :=
  alter (λ c, u64 (c + 1)) (Z.to_nat (Z.land type 31)) l.
Definition val_metrics_add_sent (bytes type : Z) :=
  upd_metrics (λ m, m <| m_packets_sent := u64 (m_packets_sent m + 1) |>
                      <| m_bytes_sent := u64 (m_bytes_sent m + bytes) |>
                      <| m_send_by_type := bump (m_send_by_type m) type |>).
Definition val_metrics_add_recv (bytes type : Z) :=
  upd_metrics (λ m, m <| m_packets_recv := u64 (m_packets_recv m + 1) |>
                      <| m_bytes_recv := u64 (m_bytes_recv m + bytes) |>
                      <| m_recv_by_type := bump (m_recv_by_type m) type |>).

(** ** Transport helpers *)

Definition val_internal_transport_is_connected : M (world E) bool :=
  let! s := get_s in
  if cfg_has_is_connected (s_cfg s) then
    let! r := mlift (λ w, let '(r, e) := hk_is_connected (w_e w) in (r, mk_world (w_s w) e (w_tr w))) in
    mret (negb (r =? 0))
  else mret true.
Definition val_internal_transport_flush : M (world E) unit :=
  let! s := get_s in
  if cfg_has_flush (s_cfg s) then call_unit hk_flush EvFlush else mret tt.

(** ** Timing on the session *)

Definition val_internal_init_timing (s : val_session_t) : val_session_t :=
  s <| s_timing := init_timing (cfg_min_timeout_ms (s_cfg s)) (cfg_max_timeout_ms (s_cfg s)) |>.
Definition set_in_retransmit_flag (b : bool) : M (world E) unit :=
  upd (λ s, s <| s_timing := s_timing s <| in_retransmit := b |> |>).
Definition val_internal_record_rtt (measured_rtt_ms : Z) : M (world E) unit :=
  let! s := get_s in
  match record_rtt measured_rtt_ms (s_timing s) with
  | None => mret tt
  | Some t => do! upd (λ s, s <| s_timing := t |>) in val_metrics_inc_rtt_sample
  end.
Definition val_internal_get_timeout (op : val_operation_type_t) : M (world E) Z :=
  gets_s (λ s, timeout_of (s_timing s) op).
(** The two in-out parameters are returned. *)
Definition val_internal_backoff_step (backoff_ms retries : Z) : M (world E) (Z * Z) :=
  if retries =? 0 then mret (backoff_ms, retries)
  else
    do! (if backoff_ms =? 0 then mret tt else delay_ms backoff_ms) in
    let '(_, b, r) := backoff_step backoff_ms retries in mret (b, r).

(** ** Health *)

Context `{!BuildOptions}.

Definition VAL_HEALTH_RECORD_OPERATION : M (world E) unit :=
  if VAL_BUILD_DIAGNOSTICS
  then upd (λ s, s <| s_health_operations := u32 (s_health_operations s + 1) |>)
  else mret tt.
Definition VAL_HEALTH_RECORD_RETRY : M (world E) unit :=
  if VAL_BUILD_DIAGNOSTICS
  then upd (λ s, s <| s_health_retries := u32 (s_health_retries s + 1) |>)
  else mret tt.
Definition val_internal_check_health : M (world E) Z :=
  if VAL_BUILD_DIAGNOSTICS then
    let! s := get_s in
    let attempts := u32 (s_health_operations s + s_health_retries s) in
    if attempts <? 64 then mret VAL_OK
    else if (8 <=? s_health_retries s) && (attempts <? u32 (s_health_retries s * 2)) then
      do! VAL_SET_PERFORMANCE_ERROR VAL_ERROR_DETAIL_EXCESSIVE_RETRIES in
      mret VAL_ERR_PERFORMANCE
    else mret VAL_OK
  else mret VAL_OK.

(** ** Accessors *)

Definition val_get_cwnd_packets : M (world E) (Z * Z) :=
  do! val_internal_lock in
  let! w := gets_s (λ s, if s_current_window_packets s =? 0 then 1 else s_current_window_packets s) in
  do! val_internal_unlock in mret (VAL_OK, w).
Definition val_get_peer_tx_cap_packets : M (world E) (Z * Z) :=
  do! val_internal_lock in
  let! w := gets_s (λ s, if s_peer_tx_window_packets s =? 0 then 1 else s_peer_tx_window_packets s) in
  do! val_internal_unlock in mret (VAL_OK, w).
(** [P] of every function that frames packets: the negotiated MTU, else the buffers' size. *)
Definition session_mtu (s : val_session_t) : Z :=
  if s_effective_packet_size s =? 0 then cfg_packet_size (s_cfg s) else s_effective_packet_size s.
Definition val_get_effective_packet_size : M (world E) (Z * Z) :=
  do! val_internal_lock in
  let! p := gets_s session_mtu in
  do! val_internal_unlock in mret (VAL_OK, p).
Definition val_get_last_error : M (world E) (Z * (Z * Z)) :=
  let! e := gets_s s_last_error in mret (VAL_OK, (err_code e, err_detail e)).
Definition val_get_error : M (world E) (Z * val_error_t) :=
  let! e := gets_s s_last_error in mret (VAL_OK, e).
Definition val_get_metrics : M (world E) (Z * val_metrics_t) :=
  do! val_internal_lock in
  let! m := gets_s s_metrics in
  do! val_internal_unlock in mret (VAL_OK, m).
Definition val_reset_metrics : M (world E) Z :=
  do! val_internal_lock in
  do! upd_metrics (λ _, zero_metrics) in
  do! val_internal_unlock in mret VAL_OK.

(** The session's CRC: the caller's provider if there is one. *)
Definition val_internal_crc32 (s : val_session_t) (data : list Z) : Z :=
  if cfg_has_crc32_provider (s_cfg s) then u32 (hk_crc32 0xFFFFFFFF data) else val_crc32 data.

End world.

(** Configuration helpers: the context pointer of the validator is the caller's. *)
Definition val_config_validation_disabled (c : val_config_t) : val_config_t :=
  c <| cfg_has_validator := false |>.
Definition val_config_set_validator (c : val_config_t) (validator_set : bool) : val_config_t :=
  c <| cfg_has_validator := validator_set |>.

(** ** Creation and destruction *)

(** Allocation requests and their releases, in order; [custom] says that the
    configured allocator is used and not [calloc]. *)
Inductive alloc_object : Set := ObjSession | ObjSlots (count : Z).
Inductive life_event : Set :=
  | LifeAlloc (custom : bool) (o : alloc_object) (ok : bool)
  | LifeFree (custom : bool) (o : alloc_object)
  | LifeLockInit
  | LifeLockDestroy.

Class Allocator (E : Type) := {
  hk_alloc : bool → alloc_object → E → bool * E
}.

Section life.
Context {E : Type} `{!Allocator E} `{!BuildOptions}.

Definition custom_allocator (c : val_config_t) : bool := cfg_has_alloc c && cfg_has_free c.

(** The essential hooks and buffers that creation insists on. *)
Definition config_missing (c : val_config_t) : bool :=
  negb (cfg_has_send c) || negb (cfg_has_recv c) || negb (cfg_has_get_ticks_ms c)
  || negb (cfg_has_delay_ms c) || negb (cfg_has_send_buffer c) || negb (cfg_has_recv_buffer c)
  || (cfg_packet_size c =? 0).

Definition clamp_budget (c : val_config_t) : Z :=
  let b := cfg_handshake_budget_ms c in
  let b := if b =? 0 then 7000 else b in
  let b := if negb (cfg_min_timeout_ms c =? 0) && (b <? cfg_min_timeout_ms c)
           then cfg_min_timeout_ms c else b in
  if negb (cfg_max_timeout_ms c =? 0) && (u32 (cfg_max_timeout_ms c * 4) <? b)
  then u32 (cfg_max_timeout_ms c * 4) else b.

(** The session as [memset] and the assignments after it leave it; [sb] and [rb] are
    what the caller's buffers hold. *)
Definition init_session (config : val_config_t) (sb rb : list Z) : val_session_t :=
  let c := if cfg_min_level config =? 0
           then config <| cfg_min_level := VAL_LOG_LEVEL |> else config in
  let slots := if cfg_window_cap_packets c =? 0 then 64 else cfg_window_cap_packets c in
  let slots := if slots =? 0 then 1 else slots in
  mk_session (c <| cfg_handshake_budget_ms := clamp_budget c |>)
    [] 0 (cfg_packet_size c) false 0
    (init_timing (cfg_min_timeout_ms c) (cfg_max_timeout_ms c))
    (mk_error VAL_OK 0 OpNull) 1 1 1 0 0 0 0 0 0 0
    (repeat zero_slot (Z.to_nat slots)) slots
    0 0 0 0 0 0 0 zero_metrics 0 sb rb.

(** Status, the session written to [*out_session], [*out_detail], the environment and
    what was allocated and released. *)
Definition val_session_create (config : option val_config_t) (out_session : bool)
    (sb rb : list Z) (e : E) : Z * option val_session_t * Z * E * list life_event :=
  match config with
  | None => (VAL_ERR_INVALID_ARG, None, 0, e, [])
  | Some c =>
    if negb out_session then (VAL_ERR_INVALID_ARG, None, 0, e, [])
    else if config_missing c then (VAL_ERR_INVALID_ARG, None, VAL_SET_MISSING_HOOKS, e, [])
    else if (cfg_packet_size c <? VAL_MIN_PACKET_SIZE) || (VAL_MAX_PACKET_SIZE <? cfg_packet_size c)
    then (VAL_ERR_PACKET_SIZE_MISMATCH, None, VAL_ERROR_DETAIL_PACKET_SIZE, e, [])
    else
      let custom := custom_allocator c in
      let '(ok, e) := hk_alloc custom ObjSession e in
      if negb ok then (VAL_ERR_NO_MEMORY, None, 0, e, [LifeAlloc custom ObjSession ok])
      else
        let s := init_session c sb rb in
        let slots := ObjSlots (s_max_tracking_slots s) in
        let '(ok2, e) := hk_alloc custom slots e in
        if negb ok2 then
          (VAL_ERR_NO_MEMORY, None, 0, e,
           [LifeAlloc custom ObjSession ok; LifeLockInit; LifeAlloc custom slots ok2;
            LifeFree custom ObjSession])
        else
          (VAL_OK, Some s, 0, e,
           [LifeAlloc custom ObjSession ok; LifeLockInit; LifeAlloc custom slots ok2])
  end.

Definition val_session_destroy (s : val_session_t) : list life_event :=
  let custom := custom_allocator (s_cfg s) in
  [LifeLockDestroy; LifeFree custom (ObjSlots (s_max_tracking_slots s)); LifeFree custom ObjSession].

End life.

(** ** The session invariant *)

Definition u8_ok' (z : Z) : Prop := 0 <= z < 2 ^ 8.
Definition u16_ok (z : Z) : Prop := 0 <= z < 2 ^ 16.

(** The widths of the configuration's fields, and what creation checked. *)
Record config_ok (c : val_config_t) : Prop := {
  cok_packet : VAL_MIN_PACKET_SIZE <= cfg_packet_size c <= VAL_MAX_PACKET_SIZE;
  cok_min : u32_ok (cfg_min_timeout_ms c);
  cok_max : u32_ok (cfg_max_timeout_ms c);
  cok_budget : u32_ok (cfg_handshake_budget_ms c);
  cok_ack : u8_ok' (cfg_ack_retries c);
  cok_hs : u8_ok' (cfg_handshake_retries c);
  cok_meta : u8_ok' (cfg_meta_retries c);
  cok_data : u8_ok' (cfg_data_retries c);
  cok_backoff : u32_ok (cfg_backoff_ms_base c);
  cok_tail : u32_ok (cfg_tail_cap_bytes c);
  cok_minv : u32_ok (cfg_min_verify_bytes c);
  cok_wcap : u16_ok (cfg_window_cap_packets c);
  cok_cwnd : u16_ok (cfg_initial_cwnd_packets c);
  cok_deg : u16_ok (cfg_degrade_error_threshold c);
  cok_rec : u16_ok (cfg_recovery_success_threshold c)
}.

Record session_ok (s : val_session_t) : Prop := {
  sok_cfg : config_ok (s_cfg s);
  sok_mtu : VAL_MIN_PACKET_SIZE <= s_effective_packet_size s <= cfg_packet_size (s_cfg s);
  sok_timing : timing_ok (s_timing s);
  sok_window : 1 <= s_current_window_packets s <= s_negotiated_window_packets s;
  sok_negotiated : u16_ok (s_negotiated_window_packets s);
  sok_errors : u32_ok (s_consecutive_errors s);
  sok_successes : u32_ok (s_consecutive_successes s);
  sok_send : cfg_packet_size (s_cfg s) <= zlen (s_send_buffer s);
  sok_recv : cfg_packet_size (s_cfg s) <= zlen (s_recv_buffer s);
  sok_recv_bytes : bytes_ok (s_recv_buffer s)
}.

Lemma session_mtu_ok s : session_ok s → session_mtu s = s_effective_packet_size s.
Proof.
  intros H. unfold session_mtu. pose proof (sok_mtu s H).
  unfold VAL_MIN_PACKET_SIZE in *. by replace (_ =? 0) with false by lia.
Qed.
Lemma session_mtu_range s : session_ok s →
  512 <= session_mtu s <= cfg_packet_size (s_cfg s).
Proof. intros H. rewrite session_mtu_ok by done. apply (sok_mtu s H). Qed.

Lemma clamp_budget_ok c : config_ok c → u32_ok (clamp_budget c).
Proof.
  intros [? ? ? Hb]. unfold clamp_budget, u32_ok in *.
  pose proof (u32_range (cfg_max_timeout_ms c * 4)). repeat case_match; lia.
Qed.

Lemma init_session_ok `{!BuildOptions} c sb rb : config_ok c →
  cfg_packet_size c <= zlen sb → cfg_packet_size c <= zlen rb → bytes_ok rb →
  session_ok (init_session c sb rb).
Proof.
  intros Hc Hs Hr Hb. unfold init_session.
  set (c' := if cfg_min_level c =? 0 then _ else c).
  assert (Hc' : config_ok c' ∧ cfg_packet_size c' = cfg_packet_size c).
  { unfold c'. destruct (_ =? 0); [|done]. split; [|done]. destruct Hc. by constructor. }
  clearbody c'. destruct Hc' as [Hc' Ep]. pose proof (clamp_budget_ok c' Hc').
  constructor; cbn; try (rewrite Ep; done); try (unfold u16_ok, u32_ok; lia); try done.
  - destruct Hc'. by constructor.
  - rewrite Ep. destruct Hc as [? _]. lia.
  - destruct Hc'. by apply timing_ok_init.
Qed.

Lemma session_create_ok_branch {E} `{!Allocator E} `{!BuildOptions} c sb rb (e : E) :
  config_missing c = false → config_ok c →
  val_session_create (Some c) true sb rb e =
  let custom := custom_allocator c in
  let s := init_session c sb rb in
  let slots := ObjSlots (s_max_tracking_slots s) in
  let '(ok, e1) := hk_alloc custom ObjSession e in
  if negb ok then (VAL_ERR_NO_MEMORY, None, 0, e1, [LifeAlloc custom ObjSession false])
  else
    let '(ok2, e2) := hk_alloc custom slots e1 in
    if negb ok2 then
      (VAL_ERR_NO_MEMORY, None, 0, e2,
       [LifeAlloc custom ObjSession true; LifeLockInit; LifeAlloc custom slots false;
        LifeFree custom ObjSession])
    else (VAL_OK, Some s, 0, e2,
          [LifeAlloc custom ObjSession true; LifeLockInit; LifeAlloc custom slots true]).
Proof.
  intros Hm Hc. unfold val_session_create. rewrite Hm. cbn [negb].
  pose proof (cok_packet c Hc).
  replace (cfg_packet_size c <? VAL_MIN_PACKET_SIZE) with false by lia.
  replace (VAL_MAX_PACKET_SIZE <? cfg_packet_size c) with false by lia. cbn [orb].
  destruct (hk_alloc _ ObjSession e) as [[|] e1]; cbn [negb]; [|done].
  by destruct (hk_alloc _ (ObjSlots _) e1) as [[|] e2].
Qed.

(** The fields creation sets on top of the invariant. *)
Lemma init_session_fields `{!BuildOptions} c sb rb : config_ok c →
  let s := init_session c sb rb in
  s_current_window_packets s = 1 ∧ s_handshake_done s = false ∧
  s_last_error s = mk_error VAL_OK 0 OpNull ∧ s_effective_packet_size s = cfg_packet_size c ∧
  s_lock_depth s = 0 ∧ zlen (s_tracking_slots s) = s_max_tracking_slots s ∧
  0 < s_max_tracking_slots s ∧ custom_allocator (s_cfg s) = custom_allocator c.
Proof.
  intros Hc. pose proof (cok_wcap c Hc). unfold u16_ok in *. unfold init_session.
  destruct (cfg_min_level c =? 0); cbn; unfold zlen; rewrite repeat_length;
    repeat split; repeat case_match; lia.
Qed.

(** The tracking slots that creation asks for. *)
Lemma init_session_slots `{!BuildOptions} c sb rb :
  s_max_tracking_slots (init_session c sb rb)
  = if cfg_window_cap_packets c =? 0 then 64 else cfg_window_cap_packets c.
Proof.
  unfold init_session. destruct (cfg_min_level c =? 0); cbn;
    by destruct (cfg_window_cap_packets c).
Qed.

(** C33: [val_session_create] on every branch. NULL arguments, a missing hook or
    buffer and a packet size out of bounds are told apart by status and detail and
    allocate nothing. Otherwise what the allocator answers decides: if it has no room for the
    session, nothing was taken and the status is NO_MEMORY; if it has none for the tracking
    slots, the status is NO_MEMORY and the session's block is given back; only if it has
    both is there a session, which then satisfies the invariant every operation relies on,
    with the window at 1, no handshake and no error recorded, and destroying it releases the
    two blocks. *)
Theorem session_create_spec {E} `{!Allocator E} `{!BuildOptions} c sb rb (e : E) :
  val_session_create None true sb rb e = (VAL_ERR_INVALID_ARG, None, 0, e, []) ∧
  val_session_create (Some c) false sb rb e = (VAL_ERR_INVALID_ARG, None, 0, e, []) ∧
  (config_missing c = true →
   val_session_create (Some c) true sb rb e =
     (VAL_ERR_INVALID_ARG, None, VAL_SET_MISSING_HOOKS, e, [])) ∧
  (config_missing c = false → ~ (512 <= cfg_packet_size c <= 2097152) →
   val_session_create (Some c) true sb rb e =
     (VAL_ERR_PACKET_SIZE_MISMATCH, None, VAL_ERROR_DETAIL_PACKET_SIZE, e, [])) ∧
  (config_missing c = false → config_ok c →
   cfg_packet_size c <= zlen sb → cfg_packet_size c <= zlen rb → bytes_ok rb →
   let custom := custom_allocator c in
   let slots := ObjSlots (if cfg_window_cap_packets c =? 0 then 64 else cfg_window_cap_packets c) in
   let '(ok, e1) := hk_alloc custom ObjSession e in
   let '(ok2, e2) := hk_alloc custom slots e1 in
   if negb ok then
     val_session_create (Some c) true sb rb e =
       (VAL_ERR_NO_MEMORY, None, 0, e1, [LifeAlloc custom ObjSession false])
   else if negb ok2 then
     val_session_create (Some c) true sb rb e =
       (VAL_ERR_NO_MEMORY, None, 0, e2,
        [LifeAlloc custom ObjSession true; LifeLockInit; LifeAlloc custom slots false;
         LifeFree custom ObjSession])
   else
     ∃ s, val_session_create (Some c) true sb rb e =
            (VAL_OK, Some s, 0, e2,
             [LifeAlloc custom ObjSession true; LifeLockInit; LifeAlloc custom slots true]) ∧
       session_ok s ∧ s_current_window_packets s = 1 ∧
       s_handshake_done s = false ∧ s_last_error s = mk_error VAL_OK 0 OpNull ∧
       s_effective_packet_size s = cfg_packet_size c ∧ s_lock_depth s = 0 ∧
       val_session_destroy s = [LifeLockDestroy; LifeFree custom slots; LifeFree custom ObjSession]).
Proof.
  split; [done|]. split; [done|]. split; [cbn; by intros ->|]. split.
  { intros Hm Hp. unfold val_session_create. rewrite Hm. cbn [negb].
    by replace ((_ <? _) || (_ <? _)) with true
      by (unfold VAL_MIN_PACKET_SIZE, VAL_MAX_PACKET_SIZE; lia). }
  intros Hm Hc Hs Hr Hb. rewrite session_create_ok_branch by done. cbv zeta.
  rewrite init_session_slots.
  destruct (hk_alloc _ ObjSession e) as [ok e1]. destruct (hk_alloc _ (ObjSlots _) e1) as [ok2 e2].
  destruct ok; cbn [negb]; [|done]. destruct ok2; cbn [negb]; [|done].
  destruct (init_session_fields c sb rb Hc) as (?&?&?&?&?&_&_&Hcfg).
  eexists. split; [done|]. repeat (split; [done || by apply init_session_ok|]).
  unfold val_session_destroy. by rewrite Hcfg, init_session_slots.
Qed.

(** A configuration with every required hook, for the examples. *)
Definition demo_config : val_config_t :=
  mk_config true true false false false true true 100 2000 0 0 0 3 3 3 3 10 true true 512
    VAL_RESUME_TAIL 0 0 false 4 2 0 0 true true true true true true 0 false.
Lemma demo_config_ok : config_ok demo_config.
Proof. constructor; vm_compute; split; discriminate || done. Qed.
#[export] Instance demo_allocator : Allocator nat :=
  {| hk_alloc _ _ n := match n with O => (false, O) | S n => (true, n) end |}.
#[export] Instance demo_build : BuildOptions := {| VAL_BUILD_DIAGNOSTICS := true; VAL_LOG_LEVEL := 0; stack_junk _ := [] |}.

Lemma session_create_spec_witness :
  config_missing demo_config = false ∧
  (∃ s, val_session_create (Some demo_config) true (repeat 0 512) (repeat 0 512) 2%nat
       = (VAL_OK, Some s, 0, O,
          [LifeAlloc true ObjSession true; LifeLockInit; LifeAlloc true (ObjSlots 4) true]) ∧
       session_ok s) ∧
  val_session_create (Some demo_config) true (repeat 0 512) (repeat 0 512) 1%nat
    = (VAL_ERR_NO_MEMORY, None, 0, O,
       [LifeAlloc true ObjSession true; LifeLockInit; LifeAlloc true (ObjSlots 4) false;
        LifeFree true ObjSession]) ∧
  val_session_create (Some demo_config) true (repeat 0 512) (repeat 0 512) 0%nat
    = (VAL_ERR_NO_MEMORY, None, 0, O, [LifeAlloc true ObjSession false]).
Proof.
  split; [reflexivity|].
  assert (Hb : bytes_ok (repeat 0 512)) by apply bytes_ok_zeros.
  assert (Hl : 512 <= zlen (repeat 0 512)) by (vm_compute; discriminate).
  pose proof (λ n : nat, proj2 (proj2 (proj2 (proj2
    (session_create_spec demo_config (repeat 0 512) (repeat 0 512) n)))) eq_refl demo_config_ok Hl Hl Hb) as Hall.
  split; [|exact (conj (Hall 1%nat) (Hall 0%nat))].
  destruct (Hall 2%nat) as (s & E & Hok & _). exists s. exact (conj E Hok).
Defined.

(** When the second allocation of [val_session_create] fails, the session's
    memory is released but the mutex initialised before it is not destroyed. *)
Theorem session_create_leaks_mutex {E} `{!Allocator E} `{!BuildOptions} c sb rb (e : E) e1 e2 :
  config_missing c = false → config_ok c →
  hk_alloc (custom_allocator c) ObjSession e = (true, e1) →
  hk_alloc (custom_allocator c) (ObjSlots (s_max_tracking_slots (init_session c sb rb))) e1 = (false, e2) →
  let ev := snd (val_session_create (Some c) true sb rb e) in
  fst (fst (fst (fst (val_session_create (Some c) true sb rb e)))) = VAL_ERR_NO_MEMORY ∧
  In (LifeFree (custom_allocator c) ObjSession) ev ∧
  In LifeLockInit ev ∧ ~ In LifeLockDestroy ev.
Proof.
  intros Hm Hc H1 H2. rewrite session_create_ok_branch by done. cbv zeta.
  rewrite H1. cbn [negb]. rewrite H2. cbn [negb fst snd In]. repeat split; auto.
  intros H'. repeat destruct H' as [H'|H']; discriminate || done.
Qed.
Lemma session_create_leaks_mutex_witness :
  val_session_create (Some demo_config) true (repeat 0 512) (repeat 0 512) 1%nat
  = (VAL_ERR_NO_MEMORY, None, 0, O,
     [LifeAlloc true ObjSession true; LifeLockInit; LifeAlloc true (ObjSlots 4) false;
      LifeFree true ObjSession]) ∧
  ~ In LifeLockDestroy (snd (val_session_create (Some demo_config) true (repeat 0 512) (repeat 0 512) 1%nat)).
Proof.
  split; [reflexivity|].
  exact (proj2 (proj2 (proj2 (session_create_leaks_mutex demo_config (repeat 0 512) (repeat 0 512)
    1%nat O O eq_refl demo_config_ok eq_refl eq_refl)))).
Defined.

(** ** What every operation keeps

    [safe c n m]: from a session with configuration [c] that satisfies the invariant, [m]
    leaves one that does,
    with the same configuration, its buffers at their size (nothing was written past
    their end), the mutex held [n] times more, and the environment and trace whatever
    the hooks made of them. *)
Definition stable (n : Z) (s s' : val_session_t) : Prop :=
  session_ok s' ∧ s_cfg s' = s_cfg s ∧ s_lock_depth s' = s_lock_depth s + n ∧
  zlen (s_send_buffer s') = zlen (s_send_buffer s) ∧
  zlen (s_recv_buffer s') = zlen (s_recv_buffer s).
Definition safe {E A} (c : val_config_t) (n : Z) (m : M (world E) A) : Prop :=
  ∀ w, session_ok (w_s w) → s_cfg (w_s w) = c → wpp m (λ _ w', stable n (w_s w) (w_s w')) w.

Create HintDb safe discriminated.

Lemma stable_refl s : session_ok s → stable 0 s s.
Proof. intros H. repeat split; try apply H; try done. lia. Qed.
Lemma stable_trans n m s s' s'' : stable n s s' → stable m s' s'' → stable (n + m) s s''.
Proof.
  intros (?&E1&L1&A1&B1) (?&E2&L2&A2&B2). split; [done|].
  rewrite E2, E1, L2, L1, A2, A1, B2, B1. repeat split. lia.
Qed.

Section safe.
Context {E : Type} `{!Hooks E} {c : val_config_t}.
Implicit Types n : Z.

Lemma safe_ret {A} (a : A) : safe (E:=E) c 0 (mret a).
Proof. intros w H Hc. apply wp_ret. by apply stable_refl. Qed.
Lemma safe_bind {A B} n k (m : M (world E) A) (f : A → M (world E) B) :
  safe c n m → (∀ a, safe c k (f a)) → safe c (n + k) (mbind m f).
Proof.
  intros Hm Hf w H Hc. apply wp_bind. eapply wp_mono; [by apply Hm|]. intros a w' H'.
  eapply wp_mono; [apply Hf; [apply H'|by rewrite <- Hc; apply H']|]. intros b w'' H''.
  cbv beta in *. by eapply stable_trans.
Qed.
Lemma safe_bind0 {A B} n (m : M (world E) A) (f : A → M (world E) B) :
  safe c 0 m → (∀ a, safe c n (f a)) → safe c n (mbind m f).
Proof. intros. change n with (0 + n). by apply safe_bind. Qed.
Lemma safe_gets {A} (f : val_session_t → A) : safe (E:=E) c 0 (gets_s f).
Proof. intros w H Hc. apply wp_gets. by apply stable_refl. Qed.
Lemma safe_get : safe (E:=E) c 0 get_s.
Proof. exact (safe_gets (λ s, s)). Qed.
(** Reading the session gives one that satisfies the invariant. *)
Lemma safe_get_bind {B} n (f : val_session_t → M (world E) B) :
  (∀ s, session_ok s → s_cfg s = c → safe c n (f s)) → safe c n (mbind get_s f).
Proof. intros Hf w H Hc. apply wp_bind, wp_gets. by apply Hf. Qed.
Lemma safe_upd n (f : val_session_t → val_session_t) :
  (∀ s, session_ok s → s_cfg s = c → stable n s (f s)) → safe (E:=E) c n (upd f).
Proof. intros Hf w H Hc. apply wp_mod. cbn. by apply Hf. Qed.
Lemma safe_loop {S A} fuel (body : S → M (world E) (S + A)) l :
  (∀ l, safe c 0 (body l)) → safe c 0 (loop fuel body l).
Proof.
  intros Hb w H Hc. apply (wpp_loop (λ _ w', stable 0 (w_s w) (w_s w'))); [|by apply stable_refl].
  intros l' w' H'. eapply wp_mono; [apply Hb; [apply H'|by rewrite <- Hc; apply H']|].
  intros [?|?] w'' H''; cbv beta in *; change 0 with (0 + 0); by eapply stable_trans.
Qed.
Lemma safe_call {A} (h : E → A * E) ev : safe c 0 (call h ev).
Proof. intros w H Hc. apply wp_lift. destruct (h (w_e w)). by apply stable_refl. Qed.
Lemma safe_call_unit (h : E → E) ev : safe c 0 (call_unit h ev).
Proof. intros w H Hc. apply wp_mod. by apply stable_refl. Qed.
Lemma safe_env {A} (h : E → A * E) :
  safe c 0 (mlift (λ w, let '(a, e) := h (w_e w) in (a, mk_world (w_s w) e (w_tr w)))).
Proof. intros w H Hc. apply wp_lift. destruct (h (w_e w)). by apply stable_refl. Qed.
Lemma safe_ticks : safe c 0 get_ticks_ms.
Proof. intros w H Hc. apply wp_lift. destruct (hk_get_ticks_ms (w_e w)). by apply stable_refl. Qed.
Lemma safe_lock_bind {B} n (k : unit → M (world E) B) :
  (∀ u, safe c (n - 1) (k u)) → safe c n (mbind val_internal_lock k).
Proof.
  intros Hk. replace n with (1 + (n - 1)) by lia. apply safe_bind; [|done].
  apply safe_upd. intros s H _. split; [destruct H; by constructor|]. by repeat split.
Qed.
Lemma safe_unlock_bind {B} n (k : unit → M (world E) B) :
  (∀ u, safe c (n + 1) (k u)) → safe c n (mbind val_internal_unlock k).
Proof.
  intros Hk. replace n with (-1 + (n + 1)) by lia. apply safe_bind; [|done].
  apply safe_upd. intros s H _. split; [destruct H; by constructor|]. by repeat split.
Qed.
End safe.

(** An assignment to fields the invariant does not mention. *)
Ltac benign :=
  apply safe_upd; intros ? [] ?;
  split; [constructor; try done|
          repeat split; first [done | apply Z.add_0_r | symmetry; apply Z.add_0_r]].
Lemma safe_set_error {E} `{!Hooks E} {c} st d o : safe (E:=E) c 0 (val_internal_set_last_error_full st d o).
Proof. benign. Qed.
Lemma safe_upd_metrics {E} `{!Hooks E} {c} f : safe (E:=E) c 0 (upd_metrics f).
Proof. benign. Qed.

(** Follow the code: binds, branches and loops; what is left are the calls, which the
    hint database knows. *)
Ltac safe_step :=
  lazymatch goal with
  | |- safe _ _ (mbind val_internal_lock _) => apply safe_lock_bind; intros ?
  | |- safe _ _ (mbind val_internal_unlock _) => apply safe_unlock_bind; intros ?
  | |- safe _ _ (mbind get_s _) => apply safe_get_bind; intros ? ? ?
  | |- safe _ _ (mbind _ _) => apply safe_bind0; [|intros ?]
  | |- safe _ _ (mret _) => first [apply safe_ret | exact (safe_ret _)]
  | |- safe _ _ (loop _ _ _) => apply safe_loop; intros ?
  | |- safe _ _ (match ?x with _ => _ end) => destruct x
  | |- safe _ _ (let _ := _ in _) => cbv zeta
  | |- safe _ _ _ => first [solve [auto with safe nocore] | apply safe_upd_metrics | apply safe_set_error | progress cbv beta iota]
  end.
Ltac safe_auto := repeat safe_step.
#[export] Hint Resolve safe_gets safe_call safe_call_unit safe_env safe_ticks safe_get : safe.

Section safe_ops.
Context {E : Type} `{!Hooks E} `{!BuildOptions} {c : val_config_t}.

Lemma safe_recv n t : safe c 0 (transport_recv n t).
Proof. apply safe_call. Qed.
Lemma safe_send f : safe c 0 (transport_send f).
Proof. apply safe_call. Qed.
Lemma safe_fopen p m : safe c 0 (fs_fopen p m).
Proof. apply safe_call. Qed.
Lemma safe_fread h n : safe c 0 (fs_fread h n).
Proof. apply safe_call. Qed.
Lemma safe_fwrite h d : safe c 0 (fs_fwrite h d).
Proof. apply safe_call. Qed.
Lemma safe_fseek h o w : safe c 0 (fs_fseek h o w).
Proof. apply safe_call. Qed.
Lemma safe_ftell h : safe c 0 (fs_ftell h).
Proof. apply safe_env. Qed.
Lemma safe_fclose h : safe c 0 (fs_fclose h).
Proof. apply safe_call_unit. Qed.
Lemma safe_delay ms : safe c 0 (delay_ms ms).
Proof. apply safe_call_unit. Qed.
Lemma safe_set_last_error st d : safe (E:=E) c 0 (val_internal_set_last_error st d).
Proof. apply safe_set_error. Qed.
Lemma safe_set_error_detailed st d : safe (E:=E) c 0 (val_internal_set_error_detailed st d).
Proof. apply safe_set_error. Qed.
Lemma safe_check_for_cancel : safe (E:=E) c 0 val_check_for_cancel.
Proof. apply safe_gets. Qed.
Lemma safe_is_connected : safe c 0 val_internal_transport_is_connected.
Proof. unfold val_internal_transport_is_connected. safe_auto. Qed.
Lemma safe_flush : safe c 0 val_internal_transport_flush.
Proof. unfold val_internal_transport_flush. safe_auto. Qed.
Lemma safe_set_in_retransmit b : safe (E:=E) c 0 (set_in_retransmit_flag b).
Proof. benign. Qed.
Lemma safe_get_timeout op : safe (E:=E) c 0 (val_internal_get_timeout op).
Proof. apply safe_gets. Qed.
Lemma safe_record_rtt r : u32_ok r → safe (E:=E) c 0 (val_internal_record_rtt r).
Proof.
  intros Hr. unfold val_internal_record_rtt. apply safe_get_bind. intros s Hs _.
  destruct (record_rtt r (s_timing s)) as [t|] eqn:Et; [|apply safe_ret].
  apply safe_bind0; [|intros; apply safe_upd_metrics].
  pose proof (record_rtt_ok _ _ _ (sok_timing s Hs) Hr Et). benign.
Qed.
Lemma safe_backoff_step b r : safe c 0 (val_internal_backoff_step b r).
Proof.
  unfold val_internal_backoff_step. destruct (r =? 0); [apply safe_ret|].
  apply safe_bind0; [destruct (b =? 0); [apply safe_ret|apply safe_delay]|intros _].
  destruct (backoff_step b r) as [[? ?] ?]. apply safe_ret.
Qed.
Lemma safe_record_operation : safe (E:=E) c 0 VAL_HEALTH_RECORD_OPERATION.
Proof. unfold VAL_HEALTH_RECORD_OPERATION. destruct VAL_BUILD_DIAGNOSTICS; [benign|apply safe_ret]. Qed.
Lemma safe_record_retry : safe (E:=E) c 0 VAL_HEALTH_RECORD_RETRY.
Proof. unfold VAL_HEALTH_RECORD_RETRY. destruct VAL_BUILD_DIAGNOSTICS; [benign|apply safe_ret]. Qed.
Lemma safe_check_health : safe (E:=E) c 0 val_internal_check_health.
Proof.
  unfold val_internal_check_health. destruct VAL_BUILD_DIAGNOSTICS; [|apply safe_ret].
  safe_auto.
Qed.
End safe_ops.
#[export] Hint Resolve safe_recv safe_send safe_fopen safe_fread safe_fwrite safe_fseek safe_ftell
  safe_fclose safe_delay safe_set_error safe_set_last_error safe_set_error_detailed
  safe_check_for_cancel safe_upd_metrics safe_is_connected safe_flush safe_set_in_retransmit
  safe_get_timeout safe_record_rtt safe_backoff_step safe_record_operation safe_record_retry
  safe_check_health u32_ok_u32 : safe.

(** The same with something known of the result. *)
Definition safe_post {E A} (c : val_config_t) (n : Z) (m : M (world E) A) (P : A → Prop) : Prop :=
  ∀ w, session_ok (w_s w) → s_cfg (w_s w) = c →
    wpp m (λ a w', stable n (w_s w) (w_s w') ∧ P a) w.

Section safe_post.
Context {E : Type} `{!Hooks E} {c : val_config_t}.
Implicit Types n : Z.

Lemma safe_post_safe {A} n (m : M (world E) A) P : safe_post c n m P → safe c n m.
Proof. intros Hm w Hw Hc. eapply wp_mono; [by apply Hm|]. by intros a w' []. Qed.
Lemma safe_post_ret {A} (a : A) (P : A → Prop) : P a → safe_post (E:=E) c 0 (mret a) P.
Proof. intros Ha w Hw Hc. apply wp_ret. split; [by apply stable_refl|done]. Qed.
Lemma safe_safe_post {A} n (m : M (world E) A) (P : A → Prop) :
  safe c n m → (∀ a, P a) → safe_post c n m P.
Proof. intros Hm Ha w Hw Hc. eapply wp_mono; [by apply Hm|]. intros a w' ?. split; [done|apply Ha]. Qed.
Lemma safe_post_bind {A B} n k (m : M (world E) A) (f : A → M (world E) B) P Q :
  safe_post c n m P → (∀ a, P a → safe_post c k (f a) Q) → safe_post c (n + k) (mbind m f) Q.
Proof.
  intros Hm Hf w Hw Hc. apply wp_bind. eapply wp_mono; [by apply Hm|]. intros a w' [Hst Ha].
  eapply wp_mono; [apply Hf; [done|apply Hst|by rewrite <- Hc; apply Hst]|]. intros b w'' [Hst' Hb].
  split; [by eapply stable_trans|done].
Qed.
Lemma safe_post_bind1 {A B} n (m : M (world E) A) (f : A → M (world E) B) P Q :
  safe_post c 0 m P → (∀ a, P a → safe_post c n (f a) Q) → safe_post c n (mbind m f) Q.
Proof. change n with (0 + n). apply safe_post_bind. Qed.
Lemma safe_post_bind0 {A B} n (m : M (world E) A) (f : A → M (world E) B) Q :
  safe c 0 m → (∀ a, safe_post c n (f a) Q) → safe_post c n (mbind m f) Q.
Proof.
  intros Hm Hf. change n with (0 + n). apply (safe_post_bind _ _ _ _ (λ _, True)); [|naive_solver].
  by apply safe_safe_post.
Qed.
Lemma safe_post_get_bind {B} n (f : val_session_t → M (world E) B) Q :
  (∀ s, session_ok s → s_cfg s = c → safe_post c n (f s) Q) → safe_post c n (mbind get_s f) Q.
Proof. intros Hf w Hw Hc. apply wp_bind, wp_gets. by apply Hf. Qed.
Lemma safe_post_loop {S A} fuel (body : S → M (world E) (S + A)) l (I : S → Prop) Q : I l →
  (∀ l, I l → safe_post c 0 (body l) (λ r, match r with inl l' => I l' | inr a => Q a end)) →
  safe_post c 0 (loop fuel body l) Q.
Proof.
  intros Hl Hb w Hw Hc.
  apply (wpp_loop (λ l w', stable 0 (w_s w) (w_s w') ∧ I l)); [|split; [by apply stable_refl|done]].
  intros l' w' [Hst HI]. eapply wp_mono; [apply Hb; [done|apply Hst|by rewrite <- Hc; apply Hst]|].
  intros r w'' [Hst' HQ]. cbv beta in *.
  assert (stable 0 (w_s w) (w_s w'')) by (change 0 with (0 + 0); by eapply stable_trans).
  by destruct r.
Qed.
Lemma safe_bind_post {A B} n (m : M (world E) A) (f : A → M (world E) B) P :
  safe_post c 0 m P → (∀ a, P a → safe c n (f a)) → safe c n (mbind m f).
Proof.
  intros Hm Hf. apply (safe_post_safe _ _ (λ _, True)). change n with (0 + n).
  eapply safe_post_bind; [done|]. intros a Ha. apply safe_safe_post; [by apply Hf|done].
Qed.
End safe_post.

(** Results alone. *)
Section gives.
Context {E : Type} `{!Hooks E}.

Lemma wpp_and {A} (m : M (world E) A) (Q R : A → world E → Prop) w :
  wpp m Q w → wpp m R w → wpp m (λ a w', Q a w' ∧ R a w') w.
Proof. unfold wp. destruct (m w) as [[a w']|]; auto. Qed.
Definition gives {A} (m : M (world E) A) (Q : A → Prop) : Prop := ∀ w, wpp m (λ a _, Q a) w.
Lemma gives_bind {A B} (m : M (world E) A) (k : A → M (world E) B) Q : (∀ a, gives (k a) Q) → gives (mbind m k) Q.
Proof. intros Hk w. apply wpp_bind_any. intros a. apply Hk. Qed.
Lemma gives_ret {A} (a : A) (Q : A → Prop) : Q a → gives (mret a) Q.
Proof. intros Ha w. by apply wp_ret. Qed.
Lemma wpp_gives {A} (m : M (world E) A) (Q : A → Prop) (R : A → world E → Prop) w :
  gives m Q → wpp m R w → wpp m (λ a w', Q a ∧ R a w') w.
Proof. intros Hg. by apply wpp_and. Qed.
End gives.
