(* ===== verification/Records.v ===== *)
(** The diagnostic records of the resume code ([resume_trace.log]).

    Three functions of the library append a line of text to [resume_trace.log] with C's
    stdio, not with the caller's file system: [val_internal_receive_files] in mode NEVER,
    before RESUME_RESP ([src/val_receiver.c]), the sender before VERIFY
    ([src/val_sender.c]) and [val_internal_wait_verify_result] ([src/val_core.c]).  The
    results of the three stdio calls are not looked at.  [hk_append] stands for them. *)
From stdpp Require Import strings.
From Stdlib Require Import String Ascii.
From S2P Require Import Prelude Session.
#[local] Open Scope string_scope.
#[local] Open Scope list_scope.
#[local] Open Scope Z_scope.

(** A string literal of the C code. *)
Definition text (s : string) : list Z := map (λ a, Z.of_N (N_of_ascii a)) (String.list_ascii_of_string s).

(** ** Numbers in [printf]'s way *)

(** A digit below 16, in lower case. *)
Definition digit_char (d : Z) : Z := if d <? 10 then 48 + d else 87 + d.
Fixpoint decimal_loop (fuel : nat) (v : Z) (acc : list Z) : list Z :=
  match fuel with
  | O => acc
  | S fuel =>
      let acc := digit_char (v mod 10) :: acc in
      if v / 10 =? 0 then acc else decimal_loop fuel (v / 10) acc
  end.
(** [%u] and [%llu]: 20 digits are enough for 64 bits. *)
Definition print_decimal (v : Z) : list Z := decimal_loop 20 v [].
Fixpoint hex_loop (n : nat) (v : Z) (acc : list Z) : list Z :=
  match n with O => acc | S n => hex_loop n (v / 16) (digit_char (v mod 16) :: acc) end.
(** [0x%08x] of a [uint32_t]. *)
Definition print_hex32 (v : Z) : list Z := text "0x" ++ hex_loop 8 v [].

(** ** The records *)

Inductive trace_record : Set :=
  | RecvResumeResp (action resume_off verify_crc verify_len : Z)
  | SenderVerify (start crc len : Z)
  | VerifyResultOk (resume_off : Z)
  | VerifyResultSkipped
  | VerifyResultMismatch.

Definition trace_line (r : trace_record) : list Z :=
  (match r with
   | RecvResumeResp action resume_off verify_crc verify_len =>
       text "RECV_RESUME_RESP action=" ++ print_decimal action ++ text " resume_off=" ++ print_decimal resume_off ++
       text " verify_crc=" ++ print_hex32 verify_crc ++ text " verify_len=" ++ print_decimal verify_len
   | SenderVerify start crc len =>
       text "SENDER_VERIFY start=" ++ print_decimal start ++ text " crc=" ++ print_hex32 crc ++
       text " len=" ++ print_decimal len
   | VerifyResultOk resume_off => text "VERIFY_RESULT status=OK resume_off=" ++ print_decimal resume_off
   | VerifyResultSkipped => text "VERIFY_RESULT status=SKIPPED resume_off=UINT64_MAX"
   | VerifyResultMismatch => text "VERIFY_RESULT status=ERR_RESUME_VERIFY resume_off=0"
   end) ++ [10].

(** The file, in the working directory of the program. *)
Definition trace_log : list Z := text "resume_trace.log".

(** [FILE *tf = fopen("resume_trace.log", "a"); if (tf) { fprintf(tf, ...); fclose(tf); }] *)
Definition append_trace {E} `{!Hooks E} (r : trace_record) : M (world E) unit :=
  call_unit (hk_append trace_log (trace_line r)) (EvAppend trace_log (trace_line r)).

(** ** What is written is text *)

Lemma text_bytes s : bytes_ok (text s).
Proof.
  unfold text, bytes_ok. induction (String.list_ascii_of_string s) as [|a l IH]; [constructor|]. cbn. constructor; [|done].
  pose proof (N_ascii_bounded a). unfold byte_ok. lia.
Qed.
Lemma digit_char_byte d : 0 <= d < 16 → byte_ok (digit_char d).
Proof. unfold digit_char, byte_ok. destruct (d <? 10); lia. Qed.
Lemma decimal_loop_bytes fuel v acc : bytes_ok acc → bytes_ok (decimal_loop fuel v acc).
Proof.
  revert v acc. induction fuel as [|fuel IH]; intros v acc Ha; [done|]. cbn [decimal_loop].
  pose proof (Z.mod_pos_bound v 10 ltac:(lia)).
  assert (bytes_ok (digit_char (v mod 10) :: acc)) by (constructor; [apply digit_char_byte; lia|done]).
  destruct (_ =? 0); [done|by apply IH].
Qed.
Lemma hex_loop_bytes n v acc : bytes_ok acc → bytes_ok (hex_loop n v acc).
Proof.
  revert v acc. induction n as [|n IH]; intros v acc Ha; [done|]. cbn [hex_loop]. apply IH.
  pose proof (Z.mod_pos_bound v 16 ltac:(lia)). constructor; [apply digit_char_byte; lia|done].
Qed.
Lemma trace_line_bytes r : bytes_ok (trace_line r).
Proof.
  assert (Hd : ∀ v, bytes_ok (print_decimal v)) by (intros; apply decimal_loop_bytes; constructor).
  assert (Hh : ∀ v, bytes_ok (print_hex32 v))
    by (intros; apply bytes_ok_app; split; [apply text_bytes|apply hex_loop_bytes; constructor]).
  unfold trace_line. apply bytes_ok_app. split; [|by repeat constructor].
  destruct r; repeat first [apply text_bytes|apply Hd|apply Hh|apply bytes_ok_app; split].
Qed.

(** A number below 10^20 reads back as itself. *)
Definition read_decimal (l : list Z) : Z := foldl (λ v c, v * 10 + (c - 48)) 0 l.
Lemma foldl_shift acc v : foldl (λ v c, v * 10 + (c - 48)) v acc = v * 10 ^ zlen acc + read_decimal acc.
Proof.
  revert v. unfold read_decimal. induction acc as [|c acc IH]; intros v; cbn [foldl]; [rewrite zlen_nil; lia|].
  pose proof (zlen_nonneg acc). rewrite IH, (IH (0 * 10 + _)), zlen_cons, Z.pow_add_r by lia. lia.
Qed.
Lemma read_decimal_cons d acc : 0 <= d < 10 → read_decimal (digit_char d :: acc) = d * 10 ^ zlen acc + read_decimal acc.
Proof.
  intros Hd. unfold read_decimal at 1. cbn [foldl]. rewrite foldl_shift. unfold digit_char.
  replace (d <? 10) with true by lia. lia.
Qed.
Lemma decimal_loop_reads fuel v acc : 0 <= v < 10 ^ Z.of_nat fuel → (0 < fuel)%nat →
  read_decimal (decimal_loop fuel v acc) = v * 10 ^ zlen acc + read_decimal acc.
Proof.
  revert v acc. induction fuel as [|fuel IH]; intros v acc Hv Hf; [lia|]. cbn [decimal_loop].
  rewrite Nat2Z.inj_succ, Z.pow_succ_r in Hv by lia.
  pose proof (Z.div_mod v 10 ltac:(lia)). pose proof (Z.mod_pos_bound v 10 ltac:(lia)). pose proof (zlen_nonneg acc).
  destruct (Z.eqb_spec (v / 10) 0) as [E|Hne]; [rewrite read_decimal_cons by lia; nia|].
  assert (0 < v / 10 < 10 ^ Z.of_nat fuel).
  { split; [pose proof (Z.div_pos v 10); lia|apply Z.div_lt_upper_bound; lia]. }
  destruct fuel as [|fuel]; [cbn in *; lia|].
  rewrite IH, read_decimal_cons, zlen_cons, Z.pow_add_r by lia. nia.
Qed.
Lemma print_decimal_reads v : 0 <= v < 2 ^ 64 → read_decimal (print_decimal v) = v.
Proof. intros Hv. unfold print_decimal. rewrite decimal_loop_reads by lia. change (read_decimal []) with 0. rewrite zlen_nil. lia. Qed.
Example trace_line_ok : trace_line (VerifyResultOk 600) = text "VERIFY_RESULT status=OK resume_off=600" ++ [10].
Proof. reflexivity. Qed.
Example trace_line_resp : trace_line (RecvResumeResp 4 1024 0xDEAD12 512) =
  text "RECV_RESUME_RESP action=4 resume_off=1024 verify_crc=0x00dead12 verify_len=512" ++ [10].
Proof. reflexivity. Qed.
