(* ===== verification/Log.v ===== *)
(** Logging ([src/val_core.c]: [val_internal_log], [val_internal_logf]): which messages
    reach the application's sink, and with what text.  The sink is a call out with no
    effect on the session, so what is modelled is its argument. *)
From S2P Require Import Prelude Session.

Section log.
Context `{!BuildOptions}.

(** The text given to the sink, if it is called at all. *)
Definition val_internal_log (c : val_config_t) (has_sink : bool) (level : Z) (msg : list Z) : option (list Z) :=
  if negb has_sink then None
  else if VAL_LOG_LEVEL =? 0 then None
  else if cfg_min_level c =? 0 then None
  else if level <=? cfg_min_level c then Some msg else None.

(** [formatted] is what [vsnprintf] makes of format and arguments, [None] for its error
    value; [heap] tells whether [malloc] gives a buffer for a long text. *)
Definition val_internal_logf (c : val_config_t) (has_sink : bool) (level : Z) (fmt : list Z)
    (formatted : option (list Z)) (heap : bool) : option (list Z) :=
  let stackbuf := 256 in
  if negb has_sink then None
  else if VAL_LOG_LEVEL =? 0 then None
  else if (cfg_min_level c =? 0) || (cfg_min_level c <? level) then None
  else
    match formatted with
    | None => Some fmt
    | Some txt =>
        if zlen txt <? stackbuf then Some txt
        else if negb heap then Some (ztake (stackbuf - 1) txt)
        else Some txt
    end.

(** Both functions let the same messages through. *)
Lemma logf_gate c sink level fmt txt heap msg :
  is_Some (val_internal_logf c sink level fmt txt heap) ↔ is_Some (val_internal_log c sink level msg).
Proof.
  unfold val_internal_logf, val_internal_log. destruct sink; cbn [negb]; [|done].
  destruct (VAL_LOG_LEVEL =? 0); [done|]. destruct (cfg_min_level c =? 0); cbn [orb]; [done|].
  destruct (Z.ltb_spec (cfg_min_level c) level); destruct (Z.leb_spec level (cfg_min_level c)); try lia; [done|].
  split; [by eauto|]. intros _. repeat case_match; eauto.
Qed.
(** A text is cut only when memory is short, and then to what the stack buffer holds. *)
Lemma logf_text c sink level fmt txt heap m : val_internal_logf c sink level fmt (Some txt) heap = Some m →
  m = txt ∨ heap = false ∧ 256 <= zlen txt ∧ m = ztake 255 txt.
Proof.
  unfold val_internal_logf. repeat case_match; intros [=]; subst; auto. right.
  destruct heap; [done|]. split; [done|]. split; [lia|done].
Qed.
End log.
