(* ===== verification/Simulation.v ===== *)
(** A concrete environment to run the model in: a scripted transport, a clock and a
    small file system.  It models no code of the library: the examples and the
    witnesses of the theorems instantiate the caller's hooks with it. *)
From S2P Require Import Prelude Wire Errors Crc Timing Session.

(** What arrives, in order: bytes, or nothing for some milliseconds. *)
Inductive arrival : Type := Bytes (d : list Z) | Silence (ms : Z).
Record sim := mk_sim {
  sim_in : list arrival;
  sim_now : Z;
  sim_files : list (list Z * list Z);
  sim_open : list (list Z * Z * fmode)
}.
Definition sim_ticks (t : Z) (e : sim) : sim := mk_sim (sim_in e) (sim_now e + t) (sim_files e) (sim_open e).
Definition sim_feed (l : list arrival) (e : sim) : sim := mk_sim l (sim_now e) (sim_files e) (sim_open e).

(** At most [n] bytes; without any, the call waits for [t], and 1 at least. *)
Definition sim_recv (n t : Z) (e : sim) : (Z * list Z) * sim :=
  match sim_in e with
  | [] => ((0, []), sim_ticks (Z.max 1 t) e)
  | Silence ms :: r =>
      let t := Z.max 1 t in
      if ms <=? t then ((0, []), sim_ticks t (sim_feed r e))
      else ((0, []), sim_ticks t (sim_feed (Silence (ms - t) :: r) e))
  | Bytes l :: r =>
      if zlen l <=? n then ((0, l), sim_feed r e)
      else ((0, ztake n l), sim_feed (Bytes (zdrop n l) :: r) e)
  end.

Fixpoint sim_lookup (p : list Z) (fs : list (list Z * list Z)) : option (list Z) :=
  match fs with
  | [] => None
  | (q, d) :: fs => if decide (p = q) then Some d else sim_lookup p fs
  end.
Definition sim_store (p d : list Z) (e : sim) : sim :=
  mk_sim (sim_in e) (sim_now e) ((p, d) :: filter (λ f, fst f ≠ p) (sim_files e)) (sim_open e).
Definition sim_content (p : list Z) (e : sim) : list Z := default [] (sim_lookup p (sim_files e)).
Definition sim_get (h : handle) (e : sim) : list Z * Z * fmode :=
  nth (Z.to_nat h) (sim_open e) ([], 0, ModeRead).
Definition sim_seek (h : handle) (pos : Z) (e : sim) : sim :=
  mk_sim (sim_in e) (sim_now e) (sim_files e)
    (<[Z.to_nat h := (fst (fst (sim_get h e)), pos, snd (sim_get h e))]> (sim_open e)).

Definition sim_fopen (p : list Z) (m : fmode) (e : sim) : option handle * sim :=
  let open pos e := (Some (zlen (sim_open e)), mk_sim (sim_in e) (sim_now e) (sim_files e) (sim_open e ++ [(p, pos, m)])) in
  match m, sim_lookup p (sim_files e) with
  | ModeRead, None => (None, e)
  | ModeRead, Some _ => open 0 e
  | ModeWrite, _ => open 0 (sim_store p [] e)
  | ModeAppend, None => open 0 (sim_store p [] e)
  | ModeAppend, Some d => open (zlen d) e
  end.
Definition sim_fread (h : handle) (n : Z) (e : sim) : list Z * sim :=
  let '(p, pos, _) := sim_get h e in
  let got := zslice (sim_content p e) pos n in (got, sim_seek h (pos + zlen got) e).
Definition sim_fwrite (h : handle) (d : list Z) (e : sim) : Z * sim :=
  let '(p, pos, _) := sim_get h e in
  (zlen d, sim_seek h (pos + zlen d) (sim_store p (zwrite (sim_content p e) pos d) e)).
Definition sim_fseek (h : handle) (off : Z) (wh : whence) (e : sim) : Z * sim :=
  let '(p, _, _) := sim_get h e in
  (0, sim_seek h (match wh with SEEK_SET => off | SEEK_END => zlen (sim_content p e) + off end) e).

(** C's stdio acts on the same files. *)
Definition sim_append (p d : list Z) (e : sim) : sim := sim_store p (sim_content p e ++ d) e.

#[export] Instance sim_hooks : Hooks sim := {|
  hk_send fr e := (zlen fr, e);
  hk_recv := sim_recv;
  hk_is_connected e := (1, e);
  hk_flush e := e;
  hk_fopen := sim_fopen;
  hk_fread := sim_fread;
  hk_fwrite := sim_fwrite;
  hk_fseek := sim_fseek;
  hk_ftell h e := (snd (fst (sim_get h e)), e);
  hk_fclose _ e := e;
  hk_crc32 _ data := val_crc32 data;
  hk_get_ticks_ms e := (sim_now e, e);
  hk_delay_ms ms e := sim_ticks ms e;
  hk_on_file_start _ _ _ _ e := (false, e);
  hk_on_file_complete _ _ _ e := (false, e);
  hk_on_progress _ e := (false, e);
  hk_validator _ _ e := (0, e);
  hk_on_packet _ e := e;
  hk_append p d := sim_append p d
|}.

Definition sim_start (l : list arrival) (files : list (list Z * list Z)) : sim :=
  mk_sim l 1000 files [].
(** A session just created, and the world it starts in. *)
Definition sim_session (c : val_config_t) : val_session_t :=
  let n := Z.to_nat (cfg_packet_size c) in init_session c (repeat 0 n) (repeat 0 n).
Definition sim_world (s : val_session_t) (e : sim) : world sim := mk_world s e [].

Lemma sim_session_ok c : config_ok c → session_ok (sim_session c).
Proof.
  intros Hc. pose proof (cok_packet c Hc). unfold VAL_MIN_PACKET_SIZE in *.
  assert (El : zlen (repeat 0 (Z.to_nat (cfg_packet_size c))) = cfg_packet_size c)
    by (unfold zlen; rewrite repeat_length; lia).
  apply init_session_ok; [done|lia|lia|apply bytes_ok_zeros].
Qed.

Lemma sim_buffers c : 0 <= cfg_packet_size c →
  zlen (s_send_buffer (sim_session c)) = cfg_packet_size c ∧ zlen (s_recv_buffer (sim_session c)) = cfg_packet_size c.
Proof. intros. cbn. unfold zlen. rewrite repeat_length. lia. Qed.

(** The frames of a trace, newest first, and those a run sent, oldest first. *)
Definition frames_of (evs : list event) : list (list Z) :=
  omap (λ ev, match ev with EvSend fr _ => Some fr | _ => None end) evs.
Definition sent_frames {E} (w : world E) : list (list Z) := rev (frames_of (w_tr w)).
Lemma frames_of_app a b : frames_of (a ++ b) = frames_of a ++ frames_of b.
Proof. apply omap_app. Qed.
