(* ===== verification/Window.v ===== *)
(** The congestion window ([src/val_core.c]:
    [val_internal_record_transmission_error],
    [val_internal_record_transmission_success]): multiplicative decrease after a run
    of errors, additive increase after a run of successes, between 1 and the
    negotiated cap. *)
From S2P Require Import Prelude Timing Session.

Definition error_threshold (s : val_session_t) : Z :=
  let th := if cfg_degrade_error_threshold (s_cfg s) =? 0 then 0 else cfg_degrade_error_threshold (s_cfg s) in
  if th =? 0 then 3 else th.
Definition success_threshold (s : val_session_t) : Z :=
  let th := if cfg_recovery_success_threshold (s_cfg s) =? 0 then 0 else cfg_recovery_success_threshold (s_cfg s) in
  if th =? 0 then 10 else th.

(** [memset(tracking_slots, 0, ...)]. *)
Definition clear_slots (s : val_session_t) : val_session_t :=
  s <| s_tracking_slots := repeat zero_slot (Z.to_nat (s_max_tracking_slots s)) |>.

Definition record_transmission_error (s : val_session_t) : val_session_t :=
  let s := s <| s_consecutive_errors := u32 (s_consecutive_errors s + 1) |>
             <| s_consecutive_successes := 0 |> in
  if error_threshold s <=? s_consecutive_errors s then
    let cur := if s_current_window_packets s =? 0 then 1 else s_current_window_packets s in
    let new_w := u16 (cur / 2) in
    let new_w := if new_w <? 1 then 1 else new_w in
    if negb (new_w =? cur) then
      clear_slots (s <| s_current_window_packets := new_w |>
                     <| s_consecutive_errors := 0 |>
                     <| s_packets_since_mode_change := 0 |>)
    else s
  else s.

Definition record_transmission_success (s : val_session_t) : val_session_t :=
  let s := s <| s_consecutive_successes := u32 (s_consecutive_successes s + 1) |>
             <| s_consecutive_errors := 0 |> in
  if success_threshold s <=? s_consecutive_successes s then
    let cur := if s_current_window_packets s =? 0 then 1 else s_current_window_packets s in
    let cap := if s_negotiated_window_packets s =? 0 then cur else s_negotiated_window_packets s in
    if cur <? cap then
      let new_w := u16 (cur + 1) in
      let new_w := if cap <? new_w then cap else new_w in
      if negb (new_w =? cur) then
        clear_slots (s <| s_current_window_packets := new_w |>
                       <| s_consecutive_successes := 1 |>
                       <| s_packets_since_mode_change := 0 |>)
      else s
    else s
  else s.

Section ops.
Context {E : Type} `{!Hooks E}.
Definition val_internal_record_transmission_error : M (world E) unit := upd record_transmission_error.
Definition val_internal_record_transmission_success : M (world E) unit := upd record_transmission_success.
End ops.

(** ** The window as a state machine

    What the two functions do to the only state they read. *)
Record window := mk_window { cwnd : Z; errors : Z; successes : Z }.
Definition window_of (s : val_session_t) : window :=
  mk_window (s_current_window_packets s) (s_consecutive_errors s) (s_consecutive_successes s).

Definition window_error (th : Z) (w : window) : window :=
  let e := u32 (errors w + 1) in
  if (th <=? e) && (1 <? cwnd w) then mk_window (cwnd w / 2) 0 0 else mk_window (cwnd w) e 0.
Definition window_success (th cap : Z) (w : window) : window :=
  let n := u32 (successes w + 1) in
  if (th <=? n) && (cwnd w <? cap) then mk_window (cwnd w + 1) 0 1 else mk_window (cwnd w) 0 n.

Lemma window_error_spec s : session_ok s →
  window_of (record_transmission_error s) = window_error (error_threshold s) (window_of s) ∧
  session_ok (record_transmission_error s).
Proof.
  intros H. pose proof (sok_window s H) as Hw. pose proof (sok_negotiated s H) as Hn.
  unfold u16_ok in Hn.
  unfold record_transmission_error, window_error, window_of.
  set (s1 := s <| s_consecutive_errors := _ |> <| s_consecutive_successes := _ |>).
  change (error_threshold s1) with (error_threshold s).
  cbn [cwnd errors successes].
  change (s_current_window_packets s1) with (s_current_window_packets s).
  change (s_consecutive_errors s1) with (u32 (s_consecutive_errors s + 1)).
  replace (s_current_window_packets s =? 0) with false by lia.
  assert (Hok1 : session_ok s1).
  { destruct H. constructor; try done; cbn; first [apply u32_range|unfold u32_ok; lia]. }
  assert (Hd : 0 <= s_current_window_packets s / 2 < s_current_window_packets s).
  { split; [apply Z.div_pos; lia|apply Z.div_lt; lia]. }
  rewrite u16_small by lia.
  destruct (error_threshold s <=? _); cbn [andb]; [|done].
  destruct (Z.ltb_spec 1 (s_current_window_packets s)) as [H1|H1].
  - assert (1 <= s_current_window_packets s / 2) by (apply Z.div_le_lower_bound; lia).
    replace (s_current_window_packets s / 2 <? 1) with false by lia.
    replace (s_current_window_packets s / 2 =? s_current_window_packets s) with false by lia.
    cbn [negb]. split; [done|]. destruct Hok1. constructor; try done; cbn; unfold u32_ok; lia.
  - assert (Hc : s_current_window_packets s = 1) by lia. rewrite Hc. cbn [negb Z.ltb Z.eqb].
    change (negb ((if 1 / 2 <? 1 then 1 else 1 / 2) =? 1)) with false. cbv iota.
    split; [|done]. by change (s_current_window_packets s1) with (s_current_window_packets s); rewrite Hc.
Qed.

Lemma window_success_spec s : session_ok s →
  window_of (record_transmission_success s) =
    window_success (success_threshold s) (s_negotiated_window_packets s) (window_of s) ∧
  session_ok (record_transmission_success s).
Proof.
  intros H. pose proof (sok_window s H) as Hw. pose proof (sok_negotiated s H) as Hn.
  unfold u16_ok in Hn.
  unfold record_transmission_success, window_success, window_of.
  set (s1 := s <| s_consecutive_successes := _ |> <| s_consecutive_errors := _ |>).
  change (success_threshold s1) with (success_threshold s).
  cbn [cwnd errors successes].
  change (s_current_window_packets s1) with (s_current_window_packets s).
  change (s_negotiated_window_packets s1) with (s_negotiated_window_packets s).
  change (s_consecutive_successes s1) with (u32 (s_consecutive_successes s + 1)).
  replace (s_current_window_packets s =? 0) with false by lia.
  replace (s_negotiated_window_packets s =? 0) with false by lia.
  assert (Hok1 : session_ok s1).
  { destruct H. constructor; try done; cbn; first [apply u32_range|unfold u32_ok; lia]. }
  destruct (success_threshold s <=? _); cbn [andb]; [|done].
  destruct (Z.ltb_spec (s_current_window_packets s) (s_negotiated_window_packets s)) as [H1|H1]; [|done].
  rewrite u16_small by lia.
  replace (s_negotiated_window_packets s <? s_current_window_packets s + 1) with false by lia.
  replace (s_current_window_packets s + 1 =? s_current_window_packets s) with false by lia.
  cbn [negb]. split; [done|].
  destruct Hok1. constructor; try done; cbn; unfold u32_ok; lia.
Qed.

Lemma record_error_frame s :
  s_cfg (record_transmission_error s) = s_cfg s ∧
  s_negotiated_window_packets (record_transmission_error s) = s_negotiated_window_packets s.
Proof. unfold record_transmission_error. by repeat (case_match; try done). Qed.
Lemma record_success_frame s :
  s_cfg (record_transmission_success s) = s_cfg s ∧
  s_negotiated_window_packets (record_transmission_success s) = s_negotiated_window_packets s.
Proof. unfold record_transmission_success. by repeat (case_match; try done). Qed.
Lemma safe_record_error {E} `{!Hooks E} {c} : safe (E:=E) c 0 val_internal_record_transmission_error.
Proof.
  apply safe_upd. intros s Hs _. split; [by apply window_error_spec|].
  unfold record_transmission_error. repeat (case_match; try (repeat split; cbn; lia)).
Qed.
Lemma safe_record_success {E} `{!Hooks E} {c} : safe (E:=E) c 0 val_internal_record_transmission_success.
Proof.
  apply safe_upd. intros s Hs _. split; [by apply window_success_spec|].
  unfold record_transmission_success. repeat (case_match; try (repeat split; cbn; lia)).
Qed.
#[export] Hint Resolve safe_record_error safe_record_success : safe.
Lemma error_threshold_pos s : config_ok (s_cfg s) → 1 <= error_threshold s < 2 ^ 16.
Proof.
  intros H. pose proof (cok_deg _ H). unfold error_threshold, u16_ok in *.
  destruct (Z.eqb_spec (cfg_degrade_error_threshold (s_cfg s)) 0); cbn; [lia|].
  destruct (Z.eqb_spec (cfg_degrade_error_threshold (s_cfg s)) 0); lia.
Qed.
Lemma success_threshold_pos s : config_ok (s_cfg s) → 1 <= success_threshold s < 2 ^ 16.
Proof.
  intros H. pose proof (cok_rec _ H). unfold success_threshold, u16_ok in *.
  destruct (Z.eqb_spec (cfg_recovery_success_threshold (s_cfg s)) 0); cbn; [lia|].
  destruct (Z.eqb_spec (cfg_recovery_success_threshold (s_cfg s)) 0); lia.
Qed.

(** Runs of one kind, on the state machine. *)
Lemma window_errors_run th n : 1 <= th < 2 ^ 16 → ∀ w,
  1 <= cwnd w → 0 <= errors w < th →
  cwnd (Nat.iter n (window_error th) w) = Z.max 1 (cwnd w / 2 ^ ((errors w + Z.of_nat n) / th)).
Proof.
  intros Hth. induction n as [|n IH]; intros w Hw He.
  - change (Nat.iter 0 _ w) with w. rewrite (Z.div_small _ th) by lia.
    change (2 ^ 0) with 1. rewrite Z.div_1_r. lia.
  - rewrite Nat.iter_succ_r. unfold window_error at 2.
    rewrite u32_small by lia.
    destruct (Z.leb_spec th (errors w + 1)) as [Hle|Hlt]; cbn [andb].
    + assert (errors w + Z.of_nat (S n) = Z.of_nat n + 1 * th) as -> by lia.
      rewrite Z.div_add, Z.pow_add_r, Z.mul_comm, <- Z.div_div by
        (try apply Z.pow_pos_nonneg; try apply Z.div_pos; lia).
      change (2 ^ 1) with 2.
      destruct (Z.ltb_spec 1 (cwnd w)) as [H1|H1].
      * rewrite IH; cbn [cwnd errors]; [done| |lia]. apply Z.div_le_lower_bound; lia.
      * assert (cwnd w = 1) as Hc by lia. rewrite Hc. change (1 / 2) with 0.
        rewrite Z.div_0_l by (apply Z.pow_nonzero; [lia|apply Z.div_pos; lia]).
        change (Z.max 1 0) with 1. clear IH.
        assert (G : ∀ m v, cwnd v = 1 → cwnd (Nat.iter m (window_error th) v) = 1).
        { induction m as [|m IHm]; intros v Hv; [done|]. rewrite Nat.iter_succ_r. apply IHm.
          unfold window_error. rewrite Hv. by rewrite andb_false_r. }
        by apply G.
    + rewrite IH; cbn [cwnd errors]; [do 4 f_equal; lia|lia|lia].
Qed.

Lemma window_success_at_cap th cap n : ∀ w, cwnd w = cap →
  cwnd (Nat.iter n (window_success th cap) w) = cap.
Proof.
  induction n as [|n IH]; intros w Hw; [done|]. rewrite Nat.iter_succ_r. apply IH.
  unfold window_success. rewrite Hw, Z.ltb_irrefl. by rewrite andb_false_r.
Qed.
Lemma window_successes_run th cap n : 2 <= th < 2 ^ 16 → ∀ w,
  cwnd w <= cap → 1 <= successes w < th →
  cwnd (Nat.iter n (window_success th cap) w) =
    Z.min cap (cwnd w + (successes w - 1 + Z.of_nat n) / (th - 1)).
Proof.
  intros Hth. induction n as [|n IH]; intros w Hw He.
  - change (Nat.iter 0 _ w) with w. rewrite Z.div_small by lia. lia.
  - destruct (decide (cwnd w = cap)) as [Hc|Hc].
    { rewrite window_success_at_cap by done.
      pose proof (Z.div_pos (successes w - 1 + Z.of_nat (S n)) (th - 1)). lia. }
    rewrite Nat.iter_succ_r. unfold window_success at 2. rewrite u32_small by lia.
    replace (cwnd w <? cap) with true by lia. rewrite andb_true_r.
    destruct (Z.leb_spec th (successes w + 1)) as [Hle|Hlt].
    + rewrite IH; cbn [cwnd successes]; [|lia|lia].
      assert (successes w - 1 + Z.of_nat (S n) = 0 + Z.of_nat n + 1 * (th - 1)) as -> by lia.
      rewrite Z.div_add by lia. replace (1 - 1 + Z.of_nat n) with (0 + Z.of_nat n) by lia. lia.
    + rewrite IH; cbn [cwnd successes]; [|lia|lia]. do 3 f_equal. lia.
Qed.

(** The session run is the machine's run. *)
Lemma record_errors_iter n : ∀ s, session_ok s →
  window_of (Nat.iter n record_transmission_error s) =
    Nat.iter n (window_error (error_threshold s)) (window_of s).
Proof.
  induction n as [|n IH]; intros s H; [done|]. rewrite !Nat.iter_succ_r.
  destruct (window_error_spec s H) as [E Hok]. rewrite IH, E by done.
  unfold error_threshold. by rewrite (proj1 (record_error_frame s)).
Qed.
Lemma record_successes_iter n : ∀ s, session_ok s →
  window_of (Nat.iter n record_transmission_success s) =
    Nat.iter n (window_success (success_threshold s) (s_negotiated_window_packets s)) (window_of s).
Proof.
  induction n as [|n IH]; intros s H; [done|]. rewrite !Nat.iter_succ_r.
  destruct (window_success_spec s H) as [E Hok]. rewrite IH, E by done.
  unfold success_threshold.
  by rewrite (proj1 (record_success_frame s)), (proj2 (record_success_frame s)).
Qed.

(** C31: additive increase, multiplicative decrease. From a fresh error count, [n]
    consecutive errors divide the window by two to the power [n / threshold] and
    never below 1; from a fresh success count (at least 1), [n] consecutive
    successes add [n / (threshold - 1)] and never exceed the negotiated cap: the
    first packet of a new window already counts ("keep momentum"). The session
    invariant, with 1 <= window <= cap, is kept by both. *)
Theorem aimd_runs s n : session_ok s →
  (session_ok (record_transmission_error s) ∧ session_ok (record_transmission_success s)) ∧
  (s_consecutive_errors s = 0 →
     s_current_window_packets (Nat.iter n record_transmission_error s) =
       Z.max 1 (s_current_window_packets s / 2 ^ (Z.of_nat n / error_threshold s))) ∧
  (s_consecutive_successes s = 1 → 2 <= success_threshold s →
     s_current_window_packets (Nat.iter n record_transmission_success s) =
       Z.min (s_negotiated_window_packets s)
             (s_current_window_packets s + Z.of_nat n / (success_threshold s - 1))).
Proof.
  intros H. pose proof (sok_window s H).
  pose proof (error_threshold_pos s (sok_cfg s H)). pose proof (success_threshold_pos s (sok_cfg s H)).
  split; [split; [apply window_error_spec|apply window_success_spec]; done|]. split.
  - intros He. pose proof (f_equal cwnd (record_errors_iter n s H)) as E. cbn [cwnd window_of] in E.
    etrans; [exact E|]. rewrite window_errors_run; cbn [cwnd errors window_of]; [|lia|lia|lia].
    by rewrite He.
  - intros Hs Ht. pose proof (f_equal cwnd (record_successes_iter n s H)) as E. cbn [cwnd window_of] in E.
    etrans; [exact E|]. rewrite window_successes_run; cbn [cwnd successes window_of]; [|lia|lia|lia].
    by rewrite Hs.
Qed.
Definition demo_session : val_session_t :=
  init_session demo_config (repeat 0 512) (repeat 0 512)
    <| s_negotiated_window_packets := 9 |> <| s_current_window_packets := 8 |>.
Lemma demo_session_ok : session_ok demo_session.
Proof.
  assert (H : session_ok (init_session demo_config (repeat 0 512) (repeat 0 512))).
  { apply init_session_ok; [apply demo_config_ok| | |apply bytes_ok_zeros]; vm_compute; discriminate. }
  destruct H. constructor; try done; cbn; unfold u16_ok; lia.
Qed.
Lemma aimd_runs_witness :
  session_ok demo_session ∧
  s_current_window_packets (Nat.iter 6 record_transmission_error demo_session) = 2.
Proof.
  split; [exact demo_session_ok|].
  rewrite (proj1 (proj2 (aimd_runs demo_session 6 demo_session_ok)) eq_refl). reflexivity.
Defined.
