(* ===== verification/Packet.v ===== *)
(** Frames ([src/val_core.c]: [val_recv_full], [val__internal_send_packet_core] and
    its two wrappers, [val_internal_recv_packet]).

    A frame is an 8-byte header, up to [MTU - 12] bytes of content and a CRC-32 of
    both.  The send buffer may itself hold the payload (the data path reads the file
    straight into it), and the receive buffer may be the caller's destination, so
    both are modelled as the one byte array they are. *)
From S2P Require Import Prelude ByteOrder Wire Errors Crc Timing Session.

(** ** Sending *)

(** The payload argument: NULL, bytes of the caller's, or a pointer to the content
    area of the send buffer. *)
Inductive payload_ptr : Type :=
  | PNull
  | PBytes (data : list Z)
  | PContent.

Definition payload_nonnull (p : payload_ptr) : bool :=
  match p with PNull => false | _ => true end.
(** The first [n] bytes the pointer leads to, [buf] being the send buffer. *)
Definition payload_bytes (buf : list Z) (p : payload_ptr) (n : Z) : list Z :=
  match p with
  | PNull => []
  | PBytes data => ztake n data
  | PContent => zslice buf VAL_WIRE_HEADER_SIZE n
  end.

Definition low32 (offset : Z) : Z := u32 (Z.land offset 0xFFFFFFFF).
Definition high32 (offset : Z) : Z := u32 (Z.land (Z.shiftr offset 32) 0xFFFFFFFF).

Record encoded := mk_encoded {
  enc_buf : list Z; enc_flags : Z; enc_content_len : Z; enc_type_data : Z }.

(** The [switch] on the packet type: what it writes to the content area of the
    buffer, the flags, [content_len] (a [uint16_t]) and [type_data]. *)
Definition encode_content (buf : list Z) (type : Z) (payload : payload_ptr)
    (payload_len offset : Z) (include_data_offset : bool) : encoded :=
  let dst := VAL_WIRE_HEADER_SIZE in
  let has_payload := negb (payload_len =? 0) && payload_nonnull payload in
  if type =? VAL_PKT_DATA then
    if include_data_offset then
      let content_len := u16 (u32 (payload_len + 8)) in
      if has_payload then
        match payload with
        | PContent =>
            let buf := zwrite buf (dst + 8) (zslice buf dst payload_len) in
            mk_encoded (zwrite buf dst (VAL_PUT_LE64 offset)) VAL_DATA_OFFSET_PRESENT content_len 0
        | _ =>
            let buf' := zwrite buf dst (VAL_PUT_LE64 offset) in
            mk_encoded (zwrite buf' (dst + 8) (payload_bytes buf payload payload_len))
              VAL_DATA_OFFSET_PRESENT content_len 0
        end
      else mk_encoded (zwrite buf dst (VAL_PUT_LE64 offset)) VAL_DATA_OFFSET_PRESENT content_len 0
    else
      mk_encoded
        (if has_payload then zwrite buf dst (payload_bytes buf payload payload_len) else buf)
        0 (u16 payload_len) 0
  else if (type =? VAL_PKT_DATA_ACK) || (type =? VAL_PKT_DONE_ACK) || (type =? VAL_PKT_EOT_ACK) then
    let high := high32 offset in
    let flags := if type =? VAL_PKT_DONE_ACK then VAL_ACK_DONE_FILE
                 else if type =? VAL_PKT_EOT_ACK then VAL_ACK_EOT else 0 in
    if negb (high =? 0)
    then mk_encoded (zwrite buf dst (VAL_PUT_LE32 high)) flags 4 (low32 offset)
    else mk_encoded buf flags 0 (low32 offset)
  else if type =? VAL_PKT_DATA_NAK then
    let reason := if payload_nonnull payload && (4 <=? payload_len)
                  then VAL_GET_LE32 (payload_bytes buf payload payload_len) else 1 in
    let buf := zwrite buf dst (VAL_PUT_LE32 (high32 offset)) in
    let buf := zwrite buf (dst + 4) (VAL_PUT_LE32 reason) in
    let buf := zwrite buf (dst + 8) (VAL_PUT_LE32 0) in
    mk_encoded buf 0 12 (low32 offset)
  else
    mk_encoded
      (if has_payload then zwrite buf dst (payload_bytes buf payload payload_len) else buf)
      0 (u16 payload_len) 0.

Section packet.
Context {E : Type} `{!Hooks E}.

Definition set_send_buffer (b : list Z) : M (world E) unit :=
  upd (λ s, s <| s_send_buffer := b |>).

(** The capture hook, when there is one; the clock is read for the time stamp. *)
Definition capture (rec : Z → val_packet_record_t) : M (world E) unit :=
  let! s := get_s in
  if cfg_has_on_packet (s_cfg s) then
    let! now := get_ticks_ms in
    call_unit (hk_on_packet (rec now)) (EvPacket (rec now))
  else mret tt.

Definition flushed_type (type : Z) : bool :=
  (type =? VAL_PKT_DONE) || (type =? VAL_PKT_EOT) || (type =? VAL_PKT_HELLO)
  || (type =? VAL_PKT_ERROR) || (type =? VAL_PKT_CANCEL).

Definition val__internal_send_packet_core (type : Z) (payload : payload_ptr)
    (payload_len offset : Z) (include_data_offset : bool) : M (world E) Z :=
  do! val_internal_lock in
  let! connected := val_internal_transport_is_connected in
  if negb connected then
    do! VAL_SET_NETWORK_ERROR VAL_ERROR_DETAIL_CONNECTION in
    do! val_internal_unlock in
    mret VAL_ERR_IO
  else
    let! s := get_s in
    let P := session_mtu s in
    let enc := encode_content (s_send_buffer s) type payload payload_len offset include_data_offset in
    do! set_send_buffer (enc_buf enc) in
    if P - VAL_WIRE_HEADER_SIZE - VAL_WIRE_TRAILER_SIZE <? enc_content_len enc then
      do! val_internal_set_error_detailed VAL_ERR_INVALID_ARG VAL_ERROR_DETAIL_PAYLOAD_SIZE in
      do! val_internal_unlock in
      mret VAL_ERR_INVALID_ARG
    else
      let hdr := val_serialize_frame_header (u8 type) (enc_flags enc) (enc_content_len enc) (enc_type_data enc) in
      let buf := zwrite (enc_buf enc) 0 hdr in
      let used := VAL_WIRE_HEADER_SIZE + enc_content_len enc in
      let pkt_crc := val_internal_crc32 s (ztake used buf) in
      let buf := zwrite buf used (VAL_PUT_LE32 pkt_crc) in
      let total_len := used + VAL_WIRE_TRAILER_SIZE in
      do! set_send_buffer buf in
      let! rc := transport_send (ztake total_len buf) in
      do! val_internal_unlock in
      if negb (rc =? total_len) then
        do! VAL_SET_NETWORK_ERROR VAL_ERROR_DETAIL_SEND_FAILED in
        mret VAL_ERR_IO
      else
        do! val_metrics_add_sent total_len (u8 type) in
        do! capture (λ now, mk_record VAL_DIR_TX (u8 type) (u32 total_len) payload_len offset true now) in
        do! (if flushed_type type then val_internal_transport_flush else mret tt) in
        mret VAL_OK.

Definition val_internal_send_packet (type : Z) (payload : payload_ptr) (payload_len offset : Z)
    : M (world E) Z :=
  val__internal_send_packet_core type payload payload_len offset true.
Definition val_internal_send_packet_ex (type : Z) (payload : payload_ptr) (payload_len offset : Z)
    (include_data_offset : bool) : M (world E) Z :=
  val__internal_send_packet_core type payload payload_len offset include_data_offset.

(** ** Receiving *)

(** One turn of [val_recv_full]; [have] is what has arrived so far. *)
Definition recv_full_body (need to_ms start : Z) (have : list Z)
    : M (world E) (list Z + Z * list Z) :=
  if need <=? zlen have then mret (inr (VAL_OK, have))
  else
    let! now := get_ticks_ms in
    let elapsed := if start <=? now then now - start else 0 in
    let remaining := if elapsed <? to_ms then to_ms - elapsed else 0 in
    let slice := if negb (remaining =? 0) then remaining else if negb (to_ms =? 0) then 1 else 0 in
    let! ' (r, got) := transport_recv (need - zlen have) slice in
    if r <? 0 then mret (inr (VAL_ERR_IO, have ++ got))
    else
      let have := have ++ got in
      if need <=? zlen have then mret (inr (VAL_OK, have))
      else
        let! t := get_ticks_ms in
        if to_ms <=? u32 (t - start) then mret (inr (VAL_ERR_TIMEOUT, have))
        else mret (inl have).

(** [val_recv_full]: the status and the bytes put at [dst]. [fuel] bounds the turns. *)
Definition val_recv_full (fuel : nat) (need to_ms : Z) : M (world E) (Z * list Z) :=
  let! start := get_ticks_ms in
  loop fuel (recv_full_body need to_ms start) [].

(** Where the payload goes: nowhere (NULL), to the start of the receive buffer
    itself, or to another buffer of the caller's. *)
Inductive payload_dst : Type :=
  | DstNull
  | DstRecvBuffer (cap : Z)
  | DstOther (cap : Z).
Definition dst_cap (d : payload_dst) : Z :=
  match d with DstNull => 0 | DstRecvBuffer c => c | DstOther c => c end.

(** The out parameters; [pkt_payload] is what another buffer received. *)
Record packet := mk_packet { pkt_type : Z; pkt_len : Z; pkt_off : Z; pkt_payload : list Z }.
Definition no_packet : packet := mk_packet 0 0 0 [].

(** [offset_out] for a frame with this type, flags, [type_data] and content. *)
Definition decode_offset (type flags type_data payload_len : Z) (content : list Z) : Z :=
  if type =? VAL_PKT_DATA then
    if negb (Z.land flags VAL_DATA_OFFSET_PRESENT =? 0) then VAL_GET_LE64 content else UINT64_MAX
  else if (type =? VAL_PKT_DATA_ACK) || (type =? VAL_PKT_DONE_ACK) || (type =? VAL_PKT_EOT_ACK)
          || (type =? VAL_PKT_DATA_NAK) then
    let high := if 4 <=? payload_len then VAL_GET_LE32 content else 0 in
    Z.lor (u64 (Z.shiftl high 32)) type_data
  else 0.

(** The offset of the capture record, which has no case for DATA_NAK. *)
Definition capture_offset (type flags type_data payload_len : Z) (content : list Z) : Z :=
  if (type =? VAL_PKT_DATA) && negb (Z.land flags VAL_DATA_OFFSET_PRESENT =? 0) then VAL_GET_LE64 content
  else if (type =? VAL_PKT_DATA_ACK) || (type =? VAL_PKT_DONE_ACK) || (type =? VAL_PKT_EOT_ACK) then
    let high := if 4 <=? payload_len then VAL_GET_LE32 content else 0 in
    Z.lor (u64 (Z.shiftl high 32)) type_data
  else 0.

(** The three error exits after a [val_recv_full]. *)
Definition recv_failed (rc : Z) : M (world E) (Z * packet) :=
  if rc =? VAL_ERR_IO then
    do! VAL_SET_NETWORK_ERROR VAL_ERROR_DETAIL_RECV_FAILED in
    do! val_internal_unlock in
    mret (VAL_ERR_IO, no_packet)
  else
    do! val_internal_set_last_error VAL_ERR_TIMEOUT VAL_ERROR_DETAIL_TIMEOUT_DATA in
    do! val_internal_unlock in
    mret (VAL_ERR_TIMEOUT, no_packet).

(** From the unlock to the end: metrics and capture. The capture offset is read from
    the receive buffer as it is now. *)
Definition recv_finish (type flags type_data payload_len : Z) (pkt : packet) : M (world E) (Z * packet) :=
  do! val_internal_unlock in
  let wire_len := VAL_WIRE_HEADER_SIZE + payload_len + VAL_WIRE_TRAILER_SIZE in
  do! val_metrics_add_recv wire_len type in
  let! s := get_s in
  do! capture (λ now, mk_record VAL_DIR_RX type wire_len payload_len
                 (capture_offset type flags type_data payload_len (zdrop VAL_WIRE_HEADER_SIZE (s_recv_buffer s)))
                 true now) in
  mret (VAL_OK, pkt).

(** From the CRC check on: [buf] holds header and content. *)
Definition recv_deliver (dst : payload_dst) (type flags type_data payload_len : Z) : M (world E) (Z * packet) :=
  let! s := get_s in
  let buf := s_recv_buffer s in
  let content := zdrop VAL_WIRE_HEADER_SIZE buf in
  let off := decode_offset type flags type_data payload_len content in
  do! (if type =? VAL_PKT_CANCEL then val_internal_set_last_error VAL_ERR_ABORTED 0 else mret tt) in
  if negb (dst_cap dst =? 0) then
    let explicit := (type =? VAL_PKT_DATA) && negb (Z.land flags VAL_DATA_OFFSET_PRESENT =? 0) in
    if explicit && (payload_len <? 8) then
      do! val_internal_unlock in mret (VAL_ERR_PROTOCOL, mk_packet type payload_len off [])
    else
      let src := if explicit then VAL_WIRE_HEADER_SIZE + 8 else VAL_WIRE_HEADER_SIZE in
      let copy_len := if explicit then payload_len - 8 else payload_len in
      if dst_cap dst <? copy_len then
        do! val_internal_set_error_detailed VAL_ERR_INVALID_ARG VAL_ERROR_DETAIL_PAYLOAD_SIZE in
        do! val_internal_unlock in mret (VAL_ERR_INVALID_ARG, mk_packet type copy_len off [])
      else
        let data := zslice buf src copy_len in
        do! (match dst with
             | DstRecvBuffer _ => upd (λ s, s <| s_recv_buffer := zwrite (s_recv_buffer s) 0 data |>)
             | _ => mret tt end) in
        recv_finish type flags type_data payload_len (mk_packet type copy_len off data)
  else recv_finish type flags type_data payload_len (mk_packet type payload_len off []).

(** Read into the receive buffer at [off]; partial data stays there. *)
Definition recv_into (fuel : nat) (off need to_ms : Z) : M (world E) Z :=
  let! ' (rc, got) := val_recv_full fuel need to_ms in
  do! upd (λ s, s <| s_recv_buffer := zwrite (s_recv_buffer s) off got |>) in
  mret rc.

(** The trailer and the CRC check; the buffer holds header and content. *)
Definition recv_trailer (fuel : nat) (dst : payload_dst) (type flags payload_len type_data timeout_ms : Z)
    : M (world E) (Z * packet) :=
  let! ' (rc, trailer_bytes) := val_recv_full fuel VAL_WIRE_TRAILER_SIZE timeout_ms in
  if negb (rc =? VAL_OK) then recv_failed rc
  else
    let! s := get_s in
    let trailer_crc := VAL_GET_LE32 trailer_bytes in
    let calc_crc := val_internal_crc32 s (ztake (VAL_WIRE_HEADER_SIZE + payload_len) (s_recv_buffer s)) in
    if negb (trailer_crc =? calc_crc) then
      do! VAL_SET_CRC_ERROR VAL_ERROR_DETAIL_CRC_TRAILER in
      do! val_metrics_inc_crcerr in
      do! val_internal_unlock in
      mret (VAL_ERR_CRC, no_packet)
    else recv_deliver dst type flags type_data payload_len.

(** The size check and the content, for a header in the buffer. *)
Definition recv_content (fuel : nat) (dst : payload_dst) (P type flags payload_len type_data timeout_ms : Z)
    : M (world E) (Z * packet) :=
  if u32 (P - VAL_WIRE_HEADER_SIZE - VAL_WIRE_TRAILER_SIZE) <? payload_len then
    do! VAL_SET_PROTOCOL_ERROR VAL_ERROR_DETAIL_PAYLOAD_SIZE in
    do! val_internal_unlock in
    mret (VAL_ERR_PROTOCOL, no_packet)
  else
    let! rc := (if 0 <? payload_len
                then recv_into fuel VAL_WIRE_HEADER_SIZE payload_len timeout_ms else mret VAL_OK) in
    if negb (rc =? VAL_OK) then recv_failed rc
    else recv_trailer fuel dst type flags payload_len type_data timeout_ms.

Definition val_internal_recv_packet (fuel : nat) (dst : payload_dst) (timeout_ms : Z) : M (world E) (Z * packet) :=
  do! val_internal_lock in
  let! s := get_s in
  let P := session_mtu s in
  let! rc := recv_into fuel 0 VAL_WIRE_HEADER_SIZE timeout_ms in
  if negb (rc =? VAL_OK) then recv_failed rc
  else
    let! s := get_s in
    let '(type, flags, content_len, type_data) := val_deserialize_frame_header (s_recv_buffer s) in
    recv_content fuel dst P type flags content_len type_data timeout_ms.

End packet.

(** ** What sending and receiving keep *)

Section packet_safe.
Context {E : Type} `{!Hooks E}.

Lemma zlen_cut n l : 0 <= n → zlen (cut n l) <= n.
Proof. intros. unfold cut. rewrite zlen_map. by apply zlen_ztake_le. Qed.
Lemma bytes_ok_cut n l : bytes_ok (cut n l).
Proof. apply bytes_ok_map_u8. Qed.

(** A chunk from the transport, and nothing else changed. *)
Lemma transport_recv_spec n t w : 0 <= n →
  wpp (transport_recv n t) (λ rg w', w_s w' = w_s w ∧ zlen (snd rg) <= n ∧ bytes_ok (snd rg)) w.
Proof.
  intros Hn. apply wp_lift. destruct (hk_recv n t (w_e w)) as [[r got] e]. cbn.
  split; [done|]. split; [by apply zlen_cut|apply bytes_ok_cut].
Qed.
Lemma ticks_spec (w : world E) : wpp get_ticks_ms (λ t w', w_s w' = w_s w ∧ u32_ok t) w.
Proof.
  apply wp_lift. destruct (hk_get_ticks_ms (w_e w)) as [t e]. cbn.
  split; [done|apply u32_range].
Qed.
Lemma fs_fread_spec h n w : 0 <= n →
  wpp (fs_fread h n) (λ got w', w_s w' = w_s w ∧ zlen got <= n ∧ bytes_ok got) w.
Proof.
  intros Hn. apply wp_lift. destruct (hk_fread h n (w_e w)) as [got e]. cbn.
  split; [done|]. split; [by apply zlen_cut|apply bytes_ok_cut].
Qed.

Lemma recv_full_spec fuel need to_ms w : 0 <= need →
  wpp (val_recv_full fuel need to_ms)
    (λ rg w', w_s w' = w_s w ∧ zlen (snd rg) <= need ∧ bytes_ok (snd rg) ∧
              (fst rg = VAL_OK → zlen (snd rg) = need)) w.
Proof.
  intros Hn. unfold val_recv_full. apply wp_bind.
  eapply wp_mono; [apply ticks_spec|]. intros start w1 [E1 _]. rewrite <- E1. clear E1.
  apply (wpp_loop (λ have w', w_s w' = w_s w1 ∧ zlen have <= need ∧ bytes_ok have)).
  2:{ cbn. split; [done|]. split; [rewrite zlen_nil; lia|constructor]. }
  intros have w' (Hs & Hl & Hb). unfold recv_full_body.
  destruct (Z.leb_spec need (zlen have)); [apply wp_ret; cbn; repeat split; [done|done|done|lia]|].
  apply wp_bind. eapply wp_mono; [apply ticks_spec|]. intros now w2 [E2 _].
  apply wp_bind. eapply wp_mono; [apply transport_recv_spec; lia|].
  intros [r got] w3 (E3 & Hg & Hgb). cbn [fst snd] in *.
  assert (Hl' : zlen (have ++ got) <= need) by (rewrite zlen_app; lia).
  assert (Hb' : bytes_ok (have ++ got)) by (by apply bytes_ok_app).
  assert (Hs' : w_s w3 = w_s w1) by congruence.
  destruct (r <? 0); [apply wp_ret; cbn; repeat split; done|].
  destruct (Z.leb_spec need (zlen (have ++ got))); [apply wp_ret; cbn; repeat split; [done|done|done|lia]|].
  apply wp_bind. eapply wp_mono; [apply ticks_spec|]. intros t w4 [E4 _].
  destruct (_ <=? _); apply wp_ret; cbn; repeat split; try done; congruence.
Qed.

Context {c : val_config_t}.

(** A write inside the receive buffer. *)
Lemma safe_write_recv off data : 0 <= off → off + zlen data <= cfg_packet_size c → bytes_ok data →
  safe (E:=E) c 0 (upd (λ s, s <| s_recv_buffer := zwrite (s_recv_buffer s) off data |>)).
Proof.
  intros Ho Hl Hb. apply safe_upd. intros s H Hc. pose proof (sok_recv s H) as Hr. rewrite Hc in Hr.
  assert (Hz : zlen (zwrite (s_recv_buffer s) off data) = zlen (s_recv_buffer s))
    by (apply zlen_zwrite; lia).
  split; [|repeat split; cbn; lia].
  destruct H. constructor; try done; cbn; [lia|by apply bytes_ok_zwrite].
Qed.

(** Bytes read into the receive buffer within its bounds. *)
Lemma safe_recv_into fuel off need to_ms : 0 <= off → 0 <= need → off + need <= cfg_packet_size c →
  safe c 0 (recv_into fuel off need to_ms).
Proof.
  intros Ho Hn Hfit w Hw Hc. apply wp_bind. eapply wp_mono; [by apply recv_full_spec|].
  intros [rc got] w1 (E1 & Hl & Hb & _). cbn [fst snd] in *. rewrite <- E1 in *.
  refine (safe_bind0 0 _ _ (safe_write_recv off got Ho _ Hb) (λ _, safe_ret rc) w1 Hw Hc). lia.
Qed.

Lemma safe_capture rec : safe c 0 (capture rec).
Proof. unfold capture. safe_auto. Qed.
Lemma safe_recv_failed rc : safe (E:=E) c (-1) (recv_failed rc).
Proof. unfold recv_failed. safe_auto. Qed.
Hint Resolve safe_capture : safe.
Lemma safe_recv_finish t f d n p : safe c (-1) (recv_finish t f d n p).
Proof. unfold recv_finish. safe_auto. Qed.
Hint Resolve safe_recv_finish : safe.

Lemma zlen_zslice_le buf off n : 0 <= n → zlen (zslice buf off n) <= n.
Proof. intros. unfold zslice. by apply zlen_ztake_le. Qed.
Lemma bytes_ok_zslice buf off n : bytes_ok buf → bytes_ok (zslice buf off n).
Proof. intros. unfold zslice. auto with val. Qed.

Lemma safe_recv_deliver dst t f d n : 0 <= n <= cfg_packet_size c →
  safe c (-1) (recv_deliver dst t f d n).
Proof.
  intros Hn. unfold recv_deliver. apply safe_get_bind. intros s Hs Hc.
  apply safe_bind0; [safe_auto|intros _].
  destruct (negb (dst_cap dst =? 0)); [|safe_auto].
  set (explicit := (t =? VAL_PKT_DATA) && _).
  destruct (explicit && (n <? 8)) eqn:Ee; [safe_auto|].
  destruct (dst_cap dst <? _); [safe_auto|].
  apply safe_bind0; [|intros _; safe_auto].
  assert (Hl : 0 <= (if explicit then n - 8 else n) <= cfg_packet_size c) by (destruct explicit; cbn in Ee; lia).
  destruct dst; [safe_auto| |safe_auto].
  apply safe_write_recv; [lia| |apply bytes_ok_zslice, Hs].
  etrans; [|apply Hl]. apply zlen_zslice_le, Hl.
Qed.
Hint Resolve safe_recv_failed safe_recv_deliver : safe.

(** The header field is 16 bits wide. *)
Lemma header_content_len buf t f n d : bytes_ok buf → 8 <= zlen buf →
  val_deserialize_frame_header buf = (t, f, n, d) → 0 <= n < 2 ^ 16.
Proof.
  intros Hb Hl. unfold val_deserialize_frame_header. intros [= _ _ <- _].
  rewrite get_le16_val by (auto with val; rewrite zlen_zdrop; lia).
  pose proof (le_val_range (ztake 2 (zdrop 2 buf))) as H.
  rewrite zlen_ztake in H by (rewrite zlen_zdrop; lia).
  apply H. auto with val.
Qed.

Lemma safe_recv_packet fuel dst timeout_ms : safe c 0 (val_internal_recv_packet fuel dst timeout_ms).
Proof.
  unfold val_internal_recv_packet. apply safe_lock_bind. intros _.
  apply safe_get_bind. intros s0 Hs0 Hc0.
  pose proof (session_mtu_range s0 Hs0) as HP. pose proof (cok_packet _ (sok_cfg s0 Hs0)) as Hmax.
  rewrite Hc0 in *. unfold VAL_MIN_PACKET_SIZE, VAL_MAX_PACKET_SIZE in *.
  apply safe_bind0; [apply safe_recv_into; unfold VAL_WIRE_HEADER_SIZE; lia|intros rc].
  destruct (negb (rc =? VAL_OK)); [safe_auto|].
  apply safe_get_bind. intros s Hs Hc. pose proof (sok_recv s Hs) as Hr. rewrite Hc in Hr.
  destruct (val_deserialize_frame_header (s_recv_buffer s)) as [[[type flags] n] d] eqn:Eh.
  pose proof (header_content_len _ _ _ _ _ (sok_recv_bytes s Hs) ltac:(lia) Eh) as Hn.
  unfold recv_content, VAL_WIRE_HEADER_SIZE, VAL_WIRE_TRAILER_SIZE in *. rewrite u32_small by lia.
  destruct (Z.ltb_spec (session_mtu s0 - 8 - 4) n); [safe_auto|].
  apply safe_bind0.
  { destruct (0 <? n); [apply safe_recv_into; lia|apply safe_ret]. }
  intros rc2. destruct (negb (rc2 =? VAL_OK)); [safe_auto|].
  unfold recv_trailer, VAL_WIRE_TRAILER_SIZE. apply safe_bind0.
  { intros w Hw Hcw. eapply wp_mono; [apply recv_full_spec; lia|].
    intros [? ?] w' (E' & _). cbv beta. rewrite E'. by apply stable_refl. }
  intros [rc3 trailer]. destruct (negb (rc3 =? VAL_OK)); [safe_auto|].
  apply safe_get_bind. intros s3 Hs3 Hc3.
  destruct (negb _); [safe_auto|]. apply safe_recv_deliver. lia.
Qed.

(** How much of the send buffer the content area takes. *)
Definition content_room (type payload_len : Z) (incl : bool) : Z :=
  if (type =? VAL_PKT_DATA) && incl then 8 + payload_len else Z.max 12 payload_len.

Lemma zlen_payload_bytes buf p n : 0 <= n → zlen (payload_bytes buf p n) <= n.
Proof.
  intros. destruct p; cbn; [rewrite zlen_nil; lia|by apply zlen_ztake_le|by apply zlen_zslice_le].
Qed.
Ltac room :=
  repeat (apply zlen_zwrite_eq; [|lia|rewrite ?zlen_put32, ?zlen_put64; lia]); done.
Lemma encode_len buf type p n off incl : 0 <= n → 8 + content_room type n incl <= zlen buf →
  zlen (enc_buf (encode_content buf type p n off incl)) = zlen buf.
Proof.
  intros Hn Hroom. unfold content_room in Hroom. unfold encode_content, VAL_WIRE_HEADER_SIZE.
  pose proof (zlen_payload_bytes buf p n Hn) as Hp. unfold VAL_WIRE_HEADER_SIZE in Hp.
  pose proof (zlen_zslice_le buf 8 n Hn) as Hsl.
  assert (Hif : ∀ (b : bool) (x y : list Z), zlen x = zlen buf → zlen y = zlen buf →
                zlen (if b then x else y) = zlen buf) by (by intros []).

  destruct (type =? VAL_PKT_DATA); cbn [andb] in Hroom.
  - destruct incl; cbn [enc_buf]; [|apply Hif; room].
    destruct (negb (n =? 0) && payload_nonnull p); cbn [enc_buf]; [|room].
    destruct p; cbn [enc_buf]; room.
  - destruct (_ || _); [destruct (negb _); room|].
    destruct (type =? VAL_PKT_DATA_NAK); cbn [enc_buf]; [room|apply Hif; room].
Qed.

Lemma encode_content_len buf type p n off incl :
  0 <= enc_content_len (encode_content buf type p n off incl) < 2 ^ 16.
Proof.
  unfold encode_content. pose proof (u16_range n). pose proof (u16_range (u32 (n + 8))).
  destruct (type =? VAL_PKT_DATA).
  { destruct incl; [|done]. destruct (_ && _); [destruct p|]; done. }
  destruct (_ || _); [destruct (negb _); cbn; lia|].
  destruct (type =? VAL_PKT_DATA_NAK); cbn; lia.
Qed.

(** The frame is written inside the buffer when the content area takes the payload. *)
Lemma safe_write_send b : (∀ s, session_ok s → s_cfg s = c → zlen b = zlen (s_send_buffer s)) →
  safe (E:=E) c 0 (set_send_buffer b).
Proof.
  intros Hl. apply safe_upd. intros s Hs Hc. specialize (Hl s Hs Hc).
  split; [|repeat split; try done; cbn; lia].
  destruct Hs. constructor; try done. cbn. lia.
Qed.

Lemma set_send_buffer_spec b (w : world E) L : session_ok (w_s w) → zlen (s_send_buffer (w_s w)) = L →
  zlen b = L →
  wpp (set_send_buffer b) (λ _ w', stable 0 (w_s w) (w_s w') ∧ zlen (s_send_buffer (w_s w')) = L) w.
Proof.
  intros Hs Hl Hb. apply wp_mod. cbn. split; [|done].
  split; [|repeat split; cbn; lia]. destruct Hs. constructor; try done. cbn. lia.
Qed.

Lemma safe_send_core type p n off incl : 0 <= n → 8 + content_room type n incl <= cfg_packet_size c →
  safe c 0 (val__internal_send_packet_core type p n off incl).
Proof.
  intros Hn Hroom. unfold val__internal_send_packet_core. apply safe_lock_bind. intros _.
  apply safe_bind0; [safe_auto|intros connected]. destruct (negb connected); [safe_auto|].
  intros w Hw Hc. apply wp_bind, wp_gets.
  set (s := w_s w) in *. set (L := zlen (s_send_buffer s)).
  assert (HL : cfg_packet_size c <= L) by (rewrite <- Hc; apply (sok_send s Hw)).
  set (enc := encode_content _ _ _ _ _ _).
  assert (He : zlen (enc_buf enc) = L) by (apply encode_len; lia).
  pose proof (encode_content_len (s_send_buffer s) type p n off incl) as Hcl. fold enc in Hcl.
  pose proof (session_mtu_range s Hw) as Hmtu. rewrite Hc in Hmtu.
  apply wp_bind. eapply wp_mono; [by apply (set_send_buffer_spec _ w L)|].
  intros [] w1 [St1 L1]. cbv beta. assert (Hc1 : s_cfg (w_s w1) = c) by (rewrite <- Hc; apply St1).
  cut (∀ m : M (world E) Z, safe c (0 - 1) m →
       wpp m (λ _ w', stable (0 - 1) s (w_s w')) w1).
  2:{ intros m Hm. eapply wp_mono; [apply Hm; [apply St1|done]|]. intros a w' Hst. cbv beta.
      change (0 - 1) with (0 + (0 - 1)). by eapply stable_trans. }
  intros Hcut. unfold VAL_WIRE_HEADER_SIZE, VAL_WIRE_TRAILER_SIZE in *.
  destruct (Z.ltb_spec (session_mtu s - 8 - 4) (enc_content_len enc)); [apply Hcut; safe_auto|].
  set (b2 := zwrite _ _ _).
  assert (Hb2 : zlen b2 = L).
  { unfold b2. apply zlen_zwrite_eq; [apply zlen_zwrite_eq; [done|lia|]|lia|].
    - rewrite frame_header_size. unfold VAL_WIRE_HEADER_SIZE. lia.
    - rewrite zlen_put32. lia. }
  apply wp_bind. eapply wp_mono; [apply (set_send_buffer_spec b2 w1 L); [apply St1|done|done]|].
  intros [] w2 [St2 _]. cbv beta.
  pose proof (stable_trans _ _ _ _ _ St1 St2) as St.
  assert (Hc2 : s_cfg (w_s w2) = c) by (rewrite <- Hc; apply St).
  cut (safe c (0 - 1) (let! rc := transport_send (ztake (8 + enc_content_len enc + 4) b2) in
    do! val_internal_unlock in
    if negb (rc =? 8 + enc_content_len enc + 4)
    then do! VAL_SET_NETWORK_ERROR VAL_ERROR_DETAIL_SEND_FAILED in mret VAL_ERR_IO
    else do! val_metrics_add_sent (8 + enc_content_len enc + 4) (u8 type) in
         do! capture (λ now, mk_record VAL_DIR_TX (u8 type) (u32 (8 + enc_content_len enc + 4)) n off true now) in
         do! (if flushed_type type then val_internal_transport_flush else mret tt) in mret VAL_OK)).
  { intros Hk. eapply wp_mono; [apply Hk; [apply St|done]|]. intros a w' Hst. cbv beta.
    change (0 - 1) with (0 + 0 + (0 - 1)). by eapply stable_trans. }
  safe_auto.
Qed.

(** Control payloads are small; the data path's payload fits the MTU. *)
Lemma safe_send_small type p n off incl : 0 <= n <= 488 →
  safe c 0 (val__internal_send_packet_core type p n off incl).
Proof.
  intros Hn w Hw Hc. apply safe_send_core; [lia| |done|done].
  pose proof (cok_packet _ (sok_cfg _ Hw)). rewrite Hc in *. unfold content_room, VAL_MIN_PACKET_SIZE in *.
  destruct (_ && _); lia.
Qed.
Lemma safe_send_packet type p n off : 0 <= n <= 488 →
  safe c 0 (val_internal_send_packet type p n off).
Proof. apply safe_send_small. Qed.
Lemma safe_send_packet_ex type p n off incl : 0 <= n <= 488 →
  safe c 0 (val_internal_send_packet_ex type p n off incl).
Proof. apply safe_send_small. Qed.
Lemma safe_send_ctrl type off : safe c 0 (val_internal_send_packet type PNull 0 off).
Proof. apply safe_send_packet. lia. Qed.
End packet_safe.
#[export] Hint Resolve safe_recv_packet safe_send_ctrl safe_capture : safe.
#[export] Hint Extern 2 (safe _ 0 (val_internal_send_packet _ _ _ _)) =>
  apply safe_send_packet; first [done | cbv; split; discriminate] : safe.
#[export] Hint Extern 2 (safe _ 0 (val_internal_send_packet_ex _ _ _ _ _)) =>
  apply safe_send_packet_ex; first [done | cbv; split; discriminate] : safe.
