(* ===== verification/Frame.v ===== *)
(** What frames mean: the bytes [val__internal_send_packet_core] puts on the wire and
    what [val_internal_recv_packet] makes of a byte stream, both as pure functions,
    with the theorems that tie them to the stateful code of [Packet]. *)
From S2P Require Import Prelude ByteOrder Wire Errors Crc Timing Session Simulation Packet.

(** ** The frame of a packet *)

Definition is_ack (type : Z) : bool :=
  (type =? VAL_PKT_DATA_ACK) || (type =? VAL_PKT_DONE_ACK) || (type =? VAL_PKT_EOT_ACK).

Definition content_of (type : Z) (data : list Z) (offset : Z) (incl : bool) : list Z :=
  if type =? VAL_PKT_DATA then (if incl then VAL_PUT_LE64 offset ++ data else data)
  else if is_ack type then (if high32 offset =? 0 then [] else VAL_PUT_LE32 (high32 offset))
  else if type =? VAL_PKT_DATA_NAK then
    VAL_PUT_LE32 (high32 offset) ++
    VAL_PUT_LE32 (if 4 <=? zlen data then VAL_GET_LE32 data else 1) ++ VAL_PUT_LE32 0
  else data.
Definition flags_of (type : Z) (incl : bool) : Z :=
  if type =? VAL_PKT_DATA then (if incl then VAL_DATA_OFFSET_PRESENT else 0)
  else if type =? VAL_PKT_DONE_ACK then VAL_ACK_DONE_FILE
  else if type =? VAL_PKT_EOT_ACK then VAL_ACK_EOT else 0.
Definition type_data_of (type offset : Z) : Z :=
  if is_ack type || (type =? VAL_PKT_DATA_NAK) then low32 offset else 0.

(** Header, content and the CRC-32 of both. *)
Definition frame_body (type flags type_data : Z) (content : list Z) : list Z :=
  val_serialize_frame_header (u8 type) flags (zlen content) type_data ++ content.
Definition frame_of (crc : list Z → Z) (type flags type_data : Z) (content : list Z) : list Z :=
  let body := frame_body type flags type_data content in body ++ VAL_PUT_LE32 (crc body).
Definition packet_frame (crc : list Z → Z) (type : Z) (data : list Z) (offset : Z) (incl : bool) : list Z :=
  frame_of crc type (flags_of type incl) (type_data_of type offset) (content_of type data offset incl).
Lemma packet_frame_ext crc crc' type data off incl : (∀ l, crc l = crc' l) →
  packet_frame crc type data off incl = packet_frame crc' type data off incl.
Proof. intros Hc. unfold packet_frame, frame_of. by rewrite Hc. Qed.

(** The payload argument leads to [data] ([n] bytes). *)
Definition payload_data (buf : list Z) (p : payload_ptr) (n : Z) (data : list Z) : Prop :=
  match p with
  | PNull => n = 0 ∧ data = []
  | PBytes d => 0 <= n <= zlen d ∧ data = ztake n d
  | PContent => 0 <= n ∧ VAL_WIRE_HEADER_SIZE + n <= zlen buf ∧ data = zslice buf VAL_WIRE_HEADER_SIZE n
  end.

(** ** Buffers split at the header *)

Lemma zwrite_app_r a t k x : 0 <= k → zwrite (a ++ t) (zlen a + k) x = a ++ zwrite t k x.
Proof.
  intros Hk. unfold zwrite, ztake, zdrop, zlen. pose proof (zlen_nonneg x).
  rewrite Z2Nat.inj_add, Nat2Z.id, take_app_add by lia.
  rewrite <- !(assoc_L (++)). do 3 f_equal.
  rewrite <- Z.add_assoc, Z2Nat.inj_add, Nat2Z.id by lia. by rewrite drop_app_add.
Qed.
Lemma zwrite_0 t x : zwrite t 0 x = x ++ zdrop (zlen x) t.
Proof. done. Qed.
Lemma zslice_app_r a t n : zslice (a ++ t) (zlen a) n = ztake n t.
Proof. unfold zslice. by rewrite zdrop_app_exact. Qed.
Lemma zwrite_prefix a t x : zlen x = zlen a → zwrite (a ++ t) 0 x = x ++ t.
Proof. intros E. rewrite zwrite_0, E. by rewrite zdrop_app_exact. Qed.
Lemma split_at n (l : list Z) : 0 <= n <= zlen l → ∃ a t, l = a ++ t ∧ zlen a = n ∧ zlen t = zlen l - n.
Proof.
  intros H. exists (ztake n l), (zdrop n l). rewrite ztake_zdrop, zlen_ztake, zlen_zdrop by done. done.
Qed.

(** Writes at and after the header. *)
Lemma write_content h t x : zlen h = 8 → zwrite (h ++ t) 8 x = h ++ x ++ zdrop (zlen x) t.
Proof. intros <-. rewrite <- (Z.add_0_r (zlen h)) at 1. by rewrite zwrite_app_r. Qed.
Lemma write_after h a t x k : zlen h = 8 → zlen a = k → zwrite (h ++ a ++ t) (8 + k) x = h ++ a ++ x ++ zdrop (zlen x) t.
Proof.
  intros <- <-. pose proof (zlen_nonneg a). rewrite zwrite_app_r by done.
  rewrite <- (Z.add_0_r (zlen a)) at 1. by rewrite zwrite_app_r.
Qed.

Lemma zlen_payload_data buf p n data : payload_data buf p n data → 0 <= n ∧ zlen data = n.
Proof.
  destruct p; cbn.
  - by intros [-> ->].
  - intros [? ->]. split; [lia|by apply zlen_ztake].
  - unfold VAL_WIRE_HEADER_SIZE. intros (?&?&->). split; [done|]. unfold zslice.
    apply zlen_ztake. rewrite zlen_zdrop; lia.
Qed.
Lemma payload_bytes_data buf p n data : payload_data buf p n data → payload_bytes buf p n = data.
Proof. destruct p; cbn; [by intros [_ ->]|by intros [_ ->]|by intros (_&_&->)]. Qed.
Lemma u16_u32 z : u16 (u32 z) = u16 z.
Proof. unfold u16, u32. apply Z.mod_mod_divide. by exists (2 ^ 16). Qed.

(** The switch of the sender, whatever the payload pointer aliases: the content area
    ends up with the content, and nothing else of the buffer before it changes. *)
Lemma encode_content_spec h t type p n off incl data :
  zlen h = 8 → payload_data (h ++ t) p n data → content_room type n incl <= zlen t →
  let enc := encode_content (h ++ t) type p n off incl in
  let ct := content_of type data off incl in
  enc_flags enc = flags_of type incl ∧ enc_type_data enc = type_data_of type off ∧
  enc_content_len enc = u16 (zlen ct) ∧ ∃ t', enc_buf enc = h ++ ct ++ t'.
Proof.
  intros Hh Hp Hroom enc ct. destruct (zlen_payload_data _ _ _ _ Hp) as [Hn Hd].
  pose proof (payload_bytes_data _ _ _ _ Hp) as Hpb.
  assert (Hplain : ∀ b, b = negb (n =? 0) && payload_nonnull p →
    ∃ t', (if b then zwrite (h ++ t) 8 (payload_bytes (h ++ t) p n) else h ++ t) = h ++ data ++ t').
  { intros b ->. destruct (negb (n =? 0) && payload_nonnull p) eqn:Eb.
    - rewrite Hpb, write_content by done. eauto.
    - exists t. replace data with (@nil Z); [done|]. destruct p; [by destruct Hp| |];
        (destruct data; [done|]; rewrite zlen_cons in Hd; pose proof (zlen_nonneg data);
         rewrite andb_true_r in Eb; lia). }
  unfold content_room in Hroom. subst enc ct.
  unfold encode_content, content_of, flags_of, type_data_of, is_ack, VAL_WIRE_HEADER_SIZE.
  destruct (Z.eqb_spec type VAL_PKT_DATA) as [->|Nd]; cbn [andb] in Hroom.
  { destruct incl; cbn [enc_flags enc_type_data enc_content_len enc_buf].
    2:{ repeat split; [by rewrite Hd|by apply Hplain]. }
    assert (El : u16 (u32 (n + 8)) = u16 (zlen (VAL_PUT_LE64 off ++ data)))
      by (rewrite u16_u32, zlen_app, zlen_put64, Hd; f_equal; lia).
    destruct (negb (n =? 0) && payload_nonnull p) eqn:Eb.
    - destruct p as [|d|]; [by rewrite andb_false_r in Eb| |];
        cbn [enc_flags enc_type_data enc_content_len enc_buf]; repeat split; try done.
      + rewrite Hpb, write_content by done. rewrite (write_after _ _ _ _ 8) by done.
        eexists. by rewrite <- (assoc_L (++)).
      + destruct Hp as (_&_&->). unfold VAL_WIRE_HEADER_SIZE in *. pose proof (zlen_nonneg t).
        destruct (split_at 8 t) as (a & t2 & -> & Ha & _); [lia|].
        rewrite (write_after _ _ _ _ 8) by done. rewrite write_content by done.
        rewrite zdrop_app_exact by (by rewrite zlen_put64).
        eexists. by rewrite <- (assoc_L (++)).
    - cbn [enc_flags enc_type_data enc_content_len enc_buf]. repeat split; [done|].
      rewrite write_content by done.
      assert (data = []) as ->; [|rewrite app_nil_r; eauto].
      destruct p; [by destruct Hp| |]; (destruct data; [done|]; rewrite zlen_cons in Hd;
         pose proof (zlen_nonneg data); rewrite andb_true_r in Eb; lia). }
  fold (is_ack type). destruct (is_ack type) eqn:Ea; cbn [orb].
  { destruct (high32 off =? 0); cbn [negb enc_flags enc_type_data enc_content_len enc_buf]; repeat split.
    - by exists t.
    - rewrite write_content by done. eauto. }
  assert (Hfl : flags_of type incl = 0).
  { unfold flags_of, is_ack in *. destruct (type =? VAL_PKT_DATA) eqn:?; [lia|].
    destruct (type =? VAL_PKT_DONE_ACK), (type =? VAL_PKT_EOT_ACK); try done;
    by rewrite ?orb_true_r in Ea. }
  unfold flags_of in Hfl. replace (type =? VAL_PKT_DATA) with false in Hfl by lia. rewrite Hfl.
  destruct (type =? VAL_PKT_DATA_NAK); cbn [enc_flags enc_type_data enc_content_len enc_buf].
  - assert (Er : (if payload_nonnull p && (4 <=? n) then VAL_GET_LE32 (payload_bytes (h ++ t) p n) else 1)
                 = (if 4 <=? zlen data then VAL_GET_LE32 data else 1)).
    { rewrite Hpb, Hd. destruct p; [|done..]. by destruct Hp as [-> ->]. }
    rewrite Er. repeat split. rewrite write_content by done. rewrite (write_after _ _ _ _ 4) by done.
    rewrite (assoc_L (++) (VAL_PUT_LE32 (high32 off))).
    rewrite (write_after _ _ _ _ 8) by done. rewrite <- !(assoc_L (++)). eauto.
  - repeat split; [by rewrite Hd|by apply Hplain].
Qed.

(** ** Sending is framing *)

Section sending.
Context {E : Type} `{!Hooks E}.

Definition quiet_event (ev : event) : Prop :=
  match ev with EvFlush => True | EvPacket _ => True | _ => False end.

(** What sending leaves alone. *)
Record unchanged (s s' : val_session_t) : Prop := {
  unch_cfg : s_cfg s' = s_cfg s;
  unch_mtu : s_effective_packet_size s' = s_effective_packet_size s;
  unch_recv : s_recv_buffer s' = s_recv_buffer s
}.
Lemma unchanged_refl s : unchanged s s.
Proof. done. Qed.
Lemma unchanged_trans s s' s'' : unchanged s s' → unchanged s' s'' → unchanged s s''.
Proof. intros [] []. constructor; congruence. Qed.

(** One frame went to the transport and its answer decides the status. *)
Definition sent (frame : list Z) (st : Z) (w w' : world E) : Prop :=
  unchanged (w_s w) (w_s w') ∧
  ∃ quiet rc, Forall quiet_event quiet ∧ w_tr w' = quiet ++ EvSend frame rc :: w_tr w ∧
              st = if rc =? zlen frame then VAL_OK else VAL_ERR_IO.

(** The world's [quietly] changed: only flushes and capture calls were traced. *)
Definition quietly (w w' : world E) : Prop :=
  unchanged (w_s w) (w_s w') ∧ ∃ quiet, Forall quiet_event quiet ∧ w_tr w' = quiet ++ w_tr w.
Lemma quietly_refl w : quietly w w.
Proof. split; [done|]. by exists []. Qed.
Lemma quietly_trans w w' w'' : quietly w w' → quietly w' w'' → quietly w w''.
Proof.
  intros [U (q & Hq & Eq)] [U' (q' & Hq' & Eq')]. split; [by eapply unchanged_trans|].
  exists (q' ++ q). split; [by apply Forall_app|]. by rewrite Eq', Eq, (assoc_L (++)).
Qed.
#[export] Instance quietly_preorder : PreOrder quietly.
Proof. split; [exact quietly_refl|exact quietly_trans]. Qed.

(** [m] returns and changes the world only quietly. *)
Definition calm {A} (m : M (world E) A) : Prop := ∀ w, wpt m (λ _ w', quietly w w') w.
Lemma calm_ret {A} (a : A) : calm (mret a).
Proof. intros w. apply wp_ret. reflexivity. Qed.
Lemma calm_bind {A B} (m : M (world E) A) (k : A → M (world E) B) :
  calm m → (∀ a, calm (k a)) → calm (mbind m k).
Proof.
  intros Hm Hk w. apply wp_bind. eapply wp_mono; [apply Hm|]. intros a w' H1.
  eapply wp_mono; [apply Hk|]. intros b w'' H2. cbv beta in *. by etrans.
Qed.
Lemma calm_gets {A} (f : val_session_t → A) : calm (gets_s f).
Proof. intros w. apply wp_gets. reflexivity. Qed.
Lemma calm_get : calm get_s.
Proof. apply (calm_gets (λ s, s)). Qed.
Lemma calm_upd f : (∀ s, unchanged s (f s)) → calm (upd f).
Proof. intros Hf w. apply wp_mod. split; [apply Hf|]. by exists []. Qed.
Lemma calm_env {A} (h : E → A * E) :
  calm (mlift (λ w, let '(a, e) := h (w_e w) in (a, mk_world (w_s w) e (w_tr w)))).
Proof. intros w. apply wp_lift. destruct (h (w_e w)). split; [done|]. by exists []. Qed.
Lemma calm_ticks : calm get_ticks_ms.
Proof. intros w. apply wp_lift. destruct (hk_get_ticks_ms (w_e w)). split; [done|]. by exists []. Qed.
Lemma calm_call_unit (h : E → E) ev : quiet_event ev → calm (call_unit h ev).
Proof.
  intros Hq w. apply wp_mod. split; [done|]. exists [ev]. split; [|done]. by apply Forall_singleton.
Qed.
Lemma calm_error st d o : calm (val_internal_set_last_error_full st d o).
Proof. by apply calm_upd. Qed.
Lemma calm_flush : calm val_internal_transport_flush.
Proof.
  unfold val_internal_transport_flush. apply calm_bind; [apply calm_get|intros s].
  destruct (cfg_has_flush _); [by apply calm_call_unit|apply calm_ret].
Qed.
Lemma calm_capture rec : calm (capture rec).
Proof.
  unfold capture. apply calm_bind; [apply calm_get|intros s].
  destruct (cfg_has_on_packet _); [|apply calm_ret].
  apply calm_bind; [apply calm_ticks|intros now]. by apply calm_call_unit.
Qed.
Lemma calm_connected : calm val_internal_transport_is_connected.
Proof.
  unfold val_internal_transport_is_connected. apply calm_bind; [apply calm_get|intros s].
  destruct (cfg_has_is_connected _); [|apply calm_ret].
  apply calm_bind; [apply calm_env|intros r]. apply calm_ret.
Qed.

(** The end of a send: metrics, capture, flush. *)
Definition send_tail (type total_len n off : Z) : M (world E) Z :=
  do! val_metrics_add_sent total_len (u8 type) in
  do! capture (λ now, mk_record VAL_DIR_TX (u8 type) (u32 total_len) n off true now) in
  do! (if flushed_type type then val_internal_transport_flush else mret tt) in
  mret VAL_OK.
Lemma send_tail_spec type tl n off w :
  wpt (send_tail type tl n off) (λ st w', st = VAL_OK ∧ quietly w w') w.
Proof.
  unfold send_tail. apply wp_bind. eapply wp_mono; [by apply calm_upd|]. intros ? w1 H1.
  apply wp_bind. eapply wp_mono; [apply calm_capture|]. intros ? w2 H2.
  apply wp_bind. eapply wp_mono; [destruct (flushed_type type); [apply calm_flush|apply calm_ret]|].
  intros ? w3 H3. apply wp_ret. split; [done|]. cbv beta in *. by do 2 (etrans; [eassumption|]).
Qed.

Lemma put_frame h ct t' (type flags td : Z) (crc : list Z → Z) : zlen h = 8 →
  let cl := zlen ct in
  let buf := zwrite (h ++ ct ++ t') 0 (val_serialize_frame_header (u8 type) flags cl td) in
  ztake (8 + cl) buf = frame_body type flags td ct ∧
  ztake (8 + cl + 4) (zwrite buf (8 + cl) (VAL_PUT_LE32 (crc (ztake (8 + cl) buf))))
  = frame_of crc type flags td ct.
Proof.
  intros Hh. cbv zeta. rewrite zwrite_prefix by (by rewrite Hh, frame_header_size).
  set (hdr := val_serialize_frame_header _ _ _ _). assert (Hhdr : zlen hdr = 8) by done.
  assert (Et : ztake (8 + zlen ct) (hdr ++ ct ++ t') = hdr ++ ct).
  { rewrite (assoc_L (++)). apply ztake_app_exact. by rewrite zlen_app, Hhdr. }
  split; [by rewrite Et|]. rewrite Et. rewrite (assoc_L (++)).
  replace (8 + zlen ct) with (zlen (hdr ++ ct) + 0) at 2 by (rewrite zlen_app, Hhdr; lia).
  rewrite zwrite_app_r, zwrite_0, !(assoc_L (++)) by done. unfold frame_of, frame_body.
  fold hdr. apply ztake_app_exact. rewrite !zlen_app, zlen_put32, Hhdr. lia.
Qed.

End sending.

Section send_spec.
Context {E : Type} `{!Hooks E}.

Definition session_frame (s : val_session_t) (type : Z) (data : list Z) (offset : Z) (incl : bool) : list Z :=
  packet_frame (val_internal_crc32 s) type data offset incl.
(** The status for a packet the transport is connected for. *)
Definition fits (s : val_session_t) (type : Z) (data : list Z) (offset : Z) (incl : bool) : Prop :=
  zlen (content_of type data offset incl) <= session_mtu s - 12.

Lemma zlen_frame crc t f td ct : zlen (frame_of crc t f td ct) = 8 + zlen ct + 4.
Proof. unfold frame_of, frame_body. by rewrite !zlen_app, zlen_put32, frame_header_size. Qed.

(** The transport says that the connection is down. *)
Definition unconnected (w : world E) : Prop :=
  cfg_has_is_connected (s_cfg (w_s w)) = true ∧ fst (hk_is_connected (w_e w)) = 0.

(** The lock and the connection check; [k] sees the session of before. *)
Lemma send_prologue {k : M (world E) Z} w (Q : Z → world E → Prop) :
  (∀ w', unconnected w → quietly w w' → Q VAL_ERR_IO w') →
  (∀ w2, quietly w w2 → w_tr w2 = w_tr w → s_send_buffer (w_s w2) = s_send_buffer (w_s w) →
         session_mtu (w_s w2) = session_mtu (w_s w) →
         val_internal_crc32 (w_s w2) = val_internal_crc32 (w_s w) → wpt k Q w2) →
  wpt (do! val_internal_lock in
       let! connected := val_internal_transport_is_connected in
       if negb connected then
         do! VAL_SET_NETWORK_ERROR VAL_ERROR_DETAIL_CONNECTION in
         do! val_internal_unlock in mret VAL_ERR_IO
       else k) Q w.
Proof.
  intros Hio Hk. apply wp_bind, wp_mod. apply wp_bind.
  set (w1 := mk_world _ _ _). assert (Hw1 : quietly w w1) by (split; [done|by exists []]).
  assert (Hcon : wpt val_internal_transport_is_connected (λ r w2, (r = false → unconnected w) ∧ quietly w1 w2 ∧ w_tr w2 = w_tr w ∧
            s_send_buffer (w_s w2) = s_send_buffer (w_s w) ∧ session_mtu (w_s w2) = session_mtu (w_s w) ∧
            val_internal_crc32 (w_s w2) = val_internal_crc32 (w_s w)) w1).
  { unfold val_internal_transport_is_connected. apply wp_bind, wp_gets.
    assert (Hq : ∀ e, quietly w1 (mk_world (w_s w1) e (w_tr w1))) by (split; [done|by exists []]).
    destruct (cfg_has_is_connected _) eqn:Ec.
    - apply wp_bind, wp_lift. unfold unconnected. change (w_e w1) with (w_e w).
      destruct (hk_is_connected (w_e w)) as [r e]. apply wp_ret.
      split; [intros Er; split; [exact Ec|cbn in *; destruct (Z.eqb_spec r 0); [done|discriminate]]|]. split; [apply Hq|done].
    - apply wp_ret. split; [done|]. split; [reflexivity|done]. }
  eapply wp_mono; [apply Hcon|]. clear Hcon. intros connected w2 (Hun & Hq2 & Et & Es & Em & Ecrc).
  assert (Hw2 : quietly w w2) by (by etrans). destruct connected; cbn [negb]; [by apply Hk|].
  apply wp_bind. eapply wp_mono; [apply calm_error|]. intros ? w3 H3.
  apply wp_bind, wp_mod, wp_ret. apply Hio; [by apply Hun|]. etrans; [exact Hw2|]. etrans; [exact H3|].
  split; [done|by exists []].
Qed.

(** After the connection check: the frame of what the encoder left goes out. *)
Lemma send_core_frame type p n off incl w h ct t' :
  session_ok (w_s w) → let s := w_s w in
  let enc := encode_content (s_send_buffer s) type p n off incl in
  zlen h = 8 → enc_buf enc = h ++ ct ++ t' → enc_content_len enc = zlen ct →
  zlen ct <= session_mtu s - 12 →
  wpt (val__internal_send_packet_core type p n off incl)
    (λ st w', (st = VAL_ERR_IO ∧ unconnected w ∧ quietly w w') ∨
              sent (frame_of (val_internal_crc32 s) type (enc_flags enc) (enc_type_data enc) ct) st w w') w.
Proof.
  intros Hok s enc Hh Eb Ec Hfit. unfold val__internal_send_packet_core.
  apply send_prologue; [by left; eauto|]. intros w2 Hw2 Et Es Em Ecrc.
  apply wp_bind, wp_gets. rewrite Es, Em. fold s in Ecrc |- *. fold enc. rewrite Ec.
  apply wp_bind, wp_mod. unfold VAL_WIRE_HEADER_SIZE, VAL_WIRE_TRAILER_SIZE.
  replace (session_mtu s - 8 - 4 <? zlen ct) with false by lia.
  cbv zeta. rewrite Eb.
  replace (val_internal_crc32 (w_s w2)) with (val_internal_crc32 s) by done.
  destruct (put_frame h ct t' type (enc_flags enc) (enc_type_data enc) (val_internal_crc32 s) Hh) as [_ Hf].
  cbv zeta in Hf. apply wp_bind, wp_mod. apply wp_bind, wp_lift. cbn [w_e w_s w_tr]. rewrite Hf.
  set (fr := frame_of _ _ _ _ _) in *. destruct (hk_send fr (w_e w2)) as [rc e]. cbn [fst snd].
  apply wp_bind, wp_mod. cbn [w_s w_e w_tr].
  set (w3 := mk_world _ _ _). assert (Hlen : 8 + zlen ct + 4 = zlen fr) by (symmetry; apply zlen_frame).
  assert (Hw3 : sent fr (if rc =? zlen fr then VAL_OK else VAL_ERR_IO) w w3).
  { destruct Hw2 as [U _]. split; [destruct U; by constructor|].
    exists [], rc. split; [done|]. split; [|done]. cbn. by rewrite Et. }
  rewrite Hlen. destruct (rc =? zlen fr); cbn [negb].
  - eapply wp_mono; [apply send_tail_spec|]. intros st w4 [-> [U (q & Hq & Eq)]]. right.
    destruct Hw3 as [U3 (q3 & rc3 & Hq3 & E3 & Est)]. split; [by eapply unchanged_trans|].
    exists (q ++ q3), rc3. split; [by apply Forall_app|]. split; [|done]. by rewrite Eq, E3, (assoc_L (++)).
  - apply wp_bind. eapply wp_mono; [apply calm_error|]. intros ? w4 [U (q & Hq & Eq)]. apply wp_ret. right.
    destruct Hw3 as [U3 (q3 & rc3 & Hq3 & E3 & Est)]. split; [by eapply unchanged_trans|].
    exists (q ++ q3), rc3. split; [by apply Forall_app|]. split; [|done]. by rewrite Eq, E3, (assoc_L (++)).
Qed.

(** More content than the MTU takes: refused, and nothing is sent. *)
Lemma send_core_refuses type p n off incl w :
  let s := w_s w in
  session_mtu s - 12 < enc_content_len (encode_content (s_send_buffer s) type p n off incl) →
  wpt (val__internal_send_packet_core type p n off incl)
    (λ st w', (st = VAL_ERR_IO ∧ unconnected w ∨ st = VAL_ERR_INVALID_ARG) ∧ quietly w w') w.
Proof.
  intros s Hbig. unfold val__internal_send_packet_core.
  apply send_prologue; [by eauto|]. intros w2 Hw2 Et Es Em Ecrc.
  apply wp_bind, wp_gets. rewrite Es, Em. fold s. unfold VAL_WIRE_HEADER_SIZE, VAL_WIRE_TRAILER_SIZE.
  replace (session_mtu s - 8 - 4 <? _) with true by lia. apply wp_bind, wp_mod, wp_bind.
  eapply wp_mono; [apply calm_error|]. intros ? w3 H3. apply wp_bind, wp_mod, wp_ret.
  split; [by right|]. etrans; [exact Hw2|]. apply quietly_trans with w3; [|split; [done|by exists []]].
  etrans; [|exact H3]. split; [done|by exists []].
Qed.

Lemma send_core_spec type p n off incl data w :
  session_ok (w_s w) → payload_data (s_send_buffer (w_s w)) p n data →
  8 + content_room type n incl <= zlen (s_send_buffer (w_s w)) →
  zlen (content_of type data off incl) < 2 ^ 16 →
  wpt (val__internal_send_packet_core type p n off incl)
    (λ st w',
       (st = VAL_ERR_IO ∧ unconnected w ∧ quietly w w') ∨
       (fits (w_s w) type data off incl ∧
        sent (session_frame (w_s w) type data off incl) st w w') ∨
       (~ fits (w_s w) type data off incl ∧ st = VAL_ERR_INVALID_ARG ∧ quietly w w')) w.
Proof.
  intros Hok Hp Hroom H16. set (s := w_s w) in *.
  assert (Hr0 : 0 <= content_room type n incl).
  { destruct (zlen_payload_data _ _ _ _ Hp). unfold content_room. destruct (_ && _); lia. }
  destruct (split_at 8 (s_send_buffer s)) as (h & t & Eb & Hh & Ht); [lia|].
  rewrite Eb in Hp.
  destruct (encode_content_spec h t type p n off incl data Hh Hp ltac:(lia)) as (Ef & Etd & El & t' & Ebuf).
  rewrite <- Eb in *. pose proof (zlen_nonneg (content_of type data off incl)).
  rewrite u16_small in El by lia. unfold fits. fold s.
  destruct (Z_le_gt_dec (zlen (content_of type data off incl)) (session_mtu s - 12)) as [Hfit|Hbig].
  - eapply wp_mono; [by eapply send_core_frame|]. cbv beta. intros st w' [|Hs]; [by left|right; left].
    split; [done|]. fold s in Hs. by rewrite Ef, Etd in Hs.
  - eapply wp_mono; [apply send_core_refuses; fold s; rewrite El; lia|].
    intros st w' [[[-> Hun]| ->] Hq]; [by left|]. right; right. split; [lia|done].
Qed.

(** C18: sending frames the packet and nothing else. For every packet type, payload
    pointer (also one into the send buffer itself) and offset, if the content fits
    the MTU and its 16-bit length field then exactly one frame - header, content,
    CRC-32 trailer - is handed to the transport, the status says whether the
    transport took all of it, and the receive buffer and configuration are untouched.
    Nothing is sent only if the transport says that it is not connected, or if the
    content does not fit the MTU. *)
Theorem send_packet_frames type p n off incl data w :
  session_ok (w_s w) → payload_data (s_send_buffer (w_s w)) p n data →
  8 + content_room type n incl <= zlen (s_send_buffer (w_s w)) →
  zlen (content_of type data off incl) < 2 ^ 16 →
  wpt (val__internal_send_packet_core type p n off incl)
    (λ st w',
       (st = VAL_ERR_IO ∧ unconnected w ∧ quietly w w') ∨
       (fits (w_s w) type data off incl ∧
        sent (session_frame (w_s w) type data off incl) st w w') ∨
       (~ fits (w_s w) type data off incl ∧ st = VAL_ERR_INVALID_ARG ∧ quietly w w')) w.
Proof. apply send_core_spec. Qed.

(** C40: an effective packet size of more than 65547 bytes, which creation accepts and
    the handshake can agree on, breaks the data path: when the content of a DATA
    packet reaches 65536 bytes its 16-bit length wraps, a transport that is not disconnected
    is handed a frame with only the remainder, and the status is that of a complete send. *)
Theorem large_data_truncated n off incl data w :
  session_ok (w_s w) → payload_data (s_send_buffer (w_s w)) PContent n data →
  let ct := content_of VAL_PKT_DATA data off incl in
  2 ^ 16 <= zlen ct <= session_mtu (w_s w) - 12 →
  wpt (val_internal_send_packet_ex VAL_PKT_DATA PContent n off incl)
    (λ st w', (st = VAL_ERR_IO ∧ unconnected w ∧ quietly w w') ∨
       sent (frame_of (val_internal_crc32 (w_s w)) VAL_PKT_DATA (flags_of VAL_PKT_DATA incl) 0
               (ztake (u16 (zlen ct)) ct)) st w w') w.
Proof.
  intros Hok Hp ct Hlen. set (s := w_s w) in *.
  destruct (zlen_payload_data _ _ _ _ Hp) as [Hn Hd].
  pose proof (session_mtu_range s Hok) as Hm. pose proof (sok_send s Hok) as Hb.
  assert (Hct : zlen ct = n + (if incl then 8 else 0)).
  { unfold ct, content_of. cbn [Z.eqb]. change (VAL_PKT_DATA =? VAL_PKT_DATA) with true. cbv iota.
    destruct incl; rewrite ?zlen_app, ?zlen_put64, Hd; lia. }
  destruct (split_at 8 (s_send_buffer s)) as (h & t & Eb & Hh & Ht); [lia|]. rewrite Eb in Hp.
  assert (Hroom : content_room VAL_PKT_DATA n incl <= zlen t).
  { unfold content_room. change (VAL_PKT_DATA =? VAL_PKT_DATA) with true. destruct incl; cbn [andb]; lia. }
  destruct (encode_content_spec h t _ _ n off incl data Hh Hp Hroom) as (Ef & Etd & El & t' & Ebuf).
  rewrite <- Eb in *. fold ct in El, Ebuf. pose proof (u16_range (zlen ct)) as Hr.
  eapply wp_mono.
  { eapply (send_core_frame _ _ n off incl w h (ztake (u16 (zlen ct)) ct) (zdrop (u16 (zlen ct)) ct ++ t'));
      try done; fold s.
    - by rewrite Ebuf, (assoc_L (++) (ztake _ _)), ztake_zdrop.
    - rewrite El, zlen_ztake; lia.
    - rewrite zlen_ztake by lia. lia. }
  cbv beta. intros st w' [?|Hs]; [by left|right]. fold s in Hs. by rewrite Ef, Etd in Hs.
Qed.
End send_spec.

(** ** Receiving is parsing *)

(** A transport that delivers a byte stream: [link_in] is what has arrived, and a read for
    which enough has arrived, and which may wait, gives some of it without delay.  What a read does that asks for
    more than is there - wait for it, give what there is, or nothing - is left open. *)
Class StreamLink (E : Type) `{!Hooks E} := {
  link_ok : E → Prop;
  link_in : E → list Z;
  link_now : E → Z;
  link_bytes e : link_ok e → bytes_ok (link_in e);
  link_recv n t e : link_ok e → 0 < n <= zlen (link_in e) → 0 < t →
    let '((r, got), e') := hk_recv n t e in
    0 <= r ∧ link_ok e' ∧ link_now e' = link_now e ∧
    ∃ k, 1 <= k <= n ∧ got = ztake k (link_in e) ∧ link_in e' = zdrop k (link_in e);
  link_ticks e : link_ok e →
    let '(t, e') := hk_get_ticks_ms e in
    u32 t = link_now e ∧ link_ok e' ∧ link_in e' = link_in e ∧ link_now e' = link_now e;
  link_packet rec e : link_ok e →
    let e' := hk_on_packet rec e in
    link_ok e' ∧ link_in e' = link_in e ∧ link_now e' = link_now e
}.

Inductive parsed : Type :=
  | PTooBig
  | PBadCrc
  | PFrame (type flags type_data : Z) (content : list Z).

(** The next frame of a stream and what is left of it; [None] if it is incomplete.
    A frame announced larger than the MTU costs the stream its header only. *)
Definition parse_frame (crc : list Z → Z) (mtu : Z) (l : list Z) : option (parsed * list Z) :=
  if zlen l <? 8 then None
  else
    let '(type, flags, n, td) := val_deserialize_frame_header l in
    if mtu - 12 <? n then Some (PTooBig, zdrop 8 l)
    else if zlen l <? 8 + n + 4 then None
    else
      let body := ztake (8 + n) l in
      let rest := zdrop (8 + n) l in
      Some (if VAL_GET_LE32 rest =? crc body then PFrame type flags td (zdrop 8 body) else PBadCrc,
            zdrop 4 rest).

Definition explicit_offset (type flags : Z) : bool :=
  (type =? VAL_PKT_DATA) && negb (Z.land flags VAL_DATA_OFFSET_PRESENT =? 0).

(** What the caller gets for it. *)
Definition outcome (dst : payload_dst) (p : parsed) : Z * packet :=
  match p with
  | PTooBig => (VAL_ERR_PROTOCOL, no_packet)
  | PBadCrc => (VAL_ERR_CRC, no_packet)
  | PFrame type flags td ct =>
      let off := decode_offset type flags td (zlen ct) ct in
      let data := if explicit_offset type flags then zdrop 8 ct else ct in
      if dst_cap dst =? 0 then (VAL_OK, mk_packet type (zlen ct) off [])
      else if dst_cap dst <? zlen data then (VAL_ERR_INVALID_ARG, mk_packet type (zlen data) off [])
      else (VAL_OK, mk_packet type (zlen data) off data)
  end.
(** A DATA frame that announces an offset holds one. *)
Definition offset_there (p : parsed) : Prop :=
  match p with
  | PFrame type flags _ ct => explicit_offset type flags = true → 8 <= zlen ct
  | _ => True
  end.
(** What the receive buffer holds when the packet was delivered. *)
Definition buffered (dst : payload_dst) (p : parsed) (buf : list Z) : Prop :=
  match p with
  | PFrame type flags _ ct =>
      let data := if explicit_offset type flags then zdrop 8 ct else ct in
      match dst with
      | DstRecvBuffer cap => cap ≠ 0 → zlen data <= cap → ztake (zlen data) buf = data
      | _ => zslice buf 8 (zlen ct) = ct
      end
  | _ => True
  end.

Lemma zget_app_l l k i : 0 <= i < zlen l → zget (l ++ k) i = zget l i.
Proof. unfold zget, zlen. intros. apply app_nth1. lia. Qed.
Lemma get64_app l k : 8 <= zlen l → VAL_GET_LE64 (l ++ k) = VAL_GET_LE64 l.
Proof. intros. unfold VAL_GET_LE64. by rewrite !zget_app_l by lia. Qed.
Lemma get32_app l k : 4 <= zlen l → VAL_GET_LE32 (l ++ k) = VAL_GET_LE32 l.
Proof. intros. unfold VAL_GET_LE32. by rewrite !zget_app_l by lia. Qed.
Lemma decode_offset_app type flags td ct k :
  (explicit_offset type flags = true → 8 <= zlen ct) →
  decode_offset type flags td (zlen ct) (ct ++ k) = decode_offset type flags td (zlen ct) ct.
Proof.
  intros He. unfold decode_offset, explicit_offset in *.
  destruct (type =? VAL_PKT_DATA); cbn [andb] in He.
  - destruct (negb _); [|done]. apply get64_app. by apply He.
  - destruct (_ || _); [|done]. destruct (Z.leb_spec 4 (zlen ct)); [|done]. by rewrite get32_app.
Qed.

Section receiving.
Context {E : Type} `{!Hooks E} `{!StreamLink E}.

(** The link's state: nothing of the session changed. *)
Definition consumed (n : Z) (w w' : world E) : Prop :=
  w_s w' = w_s w ∧ link_ok (w_e w') ∧ link_now (w_e w') = link_now (w_e w) ∧
  link_in (w_e w') = zdrop n (link_in (w_e w)).

Lemma link_ticks_spec w : link_ok (w_e w) →
  wpt get_ticks_ms (λ t w', t = link_now (w_e w) ∧ consumed 0 w w') w.
Proof.
  intros Hl. apply wp_lift. pose proof (link_ticks (w_e w) Hl) as H.
  destruct (hk_get_ticks_ms (w_e w)) as [t e]. cbn. split; [apply H|].
  split; [done|]. destruct H as (_&?&?&?). rewrite zdrop_0. done.
Qed.

Lemma ztake_add {A} a b (l : list A) : 0 <= a → 0 <= b → ztake a l ++ ztake b (zdrop a l) = ztake (a + b) l.
Proof. intros. unfold ztake, zdrop. rewrite Z2Nat.inj_add by done. apply take_take_drop. Qed.
Lemma consumed_trans a b w w' w'' : 0 <= a → 0 <= b →
  consumed a w w' → consumed b w' w'' → consumed (a + b) w w''.
Proof.
  intros Ha Hb (E1 & _ & N1 & L1) (E2 & O2 & N2 & L2). repeat split; try congruence.
  by rewrite L2, L1, zdrop_zdrop.
Qed.

(** One chunk: at least a byte, at most what was asked for. *)
Lemma link_chunk n t w : link_ok (w_e w) → 0 < n <= zlen (link_in (w_e w)) → 0 < t →
  wpt (transport_recv n t) (λ rg w', 0 <= fst rg ∧ 1 <= zlen (snd rg) <= n ∧
     snd rg = ztake (zlen (snd rg)) (link_in (w_e w)) ∧ consumed (zlen (snd rg)) w w') w.
Proof.
  intros Hl Hn Ht. apply wp_lift. pose proof (link_recv n t (w_e w) Hl Hn Ht) as H'.
  pose proof (link_bytes (w_e w) Hl) as Hb.
  destruct (hk_recv n t (w_e w)) as [[r got] e]. cbn. destruct H' as (Hr & Hl' & Hnow & k & Hk & Eg & El).
  set (L := link_in (w_e w)) in *.
  assert (Hz : zlen got = Z.min k (zlen L)).
  { rewrite Eg. unfold ztake, zlen. rewrite length_take. lia. }
  assert (Ecut : cut n got = got).
  { unfold cut. rewrite ztake_all by lia. apply map_u8_id. rewrite Eg. by apply bytes_ok_ztake. }
  rewrite Ecut. split; [done|]. split; [lia|].
  assert (Et : got = ztake (zlen got) L).
  { rewrite Hz, Eg. unfold ztake, zlen. destruct (Z.min_spec k (Z.of_nat (length L))) as [[? ->]|[? ->]]; [done|].
    rewrite !take_ge by lia. done. }
  split; [done|]. split; [done|]. split; [done|]. split; [done|]. cbn. fold L. rewrite El, Hz.
  unfold zdrop, zlen. destruct (Z.min_spec k (Z.of_nat (length L))) as [[? ->]|[? ->]]; [done|].
  by rewrite !drop_ge by lia.
Qed.

(** A wait with a timeout never comes down to 0. *)
Lemma recv_slice_pos to_ms remaining : 0 < to_ms → 0 <= remaining →
  0 < (if negb (remaining =? 0) then remaining else if negb (to_ms =? 0) then 1 else 0).
Proof. intros. repeat case_match; lia. Qed.
Lemma remaining_nonneg elapsed to_ms : 0 <= (if elapsed <? to_ms then to_ms - elapsed else 0).
Proof. case_match; lia. Qed.
#[local] Hint Resolve recv_slice_pos remaining_nonneg : core.

(** Reassembly: [val_recv_full] gets exactly the next [need] bytes. *)
Lemma recv_full_stream fuel need to_ms w : link_ok (w_e w) → 0 < to_ms →
  0 <= need <= zlen (link_in (w_e w)) → (Z.to_nat need < fuel)%nat →
  wpt (val_recv_full fuel need to_ms)
    (λ rg w', rg = (VAL_OK, ztake need (link_in (w_e w))) ∧ consumed need w w') w.
Proof.
  intros Hl Hto Hn Hf. unfold val_recv_full. apply wp_bind.
  eapply wp_mono; [by apply link_ticks_spec|]. intros start w0 [Hs0 H0].
  set (L := link_in (w_e w)) in *.
  apply (wp_loop False (λ have w', zlen have <= need ∧ have = ztake (zlen have) L ∧ consumed (zlen have) w w')
           (λ have _, Z.to_nat (need - zlen have))).
  2:{ split; [rewrite zlen_nil; lia|]. by split. }
  2:{ right. rewrite zlen_nil. replace (need - 0) with need by lia. done. }
  intros have w1 (Hle & Eh & H1). pose proof (zlen_nonneg have) as Hh0. unfold recv_full_body.
  destruct (Z.leb_spec need (zlen have)).
  { apply wp_ret. replace need with (zlen have) by lia. rewrite <- Eh. done. }
  apply wp_bind. eapply wp_mono; [apply link_ticks_spec; apply H1|]. intros now w2 [_ H2].
  assert (H2' : consumed (zlen have) w w2).
  { rewrite <- (Z.add_0_r (zlen have)). by eapply consumed_trans. }
  apply wp_bind. eapply wp_mono; [apply link_chunk; [apply H2'| |]|].
  { destruct H2' as (_&_&_&EL). fold L in EL. rewrite EL, zlen_zdrop by lia. lia. }
  { auto. }
  intros [r got] w3 (Hr & Hg & Eg & H3). cbn [fst snd] in *.
  replace (r <? 0) with false by lia.
  destruct H2' as (Es2 & Hl2 & Hn2 & EL2). fold L in EL2. rewrite EL2 in Eg.
  assert (Ehg : have ++ got = ztake (zlen (have ++ got)) L).
  { rewrite zlen_app, <- ztake_add by lia. by rewrite <- Eg, <- Eh. }
  assert (H3' : consumed (zlen (have ++ got)) w w3).
  { rewrite zlen_app. eapply consumed_trans; [lia..| |done]. done. }
  assert (Hlen : zlen (have ++ got) <= need) by (rewrite zlen_app; lia).
  assert (Hlt : zlen have < zlen (have ++ got)) by (rewrite zlen_app; lia).
  destruct (Z.leb_spec need (zlen (have ++ got))).
  { apply wp_ret. replace need with (zlen (have ++ got)) by lia. by rewrite <- Ehg. }
  apply wp_bind. eapply wp_mono; [apply link_ticks_spec; apply H3'|]. intros t w4 [Ht Hc4].
  assert (Et : t = start).
  { destruct H3' as (_&_&N3&_). rewrite Ht, N3. done. }
  rewrite Et, Z.sub_diag. replace (to_ms <=? u32 0) with false by (rewrite u32_small by lia; lia).
  apply wp_ret. split; [|right; lia]. split; [done|]. split; [done|].
  rewrite <- (Z.add_0_r (zlen (have ++ got))). eapply consumed_trans; [lia..|exact H3'|exact Hc4].
Qed.

Lemma recv_into_stream fuel off need to_ms w : link_ok (w_e w) → 0 < to_ms →
  0 <= need <= zlen (link_in (w_e w)) → (Z.to_nat need < fuel)%nat →
  let s := w_s w in
  wpt (recv_into fuel off need to_ms)
    (λ rc w', rc = VAL_OK ∧
       w_s w' = s <| s_recv_buffer := zwrite (s_recv_buffer s) off (ztake need (link_in (w_e w))) |> ∧
       link_ok (w_e w') ∧ link_in (w_e w') = zdrop need (link_in (w_e w))) w.
Proof.
  intros Hl Hto Hn Hf s. apply wp_bind. eapply wp_mono; [by apply recv_full_stream|].
  intros [rc got] w1 [[= -> ->] (E1 & Hl1 & _ & EL)]. apply wp_bind, wp_mod, wp_ret.
  cbn. by rewrite E1.
Qed.

(** The link's stream and the session's setup after part of a receive. *)
Definition at_stream (L : list Z) (s : val_session_t) (w' : world E) : Prop :=
  link_ok (w_e w') ∧ link_in (w_e w') = L ∧
  s_cfg (w_s w') = s_cfg s ∧ s_effective_packet_size (w_s w') = s_effective_packet_size s.
Definition calm_recv {A} (m : M (world E) A) (a : A) : Prop := ∀ w L s,
  at_stream L s w → wpt m (λ a' w', a' = a ∧ at_stream L s w' ∧ s_recv_buffer (w_s w') = s_recv_buffer (w_s w)) w.

Lemma recv_upd f L s (w : world E) :
  (∀ s, s_cfg (f s) = s_cfg s ∧ s_effective_packet_size (f s) = s_effective_packet_size s ∧
        s_recv_buffer (f s) = s_recv_buffer s) → at_stream L s w →
  wpt (upd f) (λ _ w', at_stream L s w' ∧ s_recv_buffer (w_s w') = s_recv_buffer (w_s w)) w.
Proof.
  intros Hf (?&?&?&?). apply wp_mod. cbn. destruct (Hf (w_s w)) as (?&?&?).
  split; [|done]. repeat split; cbn; congruence.
Qed.

Lemma recv_finish_spec type flags td n pkt : calm_recv (recv_finish type flags td n pkt) (VAL_OK, pkt).
Proof.
  intros w L s Hw. unfold recv_finish.
  apply wp_bind. eapply wp_mono; [by apply (recv_upd _ L s)|]. intros [] w1 [H1 B1].
  apply wp_bind. eapply wp_mono; [by apply (recv_upd _ L s)|]. intros [] w2 [H2 B2].
  apply wp_bind, wp_gets, wp_bind. unfold capture. apply wp_bind, wp_gets.
  destruct (cfg_has_on_packet _).
  - apply wp_bind. eapply wp_mono; [apply link_ticks_spec, H2|]. intros now w3 [_ (Es & Hl & _ & EL)].
    apply wp_mod, wp_ret. cbn. split; [done|]. rewrite zdrop_0 in EL. destruct H2 as (?&?&?&?).
    split; [|congruence].
    match goal with |- context [hk_on_packet ?r _] => destruct (link_packet r (w_e w3) Hl) as (?&?&_) end.
    repeat split; cbn; congruence.
  - apply wp_ret, wp_ret. split; [done|]. split; [done|congruence].
Qed.

Lemma recv_deliver_spec dst type flags td h ct t w L s :
  at_stream L s w → s_recv_buffer (w_s w) = h ++ ct ++ t → zlen h = 8 →
  offset_there (PFrame type flags td ct) →
  wpt (recv_deliver dst type flags td (zlen ct))
    (λ r w', r = outcome dst (PFrame type flags td ct) ∧ at_stream L s w' ∧
             buffered dst (PFrame type flags td ct) (s_recv_buffer (w_s w'))) w.
Proof.
  intros Hw Hb Hh He. unfold recv_deliver. apply wp_bind, wp_gets. rewrite Hb.
  unfold VAL_WIRE_HEADER_SIZE. rewrite zdrop_app_exact by done. cbv zeta.
  rewrite decode_offset_app by done. set (off := decode_offset _ _ _ _ ct).
  apply wp_bind.
  assert (Hq : wpt (if type =? VAL_PKT_CANCEL then val_internal_set_last_error VAL_ERR_ABORTED 0 else mret tt)
            (λ _ w', at_stream L s w' ∧ s_recv_buffer (w_s w') = h ++ ct ++ t) w).
  { destruct (_ =? _); [|by apply wp_ret]. rewrite <- Hb. by apply recv_upd. }
  eapply wp_mono; [exact Hq|]. clear Hq. intros [] w1 [H1 B1]. cbv beta.
  fold (explicit_offset type flags).
  assert (Hnull : ∀ buf, zslice (h ++ ct ++ buf) 8 (zlen ct) = ct).
  { intros. rewrite <- Hh, zslice_app_r. by apply ztake_app_exact. }
  assert (Hsrc : zslice (h ++ ct ++ t) (if explicit_offset type flags then 8 + 8 else 8)
      (if explicit_offset type flags then zlen ct - 8 else zlen ct)
      = if explicit_offset type flags then zdrop 8 ct else ct).
  { cbn in He. destruct (explicit_offset type flags); [|apply Hnull]. specialize (He eq_refl).
    destruct (split_at 8 ct) as (o & d & -> & Ho & Hd); [lia|].
    rewrite zdrop_app_exact by done. rewrite (zlen_app o), Ho. replace (8 + zlen d - 8) with (zlen d) by lia.
    replace (8 + 8) with (zlen (h ++ o)) by (rewrite zlen_app; lia).
    rewrite <- (assoc_L (++)), (assoc_L (++)), zslice_app_r. by apply ztake_app_exact. }
  assert (Hlen : zlen (if explicit_offset type flags then zdrop 8 ct else ct)
                 = if explicit_offset type flags then zlen ct - 8 else zlen ct).
  { cbn in He. destruct (explicit_offset type flags); [|done]. rewrite zlen_zdrop; [done|]. specialize (He eq_refl). lia. }
  unfold outcome. fold off.
  destruct (Z.eqb_spec (dst_cap dst) 0) as [E0|N0]; cbn [negb].
  { eapply wp_mono; [by apply (recv_finish_spec _ _ _ _ _ w1 L s)|]. intros r w2 (-> & H2 & B2).
    split; [done|]. split; [done|]. rewrite B2, B1. destruct dst; cbn in E0 |- *; [apply Hnull|done|apply Hnull]. }
  replace (explicit_offset type flags && (zlen ct <? 8)) with false.
  2:{ cbn in He. destruct (explicit_offset type flags); [|done]. specialize (He eq_refl). cbn. lia. }
  rewrite Hlen. destruct (dst_cap dst <? _) eqn:Ecap.
  { apply wp_bind. eapply wp_mono; [by apply (recv_upd _ L s)|]. intros [] w2 [H2 B2].
    apply wp_bind. eapply wp_mono; [by apply (recv_upd _ L s)|]. intros [] w3 [H3 B3].
    apply wp_ret. split; [done|]. split; [done|]. rewrite B3, B2, B1.
    destruct dst; cbn in Ecap |- *; [apply Hnull|intros _; lia|apply Hnull]. }
  rewrite Hsrc. set (data := if explicit_offset type flags then _ else _) in *.
  set (n := if explicit_offset type flags then _ else _) in *.
  apply wp_bind. destruct dst as [|cap|cap]; cbn in N0; [done| |].
  - apply wp_mod. set (w2 := mk_world _ _ _).
    assert (H2 : at_stream L s w2) by (destruct H1 as (?&?&?&?); repeat split; done).
    eapply wp_mono; [by apply (recv_finish_spec _ _ _ _ _ w2 L s)|]. intros r w3 (-> & H3 & B3).
    split; [done|]. split; [done|]. cbn. rewrite B3. cbn. intros _ _.
    fold data. rewrite zwrite_0. by apply ztake_app_exact.
  - apply wp_ret. eapply wp_mono; [by apply (recv_finish_spec _ _ _ _ _ w1 L s)|]. intros r w3 (-> & H3 & B3).
    split; [done|]. split; [done|]. rewrite B3, B1. cbn. apply Hnull.
Qed.
Lemma deserialize_app a r : zlen a = 8 → val_deserialize_frame_header (a ++ r) = val_deserialize_frame_header a.
Proof.
  intros Ha. destruct a as [|a0 [|a1 [|a2 [|a3 [|a4 [|a5 [|a6 [|a7 [|? ?]]]]]]]]];
    try (cbn in Ha; unfold zlen in Ha; cbn in Ha; lia). done.
Qed.

(** Any of the three failures of [val_recv_full], or a refused frame. *)
Lemma recv_errors L s (w : world E) f g a : at_stream L s w →
  (∀ s, s_cfg (f s) = s_cfg s ∧ s_effective_packet_size (f s) = s_effective_packet_size s ∧ s_recv_buffer (f s) = s_recv_buffer s) →
  (∀ s, s_cfg (g s) = s_cfg s ∧ s_effective_packet_size (g s) = s_effective_packet_size s ∧ s_recv_buffer (g s) = s_recv_buffer s) →
  wpt (do! upd f in do! upd g in mret a) (λ (r : Z * packet) w', r = a ∧ at_stream L s w') w.
Proof.
  intros Hw Hf Hg. apply wp_bind. eapply wp_mono; [by apply (recv_upd f L s)|]. intros [] w1 [H1 _].
  apply wp_bind. eapply wp_mono; [by apply (recv_upd g L s)|]. intros [] w2 [H2 _]. by apply wp_ret.
Qed.

(** From the trailer on. *)
Lemma recv_trailer_spec fuel dst to_ms type flags td hdr ct t L s w :
  at_stream L s w → s_recv_buffer (w_s w) = hdr ++ ct ++ t → zlen hdr = 8 → 0 < to_ms →
  4 <= zlen L → (Z.to_nat 4 < fuel)%nat →
  let p := if VAL_GET_LE32 L =? val_internal_crc32 s (hdr ++ ct) then PFrame type flags td ct else PBadCrc in
  offset_there p →
  wpt (recv_trailer fuel dst type flags (zlen ct) td to_ms)
    (λ r w', r = outcome dst p ∧ at_stream (zdrop 4 L) s w' ∧ buffered dst p (s_recv_buffer (w_s w'))) w.
Proof.
  intros (Hl & EL & Hs) Eb Hh Hto HL Hf p Hoff. unfold recv_trailer, VAL_WIRE_HEADER_SIZE, VAL_WIRE_TRAILER_SIZE.
  apply wp_bind. eapply wp_mono; [apply recv_full_stream; [done|done|rewrite EL; lia|done]|].
  rewrite EL. intros [rc trailer] w3 [[= -> ->] (Es3 & Hl3 & _ & EL3)].
  change (negb (VAL_OK =? VAL_OK)) with false. cbv iota. rewrite EL in EL3.
  apply wp_bind, wp_gets. rewrite Es3, Eb. cbv zeta.
  replace (ztake (8 + zlen ct) (hdr ++ ct ++ t)) with (hdr ++ ct)
    by (rewrite (assoc_L (++)), ztake_app_exact; [done|rewrite zlen_app; lia]).
  assert (Ecrc : val_internal_crc32 (w_s w) (hdr ++ ct) = val_internal_crc32 s (hdr ++ ct))
    by (unfold val_internal_crc32; by rewrite (proj1 Hs)).
  rewrite Ecrc. replace (VAL_GET_LE32 (ztake 4 L)) with (VAL_GET_LE32 L)
    by (rewrite <- (ztake_zdrop 4 L) at 1; rewrite get32_app; [done|rewrite zlen_ztake; lia]).
  assert (H3 : at_stream (zdrop 4 L) s w3) by (repeat split; [done|done|rewrite Es3; apply Hs..]).
  subst p. destruct (VAL_GET_LE32 L =? _); cbn [negb].
  - eapply recv_deliver_spec; [done|by rewrite Es3|done|done].
  - apply wp_bind. eapply wp_mono; [by apply (recv_upd _ (zdrop 4 L) s)|]. intros [] w4 [Hw4 _].
    unfold val_metrics_inc_crcerr, upd_metrics, val_internal_unlock.
    eapply wp_mono; [by apply (recv_errors (zdrop 4 L) s w4)|]. cbv beta. intros r w5 [-> H5]. done.
Qed.

(** From a header in the buffer on, in a stream that starts with the content. *)
Lemma recv_content_spec fuel dst to_ms type flags td hdr n t L s w p rest :
  at_stream L s w → s_recv_buffer (w_s w) = hdr ++ t → zlen hdr = 8 → 0 < to_ms →
  512 <= session_mtu s <= 2 ^ 31 → 0 <= n → (Z.to_nat (zlen L) < fuel)%nat →
  (if session_mtu s - 12 <? n then Some (PTooBig, L)
   else if zlen L <? n + 4 then None
   else Some (if VAL_GET_LE32 (zdrop n L) =? val_internal_crc32 s (hdr ++ ztake n L)
              then PFrame type flags td (ztake n L) else PBadCrc, zdrop 4 (zdrop n L))) = Some (p, rest) →
  offset_there p →
  wpt (recv_content fuel dst (session_mtu s) type flags n td to_ms)
    (λ r w', r = outcome dst p ∧ at_stream rest s w' ∧ buffered dst p (s_recv_buffer (w_s w'))) w.
Proof.
  intros Hw Eb Hh Hto Hm Hn Hf Hp Hoff. pose proof Hw as (Hl & EL & Hs).
  unfold recv_content, VAL_WIRE_HEADER_SIZE, VAL_WIRE_TRAILER_SIZE. rewrite u32_small by lia.
  replace (session_mtu s - 8 - 4) with (session_mtu s - 12) by lia.
  destruct (session_mtu s - 12 <? n).
  { injection Hp as <- <-. unfold VAL_SET_PROTOCOL_ERROR, val_internal_set_error_detailed,
      val_internal_set_last_error_full, val_internal_unlock.
    eapply wp_mono; [by apply (recv_errors L s w)|]. cbv beta. by intros r w2 [-> H2]. }
  destruct (Z.ltb_spec (zlen L) (n + 4)) as [|HLn]; [done|].
  destruct (split_at n L) as (ct & L2 & -> & Hct & HL2); [lia|].
  rewrite ztake_app_exact, zdrop_app_exact in Hp by done.
  assert (Hcontent : wpt (if 0 <? n then recv_into fuel 8 n to_ms else mret VAL_OK)
    (λ rc w2, rc = VAL_OK ∧ at_stream L2 s w2 ∧ ∃ t', s_recv_buffer (w_s w2) = hdr ++ ct ++ t') w).
  { destruct (Z.ltb_spec 0 n).
    - eapply wp_mono; [apply recv_into_stream; [done|done|rewrite EL; lia|lia]|].
      rewrite EL. intros rc w2 (-> & Es2 & Hl2 & EL2). split; [done|].
      rewrite zdrop_app_exact in EL2 by done. rewrite ztake_app_exact in Es2 by done. split.
      + repeat split; [done|done|rewrite Es2; apply Hs..].
      + rewrite Es2. cbn. rewrite Eb, write_content by done. eauto.
    - apply wp_ret. assert (ct = []) as ->.
      { destruct ct; [done|]. rewrite zlen_cons in Hct. pose proof (zlen_nonneg ct). lia. }
      split; [done|]. split; [done|]. by exists t. }
  apply wp_bind. eapply wp_mono; [exact Hcontent|]. intros rc w2 (-> & H2 & t' & Eb2).
  change (negb (VAL_OK =? VAL_OK)) with false. cbv iota. replace n with (zlen ct) by done.
  injection Hp as <- <-. pose proof (zlen_nonneg ct).
  eapply recv_trailer_spec; [done|done|done|done|lia|lia|done].
Qed.

(** What follows the header: [hdr ++ L] was the stream. *)
Lemma recv_rest_spec fuel dst to_ms s hdr t L w p rest :
  session_ok s → at_stream L s w → s_recv_buffer (w_s w) = hdr ++ t → zlen hdr = 8 → bytes_ok hdr → 0 < to_ms →
  parse_frame (val_internal_crc32 s) (session_mtu s) (hdr ++ L) = Some (p, rest) →
  offset_there p → (Z.to_nat (zlen L) < fuel)%nat →
  let '(type, flags, n, td) := val_deserialize_frame_header hdr in
  wpt (recv_content fuel dst (session_mtu s) type flags n td to_ms)
    (λ r w', r = outcome dst p ∧ at_stream rest s w' ∧ buffered dst p (s_recv_buffer (w_s w'))) w.
Proof.
  intros Hok Hw Eb Hhdr Hbytes Hto Hp Hoff Hfuel. pose proof (session_mtu_range s Hok) as Hm.
  pose proof (cok_packet _ (sok_cfg s Hok)) as Hmax. unfold VAL_MAX_PACKET_SIZE in Hmax. pose proof (zlen_nonneg L) as HL0.
  unfold parse_frame in Hp. rewrite zlen_app, Hhdr in Hp. replace (8 + zlen L <? 8) with false in Hp by lia.
  rewrite deserialize_app in Hp by done. destruct (val_deserialize_frame_header hdr) as [[[type flags] n] td] eqn:Eh.
  assert (Hn : 0 <= n < 2 ^ 16) by (eapply header_content_len; [done|by rewrite Hhdr|exact Eh]).
  eapply (recv_content_spec _ _ _ _ _ _ hdr _ _ L); [exact Hw|exact Eb|done|done|lia|lia|lia| |done].
  rewrite <- Hp. replace (8 + zlen L <? 8 + n + 4) with (zlen L <? n + 4) by lia.
  destruct (session_mtu s - 12 <? n); [by rewrite (zdrop_app_exact 8) by done|].
  destruct (Z.ltb_spec (zlen L) (n + 4)); [done|].
  destruct (split_at n L) as (ct & L2 & -> & Hct & _); [lia|].
  rewrite (ztake_app_exact n), (zdrop_app_exact n), (assoc_L (++)) by done.
  rewrite (ztake_app_exact (8 + n)), (zdrop_app_exact (8 + n)) by (rewrite zlen_app; lia).
  by rewrite zdrop_app_exact.
Qed.
Lemma recv_packet_spec fuel dst to_ms w p rest :
  session_ok (w_s w) → link_ok (w_e w) → 0 < to_ms →
  parse_frame (val_internal_crc32 (w_s w)) (session_mtu (w_s w)) (link_in (w_e w)) = Some (p, rest) →
  offset_there p → (Z.to_nat (zlen (link_in (w_e w))) < fuel)%nat →
  wpt (val_internal_recv_packet fuel dst to_ms)
    (λ r w', r = outcome dst p ∧ at_stream rest (w_s w) w' ∧ buffered dst p (s_recv_buffer (w_s w'))) w.
Proof.
  intros Hok Hl Hto Hp Hoff Hfuel. set (s := w_s w) in *. set (L := link_in (w_e w)) in *.
  pose proof (sok_recv s Hok) as Hrb. pose proof (zlen_nonneg L) as HL0.
  destruct (Z.ltb_spec (zlen L) 8) as [Hshort|HL8].
  { unfold parse_frame in Hp. by replace (zlen L <? 8) with true in Hp by lia. }
  destruct (split_at 8 L) as (hdr & L1 & EL & Hhdr & HL1); [lia|].
  assert (Et8 : ztake 8 L = hdr) by (rewrite EL; by apply ztake_app_exact).
  assert (Ed8 : zdrop 8 L = L1) by (rewrite EL; by apply zdrop_app_exact).
  assert (Hbytes : bytes_ok hdr) by (rewrite <- Et8; by apply bytes_ok_ztake, link_bytes).
  unfold val_internal_recv_packet. apply wp_bind, wp_mod, wp_bind, wp_gets.
  set (w0 := mk_world _ _ _). apply wp_bind.
  eapply wp_mono; [apply (recv_into_stream fuel 0 VAL_WIRE_HEADER_SIZE to_ms w0); try done;
                   unfold VAL_WIRE_HEADER_SIZE; change (link_in (w_e w0)) with L; lia|].
  change (link_in (w_e w0)) with L. unfold VAL_WIRE_HEADER_SIZE. rewrite Et8, Ed8.
  intros rc w1 (-> & Es1 & Hl1 & EL1). change (negb (VAL_OK =? VAL_OK)) with false. cbv iota.
  apply wp_bind, wp_gets.
  assert (Eb1 : s_recv_buffer (w_s w1) = hdr ++ zdrop 8 (s_recv_buffer s)).
  { rewrite Es1. cbn. rewrite zwrite_0. by rewrite Hhdr. }
  rewrite Eb1, deserialize_app by done. rewrite EL in Hp.
  pose proof (recv_rest_spec fuel dst to_ms s hdr (zdrop 8 (s_recv_buffer s)) L1 w1 p rest Hok) as Hrest.
  destruct (val_deserialize_frame_header hdr) as [[[type flags] n] td].
  change (session_mtu (w_s w0)) with (session_mtu s).
  apply Hrest; [|exact Eb1|done|done|done|done|done|lia]. repeat split; [done|exact EL1|by rewrite Es1..].
Qed.

End receiving.

(** ** Frames survive the wire, damaged ones do not *)

Lemma low32_val o : low32 o = o mod 2 ^ 32.
Proof. unfold low32, u32. change 0xFFFFFFFF with (2 ^ 32 - 1). rewrite land_mask by lia. by rewrite Z.mod_mod by lia. Qed.
Lemma high32_val o : 0 <= o < 2 ^ 64 → high32 o = o / 2 ^ 32.
Proof.
  intros H. unfold high32, u32. change 0xFFFFFFFF with (2 ^ 32 - 1).
  rewrite land_mask, shiftr_div, Z.mod_mod by lia. apply Z.mod_small.
  split; [apply Z.div_pos; lia|]. apply Z.div_lt_upper_bound; lia.
Qed.
Lemma join32 o : 0 <= o < 2 ^ 64 → Z.lor (u64 (Z.shiftl (high32 o) 32)) (low32 o) = o.
Proof.
  intros H. rewrite low32_val, high32_val by done.
  assert (0 <= o / 2 ^ 32 < 2 ^ 32) by (split; [apply Z.div_pos; lia|apply Z.div_lt_upper_bound; lia]).
  rewrite u64_small by (rewrite Z.shiftl_mul_pow2 by lia; lia).
  rewrite Z.lor_comm, lor_shiftl_add by (try apply Z.mod_pos_bound; lia).
  rewrite (Z.div_mod o (2 ^ 32)) at 3 by lia. lia.
Qed.
Lemma high32_range o : 0 <= high32 o < 2 ^ 32.
Proof. apply u32_range. Qed.

Lemma flags_of_range type incl : 0 <= flags_of type incl < 256.
Proof. unfold flags_of. repeat case_match; cbv; split; congruence. Qed.
Lemma type_data_range type off : 0 <= type_data_of type off < 2 ^ 32.
Proof. unfold type_data_of. case_match; [apply u32_range|lia]. Qed.

(** Any frame parses back to its parts. *)
Lemma parse_frame_of crc mtu type flags td ct rest :
  0 <= type < 256 → 0 <= flags < 256 → 0 <= td < 2 ^ 32 → zlen ct < 2 ^ 16 → zlen ct <= mtu - 12 →
  0 <= crc (frame_body type flags td ct) < 2 ^ 32 →
  parse_frame crc mtu (frame_of crc type flags td ct ++ rest) = Some (PFrame type flags td ct, rest).
Proof.
  intros Ht Hf Htd H16 Hfit Hcrc. pose proof (zlen_nonneg ct). pose proof (zlen_nonneg rest).
  unfold parse_frame. rewrite zlen_app, zlen_frame.
  replace (8 + zlen ct + 4 + zlen rest <? 8) with false by lia.
  unfold frame_of. set (body := frame_body type flags td ct) in *.
  assert (Hb : zlen body = 8 + zlen ct) by (unfold body, frame_body; by rewrite zlen_app, frame_header_size).
  rewrite <- (assoc_L (++)). unfold body at 1, frame_body. rewrite <- (assoc_L (++)), frame_header_roundtrip.
  rewrite u8_small by (apply u8_range). rewrite (u8_small type), (u8_small flags), u16_small, u32_small by lia.
  replace (mtu - 12 <? zlen ct) with false by lia.
  replace (8 + zlen ct + 4 + zlen rest <? 8 + zlen ct + 4) with false by lia.
  rewrite ztake_app_exact, (zdrop_app_exact (8 + zlen ct)) by done.
  rewrite zdrop_app_exact by (by rewrite zlen_put32). rewrite get_put32, u32_small, Z.eqb_refl by done.
  done.
Qed.

(** What the receiver of a packet sees of it. *)
Definition seen_payload (type : Z) (data : list Z) (off : Z) : list Z :=
  if type =? VAL_PKT_DATA then data else content_of type data off true.
Definition seen_offset (type off : Z) (incl : bool) : Z :=
  if type =? VAL_PKT_DATA then (if incl then off else UINT64_MAX)
  else if is_ack type || (type =? VAL_PKT_DATA_NAK) then off else 0.

Lemma explicit_offset_flags type incl : explicit_offset type (flags_of type incl) = (type =? VAL_PKT_DATA) && incl.
Proof.
  unfold explicit_offset, flags_of. destruct (type =? VAL_PKT_DATA); [|done]. by destruct incl.
Qed.
Lemma decode_content type data off incl : 0 <= off < 2 ^ 64 →
  let ct := content_of type data off incl in
  decode_offset type (flags_of type incl) (type_data_of type off) (zlen ct) ct = seen_offset type off incl.
Proof.
  intros Ho ct. subst ct. unfold decode_offset, seen_offset.
  destruct (type =? VAL_PKT_DATA) eqn:Ed.
  { unfold flags_of, content_of. rewrite Ed. destruct incl; [|done].
    transitivity (u64 off); [exact (get_put64 off data)|by apply u64_small]. }
  fold (is_ack type). unfold type_data_of, content_of. rewrite Ed.
  destruct (is_ack type) eqn:Ea; cbn [orb].
  - destruct (Z.eqb_spec (high32 off) 0) as [E0|].
    + change (4 <=? zlen (@nil Z)) with false. cbv iota. rewrite <- (join32 off Ho) at 2. by rewrite E0.
    + rewrite zlen_put32. change (4 <=? 4) with true. cbv iota.
      rewrite <- (app_nil_r (VAL_PUT_LE32 _)), get_put32, u32_small by apply high32_range. by apply join32.
  - destruct (type =? VAL_PKT_DATA_NAK); [|done]. rewrite !zlen_app, !zlen_put32. change (4 <=? 4 + (4 + 4)) with true.
    cbv iota. rewrite get_put32, u32_small by apply high32_range. by apply join32.
Qed.

Lemma outcome_of_packet dst type data off incl : 0 <= off < 2 ^ 64 →
  dst_cap dst ≠ 0 → zlen (seen_payload type data off) <= dst_cap dst →
  let ct := content_of type data off incl in
  outcome dst (PFrame type (flags_of type incl) (type_data_of type off) ct)
  = (VAL_OK, mk_packet type (zlen (seen_payload type data off)) (seen_offset type off incl)
               (seen_payload type data off)).
Proof.
  intros Ho Hc Hcap ct. unfold outcome.
  pose proof (decode_content type data off incl Ho) as Hdc. cbv zeta in Hdc. fold ct in Hdc.
  rewrite Hdc. rewrite explicit_offset_flags.
  replace (dst_cap dst =? 0) with false by lia.
  assert (Ep : (if (type =? VAL_PKT_DATA) && incl then zdrop 8 ct else ct) = seen_payload type data off).
  { unfold seen_payload, ct, content_of. destruct (type =? VAL_PKT_DATA); cbn [andb]; [|done].
    destruct incl; [|done]. by apply zdrop_app_exact. }
  rewrite Ep. by replace (dst_cap dst <? _) with false by lia.
Qed.

Lemma content_bytes type data off incl : bytes_ok data → bytes_ok (content_of type data off incl).
Proof.
  intros Hd. unfold content_of. repeat case_match; repeat (apply bytes_ok_app; split);
    first [done | apply put32_ok | apply put64_ok | constructor].
Qed.
Lemma crc_range `{!Hooks E} s l : bytes_ok l → 0 <= val_internal_crc32 (E:=E) s l < 2 ^ 32.
Proof.
  intros Hl. unfold val_internal_crc32. destruct (cfg_has_crc32_provider _); [apply u32_range|].
  by apply val_crc32_range.
Qed.
Lemma body_bytes type flags td ct : bytes_ok ct → bytes_ok (frame_body type flags td ct).
Proof. intros. apply bytes_ok_app. split; [apply frame_header_bytes|done]. Qed.

(** The next frame of the stream is one that a session with the same CRC sent. *)
Lemma frame_arrives {E} `{!Hooks E} `{!StreamLink E} s0 type data off incl fuel dst to_ms w rest :
  session_ok (w_s w) → link_ok (w_e w) → 0 < to_ms →
  (∀ l, val_internal_crc32 s0 l = val_internal_crc32 (w_s w) l) →
  link_in (w_e w) = session_frame s0 type data off incl ++ rest →
  0 <= type < 256 → bytes_ok data →
  zlen (content_of type data off incl) < 2 ^ 16 → fits (w_s w) type data off incl →
  (Z.to_nat (zlen (link_in (w_e w))) < fuel)%nat →
  let p := PFrame type (flags_of type incl) (type_data_of type off) (content_of type data off incl) in
  wpt (val_internal_recv_packet fuel dst to_ms)
    (λ r w', r = outcome dst p ∧ at_stream rest (w_s w) w' ∧ buffered dst p (s_recv_buffer (w_s w'))) w.
Proof.
  intros Hok Hl Hto Hcrc EL Ht Hd H16 Hfit Hf p. apply recv_packet_spec; try done.
  - rewrite EL. unfold session_frame, packet_frame, frame_of. rewrite Hcrc.
    apply parse_frame_of; [done|apply flags_of_range|apply type_data_range|done|done|].
    apply crc_range, body_bytes, content_bytes, Hd.
  - cbn. rewrite explicit_offset_flags. unfold content_of. intros [-> ->]%andb_prop.
    rewrite zlen_app, zlen_put64. pose proof (zlen_nonneg data). lia.
Qed.
Lemma frame_received {E} `{!Hooks E} `{!StreamLink E} s0 type data off incl fuel dst to_ms w rest :
  session_ok (w_s w) → link_ok (w_e w) → 0 < to_ms →
  (∀ l, val_internal_crc32 s0 l = val_internal_crc32 (w_s w) l) →
  link_in (w_e w) = session_frame s0 type data off incl ++ rest →
  0 <= type < 256 → 0 <= off < 2 ^ 64 → bytes_ok data →
  zlen (content_of type data off incl) < 2 ^ 16 → fits (w_s w) type data off incl →
  dst_cap dst ≠ 0 → zlen (seen_payload type data off) <= dst_cap dst →
  (Z.to_nat (zlen (link_in (w_e w))) < fuel)%nat →
  wpt (val_internal_recv_packet fuel dst to_ms)
    (λ r w', r = (VAL_OK, mk_packet type (zlen (seen_payload type data off)) (seen_offset type off incl)
                            (seen_payload type data off)) ∧
             at_stream rest (w_s w) w' ∧
             buffered dst (PFrame type (flags_of type incl) (type_data_of type off) (content_of type data off incl))
               (s_recv_buffer (w_s w'))) w.
Proof.
  intros. eapply wp_mono; [by eapply frame_arrives|]. cbv beta. intros r w' (-> & Hs & Hbuf).
  split; [|done]. by apply outcome_of_packet.
Qed.

(** C19: a packet arrives as it was sent. If the next frame of the stream is the one a
    session with the same CRC sent, the receiver gets the packet's type, its 64-bit
    offset (none for DATA without one; ACK and NAK offsets rejoined from their two
    halves) and its payload, whatever pieces the transport cut the frame into. *)
Theorem frame_delivered {E} `{!Hooks E} `{!StreamLink E} s0 type data off incl fuel dst to_ms w rest :
  session_ok (w_s w) → link_ok (w_e w) → 0 < to_ms →
  (∀ l, val_internal_crc32 s0 l = val_internal_crc32 (w_s w) l) →
  link_in (w_e w) = session_frame s0 type data off incl ++ rest →
  0 <= type < 256 → 0 <= off < 2 ^ 64 → bytes_ok data →
  zlen (content_of type data off incl) < 2 ^ 16 → fits (w_s w) type data off incl →
  dst_cap dst ≠ 0 → zlen (seen_payload type data off) <= dst_cap dst →
  (Z.to_nat (zlen (link_in (w_e w))) < fuel)%nat →
  wpt (val_internal_recv_packet fuel dst to_ms)
    (λ r w', r = (VAL_OK, mk_packet type (zlen (seen_payload type data off)) (seen_offset type off incl)
                            (seen_payload type data off)) ∧
             at_stream rest (w_s w) w') w.
Proof.
  intros. eapply wp_mono; [by eapply frame_received|]. cbv beta. by intros r w' (? & ? & _).
Qed.

(** Damage to a frame on the wire: a burst of up to 32 bits, in the header, the content, the
    trailer or across them, that leaves the length field as it was (a damaged length misplaces
    the frame's end). *)
Definition damage (frame frame' : list Z) : Prop :=
  bytes_ok frame' ∧ bit_burst frame frame' ∧ zslice frame' 2 2 = zslice frame 2 2.

Lemma get16_slice l : 4 <= zlen l → VAL_GET_LE16 (zdrop 2 l) = VAL_GET_LE16 (zslice l 2 2).
Proof.
  intros Hl. unfold zslice. rewrite <- (ztake_zdrop 2 (zdrop 2 l)) at 1. unfold VAL_GET_LE16.
  rewrite !zget_app_l; [done|..]; rewrite zlen_ztake; rewrite ?zlen_zdrop; lia.
Qed.
Lemma zslice_app_l a r o n : 0 <= o → 0 <= n → o + n <= zlen a → zslice (a ++ r) o n = zslice a o n.
Proof.
  intros. unfold zslice, zdrop, ztake, zlen in *. rewrite drop_app_le by lia.
  apply take_app_le. rewrite length_drop. lia.
Qed.
Lemma trailer_value tr : bytes_ok tr → zlen tr = 4 → VAL_GET_LE32 tr = le_val tr.
Proof. intros Hb Hl. rewrite get_le32_val by (done || lia). by rewrite ztake_all by lia. Qed.
Lemma parse_damaged mtu type flags td ct frame' rest :
  zlen ct < 2 ^ 16 → zlen ct <= mtu - 12 → bytes_ok ct →
  damage (frame_of val_crc32 type flags td ct) frame' →
  parse_frame val_crc32 mtu (frame' ++ rest) = Some (PBadCrc, rest).
Proof.
  intros H16 Hfit Hct (Hf' & Hburst & Hsl). pose proof (zlen_nonneg ct). pose proof (zlen_nonneg rest).
  unfold frame_of in Hburst, Hsl. set (body := frame_body type flags td ct) in *.
  assert (Hb : zlen body = 8 + zlen ct) by (unfold body, frame_body; by rewrite zlen_app, frame_header_size).
  assert (Hbytes : bytes_ok body) by (by apply body_bytes).
  assert (El : zlen frame' = 8 + zlen ct + 4).
  { destruct Hburst as [E _]. unfold zlen at 1. rewrite <- E. fold (zlen (body ++ VAL_PUT_LE32 (val_crc32 body))).
    by rewrite zlen_app, zlen_put32, Hb. }
  destruct (split_at (8 + zlen ct) frame') as (body' & tr' & -> & Hb' & Htr'); [lia|].
  apply bytes_ok_app in Hf' as [Hbb Htb]. replace (zlen tr') with 4 in * by lia. clear Htr'.
  assert (Htr' : zlen tr' = 4) by (rewrite zlen_app in El; lia).
  assert (Hz : zslice body' 2 2 = zslice body 2 2) by (rewrite !zslice_app_l in Hsl by lia; done).
  assert (Hbad : (VAL_GET_LE32 tr' =? val_crc32 body') = false).
  { apply Z.eqb_neq. rewrite trailer_value by done.
    pose proof (val_crc32_range body Hbytes) as Hr.
    apply (crc32_burst_breaks body (VAL_PUT_LE32 (val_crc32 body)));
      [done|by apply put32_ok|done..|unfold zlen in Htr'; lia| |done].
    rewrite <- trailer_value by (done || by apply put32_ok).
    by rewrite <- (app_nil_r (VAL_PUT_LE32 _)), get_put32, u32_small. }
  rewrite <- (assoc_L (++)).
  unfold parse_frame. rewrite !zlen_app, Htr', Hb'.
  replace (8 + zlen ct + (4 + zlen rest) <? 8) with false by lia.
  unfold val_deserialize_frame_header.
  assert (En : VAL_GET_LE16 (zdrop 2 (body' ++ tr' ++ rest)) = zlen ct).
  { rewrite get16_slice by (rewrite !zlen_app; lia). rewrite zslice_app_l, Hz by lia.
    rewrite <- get16_slice by lia.
    pose proof (frame_header_roundtrip (u8 type) flags (zlen ct) td ct) as Hr.
    apply (f_equal (λ p, snd (fst p))) in Hr. change (VAL_GET_LE16 (zdrop 2 body) = u16 (zlen ct)) in Hr.
    rewrite Hr. apply u16_small. lia. }
  rewrite En. replace (mtu - 12 <? zlen ct) with false by lia.
  replace (8 + zlen ct + (4 + zlen rest) <? 8 + zlen ct + 4) with false by lia.
  rewrite ztake_app_exact, (zdrop_app_exact (8 + zlen ct)) by lia.
  rewrite get32_app, Hbad by lia. by rewrite zdrop_app_exact by lia.
Qed.

(** C20: a damaged frame is refused. Where no CRC provider is configured, a burst of up to
    32 bits anywhere in a frame (header, content, trailer or across them; bits counted in the
    order in which the CRC takes them) that leaves the length field as it was makes
    [val_internal_recv_packet] return VAL_ERR_CRC with no packet, and the next frame of the
    stream is not lost. *)
Theorem damaged_frame_rejected {E} `{!Hooks E} `{!StreamLink E} type flags td ct frame' rest fuel dst to_ms w :
  session_ok (w_s w) → link_ok (w_e w) → 0 < to_ms →
  cfg_has_crc32_provider (s_cfg (w_s w)) = false →
  zlen ct < 2 ^ 16 → zlen ct <= session_mtu (w_s w) - 12 → bytes_ok ct →
  damage (frame_of val_crc32 type flags td ct) frame' →
  link_in (w_e w) = frame' ++ rest →
  (Z.to_nat (zlen (link_in (w_e w))) < fuel)%nat →
  wpt (val_internal_recv_packet fuel dst to_ms)
    (λ r w', r = (VAL_ERR_CRC, no_packet) ∧ at_stream rest (w_s w) w') w.
Proof.
  intros Hok Hl Hto Hprov H16 Hfit Hct Hdam EL Hf.
  eapply wp_mono; [eapply (recv_packet_spec _ _ _ _ PBadCrc rest); try done|].
  - rewrite EL. pose proof (parse_damaged _ _ _ _ _ _ rest H16 Hfit Hct Hdam) as Hp.
    unfold val_internal_crc32. by rewrite Hprov.
  - cbv beta. by intros r w' (-> & Hs & _).
Qed.

(** ** The theorems at a concrete link *)

Fixpoint sim_pending (l : list arrival) : list Z :=
  match l with Bytes d :: l => d ++ sim_pending l | _ => [] end.
Definition sim_ok (e : sim) : Prop := Forall (λ c, match c with Bytes d => d ≠ [] ∧ bytes_ok d | Silence _ => True end) (sim_in e).

Lemma sim_pending_bytes e : sim_ok e → bytes_ok (sim_pending (sim_in e)).
Proof.
  unfold sim_ok. destruct e as [l now fs op]; cbn. induction 1 as [|ch l Hc _ IH]; cbn; [constructor|].
  destruct ch as [d|ms]; [|constructor]. apply bytes_ok_app. by split; [apply Hc|].
Qed.
Lemma sim_recv_law n t e : sim_ok e → 0 < n → sim_pending (sim_in e) ≠ [] →
  let '((r, got), e') := hk_recv n t e in
  0 <= r ∧ sim_ok e' ∧ u32 (sim_now e') = u32 (sim_now e) ∧
  ∃ k, 1 <= k <= n ∧ got = ztake k (sim_pending (sim_in e)) ∧ sim_pending (sim_in e') = zdrop k (sim_pending (sim_in e)).
Proof.
  intros He Hn Hne. destruct e as [[|[d|ms] l] now fs op]; cbn in *; try done.
  unfold sim_ok in He. cbn in He. apply Forall_cons_1 in He as [[Hd Hb] Hl]. unfold sim_recv. cbn.
  assert (1 <= zlen d) by (destruct d; [done|rewrite zlen_cons; pose proof (zlen_nonneg d); lia]).
  destruct (Z.leb_spec (zlen d) n); cbn.
  - split; [lia|]. split; [exact Hl|]. split; [done|]. exists (zlen d). split; [lia|].
    by rewrite ztake_app_exact, zdrop_app_exact.
  - split; [lia|]. split.
    { unfold sim_ok. cbn. constructor; [|done]. split; [|by apply bytes_ok_zdrop].
      intros E0. pose proof (zlen_zdrop n d ltac:(lia)) as Hz. rewrite E0 in Hz. change (zlen (@nil Z)) with 0 in Hz. lia. }
    split; [done|]. exists n. split; [lia|]. split; [by rewrite ztake_app_le by lia|].
    unfold zdrop. rewrite drop_app_le; [done|]. unfold zlen in *. lia.
Qed.
#[export] Program Instance sim_link : StreamLink sim := {|
  link_ok := sim_ok;
  link_in e := sim_pending (sim_in e);
  link_now e := u32 (sim_now e)
|}.
Next Obligation. intros e. apply sim_pending_bytes. Qed.
Next Obligation. intros n t e He Hn _. apply sim_recv_law; [done|lia|]. apply zlen_pos_ne. lia. Qed.
Next Obligation. done. Qed.
Next Obligation. done. Qed.

Definition demo_s : val_session_t := sim_session demo_config.
Definition demo_w (l : list arrival) : world sim := sim_world demo_s (sim_start l []).
Lemma demo_s_ok : session_ok demo_s.
Proof. apply sim_session_ok, demo_config_ok. Qed.

Lemma send_packet_frames_witness :
  session_ok demo_s ∧
  wpt (val__internal_send_packet_core VAL_PKT_DATA (PBytes [1; 2; 3]) 3 7 true)
    (λ st w', (st = VAL_ERR_IO ∧ unconnected (demo_w []) ∧ quietly (demo_w []) w') ∨
       (fits demo_s VAL_PKT_DATA [1; 2; 3] 7 true ∧
        sent (session_frame (E:=sim) demo_s VAL_PKT_DATA [1; 2; 3] 7 true) st (demo_w []) w') ∨
       (~ fits demo_s VAL_PKT_DATA [1; 2; 3] 7 true ∧ st = VAL_ERR_INVALID_ARG ∧ quietly (demo_w []) w'))
    (demo_w []).
Proof.
  split; [exact demo_s_ok|].
  apply (send_packet_frames VAL_PKT_DATA (PBytes [1; 2; 3]) 3 7 true [1; 2; 3] (demo_w []));
    [exact demo_s_ok|split; [by cbv|reflexivity]|by vm_compute|by vm_compute].
Defined.

(** A session with large packets. *)
Definition large_config : val_config_t := demo_config <| cfg_packet_size := 70000 |>.
Lemma large_config_ok : config_ok large_config.
Proof. destruct demo_config_ok. constructor; done. Qed.
Definition large_w : world sim := sim_world (sim_session large_config) (sim_start [] []).
Definition large_data : list Z := zslice (s_send_buffer (w_s large_w)) 8 66000.
Lemma large_payload : payload_data (s_send_buffer (w_s large_w)) PContent 66000 large_data.
Proof.
  split; [lia|]. split; [|done]. change (w_s large_w) with (sim_session large_config).
  rewrite (proj1 (sim_buffers large_config ltac:(by vm_compute))). by vm_compute.
Qed.
Lemma large_mtu : session_mtu (w_s large_w) = 70000.
Proof. reflexivity. Qed.
Lemma large_data_truncated_witness :
  zlen large_data = 66000 ∧ u16 (zlen large_data) = 464 ∧
  wpt (val_internal_send_packet_ex VAL_PKT_DATA PContent 66000 0 false)
    (λ st w', (st = VAL_ERR_IO ∧ unconnected large_w ∧ quietly large_w w') ∨
       sent (frame_of (val_internal_crc32 (E:=sim) (w_s large_w)) VAL_PKT_DATA 0 0
               (ztake (u16 (zlen large_data)) large_data)) st large_w w') large_w.
Proof.
  pose proof (proj2 (zlen_payload_data _ _ _ _ large_payload)) as El.
  split; [exact El|]. split; [rewrite El; reflexivity|].
  refine (large_data_truncated 66000 0 false large_data large_w _ large_payload _).
  - apply sim_session_ok, large_config_ok.
  - cbv zeta. change (content_of VAL_PKT_DATA large_data 0 false) with large_data.
    rewrite El, large_mtu. lia.
Defined.

(** A DATA packet at the far end of a 64-bit file, in two pieces, followed by other bytes. *)
Definition demo_frame : list Z := session_frame (E:=sim) demo_s VAL_PKT_DATA [65; 66; 67] (2 ^ 40) true.
Definition demo_rx : world sim := demo_w [Bytes (ztake 5 demo_frame); Bytes (zdrop 5 demo_frame ++ [9; 9])].
Lemma demo_rx_ok : link_ok (w_e demo_rx).
Proof.
  assert (Hb : bytes_ok demo_frame) by (vm_compute; repeat constructor; discriminate).
  constructor; [split; [by vm_compute|by apply bytes_ok_ztake]|]. constructor; [|constructor].
  split; [by vm_compute|]. apply bytes_ok_app. split; [by apply bytes_ok_zdrop|solve_bytes].
Qed.
Lemma frame_delivered_witness :
  wpt (val_internal_recv_packet 100 (DstRecvBuffer 500) 10)
    (λ r w', r = (VAL_OK, mk_packet VAL_PKT_DATA 3 (2 ^ 40) [65; 66; 67]) ∧ at_stream [9; 9] demo_s w') demo_rx.
Proof.
  refine (frame_delivered demo_s VAL_PKT_DATA [65; 66; 67] (2 ^ 40) true 100 (DstRecvBuffer 500) 10 demo_rx [9; 9]
            demo_s_ok demo_rx_ok _ _ _ _ _ _ _ _ _ _ _);
    first [done | lia | solve [solve_bytes] | by vm_compute | vm_compute; lia | vm_compute; split; discriminate].
Defined.

(** The same frame, hit by a burst of 32 bits that begins in the last payload byte and ends in
    the trailer. *)
Definition demo_ct : list Z := VAL_PUT_LE64 (2 ^ 40) ++ [65; 66; 67].
Definition demo_good : list Z := frame_of val_crc32 VAL_PKT_DATA VAL_DATA_OFFSET_PRESENT 0 demo_ct.
Definition demo_bad : list Z :=
  ztake 18 demo_good ++ zip_with Z.lxor (zdrop 18 demo_good) [0x10; 0; 0xFF; 0; 0x0F].
Definition demo_bad_rx : world sim := demo_w [Bytes (demo_bad ++ [9; 9])].
Lemma damaged_frame_rejected_witness :
  (* bits 148 to 179 of the frame *)
  Z.lxor (le_val demo_good) (le_val demo_bad) = Z.shiftl 0xF00FF001 148 ∧
  wpt (val_internal_recv_packet 100 (DstRecvBuffer 500) 10)
    (λ r w', r = (VAL_ERR_CRC, no_packet) ∧ at_stream [9; 9] demo_s w') demo_bad_rx.
Proof.
  split; [by vm_compute|].
  assert (Hb : bytes_ok demo_bad) by (vm_compute; repeat constructor; discriminate).
  refine (damaged_frame_rejected VAL_PKT_DATA VAL_DATA_OFFSET_PRESENT 0 demo_ct demo_bad
            [9; 9] 100 (DstRecvBuffer 500) 10 demo_bad_rx demo_s_ok _ _ eq_refl _ _ _ _ eq_refl _).
  - constructor; [|constructor]. split; [by vm_compute|]. apply bytes_ok_app. split; [exact Hb|solve_bytes].
  - lia.
  - by vm_compute.
  - by vm_compute.
  - vm_compute. repeat constructor; discriminate.
  - split; [exact Hb|]. split; [|by vm_compute].
    split; [by vm_compute|]. exists 148, 0xF00FF001. split; [lia|]. split; [lia|]. by vm_compute.
  - apply Nat.ltb_lt. by vm_compute.
Defined.
