(* ===== verification/Control.v ===== *)
(** Waiting for control packets ([src/val_core.c]: [val_internal_recv_until_deadline],
    [val_internal_wait_control] with its accept and retry callbacks, and the wrappers
    built on it; [val_emergency_cancel]).

    A wait polls the transport in short slices, ignores what it does not expect,
    resends and backs off when its deadline passes, and gives up when its retries are
    used up.  [fuel] bounds the turns of every loop. *)
From S2P Require Import Prelude ByteOrder Wire Errors Timing Session Records Window Packet.

Section control.
Context {E : Type} `{!Hooks E} `{!BuildOptions}.

(** ** Polling until a deadline *)

(** One slice. [scratch] is the caller's buffer ([payload_out], whose length is
    [payload_cap]); it keeps its bytes where nothing is written. *)
Definition recv_slice (fuel : nat) (deadline_ms max_slice_ms : Z) (scratch : list Z)
    : M (world E) (unit + Z * packet * list Z) :=
  let! cancelled := val_check_for_cancel in
  if (cancelled : bool) then mret (inr (VAL_ERR_ABORTED, no_packet, scratch))
  else
    let! now := get_ticks_ms in
    let remaining := if now <? deadline_ms then deadline_ms - now else 0 in
    let slice := if max_slice_ms <? remaining then max_slice_ms else remaining in
    let slice := if slice =? 0 then 1 else slice in
    let! ' (st, pkt) := val_internal_recv_packet fuel DstNull slice in
    if st =? VAL_OK then
      if negb (zlen scratch =? 0) && (0 <? pkt_len pkt) && negb (pkt_type pkt =? VAL_PKT_DATA) then
        let! s := get_s in
        let data := zslice (s_recv_buffer s) VAL_WIRE_HEADER_SIZE (pkt_len pkt) in
        if pkt_len pkt <=? zlen scratch
        then mret (inr (VAL_OK, pkt, zwrite scratch 0 data))
        else mret (inr (VAL_ERR_INVALID_ARG, pkt, scratch))
      else mret (inr (VAL_OK, pkt, scratch))
    else if negb (st =? VAL_ERR_TIMEOUT) && negb (st =? VAL_ERR_CRC) then
      mret (inr (st, no_packet, scratch))
    else
      let! now := get_ticks_ms in
      if deadline_ms <=? now then mret (inr (VAL_ERR_TIMEOUT, no_packet, scratch))
      else mret (inl tt).

Definition val_internal_recv_until_deadline (fuel : nat) (deadline_ms max_slice_ms : Z)
    (scratch : list Z) : M (world E) (Z * packet * list Z) :=
  loop fuel (λ _, recv_slice fuel deadline_ms max_slice_ms scratch) tt.

(** ** The generic control wait *)

Definition accept_fn : Type := Z → Z → M (world E) Z.       (* packet type, length *)
Definition on_timeout_fn : Type := M (world E) Z.

Record wait_state := mk_wait { wt_retries : Z; wt_backoff : Z; wt_scratch : list Z }.

Definition wait_control_body (fuel : nat) (timeout_ms : Z) (accept : accept_fn)
    (on_timeout : option on_timeout_fn) (l : wait_state)
    : M (world E) (wait_state + Z * packet * list Z) :=
  let! cancelled := val_check_for_cancel in
  if (cancelled : bool) then mret (inr (VAL_ERR_ABORTED, no_packet, wt_scratch l))
  else
    let! t0 := get_ticks_ms in
    let deadline := u32 (t0 + timeout_ms) in
    let! ' (st, pkt, scratch) := val_internal_recv_until_deadline fuel deadline 20 (wt_scratch l) in
    if st =? VAL_ERR_ABORTED then mret (inr (VAL_ERR_ABORTED, no_packet, scratch))
    else if st =? VAL_OK then
      if pkt_type pkt =? VAL_PKT_CANCEL then mret (inr (VAL_ERR_ABORTED, no_packet, scratch))
      else if pkt_type pkt =? VAL_PKT_ERROR then mret (inr (VAL_ERR_PROTOCOL, no_packet, scratch))
      else
        let! ar := accept (pkt_type pkt) (pkt_len pkt) in
        if 0 <? ar then mret (inr (VAL_OK, pkt, scratch))
        else if ar <? 0 then mret (inr (VAL_ERR_PROTOCOL, no_packet, scratch))
        else mret (inl (mk_wait (wt_retries l) (wt_backoff l) scratch))
    else if (negb (st =? VAL_ERR_TIMEOUT) && negb (st =? VAL_ERR_CRC)) || (wt_retries l =? 0) then
      do! (if st =? VAL_ERR_TIMEOUT then VAL_SET_TIMEOUT_ERROR VAL_ERROR_DETAIL_TIMEOUT_ACK
           else if st =? VAL_ERR_CRC then VAL_SET_CRC_ERROR VAL_ERROR_DETAIL_PACKET_CORRUPT
           else mret tt) in
      do! (if st =? VAL_ERR_TIMEOUT then val_metrics_inc_timeout_hard else mret tt) in
      mret (inr (st, no_packet, scratch))
    else
      do! set_in_retransmit_flag true in
      do! val_metrics_inc_retrans in
      do! VAL_HEALTH_RECORD_RETRY in
      let! rs := (match on_timeout with Some f => f | None => mret VAL_OK end) in
      if negb (rs =? VAL_OK) then mret (inr (rs, no_packet, scratch))
      else
        let! ' (b, r) := val_internal_backoff_step (wt_backoff l) (wt_retries l) in
        mret (inl (mk_wait r b scratch)).

(** [scratch = None] is the NULL pointer, for which a local array is used. *)
Definition val_internal_wait_control (fuel : nat) (timeout_ms retries backoff_ms_base : Z)
    (scratch : option (list Z)) (accept : accept_fn) (on_timeout : option on_timeout_fn)
    : M (world E) (Z * packet * list Z) :=
  let scratch := match scratch with Some b => b | None => local_array 32 end in
  do! set_in_retransmit_flag false in
  loop fuel (wait_control_body fuel timeout_ms accept on_timeout)
    (mk_wait retries backoff_ms_base scratch).

(** ** DONE_ACK and EOT_ACK *)

Definition accept_done_ack_cb : accept_fn := λ t _,
  mret (if t =? VAL_PKT_DONE_ACK then 1 else 0).
Definition retry_send_done_cb (file_size : Z) : on_timeout_fn :=
  do! val_internal_record_transmission_error in
  val_internal_send_packet VAL_PKT_DONE PNull 0 file_size.
Definition accept_eot_ack_cb : accept_fn := λ t _,
  mret (if t =? VAL_PKT_DONE_ACK then 0 else if t =? VAL_PKT_EOT_ACK then 1 else 0).
Definition retry_send_eot_cb : on_timeout_fn := val_internal_send_packet VAL_PKT_EOT PNull 0 0.

(** The round trip sample of a wait that needed no resend. *)
Definition sample_rtt (st t0 : Z) : M (world E) unit :=
  let! s := get_s in
  if (st =? VAL_OK) && negb (t0 =? 0) && negb (in_retransmit (s_timing s)) then
    let! now := get_ticks_ms in
    if negb (now =? 0) then val_internal_record_rtt (u32 (now - t0)) else mret tt
  else mret tt.

Definition val_internal_wait_done_ack (fuel : nat) (file_size : Z) : M (world E) Z :=
  let! to := val_internal_get_timeout VAL_OP_DONE_ACK in
  let! s := get_s in
  let! t0 := get_ticks_ms in
  let! ' (st, _, _) := val_internal_wait_control fuel to (cfg_ack_retries (s_cfg s))
    (cfg_backoff_ms_base (s_cfg s)) (Some (local_array 32)) accept_done_ack_cb
    (Some (retry_send_done_cb file_size)) in
  do! sample_rtt st t0 in
  mret st.

Definition val_internal_wait_eot_ack (fuel : nat) : M (world E) Z :=
  let! to := val_internal_get_timeout VAL_OP_EOT_ACK in
  let! s := get_s in
  let! t0 := get_ticks_ms in
  let! ' (st, _, _) := val_internal_wait_control fuel to (cfg_ack_retries (s_cfg s))
    (cfg_backoff_ms_base (s_cfg s)) (Some (local_array 32)) accept_eot_ack_cb
    (Some retry_send_eot_cb) in
  do! sample_rtt st t0 in
  mret st.

(** The sample of the [_ex] variants, which want the clock to have moved. *)
Definition sample_rtt_ex (st rtt_start_ms : Z) : M (world E) unit :=
  let! s := get_s in
  if (st =? VAL_OK) && negb (rtt_start_ms =? 0) && negb (in_retransmit (s_timing s)) then
    let! now := get_ticks_ms in
    if rtt_start_ms <? now then val_internal_record_rtt (now - rtt_start_ms) else mret tt
  else mret tt.

Definition val_internal_wait_done_ack_ex (fuel : nat) (base_timeout_ms retries backoff_ms_base rtt_start_ms : Z)
    : M (world E) Z :=
  let! s := get_s in
  let! ' (st, _, _) := val_internal_wait_control fuel base_timeout_ms retries backoff_ms_base
    (Some (local_array 32)) accept_done_ack_cb (Some (retry_send_done_cb (s_total_file_size s))) in
  do! sample_rtt_ex st rtt_start_ms in
  mret st.
Definition val_internal_wait_eot_ack_ex (fuel : nat) (base_timeout_ms retries backoff_ms_base rtt_start_ms : Z)
    : M (world E) Z :=
  let! ' (st, _, _) := val_internal_wait_control fuel base_timeout_ms retries backoff_ms_base
    (Some (local_array 32)) accept_eot_ack_cb (Some retry_send_eot_cb) in
  do! sample_rtt_ex st rtt_start_ms in
  mret st.

(** ** HELLO *)

Definition val__negotiable_mask : Z := VAL_BUILTIN_FEATURES.

Definition val__fill_local_hello (s : val_session_t) (packet_size : Z) : val_handshake_t :=
  let negotiable := val__negotiable_mask in
  let requested_sanitized := Z.land (cfg_requested (s_cfg s)) negotiable in
  let w := if cfg_window_cap_packets (s_cfg s) =? 0 then 1 else cfg_window_cap_packets (s_cfg s) in
  let w := if 0xFFFF <? w then 0xFFFF else w in
  mk_handshake VAL_MAGIC (u8 VAL_VERSION_MAJOR) (u8 VAL_VERSION_MINOR) 0 (u32 packet_size)
    negotiable (Z.land (cfg_required (s_cfg s)) negotiable) requested_sanitized
    (u16 w) (u16 w) 1 (0, 0, 0) 0 0 0 0.

(** [accept_hello_cb]; [accept_hello_rx_cb] has the same body. *)
Definition accept_hello_cb : accept_fn := λ t len,
  if t =? VAL_PKT_CANCEL then mret (-1)
  else if negb (t =? VAL_PKT_HELLO) then mret 0
  else if len <? VAL_WIRE_HANDSHAKE_SIZE then
    do! VAL_SET_PROTOCOL_ERROR VAL_ERROR_DETAIL_MALFORMED_PKT in mret (-1)
  else mret 1.
Definition accept_hello_rx_cb : accept_fn := λ t len,
  if t =? VAL_PKT_CANCEL then mret (-1)
  else if negb (t =? VAL_PKT_HELLO) then mret 0
  else if len <? VAL_WIRE_HANDSHAKE_SIZE then
    do! VAL_SET_PROTOCOL_ERROR VAL_ERROR_DETAIL_MALFORMED_PKT in mret (-1)
  else mret 1.

Definition retry_send_hello_cb (payload : list Z) : on_timeout_fn :=
  if zlen payload =? 0 then mret VAL_ERR_INVALID_ARG
  else val_internal_send_packet VAL_PKT_HELLO (PBytes payload) (zlen payload) 0.

Definition val_internal_wait_hello (fuel : nat) (base_timeout_ms retries backoff_ms_base : Z)
    (sender_or_receiver : bool) : M (world E) Z :=
  let! s := get_s in
  let hello_wire := val_serialize_handshake (val__fill_local_hello s (cfg_packet_size (s_cfg s))) in
  let resend := if sender_or_receiver then Some (retry_send_hello_cb hello_wire) else None in
  let! ' (st, _, _) := val_internal_wait_control fuel base_timeout_ms retries backoff_ms_base
    (Some (local_array VAL_WIRE_HANDSHAKE_SIZE)) accept_hello_cb resend in
  mret st.

(** ** VERIFY *)

Definition retry_send_verify_cb (payload : list Z) : on_timeout_fn :=
  val_internal_send_packet VAL_PKT_VERIFY (PBytes payload) (zlen payload) 0.
Definition retry_send_verify_combined_cb (payload : list Z) : on_timeout_fn :=
  if zlen payload =? 0 then mret VAL_ERR_INVALID_ARG
  else val_internal_send_packet VAL_PKT_VERIFY (PBytes payload) (zlen payload) 0.

(** A VERIFY answer must at least hold the status. *)
Definition accept_verify_status (t len : Z) : M (world E) Z :=
  if t =? VAL_PKT_CANCEL then mret (-1)
  else if negb (t =? VAL_PKT_VERIFY) then mret 0
  else if len <? 4 then
    do! VAL_SET_PROTOCOL_ERROR VAL_ERROR_DETAIL_MALFORMED_PKT in mret (-1)
  else mret 1.
Definition accept_verify_result_cb : accept_fn := accept_verify_status.
Definition resend_resume_resp (resp : option (list Z)) : M (world E) unit :=
  match resp with
  | Some p =>
      if zlen p =? 0 then mret tt
      else let! _ := val_internal_send_packet VAL_PKT_RESUME_RESP (PBytes p) (zlen p) 0 in mret tt
  | None => mret tt
  end.
Definition accept_verify_with_resume_cb (resume_resp : option (list Z)) : accept_fn := λ t len,
  if t =? VAL_PKT_RESUME_REQ then do! resend_resume_resp resume_resp in mret 0
  else accept_verify_status t len.

(** The status in the answer, mapped to the resume offset it stands for: [inr] is
    the offset written to [*out_resume_offset], [inl] the error returned. *)
Definition map_verify_status (buf : list Z) (end_off : Z) : Z + Z :=
  let status := i32 (VAL_GET_LE32 buf) in
  if status =? VAL_OK then inr end_off
  else if status =? VAL_SKIPPED then inr UINT64_MAX
  else if status =? VAL_ERR_RESUME_VERIFY then inr 0
  else inl status.

Definition finish_verify (st : Z) (pkt : packet) (buf : list Z) (end_off : Z) : Z * option Z :=
  if negb (st =? VAL_OK) then (st, None)
  else if pkt_len pkt <? 4 then (VAL_ERR_PROTOCOL, None)
  else match map_verify_status buf end_off with
       | inr off => (VAL_OK, Some off)
       | inl status => (status, None)
       end.

Definition val_internal_wait_verify (fuel : nat) (base_timeout_ms retries backoff_ms_base : Z)
    (verify_payload : list Z) (resume_resp : option (list Z)) (end_off : Z)
    : M (world E) (Z * option Z) :=
  if zlen verify_payload =? 0 then mret (VAL_ERR_INVALID_ARG, None)
  else
    let! ' (st, pkt, buf) := val_internal_wait_control fuel base_timeout_ms retries backoff_ms_base
      (Some (local_array 32)) (accept_verify_with_resume_cb resume_resp)
      (Some (retry_send_verify_combined_cb verify_payload)) in
    mret (finish_verify st pkt buf end_off).

(** The record of the result in [resume_trace.log]. *)
Definition trace_verify_result (st : Z) (pkt : packet) (buf : list Z) (end_off : Z) : M (world E) unit :=
  if negb (st =? VAL_OK) || (pkt_len pkt <? 4) then mret tt
  else
    let status := i32 (VAL_GET_LE32 buf) in
    if status =? VAL_OK then append_trace (VerifyResultOk end_off)
    else if status =? VAL_SKIPPED then append_trace VerifyResultSkipped
    else if status =? VAL_ERR_RESUME_VERIFY then append_trace VerifyResultMismatch
    else mret tt.

Definition val_internal_wait_verify_result (fuel : nat) (verify_payload : list Z) (end_off : Z)
    : M (world E) (Z * option Z) :=
  if zlen verify_payload =? 0 then mret (VAL_ERR_INVALID_ARG, None)
  else
    let! to := val_internal_get_timeout VAL_OP_VERIFY in
    let! s := get_s in
    let! ' (st, pkt, buf) := val_internal_wait_control fuel to (cfg_ack_retries (s_cfg s))
      (cfg_backoff_ms_base (s_cfg s)) (Some (local_array 32)) accept_verify_result_cb
      (Some (retry_send_verify_cb verify_payload)) in
    do! trace_verify_result st pkt buf end_off in
    mret (finish_verify st pkt buf end_off).

(** ** RESUME_RESP and the receiver's VERIFY request *)

Definition accept_resume_resp_cb : accept_fn := λ t _,
  if t =? VAL_PKT_CANCEL then mret (-1)
  else mret (if t =? VAL_PKT_RESUME_RESP then 1 else 0).
Definition retry_send_resume_req_cb : on_timeout_fn :=
  val_internal_send_packet VAL_PKT_RESUME_REQ PNull 0 0.
Definition val_internal_wait_resume_resp (fuel : nat) (base_timeout_ms retries backoff_ms_base : Z)
    (payload_out : list Z) : M (world E) (Z * packet * list Z) :=
  if zlen payload_out =? 0 then mret (VAL_ERR_INVALID_ARG, no_packet, payload_out)
  else val_internal_wait_control fuel base_timeout_ms retries backoff_ms_base (Some payload_out)
    accept_resume_resp_cb (Some retry_send_resume_req_cb).

Definition accept_verify_rx_with_resume_cb (resume_resp : option (list Z)) : accept_fn := λ t _,
  if t =? VAL_PKT_RESUME_REQ then do! resend_resume_resp resume_resp in mret 0
  else if t =? VAL_PKT_CANCEL then mret (-1)
  else mret (if t =? VAL_PKT_VERIFY then 1 else 0).
Definition val_internal_wait_verify_request_rx (fuel : nat) (base_timeout_ms retries backoff_ms_base : Z)
    (resume_resp : option (list Z)) (payload_out : list Z) : M (world E) (Z * packet * list Z) :=
  if zlen payload_out =? 0 then mret (VAL_ERR_INVALID_ARG, no_packet, payload_out)
  else val_internal_wait_control fuel base_timeout_ms retries backoff_ms_base (Some payload_out)
    (accept_verify_rx_with_resume_cb resume_resp) None.

(** ** Cancel and ERROR *)

Fixpoint emergency_tries (tries : nat) (backoff last : Z) : M (world E) Z :=
  match tries with
  | O => mret last
  | S tries =>
      let! st := val_internal_send_packet VAL_PKT_CANCEL PNull 0 0 in
      let last := if st =? VAL_OK then VAL_OK else last in
      do! delay_ms backoff in
      let backoff := if backoff <? 50 then u32 (Z.shiftl backoff 1) else backoff in
      emergency_tries tries backoff last
  end.
Definition val_emergency_cancel : M (world E) Z :=
  do! val_internal_lock in
  let! s := get_s in
  let backoff := if cfg_backoff_ms_base (s_cfg s) =? 0 then 5 else cfg_backoff_ms_base (s_cfg s) in
  let! last := emergency_tries 3 backoff VAL_ERR_IO in
  do! val_internal_transport_flush in
  do! val_internal_set_last_error VAL_ERR_ABORTED 0 in
  do! val_internal_unlock in
  mret last.

Definition val_internal_send_error (code detail : Z) : M (world E) Z :=
  let wire := val_serialize_error_payload (mk_error_payload code detail) in
  val_internal_send_packet VAL_PKT_ERROR (PBytes wire) VAL_WIRE_ERROR_PAYLOAD_SIZE 0.

(** ** Callbacks: each may cancel the session before it returns *)

Definition callback (h : E → bool * E) (ev : event) : M (world E) unit :=
  let! cancels := call h (λ _, ev) in
  if (cancels : bool) then let! _ := val_emergency_cancel in mret tt else mret tt.
Definition on_file_start (name path : list Z) (size off : Z) : M (world E) unit :=
  let! s := get_s in
  if cfg_has_on_file_start (s_cfg s)
  then callback (hk_on_file_start name path size off) (EvFileStart name path size off) else mret tt.
Definition on_file_complete (name path : list Z) (result : Z) : M (world E) unit :=
  let! s := get_s in
  if cfg_has_on_file_complete (s_cfg s)
  then callback (hk_on_file_complete name path result) (EvFileComplete name path result) else mret tt.

End control.

(** ** What control waits keep *)

Section control_safe.
Context {E : Type} `{!Hooks E} `{!BuildOptions} {c : val_config_t}.

Lemma safe_recv_until_deadline fuel d m sc : safe c 0 (val_internal_recv_until_deadline fuel d m sc).
Proof. unfold val_internal_recv_until_deadline, recv_slice. safe_auto. Qed.
Hint Resolve safe_recv_until_deadline : safe.

(** The caller's buffer stays a byte buffer. *)
Lemma recv_until_deadline_bytes fuel d m sc : bytes_ok sc →
  safe_post c 0 (val_internal_recv_until_deadline fuel d m sc) (λ r, bytes_ok (snd r)).
Proof.
  intros Hb. apply (safe_post_loop _ _ _ (λ _, True)); [done|]. intros _ _. unfold recv_slice.
  apply safe_post_bind0; [safe_auto|intros cancelled]. destruct cancelled; [by apply safe_post_ret|].
  apply safe_post_bind0; [safe_auto|intros now].
  apply safe_post_bind0; [safe_auto|intros [st pkt]].
  destruct (st =? VAL_OK).
  - destruct (_ && _ && _); [|by apply safe_post_ret].
    apply safe_post_get_bind. intros s Hs _.
    destruct (_ <=? _); apply safe_post_ret; [|done].
    apply bytes_ok_zwrite; [done|]. apply bytes_ok_zslice, Hs.
  - destruct (_ && _); [by apply safe_post_ret|].
    apply safe_post_bind0; [safe_auto|intros now2]. destruct (_ <=? _); by apply safe_post_ret.
Qed.

Lemma safe_wait_control fuel t r b sc (accept : accept_fn) (on_timeout : option on_timeout_fn) :
  (∀ t n, safe c 0 (accept t n)) → (∀ f, on_timeout = Some f → safe c 0 f) →
  safe c 0 (val_internal_wait_control fuel t r b sc accept on_timeout).
Proof.
  intros Ha Ho. unfold val_internal_wait_control, wait_control_body.
  apply safe_bind0; [safe_auto|intros _]. apply safe_loop. intros l.
  safe_auto. by apply Ho.
Qed.

Lemma safe_sample_rtt st t0 : safe (E:=E) c 0 (sample_rtt st t0).
Proof. unfold sample_rtt. safe_auto. Qed.
Lemma safe_retry_done n : safe (E:=E) c 0 (retry_send_done_cb n).
Proof. unfold retry_send_done_cb. safe_auto. Qed.
Hint Resolve safe_sample_rtt safe_retry_done : safe.
Lemma some_inj_safe {A} (m f : M (world E) A) : safe c 0 m → Some m = Some f → safe c 0 f.
Proof. by intros Hm [= <-]. Qed.

Lemma safe_wait_done_ack fuel n : safe c 0 (val_internal_wait_done_ack fuel n).
Proof.
  unfold val_internal_wait_done_ack. safe_auto. apply safe_wait_control.
  - intros. unfold accept_done_ack_cb. safe_auto.
  - intros f. apply some_inj_safe. auto with safe.
Qed.
Lemma safe_wait_eot_ack fuel : safe c 0 (val_internal_wait_eot_ack fuel).
Proof.
  unfold val_internal_wait_eot_ack. safe_auto. apply safe_wait_control.
  - intros. unfold accept_eot_ack_cb. safe_auto.
  - intros f. apply some_inj_safe. unfold retry_send_eot_cb. auto with safe.
Qed.
Lemma safe_accept_hello t n : safe (E:=E) c 0 (accept_hello_cb t n).
Proof. unfold accept_hello_cb. safe_auto. Qed.
Lemma safe_accept_hello_rx t n : safe (E:=E) c 0 (accept_hello_rx_cb t n).
Proof. unfold accept_hello_rx_cb. safe_auto. Qed.
Lemma safe_accept_verify t n : safe (E:=E) c 0 (accept_verify_status t n).
Proof. unfold accept_verify_status. safe_auto. Qed.
Lemma safe_resend_resume_resp p : (∀ l, p = Some l → zlen l <= 488) → safe c 0 (resend_resume_resp p).
Proof.
  intros Hp. unfold resend_resume_resp. destruct p as [l|]; [|safe_auto]. specialize (Hp l eq_refl).
  destruct (zlen l =? 0); [safe_auto|]. apply safe_bind0; [|intros _; safe_auto].
  apply safe_send_packet. pose proof (zlen_nonneg l). lia.
Qed.
Lemma safe_append_trace r : safe (E:=E) c 0 (append_trace r).
Proof. apply safe_call_unit. Qed.
Hint Resolve safe_append_trace : safe.
Lemma safe_trace_verify_result st p b o : safe (E:=E) c 0 (trace_verify_result st p b o).
Proof. unfold trace_verify_result. safe_auto. Qed.
Hint Resolve safe_trace_verify_result : safe.
Lemma safe_wait_verify_result fuel p e : zlen p <= 488 → safe c 0 (val_internal_wait_verify_result fuel p e).
Proof.
  intros Hp. unfold val_internal_wait_verify_result. safe_auto. apply safe_wait_control.
  - intros. apply safe_accept_verify.
  - intros f. apply some_inj_safe. apply safe_send_packet. pose proof (zlen_nonneg p). lia.
Qed.
Lemma safe_wait_resume_resp fuel t r b sc : safe c 0 (val_internal_wait_resume_resp fuel t r b sc).
Proof.
  unfold val_internal_wait_resume_resp. safe_auto. apply safe_wait_control.
  - intros. unfold accept_resume_resp_cb. safe_auto.
  - intros f. apply some_inj_safe. unfold retry_send_resume_req_cb. auto with safe.
Qed.
Lemma safe_wait_verify_request_rx fuel t r b p sc : (∀ l, p = Some l → zlen l <= 488) →
  safe c 0 (val_internal_wait_verify_request_rx fuel t r b p sc).
Proof.
  intros Hp. unfold val_internal_wait_verify_request_rx. safe_auto. apply safe_wait_control; [|done].
  intros. unfold accept_verify_rx_with_resume_cb. destruct (_ =? _); [|safe_auto].
  apply safe_bind0; [by apply safe_resend_resume_resp|intros _; safe_auto].
Qed.
Lemma safe_emergency_tries n b l : safe c 0 (emergency_tries n b l).
Proof. revert b l. induction n as [|n IH]; intros; cbn [emergency_tries]; safe_auto. Qed.
Hint Resolve safe_emergency_tries : safe.
Lemma safe_emergency_cancel : safe c 0 val_emergency_cancel.
Proof. unfold val_emergency_cancel. safe_auto. Qed.
Hint Resolve safe_emergency_cancel : safe.
Lemma safe_send_error code d : safe c 0 (val_internal_send_error code d).
Proof. unfold val_internal_send_error. apply safe_send_packet. by cbv. Qed.
Lemma safe_callback h ev : safe c 0 (callback h ev).
Proof. unfold callback. safe_auto. Qed.
Hint Resolve safe_callback : safe.
Lemma safe_on_file_start n p s o : safe c 0 (on_file_start n p s o).
Proof. unfold on_file_start. safe_auto. Qed.
Lemma safe_on_file_complete n p r : safe c 0 (on_file_complete n p r).
Proof. unfold on_file_complete. safe_auto. Qed.
End control_safe.
#[export] Hint Resolve safe_append_trace safe_recv_until_deadline safe_sample_rtt safe_wait_done_ack safe_wait_eot_ack
  safe_accept_hello safe_accept_hello_rx safe_wait_resume_resp safe_emergency_cancel safe_send_error
  safe_callback safe_on_file_start safe_on_file_complete : safe.

(** ** The outcome of a verification *)

(** Both ends draw the same conclusion from VERIFY. From the response the receiver
    serialises for each of its three results, the sender derives the offset the
    receiver goes on from: the verified end on a match, the skip mark when mismatches
    are skipped, and zero otherwise; any other status is passed on as an error. *)
Theorem verify_outcome_agrees result crc end_off pkt rest :
  - 2 ^ 31 <= result < 2 ^ 31 → pkt_len pkt = VAL_WIRE_VERIFY_RESP_PAYLOAD_SIZE →
  finish_verify VAL_OK pkt (val_serialize_verify_response (mk_verify_response result crc) ++ rest) end_off =
  if result =? VAL_OK then (VAL_OK, Some end_off)
  else if result =? VAL_SKIPPED then (VAL_OK, Some UINT64_MAX)
  else if result =? VAL_ERR_RESUME_VERIFY then (VAL_OK, Some 0)
  else (result, None).
Proof.
  intros Hr Hl. unfold finish_verify, map_verify_status. rewrite Hl. change (negb (VAL_OK =? VAL_OK)) with false.
  change (VAL_WIRE_VERIFY_RESP_PAYLOAD_SIZE <? 4) with false. cbv iota.
  unfold val_serialize_verify_response. cbn [vp_result vp_receiver_crc]. rewrite <- (assoc_L (++)), get_put_i32 by done.
  cbv zeta. destruct (result =? VAL_OK); [done|]. destruct (result =? VAL_SKIPPED); [done|].
  by destruct (result =? VAL_ERR_RESUME_VERIFY).
Qed.
Lemma verify_outcome_agrees_witness :
  finish_verify VAL_OK (mk_packet VAL_PKT_VERIFY 8 0 [])
    (val_serialize_verify_response (mk_verify_response VAL_ERR_RESUME_VERIFY 5) ++ [0]) 600 = (VAL_OK, Some 0).
Proof.
  rewrite (verify_outcome_agrees VAL_ERR_RESUME_VERIFY 5 600 (mk_packet VAL_PKT_VERIFY 8 0 []) [0]);
    [reflexivity|by vm_compute|reflexivity].
Defined.
