(* ===== verification/Silence.v ===== *)
(** A peer that says nothing: how long the control waits last and how often they
    resend.  The environment is any one whose clock moves only in [recv] and [delay],
    and there by at most what was asked for ([SilentLink]). *)
From S2P Require Import Prelude ByteOrder Wire Errors Timing Session Simulation Window Packet Frame Control.

Class SilentLink (E : Type) `{!Hooks E} := {
  sl_ok : E → Prop;
  sl_now : E → Z;
  sl_nonneg e : sl_ok e → 0 <= sl_now e;
  sl_ticks e : sl_ok e → let '(t, e') := hk_get_ticks_ms e in t = sl_now e ∧ sl_ok e' ∧ sl_now e' = sl_now e;
  sl_recv n t e : sl_ok e → 0 < t → let '((rc, got), e') := hk_recv n t e in
    rc = 0 ∧ got = [] ∧ sl_ok e' ∧ sl_now e < sl_now e' <= sl_now e + t;
  sl_delay t e : sl_ok e → 0 < t → sl_ok (hk_delay_ms t e) ∧ sl_now e <= sl_now (hk_delay_ms t e) <= sl_now e + t;
  sl_send fr e : sl_ok e → sl_ok (snd (hk_send fr e)) ∧ sl_now (snd (hk_send fr e)) = sl_now e;
  sl_connected e : sl_ok e → sl_ok (snd (hk_is_connected e)) ∧ sl_now (snd (hk_is_connected e)) = sl_now e;
  sl_flush e : sl_ok e → sl_ok (hk_flush e) ∧ sl_now (hk_flush e) = sl_now e;
  sl_packet r e : sl_ok e → sl_ok (hk_on_packet r e) ∧ sl_now (hk_on_packet r e) = sl_now e
}.

#[export] Program Instance sim_silent : SilentLink sim := {|
  sl_ok e := sim_in e = [] ∧ 0 <= sim_now e;
  sl_now := sim_now
|}.
Next Obligation. by intros e []. Qed.
Next Obligation. by intros e []. Qed.
Next Obligation. intros n t [inp now fs op] [E Hn] Ht. cbn in *. subst inp. cbn. repeat split; lia. Qed.
Next Obligation. intros t [inp now fs op] [E Hn] Ht. cbn in *. repeat split; lia || done. Qed.
Next Obligation. done. Qed.
Next Obligation. done. Qed.
Next Obligation. done. Qed.
Next Obligation. done. Qed.

Section silence.
Context {E : Type} `{!Hooks E} `{!SilentLink E} `{!BuildOptions}.

(** The link is silent and nobody has cancelled. *)
Definition ready (w : world E) : Prop := sl_ok (w_e w) ∧ err_code (s_last_error (w_s w)) ≠ VAL_ERR_ABORTED.
Definition now (w : world E) : Z := sl_now (w_e w).

(** From [w] to [w'], at most [b] milliseconds passed and [frs] were sent. *)
Record waited (b : Z) (frs : list (list Z)) (w w' : world E) : Prop := {
  wd_ready : ready w';
  wd_time : now w <= now w' <= now w + b;
  wd_cfg : s_cfg (w_s w') = s_cfg (w_s w);
  wd_mtu : s_effective_packet_size (w_s w') = s_effective_packet_size (w_s w);
  wd_sent : ∃ evs, w_tr w' = evs ++ w_tr w ∧ frames_of evs = frs
}.
Lemma waited_refl w : ready w → waited 0 [] w w.
Proof. intros. constructor; try done; [lia|]. by exists []. Qed.
Lemma waited_trans a b f g w w' w'' : waited a f w w' → waited b g w' w'' → waited (a + b) (g ++ f) w w''.
Proof.
  intros [R1 T1 C1 M1 (e1 & E1 & F1)] [R2 T2 C2 M2 (e2 & E2 & F2)].
  constructor; [done|lia|congruence|congruence|]. exists (e2 ++ e1). split; [by rewrite E2, E1, (assoc_L (++))|].
  by rewrite frames_of_app, F1, F2.
Qed.
Lemma waited_le a b f w w' : a <= b → waited a f w w' → waited b f w w'.
Proof. intros Hab []. constructor; try done. lia. Qed.
Lemma waited_upd f w : ready w → (∀ s, s_cfg (f s) = s_cfg s) →
  (∀ s, s_effective_packet_size (f s) = s_effective_packet_size s) →
  (∀ s, err_code (s_last_error s) ≠ VAL_ERR_ABORTED → err_code (s_last_error (f s)) ≠ VAL_ERR_ABORTED) →
  wpt (upd f) (λ _ w', waited 0 [] w w') w.
Proof.
  intros [Hl Hc] H1 H2 H3. apply wp_mod. constructor; [split; [done|by apply H3]|unfold now; cbn; lia|apply H1|apply H2|].
  by exists [].
Qed.
Lemma waited_ticks w : ready w → now w < 2 ^ 32 →
  wpt get_ticks_ms (λ t w', t = now w ∧ now w' = now w ∧ waited 0 [] w w' ∧ w_s w' = w_s w) w.
Proof.
  intros [Hl Hc] Hn. apply wp_lift. pose proof (sl_ticks _ Hl) as Ht. pose proof (sl_nonneg _ Hl) as H0.
  unfold now in *. destruct (hk_get_ticks_ms (w_e w)) as [t e]. destruct Ht as (-> & Ho & En). cbn.
  rewrite u32_small by lia. split; [done|]. split; [done|]. split; [|done].
  constructor; [done|unfold now; cbn; lia|done|done|by exists []].
Qed.

(** ** What takes no time *)

Definition idle (w w' : world E) : Prop := ready w → ready w' ∧ now w' = now w.
#[export] Instance idle_preorder : PreOrder idle.
Proof. split; [by intros w Hw|]. intros a b d Hab Hbd Ha. destruct (Hab Ha) as [Hb E1]. destruct (Hbd Hb). split; congruence. Qed.

Lemma idle_upd f :
  (∀ s, err_code (s_last_error s) ≠ VAL_ERR_ABORTED → err_code (s_last_error (f s)) ≠ VAL_ERR_ABORTED) →
  keeps idle (upd f).
Proof. intros Hf. apply keeps_mod. intros w [Hl Hc]. split; [split; [done|by apply Hf]|done]. Qed.
Lemma idle_error st d o : st ≠ VAL_ERR_ABORTED → keeps idle (val_internal_set_last_error_full (E:=E) st d o).
Proof. intros. by apply idle_upd. Qed.
Lemma idle_ticks : keeps idle get_ticks_ms.
Proof.
  intros w. apply wp_lift. unfold idle. destruct (hk_get_ticks_ms (w_e w)) as [t e] eqn:Et. intros [Hl Hc].
  pose proof (sl_ticks _ Hl) as Hs. rewrite Et in Hs. destruct Hs as (_ & Ho & En). done.
Qed.
Lemma idle_connected : keeps idle val_internal_transport_is_connected.
Proof.
  intros w. unfold val_internal_transport_is_connected. apply wp_bind, wp_gets.
  destruct (cfg_has_is_connected _); [|by apply wp_ret]. apply wp_bind, wp_lift. unfold idle.
  destruct (hk_is_connected (w_e w)) as [r e] eqn:Et. apply wp_ret. intros [Hl Hc].
  pose proof (sl_connected _ Hl) as Hs. rewrite Et in Hs. by destruct Hs.
Qed.
Lemma idle_call_unit h ev : (∀ e, sl_ok e → sl_ok (h e) ∧ sl_now (h e) = sl_now e) → keeps idle (call_unit h ev).
Proof. intros Hh w. apply wp_mod. intros [Hl Hc]. by destruct (Hh _ Hl). Qed.
Lemma idle_flush : keeps idle val_internal_transport_flush.
Proof.
  unfold val_internal_transport_flush. apply keeps_bind; [apply _|apply keeps_gets, _|intros s].
  destruct (cfg_has_flush _); [apply idle_call_unit, sl_flush|apply keeps_ret, _].
Qed.
Lemma idle_send fr : keeps idle (transport_send fr).
Proof.
  intros w. apply wp_lift. unfold idle. destruct (hk_send fr (w_e w)) as [r e] eqn:Et. intros [Hl Hc].
  pose proof (sl_send fr _ Hl) as Hs. rewrite Et in Hs. by destruct Hs.
Qed.
Lemma idle_capture r : keeps idle (capture r).
Proof.
  unfold capture. apply keeps_bind; [apply _|apply keeps_gets, _|intros s].
  destruct (cfg_has_on_packet _); [|apply keeps_ret, _].
  apply keeps_bind; [apply _|apply idle_ticks|intros t]. apply idle_call_unit, sl_packet.
Qed.
End silence.

Ltac idle_step :=
  lazymatch goal with
  | |- keeps idle (mbind _ _) => apply keeps_bind; [apply _| |intros ?]
  | |- keeps idle (mret _) => apply keeps_ret, _
  | |- keeps idle get_s => apply keeps_gets, _
  | |- keeps idle (match ?x with _ => _ end) => destruct x
  | |- keeps idle (let _ := _ in _) => cbv zeta
  | |- keeps idle _ => first [ apply idle_ticks | apply idle_connected | apply idle_flush | apply idle_send
                             | apply idle_capture | apply idle_error; done | apply idle_upd; done ]
  end.

Section waits.
Context {E : Type} `{!Hooks E} `{!SilentLink E} `{!BuildOptions}.

Lemma idle_send_core type p n off incl : keeps idle (val__internal_send_packet_core type p n off incl).
Proof. unfold val__internal_send_packet_core. repeat idle_step. Qed.

(** Sending one packet that fits: one frame at most, and no time. *)
Lemma send_waited type p n data off w : session_ok (w_s w) → ready w → payload_data (s_send_buffer (w_s w)) p n data →
  n <= 488 → zlen (content_of type data off true) <= session_mtu (w_s w) - 12 → zlen (content_of type data off true) < 2 ^ 16 →
  type ≠ VAL_PKT_DATA →
  wpt (val_internal_send_packet type p n off)
    (λ st w', (st = VAL_OK ∨ st = VAL_ERR_IO) ∧
       ∃ frs, waited 0 frs w w' ∧
         (frs = [session_frame (w_s w) type data off true] ∨ st = VAL_ERR_IO ∧ frs = [])) w.
Proof.
  intros Hs Hr Hpd H5 Hfit H16 Hty. pose proof (idle_send_core type p n off true w) as Hi.
  pose proof (sok_send _ Hs) as Hb. pose proof (cok_packet _ (sok_cfg _ Hs)) as Hp. unfold VAL_MIN_PACKET_SIZE in Hp.
  assert (Hroom : 8 + content_room type n true <= zlen (s_send_buffer (w_s w))).
  { unfold content_room. replace (type =? VAL_PKT_DATA) with false by lia. cbn [andb]. lia. }
  pose proof (send_core_spec type p n off true data w Hs Hpd Hroom H16) as Hc.
  unfold val_internal_send_packet, wp in *.
  destruct (val__internal_send_packet_core _ _ _ _ _ w) as [[st w']|]; [|done].
  destruct (Hi Hr) as [Hr' Ht'].
  assert (Hw : ∀ frs, unchanged (w_s w) (w_s w') → (∃ evs, w_tr w' = evs ++ w_tr w ∧ frames_of evs = frs) →
                      waited 0 frs w w').
  { intros frs [] ?. constructor; try done. lia. }
  assert (Hq : ∀ q, Forall quiet_event q → frames_of q = []).
  { induction 1 as [|ev q Hev _ IH]; [done|]. cbn. by destruct ev. }
  destruct Hc as [(-> & _ & [U (q & Fq & Eq)])|[[_ [U (q & rc & Fq & Eq & ->)]]|[Hbad _]]]; [| |done].
  - split; [by right|]. exists []. split; [|by right]. apply Hw; [done|]. exists q. by rewrite Hq.
  - split; [case_match; auto|]. eexists. split; [|by left]. apply Hw; [done|].
    exists (q ++ [EvSend (session_frame (w_s w) type data off true) rc]).
    rewrite <- (assoc_L (++)). split; [done|]. by rewrite frames_of_app, Hq.
Qed.

(** ** Receiving nothing *)

Lemma waited_recv n t w : ready w → 0 < t →
  wpt (transport_recv n t) (λ rg w', rg = (0, []) ∧ now w < now w' ∧ waited t [] w w' ∧ w_s w' = w_s w) w.
Proof.
  intros [Hl Hc] Ht. apply wp_lift. pose proof (sl_recv n t _ Hl Ht) as Hr. unfold now.
  destruct (hk_recv n t (w_e w)) as [[rc got] e]. destruct Hr as (-> & -> & Ho & Hn). cbn.
  assert (Hcut : cut n [] = []) by (unfold cut, ztake; by rewrite take_nil). rewrite Hcut.
  split; [done|]. split; [lia|]. split; [|done]. constructor; [done|unfold now; cbn; lia|done|done|].
  by exists [EvRecv n t 0 []].
Qed.

Lemma waited_quiet a b w w' w'' : waited a [] w w' → waited b [] w' w'' → waited (a + b) [] w w''.
Proof. intros W1 W2. exact (waited_trans _ _ [] [] _ _ _ W1 W2). Qed.

Lemma recv_full_silent fuel need to w : ready w → 0 < need → 0 < to → now w + to < 2 ^ 32 → to < Z.of_nat fuel →
  wpt (val_recv_full fuel need to)
    (λ r w', r = (VAL_ERR_TIMEOUT, []) ∧ now w < now w' ∧ waited to [] w w' ∧ w_s w' = w_s w) w.
Proof.
  intros Hr Hneed Hto Hn Hf. unfold val_recv_full. apply wp_bind.
  eapply wp_mono; [apply waited_ticks; [done|lia]|]. intros start w1 (-> & En & W1 & Es).
  pose proof (sl_nonneg _ (proj1 Hr)) as H0. fold (now w) in H0. set (st := now w) in *.
  apply (wp_loop False (λ have w', have = [] ∧ waited (now w' - st) [] w w' ∧ st <= now w' < st + to ∧ w_s w' = w_s w)
           (λ _ w', Z.to_nat (st + to - now w'))).
  2:{ rewrite En. split; [done|]. split; [by replace (st - st) with 0 by lia|]. split; [lia|done]. }
  2:{ right. lia. }
  intros have w2 (-> & W2 & Ht & Es2). unfold recv_full_body. change (zlen (@nil Z)) with 0.
  replace (need <=? 0) with false by lia. apply wp_bind.
  eapply wp_mono; [apply waited_ticks; [apply W2|lia]|]. intros t w3 (-> & En3 & W3 & Es3). cbv zeta.
  replace (st <=? now w2) with true by lia. replace (now w2 - st <? to) with true by lia.
  replace (to - (now w2 - st) =? 0) with false by lia. cbn [negb]. apply wp_bind.
  eapply wp_mono; [apply waited_recv; [apply W3|lia]|]. intros rg w4 (-> & Hlt & W4 & Es4).
  pose proof (wd_time _ _ _ _ W4). rewrite En3 in *. cbn [app]. change (zlen (@nil Z)) with 0.
  replace (0 <? 0) with false by lia. replace (need <=? 0) with false by lia. apply wp_bind.
  eapply wp_mono; [apply waited_ticks; [apply W4|lia]|]. intros t w5 (-> & En5 & W5 & Es5).
  rewrite u32_small by lia.
  assert (W : ∀ b, now w5 - st <= b → waited b [] w w5).
  { intros b Hb. pose proof (waited_quiet _ _ _ _ _ (waited_quiet _ _ _ _ _ (waited_quiet _ _ _ _ _ W2 W3) W4) W5) as [].
    constructor; try done. fold st. lia. }
  assert (Ews : w_s w5 = w_s w) by congruence.
  destruct (Z.leb_spec to (now w4 - st)); apply wp_ret.
  - split; [done|]. split; [lia|]. split; [apply W; lia|done].
  - split; [|right; lia]. split; [done|]. split; [apply W; lia|]. split; [lia|done].
Qed.

Lemma waited_to b w w' : ready w' → now w <= now w' <= now w + b → s_cfg (w_s w') = s_cfg (w_s w) →
  s_effective_packet_size (w_s w') = s_effective_packet_size (w_s w) → w_tr w' = w_tr w → waited b [] w w'.
Proof. intros. constructor; try done. by exists []. Qed.

(** A packet that does not come. *)
Lemma recv_packet_silent fuel to w : ready w → 0 < to → now w + to < 2 ^ 32 → to < Z.of_nat fuel →
  wpt (val_internal_recv_packet fuel DstNull to)
    (λ r w', r = (VAL_ERR_TIMEOUT, no_packet) ∧ now w < now w' ∧ waited to [] w w') w.
Proof.
  intros Hr Hto Hn Hf. unfold val_internal_recv_packet. apply wp_bind, wp_mod, wp_bind, wp_gets, wp_bind.
  unfold recv_into. set (w1 := mk_world _ _ _). assert (W1 : waited 0 [] w w1).
  { destruct Hr. apply waited_to; try done. unfold now. cbn. lia. }
  assert (En1 : now w1 = now w) by done.
  apply wp_bind. eapply wp_mono; [apply recv_full_silent; [apply W1|by cbv|lia|lia|lia]|].
  intros r w2 (-> & Hlt & W2 & Es). apply wp_bind, wp_mod, wp_ret.
  change (negb (VAL_ERR_TIMEOUT =? VAL_OK)) with true. cbv iota. unfold recv_failed.
  change (VAL_ERR_TIMEOUT =? VAL_ERR_IO) with false. cbv iota.
  apply wp_bind, wp_mod, wp_bind, wp_mod, wp_ret. split; [done|]. split; [cbn; unfold now in *; cbn in *; lia|].
  pose proof (waited_quiet _ _ _ _ _ W1 W2) as [[Hl Hc] Ht C M S]. constructor; try done.
Qed.

(** Polling until the deadline: one slice at least. *)
Lemma until_deadline_silent fuel timeout max scratch w : ready w → 0 <= timeout → 0 < max →
  now w + Z.max 1 timeout < 2 ^ 32 → Z.max max (timeout + 1) < Z.of_nat fuel →
  wpt (val_internal_recv_until_deadline fuel (now w + timeout) max scratch)
    (λ r w', r = (VAL_ERR_TIMEOUT, no_packet, scratch) ∧ now w < now w' ∧ waited (Z.max 1 timeout) [] w w') w.
Proof.
  intros Hr Ht Hm Hn Hf. unfold val_internal_recv_until_deadline.
  pose proof (sl_nonneg _ (proj1 Hr)) as H0. fold (now w) in H0. set (st := now w) in *.
  apply (wp_loop False (λ _ w', waited (now w' - st) [] w w' ∧ st <= now w' ∧ (now w' = st ∨ now w' < st + timeout))
           (λ _ w', Z.to_nat (st + timeout - now w'))).
  2:{ split; [apply (waited_le 0); [lia|by apply waited_refl]|]. fold st. lia. }
  2:{ right. fold st. lia. }
  intros [] w1 (W1 & Hge & Hlt). unfold recv_slice. apply wp_bind, wp_gets.
  pose proof (wd_ready _ _ _ _ W1) as [_ Hc].
  destruct (Z.eqb_spec (err_code (s_last_error (w_s w1))) VAL_ERR_ABORTED); [done|].
  apply wp_bind. eapply wp_mono; [apply waited_ticks; [apply W1|lia]|]. intros t w2 (-> & En2 & W2 & _). cbv zeta.
  set (rem := if now w1 <? st + timeout then _ else 0).
  set (sl0 := if max <? rem then max else rem). set (sl := if sl0 =? 0 then 1 else sl0).
  assert (Hsl : 0 < sl <= max ∧ (sl = 1 ∨ now w1 + sl <= st + timeout)).
  { unfold sl, sl0, rem. repeat case_match; lia. }
  clearbody sl. apply wp_bind. eapply wp_mono; [apply recv_packet_silent; [apply W2|lia|lia|lia]|].
  intros r w3 (-> & Hlt3 & W3).
  change (VAL_ERR_TIMEOUT =? VAL_OK) with false. change (VAL_ERR_TIMEOUT =? VAL_ERR_TIMEOUT) with true. cbn [negb andb].
  pose proof (wd_time _ _ _ _ W3) as Ht3. rewrite En2 in *. apply wp_bind.
  eapply wp_mono; [apply waited_ticks; [apply W3|lia]|]. intros t w4 (-> & En4 & W4 & _).
  assert (W : ∀ b, now w4 - st <= b → waited b [] w w4).
  { intros b Hb. pose proof (waited_quiet _ _ _ _ _ (waited_quiet _ _ _ _ _ (waited_quiet _ _ _ _ _ W1 W2) W3) W4) as [].
    constructor; try done. fold st. lia. }
  destruct (Z.leb_spec (st + timeout) (now w3)); apply wp_ret.
  - split; [done|]. split; [fold st; lia|]. apply W. lia.
  - split; [|right; lia]. split; [apply W; lia|]. lia.
Qed.

(** The state and the time of one backoff step. *)
Lemma backoff_step_waited b r w : ready w → 0 <= b → 0 < r < 2 ^ 8 →
  wpt (val_internal_backoff_step b r)
    (λ br w', snd br = r - 1 ∧ 0 <= fst br <= 4000 ∧ waited b [] w w' ∧ w_s w' = w_s w) w.
Proof.
  intros Hr Hb Hr8. unfold val_internal_backoff_step. replace (r =? 0) with false by lia. apply wp_bind.
  assert (Hd : wpt (if b =? 0 then mret tt else delay_ms b) (λ _ w', waited b [] w w' ∧ w_s w' = w_s w) w).
  { destruct (Z.eqb_spec b 0) as [->|]; [apply wp_ret; split; [by apply waited_refl|done]|]. apply wp_mod.
    destruct (sl_delay b (w_e w) (proj1 Hr)) as [Ho Hn]; [lia|]. split; [|done].
    constructor; [by split; [|apply Hr]|done|done|done|by exists [EvDelay b]]. }
  eapply wp_mono; [exact Hd|]. intros _ w' [W Es]. unfold backoff_step. replace (r =? 0) with false by lia.
  cbv zeta. apply wp_ret. cbn [fst snd]. unfold u8. rewrite Z.mod_small by lia.
  set (n := if b =? 0 then 0 else u32 (Z.shiftl b 1)).
  assert (0 <= n) by (unfold n; destruct (b =? 0); [lia|apply u32_range]).
  split; [done|]. split; [destruct (Z.ltb_spec 4000 n); lia|done].
Qed.

(** Totality and the session invariant together. *)
Lemma wpt_safe {A} (m : M (world E) A) Q w : safe (s_cfg (w_s w)) 0 m → session_ok (w_s w) → wpt m Q w →
  wpt m (λ a w', Q a w' ∧ session_ok (w_s w')) w.
Proof.
  intros Hs Hw Hm. specialize (Hs w Hw eq_refl). unfold wp in *.
  destruct (m w) as [[a w']|]; [|done]. split; [done|apply Hs].
Qed.

(** Bookkeeping: total, timeless and silent. *)
Definition steady {A} (m : M (world E) A) : Prop := ∀ w, session_ok (w_s w) → ready w →
  wpt m (λ _ w', session_ok (w_s w') ∧ waited 0 [] w w') w.
Lemma steady_ret {A} (a : A) : steady (mret a).
Proof. intros w Hs Hr. apply wp_ret. split; [done|by apply waited_refl]. Qed.
Lemma steady_upd f : (∀ c, safe (E:=E) c 0 (upd f)) → (∀ s, s_effective_packet_size (f s) = s_effective_packet_size s) →
  (∀ s, err_code (s_last_error s) ≠ VAL_ERR_ABORTED → err_code (s_last_error (f s)) ≠ VAL_ERR_ABORTED) → steady (upd f).
Proof.
  intros Hf Hm He w Hs [Hl Hc]. pose proof (Hf _ w Hs eq_refl) as (Ho & Ec & _). cbn in Ho, Ec.
  apply wp_mod. split; [done|]. constructor; [by split; [|apply He]|unfold now; cbn; lia|done|apply Hm|by exists []].
Qed.
Lemma steady_bind {A B} (m : M (world E) A) (k : A → M (world E) B) w (Q : B → world E → Prop) :
  steady m → session_ok (w_s w) → ready w →
  (∀ a w', session_ok (w_s w') → waited 0 [] w w' → wpt (k a) Q w') → wpt (mbind m k) Q w.
Proof. intros Hm Hs Hr Hk. apply wp_bind. eapply wp_mono; [by apply Hm|]. intros a w' [? ?]. by apply Hk. Qed.
Lemma steady_retry : steady VAL_HEALTH_RECORD_RETRY.
Proof.
  pose proof (λ c, safe_record_retry (E:=E) (c:=c)) as Hsafe. unfold VAL_HEALTH_RECORD_RETRY in *.
  destruct VAL_BUILD_DIAGNOSTICS; [by apply steady_upd|apply steady_ret].
Qed.
Lemma steady_retransmit b : steady (set_in_retransmit_flag b).
Proof. apply steady_upd; [intros; apply safe_set_in_retransmit|done|done]. Qed.
Lemma steady_metrics f : steady (upd_metrics f).
Proof. apply steady_upd; [intros; apply safe_upd_metrics|done|done]. Qed.
Lemma steady_error st d o : st ≠ VAL_ERR_ABORTED → steady (val_internal_set_last_error_full st d o).
Proof. intros. apply steady_upd; [intros; apply safe_set_error|done|done]. Qed.

(** ** The wait *)

(** The callback resends [fr], or fails to. *)
Definition resends (c : val_config_t) (f : on_timeout_fn) (fr : list Z) : Prop :=
  ∀ w, session_ok (w_s w) → s_cfg (w_s w) = c → ready w →
    wpt f (λ st w', session_ok (w_s w') ∧ ∃ frs, waited 0 frs w w' ∧
             (st = VAL_OK ∧ frs = [fr] ∨ st = VAL_ERR_IO ∧ (frs = [] ∨ frs = [fr]))) w.

Lemma control_round_silent fuel timeout accept f fr l w : session_ok (w_s w) → ready w →
  resends (s_cfg (w_s w)) f fr → 0 <= timeout → 0 <= wt_retries l < 2 ^ 8 → 0 <= wt_backoff l →
  now w + Z.max 1 timeout < 2 ^ 32 → Z.max 20 (timeout + 1) < Z.of_nat fuel →
  wpt (wait_control_body fuel timeout accept (Some f) l)
    (λ r w', session_ok (w_s w') ∧
       match r with
       | inl l' => wt_retries l' = wt_retries l - 1 ∧ 0 <= wt_retries l' ∧ 0 <= wt_backoff l' <= 4000 ∧
                   waited (Z.max 1 timeout + wt_backoff l) [fr] w w'
       | inr (st, _, _) => ∃ frs, waited (Z.max 1 timeout) frs w w' ∧
           (st = VAL_ERR_TIMEOUT ∧ wt_retries l = 0 ∧ frs = [] ∨
            st = VAL_ERR_IO ∧ 0 < wt_retries l ∧ (frs = [] ∨ frs = [fr]))
       end) w.
Proof.
  intros Hs Hr Hf Ht Hre Hb Hn Hfuel. unfold wait_control_body. apply wp_bind, wp_gets.
  destruct (Z.eqb_spec (err_code (s_last_error (w_s w))) VAL_ERR_ABORTED); [by destruct Hr|].
  pose proof (sl_nonneg _ (proj1 Hr)) as H0. fold (now w) in H0.
  apply wp_bind. eapply wp_mono; [apply waited_ticks; [done|lia]|]. intros t w1 (-> & En1 & W1 & Es1).
  cbv zeta. rewrite u32_small by lia. rewrite <- En1. apply wp_bind.
  eapply wp_mono; [apply wpt_safe; [apply safe_recv_until_deadline|by rewrite Es1|
    apply until_deadline_silent; [apply W1|lia|lia|lia|lia]]|].
  intros r w2 [(-> & _ & W2) Hs2]. pose proof (waited_quiet _ _ _ _ _ W1 W2) as W.
  change (VAL_ERR_TIMEOUT =? VAL_ERR_ABORTED) with false. change (VAL_ERR_TIMEOUT =? VAL_OK) with false.
  change (VAL_ERR_TIMEOUT =? VAL_ERR_TIMEOUT) with true. cbn [negb andb orb].
  destruct (Z.eqb_spec (wt_retries l) 0).
  - eapply steady_bind; [by apply steady_error|done|apply W|]. intros _ w3 Hs3 W3.
    eapply steady_bind; [apply steady_metrics|done|apply W3|]. intros _ w4 Hs4 W4. apply wp_ret.
    split; [done|]. exists []. split; [|by left].
    eapply waited_le; [|exact (waited_quiet _ _ _ _ _ (waited_quiet _ _ _ _ _ W W3) W4)]. lia.
  - eapply steady_bind; [apply steady_retransmit|done|apply W|]. intros _ w3 Hs3 W3.
    eapply steady_bind; [apply steady_metrics|done|apply W3|]. intros _ w4 Hs4 W4.
    eapply steady_bind; [apply steady_retry|done|apply W4|]. intros _ w5 Hs5 W5.
    pose proof (waited_quiet _ _ _ _ _ (waited_quiet _ _ _ _ _ (waited_quiet _ _ _ _ _ W W3) W4) W5) as W'.
    apply wp_bind. eapply wp_mono; [apply (Hf w5 Hs5); [apply W'|apply W']|].
    intros rs w6 (Hs6 & frs & W6 & Hrs). pose proof (waited_trans _ _ _ _ _ _ _ W' W6) as W7. rewrite app_nil_r in W7.
    destruct Hrs as [[-> ->]|[-> Hfrs]].
    + change (negb (VAL_OK =? VAL_OK)) with false. cbv iota. apply wp_bind.
      eapply wp_mono; [apply wpt_safe; [apply safe_backoff_step|done|
        apply (backoff_step_waited (wt_backoff l) (wt_retries l)); [apply W7|lia|lia]]|].
      intros [b r] w8 [(Er & Hb8 & W8 & _) Hs8]. cbn [fst snd] in *. apply wp_ret. split; [done|]. cbn.
      split; [done|]. split; [lia|]. split; [done|].
      eapply waited_le; [|exact (waited_trans _ _ _ _ _ _ _ W7 W8)]. lia.
    + change (negb (VAL_ERR_IO =? VAL_OK)) with true. apply wp_ret. split; [done|]. exists frs.
      split; [|right; split; [done|split; [lia|done]]]. eapply waited_le; [|exact W7]. lia.
Qed.

(** How a wait on a silent link ends: the time it takes at most and what it resends. *)
Definition gives_up (bound : Z) (r : nat) (fr : list Z) (w : world E) (st : Z) (w' : world E) : Prop :=
  ∃ k, waited bound (replicate k fr) w w' ∧
    (st = VAL_ERR_TIMEOUT ∧ k = r ∨ st = VAL_ERR_IO ∧ (k <= r)%nat).

(** The time for [r] retries of a timeout each, the first after a backoff of [b]. *)
Definition patience (timeout b r : Z) : Z := (r + 1) * Z.max 1 timeout + r * Z.max b 4000.

Lemma wait_control_silent fuel timeout r b scratch accept f fr w : session_ok (w_s w) → ready w →
  resends (s_cfg (w_s w)) f fr → 0 <= timeout → 0 <= r < 2 ^ 8 → 0 <= b →
  now w + patience timeout b r < 2 ^ 32 → Z.max 20 (timeout + 1) < Z.of_nat fuel → r < Z.of_nat fuel →
  wpt (val_internal_wait_control fuel timeout r b scratch accept (Some f))
    (λ res w', session_ok (w_s w') ∧ gives_up (patience timeout b r) (Z.to_nat r) fr w (fst (fst res)) w') w.
Proof.
  intros Hs Hr Hf Ht Hre Hb Hn Hfuel Hfr. unfold val_internal_wait_control, gives_up, patience in *. cbv zeta.
  set (M := Z.max 1 timeout) in *. set (B := Z.max b 4000) in *.
  eapply steady_bind; [apply steady_retransmit|done|done|]. intros _ w1 Hs1 W1.
  apply (wp_loop False (λ l w', ∃ k, (Z.of_nat k + wt_retries l = r) ∧ 0 <= wt_retries l ∧ 0 <= wt_backoff l <= B ∧
           session_ok (w_s w') ∧ waited (Z.of_nat k * (M + B)) (replicate k fr) w w')
           (λ l _, Z.to_nat (wt_retries l))).
  2:{ exists O. cbn. split; [lia|]. split; [lia|]. split; [lia|]. by split. }
  2:{ right. cbn. lia. }
  intros l w2 (k & Ek & Hrl & Hbl & Hs2 & W2).
  pose proof (wd_time _ _ _ _ W2) as Ht2. assert (Hk : 0 <= Z.of_nat k <= r) by lia.
  assert (Hnow : now w2 + M <= now w + ((r + 1) * M + r * B)) by nia.
  eapply wp_mono; [apply control_round_silent; try done; [apply W2|by rewrite (wd_cfg _ _ _ _ W2)|lia|lia|fold M; lia]|].
  intros res w3 [Hs3 Hres]. destruct res as [l'|[[st p] sc]].
  - destruct Hres as (El & H0 & Hb' & W3). fold M in W3. split; [|right; lia]. exists (S k).
    split; [lia|]. split; [lia|]. split; [lia|]. split; [done|].
    pose proof (waited_trans _ _ _ _ _ _ _ W2 W3) as W. eapply waited_le; [|exact W]. nia.
  - destruct Hres as (frs & W3 & Hst). fold M in W3. split; [done|]. cbn [fst].
    pose proof (waited_trans _ _ _ _ _ _ _ W2 W3) as W.
    assert (Hle : Z.of_nat k * (M + B) + M <= (r + 1) * M + r * B) by nia. apply (waited_le _ _ _ _ _ Hle) in W.
    destruct Hst as [(-> & E0 & ->)|(-> & Hp & [-> | ->])].
    + exists k. split; [done|]. left. split; [done|lia].
    + exists k. split; [done|]. right. split; [done|lia].
    + exists (S k). split; [done|]. right. split; [done|lia].
Qed.

(** ** DONE and EOT *)

Lemma send_resends type off w : session_ok (w_s w) → ready w → type = VAL_PKT_DONE ∨ type = VAL_PKT_EOT →
  wpt (val_internal_send_packet type PNull 0 off)
    (λ st w', session_ok (w_s w') ∧ ∃ frs, waited 0 frs w w' ∧
       (st = VAL_OK ∧ frs = [session_frame (w_s w) type [] off true] ∨
        st = VAL_ERR_IO ∧ (frs = [] ∨ frs = [session_frame (w_s w) type [] off true]))) w.
Proof.
  intros Hs Hr Hty. pose proof (session_mtu_range _ Hs).
  assert (Ect : content_of type [] off true = []) by (by destruct Hty as [-> | ->]).
  eapply wp_mono; [apply wpt_safe; [apply safe_send_ctrl|done|apply (send_waited type PNull 0 []); try done]|].
  - rewrite Ect. change (zlen (@nil Z)) with 0. lia.
  - by rewrite Ect.
  - by destruct Hty as [-> | ->].
  - intros st w' [(Hst & frs & W & Hf) Hs']. split; [done|]. exists frs. split; [done|].
    destruct Hf as [->|[-> ->]]; [|right; by split; [|left]]. destruct Hst as [->| ->]; [by left|right; split; [done|by right]].
Qed.
Lemma frame_of_cfg s s' type data off incl : s_cfg s' = s_cfg s →
  session_frame (E:=E) s' type data off incl = session_frame (E:=E) s type data off incl.
Proof. intros Ec. unfold session_frame, val_internal_crc32. by rewrite Ec. Qed.

Lemma done_resends s n : resends (s_cfg s) (retry_send_done_cb n) (session_frame s VAL_PKT_DONE [] n true).
Proof.
  intros w Hs Ec Hr. unfold retry_send_done_cb.
  eapply steady_bind; [|done|done|].
  - apply steady_upd; [intros; apply safe_record_error| |];
      intros s0; unfold record_transmission_error; cbv zeta; repeat case_match; done.
  - intros _ w1 Hs1 W1. eapply wp_mono; [apply send_resends; [done|apply W1|by left]|].
    intros st w2 (Hs2 & frs & W2 & Hst). split; [done|]. exists frs.
    rewrite (frame_of_cfg s) in Hst by (by rewrite (wd_cfg _ _ _ _ W1)).
    split; [|done]. pose proof (waited_trans _ _ _ _ _ _ _ W1 W2) as W. by rewrite app_nil_r in W.
Qed.
Lemma eot_resends s : resends (s_cfg s) retry_send_eot_cb (session_frame s VAL_PKT_EOT [] 0 true).
Proof.
  intros w Hs Ec Hr. eapply wp_mono; [apply send_resends; [done|done|by right]|].
  intros st w2 (Hs2 & frs & W2 & Hst). split; [done|]. exists frs. by rewrite (frame_of_cfg s) in Hst.
Qed.
End waits.

Section acknowledged.
Context {E : Type} `{!Hooks E} `{!SilentLink E} `{!BuildOptions}.

Lemma sample_rtt_failed st t0 (w : world E) Q : st ≠ VAL_OK → Q tt w → wpt (sample_rtt st t0) Q w.
Proof.
  intros Hst HQ. unfold sample_rtt. apply wp_bind, wp_gets. destruct (Z.eqb_spec st VAL_OK); [done|]. by apply wp_ret.
Qed.

Lemma wait_acked_silent fuel op accept f fr w : session_ok (w_s w) → ready w →
  let c := s_cfg (w_s w) in let to := timeout_of (s_timing (w_s w)) op in
  resends c f fr →
  now w + patience to (cfg_backoff_ms_base c) (cfg_ack_retries c) < 2 ^ 32 →
  Z.max 255 (to + 20) < Z.of_nat fuel →
  wpt (let! to := val_internal_get_timeout op in
       let! s := get_s in
       let! t0 := get_ticks_ms in
       let! ' (st, _, _) := val_internal_wait_control fuel to (cfg_ack_retries (s_cfg s))
         (cfg_backoff_ms_base (s_cfg s)) (Some (local_array 32)) accept (Some f) in
       do! sample_rtt st t0 in
       mret st)
    (gives_up (patience to (cfg_backoff_ms_base c) (cfg_ack_retries c)) (Z.to_nat (cfg_ack_retries c)) fr w) w.
Proof.
  intros Hs Hr c to Hf Hn Hfuel. pose proof (cok_ack _ (sok_cfg _ Hs)) as Hre.
  pose proof (cok_backoff _ (sok_cfg _ Hs)) as Hb. unfold u8_ok', u32_ok in Hre, Hb. fold c in Hre, Hb. apply wp_bind, wp_gets, wp_bind, wp_gets, wp_bind. fold to c.
  pose proof (timeout_of_range (s_timing (w_s w)) op (sok_timing _ Hs)) as Hto. fold to in Hto.
  assert (0 <= patience to (cfg_backoff_ms_base c) (cfg_ack_retries c)) by (unfold patience; nia).
  eapply wp_mono; [apply waited_ticks; [done|lia]|]. intros t0 w1 (-> & En & W1 & Es). apply wp_bind.
  eapply wp_mono; [apply (wait_control_silent fuel to _ _ _ _ f fr); try done; try lia; try (by rewrite Es); apply W1|].
  intros [[st p] sc] w2 [Hs2 (k & W2 & Hst)]. cbn [fst] in Hst. apply wp_bind.
  apply sample_rtt_failed; [by destruct Hst as [[-> _]|[-> _]]|]. apply wp_ret. exists k. split; [|done].
  pose proof (waited_trans _ _ _ _ _ _ _ W1 W2) as W. by rewrite app_nil_r in W.
Qed.
End acknowledged.

(** C23: a peer that has gone silent is given up in bounded time. On a link that delivers
    nothing, waiting for the acknowledgement of DONE or of EOT returns - it never hangs -
    after at most one timeout per try and one backoff of at most four seconds (or the
    configured base) between tries; it has then resent the DONE or the EOT exactly
    [ack_retries] times and reports VAL_ERR_TIMEOUT, unless a resend failed, which ends
    the wait with VAL_ERR_IO. *)
Theorem silent_peer_given_up {E} `{!Hooks E} `{!SilentLink E} `{!BuildOptions} fuel size (w : world E) :
  session_ok (w_s w) → ready w →
  let s := w_s w in let c := s_cfg s in let r := cfg_ack_retries c in let b := cfg_backoff_ms_base c in
  let bound op := patience (timeout_of (s_timing s) op) b r in
  (∀ op, now w + bound op < 2 ^ 32 ∧ Z.max 255 (timeout_of (s_timing s) op + 20) < Z.of_nat fuel) →
  wpt (val_internal_wait_done_ack fuel size)
    (gives_up (bound VAL_OP_DONE_ACK) (Z.to_nat r) (session_frame s VAL_PKT_DONE [] size true) w) w ∧
  wpt (val_internal_wait_eot_ack fuel)
    (gives_up (bound VAL_OP_EOT_ACK) (Z.to_nat r) (session_frame s VAL_PKT_EOT [] 0 true) w) w.
Proof.
  intros Hs Hr s c r b bound Hop. split; (apply wait_acked_silent; [done|done| |apply Hop|apply Hop]).
  - apply done_resends.
  - apply eot_resends.
Qed.

(** Three retries from 10 ms, each after a timeout of two seconds. *)
Definition silent_run : option (Z * world sim) := val_internal_wait_done_ack 2100 992 (demo_w []).
Lemma silent_peer_given_up_witness :
  match silent_run with
  | Some (st, w') => st = VAL_ERR_TIMEOUT ∧ sim_now (w_e w') = 9070 ∧ length (sent_frames w') = 3%nat ∧
      gives_up 20000 3 (session_frame (E:=sim) demo_s VAL_PKT_DONE [] 992 true) (demo_w []) st w'
  | None => False
  end.
Proof.
  assert (Hrun : match silent_run with
                 | Some (st, w') => st = VAL_ERR_TIMEOUT ∧ sim_now (w_e w') = 9070 ∧ length (sent_frames w') = 3%nat
                 | None => False end) by (vm_compute; repeat split).
  assert (Hbound : ∀ op : val_operation_type_t,
    now (demo_w []) + patience (timeout_of (s_timing demo_s) op) (cfg_backoff_ms_base (s_cfg demo_s)) 3 < 2 ^ 32 ∧
    Z.max 255 (timeout_of (s_timing demo_s) op + 20) < Z.of_nat 2100) by (intros []; split; by vm_compute).
  assert (Hready : ready (demo_w [])) by (split; [split; vm_compute; [reflexivity|discriminate]|vm_compute; discriminate]).
  pose proof (wpp_result _ _ _ silent_run
    (wpt_wpp _ _ _ (proj1 (silent_peer_given_up 2100 992 (demo_w []) demo_s_ok Hready Hbound))) eq_refl) as Hw.
  clear Hready Hbound; destruct silent_run as [[st w']|]; [|destruct Hrun].
  destruct Hrun as (E1 & E2 & E3). split; [exact E1|]. split; [exact E2|]. split; [exact E3|]. exact Hw.
Defined.
