(* ===== verification/Handshake.v ===== *)
(** The HELLO handshake ([src/val_core.c]: [val__adopt_peer_hello],
    [val_internal_validate_local_features], [val_internal_do_handshake_sender],
    [val_internal_do_handshake_receiver]).

    The sender repeats its HELLO, paced, until the receiver's arrives or the budget
    is used up; the receiver waits for one and answers it.  Each side adopts the
    other's packet size and window limits. *)
From S2P Require Import Prelude ByteOrder Wire Errors Timing Session Simulation Window Packet Frame Control.

Section handshake.
Context {E : Type} `{!Hooks E} `{!BuildOptions}.

(** ** Adopting the peer's HELLO *)

(** The window fields that a HELLO fixes. *)
Definition adopt_window (peer_h : val_handshake_t) (s : val_session_t) : val_session_t :=
  let c := s_cfg s in
  let local_desired := if cfg_window_cap_packets c =? 0 then 4 else cfg_window_cap_packets c in
  let peer_rx_cap := if hs_rx_max_window_packets peer_h =? 0 then 1 else hs_rx_max_window_packets peer_h in
  let peer_tx_cap := if hs_tx_max_window_packets peer_h =? 0 then 1 else hs_tx_max_window_packets peer_h in
  let negotiated_window := if local_desired <? peer_rx_cap then local_desired else peer_rx_cap in
  let negotiated_window := if negotiated_window =? 0 then 1 else negotiated_window in
  let cw :=
    if negb (cfg_initial_cwnd_packets c =? 0) then
      let cw0 := cfg_initial_cwnd_packets c in
      let cw0 := if cw0 <? 1 then 1 else cw0 in
      if negotiated_window <? cw0 then negotiated_window else cw0
    else if 4 <=? negotiated_window then 4 else negotiated_window in
  s <| s_peer_tx_window_packets := peer_tx_cap |>
    <| s_negotiated_window_packets := negotiated_window |>
    <| s_current_window_packets := cw |>
    <| s_ack_stride_packets := 1 |>.

Definition val__adopt_peer_hello (peer_h : val_handshake_t) : M (world E) Z :=
  if negb (hs_magic peer_h =? VAL_MAGIC) then
    do! VAL_SET_PROTOCOL_ERROR VAL_ERROR_DETAIL_MALFORMED_PKT in mret VAL_ERR_PROTOCOL
  else if negb (hs_version_major peer_h =? VAL_VERSION_MAJOR) then
    do! val_internal_set_error_detailed VAL_ERR_INCOMPATIBLE_VERSION VAL_ERROR_DETAIL_VERSION in
    mret VAL_ERR_INCOMPATIBLE_VERSION
  else
    let! s := get_s in
    let negotiated := if hs_packet_size peer_h <? cfg_packet_size (s_cfg s)
                      then hs_packet_size peer_h else cfg_packet_size (s_cfg s) in
    if (negotiated <? VAL_MIN_PACKET_SIZE) || (VAL_MAX_PACKET_SIZE <? negotiated) then
      do! val_internal_set_error_detailed VAL_ERR_PACKET_SIZE_MISMATCH VAL_ERROR_DETAIL_PACKET_SIZE in
      mret VAL_ERR_PACKET_SIZE_MISMATCH
    else
      do! upd (λ s, s <| s_effective_packet_size := negotiated |>
                      <| s_peer_features := hs_features peer_h |>) in
      let negotiable := val__negotiable_mask in
      let local_required := Z.land (cfg_required (s_cfg s)) negotiable in
      let missing_on_peer := Z.land local_required (u32 (Z.lnot (hs_features peer_h))) in
      if negb (missing_on_peer =? 0) then
        do! VAL_SET_FEATURE_ERROR missing_on_peer in
        let! _ := val_internal_send_error VAL_ERR_FEATURE_NEGOTIATION (VAL_SET_MISSING_FEATURE missing_on_peer) in
        mret VAL_ERR_FEATURE_NEGOTIATION
      else
        do! upd (adopt_window peer_h) in
        mret VAL_OK.

Definition val_internal_validate_local_features (cfg : val_config_t) : Z * Z :=
  let negotiable := val__negotiable_mask in
  let required_sanitized := Z.land (cfg_required cfg) negotiable in
  let missing_required := Z.land required_sanitized (u32 (Z.lnot negotiable)) in
  if negb (missing_required =? 0) then (VAL_ERR_FEATURE_NEGOTIATION, 0)
  else (VAL_OK, Z.land (cfg_requested cfg) negotiable).

(** ** The sender's side *)

(** The deadline of one wait of the handshake. *)
Definition handshake_deadline (now base_to : Z) : Z :=
  if negb (now =? 0) && negb (base_to =? 0) then
    let deadline := u32 (now + base_to) in
    if deadline <? now then UINT32_MAX else deadline
  else base_to.

Record hs_state := mk_hs { hst_backoff : Z; hst_retries : Z; hst_last_send : Z }.

Definition hello_timeout : M (world E) Z :=
  do! VAL_SET_TIMEOUT_ERROR VAL_ERROR_DETAIL_TIMEOUT_HELLO in
  do! val_metrics_inc_timeout_hard in
  mret VAL_ERR_TIMEOUT.

Definition handshake_done : M (world E) unit :=
  do! upd (λ s, s <| s_handshake_done := true |>) in val_metrics_note_handshake.

(** The paced resend after a slice without an answer. *)
Definition hello_resend (hello_wire : list Z) (min_resend_ms now : Z) (l : hs_state)
    : M (world E) (hs_state + Z) :=
  if 0 <? hst_retries l then
    if (now =? 0) || (min_resend_ms <=? u32 (now - hst_last_send l)) then
      do! set_in_retransmit_flag true in
      do! val_metrics_inc_retrans in
      do! VAL_HEALTH_RECORD_RETRY in
      let! rs := val_internal_send_packet VAL_PKT_HELLO (PBytes hello_wire) VAL_WIRE_HANDSHAKE_SIZE 0 in
      if negb (rs =? VAL_OK) then mret (inr rs)
      else
        let! ' (b, r) := val_internal_backoff_step (hst_backoff l) (hst_retries l) in
        mret (inl (mk_hs b r now))
    else
      do! delay_ms (u32 (min_resend_ms - u32 (now - hst_last_send l))) in
      mret (inl l)
  else
    do! delay_ms 10 in
    mret (inl l).

Definition handshake_sender_body (fuel : nat) (hello_wire : list Z)
    (global_deadline base_to min_resend_ms : Z) (l : hs_state) : M (world E) (hs_state + Z) :=
  let! cancelled := val_check_for_cancel in
  if (cancelled : bool) then mret (inr VAL_ERR_ABORTED)
  else
    let! now := get_ticks_ms in
    let deadline := handshake_deadline now base_to in
    let! ' (wr, pkt, buf) := val_internal_recv_until_deadline fuel deadline 20
                               (local_array VAL_WIRE_HANDSHAKE_SIZE) in
    if wr =? VAL_OK then
      if pkt_type pkt =? VAL_PKT_CANCEL then mret (inr VAL_ERR_ABORTED)
      else if pkt_type pkt =? VAL_PKT_ERROR then mret (inr VAL_ERR_PROTOCOL)
      else
        let! a := accept_hello_cb (pkt_type pkt) (pkt_len pkt) in
        if 0 <? a then
          let! adopt := val__adopt_peer_hello (val_deserialize_handshake buf) in
          if negb (adopt =? VAL_OK) then mret (inr adopt)
          else do! handshake_done in mret (inr VAL_OK)
        else mret (inl l)
    else if negb (wr =? VAL_ERR_TIMEOUT) && negb (wr =? VAL_ERR_CRC) then mret (inr wr)
    else if negb (global_deadline =? 0) && (global_deadline <=? now) then
      let! r := hello_timeout in mret (inr r)
    else hello_resend hello_wire min_resend_ms now l.

Definition val_internal_do_handshake_sender (fuel : nat) : M (world E) Z :=
  let! s := get_s in
  if s_handshake_done s then mret VAL_OK
  else
    let '(vr, _) := val_internal_validate_local_features (s_cfg s) in
    if negb (vr =? VAL_OK) then
      let missing_required := Z.land (cfg_required (s_cfg s)) (u32 (Z.lnot VAL_BUILTIN_FEATURES)) in
      do! (if negb (missing_required =? 0) then VAL_SET_FEATURE_ERROR missing_required else mret tt) in
      mret vr
    else
      let hello_wire := val_serialize_handshake (val__fill_local_hello s (cfg_packet_size (s_cfg s))) in
      let! now0 := get_ticks_ms in
      let budget := if cfg_handshake_budget_ms (s_cfg s) =? 0 then 7000 else cfg_handshake_budget_ms (s_cfg s) in
      let global_deadline := if now0 =? 0 then 0 else u32 (now0 + budget) in
      let! base_to := val_internal_get_timeout VAL_OP_HANDSHAKE in
      let min_to := if cfg_min_timeout_ms (s_cfg s) =? 0 then 200 else cfg_min_timeout_ms (s_cfg s) in
      let min_resend_ms := min_to / 2 in
      let min_resend_ms := if min_resend_ms <? 200 then 200 else min_resend_ms in
      let min_resend_ms := if 500 <? min_resend_ms then 500 else min_resend_ms in
      let! st := val_internal_send_packet VAL_PKT_HELLO (PBytes hello_wire) VAL_WIRE_HANDSHAKE_SIZE 0 in
      if negb (st =? VAL_OK) then mret st
      else
        let! last_send := get_ticks_ms in
        loop fuel (handshake_sender_body fuel hello_wire global_deadline base_to min_resend_ms)
          (mk_hs (cfg_backoff_ms_base (s_cfg s)) (cfg_handshake_retries (s_cfg s)) last_send).

(** ** The receiver's side *)

(** One turn of the receiver's wait; [inr (inr wire)] is the accepted HELLO. *)
Definition handshake_receiver_body (fuel : nat) (global_deadline base_to : Z) (peer_wire : list Z)
    : M (world E) (list Z + (Z + list Z)) :=
  let! cancelled := val_check_for_cancel in
  if (cancelled : bool) then mret (inr (inl VAL_ERR_ABORTED))
  else
    let! now := get_ticks_ms in
    let deadline := handshake_deadline now base_to in
    let! ' (wr, pkt, peer_wire) := val_internal_recv_until_deadline fuel deadline 20 peer_wire in
    if wr =? VAL_OK then
      if pkt_type pkt =? VAL_PKT_CANCEL then mret (inr (inl VAL_ERR_ABORTED))
      else if pkt_type pkt =? VAL_PKT_ERROR then mret (inr (inl VAL_ERR_PROTOCOL))
      else
        let! a := accept_hello_rx_cb (pkt_type pkt) (pkt_len pkt) in
        if 0 <? a then mret (inr (inr peer_wire)) else mret (inl peer_wire)
    else if negb (wr =? VAL_ERR_TIMEOUT) && negb (wr =? VAL_ERR_CRC) then mret (inr (inl wr))
    else if negb (global_deadline =? 0) && (global_deadline <=? now) then
      let! r := hello_timeout in mret (inr (inl r))
    else
      do! delay_ms 10 in
      mret (inl peer_wire).

(** What the receiver does with the HELLO it got. *)
Definition answer_hello (peer_h : val_handshake_t) : M (world E) Z :=
  if negb (hs_magic peer_h =? VAL_MAGIC) then
    do! VAL_SET_PROTOCOL_ERROR VAL_ERROR_DETAIL_MALFORMED_PKT in mret VAL_ERR_PROTOCOL
  else if negb (hs_version_major peer_h =? VAL_VERSION_MAJOR) then
    do! val_internal_set_error_detailed VAL_ERR_INCOMPATIBLE_VERSION VAL_ERROR_DETAIL_VERSION in
    mret VAL_ERR_INCOMPATIBLE_VERSION
  else
    let! adopt := val__adopt_peer_hello peer_h in
    if negb (adopt =? VAL_OK) then mret adopt
    else
      let! s := get_s in
      let hello := val__fill_local_hello s (s_effective_packet_size s) in
      do! upd (λ s, s <| s_peer_features := hs_features peer_h |>) in
      let missing_local := Z.land (Z.land (hs_required peer_h) val__negotiable_mask) (u32 (Z.lnot (hs_features hello))) in
      if negb (missing_local =? 0) then
        do! VAL_SET_FEATURE_ERROR missing_local in
        let! _ := val_internal_send_error VAL_ERR_FEATURE_NEGOTIATION (VAL_SET_MISSING_FEATURE missing_local) in
        mret VAL_ERR_FEATURE_NEGOTIATION
      else
        let! st := val_internal_send_packet VAL_PKT_HELLO (PBytes (val_serialize_handshake hello))
                     VAL_WIRE_HANDSHAKE_SIZE 0 in
        do! (if st =? VAL_OK then handshake_done else mret tt) in
        mret st.

Definition val_internal_do_handshake_receiver (fuel : nat) : M (world E) Z :=
  let! s := get_s in
  if s_handshake_done s then mret VAL_OK
  else
    let! now0 := get_ticks_ms in
    let budget := if cfg_handshake_budget_ms (s_cfg s) =? 0 then 7000 else cfg_handshake_budget_ms (s_cfg s) in
    let global_deadline := if now0 =? 0 then 0 else u32 (now0 + budget) in
    let! base_to := val_internal_get_timeout VAL_OP_HANDSHAKE in
    let! r := loop fuel (handshake_receiver_body fuel global_deadline base_to)
                (local_array VAL_WIRE_HANDSHAKE_SIZE) in
    match r with
    | inl st => mret st
    | inr peer_wire => answer_hello (val_deserialize_handshake peer_wire)
    end.

End handshake.

(** ** What the handshake keeps *)

(** Both window bounds hold whatever the peer announces. *)
Lemma adopt_window_ok peer_h s : session_ok s → 0 <= hs_rx_max_window_packets peer_h →
  stable 0 s (adopt_window peer_h s).
Proof.
  intros H Hp. pose proof (cok_wcap _ (sok_cfg s H)) as Hw. pose proof (cok_cwnd _ (sok_cfg s H)) as Hcw.
  unfold u16_ok in *. split; [|repeat split; cbn; lia].
  destruct H. constructor; try done; cbn; unfold u16_ok; repeat case_match; lia.
Qed.

Section handshake_safe.
Context {E : Type} `{!Hooks E} `{!BuildOptions} {c : val_config_t}.

Lemma safe_adopt peer_h : 0 <= hs_rx_max_window_packets peer_h →
  safe c 0 (val__adopt_peer_hello peer_h).
Proof.
  intros Hp. unfold val__adopt_peer_hello.
  destruct (negb _); [safe_auto|]. destruct (negb _); [safe_auto|].
  apply safe_get_bind. intros s Hs Hc. cbv zeta. rewrite Hc.
  set (n := if _ <? _ then _ else _).
  destruct (_ || _) eqn:En; [safe_auto|].
  apply safe_bind0.
  { apply safe_upd. intros s' Hs' Hc'. split; [|repeat split; cbn; lia].
    destruct Hs'. constructor; try done. cbn. rewrite Hc'.
    assert (n <= cfg_packet_size c) by (unfold n; case_match; lia). lia. }
  intros _. destruct (negb _); [safe_auto|].
  apply safe_bind0; [|intros _; safe_auto].
  apply safe_upd. intros s' Hs' _. by apply adopt_window_ok.
Qed.
Lemma safe_handshake_done : safe (E:=E) c 0 handshake_done.
Proof. unfold handshake_done. apply safe_bind0; [benign|intros _; apply safe_upd_metrics]. Qed.
Lemma safe_hello_timeout : safe (E:=E) c 0 hello_timeout.
Proof. unfold hello_timeout. safe_auto. Qed.
Hint Resolve safe_handshake_done safe_hello_timeout : safe.

Lemma safe_hello_resend wire m now l : safe c 0 (hello_resend wire m now l).
Proof. unfold hello_resend. safe_auto. Qed.
Hint Resolve safe_hello_resend : safe.

Lemma local_array_ok n : bytes_ok (local_array n).
Proof. unfold local_array. auto with val. Qed.
Lemma safe_sender_body fuel wire g b m l : safe c 0 (handshake_sender_body fuel wire g b m l).
Proof.
  unfold handshake_sender_body. apply safe_bind0; [safe_auto|intros cancelled].
  destruct cancelled; [safe_auto|]. apply safe_bind0; [safe_auto|intros now].
  eapply safe_bind_post; [apply recv_until_deadline_bytes, local_array_ok|].
  intros [[wr pkt] buf] Hb. cbn [snd] in Hb.
  assert (Ha : safe c 0 (val__adopt_peer_hello (val_deserialize_handshake buf))).
  { apply safe_adopt. apply get_le16_nonneg. by apply bytes_ok_zdrop. }
  safe_auto.
Qed.
Hint Resolve safe_sender_body : safe.
Lemma safe_handshake_sender fuel : safe c 0 (val_internal_do_handshake_sender fuel).
Proof. unfold val_internal_do_handshake_sender. safe_auto. Qed.

Lemma receiver_body_bytes fuel g b wire : bytes_ok wire →
  safe_post c 0 (handshake_receiver_body fuel g b wire)
    (λ r, match r with inl w => bytes_ok w | inr (inr w) => bytes_ok w | _ => True end).
Proof.
  intros Hb. unfold handshake_receiver_body. apply safe_post_bind0; [safe_auto|intros cancelled].
  destruct cancelled; [by apply safe_post_ret|]. apply safe_post_bind0; [safe_auto|intros now].
  eapply safe_post_bind1; [by apply recv_until_deadline_bytes|].
  intros [[wr pkt] buf] Hb'. cbn [snd] in Hb'.
  destruct (wr =? VAL_OK).
  - destruct (_ =? _); [by apply safe_post_ret|]. destruct (_ =? _); [by apply safe_post_ret|].
    apply safe_post_bind0; [safe_auto|intros a]. destruct (0 <? a); by apply safe_post_ret.
  - destruct (_ && _); [by apply safe_post_ret|]. destruct (_ && _).
    + apply safe_post_bind0; [safe_auto|intros r]. by apply safe_post_ret.
    + apply safe_post_bind0; [safe_auto|intros r]. by apply safe_post_ret.
Qed.
Lemma safe_answer_hello h : 0 <= hs_rx_max_window_packets h → safe c 0 (answer_hello h).
Proof.
  intros Hh. unfold answer_hello. pose proof (safe_adopt h Hh) as Ha.
  destruct (negb _); [safe_auto|]. destruct (negb _); [safe_auto|].
  apply safe_bind0; [done|intros adopt]. destruct (negb _); [safe_auto|].
  apply safe_get_bind. intros s Hs Hc. cbv zeta.
  apply safe_bind0; [benign|intros _]. safe_auto.
Qed.
Lemma safe_handshake_receiver fuel : safe c 0 (val_internal_do_handshake_receiver fuel).
Proof.
  unfold val_internal_do_handshake_receiver. apply safe_get_bind. intros s Hs Hc.
  destruct (s_handshake_done s); [safe_auto|].
  apply safe_bind0; [safe_auto|intros now0]. apply safe_bind0; [safe_auto|intros to].
  eapply safe_bind_post.
  { apply (safe_post_loop _ _ _ bytes_ok _ (local_array_ok _)).
    apply (λ l Hl, receiver_body_bytes fuel _ _ l Hl). }
  intros [st|wire] Hb; cbn in Hb; [safe_auto|]. apply safe_answer_hello.
  apply get_le16_nonneg. by apply bytes_ok_zdrop.
Qed.
End handshake_safe.
#[export] Hint Resolve safe_handshake_sender safe_handshake_receiver : safe.

(** ** What a HELLO is worth *)

(** The outcome of [val__adopt_peer_hello] as a function of the two sides. *)
Definition adopted_size (h : val_handshake_t) (s : val_session_t) : Z :=
  Z.min (hs_packet_size h) (cfg_packet_size (s_cfg s)).
Definition adopt_status (h : val_handshake_t) (s : val_session_t) : Z :=
  if negb (hs_magic h =? VAL_MAGIC) then VAL_ERR_PROTOCOL
  else if negb (hs_version_major h =? VAL_VERSION_MAJOR) then VAL_ERR_INCOMPATIBLE_VERSION
  else if (512 <=? adopted_size h s) && (adopted_size h s <=? 2097152) then VAL_OK
  else VAL_ERR_PACKET_SIZE_MISMATCH.
(** The send window agreed on: our wish (0 stands for 4) within the peer's limit
    (0 stands for 1). *)
Definition window_wish (s : val_session_t) : Z :=
  let w := cfg_window_cap_packets (s_cfg s) in if w =? 0 then 4 else w.
Definition adopted_window (h : val_handshake_t) (s : val_session_t) : Z :=
  Z.min (window_wish s) (Z.max 1 (hs_rx_max_window_packets h)).
Definition adopted_cwnd (h : val_handshake_t) (s : val_session_t) : Z :=
  let c := cfg_initial_cwnd_packets (s_cfg s) in
  Z.min (adopted_window h s) (if c =? 0 then 4 else c).

Lemma adopt_window_fields h s : config_ok (s_cfg s) → 0 <= hs_rx_max_window_packets h →
  s_negotiated_window_packets (adopt_window h s) = adopted_window h s ∧
  s_current_window_packets (adopt_window h s) = adopted_cwnd h s ∧
  s_effective_packet_size (adopt_window h s) = s_effective_packet_size s.
Proof.
  intros Hc Hp. pose proof (cok_wcap _ Hc) as Hw. pose proof (cok_cwnd _ Hc) as Hcw. unfold u16_ok in *.
  unfold adopt_window, adopted_cwnd, adopted_window, window_wish. cbn.
  split; [repeat case_match; lia|]. split; [|done]. repeat case_match; lia.
Qed.

Section adopt_spec.
Context {E : Type} `{!Hooks E} `{!BuildOptions}.

Lemma adopt_spec h (w : world E) : session_ok (w_s w) → 0 <= hs_rx_max_window_packets h →
  let s := w_s w in
  wpt (val__adopt_peer_hello h)
    (λ st w', st = adopt_status h s ∧ w_e w' = w_e w ∧ w_tr w' = w_tr w ∧ s_cfg (w_s w') = s_cfg s ∧
       if st =? VAL_OK then
         s_effective_packet_size (w_s w') = adopted_size h s ∧
         s_negotiated_window_packets (w_s w') = adopted_window h s ∧
         s_current_window_packets (w_s w') = adopted_cwnd h s ∧ s_last_error (w_s w') = s_last_error s
       else
         s_effective_packet_size (w_s w') = s_effective_packet_size s ∧
         s_negotiated_window_packets (w_s w') = s_negotiated_window_packets s ∧
         s_current_window_packets (w_s w') = s_current_window_packets s ∧
         err_code (s_last_error (w_s w')) = st) w.
Proof.
  intros Hok Hp s. unfold val__adopt_peer_hello, adopt_status.
  destruct (negb (hs_magic h =? VAL_MAGIC)); [by apply wp_bind, wp_mod, wp_ret|].
  destruct (negb (hs_version_major h =? VAL_VERSION_MAJOR)); [by apply wp_bind, wp_mod, wp_ret|].
  apply wp_bind, wp_gets. fold s. cbv zeta. fold (Z.min (hs_packet_size h) (cfg_packet_size (s_cfg s))).
  assert (En : (if hs_packet_size h <? cfg_packet_size (s_cfg s) then hs_packet_size h else cfg_packet_size (s_cfg s))
               = adopted_size h s) by (unfold adopted_size; case_match; lia).
  rewrite En. unfold VAL_MIN_PACKET_SIZE, VAL_MAX_PACKET_SIZE.
  destruct ((512 <=? adopted_size h s) && (adopted_size h s <=? 2097152)) eqn:Er.
  2:{ replace ((adopted_size h s <? 512) || (2 * 1024 * 1024 <? adopted_size h s)) with true by lia.
      by apply wp_bind, wp_mod, wp_ret. }
  replace ((adopted_size h s <? 512) || (2 * 1024 * 1024 <? adopted_size h s)) with false by lia.
  apply wp_bind, wp_mod. change val__negotiable_mask with 0. rewrite !Z.land_0_r, Z.land_0_l. cbn [Z.eqb negb].
  apply wp_bind, wp_mod, wp_ret. cbn [w_s w_e w_tr].
  match goal with |- context [adopt_window h ?s'] =>
    destruct (adopt_window_fields h s' (sok_cfg _ Hok) Hp) as (E1 & E2 & E3) end.
  change (VAL_OK =? VAL_OK) with true. cbv iota. rewrite E1, E2, E3. done.
Qed.
End adopt_spec.

(** Adopting the peer's HELLO, on every branch. A wrong magic, another major version
    and an unusable packet size are told apart and change nothing but the recorded
    error; otherwise the packet size is the smaller of the two, the window is our wish
    within the peer's limit, the congestion window starts within that, nothing is sent
    and no error is recorded. *)
Theorem adopt_hello_spec {E} `{!Hooks E} `{!BuildOptions} h (w : world E) :
  session_ok (w_s w) → 0 <= hs_rx_max_window_packets h →
  let s := w_s w in
  wpt (val__adopt_peer_hello h)
    (λ st w', st = adopt_status h s ∧ w_e w' = w_e w ∧ w_tr w' = w_tr w ∧ s_cfg (w_s w') = s_cfg s ∧
       if st =? VAL_OK then
         s_effective_packet_size (w_s w') = adopted_size h s ∧
         s_negotiated_window_packets (w_s w') = adopted_window h s ∧
         s_current_window_packets (w_s w') = adopted_cwnd h s ∧ s_last_error (w_s w') = s_last_error s
       else
         s_effective_packet_size (w_s w') = s_effective_packet_size s ∧
         s_negotiated_window_packets (w_s w') = s_negotiated_window_packets s ∧
         s_current_window_packets (w_s w') = s_current_window_packets s ∧
         err_code (s_last_error (w_s w')) = st) w.
Proof. apply adopt_spec. Qed.

(** The HELLO the initiator sends, and the one the responder answers with once it has
    adopted it, both as they come off the wire. *)
Definition received (h : val_handshake_t) : val_handshake_t :=
  val_deserialize_handshake (val_serialize_handshake h).

Lemma local_hello_wf s size : config_ok (s_cfg s) → 0 <= size < 2 ^ 32 → handshake_wf (val__fill_local_hello s size).
Proof.
  intros Hc Hs. unfold handshake_wf, val__fill_local_hello. cbn.
  rewrite !Z.land_0_r. unfold w8, w16, w32.
  repeat split; try apply u16_range; try apply u32_range; by vm_compute.
Qed.
Lemma received_local s size : config_ok (s_cfg s) → 0 <= size < 2 ^ 32 →
  received (val__fill_local_hello s size) = val__fill_local_hello s size.
Proof.
  intros Hc Hs. unfold received. rewrite <- (app_nil_r (val_serialize_handshake _)).
  apply handshake_roundtrip. by apply local_hello_wf.
Qed.

(** Adopting the HELLO of a session of this library always succeeds. *)
Lemma hello_window s n : config_ok (s_cfg s) →
  hs_rx_max_window_packets (val__fill_local_hello s n) =
  (if cfg_window_cap_packets (s_cfg s) =? 0 then 1 else cfg_window_cap_packets (s_cfg s)).
Proof.
  intros Hc. pose proof (cok_wcap _ Hc) as Hw. unfold u16_ok in Hw. unfold val__fill_local_hello. cbn.
  set (v := cfg_window_cap_packets (s_cfg s)) in *. clearbody v.
  destruct (Z.eqb_spec v 0); [by subst|]. destruct (Z.ltb_spec 65535 v); [lia|]. by apply u16_small.
Qed.
Lemma adopt_local {E} `{!Hooks E} `{!BuildOptions} p n (w : world E) :
  session_ok (w_s w) → config_ok (s_cfg p) → 512 <= n <= 2097152 →
  wpt (val__adopt_peer_hello (received (val__fill_local_hello p n)))
    (λ st w', st = VAL_OK ∧ s_cfg (w_s w') = s_cfg (w_s w) ∧
       s_effective_packet_size (w_s w') = Z.min n (cfg_packet_size (s_cfg (w_s w))) ∧
       s_negotiated_window_packets (w_s w') = Z.min (window_wish (w_s w))
         (if cfg_window_cap_packets (s_cfg p) =? 0 then 1 else cfg_window_cap_packets (s_cfg p))) w.
Proof.
  intros Hok Hp Hn. rewrite received_local by (done || lia).
  pose proof (cok_packet _ (sok_cfg _ Hok)) as Ps. unfold VAL_MIN_PACKET_SIZE, VAL_MAX_PACKET_SIZE in Ps.
  pose proof (cok_wcap _ Hp) as Hw. unfold u16_ok in Hw. pose proof (hello_window p n Hp) as Ew.
  set (h := val__fill_local_hello p n) in *.
  assert (Es : adopted_size h (w_s w) = Z.min n (cfg_packet_size (s_cfg (w_s w)))).
  { unfold adopted_size, h. cbn. by rewrite u32_small by lia. }
  assert (Est : adopt_status h (w_s w) = VAL_OK).
  { unfold adopt_status. rewrite Es. change (hs_magic h) with VAL_MAGIC. change (hs_version_major h) with 0.
    change (VAL_MAGIC =? VAL_MAGIC) with true. change (0 =? VAL_VERSION_MAJOR) with true. cbn [negb].
    by replace ((512 <=? _) && (_ <=? 2097152)) with true by lia. }
  eapply wp_mono; [apply adopt_spec; [done|rewrite Ew; case_match; lia]|].
  cbv beta. intros st w' (-> & _ & _ & Ec & Hst). rewrite Est in Hst |- *. change (VAL_OK =? VAL_OK) with true in Hst.
  cbv iota in Hst. destruct Hst as (E1 & E2 & _). rewrite E1, E2, Es. unfold adopted_window. rewrite Ew.
  split; [done|]. split; [done|]. split; [done|]. case_match; lia.
Qed.

(** C25: the two ends agree. If a responder adopts an initiator's HELLO and the initiator
    adopts the answer, as they come off the wire, then both adoptions succeed, both
    use the same packet size - the smaller of the two configured - and, when both
    configured a window, the same window, the smaller of the two. *)
Theorem handshake_agreement {E F} `{!Hooks E} `{!Hooks F} `{!BuildOptions} (wi : world E) (wr : world F) :
  session_ok (w_s wi) → session_ok (w_s wr) →
  let si := w_s wi in let sr := w_s wr in
  let size := Z.min (cfg_packet_size (s_cfg si)) (cfg_packet_size (s_cfg sr)) in
  wpt (val__adopt_peer_hello (received (val__fill_local_hello si (cfg_packet_size (s_cfg si)))))
    (λ st wr', st = VAL_OK ∧ s_effective_packet_size (w_s wr') = size ∧
       wpt (val__adopt_peer_hello (received (val__fill_local_hello (w_s wr') (s_effective_packet_size (w_s wr')))))
         (λ st' wi', st' = VAL_OK ∧ s_effective_packet_size (w_s wi') = size ∧
            (cfg_window_cap_packets (s_cfg si) ≠ 0 → cfg_window_cap_packets (s_cfg sr) ≠ 0 →
             s_negotiated_window_packets (w_s wi') = Z.min (cfg_window_cap_packets (s_cfg si)) (cfg_window_cap_packets (s_cfg sr)) ∧
             s_negotiated_window_packets (w_s wr') = s_negotiated_window_packets (w_s wi'))) wi) wr.
Proof.
  intros Hi Hr si sr size.
  pose proof (cok_packet _ (sok_cfg _ Hi)) as Pi. pose proof (cok_packet _ (sok_cfg _ Hr)) as Pr.
  unfold VAL_MIN_PACKET_SIZE, VAL_MAX_PACKET_SIZE in *. fold si in Pi. fold sr in Pr.
  eapply wp_mono; [apply adopt_local; [done|apply Hi|fold si; lia]|].
  fold si sr. cbv beta. intros st wr' (-> & Ec & E1 & E2). split; [done|]. split; [done|].
  eapply wp_mono; [apply adopt_local; [done|rewrite Ec; apply Hr|rewrite E1; lia]|].
  fold si. rewrite E1, Ec. cbv beta. intros st' wi' (-> & Ec' & E1' & E2').
  split; [done|]. split; [unfold size; lia|]. intros Ni Nr. rewrite E2, E2'. unfold window_wish. fold si sr.
  replace (cfg_window_cap_packets (s_cfg si) =? 0) with false by lia.
  replace (cfg_window_cap_packets (s_cfg sr) =? 0) with false by lia. lia.
Qed.

(** A responder with small packets meets an initiator with large ones, and a HELLO of
    another protocol. *)
Definition wide_config : val_config_t := demo_config <| cfg_packet_size := 4096 |> <| cfg_window_cap_packets := 16 |>.
Lemma wide_config_ok : config_ok wide_config.
Proof. destruct demo_config_ok. constructor; done. Qed.
Definition wide_w : world sim := sim_world (sim_session wide_config) (sim_start [] []).
Lemma adopt_hello_spec_witness :
  match val__adopt_peer_hello (val__fill_local_hello (w_s wide_w) 4096) (demo_w []) with
  | Some (st, w') => st = VAL_OK ∧ s_effective_packet_size (w_s w') = 512 ∧ s_negotiated_window_packets (w_s w') = 4
  | None => False
  end.
Proof.
  assert (Hp : 0 <= hs_rx_max_window_packets (val__fill_local_hello (w_s wide_w) 4096)) by (vm_compute; discriminate).
  pose proof (adopt_hello_spec (val__fill_local_hello (w_s wide_w) 4096) (demo_w []) demo_s_ok Hp) as Hw.
  apply wpt_elim in Hw as (st & w' & -> & Est & _ & _ & _ & Hw).
  assert (E1 : adopt_status (val__fill_local_hello (w_s wide_w) 4096) (w_s (demo_w [])) = VAL_OK) by (vm_compute; reflexivity).
  assert (E2 : adopted_size (val__fill_local_hello (w_s wide_w) 4096) (w_s (demo_w [])) = 512) by (vm_compute; reflexivity).
  assert (E3 : adopted_window (val__fill_local_hello (w_s wide_w) 4096) (w_s (demo_w [])) = 4) by (vm_compute; reflexivity).
  rewrite Est, E1 in Hw. cbn [Z.eqb VAL_OK] in Hw. destruct Hw as (Ha & Hb & _).
  split; [rewrite Est; exact E1|]. split; [rewrite Ha; exact E2|rewrite Hb; exact E3].
Defined.
(** Where one end leaves its window cap at 0 the two can adopt different windows: its HELLO offers
    1, and the other end, with a cap of 8, adopts that; but for its own part it takes 0 for 4. *)
Definition uncapped_w : world sim :=
  sim_world (sim_session (demo_config <| cfg_window_cap_packets := 0 |> <| cfg_initial_cwnd_packets := 0 |>)) (sim_start [] []).
Definition capped_w : world sim :=
  sim_world (sim_session (demo_config <| cfg_window_cap_packets := 8 |> <| cfg_initial_cwnd_packets := 0 |>)) (sim_start [] []).
Theorem window_cap_zero_disagrees :
  match val__adopt_peer_hello (received (val__fill_local_hello (w_s uncapped_w) 512)) capped_w with
  | Some (st, wr) =>
      match val__adopt_peer_hello (received (val__fill_local_hello (w_s wr) 512)) uncapped_w with
      | Some (st', wi) => st = VAL_OK ∧ st' = VAL_OK ∧
          s_negotiated_window_packets (w_s wr) = 1 ∧ s_negotiated_window_packets (w_s wi) = 4
      | None => False
      end
  | None => False
  end.
Proof. vm_compute. repeat split. Qed.
Lemma handshake_agreement_witness :
  session_ok (w_s wide_w) ∧
  wpt (val__adopt_peer_hello (received (val__fill_local_hello (w_s wide_w) 4096)))
    (λ st wr', st = VAL_OK ∧ s_effective_packet_size (w_s wr') = 512) (demo_w []).
Proof.
  assert (Hok : session_ok (w_s wide_w)) by (apply sim_session_ok, wide_config_ok).
  split; [exact Hok|].
  eapply wp_mono; [apply (handshake_agreement wide_w (demo_w []) Hok demo_s_ok)|].
  cbv beta. intros st wr' (-> & -> & _). split; reflexivity.
Defined.
