(* ===== verification/Resume.v ===== *)
(** Resuming an interrupted transfer ([src/val_core.c]: [val_internal_crc32_region];
    [src/val_receiver.c]: [send_resume_ack], [val_construct_target_path],
    [val_validate_metadata], [val_handle_validation_action],
    [determine_resume_action], [handle_file_resume]; [src/val_sender.c]:
    [handle_resume_negotiation]).

    The receiver looks at what it has of the file and decides an action; with
    VERIFY_FIRST the sender proves, by the CRC of a tail window, that both hold the
    same prefix, and the answer fixes the offset both resume from. *)
From S2P Require Import Prelude ByteOrder Wire Errors Crc Sanitize Timing Session Records Simulation Window Packet Frame Control.

(** What the resume code computes from sizes alone. *)
Definition clamp_u64 (v lo hi : Z) : Z := if v <? lo then lo else if hi <? v then hi else v.
Definition verify_window (tail_cap_bytes min_verify_bytes existing_size : Z) : Z :=
  let req_cap := if tail_cap_bytes =? 0 then 8 * 1024 * 1024 else tail_cap_bytes in
  let cap := clamp_u64 req_cap 1 (256 * 1024 * 1024) in
  let min_verify := if min_verify_bytes =? 0 then 0 else min_verify_bytes in
  let verify_len := if existing_size <? cap then existing_size else cap in
  if (0 <? min_verify) && (verify_len <? min_verify)
  then (if existing_size <? min_verify then existing_size else min_verify)
  else verify_len.

Definition VAL_VALIDATION_ACCEPT : Z := 0.
Definition VAL_VALIDATION_SKIP : Z := 1.
Definition VAL_VALIDATION_ABORT : Z := 2.

Section resume.
Context {E : Type} `{!Hooks E} `{!BuildOptions}.

(** ** The CRC of a file region *)

Definition crc_region_body (step : Z) (h : handle) (l : Z * Z) : M (world E) (Z * Z + Z * Z) :=
  let '(state, rest) := l in
  if 0 <? rest then
    let n := if rest <? step then rest else step in
    let! got := fs_fread h n in
    do! upd (λ s, s <| s_recv_buffer := zwrite (s_recv_buffer s) 0 got |>) in
    if negb (zlen got =? n) then mret (inr (VAL_ERR_IO, 0))
    else
      let! s := get_s in
      mret (inl (val_crc32_update_state state (ztake n (s_recv_buffer s)), rest - n))
  else mret (inr (VAL_OK, val_crc32_finalize_state state)).

(** Status and [*out_crc] (0 where it is not written). *)
Definition val_internal_crc32_region (fuel : nat) (h : handle) (start_offset length : Z)
    : M (world E) (Z * Z) :=
  let! s := get_s in
  if negb (cfg_has_recv_buffer (s_cfg s)) then mret (VAL_ERR_INVALID_ARG, 0)
  else
    let step := session_mtu s in
    if step =? 0 then mret (VAL_ERR_INVALID_ARG, 0)
    else
      let step := if cfg_packet_size (s_cfg s) <? step then cfg_packet_size (s_cfg s) else step in
      let! r := fs_fseek h (i64 start_offset) SEEK_SET in
      if negb (r =? 0) then mret (VAL_ERR_IO, 0)
      else if cfg_has_crc32_provider (s_cfg s) && (length <=? step) then
        let! got := fs_fread h length in
        do! upd (λ s, s <| s_recv_buffer := zwrite (s_recv_buffer s) 0 got |>) in
        if negb (zlen got =? length) then mret (VAL_ERR_IO, 0)
        else
          let! s := get_s in
          mret (VAL_OK, u32 (hk_crc32 0xFFFFFFFF (ztake length (s_recv_buffer s))))
      else loop fuel (crc_region_body step h) (val_crc32_init_state, length).

(** ** The receiver's decision *)

Definition send_resume_ack (resume_offset : Z) : M (world E) Z :=
  val_internal_send_packet VAL_PKT_DATA_ACK PNull 0 resume_offset.

(** The status and [target_path]. *)
Definition val_construct_target_path (s : val_session_t) (filename : list Z) (target_path_size : Z) : Z * list Z :=
  if target_path_size =? 0 then (VAL_ERR_INVALID_ARG, [])
  else
    let sanitized := match val_clean_filename (Some filename) (VAL_MAX_FILENAME + 1) with
                     | Some t => t | None => [] end in
    let '(path, n) := val_internal_join_path target_path_size (Some (s_output_directory s)) (Some sanitized) in
    if (n <? 0) || (target_path_size <=? n) then (VAL_ERR_INVALID_ARG, path) else (VAL_OK, path).

Definition val_validate_metadata (meta : val_meta_payload_t) (target_path : list Z) : M (world E) Z :=
  let! s := get_s in
  if negb (cfg_has_validator (s_cfg s)) then mret VAL_VALIDATION_ACCEPT
  else call (hk_validator meta target_path) (EvValidate meta target_path).

Definition val_handle_validation_action (action : Z) : M (world E) Z :=
  if action =? VAL_VALIDATION_ACCEPT then mret VAL_OK
  else if action =? VAL_VALIDATION_SKIP then mret VAL_OK
  else if action =? VAL_VALIDATION_ABORT then mret VAL_ERR_ABORTED
  else do! VAL_SET_PROTOCOL_ERROR VAL_ERROR_DETAIL_INVALID_STATE in mret VAL_ERR_PROTOCOL.

(** [full_output_path], 512 bytes: the output directory and the name. *)
Definition output_path (s : val_session_t) (filename : list Z) : list Z :=
  match s_output_directory s with
  | [] => fst (snprintf_text 512 filename)
  | dir => fst (val_internal_join_path 512 (Some dir) (Some filename))
  end.

(** The decision with its out parameters (0 where they are not written, which is
    what the callers initialise them to). *)
Record resume_decision := mk_decision {
  rd_action : Z; rd_offset : Z; rd_verify_crc : Z; rd_verify_length : Z }.
Definition start_zero : resume_decision := mk_decision VAL_RESUME_START_ZERO 0 0 0.
Definition skip_file : resume_decision := mk_decision VAL_RESUME_SKIP_FILE 0 0 0.

Definition determine_resume_action (fuel : nat) (filename : list Z) (incoming_file_size : Z)
    : M (world E) resume_decision :=
  let! s := get_s in
  let mode := cfg_resume_mode (s_cfg s) in
  let! file := fs_fopen (output_path s filename) ModeRead in
  match file with
  | None => mret start_zero
  | Some file =>
    let! _ := fs_fseek file 0 SEEK_END in
    let! existing_size_l := fs_ftell file in
    if existing_size_l <? 0 then do! fs_fclose file in mret start_zero
    else
      let existing_size := u64 existing_size_l in
      if mode =? VAL_RESUME_NEVER then do! fs_fclose file in mret start_zero
      else if mode =? VAL_RESUME_SKIP_EXISTING then
        do! fs_fclose file in
        mret (if 0 <? existing_size then skip_file else start_zero)
      else if existing_size =? 0 then do! fs_fclose file in mret start_zero
      else if incoming_file_size <? existing_size then
        do! fs_fclose file in
        mret (if cfg_mismatch_skip (s_cfg s) then skip_file else start_zero)
      else if negb (cfg_has_recv_buffer (s_cfg s)) then do! fs_fclose file in mret start_zero
      else if session_mtu s =? 0 then do! fs_fclose file in mret start_zero
      else
        let verify_len := verify_window (cfg_tail_cap_bytes (s_cfg s)) (cfg_min_verify_bytes (s_cfg s)) existing_size in
        let start_pos := existing_size - verify_len in
        let! ' (st, tail_crc) := val_internal_crc32_region fuel file start_pos verify_len in
        do! fs_fclose file in
        mret (if st =? VAL_OK
              then mk_decision VAL_RESUME_VERIFY_FIRST existing_size tail_crc verify_len
              else start_zero)
  end.

(** [val_internal_handle_file_resume]: the ACK-based signalling kept beside the
    RESUME_RESP exchange. Status and [*resume_offset_out]. *)
Definition val_internal_handle_file_resume (fuel : nat) (filename sender_path : list Z) (file_size : Z)
    : M (world E) (Z * option Z) :=
  let! d := determine_resume_action fuel filename file_size in
  let! s := get_s in
  if rd_action d =? VAL_RESUME_SKIP_FILE then
    let! st := send_resume_ack file_size in
    if negb (st =? VAL_OK) then mret (st, None)
    else do! on_file_start filename sender_path file_size file_size in mret (VAL_OK, Some file_size)
  else if rd_action d =? VAL_RESUME_ABORT_FILE then
    let! st := send_resume_ack 0 in
    if negb (st =? VAL_OK) then mret (st, None) else mret (VAL_ERR_ABORTED, None)
  else if rd_action d =? VAL_RESUME_START_ZERO then
    if cfg_resume_mode (s_cfg s) =? VAL_RESUME_NEVER then
      do! on_file_start filename sender_path file_size 0 in mret (VAL_OK, Some 0)
    else
      let! st := send_resume_ack 0 in
      if negb (st =? VAL_OK) then mret (st, None)
      else do! on_file_start filename sender_path file_size 0 in mret (VAL_OK, Some 0)
  else if rd_action d =? VAL_RESUME_VERIFY_FIRST then
    let! st := send_resume_ack (rd_offset d) in
    if negb (st =? VAL_OK) then mret (st, None)
    else
      do! on_file_start filename sender_path file_size (rd_offset d) in
      mret (VAL_OK, Some (rd_offset d))
  else mret (VAL_ERR_PROTOCOL, None).

(** ** The sender's side *)

(** The VERIFY round: the CRC of the window that ends at [resume_off], the request
    and its result. *)
Definition verify_round (fuel : nat) (filepath : list Z) (resume_off vlen32 : Z) : M (world E) (Z * Z) :=
  let start := resume_off - vlen32 in
  let! f := fs_fopen filepath ModeRead in
  match f with
  | None => mret (VAL_ERR_IO, 0)
  | Some f =>
    let! _ := (if 0 <? start then fs_fseek f (i64 start) SEEK_SET else mret 0) in
    let! ' (crcs, crc) := val_internal_crc32_region fuel f start vlen32 in
    do! fs_fclose f in
    if negb (crcs =? VAL_OK) then mret (crcs, 0)
    else
      let verify_payload := val_serialize_verify_request (mk_verify_request start crc vlen32) in
      do! append_trace (SenderVerify start crc vlen32) in
      let! st := val_internal_send_packet VAL_PKT_VERIFY (PBytes verify_payload)
                   VAL_WIRE_VERIFY_REQ_PAYLOAD_SIZE 0 in
      if negb (st =? VAL_OK) then mret (st, 0)
      else
        let! ' (st, out) := val_internal_wait_verify_result fuel verify_payload resume_off in
        if negb (st =? VAL_OK) then mret (st, 0)
        else mret (VAL_OK, match out with Some o => o | None => 0 end)
  end.

(** What the sender does with a RESUME_RESP: status and [*resume_offset_out]. *)
Definition apply_resume_resp (fuel : nat) (filepath : list Z) (file_size : Z) (rr : val_resume_resp_t)
    : M (world E) (Z * Z) :=
  let resume_off := if file_size <? rr_resume_offset rr then 0 else rr_resume_offset rr in
  if rr_action rr =? VAL_RESUME_START_ZERO then mret (VAL_OK, 0)
  else if rr_action rr =? VAL_RESUME_START_OFFSET then mret (VAL_OK, resume_off)
  else if rr_action rr =? VAL_RESUME_SKIP_FILE then mret (VAL_OK, UINT64_MAX)
  else if rr_action rr =? VAL_RESUME_ABORT_FILE then mret (VAL_ERR_ABORTED, 0)
  else if rr_action rr =? VAL_RESUME_VERIFY_FIRST then
    let vlen32 := u32 (if resume_off <? rr_verify_length rr then resume_off else rr_verify_length rr) in
    if vlen32 =? 0 then mret (VAL_OK, resume_off)
    else verify_round fuel filepath resume_off vlen32
  else mret (VAL_ERR_PROTOCOL, 0).

Definition handle_resume_negotiation (fuel : nat) (file_size : Z) (filepath : list Z)
    : M (world E) (Z * Z) :=
  let! st := val_internal_send_packet VAL_PKT_RESUME_REQ PNull 0 0 in
  if negb (st =? VAL_OK) then mret (st, 0)
  else
    let! to := val_internal_get_timeout VAL_OP_META in
    let! s := get_s in
    let! ' (st, pkt, resp_buf) := val_internal_wait_resume_resp fuel to (cfg_ack_retries (s_cfg s))
      (cfg_backoff_ms_base (s_cfg s)) (local_array VAL_WIRE_RESUME_RESP_SIZE) in
    if negb (st =? VAL_OK) then mret (st, 0)
    else if pkt_len pkt <? VAL_WIRE_RESUME_RESP_SIZE then mret (VAL_ERR_PROTOCOL, 0)
    else apply_resume_resp fuel filepath file_size (val_deserialize_resume_resp resp_buf).

End resume.

(** ** What the resume code keeps *)

Section resume_safe.
Context {E : Type} `{!Hooks E} `{!BuildOptions} {c : val_config_t}.

(** Reading at most [packet_size] bytes to the start of the receive buffer. *)
Lemma safe_fread_recv {A} h n (k : list Z → M (world E) A) : n <= cfg_packet_size c →
  (∀ got, safe c 0 (k got)) →
  safe c 0 (let! got := fs_fread h n in
            do! upd (λ s, s <| s_recv_buffer := zwrite (s_recv_buffer s) 0 got |>) in k got).
Proof.
  intros Hn Hk w Hw Hc. pose proof (cok_packet _ (sok_cfg _ Hw)) as Hp. rewrite Hc in Hp.
  unfold VAL_MIN_PACKET_SIZE in Hp. apply wp_bind, wp_lift.
  destruct (hk_fread h n (w_e w)) as [got e]. cbn [fst snd].
  refine (safe_bind0 0 _ _ (safe_write_recv 0 (cut n got) _ _ (bytes_ok_cut _ _)) (λ _, Hk _)
            (mk_world (w_s w) e _) Hw Hc); [lia|].
  unfold cut. rewrite zlen_map. destruct (decide (0 <= n)).
  - pose proof (zlen_ztake_le n got). lia.
  - unfold ztake. replace (Z.to_nat n) with 0%nat by lia. rewrite take_0. change (zlen (@nil Z)) with 0. lia.
Qed.

Lemma safe_crc32_region fuel h o l : safe c 0 (val_internal_crc32_region fuel h o l).
Proof.
  unfold val_internal_crc32_region. apply safe_get_bind. intros s Hs Hc.
  destruct (negb _); [safe_auto|]. cbv zeta. rewrite Hc. set (mtu := session_mtu s).
  destruct (mtu =? 0); [safe_auto|].
  set (step := if _ <? mtu then _ else _).
  assert (Hstep : step <= cfg_packet_size c) by (unfold step; case_match; lia).
  apply safe_bind0; [safe_auto|intros r]. destruct (negb (r =? 0)); [safe_auto|].
  destruct (_ && _) eqn:Ep.
  - apply safe_fread_recv; [lia|intros got; safe_auto].
  - apply safe_loop. intros [st rest]. unfold crc_region_body.
    destruct (0 <? rest); [|safe_auto]. cbv zeta.
    apply safe_fread_recv; [case_match; lia|intros got; safe_auto].
Qed.
Lemma safe_send_resume_ack o : safe c 0 (send_resume_ack o).
Proof. unfold send_resume_ack. auto with safe. Qed.
Lemma safe_validate_metadata m t : safe c 0 (val_validate_metadata m t).
Proof. unfold val_validate_metadata. safe_auto. Qed.
Lemma safe_validation_action a : safe (E:=E) c 0 (val_handle_validation_action a).
Proof. unfold val_handle_validation_action. safe_auto. Qed.
Hint Resolve safe_crc32_region safe_send_resume_ack : safe.
Lemma safe_determine fuel name sz : safe c 0 (determine_resume_action fuel name sz).
Proof. unfold determine_resume_action. safe_auto. Qed.
Hint Resolve safe_determine : safe.
Lemma safe_handle_file_resume fuel n p sz : safe c 0 (val_internal_handle_file_resume fuel n p sz).
Proof. unfold val_internal_handle_file_resume. safe_auto. Qed.

Lemma safe_verify_round fuel path o v : safe c 0 (verify_round fuel path o v).
Proof.
  unfold verify_round. apply safe_bind0; [safe_auto|intros [f|]]; [|safe_auto].
  apply safe_bind0; [safe_auto|intros _]. apply safe_bind0; [safe_auto|intros [st crc]].
  apply safe_bind0; [safe_auto|intros _]. destruct (negb _); [safe_auto|].
  set (pl := val_serialize_verify_request _). assert (Hl : zlen pl <= 488) by (unfold pl; by cbv).
  apply safe_bind0; [safe_auto|intros _]. apply safe_bind0; [safe_auto|intros st2]. destruct (negb _); [safe_auto|].
  apply safe_bind0; [by apply safe_wait_verify_result|intros [? ?]]. safe_auto.
Qed.
Hint Resolve safe_verify_round : safe.
Lemma safe_resume_negotiation fuel sz path : safe c 0 (handle_resume_negotiation fuel sz path).
Proof. unfold handle_resume_negotiation, apply_resume_resp. safe_auto. Qed.
End resume_safe.
#[export] Hint Resolve safe_crc32_region safe_send_resume_ack safe_validate_metadata safe_validation_action
  safe_determine safe_handle_file_resume safe_resume_negotiation : safe.

(** ** The CRC of a region is the CRC of the region *)

(** The file system as the resume code relies on it: C's [fseek] and [fread] on a
    readable file that nobody else changes. *)
Class FileStore (E : Type) `{!Hooks E} := {
  fs_ok : handle → E → Prop;
  fs_data : handle → E → list Z;
  fs_pos : handle → E → Z;
  fs_bytes h e : fs_ok h e → bytes_ok (fs_data h e);
  fs_seek_law h o e : fs_ok h e → 0 <= o <= zlen (fs_data h e) →
    let '(r, e') := hk_fseek h o SEEK_SET e in
    r = 0 ∧ fs_ok h e' ∧ fs_pos h e' = o ∧ fs_data h e' = fs_data h e;
  fs_read_law h n e : fs_ok h e → 0 <= fs_pos h e → 0 <= n →
    let '(got, e') := hk_fread h n e in
    got = zslice (fs_data h e) (fs_pos h e) n ∧ fs_ok h e' ∧
    fs_pos h e' = fs_pos h e + zlen got ∧ fs_data h e' = fs_data h e
}.

Section crc_region.
Context {E : Type} `{!Hooks E} `{!FileStore E} `{!BuildOptions}.

Lemma zlen_zslice (l : list Z) o n : 0 <= o → 0 <= n → o + n <= zlen l → zlen (zslice l o n) = n.
Proof. intros. unfold zslice. apply zlen_ztake. rewrite zlen_zdrop; lia. Qed.
Lemma zslice_add (l : list Z) o a b : 0 <= o → 0 <= a → 0 <= b →
  zslice l o a ++ zslice l (o + a) b = zslice l o (a + b).
Proof.
  intros. unfold zslice. rewrite <- (zdrop_zdrop o a) by lia. by apply ztake_add.
Qed.

(** One chunk read to the start of the receive buffer. *)
Lemma fread_chunk h n w : fs_ok h (w_e w) → session_ok (w_s w) → 0 <= fs_pos h (w_e w) → 0 <= n <= cfg_packet_size (s_cfg (w_s w)) →
  fs_pos h (w_e w) + n <= zlen (fs_data h (w_e w)) →
  ∀ (A : Type) (k : list Z → M (world E) A) Q,
  (∀ w', let d := zslice (fs_data h (w_e w)) (fs_pos h (w_e w)) n in
     stable 0 (w_s w) (w_s w') → s_effective_packet_size (w_s w') = s_effective_packet_size (w_s w) →
     fs_ok h (w_e w') → fs_pos h (w_e w') = fs_pos h (w_e w) + n →
     fs_data h (w_e w') = fs_data h (w_e w) → ztake n (s_recv_buffer (w_s w')) = d → zlen d = n → wpt (k d) Q w') →
  wpt (let! got := fs_fread h n in
       do! upd (λ s, s <| s_recv_buffer := zwrite (s_recv_buffer s) 0 got |>) in k got) Q w.
Proof.
  intros Hf Hs Hp Hn Hlen A k Q Hk. set (d := zslice _ _ n) in *.
  pose proof (zlen_zslice _ _ n Hp ltac:(lia) Hlen) as Hd. fold d in Hd.
  apply wp_bind, wp_lift. pose proof (fs_read_law h n (w_e w) Hf Hp ltac:(lia)) as Hr.
  destruct (hk_fread h n (w_e w)) as [got e]. destruct Hr as (-> & Hf' & Hp' & Hd'). fold d in Hp' |- *.
  assert (Hb : bytes_ok d) by (apply bytes_ok_zslice, fs_bytes, Hf).
  assert (Hcut : cut n d = d) by (unfold cut; rewrite ztake_all by lia; by apply map_u8_id).
  cbn [fst snd]. rewrite Hcut. apply wp_bind, wp_mod. cbn [w_s w_e w_tr].
  pose proof (sok_recv _ Hs) as Hbuf. apply Hk; cbn [w_s w_e]; try done.
  - assert (Hz : zlen (zwrite (s_recv_buffer (w_s w)) 0 d) = zlen (s_recv_buffer (w_s w))) by (apply zlen_zwrite; lia).
    split; [|repeat split; cbn; lia]. destruct Hs. constructor; try done; cbn; [lia|by apply bytes_ok_zwrite].
  - by rewrite Hp', Hd.
  - exact (ztake_app_exact n d (zdrop (0 + zlen d) (s_recv_buffer (w_s w))) (eq_sym Hd)).
Qed.

(** What the VERIFY step compares: the provider's answer for a region that one read holds, the
    library's own CRC-32 for any other. *)
Definition region_crc (s : val_session_t) (region : list Z) : Z :=
  if cfg_has_crc32_provider (s_cfg s) && (zlen region <=? session_mtu s)
  then u32 (hk_crc32 0xFFFFFFFF region) else val_crc32 region.

Lemma crc_region_spec fuel h off len w :
  session_ok (w_s w) → cfg_has_recv_buffer (s_cfg (w_s w)) = true → fs_ok h (w_e w) →
  0 <= off < 2 ^ 63 → 0 <= len → off + len <= zlen (fs_data h (w_e w)) → (Z.to_nat len < fuel)%nat →
  wpt (val_internal_crc32_region fuel h off len)
    (λ r w', r = (VAL_OK, region_crc (w_s w) (zslice (fs_data h (w_e w)) off len)) ∧ stable 0 (w_s w) (w_s w') ∧
             fs_ok h (w_e w') ∧ fs_data h (w_e w') = fs_data h (w_e w)) w.
Proof.
  intros Hs Hrb Hf Hoff Hlen Hfit Hfuel. unfold val_internal_crc32_region.
  apply wp_bind, wp_gets. rewrite Hrb. cbn [negb].
  pose proof (session_mtu_range _ Hs) as Hm. replace (session_mtu (w_s w) =? 0) with false by lia. cbv zeta.
  replace (cfg_packet_size (s_cfg (w_s w)) <? session_mtu (w_s w)) with false by lia.
  set (step := session_mtu (w_s w)) in *. rewrite i64_small by lia.
  apply wp_bind, wp_lift. pose proof (fs_seek_law h off (w_e w) Hf ltac:(lia)) as Hseek.
  destruct (hk_fseek h off SEEK_SET (w_e w)) as [r e]. destruct Hseek as (-> & Hf' & Hp' & Hd'). cbn [fst snd negb Z.eqb].
  set (data := fs_data h (w_e w)) in *.
  unfold region_crc. rewrite zlen_zslice by lia. fold step.
  destruct (cfg_has_crc32_provider (s_cfg (w_s w)) && (len <=? step)) eqn:Hone.
  { apply andb_prop in Hone as [_ Hone]. apply Z.leb_le in Hone.
    apply fread_chunk; cbn [w_s w_e]; [done|done|lia|lia|rewrite Hd', Hp'; done|].
    rewrite Hd', Hp'. intros w2 Hst2 Hmtu2 Hf2 Hp2 Hd2 Hbuf Hzd.
    rewrite Hzd, Z.eqb_refl. cbn [negb]. apply wp_bind, wp_gets, wp_ret. rewrite Hbuf.
    split; [done|]. split; [done|]. split; [done|]. congruence. }
  clear Hone.
  set (Inv := λ (l : Z * Z) (w' : world E), let '(st, rest) := l in
    0 <= rest <= len ∧ st = val_crc32_update_state val_crc32_init_state (zslice data off (len - rest)) ∧
    stable 0 (w_s w) (w_s w') ∧ fs_ok h (w_e w') ∧ fs_data h (w_e w') = data ∧
    fs_pos h (w_e w') = off + (len - rest) ∧ s_effective_packet_size (w_s w') = s_effective_packet_size (w_s w)).
  apply (wp_loop False Inv (λ l _, Z.to_nat (snd l))).
  2:{ split; [lia|]. rewrite Z.sub_diag. split; [done|]. split; [by apply stable_refl|].
      split; [done|]. split; [done|]. split; [cbn; lia|done]. }
  2:{ by right. }
  intros [st rest] w1 (Hr & Est & Hst & Hf1 & Hd1 & Hp1 & Hm1). unfold crc_region_body.
  destruct (Z.ltb_spec 0 rest).
  2:{ apply wp_ret. replace rest with 0 in * by lia. rewrite Z.sub_0_r in Est.
      split; [|done]. rewrite Est. by rewrite crc32_state_api. }
  cbv zeta. set (n := if rest <? step then rest else step).
  assert (Hn : 0 < n <= rest ∧ n <= step) by (unfold n; destruct (Z.ltb_spec rest step); lia).
  assert (Hcfg : s_cfg (w_s w1) = s_cfg (w_s w)) by apply Hst.
  apply fread_chunk; [done|apply Hst|lia|rewrite Hcfg; lia|rewrite Hd1; lia|].
  rewrite Hd1, Hp1. intros w2 d Hst2 Hm2 Hf2 Hp2 Hd2 Hbuf Hzd. fold d in Hbuf, Hzd |- *. rewrite Hzd, Z.eqb_refl. cbn [negb].
  apply wp_bind, wp_gets, wp_ret. rewrite Hbuf. split; [|right; cbn; lia].
  split; [lia|]. split.
  { rewrite Est, <- crc32_update_app. f_equal. unfold d. rewrite zslice_add by lia. f_equal. lia. }
  split; [change 0 with (0 + 0); by eapply stable_trans|]. split; [done|]. split; [done|].
  split; [lia|congruence].
Qed.
End crc_region.

(** C29: the CRC that VERIFY compares is the CRC of the region. On a file system with
    C's seek and read, [val_internal_crc32_region] always returns (enough fuel exists)
    with VAL_OK and the checksum of exactly the [len] bytes at [off], and leaves file and
    session intact. Where a CRC provider is configured and one packet holds the region, the
    checksum is what the provider answers for these bytes and the seed 0xFFFFFFFF; in every
    other case it is their CRC-32, however many chunks the packet size cuts them into. *)
Theorem crc_region_correct {E} `{!Hooks E} `{!FileStore E} `{!BuildOptions} fuel h off len (w : world E) :
  session_ok (w_s w) → cfg_has_recv_buffer (s_cfg (w_s w)) = true → fs_ok h (w_e w) →
  0 <= off < 2 ^ 63 → 0 <= len → off + len <= zlen (fs_data h (w_e w)) → (Z.to_nat len < fuel)%nat →
  wpt (val_internal_crc32_region fuel h off len)
    (λ r w', r = (VAL_OK, region_crc (w_s w) (zslice (fs_data h (w_e w)) off len)) ∧ stable 0 (w_s w) (w_s w') ∧
             fs_ok h (w_e w') ∧ fs_data h (w_e w') = fs_data h (w_e w)) w.
Proof. apply crc_region_spec. Qed.

(** ** The receiver's decision *)

Lemma verify_window_range cap minv existing : 0 <= cap → 0 <= minv → 0 < existing →
  0 < verify_window cap minv existing <= existing ∧
  Z.min minv existing <= verify_window cap minv existing ∧
  verify_window cap minv existing <= Z.max minv (256 * 1024 * 1024).
Proof.
  intros Hc Hm He. unfold verify_window, clamp_u64.
  destruct (Z.eqb_spec cap 0), (Z.eqb_spec minv 0); cbv zeta; repeat case_match; lia.
Qed.

(** What a decision may be, by the mode and the size of the incoming file. *)
Definition decision_ok (c : val_config_t) (incoming : Z) (d : resume_decision) : Prop :=
  d = start_zero ∨
  (d = skip_file ∧ (cfg_resume_mode c = VAL_RESUME_SKIP_EXISTING ∨ cfg_mismatch_skip c = true)) ∨
  (rd_action d = VAL_RESUME_VERIFY_FIRST ∧
   cfg_resume_mode c ≠ VAL_RESUME_NEVER ∧ cfg_resume_mode c ≠ VAL_RESUME_SKIP_EXISTING ∧
   0 < rd_offset d <= incoming ∧
   rd_verify_length d = verify_window (cfg_tail_cap_bytes c) (cfg_min_verify_bytes c) (rd_offset d) ∧
   0 < rd_verify_length d <= rd_offset d).

(** C28: the receiver's resume decision. Whatever the file system says, the decision is
    to start at zero, to skip (only in mode SKIP_EXISTING or when mismatches are
    skipped), or to verify a non-empty tail window of a file that is no longer than
    the incoming one, in a mode that resumes; in mode NEVER it is to start at zero.
    The two other actions of the protocol, START_OFFSET and ABORT, are never decided. *)
Theorem resume_decision_sound {E} `{!Hooks E} `{!BuildOptions} fuel name incoming (w : world E) :
  session_ok (w_s w) →
  wpp (determine_resume_action fuel name incoming)
    (λ d _, decision_ok (s_cfg (w_s w)) incoming d ∧
            (cfg_resume_mode (s_cfg (w_s w)) = VAL_RESUME_NEVER → d = start_zero)) w.
Proof.
  intros Hok. unfold determine_resume_action. apply wp_bind, wp_gets. set (s := w_s w) in *.
  pose proof (cok_tail _ (sok_cfg _ Hok)) as Ht. pose proof (cok_minv _ (sok_cfg _ Hok)) as Hm. unfold u32_ok in *.
  assert (Hzero : decision_ok (s_cfg s) incoming start_zero ∧
                  (cfg_resume_mode (s_cfg s) = VAL_RESUME_NEVER → start_zero = start_zero)) by (split; [by left|done]).
  match goal with |- wpp ?m ?Q w => cut (gives m (λ d, Q d w)); [by intros Hg; apply Hg|] end.
  apply gives_bind. intros [file|]; [|by apply gives_ret].
  apply gives_bind. intros _. apply gives_bind. intros sz. destruct (sz <? 0); [by apply gives_bind; intros _; apply gives_ret|].
  cbv zeta. set (n := u64 sz). pose proof (u64_range sz) as Hn. fold n in Hn.
  destruct (Z.eqb_spec (cfg_resume_mode (s_cfg s)) VAL_RESUME_NEVER) as [|Nn]; [by apply gives_bind; intros _; apply gives_ret|].
  destruct (Z.eqb_spec (cfg_resume_mode (s_cfg s)) VAL_RESUME_SKIP_EXISTING) as [Es|Ns].
  { apply gives_bind. intros _. apply gives_ret. destruct (0 <? n); [|done]. split; [right; left; auto|done]. }
  destruct (Z.eqb_spec n 0); [by apply gives_bind; intros _; apply gives_ret|].
  destruct (Z.ltb_spec incoming n).
  { apply gives_bind. intros _. apply gives_ret. destruct (cfg_mismatch_skip _) eqn:Ek; [|done]. split; [right; left; auto|done]. }
  destruct (negb _); [by apply gives_bind; intros _; apply gives_ret|].
  destruct (_ =? 0); [by apply gives_bind; intros _; apply gives_ret|].
  apply gives_bind. intros [st crc]. apply gives_bind. intros _. apply gives_ret.
  destruct (st =? VAL_OK); [|done]. split; [|done]. right; right. cbn.
  destruct (verify_window_range (cfg_tail_cap_bytes (s_cfg s)) (cfg_min_verify_bytes (s_cfg s)) n) as (Hv & _); [lia..|].
  repeat split; done || lia.
Qed.

(** The verification window is a non-empty tail of the existing file of at least
    the configured minimum, but the cap of 256 MiB that the code announces does not
    hold: a larger minimum is taken as it is, so that both ends then read and hash up
    to 4 GiB before the transfer goes on. *)
Theorem verify_window_uncapped :
  (∀ cap minv existing, 0 <= cap → 0 <= minv → 0 < existing →
     0 < verify_window cap minv existing <= existing ∧
     Z.min minv existing <= verify_window cap minv existing ∧
     (minv <= 256 * 1024 * 1024 → verify_window cap minv existing <= 256 * 1024 * 1024)) ∧
  (∀ minv existing, 256 * 1024 * 1024 < minv < 2 ^ 32 → minv <= existing → verify_window 0 minv existing = minv).
Proof.
  split.
  - intros cap minv existing Hc Hm He. destruct (verify_window_range cap minv existing Hc Hm He) as (?&?&?).
    split; [done|]. split; [done|]. lia.
  - intros minv existing Hm He. unfold verify_window, clamp_u64. cbn [Z.eqb]. cbv zeta.
    destruct (Z.eqb_spec minv 0); [lia|]. repeat case_match; lia.
Qed.


(** ** At a concrete file *)

Definition sim_file_ok (h : handle) (e : sim) : Prop :=
  0 <= h < zlen (sim_open e) ∧ bytes_ok (sim_content (fst (fst (sim_get h e))) e).
Lemma sim_seek_get h pos e : 0 <= h < zlen (sim_open e) →
  sim_get h (sim_seek h pos e) = (fst (fst (sim_get h e)), pos, snd (sim_get h e)).
Proof.
  intros Hh. unfold sim_get at 1. cbn. unfold zlen in Hh.
  rewrite nth_lookup, list_lookup_insert_eq by lia. done.
Qed.
Lemma sim_seek_ok h pos e : sim_file_ok h e → sim_file_ok h (sim_seek h pos e).
Proof.
  intros [Hh Hb]. split; [|by rewrite sim_seek_get]. cbn. unfold zlen in *. by rewrite length_insert.
Qed.
#[export] Program Instance sim_files_store : FileStore sim := {|
  fs_ok := sim_file_ok;
  fs_data h e := sim_content (fst (fst (sim_get h e))) e;
  fs_pos h e := snd (fst (sim_get h e))
|}.
Next Obligation. intros h e [_ Hb]. exact Hb. Qed.
Next Obligation.
  intros h o e Hok _. cbn. unfold sim_fseek. destruct (sim_get h e) as [[p pos] m] eqn:Eg.
  split; [done|]. split; [by apply sim_seek_ok|]. rewrite sim_seek_get, Eg by apply Hok. done.
Qed.
Next Obligation.
  intros h n e Hok _ _. cbn. unfold sim_fread. destruct (sim_get h e) as [[p pos] m] eqn:Eg. cbn [fst snd].
  split; [done|]. split; [by apply sim_seek_ok|]. rewrite sim_seek_get, Eg by apply Hok. done.
Qed.

Definition region_file : list Z := map (λ i, Z.of_nat i mod 256) (seq 0 1300).
Definition region_w : world sim := sim_world demo_s (mk_sim [] 0 [([102], region_file)] [([102], 0, ModeRead)]).
Lemma region_file_ok : sim_file_ok 0 (w_e region_w).
Proof.
  split; [by vm_compute|]. change (bytes_ok region_file). unfold bytes_ok, region_file.
  apply Forall_map, Forall_true. intros i. apply Z.mod_pos_bound. lia.
Qed.
(** The same with a CRC provider, for a region of one packet. *)
Definition provider_config : val_config_t := demo_config <| cfg_has_crc32_provider := true |>.
Lemma provider_config_ok : config_ok provider_config.
Proof. destruct demo_config_ok. constructor; done. Qed.
Definition provider_w : world sim := sim_world (sim_session provider_config) (w_e region_w).
Lemma crc_region_correct_witness :
  wpt (val_internal_crc32_region 1300 0 40 1234)
    (λ r _, r = (VAL_OK, val_crc32 (zslice region_file 40 1234))) region_w ∧
  wpt (val_internal_crc32_region 1300 0 40 500)
    (λ r _, r = (VAL_OK, u32 (hk_crc32 0xFFFFFFFF (zslice region_file 40 500)))) provider_w.
Proof.
  split.
  - eapply wp_mono;
      [apply (@crc_region_correct sim sim_hooks sim_files_store demo_build 1300 0 40 1234 region_w demo_s_ok eq_refl region_file_ok);
       [lia|lia|by vm_compute|lia]|].
    cbv beta. intros r w' (-> & _). reflexivity.
  - eapply wp_mono;
      [apply (@crc_region_correct sim sim_hooks sim_files_store demo_build 1300 0 40 500 provider_w
                (sim_session_ok provider_config provider_config_ok) eq_refl region_file_ok);
       [lia|lia|by vm_compute|lia]|].
    cbv beta. intros r w' (-> & _). reflexivity.
Defined.

(** An interrupted file of 600 bytes, of which 1300 are coming. *)
Definition partial_w : world sim := sim_world demo_s (mk_sim [] 0 [([102], ztake 600 region_file)] []).
Lemma resume_decision_sound_witness :
  match determine_resume_action 700 [102] 1300 partial_w with
  | Some (d, _) => decision_ok (s_cfg demo_s) 1300 d ∧ rd_action d = VAL_RESUME_VERIFY_FIRST ∧ rd_offset d = 600
  | None => False
  end.
Proof.
  assert (Hc : match determine_resume_action 700 [102] 1300 partial_w with
               | Some (d, _) => rd_action d = VAL_RESUME_VERIFY_FIRST ∧ rd_offset d = 600 | None => False end)
    by (vm_compute; split; reflexivity).
  pose proof (wpp_result _ _ _ (determine_resume_action 700 [102] 1300 partial_w)
    (resume_decision_sound 700 [102] 1300 partial_w demo_s_ok) eq_refl) as Hw.
  destruct (determine_resume_action 700 [102] 1300 partial_w) as [[d w']|]; [|destruct Hc].
  split; [exact (proj1 Hw)|exact Hc].
Defined.
Lemma verify_window_uncapped_witness :
  verify_window 0 (2 ^ 29) (2 ^ 40) = 2 ^ 29 ∧ 0 < verify_window 0 16 1000 <= 1000.
Proof.
  destruct verify_window_uncapped as [Ha Hb].
  split; [apply (Hb (2 ^ 29) (2 ^ 40)); lia|apply (Ha 0 16 1000); lia].
Defined.
