(* ===== verification/Peer.v ===== *)
(** A receiver as the environment of a sender: what a DATA frame carries, what the
    receiver answers, and a concrete environment with such a peer on a line that drops
    frames by a script.  It models no code of its own: [Receiver] is the receiver, and
    [DataPhase] and [Assembly] prove of it what is taken here. *)
From S2P Require Import Prelude ByteOrder Wire Errors Crc Timing Session Simulation Packet Frame Resume.

(** The offset, if there is one, and the payload of a DATA frame. *)
Definition carried (fr : list Z) : list (option Z * list Z) :=
  if zget fr 0 =? VAL_PKT_DATA then
    if negb (Z.land (zget fr 1) VAL_DATA_OFFSET_PRESENT =? 0)
    then [(Some (VAL_GET_LE64 (zdrop 8 fr)), zslice fr 16 (zlen fr - 20))]
    else [(None, zslice fr 8 (zlen fr - 12))]
  else [].
Lemma frame_head crc type d off incl : zget (packet_frame crc type d off incl) 0 = u8 (u8 type).
Proof. reflexivity. Qed.
Lemma frame_flags crc type d off incl : zget (packet_frame crc type d off incl) 1 = u8 (flags_of type incl).
Proof. reflexivity. Qed.
Lemma carried_data crc d off incl : 0 <= off < 2 ^ 64 →
  carried (packet_frame crc VAL_PKT_DATA d off incl) = [(if incl then Some off else None, d)].
Proof.
  intros Ho. unfold carried. rewrite frame_head, frame_flags. change (u8 (u8 VAL_PKT_DATA) =? VAL_PKT_DATA) with true.
  assert (Ei : negb (Z.land (u8 (flags_of VAL_PKT_DATA incl)) VAL_DATA_OFFSET_PRESENT =? 0) = incl) by (by destruct incl).
  cbv iota. rewrite Ei. pose proof (zlen_nonneg d). unfold packet_frame. rewrite zlen_frame.
  unfold frame_of, frame_body, content_of. change (VAL_PKT_DATA =? VAL_PKT_DATA) with true. cbv iota.
  set (h := val_serialize_frame_header _ _ _ _). assert (Hh : zlen h = 8) by done. set (t := VAL_PUT_LE32 _). destruct incl.
  - rewrite zlen_app, zlen_put64. rewrite <- !(assoc_L (++)). rewrite (zdrop_app_exact 8 h) by done.
    rewrite get_put64, u64_small by done. unfold zslice. rewrite (assoc_L (++) h).
    rewrite zdrop_app_exact by (rewrite zlen_app, zlen_put64; lia). rewrite ztake_app_exact by lia. done.
  - rewrite <- !(assoc_L (++)). unfold zslice. rewrite zdrop_app_exact by done. rewrite ztake_app_exact by lia. done.
Qed.
Lemma carried_other crc type d off incl : u8 type ≠ VAL_PKT_DATA → carried (packet_frame crc type d off incl) = [].
Proof.
  intros Ht. unfold carried. rewrite frame_head. rewrite u8_small by apply u8_range.
  by destruct (Z.eqb_spec (u8 type) VAL_PKT_DATA).
Qed.

(** The answer of a receiver at position [p], and the position behind it. *)
Definition peer_reply (fr : list Z) (p : Z) : list Z * Z :=
  let ack type off := packet_frame val_crc32 type [] off true in
  match carried fr with
  | (o, d) :: _ =>
      let off := default p o in
      if off =? p then (ack VAL_PKT_DATA_ACK (p + zlen d), p + zlen d)
      else if off <? p then (ack VAL_PKT_DATA_ACK p, p)
      else (packet_frame val_crc32 VAL_PKT_DATA_NAK (VAL_PUT_LE32 1) p false ++ ack VAL_PKT_DATA_ACK p, p)
  | [] => if zget fr 0 =? VAL_PKT_DONE then (ack VAL_PKT_DONE_ACK p, p) else ([], p)
  end.
(** What it writes. *)
Definition peer_writes (fr : list Z) (p : Z) : list Z :=
  match carried fr with
  | (o, d) :: _ => if default p o =? p then d else []
  | [] => []
  end.
Lemma peer_position fr p : snd (peer_reply fr p) = p + zlen (peer_writes fr p).
Proof. unfold peer_reply, peer_writes. repeat case_match; cbn [snd]; rewrite ?zlen_nil; lia. Qed.
Lemma packet_frame_bytes crc type d off incl : bytes_ok d → bytes_ok (packet_frame crc type d off incl).
Proof.
  intros Hd. unfold packet_frame, frame_of. apply bytes_ok_app. split; [|apply put32_ok].
  by apply body_bytes, content_bytes.
Qed.
Lemma reply_bytes fr p : bytes_ok (fst (peer_reply fr p)).
Proof.
  assert (Ha : ∀ type off, bytes_ok (packet_frame val_crc32 type [] off true)) by (intros; apply packet_frame_bytes; constructor).
  unfold peer_reply. destruct (carried fr) as [|[o d] l]; cbv zeta.
  { destruct (_ =? _); [apply Ha|constructor]. }
  destruct (_ =? p); [apply Ha|]. destruct (_ <? p); [apply Ha|]. cbn [fst]. apply bytes_ok_app. split; [apply packet_frame_bytes, put32_ok|apply Ha].
Qed.

(** ** The environment *)

(** A simulated file system and clock, the stream that arrives, the receiver's file
    - its position is the length - and which of the next frames are lost. *)
Record peer := mk_peer { pe_sim : sim; pe_in : list Z; pe_file : list Z; pe_drop : list bool }.
Definition on_sim {A} (h : sim → A * sim) (e : peer) : A * peer :=
  let '(a, s) := h (pe_sim e) in (a, mk_peer s (pe_in e) (pe_file e) (pe_drop e)).
Definition peer_send (fr : list Z) (e : peer) : Z * peer :=
  (zlen fr,
   if head (pe_drop e) is Some true then mk_peer (pe_sim e) (pe_in e) (pe_file e) (tail (pe_drop e))
   else mk_peer (pe_sim e) (pe_in e ++ fst (peer_reply fr (zlen (pe_file e))))
          (pe_file e ++ peer_writes fr (zlen (pe_file e))) (tail (pe_drop e))).
Definition peer_recv (n t : Z) (e : peer) : (Z * list Z) * peer :=
  match pe_in e with
  | [] => ((0, []), mk_peer (sim_ticks (Z.max 1 t) (pe_sim e)) [] (pe_file e) (pe_drop e))
  | l => ((0, ztake n l), mk_peer (pe_sim e) (zdrop n l) (pe_file e) (pe_drop e))
  end.
#[export] Instance peer_hooks : Hooks peer := {|
  hk_send := peer_send;
  hk_recv := peer_recv;
  hk_is_connected e := (1, e);
  hk_flush e := e;
  hk_fopen p m := on_sim (sim_fopen p m);
  hk_fread h n := on_sim (sim_fread h n);
  hk_fwrite h d := on_sim (sim_fwrite h d);
  hk_fseek h o wh := on_sim (sim_fseek h o wh);
  hk_ftell h e := (snd (fst (sim_get h (pe_sim e))), e);
  hk_fclose _ e := e;
  hk_crc32 _ data := val_crc32 data;
  hk_get_ticks_ms e := (sim_now (pe_sim e), e);
  hk_delay_ms ms e := mk_peer (sim_ticks ms (pe_sim e)) (pe_in e) (pe_file e) (pe_drop e);
  hk_on_file_start _ _ _ _ e := (false, e);
  hk_on_file_complete _ _ _ e := (false, e);
  hk_on_progress _ e := (false, e);
  hk_validator _ _ e := (0, e);
  hk_on_packet _ e := e;
  hk_append p d := λ e, mk_peer (sim_append p d (pe_sim e)) (pe_in e) (pe_file e) (pe_drop e)
|}.

#[export] Program Instance peer_link : StreamLink peer := {|
  link_ok e := bytes_ok (pe_in e);
  link_in := pe_in;
  link_now e := u32 (sim_now (pe_sim e))
|}.
Next Obligation. done. Qed.
Next Obligation.
  intros n t [s l p dr] Hb Hn. cbn in *. unfold peer_recv. cbn. destruct l as [|z l]; [change (zlen (@nil Z)) with 0 in Hn; lia|].
  split; [lia|]. split; [by apply bytes_ok_zdrop|]. split; [done|].
  pose proof (zlen_nonneg l). pose proof (zlen_cons z l). exists (Z.min n (zlen (z :: l))). split; [lia|].
  destruct (Z.le_ge_cases n (zlen (z :: l))); [rewrite Z.min_l by lia; by split|]. rewrite Z.min_r by lia.
  rewrite !ztake_all by lia. split; [done|]. unfold zdrop, zlen in *. rewrite !drop_ge by lia. done.
Qed.
Next Obligation. done. Qed.
Next Obligation. done. Qed.

#[export] Program Instance peer_store : FileStore peer := {|
  fs_ok h e := fs_ok h (pe_sim e);
  fs_data h e := fs_data h (pe_sim e);
  fs_pos h e := fs_pos h (pe_sim e)
|}.
Next Obligation. intros h e. apply (fs_bytes h (pe_sim e)). Qed.
Next Obligation.
  intros h o e Ho Hr. pose proof (fs_seek_law h o (pe_sim e) Ho Hr) as Hs. cbn in Hs |- *. unfold on_sim.
  by destruct (sim_fseek h o SEEK_SET (pe_sim e)).
Qed.
Next Obligation.
  intros h n e Ho Hp Hn. pose proof (fs_read_law h n (pe_sim e) Ho Hp Hn) as Hs. cbn in Hs |- *. unfold on_sim.
  by destruct (sim_fread h n (pe_sim e)).
Qed.
