(* ===== verification/Sender.v ===== *)
(** Sending files ([src/val_sender.c]).

    A file is announced (SEND_META), the resume offset is negotiated, and its bytes
    go out in windows of DATA packets.  Only a packet sent at the acknowledged
    position carries its offset; the others leave it to the receiver's position.  An
    acknowledgement slides the window, a NAK or a timeout rewinds to the last
    acknowledged byte (Go-Back-N).  DONE and, after the last file, EOT end it. *)
From S2P Require Import Prelude ByteOrder Wire Errors Crc Sanitize Timing Session Simulation Window Packet Frame Control Handshake Resume.

(** ** Names and metadata *)

(** The scan for the last separator: [base] is where the name starts. *)
Fixpoint base_scan (p base : list Z) : list Z :=
  match p with
  | [] => base
  | c :: p' => if c =? 0 then base else base_scan p' (if is_sep c then p' else base)
  end.
Definition basename (filepath : list Z) : list Z := base_scan filepath filepath.

(** A [char[n]] array holding a text: the text, its NUL and zeros. *)
Definition char_array (n : Z) (txt : list Z) : list Z :=
  let t := fst (snprintf_text n txt) in t ++ repeat 0 (Z.to_nat (n - zlen t)).

Definition build_meta (sender_path : option (list Z)) (file_size : Z) (filename : list Z)
    : val_meta_payload_t :=
  mk_meta (char_array (VAL_MAX_FILENAME + 1) filename)
    (match sender_path with
     | Some p => char_array (VAL_MAX_PATH + 1)
                   (match val_clean_path (Some p) (VAL_MAX_PATH + 1) with Some c => c | None => [] end)
     | None => repeat 0 (Z.to_nat (VAL_MAX_PATH + 1))
     end) file_size.

(** ** Progress *)

Record val_send_progress_ctx_t := mk_progress_ctx {
  pc_total_files : Z; pc_files_sent : Z; pc_batch_total_bytes : Z; pc_batch_sent_bytes : Z;
  pc_current_file_bytes : Z; pc_current_file_sent : Z; pc_start_ms : Z; pc_last_emit_tick : Z
}.
#[export] Instance eta_progress_ctx : Eta val_send_progress_ctx_t := λ r, mk_progress_ctx
  (pc_total_files r) (pc_files_sent r) (pc_batch_total_bytes r) (pc_batch_sent_bytes r)
  (pc_current_file_bytes r) (pc_current_file_sent r) (pc_start_ms r) (pc_last_emit_tick r).
#[export] Instance set_pc_current_file_sent : Setter pc_current_file_sent. Proof. derive_setter. Defined.
#[export] Instance set_pc_start_ms : Setter pc_start_ms. Proof. derive_setter. Defined.
#[export] Instance set_pc_last_emit_tick : Setter pc_last_emit_tick. Proof. derive_setter. Defined.

(** [eta_seconds]. *)
Definition progress_eta (total transferred elapsed_ms rate : Z) : Z :=
  if (0 <? elapsed_ms) && (transferred <? total) && (0 <? rate)
  then u32 ((total - transferred) / rate) else 0.

Section sender.
Context {E : Type} `{!Hooks E} `{!BuildOptions}.

(** Status, [*out_size] and [out_filename]. *)
Definition get_file_size_and_name (filepath : list Z) : M (world E) (Z * Z * list Z) :=
  let! f := fs_fopen filepath ModeRead in
  match f with
  | None =>
    do! val_internal_set_error_detailed VAL_ERR_IO VAL_ERROR_DETAIL_FILE_NOT_FOUND in
    mret (VAL_ERR_IO, 0, [])
  | Some f =>
    let fail := do! fs_fclose f in
                do! val_internal_set_error_detailed VAL_ERR_IO VAL_ERROR_DETAIL_PERMISSION in
                mret (VAL_ERR_IO, 0, []) in
    let! r := fs_fseek f 0 SEEK_END in
    if negb (r =? 0) then fail
    else
      let! sz := fs_ftell f in
      if sz <? 0 then fail
      else
        let! r := fs_fseek f 0 SEEK_SET in
        if negb (r =? 0) then fail
        else
          do! fs_fclose f in
          let cleaned := match val_clean_filename (Some (basename filepath)) (VAL_MAX_FILENAME + 1) with
                         | Some t => t | None => [] end in
          mret (VAL_OK, u64 sz, fst (snprintf_text (VAL_MAX_FILENAME + 1) cleaned))
  end.

Definition send_metadata (sender_path : option (list Z)) (file_size : Z) (filename : list Z)
    : M (world E) Z :=
  val_internal_send_packet VAL_PKT_SEND_META
    (PBytes (val_serialize_meta (build_meta sender_path file_size filename))) VAL_WIRE_META_SIZE 0.

Definition compute_crc_region (fuel : nat) (filepath : list Z) (end_offset length : Z)
    : M (world E) (Z * Z) :=
  if (length =? 0) || (end_offset <? length) then mret (VAL_ERR_INVALID_ARG, 0)
  else
    let! f := fs_fopen filepath ModeRead in
    match f with
    | None =>
      do! val_internal_set_error_detailed VAL_ERR_IO VAL_ERROR_DETAIL_PERMISSION in
      mret (VAL_ERR_IO, 0)
    | Some f =>
      let! ' (rst, crc) := val_internal_crc32_region fuel f (end_offset - length) length in
      do! fs_fclose f in
      if negb (rst =? VAL_OK) then mret (rst, 0) else mret (VAL_OK, crc)
    end.

(** The progress record of a batch, and what is left of the context. *)
Definition val_emit_progress_sender (ctx : option val_send_progress_ctx_t) (filename : list Z)
    (bytes_sent : Z) (force_emit : bool) : M (world E) (option val_send_progress_ctx_t) :=
  let! s := get_s in
  if negb (cfg_has_on_progress (s_cfg s)) then mret ctx
  else
    let! now := get_ticks_ms in
    match ctx with
    | Some c =>
      let c := if (pc_start_ms c =? 0) && negb (now =? 0) then c <| pc_start_ms := now |> else c in
      let c := c <| pc_current_file_sent := bytes_sent |> in
      let transferred := u64 (pc_batch_sent_bytes c + pc_current_file_sent c) in
      let elapsed_ms := if negb (pc_start_ms c =? 0) && (pc_start_ms c <=? now) then now - pc_start_ms c else 0 in
      let rate := progress_rate transferred elapsed_ms in
      let info := mk_progress transferred (pc_batch_total_bytes c) (pc_current_file_sent c)
                    (pc_files_sent c) (pc_total_files c) rate
                    (progress_eta (pc_batch_total_bytes c) transferred elapsed_ms rate) filename in
      if negb force_emit && negb (pc_last_emit_tick c =? 0) && negb (now =? 0)
         && (u32 (now - pc_last_emit_tick c) <? 50)
      then mret (Some c)
      else
        do! callback (hk_on_progress info) (EvProgress info) in
        mret (Some (c <| pc_last_emit_tick := now |>))
    | None =>
      let info := mk_progress bytes_sent 0 bytes_sent 0 0 0 0 filename in
      do! callback (hk_on_progress info) (EvProgress info) in
      mret None
    end.

(** ** The window: the local variables that the ACK handling shares *)

Record send_state := mk_send {
  ss_last_acked : Z;
  ss_next_to_send : Z;
  ss_inflight : Z;
  ss_win : Z;
  ss_grace : bool;
  ss_cursor : Z;                                (* the tracked file position *)
  ss_progress : option val_send_progress_ctx_t;
  ss_tries : Z;
  ss_backoff : Z
}.
#[export] Instance eta_send_state : Eta send_state := λ r, mk_send (ss_last_acked r)
  (ss_next_to_send r) (ss_inflight r) (ss_win r) (ss_grace r) (ss_cursor r) (ss_progress r)
  (ss_tries r) (ss_backoff r).
#[export] Instance set_ss_last_acked : Setter ss_last_acked. Proof. derive_setter. Defined.
#[export] Instance set_ss_next_to_send : Setter ss_next_to_send. Proof. derive_setter. Defined.
#[export] Instance set_ss_inflight : Setter ss_inflight. Proof. derive_setter. Defined.
#[export] Instance set_ss_win : Setter ss_win. Proof. derive_setter. Defined.
#[export] Instance set_ss_grace : Setter ss_grace. Proof. derive_setter. Defined.
#[export] Instance set_ss_cursor : Setter ss_cursor. Proof. derive_setter. Defined.
#[export] Instance set_ss_progress : Setter ss_progress. Proof. derive_setter. Defined.
#[export] Instance set_ss_tries : Setter ss_tries. Proof. derive_setter. Defined.
#[export] Instance set_ss_backoff : Setter ss_backoff. Proof. derive_setter. Defined.

(** ** Sending one DATA packet *)

(** [fread] into the payload area until [to_read] bytes are there or it gives none. *)
Definition read_payload_body (f : handle) (to_read have : Z) : M (world E) (Z + Z) :=
  if have <? to_read then
    let! got := fs_fread f (to_read - have) in
    do! upd (λ s, s <| s_send_buffer := zwrite (s_send_buffer s) (VAL_WIRE_HEADER_SIZE + have) got |>) in
    if zlen got =? 0 then mret (inr have) else mret (inl (have + zlen got))
  else mret (inr have).

Definition send_data_packet (fuel : nat) (f : handle) (max_payload file_size : Z) (include_offset : bool)
    (l : send_state) : M (world E) (Z * send_state) :=
  if max_payload =? 0 then mret (VAL_ERR_INVALID_ARG, l)
  else if file_size <=? ss_next_to_send l then mret (VAL_OK, l)
  else
    let remaining := file_size - ss_next_to_send l in
    if include_offset && (max_payload <=? 8) then mret (VAL_ERR_INVALID_ARG, l)
    else
      let max_payload_this_pkt := if include_offset then max_payload - 8 else max_payload in
      let to_read := if remaining <? max_payload_this_pkt then remaining else max_payload_this_pkt in
      if to_read =? 0 then mret (VAL_OK, l)
      else
        do! (if negb (ss_cursor l =? ss_next_to_send l)
             then let! _ := fs_fseek f (i64 (ss_next_to_send l)) SEEK_SET in mret tt
             else mret tt) in
        let l := l <| ss_cursor := ss_next_to_send l |> in
        let! have := loop fuel (read_payload_body f to_read) 0 in
        if negb (have =? to_read) then mret (VAL_ERR_IO, l)
        else
          let! st := val_internal_send_packet_ex VAL_PKT_DATA PContent (u32 to_read)
                       (ss_next_to_send l) include_offset in
          if negb (st =? VAL_OK) then mret (st, l)
          else
            mret (VAL_OK, l <| ss_next_to_send := u64 (ss_next_to_send l + to_read) |>
                            <| ss_cursor := u64 (ss_cursor l + to_read) |>
                            <| ss_inflight := u32 (ss_inflight l + 1) |>).

(** ** Rewinding *)

(** Back to the last acknowledged byte, in the file and in the window. *)
Definition rewind_file (f : handle) (last_acked : Z) : M (world E) unit :=
  let! curpos := fs_ftell f in
  if (curpos <? 0) || negb (u64 curpos =? last_acked)
  then let! _ := fs_fseek f (i64 last_acked) SEEK_SET in mret tt
  else mret tt.

Definition handle_nak_retransmit (f : handle) (l : send_state) : M (world E) send_state :=
  do! val_internal_record_transmission_error in
  do! val_metrics_inc_retrans in
  do! val_metrics_inc_timeout in
  do! set_in_retransmit_flag true in
  do! rewind_file f (ss_last_acked l) in
  mret (l <| ss_inflight := 0 |> <| ss_next_to_send := ss_last_acked l |>).

Definition session_window (s : val_session_t) : Z :=
  if s_current_window_packets s =? 0 then 1 else s_current_window_packets s.

(** ** Waiting for the window's acknowledgement *)

(** What is fixed during one wait ([val_sender_ack_ctx_t] without the pointers). *)
Record ack_ctx := mk_ack_ctx {
  ac_file : handle; ac_filename : list Z; ac_file_size : Z; ac_max_payload : Z;
  ac_target_ack : Z; ac_to_ack : Z; ac_tries_initial : Z; ac_backoff_initial : Z; ac_t0 : Z
}.

(** An advancing DATA_ACK. *)
Definition window_ack_advance (c : ack_ctx) (off : Z) (l : send_state)
    : M (world E) (send_state + Z * bool * send_state) :=
  let! s := get_s in
  do! (if negb (in_retransmit (s_timing s)) then val_internal_record_transmission_success else mret tt) in
  let l := l <| ss_last_acked := off |> in
  do! upd (λ s, s <| s_health_soft_trips := 0 |>) in
  let! p := val_emit_progress_sender (ss_progress l) (ac_filename c) (ss_last_acked l) true in
  let l := l <| ss_progress := p |> in
  let! cancelled := val_check_for_cancel in
  if (cancelled : bool) then mret (inr (VAL_ERR_ABORTED, false, l))
  else
    let outstanding := if ss_last_acked l <? ss_next_to_send l then ss_next_to_send l - ss_last_acked l else 0 in
    let l := l <| ss_inflight := u32 (u64 (outstanding + ac_max_payload c - 1) / ac_max_payload c) |> in
    let! _ := get_ticks_ms in                   (* wait_deadline, which nothing reads *)
    let l := l <| ss_tries := ac_tries_initial c |> <| ss_backoff := ac_backoff_initial c |> in
    do! set_in_retransmit_flag false in
    if ss_last_acked l <? ac_target_ack c then mret (inl l) else mret (inr (VAL_OK, false, l)).

Definition window_ack_ack (c : ack_ctx) (off : Z) (l : send_state)
    : M (world E) (send_state + Z * bool * send_state) :=
  let! now := get_ticks_ms in
  do! upd (λ s, s <| s_last_keepalive_recv_time := now |>) in
  let! s := get_s in
  do! (if negb (ac_t0 c =? 0) && negb (in_retransmit (s_timing s))
       then let! now := get_ticks_ms in val_internal_record_rtt (u32 (now - ac_t0 c))
       else mret tt) in
  let l := l <| ss_grace := false |> in
  if off <=? ss_last_acked l then mret (inl l) else window_ack_advance c off l.

(** A NAK: adopt the receiver's position if it advances ours, and rewind. *)
Definition window_ack_nak (c : ack_ctx) (off : Z) (l : send_state)
    : M (world E) (send_state + Z * bool * send_state) :=
  let l := if (ss_last_acked l <? off) && (off <=? ac_file_size c)
           then l <| ss_last_acked := off |> else l in
  let! l := handle_nak_retransmit (ac_file c) l in
  let! s := get_s in
  mret (inr (VAL_OK, true, l <| ss_cursor := ss_last_acked l |> <| ss_win := session_window s |>)).

(** TIMEOUT or CRC with retries left: rewind and ask for a restart of the window. *)
Definition window_ack_retry (c : ack_ctx) (st : Z) (l : send_state)
    : M (world E) (send_state + Z * bool * send_state) :=
  do! VAL_HEALTH_RECORD_RETRY in
  do! (if st =? VAL_ERR_CRC then val_metrics_inc_crcerr else mret tt) in
  do! (if st =? VAL_ERR_TIMEOUT then val_metrics_inc_timeout else mret tt) in
  do! val_internal_record_transmission_error in
  do! val_metrics_inc_retrans in
  do! set_in_retransmit_flag true in
  do! rewind_file (ac_file c) (ss_last_acked l) in
  let! s := get_s in
  mret (inr (VAL_OK, true,
             l <| ss_cursor := ss_last_acked l |> <| ss_inflight := 0 |>
               <| ss_next_to_send := ss_last_acked l |> <| ss_win := session_window s |>
               <| ss_tries := if ss_tries l =? 0 then ss_tries l else u8 (ss_tries l - 1) |>
               <| ss_backoff := 0 |>)).

Definition window_ack_body (fuel : nat) (c : ack_ctx) (l : send_state)
    : M (world E) (send_state + Z * bool * send_state) :=
  let! cancelled := val_check_for_cancel in
  if (cancelled : bool) then mret (inr (VAL_ERR_ABORTED, false, l))
  else
    let! now_wait := get_ticks_ms in
    let deadline := u32 (now_wait + (if ac_to_ack c =? 0 then 1 else ac_to_ack c)) in
    let! ' (st, pkt, _) := val_internal_recv_until_deadline fuel deadline 5 (local_array 32) in
    if st =? VAL_OK then
      if pkt_type pkt =? VAL_PKT_CANCEL then mret (inr (VAL_ERR_ABORTED, false, l))
      else if pkt_type pkt =? VAL_PKT_DATA_NAK then window_ack_nak c (pkt_off pkt) l
      else if pkt_type pkt =? VAL_PKT_DATA_ACK then window_ack_ack c (pkt_off pkt) l
      else if pkt_type pkt =? VAL_PKT_ERROR then mret (inr (VAL_ERR_PROTOCOL, false, l))
      else mret (inl l)
    else if negb (st =? VAL_ERR_TIMEOUT) && negb (st =? VAL_ERR_CRC) then mret (inr (st, false, l))
    else if ss_tries l =? 0 then
      do! (if st =? VAL_ERR_TIMEOUT
           then do! VAL_SET_TIMEOUT_ERROR VAL_ERROR_DETAIL_TIMEOUT_ACK in val_metrics_inc_timeout
           else VAL_SET_CRC_ERROR VAL_ERROR_DETAIL_PACKET_CORRUPT) in
      mret (inr (st, false, l))
    else window_ack_retry c st l.

(** Status, [*restart_window] and the shared variables. *)
Definition wait_for_window_ack (fuel : nat) (c : ack_ctx) (l : send_state)
    : M (world E) (Z * bool * send_state) :=
  loop fuel (window_ack_body fuel c) l.

(** [await_resume_ack], which no caller uses any more. *)
Definition await_resume_body (fuel : nat) (file_size to : Z) (l : Z * Z) : M (world E) (Z * Z + Z * Z) :=
  let '(tries, backoff) := l in
  do! VAL_HEALTH_RECORD_OPERATION in
  let! health := val_internal_check_health in
  if negb (health =? VAL_OK) then mret (inr (health, 0))
  else
    let! now := get_ticks_ms in
    let deadline := u32 (now + (if to =? 0 then 1 else to)) in
    let! ' (st, pkt, _) := val_internal_recv_until_deadline fuel deadline 5 (local_array 32) in
    if st =? VAL_OK then
      if pkt_type pkt =? VAL_PKT_CANCEL then mret (inr (VAL_ERR_ABORTED, 0))
      else if pkt_type pkt =? VAL_PKT_ERROR then mret (inr (VAL_ERR_PROTOCOL, 0))
      else if pkt_type pkt =? VAL_PKT_DATA_ACK then
        mret (inr (VAL_OK, if file_size <=? pkt_off pkt then UINT64_MAX else pkt_off pkt))
      else mret (inl l)
    else if (st =? VAL_ERR_TIMEOUT) || (st =? VAL_ERR_CRC) then
      if tries =? 0 then
        do! (if st =? VAL_ERR_TIMEOUT then VAL_SET_TIMEOUT_ERROR VAL_ERROR_DETAIL_TIMEOUT_ACK
             else VAL_SET_CRC_ERROR VAL_ERROR_DETAIL_PACKET_CORRUPT) in
        mret (inr (st, 0))
      else
        do! VAL_HEALTH_RECORD_RETRY in
        do! (if backoff =? 0 then mret tt else delay_ms backoff) in
        mret (inl (u8 (tries - 1), u32 (Z.shiftl backoff 1)))
    else mret (inr (st, 0)).
Definition await_resume_ack (fuel : nat) (file_size : Z) : M (world E) (Z * Z) :=
  let! to := val_internal_get_timeout VAL_OP_META in
  let! s := get_s in
  loop fuel (await_resume_body fuel file_size to)
    (cfg_ack_retries (s_cfg s), cfg_backoff_ms_base (s_cfg s)).

(** ** Sending a file *)

(** The way out of the data phase on an error: close the file and, unless the error
    came from the packet itself, tell the application. *)
Definition close_and_complete (f : handle) (name path : list Z) (st : Z) : M (world E) Z :=
  do! fs_fclose f in
  do! on_file_complete name path st in
  mret st.

(** Fill the window. [inl] is a return from [send_file_data_adaptive]. *)
Definition fill_window_body (fuel : nat) (f : handle) (name path : list Z) (size max_payload : Z)
    (l : send_state) : M (world E) (send_state + (Z + send_state)) :=
  if (ss_inflight l <? ss_win l) && (ss_next_to_send l <? size) then
    let! cancelled := val_check_for_cancel in
    if (cancelled : bool) then
      let! st := close_and_complete f name path VAL_ERR_ABORTED in mret (inr (inl st))
    else
      let include_offset := ss_next_to_send l =? ss_last_acked l in
      let! ' (send_status, l) := send_data_packet fuel f max_payload size include_offset l in
      if negb (send_status =? VAL_OK) then do! fs_fclose f in mret (inr (inl send_status))
      else mret (inl l)
  else mret (inr (inr l)).

(** One turn of the inner loop: fill the window and wait for its acknowledgement. *)
Definition window_turn (fuel : nat) (f : handle) (name path : list Z) (size max_payload : Z)
    (ack_timeout_ms : Z) (l : send_state) : M (world E) (send_state + (Z + send_state)) :=
  let! r := loop fuel (fill_window_body fuel f name path size max_payload) l in
  match r with
  | inl st => mret (inr (inl st))
  | inr l =>
    let! s := get_s in
    let! t0 := get_ticks_ms in
    let! _ := get_ticks_ms in                   (* wait_deadline *)
    do! set_in_retransmit_flag false in
    let c := mk_ack_ctx f name size max_payload (ss_next_to_send l) ack_timeout_ms
               (cfg_ack_retries (s_cfg s)) (cfg_backoff_ms_base (s_cfg s)) t0 in
    let! ' (ack_status, restart_window, l) := wait_for_window_ack fuel c l in
    if negb (ack_status =? VAL_OK) then
      let! st := close_and_complete f name path ack_status in mret (inr (inl st))
    else if restart_window then
      let! s := get_s in mret (inl (l <| ss_win := session_window s |>))
    else mret (inr (inr l))
  end.

(** The health check of the outer loop: [None] to go on, or the status to return. *)
Definition data_health (f : handle) (name path : list Z) : M (world E) (option Z) :=
  do! VAL_HEALTH_RECORD_OPERATION in
  let! health := val_internal_check_health in
  if health =? VAL_OK then mret None
  else if health =? VAL_ERR_PERFORMANCE then
    do! val_internal_record_transmission_error in
    do! upd (λ s, s <| s_health_soft_trips := u32 (s_health_soft_trips s + 1) |>) in
    let! s := get_s in
    if 2 <=? s_health_soft_trips s then
      let! st := close_and_complete f name path VAL_ERR_PERFORMANCE in
      do! VAL_SET_PERFORMANCE_ERROR VAL_ERROR_DETAIL_EXCESSIVE_RETRIES in
      mret (Some st)
    else mret None
  else
    let! st := close_and_complete f name path health in mret (Some st).

(** [first_ack_extra_tries]. *)
Definition first_ack_extra_tries (resume_off : Z) : Z :=
  if 0 <? resume_off then
    let blocks := resume_off / (256 * 1024 * 1024) in
    if 6 <? blocks then 6 else u8 blocks
  else 0.

(** One turn of the outer loop: establish a window and see it acknowledged. *)
Definition send_windows_body (fuel : nat) (f : handle) (name path : list Z) (size max_payload resume_off : Z)
    (l : send_state) : M (world E) (send_state + (Z + send_state)) :=
  if ss_last_acked l <? size then
    let! cancelled := val_check_for_cancel in
    if (cancelled : bool) then
      let! st := close_and_complete f name path VAL_ERR_ABORTED in mret (inr (inl st))
    else
      let! h := data_health f name path in
      match h with
      | Some st => mret (inr (inl st))
      | None =>
        let! to_ack_base := val_internal_get_timeout VAL_OP_DATA_ACK in
        let! s := get_s in
        let cfg := s_cfg s in
        let first := ss_grace l && (ss_last_acked l =? resume_off) in
        let ext := if cfg_max_timeout_ms cfg =? 0 then to_ack_base else cfg_max_timeout_ms cfg in
        let ack_timeout_ms := if first && (to_ack_base <? ext) then ext else to_ack_base in
        let tries_rem := if cfg_ack_retries cfg =? 0 then 1 else cfg_ack_retries cfg in
        let tries_rem := if first then u8 (tries_rem + first_ack_extra_tries resume_off) else tries_rem in
        let l := l <| ss_tries := tries_rem |> <| ss_backoff := cfg_backoff_ms_base cfg |> in
        let! r := loop fuel (window_turn fuel f name path size max_payload ack_timeout_ms) l in
        match r with
        | inl st => mret (inr (inl st))
        | inr l => mret (inl l)
        end
      end
  else mret (inr (inr l)).

(** The receiver wants no data: DONE and its acknowledgement. *)
Definition send_skipped (fuel : nat) (name path : list Z) (size : Z) : M (world E) Z :=
  do! on_file_start name path size size in
  let! st := val_internal_send_packet VAL_PKT_DONE PNull 0 size in
  if negb (st =? VAL_OK) then mret st
  else
    let! st := val_internal_wait_done_ack fuel size in
    if negb (st =? VAL_OK) then do! on_file_complete name path st in mret st
    else
      do! on_file_complete name path VAL_SKIPPED in
      do! val_metrics_inc_files_sent in
      mret VAL_OK.

(** After the last window: DONE, its acknowledgement, and the file is complete. *)
Definition send_done (fuel : nat) (f : handle) (name path : list Z) (size : Z) : M (world E) Z :=
  let! st := val_internal_send_packet VAL_PKT_DONE PNull 0 size in
  if negb (st =? VAL_OK) then close_and_complete f name path st
  else
    let! st := val_internal_wait_done_ack fuel size in
    if negb (st =? VAL_OK) then close_and_complete f name path st
    else
      do! fs_fclose f in
      do! on_file_complete name path VAL_OK in
      do! val_metrics_inc_files_sent in
      do! val_internal_record_transmission_success in
      mret VAL_OK.

(** The data phase, from the open file on. Status and progress context. *)
Definition send_file_body (fuel : nat) (f : handle) (name path : list Z) (size resume_off win : Z)
    (prog : option val_send_progress_ctx_t) : M (world E) (Z * option val_send_progress_ctx_t) :=
  do! on_file_start name path size resume_off in
  let! prog := val_emit_progress_sender prog name resume_off true in
  let! cancelled := val_check_for_cancel in
  if (cancelled : bool) then
    let! st := close_and_complete f name path VAL_ERR_ABORTED in mret (st, prog)
  else
    let! s := get_s in
    let mtu_bytes := session_mtu s in
    if mtu_bytes <=? VAL_WIRE_HEADER_SIZE + VAL_WIRE_TRAILER_SIZE then
      do! fs_fclose f in mret (VAL_ERR_INVALID_ARG, prog)
    else
      let max_payload := u32 (mtu_bytes - VAL_WIRE_HEADER_SIZE - VAL_WIRE_TRAILER_SIZE) in
      let l := mk_send resume_off resume_off 0 win (0 <? resume_off) resume_off prog 0 0 in
      let! r := loop fuel (send_windows_body fuel f name path size max_payload resume_off) l in
      match r with
      | inl st => mret (st, prog)
      | inr l => let! st := send_done fuel f name path size in mret (st, ss_progress l)
      end.

Definition send_file_data_adaptive (fuel : nat) (filepath : list Z) (sender_path : option (list Z))
    (prog : option val_send_progress_ctx_t) : M (world E) (Z * option val_send_progress_ctx_t) :=
  let! s := get_s in
  let win := if negb (s_current_window_packets s =? 0) then s_current_window_packets s
             else if negb (s_negotiated_window_packets s =? 0) then s_negotiated_window_packets s else 1 in
  let! ' (st, size, filename) := get_file_size_and_name filepath in
  if negb (st =? VAL_OK) then mret (st, prog)
  else
    let reported_path := match sender_path with
                         | Some (c :: p) => if c =? 0 then filepath else c :: p
                         | _ => filepath end in
    let! st := send_metadata (Some reported_path) size filename in
    if negb (st =? VAL_OK) then mret (st, prog)
    else
      let! ' (rs, resume_off) := handle_resume_negotiation fuel size filepath in
      if negb (rs =? VAL_OK) then mret (rs, prog)
      else if resume_off =? UINT64_MAX then
        let! st := send_skipped fuel filename reported_path size in mret (st, prog)
      else
        let! f := fs_fopen filepath ModeRead in
        match f with
        | None => mret (VAL_ERR_IO, prog)
        | Some f =>
          let! r := (if resume_off =? 0 then mret 0 else fs_fseek f (i64 resume_off) SEEK_SET) in
          if negb (r =? 0) then do! fs_fclose f in mret (VAL_ERR_IO, prog)
          else send_file_body fuel f filename reported_path size resume_off win prog
        end.

Definition val_internal_send_file (fuel : nat) (filepath : list Z) (sender_path : option (list Z))
    (prog : option val_send_progress_ctx_t) : M (world E) (Z * option val_send_progress_ctx_t) :=
  send_file_data_adaptive fuel filepath sender_path prog.

(** ** A batch *)

Fixpoint scan_sizes (filepaths : list (list Z)) (total : Z) : M (world E) Z :=
  match filepaths with
  | [] => mret total
  | p :: ps =>
      let! ' (st, sz, _) := get_file_size_and_name p in
      scan_sizes ps (if st =? VAL_OK then u64 (total + sz) else total)
  end.
Fixpoint send_all (fuel : nat) (filepaths : list (list Z)) (sender_path : option (list Z))
    (prog : option val_send_progress_ctx_t) : M (world E) Z :=
  match filepaths with
  | [] => mret VAL_OK
  | p :: ps =>
      let! ' (st, prog) := val_internal_send_file fuel p sender_path prog in
      if negb (st =? VAL_OK) then mret st else send_all fuel ps sender_path prog
  end.

Definition send_batch (fuel : nat) (filepaths : list (list Z)) (sender_path : option (list Z))
    : M (world E) Z :=
  let! hs := val_internal_do_handshake_sender fuel in
  if negb (hs =? VAL_OK) then mret hs
  else
    let! total := scan_sizes filepaths 0 in
    let! start_ms := get_ticks_ms in
    let prog := mk_progress_ctx (u32 (zlen filepaths)) 0 total 0 0 0 start_ms 0 in
    let! st := send_all fuel filepaths sender_path (Some prog) in
    if negb (st =? VAL_OK) then mret st
    else
      let! st := val_internal_send_packet VAL_PKT_EOT PNull 0 0 in
      if negb (st =? VAL_OK) then mret st else val_internal_wait_eot_ack fuel.

(** Every return of [val_send_files] after the lock is preceded by the unlock. *)
Definition val_send_files (fuel : nat) (filepaths : list (list Z)) (sender_path : option (list Z))
    : M (world E) Z :=
  if zlen filepaths =? 0 then mret VAL_ERR_INVALID_ARG
  else
    do! val_internal_lock in
    let! st := send_batch fuel filepaths sender_path in
    do! val_internal_unlock in
    mret st.

End sender.

(** ** What sending keeps *)

Section sender_safe.
Context {E : Type} `{!Hooks E} `{!BuildOptions} {c : val_config_t}.

Lemma safe_size_and_name p : safe c 0 (get_file_size_and_name p).
Proof. unfold get_file_size_and_name. safe_auto. Qed.
Lemma safe_send_metadata p sz n : safe c 0 (send_metadata p sz n).
Proof. unfold send_metadata. safe_auto. Qed.
Lemma safe_compute_crc fuel p e l : safe c 0 (compute_crc_region fuel p e l).
Proof. unfold compute_crc_region. safe_auto. Qed.
Lemma safe_emit_progress ctx n b force : safe c 0 (val_emit_progress_sender ctx n b force).
Proof. unfold val_emit_progress_sender. safe_auto. Qed.

(** The payload read into the send buffer stays within it and is what was asked for. *)
Lemma read_payload_have fuel f to_read : 0 <= to_read → 8 + to_read <= cfg_packet_size c →
  safe_post c 0 (loop fuel (read_payload_body f to_read) 0) (λ have, have <= to_read).
Proof.
  intros Ht Hfit. apply (safe_post_loop _ _ _ (λ have, 0 <= have <= to_read)); [lia|].
  intros have Hh. unfold read_payload_body.
  destruct (Z.ltb_spec have to_read); [|apply safe_post_ret; lia].
  intros w Hw Hc. apply wp_bind. eapply wp_mono; [apply fs_fread_spec; lia|].
  intros got w1 (E1 & Hg & Hgb). rewrite <- E1 in *. pose proof (zlen_nonneg got).
  apply wp_bind, wp_mod. cbv beta. cbn [w_s].
  set (s1 := _ <| s_send_buffer := _ |>).
  assert (Hst : stable 0 (w_s w1) s1).
  { pose proof (sok_send _ Hw) as Hb. rewrite Hc in Hb.
    assert (Hz : zlen (zwrite (s_send_buffer (w_s w1)) (VAL_WIRE_HEADER_SIZE + have) got)
                 = zlen (s_send_buffer (w_s w1))) by (unfold VAL_WIRE_HEADER_SIZE; apply zlen_zwrite; lia).
    split; [|repeat split; cbn; lia]. destruct Hw. constructor; try done. cbn. lia. }
  destruct (zlen got =? 0); apply wp_ret; (split; [exact Hst|lia]).
Qed.

Lemma safe_data_frame n off (incl : bool) mtu : 0 <= n → 20 <= mtu <= cfg_packet_size c →
  n <= mtu - 12 - (if incl then 8 else 0) →
  safe c 0 (val_internal_send_packet_ex VAL_PKT_DATA PContent n off incl).
Proof.
  intros Hn Hm Hfit. apply safe_send_core; [done|]. unfold content_room. cbn [andb Z.eqb].
  change (VAL_PKT_DATA =? VAL_PKT_DATA) with true. destruct incl; cbn [andb]; lia.
Qed.

Lemma safe_send_data fuel f mtu size incl l : 20 <= mtu <= cfg_packet_size c → mtu <= 2 ^ 31 →
  safe c 0 (send_data_packet fuel f (mtu - 12) size incl l).
Proof.
  intros Hm Hbig. unfold send_data_packet. destruct (_ =? 0); [safe_auto|].
  destruct (Z.leb_spec size (ss_next_to_send l)); [safe_auto|].
  destruct (incl && _) eqn:Ei; [safe_auto|]. cbv zeta.
  set (mp := if incl then _ else _).
  set (n := if _ <? mp then _ else mp).
  assert (Hmp : 0 <= mp <= mtu - 12 - (if incl then 8 else 0)).
  { unfold mp. destruct incl; cbn [andb] in Ei; lia. }
  assert (Hn : 0 <= n <= mp) by (unfold n; destruct (Z.ltb_spec (size - ss_next_to_send l) mp); lia).
  clearbody n mp. destruct (n =? 0); [safe_auto|].
  apply safe_bind0; [safe_auto|intros _].
  apply safe_bind0; [eapply safe_post_safe, read_payload_have; destruct incl; lia|intros have].
  destruct (negb _); [safe_auto|]. rewrite u32_small by (destruct incl; lia).
  apply safe_bind0; [apply (safe_data_frame _ _ _ mtu); lia|intros st]. safe_auto.
Qed.

Lemma safe_rewind f o : safe c 0 (rewind_file f o).
Proof. unfold rewind_file. safe_auto. Qed.
Hint Resolve safe_size_and_name safe_send_metadata safe_emit_progress safe_rewind : safe.
Lemma safe_nak f l : safe c 0 (handle_nak_retransmit f l).
Proof. unfold handle_nak_retransmit. safe_auto. Qed.
Hint Resolve safe_nak : safe.
Lemma safe_window_nak a o l : safe c 0 (window_ack_nak a o l).
Proof. unfold window_ack_nak. safe_auto. Qed.
Lemma safe_ack_advance a o l : safe c 0 (window_ack_advance a o l).
Proof.
  unfold window_ack_advance. apply safe_get_bind. intros s Hs Hc.
  apply safe_bind0; [safe_auto|intros _]. cbv zeta. apply safe_bind0; [benign|intros _]. safe_auto.
Qed.
Hint Resolve safe_window_nak safe_ack_advance : safe.
Lemma safe_ack_ack a o l : safe c 0 (window_ack_ack a o l).
Proof.
  unfold window_ack_ack. apply safe_bind0; [safe_auto|intros now].
  apply safe_bind0; [benign|intros _]. safe_auto.
Qed.
Lemma safe_ack_retry a st l : safe c 0 (window_ack_retry a st l).
Proof. unfold window_ack_retry. safe_auto. Qed.
Hint Resolve safe_ack_ack safe_ack_retry : safe.
Lemma safe_window_ack fuel a l : safe c 0 (wait_for_window_ack fuel a l).
Proof. unfold wait_for_window_ack, window_ack_body. safe_auto. Qed.
Lemma safe_await_resume_ack fuel sz : safe c 0 (await_resume_ack fuel sz).
Proof. unfold await_resume_ack, await_resume_body. safe_auto. Qed.
Lemma safe_close_and_complete f n p st : safe c 0 (close_and_complete f n p st).
Proof. unfold close_and_complete. safe_auto. Qed.
Hint Resolve safe_window_ack safe_close_and_complete : safe.
Lemma safe_data_health f n p : safe c 0 (data_health f n p).
Proof.
  unfold data_health. do 2 (apply safe_bind0; [safe_auto|intros ?]).
  destruct (_ =? VAL_OK); [safe_auto|]. destruct (_ =? VAL_ERR_PERFORMANCE); [|safe_auto].
  apply safe_bind0; [safe_auto|intros ?]. apply safe_bind0; [benign|intros _]. safe_auto.
Qed.
Hint Resolve safe_data_health : safe.
Lemma safe_send_windows fuel f n p size mtu o l : 20 <= mtu <= cfg_packet_size c → mtu <= 2 ^ 31 →
  safe c 0 (loop fuel (send_windows_body fuel f n p size (mtu - 12) o) l).
Proof.
  intros Hm Hb. pose proof (λ incl l, safe_send_data fuel f mtu size incl l Hm Hb) as Hd.
  unfold send_windows_body, window_turn, fill_window_body. safe_auto.
Qed.
Lemma safe_send_skipped fuel n p sz : safe c 0 (send_skipped fuel n p sz).
Proof. unfold send_skipped. safe_auto. Qed.
Lemma safe_send_done fuel f n p sz : safe c 0 (send_done fuel f n p sz).
Proof. unfold send_done. safe_auto. Qed.
Hint Resolve safe_send_skipped safe_send_done : safe.
Lemma safe_send_file_body fuel f n p sz o win prog : safe c 0 (send_file_body fuel f n p sz o win prog).
Proof.
  unfold send_file_body. do 2 (apply safe_bind0; [safe_auto|intros ?]).
  apply safe_bind0; [safe_auto|intros [|]]; [safe_auto|]. apply safe_get_bind. intros s Hs Hc. cbv zeta.
  pose proof (session_mtu_range s Hs) as Hm. rewrite Hc in Hm.
  pose proof (cok_packet _ (sok_cfg _ Hs)) as Hp. rewrite Hc in Hp. unfold VAL_MAX_PACKET_SIZE in Hp.
  destruct (_ <=? _); [safe_auto|].
  unfold VAL_WIRE_HEADER_SIZE, VAL_WIRE_TRAILER_SIZE. rewrite u32_small by lia.
  replace (session_mtu s - 8 - 4) with (session_mtu s - 12) by lia.
  apply safe_bind0; [apply safe_send_windows; lia|intros [st|l]]; safe_auto.
Qed.
Hint Resolve safe_send_file_body : safe.
Lemma safe_send_file fuel path sp prog : safe c 0 (val_internal_send_file fuel path sp prog).
Proof. unfold val_internal_send_file, send_file_data_adaptive. safe_auto. Qed.
Hint Resolve safe_send_file : safe.
Lemma safe_scan_sizes ps t : safe c 0 (scan_sizes ps t).
Proof. revert t. induction ps as [|p ps IH]; intros t; cbn [scan_sizes]; safe_auto. Qed.
Lemma safe_send_all fuel ps sp prog : safe c 0 (send_all fuel ps sp prog).
Proof. revert prog. induction ps as [|p ps IH]; intros prog; cbn [send_all]; safe_auto. Qed.
Hint Resolve safe_scan_sizes safe_send_all : safe.
Lemma safe_send_batch fuel ps sp : safe c 0 (send_batch fuel ps sp).
Proof. unfold send_batch. safe_auto. Qed.
Hint Resolve safe_send_batch : safe.
Lemma safe_send_files fuel ps sp : safe c 0 (val_send_files fuel ps sp).
Proof. unfold val_send_files. safe_auto. Qed.
End sender_safe.

(** ** One DATA packet is one slice of the file *)

Section send_data.
Context {E : Type} `{!Hooks E} `{!FileStore E} `{!BuildOptions}.

Definition io_event (ev : event) : Prop :=
  match ev with EvSeek _ _ _ _ => True | EvRead _ _ _ => True | _ => False end.
(** Only file accesses between two worlds. *)
Definition accessed (w w' : world E) : Prop := ∃ evs, w_tr w' = evs ++ w_tr w ∧ Forall io_event evs.

(** The seek that [send_data_packet] makes when the tracked position is elsewhere. *)
Lemma position_file f next cursor w : fs_ok f (w_e w) → 0 <= next < 2 ^ 63 → next <= zlen (fs_data f (w_e w)) →
  cursor = fs_pos f (w_e w) →
  wpt (if negb (cursor =? next) then let! _ := fs_fseek f (i64 next) SEEK_SET in mret tt else mret tt)
    (λ _ w', w_s w' = w_s w ∧ fs_ok f (w_e w') ∧ fs_pos f (w_e w') = next ∧
             fs_data f (w_e w') = fs_data f (w_e w) ∧ accessed w w' ∧ (cursor = next → w_e w' = w_e w)) w.
Proof.
  intros Hf Hn Hfit Hc. destruct (Z.eqb_spec cursor next); cbn [negb].
  - apply wp_ret. split; [done|]. split; [done|]. split; [congruence|]. split; [done|]. split; [by exists []|done].
  - rewrite i64_small by lia. apply wp_bind, wp_lift. pose proof (fs_seek_law f next (w_e w) Hf ltac:(lia)) as Hs.
    destruct (hk_fseek f next SEEK_SET (w_e w)) as [r e]. destruct Hs as (-> & ? & ? & ?).
    apply wp_ret. cbn. repeat split; try done. exists [EvSeek f next SEEK_SET 0]. split; [done|]. by constructor.
Qed.

(** The payload lands behind the header. *)
Lemma read_payload_spec fuel f n w : session_ok (w_s w) → fs_ok f (w_e w) → 0 < n →
  8 + n <= cfg_packet_size (s_cfg (w_s w)) →
  0 <= fs_pos f (w_e w) → fs_pos f (w_e w) + n <= zlen (fs_data f (w_e w)) → (2 <= fuel)%nat →
  let d := zslice (fs_data f (w_e w)) (fs_pos f (w_e w)) n in
  wpt (loop fuel (read_payload_body f n) 0)
    (λ have w', have = n ∧ stable 0 (w_s w) (w_s w') ∧ (∃ b, w_s w' = w_s w <| s_send_buffer := b |>) ∧
       payload_data (s_send_buffer (w_s w')) PContent n d ∧ accessed w w' ∧ w_e w' = snd (hk_fread f n (w_e w))) w.
Proof.
  intros Hs Hf Hn Hfit Hp Hlen Hfuel d. pose proof (zlen_zslice _ _ n Hp ltac:(lia) Hlen) as Hd. fold d in Hd.
  destruct fuel as [|[|fuel]]; [lia|lia|]. cbn [loop]. apply wp_bind. unfold read_payload_body at 1.
  replace (0 <? n) with true by lia. apply wp_bind, wp_lift. rewrite Z.sub_0_r.
  pose proof (fs_read_law f n (w_e w) Hf Hp ltac:(lia)) as Hr.
  destruct (hk_fread f n (w_e w)) as [got e]. destruct Hr as (-> & _). fold d. cbn [fst snd].
  assert (Hb : bytes_ok d) by (apply bytes_ok_zslice, (fs_bytes f _ Hf)).
  assert (Hcut : cut n d = d) by (unfold cut; rewrite ztake_all by lia; by apply map_u8_id). rewrite Hcut.
  apply wp_bind, wp_mod. cbn [w_s]. replace (zlen d =? 0) with false by lia. apply wp_ret. cbn [mbind].
  apply wp_bind. unfold read_payload_body. replace (0 + zlen d <? n) with false by lia. apply wp_ret, wp_ret. cbn [w_s w_tr].
  pose proof (sok_send _ Hs) as Hbuf. unfold VAL_WIRE_HEADER_SIZE. rewrite Z.add_0_r.
  assert (Hz : zlen (zwrite (s_send_buffer (w_s w)) 8 d) = zlen (s_send_buffer (w_s w))) by (apply zlen_zwrite; lia).
  split; [lia|]. split; [split; [|repeat split; cbn; lia]; destruct Hs; constructor; try done; cbn; lia|].
  split; [by eexists|]. split.
  - cbn. unfold VAL_WIRE_HEADER_SIZE. split; [lia|]. split; [lia|].
    pose proof (zslice_zwrite (s_send_buffer (w_s w)) 8 d ltac:(lia) ltac:(lia)) as Hsl. by rewrite Hd in Hsl.
  - split; [|done]. exists [EvRead f n d]. split; [done|]. by constructor.
Qed.

Lemma accessed_trans w w' w'' : accessed w w' → accessed w' w'' → accessed w w''.
Proof.
  intros (a & Ea & Fa) (b & Eb & Fb). exists (b ++ a). split; [by rewrite Eb, Ea, (assoc_L (++))|by apply Forall_app].
Qed.

(** What a packet carries at [next]. *)
Definition payload_len (mtu size next : Z) (incl : bool) : Z :=
  Z.min (size - next) (mtu - 12 - (if incl then 8 else 0)).

(** Up to the send, which finds the slice behind the header. *)
Lemma send_data_rule fuel f size incl l w (Q : Z * send_state → world E → Prop) :
  session_ok (w_s w) → fs_ok f (w_e w) → (2 <= fuel)%nat →
  ss_cursor l = fs_pos f (w_e w) → 0 <= ss_next_to_send l < size →
  size <= zlen (fs_data f (w_e w)) → size < 2 ^ 63 →
  let mtu := session_mtu (w_s w) in let next := ss_next_to_send l in
  let n := payload_len mtu size next incl in
  (∀ w2, stable 0 (w_s w) (w_s w2) → (∃ b, w_s w2 = w_s w <| s_send_buffer := b |>) →
     payload_data (s_send_buffer (w_s w2)) PContent n (zslice (fs_data f (w_e w)) next n) → accessed w w2 →
     (ss_cursor l = next → w_e w2 = snd (hk_fread f n (w_e w))) →
     wpt (val_internal_send_packet_ex VAL_PKT_DATA PContent n next incl)
       (λ st, Q (if st =? VAL_OK then (VAL_OK, l <| ss_cursor := next + n |> <| ss_next_to_send := next + n |>
                                                 <| ss_inflight := u32 (ss_inflight l + 1) |>)
                 else (st, l <| ss_cursor := next |>))) w2) →
  wpt (send_data_packet fuel f (mtu - 12) size incl l) Q w.
Proof.
  intros Hs Hf Hfuel Hcur Hnext Hsize Hbig mtu next n Hk.
  pose proof (session_mtu_range _ Hs) as Hm. fold mtu in Hm.
  pose proof (cok_packet _ (sok_cfg _ Hs)) as Hmax. unfold VAL_MAX_PACKET_SIZE in Hmax.
  unfold send_data_packet. fold next. replace (mtu - 12 =? 0) with false by lia.
  replace (size <=? next) with false by lia. replace (incl && (mtu - 12 <=? 8)) with false by (destruct incl; lia).
  cbv zeta. set (mp := if incl then _ else mtu - 12).
  assert (En : (if size - next <? mp then size - next else mp) = n).
  { unfold n, payload_len, mp. fold mtu next. destruct incl; cbn [andb]; repeat case_match; lia. }
  rewrite En. assert (Hn : 0 < n <= mtu - 12 - (if incl then 8 else 0) ∧ next + n <= size)
    by (unfold n, payload_len; destruct incl; lia).
  replace (n =? 0) with false by lia. apply wp_bind.
  eapply wp_mono; [apply (position_file f next (ss_cursor l) w); [done|lia|lia|done]|].
  intros [] w1 (Es1 & Hf1 & Hp1 & Hd1 & Ha1 & He1). cbv beta. apply wp_bind.
  eapply wp_mono; [apply read_payload_spec; rewrite ?Es1, ?Hp1, ?Hd1; try done; destruct incl; lia|].
  rewrite Es1, Hp1, Hd1. intros have w2 (-> & St2 & U2 & Hpd & Ha2 & He2). rewrite Z.eqb_refl. cbn [negb].
  rewrite u32_small by (destruct incl; lia). apply wp_bind.
  eapply wp_mono; [apply (Hk w2); try done; [by eapply accessed_trans|intros E0; rewrite He2; by rewrite He1]|].
  cbv beta. intros st w3 HQ. destruct (Z.eqb_spec st VAL_OK) as [->|]; cbn [negb]; apply wp_ret; [|exact HQ].
  change (ss_next_to_send (l <| ss_cursor := next |>)) with next. change (ss_cursor (l <| ss_cursor := next |>)) with next.
  assert (0 <= next + n < 2 ^ 64) by (destruct incl; lia). rewrite u64_small by lia. by destruct l.
Qed.

(** The content of the packet fits. *)
Lemma data_room s mtu size next incl d : session_ok s → session_mtu s = mtu → next < size →
  let n := payload_len mtu size next incl in zlen d = n →
  zlen (content_of VAL_PKT_DATA d next incl) = n + (if incl then 8 else 0) ∧
  n + (if incl then 8 else 0) <= mtu - 12 ∧
  8 + content_room VAL_PKT_DATA n incl <= zlen (s_send_buffer s).
Proof.
  intros Hs Em Hlt n Hd. pose proof (session_mtu_range _ Hs) as Hm. rewrite Em in Hm.
  pose proof (sok_send _ Hs) as Hb.
  assert (0 < n <= mtu - 12 - (if incl then 8 else 0)) by (unfold n, payload_len; destruct incl; lia).
  assert (Hct : zlen (content_of VAL_PKT_DATA d next incl) = n + (if incl then 8 else 0)).
  { unfold content_of. change (VAL_PKT_DATA =? VAL_PKT_DATA) with true. cbv iota.
    destruct incl; rewrite ?zlen_app, ?zlen_put64, Hd; lia. }
  split; [done|]. split; [lia|]. unfold content_room. change (VAL_PKT_DATA =? VAL_PKT_DATA) with true.
  destruct incl; cbn [andb]; lia.
Qed.

Lemma send_data_spec fuel f size incl l w :
  session_ok (w_s w) → session_mtu (w_s w) < 2 ^ 16 + 12 → fs_ok f (w_e w) → (2 <= fuel)%nat →
  ss_cursor l = fs_pos f (w_e w) → 0 <= ss_next_to_send l < size →
  size <= zlen (fs_data f (w_e w)) → size < 2 ^ 63 →
  let mtu := session_mtu (w_s w) in let next := ss_next_to_send l in
  let n := payload_len mtu size next incl in
  let d := zslice (fs_data f (w_e w)) next n in
  wpt (send_data_packet fuel f (mtu - 12) size incl l)
    (λ (r : Z * send_state) w', ∃ w1, accessed w w1 ∧
       ((r = (VAL_ERR_IO, l <| ss_cursor := next |>) ∧ unconnected w1 ∧ quietly w1 w') ∨
        (sent (session_frame (w_s w) VAL_PKT_DATA d next incl) (fst r) w1 w' ∧
         snd r = if fst r =? VAL_OK
                 then l <| ss_cursor := next + n |> <| ss_next_to_send := next + n |>
                        <| ss_inflight := u32 (ss_inflight l + 1) |>
                 else l <| ss_cursor := next |>))) w.
Proof.
  intros Hs Hmtu Hf Hfuel Hcur Hnext Hsize Hbig mtu next n d. apply send_data_rule; try done.
  cbv zeta. fold mtu next n d. intros w2 [Hok2 _] [b Eb] Hpd Ha _.
  assert (U2 : unchanged (w_s w) (w_s w2)) by (by rewrite Eb).
  assert (Hmtu2 : session_mtu (w_s w2) = mtu) by (unfold mtu; by rewrite !session_mtu_ok, (unch_mtu _ _ U2)).
  destruct (zlen_payload_data _ _ _ _ Hpd) as [_ Hzd].
  destruct (data_room _ mtu size next incl d Hok2 Hmtu2 ltac:(lia) Hzd) as (Hct & Hfit & Hroom). fold n in Hct, Hfit, Hroom.
  eapply wp_mono; [apply (send_core_spec VAL_PKT_DATA PContent n next incl d w2); try done; lia|].
  cbv beta. intros st w3 Hres. exists w2. split; [done|].
  assert (Hframe : session_frame (w_s w2) VAL_PKT_DATA d next incl = session_frame (w_s w) VAL_PKT_DATA d next incl).
  { unfold session_frame, val_internal_crc32. by rewrite (unch_cfg _ _ U2). }
  rewrite Hframe in Hres. destruct Hres as [(-> & Hun & Hq)|[[_ Hsent]|[Hf' _]]].
  - by left.
  - right. destruct (Z.eqb_spec st VAL_OK) as [->|Hne]; [done|]. cbn [fst snd]. by rewrite (proj2 (Z.eqb_neq _ _) Hne).
  - exfalso. apply Hf'. unfold fits. lia.
Qed.
End send_data.

(** C22: one DATA packet carries one slice of the file. For a file of at least the
    announced size and a packet size below 2^16 + 12, [send_data_packet] puts on the wire the frame of exactly the bytes
    from [next_to_send] on, as many as the packet size and the end of the file allow,
    with the offset in front exactly when asked for; between the start and the frame it
    only seeks and reads. When the transport took the whole frame the position, the cursor and
    the count of packets in flight advance with it. In every other case - the transport took
    part of the frame or none, or said that it is not connected, and then nothing was sent -
    the status is VAL_ERR_IO and only the cursor changes: it is where the file was moved to. *)
Theorem send_data_packet_slices {E} `{!Hooks E} `{!FileStore E} fuel f size (incl : bool) (l : send_state) (w : world E) :
  session_ok (w_s w) → session_mtu (w_s w) < 2 ^ 16 + 12 → fs_ok f (w_e w) → (2 <= fuel)%nat →
  ss_cursor l = fs_pos f (w_e w) → 0 <= ss_next_to_send l < size →
  size <= zlen (fs_data f (w_e w)) → size < 2 ^ 63 →
  let mtu := session_mtu (w_s w) in let next := ss_next_to_send l in
  let n := Z.min (size - next) (mtu - 12 - (if incl then 8 else 0)) in
  let d := zslice (fs_data f (w_e w)) next n in
  wpt (send_data_packet fuel f (mtu - 12) size incl l)
    (λ (r : Z * send_state) w', ∃ w1, accessed w w1 ∧
       ((r = (VAL_ERR_IO, l <| ss_cursor := next |>) ∧ unconnected w1 ∧ quietly w1 w') ∨
        (sent (session_frame (w_s w) VAL_PKT_DATA d next incl) (fst r) w1 w' ∧
         snd r = if fst r =? VAL_OK
                 then l <| ss_cursor := next + n |> <| ss_next_to_send := next + n |>
                        <| ss_inflight := u32 (ss_inflight l + 1) |>
                 else l <| ss_cursor := next |>))) w.
Proof. intros. by apply send_data_spec. Qed.

(** The second packet of a window, the file position being elsewhere. *)
Definition slice_state : send_state := mk_send 0 492 1 4 false 0 None 3 100.
Lemma send_data_packet_slices_witness :
  wpt (send_data_packet 2 0 500 1300 false slice_state)
    (λ (r : Z * send_state) w', ∃ w1, accessed region_w w1 ∧
       ((r = (VAL_ERR_IO, mk_send 0 492 1 4 false 492 None 3 100) ∧ unconnected w1 ∧ quietly w1 w') ∨
        (sent (session_frame (E:=sim) demo_s VAL_PKT_DATA (zslice region_file 492 500) 492 false) (fst r) w1 w' ∧
         snd r = if fst r =? VAL_OK then mk_send 0 992 2 4 false 992 None 3 100
                 else mk_send 0 492 1 4 false 492 None 3 100))) region_w.
Proof.
  refine (@send_data_packet_slices sim sim_hooks sim_files_store 2 0 1300 false slice_state region_w
            demo_s_ok _ region_file_ok _ eq_refl _ _ _);
    first [lia | by vm_compute | vm_compute; split; [discriminate|reflexivity] ].
Defined.
