(* ===== verification/Receiver.v ===== *)
(** Receiving files ([src/val_receiver.c]: [val_internal_receive_files];
    [src/val_core.c]: [val_receive_files]).

    The receiver waits for metadata, negotiates where to resume, and then takes DATA
    packets: the next one in order is written and acknowledged, a repeated one is
    acknowledged again, one from further ahead is refused with a NAK.  The function
    is cut at its phases; [inl st] is always a return of the whole function. *)
From S2P Require Import Prelude ByteOrder Wire Errors Crc Sanitize Timing Session Records Window Packet Control Handshake Resume.

(** The C strings in a metadata struct: a [filename] without a NUL runs on into the
    fields after it. *)
Definition meta_memory (m : val_meta_payload_t) : list Z :=
  meta_filename m ++ meta_sender_path m ++ VAL_PUT_LE64 (meta_file_size m).
Definition meta_sender_string (m : val_meta_payload_t) : list Z :=
  c_string (meta_sender_path m ++ VAL_PUT_LE64 (meta_file_size m)).
Definition meta_clean_name (m : val_meta_payload_t) : list Z :=
  match val_clean_filename (Some (meta_memory m)) (VAL_MAX_FILENAME + 1) with
  | Some t => t | None => [] end.

(** The batch counters that survive from file to file. *)
Record batch := mk_batch { ba_transferred : Z; ba_files_completed : Z }.

(** The data phase's variables. *)
Record recv_state := mk_rx { rx_written : Z; rx_crc_state : Z; rx_pkts_since_ack : Z }.

Section receiver.
Context {E : Type} `{!Hooks E} `{!BuildOptions}.

(** The shared tail of the retry loops: back off, double, one retry less. *)
Definition plain_backoff (tries backoff : Z) : M (world E) (Z * Z) :=
  do! (if backoff =? 0 then mret tt else delay_ms backoff) in
  mret (u8 (tries - 1), if backoff =? 0 then backoff else u32 (Z.shiftl backoff 1)).

(** ** Waiting for metadata *)

Definition wait_meta_body (fuel : nat) (P to_meta : Z) (l : Z * Z) : M (world E) (Z * Z + (Z + packet)) :=
  let '(tries, backoff) := l in
  do! VAL_HEALTH_RECORD_OPERATION in
  let! health := val_internal_check_health in
  if negb (health =? VAL_OK) then mret (inr (inl health))
  else
    let! connected := val_internal_transport_is_connected in
    if negb connected then
      do! VAL_SET_NETWORK_ERROR VAL_ERROR_DETAIL_CONNECTION in mret (inr (inl VAL_ERR_IO))
    else
      let! cancelled := val_check_for_cancel in
      if (cancelled : bool) then mret (inr (inl VAL_ERR_ABORTED))
      else
        let! ' (st, pkt) := val_internal_recv_packet fuel (DstRecvBuffer P) to_meta in
        if st =? VAL_OK then mret (inr (inr pkt))
        else if negb (st =? VAL_ERR_TIMEOUT) || (tries =? 0) then
          do! (if (st =? VAL_ERR_TIMEOUT) && (tries =? 0)
               then do! VAL_SET_TIMEOUT_ERROR VAL_ERROR_DETAIL_TIMEOUT_META in val_metrics_inc_timeout_hard
               else mret tt) in
          mret (inr (inl st))
        else
          do! VAL_HEALTH_RECORD_RETRY in
          let! l := plain_backoff tries backoff in mret (inl l).

(** The packet that came instead of, or as, metadata. *)
Definition classify_meta (pkt : packet) : M (world E) (Z + val_meta_payload_t) :=
  if pkt_type pkt =? VAL_PKT_EOT then
    let! _ := val_internal_send_packet VAL_PKT_EOT_ACK PNull 0 0 in mret (inl VAL_OK)
  else if pkt_type pkt =? VAL_PKT_CANCEL then
    do! val_internal_set_last_error VAL_ERR_ABORTED 0 in mret (inl VAL_ERR_ABORTED)
  else if negb (pkt_type pkt =? VAL_PKT_SEND_META) || (pkt_len pkt <? VAL_WIRE_META_SIZE) then
    do! VAL_SET_PROTOCOL_ERROR VAL_ERROR_DETAIL_MALFORMED_PKT in mret (inl VAL_ERR_PROTOCOL)
  else
    let! s := get_s in mret (inr (val_deserialize_meta (s_recv_buffer s))).

Definition wait_meta (fuel : nat) (P : Z) : M (world E) (Z + val_meta_payload_t) :=
  let! to_meta := val_internal_get_timeout VAL_OP_META in
  let! s := get_s in
  let! r := loop fuel (wait_meta_body fuel P to_meta)
              (cfg_meta_retries (s_cfg s), cfg_backoff_ms_base (s_cfg s)) in
  match r with
  | inl st => mret (inl st)
  | inr pkt => classify_meta pkt
  end.

(** ** Negotiating the resume offset *)

(** VERIFY_FIRST on the receiver: wait for the request, compare CRCs, answer. [inr]
    is the result sent. [never] is the NEVER-mode copy of the code, which has no
    skip-on-mismatch. *)
Definition verify_reply (fuel : nat) (never : bool) (rr_wire full_output_path : list Z) : M (world E) (Z + Z) :=
  let! tov := val_internal_get_timeout VAL_OP_VERIFY in
  let! s := get_s in
  let! ' (vw, _, vbuf) := val_internal_wait_verify_request_rx fuel tov (cfg_ack_retries (s_cfg s))
    (cfg_backoff_ms_base (s_cfg s)) (Some rr_wire) (local_array VAL_WIRE_VERIFY_REQ_PAYLOAD_SIZE) in
  if negb (vw =? VAL_OK) then mret (inl vw)
  else
    let q := val_deserialize_verify_request vbuf in
    let! lf := fs_fopen full_output_path ModeRead in
    match lf with
    | None =>
      let resp := val_serialize_verify_response (mk_verify_response VAL_ERR_RESUME_VERIFY 0) in
      let! _ := val_internal_send_packet VAL_PKT_VERIFY (PBytes resp)
                  VAL_WIRE_VERIFY_RESP_PAYLOAD_SIZE (u64 VAL_ERR_RESUME_VERIFY) in
      mret (inl VAL_ERR_IO)
    | Some lf =>
      let! ' (crcst, local_crc) := val_internal_crc32_region fuel lf (vq_offset q) (vq_length q) in
      do! fs_fclose lf in
      let result := if (crcst =? VAL_OK) && (local_crc =? vq_crc q) then VAL_OK else VAL_ERR_RESUME_VERIFY in
      let result := if negb never && negb (result =? VAL_OK) && cfg_mismatch_skip (s_cfg s)
                    then VAL_SKIPPED else result in
      let resp := val_serialize_verify_response (mk_verify_response result local_crc) in
      let! _ := val_internal_send_packet VAL_PKT_VERIFY (PBytes resp)
                  VAL_WIRE_VERIFY_RESP_PAYLOAD_SIZE (u64 result) in
      mret (inr result)
    end.

(** From RESUME_REQ on: decide, answer with RESUME_RESP, act. [inr (resume_off, skipping)].
    The NEVER-mode copy notes the answer in [resume_trace.log] first. *)
Definition resume_exchange (fuel : nat) (never : bool) (clean_name sender_path full_output_path : list Z)
    (file_size : Z) : M (world E) (Z + Z * bool) :=
  let! d := determine_resume_action fuel clean_name file_size in
  let rr_wire := val_serialize_resume_resp
    (mk_resume_resp (u32 (rd_action d)) (rd_offset d) (rd_verify_crc d) (rd_verify_length d)) in
  do! (if never
       then append_trace (RecvResumeResp (u32 (rd_action d)) (rd_offset d) (rd_verify_crc d) (rd_verify_length d))
       else mret tt) in
  let! send_st := val_internal_send_packet VAL_PKT_RESUME_RESP (PBytes rr_wire) VAL_WIRE_RESUME_RESP_SIZE 0 in
  if negb (send_st =? VAL_OK) then mret (inl send_st)
  else if rd_action d =? VAL_RESUME_SKIP_FILE then
    do! on_file_start clean_name sender_path file_size file_size in mret (inr (file_size, true))
  else if rd_action d =? VAL_RESUME_START_ZERO then
    do! on_file_start clean_name sender_path file_size 0 in mret (inr (0, false))
  else if rd_action d =? VAL_RESUME_START_OFFSET then
    do! on_file_start clean_name sender_path file_size (rd_offset d) in mret (inr (rd_offset d, false))
  else if rd_action d =? VAL_RESUME_VERIFY_FIRST then
    let! v := verify_reply fuel never rr_wire full_output_path in
    match v with
    | inl st => mret (inl st)
    | inr result =>
      if result =? VAL_OK then
        do! on_file_start clean_name sender_path file_size (rd_offset d) in mret (inr (rd_offset d, false))
      else if result =? VAL_SKIPPED then
        do! on_file_start clean_name sender_path file_size file_size in mret (inr (file_size, true))
      else
        do! on_file_start clean_name sender_path file_size 0 in mret (inr (0, false))
    end
  else if rd_action d =? VAL_RESUME_ABORT_FILE then
    let! _ := val_internal_send_error VAL_ERR_ABORTED 0 in mret (inl VAL_ERR_ABORTED)
  else mret (inr (0, false)).

(** The application's validation of the metadata: [inr skip]. *)
Definition validate_target (meta : val_meta_payload_t) (clean_name : list Z) : M (world E) (Z + bool) :=
  let! s := get_s in
  let '(pr, target_path) := val_construct_target_path s clean_name (VAL_MAX_PATH * 2 + 8) in
  if negb (pr =? VAL_OK) then
    let! _ := val_handle_validation_action VAL_VALIDATION_ABORT in mret (inl VAL_ERR_INVALID_ARG)
  else
    let! act := val_validate_metadata meta target_path in
    let! _ := val_handle_validation_action act in
    if act =? VAL_VALIDATION_ABORT then
      let! _ := val_internal_send_error VAL_ERR_ABORTED 0 in mret (inl VAL_ERR_ABORTED)
    else mret (inr (act =? VAL_VALIDATION_SKIP)).

(** Validation once an ACK of 0 has gone out. *)
Definition validated_start (meta : val_meta_payload_t) (clean_name : list Z) : M (world E) (Z + Z * bool) :=
  let! v := validate_target meta clean_name in
  match v with
  | inl st => mret (inl st)
  | inr skip => mret (inr (if skip then (meta_file_size meta, true) else (0, false)))
  end.
(** Mode NEVER and no RESUME_REQ in time: an unsolicited ACK of 0. *)
Definition ack_silent (meta : val_meta_payload_t) (clean_name : list Z) : M (world E) (Z + Z * bool) :=
  let! st := send_resume_ack 0 in
  do! on_file_start clean_name (meta_sender_string meta) (meta_file_size meta) 0 in
  if negb (st =? VAL_OK) then mret (inl st) else validated_start meta clean_name.
(** ... and the same after any other packet. *)
Definition ack_unexpected (meta : val_meta_payload_t) (clean_name : list Z) : M (world E) (Z + Z * bool) :=
  let! st := send_resume_ack 0 in
  if negb (st =? VAL_OK) then mret (inl st)
  else
    do! on_file_start clean_name (meta_sender_string meta) (meta_file_size meta) 0 in
    validated_start meta clean_name.

(** Mode NEVER: one look for a RESUME_REQ, else an unsolicited ACK of 0; then validation. *)
Definition negotiate_never (fuel : nat) (meta : val_meta_payload_t) (clean_name full_output_path : list Z)
    : M (world E) (Z + Z * bool) :=
  let path := meta_sender_string meta in
  let size := meta_file_size meta in
  let! to_req := val_internal_get_timeout VAL_OP_META in
  let! ' (rcs, pkt) := val_internal_recv_packet fuel DstNull to_req in
  if (rcs =? VAL_OK) && (pkt_type pkt =? VAL_PKT_RESUME_REQ) then
    let! r := resume_exchange fuel true clean_name path full_output_path size in
    match r with
    | inl st => mret (inl st)
    | inr (resume_off, skipping) =>
      let! v := validate_target meta clean_name in
      match v with
      | inl st => mret (inl st)
      | inr true =>
        let! ack_st := send_resume_ack size in
        if negb (ack_st =? VAL_OK) then mret (inl ack_st)
        else do! on_file_start clean_name path size size in mret (inr (size, true))
      | inr false => mret (inr (resume_off, skipping))
      end
    end
  else if rcs =? VAL_ERR_TIMEOUT then
    ack_silent meta clean_name
  else if (rcs =? VAL_ERR_CRC) || (rcs =? VAL_ERR_IO) || (rcs =? VAL_ERR_ABORTED) || (rcs =? VAL_ERR_PROTOCOL)
  then mret (inl rcs)
  else
    ack_unexpected meta clean_name.

(** The other modes: wait for RESUME_REQ, then negotiate. There is no validation. *)
Definition wait_resume_req_body (fuel : nat) (to_req : Z) (l : Z * Z) : M (world E) (Z * Z + Z) :=
  let '(rtries, rback) := l in
  let! ' (rcs, pkt) := val_internal_recv_packet fuel DstNull to_req in
  if rcs =? VAL_OK then
    if pkt_type pkt =? VAL_PKT_RESUME_REQ then mret (inr VAL_OK)
    else if pkt_type pkt =? VAL_PKT_CANCEL then mret (inr VAL_ERR_ABORTED)
    else if pkt_type pkt =? VAL_PKT_ERROR then mret (inr VAL_ERR_PROTOCOL)
    else mret (inl l)
  else if negb (rcs =? VAL_ERR_TIMEOUT) || (rtries =? 0) then
    do! (if rcs =? VAL_ERR_TIMEOUT then VAL_SET_TIMEOUT_ERROR VAL_ERROR_DETAIL_TIMEOUT_META else mret tt) in
    mret (inr rcs)
  else
    let! l := plain_backoff rtries rback in mret (inl l).

Definition negotiate_resume (fuel : nat) (meta : val_meta_payload_t) (clean_name full_output_path : list Z)
    : M (world E) (Z + Z * bool) :=
  let! to_req := val_internal_get_timeout VAL_OP_META in
  let! s := get_s in
  let! st := loop fuel (wait_resume_req_body fuel to_req)
               (cfg_ack_retries (s_cfg s), cfg_backoff_ms_base (s_cfg s)) in
  if negb (st =? VAL_OK) then mret (inl st)
  else
    let! r := resume_exchange fuel false clean_name (meta_sender_string meta) full_output_path (meta_file_size meta) in
    match r with
    | inl st => mret (inl st)
    | inr (resume_off, _) => mret (inr (resume_off, meta_file_size meta <=? resume_off))
    end.

(** ** A skipped file: only DONE matters *)

Definition wait_skip_body (fuel : nat) (P to_done : Z) (l : Z * Z) : M (world E) (Z * Z + (Z + packet)) :=
  let '(tries, backoff) := l in
  let! ' (stw, pkt) := val_internal_recv_packet fuel (DstRecvBuffer P) to_done in
  if stw =? VAL_OK then mret (inr (inr pkt))
  else if negb (stw =? VAL_ERR_TIMEOUT) || (tries =? 0) then mret (inr (inl stw))
  else let! l := plain_backoff tries backoff in mret (inl l).

(** [inr (inl st)] returns from the whole function, [inr (inr tt)] goes on to the next file. *)
Definition skip_body (fuel : nat) (P total : Z) : M (world E) (unit + (Z + unit)) :=
  let! to_done := val_internal_get_timeout VAL_OP_DONE_ACK in
  let! s := get_s in
  let! r := loop fuel (wait_skip_body fuel P to_done)
              (cfg_ack_retries (s_cfg s), cfg_backoff_ms_base (s_cfg s)) in
  match r with
  | inl st => mret (inr (inl st))
  | inr pkt =>
    if pkt_type pkt =? VAL_PKT_DONE then
      let! _ := val_internal_send_packet VAL_PKT_DONE_ACK PNull 0 total in mret (inr (inr tt))
    else if pkt_type pkt =? VAL_PKT_EOT then
      let! _ := val_internal_send_packet VAL_PKT_EOT_ACK PNull 0 0 in mret (inr (inl VAL_OK))
    else if pkt_type pkt =? VAL_PKT_CANCEL then
      do! val_internal_set_last_error VAL_ERR_ABORTED 0 in mret (inr (inl VAL_ERR_ABORTED))
    else mret (inl tt)
  end.

(** ** The data phase *)

Definition abort_receive (f : handle) (name path : list Z) : M (world E) Z :=
  do! fs_fclose f in
  do! on_file_complete name path VAL_ERR_ABORTED in
  do! val_internal_set_last_error VAL_ERR_ABORTED 0 in
  mret VAL_ERR_ABORTED.

Definition wait_data_body (fuel : nat) (f : handle) (name path : list Z) (P to_data : Z) (l : Z * Z)
    : M (world E) (Z * Z + (Z + packet)) :=
  let '(tries, backoff) := l in
  do! VAL_HEALTH_RECORD_OPERATION in
  let! health := val_internal_check_health in
  if negb (health =? VAL_OK) then do! fs_fclose f in mret (inr (inl health))
  else
    let! connected := val_internal_transport_is_connected in
    if negb connected then
      do! fs_fclose f in
      do! VAL_SET_NETWORK_ERROR VAL_ERROR_DETAIL_CONNECTION in mret (inr (inl VAL_ERR_IO))
    else
      let! cancelled := val_check_for_cancel in
      if (cancelled : bool) then let! st := abort_receive f name path in mret (inr (inl st))
      else
        let! ' (st, pkt) := val_internal_recv_packet fuel (DstRecvBuffer P) to_data in
        if st =? VAL_OK then mret (inr (inr pkt))
        else if (negb (st =? VAL_ERR_TIMEOUT) && negb (st =? VAL_ERR_CRC)) || (tries =? 0) then
          do! fs_fclose f in
          do! (if st =? VAL_ERR_TIMEOUT
               then do! VAL_SET_TIMEOUT_ERROR VAL_ERROR_DETAIL_TIMEOUT_DATA in val_metrics_inc_timeout_hard
               else if st =? VAL_ERR_CRC then VAL_SET_CRC_ERROR VAL_ERROR_DETAIL_PACKET_CORRUPT
               else mret tt) in
          mret (inr (inl st))
        else
          do! VAL_HEALTH_RECORD_RETRY in
          let! l := plain_backoff tries backoff in mret (inl l).

(** The progress report; [inl] when the callback cancelled. *)
Definition receive_progress (f : handle) (name path : list Z) (b : batch) (start_ms written : Z)
    : M (world E) (Z + unit) :=
  let! s := get_s in
  if negb (cfg_has_on_progress (s_cfg s)) then mret (inr tt)
  else
    let transferred := u64 (ba_transferred b + written) in
    let! now := get_ticks_ms in
    let elapsed_ms := if negb (start_ms =? 0) && (start_ms <=? now) then now - start_ms else 0 in
    let info := mk_progress transferred 0 written (ba_files_completed b) 0
                  (progress_rate transferred elapsed_ms) 0 name in
    do! callback (hk_on_progress info) (EvProgress info) in
    let! cancelled := val_check_for_cancel in
    if (cancelled : bool) then let! st := abort_receive f name path in mret (inl st)
    else mret (inr tt).

(** After the switch on the ordering: progress, then the ACK cadence (every packet). *)
Definition after_data (f : handle) (name path : list Z) (b : batch) (start_ms total : Z) (in_order : bool)
    (l : recv_state) : M (world E) (recv_state + (Z + recv_state)) :=
  let! p := receive_progress f name path b start_ms (rx_written l) in
  match p with
  | inl st => mret (inr (inl st))
  | inr _ =>
    let pkts := if in_order then u32 (rx_pkts_since_ack l + 1) else rx_pkts_since_ack l in
    let force_ack := in_order && (total <=? rx_written l) in
    if force_ack || (1 <=? pkts) then
      let! st2 := val_internal_send_packet VAL_PKT_DATA_ACK PNull 0 (rx_written l) in
      if negb (st2 =? VAL_OK) then do! fs_fclose f in mret (inr (inl st2))
      else mret (inl (mk_rx (rx_written l) (rx_crc_state l) 0))
    else mret (inl (mk_rx (rx_written l) (rx_crc_state l) pkts))
  end.

(** A DATA packet of [len] bytes, which lie at the start of the receive buffer. *)
Definition handle_data (f : handle) (name path : list Z) (b : batch) (start_ms total len off : Z)
    (l : recv_state) : M (world E) (recv_state + (Z + recv_state)) :=
  let eff_off := if off =? UINT64_MAX then rx_written l else off in
  if eff_off =? rx_written l then
    let! s := get_s in
    let data := ztake len (s_recv_buffer s) in
    let! w := (if len =? 0 then mret 0 else fs_fwrite f data) in
    if negb (w =? len) then
      do! fs_fclose f in
      do! val_internal_set_error_detailed VAL_ERR_IO VAL_ERROR_DETAIL_DISK_FULL in
      mret (inr (inl VAL_ERR_IO))
    else
      let crc := if len =? 0 then rx_crc_state l else val_crc32_update_state (rx_crc_state l) data in
      let completes_file := total <=? u64 (rx_written l + len) in
      let l := mk_rx (u64 (rx_written l + len)) crc (rx_pkts_since_ack l) in
      if completes_file then
        let! st2 := val_internal_send_packet VAL_PKT_DATA_ACK PNull 0 (rx_written l) in
        if negb (st2 =? VAL_OK) then do! fs_fclose f in mret (inr (inl st2))
        else mret (inl (mk_rx (rx_written l) (rx_crc_state l) 0))
      else after_data f name path b start_ms total true l
  else if eff_off <? rx_written l then
    let! _ := val_internal_send_packet VAL_PKT_DATA_ACK PNull 0 (rx_written l) in
    after_data f name path b start_ms total false l
  else
    let! _ := val_internal_send_packet_ex VAL_PKT_DATA_NAK (PBytes (VAL_PUT_LE32 1)) 4 (rx_written l) false in
    let! _ := val_internal_send_packet VAL_PKT_DATA_ACK PNull 0 (rx_written l) in
    after_data f name path b start_ms total false l.

(** A packet of the data phase that carries no data. [inr (inr l)] is the [break] at DONE. *)
Definition handle_control (f : handle) (name path : list Z) (type : Z) (l : recv_state)
    : M (world E) (recv_state + (Z + recv_state)) :=
  if type =? VAL_PKT_DONE then
    let! st2 := val_internal_send_packet VAL_PKT_DONE_ACK PNull 0 (rx_written l) in
    if negb (st2 =? VAL_OK) then do! fs_fclose f in mret (inr (inl st2))
    else mret (inr (inr l))
  else if type =? VAL_PKT_ERROR then
    do! fs_fclose f in mret (inr (inl VAL_ERR_PROTOCOL))
  else if type =? VAL_PKT_CANCEL then
    let! st := abort_receive f name path in mret (inr (inl st))
  else if type =? VAL_PKT_DATA_ACK then mret (inl l)
  else if type =? VAL_PKT_SEND_META then
    do! fs_fclose f in
    do! VAL_SET_PROTOCOL_ERROR VAL_ERROR_DETAIL_INVALID_STATE in
    mret (inr (inl VAL_ERR_PROTOCOL))
  else mret (inl l).

Definition handle_packet (f : handle) (name path : list Z) (b : batch) (start_ms total : Z) (pkt : packet)
    (l : recv_state) : M (world E) (recv_state + (Z + recv_state)) :=
  if pkt_type pkt =? VAL_PKT_DATA then
    handle_data f name path b start_ms total (pkt_len pkt) (pkt_off pkt) l
  else handle_control f name path (pkt_type pkt) l.

Definition data_body (fuel : nat) (f : handle) (name path : list Z) (b : batch) (P start_ms total : Z)
    (l : recv_state) : M (world E) (recv_state + (Z + recv_state)) :=
  let! to_data := val_internal_get_timeout VAL_OP_DATA_RECV in
  let! s := get_s in
  let! r := loop fuel (wait_data_body fuel f name path P to_data)
              (cfg_data_retries (s_cfg s), cfg_backoff_ms_base (s_cfg s)) in
  match r with
  | inl st => mret (inr (inl st))
  | inr pkt => handle_packet f name path b start_ms total pkt l
  end.

(** ** One file, and the batch *)

Definition file_received (name path : list Z) (total result : Z) (b : batch) : M (world E) (Z + batch) :=
  do! on_file_complete name path result in
  do! val_metrics_inc_files_recv in
  mret (inr (mk_batch (u64 (ba_transferred b + total)) (u32 (ba_files_completed b + 1)))).

(** After the negotiation: skip the file or open and receive it. *)
Definition receive_body (fuel : nat) (meta : val_meta_payload_t) (name full_output_path : list Z)
    (P start_ms resume_off : Z) (skipping : bool) (b : batch) : M (world E) (Z + batch) :=
  let path := meta_sender_string meta in
  let total := meta_file_size meta in
  if skipping then
    let! r := loop fuel (λ _, skip_body fuel P total) tt in
    match r with
    | inl st => mret (inl st)
    | inr _ => file_received name path total VAL_SKIPPED b
    end
  else
    let! f := fs_fopen full_output_path (if resume_off =? 0 then ModeWrite else ModeAppend) in
    match f with
    | None =>
      do! val_internal_set_error_detailed VAL_ERR_IO VAL_ERROR_DETAIL_PERMISSION in
      mret (inl VAL_ERR_IO)
    | Some f =>
      let! r := loop fuel (data_body fuel f name path b P start_ms total)
                  (mk_rx resume_off val_crc32_init_state 0) in
      match r with
      | inl st => mret (inl st)
      | inr _ => do! fs_fclose f in file_received name path total VAL_OK b
      end
    end.

Definition receive_one (fuel : nat) (P start_ms : Z) (b : batch) : M (world E) (batch + Z) :=
  let! m := wait_meta fuel P in
  match m with
  | inl st => mret (inr st)
  | inr meta =>
    let! s := get_s in
    let name := meta_clean_name meta in
    let full_output_path := output_path s name in
    let! n := (if cfg_resume_mode (s_cfg s) =? VAL_RESUME_NEVER
               then negotiate_never fuel meta name full_output_path
               else negotiate_resume fuel meta name full_output_path) in
    match n with
    | inl st => mret (inr st)
    | inr (resume_off, skipping) =>
      let! r := receive_body fuel meta name full_output_path P start_ms resume_off skipping b in
      match r with
      | inl st => mret (inr st)
      | inr b => mret (inl b)
      end
    end
  end.

Definition val_internal_receive_files (fuel : nat) : M (world E) Z :=
  let! s := get_s in
  let P := session_mtu s in
  let! start_ms := get_ticks_ms in
  loop fuel (receive_one fuel P start_ms) (mk_batch 0 0).

Definition val_receive_files (fuel : nat) (output_directory : option (list Z)) : M (world E) Z :=
  do! val_internal_lock in
  do! upd (λ s, s <| s_output_directory :=
             match output_directory with
             | Some d => ztake (val_internal_strnlen (Some d) VAL_MAX_PATH) d
             | None => []
             end |>) in
  let! hs := val_internal_do_handshake_receiver fuel in
  if negb (hs =? VAL_OK) then do! val_internal_unlock in mret hs
  else
    let! rs := val_internal_receive_files fuel in
    do! val_internal_unlock in
    mret rs.

End receiver.

(** ** What receiving keeps *)

Section receiver_safe.
Context {E : Type} `{!Hooks E} `{!BuildOptions} {c : val_config_t}.

Lemma safe_plain_backoff t b : safe c 0 (plain_backoff t b).
Proof. unfold plain_backoff. safe_auto. Qed.
Hint Resolve safe_plain_backoff : safe.
Lemma safe_wait_meta fuel P : safe c 0 (wait_meta fuel P).
Proof. unfold wait_meta, wait_meta_body, classify_meta. safe_auto. Qed.
Lemma safe_verify_reply fuel nv rr path : zlen rr <= 488 → safe c 0 (verify_reply fuel nv rr path).
Proof.
  intros Hr. unfold verify_reply. apply safe_bind0; [safe_auto|intros tov].
  apply safe_get_bind. intros s Hs Hc. apply safe_bind0; [|intros [[? ?] ?]; safe_auto].
  apply safe_wait_verify_request_rx. by intros l [= <-].
Qed.
Lemma safe_resume_exchange fuel nv n p path sz : safe c 0 (resume_exchange fuel nv n p path sz).
Proof.
  unfold resume_exchange. apply safe_bind0; [safe_auto|intros d]. cbv zeta.
  set (rr := val_serialize_resume_resp _).
  assert (Hv : safe c 0 (verify_reply fuel nv rr path)) by (apply safe_verify_reply; by cbv).
  clearbody rr. safe_auto.
Qed.
Lemma safe_validate_target m n : safe c 0 (validate_target m n).
Proof. unfold validate_target. safe_auto. Qed.
Hint Resolve safe_wait_meta safe_resume_exchange safe_validate_target : safe.
Lemma safe_negotiate_never fuel m n p : safe c 0 (negotiate_never fuel m n p).
Proof. unfold negotiate_never, ack_silent, ack_unexpected, validated_start. safe_auto. Qed.
Lemma safe_negotiate_resume fuel m n p : safe c 0 (negotiate_resume fuel m n p).
Proof. unfold negotiate_resume, wait_resume_req_body. safe_auto. Qed.
Lemma safe_skip_body fuel P t : safe c 0 (skip_body fuel P t).
Proof. unfold skip_body, wait_skip_body. safe_auto. Qed.
Lemma safe_abort_receive f n p : safe c 0 (abort_receive f n p).
Proof. unfold abort_receive. safe_auto. Qed.
Hint Resolve safe_negotiate_never safe_negotiate_resume safe_skip_body safe_abort_receive : safe.
Lemma safe_receive_progress f n p b t w : safe c 0 (receive_progress f n p b t w).
Proof. unfold receive_progress. safe_auto. Qed.
Hint Resolve safe_receive_progress : safe.
Lemma safe_after_data f n p b t total o l : safe c 0 (after_data f n p b t total o l).
Proof. unfold after_data. safe_auto. Qed.
Hint Resolve safe_after_data : safe.
Lemma safe_handle_data f n p b t total len off l : safe c 0 (handle_data f n p b t total len off l).
Proof. unfold handle_data. safe_auto. Qed.
Hint Resolve safe_handle_data : safe.
Lemma safe_handle_packet f n p b t total pkt l : safe c 0 (handle_packet f n p b t total pkt l).
Proof. unfold handle_packet, handle_control. safe_auto. Qed.
Hint Resolve safe_handle_packet : safe.
Lemma safe_data_body fuel f n p b P t total l : safe c 0 (data_body fuel f n p b P t total l).
Proof. unfold data_body, wait_data_body. safe_auto. Qed.
Hint Resolve safe_data_body : safe.
Lemma safe_receive_body fuel m n path P t o sk b : safe c 0 (receive_body fuel m n path P t o sk b).
Proof. unfold receive_body, file_received. safe_auto. Qed.
Hint Resolve safe_receive_body : safe.
Lemma safe_receive_one fuel P t b : safe c 0 (receive_one fuel P t b).
Proof. unfold receive_one. safe_auto. Qed.
Hint Resolve safe_receive_one : safe.
Lemma safe_internal_receive fuel : safe c 0 (val_internal_receive_files fuel).
Proof. unfold val_internal_receive_files. safe_auto. Qed.
Hint Resolve safe_internal_receive : safe.
Lemma safe_receive_files fuel dir : safe c 0 (val_receive_files fuel dir).
Proof.
  unfold val_receive_files. apply safe_lock_bind. intros _.
  apply safe_bind0; [benign|intros _]. safe_auto.
Qed.
End receiver_safe.
