(* ===== verification/GiveUp.v ===== *)
(** Calls that nobody answers: the handshakes, and with them [val_send_files] and
    [val_receive_files], on a link that delivers nothing ([Silence.SilentLink]).

    They end when the budget of the handshake is spent - except when the clock shows 0 at
    their start, which the code takes for "no clock". *)
From S2P Require Import Prelude ByteOrder Wire Errors Timing Session Simulation Window Packet Frame Control Silence.
From S2P Require Import Handshake Resume Sender Receiver.

(** The budget of a handshake, and the resend interval, as both functions compute them. *)
Definition hello_budget (c : val_config_t) : Z :=
  if cfg_handshake_budget_ms c =? 0 then 7000 else cfg_handshake_budget_ms c.

Lemma hello_budget_pos c : config_ok c → 0 < hello_budget c.
Proof. intros Hc. pose proof (cok_budget _ Hc) as Hb. unfold u32_ok in Hb. unfold hello_budget. case_match; lia. Qed.

(** One turn of a handshake: a wait, then a pause. *)
Definition hello_turn_ms (s : val_session_t) : Z :=
  timeout_of (s_timing s) VAL_OP_HANDSHAKE + Z.max 500 (Z.max (cfg_backoff_ms_base (s_cfg s)) 4000).
(** The time after which a handshake has ended. *)
Definition hello_patience (s : val_session_t) : Z := hello_budget (s_cfg s) + 2 * hello_turn_ms s.

(** How a call ends that nobody answers: [fr] was sent at least once and at most [r] times. *)
Definition abandoned {E} `{!Hooks E} `{!SilentLink E} (bound : Z) (r : nat) (fr : list Z)
    (w : world E) (st : Z) (w' : world E) : Prop :=
  ∃ k, waited bound (replicate k fr) w w' ∧ (k <= r)%nat ∧
    (st = VAL_ERR_TIMEOUT ∧ (1 <= k)%nat ∨ st = VAL_ERR_IO).

Section giveup.
Context {E : Type} `{!Hooks E} `{!SilentLink E} `{!BuildOptions}.

Lemma waited_none b frs w w' w'' : waited 0 [] w w' → waited b frs w' w'' → waited b frs w w''.
Proof. intros W1 W2. pose proof (waited_trans _ _ _ _ _ _ _ W1 W2) as W. by rewrite app_nil_r in W. Qed.
Lemma waited_then b frs w w' w'' : waited b frs w w' → waited 0 [] w' w'' → waited b frs w w''.
Proof. intros W1 W2. eapply waited_le; [|exact (waited_trans _ _ _ _ _ _ _ W1 W2)]. lia. Qed.

Lemma delay_waited t w : session_ok (w_s w) → ready w → 0 < t →
  wpt (delay_ms t) (λ _ w', session_ok (w_s w') ∧ waited t [] w w') w.
Proof.
  intros Hs Hr Ht. apply wp_mod. destruct (sl_delay t (w_e w) (proj1 Hr)) as [Ho Hn]; [done|]. split; [done|].
  constructor; [by split; [|apply Hr]|done|done|done|by exists [EvDelay t]].
Qed.
Lemma ticks_ok w : session_ok (w_s w) → ready w → now w < 2 ^ 32 →
  wpt get_ticks_ms (λ t w', t = now w ∧ now w' = now w ∧ session_ok (w_s w') ∧ waited 0 [] w w') w.
Proof.
  intros Hs Hr Hn. eapply wp_mono; [by apply waited_ticks|]. intros t w' (-> & En & W & Es). by rewrite Es.
Qed.

(** Giving up, in both roles. *)
Lemma hello_timeout_steady w : session_ok (w_s w) → ready w →
  wpt hello_timeout (λ st w', st = VAL_ERR_TIMEOUT ∧ session_ok (w_s w') ∧ waited 0 [] w w') w.
Proof.
  intros Hs Hr. unfold hello_timeout. eapply steady_bind; [by apply steady_error|done|done|]. intros _ w1 Hs1 W1.
  eapply steady_bind; [apply steady_metrics|done|apply W1|]. intros _ w2 Hs2 W2. apply wp_ret.
  split; [done|]. split; [done|]. by eapply waited_then.
Qed.

(** One slice of either handshake: nothing comes. *)
Lemma slice_silent fuel base scratch w : session_ok (w_s w) → ready w → 1 <= base → now w + base < 2 ^ 32 →
  Z.max 20 (base + 1) < Z.of_nat fuel →
  wpt (val_internal_recv_until_deadline fuel (handshake_deadline (now w) base) 20 scratch)
    (λ r w', r = (VAL_ERR_TIMEOUT, no_packet, scratch) ∧ now w < now w' ∧ session_ok (w_s w') ∧ waited base [] w w') w.
Proof.
  intros Hs Hr Hb Hn Hf. pose proof (sl_nonneg _ (proj1 Hr)) as H0. fold (now w) in H0.
  assert (Ed : handshake_deadline (now w) base = now w + base).
  { unfold handshake_deadline. destruct (Z.eqb_spec (now w) 0) as [->|]; [cbn; lia|].
    replace (base =? 0) with false by lia. cbn [negb andb]. rewrite u32_small by lia.
    by replace (now w + base <? now w) with false by lia. }
  rewrite Ed. eapply wp_mono.
  { apply wpt_safe; [apply safe_recv_until_deadline|done|apply until_deadline_silent; [done|lia|lia|lia|lia]]. }
  cbv beta. intros r w' [(-> & Ht & W) Hs']. split; [done|]. split; [done|]. split; [done|].
  eapply waited_le; [|exact W]. lia.
Qed.

(** ** The receiver's role *)

Lemma receiver_turn_silent fuel gd base wire w : session_ok (w_s w) → ready w → 1 <= base →
  now w + base + 10 < 2 ^ 32 → Z.max 20 (base + 1) < Z.of_nat fuel →
  wpt (handshake_receiver_body fuel gd base wire)
    (λ r w', session_ok (w_s w') ∧ now w < now w' ∧ waited (base + 10) [] w w' ∧
       (r = inl wire ∧ (gd = 0 ∨ now w < gd) ∨ r = inr (inl VAL_ERR_TIMEOUT))) w.
Proof.
  intros Hs Hr Hb Hn Hf. unfold handshake_receiver_body. apply wp_bind, wp_gets.
  destruct (Z.eqb_spec (err_code (s_last_error (w_s w))) VAL_ERR_ABORTED); [by destruct Hr|]. apply wp_bind.
  eapply wp_mono; [apply ticks_ok; [done|done|lia]|]. intros t w1 (-> & En & Hs1 & W1). cbv zeta. apply wp_bind.
  rewrite <- En. eapply wp_mono; [apply slice_silent; [done|apply W1|lia|lia|lia]|]. intros r w2 (-> & Ht & Hs2 & W2).
  change (VAL_ERR_TIMEOUT =? VAL_OK) with false. change (VAL_ERR_TIMEOUT =? VAL_ERR_TIMEOUT) with true. cbn [negb andb].
  rewrite En in *. pose proof (waited_none _ _ _ _ _ W1 W2) as W.
  destruct (negb (gd =? 0) && (gd <=? now w)) eqn:Eg.
  - apply wp_bind. eapply wp_mono; [apply hello_timeout_steady; [done|apply W]|]. intros st w3 (-> & Hs3 & W3). apply wp_ret.
    pose proof (wd_time _ _ _ _ W3). split; [done|]. split; [lia|]. split; [|by right].
    eapply waited_le; [|exact (waited_then _ _ _ _ _ W W3)]. lia.
  - apply wp_bind. eapply wp_mono; [apply delay_waited; [done|apply W|lia]|]. intros _ w3 (Hs3 & W3). apply wp_ret.
    pose proof (wd_time _ _ _ _ W3). split; [done|]. split; [lia|]. split; [|left; split; [done|lia]].
    exact (waited_quiet _ _ _ _ _ W W3).
Qed.

Lemma receiver_given_up fuel w : session_ok (w_s w) → ready w → s_handshake_done (w_s w) = false → 0 < now w →
  now w + hello_patience (w_s w) < 2 ^ 32 → hello_patience (w_s w) < Z.of_nat fuel →
  wpt (val_internal_do_handshake_receiver fuel)
    (λ st w', st = VAL_ERR_TIMEOUT ∧ session_ok (w_s w') ∧ waited (hello_patience (w_s w)) [] w w') w.
Proof.
  intros Hs Hr Hnew H0 Hn Hf. unfold val_internal_do_handshake_receiver, hello_patience, hello_turn_ms in *.
  pose proof (timeout_of_range (s_timing (w_s w)) VAL_OP_HANDSHAKE (sok_timing _ Hs)) as Hto.
  pose proof (hello_budget_pos _ (sok_cfg _ Hs)) as HB. apply wp_bind, wp_gets. rewrite Hnew. apply wp_bind. fold (hello_budget (s_cfg (w_s w))).
  eapply wp_mono; [apply waited_ticks; [done|lia]|]. intros t w1 (-> & En & W1 & Es). cbv zeta.
  apply wp_bind, wp_gets. rewrite Es. set (base := timeout_of _ _) in *. set (B := hello_budget _) in *.
  replace (now w =? 0) with false by lia. rewrite u32_small by lia. cbv iota.
  set (gd := now w + B). set (wire := local_array _). apply wp_bind.
  apply (wp_loop False (λ l w', session_ok (w_s w') ∧ waited (now w' - now w) [] w w' ∧ now w' < gd + base + 10)
           (λ _ w', Z.to_nat (gd + base + 10 - now w'))).
  2:{ split; [by rewrite Es|]. split; [apply (waited_le 0); [lia|done]|]. unfold gd. lia. }
  2:{ right. unfold gd. lia. }
  intros l w2 (Hs2 & W2 & Hlt). pose proof (wd_time _ _ _ _ W2).
  eapply wp_mono; [apply receiver_turn_silent; [done|apply W2|lia|unfold gd in *; lia|lia]|].
  intros r w3 (Hs3 & Ht & W3 & Hres). pose proof (wd_time _ _ _ _ W3) as Ht3.
  pose proof (waited_quiet _ _ _ _ _ W2 W3) as W.
  destruct Hres as [[-> Hg]| ->].
  - split; [|right; unfold gd in *; lia]. split; [done|]. split; [|unfold gd in *; lia].
    destruct W. constructor; try done. lia.
  - apply wp_ret. split; [done|]. split; [done|]. destruct W. constructor; try done. unfold gd in *. lia.
Qed.

(** ** The sender's role *)

Definition send_hello (wire : list Z) : M (world E) Z :=
  val_internal_send_packet VAL_PKT_HELLO (PBytes wire) VAL_WIRE_HANDSHAKE_SIZE 0.
Definition hello_frame (s : val_session_t) (wire : list Z) : list Z := session_frame (E:=E) s VAL_PKT_HELLO wire 0 true.

Lemma hello_resends s wire : zlen wire = VAL_WIRE_HANDSHAKE_SIZE → resends (s_cfg s) (send_hello wire) (hello_frame s wire).
Proof.
  intros Hz w Hs Ec Hr. pose proof (session_mtu_range _ Hs).
  assert (Ect : content_of VAL_PKT_HELLO wire 0 true = wire) by done.
  assert (Hpd : payload_data (s_send_buffer (w_s w)) (PBytes wire) VAL_WIRE_HANDSHAKE_SIZE wire).
  { split; [rewrite Hz; by cbv|]. symmetry. apply ztake_all. by rewrite Hz. }
  eapply wp_mono.
  { apply wpt_safe; [by apply safe_send_packet|exact Hs|]. apply (send_waited _ _ _ wire); [exact Hs|exact Hr|exact Hpd|by cbv| | |by cbv].
    all: rewrite Ect, Hz; change VAL_WIRE_HANDSHAKE_SIZE with 44; lia. }
  intros st w' [(Hst & frs & W & Hf) Hs']. split; [done|]. exists frs. split; [done|].
  assert (Efr : hello_frame s wire = session_frame (E:=E) (w_s w) VAL_PKT_HELLO wire 0 true) by (symmetry; by apply frame_of_cfg).
  rewrite Efr. destruct Hf as [->|[-> ->]]; [|right; by split; [|left]].
  destruct Hst as [->| ->]; [by left|right; split; [done|by right]].
Qed.

(** The state of the sender's loop: retries and backoff in range, the last HELLO in the past. *)
Record pacing (s : val_session_t) (l : hs_state) (t : Z) : Prop := {
  pa_retries : 0 <= hst_retries l < 2 ^ 8;
  pa_backoff : 0 <= hst_backoff l <= Z.max (cfg_backoff_ms_base (s_cfg s)) 4000;
  pa_last : 0 <= hst_last_send l <= t
}.

(** A pause between two HELLOs: with retries left, a resend or the rest of the interval. *)
Lemma resend_silent wire m t0 l w : session_ok (w_s w) → ready w →
  zlen wire = VAL_WIRE_HANDSHAKE_SIZE → 0 <= m <= 500 → pacing (w_s w) l t0 → t0 < now w → now w < 2 ^ 32 →
  wpt (hello_resend wire m t0 l)
    (λ r w', session_ok (w_s w') ∧ ∃ frs, waited (Z.max 500 (Z.max (cfg_backoff_ms_base (s_cfg (w_s w))) 4000)) frs w w' ∧
       match r with
       | inl l' => ∃ k, frs = replicate k (hello_frame (w_s w) wire) ∧ Z.of_nat k + hst_retries l' = hst_retries l ∧ pacing (w_s w) l' t0
       | inr st => st = VAL_ERR_IO ∧ 0 < hst_retries l ∧ (frs = [] ∨ frs = [hello_frame (w_s w) wire])
       end) w.
Proof.
  intros Hs Hr Hz Hm [Hre Hb Hla] Ht Hn. unfold hello_resend. set (B := Z.max 500 _).
  destruct (Z.ltb_spec 0 (hst_retries l)) as [Hpos|Hzero].
  2:{ apply wp_bind. eapply wp_mono; [by apply delay_waited|]. intros _ w1 (Hs1 & W1). apply wp_ret. split; [done|].
      exists []. split; [by eapply waited_le; [|exact W1]; lia|]. exists O. by split. }
  rewrite (u32_small (t0 - hst_last_send l)) by lia. destruct (Z.eqb_spec t0 0); cbn [orb];
    [|destruct (Z.leb_spec m (t0 - hst_last_send l)); [|rewrite u32_small by lia]].
  3:{ apply wp_bind. eapply wp_mono; [apply delay_waited; [done|done|lia]|]. intros _ w1 (Hs1 & W1). apply wp_ret. split; [done|].
      exists []. split; [by eapply waited_le; [|exact W1]; lia|]. exists O. by split. }
  all: eapply steady_bind; [apply steady_retransmit|done|done|]; intros _ w1 Hs1 W1.
  all: eapply steady_bind; [apply steady_metrics|done|apply W1|]; intros _ w2 Hs2 W2.
  all: eapply steady_bind; [apply steady_retry|done|apply W2|]; intros _ w3 Hs3 W3.
  all: pose proof (waited_then _ _ _ _ _ (waited_then _ _ _ _ _ W1 W2) W3) as W4; apply wp_bind.
  all: eapply wp_mono; [apply (hello_resends (w_s w) wire Hz w3 Hs3); [apply W4|apply W4]|].
  all: intros st w5 (Hs5 & frs & W5 & Hst); pose proof (waited_none _ _ _ _ _ W4 W5) as W6.
  all: destruct Hst as [[-> ->]|[-> Hfr]];
    [|apply wp_ret; split; [done|]; exists frs; split; [by eapply waited_le; [|exact W6]; lia|by split]].
  all: change (negb (VAL_OK =? VAL_OK)) with false; cbv iota; apply wp_bind.
  all: eapply wp_mono; [apply wpt_safe; [apply safe_backoff_step|done|apply backoff_step_waited; [apply W6|lia|lia]]|].
  all: intros [b r] w7 [(Er & Hb7 & W7 & _) Hs7]; cbn [fst snd] in *; apply wp_ret; split; [done|].
  all: exists [hello_frame (w_s w) wire]; split; [by eapply waited_le; [|exact (waited_trans _ _ _ _ _ _ _ W6 W7)]; lia|].
  all: exists 1%nat; split; [done|]; split; [cbn; lia|]; constructor; cbn; lia.
Qed.

Lemma sender_turn_silent fuel wire gd base m l w : let s := w_s w in
  let T := base + Z.max 500 (Z.max (cfg_backoff_ms_base (s_cfg s)) 4000) in
  session_ok s → ready w → 1 <= base → zlen wire = VAL_WIRE_HANDSHAKE_SIZE → 0 <= m <= 500 → pacing s l (now w) →
  now w + T < 2 ^ 32 → Z.max 20 (base + 1) < Z.of_nat fuel →
  wpt (handshake_sender_body fuel wire gd base m l)
    (λ r w', session_ok (w_s w') ∧ now w < now w' ∧ ∃ frs, waited (T) frs w w' ∧
       match r with
       | inl l' => (gd = 0 ∨ now w < gd) ∧
           ∃ k, frs = replicate k (hello_frame s wire) ∧ Z.of_nat k + hst_retries l' = hst_retries l ∧ pacing s l' (now w')
       | inr st => st = VAL_ERR_TIMEOUT ∧ frs = [] ∨
           st = VAL_ERR_IO ∧ 0 < hst_retries l ∧ (frs = [] ∨ frs = [hello_frame s wire])
       end) w.
Proof.
  intros s T Hs Hr Hto Hz Hm Hl Hn Hf. unfold T in *. clear T. unfold handshake_sender_body. apply wp_bind, wp_gets.
  destruct (Z.eqb_spec (err_code (s_last_error (w_s w))) VAL_ERR_ABORTED); [by destruct Hr|]. apply wp_bind.
  eapply wp_mono; [apply ticks_ok; [done|done|lia]|]. intros t w1 (-> & En & Hs1 & W1). cbv zeta. apply wp_bind.
  rewrite <- En. eapply wp_mono; [apply slice_silent; [done|apply W1|lia|lia|lia]|]. intros r w2 (-> & Ht & Hs2 & W2).
  change (VAL_ERR_TIMEOUT =? VAL_OK) with false. change (VAL_ERR_TIMEOUT =? VAL_ERR_TIMEOUT) with true. cbn [negb andb].
  rewrite En in *. pose proof (waited_none _ _ _ _ _ W1 W2) as W. pose proof (wd_time _ _ _ _ W).
  assert (Ec : s_cfg (w_s w2) = s_cfg s) by apply (wd_cfg _ _ _ _ W).
  destruct (negb (gd =? 0) && (gd <=? now w)) eqn:Eg.
  - apply wp_bind. eapply wp_mono; [apply hello_timeout_steady; [done|apply W]|]. intros st w3 (-> & Hs3 & W3). apply wp_ret.
    pose proof (wd_time _ _ _ _ W3). split; [done|]. split; [lia|]. exists []. split; [|by left].
    eapply waited_le; [|exact (waited_then _ _ _ _ _ W W3)]. lia.
  - assert (Hl2 : pacing (w_s w2) l (now w)) by (destruct Hl; constructor; rewrite ?Ec; done).
    eapply wp_mono; [apply resend_silent; [done|apply W|done|done|exact Hl2|lia|lia]|].
    intros r w3 (Hs3 & frs & W3 & Hres). pose proof (wd_time _ _ _ _ W3). split; [done|]. split; [lia|].
    exists frs. rewrite Ec in W3. pose proof (waited_trans _ _ _ _ _ _ _ W W3) as W4. rewrite app_nil_r in W4.
    split; [done|]. assert (Ef : hello_frame (w_s w2) wire = hello_frame s wire) by by apply frame_of_cfg.
    rewrite Ef in Hres. destruct r as [l'|st]; [|by right]. split; [lia|]. destruct Hres as (k & -> & Ek & [P1 P2 P3]).
    exists k. split; [done|]. split; [done|]. constructor; [done|by rewrite <- Ec|lia].
Qed.

(** Between two turns, [w0] being the start: [k] HELLOs are out, and the deadline [gd]
    has not been passed by more than a turn. *)
Record courting (s : val_session_t) (wire : list Z) (gd T : Z) (w0 : world E) (l : hs_state) (w : world E) : Prop := {
  co_ok : session_ok (w_s w);
  co_time : now w < gd + T;
  co_pace : pacing s l (now w);
  co_sent : ∃ k, Z.of_nat k + hst_retries l = 1 + cfg_handshake_retries (s_cfg s) ∧ (1 <= k)%nat ∧
    waited (now w - now w0) (replicate k (hello_frame s wire)) w0 w
}.

Lemma courting_turn fuel wire gd base m l w0 w : let s := w_s w0 in
  let T := base + Z.max 500 (Z.max (cfg_backoff_ms_base (s_cfg s)) 4000) in
  1 <= base → zlen wire = VAL_WIRE_HANDSHAKE_SIZE → 0 <= m <= 500 → 0 < gd → now w0 < gd →
  gd + 2 * T < 2 ^ 32 → Z.max 20 (base + 1) < Z.of_nat fuel → courting s wire gd T w0 l w →
  wpt (handshake_sender_body fuel wire gd base m l)
    (λ r w', now w < now w' ∧
       match r with
       | inl l' => courting s wire gd T w0 l' w'
       | inr st => session_ok (w_s w') ∧
           abandoned (gd + 2 * T - now w0) (S (Z.to_nat (cfg_handshake_retries (s_cfg s)))) (hello_frame s wire) w0 st w'
       end) w.
Proof.
  intros s T Hto Hz Hm Hgd0 Hgd Hn Hf [Hs Ht Hl (k & Ek & H1 & W)]. pose proof (sl_nonneg _ (proj1 (wd_ready _ _ _ _ W))) as H0.
  fold (now w) in H0. pose proof (wd_time _ _ _ _ W). pose proof (wd_cfg _ _ _ _ W) as Ec.
  eapply wp_mono; [apply (sender_turn_silent fuel wire gd base m l w); try done|].
  - apply W.
  - destruct Hl. constructor; by rewrite ?Ec.
  - rewrite Ec. fold s T. lia.
  - intros r w' (Hs' & Ht' & frs & W' & Hres). rewrite Ec in W'. fold s T in W'.
    pose proof (wd_time _ _ _ _ W'). pose proof (waited_trans _ _ _ _ _ _ _ W W') as W2. split; [done|].
    assert (Efr : hello_frame (w_s w) wire = hello_frame s wire) by by apply frame_of_cfg. rewrite Efr in Hres.
    destruct r as [l'|st].
    + destruct Hres as (Hg & k' & -> & Ek' & [P1 P2 P3]). rewrite Ec in P2. constructor; [done|lia|by constructor|].
      exists (k' + k)%nat. split; [lia|]. split; [lia|]. rewrite replicate_add. destruct W2. constructor; try done. lia.
    + split; [done|]. pose proof (pa_retries _ _ _ Hl) as Hrl.
      assert (∃ k', frs = replicate k' (hello_frame s wire) ∧ (k' + k <= S (Z.to_nat (cfg_handshake_retries (s_cfg s))))%nat ∧
               (st = VAL_ERR_TIMEOUT ∨ st = VAL_ERR_IO)) as (k' & -> & Hk & Hst).
      { destruct Hres as [[-> ->]|(-> & Hp & [-> | ->])]; [exists 0%nat|exists 0%nat|exists 1%nat].
        all: split; [done|]; split; [lia|auto]. }
      exists (k' + k)%nat. rewrite replicate_add. split; [|split; [done|]].
      * destruct W2. constructor; try done. lia.
      * destruct Hst; [left; split; [done|lia]|by right].
Qed.

Lemma sender_given_up fuel w : let s := w_s w in let wire := val_serialize_handshake (val__fill_local_hello s (cfg_packet_size (s_cfg s))) in
  session_ok s → ready w → s_handshake_done s = false → 0 < now w →
  now w + hello_patience s < 2 ^ 32 → hello_patience s < Z.of_nat fuel →
  wpt (val_internal_do_handshake_sender fuel)
    (λ st w', session_ok (w_s w') ∧
       abandoned (hello_patience s) (S (Z.to_nat (cfg_handshake_retries (s_cfg s)))) (hello_frame s wire) w st w') w.
Proof.
  intros s wire Hs Hr Hnew H0 Hn Hf. unfold val_internal_do_handshake_sender, hello_patience, hello_turn_ms in *.
  pose proof (timeout_of_range (s_timing s) VAL_OP_HANDSHAKE (sok_timing _ Hs)) as Hto.
  pose proof (hello_budget_pos _ (sok_cfg _ Hs)) as HB. pose proof (cok_hs _ (sok_cfg _ Hs)) as Hre. unfold u8_ok' in Hre.
  pose proof (cok_backoff _ (sok_cfg _ Hs)) as Hb. unfold u32_ok in Hb. fold s in HB, Hre, Hb.
  apply wp_bind, wp_gets. fold s. rewrite Hnew.
  assert (Hv : fst (val_internal_validate_local_features (s_cfg s)) = VAL_OK).
  { unfold val_internal_validate_local_features. change val__negotiable_mask with 0. by rewrite Z.land_0_r. }
  destruct (val_internal_validate_local_features _) as [vr ?]. cbn in Hv. subst vr. rewrite Z.eqb_refl. cbn [negb]. cbv zeta.
  fold wire (hello_budget (s_cfg s)). set (B := hello_budget _) in *. apply wp_bind.
  eapply wp_mono; [apply waited_ticks; [done|lia]|]. intros t w1 (-> & En & W1 & Es).
  replace (now w =? 0) with false by lia. rewrite u32_small by lia. cbv iota. set (gd := now w + B).
  apply wp_bind, wp_gets. rewrite Es. fold s. set (m := if 500 <? _ then 500 else _).
  assert (Hm : 0 <= m <= 500) by (unfold m; repeat case_match; lia). clearbody m. apply wp_bind.
  set (base := timeout_of _ _) in *. set (T := base + _) in *.
  assert (Hz : zlen wire = VAL_WIRE_HANDSHAKE_SIZE) by apply handshake_put_size.
  eapply wp_mono; [apply (hello_resends s wire Hz w1); [by rewrite Es|by rewrite Es|apply W1]|].
  intros st w2 (Hs2 & frs & W2 & Hst). pose proof (waited_none _ _ _ _ _ W1 W2) as W.
  destruct Hst as [[-> ->]|[-> Hfr]].
  2:{ apply wp_ret. split; [done|]. destruct Hfr as [-> | ->]; [exists 0%nat|exists 1%nat].
      all: split; [eapply waited_le; [|exact W]; lia|]; split; [lia|by right]. }
  rewrite Z.eqb_refl. cbn [negb]. pose proof (wd_time _ _ _ _ W). apply wp_bind.
  eapply wp_mono; [apply ticks_ok; [done|apply W|lia]|]. intros t w3 (-> & En3 & Hs3 & W3).
  pose proof (waited_then _ _ _ _ _ W W3) as W4.
  apply (wp_loop False (courting s wire gd T w) (λ _ w', Z.to_nat (gd + T - now w'))).
  2:{ constructor; [done|unfold gd; lia|constructor; cbn; lia|].
      exists 1%nat. split; [cbn; lia|]. split; [lia|]. destruct W4. constructor; try done. lia. }
  2:{ right. unfold gd. lia. }
  intros l w5 Hc. eapply wp_mono; [apply (courting_turn fuel wire gd base m l w w5); fold s; fold T; try done; unfold gd; lia|].
  intros [l'|st] w6 [Ht Hres]; [split; [done|]; right; cbv beta; pose proof (co_time _ _ _ _ _ _ _ Hc); lia|]. destruct Hres as [Hs6 (k & W6 & Hk & Hst)].
  split; [done|]. exists k. split; [|by split]. fold s T in W6. eapply waited_le; [|exact W6]. unfold gd. lia.
Qed.
End giveup.

(** ** Without a bound on the time: nothing but a timeout can come back *)

Section mute.
Context {E : Type} `{!Hooks E} `{!SilentLink E} `{!BuildOptions}.

Lemma ready_idle {A} (m : M (world E) A) w : keeps idle m → ready w → wpp m (λ _ w', ready w') w.
Proof. intros Hm Hr. eapply wp_mono; [apply Hm|]. intros a w' Hi. by apply Hi. Qed.
Lemma ready_recv n t w : ready w → 0 < t → wpp (transport_recv n t) (λ rg w', rg = (0, []) ∧ ready w') w.
Proof. intros Hr Ht. apply wpt_wpp. eapply wp_mono; [by apply waited_recv|]. by intros rg w' (-> & _ & [? _ _ _ _] & _). Qed.

Lemma recv_full_mute fuel need to w : ready w → 0 < need → 0 < to →
  wpp (val_recv_full fuel need to) (λ r w', r = (VAL_ERR_TIMEOUT, []) ∧ ready w') w.
Proof.
  intros Hr Hneed Hto. unfold val_recv_full. apply wp_bind. eapply wp_mono; [apply ready_idle; [apply idle_ticks|done]|].
  intros start w1 Hr1. apply (wpp_loop (λ have w', have = [] ∧ ready w')); [|done]. intros have w2 [-> Hr2].
  unfold recv_full_body. change (zlen (@nil Z)) with 0. replace (need <=? 0) with false by lia.
  apply wp_bind. eapply wp_mono; [apply ready_idle; [apply idle_ticks|done]|]. intros t w3 Hr3. cbv zeta.
  set (slice := if negb (_ =? 0) then _ else _). assert (0 < slice) by (unfold slice; repeat case_match; lia). clearbody slice.
  apply wp_bind. eapply wp_mono; [by apply ready_recv|]. intros rg w4 (-> & Hr4). cbn [app].
  change (zlen (@nil Z)) with 0. replace (0 <? 0) with false by lia. replace (need <=? 0) with false by lia.
  apply wp_bind. eapply wp_mono; [apply ready_idle; [apply idle_ticks|done]|]. intros t' w5 Hr5.
  by destruct (_ <=? _); apply wp_ret.
Qed.
Lemma recv_packet_mute fuel to w : ready w → 0 < to →
  wpp (val_internal_recv_packet fuel DstNull to) (λ r w', r = (VAL_ERR_TIMEOUT, no_packet) ∧ ready w') w.
Proof.
  intros Hr Hto. unfold val_internal_recv_packet. apply wp_bind, wp_mod, wp_bind, wp_gets, wp_bind. unfold recv_into.
  apply wp_bind. eapply wp_mono; [by apply recv_full_mute|]. intros r w2 (-> & [Hl Hc]). apply wp_bind, wp_mod, wp_ret.
  change (negb (VAL_ERR_TIMEOUT =? VAL_OK)) with true. cbv iota. unfold recv_failed.
  change (VAL_ERR_TIMEOUT =? VAL_ERR_IO) with false. cbv iota. by apply wp_bind, wp_mod, wp_bind, wp_mod, wp_ret.
Qed.
Lemma until_deadline_mute fuel deadline max scratch w : ready w → 0 <= max →
  wpp (val_internal_recv_until_deadline fuel deadline max scratch) (λ r w', fst (fst r) = VAL_ERR_TIMEOUT ∧ ready w') w.
Proof.
  intros Hr Hm. unfold val_internal_recv_until_deadline. apply (wpp_loop (λ _ w', ready w')); [|done]. intros [] w1 Hr1.
  unfold recv_slice. apply wp_bind, wp_gets.
  destruct (Z.eqb_spec (err_code (s_last_error (w_s w1))) VAL_ERR_ABORTED); [by destruct Hr1|].
  apply wp_bind. eapply wp_mono; [apply ready_idle; [apply idle_ticks|done]|]. intros t w2 Hr2. cbv zeta.
  set (slice := if _ =? 0 then 1 else _). assert (0 < slice) by (unfold slice; repeat case_match; lia). clearbody slice.
  apply wp_bind. eapply wp_mono; [by apply recv_packet_mute|]. intros r w3 (-> & Hr3).
  change (VAL_ERR_TIMEOUT =? VAL_OK) with false. change (VAL_ERR_TIMEOUT =? VAL_ERR_TIMEOUT) with true. cbn [negb andb].
  apply wp_bind. eapply wp_mono; [apply ready_idle; [apply idle_ticks|done]|]. intros t' w4 Hr4.
  by destruct (_ <=? _); apply wp_ret.
Qed.

(** A receiver's handshake without a deadline goes on for ever. *)
Lemma receiver_turn_mute fuel base wire w : ready w →
  wpp (handshake_receiver_body fuel 0 base wire) (λ r w', (∃ l, r = inl l) ∧ ready w') w.
Proof.
  intros Hr. unfold handshake_receiver_body. apply wp_bind, wp_gets.
  destruct (Z.eqb_spec (err_code (s_last_error (w_s w))) VAL_ERR_ABORTED); [by destruct Hr|].
  apply wp_bind. eapply wp_mono; [apply ready_idle; [apply idle_ticks|done]|]. intros t w1 Hr1. cbv zeta.
  apply wp_bind. eapply wp_mono; [by apply until_deadline_mute|]. intros [[st pkt] buf] w2 [Hst Hr2]. cbn [fst] in Hst. subst st.
  change (VAL_ERR_TIMEOUT =? VAL_OK) with false. change (VAL_ERR_TIMEOUT =? VAL_ERR_TIMEOUT) with true. cbn [negb andb Z.eqb].
  apply wp_bind, wp_mod, wp_ret. split; [by eexists|]. destruct (sl_delay 10 (w_e w2) (proj1 Hr2)) as [Ho _]; [lia|].
  by split; [|apply Hr2].
Qed.
End mute.

(** ** The calls *)

Section calls.
Context {E : Type} `{!Hooks E} `{!SilentLink E} `{!BuildOptions}.

(** Locking, unlocking and setting the output directory. *)
Lemma session_waited s' w : ready w → s_cfg s' = s_cfg (w_s w) →
  s_effective_packet_size s' = s_effective_packet_size (w_s w) → s_last_error s' = s_last_error (w_s w) →
  waited 0 [] w (mk_world s' (w_e w) (w_tr w)).
Proof.
  intros [Hl Hc] Ec Em Ee. constructor; try done; [split; [done|cbn; by rewrite Ee]|unfold now; cbn; lia|by exists []].
Qed.
Lemma unlock_waited w : ready w → wpt val_internal_unlock (λ _ w', waited 0 [] w w') w.
Proof. intros Hr. apply wp_mod. by apply session_waited. Qed.

Lemma send_files_given_up fuel files sp w : let s := w_s w in
  session_ok s → ready w → s_handshake_done s = false → 0 < now w →
  now w + hello_patience s < 2 ^ 32 → hello_patience s < Z.of_nat fuel → files ≠ [] →
  wpt (val_send_files fuel files sp)
    (abandoned (hello_patience s) (S (Z.to_nat (cfg_handshake_retries (s_cfg s))))
       (hello_frame (E:=E) s (val_serialize_handshake (val__fill_local_hello s (cfg_packet_size (s_cfg s))))) w) w.
Proof.
  intros s Hs Hr Hnew H0 Hn Hf Hfiles. unfold val_send_files.
  replace (zlen files =? 0) with false by (destruct files; [done|rewrite zlen_cons; pose proof (zlen_nonneg files); lia]).
  apply wp_bind, wp_mod. set (w1 := mk_world _ _ _). assert (W1 : waited 0 [] w w1) by by apply session_waited.
  assert (Hs1 : session_ok (w_s w1)) by (destruct Hs; by constructor).
  apply wp_bind. unfold send_batch. apply wp_bind.
  eapply wp_mono; [apply (sender_given_up fuel w1 Hs1); try done; apply W1|]. intros st w2 [_ (k & W2 & Hk & Hst)].
  replace (st =? VAL_OK) with false by (destruct Hst as [[-> _]| ->]; done). cbn [negb]. apply wp_ret, wp_bind.
  eapply wp_mono; [apply unlock_waited; apply W2|]. intros u w3 W3. apply wp_ret. exists k. split; [|by split].
  exact (waited_none _ _ _ _ _ W1 (waited_then _ _ _ _ _ W2 W3)).
Qed.

Lemma receive_files_given_up fuel dir w : let s := w_s w in
  session_ok s → ready w → s_handshake_done s = false → 0 < now w →
  now w + hello_patience s < 2 ^ 32 → hello_patience s < Z.of_nat fuel →
  wpt (val_receive_files fuel dir) (λ st w', st = VAL_ERR_TIMEOUT ∧ waited (hello_patience s) [] w w') w.
Proof.
  intros s Hs Hr Hnew H0 Hn Hf. unfold val_receive_files. apply wp_bind, wp_mod, wp_bind, wp_mod. cbn [w_s w_e w_tr].
  set (w1 := mk_world _ _ _). assert (W1 : waited 0 [] w w1) by by apply session_waited.
  assert (Hs1 : session_ok (w_s w1)) by (destruct Hs; by constructor).
  apply wp_bind. eapply wp_mono; [apply (receiver_given_up fuel w1 Hs1); try done; apply W1|]. intros st w2 (-> & _ & W2).
  change (negb (VAL_ERR_TIMEOUT =? VAL_OK)) with true. cbv iota. apply wp_bind.
  eapply wp_mono; [apply unlock_waited; apply W2|]. intros u w3 W3. apply wp_ret. split; [done|].
  exact (waited_none _ _ _ _ _ W1 (waited_then _ _ _ _ _ W2 W3)).
Qed.

Lemma receiver_never_ends fuel w : ready w → s_handshake_done (w_s w) = false → u32 (now w) = 0 →
  wpp (val_internal_do_handshake_receiver fuel) (λ _ _, False) w.
Proof.
  intros Hr Hnew H0. unfold val_internal_do_handshake_receiver. apply wp_bind, wp_gets. rewrite Hnew. apply wp_bind, wp_lift.
  pose proof (sl_ticks _ (proj1 Hr)) as Ht. destruct (hk_get_ticks_ms (w_e w)) as [t e]. destruct Ht as (-> & Ho & _).
  fold (now w). rewrite H0. change (0 =? 0) with true. cbv zeta iota. apply wp_bind, wp_gets, wp_bind.
  apply (wpp_loop (λ _ w', ready w')); [|by split; [|apply Hr]]. intros l w1 Hr1.
  eapply wp_mono; [by apply receiver_turn_mute|]. by intros r w2 [[l' ->] Hr2].
Qed.
End calls.

(** C24: a call that nobody answers ends. On a link that delivers nothing, with a session
    that has not yet shaken hands and a clock that does not show 0 and does not wrap within
    the time allowed, [val_send_files]
    returns within the handshake budget and two turns more, with VAL_ERR_TIMEOUT or - when
    a HELLO could not be sent - VAL_ERR_IO; it has sent its HELLO once and then at most
    [handshake_retries] times more, and nothing else.  [val_receive_files] returns
    VAL_ERR_TIMEOUT within the same time and has sent nothing. *)
Theorem unanswered_call_ends {E} `{!Hooks E} `{!SilentLink E} `{!BuildOptions} fuel files sp dir (w : world E) :
  let s := w_s w in session_ok s → ready w → s_handshake_done s = false → 0 < now w →
  now w + hello_patience s < 2 ^ 32 → hello_patience s < Z.of_nat fuel → files ≠ [] →
  wpt (val_send_files fuel files sp)
    (abandoned (hello_patience s) (S (Z.to_nat (cfg_handshake_retries (s_cfg s))))
       (hello_frame (E:=E) s (val_serialize_handshake (val__fill_local_hello s (cfg_packet_size (s_cfg s))))) w) w ∧
  wpt (val_receive_files fuel dir) (λ st w', st = VAL_ERR_TIMEOUT ∧ waited (hello_patience s) [] w w') w.
Proof. intros. split; [by apply send_files_given_up|by apply receive_files_given_up]. Qed.

(** C39: a clock that shows 0 takes the deadline away. [global_deadline] is 0, which stands
    for "none", when [get_ticks_ms] gives 0 at the start of a handshake - at boot, or each
    time the 32-bit clock wraps: a receiver whose call starts at that moment and that hears
    nothing never returns, whatever budget and timeouts are configured. *)
Theorem clock_zero_never_returns {E} `{!Hooks E} `{!SilentLink E} `{!BuildOptions} dir (w : world E) :
  ready w → s_handshake_done (w_s w) = false → u32 (now w) = 0 →
  ∀ fuel, val_receive_files fuel dir w = None.
Proof.
  intros Hr Hnew H0 fuel.
  assert (Hn : wpp (val_receive_files fuel dir) (λ _ _, False) w).
  { unfold val_receive_files. apply wp_bind, wp_mod, wp_bind, wp_mod, wp_bind.
    eapply wp_mono; [by apply receiver_never_ends|done]. }
  unfold wp in Hn. by destruct (val_receive_files fuel dir w) as [[]|].
Qed.

(** The demo session on a silent line, from 1000 ms and from 0 on the clock. *)
Definition silent_at (t : Z) : world sim := mk_world demo_s (mk_sim [] t [] []) [].
Lemma silent_at_ready t : 0 <= t → ready (silent_at t).
Proof. intros Ht. by split. Qed.
Lemma unanswered_call_ends_witness :
  hello_patience demo_s = 19000 ∧
  wpt (val_send_files (Z.to_nat 30000) [[102]] None)
    (abandoned 19000 4 (hello_frame (E:=sim) demo_s
       (val_serialize_handshake (val__fill_local_hello demo_s (cfg_packet_size (s_cfg demo_s))))) (silent_at 1000)) (silent_at 1000) ∧
  wpt (val_receive_files (Z.to_nat 30000) None) (λ st w', st = VAL_ERR_TIMEOUT ∧ waited 19000 [] (silent_at 1000) w') (silent_at 1000).
Proof.
  assert (Hp : hello_patience demo_s = 19000) by (vm_compute; reflexivity). split; [exact Hp|].
  pose proof (unanswered_call_ends (Z.to_nat 30000) [[102]] None None (silent_at 1000)) as Hw.
  cbv zeta in Hw. change (w_s (silent_at 1000)) with demo_s in Hw. rewrite Hp in Hw.
  apply Hw; [exact demo_s_ok|by apply silent_at_ready|reflexivity|reflexivity|reflexivity|reflexivity|discriminate].
Defined.
Lemma clock_zero_never_returns_witness : val_receive_files 300 None (silent_at 0) = None.
Proof. apply clock_zero_never_returns; [by apply silent_at_ready|reflexivity|reflexivity]. Defined.
