(* ===== verification/Trace.v ===== *)
(** What the library asks of the file system and the application, whatever the peer
    sends: a sender only reads, a receiver writes only inside its output directory,
    and the metadata validator is consulted only in mode NEVER.  With stdio both append to
    [resume_trace.log] and nothing else, the receiver in mode NEVER only.

    [emits c d P m]: from a session with configuration [c] and output directory [d],
    every hook call that [m] makes satisfies [P], and [c] and [d] stay; and so does what a
    [View] shows of the environment. *)
From S2P Require Import Prelude ByteOrder Wire Errors Crc Sanitize Timing Session Records Window Packet Control.
From S2P Require Import Handshake Resume Sender Receiver.

(** A part of the environment that is of interest; by default, none. *)
Class View (E : Type) := { view_of : Type; view : E → view_of }.
#[export] Instance no_view {E} : View E | 100 := {| view_of := unit; view _ := tt |}.

Definition emits {E A} `{!View E} (c : val_config_t) (d : list Z) (P : event → Prop) (m : M (world E) A) : Prop :=
  ∀ w, s_cfg (w_s w) = c → s_output_directory (w_s w) = d →
    wpp m (λ _ w', s_cfg (w_s w') = c ∧ s_output_directory (w_s w') = d ∧ view (w_e w') = view (w_e w) ∧
                   ∃ evs, w_tr w' = evs ++ w_tr w ∧ Forall P evs) w.

(** Everything but sending, validating, the calls on files, those that announce one and the
    diagnostic records. *)
Definition ordinary (ev : event) : bool :=
  match ev with
  | EvOpen _ _ _ | EvRead _ _ _ | EvSeek _ _ _ _ | EvClose _ => false
  | EvSend _ _ | EvWrite _ _ _ | EvValidate _ _ _ => false
  | EvFileStart _ _ _ _ | EvFileComplete _ _ _ | EvAppend _ _ => false
  | _ => true
  end.
Class Permits (P : event → Prop) := permits ev : ordinary ev = true → P ev.
(** Using files for reading. *)
Definition reading (ev : event) : bool :=
  match ev with EvOpen _ ModeRead _ | EvRead _ _ _ | EvSeek _ _ _ _ | EvClose _ => true | _ => false end.
Class Reads (P : event → Prop) := reads ev : reading ev = true → P ev.
(** Sending. *)
Class Sends (P : event → Prop) := sends fr rc : P (EvSend fr rc).
(** Announcing a file to the application, and how it ended. *)
Class Announces (P : event → Prop) := {
  announces_start n p s o : P (EvFileStart n p s o);
  announces_complete n p r : P (EvFileComplete n p r)
}.
(** The diagnostic records of the resume code. *)
Class Notes (P : event → Prop) := notes r : P (EvAppend trace_log (trace_line r)).
(** The caller's functions leave the view alone; those that announce files are apart. *)
Class Unseen (E : Type) `{!Hooks E} `{!View E} := {
  un_send fr e : view (snd (hk_send fr e)) = view e;
  un_recv n t e : view (snd (hk_recv n t e)) = view e;
  un_connected e : view (snd (hk_is_connected e)) = view e;
  un_flush e : view (hk_flush e) = view e;
  un_fopen p m e : view (snd (hk_fopen p m e)) = view e;
  un_fread h n e : view (snd (hk_fread h n e)) = view e;
  un_fwrite h l e : view (snd (hk_fwrite h l e)) = view e;
  un_fseek h o wh e : view (snd (hk_fseek h o wh e)) = view e;
  un_ftell h e : view (snd (hk_ftell h e)) = view e;
  un_fclose h e : view (hk_fclose h e) = view e;
  un_ticks e : view (snd (hk_get_ticks_ms e)) = view e;
  un_delay ms e : view (hk_delay_ms ms e) = view e;
  un_progress i e : view (snd (hk_on_progress i e)) = view e;
  un_validator m p e : view (snd (hk_validator m p e)) = view e;
  un_packet rec e : view (hk_on_packet rec e) = view e;
  un_append p l e : view (hk_append p l e) = view e
}.
Class Unannounced (E : Type) `{!Hooks E} `{!View E} := {
  un_file_start n p s o e : view (snd (hk_on_file_start n p s o e)) = view e;
  un_file_complete n p r e : view (snd (hk_on_file_complete n p r e)) = view e
}.
#[export] Instance no_view_unseen {E} `{!Hooks E} : Unseen E (View0:=no_view).
Proof. done. Qed.
#[export] Instance no_view_unannounced {E} `{!Hooks E} : Unannounced E (View0:=no_view).
Proof. done. Qed.

Create HintDb emits discriminated.

Section emits.
Context {E : Type} `{!Hooks E} `{!View E} {c : val_config_t} {d : list Z} {P : event → Prop}.

Lemma emits_quiet {A} (m : M (world E) A) :
  (∀ w, wpp m (λ _ w', s_cfg (w_s w') = s_cfg (w_s w) ∧
     s_output_directory (w_s w') = s_output_directory (w_s w) ∧ view (w_e w') = view (w_e w) ∧ w_tr w' = w_tr w) w) →
  emits c d P m.
Proof.
  intros Hm w Hc Hd. eapply wp_mono; [apply Hm|]. intros a w' (E1 & E2 & E3 & E4).
  split; [congruence|]. split; [congruence|]. split; [done|]. by exists [].
Qed.
Lemma emits_ret {A} (a : A) : emits (E:=E) c d P (mret a).
Proof. apply emits_quiet. intros w. by apply wp_ret. Qed.
Lemma emits_bind {A B} (m : M (world E) A) (k : A → M (world E) B) :
  emits c d P m → (∀ a, emits c d P (k a)) → emits c d P (mbind m k).
Proof.
  intros Hm Hk w Hc Hd. apply wp_bind. eapply wp_mono; [by apply Hm|]. intros a w1 (Hc1 & Hd1 & V1 & evs & E1 & F1).
  eapply wp_mono; [by apply Hk|]. intros b w2 (Hc2 & Hd2 & V2 & evs' & E2 & F2). split; [done|]. split; [done|].
  split; [congruence|]. exists (evs' ++ evs). split; [by rewrite E2, E1, (assoc_L (++))|by apply Forall_app].
Qed.
Lemma emits_gets {A} (f : val_session_t → A) : emits (E:=E) c d P (gets_s f).
Proof. apply emits_quiet. intros w. by apply wp_gets. Qed.
Lemma emits_get_bind {B} (f : val_session_t → M (world E) B) :
  (∀ s, s_cfg s = c → s_output_directory s = d → emits c d P (f s)) → emits c d P (mbind get_s f).
Proof. intros Hf w Hc Hd. apply wp_bind, wp_gets. by apply Hf. Qed.
Lemma emits_upd (f : val_session_t → val_session_t) :
  (∀ s, s_cfg (f s) = s_cfg s ∧ s_output_directory (f s) = s_output_directory s) → emits (E:=E) c d P (upd f).
Proof. intros Hf. apply emits_quiet. intros w. apply wp_mod. split; [apply Hf|]. split; [apply Hf|done]. Qed.
Lemma emits_env {A} (h : E → A * E) : (∀ e, view (snd (h e)) = view e) →
  emits c d P (mlift (λ w, let '(a, e) := h (w_e w) in (a, mk_world (w_s w) e (w_tr w)))).
Proof.
  intros Hv. apply emits_quiet. intros w. apply wp_lift. specialize (Hv (w_e w)). by destruct (h (w_e w)).
Qed.
Lemma emits_call {A} (h : E → A * E) ev : (∀ e, view (snd (h e)) = view e) → (∀ a, P (ev a)) → emits c d P (call h ev).
Proof.
  intros Hv HP w Hc Hd. apply wp_lift. specialize (Hv (w_e w)). destruct (h (w_e w)) as [a e]. split; [done|]. split; [done|].
  split; [done|]. exists [ev a]. split; [done|]. apply Forall_singleton, HP.
Qed.
Lemma emits_call_unit (h : E → E) ev : (∀ e, view (h e) = view e) → P ev → emits c d P (call_unit h ev).
Proof.
  intros Hv HP w Hc Hd. apply wp_mod. split; [done|]. split; [done|].
  split; [apply Hv|]. exists [ev]. split; [done|]. apply Forall_singleton, HP.
Qed.
Lemma emits_loop {S A} fuel (body : S → M (world E) (S + A)) l :
  (∀ l, emits c d P (body l)) → emits c d P (loop fuel body l).
Proof.
  intros Hb w Hc Hd. apply (wpp_loop (λ _ w', s_cfg (w_s w') = c ∧ s_output_directory (w_s w') = d ∧
    view (w_e w') = view (w_e w) ∧ ∃ evs, w_tr w' = evs ++ w_tr w ∧ Forall P evs)).
  2:{ split; [done|]. split; [done|]. split; [done|]. by exists []. }
  intros l' w1 (Hc1 & Hd1 & V1 & evs & E1 & F1). eapply wp_mono; [by apply Hb|].
  intros r w2 (Hc2 & Hd2 & V2 & evs' & E2 & F2).
  assert (s_cfg (w_s w2) = c ∧ s_output_directory (w_s w2) = d ∧ view (w_e w2) = view (w_e w) ∧
          ∃ evs, w_tr w2 = evs ++ w_tr w ∧ Forall P evs).
  { split; [done|]. split; [done|]. split; [congruence|]. exists (evs' ++ evs).
    split; [by rewrite E2, E1, (assoc_L (++))|by apply Forall_app]. }
  by destruct r.
Qed.
End emits.

Ltac emits_step :=
  lazymatch goal with
  | |- emits _ _ _ (mbind get_s _) => apply emits_get_bind; intros ? ? ?
  | |- emits _ _ _ (mbind _ _) => apply emits_bind; [|intros ?]
  | |- emits _ _ _ (mret _) => apply emits_ret
  | |- emits _ _ _ (loop _ _ _) => apply emits_loop; intros ?
  | |- emits _ _ _ (match ?x with _ => _ end) => destruct x
  | |- emits _ _ _ (let _ := _ in _) => cbv zeta
  | |- emits _ _ _ (upd _) => apply emits_upd; done
  | |- emits _ _ _ (upd_metrics _) => apply emits_upd; done
  | |- emits _ _ _ (val_internal_set_last_error_full _ _ _) => apply emits_upd; done
  | |- emits _ _ _ _ => first [solve [auto with emits nocore] | apply emits_upd; done | progress cbv beta iota]
  end.
Ltac emits_auto := repeat emits_step.
#[export] Hint Resolve emits_gets no_view_unseen no_view_unannounced : emits.

Section ops.
Context {E : Type} `{!Hooks E} `{!View E} `{!Unseen E} `{!BuildOptions} {c : val_config_t} {d : list Z}.
Context {P : event → Prop} `{!Permits P} `{!Reads P}.
Abbreviation emits := (emits (E:=E) c d P).

Lemma emits_get : emits get_s.
Proof. apply (emits_gets (λ s, s)). Qed.
Lemma emits_ticks : emits get_ticks_ms.
Proof.
  apply emits_quiet. intros w. apply wp_lift. pose proof (un_ticks (w_e w)). by destruct (hk_get_ticks_ms (w_e w)).
Qed.
Lemma emits_recv n t : emits (transport_recv n t).
Proof.
  apply emits_call; [|intros; by apply permits]. intros e. pose proof (un_recv n t e). by destruct (hk_recv n t e) as [[??]?].
Qed.
Lemma emits_fopen_read p : emits (fs_fopen p ModeRead).
Proof. apply emits_call; [apply un_fopen|]. intros. by apply reads. Qed.
Lemma emits_fread h n : emits (fs_fread h n).
Proof.
  apply emits_call; [|intros; by apply reads]. intros e. pose proof (un_fread h n e). by destruct (hk_fread h n e).
Qed.
Lemma emits_fseek h o w : emits (fs_fseek h o w).
Proof. apply emits_call; [apply un_fseek|]. intros. by apply reads. Qed.
Lemma emits_ftell h : emits (fs_ftell h).
Proof. apply emits_env, un_ftell. Qed.
Lemma emits_fclose h : emits (fs_fclose h).
Proof. apply emits_call_unit; [apply un_fclose|]. by apply reads. Qed.
Lemma emits_delay ms : emits (delay_ms ms).
Proof. apply emits_call_unit; [apply un_delay|]. by apply permits. Qed.
Lemma emits_lock : emits val_internal_lock.
Proof. by apply emits_upd. Qed.
Lemma emits_unlock : emits val_internal_unlock.
Proof. by apply emits_upd. Qed.
Lemma emits_set_send_buffer b : emits (set_send_buffer b).
Proof. by apply emits_upd. Qed.
Lemma emits_retransmit b : emits (set_in_retransmit_flag b).
Proof. by apply emits_upd. Qed.
Lemma emits_error st dt : emits (val_internal_set_last_error st dt).
Proof. by apply emits_upd. Qed.
Lemma emits_error_detailed st dt : emits (val_internal_set_error_detailed st dt).
Proof. by apply emits_upd. Qed.
Lemma emits_cancelled : emits val_check_for_cancel.
Proof. apply emits_gets. Qed.
Lemma emits_timeout op : emits (val_internal_get_timeout op).
Proof. apply emits_gets. Qed.
Hint Resolve emits_get emits_ticks emits_recv emits_fopen_read emits_fread emits_fseek emits_ftell emits_fclose
  emits_delay emits_lock emits_unlock emits_set_send_buffer emits_retransmit emits_error emits_error_detailed
  emits_cancelled emits_timeout : emits.
Lemma emits_connected : emits val_internal_transport_is_connected.
Proof. unfold val_internal_transport_is_connected. emits_auto. apply emits_env, un_connected. Qed.
Lemma emits_flush : emits val_internal_transport_flush.
Proof.
  unfold val_internal_transport_flush. emits_auto. apply emits_call_unit; [apply un_flush|]. by apply permits.
Qed.
Lemma emits_record_rtt r : emits (val_internal_record_rtt r).
Proof. unfold val_internal_record_rtt, val_metrics_inc_rtt_sample. emits_auto. Qed.
Lemma emits_backoff b r : emits (val_internal_backoff_step b r).
Proof. unfold val_internal_backoff_step. emits_auto. Qed.
Lemma emits_operation : emits VAL_HEALTH_RECORD_OPERATION.
Proof. unfold VAL_HEALTH_RECORD_OPERATION. emits_auto. Qed.
Lemma emits_retry : emits VAL_HEALTH_RECORD_RETRY.
Proof. unfold VAL_HEALTH_RECORD_RETRY. emits_auto. Qed.
Lemma emits_health : emits val_internal_check_health.
Proof. unfold val_internal_check_health. emits_auto. Qed.
Lemma emits_capture rec : emits (capture rec).
Proof. unfold capture. emits_auto. apply emits_call_unit; [apply un_packet|]. by apply permits. Qed.
Lemma emits_record_error : emits val_internal_record_transmission_error.
Proof. apply emits_upd. intros s. unfold record_transmission_error. repeat case_match; done. Qed.
Lemma emits_record_success : emits val_internal_record_transmission_success.
Proof. apply emits_upd. intros s. unfold record_transmission_success. repeat case_match; done. Qed.
Hint Resolve emits_connected emits_flush emits_record_rtt emits_backoff emits_operation
  emits_retry emits_health emits_capture : emits.
Lemma emits_recv_packet f dst t : emits (val_internal_recv_packet f dst t).
Proof.
  unfold val_internal_recv_packet, recv_content, recv_trailer, recv_deliver, recv_finish, recv_failed,
    recv_into, val_recv_full, recv_full_body, val_metrics_add_recv, val_metrics_inc_crcerr. emits_auto.
Qed.
End ops.
#[export] Hint Resolve emits_get emits_ticks emits_recv emits_fopen_read emits_fread emits_fseek emits_ftell emits_fclose
  emits_delay emits_lock emits_unlock emits_set_send_buffer emits_retransmit emits_error emits_error_detailed
  emits_cancelled emits_timeout emits_connected emits_flush emits_record_rtt emits_backoff emits_operation
  emits_retry emits_health emits_capture emits_record_error emits_record_success emits_recv_packet : emits.

Section protocol.
Context {E : Type} `{!Hooks E} `{!View E} `{!Unseen E} `{!Unannounced E} `{!BuildOptions} {c : val_config_t} {d : list Z}.
Context {P : event → Prop} `{!Permits P} `{!Reads P} `{!Sends P} `{!Announces P} `{!Notes P}.
Abbreviation emits := (emits (E:=E) c d P).

Lemma emits_append_trace r : emits (append_trace r).
Proof. apply emits_call_unit; [apply un_append|]. apply notes. Qed.
Hint Resolve emits_append_trace : emits.
Lemma emits_send (f : list Z) : emits (transport_send f).
Proof. apply emits_call; [apply un_send|]. intros. apply sends. Qed.
Hint Resolve emits_send : emits.
Lemma emits_send_core t p n o i : emits (val__internal_send_packet_core t p n o i).
Proof. unfold val__internal_send_packet_core, val_metrics_add_sent. emits_auto. Qed.
Lemma emits_send_packet t p n o : emits (val_internal_send_packet t p n o).
Proof. apply emits_send_core. Qed.
Lemma emits_send_packet_ex t p n o i : emits (val_internal_send_packet_ex t p n o i).
Proof. apply emits_send_core. Qed.
Hint Resolve emits_send_packet emits_send_packet_ex : emits.

(** *** Control *)
Lemma emits_recv_deadline f dl m sc : emits (val_internal_recv_until_deadline f dl m sc).
Proof. unfold val_internal_recv_until_deadline, recv_slice. emits_auto. Qed.
Hint Resolve emits_recv_deadline : emits.
Lemma emits_wait_control f t r b sc (accept : accept_fn) (on_timeout : option on_timeout_fn) :
  (∀ t n, emits (accept t n)) → (∀ m, on_timeout = Some m → emits m) →
  emits (val_internal_wait_control f t r b sc accept on_timeout).
Proof.
  intros Ha Ho. unfold val_internal_wait_control, wait_control_body, val_metrics_inc_retrans, val_metrics_inc_timeout_hard.
  emits_auto. by apply Ho.
Qed.
Lemma emits_sample_rtt st t0 : emits (sample_rtt st t0).
Proof. unfold sample_rtt. emits_auto. Qed.
Lemma some_inj_emits {A} (m f : M (world E) A) : emits m → Some m = Some f → emits f.
Proof. by intros Hm [= <-]. Qed.
Hint Resolve emits_sample_rtt : emits.
Lemma emits_wait_done f n : emits (val_internal_wait_done_ack f n).
Proof.
  unfold val_internal_wait_done_ack. emits_auto. apply emits_wait_control.
  - intros. unfold accept_done_ack_cb. emits_auto.
  - intros m. apply some_inj_emits. unfold retry_send_done_cb. emits_auto.
Qed.
Lemma emits_wait_eot f : emits (val_internal_wait_eot_ack f).
Proof.
  unfold val_internal_wait_eot_ack. emits_auto. apply emits_wait_control.
  - intros. unfold accept_eot_ack_cb. emits_auto.
  - intros m. apply some_inj_emits. unfold retry_send_eot_cb. emits_auto.
Qed.
Lemma emits_trace_verify st p b o : emits (trace_verify_result st p b o).
Proof. unfold trace_verify_result. emits_auto. Qed.
Hint Resolve emits_trace_verify : emits.
Lemma emits_wait_verify f p e : emits (val_internal_wait_verify_result f p e).
Proof.
  unfold val_internal_wait_verify_result. emits_auto. apply emits_wait_control.
  - intros. unfold accept_verify_result_cb, accept_verify_status. emits_auto.
  - intros m. apply some_inj_emits. unfold retry_send_verify_cb. emits_auto.
Qed.
Lemma emits_wait_resume f t r b sc : emits (val_internal_wait_resume_resp f t r b sc).
Proof.
  unfold val_internal_wait_resume_resp. emits_auto. apply emits_wait_control.
  - intros. unfold accept_resume_resp_cb. emits_auto.
  - intros m. apply some_inj_emits. unfold retry_send_resume_req_cb. emits_auto.
Qed.
Lemma emits_wait_verify_rx f t r b p sc : emits (val_internal_wait_verify_request_rx f t r b p sc).
Proof.
  unfold val_internal_wait_verify_request_rx. emits_auto. apply emits_wait_control; [|done].
  intros. unfold accept_verify_rx_with_resume_cb, resend_resume_resp. emits_auto.
Qed.
Lemma emits_tries n b l : emits (emergency_tries n b l).
Proof. revert b l. induction n as [|n IH]; intros; cbn [emergency_tries]; emits_auto. Qed.
Hint Resolve emits_tries : emits.
Lemma emits_cancel : emits val_emergency_cancel.
Proof. unfold val_emergency_cancel. emits_auto. Qed.
Lemma emits_send_error a b : emits (val_internal_send_error a b).
Proof. unfold val_internal_send_error. emits_auto. Qed.
Hint Resolve emits_cancel : emits.
Lemma emits_callback h ev : (∀ e, view (snd (h e)) = view e) → P ev → emits (callback h ev).
Proof. intros Hv HP. unfold callback. emits_auto. by apply emits_call. Qed.
Lemma emits_file_start n p s o : emits (on_file_start n p s o).
Proof. unfold on_file_start. emits_auto. apply emits_callback; [apply un_file_start|]. apply announces_start. Qed.
Lemma emits_file_complete n p r : emits (on_file_complete n p r).
Proof. unfold on_file_complete. emits_auto. apply emits_callback; [apply un_file_complete|]. apply announces_complete. Qed.
Hint Resolve emits_wait_done emits_wait_eot emits_wait_verify emits_wait_resume emits_wait_verify_rx
  emits_send_error emits_file_start emits_file_complete : emits.

(** *** Handshake and resume *)
Lemma emits_adopt h : emits (val__adopt_peer_hello h).
Proof. unfold val__adopt_peer_hello. emits_auto. Qed.
Hint Resolve emits_adopt : emits.
Lemma emits_handshake_sender f : emits (val_internal_do_handshake_sender f).
Proof.
  unfold val_internal_do_handshake_sender, handshake_sender_body, hello_resend, hello_timeout, handshake_done,
    val_metrics_note_handshake, val_metrics_inc_retrans, val_metrics_inc_timeout_hard, accept_hello_cb. emits_auto.
Qed.
Lemma emits_handshake_receiver f : emits (val_internal_do_handshake_receiver f).
Proof.
  unfold val_internal_do_handshake_receiver, handshake_receiver_body, answer_hello, hello_timeout, handshake_done,
    val_metrics_note_handshake, val_metrics_inc_timeout_hard, accept_hello_rx_cb. emits_auto.
Qed.
Lemma emits_crc_region f h o l : emits (val_internal_crc32_region f h o l).
Proof. unfold val_internal_crc32_region, crc_region_body. emits_auto. Qed.
Hint Resolve emits_crc_region : emits.
Lemma emits_determine f n sz : emits (determine_resume_action f n sz).
Proof. unfold determine_resume_action. emits_auto. Qed.
Lemma emits_resume_ack o : emits (send_resume_ack o).
Proof. unfold send_resume_ack. emits_auto. Qed.
Lemma emits_negotiation f sz p : emits (handle_resume_negotiation f sz p).
Proof. unfold handle_resume_negotiation, apply_resume_resp, verify_round. emits_auto. Qed.
Hint Resolve emits_handshake_sender emits_determine emits_resume_ack emits_negotiation : emits.

(** *** The sender *)
Lemma emits_size_name p : emits (get_file_size_and_name p).
Proof. unfold get_file_size_and_name. emits_auto. Qed.
Lemma emits_progress ctx n b f : emits (val_emit_progress_sender ctx n b f).
Proof. unfold val_emit_progress_sender. emits_auto; (apply emits_callback; [apply un_progress|]; by apply permits). Qed.
Lemma emits_send_data f h m sz i l : emits (send_data_packet f h m sz i l).
Proof. unfold send_data_packet, read_payload_body. emits_auto. Qed.
Lemma emits_rewind h o : emits (rewind_file h o).
Proof. unfold rewind_file. emits_auto. Qed.
Hint Resolve emits_size_name emits_progress emits_send_data emits_rewind : emits.
Lemma emits_window_ack f a l : emits (wait_for_window_ack f a l).
Proof.
  unfold wait_for_window_ack, window_ack_body, window_ack_nak, window_ack_ack, window_ack_advance,
    window_ack_retry, handle_nak_retransmit, val_metrics_inc_retrans, val_metrics_inc_timeout, val_metrics_inc_crcerr.
  emits_auto.
Qed.
Lemma emits_close h n p st : emits (close_and_complete h n p st).
Proof. unfold close_and_complete. emits_auto. Qed.
Hint Resolve emits_window_ack emits_close : emits.
Lemma emits_data_health h n p : emits (data_health h n p).
Proof. unfold data_health. emits_auto. Qed.
Lemma emits_skipped f n p sz : emits (send_skipped f n p sz).
Proof. unfold send_skipped, val_metrics_inc_files_sent. emits_auto. Qed.
Lemma emits_done f h n p sz : emits (send_done f h n p sz).
Proof. unfold send_done, val_metrics_inc_files_sent. emits_auto. Qed.
Hint Resolve emits_data_health emits_skipped emits_done : emits.
Lemma emits_file_body f h n p sz o w pr : emits (send_file_body f h n p sz o w pr).
Proof. unfold send_file_body, send_windows_body, window_turn, fill_window_body. emits_auto. Qed.
Hint Resolve emits_file_body : emits.
Lemma emits_send_file f p sp pr : emits (val_internal_send_file f p sp pr).
Proof. unfold val_internal_send_file, send_file_data_adaptive, send_metadata. emits_auto. Qed.
Hint Resolve emits_send_file : emits.
Lemma emits_scan ps t : emits (scan_sizes ps t).
Proof. revert t. induction ps as [|p ps IH]; intros t; cbn [scan_sizes]; emits_auto. Qed.
Lemma emits_send_all f ps sp pr : emits (send_all f ps sp pr).
Proof. revert pr. induction ps as [|p ps IH]; intros pr; cbn [send_all]; emits_auto. Qed.
Hint Resolve emits_scan emits_send_all : emits.
Lemma emits_send_files f ps sp : emits (val_send_files f ps sp).
Proof. unfold val_send_files, send_batch. emits_auto. Qed.
End protocol.
#[export] Hint Resolve emits_append_trace emits_trace_verify emits_send_packet emits_send_packet_ex emits_send_error emits_file_start
  emits_file_complete emits_handshake_receiver emits_wait_verify_rx emits_crc_region emits_determine
  emits_resume_ack : emits.

(** ** The receiver *)

Section receiver.
Context {E : Type} `{!Hooks E} `{!View E} `{!Unseen E} `{!Unannounced E} `{!BuildOptions} {c : val_config_t} {d : list Z}.
Context {P : event → Prop} `{!Permits P} `{!Reads P} `{!Sends P} `{!Announces P}.
Abbreviation emits := (emits (E:=E) c d P).
Context (Hwrite : ∀ h l rc, P (EvWrite h l rc)).
Context (Hopen : ∀ s meta m r, s_output_directory s = d → P (EvOpen (output_path s (meta_clean_name meta)) m r)).
Context (Hval : cfg_resume_mode c = VAL_RESUME_NEVER → ∀ m t a, P (EvValidate m t a)).
Context (Hnote : cfg_resume_mode c = VAL_RESUME_NEVER → Notes P).

Lemma emits_fwrite h l : emits (fs_fwrite h l).
Proof. apply emits_call; [apply un_fwrite|]. intros. apply Hwrite. Qed.
Lemma emits_plain_backoff t b : emits (plain_backoff t b).
Proof. unfold plain_backoff. emits_auto. Qed.
Hint Resolve emits_fwrite emits_plain_backoff : emits.
Lemma emits_wait_meta f p : emits (wait_meta f p).
Proof. unfold wait_meta, wait_meta_body, classify_meta, val_metrics_inc_timeout_hard. emits_auto. Qed.
Lemma emits_exchange f nv n p path sz : (nv = true → cfg_resume_mode c = VAL_RESUME_NEVER) → emits (resume_exchange f nv n p path sz).
Proof.
  intros Hnv. assert (Hn : ∀ r, nv = true → emits (append_trace r)).
  { intros r Ht. pose proof (Hnote (Hnv Ht)). apply emits_append_trace. }
  unfold resume_exchange, verify_reply. apply emits_bind; [emits_auto|intros d0]. cbv zeta.
  apply emits_bind; [|intros _; emits_auto]. destruct nv; [by apply Hn|apply emits_ret].
Qed.
Hint Resolve emits_wait_meta : emits.
Lemma emits_negotiate_resume f m n p : emits (negotiate_resume f m n p).
Proof.
  assert (He : ∀ n p path sz, emits (resume_exchange f false n p path sz)) by (intros; by apply emits_exchange).
  unfold negotiate_resume, wait_resume_req_body. emits_auto.
Qed.
Lemma emits_negotiate_never f m n p : cfg_resume_mode c = VAL_RESUME_NEVER → emits (negotiate_never f m n p).
Proof.
  intros Hn. assert (Hv : ∀ m t, emits (val_validate_metadata m t)).
  { intros. unfold val_validate_metadata. emits_auto. apply emits_call; [apply un_validator|]. intros. by apply Hval. }
  assert (He : ∀ n p path sz, emits (resume_exchange f true n p path sz)) by (intros; by apply emits_exchange).
  unfold negotiate_never, ack_silent, ack_unexpected, validated_start, validate_target, val_handle_validation_action. emits_auto.
Qed.
Lemma emits_skip_body f p t : emits (skip_body f p t).
Proof. unfold skip_body, wait_skip_body. emits_auto. Qed.
Lemma emits_abort f n p : emits (abort_receive f n p).
Proof. unfold abort_receive. emits_auto. Qed.
Hint Resolve emits_negotiate_resume emits_skip_body emits_abort : emits.
Lemma emits_receive_progress f n p b t w : emits (receive_progress f n p b t w).
Proof. unfold receive_progress. emits_auto. apply emits_callback; [apply un_progress|]. by apply permits. Qed.
Hint Resolve emits_receive_progress : emits.
Lemma emits_handle_packet f n p b t total pkt l : emits (handle_packet f n p b t total pkt l).
Proof. unfold handle_packet, handle_control, handle_data, after_data. emits_auto. Qed.
Hint Resolve emits_handle_packet : emits.
Lemma emits_data_body fuel f n p b P0 t total l : emits (data_body fuel f n p b P0 t total l).
Proof. unfold data_body, wait_data_body, val_metrics_inc_timeout_hard. emits_auto. Qed.
Hint Resolve emits_data_body : emits.
Lemma emits_receive_body fuel meta s P0 t o sk b : s_output_directory s = d →
  emits (receive_body fuel meta (meta_clean_name meta) (output_path s (meta_clean_name meta)) P0 t o sk b).
Proof.
  intros Hd. unfold receive_body, file_received, val_metrics_inc_files_recv.
  assert (Hf : ∀ m, emits (fs_fopen (output_path s (meta_clean_name meta)) m)).
  { intros m. apply emits_call; [apply un_fopen|]. intros. by apply Hopen. }
  emits_auto.
Qed.
Lemma emits_receive_one fuel P0 t b : emits (receive_one fuel P0 t b).
Proof.
  unfold receive_one. apply emits_bind; [emits_auto|intros [st|meta]]; [emits_auto|].
  apply emits_get_bind. intros s Hc Hd. cbv zeta. apply emits_bind.
  - destruct (Z.eqb_spec (cfg_resume_mode (s_cfg s)) VAL_RESUME_NEVER); [|emits_auto].
    apply emits_negotiate_never. by rewrite <- Hc.
  - intros [st|[o sk]]; [emits_auto|]. apply emits_bind; [by apply emits_receive_body|intros [st|b']; emits_auto].
Qed.
Hint Resolve emits_receive_one : emits.
Lemma emits_internal_receive fuel : emits (val_internal_receive_files fuel).
Proof. unfold val_internal_receive_files. emits_auto. Qed.
End receiver.

(** ** The theorems *)

Definition read_only (ev : event) : Prop :=
  match ev with
  | EvOpen _ ModeWrite _ | EvOpen _ ModeAppend _ => False
  | EvWrite _ _ _ | EvValidate _ _ _ => False
  | EvAppend p _ => p = trace_log
  | _ => True
  end.
#[export] Instance read_only_notes : Notes read_only.
Proof. done. Qed.
#[export] Instance read_only_permits : Permits read_only.
Proof. by intros []. Qed.
#[export] Instance read_only_reads : Reads read_only.
Proof. intros [] ?; try done. by destruct mode. Qed.
#[export] Instance read_only_announces : Announces read_only.
Proof. done. Qed.
#[export] Instance read_only_sends : Sends read_only.
Proof. done. Qed.

(** A sender only reads. Whatever the peer, the transport and the file system do,
    [val_send_files] never opens a file of the caller's for writing and never writes one; with
    stdio it appends to [resume_trace.log] and to nothing else. *)
Theorem sender_reads_only {E} `{!Hooks E} `{!BuildOptions} fuel files sp (w : world E) :
  wpp (val_send_files fuel files sp)
    (λ _ w', ∃ evs, w_tr w' = evs ++ w_tr w ∧ Forall read_only evs) w.
Proof.
  eapply wp_mono; [by apply (emits_send_files (P:=read_only) fuel files sp w eq_refl eq_refl)|].
  cbv beta. by intros a w' (_ & _ & _ & H').
Qed.

(** The receiver's prologue fixes the output directory, then everything is traced
    under it. *)
Definition target_directory (dir : option (list Z)) : list Z :=
  match dir with Some x => ztake (val_internal_strnlen (Some x) VAL_MAX_PATH) x | None => [] end.
Lemma receive_files_emits {E} `{!Hooks E} `{!BuildOptions} (P : event → Prop) `{!Permits P} `{!Reads P} `{!Sends P} `{!Announces P} fuel dir (w : world E) :
  let d := target_directory dir in
  (∀ h l rc, P (EvWrite h l rc)) →
  (∀ s meta m r, s_output_directory s = d → P (EvOpen (output_path s (meta_clean_name meta)) m r)) →
  (cfg_resume_mode (s_cfg (w_s w)) = VAL_RESUME_NEVER → ∀ m t a, P (EvValidate m t a)) →
  (cfg_resume_mode (s_cfg (w_s w)) = VAL_RESUME_NEVER → Notes P) →
  wpp (val_receive_files fuel dir) (λ _ w', ∃ evs, w_tr w' = evs ++ w_tr w ∧ Forall P evs) w.
Proof.
  intros d Hw Ho Hv Hn. unfold val_receive_files. apply wp_bind. apply wp_mod. apply wp_bind, wp_mod.
  set (w1 := mk_world _ _ _).
  assert (Hm : emits (s_cfg (w_s w)) d P (E:=E)
    (let! hs := val_internal_do_handshake_receiver fuel in
     if negb (hs =? VAL_OK) then do! val_internal_unlock in mret hs
     else let! rs := val_internal_receive_files fuel in do! val_internal_unlock in mret rs)).
  { pose proof (emits_internal_receive (E:=E) (c:=s_cfg (w_s w)) Hw Ho Hv Hn fuel) as Hr. emits_auto. }
  eapply wp_mono; [apply (Hm w1); done|]. cbv beta. intros a w' (_ & _ & _ & H'). exact H'.
Qed.

(** The directory string has no NUL and at most 127 bytes. *)
Definition no_nul (l : list Z) : Prop := Forall (λ x, x ≠ 0) l.
Lemma strnlen_no_nul n x : no_nul (ztake (strnlen_loop n x) x) ∧ 0 <= strnlen_loop n x <= Z.of_nat n.
Proof.
  revert x. induction n as [|n IH]; intros x; [split; [constructor|cbn; lia]|].
  destruct x as [|z x]; cbn [strnlen_loop]; [split; [constructor|lia]|].
  destruct (Z.eqb_spec z 0); [split; [constructor|lia]|]. destruct (IH x) as [Hn Hb].
  split; [|lia]. unfold ztake. rewrite Z2Nat.inj_add by lia. cbn. by constructor.
Qed.
Lemma target_directory_ok dir : no_nul (target_directory dir) ∧ zlen (target_directory dir) <= 127.
Proof.
  destruct dir as [x|]; [|split; [constructor|done]]. cbn [target_directory val_internal_strnlen].
  destruct (strnlen_no_nul (Z.to_nat VAL_MAX_PATH) x) as [Hn Hb]. split; [done|].
  etrans; [apply zlen_ztake_le; lia|]. etrans; [apply Hb|]. done.
Qed.
Lemma c_string_no_nul l : no_nul l → c_string l = l.
Proof. induction 1 as [|z l Hz _ IH]; cbn; [done|]. apply Z.eqb_neq in Hz. by rewrite Hz, IH. Qed.
Lemma safe_no_nul l : safe_chars l → no_nul l.
Proof. induction 1 as [|z l Hz _ IH]; constructor; [by apply safe_not_sep|done]. Qed.

Lemma meta_name_ok meta : safe_chars (meta_clean_name meta) ∧ 0 < zlen (meta_clean_name meta) <= 127.
Proof.
  unfold meta_clean_name, VAL_MAX_FILENAME. destruct (val_clean_filename _ _) as [t|] eqn:Et.
  - apply clean_filename_ok in Et as (Hs & Hl & _); [|lia]. split; [done|]. lia.
  - exfalso. revert Et. unfold val_clean_filename. replace (127 + 1 =? 0) with false by lia. cbv zeta.
    by destruct (_ && _).
Qed.

(** A path of one clean component below the directory (or the component itself). *)
Definition inside (d p : list Z) : Prop :=
  ∃ name, safe_chars name ∧ 0 < zlen name <= 127 ∧
          p = match d with [] => name | _ => d ++ [slash] ++ name end.
Lemma output_path_inside s dir meta : s_output_directory s = target_directory dir →
  inside (target_directory dir) (output_path s (meta_clean_name meta)).
Proof.
  intros Hs. destruct (meta_name_ok meta) as [Hn Hl]. exists (meta_clean_name meta). split; [done|]. split; [done|].
  destruct (target_directory_ok dir) as [Hd Hdl]. unfold output_path. rewrite Hs.
  set (d := target_directory dir) in *. set (n := meta_clean_name meta) in *. clearbody d n.
  destruct d as [|x d]; [cbn; by apply ztake_all; lia|].
  unfold val_internal_join_path. cbn [Z.eqb]. inversion Hd as [|? ? Hx _]; subst. apply Z.eqb_neq in Hx. rewrite Hx.
  rewrite !c_string_no_nul by (done || by apply safe_no_nul). cbn [snprintf_text fst].
  apply ztake_all. rewrite !zlen_app. change (zlen [slash]) with 1. lia.
Qed.

(** What a receiver with resume mode [mode] and output directory [d] may open or write. *)
Definition confined_to (mode : Z) (d : list Z) (ev : event) : Prop :=
  match ev with
  | EvOpen p ModeRead _ => True
  | EvOpen p _ _ => inside d p
  | EvAppend p _ => mode = VAL_RESUME_NEVER ∧ p = trace_log
  | _ => True
  end.
#[export] Instance confined_permits mode d : Permits (confined_to mode d).
Proof. by intros []. Qed.
#[export] Instance confined_reads mode d : Reads (confined_to mode d).
Proof. intros [] ?; try done. by destruct mode0. Qed.
#[export] Instance confined_announces mode d : Announces (confined_to mode d).
Proof. done. Qed.
#[export] Instance confined_sends mode d : Sends (confined_to mode d).
Proof. done. Qed.

(** C26: a receiver writes only inside its output directory. Whatever metadata the
    peer sends - separators, dots, control characters, no NUL at all - every file that
    [val_receive_files] opens for writing or appending with the caller's file system is the
    output directory followed by one separator and one name of at most 127 allowed
    characters. Its own stdio appends, in mode NEVER only, to [resume_trace.log] in the
    working directory and to nothing else. *)
Theorem receiver_writes_inside {E} `{!Hooks E} `{!BuildOptions} fuel dir (w : world E) :
  wpp (val_receive_files fuel dir)
    (λ _ w', ∃ evs, w_tr w' = evs ++ w_tr w ∧
       Forall (confined_to (cfg_resume_mode (s_cfg (w_s w))) (target_directory dir)) evs) w.
Proof.
  apply (receive_files_emits (confined_to _ (target_directory dir))); [done| |done|by intros Hn r].
  intros s meta m r Hs. pose proof (output_path_inside s dir meta Hs). by destruct m.
Qed.

Definition not_validated (ev : event) : Prop := match ev with EvValidate _ _ _ => False | _ => True end.
#[export] Instance not_validated_permits : Permits not_validated.
Proof. by intros []. Qed.
#[export] Instance not_validated_reads : Reads not_validated.
Proof. by intros []. Qed.
#[export] Instance not_validated_announces : Announces not_validated.
Proof. done. Qed.
#[export] Instance not_validated_sends : Sends not_validated.
Proof. done. Qed.
#[export] Instance not_validated_notes : Notes not_validated.
Proof. done. Qed.

(** In every resume mode but NEVER the receiver does not call the application's
    metadata validator, although one is configured. *)
Theorem validator_ignored {E} `{!Hooks E} `{!BuildOptions} fuel dir (w : world E) :
  cfg_resume_mode (s_cfg (w_s w)) ≠ VAL_RESUME_NEVER →
  wpp (val_receive_files fuel dir)
    (λ _ w', ∃ evs, w_tr w' = evs ++ w_tr w ∧ Forall not_validated evs) w.
Proof. intros Hm. by apply (receive_files_emits not_validated). Qed.
