(* ===== verification/Typestate.v ===== *)
(** Disciplines on the calls out, as automata over the trace: a logic of triples.

    [obeys step J c s m post]: with configuration [c] and from the state [s] of the automaton
    [step], the calls that [m] makes are all steps of it; the state they lead to satisfies
    [post] with the result; and [J], which ties what is seen of the environment to the
    state of the automaton, holds again. *)
From S2P Require Import Prelude ByteOrder Wire Errors Timing Session Window Packet Control Trace.

Section automaton.
Context {S : Type} (step : event → S → option S).

(** A trace, whose newest event is first. *)
Definition trace_run (evs : list event) (s : S) : option S := foldr (λ ev r, r ≫= step ev) (Some s) evs.
Lemma trace_run_app evs evs' s : trace_run (evs' ++ evs) s = trace_run evs s ≫= trace_run evs'.
Proof.
  unfold trace_run. rewrite foldr_app. destruct (foldr _ (Some s) evs) as [s'|]; [done|]. cbn [mbind option_bind].
  by induction evs' as [|ev evs' IH]; [|cbn; rewrite IH].
Qed.
Lemma trace_run_idle (P : event → Prop) evs s : (∀ ev, P ev → step ev s = Some s) → Forall P evs → trace_run evs s = Some s.
Proof. intros HP. induction 1 as [|ev evs Hev _ IH]; [done|]. cbn. unfold trace_run in IH. rewrite IH. by apply HP. Qed.
End automaton.

Section obeys.
Context {E : Type} `{!Hooks E} `{!View E} {S : Type}.
Context {step : event → S → option S} {J : S → view_of (E:=E) → Prop} {c : val_config_t}.

Definition obeys {A} (step : event → S → option S) (J : S → view_of (E:=E) → Prop) (c : val_config_t)
    (s : S) (m : M (world E) A) (post : A → S → Prop) : Prop :=
  ∀ w, s_cfg (w_s w) = c → J s (view (w_e w)) →
    wpp m (λ a w', s_cfg (w_s w') = c ∧ ∃ evs s', w_tr w' = evs ++ w_tr w ∧ trace_run step evs s = Some s' ∧
             post a s' ∧ J s' (view (w_e w'))) w.

Lemma obeys_ret {A} (a : A) s (post : A → S → Prop) : post a s → obeys step J c s (mret a) post.
Proof. intros Hp w Hc HJ. apply wp_ret. split; [done|]. by exists [], s. Qed.
Lemma obeys_bind {A B} s (m : M (world E) A) (k : A → M (world E) B) mid post :
  obeys step J c s m mid → (∀ a s', mid a s' → obeys step J c s' (k a) post) → obeys step J c s (mbind m k) post.
Proof.
  intros Hm Hk w Hc HJ. apply wp_bind. eapply wp_mono; [by apply Hm|]. intros a w1 (Hc1 & evs & s1 & E1 & R1 & P1 & J1).
  eapply wp_mono; [by eapply Hk|]. intros b w2 (Hc2 & evs' & s2 & E2 & R2 & P2 & J2). split; [done|].
  exists (evs' ++ evs), s2. split; [by rewrite E2, E1, (assoc_L (++))|]. by rewrite trace_run_app, R1.
Qed.
Lemma obeys_mono {A} s (m : M (world E) A) (post post' : A → S → Prop) :
  obeys step J c s m post → (∀ a s', post a s' → post' a s') → obeys step J c s m post'.
Proof.
  intros Hm Hp w Hc HJ. eapply wp_mono; [by apply Hm|]. intros a w' (Hc' & evs & s' & Et & R & P & J').
  split; [done|]. exists evs, s'. split; [done|]. split; [done|]. split; [by apply Hp|done].
Qed.
(** What the automaton does not look at. *)
Lemma obeys_idle {A} (P : event → Prop) s (m : M (world E) A) :
  (∀ ev, P ev → step ev s = Some s) → (∀ d, emits c d P m) → obeys step J c s m (λ _ s', s' = s).
Proof.
  intros HP Hm w Hc HJ. eapply wp_mono; [by apply (Hm _ w Hc eq_refl)|]. intros a w' (Hc' & _ & V & evs & E1 & F).
  split; [done|]. exists evs, s. split; [done|]. split; [by eapply trace_run_idle|]. by rewrite V.
Qed.
Lemma obeys_loop {St A} (I : St → S → Prop) (post : A → S → Prop) fuel (body : St → M (world E) (St + A)) l s :
  (∀ l s, I l s → obeys step J c s (body l) (λ r s', match r with inl l' => I l' s' | inr a => post a s' end)) →
  I l s → obeys step J c s (loop fuel body l) post.
Proof.
  intros Hb Hl w Hc HJ. apply (wpp_loop (λ l' w', s_cfg (w_s w') = c ∧ ∃ evs s', w_tr w' = evs ++ w_tr w ∧
    trace_run step evs s = Some s' ∧ I l' s' ∧ J s' (view (w_e w')))).
  2:{ split; [done|]. by exists [], s. }
  intros l' w1 (Hc1 & evs & s1 & E1 & R1 & I1 & J1). eapply wp_mono; [by apply (Hb l' s1)|].
  intros r w2 (Hc2 & evs' & s2 & E2 & R2 & P2 & J2).
  assert (w_tr w2 = (evs' ++ evs) ++ w_tr w ∧ trace_run step (evs' ++ evs) s = Some s2) as [E3 R3].
  { split; [by rewrite E2, E1, (assoc_L (++))|]. by rewrite trace_run_app, R1. }
  destruct r; (split; [done|]); by exists (evs' ++ evs), s2.
Qed.
Lemma obeys_call {A} (h : E → A * E) ev s (post : A → S → Prop) :
  (∀ e, let '(a, e') := h e in J s (view e) → ∃ s', step (ev a) s = Some s' ∧ post a s' ∧ J s' (view e')) →
  obeys step J c s (call h ev) post.
Proof.
  intros Hp w Hc HJ. apply wp_lift. specialize (Hp (w_e w)). destruct (h (w_e w)) as [a e]. split; [done|].
  destruct Hp as (s' & Hs & Hp & J'); [done|]. exists [ev a], s'. split; [done|]. split; [exact Hs|done].
Qed.
Lemma obeys_call_unit (h : E → E) ev s s' :
  step ev s = Some s' → (∀ e, J s (view e) → J s' (view (h e))) → obeys step J c s (call_unit h ev) (λ _ s1, s1 = s').
Proof.
  intros Hs HJ' w Hc HJ. apply wp_mod. split; [done|]. exists [ev], s'. split; [done|]. split; [exact Hs|]. split; [done|]. by apply HJ'.
Qed.
Lemma obeys_gives {A} s (m : M (world E) A) (post : A → S → Prop) (Q : A → Prop) :
  obeys step J c s m post → gives m Q → obeys step J c s m (λ a s', Q a ∧ post a s').
Proof.
  intros Hm Hg w Hc HJ. eapply wp_mono; [apply (wpp_gives m Q _ w Hg (Hm w Hc HJ))|].
  cbv beta. intros a w' (Ha & Hc' & evs & s' & Et & R & P & J'). split; [done|]. by exists evs, s'.
Qed.
Lemma obeys_get_bind {B} s (f : val_session_t → M (world E) B) post :
  (∀ ss, s_cfg ss = c → obeys step J c s (f ss) post) → obeys step J c s (mbind get_s f) post.
Proof. intros Hf w Hc HJ. apply wp_bind, wp_gets. by apply Hf. Qed.
End obeys.
