(* ===== verification/Handles.v ===== *)
(** How both ends use the files of the caller: a discipline on the handles, as an automaton
    over the trace.

    At any time a call has at most one file open.  It reads and positions only a file opened
    for reading, writes only one opened for writing, never touches a handle after closing
    it, and closes what it has opened on every way out - whatever the peer, the transport,
    the file system and the callbacks do. *)
From S2P Require Import Prelude ByteOrder Wire Errors Crc Sanitize Timing Session Simulation Window Packet Control.
From S2P Require Import Handshake Resume Sender Receiver Trace Typestate.

(** The file that is open, and how. *)
Definition open_file : Type := option (handle * fmode).
Definition writable (m : fmode) : bool := match m with ModeRead => false | _ => true end.

(** One call on the file system; [None] where it breaks the discipline. *)
Definition file_step (ev : event) (s : open_file) : option open_file :=
  match ev, s with
  | EvOpen _ m res, None => Some (option_map (λ h, (h, m)) res)
  | EvOpen _ _ _, Some _ => None
  | EvRead h _ _, Some (g, m) | EvSeek h _ _ _, Some (g, m) =>
      if (h =? g) && negb (writable m) then Some s else None
  | EvWrite h _ _, Some (g, m) => if (h =? g) && writable m then Some s else None
  | EvClose h, Some (g, _) => if h =? g then Some None else None
  | (EvRead _ _ _ | EvSeek _ _ _ _ | EvWrite _ _ _ | EvClose _), None => None
  | _, _ => Some s
  end.
(** No call on the file system. *)
Definition unfiled (ev : event) : Prop :=
  match ev with EvOpen _ _ _ | EvRead _ _ _ | EvWrite _ _ _ | EvSeek _ _ _ _ | EvClose _ => False | _ => True end.
#[export] Instance unfiled_permits : Permits unfiled.
Proof. by intros []. Qed.
#[export] Instance unfiled_sends : Sends unfiled.
Proof. done. Qed.
#[export] Instance unfiled_notes : Notes unfiled.
Proof. done. Qed.
Lemma unfiled_progress info : unfiled (EvProgress info).
Proof. done. Qed.
#[export] Instance unfiled_announces : Announces unfiled.
Proof. done. Qed.
Lemma unfiled_idle s ev : unfiled ev → file_step ev s = Some s.
Proof. by destruct ev, s. Qed.

(** ** Typed programs: [typed s m post] says that from the state [s] of the files [m] obeys
    the discipline and leaves the state [post a], where [a] is its result *)

Definition typed {E A} `{!Hooks E} (s : open_file) (m : M (world E) A) (post : A → open_file) : Prop :=
  ∀ c, obeys file_step (λ _ _, True) c s m (λ a s', s' = post a).

Create HintDb typed discriminated.

Section typed.
Context {E : Type} `{!Hooks E}.

Lemma typed_ret {A} (a : A) s post : post a = s → typed (E:=E) s (mret a) post.
Proof. intros Ha c. by apply obeys_ret. Qed.
Lemma typed_bind {A B} s (m : M (world E) A) (k : A → M (world E) B) mid post :
  typed s m mid → (∀ a, typed (mid a) (k a) post) → typed s (mbind m k) post.
Proof. intros Hm Hk c. eapply obeys_bind; [apply Hm|]. cbv beta. intros a s' ->. apply Hk. Qed.
Lemma typed_post {A} s (m : M (world E) A) post post' : typed s m post → (∀ a, post a = post' a) → typed s m post'.
Proof. intros Hm Hp c. eapply obeys_mono; [apply Hm|]. cbv beta. intros a s' ->. apply Hp. Qed.
Lemma typed_unfiled {A} s (m : M (world E) A) : (∀ c d, emits c d unfiled m) → typed s m (λ _, s).
Proof. intros Hm c. eapply obeys_idle; [apply unfiled_idle|apply Hm]. Qed.
Lemma typed_loop {S A} s fuel (body : S → M (world E) (S + A)) l post :
  (∀ l, typed s (body l) (λ r, match r with inl _ => s | inr a => post a end)) → typed s (loop fuel body l) post.
Proof.
  intros Hb c. apply (obeys_loop (λ _ s', s' = s)); [|done]. intros l' s' ->.
  eapply obeys_mono; [apply Hb|]. by intros [l1|a] s' ->.
Qed.
Lemma typed_call {A} (h : E → A * E) ev s post :
  (∀ a, file_step (ev a) s = Some (post a)) → typed s (call h ev) post.
Proof. intros Hp c. apply obeys_call. intros e. destruct (h e) as [a e']. intros _. by exists (post a). Qed.
Lemma typed_upd (f : val_session_t → val_session_t) s : (∀ s, s_cfg (f s) = s_cfg s) → typed (E:=E) s (upd f) (λ _, s).
Proof. intros Hf c w Hc _. apply wp_mod. split; [by cbn; rewrite Hf|]. by exists [], s. Qed.

(** *** The calls on files *)
Lemma typed_fopen p m : typed None (fs_fopen p m) (option_map (λ h, (h, m))).
Proof. by apply typed_call. Qed.
Lemma typed_fread h n : typed (Some (h, ModeRead)) (fs_fread h n) (λ _, Some (h, ModeRead)).
Proof. apply typed_call. intros. cbn. by rewrite Z.eqb_refl. Qed.
Lemma typed_fseek h o wh : typed (Some (h, ModeRead)) (fs_fseek h o wh) (λ _, Some (h, ModeRead)).
Proof. apply typed_call. intros. cbn. by rewrite Z.eqb_refl. Qed.
Lemma typed_fwrite h m l : writable m = true → typed (Some (h, m)) (fs_fwrite h l) (λ _, Some (h, m)).
Proof. intros Hm. apply typed_call. intros. cbn. by rewrite Z.eqb_refl, Hm. Qed.
Lemma typed_fclose h m : typed (Some (h, m)) (fs_fclose h) (λ _, None).
Proof. intros c. apply obeys_call_unit; [cbn; by rewrite Z.eqb_refl|done]. Qed.
End typed.
#[export] Hint Resolve typed_fopen typed_fread typed_fseek typed_fclose : typed.
#[export] Hint Resolve unfiled_permits unfiled_sends unfiled_notes unfiled_announces unfiled_progress : emits.

(** What a step between two binds can be: a lemma, something without files, or, when all
    of its branches leave the files as they are, a program of such steps. *)
Ltac typed_step :=
  lazymatch goal with
  | |- ∀ _, typed _ _ _ => intros ?; cbv beta
  | |- typed _ (mbind _ _) _ => eapply typed_bind; [typed_first|intros ?; cbv beta]
  | |- typed _ (mret _) _ => apply typed_ret; reflexivity
  | |- typed _ (loop _ _ _) _ => apply typed_loop; intros ?
  | |- typed _ (match ?x with _ => _ end) _ => destruct x; cbn [option_map]
  | |- typed _ (let _ := _ in _) _ => cbv zeta
  | |- typed _ (upd _) _ => apply typed_upd; reflexivity
  | |- typed _ _ _ => first [solve [auto with typed nocore] | apply typed_unfiled; intros; solve [emits_auto] | progress cbv beta iota]
  end
with typed_first :=
  first [ solve [auto with typed nocore]
        | apply typed_unfiled; intros; solve [emits_auto]
        | lazymatch goal with |- @typed _ ?A _ ?s _ ?post => unify post (λ _ : A, s) end; solve [typed_auto] ]
with typed_auto := repeat typed_step.

(** ** The code *)

Section code.
Context {E : Type} `{!Hooks E} `{!BuildOptions}.
Abbreviation closed m := (typed (E:=E) None m (λ _, None)).
Hint Resolve emits_wait_resume emits_wait_verify emits_wait_done emits_wait_eot emits_handshake_sender
  emits_progress emits_recv_deadline emits_skipped : emits.
Lemma unfiled_callback c d h ev : unfiled ev → emits (E:=E) c d unfiled (callback h ev).
Proof. intros. apply emits_callback; [by intros|done]. Qed.
Hint Resolve unfiled_callback : emits.

(** *** Resume negotiation *)
Lemma typed_crc_region fuel h o l :
  typed (E:=E) (Some (h, ModeRead)) (val_internal_crc32_region fuel h o l) (λ _, Some (h, ModeRead)).
Proof. unfold val_internal_crc32_region, crc_region_body. typed_auto. Qed.
Hint Resolve typed_crc_region : typed.
Lemma typed_determine fuel n sz : closed (determine_resume_action fuel n sz).
Proof. unfold determine_resume_action. typed_auto. Qed.
Lemma typed_verify_round fuel p o v : closed (verify_round fuel p o v).
Proof. unfold verify_round. typed_auto. Qed.
Hint Resolve typed_determine typed_verify_round : typed.
Lemma typed_negotiation fuel sz p : closed (handle_resume_negotiation fuel sz p).
Proof. unfold handle_resume_negotiation, apply_resume_resp. typed_auto. Qed.

(** *** The sender *)
Section sending.
Context (f : handle).
Abbreviation reading := (Some (f, ModeRead)).
Abbreviation stays m := (typed (E:=E) reading m (λ _, reading)).
Abbreviation shuts m := (typed (E:=E) reading m (λ _, None)).
(** A turn of a loop of the data phase: where it returns from the function it has closed. *)
Abbreviation turns m := (typed (E:=E) reading m (λ r, match r with inr (inl _) => None | _ => reading end)).

Lemma typed_send_data fuel m sz i l : stays (send_data_packet fuel f m sz i l).
Proof. unfold send_data_packet, read_payload_body. typed_auto. Qed.
Lemma typed_rewind o : stays (rewind_file f o).
Proof. unfold rewind_file. typed_auto. Qed.
Lemma typed_close n p st : shuts (close_and_complete f n p st).
Proof. unfold close_and_complete. typed_auto. Qed.
Hint Resolve typed_send_data typed_rewind typed_close : typed.
Lemma typed_window_ack fuel c l : ac_file c = f → stays (wait_for_window_ack fuel c l).
Proof.
  intros Hf. unfold wait_for_window_ack, window_ack_body, window_ack_nak, window_ack_ack, window_ack_advance,
    window_ack_retry, handle_nak_retransmit, val_metrics_inc_retrans, val_metrics_inc_timeout, val_metrics_inc_crcerr.
  rewrite Hf. typed_auto.
Qed.
Lemma typed_fill fuel n p sz m l : turns (fill_window_body fuel f n p sz m l).
Proof. unfold fill_window_body. typed_auto. Qed.
Hint Resolve typed_fill : typed.
Lemma typed_window_turn fuel n p sz m to l : turns (window_turn fuel f n p sz m to l).
Proof.
  unfold window_turn. eapply typed_bind; [apply typed_loop; intros; apply typed_fill|].
  intros [st|l']; [by apply typed_ret|]. cbv beta iota. do 4 typed_step.
  eapply typed_bind; [by apply typed_window_ack|]. typed_auto.
Qed.
Hint Resolve typed_window_turn : typed.
Lemma typed_data_health n p :
  typed (E:=E) reading (data_health f n p) (λ r, match r with Some _ => None | None => reading end).
Proof. unfold data_health. typed_auto. Qed.
Hint Resolve typed_data_health : typed.
Lemma typed_send_windows fuel n p sz m o l : turns (send_windows_body fuel f n p sz m o l).
Proof.
  unfold send_windows_body. destruct (_ <? _); [|by apply typed_ret]. typed_step. typed_step; [typed_auto|].
  eapply typed_bind; [apply typed_data_health|]. intros [st|]; [by apply typed_ret|]. cbv beta iota. do 2 typed_step.
  eapply typed_bind; [apply typed_loop; intros; apply typed_window_turn|]. intros [st|l']; by apply typed_ret.
Qed.
Lemma typed_send_done fuel n p sz : shuts (send_done fuel f n p sz).
Proof. unfold send_done, val_metrics_inc_files_sent. typed_auto. Qed.
Hint Resolve typed_send_done : typed.
Lemma typed_file_body fuel n p sz o win prog : shuts (send_file_body fuel f n p sz o win prog).
Proof.
  unfold send_file_body. do 3 typed_step. typed_step; [typed_auto|]. typed_step. typed_step; [typed_auto|].
  eapply typed_bind; [apply typed_loop; intros; apply typed_send_windows|]. intros [st|l']; typed_auto.
Qed.
End sending.
Hint Resolve typed_negotiation typed_file_body : typed.

Lemma typed_size_name p : closed (get_file_size_and_name p).
Proof. unfold get_file_size_and_name. typed_auto. Qed.
Hint Resolve typed_size_name : typed.
Lemma typed_send_file fuel p sp prog : closed (val_internal_send_file fuel p sp prog).
Proof. unfold val_internal_send_file, send_file_data_adaptive, send_metadata. typed_auto. Qed.
Hint Resolve typed_send_file : typed.
Lemma typed_scan ps t : closed (scan_sizes ps t).
Proof. revert t. induction ps as [|p ps IH]; intros t; cbn [scan_sizes]; typed_auto. Qed.
Lemma typed_send_all fuel ps sp prog : closed (send_all fuel ps sp prog).
Proof. revert prog. induction ps as [|p ps IH]; intros prog; cbn [send_all]; typed_auto. Qed.
Hint Resolve typed_scan typed_send_all : typed.
Lemma typed_send_files fuel ps sp : closed (val_send_files fuel ps sp).
Proof. unfold val_send_files, send_batch. typed_auto. Qed.

(** *** The receiver *)
Section receiving.
Context (f : handle) (m : fmode) (Hm : writable m = true).
Abbreviation writing := (Some (f, m)).
Abbreviation turns m := (typed (E:=E) writing m (λ r, match r with inr (inl _) => None | _ => writing end)).

Lemma typed_write l : typed (E:=E) writing (fs_fwrite f l) (λ _, writing).
Proof. by apply typed_fwrite. Qed.
Lemma typed_abort n p : typed (E:=E) writing (abort_receive f n p) (λ _, None).
Proof. unfold abort_receive. typed_auto. Qed.
Hint Resolve typed_write typed_abort emits_plain_backoff : typed.
Lemma typed_wait_data fuel n p P to l :
  typed (E:=E) writing (wait_data_body fuel f n p P to l) (λ r, match r with inr (inl _) => None | _ => writing end).
Proof. unfold wait_data_body, plain_backoff, val_metrics_inc_timeout_hard. typed_auto. Qed.
Lemma typed_progress n p b t w :
  typed (E:=E) writing (receive_progress f n p b t w) (λ r, match r with inl _ => None | _ => writing end).
Proof. unfold receive_progress. typed_auto. Qed.
Hint Resolve typed_progress : typed.
Lemma typed_after_data n p b t total o l : turns (after_data f n p b t total o l).
Proof. unfold after_data. typed_auto. Qed.
Hint Resolve typed_after_data : typed.
Lemma typed_packet n p b t total pkt l : turns (handle_packet f n p b t total pkt l).
Proof. unfold handle_packet, handle_control, handle_data. typed_auto. Qed.
Hint Resolve typed_packet : typed.
Lemma typed_data_body fuel n p b P t total l : turns (data_body fuel f n p b P t total l).
Proof.
  unfold data_body. do 2 typed_step. eapply typed_bind.
  - apply (typed_loop _ _ _ _ (λ r, match r with inl _ => None | _ => writing end)). intros.
    eapply typed_post; [apply typed_wait_data|]. by intros [?|[?|?]].
  - intros [st|pkt]; typed_auto.
Qed.
End receiving.
Hint Resolve typed_packet typed_data_body : typed.

Lemma typed_exchange fuel nv n p path sz : closed (resume_exchange fuel nv n p path sz).
Proof. unfold resume_exchange, verify_reply. typed_auto. Qed.
Hint Resolve typed_exchange : typed.
Lemma typed_validate m n : closed (validate_target m n).
Proof.
  apply typed_unfiled. intros. unfold validate_target, val_handle_validation_action, val_validate_metadata. emits_auto.
  by apply emits_call.
Qed.
Hint Resolve typed_validate : typed.
Lemma typed_negotiate fuel (never : bool) m n p :
  closed (if never then negotiate_never fuel m n p else negotiate_resume fuel m n p).
Proof.
  destruct never.
  - unfold negotiate_never, ack_silent, ack_unexpected, validated_start. typed_auto.
  - unfold negotiate_resume. do 2 typed_step. eapply typed_bind; [|typed_auto].
    apply typed_unfiled. intros. unfold wait_resume_req_body, plain_backoff. emits_auto.
Qed.
Lemma typed_skip fuel P total : closed (skip_body fuel P total).
Proof. apply typed_unfiled. intros. unfold skip_body, wait_skip_body, plain_backoff. emits_auto. Qed.
Lemma typed_receive_body fuel meta n p P t o sk b : closed (receive_body fuel meta n p P t o sk b).
Proof.
  unfold receive_body, file_received, val_metrics_inc_files_recv. cbv zeta. destruct sk.
  - eapply typed_bind; [apply (typed_loop _ _ _ _ (λ _, None)); intros; eapply typed_post; [apply typed_skip|by intros []]|].
    typed_auto.
  - set (m := if o =? 0 then ModeWrite else ModeAppend). assert (Hm : writable m = true) by (unfold m; by destruct (o =? 0)).
    clearbody m. do 2 typed_step; [|typed_auto]. eapply typed_bind; [apply typed_loop; intros; by apply typed_data_body|].
    intros [st|l]; typed_auto.
Qed.
Lemma typed_receive_one fuel P t b : closed (receive_one fuel P t b).
Proof.
  unfold receive_one. eapply typed_bind; [apply typed_unfiled; intros; unfold wait_meta, wait_meta_body, classify_meta,
    plain_backoff, val_metrics_inc_timeout_hard; emits_auto|].
  intros [st|meta]; [by apply typed_ret|]. cbv beta iota zeta. typed_step.
  eapply typed_bind; [apply typed_negotiate|]. intros [st|[o sk]]; [by apply typed_ret|].
  eapply typed_bind; [apply typed_receive_body|]. intros [st|b']; by apply typed_ret.
Qed.
Lemma typed_receive_files fuel dir : closed (val_receive_files fuel dir).
Proof.
  unfold val_receive_files. do 3 typed_step. typed_step; [typed_auto|].
  eapply typed_bind; [|typed_auto]. unfold val_internal_receive_files. do 2 typed_step.
  apply typed_loop. intros. eapply typed_post; [apply typed_receive_one|by intros []].
Qed.
End code.

(** ** The theorem *)

(** C6: files are used with discipline. Whatever the peer, the transport, the file system
    and the callbacks do, [val_send_files] and [val_receive_files] have at most one file
    open at a time, read and position only a file they opened for reading, write only one
    they opened for writing or appending, use no handle after closing it, and have closed
    every file they opened on every return path. *)
Theorem files_closed {E} `{!Hooks E} `{!BuildOptions} fuel files sp dir (w : world E) :
  wpp (val_send_files fuel files sp) (λ _ w', ∃ evs, w_tr w' = evs ++ w_tr w ∧ trace_run file_step evs None = Some None) w ∧
  wpp (val_receive_files fuel dir) (λ _ w', ∃ evs, w_tr w' = evs ++ w_tr w ∧ trace_run file_step evs None = Some None) w.
Proof.
  assert (Hc : ∀ m : M (world E) Z, typed None m (λ _, None) →
    wpp m (λ _ w', ∃ evs, w_tr w' = evs ++ w_tr w ∧ trace_run file_step evs None = Some None) w).
  { intros m Hm. eapply wp_mono; [by apply (Hm _ w eq_refl)|]. cbv beta. intros a w' (_ & evs & s' & Et & R & -> & _). by exists evs. }
  split; apply Hc; [apply typed_send_files|apply typed_receive_files].
Qed.
