(* ===== verification/Callbacks.v ===== *)
(** How both ends announce files to the application: [on_file_start] and [on_file_complete],
    as a discipline over the trace.

    A file that is announced ends at most once, under the name it was announced with and
    before the next one is announced; a sender announces the files of its list, in order, up
    to the one that fails. *)
From S2P Require Import Prelude ByteOrder Wire Errors Crc Sanitize Timing Session Simulation Window Packet Control.
From S2P Require Import Handshake Resume Sender Receiver Trace Typestate.

(** What ended, with its status, oldest first; and the name of the file that is under way. *)
Record announced := mk_announced { an_done : list (list Z * Z); an_open : option (list Z) }.

Definition announce_step (ev : event) (s : announced) : option announced :=
  match ev, an_open s with
  | EvFileStart n _ _ _, None => Some (mk_announced (an_done s) (Some n))
  | EvFileStart _ _ _ _, Some _ => None
  | EvFileComplete n _ r, Some n' =>
      if bool_decide (n = n') then Some (mk_announced (an_done s ++ [(n, r)]) None) else None
  | EvFileComplete _ _ _, None => None
  | _, _ => Some s
  end.

(** Everything else. *)
Definition unannounced (ev : event) : Prop :=
  match ev with EvFileStart _ _ _ _ | EvFileComplete _ _ _ => False | _ => True end.
#[export] Instance unannounced_permits : Permits unannounced.
Proof. by intros []. Qed.
#[export] Instance unannounced_reads : Reads unannounced.
Proof. by intros []. Qed.
#[export] Instance unannounced_sends : Sends unannounced.
Proof. done. Qed.
#[export] Instance unannounced_notes : Notes unannounced.
Proof. done. Qed.
#[export] Hint Resolve unannounced_permits unannounced_reads unannounced_sends unannounced_notes : emits.
Lemma unannounced_idle s ev : unannounced ev → announce_step ev s = Some s.
Proof. by destruct ev, s. Qed.

(** [J] is what the application's two functions make of the announcements. *)
Class Reports (E : Type) `{!Hooks E} `{!View E} (J : announced → view_of (E:=E) → Prop) := {
  rp_start d n p sz o e : J (mk_announced d None) (view e) →
    J (mk_announced d (Some n)) (view (snd (hk_on_file_start n p sz o e)));
  rp_complete d n p r e : J (mk_announced d (Some n)) (view e) →
    J (mk_announced (d ++ [(n, r)]) None) (view (snd (hk_on_file_complete n p r e)))
}.
#[export] Instance no_reports {E} `{!Hooks E} : Reports E (View0:=no_view) (λ _ _, True).
Proof. by split. Qed.

Create HintDb announces discriminated.

Section announcing.
Context {E : Type} `{!Hooks E} `{!View E} `{!Unseen E} `{!BuildOptions}.
Context (J : announced → view_of (E:=E) → Prop) `{!Reports E J} (c : val_config_t).
Context (Hstart : cfg_has_on_file_start c = true) (Hcomplete : cfg_has_on_file_complete c = true).
Abbreviation tells s m post := (obeys announce_step J c s m post).
Abbreviation idle s m := (obeys announce_step J c s m (λ _ s', s' = s)).

Lemma idle_emits {A} s (m : M (world E) A) : (∀ d, emits c d unannounced m) → idle s m.
Proof. apply obeys_idle, unannounced_idle. Qed.
Lemma tells_callback h ev s s' : announce_step ev s = Some s' → (∀ e, J s (view e) → J s' (view (snd (h e)))) →
  tells s (callback h ev) (λ _ s1, s1 = s').
Proof.
  intros Hs HJ. unfold callback. eapply (obeys_bind _ _ _ (λ _ s1, s1 = s')).
  - apply obeys_call. intros e. specialize (HJ e). destruct (h e) as [a e']. intros H0. exists s'. split; [done|].
    split; [done|]. by apply HJ.
  - intros cancels s1 ->. destruct cancels; [|by apply obeys_ret].
    eapply (obeys_bind _ _ _ (λ _ s1, s1 = s')); [apply idle_emits; intros; apply emits_cancel|]. intros _ s1 ->. by apply obeys_ret.
Qed.
Lemma tells_start d n p sz o :
  tells (mk_announced d None) (on_file_start n p sz o) (λ _ s', s' = mk_announced d (Some n)).
Proof.
  unfold on_file_start. apply obeys_get_bind. intros s Hc. rewrite Hc, Hstart. apply tells_callback; [done|]. intros e. apply rp_start.
Qed.
Lemma tells_complete d n p r :
  tells (mk_announced d (Some n)) (on_file_complete n p r) (λ _ s', s' = mk_announced (d ++ [(n, r)]) None).
Proof.
  unfold on_file_complete. apply obeys_get_bind. intros s Hc. rewrite Hc, Hcomplete. apply tells_callback.
  - cbn. by rewrite bool_decide_true.
  - intros e. apply rp_complete.
Qed.
End announcing.

(** After a step that the automaton does not see, and after one that it does. *)
Ltac tells_first :=
  first [ solve [auto with announces nocore] | apply idle_emits; intros; solve [emits_auto] ].
Ltac tells_leaf :=
  apply obeys_ret; cbv beta iota;
  first [ reflexivity | done | solve [split; [first [done | congruence | lia]|auto]] ].
Ltac tells_step :=
  lazymatch goal with
  | |- obeys _ _ _ _ (mbind get_s _) _ => apply obeys_get_bind; intros ? ?
  | |- obeys _ _ _ _ (mbind _ _) _ =>
      eapply obeys_bind; [tells_first|cbv beta; let s := fresh "s" in intros ? s ?; try subst s]
  | |- obeys _ _ _ _ (mret _) _ => tells_leaf
  | |- obeys _ _ _ _ (match ?x with _ => _ end) _ => let H := fresh "Hb" in destruct x eqn:H
  | |- obeys _ _ _ _ (let _ := _ in _) _ => cbv zeta
  | |- obeys _ _ _ _ _ _ => first [solve [auto with announces nocore] | progress cbv beta iota]
  end.
Ltac tells_auto := repeat tells_step.

(** ** The sender *)

Section sending.
Context {E : Type} `{!Hooks E} `{!View E} `{!Unseen E} `{!BuildOptions}.
Context (J : announced → view_of (E:=E) → Prop) `{!Reports E J} (c : val_config_t).
Context (Hstart : cfg_has_on_file_start c = true) (Hcomplete : cfg_has_on_file_complete c = true).
Abbreviation tells s m post := (obeys announce_step J c s m post).

Section file.
Context (d : list (list Z * Z)) (n : list Z) (f : handle).
Abbreviation opened := (mk_announced d (Some n)).
(** The call is over with the status [st], which the application may have been told. *)
Definition over (st : Z) (s' : announced) : Prop :=
  st ≠ VAL_OK ∧ (s' = opened ∨ s' = mk_announced (d ++ [(n, st)]) None).
Abbreviation turns m := (tells opened m (λ r s', match r with inr (inl st) => over st s' | _ => s' = opened end)).

Lemma tells_close p st : st ≠ VAL_OK →
  tells opened (close_and_complete f n p st) (λ r s', r = st ∧ s' = mk_announced (d ++ [(n, st)]) None).
Proof.
  intros Hst. unfold close_and_complete. tells_step.
  eapply obeys_bind; [by apply tells_complete|]. intros _ s' ->. by apply obeys_ret.
Qed.
Lemma tells_closed {A} p st (k : Z → M (world E) A) post : st ≠ VAL_OK →
  tells (mk_announced (d ++ [(n, st)]) None) (k st) post → tells opened (mbind (close_and_complete f n p st) k) post.
Proof. intros Hst Hk. eapply obeys_bind; [by apply tells_close|]. by intros r s' [-> ->]. Qed.
Lemma over_told st : st ≠ VAL_OK → over st (mk_announced (d ++ [(n, st)]) None).
Proof. split; [done|by right]. Qed.
Lemma over_untold st : st ≠ VAL_OK → over st opened.
Proof. split; [done|by left]. Qed.
Hint Resolve emits_send_data emits_window_ack : emits.

Lemma tells_fill fuel p sz m l : turns (fill_window_body fuel f n p sz m l).
Proof.
  unfold fill_window_body. tells_step; [|tells_leaf]. tells_step. tells_step.
  - apply tells_closed; [done|]. apply obeys_ret. by apply over_told.
  - cbv zeta. tells_step. tells_step. tells_step; [|tells_leaf]. tells_step. apply obeys_ret. apply over_untold. lia.
Qed.
Lemma tells_window_turn fuel p sz m to l : turns (window_turn fuel f n p sz m to l).
Proof.
  unfold window_turn. eapply obeys_bind.
  { apply (obeys_loop (λ _ s', s' = opened) (λ r s', match r with inl st => over st s' | inr _ => s' = opened end)); [|done].
    intros l' s' ->. eapply obeys_mono; [apply tells_fill|]. by intros [?|[?|?]]. }
  intros [st|l'] s' Hs; [by apply obeys_ret|]. subst s'. do 7 tells_step.
  tells_step; [|tells_auto]. apply tells_closed; [lia|]. apply obeys_ret, over_told. lia.
Qed.
Lemma tells_data_health p :
  tells opened (data_health f n p) (λ r s', match r with Some st => over st s' | None => s' = opened end).
Proof.
  unfold data_health. tells_step. tells_step. tells_step; [tells_leaf|]. tells_step.
  - tells_step. tells_step. tells_step. tells_step; [|tells_leaf]. apply tells_closed; [done|].
    eapply obeys_bind; [apply idle_emits; intros; by apply emits_upd|]. intros _ s' ->. apply obeys_ret. by apply over_told.
  - apply tells_closed; [lia|]. apply obeys_ret, over_told. lia.
Qed.
Lemma tells_send_windows fuel p sz m o l : turns (send_windows_body fuel f n p sz m o l).
Proof.
  unfold send_windows_body. tells_step; [|tells_leaf]. tells_step. tells_step.
  { apply tells_closed; [done|]. by apply obeys_ret, over_told. }
  eapply obeys_bind; [apply tells_data_health|]. intros [st|] s' Hs; [by apply obeys_ret|]. subst s'. tells_step. tells_step. cbv zeta.
  eapply obeys_bind.
  { apply (obeys_loop (λ _ s', s' = opened) (λ r s', match r with inl st => over st s' | inr _ => s' = opened end)); [|done].
    intros l' s' ->. eapply obeys_mono; [apply tells_window_turn|]. by intros [?|[?|?]]. }
  intros [st|l'] s' Hs; by apply obeys_ret.
Qed.

(** The file has ended well: with the status [r], and the call goes on; or it is over. *)
Definition ends_with (r st : Z) (s' : announced) : Prop :=
  st = VAL_OK ∧ s' = mk_announced (d ++ [(n, r)]) None ∨ over st s'.
Hint Resolve emits_wait_done emits_progress : emits.
Lemma ends_over r st s' : over st s' → ends_with r st s'.
Proof. by right. Qed.
Lemma tells_close_last p st r : st ≠ VAL_OK → tells opened (close_and_complete f n p st) (ends_with r).
Proof. intros Hst. eapply obeys_mono; [by apply tells_close|]. intros a s' [-> ->]. by apply ends_over, over_told. Qed.
Lemma tells_send_done fuel p sz : tells opened (send_done fuel f n p sz) (ends_with VAL_OK).
Proof.
  unfold send_done, val_metrics_inc_files_sent. tells_step. tells_step; [apply tells_close_last; lia|]. tells_step.
  tells_step; [apply tells_close_last; lia|]. tells_step. eapply obeys_bind; [by apply tells_complete|]. intros _ s' ->.
  do 2 tells_step. apply obeys_ret. by left.
Qed.
Lemma tells_send_skipped fuel p sz : tells (mk_announced d None) (send_skipped fuel n p sz) (ends_with VAL_SKIPPED).
Proof.
  unfold send_skipped, val_metrics_inc_files_sent. eapply obeys_bind; [by apply tells_start|]. intros _ s' ->. tells_step.
  tells_step; [apply obeys_ret, ends_over, over_untold; lia|]. tells_step. tells_step.
  - eapply obeys_bind; [by apply tells_complete|]. intros _ s' ->. apply obeys_ret, ends_over, over_told. lia.
  - eapply obeys_bind; [by apply tells_complete|]. intros _ s' ->. tells_step. apply obeys_ret. by left.
Qed.
Lemma tells_file_body fuel p sz o win prog :
  tells (mk_announced d None) (send_file_body fuel f n p sz o win prog) (λ r s', ends_with VAL_OK (fst r) s').
Proof.
  unfold send_file_body. eapply obeys_bind; [by apply tells_start|]. intros _ s' ->. tells_step. tells_step. tells_step.
  { apply tells_closed; [done|]. apply obeys_ret. by apply ends_over, over_told. }
  tells_step. cbv zeta. tells_step; [tells_step; apply obeys_ret; by apply ends_over, over_untold|]. eapply obeys_bind.
  { apply (obeys_loop (λ _ s', s' = opened) (λ r s', match r with inl st => over st s' | inr _ => s' = opened end)); [|done].
    intros l' s' ->. eapply obeys_mono; [apply tells_send_windows|]. by intros [?|[?|?]]. }
  intros [st|l'] s' Hs; [by apply obeys_ret, ends_over|]. subst s'.
  eapply obeys_bind; [apply tells_send_done|]. intros st s' Hs. by apply obeys_ret.
Qed.
End file.

(** The name that a path is announced under. *)
Definition reported_name (filepath : list Z) : list Z :=
  let cleaned := match val_clean_filename (Some (basename filepath)) (VAL_MAX_FILENAME + 1) with
                 | Some t => t | None => [] end in
  fst (snprintf_text (VAL_MAX_FILENAME + 1) cleaned).
Lemma size_name_spec s p : tells s (get_file_size_and_name p)
  (λ r s', s' = s ∧ (fst (fst r) = VAL_OK → snd r = reported_name p)).
Proof.
  unfold get_file_size_and_name. tells_step. tells_step; [|tells_step; by apply obeys_ret]. cbv zeta.
  repeat tells_step; try (by apply obeys_ret).
Qed.

(** What has become of a list of files when the call returns [st]: they ended well, one after
    the other, up to one that was refused, left unfinished or ended with [st]. *)
Inductive announced_batch : list (list Z) → Z → list (list Z * Z) → option (list Z) → Prop :=
| batch_nil st : announced_batch [] st [] None
| batch_cons p ps r st log o : r = VAL_OK ∨ r = VAL_SKIPPED → announced_batch ps st log o →
    announced_batch (p :: ps) st ((reported_name p, r) :: log) o
| batch_refused p ps st : st ≠ VAL_OK → announced_batch (p :: ps) st [] None
| batch_left p ps st : st ≠ VAL_OK → announced_batch (p :: ps) st [] (Some (reported_name p))
| batch_failed p ps st : st ≠ VAL_OK → announced_batch (p :: ps) st [(reported_name p, st)] None.

Lemma batch_length ps st log o : announced_batch ps st log o → (length log <= length ps)%nat.
Proof. induction 1; cbn; lia. Qed.
Lemma batch_over ps log o st : announced_batch ps VAL_OK log o → announced_batch ps st log o.
Proof. remember VAL_OK as ok eqn:Eo. induction 1; subst; try done; constructor; auto. Qed.

(** One file: the call goes on after a good end, and is over otherwise. *)
Definition file_ends (d : list (list Z * Z)) (n : list Z) (st : Z) (s' : announced) : Prop :=
  st = VAL_OK ∧ (∃ e, (e = VAL_OK ∨ e = VAL_SKIPPED) ∧ s' = mk_announced (d ++ [(n, e)]) None) ∨
  st ≠ VAL_OK ∧ (s' = mk_announced d None ∨ s' = mk_announced d (Some n) ∨ s' = mk_announced (d ++ [(n, st)]) None).
Lemma ends_file d n e st s' : e = VAL_OK ∨ e = VAL_SKIPPED → ends_with d n e st s' → file_ends d n st s'.
Proof. intros He [[-> ->]|[Hst Hs]]; [left; split; [done|by exists e]|right; split; [done|by right]]. Qed.
Lemma file_refused d n st : st ≠ VAL_OK → file_ends d n st (mk_announced d None).
Proof. intros Hst. right. split; [done|by left]. Qed.

Hint Resolve emits_negotiation : emits.
Lemma tells_send_file fuel d p sp prog :
  tells (mk_announced d None) (val_internal_send_file fuel p sp prog) (λ r s', file_ends d (reported_name p) (fst r) s').
Proof.
  unfold val_internal_send_file, send_file_data_adaptive, send_metadata. tells_step. cbv zeta.
  eapply obeys_bind; [apply size_name_spec|]. intros [[st size] name] s1 [-> Hn]. cbn [fst snd] in Hn. cbv iota beta.
  tells_step; [apply obeys_ret; cbn; apply file_refused; lia|]. rewrite Hn by lia. cbv zeta. tells_step.
  tells_step; [apply obeys_ret; cbn; apply file_refused; lia|]. tells_step. tells_step.
  tells_step; [apply obeys_ret; cbn; apply file_refused; lia|]. tells_step.
  { eapply obeys_bind; [apply tells_send_skipped|]. intros st' s' Hs. apply obeys_ret. eapply ends_file; [|exact Hs]. by right. }
  tells_step. tells_step; [|by apply obeys_ret, file_refused]. tells_step.
  tells_step; [tells_step; by apply obeys_ret, file_refused|].
  eapply obeys_mono; [apply tells_file_body|]. cbv beta. intros r s' Hs. eapply ends_file; [|exact Hs]. by left.
Qed.
Hint Resolve size_name_spec : announces.
Lemma tells_scan s ps t : tells s (scan_sizes ps t) (λ _ s', s' = s).
Proof.
  revert t. induction ps as [|p ps IH]; intros t; cbn [scan_sizes]; [by apply obeys_ret|].
  eapply obeys_bind; [apply size_name_spec|]. intros [[st size] name] s1 [-> _]. apply IH.
Qed.
Lemma tells_send_all fuel d ps sp prog :
  tells (mk_announced d None) (send_all fuel ps sp prog)
    (λ st s', ∃ log, an_done s' = d ++ log ∧ announced_batch ps st log (an_open s')).
Proof.
  revert d prog. induction ps as [|p ps IH]; intros d prog; cbn [send_all].
  { apply obeys_ret. exists []. by rewrite app_nil_r; split; [|constructor]. }
  eapply obeys_bind; [apply tells_send_file|]. intros [st prog'] s1 Hs. cbn [fst] in Hs. cbv iota beta.
  destruct Hs as [[-> (e & He & ->)]|[Hst Hs]].
  - cbn [negb]. eapply obeys_mono; [apply IH|]. cbv beta. intros st s' (log & E1 & Hb).
    exists ((reported_name p, e) :: log). split; [by rewrite E1, <- (assoc_L (++))|]. by constructor.
  - apply Z.eqb_neq in Hst as Hst'. rewrite Hst'. apply obeys_ret.
    destruct Hs as [->|[->| ->]]; cbn [an_done an_open].
    + exists []. split; [by rewrite app_nil_r|by apply batch_refused].
    + exists []. split; [by rewrite app_nil_r|by apply batch_left].
    + eexists. split; [done|by apply batch_failed].
Qed.
Hint Resolve emits_wait_eot emits_handshake_sender : emits.
Lemma tells_send_files fuel ps sp :
  tells (mk_announced [] None) (val_send_files fuel ps sp) (λ st s', announced_batch ps st (an_done s') (an_open s')).
Proof.
  unfold val_send_files. destruct ps as [|p ps]; [apply obeys_ret; constructor|]. replace (zlen (p :: ps) =? 0) with false by done.
  tells_step. eapply (obeys_bind _ _ _ (λ st s', announced_batch (p :: ps) st (an_done s') (an_open s'))).
  - unfold send_batch. tells_step. tells_step; [apply obeys_ret, batch_refused; lia|].
    eapply obeys_bind; [apply tells_scan|]. intros total s' ->. tells_step. cbv zeta.
    eapply obeys_bind; [apply tells_send_all|]. intros st s' (log & Ed & Hbt). cbn [app] in Ed. subst log.
    tells_step; [by apply obeys_ret|]. assert (st = VAL_OK) as -> by lia.
    tells_step. tells_step; [by apply obeys_ret, batch_over|].
    eapply obeys_mono; [tells_first|]. intros st' s1 ->. by apply batch_over.
  - intros st s' Hbt. tells_step. by apply obeys_ret.
Qed.
End sending.

(** ** The receiver *)

Section receiving.
Context {E : Type} `{!Hooks E} `{!View E} `{!Unseen E} `{!BuildOptions}.
Context (J : announced → view_of (E:=E) → Prop) `{!Reports E J} (c : val_config_t).
Context (Hstart : cfg_has_on_file_start c = true) (Hcomplete : cfg_has_on_file_complete c = true).
Context (Hmode : cfg_resume_mode c ≠ VAL_RESUME_NEVER).
Abbreviation tells s m post := (obeys announce_step J c s m post).

Lemma determine_actions fuel name incoming : gives (E:=E) (determine_resume_action fuel name incoming)
  (λ d, rd_action d = VAL_RESUME_START_ZERO ∨ rd_action d = VAL_RESUME_SKIP_FILE ∨ rd_action d = VAL_RESUME_VERIFY_FIRST).
Proof.
  unfold determine_resume_action. apply gives_bind. intros s. apply gives_bind. intros [f|]; [|apply gives_ret; by left].
  repeat (first [apply gives_bind; intros ? | apply gives_ret | case_match]; cbn; auto).
Qed.

Section file.
Context (d : list (list Z * Z)) (n : list Z).
Abbreviation opened := (mk_announced d (Some n)).
(** Left open, or told that it was cancelled. *)
Definition unfinished (s' : announced) : Prop := s' = opened ∨ s' = mk_announced (d ++ [(n, VAL_ERR_ABORTED)]) None.
Abbreviation turns m := (tells opened m (λ r s', match r with inr (inl _) => unfinished s' | _ => s' = opened end)).
Hint Resolve emits_plain_backoff : emits.

Lemma tells_resume_exchange fuel nv p path sz :
  tells (mk_announced d None) (resume_exchange fuel nv n p path sz)
    (λ r s', match r with inl _ => s' = mk_announced d None | inr _ => s' = opened end).
Proof.
  assert (Hst : ∀ p sz o (v : Z * bool), tells (mk_announced d None) (do! on_file_start n p sz o in mret (inr (A:=Z) v))
    (λ r s', match r with inl _ => s' = mk_announced d None | inr _ => s' = opened end)).
  { intros. eapply obeys_bind; [by apply tells_start|]. intros _ s' ->. by apply obeys_ret. }
  unfold resume_exchange. eapply obeys_bind.
  { apply obeys_gives; [|apply determine_actions]. apply idle_emits. intros. emits_auto. }
  intros dec s1 [Hact ->]. cbv zeta. tells_step. tells_step. tells_step; [tells_leaf|].
  destruct (Z.eqb_spec (rd_action dec) VAL_RESUME_SKIP_FILE); [apply Hst|].
  destruct (Z.eqb_spec (rd_action dec) VAL_RESUME_START_ZERO); [apply Hst|].
  destruct (Z.eqb_spec (rd_action dec) VAL_RESUME_START_OFFSET); [apply Hst|].
  destruct (Z.eqb_spec (rd_action dec) VAL_RESUME_VERIFY_FIRST); [|exfalso; tauto].
  eapply (obeys_bind _ _ _ (λ _ s', s' = mk_announced d None)).
  { apply idle_emits. intros. unfold verify_reply. emits_auto. }
  intros [st|result] s' ->; [tells_leaf|]. cbv beta iota. repeat case_match; apply Hst.
Qed.
Lemma tells_negotiate fuel meta path :
  tells (mk_announced d None) (negotiate_resume fuel meta n path)
    (λ r s', match r with inl _ => s' = mk_announced d None | inr _ => s' = opened end).
Proof.
  unfold negotiate_resume. tells_step. tells_step. eapply obeys_bind.
  { apply idle_emits. intros. unfold wait_resume_req_body. emits_auto. }
  intros st s' ->. tells_step; [tells_leaf|]. eapply obeys_bind; [apply tells_resume_exchange|].
  intros [st'|[o sk]] s' ->; tells_leaf.
Qed.

Lemma tells_abort {A} f p (k : Z → M (world E) A) post :
  tells (mk_announced (d ++ [(n, VAL_ERR_ABORTED)]) None) (k VAL_ERR_ABORTED) post →
  tells opened (mbind (abort_receive f n p) k) post.
Proof.
  intros Hk. eapply (obeys_bind _ _ _ (λ r s', r = VAL_ERR_ABORTED ∧ s' = mk_announced (d ++ [(n, VAL_ERR_ABORTED)]) None)).
  - unfold abort_receive. tells_step. eapply obeys_bind; [by apply tells_complete|]. intros _ s' ->. tells_step. by apply obeys_ret.
  - by intros r s' [-> ->].
Qed.
Lemma aborted : unfinished (mk_announced (d ++ [(n, VAL_ERR_ABORTED)]) None).
Proof. by right. Qed.
Lemma left_open : unfinished opened.
Proof. by left. Qed.
Hint Resolve aborted left_open : announces.
Ltac ends := repeat (tells_step || (apply obeys_ret; auto with announces nocore)).

Lemma tells_wait_data fuel f p P to l :
  tells opened (wait_data_body fuel f n p P to l) (λ r s', match r with inr (inl _) => unfinished s' | _ => s' = opened end).
Proof.
  unfold wait_data_body, val_metrics_inc_timeout_hard. destruct l as [tries backoff]. ends.
  apply tells_abort. ends.
Qed.
Lemma quiet_progress dir info : emits c dir unannounced (callback (hk_on_progress info) (EvProgress info)).
Proof. apply emits_callback; [apply un_progress|done]. Qed.
Hint Resolve quiet_progress : emits.
Lemma tells_progress f p b t w :
  tells opened (receive_progress f n p b t w) (λ r s', match r with inl _ => unfinished s' | _ => s' = opened end).
Proof. unfold receive_progress. ends. apply tells_abort. ends. Qed.
Lemma tells_after_data f p b t total o l : turns (after_data f n p b t total o l).
Proof.
  unfold after_data. eapply obeys_bind; [apply tells_progress|]. intros [st|[]] s' Hs; [by apply obeys_ret|]. subst s'. ends.
Qed.
Lemma quiet_write dir f l : emits c dir unannounced (fs_fwrite f l).
Proof. apply emits_call; [apply un_fwrite|done]. Qed.
Hint Resolve quiet_write : emits.
Hint Resolve tells_after_data : announces.
Lemma tells_packet f p b t total pkt l : turns (handle_packet f n p b t total pkt l).
Proof. unfold handle_packet, handle_control, handle_data. ends. apply tells_abort. ends. Qed.
Lemma tells_data_body fuel f p b P t total l : turns (data_body fuel f n p b P t total l).
Proof.
  unfold data_body. do 2 tells_step. eapply obeys_bind.
  { apply (obeys_loop (λ _ s', s' = opened) (λ r s', match r with inl _ => unfinished s' | _ => s' = opened end)); [|done].
    intros l' s' ->. eapply obeys_mono; [apply tells_wait_data|]. by intros [?|[?|?]]. }
  intros [st|pkt] s' Hs; [by apply obeys_ret|]. subst s'. apply tells_packet.
Qed.

(** One file, from its announcement on. *)
Definition received (r : Z + batch) (s' : announced) : Prop :=
  match r with
  | inl _ => unfinished s'
  | inr _ => ∃ e, (e = VAL_OK ∨ e = VAL_SKIPPED) ∧ s' = mk_announced (d ++ [(n, e)]) None
  end.
Lemma tells_file_received p total e b : e = VAL_OK ∨ e = VAL_SKIPPED → tells opened (file_received n p total e b) received.
Proof.
  intros He. unfold file_received, val_metrics_inc_files_recv. eapply obeys_bind; [by apply tells_complete|]. intros _ s' ->.
  tells_step. apply obeys_ret. by exists e.
Qed.
Lemma quiet_fopen dir p m : emits c dir unannounced (fs_fopen p m).
Proof. apply emits_call; [apply un_fopen|done]. Qed.
Hint Resolve quiet_fopen : emits.
Lemma tells_receive_body fuel meta path P t o sk b : tells opened (receive_body fuel meta n path P t o sk b) received.
Proof.
  unfold receive_body. cbv zeta. destruct sk.
  - eapply (obeys_bind _ _ _ (λ _ s', s' = opened)).
    { apply idle_emits. intros. unfold skip_body, wait_skip_body. emits_auto. }
    intros [st|[]] s' ->; [by apply obeys_ret, left_open|]. apply tells_file_received. by right.
  - tells_step. tells_step; [|tells_step; by apply obeys_ret, left_open]. eapply obeys_bind.
    { apply (obeys_loop (λ _ s', s' = opened) (λ r s', match r with inl _ => unfinished s' | _ => s' = opened end)); [|done].
      intros l' s' ->. eapply obeys_mono; [apply tells_data_body|]. by intros [?|[?|?]]. }
    intros [st|l'] s' Hs; [by apply obeys_ret|]. subst s'. tells_step. apply tells_file_received. by left.
Qed.
End file.

(** What a receiver reports of the files that ended. *)
Definition outcomes (s' : announced) : Prop :=
  Forall (λ e, snd e = VAL_OK ∨ snd e = VAL_SKIPPED ∨ snd e = VAL_ERR_ABORTED) (an_done s').
Lemma outcomes_more d n r : outcomes (mk_announced d None) → r = VAL_OK ∨ r = VAL_SKIPPED ∨ r = VAL_ERR_ABORTED →
  outcomes (mk_announced (d ++ [(n, r)]) None).
Proof. intros Hd Hr. apply Forall_app. split; [done|]. by apply Forall_singleton. Qed.
Lemma tells_receive_one fuel P t b d : outcomes (mk_announced d None) →
  tells (mk_announced d None) (receive_one fuel P t b)
    (λ r s', outcomes s' ∧ match r with inl _ => an_open s' = None | inr _ => True end).
Proof.
  intros Hd. unfold receive_one. eapply obeys_bind.
  { apply idle_emits. intros. apply emits_wait_meta. }
  intros [st|meta] s' ->; [by apply obeys_ret|]. cbv beta iota. apply obeys_get_bind. intros s Hc. cbv zeta.
  rewrite Hc. replace (_ =? _) with false by (symmetry; by apply Z.eqb_neq).
  eapply obeys_bind; [apply tells_negotiate|]. intros [st|[o sk]] s' ->; [by apply obeys_ret|]. cbv beta iota.
  eapply obeys_bind; [apply tells_receive_body|]. intros [st|b'] s' Hr; apply obeys_ret.
  - split; [|done]. destruct Hr as [->| ->]; [done|]. apply outcomes_more; auto.
  - destruct Hr as (e & He & ->). split; [|done]. apply outcomes_more; tauto.
Qed.
Lemma tells_receive_files fuel dir : tells (mk_announced [] None) (val_receive_files fuel dir) (λ _ s', outcomes s').
Proof.
  unfold val_receive_files. tells_step. eapply (obeys_bind _ _ _ (λ _ s', s' = mk_announced [] None)).
  { intros w Hc HJ. apply wp_mod. split; [done|]. by exists [], (mk_announced [] None). }
  intros _ s' ->. tells_step. tells_step; [tells_step; apply obeys_ret; constructor|].
  eapply (obeys_bind _ _ _ (λ _ s', outcomes s')).
  - unfold val_internal_receive_files. do 2 tells_step.
    apply (obeys_loop (λ _ s', an_open s' = None ∧ outcomes s')); [|by split; [|constructor]].
    intros b [d o] [Ho Hd]. cbn in Ho. subst o. eapply obeys_mono; [by apply tells_receive_one|].
    intros [b'|st] s' [Hs1 Hs2]; [by split|done].
  - intros rs s' Hs. tells_step. by apply obeys_ret.
Qed.
End receiving.

(** ** The theorem *)

(** The announcements of a run, which the discipline allows, come to [a]. *)
Definition announced_since {E} (w w' : world E) (a : announced) : Prop :=
  ∃ evs, w_tr w' = evs ++ w_tr w ∧ trace_run announce_step evs (mk_announced [] None) = Some a.
Lemma tells_run {E A} `{!Hooks E} (m : M (world E) A) post w :
  obeys (E:=E) (View0:=no_view) announce_step (λ _ _, True) (s_cfg (w_s w)) (mk_announced [] None) m post →
  wpp m (λ r w', ∃ a, announced_since w w' a ∧ post r a) w.
Proof.
  intros Hm. eapply wp_mono; [by apply (Hm w eq_refl)|]. cbv beta. intros r w' (_ & evs & a & Et & R & P & _).
  exists a. split; [by exists evs|done].
Qed.

(** C7: the application is told of files in an orderly way, whatever the peer, the transport
    and the file system do. No file is announced while another one is under way, and none
    ends but the one that is, under its name, once. A sender announces the files of its list
    in order, each under the cleaned last component of its path: the first ones end with OK
    or SKIPPED, and when the call returns OK that is all of them; otherwise the next one may have
    been refused, left open, or have ended with the status that the call returns, and no
    later one is announced. A receiver that is not in mode NEVER reports OK, SKIPPED or
    ABORTED and nothing else. *)
Theorem files_announced {E} `{!Hooks E} `{!BuildOptions} fuel files sp dir (w : world E) :
  cfg_has_on_file_start (s_cfg (w_s w)) = true → cfg_has_on_file_complete (s_cfg (w_s w)) = true →
  wpp (val_send_files fuel files sp)
    (λ st w', ∃ a, announced_since w w' a ∧ announced_batch files st (an_done a) (an_open a)) w ∧
  (cfg_resume_mode (s_cfg (w_s w)) ≠ VAL_RESUME_NEVER →
   wpp (val_receive_files fuel dir) (λ _ w', ∃ a, announced_since w w' a ∧ outcomes a) w).
Proof.
  intros Hs Hc. split; [|intros Hm]; apply tells_run.
  - by apply tells_send_files; try apply no_reports.
  - by apply tells_receive_files; try apply no_reports.
Qed.
