(* ===== verification/DataPhase.v ===== *)
(** The receiver's data phase, on every input: what is written, what is acknowledged.

    The trace of a run is read as an account: [written f] is what the file system
    accepted for the open file, and the theorems relate every acknowledgement to it. *)
From S2P Require Import Prelude ByteOrder Wire Errors Crc Sanitize Timing Session Simulation Window Packet Frame.
From S2P Require Import Control Resume Receiver Trace.

(** Session invariant, configuration and trace together. *)
Definition runs {E A} (c : val_config_t) (P : event → Prop) (m : M (world E) A) : Prop :=
  ∀ w, session_ok (w_s w) → s_cfg (w_s w) = c →
    wpp m (λ _ w', session_ok (w_s w') ∧ s_cfg (w_s w') = c ∧
                   ∃ evs, w_tr w' = evs ++ w_tr w ∧ Forall P evs) w.

(** The CRC function of a configuration, and the frame of a CANCEL. *)
Definition cfg_crc {E} `{!Hooks E} (c : val_config_t) (data : list Z) : Z :=
  if cfg_has_crc32_provider c then u32 (hk_crc32 0xFFFFFFFF data) else val_crc32 data.
Definition ctrl_frame {E} `{!Hooks E} (c : val_config_t) (type off : Z) : list Z :=
  packet_frame (cfg_crc c) type [] off true.

Section runs.
Context {E : Type} `{!Hooks E} {c : val_config_t} {P : event → Prop}.

Lemma runs_of {A} n (m : M (world E) A) : safe c n m → (∀ d, emits c d P m) → runs c P m.
Proof.
  intros Hs He w Hw Hc. eapply wp_mono; [apply (wpp_and _ _ _ _ (Hs w Hw Hc) (He _ w Hc eq_refl))|].
  cbv beta. intros a w' [(Hok & Hc' & _) (_ & _ & _ & H')]. split; [done|]. split; [congruence|done].
Qed.
Lemma runs_ret {A} (a : A) : runs (E:=E) c P (mret a).
Proof. intros w Hw Hc. apply wp_ret. split; [done|]. split; [done|]. by exists []. Qed.
Lemma runs_bind {A B} (m : M (world E) A) (k : A → M (world E) B) :
  runs c P m → (∀ a, runs c P (k a)) → runs c P (mbind m k).
Proof.
  intros Hm Hk w Hw Hc. apply wp_bind. eapply wp_mono; [by apply Hm|]. intros a w1 (Hw1 & Hc1 & evs & E1 & F1).
  eapply wp_mono; [by apply Hk|]. intros b w2 (Hw2 & Hc2 & evs' & E2 & F2).
  split; [done|]. split; [done|]. exists (evs' ++ evs). split; [by rewrite E2, E1, (assoc_L (++))|by apply Forall_app].
Qed.
Lemma runs_get_bind {B} (f : val_session_t → M (world E) B) :
  (∀ s, session_ok s → s_cfg s = c → runs c P (f s)) → runs c P (mbind get_s f).
Proof. intros Hf w Hw Hc. apply wp_bind, wp_gets. by apply Hf. Qed.
Lemma runs_loop {S A} fuel (body : S → M (world E) (S + A)) l :
  (∀ l, runs c P (body l)) → runs c P (loop fuel body l).
Proof.
  intros Hb w Hw Hc. apply (wpp_loop (λ _ w', session_ok (w_s w') ∧ s_cfg (w_s w') = c ∧
    ∃ evs, w_tr w' = evs ++ w_tr w ∧ Forall P evs)).
  2:{ split; [done|]. split; [done|]. by exists []. }
  intros l' w1 (Hw1 & Hc1 & evs & E1 & F1). eapply wp_mono; [by apply Hb|].
  intros r w2 (Hw2 & Hc2 & evs' & E2 & F2).
  assert (session_ok (w_s w2) ∧ s_cfg (w_s w2) = c ∧ ∃ evs, w_tr w2 = evs ++ w_tr w ∧ Forall P evs).
  { split; [done|]. split; [done|]. exists (evs' ++ evs).
    split; [by rewrite E2, E1, (assoc_L (++))|by apply Forall_app]. }
  by destruct r.
Qed.
End runs.

(** ** Sending control packets *)

Section ctrl.
Context {E : Type} `{!Hooks E}.

Lemma crc_of_cfg (s : val_session_t) l : val_internal_crc32 s l = cfg_crc (s_cfg s) l.
Proof. reflexivity. Qed.

(** An acknowledgement or a bare control packet always fits: either nothing is sent
    (the transport is down) or its frame is. *)
Lemma send_ctrl_spec type off w : session_ok (w_s w) → is_ack type = true ∨ type = VAL_PKT_CANCEL →
  wpp (val_internal_send_packet type PNull 0 off)
    (λ st w', (st = VAL_ERR_IO ∧ quietly w w') ∨ sent (ctrl_frame (s_cfg (w_s w)) type off) st w w') w.
Proof.
  intros Hok Ht. assert (Hlen : zlen (content_of type [] off true) <= 4).
  { unfold content_of. assert ((type =? VAL_PKT_DATA) = false) as ->.
    { destruct Ht as [Ht| ->]; [|done]. unfold is_ack in Ht. destruct (Z.eqb_spec type VAL_PKT_DATA) as [->|]; done. }
    destruct (is_ack type).
    - destruct (high32 off =? 0); rewrite ?zlen_put32; by cbv.
    - destruct Ht as [|Ht]; [done|]. rewrite Ht. by cbv. }
  pose proof (session_mtu_range _ Hok). pose proof (sok_send _ Hok).
  apply wpt_wpp. eapply wp_mono.
  - apply (send_core_spec type PNull 0 off true [] w); [done|by split| |lia].
    unfold content_room. destruct (_ && _); lia.
  - cbv beta. unfold fits. intros st w' [(-> & _ & H')|[[_ H']|[Hf _]]]; [by left|by right|]. lia.
Qed.

Lemma quiet_trace (P : event → Prop) `{!Permits P} evs : Forall quiet_event evs → Forall P evs.
Proof. apply List.Forall_impl. intros [] Hq; try done; by apply permits. Qed.
End ctrl.

(** ** What happens beside the data: nothing written, nothing sent but a CANCEL *)

Definition aside {E} `{!Hooks E} (c : val_config_t) (ev : event) : Prop :=
  match ev with
  | EvWrite _ _ _ => False
  | EvSend fr _ => fr = ctrl_frame c VAL_PKT_CANCEL 0
  | _ => True
  end.
#[export] Instance aside_permits {E} `{!Hooks E} c : Permits (aside c).
Proof. intros [] ?; done. Qed.
#[export] Instance aside_reads {E} `{!Hooks E} c : Reads (aside c).
Proof. intros [] ?; done. Qed.
#[export] Instance aside_announces {E} `{!Hooks E} c : Announces (aside c).
Proof. done. Qed.
#[export] Hint Resolve aside_permits aside_reads aside_announces : emits.

Lemma safe_lock {E} `{!Hooks E} c : safe (E:=E) c 1 val_internal_lock.
Proof. apply safe_upd. intros s H _. split; [destruct H; by constructor|]. by repeat split. Qed.
Lemma safe_unlock {E} `{!Hooks E} c : safe (E:=E) c (-1) val_internal_unlock.
Proof. apply safe_upd. intros s H _. split; [destruct H; by constructor|]. by repeat split. Qed.

Create HintDb runs discriminated.
Ltac runs_step :=
  lazymatch goal with
  | |- runs _ _ (mbind get_s _) => apply runs_get_bind; intros ? ? ?
  | |- runs _ _ (mbind _ _) => apply runs_bind; [|intros ?]
  | |- runs _ _ (mret _) => apply runs_ret
  | |- runs _ _ (loop _ _ _) => apply runs_loop; intros ?
  | |- runs _ _ (match ?x with _ => _ end) => destruct x
  | |- runs _ _ (let _ := _ in _) => cbv zeta
  | |- runs _ _ (upd_metrics _) => apply (runs_of 0); [apply safe_upd_metrics|intros ?; by apply emits_upd]
  | |- runs _ _ _ =>
      first [ solve [auto with runs nocore]
            | solve [eapply (runs_of 0); [solve [auto with safe nocore]|intros ?; solve [auto with emits nocore]]]
            | apply (runs_of 0); [by apply safe_set_error|intros ?; by apply emits_upd]
            | progress cbv beta iota]
  end.
Ltac runs_auto := repeat runs_step.

Section aside.
Context {E : Type} `{!Hooks E} `{!BuildOptions} {c : val_config_t}.

Lemma aside_lock : runs (E:=E) c (aside c) val_internal_lock.
Proof. apply (runs_of 1); [apply safe_lock|intros d; apply emits_lock]. Qed.
Lemma aside_unlock : runs (E:=E) c (aside c) val_internal_unlock.
Proof. apply (runs_of (-1)); [apply safe_unlock|intros d; apply emits_unlock]. Qed.
Hint Resolve aside_lock aside_unlock : runs.

(** A send leaves the trace of its one frame. *)
Lemma runs_send_ctrl (P : event → Prop) `{!Permits P} type off :
  is_ack type = true ∨ type = VAL_PKT_CANCEL → (∀ rc, P (EvSend (ctrl_frame c type off) rc)) →
  runs c P (val_internal_send_packet type PNull 0 off).
Proof.
  intros Ht HP w Hw Hc.
  eapply wp_mono; [apply (wpp_and _ _ _ _ (safe_send_ctrl type off w Hw Hc) (send_ctrl_spec type off w Hw Ht))|].
  cbv beta. intros st w' [(Hok & Hc' & _) Hsent]. split; [done|]. split; [congruence|]. rewrite Hc in Hsent.
  destruct Hsent as [[_ [_ (q & Hq & Eq)]]|[_ (q & rc & Hq & Eq & _)]].
  - exists q. split; [done|by apply quiet_trace].
  - exists (q ++ [EvSend (ctrl_frame c type off) rc]). split; [by rewrite Eq, <- (assoc_L (++))|].
    apply Forall_app. split; [by apply quiet_trace|]. by apply Forall_singleton.
Qed.
Lemma aside_cancel_frame : runs c (aside c) (val_internal_send_packet VAL_PKT_CANCEL PNull 0 0).
Proof. apply runs_send_ctrl; [typeclasses eauto|by right|done]. Qed.
Hint Resolve aside_cancel_frame : runs.
Lemma aside_tries n b l : runs c (aside c) (emergency_tries n b l).
Proof. revert b l. induction n as [|n IH]; intros; cbn [emergency_tries]; runs_auto. Qed.
Hint Resolve aside_tries : runs.
Lemma aside_emergency_cancel : runs c (aside c) val_emergency_cancel.
Proof. unfold val_emergency_cancel. runs_auto. Qed.
Hint Resolve aside_emergency_cancel : runs.
Lemma aside_callback h ev : aside c ev → runs c (aside c) (callback h ev).
Proof.
  intros He. unfold callback. runs_auto.
  apply (runs_of 0); [apply safe_call|intros d; by apply emits_call].
Qed.
Lemma aside_file_start n p s o : runs c (aside c) (on_file_start n p s o).
Proof. unfold on_file_start. runs_auto. by apply aside_callback. Qed.
Lemma aside_file_complete n p r : runs c (aside c) (on_file_complete n p r).
Proof. unfold on_file_complete. runs_auto. by apply aside_callback. Qed.
Hint Resolve aside_file_start aside_file_complete : runs.
Lemma aside_abort f n p : runs c (aside c) (abort_receive f n p).
Proof. unfold abort_receive. runs_auto. Qed.
Hint Resolve aside_abort : runs.
Lemma aside_progress f n p b t wr : runs c (aside c) (receive_progress f n p b t wr).
Proof. unfold receive_progress. runs_auto. by apply aside_callback. Qed.
Lemma aside_plain_backoff t b : runs (E:=E) c (aside c) (plain_backoff t b).
Proof. unfold plain_backoff. runs_auto. Qed.
Hint Resolve aside_plain_backoff : runs.
Lemma aside_wait_data fuel f n p P t l : runs c (aside c) (loop fuel (wait_data_body fuel f n p P t) l).
Proof. unfold wait_data_body, val_metrics_inc_timeout_hard. runs_auto. Qed.
End aside.
#[export] Hint Resolve aside_lock aside_unlock aside_file_complete aside_abort aside_progress aside_wait_data : runs.

(** ** The length of a received packet *)

Section lengths.
Context {E : Type} `{!Hooks E}.

Definition len_within (n : Z) (r : Z * packet) : Prop := 0 <= pkt_len (snd r) <= n.
Lemma recv_failed_len rc n : 0 <= n → gives (E:=E) (recv_failed rc) (len_within n).
Proof.
  intros Hn. unfold recv_failed. destruct (rc =? VAL_ERR_IO); repeat (apply gives_bind; intros ?);
    apply gives_ret; unfold len_within; cbn; lia.
Qed.
Lemma recv_deliver_len dst t f td n : 0 <= n → gives (E:=E) (recv_deliver dst t f td n) (len_within n).
Proof.
  intros Hn. unfold recv_deliver, recv_finish. apply gives_bind. intros s. cbv zeta. apply gives_bind. intros _.
  destruct (negb _); [|repeat (apply gives_bind; intros ?); apply gives_ret; unfold len_within; cbn; lia].
  set (explicit := (t =? VAL_PKT_DATA) && _).
  destruct (explicit && (n <? 8)) eqn:Ee.
  { apply gives_bind. intros _. apply gives_ret. unfold len_within. cbn. lia. }
  destruct (dst_cap dst <? _); repeat (apply gives_bind; intros ?); apply gives_ret; unfold len_within; cbn;
    destruct explicit; cbn [andb] in Ee; lia.
Qed.
Lemma recv_content_len fuel dst P t f n td to_ms : 0 <= n →
  gives (E:=E) (recv_content fuel dst P t f n td to_ms) (len_within (Z.max 0 (u32 (P - 12)))).
Proof.
  intros Hn. unfold recv_content, VAL_WIRE_HEADER_SIZE, VAL_WIRE_TRAILER_SIZE.
  replace (P - 8 - 4) with (P - 12) by lia. pose proof (u32_range (P - 12)).
  destruct (Z.ltb_spec (u32 (P - 12)) n).
  { do 2 (apply gives_bind; intros ?). apply gives_ret. unfold len_within. cbn. lia. }
  apply gives_bind. intros rc. destruct (negb _); [apply recv_failed_len; lia|].
  unfold recv_trailer. apply gives_bind. intros [rc2 tr]. destruct (negb _); [apply recv_failed_len; lia|].
  apply gives_bind. intros s. cbv zeta. destruct (negb _).
  - do 3 (apply gives_bind; intros ?). apply gives_ret. unfold len_within. cbn. lia.
  - intros w. eapply wp_mono; [by apply recv_deliver_len|]. unfold len_within. cbv beta. intros; lia.
Qed.

(** No packet is longer than the packet size. *)
Lemma recv_packet_len fuel dst to_ms w : session_ok (w_s w) →
  wpp (val_internal_recv_packet fuel dst to_ms) (λ r _, len_within (cfg_packet_size (s_cfg (w_s w))) r) w.
Proof.
  intros Hok. unfold val_internal_recv_packet. apply wp_bind, wp_mod, wp_bind, wp_gets. apply wp_bind.
  set (w1 := mk_world _ _ _). assert (Hok1 : session_ok (w_s w1)) by (destruct Hok; by constructor).
  pose proof (session_mtu_range _ Hok) as Hm. pose proof (cok_packet _ (sok_cfg _ Hok)) as Hp.
  unfold VAL_MAX_PACKET_SIZE, VAL_MIN_PACKET_SIZE in Hp.
  eapply wp_mono; [apply (safe_recv_into (c := s_cfg (w_s w)) fuel 0 VAL_WIRE_HEADER_SIZE to_ms);
                   [lia|done|unfold VAL_WIRE_HEADER_SIZE; lia|done|done]|].
  intros rc w2 (Hok2 & Hc2 & _). cbv beta. destruct (negb _); [apply recv_failed_len; lia|].
  apply wp_bind, wp_gets. destruct (val_deserialize_frame_header _) as [[[type flags] n] td] eqn:Eh.
  pose proof (sok_recv _ Hok2) as Hr. rewrite Hc2 in Hr. change (s_cfg (w_s w1)) with (s_cfg (w_s w)) in Hr.
  pose proof (header_content_len _ _ _ _ _ (sok_recv_bytes _ Hok2) ltac:(lia) Eh) as Hn.
  eapply wp_mono; [apply recv_content_len; lia|]. unfold len_within. cbv beta. intros r w3 Hl.
  change (session_mtu (w_s w1)) with (session_mtu (w_s w)) in Hl. rewrite u32_small in Hl by lia. lia.
Qed.
End lengths.

(** ** The account of a data phase *)

(** What the file system accepted for [f]; traces are newest first. *)
Fixpoint written (f : handle) (evs : list event) : list Z :=
  match evs with
  | [] => []
  | EvWrite h d rc :: old => written f old ++ (if (h =? f) && (rc =? zlen d) then d else [])
  | _ :: old => written f old
  end.

Section account.
Context {E : Type} `{!Hooks E}.

Definition nak_frame (c : val_config_t) (pos : Z) : list Z :=
  packet_frame (cfg_crc c) VAL_PKT_DATA_NAK (VAL_PUT_LE32 1) pos false.
(** The frames that tell the sender the position [pos]. *)
Definition reports (c : val_config_t) (pos : Z) (fr : list Z) : Prop :=
  fr = ctrl_frame c VAL_PKT_DATA_ACK pos ∨ fr = ctrl_frame c VAL_PKT_DONE_ACK pos ∨ fr = nak_frame c pos.

(** The position when the file was opened at [start] and [evs] happened since. *)
Definition position (f : handle) (start : Z) (evs : list event) : Z := u64 (start + zlen (written f evs)).
(** Every frame sent is a CANCEL or reports the position of that moment; every write
    goes to the file. *)
Fixpoint honest (c : val_config_t) (f : handle) (start : Z) (evs : list event) : Prop :=
  match evs with
  | [] => True
  | ev :: old =>
      honest c f start old ∧
      match ev with
      | EvSend fr _ => fr = ctrl_frame c VAL_PKT_CANCEL 0 ∨ reports c (position f start old) fr
      | EvWrite h _ _ => h = f
      | _ => True
      end
  end.

Lemma written_app f new old : written f (new ++ old) = written f old ++ written f new.
Proof.
  induction new as [|ev new IH]; cbn; [by rewrite app_nil_r|].
  destruct ev; try done. by rewrite IH, (assoc_L (++)).
Qed.
Lemma written_aside c f evs : Forall (aside c) evs → written f evs = [].
Proof. induction 1 as [|ev evs Hev _ IH]; cbn; [done|]. by destruct ev. Qed.
Lemma honest_aside c f start new old : Forall (aside c) new → honest c f start old → honest c f start (new ++ old).
Proof.
  intros Hn Ho. induction Hn as [|ev new Hev _ IH]; cbn; [done|]. split; [done|].
  destruct ev; try done. by left.
Qed.

(** The receiver's variables agree with the account. *)
Record accounted (c : val_config_t) (f : handle) (start : Z) (w0 : world E) (l : recv_state) (w : world E) : Prop := {
  acc_ok : session_ok (w_s w);
  acc_cfg : s_cfg (w_s w) = c;
  acc_tr : ∃ evs, w_tr w = evs ++ w_tr w0 ∧ honest c f start evs ∧
           rx_written l = position f start evs ∧
           rx_crc_state l = val_crc32_update_state val_crc32_init_state (written f evs)
}.

Context (c : val_config_t) (f : handle) (start : Z) (w0 : world E).
Abbreviation acct := (accounted c f start w0).

Lemma acct_pkts l l' w : rx_written l' = rx_written l → rx_crc_state l' = rx_crc_state l → acct l w → acct l' w.
Proof.
  intros E1 E2 [Hok Hc (evs & Et & Hh & Hp & Hcrc)]. constructor; [done|done|].
  exists evs. by rewrite E1, E2.
Qed.
Lemma acct_runs {A} (m : M (world E) A) l w : runs c (aside c) m → acct l w → wpp m (λ _ w', acct l w') w.
Proof.
  intros Hm [Hok Hc (evs & Et & Hh & Hp & Hcrc)]. eapply wp_mono; [by apply Hm|]. cbv beta.
  intros a w' (Hok' & Hc' & evs' & E' & F'). constructor; [done|done|].
  exists (evs' ++ evs). unfold position. rewrite written_app, (written_aside c f evs') by done. rewrite app_nil_r.
  split; [by rewrite E', Et, (assoc_L (++))|]. split; [by apply honest_aside|done].
Qed.

(** Sending a frame that reports the current position. *)
Lemma acct_report (m : M (world E) Z) fr l w :
  (∀ w, session_ok (w_s w) → s_cfg (w_s w) = c →
     wpp m (λ st w', (session_ok (w_s w') ∧ s_cfg (w_s w') = c) ∧ (quietly w w' ∨ sent fr st w w')) w) →
  reports c (rx_written l) fr → acct l w → wpp m (λ _ w', acct l w') w.
Proof.
  intros Hm Hr [Hok Hc (evs & Et & Hh & Hp & Hcrc)]. eapply wp_mono; [by apply Hm|]. cbv beta.
  intros st w' [[Hok' Hc'] Hs]. constructor; [done|done|].
  assert (Hq : ∀ q, Forall quiet_event q → Forall (aside c) q) by (intros; by apply quiet_trace; [typeclasses eauto|]).
  destruct Hs as [[_ (q & Fq & Eq)]|[_ (q & rc & Fq & Eq & _)]].
  - exists (q ++ evs). unfold position. rewrite written_app, (written_aside c f q) by auto. rewrite app_nil_r.
    split; [by rewrite Eq, Et, (assoc_L (++))|]. split; [by apply honest_aside; auto|done].
  - exists (q ++ EvSend fr rc :: evs). unfold position. rewrite written_app, (written_aside c f q) by auto.
    rewrite app_nil_r. split; [by rewrite Eq, Et, <- (assoc_L (++))|]. split; [|done].
    apply honest_aside; [auto|]. split; [done|]. right. by rewrite <- Hp.
Qed.
Lemma acct_ack type l w : type = VAL_PKT_DATA_ACK ∨ type = VAL_PKT_DONE_ACK → acct l w →
  wpp (val_internal_send_packet type PNull 0 (rx_written l)) (λ _ w', acct l w') w.
Proof.
  intros Ht. assert (Ha : is_ack type = true) by (by destruct Ht as [-> | ->]).
  apply (acct_report _ (ctrl_frame c type (rx_written l))).
  - intros w1 Hok Hc.
    eapply wp_mono; [apply (wpp_and _ _ _ _ (safe_send_ctrl type (rx_written l) w1 Hok Hc)
                              (send_ctrl_spec type (rx_written l) w1 Hok (or_introl Ha)))|].
    cbv beta. intros st w' [(Hok' & Hc' & _) Hs]. rewrite Hc in Hs. split; [split; [done|congruence]|].
    destruct Hs as [[_ ?]|?]; [by left|by right].
  - unfold reports. destruct Ht as [-> | ->]; auto.
Qed.
Lemma acct_nak l w : acct l w →
  wpp (val_internal_send_packet_ex VAL_PKT_DATA_NAK (PBytes (VAL_PUT_LE32 1)) 4 (rx_written l) false)
    (λ _ w', acct l w') w.
Proof.
  apply (acct_report _ (nak_frame c (rx_written l))); [|unfold reports; auto].
  intros w1 Hok Hc.
  assert (Hsafe : safe c 0 (val_internal_send_packet_ex VAL_PKT_DATA_NAK (PBytes (VAL_PUT_LE32 1)) 4 (rx_written l) false))
    by (apply safe_send_packet_ex; lia).
  pose proof (session_mtu_range _ Hok). pose proof (sok_send _ Hok).
  assert (Hrun : wpp (val_internal_send_packet_ex VAL_PKT_DATA_NAK (PBytes (VAL_PUT_LE32 1)) 4 (rx_written l) false)
    (λ st w', quietly w1 w' ∨ sent (nak_frame c (rx_written l)) st w1 w') w1).
  { apply wpt_wpp. eapply wp_mono.
    - apply (send_core_spec VAL_PKT_DATA_NAK (PBytes (VAL_PUT_LE32 1)) 4 (rx_written l) false (VAL_PUT_LE32 1) w1);
        [done|split; [by rewrite zlen_put32|done]| |by vm_compute].
      unfold content_room. cbn. lia.
    - cbv beta. unfold fits. intros st w' [(_ & _ & ?)|[[_ Hs]|[Hf _]]]; [by left| |].
      + right. unfold session_frame in Hs. unfold nak_frame. by rewrite <- Hc.
      + exfalso. apply Hf. assert (zlen (content_of VAL_PKT_DATA_NAK (VAL_PUT_LE32 1) (rx_written l) false) = 12) as -> by done. lia. }
  eapply wp_mono; [apply (wpp_and _ _ _ _ (Hsafe w1 Hok Hc) Hrun)|].
  cbv beta. intros st w' [(Hok' & Hc' & _) Hs]. split; [split; [done|congruence]|done].
Qed.
End account.

(** ** The data phase keeps the account *)

Section data_phase.
Context {E : Type} `{!Hooks E} `{!BuildOptions}.
Context (c : val_config_t) (f : handle) (start : Z) (w0 : world E).
Abbreviation acct := (accounted c f start w0).
(** After a turn: the loop goes on accounted, or leaves accounted. *)
Definition turn_ok (r : recv_state + (Z + recv_state)) (w : world E) : Prop :=
  match r with
  | inl l => acct l w
  | inr (inr l) => acct l w
  | inr (inl _) => ∃ l, acct l w
  end.

Lemma turn_fail st l w : acct l w → turn_ok (inr (inl st)) w.
Proof. cbn. eauto. Qed.
Lemma aside_fclose h : runs (E:=E) c (aside c) (fs_fclose h).
Proof. apply (runs_of 0); [apply safe_fclose|intros d; apply emits_fclose]. Qed.
Lemma aside_error_detailed st dt : runs (E:=E) c (aside c) (val_internal_set_error_detailed st dt).
Proof. apply (runs_of 0); [by apply safe_set_error|intros d; by apply emits_upd]. Qed.

(** Close the file and leave with a status. *)
Lemma acct_close st l w : acct l w → wpp (do! fs_fclose f in mret (inr (inl st))) turn_ok w.
Proof.
  intros Hl. apply wp_bind. eapply wp_mono; [apply (acct_runs c f start w0 _ l w (aside_fclose f) Hl)|].
  cbv beta. intros [] w' Hl'. apply wp_ret. by eapply turn_fail.
Qed.
(** Send an acknowledgement of the position, then go on or close. *)
Lemma acct_ack_or_close type l (k : recv_state) w :
  type = VAL_PKT_DATA_ACK ∨ type = VAL_PKT_DONE_ACK →
  rx_written k = rx_written l → rx_crc_state k = rx_crc_state l → acct l w →
  ∀ g : recv_state → recv_state + (Z + recv_state), (g = inl ∨ g = λ l, inr (inr l)) →
  wpp (let! st2 := val_internal_send_packet type PNull 0 (rx_written l) in
       if negb (st2 =? VAL_OK) then do! fs_fclose f in mret (inr (inl st2)) else mret (g k)) turn_ok w.
Proof.
  intros Ht E1 E2 Hl g Hg. apply wp_bind. eapply wp_mono; [by apply (acct_ack c f start w0 type l w)|].
  cbv beta. intros st2 w1 Hl1. destruct (negb _); [by eapply acct_close|]. apply wp_ret.
  destruct Hg as [-> | ->]; by apply (acct_pkts c f start w0 l).
Qed.

Lemma acct_after_data name path b start_ms total o l w : acct l w →
  wpp (after_data f name path b start_ms total o l) turn_ok w.
Proof.
  intros Hl. unfold after_data. apply wp_bind.
  eapply wp_mono; [apply (acct_runs c f start w0 _ l w); [apply aside_progress|done]|].
  cbv beta. intros [st|[]] w1 Hl1; [by apply wp_ret; eapply turn_fail|].
  destruct (_ || _); [|apply wp_ret; by apply (acct_pkts c f start w0 l)].
  by apply (acct_ack_or_close VAL_PKT_DATA_ACK l (mk_rx (rx_written l) (rx_crc_state l) 0) w1 (or_introl eq_refl) eq_refl eq_refl Hl1 inl); left.
Qed.

(** The write of an in-order payload. *)
Lemma acct_write data l w : acct l w → 0 <= zlen data →
  wpp (if zlen data =? 0 then mret 0 else fs_fwrite f data)
    (λ rc w', if rc =? zlen data
              then acct (mk_rx (u64 (rx_written l + zlen data))
                           (if zlen data =? 0 then rx_crc_state l else val_crc32_update_state (rx_crc_state l) data)
                           (rx_pkts_since_ack l)) w'
              else acct l w') w.
Proof.
  intros [Hok Hc (evs & Et & Hh & Hp & Hcrc)] _. pose proof (u64_range (start + zlen (written f evs))).
  destruct (Z.eqb_spec (zlen data) 0) as [E0|N0].
  - apply wp_ret. rewrite E0. cbn [Z.eqb]. apply (acct_pkts c f start w0 l); cbn; [|done|by constructor; [done|done|exists evs]].
    rewrite Z.add_0_r, Hp. unfold position. by rewrite u64_small.
  - apply wp_lift. destruct (hk_fwrite f data (w_e w)) as [rc e]. cbn [fst snd].
    assert (Ew : written f (EvWrite f data rc :: evs) = written f evs ++ (if rc =? zlen data then data else [])).
    { cbn [written]. by rewrite Z.eqb_refl. }
    assert (Htr : (EvWrite f data rc :: w_tr w) = (EvWrite f data rc :: evs) ++ w_tr w0) by (by rewrite Et).
    destruct (Z.eqb_spec rc (zlen data)); constructor; try done; exists (EvWrite f data rc :: evs); cbn [w_tr];
      (split; [done|]); (split; [by split|]); unfold position; rewrite Ew; cbn [rx_written rx_crc_state].
    + rewrite zlen_app, Hp, crc32_update_app, Hcrc. split; [|done]. unfold position, u64.
      rewrite Zplus_mod_idemp_l. f_equal. lia.
    + by rewrite app_nil_r.
Qed.

Lemma acct_handle_data name path b start_ms total len off l w :
  0 <= len <= cfg_packet_size c → acct l w →
  wpp (handle_data f name path b start_ms total len off l) turn_ok w.
Proof.
  intros Hlen Hl. unfold handle_data. set (eff := if off =? UINT64_MAX then _ else off).
  destruct (eff =? rx_written l); [|destruct (eff <? rx_written l)].
  - apply wp_bind, wp_gets. set (data := ztake len (s_recv_buffer (w_s w))).
    assert (Hd : zlen data = len).
    { apply zlen_ztake. destruct Hl as [Hok Hc _]. pose proof (sok_recv _ Hok). rewrite Hc in *. lia. }
    rewrite <- Hd. apply wp_bind. eapply wp_mono; [apply (acct_write data l w Hl); lia|].
    cbv beta. intros rc w1 H1. destruct (rc =? zlen data); cbn [negb].
    + destruct (_ <=? _); [|by apply acct_after_data].
      set (l' := mk_rx _ _ _) in *.
      by apply (acct_ack_or_close VAL_PKT_DATA_ACK l' (mk_rx (rx_written l') (rx_crc_state l') 0) w1 (or_introl eq_refl) eq_refl eq_refl H1 inl); left.
    + apply wp_bind. eapply wp_mono; [apply (acct_runs c f start w0 _ l w1 (aside_fclose f) H1)|].
      cbv beta. intros [] w2 H2. apply wp_bind.
      eapply wp_mono; [apply (acct_runs c f start w0 _ l w2 (aside_error_detailed _ _) H2)|].
      cbv beta. intros [] w3 H3'. apply wp_ret. by eapply turn_fail.
  - apply wp_bind. eapply wp_mono; [by apply (acct_ack c f start w0); [left|]|]. cbv beta.
    intros _ w1 H1. by apply acct_after_data.
  - apply wp_bind. eapply wp_mono; [by apply (acct_nak c f start w0)|]. cbv beta. intros _ w1 H1.
    apply wp_bind. eapply wp_mono; [by apply (acct_ack c f start w0); [left|]|]. cbv beta.
    intros _ w2 H2. by apply acct_after_data.
Qed.

Lemma acct_handle_packet name path b start_ms total pkt l w :
  0 <= pkt_len pkt <= cfg_packet_size c → acct l w →
  wpp (handle_packet f name path b start_ms total pkt l) turn_ok w.
Proof.
  intros Hlen Hl. unfold handle_packet, handle_control.
  destruct (_ =? _); [by apply acct_handle_data|]. destruct (_ =? _).
  { by apply (acct_ack_or_close VAL_PKT_DONE_ACK l l w (or_intror eq_refl) eq_refl eq_refl Hl (λ l, inr (inr l))); right. }
  destruct (_ =? _); [by eapply acct_close|]. destruct (_ =? _).
  { apply wp_bind. eapply wp_mono; [apply (acct_runs c f start w0 _ l w); [apply aside_abort|done]|].
    cbv beta. intros st w1 H1. apply wp_ret. by eapply turn_fail. }
  destruct (_ =? _); [by apply wp_ret|]. destruct (_ =? _); [|by apply wp_ret].
  apply wp_bind. eapply wp_mono; [apply (acct_runs c f start w0 _ l w (aside_fclose f) Hl)|].
  cbv beta. intros [] w1 H1. apply wp_bind.
  eapply wp_mono; [apply (acct_runs c f start w0 _ l w1 (aside_error_detailed _ _) H1)|].
  cbv beta. intros [] w2 H2. apply wp_ret. by eapply turn_fail.
Qed.

(** The packet the wait gives is no longer than the packet size. *)
Lemma wait_data_len fuel name path P to_data l w : session_ok (w_s w) → s_cfg (w_s w) = c →
  wpp (loop fuel (wait_data_body fuel f name path P to_data) l)
    (λ r _, match r with inr pkt => 0 <= pkt_len pkt <= cfg_packet_size c | inl _ => True end) w.
Proof.
  intros Hok Hc.
  assert (Hb : ∀ l, safe_post c 0 (wait_data_body fuel f name path P to_data l)
     (λ r, match r with inr (inr pkt) => 0 <= pkt_len pkt <= cfg_packet_size c | _ => True end)).
  { intros [tries backoff]. unfold wait_data_body.
    apply safe_post_bind0; [safe_auto|intros _]. apply safe_post_bind0; [safe_auto|intros health].
    destruct (negb _); [apply safe_post_bind0; [safe_auto|intros _]; by apply safe_post_ret|].
    apply safe_post_bind0; [safe_auto|intros conn].
    destruct (negb conn); [do 2 (apply safe_post_bind0; [safe_auto|intros _]); by apply safe_post_ret|].
    apply safe_post_bind0; [safe_auto|intros canc]. destruct canc.
    { apply safe_post_bind0; [apply safe_abort_receive|intros st]. by apply safe_post_ret. }
    eapply safe_post_bind1.
    { intros w1 Hok1 Hc1. apply (wpp_and _ _ _ _ (safe_recv_packet fuel (DstRecvBuffer P) to_data w1 Hok1 Hc1)).
      eapply wp_mono; [by apply recv_packet_len|]. rewrite Hc1. cbv beta. intros r w2 Hr. exact Hr. }
    intros [st pkt] Hl. unfold len_within in Hl. cbn [snd] in Hl.
    destruct (st =? VAL_OK); [by apply safe_post_ret|]. destruct (_ || _).
    - apply safe_post_bind0; [safe_auto|intros _]. apply safe_post_bind0; [safe_auto|intros _]. by apply safe_post_ret.
    - apply safe_post_bind0; [safe_auto|intros _].
      apply safe_post_bind0; [apply safe_plain_backoff|intros l']. by apply safe_post_ret. }
  eapply wp_mono; [apply (safe_post_loop (c := c) fuel _ l (λ _, True)
     (λ r, match r with inr pkt => 0 <= pkt_len pkt <= cfg_packet_size c | inl _ => True end) I); [|done|done]|].
  - intros l' _. intros w1 Hok1 Hc1. eapply wp_mono; [by apply Hb|]. cbv beta. by intros [?|[?|?]] w2 [? ?].
  - by intros r w1 [_ Hr].
Qed.

Lemma acct_data_body fuel name path b P start_ms total l w : acct l w →
  wpp (data_body fuel f name path b P start_ms total l) turn_ok w.
Proof.
  intros Hl. unfold data_body. apply wp_bind. unfold val_internal_get_timeout. apply wp_gets.
  apply wp_bind, wp_gets. apply wp_bind.
  eapply wp_mono; [apply wpp_and; [apply (acct_runs c f start w0 _ l w); [apply aside_wait_data|done]|
                                   apply wait_data_len; apply Hl]|].
  cbv beta. intros [st|pkt] w1 [H1 Hp]; [by apply wp_ret; eapply turn_fail|]. by apply acct_handle_packet.
Qed.
End data_phase.

(** C15: every acknowledgement tells the truth. Whatever arrives, however long the data
    phase runs and however it ends: each frame the receiver sends meanwhile is a
    CANCEL or carries, as its 64-bit offset, the resume offset plus exactly the bytes
    the file system had accepted for this file by then; nothing is written elsewhere;
    and the running CRC is that of the accepted bytes. *)
Theorem acks_report_written {E} `{!Hooks E} `{!BuildOptions} fuel fuel' f name path b P start_ms total resume (w : world E) :
  session_ok (w_s w) → 0 <= resume < 2 ^ 64 →
  wpp (loop fuel (data_body fuel' f name path b P start_ms total) (mk_rx resume val_crc32_init_state 0))
    (λ r w', ∃ evs, w_tr w' = evs ++ w_tr w ∧ honest (s_cfg (w_s w)) f resume evs ∧
       match r with
       | inr l => rx_written l = position f resume evs ∧
                  rx_crc_state l = val_crc32_update_state val_crc32_init_state (written f evs)
       | inl _ => True
       end) w.
Proof.
  intros Hok Hr. set (c := s_cfg (w_s w)).
  eapply wp_mono; [apply (wpp_loop (λ l w', accounted c f resume w l w') _ (λ r w', turn_ok c f resume w (inr r) w'))|].
  - intros l w' Hl. eapply wp_mono; [by apply (acct_data_body c f resume w)|]. cbv beta. by intros [?|?] w2 Hw2.
  - constructor; [done|done|]. exists []. split; [done|]. split; [done|]. split; [|done].
    unfold position. cbn. rewrite Z.add_0_r. by rewrite u64_small.
  - cbv beta. intros [st|l] w' Hw'.
    + destruct Hw' as [l [_ _ (evs & ? & ? & _)]]. by exists evs.
    + destruct Hw' as [_ _ (evs & ? & ? & ?)]. by exists evs.
Qed.

(** ** One DATA packet, on each branch *)

Definition no_write (ev : event) : Prop := match ev with EvWrite _ _ _ => False | _ => True end.
#[export] Instance no_write_permits : Permits no_write.
Proof. intros [] ?; done. Qed.
#[export] Instance no_write_reads : Reads no_write.
Proof. intros [] ?; done. Qed.
#[export] Instance no_write_sends : Sends no_write.
Proof. done. Qed.
#[export] Instance no_write_announces : Announces no_write.
Proof. done. Qed.
#[export] Hint Resolve no_write_permits no_write_reads no_write_sends no_write_announces : emits.

Section decides.
Context {E : Type} `{!Hooks E} `{!BuildOptions}.

(** The result of a turn that leaves the position at [l]'s. *)
Definition stays (l : recv_state) (r : recv_state + (Z + recv_state)) : Prop :=
  match r with
  | inl l' => rx_written l' = rx_written l ∧ rx_crc_state l' = rx_crc_state l
  | inr (inl _) => True
  | inr (inr _) => False
  end.
Lemma gives_close f st l : gives (E:=E) (do! fs_fclose f in mret (inr (inl st))) (stays l).
Proof. apply gives_bind. intros _. by apply gives_ret. Qed.
Lemma after_data_stays f name path b start_ms total o l :
  gives (after_data f name path b start_ms total o l) (stays l).
Proof.
  unfold after_data. apply gives_bind. intros [st|[]]; [by apply gives_ret|].
  destruct (_ || _); [|by apply gives_ret]. apply gives_bind. intros st2.
  destruct (negb _); [apply gives_close|by apply gives_ret].
Qed.

(** What follows the decision writes nothing. *)
Lemma emits_after_data c d f name path b start_ms total o l :
  emits (E:=E) c d no_write (after_data f name path b start_ms total o l).
Proof. unfold after_data. pose proof (λ t' w', emits_receive_progress (E:=E) (c:=c) (d:=d) (P:=no_write) f name path b t' w'). emits_auto. Qed.
Lemma no_write_stays {A} (m : M (world E) A) Q w :
  (∀ c d, emits c d no_write m) → gives m Q →
  wpp m (λ r w', ∃ evs, w_tr w' = evs ++ w_tr w ∧ Forall no_write evs ∧ Q r) w.
Proof.
  intros He Hg. eapply wp_mono; [apply (wpp_gives _ Q _ w Hg (He _ _ w eq_refl eq_refl))|].
  cbv beta. intros r w' (Hq & _ & _ & _ & evs & Et & F). by exists evs.
Qed.

(** C21: a DATA packet, on each branch. At the expected position (an offset equal to
    it, or none) its payload, the first [len] bytes of the receive buffer, is the one
    thing written, and if the receiver goes on then all of it was accepted and the
    position and CRC advance by it; at any other position nothing is written and
    position and CRC stay. A packet never ends the data phase by itself. *)
Theorem handle_data_decides f name path b start_ms total len off l (w : world E) :
  let eff := if off =? UINT64_MAX then rx_written l else off in
  let data := ztake len (s_recv_buffer (w_s w)) in
  wpp (handle_data f name path b start_ms total len off l)
    (λ r w', ∃ rest, Forall no_write rest ∧
       if eff =? rx_written l then
         if len =? 0 then w_tr w' = rest ++ w_tr w ∧ stays (mk_rx (u64 (rx_written l)) (rx_crc_state l) 0) r
         else ∃ rc, w_tr w' = rest ++ EvWrite f data rc :: w_tr w ∧
           stays (mk_rx (u64 (rx_written l + len)) (val_crc32_update_state (rx_crc_state l) data) 0) r ∧
           (∀ l', r = inl l' → rc = len)
       else w_tr w' = rest ++ w_tr w ∧ stays l r) w.
Proof.
  intros eff data. unfold handle_data. fold eff.
  destruct (eff =? rx_written l).
  - apply wp_bind, wp_gets. fold data.
    set (l1 := mk_rx (u64 (rx_written l + len)) _ _).
    assert (Hrest : ∀ w, wpp (if total <=? u64 (rx_written l + len)
        then let! st2 := val_internal_send_packet VAL_PKT_DATA_ACK PNull 0 (rx_written l1) in
             if negb (st2 =? VAL_OK) then do! fs_fclose f in mret (inr (inl st2))
             else mret (inl (mk_rx (rx_written l1) (rx_crc_state l1) 0))
        else after_data f name path b start_ms total true l1)
      (λ r w', ∃ evs, w_tr w' = evs ++ w_tr w ∧ Forall no_write evs ∧ stays l1 r) w).
    { intros w1. apply no_write_stays.
      - intros c d. pose proof (emits_after_data c d f name path b start_ms total true l1). emits_auto.
      - destruct (_ <=? _); [|apply after_data_stays]. apply gives_bind. intros st2.
        destruct (negb _); [apply gives_close|by apply gives_ret]. }
    destruct (Z.eqb_spec len 0) as [E0|N0].
    + apply wp_bind, wp_ret. replace (0 =? len) with true by lia. cbn [negb]. eapply wp_mono; [apply Hrest|].
      cbv beta. intros r w' (evs & Et & F & Hs). exists evs. split; [done|]. split; [done|].
      unfold l1 in Hs. by rewrite E0, Z.add_0_r in Hs.
    + apply wp_bind, wp_lift. destruct (hk_fwrite f data (w_e w)) as [rc e]. cbn [fst snd].
      destruct (Z.eqb_spec rc len) as [Erc|Nrc]; cbn [negb].
      * eapply wp_mono; [apply Hrest|]. cbv beta. intros r w' (evs & Et & F & Hs). exists evs.
        split; [done|]. exists rc. done.
      * eapply wp_mono; [apply (no_write_stays _ (λ r, r = inr (inl VAL_ERR_IO)))|].
        { intros c d. emits_auto. }
        { do 2 (apply gives_bind; intros ?). by apply gives_ret. }
        cbv beta. intros r w' (evs & Et & F & ->). exists evs. split; [done|]. exists rc. done.
  - destruct (eff <? rx_written l).
    + eapply wp_mono; [apply (no_write_stays _ (stays l))|].
      { intros c d. pose proof (emits_after_data c d f name path b start_ms total false l). emits_auto. }
      { apply gives_bind. intros ?. apply after_data_stays. }
      cbv beta. intros r w' (evs & Et & F & Hs). by exists evs.
    + eapply wp_mono; [apply (no_write_stays _ (stays l))|].
      { intros c d. pose proof (emits_after_data c d f name path b start_ms total false l). emits_auto. }
      { do 2 (apply gives_bind; intros ?). apply after_data_stays. }
      cbv beta. intros r w' (evs & Et & F & Hs). by exists evs.
Qed.
End decides.

(** A session in the middle of a transfer, an open file and two frames to come: the
    expected one and a gap. *)
Definition phase_files : list (list Z * list Z) := [([102], [])].
Definition phase_w : world sim :=
  sim_world demo_s (mk_sim [Bytes (session_frame (E:=sim) demo_s VAL_PKT_DATA [65; 66] 0 true);
                            Bytes (session_frame (E:=sim) demo_s VAL_PKT_DATA [70] 9 true);
                            Bytes (session_frame (E:=sim) demo_s VAL_PKT_DONE [] 0 true)]
                      1000 phase_files [([102], 0, ModeWrite)]).
Definition phase_run : option ((Z + recv_state) * world sim) :=
  loop 10 (data_body 100 0 [102] [] (mk_batch 0 0) 512 1000 9) (mk_rx 0 val_crc32_init_state 0) phase_w.
Lemma acks_report_written_witness :
  match phase_run with
  | Some (inr l, w') =>
      (length (sent_frames w') = 4%nat ∧ written 0 (w_tr w') = [65; 66]) ∧
      ∃ evs, w_tr w' = evs ++ w_tr phase_w ∧ honest (s_cfg demo_s) 0 0 evs ∧ rx_written l = position 0 0 evs
  | _ => False
  end.
Proof.
  assert (Hc : match phase_run with
               | Some (inr l, w') => length (sent_frames w') = 4%nat ∧ written 0 (w_tr w') = [65; 66]
               | _ => False end) by (vm_compute; split; reflexivity).
  pose proof (wpp_result _ _ _ phase_run
    (acks_report_written 10 100 0 [102] [] (mk_batch 0 0) 512 1000 9 0 phase_w demo_s_ok
       (conj (Z.le_refl 0) eq_refl)) eq_refl) as Hw.
  destruct phase_run as [[[st|l] w']|]; [destruct Hc| |destruct Hc].
  split; [exact Hc|]. destruct Hw as (evs & Et & Hh & Hp & _). exists evs.
  split; [exact Et|]. split; [exact Hh|exact Hp].
Defined.
