(* ===== verification/Link.v ===== *)
(** A link without faults: what bookkeeping, sending and receiving do to a session
    whose environment works.

    [Faultless] is that environment, for either end: what has arrived can be read, a
    frame is taken in full, the connection is up and no callback cancels.  What else the
    environment shows is its [fl_view] - a file, the other end - and [fl_answer] says
    what a frame does to it and to the stream that arrives.  [Assembly] reads the view as
    the file a receiver writes, [Windows] as the peer of a sender and the file it reads. *)
From S2P Require Import Prelude ByteOrder Wire Errors Crc Timing Session Simulation Window Packet Frame.
From S2P Require Import Control DataPhase.

Class Faultless (E V : Type) `{!Hooks E} `{!StreamLink E} := {
  fl_ok : E → Prop;
  fl_view : E → V;
  fl_answer : list Z → list Z * V → list Z * V;
  fl_link e : fl_ok e → link_ok e;
  fl_same (e e' : E) : Prop := fl_ok e' ∧ link_in e' = link_in e ∧ fl_view e' = fl_view e;
  fl_recv n t e : fl_ok e → fl_ok (snd (hk_recv n t e)) ∧ fl_view (snd (hk_recv n t e)) = fl_view e;
  fl_send fr e : fl_ok e → zlen fr < 2 ^ 31 → let '(rc, e') := hk_send fr e in
    rc = zlen fr ∧ fl_ok e' ∧ (link_in e', fl_view e') = fl_answer fr (link_in e, fl_view e);
  fl_ticks e : fl_ok e → fl_same e (snd (hk_get_ticks_ms e));
  fl_connected e : fl_ok e → fst (hk_is_connected e) ≠ 0 ∧ fl_same e (snd (hk_is_connected e));
  fl_flush e : fl_ok e → fl_same e (hk_flush e);
  fl_packet r e : fl_ok e → fl_same e (hk_on_packet r e);
  fl_progress i e : fl_ok e → fst (hk_on_progress i e) = false ∧ fl_same e (snd (hk_on_progress i e))
}.

(** [frs] were sent between two worlds, oldest first. *)
Definition sends {E} (frs : list (list Z)) (w w' : world E) : Prop :=
  ∃ evs, w_tr w' = evs ++ w_tr w ∧ rev (frames_of evs) = frs.
Lemma sends_refl {E} (w : world E) : sends [] w w.
Proof. by exists []. Qed.
Lemma sends_trans {E} a b (w w' w'' : world E) : sends a w w' → sends b w' w'' → sends (a ++ b) w w''.
Proof.
  intros (e1 & E1 & F1) (e2 & E2 & F2). exists (e2 ++ e1). split; [by rewrite E2, E1, (assoc_L (++))|].
  by rewrite frames_of_app, rev_app_distr, F1, F2.
Qed.
Lemma sends_none {E} b (w w' w'' : world E) : sends [] w w' → sends b w' w'' → sends b w w''.
Proof. intros Ha. exact (sends_trans [] b w w' w'' Ha). Qed.
Lemma frames_of_quiet q : Forall quiet_event q → frames_of q = [].
Proof. induction 1 as [|ev q Hev _ IH]; [done|]. by destruct ev. Qed.
Lemma sends_quietly {E} (w w' : world E) : quietly w w' → sends [] w w'.
Proof. intros [_ (q & Fq & Eq)]. exists q. by rewrite frames_of_quiet. Qed.

Section link.
Context {E V : Type} `{!Hooks E} `{!StreamLink E} `{!Faultless E V} `{!BuildOptions}.

(** Nothing keeps the session from going on: not cancelled, and few retries so far. *)
Definition undisturbed (s : val_session_t) : Prop :=
  err_code (s_last_error s) ≠ VAL_ERR_ABORTED ∧ s_health_retries s < 8.
Definition fine (w : world E) : Prop := fl_ok (w_e w) ∧ undisturbed (w_s w).
Definition view (w : world E) : V := fl_view (w_e w).
Definition outside (w : world E) : list Z * V := (link_in (w_e w), view w).

(** Nothing sent, and nothing read; [intact] allows reading. *)
Definition beside (w w' : world E) : Prop :=
  view w' = view w ∧ link_in (w_e w') = link_in (w_e w) ∧ sends [] w w'.
Definition untouched (w w' : world E) : Prop := fine w → fine w' ∧ beside w w'.
Definition intact (w w' : world E) : Prop := fine w → fine w' ∧ view w' = view w ∧ sends [] w w'.
(** What was sent was taken in full and answered. *)
Definition taken (ev : event) : Prop := match ev with EvSend fr rc => rc = zlen fr | _ => True end.
Definition answered (w w' : world E) : Prop := fine w →
  fine w' ∧ ∃ evs, w_tr w' = evs ++ w_tr w ∧ Forall taken evs ∧
                   outside w' = fold_right fl_answer (outside w) (frames_of evs).

#[export] Instance beside_preorder : PreOrder beside.
Proof.
  split; [intros w; split; [done|split; [done|apply sends_refl]]|].
  intros a b d (V1 & L1 & S1) (V2 & L2 & S2). split; [congruence|]. split; [congruence|].
  by eapply sends_none.
Qed.
#[export] Instance untouched_preorder : PreOrder untouched.
Proof.
  split; [intros w Hw; by split|]. intros a b d Hab Hbd Ha. destruct (Hab Ha) as [Hb B1]. destruct (Hbd Hb) as [Hd B2].
  split; [done|by etrans].
Qed.
#[export] Instance intact_preorder : PreOrder intact.
Proof.
  split; [intros w Hw; split; [done|split; [done|apply sends_refl]]|].
  intros a b d Hab Hbd Ha. destruct (Hab Ha) as (Hb & V1 & S1). destruct (Hbd Hb) as (Hd & V2 & S2).
  split; [done|]. split; [congruence|by eapply sends_none].
Qed.
#[export] Instance answered_preorder : PreOrder answered.
Proof.
  split; [intros w Hw; split; [done|by exists []]|]. intros a b d Hab Hbd Ha.
  destruct (Hab Ha) as (Hb & e1 & E1 & F1 & O1). destruct (Hbd Hb) as (Hd & e2 & E2 & F2 & O2). split; [done|].
  exists (e2 ++ e1). split; [by rewrite E2, E1, (assoc_L (++))|]. split; [by apply Forall_app|].
  by rewrite frames_of_app, foldr_app, O2, O1.
Qed.
Lemma untouched_intact {A} (m : M (world E) A) : keeps untouched m → keeps intact m.
Proof. intros Hm w. eapply wp_mono; [apply Hm|]. intros a w' Hu Hw. by destruct (Hu Hw) as (?&?&?&?). Qed.
Lemma taken_no_frames evs : frames_of evs = [] → Forall taken evs.
Proof. induction evs as [|[] evs IH]; intros He; constructor; try done; by apply IH. Qed.
Lemma untouched_answered {A} (m : M (world E) A) : keeps untouched m → keeps answered m.
Proof.
  intros Hm w. eapply wp_mono; [apply Hm|]. intros a w' Hu Hw. destruct (Hu Hw) as (Hw' & EV & EL & evs & Ee & Ef).
  split; [done|]. assert (En : frames_of evs = []) by (by apply (f_equal (@rev _)) in Ef; rewrite rev_involutive in Ef).
  exists evs. split; [done|]. split; [by apply taken_no_frames|]. rewrite En. unfold outside. cbn. by rewrite EV, EL.
Qed.

(** ** Bookkeeping *)

Lemma untouched_upd g : (∀ s, undisturbed s → undisturbed (g s)) → keeps untouched (upd g).
Proof. intros Hg. apply keeps_mod. intros w [Hl Hc]. split; [split; [done|by apply Hg]|]. split; [done|by split; [|exists []]]. Qed.
Lemma untouched_env {A} (h : E → A * E) : (∀ e, fl_ok e → fl_same e (snd (h e))) →
  keeps untouched (mlift (λ w, let '(a, e) := h (w_e w) in (a, mk_world (w_s w) e (w_tr w)))).
Proof.
  intros Hh w. apply wp_lift. unfold untouched, fine, beside, view. pose proof (Hh (w_e w)) as Hd. destruct (h (w_e w)) as [a e].
  intros [Ho Hu]. destruct (Hd Ho) as (?&?&?). split; [done|]. split; [done|]. split; [done|by exists []].
Qed.
Lemma untouched_ticks : keeps untouched get_ticks_ms.
Proof.
  intros w. apply wp_lift. unfold untouched, fine, beside, view. pose proof (fl_ticks (w_e w)) as Hd.
  destruct (hk_get_ticks_ms (w_e w)) as [t e]. intros [Ho Hu]. destruct (Hd Ho) as (?&?&?).
  split; [done|]. split; [done|]. split; [done|by exists []].
Qed.
Lemma untouched_call_unit h ev : quiet_event ev → (∀ e, fl_ok e → fl_same e (h e)) → keeps untouched (call_unit h ev).
Proof.
  intros Hq Hh w. apply wp_mod. intros [Ho Hu]. destruct (Hh _ Ho) as (?&?&?).
  split; [done|]. split; [done|]. split; [done|]. exists [ev]. split; [done|]. by destruct ev.
Qed.
Lemma untouched_error st d o : st ≠ VAL_ERR_ABORTED → keeps untouched (val_internal_set_last_error_full (E:=E) st d o).
Proof. intros. apply untouched_upd. by intros s [_ Hr]. Qed.
Lemma untouched_connected : keeps untouched val_internal_transport_is_connected.
Proof.
  unfold val_internal_transport_is_connected. apply keeps_bind; [apply _|apply keeps_gets, _|intros s].
  destruct (cfg_has_is_connected _); [|apply keeps_ret, _].
  apply keeps_bind; [apply _| |intros r; apply keeps_ret, _]. apply untouched_env. intros e Ho. by apply fl_connected.
Qed.
Lemma untouched_flush : keeps untouched val_internal_transport_flush.
Proof.
  unfold val_internal_transport_flush. apply keeps_bind; [apply _|apply keeps_gets, _|intros s].
  destruct (cfg_has_flush _); [by apply untouched_call_unit, fl_flush|apply keeps_ret, _].
Qed.
Lemma untouched_capture r : keeps untouched (capture r).
Proof.
  unfold capture. apply keeps_bind; [apply _|apply keeps_gets, _|intros s].
  destruct (cfg_has_on_packet _); [|apply keeps_ret, _].
  apply keeps_bind; [apply _|apply untouched_ticks|intros t]. apply untouched_call_unit; [done|apply fl_packet].
Qed.
Lemma content_len_small buf type p n off incl : enc_content_len (encode_content buf type p n off incl) < 2 ^ 16.
Proof.
  unfold encode_content. pose proof (u16_range (u32 (n + 8))). pose proof (u16_range n).
  repeat case_match; cbn [enc_content_len]; lia.
Qed.
Lemma answered_send n buf : n < 2 ^ 31 → keeps answered (transport_send (ztake n buf)).
Proof.
  intros Hn. assert (Hz : zlen (ztake n buf) < 2 ^ 31) by (unfold ztake, zlen; rewrite length_take; lia).
  intros w. apply wp_lift. set (fr := ztake n buf) in *. unfold answered, fine, outside, view. pose proof (fl_send fr (w_e w)) as Hs.
  destruct (hk_send fr (w_e w)) as [rc e]. intros [Ho Hu]. destruct (Hs Ho Hz) as (Hrc & Hd & Ea). split; [done|].
  exists [EvSend fr rc]. split; [done|]. split; [by apply Forall_singleton|done].
Qed.
End link.

Ltac untouched_step :=
  lazymatch goal with
  | |- keeps untouched (mbind _ _) => apply keeps_bind; [apply _| |intros ?]
  | |- keeps untouched (mret _) => apply keeps_ret, _
  | |- keeps untouched get_s => apply keeps_gets, _
  | |- keeps untouched (match ?x with _ => _ end) => destruct x
  | |- keeps untouched (let _ := _ in _) => cbv zeta
  | |- keeps untouched _ =>
      first [ apply untouched_ticks | apply untouched_connected | apply untouched_flush
            | apply untouched_capture | apply untouched_error; done | apply untouched_upd; intros ? [? ?]; by split ]
  end.
Ltac answered_step :=
  lazymatch goal with
  | |- keeps answered (mbind _ _) => apply keeps_bind; [apply _| |intros ?]
  | |- keeps answered (mret _) => apply keeps_ret, _
  | |- keeps answered get_s => apply keeps_gets, _
  | |- keeps answered (match ?x with _ => _ end) => destruct x
  | |- keeps answered (let _ := _ in _) => cbv zeta
  | |- keeps answered _ => first [ apply answered_send; match goal with |- context [encode_content ?a ?b ?c ?d ?e ?f] =>
                        pose proof (content_len_small a b c d e f) end; unfold VAL_WIRE_HEADER_SIZE, VAL_WIRE_TRAILER_SIZE; lia
          | apply untouched_answered; untouched_step ]
  end.

(** ** Receiving leaves the view alone *)

Section receiving.
Context {E V : Type} `{!Hooks E} `{!StreamLink E} `{!Faultless E V} `{!BuildOptions}.

Lemma intact_recv_full fuel need to : keeps intact (val_recv_full fuel need to).
Proof.
  unfold val_recv_full. apply keeps_bind; [apply _|apply untouched_intact, untouched_ticks|intros start].
  apply keeps_loop; [apply _|intros have]. unfold recv_full_body.
  destruct (_ <=? _); [apply keeps_ret, _|].
  apply keeps_bind; [apply _|apply untouched_intact, untouched_ticks|intros now]. cbv zeta.
  apply keeps_bind; [apply _| |intros [r got]].
  - intros w. apply wp_lift. unfold intact, fine, view. set (n := need - zlen have). set (t := if negb _ then _ else _).
    pose proof (fl_recv n t (w_e w)) as Hd. destruct (hk_recv n t (w_e w)) as [[r got] e].
    intros [Ho Hu]. destruct (Hd Ho). split; [done|]. split; [done|]. by eexists [_].
  - destruct (r <? 0); [apply keeps_ret, _|]. destruct (_ <=? _); [apply keeps_ret, _|].
    apply keeps_bind; [apply _|apply untouched_intact, untouched_ticks|intros t]. destruct (_ <=? _); apply keeps_ret, _.
Qed.
Lemma intact_recv_into fuel off n to : keeps intact (recv_into fuel off n to).
Proof.
  unfold recv_into. apply keeps_bind; [apply _|apply intact_recv_full|intros [rc got]].
  apply keeps_bind; [apply _|by apply untouched_intact, untouched_upd|intros _; apply keeps_ret, _].
Qed.
Lemma intact_recv_failed rc : keeps intact (recv_failed rc).
Proof. apply untouched_intact. unfold recv_failed. repeat untouched_step. Qed.

(** ... unless the packet is a CANCEL. *)
Definition unless_cancel (r : Z * packet) (w w' : world E) : Prop := pkt_type (snd r) ≠ VAL_PKT_CANCEL → intact w w'.
Lemma unless_cancel_intact (m : M (world E) (Z * packet)) w : keeps intact m → wpp m (λ r w', unless_cancel r w w') w.
Proof. intros Hm. eapply wp_mono; [apply Hm|]. by intros r w' Hi _. Qed.
Lemma unless_cancel_bind {A} (m : M (world E) A) (k : A → M (world E) (Z * packet)) w :
  keeps intact m → (∀ a w, wpp (k a) (λ r w', unless_cancel r w w') w) → wpp (mbind m k) (λ r w', unless_cancel r w w') w.
Proof.
  intros Hm Hk. apply wp_bind. eapply wp_mono; [apply Hm|]. intros a w1 H1.
  eapply wp_mono; [apply Hk|]. intros r w2 H2 Hr. cbv beta in *. etrans; [exact H1|]. by apply H2.
Qed.
Lemma intact_deliver dst type fl td n w :
  wpp (recv_deliver dst type fl td n) (λ r w', unless_cancel r w w') w.
Proof.
  destruct (Z.eqb_spec type VAL_PKT_CANCEL) as [->|Hn].
  - assert (Hg : gives (E:=E) (recv_deliver dst VAL_PKT_CANCEL fl td n) (λ r, pkt_type (snd r) = VAL_PKT_CANCEL)).
    { unfold recv_deliver, recv_finish. apply gives_bind. intros s. cbv zeta. apply gives_bind. intros _.
      repeat case_match; repeat (apply gives_bind; intros ?); by apply gives_ret. }
    eapply wp_mono; [apply Hg|]. intros r w' Hr. by intros [].
  - apply unless_cancel_intact. apply untouched_intact. unfold recv_deliver, recv_finish.
    destruct (Z.eqb_spec type VAL_PKT_CANCEL); [done|]. repeat untouched_step.
Qed.
Lemma intact_content fuel dst P type fl n td to w :
  wpp (recv_content fuel dst P type fl n td to) (λ r w', unless_cancel r w w') w.
Proof.
  unfold recv_content. destruct (_ <? _).
  { apply unless_cancel_intact, untouched_intact. repeat untouched_step. }
  apply unless_cancel_bind; [destruct (0 <? n); [apply intact_recv_into|apply keeps_ret, _]|].
  intros rc w1. destruct (negb _); [apply unless_cancel_intact, intact_recv_failed|]. unfold recv_trailer.
  apply unless_cancel_bind; [apply intact_recv_full|]. intros [rc2 tr] w2.
  destruct (negb _); [apply unless_cancel_intact, intact_recv_failed|].
  apply unless_cancel_bind; [apply keeps_gets, _|]. intros s w3. cbv zeta. destruct (negb _).
  - apply unless_cancel_intact, untouched_intact. repeat untouched_step.
  - apply intact_deliver.
Qed.
Lemma intact_recv fuel dst to w : wpp (val_internal_recv_packet fuel dst to) (λ r w', unless_cancel r w w') w.
Proof.
  unfold val_internal_recv_packet. apply unless_cancel_bind; [by apply untouched_intact, untouched_upd|]. intros _ w1.
  apply unless_cancel_bind; [apply keeps_gets, _|]. intros s w2. cbv zeta.
  apply unless_cancel_bind; [apply intact_recv_into|].
  intros rc w3. destruct (negb _); [apply unless_cancel_intact, intact_recv_failed|].
  apply unless_cancel_bind; [apply keeps_gets, _|]. intros s' w4.
  destruct (val_deserialize_frame_header _) as [[[type fl] n] td]. apply intact_content.
Qed.
Lemma answered_send_core type p n off incl : keeps answered (val__internal_send_packet_core type p n off incl).
Proof. unfold val__internal_send_packet_core. repeat answered_step. Qed.
End receiving.

(** ** A session that goes on *)

Section standing.
Context {E V : Type} `{!Hooks E} `{!StreamLink E} `{!Faultless E V} `{!BuildOptions}.

(** The session between two packets. *)
Record standing (c : val_config_t) (mtu : Z) (w : world E) : Prop := {
  st_ok : session_ok (w_s w);
  st_cfg : s_cfg (w_s w) = c;
  st_mtu : s_effective_packet_size (w_s w) = mtu;
  st_fine : fine w
}.

(** What a world with a well-formed session may become: kept parts, all in one. *)
Lemma standing_by {A} c mtu n (m : M (world E) A) (R : A → world E → Prop) w : standing c mtu w → safe c n m →
  wpt m (λ a w', fine w' ∧ s_effective_packet_size (w_s w') = mtu ∧ R a w') w →
  wpt m (λ a w', standing c mtu w' ∧ R a w') w.
Proof.
  intros [Hok Hc Hm Hf] Hs Hr. specialize (Hs w Hok Hc). unfold wp in *.
  destruct (m w) as [[a w']|]; [|done]. destruct Hs as (Hok' & Hc' & _), Hr as (? & ? & ?).
  split; [constructor; congruence|done].
Qed.

(** One frame goes out and is answered. *)
Definition posted (fr : list Z) (w w' : world E) : Prop :=
  outside w' = fl_answer fr (outside w) ∧ sends [fr] w w'.
Lemma send_ok c mtu type p n off incl data w : standing c mtu w →
  safe c 0 (val__internal_send_packet_core type p n off incl) →
  payload_data (s_send_buffer (w_s w)) p n data →
  8 + content_room type n incl <= zlen (s_send_buffer (w_s w)) →
  zlen (content_of type data off incl) < 2 ^ 16 → zlen (content_of type data off incl) <= mtu - 12 →
  wpt (val__internal_send_packet_core type p n off incl)
    (λ st w', standing c mtu w' ∧ st = VAL_OK ∧ posted (session_frame (w_s w) type data off incl) w w') w.
Proof.
  intros Hw Hsafe Hp Hroom H16 Hfit. apply (standing_by c mtu 0); [done|done|].
  pose proof Hw as [Hok Hc Hm Hf]. pose proof (send_core_spec type p n off incl data w Hok Hp Hroom H16) as Hs.
  pose proof (answered_send_core type p n off incl w) as Ha. unfold wp in *.
  destruct (val__internal_send_packet_core type p n off incl w) as [[st w']|]; [|done].
  destruct (Ha Hf) as (Hf' & evs & Etr & Fw & Eo).
  destruct Hs as [(-> & [_ Hun] & _)|[[_ [U (q & rc & Fq & Eq & ->)]]|[Hbad _]]].
  - by destruct (fl_connected _ (proj1 Hf)) as [? _].
  - split; [done|]. split; [by rewrite (unch_mtu _ _ U)|].
    rewrite Eq, (cons_middle _ q), (assoc_L (++)) in Etr. apply app_inv_tail in Etr. subst evs.
    apply Forall_app in Fw as [_ Fw]. apply Forall_cons_1, proj1 in Fw.
    change (rc = zlen (session_frame (w_s w) type data off incl)) in Fw. rewrite <- Fw, Z.eqb_refl. split; [done|].
    rewrite frames_of_app, frames_of_quiet in Eo by done. split; [exact Eo|].
    exists (q ++ [EvSend (session_frame (w_s w) type data off incl) rc]). rewrite <- (assoc_L (++)).
    split; [exact Eq|]. by rewrite frames_of_app, frames_of_quiet.
  - exfalso. apply Hbad. unfold fits. rewrite session_mtu_ok, Hm; done.
Qed.
Lemma bare_content_len type off : is_ack type = true ∨ type = VAL_PKT_DONE →
  zlen (content_of type [] off true) <= 4 ∧ type ≠ VAL_PKT_DATA.
Proof.
  intros Ht. assert (Hd : type ≠ VAL_PKT_DATA) by (intros ->; by destruct Ht). split; [|done].
  unfold content_of. destruct (Z.eqb_spec type VAL_PKT_DATA); [done|]. destruct (is_ack type) eqn:Ea.
  - destruct (high32 off =? 0); rewrite ?zlen_put32; by cbv.
  - destruct Ht as [| -> ]; [done|by cbv].
Qed.
(** Acknowledgements and DONE. *)
Lemma send_bare_ok c mtu type off w : standing c mtu w → is_ack type = true ∨ type = VAL_PKT_DONE →
  wpt (val_internal_send_packet type PNull 0 off)
    (λ st w', standing c mtu w' ∧ st = VAL_OK ∧ posted (session_frame (w_s w) type [] off true) w w') w.
Proof.
  intros Hw Ht. destruct (bare_content_len type off Ht) as [Hlen Hd].
  pose proof (session_mtu_range _ (st_ok _ _ _ Hw)) as Hr. pose proof (sok_send _ (st_ok _ _ _ Hw)) as Hb.
  rewrite (session_mtu_ok _ (st_ok _ _ _ Hw)), (st_mtu _ _ _ Hw) in Hr.
  apply send_ok; try done; [apply safe_send_ctrl| |lia|lia].
  unfold content_room. replace (type =? VAL_PKT_DATA) with false by lia. cbn [andb]. lia.
Qed.

(** The next packet, whatever the caller's buffer. *)
Lemma packet_comes fuel c mtu s0 type data off incl dst to_ms rest w :
  standing c mtu w → 0 < to_ms → (∀ l, val_internal_crc32 s0 l = cfg_crc c l) →
  link_in (w_e w) = session_frame s0 type data off incl ++ rest →
  0 <= type < 256 → type ≠ VAL_PKT_CANCEL → bytes_ok data →
  zlen (content_of type data off incl) < 2 ^ 16 → zlen (content_of type data off incl) <= mtu - 12 →
  (Z.to_nat (zlen (link_in (w_e w))) < fuel)%nat →
  let p := PFrame type (flags_of type incl) (type_data_of type off) (content_of type data off incl) in
  wpt (val_internal_recv_packet fuel dst to_ms)
    (λ r w', standing c mtu w' ∧ r = outcome dst p ∧ view w' = view w ∧ link_in (w_e w') = rest ∧
             sends [] w w' ∧ buffered dst p (s_recv_buffer (w_s w'))) w.
Proof.
  intros Hw Hto Hcrc EL Ht Hn Hd H16 Hfit Hfuel p. apply (standing_by c mtu 0); [done|apply safe_recv_packet|].
  pose proof Hw as [Hok Hc Hm Hf].
  assert (Hrec := frame_arrives s0 type data off incl fuel dst to_ms w rest Hok (fl_link _ (proj1 Hf)) Hto
    ltac:(intros l; rewrite Hcrc, crc_of_cfg; congruence) EL Ht Hd H16 ltac:(unfold fits; rewrite session_mtu_ok, Hm; done) Hfuel).
  pose proof (intact_recv fuel dst to_ms w) as Hi. unfold wp in *. cbv zeta in Hrec. fold p in Hrec.
  destruct (val_internal_recv_packet fuel dst to_ms w) as [[r w']|]; [|done].
  destruct Hrec as (-> & (Hl & El & Ec & Em) & Hbuf).
  assert (Hty : pkt_type (snd (outcome dst p)) = type) by (cbn; repeat case_match; done).
  destruct (Hi ltac:(by rewrite Hty) Hf) as (Hf' & EV & Hs). split; [done|]. split; [congruence|]. done.
Qed.

(** ** Total, and beside the outside *)

Definition smooth {A} (m : M (world E) A) : Prop := ∀ c mtu w, standing c mtu w →
  wpt m (λ _ w', standing c mtu w' ∧ beside w w') w.
Lemma smooth_ret {A} (a : A) : smooth (mret a).
Proof. intros c mtu w Hw. apply wp_ret. by split. Qed.
Lemma smooth_upd g : (∀ c, safe (E:=E) c 0 (upd g)) → (∀ s, s_effective_packet_size (g s) = s_effective_packet_size s) →
  (∀ s, undisturbed s → undisturbed (g s)) → smooth (upd g).
Proof.
  intros Hs Hm Hu c mtu w Hw. apply (standing_by c mtu 0); [done|done|]. pose proof (untouched_upd g Hu w) as Hk.
  pose proof Hw as [_ _ Ep Hf]. apply wp_mod. destruct (Hk Hf) as [? ?]. split; [done|]. split; [cbn; by rewrite Hm|done].
Qed.
Lemma smooth_bind {A B} (m : M (world E) A) (k : A → M (world E) B) : smooth m → (∀ a, smooth (k a)) → smooth (mbind m k).
Proof.
  intros Hm Hk c mtu w Hw. apply wp_bind. eapply wp_mono; [by apply Hm|]. intros a w1 [Hw1 B1].
  eapply wp_mono; [by apply Hk|]. intros b w2 [Hw2 B2]. split; [done|by etrans].
Qed.
Lemma smooth_gets {A} (g : val_session_t → A) : smooth (gets_s g).
Proof. intros c mtu w Hw. apply wp_gets. by split. Qed.
Lemma smooth_of {A} (m : M (world E) A) : (∀ c, safe c 0 m) → keeps untouched m → calm m → smooth m.
Proof.
  intros Hs Hu Hc c mtu w Hw. apply (standing_by c mtu 0); [done|done|]. specialize (Hu w). specialize (Hc w).
  pose proof Hw as [_ _ Ep Hf]. unfold wp in *. destruct (m w) as [[a w']|]; [|done].
  destruct (Hu Hf), Hc as [U _]. split; [done|]. split; [by rewrite (unch_mtu _ _ U)|done].
Qed.
Lemma smooth_ticks : smooth get_ticks_ms.
Proof. apply smooth_of; [intros; apply safe_ticks|apply untouched_ticks|apply calm_ticks]. Qed.
Lemma smooth_operation : smooth VAL_HEALTH_RECORD_OPERATION.
Proof.
  pose proof (λ c, safe_record_operation (E:=E) (c:=c)) as Hs. unfold VAL_HEALTH_RECORD_OPERATION in *.
  destruct VAL_BUILD_DIAGNOSTICS; [apply smooth_upd; [done|done|by intros s []]|apply smooth_ret].
Qed.
Lemma healthy c mtu w : standing c mtu w → wpt val_internal_check_health (λ r w', r = VAL_OK ∧ w' = w) w.
Proof.
  intros [_ _ _ [_ [_ Hr]]]. unfold val_internal_check_health. destruct VAL_BUILD_DIAGNOSTICS; [|by apply wp_ret].
  apply wp_bind, wp_gets. cbv zeta. destruct (_ <? 64); [by apply wp_ret|].
  replace (8 <=? s_health_retries (w_s w)) with false by lia. by apply wp_ret.
Qed.
Lemma not_cancelled c mtu w : standing c mtu w → wpt val_check_for_cancel (λ r w', r = false ∧ w' = w) w.
Proof.
  intros [_ _ _ [_ [Hc _]]]. apply wp_gets. by destruct (Z.eqb_spec (err_code (s_last_error (w_s w))) VAL_ERR_ABORTED).
Qed.
Lemma connected_ok c mtu w : standing c mtu w →
  wpt val_internal_transport_is_connected (λ r w', standing c mtu w' ∧ r = true ∧ beside w w') w.
Proof.
  intros Hw. apply (standing_by c mtu 0); [done|apply safe_is_connected|]. pose proof Hw as [_ _ Ep Hf].
  pose proof (untouched_connected w) as Hu. pose proof (calm_connected w) as Hc.
  assert (Ht : wpp val_internal_transport_is_connected (λ r _, r = true) w).
  { unfold val_internal_transport_is_connected. apply wp_bind, wp_gets.
    destruct (cfg_has_is_connected _); [|by apply wp_ret]. apply wp_bind, wp_lift.
    pose proof (fl_connected _ (proj1 Hf)) as [Hn _]. destruct (hk_is_connected (w_e w)) as [r e]. apply wp_ret.
    cbn in *. by destruct (Z.eqb_spec r 0). }
  unfold wp in *. destruct (val_internal_transport_is_connected w) as [[r w']|]; [|done].
  destruct (Hu Hf), Hc as [U _]. split; [done|]. split; [by rewrite (unch_mtu _ _ U)|done].
Qed.
(** A callback that does not cancel. *)
Lemma callback_smooth c mtu (h : E → bool * E) ev w : standing c mtu w → (∀ fr rc, ev ≠ EvSend fr rc) →
  (let '(cancels, e) := h (w_e w) in cancels = false ∧ fl_same (w_e w) e) →
  wpt (callback h ev) (λ _ w', standing c mtu w' ∧ beside w w') w.
Proof.
  intros Hw Hev Hh. apply (standing_by c mtu 0); [done|apply safe_callback|]. pose proof Hw as [_ _ Ep [Ho Hu]].
  unfold callback. apply wp_bind, wp_lift. destruct (h (w_e w)) as [cancels e]. destruct Hh as (-> & Ho' & EL & EV).
  apply wp_ret. split; [done|]. split; [done|]. split; [done|]. split; [done|]. exists [ev]. split; [done|].
  destruct ev; try done. by destruct (Hev frame rc).
Qed.
Lemma smooth_progress i : smooth (callback (hk_on_progress i) (EvProgress i)).
Proof.
  intros c mtu w Hw. apply (callback_smooth c mtu); [done|done|].
  pose proof (fl_progress i _ (proj1 (st_fine _ _ _ Hw))) as Hp. by destruct (hk_on_progress i (w_e w)).
Qed.
Lemma smooth_success : smooth val_internal_record_transmission_success.
Proof.
  apply smooth_upd; [intros; apply safe_record_success| |].
  - intros s. unfold record_transmission_success. by repeat (case_match; try done).
  - intros s. unfold record_transmission_success, undisturbed. by repeat (case_match; try done).
Qed.
Lemma smooth_metrics g : smooth (upd_metrics g).
Proof. apply smooth_upd; [intros; apply safe_upd_metrics|done|done]. Qed.
Lemma smooth_retransmit b : smooth (set_in_retransmit_flag b).
Proof. apply smooth_upd; [intros; apply safe_set_in_retransmit|done|done]. Qed.
Lemma smooth_rtt r : u32_ok r → smooth (val_internal_record_rtt r).
Proof.
  intros Hr. unfold val_internal_record_rtt. intros c mtu w Hw. apply wp_bind, wp_gets.
  destruct (record_rtt r (s_timing (w_s w))) as [t|] eqn:Et; [|by apply smooth_ret].
  pose proof (record_rtt_ok _ _ _ (sok_timing _ (st_ok _ _ _ Hw)) Hr Et).
  eapply (smooth_bind (upd _) _); [|intros _; apply smooth_metrics|done].
  apply smooth_upd; [intros; benign|done|done].
Qed.
(** The rest of a computation after a smooth part. *)
Lemma smooth_then {A B} c mtu (m : M (world E) A) (k : A → M (world E) B) (Q : B → world E → Prop) w :
  smooth m → standing c mtu w → (∀ a w', standing c mtu w' → beside w w' → wpt (k a) Q w') → wpt (mbind m k) Q w.
Proof. intros Hm Hw Hk. apply wp_bind. eapply wp_mono; [by apply Hm|]. intros a w' [Hw' Hb]. by apply Hk. Qed.
End standing.

Ltac smooth_step :=
  lazymatch goal with
  | |- smooth (mbind _ _) => apply smooth_bind; [|intros ?]
  | |- smooth (mret _) => apply smooth_ret
  | |- smooth get_s => apply (smooth_gets (λ s, s))
  | |- smooth (match ?x with _ => _ end) => destruct x
  | |- smooth (let _ := _ in _) => cbv zeta
  | |- smooth (callback (hk_on_progress _) _) => apply smooth_progress
  | |- smooth (val_internal_record_rtt (u32 _)) => apply smooth_rtt, u32_range
  | |- smooth (upd _) => apply smooth_upd; [intros; benign|done|done]
  | |- smooth _ => first [ apply smooth_ticks | apply smooth_operation | apply smooth_success | apply smooth_metrics
                         | apply smooth_retransmit | apply smooth_gets ]
  end.
Ltac smooth_auto := repeat smooth_step.

(** ** Waiting for an acknowledgement that comes *)

Lemma zlen_local `{!BuildOptions} n : 0 <= n → zlen (local_array n) = n.
Proof.
  intros Hn. unfold local_array, zlen. rewrite length_map. fold (zlen (ztake n (stack_junk n ++ repeat 0 (Z.to_nat n)))).
  apply zlen_ztake. rewrite zlen_app. pose proof (zlen_nonneg (stack_junk n)).
  assert (zlen (repeat 0 (Z.to_nat n)) = n) by (unfold zlen; rewrite repeat_length; lia). lia.
Qed.

Section acknowledgement.
Context {E V : Type} `{!Hooks E} `{!StreamLink E} `{!Faultless E V} `{!BuildOptions}.

(** Something was read, and nothing else happened outside. *)
Definition reads (rest : list Z) (w w' : world E) : Prop :=
  view w' = view w ∧ link_in (w_e w') = rest ∧ sends [] w w'.
Lemma reads_beside rest w w1 w2 w3 : beside w w1 → reads rest w1 w2 → beside w2 w3 → reads rest w w3.
Proof.
  intros (V1 & L1 & S1) (V2 & L2 & S2) (V3 & L3 & S3). split; [congruence|]. split; [congruence|].
  eapply sends_none; [done|by eapply sends_none].
Qed.

(** The next packet, for a wait with a buffer of its own. *)
Lemma control_comes fuel c mtu s0 type data off deadline slice scratch rest w :
  standing c mtu w → (∀ l, val_internal_crc32 s0 l = cfg_crc c l) → 0 <= type < 256 →
  type ≠ VAL_PKT_DATA → type ≠ VAL_PKT_CANCEL → 0 <= off < 2 ^ 64 → bytes_ok data → 0 < slice →
  let ct := content_of type data off true in zlen ct <= zlen scratch → zlen ct < 2 ^ 16 → zlen ct <= mtu - 12 →
  link_in (w_e w) = session_frame s0 type data off true ++ rest → (Z.to_nat (zlen (link_in (w_e w))) < fuel)%nat →
  wpt (val_internal_recv_until_deadline fuel deadline slice scratch)
    (λ r w', standing c mtu w' ∧ reads rest w w' ∧
       ∃ sc, r = (VAL_OK, mk_packet type (zlen ct) (seen_offset type off true) [], sc) ∧ (ct ≠ [] → sc = zwrite scratch 0 ct)) w.
Proof.
  intros Hw Hcrc Ht Hd Hcn Ho Hb Hsl ct Hsc H16 Hfit EL Hf.
  unfold val_internal_recv_until_deadline. destruct fuel as [|fuel]; [lia|]. cbn [loop].
  apply wp_bind. unfold recv_slice at 1. apply wp_bind. eapply wp_mono; [by eapply not_cancelled|]. intros cc w0 [-> ->].
  eapply smooth_then; [apply smooth_ticks|done|]. intros now w1 Hw1 B1. cbv zeta. pose proof B1 as (EV1 & L1 & S1).
  set (sl := if _ =? 0 then 1 else _).
  assert (Hsl1 : 0 < sl) by (unfold sl; repeat case_match; lia). clearbody sl.
  apply wp_bind. eapply wp_mono.
  { apply (packet_comes (S fuel) c mtu s0 type data off true DstNull sl rest w1); rewrite ?L1; done. }
  cbv zeta beta. intros r w2 (Hw2 & -> & EV2 & L2 & S2 & Hbuf). cbn [outcome]. cbn [buffered] in Hbuf. fold ct in Hbuf |- *.
  change (dst_cap DstNull =? 0) with true. cbv iota.
  pose proof (decode_content type data off true Ho) as Hdc. cbv zeta in Hdc. fold ct in Hdc. rewrite Hdc.
  change (VAL_OK =? VAL_OK) with true. cbv iota. cbn [pkt_len pkt_type].
  assert (R : reads rest w w2) by (split; [congruence|split; [done|by eapply sends_none]]).
  replace (type =? VAL_PKT_DATA) with false by lia. cbn [negb]. rewrite andb_true_r.
  destruct (negb (zlen scratch =? 0) && (0 <? zlen ct)) eqn:Ec.
  - apply wp_bind, wp_gets. replace (zlen ct <=? zlen scratch) with true by lia. apply wp_ret, wp_ret.
    split; [done|]. split; [done|]. eexists. split; [done|]. intros _. unfold VAL_WIRE_HEADER_SIZE. by rewrite Hbuf.
  - apply wp_ret, wp_ret. split; [done|]. split; [done|]. eexists. split; [done|]. intros Hct. exfalso.
    destruct ct as [|z l]; [done|]. rewrite zlen_cons in *. pose proof (zlen_nonneg l). lia.
Qed.
Lemma ack_comes fuel c mtu type off deadline slice scratch rest w :
  standing c mtu w → is_ack type = true → 0 <= off < 2 ^ 64 → 0 < slice → 4 <= zlen scratch →
  link_in (w_e w) = ctrl_frame c type off ++ rest → (Z.to_nat (zlen (link_in (w_e w))) < fuel)%nat →
  wpt (val_internal_recv_until_deadline fuel deadline slice scratch)
    (λ r w', standing c mtu w' ∧ (∃ n sc, r = (VAL_OK, mk_packet type n off [], sc)) ∧ reads rest w w') w.
Proof.
  intros Hw Ht Ho Hsl Hsc EL Hf. destruct (bare_content_len type off (or_introl Ht)) as [Hlen Hd].
  pose proof (sok_mtu _ (st_ok _ _ _ Hw)) as Hm. rewrite (st_mtu _ _ _ Hw) in Hm. unfold VAL_MIN_PACKET_SIZE in Hm.
  assert (Hty : 0 <= type < 256 ∧ type ≠ VAL_PKT_CANCEL).
  { unfold is_ack in Ht. assert (type = VAL_PKT_DATA_ACK ∨ type = VAL_PKT_DONE_ACK ∨ type = VAL_PKT_EOT_ACK) as Hty by lia.
    by destruct Hty as [->|[->| ->]]. }
  eapply wp_mono; [apply (control_comes fuel c mtu (w_s w) type [] off deadline slice scratch rest w); try done; try lia|].
  - intros l. by rewrite crc_of_cfg, (st_cfg _ _ _ Hw).
  - constructor.
  - rewrite EL. unfold session_frame, ctrl_frame. by rewrite <- (st_cfg _ _ _ Hw).
  - cbv zeta beta. intros r w2 (Hw2 & R & sc & -> & _).
    assert (Eoff : seen_offset type off true = off).
    { unfold seen_offset. replace (type =? VAL_PKT_DATA) with false by lia. by rewrite Ht. }
    rewrite Eoff. eauto.
Qed.

(** A control wait whose answer is there. *)
Lemma answer_comes fuel c mtu s0 type data off timeout_ms retries backoff scratch accept on_timeout rest w :
  standing c mtu w → (∀ l, val_internal_crc32 s0 l = cfg_crc c l) → 0 <= type < 256 →
  type ≠ VAL_PKT_DATA → type ≠ VAL_PKT_CANCEL → type ≠ VAL_PKT_ERROR → 0 <= off < 2 ^ 64 → bytes_ok data →
  let ct := content_of type data off true in zlen ct <= zlen scratch → zlen ct < 2 ^ 16 → zlen ct <= mtu - 12 →
  (∀ n, accept type n = mret 1) →
  link_in (w_e w) = session_frame s0 type data off true ++ rest → (Z.to_nat (zlen (link_in (w_e w))) < fuel)%nat →
  wpt (val_internal_wait_control fuel timeout_ms retries backoff (Some scratch) accept on_timeout)
    (λ r w', standing c mtu w' ∧ reads rest w w' ∧
       ∃ sc, r = (VAL_OK, mk_packet type (zlen ct) (seen_offset type off true) [], sc) ∧ (ct ≠ [] → sc = zwrite scratch 0 ct)) w.
Proof.
  intros Hw Hcrc Ht Hd Hcn Her Ho Hb ct Hsc H16 Hfit Hacc EL Hf. unfold val_internal_wait_control.
  eapply smooth_then; [apply smooth_retransmit|done|]. intros _ w2 Hw2 B2.
  destruct fuel as [|fuel]; [lia|]. cbn [loop].
  apply wp_bind. unfold wait_control_body at 1. apply wp_bind. eapply wp_mono; [by eapply not_cancelled|]. intros cc w3 [-> ->].
  eapply smooth_then; [apply smooth_ticks|done|]. intros t w3 Hw3 B3. cbv zeta. cbn [wt_scratch].
  assert (B : beside w w3) by (by etrans). pose proof B as (_ & L3 & _).
  apply wp_bind. eapply wp_mono; [apply (control_comes (S fuel) c mtu s0 type data off _ 20 scratch rest w3); rewrite ?L3; done|].
  cbv zeta beta. intros r w4 (Hw4 & R4 & sc & -> & Hct). cbn [pkt_type].
  change (VAL_OK =? VAL_ERR_ABORTED) with false. change (VAL_OK =? VAL_OK) with true. cbv iota.
  replace (type =? VAL_PKT_CANCEL) with false by lia. replace (type =? VAL_PKT_ERROR) with false by lia. cbv iota.
  rewrite Hacc. apply wp_bind, wp_ret. change (0 <? 1) with true. cbv iota. apply wp_ret, wp_ret.
  split; [done|]. split; [by eapply reads_beside|]. by exists sc.
Qed.
(** The acknowledgements that are waited for, with the round trip sampled. *)
Lemma final_ack_comes fuel c mtu type off to retries backoff t0 accept on_timeout rest w :
  standing c mtu w → is_ack type = true → 0 <= off < 2 ^ 64 → (∀ n, accept type n = mret 1) →
  link_in (w_e w) = ctrl_frame c type off ++ rest → (Z.to_nat (zlen (link_in (w_e w))) < fuel)%nat →
  wpt (let! ' (st, _, _) := val_internal_wait_control fuel to retries backoff (Some (local_array 32)) accept on_timeout in
       do! sample_rtt st t0 in mret st) (λ st w', standing c mtu w' ∧ st = VAL_OK ∧ reads rest w w') w.
Proof.
  intros Hw Ht Ho Hacc EL Hf. destruct (bare_content_len type off (or_introl Ht)) as [Hlen Hd].
  pose proof (sok_mtu _ (st_ok _ _ _ Hw)) as Hm. rewrite (st_mtu _ _ _ Hw) in Hm. unfold VAL_MIN_PACKET_SIZE in Hm.
  assert (Hty : 0 <= type < 256 ∧ type ≠ VAL_PKT_CANCEL ∧ type ≠ VAL_PKT_ERROR).
  { unfold is_ack in Ht. assert (type = VAL_PKT_DATA_ACK ∨ type = VAL_PKT_DONE_ACK ∨ type = VAL_PKT_EOT_ACK) as Hty by lia.
    by destruct Hty as [->|[->| ->]]. }
  apply wp_bind. eapply wp_mono.
  { apply (answer_comes fuel c mtu (w_s w) type [] off to retries backoff (local_array 32) accept on_timeout rest w);
      rewrite ?zlen_local; try done; try lia.
    - intros l. by rewrite crc_of_cfg, (st_cfg _ _ _ Hw).
    - constructor.
    - rewrite EL. unfold session_frame, ctrl_frame. by rewrite <- (st_cfg _ _ _ Hw). }
  cbv zeta beta. intros r w4 (Hw4 & R4 & sc & -> & _). unfold sample_rtt.
  eapply smooth_then; [smooth_auto|done|]. intros _ w5 Hw5 B5. apply wp_ret. split; [done|]. split; [done|].
  eapply reads_beside; [reflexivity|done|done].
Qed.
Lemma done_ack_comes fuel c mtu off size rest w :
  standing c mtu w → 0 <= off < 2 ^ 64 → link_in (w_e w) = ctrl_frame c VAL_PKT_DONE_ACK off ++ rest →
  (Z.to_nat (zlen (link_in (w_e w))) < fuel)%nat →
  wpt (val_internal_wait_done_ack fuel size) (λ st w', standing c mtu w' ∧ st = VAL_OK ∧ reads rest w w') w.
Proof.
  intros Hw Ho EL Hf. unfold val_internal_wait_done_ack. apply wp_bind, wp_gets, wp_bind, wp_gets.
  eapply smooth_then; [apply smooth_ticks|done|]. intros t0 w1 Hw1 B1. pose proof B1 as (_ & L1 & _).
  eapply wp_mono; [apply (final_ack_comes fuel c mtu VAL_PKT_DONE_ACK off _ _ _ t0 _ _ rest w1); rewrite ?L1; done|].
  intros st w2 (Hw2 & -> & R2). split; [done|]. split; [done|]. eapply reads_beside; [exact B1|exact R2|reflexivity].
Qed.
Lemma eot_ack_comes fuel c mtu off rest w :
  standing c mtu w → 0 <= off < 2 ^ 64 → link_in (w_e w) = ctrl_frame c VAL_PKT_EOT_ACK off ++ rest →
  (Z.to_nat (zlen (link_in (w_e w))) < fuel)%nat →
  wpt (val_internal_wait_eot_ack fuel) (λ st w', standing c mtu w' ∧ st = VAL_OK ∧ reads rest w w') w.
Proof.
  intros Hw Ho EL Hf. unfold val_internal_wait_eot_ack. apply wp_bind, wp_gets, wp_bind, wp_gets.
  eapply smooth_then; [apply smooth_ticks|done|]. intros t0 w1 Hw1 B1. pose proof B1 as (_ & L1 & _).
  eapply wp_mono; [apply (final_ack_comes fuel c mtu VAL_PKT_EOT_ACK off _ _ _ t0 _ _ rest w1); rewrite ?L1; done|].
  intros st w2 (Hw2 & -> & R2). split; [done|]. split; [done|]. eapply reads_beside; [exact B1|exact R2|reflexivity].
Qed.
End acknowledgement.
