(* ===== verification/Assembly.v ===== *)
(** The data phase on a link that delivers: an in-order stream of DATA frames is
    assembled into the file.

    [Delivery] is the environment of a transfer without faults, for the file behind one
    handle: a [Faultless] link, which shows the file, where what the receiver sends
    provokes nothing and writes succeed.  The theorem is total: enough fuel exists and
    the result is what it says, the answers included. *)
From S2P Require Import Prelude ByteOrder Wire Errors Crc Sanitize Timing Session Simulation Window Packet Frame.
From S2P Require Import Control Resume Receiver DataPhase Link.

Class Delivery (E : Type) `{!Hooks E} `{!StreamLink E} (f : handle) := {
  dv_link :: Faultless E (list Z);
  dv_answer fr x : fl_answer fr x = x;
  dv_write d e : fl_ok e → bytes_ok d → let '(rc, e') := hk_fwrite f d e in
    rc = zlen d ∧ fl_ok e' ∧ link_in e' = link_in e ∧ fl_view e' = fl_view e ++ d
}.

Section assembly.
Context {E : Type} `{!Hooks E} `{!StreamLink E} {f : handle} `{!Delivery E f} `{!BuildOptions}.

(** From [w] to [w']: [data] written, [rest] left of the stream, [frs] sent. *)
Definition progressed (data rest : list Z) (frs : list (list Z)) (w w' : world E) : Prop :=
  view w' = view w ++ data ∧ link_in (w_e w') = rest ∧ sends frs w w'.
Lemma progressed_beside w w' : beside w w' → progressed [] (link_in (w_e w)) [] w w'.
Proof. intros (EV & EL & Hs). split; [by rewrite app_nil_r|done]. Qed.
Lemma progressed_trans a b r1 r2 f1 f2 w w1 w2 :
  progressed a r1 f1 w w1 → progressed b r2 f2 w1 w2 → progressed (a ++ b) r2 (f1 ++ f2) w w2.
Proof.
  intros (V1 & _ & S1) (V2 & L2 & S2). split; [by rewrite V2, V1, (assoc_L (++))|]. split; [done|by eapply sends_trans].
Qed.

(** An acknowledgement gets through. *)
Lemma send_ack_ok c mtu type off w : standing c mtu w → is_ack type = true →
  wpt (val_internal_send_packet type PNull 0 off)
    (λ st w', standing c mtu w' ∧ st = VAL_OK ∧ progressed [] (link_in (w_e w)) [ctrl_frame c type off] w w') w.
Proof.
  intros Hw Ht. eapply wp_mono; [apply (send_bare_ok c mtu); [done|by left]|]. intros st w' (Hw' & -> & Eo & Hs).
  rewrite dv_answer in Eo. injection Eo as EL EV. split; [done|]. split; [done|].
  split; [by rewrite app_nil_r|]. split; [done|]. by rewrite <- (st_cfg _ _ _ Hw).
Qed.

(** ** The next packet *)

(** The receiver waits for a packet, and it comes. *)
Definition comes (c : val_config_t) (mtu : Z) (w : world E) (data rest : list Z) (pkt : packet)
    (r : Z + packet) (w' : world E) : Prop :=
  standing c mtu w' ∧ r = inr pkt ∧ progressed [] rest [] w w' ∧ ztake (zlen data) (s_recv_buffer (w_s w')) = data.
Lemma wait_packet fuel fuel' c mtu s0 type data off incl to_ms name path l rest w :
  standing c mtu w → 0 < to_ms → (∀ l, val_internal_crc32 s0 l = cfg_crc c l) →
  link_in (w_e w) = session_frame s0 type data off incl ++ rest →
  0 <= type < 256 → type ≠ VAL_PKT_CANCEL → 0 <= off < 2 ^ 64 → bytes_ok data →
  zlen (content_of type data off incl) < 2 ^ 16 → zlen (content_of type data off incl) <= mtu - 12 →
  (Z.to_nat (zlen (link_in (w_e w))) < fuel')%nat →
  wpt (loop (S fuel) (wait_data_body fuel' f name path mtu to_ms) l)
    (comes c mtu w (seen_payload type data off) rest
       (mk_packet type (zlen (seen_payload type data off)) (seen_offset type off incl) (seen_payload type data off))) w.
Proof.
  intros Hw Hto Hcrc EL Ht Hn Ho Hd H16 Hfit Hfuel. cbn [loop]. apply wp_bind. destruct l as [tries backoff].
  unfold wait_data_body at 1. apply wp_bind. eapply wp_mono; [by apply smooth_operation|].
  intros _ w1 [Hw1 B1]. apply wp_bind. eapply wp_mono; [by eapply healthy|].
  intros h w1' [-> ->]. change (negb (VAL_OK =? VAL_OK)) with false. cbv iota.
  apply wp_bind. eapply wp_mono; [by eapply connected_ok|]. intros cn w2 (Hw2 & -> & B2). cbn [negb].
  apply wp_bind. eapply wp_mono; [by eapply not_cancelled|]. intros cc w2' [-> ->].
  assert (B : beside w w2) by (by etrans). pose proof B as (EV & EL2 & Hs2).
  apply wp_bind. eapply wp_mono; [apply (packet_comes fuel' c mtu s0 type data off incl (DstRecvBuffer mtu) to_ms rest w2);
    rewrite ?EL2; done|]. cbv beta. intros r w3 (Hw3 & -> & EV3 & EL3 & Hs3 & Hbuf).
  pose proof (sok_mtu _ (st_ok _ _ _ Hw)) as Hm. rewrite (st_mtu _ _ _ Hw) in Hm. unfold VAL_MIN_PACKET_SIZE in Hm.
  assert (Hdata : (if explicit_offset type (flags_of type incl) then zdrop 8 (content_of type data off incl)
                   else content_of type data off incl) = seen_payload type data off).
  { rewrite explicit_offset_flags. unfold seen_payload, content_of. destruct (type =? VAL_PKT_DATA); cbn [andb]; [|done].
    destruct incl; [|done]. by apply zdrop_app_exact. }
  assert (Hlen : zlen (seen_payload type data off) <= mtu).
  { rewrite <- Hdata. destruct (explicit_offset _ _); [|lia]. pose proof (zlen_nonneg (content_of type data off incl)).
    unfold zdrop, zlen in *. rewrite length_drop. lia. }
  rewrite outcome_of_packet by (done || (cbn; lia)). change (VAL_OK =? VAL_OK) with true. cbv iota.
  apply wp_ret, wp_ret. split; [done|]. split; [done|]. split.
  - split; [by rewrite app_nil_r, EV3|]. split; [done|by eapply sends_none].
  - cbn in Hbuf. rewrite Hdata in Hbuf. apply Hbuf; lia.
Qed.

(** ** One DATA packet in its place *)

Lemma progress_smooth c mtu name path b start_ms pos w : standing c mtu w →
  wpt (receive_progress f name path b start_ms pos) (λ r w', standing c mtu w' ∧ r = inr tt ∧ beside w w') w.
Proof.
  intros Hw. unfold receive_progress. apply wp_bind, wp_gets.
  destruct (negb _); [apply wp_ret; by split|]. cbv zeta. apply wp_bind. eapply wp_mono; [by apply smooth_ticks|].
  intros t w1 [Hw1 B1]. apply wp_bind. eapply wp_mono.
  { apply (callback_smooth c mtu); [done|done|]. match goal with |- context [hk_on_progress ?i] => pose proof (fl_progress i _ (proj1 (st_fine _ _ _ Hw1))) as Hp end.
    destruct (hk_on_progress _ _). exact Hp. }
  intros _ w2 [Hw2 B2]. apply wp_bind. eapply wp_mono; [by eapply not_cancelled|]. intros cc w2' [-> ->].
  apply wp_ret. split; [done|]. split; [done|by etrans].
Qed.

Lemma ack_and_go c mtu l w : standing c mtu w →
  wpt (let! st2 := val_internal_send_packet VAL_PKT_DATA_ACK PNull 0 (rx_written l) in
       if negb (st2 =? VAL_OK) then do! fs_fclose f in mret (inr (inl st2))
       else mret (inl (mk_rx (rx_written l) (rx_crc_state l) 0)))
    (λ (r : recv_state + (Z + recv_state)) w', standing c mtu w' ∧ r = inl (mk_rx (rx_written l) (rx_crc_state l) 0) ∧
       progressed [] (link_in (w_e w)) [ctrl_frame c VAL_PKT_DATA_ACK (rx_written l)] w w') w.
Proof.
  intros Hw. apply wp_bind. eapply wp_mono; [by apply (send_ack_ok c mtu)|]. intros st w' (Hw' & -> & Hp).
  change (negb (VAL_OK =? VAL_OK)) with false. by apply wp_ret.
Qed.

Lemma handle_data_in_place c mtu name path b start_ms total data off l w :
  standing c mtu w → off = UINT64_MAX ∨ off = rx_written l → rx_pkts_since_ack l = 0 →
  0 <= rx_written l → rx_written l + zlen data < 2 ^ 64 → ztake (zlen data) (s_recv_buffer (w_s w)) = data →
  wpt (handle_data f name path b start_ms total (zlen data) off l)
    (λ r w', standing c mtu w' ∧
       r = inl (mk_rx (rx_written l + zlen data) (val_crc32_update_state (rx_crc_state l) data) 0) ∧
       progressed data (link_in (w_e w)) [ctrl_frame c VAL_PKT_DATA_ACK (rx_written l + zlen data)] w w') w.
Proof.
  intros Hw Hoff Hp H0 Hbig Hbuf. pose proof (zlen_nonneg data). unfold handle_data.
  assert (Heff : (if off =? UINT64_MAX then rx_written l else off) = rx_written l).
  { destruct Hoff as [-> | ->]; [done|]. by destruct (_ =? UINT64_MAX). }
  rewrite Heff, Z.eqb_refl. apply wp_bind, wp_gets. cbv zeta. rewrite Hbuf.
  assert (Hnil : zlen data = 0 → data = []).
  { intros E0. destruct data; [done|]. rewrite zlen_cons in E0. pose proof (zlen_nonneg data). lia. }
  assert (Hwr : wpt (if zlen data =? 0 then mret 0 else fs_fwrite f data)
    (λ rc w', rc = zlen data ∧ standing c mtu w' ∧ progressed data (link_in (w_e w)) [] w w') w).
  { destruct (Z.eqb_spec (zlen data) 0) as [E0|].
    - apply wp_ret. split; [done|]. split; [done|]. rewrite (Hnil E0). by apply progressed_beside.
    - apply wp_lift. destruct Hw as [Hok Hc Hm [Ho Hu]]. 
      assert (Hb : bytes_ok data) by (rewrite <- Hbuf; apply bytes_ok_ztake, (sok_recv_bytes _ Hok)).
      pose proof (dv_write (f:=f) data _ Ho Hb) as Hd.
      unfold progressed, view. destruct (hk_fwrite f data (w_e w)) as [rc e]. destruct Hd as (-> & Ho' & L & F).
      split; [done|]. split; [by constructor|]. split; [done|]. split; [done|by eexists [_]]. }
  apply wp_bind. eapply wp_mono; [exact Hwr|]. intros rc w1 (-> & Hw1 & P1). rewrite Z.eqb_refl. cbn [negb].
  rewrite u64_small by lia.
  assert (Hcrc : (if zlen data =? 0 then rx_crc_state l else val_crc32_update_state (rx_crc_state l) data)
                 = val_crc32_update_state (rx_crc_state l) data).
  { destruct (Z.eqb_spec (zlen data) 0) as [E0|]; [|done]. by rewrite (Hnil E0). }
  rewrite Hcrc. set (l' := mk_rx _ _ _). pose proof P1 as (_ & L1 & _).
  assert (Hend : ∀ w2 w3, beside w1 w2 → progressed [] (link_in (w_e w2)) [ctrl_frame c VAL_PKT_DATA_ACK (rx_written l')] w2 w3 →
    progressed data (link_in (w_e w)) [ctrl_frame c VAL_PKT_DATA_ACK (rx_written l + zlen data)] w w3).
  { intros w2 w3 B2 P3. pose proof (progressed_trans _ _ _ _ _ _ _ _ _ P1 (progressed_trans _ _ _ _ _ _ _ _ _ (progressed_beside _ _ B2) P3)) as P.
    cbn [app] in P. rewrite app_nil_r in P. destruct B2 as (_ & EL2 & _). by rewrite EL2, L1 in P. }
  destruct (total <=? _).
  - eapply wp_mono; [by apply (ack_and_go c mtu l')|]. cbv beta. intros r w2 (Hw2 & -> & P2).
    split; [done|]. split; [done|]. by apply (Hend w1 w2).
  - unfold after_data. apply wp_bind. eapply wp_mono; [by apply (progress_smooth c mtu)|].
    intros r w2 (Hw2 & -> & B2). unfold l' at 1 2 3. cbn [rx_pkts_since_ack]. rewrite Hp.
    change (1 <=? u32 (0 + 1)) with true. rewrite orb_true_r.
    eapply wp_mono; [by apply (ack_and_go c mtu l')|]. cbv beta. intros r w3 (Hw3 & -> & P3).
    split; [done|]. split; [done|]. by apply (Hend w2 w3).
Qed.

(** ** A stream of DATA packets *)

(** What is sent from position [pos] on: payloads, each with or without its offset. *)
Fixpoint data_stream (s0 : val_session_t) (pos : Z) (l : list (list Z * bool)) : list Z :=
  match l with
  | [] => []
  | (d, incl) :: l => session_frame s0 VAL_PKT_DATA d pos incl ++ data_stream s0 (pos + zlen d) l
  end.
(** What is answered. *)
Fixpoint data_acks (c : val_config_t) (pos : Z) (l : list (list Z * bool)) : list (list Z) :=
  match l with
  | [] => []
  | (d, _) :: l => ctrl_frame c VAL_PKT_DATA_ACK (pos + zlen d) :: data_acks c (pos + zlen d) l
  end.
Definition payload (l : list (list Z * bool)) : list Z := concat (map fst l).
Definition piece_ok (mtu : Z) (p : list Z * bool) : Prop :=
  let n := zlen (fst p) + (if snd p then 8 else 0) in bytes_ok (fst p) ∧ n < 2 ^ 16 ∧ n <= mtu - 12.
Lemma zlen_data_content d pos (incl : bool) : zlen (content_of VAL_PKT_DATA d pos incl) = zlen d + (if incl then 8 else 0).
Proof.
  unfold content_of. change (VAL_PKT_DATA =? VAL_PKT_DATA) with true. cbv iota.
  destruct incl; [rewrite zlen_app, zlen_put64|]; lia.
Qed.

Lemma data_turn fuel c mtu s0 name path b start_ms total d incl l rest w :
  standing c mtu w → (∀ l, val_internal_crc32 s0 l = cfg_crc c l) →
  link_in (w_e w) = session_frame s0 VAL_PKT_DATA d (rx_written l) incl ++ rest →
  piece_ok mtu (d, incl) → rx_pkts_since_ack l = 0 → 0 <= rx_written l → rx_written l + zlen d < 2 ^ 64 →
  (Z.to_nat (zlen (link_in (w_e w))) < fuel)%nat →
  wpt (data_body fuel f name path b mtu start_ms total l)
    (λ r w', standing c mtu w' ∧
       r = inl (mk_rx (rx_written l + zlen d) (val_crc32_update_state (rx_crc_state l) d) 0) ∧
       progressed d rest [ctrl_frame c VAL_PKT_DATA_ACK (rx_written l + zlen d)] w w') w.
Proof.
  intros Hw Hcrc EL (Hb & H16 & Hfit) Hp H0 Hbig Hfuel. cbn [fst snd] in *. pose proof (zlen_nonneg d).
  unfold data_body. apply wp_bind, wp_gets, wp_bind, wp_gets, wp_bind.
  pose proof (timeout_of_range (s_timing (w_s w)) VAL_OP_DATA_RECV (sok_timing _ (st_ok _ _ _ Hw))) as Hto.
  destruct fuel as [|fuel]; [lia|].
  eapply wp_mono; [apply (wait_packet fuel (S fuel) c mtu s0 VAL_PKT_DATA d (rx_written l) incl);
    rewrite ?zlen_data_content; done || lia|].
  change (seen_payload VAL_PKT_DATA d (rx_written l)) with d.
  intros r w1 (Hw1 & -> & P1 & Hbuf). unfold handle_packet. cbn [pkt_type pkt_len pkt_off].
  change (VAL_PKT_DATA =? VAL_PKT_DATA) with true. cbv iota.
  eapply wp_mono; [apply (handle_data_in_place c mtu); try done|].
  - unfold seen_offset. change (VAL_PKT_DATA =? VAL_PKT_DATA) with true. destruct incl; [by right|by left].
  - cbv beta. intros r w2 (Hw2 & -> & P2). split; [done|]. split; [done|].
    pose proof P1 as (_ & L1 & _). rewrite L1 in P2. exact (progressed_trans _ _ _ _ _ _ _ _ _ P1 P2).
Qed.

Lemma done_turn fuel c mtu s0 name path b start_ms total size l rest w :
  standing c mtu w → (∀ l, val_internal_crc32 s0 l = cfg_crc c l) →
  link_in (w_e w) = session_frame s0 VAL_PKT_DONE [] size true ++ rest → 0 <= size < 2 ^ 64 →
  (Z.to_nat (zlen (link_in (w_e w))) < fuel)%nat →
  wpt (data_body fuel f name path b mtu start_ms total l)
    (λ r w', standing c mtu w' ∧ r = inr (inr l) ∧
       progressed [] rest [ctrl_frame c VAL_PKT_DONE_ACK (rx_written l)] w w') w.
Proof.
  intros Hw Hcrc EL Hs Hfuel. unfold data_body. apply wp_bind, wp_gets, wp_bind, wp_gets, wp_bind.
  pose proof (timeout_of_range (s_timing (w_s w)) VAL_OP_DATA_RECV (sok_timing _ (st_ok _ _ _ Hw))) as Hto.
  pose proof (sok_mtu _ (st_ok _ _ _ Hw)) as Hm. rewrite (st_mtu _ _ _ Hw) in Hm. unfold VAL_MIN_PACKET_SIZE in Hm.
  destruct fuel as [|fuel]; [lia|].
  eapply wp_mono; [apply (wait_packet fuel (S fuel) c mtu s0 VAL_PKT_DONE [] size true); try done; try lia|].
  - constructor.
  - change (content_of VAL_PKT_DONE [] size true) with (@nil Z). change (zlen (@nil Z)) with 0. lia.
  - intros r w1 (Hw1 & -> & P1 & _). unfold handle_packet, handle_control. cbn [pkt_type].
    change (VAL_PKT_DONE =? VAL_PKT_DATA) with false. change (VAL_PKT_DONE =? VAL_PKT_DONE) with true. cbv iota.
    apply wp_bind. eapply wp_mono; [by apply (send_ack_ok c mtu)|]. intros st w2 (Hw2 & -> & P2).
    change (negb (VAL_OK =? VAL_OK)) with false. apply wp_ret. split; [done|]. split; [done|].
    pose proof P1 as (_ & L1 & _). rewrite L1 in P2. exact (progressed_trans _ _ _ _ _ _ _ _ _ P1 P2).
Qed.

Lemma assemble fuel' c mtu s0 name path b start_ms total size rest : ∀ pieces fuel l w,
  standing c mtu w → (∀ l, val_internal_crc32 s0 l = cfg_crc c l) → Forall (piece_ok mtu) pieces →
  link_in (w_e w) = data_stream s0 (rx_written l) pieces ++ session_frame s0 VAL_PKT_DONE [] size true ++ rest →
  rx_pkts_since_ack l = 0 → 0 <= rx_written l → rx_written l + zlen (payload pieces) < 2 ^ 64 → 0 <= size < 2 ^ 64 →
  (length pieces < fuel)%nat → (Z.to_nat (zlen (link_in (w_e w))) < fuel')%nat →
  wpt (loop fuel (data_body fuel' f name path b mtu start_ms total) l)
    (λ r w', let last := rx_written l + zlen (payload pieces) in
       standing c mtu w' ∧ r = inr (mk_rx last (val_crc32_update_state (rx_crc_state l) (payload pieces)) 0) ∧
       progressed (payload pieces) rest
         (data_acks c (rx_written l) pieces ++ [ctrl_frame c VAL_PKT_DONE_ACK last]) w w') w.
Proof.
  induction pieces as [|[d incl] pieces IH];
    intros fuel l w Hw Hcrc Hp EL Hpk H0 Hbig Hs Hf Hf'; (destruct fuel as [|fuel]; [cbn in Hf; lia|]);
    cbn [loop]; apply wp_bind.
  - eapply wp_mono; [by apply (done_turn fuel' c mtu s0 name path b start_ms total size l rest w)|].
    intros r w1 (Hw1 & -> & P1). apply wp_ret. unfold payload. cbn [map concat data_acks app]. change (zlen (@nil Z)) with 0.
    cbv zeta. rewrite Z.add_0_r. split; [done|]. split; [by destruct l as [? ? ?]; cbn in *; subst|done].
  - apply Forall_cons_1 in Hp as [Hd Hp]. cbn [data_stream] in EL. rewrite <- (assoc_L (++)) in EL.
    unfold payload in *. cbn [map fst concat] in *. rewrite zlen_app in Hbig.
    pose proof (zlen_nonneg (concat (map fst pieces))). pose proof (zlen_nonneg d).
    eapply wp_mono; [eapply (data_turn fuel' c mtu s0 name path b start_ms total d incl l _ w); try exact EL; try done; lia|].
    intros r w1 (Hw1 & -> & P1). cbv beta. pose proof P1 as (_ & L1 & _).
    eapply wp_mono; [apply IH; try done; cbn [rx_written rx_crc_state rx_pkts_since_ack]; try lia|].
    + cbn in Hf. lia.
    + rewrite L1. rewrite EL in Hf'. rewrite zlen_app in Hf'.
      pose proof (zlen_nonneg (session_frame s0 VAL_PKT_DATA d (rx_written l) incl)). lia.
    + cbv beta zeta. cbn [rx_written rx_crc_state]. intros r w2 (Hw2 & -> & P2).
      rewrite zlen_app, crc32_update_app, Z.add_assoc. split; [done|]. split; [done|].
      exact (progressed_trans _ _ _ _ _ _ _ _ _ P1 P2).
Qed.
End assembly.

(** C16: an in-order stream is assembled, always. Whatever a sender cuts a file into -
    any payloads that fit the packet size, each DATA packet with or without its offset -
    if the packets arrive in order, in pieces of any size, and sends and writes succeed,
    then the receiver's data phase terminates at DONE with exactly the payloads appended
    to the file, the position and the running CRC advanced by them, the rest of the
    stream unread and the session intact; it has answered every DATA packet with one
    DATA_ACK of the position behind it, and DONE with a DONE_ACK of the last. *)
Theorem in_order_stream_assembled {E} `{!Hooks E} `{!StreamLink E} {f : handle} `{!Delivery E f} `{!BuildOptions}
    fuel fuel' s0 name path b start_ms total size pieces rest pos crc (w : world E) :
  session_ok (w_s w) → fl_ok (w_e w) → undisturbed (w_s w) →
  (∀ l, val_internal_crc32 s0 l = val_internal_crc32 (w_s w) l) →
  Forall (piece_ok (session_mtu (w_s w))) pieces →
  link_in (w_e w) = data_stream s0 pos pieces ++ session_frame s0 VAL_PKT_DONE [] size true ++ rest →
  0 <= pos → pos + zlen (payload pieces) < 2 ^ 64 → 0 <= size < 2 ^ 64 →
  (length pieces < fuel)%nat → (Z.to_nat (zlen (link_in (w_e w))) < fuel')%nat →
  wpt (loop fuel (data_body fuel' f name path b (session_mtu (w_s w)) start_ms total) (mk_rx pos crc 0))
    (λ r w', let last := pos + zlen (payload pieces) in
       r = inr (mk_rx last (val_crc32_update_state crc (payload pieces)) 0) ∧
       session_ok (w_s w') ∧ fl_ok (w_e w') ∧
       fl_view (w_e w') = fl_view (w_e w) ++ payload pieces ∧ link_in (w_e w') = rest ∧
       sends (data_acks (s_cfg (w_s w)) pos pieces ++ [ctrl_frame (s_cfg (w_s w)) VAL_PKT_DONE_ACK last]) w w') w.
Proof.
  intros Hok Ho Hu Hcrc Hp EL H0 Hbig Hs Hf Hf'. pose proof (session_mtu_ok _ Hok) as Em.
  eapply wp_mono; [apply (assemble (f:=f) fuel' (s_cfg (w_s w)) (session_mtu (w_s w)) s0 name path b start_ms total size rest
                            pieces fuel (mk_rx pos crc 0) w); try done; by constructor|].
  cbv beta zeta. intros r w' ([Hok' _ _ [Ho' _]] & -> & F & L & S). done.
Qed.

(** ** The simulated environment delivers *)

Section sim.
Context (f : handle).

(** The file is open at its end. *)
Definition sim_sink (e : sim) : Prop :=
  sim_ok e ∧ 0 <= f < zlen (sim_open e) ∧ snd (fst (sim_get f e)) = zlen (sim_content (fst (fst (sim_get f e))) e).
Definition sim_file (e : sim) : list Z := sim_content (fst (fst (sim_get f e))) e.

Lemma sim_sink_same e e' : sim_sink e → sim_in e' = sim_in e → sim_files e' = sim_files e → sim_open e' = sim_open e →
  sim_sink e' ∧ link_in e' = link_in e ∧ sim_file e' = sim_file e.
Proof. destruct e, e'. cbn. by intros ? -> -> ->. Qed.
Lemma sim_recv_ok n t e : sim_ok e → let e' := snd (sim_recv n t e) in
  sim_ok e' ∧ sim_files e' = sim_files e ∧ sim_open e' = sim_open e.
Proof.
  intros Hok. destruct e as [[|[d|ms] l] now fs op]; unfold sim_recv; cbn [sim_in].
  - done.
  - unfold sim_ok in Hok. cbn in Hok. apply Forall_cons_1 in Hok as [[Hd Hb] Hl].
    destruct (Z.leb_spec (zlen d) n); [done|]. split; [|done]. unfold sim_ok. cbn.
    constructor; [|done]. split; [|by apply bytes_ok_zdrop]. intros E0. unfold zdrop in E0.
    apply (f_equal length) in E0. rewrite length_drop in E0. unfold zlen in *.
    destruct d; [done|]. cbn [length] in *. lia.
  - unfold sim_ok in Hok. cbn in Hok. apply Forall_cons_1 in Hok as [_ Hl].
    destruct (ms <=? Z.max 1 t); [done|]. split; [|done]. by constructor.
Qed.
Lemma sim_recv_sink n t e : sim_sink e →
  sim_sink (snd (sim_recv n t e)) ∧ sim_file (snd (sim_recv n t e)) = sim_file e.
Proof.
  intros (Hok & Hf & Hp). pose proof (sim_recv_ok n t e Hok) as (Hok' & Ef & Eo). unfold sim_sink, sim_file, sim_get, sim_content.
  by rewrite Ef, Eo.
Qed.

(** What [sim_store] leaves of the store. *)
Lemma sim_content_store p d e : sim_content p (sim_store p d e) = d.
Proof. unfold sim_content, sim_store. cbn. by rewrite decide_True by done. Qed.
Lemma sim_write_sink d e : sim_sink e →
  let '(rc, e') := sim_fwrite f d e in
  rc = zlen d ∧ sim_sink e' ∧ sim_pending (sim_in e') = sim_pending (sim_in e) ∧ sim_file e' = sim_file e ++ d.
Proof.
  intros (Hok & Hf & Hp). unfold sim_fwrite, sim_sink, sim_file in *.
  destruct (sim_get f e) as [[p pos] m] eqn:Eg. cbn [fst snd] in *. subst pos.
  set (old := sim_content p e). assert (Ew : zwrite old (zlen old) d = old ++ d).
  { pose proof (zwrite_app_r old [] 0 d) as Hw. rewrite app_nil_r, Z.add_0_r in Hw. rewrite Hw by done.
    rewrite zwrite_0. unfold zdrop. rewrite drop_nil. by rewrite app_nil_r. }
  rewrite Ew. set (e1 := sim_store p (old ++ d) e).
  assert (Eg1 : sim_get f e1 = (p, zlen old, m)) by exact Eg.
  assert (Hseek : sim_get f (sim_seek f (zlen old + zlen d) e1) = (p, zlen old + zlen d, m)).
  { rewrite sim_seek_get by done. by rewrite Eg1. }
  split; [done|]. split; [split; [exact Hok|split]|split; [done|]].
  - cbn. unfold zlen in *. by rewrite length_insert.
  - rewrite Hseek. cbn [fst snd].
    transitivity (zlen (sim_content p e1)); [unfold e1; by rewrite sim_content_store, zlen_app|done].
  - rewrite Hseek. cbn [fst snd]. transitivity (sim_content p e1); [done|]. unfold e1. by rewrite sim_content_store.
Qed.

#[export] Program Instance sim_delivery : Delivery sim f := {|
  dv_link := {| fl_ok := sim_sink; fl_view := sim_file; fl_answer _ x := x |}
|}.
Next Obligation. by intros e []. Qed.
Next Obligation. intros n t e. apply sim_recv_sink. Qed.
Next Obligation. done. Qed.
Next Obligation. done. Qed.
Next Obligation. done. Qed.
Next Obligation. done. Qed.
Next Obligation. done. Qed.
Next Obligation. done. Qed.
Next Obligation. done. Qed.
Next Obligation. intros d e He _. by apply sim_write_sink. Qed.
End sim.

(** Three packets, the middle one without an offset, cut at odd places, for a file that
    holds two bytes already. *)
Definition demo_pieces : list (list Z * bool) := [([65; 66; 67], true); ([], false); ([68; 69], false)].
Definition demo_stream : list Z :=
  data_stream (E:=sim) demo_s 2 demo_pieces ++ session_frame (E:=sim) demo_s VAL_PKT_DONE [] 7 true ++ [9].
Definition demo_sink : sim :=
  mk_sim [Bytes (ztake 11 demo_stream); Bytes (zdrop 11 demo_stream)] 1000 [([102], [1; 2])] [([102], 2, ModeAppend)].
Lemma in_order_stream_assembled_witness :
  wpt (loop 4 (data_body 100 0 [102] [] (mk_batch 0 0) 512 1000 7) (mk_rx 2 val_crc32_init_state 0))
    (λ r w', (∃ crc, r = inr (mk_rx 7 crc 0)) ∧ sim_file 0 (w_e w') = [1; 2; 65; 66; 67; 68; 69] ∧
             sim_pending (sim_in (w_e w')) = [9]) (sim_world demo_s demo_sink).
Proof.
  eapply wp_mono; [apply (in_order_stream_assembled (f:=0) 4 100 demo_s [102] [] (mk_batch 0 0) 1000 7 7 demo_pieces [9] 2
                     val_crc32_init_state (sim_world demo_s demo_sink))|].
  - exact demo_s_ok.
  - assert (Hb : bytes_ok demo_stream) by (vm_compute; repeat constructor; discriminate).
    split; [|split; [by split; vm_compute|reflexivity]]. unfold sim_ok. cbn [sim_in w_e sim_world demo_sink].
    constructor; [split; [by vm_compute|by apply bytes_ok_ztake]|].
    constructor; [split; [by vm_compute|by apply bytes_ok_zdrop]|constructor].
  - split; [vm_compute; discriminate|by vm_compute].
  - reflexivity.
  - vm_compute. repeat (constructor; [split; [repeat constructor; discriminate|split; [reflexivity|discriminate]]|]).
    constructor.
  - vm_compute. reflexivity.
  - lia.
  - by vm_compute.
  - lia.
  - cbn. lia.
  - vm_compute. lia.
  - cbv beta. intros r w' (-> & _ & _ & Hfile & Hrest & _). split; [eexists; reflexivity|].
    split; [exact Hfile|exact Hrest].
Defined.
