(* ===== verification/Windows.v ===== *)
(** The sender's data phase against a receiver that answers ([src/val_sender.c]:
    the window loops of [send_file_data_adaptive]), and with [Assembly] the transfer of
    an arbitrary file.

    [HonestPeer] is the other end as [Assembly] proves it to be: it answers a DATA packet
    at its position with a DATA_ACK of the position behind it and DONE with a DONE_ACK. *)
From S2P Require Import Prelude ByteOrder Wire Errors Crc Sanitize Timing Session Simulation Window Packet Frame.
From S2P Require Import Control Resume Sender Receiver DataPhase Link Assembly Peer.

(** The peer's position, and the file as the sender has it open. *)
Record desk := mk_desk { dk_peer : Z; dk_data : list Z; dk_pos : Z }.

Class HonestPeer (E : Type) `{!Hooks E} `{!StreamLink E} `{!FileStore E} (f : handle) := {
  hp_link :: Faultless E desk;
  hp_crc : list Z → Z;
  hp_file e : fl_ok e → fs_ok f e ∧ dk_data (fl_view e) = fs_data f e ∧ dk_pos (fl_view e) = fs_pos f e;
  hp_read n e : fl_ok e → 0 <= n → let e' := snd (hk_fread f n e) in
    fl_ok e' ∧ link_in e' = link_in e ∧ dk_peer (fl_view e') = dk_peer (fl_view e);
  hp_data d off incl L v : bytes_ok d → 0 <= off < 2 ^ 64 → (incl = true → off = dk_peer v) →
    fl_answer (packet_frame hp_crc VAL_PKT_DATA d off incl) (L, v) =
    (L ++ packet_frame hp_crc VAL_PKT_DATA_ACK [] (dk_peer v + zlen d) true,
     mk_desk (dk_peer v + zlen d) (dk_data v) (dk_pos v));
  hp_done off L v :
    fl_answer (packet_frame hp_crc VAL_PKT_DONE [] off true) (L, v) =
    (L ++ packet_frame hp_crc VAL_PKT_DONE_ACK [] (dk_peer v) true, v);
  hp_start n p s o e : fl_ok e →
    fst (hk_on_file_start n p s o e) = false ∧ fl_same e (snd (hk_on_file_start n p s o e));
  hp_complete n p r e : fst (hk_on_file_complete n p r e) = false
}.

(** The frames of a stream of pieces: [data_stream] is their concatenation. *)
Fixpoint data_frames (c : list Z → Z) (pos : Z) (l : list (list Z * bool)) : list (list Z) :=
  match l with
  | [] => []
  | (d, incl) :: l => packet_frame c VAL_PKT_DATA d pos incl :: data_frames c (pos + zlen d) l
  end.
Lemma payload_app a b : payload (a ++ b) = payload a ++ payload b.
Proof. unfold payload. by rewrite map_app, concat_app. Qed.
Lemma data_frames_app c pos a b :
  data_frames c pos (a ++ b) = data_frames c pos a ++ data_frames c (pos + zlen (payload a)) b.
Proof.
  revert pos. induction a as [|[d incl] a IH]; intros pos; cbn.
  - by rewrite Z.add_0_r.
  - unfold payload in *. cbn. rewrite IH, zlen_app. by rewrite Z.add_assoc.
Qed.
Lemma data_frames_ext crc crc' pos ps : (∀ l, crc l = crc' l) → data_frames crc pos ps = data_frames crc' pos ps.
Proof.
  intros Hc. revert pos. induction ps as [|[d incl] ps IH]; intros pos; [done|]. cbn [data_frames].
  by rewrite IH, (packet_frame_ext crc crc').
Qed.
Lemma data_frames_bytes crc mtu pos l : Forall (piece_ok mtu) l → bytes_ok (concat (data_frames crc pos l)).
Proof.
  intros Hl. revert pos. induction Hl as [|[d incl] l [Hd _] _ IH]; intros pos; [constructor|]. cbn [data_frames concat].
  apply bytes_ok_app. split; [by apply packet_frame_bytes|apply IH].
Qed.
Lemma data_acks_app {E} `{!Hooks E} c pos a b :
  data_acks c pos (a ++ b) = data_acks c pos a ++ data_acks c (pos + zlen (payload a)) b.
Proof.
  revert pos. induction a as [|[d incl] a IH]; intros pos; cbn.
  - by rewrite Z.add_0_r.
  - unfold payload in *. cbn. rewrite IH, zlen_app. by rewrite Z.add_assoc.
Qed.
Lemma concat_data_frames {E} `{!Hooks E} (s0 : val_session_t) pos l :
  concat (data_frames (val_internal_crc32 s0) pos l) = data_stream s0 pos l.
Proof. revert pos. induction l as [|[d incl] l IH]; intros pos; cbn; [done|]. by rewrite IH. Qed.

Section windows.
Context {E : Type} `{!Hooks E} `{!StreamLink E} `{!FileStore E} {f : handle} `{!HonestPeer E f} `{!BuildOptions}.
Context {c : val_config_t} {mtu : Z} {data : list Z} {size : Z}.
Context (Hcrc : ∀ l, cfg_crc c l = hp_crc (f:=f) l) (Hmtu : mtu < 2 ^ 16 + 12).
Context (Hsize : size <= zlen data) (Hbig : size < 2 ^ 63).

(** ** One packet *)

(** The sender between two packets: everything up to [next] is sent, read and taken. *)
Definition level (next : Z) (w : world E) : Prop := standing c mtu w ∧ view w = mk_desk next data next.

Lemma read_level next n w : level next w → 0 <= next → 0 <= n → next + n <= size →
  let e' := snd (hk_fread f n (w_e w)) in
  fl_ok e' ∧ link_in e' = link_in (w_e w) ∧ fl_view e' = mk_desk next data (next + n).
Proof.
  intros [Hw Hv] Hn0 Hn Hfit e'. pose proof (proj1 (st_fine _ _ _ Hw)) as Ho. unfold view in Hv.
  destruct (hp_file (f:=f) _ Ho) as (Hf & Ed & Ep). rewrite Hv in Ed, Ep. cbn in Ed, Ep.
  destruct (hp_read (f:=f) n _ Ho Hn) as (Ho' & EL & Epeer). fold e' in Ho', EL, Epeer. rewrite Hv in Epeer.
  pose proof (fs_read_law f n (w_e w) Hf ltac:(lia) Hn) as Hr. unfold e' in *.
  destruct (hk_fread f n (w_e w)) as [got e2]. destruct Hr as (-> & _ & Ep2 & Ed2). cbn [snd] in *.
  destruct (hp_file (f:=f) _ Ho') as (_ & Ed3 & Ep3). rewrite zlen_zslice in Ep2 by (rewrite <- ?Ed; lia).
  split; [done|]. split; [done|]. destruct (fl_view e2) as [a b p]. cbn in *. congruence.
Qed.

Lemma data_packet_goes fuel incl l w :
  level (ss_next_to_send l) w → ss_cursor l = ss_next_to_send l → 0 <= ss_next_to_send l < size → (2 <= fuel)%nat →
  let next := ss_next_to_send l in
  let n := payload_len mtu size next incl in
  let d := zslice data next n in
  wpt (send_data_packet fuel f (mtu - 12) size incl l)
    (λ r w', r = (VAL_OK, l <| ss_cursor := next + n |> <| ss_next_to_send := next + n |>
                            <| ss_inflight := u32 (ss_inflight l + 1) |>) ∧
       level (next + n) w' ∧ link_in (w_e w') = link_in (w_e w) ++ ctrl_frame c VAL_PKT_DATA_ACK (next + n) ∧
       sends [packet_frame (cfg_crc c) VAL_PKT_DATA d next incl] w w') w.
Proof.
  intros Hlv Hcur Hnext Hfuel next n d. pose proof Hlv as [Hw Hv]. pose proof Hw as [Hok Hc Hm [Ho Hu]].
  destruct (hp_file (f:=f) _ Ho) as (Hf & Ed & Ep). unfold view in Hv. rewrite Hv in Ed, Ep. cbn in Ed, Ep.
  assert (Em : session_mtu (w_s w) = mtu) by (rewrite session_mtu_ok; done).
  pose proof (session_mtu_range _ Hok) as Hr. rewrite Em in Hr.
  assert (Hn : 0 < n ∧ next + n <= size) by (unfold n, payload_len; fold next; destruct incl; lia).
  pose proof (λ Q, send_data_rule fuel f size incl l w Q Hok Hf Hfuel) as Hrule. rewrite Em in Hrule.
  apply Hrule; [congruence|done|by rewrite <- Ed|done|].
  cbv zeta. fold next n. rewrite <- Ed. fold d. intros w2 St2 [b Eb] Hpd (evs & Etr & Hev) He.
  destruct (read_level next n w Hlv ltac:(lia) ltac:(lia) ltac:(lia)) as (Ho2 & EL2 & EV2).
  rewrite <- He in Ho2, EL2, EV2 by done.
  assert (Hw2 : standing c mtu w2).
  { destruct St2 as (Hok2 & Ec2 & _). constructor; [done|congruence|by rewrite Eb|]. split; [done|by rewrite Eb]. }
  assert (Hev2 : frames_of evs = []).
  { clear -Hev. induction Hev as [|ev evs Hio _ IH]; [done|]. by destruct ev. }
  assert (Hs2 : sends [] w w2) by (exists evs; by rewrite Hev2).
  destruct (zlen_payload_data _ _ _ _ Hpd) as [_ Hzd].
  destruct (data_room _ mtu size next incl d (st_ok _ _ _ Hw2) ltac:(by rewrite session_mtu_ok, (st_mtu _ _ _ Hw2) by apply Hw2)
    ltac:(lia) Hzd) as (Hct & Hfit & Hroom). fold n in Hct, Hfit, Hroom.
  assert (Hbd : bytes_ok d) by (apply bytes_ok_zslice; rewrite Ed; apply (fs_bytes f _ Hf)).
  eapply wp_mono; [apply (send_ok c mtu VAL_PKT_DATA PContent n next incl d w2); try done; try lia|].
  { apply (safe_data_frame n next incl mtu); [lia|rewrite <- Hc; lia|lia]. }
  cbv beta. intros st w3 (Hw3 & -> & Eo & Hs3). rewrite Z.eqb_refl.
  assert (Hframe : session_frame (w_s w2) VAL_PKT_DATA d next incl = packet_frame (cfg_crc c) VAL_PKT_DATA d next incl).
  { by rewrite <- (st_cfg _ _ _ Hw2). }
  rewrite Hframe in Eo, Hs3. unfold outside, view in Eo. rewrite EL2, EV2 in Eo.
  rewrite (packet_frame_ext _ _ _ _ _ _ Hcrc), hp_data in Eo by (done || lia).
  cbn [dk_peer dk_data dk_pos] in Eo. rewrite Hzd in Eo. pose proof (f_equal fst Eo) as EL3. pose proof (f_equal snd Eo) as EV3.
  cbn [fst snd] in EL3, EV3. split; [done|]. split; [by split|]. split; [|by eapply sends_none].
  rewrite EL3. unfold ctrl_frame. by rewrite (packet_frame_ext _ _ _ _ _ _ Hcrc).
Qed.

(** ** Filling the window *)

Definition real_piece (p : list Z * bool) : Prop := piece_ok mtu p ∧ fst p ≠ [].
(** From [l0] in [w0], [ps] went out and their acknowledgements are waiting. *)
Record filled (l0 : send_state) (w0 : world E) (ps : list (list Z * bool)) (l : send_state) (w : world E) : Prop := {
  fd_level : level (ss_next_to_send l) w;
  fd_link : link_in (w_e w) = concat (data_acks c (ss_last_acked l0) ps);
  fd_sent : sends (data_frames (cfg_crc c) (ss_last_acked l0) ps) w0 w;
  fd_pieces : Forall real_piece ps;
  fd_payload : payload ps = zslice data (ss_last_acked l0) (ss_next_to_send l - ss_last_acked l0);
  fd_next : ss_last_acked l0 <= ss_next_to_send l <= size;
  fd_count : ps = [] → ss_inflight l = 0;
  fd_cursor : ss_cursor l = ss_next_to_send l;
  fd_acked : ss_last_acked l = ss_last_acked l0;
  fd_win : ss_win l = ss_win l0
}.
Lemma filled_length l0 w0 ps l w : 0 <= ss_last_acked l0 → filled l0 w0 ps l w →
  ss_last_acked l0 + zlen (payload ps) = ss_next_to_send l.
Proof. intros H0 Hf. rewrite (fd_payload _ _ _ _ _ Hf). pose proof (fd_next _ _ _ _ _ Hf). rewrite zlen_zslice; lia. Qed.

(** One more packet. *)
Lemma filled_more fuel incl l0 w0 ps l w : filled l0 w0 ps l w → 0 <= ss_last_acked l0 → ss_next_to_send l < size → (2 <= fuel)%nat →
  wpt (send_data_packet fuel f (mtu - 12) size incl l)
    (λ r w', ∃ ps' l', r = (VAL_OK, l') ∧ filled l0 w0 ps' l' w' ∧ ss_next_to_send l < ss_next_to_send l') w.
Proof.
  intros Hfd H0 Hlt Hfuel. pose proof Hfd as [Hlv EL Hs Hp Epay Hn Hct Hcur Hac Hwin].
  pose proof (filled_length _ _ _ _ _ H0 Hfd) as Hlen.
  pose proof Hlv as [Hw _]. pose proof (sok_mtu _ (st_ok _ _ _ Hw)) as Hm. rewrite (st_mtu _ _ _ Hw) in Hm.
  unfold VAL_MIN_PACKET_SIZE in Hm. set (next := ss_next_to_send l) in *. set (base := ss_last_acked l0) in *.
  eapply wp_mono; [apply (data_packet_goes fuel incl l w); try done; fold next; lia|]. cbv zeta. fold next.
  set (n := payload_len mtu size next incl). set (d := zslice data next n). intros r w' (-> & Hlv' & EL' & Hs').
  assert (Hn' : 0 < n <= mtu - 12 - (if incl then 8 else 0) ∧ next + n <= size)
    by (unfold n, payload_len; destruct incl; lia).
  assert (Hd : zlen d = n) by (unfold d; apply zlen_zslice; lia).
  exists (ps ++ [(d, incl)]). eexists. split; [done|].
  destruct Hlv as [[_ _ _ [Ho _]] Hv]. destruct (hp_file (f:=f) _ Ho) as (Hf & Ed & _). unfold view in Hv. rewrite Hv in Ed. cbn in Ed.
  split; [|cbn; lia]. constructor; cbn [ss_next_to_send set_field set_ss_next_to_send set_ss_inflight set_ss_cursor]; try done.
  - rewrite EL', EL, data_acks_app, concat_app. f_equal. fold base. rewrite Hlen. cbn. by rewrite Hd, app_nil_r.
  - rewrite data_frames_app. fold base. rewrite Hlen. by eapply sends_trans.
  - apply Forall_app. split; [done|]. apply Forall_cons_2; [|constructor]. split.
    + split; [unfold d; apply bytes_ok_zslice; rewrite Ed; apply (fs_bytes f _ Hf)|]. cbn [fst snd]. rewrite Hd. destruct incl; lia.
    + cbn [fst]. intros Ed0. rewrite Ed0 in Hd. change (zlen (@nil Z)) with 0 in Hd. lia.
  - rewrite payload_app, Epay. unfold payload. cbn [map fst concat]. rewrite app_nil_r. unfold d.
    replace next with (base + (next - base)) at 2 by lia. rewrite zslice_add by lia. f_equal. cbn. lia.
  - cbn. lia.
  - intros E0. by apply app_eq_nil in E0 as [_ ?].
Qed.
Lemma window_filled fuel fuel' name path l0 w0 :
  level (ss_last_acked l0) w0 → link_in (w_e w0) = [] → ss_next_to_send l0 = ss_last_acked l0 →
  ss_cursor l0 = ss_last_acked l0 → ss_inflight l0 = 0 → 1 <= ss_win l0 → 0 <= ss_last_acked l0 < size →
  (2 <= fuel')%nat → size - ss_last_acked l0 < Z.of_nat fuel →
  wpt (loop fuel (fill_window_body fuel' f name path size (mtu - 12)) l0)
    (λ r w', ∃ ps l, r = inr l ∧ ps ≠ [] ∧ filled l0 w0 ps l w') w0.
Proof.
  intros Hlv EL En Ec Ei Hwin Hb Hf' Hf.
  apply (wp_loop False (λ l w, ∃ ps, filled l0 w0 ps l w) (λ l _, Z.to_nat (size - ss_next_to_send l))).
  2:{ exists []. constructor; try done; try congruence; rewrite ?En; try lia; [apply sends_refl|].
      by rewrite Z.sub_diag. }
  2:{ right. rewrite En. lia. }
  intros l w [ps Hfd]. unfold fill_window_body. pose proof Hfd as [[Hw _] _ _ _ _ Hn Hct Hcur Hac Hw0].
  destruct (_ && _) eqn:Eb.
  - apply andb_prop in Eb as [_ Hlt%Z.ltb_lt]. apply wp_bind. eapply wp_mono; [by eapply not_cancelled|]. intros cc w1 [-> ->].
    cbv zeta. apply wp_bind. eapply wp_mono; [apply (filled_more fuel' _ l0 w0 ps l w); try done; lia|].
    intros r w2 (ps' & l' & -> & Hfd' & Hmore). change (negb (VAL_OK =? VAL_OK)) with false. apply wp_ret.
    split; [by exists ps'|]. right. pose proof (fd_next _ _ _ _ _ Hfd'). lia.
  - apply wp_ret. exists ps, l. split; [done|]. split; [|done]. intros ->. specialize (Hct eq_refl).
    pose proof (filled_length _ _ _ _ _ (proj1 Hb) Hfd) as Hlen. unfold payload in Hlen. cbn in Hlen.
    change (zlen (@nil Z)) with 0 in Hlen. apply andb_false_iff in Eb as [?%Z.ltb_ge|?%Z.ltb_ge]; lia.
Qed.

(** ** Waiting for the window's acknowledgement *)

Lemma smooth_emit_progress ctx n b force : smooth (val_emit_progress_sender ctx n b force).
Proof. unfold val_emit_progress_sender. smooth_auto. Qed.

(** What one acknowledgement changes of the shared variables. *)
Record advanced (off : Z) (l l' : send_state) : Prop := {
  ad_acked : ss_last_acked l' = off;
  ad_next : ss_next_to_send l' = ss_next_to_send l;
  ad_cursor : ss_cursor l' = ss_cursor l;
  ad_win : ss_win l' = ss_win l;
  ad_inflight : off = ss_next_to_send l → ss_inflight l' = 0
}.
Lemma ack_turn fuel a off rest l w :
  standing c mtu w → ac_max_payload a = mtu - 12 → ss_last_acked l < off < 2 ^ 64 → 0 <= ss_last_acked l →
  link_in (w_e w) = ctrl_frame c VAL_PKT_DATA_ACK off ++ rest → (Z.to_nat (zlen (link_in (w_e w))) < fuel)%nat →
  wpt (window_ack_body fuel a l)
    (λ r w', standing c mtu w' ∧ reads rest w w' ∧
       ∃ l', advanced off l l' ∧ r = if off <? ac_target_ack a then inl l' else inr (VAL_OK, false, l')) w.
Proof.
  intros Hw Hmp Hoff H0 EL Hf. unfold window_ack_body. apply wp_bind.
  eapply wp_mono; [by eapply not_cancelled|]. intros cc w0 [-> ->].
  eapply smooth_then; [apply smooth_ticks|done|]. intros now w1 Hw1 B1. cbv zeta. pose proof B1 as (_ & L1 & _).
  apply wp_bind. eapply wp_mono.
  { apply (ack_comes fuel c mtu VAL_PKT_DATA_ACK off _ 5 (local_array 32) rest w1); rewrite ?L1, ?zlen_local; try done; lia. }
  intros r w2 (Hw2 & (n & sc & ->) & R2). rewrite Z.eqb_refl. cbn [pkt_type pkt_off].
  change (VAL_PKT_DATA_ACK =? VAL_PKT_CANCEL) with false. change (VAL_PKT_DATA_ACK =? VAL_PKT_DATA_NAK) with false.
  change (VAL_PKT_DATA_ACK =? VAL_PKT_DATA_ACK) with true. cbv iota. unfold window_ack_ack.
  eapply smooth_then; [apply smooth_ticks|done|]. intros now2 w3 Hw3 B3.
  eapply smooth_then; [smooth_auto|done|]. intros _ w4 Hw4 B4. apply wp_bind, wp_gets.
  eapply smooth_then; [smooth_auto|done|]. intros _ w5 Hw5 B5.
  cbn [ss_last_acked set_field set_ss_grace]. replace (off <=? ss_last_acked l) with false by lia.
  unfold window_ack_advance. apply wp_bind, wp_gets.
  eapply smooth_then; [smooth_auto|done|]. intros _ w6 Hw6 B6.
  eapply smooth_then; [smooth_auto|done|]. intros _ w7 Hw7 B7.
  eapply smooth_then; [apply smooth_emit_progress|done|]. intros p w8 Hw8 B8. apply wp_bind.
  eapply wp_mono; [by eapply not_cancelled|]. intros cc w9 [-> ->].
  eapply smooth_then; [apply smooth_ticks|done|]. intros now9 w9 Hw9 B9.
  eapply smooth_then; [apply smooth_retransmit|done|]. intros _ w10 Hw10 B10. cbv zeta.
  assert (R : reads rest w w10).
  { eapply reads_beside; [exact B1|exact R2|]. repeat (etrans; [eassumption|]). reflexivity. }
  match goal with |- context [inl ?x] => set (l' := x) end.
  assert (Had : advanced off l l').
  { constructor; try done. intros Eoff. unfold l'. cbn. rewrite Eoff, Z.ltb_irrefl, Hmp.
    pose proof (sok_mtu _ (st_ok _ _ _ Hw)) as Hm. rewrite (st_mtu _ _ _ Hw) in Hm. unfold VAL_MIN_PACKET_SIZE in Hm.
    rewrite u64_small by lia. rewrite Z.div_small by lia. done. }
  change (ss_last_acked l') with off.
  destruct (off <? ac_target_ack a); apply wp_ret; (split; [done|split; [done|eauto]]).
Qed.

(** The acknowledgements of a whole window. *)
Lemma wait_acks fuel' a : ac_max_payload a = mtu - 12 → ac_target_ack a < 2 ^ 64 → ∀ ps fuel l w,
  standing c mtu w → ps ≠ [] → Forall real_piece ps → 0 <= ss_last_acked l →
  ss_last_acked l + zlen (payload ps) = ac_target_ack a → ss_next_to_send l = ac_target_ack a →
  link_in (w_e w) = concat (data_acks c (ss_last_acked l) ps) →
  (Z.to_nat (zlen (link_in (w_e w))) < fuel')%nat → (length ps <= fuel)%nat →
  wpt (loop fuel (window_ack_body fuel' a) l)
    (λ r w', standing c mtu w' ∧ reads [] w w' ∧ ∃ l', advanced (ac_target_ack a) l l' ∧ r = (VAL_OK, false, l')) w.
Proof.
  intros Hmp Htgt. induction ps as [|[d incl] ps IH]; [done|]. intros fuel l w Hw _ Hp H0 Epay En EL Hf' Hf.
  apply Forall_cons_1 in Hp as [[_ Hd] Hp]. cbn [fst] in Hd. unfold payload in Epay. cbn [map fst concat] in Epay. rewrite zlen_app in Epay.
  fold (payload ps) in Epay. pose proof (zlen_nonneg (payload ps)).
  assert (Hd0 : 0 < zlen d) by (destruct d; [done|rewrite zlen_cons; pose proof (zlen_nonneg d); lia]).
  destruct fuel as [|fuel]; [cbn in Hf; lia|]. cbn [loop]. apply wp_bind.
  eapply wp_mono; [by apply (ack_turn fuel' a (ss_last_acked l + zlen d) (concat (data_acks c (ss_last_acked l + zlen d) ps)) l w); try done; lia|].
  intros r w1 (Hw1 & (V1 & L1 & S1) & l1 & Had & ->). pose proof Had as [Ea En1 Ec Ewin Ein].
  destruct ps as [|p ps].
  - change (zlen (payload [])) with 0 in Epay. replace (_ <? _) with false by lia. apply wp_ret. split; [done|].
    split; [done|]. exists l1. split; [|done]. by replace (ac_target_ack a) with (ss_last_acked l + zlen d) by lia.
  - assert (Hpos : 0 < zlen (payload (p :: ps))).
    { apply Forall_cons_1 in Hp as [[_ Hp1] _]. unfold payload. cbn [map concat]. rewrite zlen_app.
      pose proof (zlen_nonneg (concat (map fst ps))).
      destruct (fst p) as [|z p']; [done|]. rewrite zlen_cons. pose proof (zlen_nonneg p'). lia. }
    replace (_ <? _) with true by lia. eapply wp_mono; [apply IH; try done; try (rewrite ?Ea, ?En1; lia)|].
    + by rewrite Ea.
    + rewrite L1. rewrite EL in Hf'. cbn [data_acks concat] in Hf' |- *. rewrite zlen_app in Hf'.
      pose proof (zlen_nonneg (ctrl_frame c VAL_PKT_DATA_ACK (ss_last_acked l + zlen d))). destruct p. lia.
    + cbn in Hf |- *. lia.
    + intros r w2 (Hw2 & (V2 & L2 & S2) & l2 & [E1 E2 E3 E4 E5] & ->). split; [done|].
      split; [split; [congruence|split; [done|by eapply sends_none]]|]. exists l2. split; [|done].
      constructor; try congruence. intros E6. apply E5. congruence.
Qed.

(** ** A window, and all of them *)

(** Between two windows: all is acknowledged. *)
Record resting (l : send_state) (w : world E) : Prop := {
  rs_level : level (ss_last_acked l) w;
  rs_link : link_in (w_e w) = [];
  rs_next : ss_next_to_send l = ss_last_acked l;
  rs_cursor : ss_cursor l = ss_last_acked l;
  rs_inflight : ss_inflight l = 0;
  rs_win : 1 <= ss_win l;
  rs_range : 0 <= ss_last_acked l <= size
}.
(** The bytes from [pos] to [pos'] went out in pieces. *)
Definition shipped (pos pos' : Z) (w w' : world E) : Prop := ∃ ps,
  sends (data_frames (cfg_crc c) pos ps) w w' ∧ Forall real_piece ps ∧ payload ps = zslice data pos (pos' - pos).
Lemma shipped_trans a b d w w' w'' : 0 <= a <= b → b <= d <= size →
  shipped a b w w' → shipped b d w' w'' → shipped a d w w''.
Proof.
  intros Hab Hbd (p1 & S1 & F1 & P1) (p2 & S2 & F2 & P2). exists (p1 ++ p2).
  assert (Hz : a + zlen (payload p1) = b) by (rewrite P1, zlen_zslice; lia).
  split; [rewrite data_frames_app, Hz; by eapply sends_trans|]. split; [by apply Forall_app|].
  rewrite payload_app, P1, P2. replace b with (a + (b - a)) at 2 by lia. rewrite zslice_add by lia. f_equal. lia.
Qed.
Lemma shipped_beside pos pos' w w1 w2 w3 : beside w w1 → shipped pos pos' w1 w2 → sends [] w2 w3 → shipped pos pos' w w3.
Proof.
  intros (_ & _ & S1) (ps & S2 & F & P) S3. exists ps. split; [|done].
  eapply sends_none; [exact S1|]. rewrite <- (app_nil_r (data_frames _ _ _)). by eapply sends_trans.
Qed.

Lemma pieces_count ps : Forall real_piece ps → Z.of_nat (length ps) <= zlen (payload ps).
Proof.
  induction 1 as [|[d incl] ps [_ Hd] _ IH]; [done|]. unfold payload in *. cbn [map fst concat length] in *.
  rewrite zlen_app. destruct d as [|z d]; [done|]. rewrite zlen_cons. pose proof (zlen_nonneg d). lia.
Qed.
Lemma zlen_acks ps base : zlen (concat (data_acks c base ps)) <= 16 * Z.of_nat (length ps).
Proof.
  revert base. induction ps as [|[d incl] ps IH]; intros base; [done|]. cbn [data_acks concat length]. rewrite zlen_app.
  specialize (IH (base + zlen d)). unfold ctrl_frame, packet_frame. rewrite zlen_frame.
  destruct (bare_content_len VAL_PKT_DATA_ACK (base + zlen d) (or_introl eq_refl)) as [? _]. lia.
Qed.

Lemma window_moves fuel name path ack_to l w : resting l w → ss_last_acked l < size →
  16 * (size - ss_last_acked l) + 16 < Z.of_nat fuel →
  wpt (window_turn fuel f name path size (mtu - 12) ack_to l)
    (λ r w', ∃ l', r = inr (inr l') ∧ resting l' w' ∧ ss_last_acked l < ss_last_acked l' ∧
       shipped (ss_last_acked l) (ss_last_acked l') w w') w.
Proof.
  intros [Hlv EL En Ec Ei Hwin Hb] Hlt Hf. unfold window_turn. apply wp_bind.
  eapply wp_mono; [apply window_filled; done || lia|]. intros r w1 (ps & l1 & -> & Hne & Hfd).
  pose proof (filled_length _ _ _ _ _ (proj1 Hb) Hfd) as Hlen. pose proof Hfd as [[Hw1 V1] L1 S1 F1 P1 N1 _ C1 A1 W1].
  apply wp_bind, wp_gets. do 2 (eapply smooth_then; [apply smooth_ticks|eassumption|]; intros ? ? ? ?).
  eapply smooth_then; [apply smooth_retransmit|eassumption|]. intros _ w4 Hw4 B4. cbv zeta.
  assert (B : beside w1 w4) by (repeat (etrans; [eassumption|]); reflexivity). pose proof B as (V4 & L4 & S4).
  pose proof (pieces_count ps F1). pose proof (zlen_acks ps (ss_last_acked l)). apply wp_bind.
  set (ctx := mk_ack_ctx _ _ _ _ _ _ _ _ _).
  eapply wp_mono; [apply (wait_acks fuel ctx eq_refl ltac:(unfold ctx; cbn [ac_target_ack]; lia) ps); try done; unfold ctx; cbn [ac_target_ack]; rewrite ?A1, ?L4, ?L1; try done; lia|].
  intros r w5 (Hw5 & (V5 & L5 & S5) & l5 & [E1 E2 E3 E4 E5] & ->). unfold ctx in *. cbn [ac_target_ack] in *.
  change (negb (VAL_OK =? VAL_OK)) with false. apply wp_ret. exists l5. split; [done|]. split.
  - constructor; rewrite ?E1; try congruence; [split; [done|congruence]|by apply E5|lia].
  - assert (ss_last_acked l < ss_next_to_send l1).
    { rewrite <- Hlen. assert (0 < length ps)%nat by (destruct ps; [done|cbn; lia]). lia. }
    split; [lia|]. exists ps. rewrite E1. split; [|done].
    rewrite <- (app_nil_r (data_frames _ _ _)). eapply sends_trans; [exact S1|by eapply sends_none].
Qed.

Lemma health_fine name path w : standing c mtu w →
  wpt (data_health f name path) (λ r w', standing c mtu w' ∧ r = None ∧ beside w w') w.
Proof.
  intros Hw. unfold data_health. eapply smooth_then; [apply smooth_operation|done|]. intros _ w1 Hw1 B1. apply wp_bind.
  eapply wp_mono; [by eapply healthy|]. intros h w2 [-> ->]. rewrite Z.eqb_refl. by apply wp_ret.
Qed.
Lemma resting_beside l w w' : resting l w → standing c mtu w' → beside w w' → resting l w'.
Proof. intros [[Hw V] EL ? ? ? ? ?] Hw' (V' & L' & _). constructor; try done; [split; [done|congruence]|congruence]. Qed.

Lemma windows_turn fuel name path off l w : resting l w → ss_last_acked l < size →
  16 * (size - ss_last_acked l) + 16 < Z.of_nat fuel →
  wpt (send_windows_body fuel f name path size (mtu - 12) off l)
    (λ r w', ∃ l', r = inl l' ∧ resting l' w' ∧ ss_last_acked l < ss_last_acked l' ∧
       shipped (ss_last_acked l) (ss_last_acked l') w w') w.
Proof.
  intros Hr Hlt Hf. pose proof (proj1 (rs_level _ _ Hr)) as Hw. unfold send_windows_body.
  replace (ss_last_acked l <? size) with true by lia. apply wp_bind.
  eapply wp_mono; [by eapply not_cancelled|]. intros cc w0 [-> ->]. apply wp_bind.
  eapply wp_mono; [by apply health_fine|]. intros h w1 (Hw1 & -> & B1). apply wp_bind, wp_gets, wp_bind, wp_gets.
  cbv zeta. match goal with |- context [loop fuel _ ?x] => set (l1 := x) end.
  assert (Hr1 : resting l1 w1) by (destruct (resting_beside l w w1 Hr Hw1 B1); by constructor).
  destruct fuel as [|fuel']; [lia|]. cbn [loop]. set (fuel := S fuel') in *. apply wp_bind, wp_bind.
  eapply wp_mono; [by apply (window_moves fuel name path _ l1 w1)|]. intros r w2 (l2 & -> & Hr2 & Hlt2 & Hsh).
  apply wp_ret, wp_ret. exists l2. split; [done|]. split; [done|]. split; [done|].
  eapply shipped_beside; [exact B1|exact Hsh|apply sends_refl].
Qed.
Lemma all_windows fuel fuel' name path off l w : resting l w →
  16 * (size - ss_last_acked l) + 16 < Z.of_nat fuel' → size - ss_last_acked l < Z.of_nat fuel →
  wpt (loop fuel (send_windows_body fuel' f name path size (mtu - 12) off) l)
    (λ r w', ∃ l', r = inr l' ∧ resting l' w' ∧ ss_last_acked l' = size ∧ shipped (ss_last_acked l) size w w') w.
Proof.
  intros Hr Hf' Hf. set (pos := ss_last_acked l) in *. pose proof (rs_range _ _ Hr) as Hpos. fold pos in Hpos.
  apply (wp_loop False (λ l' w', resting l' w' ∧ pos <= ss_last_acked l' ∧ shipped pos (ss_last_acked l') w w')
           (λ l' _, Z.to_nat (size - ss_last_acked l'))).
  2:{ split; [done|]. split; [lia|]. exists []. split; [apply sends_refl|]. split; [constructor|].
      fold pos. by rewrite Z.sub_diag. }
  2:{ right. fold pos. lia. }
  intros l1 w1 (Hr1 & Hge & Hsh). pose proof (rs_range _ _ Hr1) as Hr1'.
  destruct (Z.ltb_spec (ss_last_acked l1) size) as [Hlt|].
  - eapply wp_mono; [by apply (windows_turn fuel' name path off l1 w1); try done; lia|].
    intros r w2 (l2 & -> & Hr2 & Hlt2 & Hsh2). pose proof (rs_range _ _ Hr2).
    split; [split; [done|split; [lia|]]|right; lia]. eapply (shipped_trans pos (ss_last_acked l1)); try done; lia.
  - unfold send_windows_body. replace (ss_last_acked l1 <? size) with false by lia. apply wp_ret.
    assert (ss_last_acked l1 = size) as Es by lia. exists l1. rewrite Es in Hsh. done.
Qed.

(** ** The end of the file, and the whole body *)

(** What is left to do when DONE is acknowledged. *)
Definition file_closed (name path : list Z) : M (world E) Z :=
  do! fs_fclose f in
  do! on_file_complete name path VAL_OK in
  do! val_metrics_inc_files_sent in
  do! val_internal_record_transmission_success in
  mret VAL_OK.
Lemma done_rule fuel name path w (Q : Z → world E → Prop) : level size w → link_in (w_e w) = [] → 0 <= size → (16 < fuel)%nat →
  (∀ w', level size w' → link_in (w_e w') = [] → sends [ctrl_frame c VAL_PKT_DONE size] w w' → wpt (file_closed name path) Q w') →
  wpt (send_done fuel f name path size) Q w.
Proof.
  intros [Hw V] EL H0 Hf HQ. unfold send_done. apply wp_bind.
  eapply wp_mono; [apply (send_bare_ok c mtu); [done|by right]|]. intros st w1 (Hw1 & -> & Eo & S1).
  assert (Hframe : session_frame (w_s w) VAL_PKT_DONE [] size true = ctrl_frame c VAL_PKT_DONE size).
  { by rewrite <- (st_cfg _ _ _ Hw). }
  rewrite Hframe in Eo, S1. unfold outside in Eo. rewrite EL, V in Eo. unfold ctrl_frame in Eo.
  rewrite (packet_frame_ext _ _ _ _ _ _ Hcrc), hp_done in Eo. pose proof (f_equal fst Eo) as L1. cbn [fst app dk_peer] in L1.
  pose proof (f_equal snd Eo) as V1. cbn [snd] in V1.
  rewrite <- (packet_frame_ext _ _ _ _ _ _ Hcrc) in L1. fold (ctrl_frame c VAL_PKT_DONE_ACK size) in L1.
  change (negb (VAL_OK =? VAL_OK)) with false. cbv iota. apply wp_bind.
  assert (Hlen : zlen (link_in (w_e w1)) <= 16).
  { rewrite L1. unfold ctrl_frame, packet_frame. rewrite zlen_frame.
    destruct (bare_content_len VAL_PKT_DONE_ACK size (or_introl eq_refl)). lia. }
  eapply wp_mono; [apply (done_ack_comes fuel c mtu size size [] w1); rewrite ?app_nil_r; try done; lia|].
  intros st w2 (Hw2 & -> & V2 & L2 & S2). change (negb (VAL_OK =? VAL_OK)) with false. cbv iota.
  apply HQ; [split; [done|congruence]|done|]. rewrite <- (app_nil_r [_]). by eapply sends_trans.
Qed.

Lemma file_rule fuel name path pos win prog w (Q : Z * option val_send_progress_ctx_t → world E → Prop) :
  level pos w → link_in (w_e w) = [] → 0 <= pos <= size → 1 <= win → 16 * (size - pos) + 16 < Z.of_nat fuel →
  (∀ prog' ps w', level size w' → link_in (w_e w') = [] → Forall real_piece ps → payload ps = zslice data pos (size - pos) →
     sends (data_frames (cfg_crc c) pos ps ++ [ctrl_frame c VAL_PKT_DONE size]) w w' →
     wpt (let! st := file_closed name path in mret (st, prog')) Q w') →
  wpt (send_file_body fuel f name path size pos win prog) Q w.
Proof.
  intros [Hw V] EL Hpos Hwin Hf HQ. unfold send_file_body, on_file_start.
  apply wp_bind, wp_bind, wp_gets. eapply wp_mono.
  { assert (Hst : wpt (if cfg_has_on_file_start (s_cfg (w_s w)) then callback (hk_on_file_start name path size pos)
        (EvFileStart name path size pos) else mret tt) (λ _ w', standing c mtu w' ∧ beside w w') w); [|exact Hst].
    destruct (cfg_has_on_file_start _); [|by apply smooth_ret]. apply (callback_smooth c mtu); [done|done|].
    pose proof (hp_start (f:=f) name path size pos _ (proj1 (st_fine _ _ _ Hw))) as Hs. by destruct (hk_on_file_start _ _ _ _ _). }
  intros _ w1 [Hw1 B1]. eapply smooth_then; [apply smooth_emit_progress|done|]. intros p w2 Hw2 B2. apply wp_bind.
  eapply wp_mono; [by eapply not_cancelled|]. intros cc w3 [-> ->]. apply wp_bind, wp_gets. cbv zeta.
  pose proof (session_mtu_range _ (st_ok _ _ _ Hw2)) as Hr.
  rewrite (session_mtu_ok _ (st_ok _ _ _ Hw2)), (st_mtu _ _ _ Hw2) in *.
  unfold VAL_WIRE_HEADER_SIZE, VAL_WIRE_TRAILER_SIZE. replace (mtu <=? 8 + 4) with false by lia.
  rewrite u32_small by lia. replace (mtu - 8 - 4) with (mtu - 12) by lia.
  assert (B : beside w w2) by (by etrans). pose proof B as (V2 & L2 & S2).
  set (l := mk_send _ _ _ _ _ _ _ _ _). assert (Hrest : resting l w2).
  { constructor; try done; [split; [done|by rewrite V2]|by rewrite L2]. }
  apply wp_bind. eapply wp_mono; [apply (all_windows fuel fuel name path pos l w2 Hrest); cbn; lia|].
  intros r w4 (l4 & -> & [Hlv L4 _ _ _ _ _] & Es & ps & S4 & F4 & P4). rewrite Es in Hlv. apply wp_bind.
  apply (done_rule fuel name path w4 _ Hlv L4); [lia|lia|]. intros w5 Hlv5 L5 S5.
  eapply wp_bind_inv, HQ; [exact Hlv5|exact L5|exact F4|exact P4|]. eapply sends_none; [exact S2|]. by eapply sends_trans.
Qed.

(** The end of the file, when nothing is asked of the application. *)
Lemma file_closed_ok name path w : wpt (file_closed name path) (λ st w', st = VAL_OK ∧ sends [] w w') w.
Proof.
  unfold file_closed. apply wp_bind, wp_mod. unfold on_file_complete. apply wp_bind, wp_bind, wp_gets.
  set (w3 := mk_world _ _ _).
  assert (Hc : wpt (if cfg_has_on_file_complete (s_cfg (w_s w3))
                    then callback (hk_on_file_complete name path VAL_OK) (EvFileComplete name path VAL_OK) else mret tt)
                 (λ _ w', sends [] w3 w') w3).
  { destruct (cfg_has_on_file_complete _); [|apply wp_ret, sends_refl]. unfold callback. apply wp_bind, wp_lift.
    pose proof (hp_complete (f:=f) name path VAL_OK (w_e w3)) as Hcan. destruct (hk_on_file_complete _ _ _ _) as [cancels e].
    cbn in Hcan. subst cancels. apply wp_ret. by exists [EvFileComplete name path VAL_OK]. }
  eapply wp_mono; [exact Hc|]. intros ? w4 S4. cbv beta in S4. apply wp_bind, wp_mod, wp_bind, wp_mod, wp_ret. split; [done|].
  eapply (sends_none []); [|exact S4]. by exists [EvClose f].
Qed.
Lemma file_shipped fuel name path pos win prog w : level pos w → link_in (w_e w) = [] → 0 <= pos <= size → 1 <= win →
  16 * (size - pos) + 16 < Z.of_nat fuel →
  wpt (send_file_body fuel f name path size pos win prog)
    (λ r w', fst r = VAL_OK ∧ ∃ ps, Forall real_piece ps ∧ payload ps = zslice data pos (size - pos) ∧
       sends (data_frames (cfg_crc c) pos ps ++ [ctrl_frame c VAL_PKT_DONE size]) w w') w.
Proof.
  intros Hlv EL Hpos Hwin Hf. apply file_rule; try done. intros prog' ps w' _ _ Hp Epay S. apply wp_bind.
  eapply wp_mono; [apply file_closed_ok|]. intros st w2 [-> S2]. apply wp_ret. split; [done|]. exists ps.
  split; [done|]. split; [done|]. rewrite <- (app_nil_r (_ ++ _)). by eapply sends_trans.
Qed.
End windows.

(** ** Any file *)

Lemma zlen_stream {E} `{!Hooks E} (s0 : val_session_t) pos l : Z.of_nat (length l) <= zlen (data_stream s0 pos l).
Proof.
  revert pos. induction l as [|[d incl] l IH]; intros pos; [done|]. cbn [data_stream length]. rewrite zlen_app.
  specialize (IH (pos + zlen d)). unfold session_frame, packet_frame. rewrite zlen_frame.
  pose proof (zlen_nonneg (content_of VAL_PKT_DATA d pos incl)). lia.
Qed.
(** The same stream, as a session with the same CRC would send it. *)
Lemma session_frame_ext {E R} `{!Hooks E} `{!Hooks R} (s s' : val_session_t) type d off incl :
  (∀ x, val_internal_crc32 (E:=R) s' x = val_internal_crc32 (E:=E) s x) →
  session_frame (E:=E) s type d off incl = session_frame (E:=R) s' type d off incl.
Proof. intros Hc. symmetry. by apply packet_frame_ext. Qed.
Lemma data_stream_ext {E R} `{!Hooks E} `{!Hooks R} (s s' : val_session_t) pos l :
  (∀ x, val_internal_crc32 (E:=R) s' x = val_internal_crc32 (E:=E) s x) →
  data_stream (E:=E) s pos l = data_stream (E:=R) s' pos l.
Proof.
  intros Hc. revert pos. induction l as [|[d incl] l IH]; intros pos; [done|]. cbn [data_stream].
  by rewrite IH, (session_frame_ext s s').
Qed.
Lemma zslice_rest (l : list Z) pos : 0 <= pos <= zlen l → zslice l pos (zlen l - pos) = zdrop pos l.
Proof. intros. unfold zslice. apply ztake_all. rewrite zlen_zdrop; lia. Qed.

(** C4: any file crosses a link without faults, from any resume offset. With a packet size
    below 2^16 + 12 bytes (above, the length field of a DATA packet wraps) and any window, the
    sender's data phase, against a peer that acknowledges what is in place, terminates with
    VAL_OK and puts a sequence of frames on the wire - the pieces of the rest of the file and DONE - such that every receiver with
    the same packet size and CRC that has the bytes before the offset and gets these
    frames, cut anywhere, terminates with exactly the file, and has sent the
    acknowledgements that the sender's peer was taken to send. *)
Theorem file_transferred {E} `{!Hooks E} `{!StreamLink E} `{!FileStore E} {f : handle} `{!HonestPeer E f}
    {R} `{!Hooks R} `{!StreamLink R} {g : handle} `{!Delivery R g} `{!BuildOptions}
    fuel name path pos win prog (w : world E) :
  let mtu := session_mtu (w_s w) in
  let data := dk_data (fl_view (w_e w)) in
  let size := zlen data in
  session_ok (w_s w) → mtu < 2 ^ 16 + 12 → fl_ok (w_e w) → undisturbed (w_s w) →
  (∀ l, val_internal_crc32 (E:=E) (w_s w) l = hp_crc (f:=f) l) →
  link_in (w_e w) = [] → dk_peer (fl_view (w_e w)) = pos → dk_pos (fl_view (w_e w)) = pos →
  0 <= pos <= size → size < 2 ^ 63 → 1 <= win → 16 * (size - pos) + 16 < Z.of_nat fuel →
  wpt (send_file_body fuel f name path size pos win prog)
    (λ r w', fst r = VAL_OK ∧ ∃ pieces,
       let frs := data_frames (val_internal_crc32 (E:=E) (w_s w)) pos pieces ++ [session_frame (E:=E) (w_s w) VAL_PKT_DONE [] size true] in
       Forall (piece_ok mtu) pieces ∧ sends frs w w' ∧
       ∀ fuel' name' path' b start_ms crc rest (v : world R),
         session_ok (w_s v) → fl_ok (w_e v) → undisturbed (w_s v) → session_mtu (w_s v) = mtu →
         (∀ l, val_internal_crc32 (E:=R) (w_s v) l = val_internal_crc32 (E:=E) (w_s w) l) →
         link_in (w_e v) = concat frs ++ rest → fl_view (w_e v) = ztake pos data →
         zlen (link_in (w_e v)) < Z.of_nat fuel' →
         wpt (loop fuel' (data_body fuel' g name' path' b mtu start_ms size) (mk_rx pos crc 0))
           (λ r v', r = inr (mk_rx size (val_crc32_update_state crc (zdrop pos data)) 0) ∧
              fl_view (w_e v') = data ∧ link_in (w_e v') = rest ∧ session_ok (w_s v') ∧
              sends (data_acks (E:=R) (s_cfg (w_s v)) pos pieces ++ [ctrl_frame (E:=R) (s_cfg (w_s v)) VAL_PKT_DONE_ACK size]) v v') v) w.
Proof.
  intros mtu data size Hok Hmtu Ho Hu Hcrc EL Ep Ef Hpos Hbig Hwin Hf.
  assert (Hw : standing (s_cfg (w_s w)) mtu w) by (constructor; [done|done|by rewrite <- session_mtu_ok|done]).
  assert (Hv : view w = mk_desk pos data pos) by (unfold view; destruct (fl_view (w_e w)); cbn in *; congruence).
  eapply wp_mono; [apply (file_shipped (f:=f) (c:=s_cfg (w_s w)) (mtu:=mtu) (data:=data)); first [done|by intros l; rewrite <- crc_of_cfg|unfold size; lia]|].
  intros r w' [Hr (ps & Hp & Epay & Hs)]. split; [done|]. exists ps. cbv zeta.
  assert (Hpm : Forall (piece_ok mtu) ps) by (eapply List.Forall_impl; [|exact Hp]; by intros p [? _]).
  split; [exact Hpm|]. split; [exact Hs|].
  intros fuel' name' path' b start_ms crc rest v Hok' Ho' Hu' Em Hcrc' EL' Efile Hf'.
  unfold size in Epay. rewrite zslice_rest in Epay by done.
  assert (Hlast : pos + zlen (payload ps) = size) by (rewrite Epay, zlen_zdrop by done; unfold size; lia).
  rewrite concat_app, concat_data_frames in EL'. cbn [concat] in EL'. rewrite app_nil_r, <- (assoc_L (++)) in EL'.
  rewrite (data_stream_ext (w_s w) (w_s v)), (session_frame_ext (w_s w) (w_s v)) in EL' by done.
  pose proof (zlen_stream (E:=R) (w_s v) pos ps) as Hcount. rewrite <- Em.
  assert (Hlen : zlen (data_stream (E:=R) (w_s v) pos ps) < zlen (link_in (w_e v))).
  { rewrite EL', !zlen_app. unfold session_frame, packet_frame. rewrite zlen_frame.
    pose proof (zlen_nonneg (content_of VAL_PKT_DONE [] size true)). pose proof (zlen_nonneg rest). lia. }
  pose proof (zlen_nonneg (link_in (w_e v))).
  assert (Hv' : standing (s_cfg (w_s v)) (session_mtu (w_s v)) v) by (constructor; [done|done|by rewrite <- session_mtu_ok|done]).
  assert (Hp' : Forall (piece_ok (session_mtu (w_s v))) ps).
  { by rewrite Em. }
  eapply wp_mono; [apply (assemble (f:=g) fuel' (s_cfg (w_s v)) (session_mtu (w_s v)) (w_s v) name' path' b start_ms size size rest ps
                            fuel' (mk_rx pos crc 0) v); cbn [rx_written]; rewrite ?Hlast; done || lia|].
  cbv beta zeta. cbn [rx_written rx_crc_state]. intros r2 v' ([Hok2 _ _ _] & -> & EV & L & S).
  rewrite Hlast in *. unfold view in EV. rewrite EV, Efile, Epay, ztake_zdrop by done. done.
Qed.

(** ** The concrete peer, on a line that drops nothing *)

Section honest.
Context (f : handle).

Definition peer_desk (e : peer) : desk := mk_desk (zlen (pe_file e)) (fs_data f (pe_sim e)) (fs_pos f (pe_sim e)).
Definition peer_answer (fr : list Z) (x : list Z * desk) : list Z * desk :=
  let '(a, p) := peer_reply fr (dk_peer (snd x)) in
  (fst x ++ a, mk_desk p (dk_data (snd x)) (dk_pos (snd x))).
Lemma reply_data crc d off incl p : 0 <= off < 2 ^ 64 → (incl = true → off = p) →
  peer_reply (packet_frame crc VAL_PKT_DATA d off incl) p =
  (packet_frame val_crc32 VAL_PKT_DATA_ACK [] (p + zlen d) true, p + zlen d).
Proof.
  intros Ho Hi. unfold peer_reply. rewrite carried_data by done.
  assert (Ep : default p (if incl then Some off else None) = p) by (destruct incl; [by apply Hi|done]).
  cbv zeta. by rewrite Ep, Z.eqb_refl.
Qed.

#[export] Program Instance peer_honest : HonestPeer peer f := {|
  hp_link := {| fl_ok e := fs_ok f (pe_sim e) ∧ bytes_ok (pe_in e) ∧ pe_drop e = []; fl_view := peer_desk; fl_answer := peer_answer |};
  hp_crc := val_crc32
|}.
Next Obligation. by intros e (_ & ? & _). Qed.
Next Obligation.
  intros n t e (Ho & Hb & Hd). cbn. unfold peer_recv. destruct (pe_in e) as [|z l]; [done|].
  split; [split; [done|by split; [apply bytes_ok_zdrop|]]|done].
Qed.
Next Obligation.
  intros fr e (Ho & Hb & Hd). cbn. unfold peer_send, peer_answer. rewrite Hd.
  cbn [fst snd dk_peer dk_data dk_pos peer_desk head tail].
  pose proof (reply_bytes fr (zlen (pe_file e))) as Hr. pose proof (peer_position fr (zlen (pe_file e))) as Hp.
  destruct (peer_reply fr (zlen (pe_file e))) as [a p]. cbn in Hr, Hp. subst p.
  split; [done|]. split; [split; [done|split; [by apply bytes_ok_app|done]]|].
  unfold peer_desk. cbn. by rewrite zlen_app.
Qed.
Next Obligation. done. Qed.
Next Obligation. done. Qed.
Next Obligation. done. Qed.
Next Obligation. done. Qed.
Next Obligation. done. Qed.
Next Obligation. by intros e []. Qed.
Next Obligation.
  intros n e (Ho & Hb & Hd) Hn. cbn. unfold on_sim. cbn in Ho.
  assert (Ho2 : sim_file_ok f (snd (sim_fread f n (pe_sim e)))).
  { unfold sim_fread. destruct (sim_get f (pe_sim e)) as [[p pos] m]. by apply sim_seek_ok. }
  by destruct (sim_fread f n (pe_sim e)).
Qed.
Next Obligation.
  intros d off incl L v Hd Ho Hi.
  change (peer_answer (packet_frame val_crc32 VAL_PKT_DATA d off incl) (L, v) =
    (L ++ packet_frame val_crc32 VAL_PKT_DATA_ACK [] (dk_peer v + zlen d) true,
     mk_desk (dk_peer v + zlen d) (dk_data v) (dk_pos v))).
  unfold peer_answer. cbn [fst snd]. by rewrite (reply_data val_crc32).
Qed.
Next Obligation. intros off L [p dt k]. reflexivity. Qed.
Next Obligation. done. Qed.
Next Obligation. done. Qed.
End honest.

(** 700 of 1300 bytes in windows of two packets, the first 600 being there already, and
    the receiver that gets them. *)
Definition upload_w : world peer :=
  mk_world demo_s (mk_peer (mk_sim [] 1000 [([102], region_file)] [([102], 600, ModeRead)]) [] (ztake 600 region_file) []) [].
Definition download_w (l : list Z) : world sim :=
  sim_world demo_s (mk_sim [Bytes l] 1000 [([102], ztake 600 region_file)] [([102], 600, ModeAppend)]).
Lemma region_bytes : bytes_ok region_file.
Proof. apply region_file_ok. Qed.
Lemma download_ok l : l ≠ [] → bytes_ok l → sim_sink 0 (w_e (download_w l)).
Proof.
  intros Hne Hb. split; [by constructor|]. split; [by vm_compute|reflexivity].
Qed.
Lemma file_transferred_witness :
  wpt (send_file_body (Z.to_nat 12000) 0 [102] [102] 1300 600 2 None)
    (λ r w', fst r = VAL_OK ∧ ∃ l, sends l upload_w w' ∧ ∃ fuel,
       wpt (loop fuel (data_body fuel 0 [102] [] (mk_batch 0 0) 512 1000 1300) (mk_rx 600 val_crc32_init_state 0))
         (λ _ v', sim_file 0 (w_e v') = region_file) (download_w (concat l))) upload_w.
Proof.
  eapply wp_mono; [apply (@file_transferred peer peer_hooks peer_link peer_store 0 (peer_honest 0) sim sim_hooks sim_link 0
    (sim_delivery 0) demo_build (Z.to_nat 12000) [102] [102] 600 2 None upload_w)|].
  - exact demo_s_ok.
  - by vm_compute.
  - split; [exact region_file_ok|split; [constructor|reflexivity]].
  - split; [by vm_compute|reflexivity].
  - reflexivity.
  - reflexivity.
  - reflexivity.
  - reflexivity.
  - by vm_compute.
  - by vm_compute.
  - lia.
  - by vm_compute.
  - cbv beta zeta. intros r w' [Hr (ps & Hp & Hs & Hrecv)]. split; [exact Hr|].
    eexists. split; [exact Hs|]. set (l := concat _). exists (S (Z.to_nat (zlen l))).
    assert (Hb : bytes_ok l).
    { unfold l. rewrite concat_app. apply bytes_ok_app. split; [by eapply data_frames_bytes|].
cbn [concat]. rewrite app_nil_r. apply packet_frame_bytes. constructor. }
    assert (Hne : l ≠ []).
    { unfold l. rewrite concat_app. intros E0%app_eq_nil. destruct E0 as [_ E0]. discriminate E0. }
    eapply wp_mono; [apply (Hrecv (S (Z.to_nat (zlen l))) [102] [] (mk_batch 0 0) 1000 val_crc32_init_state [] (download_w l))|].
    + exact demo_s_ok.
    + by apply download_ok.
    + split; [by vm_compute|reflexivity].
    + reflexivity.
    + reflexivity.
    + reflexivity.
    + reflexivity.
    + change (link_in (w_e (download_w l))) with (l ++ []). rewrite app_nil_r. pose proof (zlen_nonneg l). lia.
    + cbv beta. intros r2 v' (_ & Hfile & _). exact Hfile.
Defined.
