(* ===== verification/Lossy.v ===== *)
(** The sender with a window of one packet on a line that loses, delays, repeats and
    reorders: the receiver's file is never anything but a prefix of the sender's.

    With one packet per window every DATA packet carries its offset.  [LossyLink] is a
    line on which anything can happen to a frame but damage, which the CRC catches
    ([damaged_frame_rejected]): [ll_net] is the receiver's file and the DATA frames under
    way, any of which may reach the receiver at any time and any number of times, and
    what the receiver says, if it arrives at all, was true when it was said.  (With more
    packets per window the same line corrupts files: [lost_packet_corrupts].) *)
From stdpp Require Import sets list.
From S2P Require Import Prelude ByteOrder Wire Errors Crc Sanitize Timing Session Simulation Window Packet Frame.
From S2P Require Import Control Resume Peer Sender Trace DataPhase Link Windows.

(** ** The line *)

Record net := mk_net { nt_file : list Z; nt_sent : list (option Z * list Z) }.
(** A frame that reaches the receiver: written if it has no offset or the right one. *)
Inductive absorbs (S : list (option Z * list Z)) : list Z → list Z → Prop :=
  | ab_none F : absorbs S F F
  | ab_data F o d F' : (o, d) ∈ S → (∀ off, o = Some off → off = zlen F) → absorbs S (F ++ d) F' → absorbs S F F'.
Definition absorbed (S : list (option Z * list Z)) (n n' : net) : Prop :=
  nt_sent n' ⊆ S ++ nt_sent n ∧ absorbs (S ++ nt_sent n) (nt_file n) (nt_file n').

(** What the receiver may say at position [p] or later. *)
Definition truthful (crc : list Z → Z) (p : Z) (fr : list Z) : Prop :=
  ∃ type data off incl, fr = packet_frame crc type data off incl ∧
    0 <= type < 256 ∧ 0 <= off < 2 ^ 64 ∧ bytes_ok data ∧ zlen (content_of type data off incl) <= 500 ∧
    (type = VAL_PKT_DATA_ACK ∨ type = VAL_PKT_DATA_NAK → off <= p).

Definition same_file {E} `{!Hooks E} `{!FileStore E} (f : handle) (e e' : E) : Prop :=
  fs_ok f e → fs_ok f e' ∧ fs_data f e' = fs_data f e ∧ fs_pos f e' = fs_pos f e.

Class LossyLink (E : Type) `{!Hooks E} `{!StreamLink E} `{!FileStore E} (f : handle) := {
  ll_ok : E → Prop;
  ll_net : E → net;
  ll_crc : list Z → Z;
  ll_link e : ll_ok e → link_ok e;
  (** While [S] is under way, too. *)
  ll_arrives (S : list (option Z * list Z)) (e e' : E) : Prop :=
    ll_ok e' ∧ same_file f e e' ∧ absorbed S (ll_net e) (ll_net e') ∧
    ∃ frs, link_in e' = link_in e ++ concat frs ∧ Forall (truthful ll_crc (zlen (nt_file (ll_net e')))) frs;
  ll_quiet (e e' : E) : Prop := ll_ok e' ∧ same_file f e e' ∧ ll_net e' = ll_net e ∧ link_in e' = link_in e;
  ll_recv n t e : ll_ok e → link_in e ≠ [] → let e' := snd (hk_recv n t e) in
    ll_ok e' ∧ same_file f e e' ∧ ll_net e' = ll_net e;
  ll_silent n t e : ll_ok e → link_in e = [] →
    snd (fst (hk_recv n t e)) = [] ∧ ll_arrives [] e (snd (hk_recv n t e));
  ll_send fr e : ll_ok e → ll_arrives (carried fr) e (snd (hk_send fr e));
  ll_delay t e : ll_ok e → ll_arrives [] e (hk_delay_ms t e);
  ll_ticks e : ll_ok e → ll_quiet e (snd (hk_get_ticks_ms e));
  ll_connected e : ll_ok e → ll_quiet e (snd (hk_is_connected e));
  ll_flush e : ll_ok e → ll_arrives [] e (hk_flush e);
  ll_packet r e : ll_ok e → ll_quiet e (hk_on_packet r e);
  ll_progress i e : ll_ok e → ll_arrives [] e (snd (hk_on_progress i e));
  ll_start n p s o e : ll_ok e → ll_arrives [] e (snd (hk_on_file_start n p s o e));
  ll_complete n p r e : ll_ok e → ll_arrives [] e (snd (hk_on_file_complete n p r e));
  ll_close e : ll_ok e → let e' := hk_fclose f e in
    ll_ok e' ∧ absorbed [] (ll_net e) (ll_net e') ∧ link_in e' = link_in e;
  ll_seek o e : ll_ok e → let e' := snd (hk_fseek f o SEEK_SET e) in
    ll_ok e' ∧ ll_net e' = ll_net e ∧ link_in e' = link_in e;
  ll_read n e : ll_ok e → let e' := snd (hk_fread f n e) in
    ll_ok e' ∧ ll_net e' = ll_net e ∧ link_in e' = link_in e;
  ll_tell e : ll_ok e → fs_ok f e → fst (hk_ftell f e) = fs_pos f e ∧ ll_quiet e (snd (hk_ftell f e))
}.

Lemma absorbs_mono S S' F F' : S ⊆ S' → absorbs S F F' → absorbs S' F F'.
Proof. intros Hs. induction 1; [constructor|]. econstructor; [by apply Hs|done|done]. Qed.
Lemma absorbs_trans S F F' F'' : absorbs S F F' → absorbs S F' F'' → absorbs S F F''.
Proof. induction 1; [done|]. intros. econstructor; [done|done|auto]. Qed.
Lemma absorbs_grows S F F' : absorbs S F F' → zlen F <= zlen F'.
Proof. induction 1 as [|F o d F' _ _ _ IH]; [lia|]. rewrite zlen_app in IH. pose proof (zlen_nonneg d). lia. Qed.
Lemma absorbed_refl S n : absorbed S n n.
Proof. split; [intros x Hx; apply elem_of_app; by right|constructor]. Qed.
Lemma absorbed_trans S S' n n' n'' : absorbed S n n' → absorbed S' n' n'' → absorbed (S' ++ S) n n''.
Proof.
  intros [H1 A1] [H2 A2]. assert (Hsub : S' ++ nt_sent n' ⊆ (S' ++ S) ++ nt_sent n).
  { intros x. specialize (H1 x). rewrite !elem_of_app in *. tauto. }
  split; [by etrans|]. eapply absorbs_trans; (eapply absorbs_mono; [|eassumption]); [|exact Hsub].
  intros x. rewrite !elem_of_app. tauto.
Qed.
Lemma absorbed_mono S S' n n' : S ⊆ S' → absorbed S n n' → absorbed S' n n'.
Proof.
  intros Hs [H1 A1]. assert (Hsub : S ++ nt_sent n ⊆ S' ++ nt_sent n) by (intros x; specialize (Hs x); rewrite !elem_of_app; tauto).
  split; [by etrans|]. by eapply absorbs_mono.
Qed.
Lemma truthful_mono crc p p' fr : p <= p' → truthful crc p fr → truthful crc p' fr.
Proof. intros Hp (t & d & o & i & ? & ? & ? & ? & ? & Ht). exists t, d, o, i. repeat split; done || lia. Qed.
Lemma truthful_long crc p fr : truthful crc p fr → 12 <= zlen fr.
Proof.
  intros (t & d & o & i & -> & _). unfold packet_frame. rewrite zlen_frame.
  pose proof (zlen_nonneg (content_of t d o i)). lia.
Qed.

Section lossy.
Context {E : Type} `{!Hooks E} `{!StreamLink E} `{!FileStore E} {f : handle} `{!LossyLink E f} `{!BuildOptions}.

Lemma same_file_refl (e : E) : same_file f e e.
Proof. by intros. Qed.
Lemma same_file_trans (e e' e'' : E) : same_file f e e' → same_file f e' e'' → same_file f e e''.
Proof. intros H1 H2 Ho. destruct (H1 Ho) as (Ho' & D1 & P1). destruct (H2 Ho') as (? & D2 & P2). split; [done|]. split; congruence. Qed.
Lemma arrives_refl S e : ll_ok e → ll_arrives (f:=f) S e e.
Proof.
  intros. split; [done|]. split; [apply same_file_refl|]. split; [apply absorbed_refl|]. exists [].
  split; [by rewrite app_nil_r|constructor].
Qed.
Lemma arrives_trans S S' e e' e'' : ll_arrives (f:=f) S e e' → ll_arrives (f:=f) S' e' e'' → ll_arrives (f:=f) (S' ++ S) e e''.
Proof.
  intros (O1 & F1 & A1 & f1 & L1 & T1) (O2 & F2 & A2 & f2 & L2 & T2). split; [done|].
  split; [by eapply same_file_trans|]. split; [by eapply absorbed_trans|]. exists (f1 ++ f2).
  split; [by rewrite L2, L1, concat_app, (assoc_L (++))|]. apply Forall_app. split; [|done].
  eapply List.Forall_impl; [|exact T1]. intros fr. apply truthful_mono, (absorbs_grows _ _ _ (proj2 A2)).
Qed.
Lemma quiet_arrives S e e' : ll_quiet (f:=f) e e' → ll_arrives (f:=f) S e e'.
Proof.
  intros (O & F & N & L). split; [done|]. split; [done|]. rewrite N. split; [apply absorbed_refl|].
  exists []. split; [by rewrite app_nil_r|constructor].
Qed.

(** ** What happens to the line *)

(** The handshake's results stay. *)
Definition same_setup (s s' : val_session_t) : Prop :=
  s_effective_packet_size s' = s_effective_packet_size s ∧ s_negotiated_window_packets s' = s_negotiated_window_packets s.
Definition network (w : world E) : net := ll_net (f:=f) (w_e w).

(** Frames sent are under way; [drains] allows reading, too. *)
Definition moves (w w' : world E) : Prop := same_setup (w_s w) (w_s w') ∧
  ∃ evs, w_tr w' = evs ++ w_tr w ∧ (ll_ok (f:=f) (w_e w) → ll_arrives (f:=f) (flat_map carried (frames_of evs)) (w_e w) (w_e w')).
Definition drains (w w' : world E) : Prop := same_setup (w_s w) (w_s w') ∧
  (ll_ok (f:=f) (w_e w) → ll_ok (f:=f) (w_e w') ∧ same_file f (w_e w) (w_e w') ∧ absorbed [] (network w) (network w')).
#[export] Instance moves_preorder : PreOrder moves.
Proof.
  split; [intros w; split; [done|]; exists []; split; [done|apply arrives_refl]|].
  intros a b d ([M1 N1] & e1 & T1 & A1) ([M2 N2] & e2 & T2 & A2). split; [split; congruence|]. exists (e2 ++ e1).
  split; [by rewrite T2, T1, (assoc_L (++))|]. intros Ho. specialize (A1 Ho). rewrite frames_of_app, flat_map_app.
  eapply arrives_trans; [exact A1|]. apply A2, A1.
Qed.
#[export] Instance drains_preorder : PreOrder drains.
Proof.
  split; [intros w; split; [done|]; intros; split; [done|split; [apply same_file_refl|apply absorbed_refl]]|].
  intros a b d ([M1 N1] & A1) ([M2 N2] & A2). split; [split; congruence|]. intros Ho.
  destruct (A1 Ho) as (O1 & F1 & B1). destruct (A2 O1) as (O2 & F2 & B2). split; [done|].
  split; [by eapply same_file_trans|exact (absorbed_trans [] [] _ _ _ B1 B2)].
Qed.

(** Nothing sent and nothing read. *)
Definition hush (w w' : world E) : Prop := same_setup (w_s w) (w_s w') ∧ sends [] w w' ∧
  (ll_ok (f:=f) (w_e w) → ll_arrives (f:=f) [] (w_e w) (w_e w')).
#[export] Instance hush_preorder : PreOrder hush.
Proof.
  split; [intros w; split; [done|]; split; [apply sends_refl|apply arrives_refl]|].
  intros a b d ([M1 N1] & S1 & A1) ([M2 N2] & S2 & A2). split; [split; congruence|].
  split; [by eapply sends_none|]. intros Ho. specialize (A1 Ho). apply (arrives_trans [] []) with (w_e b); [done|]. apply A2, A1.
Qed.
Lemma hush_moves {A} (m : M (world E) A) : keeps hush m → keeps moves m.
Proof.
  intros Hm w. eapply wp_mono; [apply Hm|]. intros a w' (Hs & (evs & Et & Ef) & Ha). split; [done|]. exists evs. split; [done|].
  apply (f_equal (@rev _)) in Ef. rewrite rev_involutive in Ef. by rewrite Ef.
Qed.
Lemma hush_drains {A} (m : M (world E) A) : keeps hush m → keeps drains m.
Proof.
  intros Hm w. eapply wp_mono; [apply Hm|]. intros a w' (Hs & _ & Ha). split; [done|]. intros Ho.
  by destruct (Ha Ho) as (? & ? & ? & _).
Qed.

Lemma hush_upd g : (∀ s, same_setup s (g s)) → keeps hush (upd g).
Proof. intros Hg. apply keeps_mod. intros w. split; [apply Hg|]. split; [by exists []|apply arrives_refl]. Qed.
Lemma hush_env {A} (h : E → A * E) : (∀ e, ll_ok e → ll_quiet (f:=f) e (snd (h e))) →
  keeps hush (mlift (λ w, let '(a, e) := h (w_e w) in (a, mk_world (w_s w) e (w_tr w)))).
Proof.
  intros Hh w. apply wp_lift. unfold hush. pose proof (Hh (w_e w)) as Hd. destruct (h (w_e w)) as [a e].
  split; [done|]. split; [by exists []|]. intros Ho. by apply quiet_arrives, Hd.
Qed.
Lemma hush_ticks : keeps hush get_ticks_ms.
Proof.
  intros w. apply wp_lift. unfold hush. pose proof (ll_ticks (f:=f) (w_e w)) as Ht. destruct (hk_get_ticks_ms (w_e w)) as [t e].
  split; [done|]. split; [by exists []|]. intros Ho. by apply quiet_arrives, Ht.
Qed.
Lemma hush_connected : keeps hush val_internal_transport_is_connected.
Proof.
  unfold val_internal_transport_is_connected. apply keeps_bind; [apply _|apply keeps_gets, _|intros s].
  destruct (cfg_has_is_connected _); [|apply keeps_ret, _]. apply keeps_bind; [apply _| |intros r; apply keeps_ret, _].
  apply hush_env, ll_connected.
Qed.
Lemma hush_call {A} (h : E → A * E) ev : (∀ a, frames_of [ev a] = []) → (∀ e, ll_ok e → ll_arrives (f:=f) [] e (snd (h e))) →
  keeps hush (call h ev).
Proof.
  intros Hev Hh w. apply wp_lift. unfold hush. pose proof (Hh (w_e w)) as Hd. destruct (h (w_e w)) as [a e].
  split; [done|]. split; [exists [ev a]; split; [done|by rewrite Hev]|exact Hd].
Qed.
Lemma hush_call_unit h ev : frames_of [ev] = [] → (∀ e, ll_ok e → ll_arrives (f:=f) [] e (h e)) → keeps hush (call_unit h ev).
Proof.
  intros Hev Hh w. apply wp_mod. split; [done|]. split; [exists [ev]; split; [done|by rewrite Hev]|apply Hh].
Qed.
Lemma hush_flush : keeps hush val_internal_transport_flush.
Proof.
  unfold val_internal_transport_flush. apply keeps_bind; [apply _|apply keeps_gets, _|intros s].
  destruct (cfg_has_flush _); [by apply hush_call_unit, ll_flush|apply keeps_ret, _].
Qed.
Lemma hush_capture r : keeps hush (capture r).
Proof.
  unfold capture. apply keeps_bind; [apply _|apply keeps_gets, _|intros s].
  destruct (cfg_has_on_packet _); [|apply keeps_ret, _].
  apply keeps_bind; [apply _|apply hush_ticks|intros t]. apply hush_call_unit; [done|].
  intros e Ho. by apply quiet_arrives, ll_packet.
Qed.
Lemma moves_send fr : keeps moves (transport_send fr).
Proof.
  intros w. apply wp_lift. unfold moves. pose proof (ll_send (f:=f) fr (w_e w)) as Ht. destruct (hk_send fr (w_e w)) as [rc e].
  split; [done|]. exists [EvSend fr rc]. split; [done|]. intros Ho. cbn. rewrite app_nil_r. by apply Ht.
Qed.
Lemma drains_recv n t : keeps drains (transport_recv n t).
Proof.
  intros w. apply wp_lift. unfold drains, network. pose proof (ll_recv (f:=f) n t (w_e w)) as Hr. pose proof (ll_silent (f:=f) n t (w_e w)) as Hs.
  destruct (hk_recv n t (w_e w)) as [[r got] e]. cbn [fst snd w_s w_e] in *. split; [done|]. intros Ho.
  destruct (decide (link_in (w_e w) = [])) as [E0|Hne].
  - destruct (Hs Ho E0) as (_ & ? & ? & ? & _). done.
  - destruct (Hr Ho Hne) as (? & ? & ->). split; [done|]. split; [done|apply absorbed_refl].
Qed.
End lossy.

Ltac hush_step :=
  lazymatch goal with
  | |- keeps hush (mbind _ _) => apply keeps_bind; [apply _| |intros ?]
  | |- keeps hush (mret _) => apply keeps_ret, _
  | |- keeps hush get_s => apply keeps_gets, _
  | |- keeps hush (match ?x with _ => _ end) => destruct x
  | |- keeps hush (let _ := _ in _) => cbv zeta
  | |- keeps hush _ => first [ apply hush_ticks | apply hush_connected | apply hush_flush
                             | apply hush_capture | apply hush_upd; by intros ]
  end.
Ltac moves_step :=
  lazymatch goal with
  | |- keeps moves (mbind _ _) => apply keeps_bind; [apply _| |intros ?]
  | |- keeps moves (mret _) => apply keeps_ret, _
  | |- keeps moves get_s => apply keeps_gets, _
  | |- keeps moves (match ?x with _ => _ end) => destruct x
  | |- keeps moves (let _ := _ in _) => cbv zeta
  | |- keeps moves _ => first [ apply moves_send | apply hush_moves; hush_step ]
  end.
Ltac drains_step :=
  lazymatch goal with
  | |- keeps drains (mbind _ _) => apply keeps_bind; [apply _| |intros ?]
  | |- keeps drains (mret _) => apply keeps_ret, _
  | |- keeps drains get_s => apply keeps_gets, _
  | |- keeps drains (loop _ _ _) => apply keeps_loop; [apply _|intros ?]
  | |- keeps drains (match ?x with _ => _ end) => destruct x
  | |- keeps drains (let _ := _ in _) => cbv zeta
  | |- keeps drains _ => first [ apply drains_recv | apply hush_drains; hush_step ]
  end.

Section packets.
Context {E : Type} `{!Hooks E} `{!StreamLink E} `{!FileStore E} {f : handle} `{!LossyLink E f} `{!BuildOptions}.

Lemma moves_send_core type p n off incl : keeps (moves (f:=f)) (val__internal_send_packet_core type p n off incl).
Proof. unfold val__internal_send_packet_core. repeat moves_step. Qed.
Lemma drains_recv_full fuel need to : keeps (drains (f:=f)) (val_recv_full fuel need to).
Proof. unfold val_recv_full, recv_full_body. repeat drains_step. Qed.
Lemma drains_recv_into fuel off n to : keeps (drains (f:=f)) (recv_into fuel off n to).
Proof. unfold recv_into. apply keeps_bind; [apply _|apply drains_recv_full|intros [rc got]]. repeat drains_step. Qed.
Lemma drains_content fuel dst P type fl n td to : keeps (drains (f:=f)) (recv_content fuel dst P type fl n td to).
Proof.
  unfold recv_content, recv_trailer, recv_deliver, recv_finish, recv_failed.
  repeat first [apply drains_recv_full | apply drains_recv_into | drains_step].
Qed.
End packets.

(** ** What is true all the time *)

(** A DATA frame that only adds what follows: written where it says it belongs. *)
Definition true_piece (data : list Z) (p : option Z * list Z) : Prop := ∃ F, fst p = Some (zlen F) ∧ F ++ snd p `prefix_of` data.
Definition faithful (data : list Z) (n : net) : Prop := nt_file n `prefix_of` data ∧ Forall (true_piece data) (nt_sent n).

Lemma absorbs_prefix data S F F' : absorbs S F F' → Forall (true_piece data) S → F `prefix_of` data → F' `prefix_of` data.
Proof.
  induction 1 as [|F o d F' Hin Hoff _ IH]; intros HS HF; [done|]. apply IH; [done|].
  rewrite List.Forall_forall in HS. apply list_elem_of_In in Hin. destruct (HS _ Hin) as (F0 & Eo & Hp).
  cbn in Eo, Hp. specialize (Hoff _ Eo). destruct HF as [k ->], Hp as [k' Ek]. rewrite <- (assoc_L (++)) in Ek.
  apply app_inj_1 in Ek as [-> Ek]; [|by apply Nat2Z.inj]. exists k'. by rewrite Ek, (assoc_L (++)).
Qed.
Lemma faithful_absorbed data S n n' : absorbed S n n' → Forall (true_piece data) S → faithful data n →
  faithful data n' ∧ zlen (nt_file n) <= zlen (nt_file n').
Proof.
  intros [Hsub Ha] HS [HF Hs]. assert (Hall : Forall (true_piece data) (S ++ nt_sent n)) by (by apply Forall_app).
  split; [|by eapply absorbs_grows]. split; [by eapply absorbs_prefix|].
  rewrite List.Forall_forall in Hall |- *. intros x Hx. apply Hall, list_elem_of_In, Hsub, list_elem_of_In, Hx.
Qed.
Lemma true_slice data off n : 0 <= off → 0 <= n → off + n <= zlen data → true_piece (ztake (off + n) data) (Some off, zslice data off n).
Proof.
  intros Ho Hn Hl. exists (ztake off data). cbn. rewrite zlen_ztake by lia. split; [done|]. unfold zslice.
  by rewrite ztake_add.
Qed.
Lemma faithful_mono data data' n : data `prefix_of` data' → faithful data n → faithful data' n.
Proof.
  intros Hd [HF Hs]. split; [by etrans|]. eapply List.Forall_impl; [|exact Hs]. intros p (F & Eo & Hp).
  exists F. split; [done|by etrans].
Qed.

Section ready.
Context {E : Type} `{!Hooks E} `{!StreamLink E} `{!FileStore E} {f : handle} `{!LossyLink E f} `{!BuildOptions}.
Context {c : val_config_t} {mtu : Z} {data : list Z}.
Context (Hcrc : ∀ l, cfg_crc c l = ll_crc (f:=f) l).

Definition framed (e : E) : Prop := ∃ frs, link_in e = concat frs ∧
  Forall (truthful (ll_crc (f:=f)) (zlen (nt_file (ll_net (f:=f) e)))) frs.
Record ready (w : world E) : Prop := {
  rd_ok : session_ok (w_s w);
  rd_cfg : s_cfg (w_s w) = c;
  rd_mtu : s_effective_packet_size (w_s w) = mtu;
  rd_one : s_negotiated_window_packets (w_s w) = 1;
  rd_line : ll_ok (f:=f) (w_e w);
  rd_faithful : faithful data (network (f:=f) w);
  rd_framed : framed (w_e w)
}.
Definition received (w : world E) : Z := zlen (nt_file (network (f:=f) w)).
Definition onward (w w' : world E) : Prop := ready w' ∧ same_file f (w_e w) (w_e w') ∧ received w <= received w'.
Definition evolves (w w' : world E) : Prop := ready w → onward w w'.
#[export] Instance evolves_preorder : PreOrder evolves.
Proof.
  split; [intros w Hw; split; [done|split; [apply same_file_refl|unfold received; lia]]|].
  intros a b d Hab Hbd Ha. destruct (Hab Ha) as (Hb & F1 & L1). destruct (Hbd Hb) as (Hd & F2 & L2).
  split; [done|]. split; [by eapply same_file_trans|lia].
Qed.
Lemma onward_refl w : ready w → onward w w.
Proof. intros Hw. by apply evolves_preorder. Qed.
Lemma onward_trans w w' w'' : onward w w' → onward w' w'' → onward w w''.
Proof. intros (H1 & F1 & L1) (H2 & F2 & L2). split; [done|]. split; [by eapply same_file_trans|lia]. Qed.

(** Frames from the line join what is there. *)
Lemma arrives_onward S w w' : ready w → session_ok (w_s w') → s_cfg (w_s w') = c → same_setup (w_s w) (w_s w') →
  Forall (true_piece data) S → ll_arrives (f:=f) S (w_e w) (w_e w') → onward w w'.
Proof.
  intros [Hok Hc Hm Ho Hl Hf (frs & EL & Hfr)] Hok' Hc' [Em Eo] HS (Hl' & Hfile & Ha & frs' & EL' & Hfr').
  destruct (faithful_absorbed data S _ _ Ha HS Hf) as [Hf' Hg]. split; [|done].
  constructor; try done; [congruence|congruence|]. exists (frs ++ frs'). split; [by rewrite EL', EL, concat_app|].
  apply Forall_app. split; [|done]. eapply List.Forall_impl; [|exact Hfr]. intros fr. by apply truthful_mono.
Qed.
Lemma evolves_hush {A} n (m : M (world E) A) : safe c n m → keeps (hush (f:=f)) m → keeps evolves m.
Proof.
  intros Hs Hh w. unfold wp. destruct (m w) as [[a w']|] eqn:Em; [|done]. intros Hw.
  pose proof (wpp_elim _ _ _ _ _ (Hs w (rd_ok _ Hw) (rd_cfg _ Hw)) Em) as (Hok & Hc & _).
  pose proof (wpp_elim _ _ _ _ _ (Hh w) Em) as (Hset & _ & Ha).
  apply (arrives_onward []); [done|done| |done|constructor|]; [rewrite Hc; apply Hw|apply Ha, Hw].
Qed.
(** Sending a packet whose data are true. *)
Lemma send_onward type p n off incl d w : ready w →
  safe (E:=E) c 0 (val__internal_send_packet_core type p n off incl) →
  payload_data (s_send_buffer (w_s w)) p n d → 8 + content_room type n incl <= zlen (s_send_buffer (w_s w)) →
  zlen (content_of type d off incl) < 2 ^ 16 →
  (∀ crc, Forall (true_piece data) (carried (packet_frame crc type d off incl))) →
  wpp (val__internal_send_packet_core type p n off incl) (λ _ w', onward w w') w.
Proof.
  intros Hw Hs Hp Hroom Hlen Hd. unfold wp.
  destruct (val__internal_send_packet_core type p n off incl w) as [[a w']|] eqn:Em; [|done].
  pose proof (wpp_elim _ _ _ _ _ (Hs w (rd_ok _ Hw) (rd_cfg _ Hw)) Em) as (Hok & Hc & _).
  pose proof (wpp_elim _ _ _ _ _ (moves_send_core (f:=f) _ _ _ _ _ w) Em) as (Hset & evs & Etr & Ha).
  assert (Htrue : Forall (true_piece data) (flat_map carried (frames_of evs))).
  { pose proof (send_core_spec type p n off incl d w (rd_ok _ Hw) Hp Hroom Hlen) as Hsend.
    unfold wp in Hsend. rewrite Em in Hsend.
    assert (Hcases : (∃ q, Forall quiet_event q ∧ w_tr w' = q ++ w_tr w) ∨
                     ∃ q rc, Forall quiet_event q ∧ w_tr w' = (q ++ [EvSend (session_frame (w_s w) type d off incl) rc]) ++ w_tr w).
    { destruct Hsend as [(_ & _ & _ & Hq)|[(_ & _ & q & rc & Hq & Eq & _)|(_ & _ & _ & Hq)]]; [by left| |by left].
      right. exists q, rc. split; [done|]. by rewrite <- (assoc_L (++)). }
    destruct Hcases as [(q & Hq & Eq)|(q & rc & Hq & Eq)]; rewrite Eq in Etr; apply app_inv_tail in Etr as <-.
    - rewrite frames_of_quiet by done. constructor.
    - rewrite frames_of_app, (frames_of_quiet _ Hq). cbn. rewrite app_nil_r. apply Hd. }
  eapply arrives_onward; [done|done| |done|exact Htrue|apply Ha, Hw]. rewrite Hc. apply Hw.
Qed.
Lemma evolves_send_ctrl type off : u8 type ≠ VAL_PKT_DATA → content_of type [] off true = [] →
  keeps evolves (val_internal_send_packet type PNull 0 off).
Proof.
  intros Ht Hct w. unfold wp. destruct (val_internal_send_packet type PNull 0 off w) as [[a w']|] eqn:Em; [|done]. intros Hw.
  pose proof (sok_send _ (rd_ok _ Hw)) as Hb. pose proof (cok_packet _ (sok_cfg _ (rd_ok _ Hw))) as Hm. unfold VAL_MIN_PACKET_SIZE in Hm.
  assert (Hroom : content_room type 0 true <= 12).
  { unfold content_room. destruct (_ && _); lia. }
  refine (wpp_elim _ _ _ _ _ (send_onward type PNull 0 off true [] w Hw _ _ _ _ _) Em); try done.
  - apply safe_send_ctrl.
  - lia.
  - by rewrite Hct.
  - intros crc. rewrite carried_other by done. constructor.
Qed.

(** ** Receiving *)

(** What a packet says of the receiver's position is true. *)
Definition honest (pkt : packet) (w : world E) : Prop :=
  pkt_type pkt = VAL_PKT_DATA_ACK ∨ pkt_type pkt = VAL_PKT_DATA_NAK → 0 <= pkt_off pkt <= received w.

(** Between two reads: [L] is still to be read. *)
Definition midway (L : list Z) (w w' : world E) : Prop :=
  w_s w' = w_s w ∧ link_in (w_e w') = L ∧ ll_ok (f:=f) (w_e w') ∧ same_file f (w_e w) (w_e w') ∧
  absorbed [] (network (f:=f) w) (network (f:=f) w').
Lemma midway_trans L L' w w' w'' : midway L w w' → midway L' w' w'' → midway L' w w''.
Proof.
  intros (S1 & _ & _ & F1 & A1) (S2 & L2 & O2 & F2 & A2). split; [congruence|]. split; [done|]. split; [done|].
  split; [by eapply same_file_trans|exact (absorbed_trans [] [] _ _ _ A1 A2)].
Qed.
Lemma lossy_ticks w : ll_ok (f:=f) (w_e w) →
  wpp get_ticks_ms (λ t w', t = link_now (w_e w) ∧ link_now (w_e w') = t ∧ midway (link_in (w_e w)) w w' ∧ network (f:=f) w' = network (f:=f) w) w.
Proof.
  intros Ho. apply wp_lift. pose proof (link_ticks _ (ll_link (f:=f) _ Ho)) as Hl. pose proof (ll_ticks (f:=f) _ Ho) as Hq.
  unfold network, midway. destruct (hk_get_ticks_ms (w_e w)) as [t e]. cbn [fst snd w_e w_s] in *.
  destruct Hl as (Et & _ & _ & En), Hq as (Ho' & Hf & Hn & EL). split; [done|]. split; [congruence|]. split; [|done].
  split; [done|]. split; [done|]. split; [done|]. split; [done|]. unfold network. cbn. rewrite Hn. apply absorbed_refl.
Qed.
Lemma lossy_chunk n t w : ll_ok (f:=f) (w_e w) → 0 < n <= zlen (link_in (w_e w)) → 0 < t →
  wpp (transport_recv n t) (λ rg w', 0 <= fst rg ∧ 1 <= zlen (snd rg) <= n ∧ snd rg = ztake (zlen (snd rg)) (link_in (w_e w)) ∧
     link_now (w_e w') = link_now (w_e w) ∧ midway (zdrop (zlen (snd rg)) (link_in (w_e w))) w w' ∧ network (f:=f) w' = network (f:=f) w) w.
Proof.
  intros Ho Hn Ht. assert (Hne : link_in (w_e w) ≠ []) by (apply zlen_pos_ne; lia).
  pose proof (link_chunk n t w (ll_link (f:=f) _ Ho) Hn Ht) as Hc. pose proof (ll_recv (f:=f) n t _ Ho Hne) as Hr.
  unfold transport_recv, call, wp, mlift, midway, network in *. cbn [w_e] in *.
  destruct (hk_recv n t (w_e w)) as [[r got] e]. cbn [fst snd w_e w_s] in *. destruct Hc as (H1 & H2 & H3 & H4 & H5 & H6 & H7), Hr as (? & ? & En).
  rewrite En. split; [done|]. split; [done|]. split; [done|]. split; [done|]. split; [|done]. split; [done|]. split; [done|].
  split; [done|]. split; [done|apply absorbed_refl].
Qed.
Lemma lossy_silence n t w : ll_ok (f:=f) (w_e w) → link_in (w_e w) = [] →
  wpp (transport_recv n t) (λ rg w', snd rg = [] ∧ w_s w' = w_s w ∧ ll_arrives (f:=f) [] (w_e w) (w_e w')) w.
Proof.
  intros Ho Hne. pose proof (ll_silent (f:=f) n t _ Ho Hne) as Hr. apply wp_lift.
  destruct (hk_recv n t (w_e w)) as [[r got] e]. cbn [fst snd w_e w_s] in *. destruct Hr as [-> Ha]. split; [|done].
  unfold cut, ztake. by rewrite take_nil.
Qed.

Definition told (frs : list (list Z)) (w : world E) : Prop := Forall (truthful (ll_crc (f:=f)) (received w)) frs.
Lemma concat_long crc p frs : Forall (truthful crc p) frs → frs = [] ∨ 12 <= zlen (concat frs).
Proof.
  destruct 1 as [|fr frs Hfr _]; [by left|]. right. cbn. rewrite zlen_app. pose proof (truthful_long _ _ _ Hfr).
  pose proof (zlen_nonneg (concat frs)). lia.
Qed.
Lemma ready_midway w : ready w → ∃ frs, told frs w ∧ midway (concat frs) w w.
Proof.
  intros [_ _ _ _ Hl _ (frs & EL & Hfr)]. exists frs. split; [done|]. split; [done|]. split; [done|]. split; [done|].
  split; [apply same_file_refl|apply absorbed_refl].
Qed.
(** Reading a header: what has arrived is the start of some frames, and the time is not up;
    in the end there is all of it or - with nothing lost - nothing. *)
Definition heading (to start : Z) (w : world E) (have : list Z) (w' : world E) : Prop := ∃ frs, told frs w' ∧
  have = ztake (zlen have) (concat frs) ∧ zlen have < 8 ∧
  midway (zdrop (zlen have) (concat frs)) w w' ∧ u32 (link_now (w_e w') - start) < to.
Definition headed (w : world E) (rg : Z * list Z) (w' : world E) : Prop := ∃ frs, told frs w' ∧
  if fst rg =? VAL_OK then 8 <= zlen (concat frs) ∧ snd rg = ztake 8 (concat frs) ∧ midway (zdrop 8 (concat frs)) w w'
  else midway (concat frs) w w'.
#[local] Abbreviation header_turn to start w := (λ r w', match r with inl have => heading to start w have w' | inr rg => headed w rg w' end).
(** Reading the clock in between. *)
Lemma midway_ticks frs L w w1 : midway L w w1 → told frs w1 →
  wpp get_ticks_ms (λ t w2, midway L w w2 ∧ told frs w2 ∧ t = link_now (w_e w1) ∧ link_now (w_e w2) = t) w1.
Proof.
  intros M1 T1. pose proof M1 as (_ & L1 & O1 & _). eapply wp_mono; [by apply lossy_ticks|].
  intros t w2 (-> & En & M2 & Enet). apply (midway_trans _ _ _ _ _ M1) in M2. rewrite L1 in M2.
  split; [done|]. split; [unfold told, received; by rewrite Enet|done].
Qed.
(** Nothing has arrived: wait, and see whether something has. *)
Lemma header_waits to start w w1 : midway [] w w1 → wpp (recv_full_body 8 to start []) (header_turn to start w) w1.
Proof.
  intros M1. unfold recv_full_body. change (8 <=? zlen []) with false. cbv iota. apply wp_bind.
  eapply wp_mono; [apply (midway_ticks [] [] w w1 M1); constructor|]. intros now w2 (M2 & _). cbv zeta.
  set (t := if negb _ then _ else _). pose proof M2 as (_ & L2 & O2 & _). apply wp_bind.
  eapply wp_mono; [by apply (lossy_silence _ t w2 O2)|].
  intros [r got] w3 (Eg & Es3 & O3 & F3 & A3 & frs & L3 & T3). cbn [fst snd] in *. subst got. rewrite L2 in L3.
  assert (M3 : midway (concat frs) w w3) by (apply (midway_trans _ _ _ _ _ M2); repeat (split; [done|]); done).
  destruct (Z.ltb_spec r 0); [apply wp_ret; by exists frs|]. change (8 <=? zlen ([] ++ [])) with false. cbv iota. apply wp_bind.
  eapply wp_mono; [by apply (midway_ticks frs)|]. intros t4 w4 (M4 & T4 & _ & En4).
  destruct (Z.leb_spec to (u32 (t4 - start))); apply wp_ret; exists frs; [done|].
  repeat (split; [done|]). by rewrite En4.
Qed.
(** A piece of it. *)
Lemma header_reads to start w w1 have frs : told frs w1 → have = ztake (zlen have) (concat frs) → zlen have < 8 →
  midway (zdrop (zlen have) (concat frs)) w w1 → u32 (link_now (w_e w1) - start) < to → 8 <= zlen (concat frs) →
  wpp (recv_full_body 8 to start have) (header_turn to start w) w1.
Proof.
  intros T1 Eh Hh M1 Hnow HC. pose proof (zlen_nonneg have). unfold recv_full_body.
  replace (8 <=? zlen have) with false by lia. set (C := concat frs) in *. apply wp_bind.
  eapply wp_mono; [by apply (midway_ticks frs)|]. intros now w2 (M2 & T2 & -> & En2). cbv zeta.
  set (t := if negb _ then _ else _). pose proof M2 as (_ & L2 & O2 & _). apply wp_bind.
  eapply wp_mono; [apply lossy_chunk; [done|rewrite L2, zlen_zdrop by lia; lia|]|].
  { pose proof (u32_range (link_now (w_e w1) - start)). apply recv_slice_pos; [lia|apply remaining_nonneg]. }
  intros [r got] w3 (Hr & Hg & Eg & En3 & M3 & Enet3). cbn [fst snd] in *. replace (r <? 0) with false by lia.
  apply (midway_trans _ _ _ _ _ M2) in M3. rewrite L2 in Eg, M3. rewrite zdrop_zdrop, <- zlen_app in M3 by lia.
  assert (Ehg : have ++ got = ztake (zlen (have ++ got)) C) by (rewrite zlen_app, <- ztake_add by lia; by rewrite <- Eg, <- Eh).
  assert (T3 : told frs w3) by (unfold told, received; by rewrite Enet3).
  destruct (Z.leb_spec 8 (zlen (have ++ got))) as [H8|H8].
  - apply wp_ret. assert (E8 : zlen (have ++ got) = 8) by (rewrite zlen_app in *; lia). rewrite E8 in *.
    assert (zlen (ztake 8 C) = 8) by congruence.
    assert (zlen (ztake 8 C) <= zlen C) by (unfold ztake, zlen; rewrite length_take; lia).
    exists frs. split; [done|]. split; [fold C; lia|]. by split.
  - apply wp_bind. eapply wp_mono; [by apply (midway_ticks frs)|]. intros t4 w4 (M4 & T4 & Et4 & En4).
    assert (Ht4 : u32 (t4 - start) < to) by (rewrite Et4, En3, En2; done).
    replace (to <=? u32 (t4 - start)) with false by lia. apply wp_ret. exists frs. repeat (split; [done|]). by rewrite En4.
Qed.
Lemma lossy_header fuel to w : ready w → 0 < to → wpp (val_recv_full fuel 8 to) (headed w) w.
Proof.
  intros Hw Hto. destruct (ready_midway w Hw) as (frs0 & T0 & M0). unfold val_recv_full. apply wp_bind.
  eapply wp_mono; [by apply (midway_ticks frs0)|]. intros start w0 (M & T & -> & En0).
  apply (wpp_loop (heading to (link_now (w_e w)) w)).
  2:{ exists frs0. repeat (split; [done|]). rewrite En0, Z.sub_diag, u32_small by lia. done. }
  intros have w1 (frs & T1 & Eh & Hh & M1 & Hnow). pose proof (zlen_nonneg have).
  destruct (concat_long _ _ _ T1) as [->|Hlong]; [|eapply header_reads; try done; lia].
  assert (have = []) as -> by (rewrite Eh; apply take_nil). by apply header_waits.
Qed.

Definition settled (w w' : world E) : Prop := same_setup (w_s w) (w_s w') ∧
  ∃ frs, told frs w' ∧ link_in (w_e w') = concat frs ∧ ll_ok (f:=f) (w_e w') ∧ same_file f (w_e w) (w_e w') ∧
         absorbed [] (network (f:=f) w) (network (f:=f) w').
Lemma settled_onward w w' : ready w → session_ok (w_s w') → s_cfg (w_s w') = c → settled w w' → onward w w'.
Proof.
  intros [Hok Hc Hm Ho Hl Hf Hfr] Hok' Hc' ([Em Eo] & frs & T & EL & Hl' & Hfile & Ha).
  destruct (faithful_absorbed data [] _ _ Ha ltac:(constructor) Hf) as [Hf' Hg]. split; [|done].
  constructor; try done; [congruence|congruence|]. by exists frs.
Qed.
Lemma midway_settled frs w w1 w2 : midway (concat frs) w w1 → told frs w1 → same_setup (w_s w1) (w_s w2) →
  ll_arrives (f:=f) [] (w_e w1) (w_e w2) → settled w w2.
Proof.
  intros (Es & L1 & O1 & F1 & A1) T1 Hset (O2 & F2 & A2 & frs2 & L2 & T2). split; [by rewrite <- Es|]. exists (frs ++ frs2).
  split; [|split; [by rewrite L2, L1, concat_app|split; [done|]]].
  - apply Forall_app. split; [|done]. eapply List.Forall_impl; [|exact T1]. intros fr.
    apply truthful_mono, (absorbs_grows _ _ _ (proj2 A2)).
  - split; [by eapply same_file_trans|exact (absorbed_trans [] [] _ _ _ A1 A2)].
Qed.
Lemma refines_recv_content n m dst P type fl len td to : (n <= m)%nat →
  refines (recv_content (E:=E) n dst P type fl len td to) (recv_content m dst P type fl len td to).
Proof.
  intros Hle. assert (Hfull : ∀ k t, refines (val_recv_full (E:=E) n k t) (val_recv_full m k t)).
  { intros. apply refines_bind; [apply refines_refl|intros]. by apply refines_loop. }
  unfold recv_content. destruct (_ <? _); [apply refines_refl|].
  apply refines_bind; [destruct (0 <? len); [|apply refines_refl]; apply refines_bind; [apply Hfull|intros; apply refines_refl]|].
  intros rc. destruct (negb _); [apply refines_refl|]. apply refines_bind; [apply Hfull|intros; apply refines_refl].
Qed.
Lemma parse_truthful s p fr rest : session_ok s → s_cfg s = c → truthful (ll_crc (f:=f)) p fr →
  ∃ ty fl td ct, parse_frame (val_internal_crc32 (E:=E) s) (session_mtu s) (fr ++ rest) = Some (PFrame ty fl td ct, rest) ∧
    offset_there (PFrame ty fl td ct) ∧
    (ty = VAL_PKT_DATA_ACK ∨ ty = VAL_PKT_DATA_NAK → 0 <= decode_offset ty fl td (zlen ct) ct <= p).
Proof.
  intros Hok Hc (ty & d & off & incl & -> & Ht & Ho & Hd & Hlen & Hsays).
  exists ty, (flags_of ty incl), (type_data_of ty off), (content_of ty d off incl). pose proof (session_mtu_range _ Hok) as Hm.
  split; [|split].
  - rewrite (packet_frame_ext _ (val_internal_crc32 s)).
    2:{ intros l. by rewrite crc_of_cfg, Hc. }
    apply parse_frame_of; [done|apply flags_of_range|apply type_data_range|lia|lia|].
    by apply crc_range, body_bytes, content_bytes.
  - cbn. rewrite explicit_offset_flags. unfold content_of. intros [-> ->]%andb_prop.
    rewrite zlen_app, zlen_put64. pose proof (zlen_nonneg d). lia.
  - intros Hty. assert (E0 : decode_offset ty (flags_of ty incl) (type_data_of ty off) (zlen (content_of ty d off incl)) (content_of ty d off incl) = off).
    { destruct Hty as [->| ->]; unfold content_of, type_data_of; cbn [is_ack].
      - pose proof (decode_content VAL_PKT_DATA_ACK d off incl Ho) as H0. exact H0.
      - pose proof (decode_content VAL_PKT_DATA_NAK d off incl Ho) as H0. exact H0. }
    rewrite E0. split; [lia|by apply Hsays].
Qed.
(** What follows a header. *)
Lemma content_settled fuel to w w1 w2 fr frs hdr L t : session_ok (w_s w) → s_cfg (w_s w) = c → 0 < to →
  told (fr :: frs) w1 → fr ++ concat frs = hdr ++ L → zlen hdr = 8 → midway L w w1 →
  w_s w2 = w_s w1 <| s_recv_buffer := hdr ++ t |> → w_e w2 = w_e w1 →
  let '(ty, fl, n, td) := val_deserialize_frame_header hdr in
  wpp (recv_content fuel DstNull (session_mtu (w_s w)) ty fl n td to)
    (λ r w', settled w w' ∧ (fst r = VAL_OK → honest (snd r) w')) w2.
Proof.
  intros Hok Hcfg Hto T EC Hhdr M1 Es2 Ee2. unfold told in T. apply Forall_cons_1 in T as [Tfr T1].
  pose proof M1 as (Es1 & L1 & O1 & F1 & A1).
  destruct (parse_truthful (w_s w) _ fr (concat frs) Hok Hcfg Tfr) as (ty & fl & td & ct & Hp & Hoff & Hsays). rewrite EC in Hp.
  assert (Hs2 : at_stream L (w_s w) w2).
  { split; [rewrite Ee2; by apply ll_link|]. split; [by rewrite Ee2|]. rewrite Es2. cbn. by rewrite Es1. }
  assert (Hb : bytes_ok hdr).
  { rewrite <- (ztake_app_exact 8 hdr L) by done. rewrite <- EC, ztake_app_le by (pose proof (truthful_long _ _ _ Tfr); lia).
    destruct Tfr as (? & ? & ? & ? & -> & _ & _ & ? & _). by apply bytes_ok_ztake, packet_frame_bytes. }
  assert (Eb : s_recv_buffer (w_s w2) = hdr ++ t) by (by rewrite Es2).
  set (big := Nat.max fuel (S (Z.to_nat (zlen L)))). assert (Hbig : (Z.to_nat (zlen L) < big)%nat) by lia.
  pose proof (recv_rest_spec big DstNull to (w_s w) hdr _ L w2 _ _ Hok Hs2 Eb Hhdr Hb Hto Hp Hoff Hbig) as Hrest.
  destruct (val_deserialize_frame_header hdr) as [[[ty0 fl0] n0] td0].
  eapply wpp_refines; [by apply (refines_recv_content fuel big); unfold big; lia|].
  eapply wp_mono; [apply wpp_and; [apply wpt_wpp, Hrest|apply (drains_content (f:=f))]|].
  cbv beta. intros r w3 [(-> & (_ & EL3 & Ec3 & Em3) & _) (Hset3 & Hd3)]. unfold network in Hd3. rewrite Ee2 in Hd3.
  destruct (Hd3 O1) as (O3 & F3 & A3). split.
  - split; [destruct Hset3 as [X Y]; rewrite Es2 in X, Y; cbn in X, Y; rewrite Es1 in X, Y; by split|]. exists frs. split.
    { eapply List.Forall_impl; [|exact T1]. intros x. apply truthful_mono, (absorbs_grows _ _ _ (proj2 A3)). }
    split; [done|]. split; [done|]. split; [by eapply same_file_trans|exact (absorbed_trans [] [] _ _ _ A1 A3)].
  - intros _ Hty. cbn in Hty |- *. pose proof (absorbs_grows _ _ _ (proj2 A3)). unfold received, network in *. apply Hsays in Hty. lia.
Qed.
Lemma recv_settled fuel to w : ready w → 0 < to →
  wpp (val_internal_recv_packet fuel DstNull to) (λ r w', settled w w' ∧ (fst r = VAL_OK → honest (snd r) w')) w.
Proof.
  intros Hw Hto. pose proof (sok_recv _ (rd_ok _ Hw)) as Hbuf.
  unfold val_internal_recv_packet. apply wp_bind, wp_mod. set (w0 := mk_world _ _ _).
  assert (Hw0 : ready w0).
  { destruct Hw as [Hok ? ? ? ? ? ?]. constructor; try done. by destruct Hok. }
  apply wp_bind, wp_gets. apply wp_bind, wp_bind.
  eapply wp_mono; [by apply lossy_header|]. intros [rc got] w1 (frs & T1 & Hres). cbn [fst snd] in Hres.
  apply wp_bind, wp_mod, wp_ret. set (w2 := mk_world _ _ _). destruct (Z.eqb_spec rc VAL_OK) as [->|Hrc]; cbn [negb].
  2:{ assert (Hfail : keeps (hush (f:=f)) (recv_failed rc)) by (unfold recv_failed; repeat hush_step).
      assert (Hne : gives (E:=E) (recv_failed rc) (λ r, fst r ≠ VAL_OK)).
      { unfold recv_failed. destruct (_ =? _); do 2 (apply gives_bind; intros ?); by apply gives_ret. }
      eapply wp_mono; [apply (wpp_gives _ _ _ w2 Hne (Hfail w2))|]. intros r w3 (Hr & Hset & _ & Ha). split; [|done].
      apply (midway_settled frs w0 w1 w3); [exact Hres|exact T1|exact Hset|apply Ha, Hres]. }
  destruct Hres as (H8 & Egot & M1). destruct frs as [|fr frs]; [change (8 <= 0) in H8; lia|]. cbn [concat] in H8, Egot, M1.
  destruct (split_at 8 (fr ++ concat frs)) as (hdr & L & EC & Hhdr & _); [lia|].
  rewrite EC, ztake_app_exact in Egot by done. rewrite EC, zdrop_app_exact in M1 by done. subst got.
  apply wp_bind, wp_gets. change (s_recv_buffer (w_s w2)) with (zwrite (s_recv_buffer (w_s w1)) 0 hdr).
  rewrite zwrite_0, Hhdr, deserialize_app by done.
  pose proof (content_settled fuel to w0 w1 w2 fr frs hdr L (zdrop 8 (s_recv_buffer (w_s w1))) (rd_ok _ Hw0) (rd_cfg _ Hw0) Hto T1 EC Hhdr M1
    ltac:(unfold w2; cbn; by rewrite zwrite_0, Hhdr) eq_refl) as Hrest.
  destruct (val_deserialize_frame_header hdr) as [[[ty fl] n] td]. exact Hrest.
Qed.
Lemma recv_onward fuel to w : ready w → 0 < to →
  wpp (val_internal_recv_packet fuel DstNull to) (λ r w', onward w w' ∧ (fst r = VAL_OK → honest (snd r) w')) w.
Proof.
  intros Hw Hto. eapply wp_mono; [apply wpp_and; [apply (safe_recv_packet fuel DstNull to w (rd_ok _ Hw) (rd_cfg _ Hw))|by apply recv_settled]|].
  intros r w' [(Hok & Hc & _) [Hst Hh]]. split; [|done]. apply settled_onward; [done|done| |done]. rewrite Hc. apply Hw.
Qed.
Lemma honest_onward pkt w w' : onward w w' → honest pkt w → honest pkt w'.
Proof. intros (_ & _ & Hle) Hh Ht. specialize (Hh Ht). lia. Qed.
Lemma evolves_then {A B} (m : M (world E) A) (k : A → M (world E) B) (Q : B → world E → Prop) w w0 :
  keeps evolves m → onward w0 w → (∀ a w', onward w0 w' → wpp (k a) Q w') → wpp (mbind m k) Q w.
Proof.
  intros Hm Hw Hk. apply wp_bind. eapply wp_mono; [apply Hm|]. intros a w' He. apply Hk.
  eapply onward_trans; [exact Hw|]. apply He, Hw.
Qed.
Lemma evolves_gets {A} (g : val_session_t → A) : keeps evolves (gets_s g).
Proof. apply keeps_gets, _. Qed.
Lemma evolves_ticks : keeps evolves get_ticks_ms.
Proof. apply (evolves_hush 0); [apply safe_ticks|apply hush_ticks]. Qed.
Lemma deadline_onward fuel deadline slice scratch w : ready w → 0 < slice →
  wpp (val_internal_recv_until_deadline fuel deadline slice scratch)
    (λ r w', onward w w' ∧ (fst (fst r) = VAL_OK → honest (snd (fst r)) w')) w.
Proof.
  intros Hw Hsl. unfold val_internal_recv_until_deadline. apply (wpp_loop (λ _ w', onward w w')); [|by apply onward_refl].
  intros _ w1 H1. unfold recv_slice.
  eapply evolves_then; [apply evolves_gets|exact H1|]. clear w1 H1. intros cc w1 H1.
  destruct cc; [by apply wp_ret|].
  eapply evolves_then; [apply evolves_ticks|exact H1|]. clear w1 H1. intros now w1 H1. cbv zeta. set (sl := if _ =? 0 then 1 else _).
  assert (0 < sl) by (unfold sl; repeat case_match; lia). clearbody sl.
  apply wp_bind. eapply wp_mono; [apply recv_onward; [apply H1|done]|]. intros [st pkt] w2 [H2 Hh]. cbn [fst snd] in Hh.
  assert (H12 : onward w w2) by (by eapply onward_trans).
  destruct (Z.eqb_spec st VAL_OK) as [->|Hst].
  - specialize (Hh eq_refl). destruct (_ && _); [|by apply wp_ret]. apply wp_bind, wp_gets.
    destruct (_ <=? _); by apply wp_ret.
  - destruct (_ && _); [by apply wp_ret; split|].
    eapply evolves_then; [apply evolves_ticks|exact H12|]. intros t w3 H3. destruct (_ <=? _); by apply wp_ret.
Qed.
Lemma evolves_deadline fuel deadline slice scratch : 0 < slice →
  keeps evolves (val_internal_recv_until_deadline fuel deadline slice scratch).
Proof.
  intros Hsl w. unfold wp. destruct (val_internal_recv_until_deadline _ _ _ _ w) as [[r w']|] eqn:Er; [|done]. intros Hw.
  by destruct (wpp_elim _ _ _ _ _ (deadline_onward fuel deadline slice scratch w Hw Hsl) Er).
Qed.
End ready.
