(* ===== verification/StopAndWait.v ===== *)
(** Stop and wait: the sender's data phase with a window of one packet on a line that
    loses, delays, repeats and reorders frames ([Lossy]).  Every DATA packet carries its
    offset then, and whatever happens the receiver's file is a prefix of the sender's;
    when [send_file_data_adaptive] reports success it is the whole file. *)
From S2P Require Import Prelude ByteOrder Wire Errors Crc Sanitize Timing Session Simulation Window Packet Frame.
From S2P Require Import Control Resume Peer Sender Trace DataPhase Link Windows Lossy.

Section evolving.
Context {E : Type} `{!Hooks E} `{!StreamLink E} `{!FileStore E} {f : handle} `{!LossyLink E f} `{!BuildOptions}.
Context {c : val_config_t} {mtu : Z} {data : list Z}.
Context (Hcrc : ∀ l, cfg_crc c l = ll_crc (f:=f) l).

#[local] Abbreviation evolving m := (keeps (evolves (f:=f) (c:=c) (mtu:=mtu) (data:=data)) m).

(** ** Bookkeeping *)

Lemma evolves_upd n g : safe (E:=E) c n (upd g) → (∀ s, same_setup s (g s)) → evolving (upd g).
Proof. intros Hs Hg. apply (evolves_hush n); [done|by apply hush_upd]. Qed.
Lemma evolves_lock : evolving val_internal_lock.
Proof.
  apply (evolves_upd 1); [|by split]. apply safe_upd. intros s Hs _.
  split; [destruct Hs; by constructor|by repeat split].
Qed.
Lemma evolves_unlock : evolving val_internal_unlock.
Proof.
  apply (evolves_upd (-1)); [|by split]. apply safe_upd. intros s Hs _.
  split; [destruct Hs; by constructor|by repeat split].
Qed.
Lemma evolves_flush : evolving val_internal_transport_flush.
Proof. apply (evolves_hush 0); [apply safe_flush|apply hush_flush]. Qed.
Lemma evolves_delay t : evolving (delay_ms t).
Proof. apply (evolves_hush 0); [apply safe_delay|]. apply hush_call_unit; [done|apply ll_delay]. Qed.
Lemma evolves_call {A} (h : E → A * E) ev : (∀ a, frames_of [ev a] = []) →
  (∀ e, ll_ok e → ll_arrives (f:=f) [] e (snd (h e))) → evolving (call h ev).
Proof. intros. apply (evolves_hush 0); [apply safe_call|by apply hush_call]. Qed.
Lemma evolves_error st d o : evolving (val_internal_set_last_error_full (E:=E) st d o).
Proof. apply (evolves_upd 0); [apply safe_set_error|by split]. Qed.
Lemma evolves_metrics g : evolving (upd_metrics (E:=E) g).
Proof. apply (evolves_upd 0); [apply safe_upd_metrics|by split]. Qed.
Lemma evolves_retransmit b : evolving (set_in_retransmit_flag (E:=E) b).
Proof. apply (evolves_upd 0); [apply safe_set_in_retransmit|by split]. Qed.
Lemma evolves_operation : evolving VAL_HEALTH_RECORD_OPERATION.
Proof.
  pose proof (safe_record_operation (E:=E) (c:=c)) as Hs. unfold VAL_HEALTH_RECORD_OPERATION in *.
  destruct VAL_BUILD_DIAGNOSTICS; [by apply (evolves_upd 0)|apply keeps_ret, _].
Qed.
Lemma evolves_retry : evolving VAL_HEALTH_RECORD_RETRY.
Proof.
  pose proof (safe_record_retry (E:=E) (c:=c)) as Hs. unfold VAL_HEALTH_RECORD_RETRY in *.
  destruct VAL_BUILD_DIAGNOSTICS; [by apply (evolves_upd 0)|apply keeps_ret, _].
Qed.
Lemma evolves_success : evolving (val_internal_record_transmission_success (E:=E)).
Proof.
  apply (evolves_upd 0); [apply safe_record_success|]. intros s. unfold record_transmission_success.
  by repeat (case_match; try done).
Qed.
Lemma evolves_failure : evolving (val_internal_record_transmission_error (E:=E)).
Proof.
  apply (evolves_upd 0); [apply safe_record_error|]. intros s. unfold record_transmission_error.
  by repeat (case_match; try done).
Qed.
Lemma evolves_rtt r : u32_ok r → evolving (val_internal_record_rtt (E:=E) r).
Proof.
  intros Hr. apply (evolves_hush 0); [by apply safe_record_rtt|]. unfold val_internal_record_rtt.
  apply keeps_bind; [apply _|apply keeps_gets, _|intros s]. destruct (record_rtt _ _); [|apply keeps_ret, _].
  apply keeps_bind; [apply _|by apply hush_upd|intros _; by apply hush_upd].
Qed.
End evolving.

Ltac evolves_step :=
  lazymatch goal with
  | |- keeps evolves (mbind _ _) => apply keeps_bind; [apply _| |intros ?]
  | |- keeps evolves (mret _) => apply keeps_ret, _
  | |- keeps evolves get_s => apply keeps_gets, _
  | |- keeps evolves val_check_for_cancel => apply keeps_gets, _
  | |- keeps evolves (val_internal_get_timeout _) => apply keeps_gets, _
  | |- keeps evolves (loop _ _ _) => apply keeps_loop; [apply _|intros ?]
  | |- keeps evolves (match ?x with _ => _ end) => destruct x
  | |- keeps evolves (let _ := _ in _) => cbv zeta
  | |- keeps evolves _ =>
      first [ apply evolves_ticks | apply evolves_lock | apply evolves_unlock | apply evolves_flush | apply evolves_delay
            | apply evolves_error | apply evolves_metrics | apply evolves_retransmit | apply evolves_operation
            | apply evolves_retry | apply evolves_success | apply evolves_failure | apply evolves_rtt, u32_range ]
  end.

Section waiting.
Context {E : Type} `{!Hooks E} `{!StreamLink E} `{!FileStore E} {f : handle} `{!LossyLink E f} `{!BuildOptions}.
Context {c : val_config_t} {mtu : Z} {data : list Z}.
Context (Hcrc : ∀ l, cfg_crc c l = ll_crc (f:=f) l).

#[local] Abbreviation evolving m := (keeps (evolves (f:=f) (c:=c) (mtu:=mtu) (data:=data)) m).

(** ** Callbacks, and the cancellation they may ask for *)

Lemma evolves_tries n b l : evolving (emergency_tries n b l).
Proof.
  revert b l. induction n as [|n IH]; intros b l; cbn; [apply keeps_ret, _|].
  apply keeps_bind; [apply _|by apply evolves_send_ctrl|intros st]. apply keeps_bind; [apply _|apply evolves_delay|intros _]. apply IH.
Qed.
Lemma evolves_cancel : evolving val_emergency_cancel.
Proof. unfold val_emergency_cancel. repeat first [apply evolves_tries | evolves_step]. Qed.
Lemma evolves_callback (h : E → bool * E) ev : frames_of [ev] = [] →
  (∀ e, ll_ok e → ll_arrives (f:=f) [] e (snd (h e))) → evolving (callback h ev).
Proof.
  intros Hev Hh. unfold callback. apply keeps_bind; [apply _|by apply evolves_call|intros []]; repeat first [apply evolves_cancel | evolves_step].
Qed.
Lemma evolves_file_start n p s o : evolving (on_file_start n p s o).
Proof. unfold on_file_start. repeat first [by apply evolves_callback, ll_start | evolves_step]. Qed.
Lemma evolves_file_complete n p r : evolving (on_file_complete n p r).
Proof. unfold on_file_complete. repeat first [by apply evolves_callback, ll_complete | evolves_step]. Qed.
Lemma evolves_progress ctx n b force : evolving (val_emit_progress_sender ctx n b force).
Proof. unfold val_emit_progress_sender. repeat first [by apply evolves_callback, ll_progress | evolves_step]. Qed.
Lemma evolves_check_health : evolving val_internal_check_health.
Proof. unfold val_internal_check_health. repeat evolves_step. Qed.

(** ** DONE *)

Lemma evolves_wait_done fuel size : evolving (val_internal_wait_done_ack fuel size).
Proof.
  unfold val_internal_wait_done_ack, val_internal_wait_control, wait_control_body, val_internal_backoff_step, sample_rtt,
    accept_done_ack_cb, retry_send_done_cb.
  repeat first [apply evolves_deadline; [done|lia] | by apply evolves_send_ctrl | evolves_step].
Qed.
End waiting.

(** ** Where the sender is *)

Section phases.
Context {E : Type} `{!Hooks E} `{!StreamLink E} `{!FileStore E} {f : handle} `{!LossyLink E f} `{!BuildOptions}.
Context {c : val_config_t} {mtu : Z} {data : list Z}.
Context (Hcrc : ∀ l, cfg_crc c l = ll_crc (f:=f) l) (Hmtu : mtu < 2 ^ 16 + 12) (Hbig : zlen data < 2 ^ 63).

#[local] Abbreviation size := (zlen data).
(** With nothing beyond [n] ever sent. *)
#[local] Abbreviation upto n := (ready (f:=f) (c:=c) (mtu:=mtu) (data:=ztake n data)).
#[local] Abbreviation got := (received (f:=f)).
(** Where the packet at [pos] ends. *)
Definition reach (pos : Z) : Z := pos + payload_len mtu size pos true.

Definition opened (pos : Z) (e : E) : Prop := fs_ok f e ∧ fs_data f e = data ∧ fs_pos f e = pos.
(** Nothing under way that is not acknowledged, as far as the sender knows. *)
Record idle (l : send_state) (w : world E) : Prop := {
  id_ready : upto (reach (ss_last_acked l)) w;
  id_file : opened (ss_last_acked l) (w_e w);
  id_next : ss_next_to_send l = ss_last_acked l;
  id_cursor : ss_cursor l = ss_last_acked l;
  id_inflight : ss_inflight l = 0;
  id_win : ss_win l = 1;
  id_acked : 0 <= ss_last_acked l <= got w
}.
(** The packet before [next] is. *)
Record awaiting (next : Z) (l : send_state) (w : world E) : Prop := {
  aw_ready : upto next w;
  aw_file : opened next (w_e w);
  aw_next : ss_next_to_send l = next;
  aw_cursor : ss_cursor l = next;
  aw_win : ss_win l = 1;
  aw_acked : 0 <= ss_last_acked l <= got w;
  aw_reach : next <= reach (ss_last_acked l);
  aw_size : 0 <= next <= size
}.

Lemma opened_same pos (e e' : E) : same_file f e e' → opened pos e → opened pos e'.
Proof. intros Hs (Ho & Hd & Hp). destruct (Hs Ho) as (? & ? & ?). split; [done|]. split; congruence. Qed.
Lemma ztake_prefix n m (l : list Z) : n <= m → ztake n l `prefix_of` ztake m l.
Proof.
  intros Hle. unfold ztake. exists (drop (Z.to_nat n) (take (Z.to_nat m) l)).
  rewrite <- (take_drop (Z.to_nat n) (take (Z.to_nat m) l)) at 1. rewrite take_take. do 2 f_equal. lia.
Qed.
Lemma ready_mono D D' (w : world E) : D `prefix_of` D' →
  ready (f:=f) (c:=c) (mtu:=mtu) (data:=D) w → ready (f:=f) (c:=c) (mtu:=mtu) (data:=D') w.
Proof. intros HD []. constructor; try done. by eapply faithful_mono. Qed.
Lemma upto_mono n m w : n <= m → upto n w → upto m w.
Proof. intros Hle. by apply ready_mono, ztake_prefix. Qed.
Lemma received_upto n w : upto n w → 0 <= n → got w <= n ∧ got w <= size.
Proof.
  intros Hw Hn. destruct (proj1 (rd_faithful w Hw)) as [k Ek]. unfold received.
  assert (zlen (nt_file (network (f:=f) w)) <= zlen (ztake n data)) by (rewrite Ek, zlen_app; pose proof (zlen_nonneg k); lia).
  assert (zlen (ztake n data) <= n ∧ zlen (ztake n data) <= size) by (unfold ztake, zlen; rewrite length_take; lia). lia.
Qed.
Lemma reach_bounds pos : 512 <= mtu → 0 <= pos <= size → pos <= reach pos <= size ∧ (pos < size → pos < reach pos).
Proof. intros. unfold reach, payload_len. lia. Qed.
Lemma reach_mono a b : a <= b → reach a <= reach b.
Proof. unfold reach, payload_len. lia. Qed.
Lemma upto_mtu n w : upto n w → 512 <= mtu ∧ session_mtu (w_s w) = mtu.
Proof.
  intros Hw. pose proof (session_mtu_range _ (rd_ok _ Hw)) as Hr.
  rewrite (session_mtu_ok _ (rd_ok _ Hw)), (rd_mtu _ Hw) in *. split; [lia|done].
Qed.

#[local] Abbreviation goes n := (onward (f:=f) (c:=c) (mtu:=mtu) (data:=ztake n data)).
Lemma idle_onward l w w' : goes (reach (ss_last_acked l)) w w' → idle l w → idle l w'.
Proof.
  intros (Hw & Hs & Hg) [? ? ? ? ? ? ?]. constructor; try done; [by eapply opened_same|lia].
Qed.
Lemma awaiting_onward next l w w' : goes next w w' → awaiting next l w → awaiting next l w'.
Proof.
  intros (Hw & Hs & Hg) [? ? ? ? ? ? ? ?]. constructor; try done; [by eapply opened_same|lia].
Qed.

(** ** One packet *)

Lemma wpt_of_wpp {A} (m : M (world E) A) (P Q : A → world E → Prop) w : wpt m P w → wpp m Q w → wpt m Q w.
Proof. unfold wp. by destruct (m w) as [[a w']|]. Qed.
Lemma packet_sent fuel l w : idle l w → ss_last_acked l < size → (2 <= fuel)%nat →
  wpt (send_data_packet fuel f (mtu - 12) size true l)
    (λ r w', ready (f:=f) (c:=c) (mtu:=mtu) (data:=data) w' ∧ got w <= got w' ∧
       (fst r = VAL_OK → awaiting (reach (ss_last_acked l)) (snd r) w' ∧ ss_inflight (snd r) = 1 ∧ ss_last_acked (snd r) = ss_last_acked l)) w.
Proof.
  intros [Hw (Hf & Ed & Ep) En Ec Ei Ew Ha] Hlt Hfuel. destruct (upto_mtu _ _ Hw) as [Hm Em].
  set (pos := ss_last_acked l) in *. destruct (reach_bounds pos Hm ltac:(lia)) as [Hr Hr']. specialize (Hr' Hlt).
  pose proof (λ Q, send_data_rule fuel f size true l w Q (rd_ok _ Hw) Hf Hfuel) as Hrule. rewrite Em, En, Ec, Ed, Ep in Hrule.
  apply Hrule; [done|lia|lia|done|]. clear Hrule. cbv zeta. set (n := payload_len mtu size pos true).
  assert (Hreach : reach pos = pos + n) by done. set (d := zslice data pos n).
  intros w2 (Hok2 & Ec2 & _) [b Eb] Hpd (evs & Etr & _) He. specialize (He eq_refl).
  pose proof (fs_read_law f n (w_e w) Hf ltac:(lia) ltac:(lia)) as Hread.
  destruct (ll_read (f:=f) n _ (rd_line _ Hw)) as (Ho2 & En2 & EL2). rewrite Ed, Ep in Hread. fold d in Hread.
  destruct (hk_fread f n (w_e w)) as [x e2] eqn:Ee. destruct Hread as (-> & Hf2 & Ep2 & Ed2). cbn [snd] in *. subst e2.
  assert (Hd : zlen d = n) by (apply zlen_zslice; lia). rewrite Hd in Ep2.
  assert (Hw2 : upto (reach pos) w2).
  { destruct Hw as [? ? ? ? ? Hfa Hfr]. constructor; try done; [congruence|by rewrite Eb|by rewrite Eb| |].
    - unfold network. by rewrite En2.
    - unfold framed. by rewrite EL2, En2. }
  destruct (upto_mtu _ _ Hw2) as [_ Em2].
  destruct (data_room _ mtu size pos true d Hok2 Em2 Hlt Hd) as (Hct & Hfit & Hroom). fold n in Hct, Hfit, Hroom.
  pose proof (fs_bytes f _ Hf) as Hby.
  assert (Hsend : wpp (val_internal_send_packet_ex VAL_PKT_DATA PContent n pos true) (λ _ w', goes (reach pos) w2 w') w2).
  { apply (send_onward VAL_PKT_DATA PContent n pos true d w2 Hw2); [|done|done|lia|].
    - apply (safe_data_frame n pos true mtu); [lia| |lia]. rewrite <- (rd_cfg _ Hw2).
      pose proof (session_mtu_range _ Hok2) as Hr2. rewrite Em2 in Hr2. lia.
    - intros crc. rewrite carried_data by lia. apply Forall_cons_2; [|constructor]. rewrite Hreach. apply true_slice; lia. }
  pose proof (send_core_spec VAL_PKT_DATA PContent n pos true d w2 Hok2 Hpd Hroom ltac:(lia)) as Hterm.
  eapply wp_mono; [eapply wpt_of_wpp; [exact Hterm|exact Hsend]|]. intros st w3 H3. cbv beta in H3. pose proof H3 as (Hw3 & Hs3 & Hg3).
  assert (Hgot : got w2 = got w) by (unfold received, network; by rewrite En2).
  split; [|split; [lia|]].
  { rewrite <- (ztake_all size data) by lia. eapply upto_mono; [|exact Hw3]. lia. }
  destruct (Z.eqb_spec st VAL_OK); [|done]. intros _. cbn [fst snd]. split; [|split; [cbn; by rewrite Ei|done]].
  constructor; cbn [ss_next_to_send ss_last_acked ss_cursor ss_win ss_inflight set_field set_ss_next_to_send set_ss_inflight set_ss_cursor];
    try done; try lia.
  apply (opened_same _ _ _ Hs3). split; [done|]. split; [congruence|]. rewrite Ep2, Hreach. congruence.
Qed.

(** ** Ways out *)

#[local] Abbreviation fine := (ready (f:=f) (c:=c) (mtu:=mtu) (data:=data)).
Lemma upto_fine n w : upto n w → fine w.
Proof. apply ready_mono. rewrite <- (ztake_zdrop n data) at 2. by exists (zdrop n data). Qed.
Lemma closed w : fine w → wpp (fs_fclose f) (λ _ w', fine w' ∧ got w <= got w') w.
Proof.
  intros Hw. apply wp_mod. destruct Hw as [? ? ? ? Ho Hf (frs & EL & Hfr)].
  destruct (ll_close _ Ho) as (Ho' & Ha & EL'). destruct (faithful_absorbed data [] _ _ Ha ltac:(constructor) Hf) as [Hf' Hg].
  split; [|done]. constructor; try done. exists frs. split; [cbn; congruence|].
  eapply List.Forall_impl; [|exact Hfr]. intros fr. by apply truthful_mono.
Qed.
Lemma close_complete name path st w : fine w →
  wpp (close_and_complete f name path st) (λ st' w', st' = st ∧ fine w' ∧ got w <= got w') w.
Proof.
  intros Hw. unfold close_and_complete. apply wp_bind. eapply wp_mono; [by apply closed|]. intros _ w1 [Hw1 Hg1].
  eapply evolves_then; [by apply evolves_file_complete|by apply onward_refl|]. intros _ w2 (Hw2 & _ & Hg2).
  apply wp_ret. split; [done|]. split; [done|lia].
Qed.
(** Nothing but an error, the file closed. *)
Definition failed {A} (r : Z + A) (w w' : world E) : Prop := fine w' ∧ got w <= got w' ∧ ∃ st, r = inl st ∧ st ≠ VAL_OK.
Lemma close_fails {A B} name path st w : fine w → st ≠ VAL_OK →
  wpp (let! st' := close_and_complete f name path st in mret (inr (inl st'))) (λ (r : A + (Z + B)) w', ∃ r', r = inr r' ∧ failed r' w w') w.
Proof.
  intros Hw Hst. apply wp_bind. eapply wp_mono; [by apply close_complete|]. intros st' w1 (-> & Hw1 & Hg1).
  apply wp_ret. eexists. split; [done|]. split; [done|]. split; [done|]. by eexists.
Qed.
Lemma failed_after {A} (r : Z + A) w w1 w2 : got w <= got w1 → failed r w1 w2 → failed r w w2.
Proof. intros Hg (? & ? & ?). split; [done|]. split; [lia|done]. Qed.

(** ** A window *)

Lemma refines_send_data n m mp sz incl l : (n <= m)%nat → refines (send_data_packet (E:=E) n f mp sz incl l) (send_data_packet m f mp sz incl l).
Proof.
  intros Hle. unfold send_data_packet. repeat (case_match; try apply refines_refl). all: cbv zeta.
  all: repeat (case_match; try apply refines_refl).
  all: apply refines_bind; [apply refines_refl|intros ?]; apply refines_bind; [by apply refines_loop|intros; apply refines_refl].
Qed.
Lemma idle_awaits l w : idle l w → size <= ss_last_acked l → awaiting (reach (ss_last_acked l)) l w.
Proof.
  intros [Hw Hf En Ec Ei Ew Ha] Hge. destruct (upto_mtu _ _ Hw) as [Hm _].
  pose proof (zlen_nonneg data). assert (Hr : 0 <= reach (ss_last_acked l)) by (unfold reach, payload_len; lia).
  destruct (received_upto _ _ Hw Hr) as [_ Hlast].
  assert (Er : reach (ss_last_acked l) = ss_last_acked l) by (unfold reach, payload_len; lia). rewrite Er in *.
  constructor; rewrite ?Er; try done; lia.
Qed.
Lemma window_sent fuel fuel' name path l w : idle l w →
  wpp (loop fuel (fill_window_body fuel' f name path size (mtu - 12)) l)
    (λ r w', failed r w w' ∨ (got w <= got w' ∧ ∃ l', r = inr l' ∧ awaiting (reach (ss_last_acked l)) l' w' ∧ ss_last_acked l' = ss_last_acked l)) w.
Proof.
  intros Hid. remember (ss_last_acked l) as pos eqn:E0.
  apply (wpp_loop (λ l1 w1, got w <= got w1 ∧ ss_last_acked l1 = pos ∧
    (idle l1 w1 ∨ awaiting (reach pos) l1 w1 ∧ ss_inflight l1 = 1))).
  2:{ split; [lia|]. split; [done|by left]. }
  clear Hid l E0. intros l w1 (Hg & Epos & Hph). unfold fill_window_body.
  destruct Hph as [Hid|[Haw Ei]].
  - pose proof Hid as [Hw _ En Ec Ei Ew Ha]. rewrite Ei, Ew, En, Epos.
    change (0 <? 1) with true. cbn [andb]. destruct (Z.ltb_spec pos size) as [Hlt|Hge].
    2:{ apply wp_ret. right. split; [done|]. exists l. rewrite <- Epos. split; [done|]. split; [|done].
        apply idle_awaits; [done|lia]. }
    apply wp_bind, wp_gets. destruct (_ =? VAL_ERR_ABORTED).
    { eapply wp_mono; [apply close_fails; [by eapply upto_fine|done]|]. intros r w2 (r' & -> & Hfail). left. by eapply failed_after. }
    cbv zeta. rewrite Z.eqb_refl. apply wp_bind.
    eapply wpp_refines; [apply (refines_send_data fuel' (Nat.max 2 fuel')); lia|].
    eapply wp_mono; [apply wpt_wpp, packet_sent; [done|lia|lia]|]. intros [st l2] w2 (Hw2 & Hg2 & Hst). cbn [fst snd] in Hst.
    destruct (Z.eqb_spec st VAL_OK) as [->|Hne]; cbn [negb].
    + apply wp_ret. destruct (Hst eq_refl) as (Haw & Ei2 & Ea2). rewrite Epos in Haw. split; [lia|]. split; [congruence|]. by right.
    + apply wp_bind. eapply wp_mono; [by apply closed|]. intros _ w3 [Hw3 Hg3]. apply wp_ret. left. split; [done|]. split; [lia|]. by eexists.
  - pose proof Haw as [_ _ _ _ Ew _ _ _]. rewrite Ei, Ew. change ((1 <? 1) && (ss_next_to_send l <? size)) with false. cbv iota.
    apply wp_ret. right. split; [done|]. by exists l.
Qed.

(** ** Its acknowledgement *)

Lemma window_is_one n w : upto n w → session_window (w_s w) = 1.
Proof.
  intros Hw. pose proof (sok_window _ (rd_ok _ Hw)) as Hwin. rewrite (rd_one _ Hw) in Hwin. unfold session_window.
  destruct (Z.eqb_spec (s_current_window_packets (w_s w)) 0); lia.
Qed.
Lemma rewound n next pos w : upto n w → opened next (w_e w) → 0 <= next <= size → 0 <= pos <= size →
  wpp (rewind_file f pos) (λ _ w', upto n w' ∧ opened pos (w_e w') ∧ got w' = got w) w.
Proof.
  intros Hw (Hf & Ed & Ep) Hnext Hpos. unfold rewind_file. apply wp_bind, wp_lift.
  destruct (ll_tell (f:=f) _ (rd_line _ Hw) Hf) as (Et & Ho' & Hsame & En & EL).
  destruct (hk_ftell f (w_e w)) as [t e]. cbn [fst snd] in *. subst t. rewrite Ep.
  destruct (Hsame Hf) as (Hf' & Ed' & Ep'). set (w1 := mk_world _ _ _).
  assert (Hw1 : upto n w1).
  { destruct Hw as [? ? ? ? ? Hfa Hfr]. constructor; try done; [unfold network; cbn; by rewrite En|].
    unfold framed. cbn. by rewrite EL, En. }
  assert (Hgot : got w1 = got w) by (unfold received, network; cbn; by rewrite En).
  rewrite u64_small by lia. replace (next <? 0) with false by lia. cbn [orb].
  destruct (Z.eqb_spec next pos) as [->|]; cbn [negb].
  { apply wp_ret. split; [done|]. split; [|done]. split; [done|]. split; cbn; congruence. }
  rewrite i64_small by lia. apply wp_bind, wp_lift. change (w_e w1) with e.
  pose proof (fs_seek_law f pos e Hf' ltac:(rewrite Ed', Ed; lia)) as Hs. destruct (ll_seek (f:=f) pos _ Ho') as (Ho2 & En2 & EL2).
  destruct (hk_fseek f pos SEEK_SET e) as [r e2]. destruct Hs as (-> & Hf2 & Ep2 & Ed2). cbn [snd] in *. apply wp_ret.
  split; [|split; [split; [done|split; cbn; congruence]|unfold received, network; cbn; congruence]].
  destruct Hw1 as [? ? ? ? ? Hfa Hfr]. constructor; try done; [unfold network; cbn; by rewrite En2|].
  unfold framed. cbn. by rewrite EL2, En2.
Qed.

(** What an acknowledgement leads to: further waiting, an error, or the next packet. *)
Definition acked (next : Z) (w : world E) (r : send_state + Z * bool * send_state) (w' : world E) : Prop :=
  got w <= got w' ∧ match r with
  | inl l => awaiting next l w'
  | inr (st, _, l) => fine w' ∧ (st = VAL_OK → idle l w')
  end.
Lemma acked_after next w w1 r w' : got w <= got w1 → acked next w1 r w' → acked next w r w'.
Proof. intros ? []. split; [lia|done]. Qed.
Lemma acked_error next w b l st w' : goes next w w' → st ≠ VAL_OK → acked next w (inr (st, b, l)) w'.
Proof. intros (Hw & _ & Hg) Hst. split; [done|]. split; [by eapply upto_fine|done]. Qed.

(** Back to the last acknowledged byte. *)
Lemma restart next l w w0 : goes next w0 w → awaiting next l w0 →
  wpp (rewind_file f (ss_last_acked l)) (λ _ w', got w0 <= got w' ∧ ∀ l', ss_last_acked l' = ss_last_acked l →
     ss_next_to_send l' = ss_last_acked l → ss_cursor l' = ss_last_acked l → ss_inflight l' = 0 → ss_win l' = session_window (w_s w') →
     fine w' ∧ idle l' w') w.
Proof.
  intros Hgo Haw. pose proof (awaiting_onward _ _ _ _ Hgo Haw) as [Hw Hf En Ec Ew Ha Hr Hs].
  pose proof (received_upto _ _ Hw (proj1 Hs)) as Hgot. pose proof Hgo as (_ & _ & Hg).
  eapply wp_mono; [apply (rewound next next); [done|done|lia|lia]|].
  intros _ w' (Hw' & Hf' & Eg). split; [lia|]. intros l' E1 E2 E3 E4 E5. split; [by eapply upto_fine|].
  rewrite (window_is_one _ _ Hw') in E5. constructor; rewrite ?E1; try done; [by eapply upto_mono|lia].
Qed.

Section waiting_for_ack.
Context {next : Z} {a : ack_ctx}.
Context (Hfile : ac_file a = f) (Hsz : ac_file_size a = size) (Hmp : ac_max_payload a = mtu - 12) (Htgt : ac_target_ack a = next).

Lemma nak_rewinds off l w w0 : goes next w0 w → awaiting next l w0 → 0 <= off <= got w →
  wpp (window_ack_nak a off l) (λ r w', acked next w0 r w') w.
Proof.
  intros Hgo Haw Hoff. unfold window_ack_nak. rewrite Hfile, Hsz.
  set (l1 := if _ && _ then _ else l).
  assert (Haw1 : awaiting next l1 w).
  { pose proof (awaiting_onward _ _ _ _ Hgo Haw) as Haw1. unfold l1. destruct (_ && _) eqn:Eb; [|done].
    destruct Haw1 as [? ? ? ? ? ? Hreach ?]. constructor; try done. cbn.
    pose proof (reach_mono (ss_last_acked l) off). lia. }
  clearbody l1. destruct Hgo as (_ & _ & Hg). pose proof (onward_refl _ (aw_ready _ _ _ Haw1)) as G.
  unfold handle_nak_retransmit. apply wp_bind. do 4 (eapply evolves_then; [evolves_step|eassumption|intros _ ? ?]).
  apply wp_bind. eapply wp_mono; [by eapply restart|]. intros _ w5 [Hg5 Hk]. apply wp_ret, wp_bind, wp_gets, wp_ret.
  split; [lia|]. match goal with |- context [idle ?x _] => destruct (Hk x) as [? ?] end; done.
Qed.
Lemma retry_rewinds st l w w0 : goes next w0 w → awaiting next l w0 →
  wpp (window_ack_retry a st l) (λ r w', acked next w0 r w') w.
Proof.
  intros Hgo Haw. unfold window_ack_retry. rewrite Hfile.
  do 6 (eapply evolves_then; [repeat evolves_step|eassumption|intros _ ? ?]).
  apply wp_bind. eapply wp_mono; [by eapply restart|]. intros _ w5 [Hg5 Hk]. apply wp_bind, wp_gets, wp_ret.
  split; [lia|]. match goal with |- context [idle ?x _] => destruct (Hk x) as [? ?] end; done.
Qed.
Lemma ack_advances off l w w0 : goes next w0 w → awaiting next l w0 → ss_last_acked l < off <= got w →
  wpp (window_ack_advance a off l) (λ r w', acked next w0 r w') w.
Proof.
  intros Hgo Haw Hoff. pose proof (awaiting_onward _ _ _ _ Hgo Haw) as [Hw Hf En Ec Ew Ha Hr Hs].
  pose proof (received_upto _ _ Hw (proj1 Hs)) as Hgot. destruct Hgo as (_ & _ & Hg).
  pose proof (onward_refl _ Hw) as G. unfold window_ack_advance. rewrite Hmp, Htgt.
  do 2 (eapply evolves_then; [repeat evolves_step|eassumption|intros ? ? ?]). cbv zeta.
  eapply evolves_then; [apply (evolves_upd 0); [benign|by split]|eassumption|intros _ w3 G3].
  eapply evolves_then; [by apply evolves_progress|eassumption|intros p w4 G4].
  apply wp_bind, wp_gets. destruct (_ =? VAL_ERR_ABORTED).
  { apply wp_ret. destruct G4 as (H4 & _ & Hg4). split; [lia|]. split; [by eapply upto_fine|done]. }
  do 2 (eapply evolves_then; [evolves_step|eassumption|intros ? ? ?]).
  match goal with HG : goes next w ?w6 |- wpp _ _ ?w6 => destruct HG as (H6 & F6 & G6) end.
  pose proof (opened_same _ _ _ F6 Hf) as Hf6.
  cbn [ss_last_acked set_field set_ss_progress set_ss_last_acked set_ss_inflight set_ss_tries set_ss_backoff].
  destruct (Z.ltb_spec off next); apply wp_ret; (split; [lia|]).
  - constructor; try done; cbn; [lia|]. pose proof (reach_mono (ss_last_acked l) off). lia.
  - split; [by eapply upto_fine|]. intros _. assert (off = next) as -> by lia.
    assert (Hn : 512 <= mtu) by apply (upto_mtu _ _ Hw). destruct (reach_bounds next Hn ltac:(lia)) as [Hb _].
    constructor; [apply (upto_mono next); [change (next <= reach next); lia|done]|done|done|done| |done|cbn; lia]. cbn.
    rewrite En, Z.ltb_irrefl, u64_small by lia. by rewrite Z.div_small by lia.
Qed.
Lemma ack_taken off l w w0 : goes next w0 w → awaiting next l w0 → 0 <= off <= got w →
  wpp (window_ack_ack a off l) (λ r w', acked next w0 r w') w.
Proof.
  intros Hgo Haw Hoff. pose proof (awaiting_onward _ _ _ _ Hgo Haw) as Haw1. destruct Hgo as (_ & _ & Hg).
  pose proof (onward_refl _ (aw_ready _ _ _ Haw1)) as G. unfold window_ack_ack.
  eapply evolves_then; [evolves_step|eassumption|intros now w1 G1].
  eapply evolves_then; [apply (evolves_upd 0); [benign|by split]|eassumption|intros _ w2 G2].
  do 2 (eapply evolves_then; [repeat evolves_step|eassumption|intros ? ? ?]). cbv zeta.
  match goal with HG : goes next w ?w6 |- wpp _ _ ?w6 => rename w6 into w4; rename HG into G4 end.
  set (l1 := l <| ss_grace := false |>). assert (Hl1 : awaiting next l1 w) by (by destruct Haw1; constructor).
  pose proof G4 as (_ & _ & Hg4). destruct (Z.leb_spec off (ss_last_acked l1)).
  - apply wp_ret. split; [lia|]. by eapply awaiting_onward.
  - eapply wp_mono; [apply (ack_advances off l1 w4 w); [done|done|lia]|]. intros r w5. by apply acked_after.
Qed.
Lemma ack_turn_lossy fuel l w : awaiting next l w → wpp (window_ack_body fuel a l) (λ r w', acked next w r w') w.
Proof.
  intros Haw. pose proof (onward_refl _ (aw_ready _ _ _ Haw)) as G. unfold window_ack_body.
  eapply evolves_then; [evolves_step|exact G|intros cc w1 G1]. destruct (cc : bool); [apply wp_ret; by eapply acked_error|].
  eapply evolves_then; [evolves_step|exact G1|intros now w2 G2]. cbv zeta. apply wp_bind.
  eapply wp_mono; [apply (deadline_onward (mtu:=mtu) (data:=ztake next data) Hcrc); [apply G2|lia]|]. intros [[st pkt] sc] w3 [G3 Hh]. cbn [fst snd] in Hh.
  assert (G' : goes next w w3) by (by eapply onward_trans).
  destruct (Z.eqb_spec st VAL_OK) as [->|Hst].
  - specialize (Hh eq_refl). destruct (pkt_type pkt =? VAL_PKT_CANCEL); [apply wp_ret; by eapply acked_error|].
    destruct (Z.eqb_spec (pkt_type pkt) VAL_PKT_DATA_NAK) as [Et|]; [apply nak_rewinds; [done|done|by apply Hh; right]|].
    destruct (Z.eqb_spec (pkt_type pkt) VAL_PKT_DATA_ACK) as [Et|]; [apply ack_taken; [done|done|by apply Hh; left]|].
    destruct (_ =? _); apply wp_ret; [by eapply acked_error|]. split; [apply G'|by eapply awaiting_onward].
  - destruct (_ && _); [apply wp_ret; by eapply acked_error|]. destruct (_ =? 0); [|by apply retry_rewinds].
    eapply evolves_then; [repeat evolves_step|exact G'|intros _ w4 G4]. apply wp_ret. by eapply acked_error.
Qed.
Lemma window_acknowledged fuel fuel' l w : awaiting next l w →
  wpp (loop fuel (window_ack_body fuel' a) l)
    (λ r w', got w <= got w' ∧ fine w' ∧ (fst (fst r) = VAL_OK → idle (snd r) w')) w.
Proof.
  intros Haw. apply (wpp_loop (λ l1 w1, got w <= got w1 ∧ awaiting next l1 w1)); [|by split; [lia|]].
  intros l1 w1 [Hg Haw1]. eapply wp_mono; [by apply ack_turn_lossy|]. intros [l2|[[st b] l2]] w2 [Hg2 Hr]; split; (done || lia).
Qed.
End waiting_for_ack.

(** ** All windows *)

Lemma idle_same l l' w : idle l w → ss_last_acked l' = ss_last_acked l → ss_next_to_send l' = ss_next_to_send l →
  ss_cursor l' = ss_cursor l → ss_inflight l' = ss_inflight l → ss_win l' = ss_win l → idle l' w.
Proof. intros [] E1 E2 E3 E4 E5. constructor; rewrite ?E1; done || congruence. Qed.
Definition progressed_or_failed (w : world E) (r : send_state + (Z + send_state)) (w' : world E) : Prop :=
  match r with
  | inl l => got w <= got w' ∧ idle l w'
  | inr (inr l) => got w <= got w' ∧ idle l w'
  | inr (inl st) => failed (inl st : Z + send_state) w w'
  end.
Lemma turn_stands fuel name path ack_to l w : idle l w →
  wpp (window_turn fuel f name path size (mtu - 12) ack_to l) (progressed_or_failed w) w.
Proof.
  intros Hid. unfold window_turn. apply wp_bind. eapply wp_mono; [by apply window_sent|].
  intros r w1 [(Hw1 & Hg1 & st & -> & Hst)|(Hg1 & l1 & -> & Haw & Ea)].
  { apply wp_ret. split; [done|]. split; [done|]. by eexists. }
  set (next := reach (ss_last_acked l)) in *. pose proof (onward_refl _ (aw_ready _ _ _ Haw)) as G.
  do 4 (eapply evolves_then; [evolves_step|eassumption|intros ? ? ?]). cbv zeta.
  match goal with HG : goes next w1 ?w6 |- wpp _ _ ?w6 => rename w6 into w4; rename HG into G4 end.
  pose proof (awaiting_onward _ _ _ _ G4 Haw) as Haw4. pose proof G4 as (_ & _ & Hg4). apply wp_bind.
  eapply wp_mono; [apply (window_acknowledged (next:=next)); [done|done|done|exact (aw_next _ _ _ Haw4)|done]|].
  intros [[st restart] l5] w5 (Hg5 & Hw5 & Hid5). cbn [fst snd] in Hid5. destruct (Z.eqb_spec st VAL_OK) as [->|Hst]; cbn [negb].
  - specialize (Hid5 eq_refl). destruct restart.
    + apply wp_bind, wp_gets, wp_ret. split; [lia|]. eapply idle_same; [exact Hid5|done..|].
      cbn. rewrite (window_is_one _ _ (id_ready _ _ Hid5)). symmetry. apply Hid5.
    + apply wp_ret. split; [lia|done].
  - eapply wp_mono; [by apply close_fails|]. intros r w6 (r' & -> & Hf6). eapply (failed_after _ w) in Hf6; [|lia].
    pose proof Hf6 as (_ & _ & st' & -> & _). exact Hf6.
Qed.
Lemma turns_stand fuel fuel' name path ack_to l w : idle l w →
  wpp (loop fuel (window_turn fuel' f name path size (mtu - 12) ack_to) l) (λ r w', progressed_or_failed w (inr r) w') w.
Proof.
  intros Hid. apply (wpp_loop (λ l1 w1, got w <= got w1 ∧ idle l1 w1)); [|by split; [lia|]].
  intros l1 w1 [Hg1 Hid1]. eapply wp_mono; [by apply turn_stands|]. intros [l2|[st|l2]] w2 H2.
  - destruct H2. split; [lia|done].
  - by eapply failed_after in H2.
  - destruct H2. split; [lia|done].
Qed.
Lemma health_stands name path l w : idle l w →
  wpp (data_health f name path) (λ h w', match h with
    | None => got w <= got w' ∧ idle l w'
    | Some st => failed (inl st : Z + send_state) w w' end) w.
Proof.
  intros Hid. set (n := reach (ss_last_acked l)). pose proof (onward_refl _ (id_ready _ _ Hid)) as G. fold n in G.
  assert (Hout : ∀ st w1 (k : Z → M (world E) (option Z)), goes n w w1 → st ≠ VAL_OK →
    (∀ st' w2, fine w2 → got w <= got w2 → st' = st → wpp (k st') (λ h w', ∃ h', h = Some h' ∧ failed (inl h' : Z + send_state) w w') w2) →
    wpp (let! st' := close_and_complete f name path st in k st') (λ h w', match h with
      | None => got w <= got w' ∧ idle l w' | Some st => failed (inl st : Z + send_state) w w' end) w1).
  { intros st w1 k (Hw1 & _ & Hg1) Hst Hk. apply wp_bind. eapply wp_mono; [apply close_complete; by eapply upto_fine|].
    intros st' w2 (-> & Hw2 & Hg2). eapply wp_mono; [apply Hk; [done|lia|done]|]. intros h w3 (h' & -> & Hf). exact Hf. }
  unfold data_health. eapply evolves_then; [evolves_step|exact G|intros _ w1 G1].
  eapply evolves_then; [apply evolves_check_health|exact G1|intros h w2 G2].
  destruct (Z.eqb_spec h VAL_OK). { apply wp_ret. split; [apply G2|by eapply idle_onward]. }
  destruct (_ =? VAL_ERR_PERFORMANCE).
  - eapply evolves_then; [evolves_step|exact G2|intros _ w3 G3].
    eapply evolves_then; [apply (evolves_upd 0); [benign|by split]|exact G3|intros _ w4 G4].
    apply wp_bind, wp_gets. destruct (2 <=? _).
    + apply Hout; [done|done|]. intros st' w5 Hw5 Hg5 ->. apply wp_bind.
      eapply wp_mono; [apply (evolves_error (c:=c) (mtu:=mtu) (data:=data))|]. intros ? w6 H6. destruct (H6 Hw5) as (Hw6 & _ & Hg6).
      apply wp_ret. eexists. split; [done|]. split; [done|]. split; [lia|]. by eexists.
    + apply wp_ret. split; [apply G4|by eapply idle_onward].
  - apply Hout; [done|done|]. intros st' w5 Hw5 Hg5 ->. apply wp_ret. eexists. split; [done|]. split; [done|]. split; [lia|]. by eexists.
Qed.
Lemma windows_stand fuel name path off l w : idle l w →
  wpp (send_windows_body fuel f name path size (mtu - 12) off l)
    (λ r w', progressed_or_failed w r w' ∧ (∀ l', r = inr (inr l') → size <= got w')) w.
Proof.
  intros Hid. unfold send_windows_body. destruct (Z.ltb_spec (ss_last_acked l) size) as [Hlt|Hge].
  2:{ apply wp_ret. split; [split; [lia|done]|]. intros _ _. pose proof (id_acked _ _ Hid). lia. }
  apply wp_bind, wp_gets. destruct (_ =? VAL_ERR_ABORTED).
  { eapply wp_mono; [apply close_fails; [eapply upto_fine, Hid|done]|]. intros r w1 (r' & -> & Hf).
    split; [|by destruct Hf as (_ & _ & st & -> & _)]. pose proof Hf as (_ & _ & st & -> & _). exact Hf. }
  apply wp_bind. eapply wp_mono; [by apply health_stands|]. intros [st|] w1 H1; [by apply wp_ret|]. destruct H1 as [Hg1 Hid1].
  apply wp_bind, wp_gets, wp_bind, wp_gets. cbv zeta. match goal with |- context [loop fuel _ ?x] => set (l1 := x) end.
  assert (Hl1 : idle l1 w1) by (by eapply idle_same). apply wp_bind.
  eapply wp_mono; [by apply turns_stand|]. intros [st|l2] w2 H2; apply wp_ret; (split; [|done]).
  - eapply (failed_after _ w) in H2; [exact H2|done].
  - destruct H2. split; [lia|done].
Qed.
Lemma all_stand fuel fuel' name path off l w : idle l w →
  wpp (loop fuel (send_windows_body fuel' f name path size (mtu - 12) off) l)
    (λ r w', match r with inl st => failed (inl st : Z + send_state) w w' | inr l' => fine w' ∧ size <= got w' end) w.
Proof.
  intros Hid. apply (wpp_loop (λ l1 w1, got w <= got w1 ∧ idle l1 w1)); [|by split; [lia|]].
  intros l1 w1 [Hg1 Hid1]. eapply wp_mono; [by apply windows_stand|]. intros [l2|[st|l2]] w2 [H2 Hend].
  - destruct H2. split; [lia|done].
  - by eapply failed_after in H2.
  - destruct H2 as [_ Hid2]. split; [eapply upto_fine, Hid2|by eapply Hend].
Qed.

(** ** The end of the file, and the whole body *)

Lemma done_stands fuel name path w : fine w → wpp (send_done fuel f name path size) (λ _ w', fine w' ∧ got w <= got w') w.
Proof.
  intros Hw. pose proof (onward_refl _ Hw) as G. unfold send_done.
  assert (Hout : ∀ st w1, onward (f:=f) (c:=c) (mtu:=mtu) (data:=data) w w1 →
    wpp (close_and_complete f name path st) (λ _ w', fine w' ∧ got w <= got w') w1).
  { intros st w1 (Hw1 & _ & Hg1). eapply wp_mono; [by apply close_complete|]. intros ? w2 (_ & Hw2 & Hg2). split; [done|lia]. }
  eapply evolves_then; [by apply evolves_send_ctrl|exact G|intros st w1 G1]. destruct (negb _); [by apply Hout|].
  eapply evolves_then; [by apply evolves_wait_done|exact G1|intros st' w2 G2]. destruct (negb _); [by apply Hout|].
  apply wp_bind. eapply wp_mono; [apply closed, G2|]. intros _ w3 [Hw3 Hg3]. pose proof (onward_refl _ Hw3) as G3.
  eapply evolves_then; [by apply evolves_file_complete|exact G3|intros _ w4 G4].
  do 2 (eapply evolves_then; [evolves_step|eassumption|intros ? ? ?]). apply wp_ret.
  match goal with HG : onward w3 ?w6 |- fine ?w6 ∧ _ => destruct HG as (H6 & _ & Hg6); split; [exact H6|] end.
  destruct G2 as (_ & _ & Hg2). lia.
Qed.
Lemma body_stands fuel name path pos prog w : upto pos w → opened pos (w_e w) → 0 <= pos <= got w → pos <= size →
  wpp (send_file_body fuel f name path size pos 1 prog) (λ r w', fine w' ∧ (fst r = VAL_OK → size <= got w')) w.
Proof.
  intros Hw Hf Hpos Hsize. pose proof (onward_refl _ Hw) as G. unfold send_file_body.
  eapply evolves_then; [by apply evolves_file_start|exact G|intros _ w1 G1].
  eapply evolves_then; [by apply evolves_progress|exact G1|intros p w2 G2].
  eapply evolves_then; [evolves_step|exact G2|intros cc w3 G3]. pose proof G3 as (Hw3 & Hs3 & Hg3). destruct (cc : bool).
  { apply wp_bind. eapply wp_mono; [apply close_complete; by eapply upto_fine|]. intros st w4 (-> & Hw4 & _). by apply wp_ret. }
  apply wp_bind, wp_gets. cbv zeta. destruct (upto_mtu _ _ Hw3) as [Hm ->]. unfold VAL_WIRE_HEADER_SIZE, VAL_WIRE_TRAILER_SIZE.
  replace (mtu <=? 8 + 4) with false by lia. rewrite u32_small by lia. replace (mtu - 8 - 4) with (mtu - 12) by lia.
  set (l := mk_send _ _ _ _ _ _ _ _ _). assert (Hid : idle l w3).
  { constructor; try done; [|by eapply opened_same|cbn; lia]. change (ss_last_acked l) with pos.
    apply (upto_mono pos); [|done]. apply (reach_bounds pos Hm). lia. }
  apply wp_bind. eapply wp_mono; [by apply all_stand|]. intros [st|l4] w4 H4.
  - destruct H4 as (Hw4 & _ & st' & Est & Hne). injection Est as ->. apply wp_ret. by split.
  - destruct H4 as [Hw4 Hg4]. apply wp_bind. eapply wp_mono; [by apply done_stands|]. intros st w5 [Hw5 Hg5].
    apply wp_ret. split; [done|]. intros _. lia.
Qed.
End phases.

(** C5: stop and wait is safe. With a window of one packet of less than 2^16 + 12 bytes, on a line that loses, delays,
    repeats and reorders the frames of both directions in any way, the data phase of the
    sender never makes the receiver's file anything but a prefix of the file it sends;
    and when it reports success the receiver has the whole file. This holds for any
    resume offset and whatever the clock, the callbacks and the health check do - errors,
    cancellation and retries included. *)
Theorem stop_and_wait_safe {E} `{!Hooks E} `{!StreamLink E} `{!FileStore E} {f : handle} `{!LossyLink E f} `{!BuildOptions}
    fuel name path pos prog (w : world E) :
  let data := fs_data f (w_e w) in
  session_ok (w_s w) → session_mtu (w_s w) < 2 ^ 16 + 12 → s_negotiated_window_packets (w_s w) = 1 →
  (∀ l, val_internal_crc32 (E:=E) (w_s w) l = ll_crc (f:=f) l) →
  ll_ok (f:=f) (w_e w) → link_in (w_e w) = [] → ll_net (f:=f) (w_e w) = mk_net (ztake pos data) [] →
  fs_ok f (w_e w) → fs_pos f (w_e w) = pos → 0 <= pos <= zlen data → zlen data < 2 ^ 63 →
  wpp (send_file_body fuel f name path (zlen data) pos 1 prog)
    (λ r w', let file := nt_file (ll_net (f:=f) (w_e w')) in
       file `prefix_of` data ∧ (fst r = VAL_OK → file = data)) w.
Proof.
  intros data Hok Hmtu Hone Hcrc Hl EL Enet Hf Ep Hpos Hbig.
  assert (Hgot : received (f:=f) w = pos) by (unfold received, network; rewrite Enet; by apply zlen_ztake).
  eapply wp_mono; [apply (body_stands (f:=f) (c:=s_cfg (w_s w)) (mtu:=session_mtu (w_s w)) (data:=data)); first [done|lia|by intros; rewrite <- crc_of_cfg|idtac]|].
  - constructor; try done; [by rewrite session_mtu_ok| |].
    + unfold network. rewrite Enet. by split.
    + exists []. by rewrite EL.
  - cbv beta zeta. intros r w' [Hw' Hend]. pose proof (proj1 (rd_faithful _ Hw')) as Hp. split; [exact Hp|].
    intros Hr. specialize (Hend Hr). destruct Hp as [k Ek]. unfold received, network in *. rewrite Ek, zlen_app in Hend.
    destruct k; [by rewrite app_nil_r in Ek|]. rewrite zlen_cons in Hend. pose proof (zlen_nonneg k). lia.
Qed.

(** ** The concrete peer, whatever the line drops *)

Lemma high32_u64 o : 0 <= o → high32 (u64 o) = high32 o.
Proof.
  intros Ho. unfold high32, u64, u32. change 0xFFFFFFFF with (2 ^ 32 - 1). rewrite !land_mask, !shiftr_div, !Z.mod_mod by lia.
  rewrite (Z.div_mod o (2 ^ 64)) at 2 by lia. replace (2 ^ 64 * (o / 2 ^ 64)) with (o / 2 ^ 64 * 2 ^ 32 * 2 ^ 32) by lia.
  rewrite Z.div_add_l by lia. rewrite Z.add_comm, Z.mod_add by lia. done.
Qed.
Lemma low32_u64 o : low32 (u64 o) = low32 o.
Proof. rewrite !low32_val. unfold u64. apply Z.mod_mod_divide. by exists (2 ^ 32). Qed.
Lemma ack_or_nak type : is_ack type = true ∨ type = VAL_PKT_DATA_NAK → 0 <= type < 256 ∧ (type =? VAL_PKT_DATA) = false.
Proof. unfold is_ack, VAL_PKT_DATA, VAL_PKT_DATA_ACK, VAL_PKT_DATA_NAK, VAL_PKT_DONE_ACK, VAL_PKT_EOT_ACK. lia. Qed.
(** An offset in a control packet is a [uint64_t]. *)
Lemma packet_frame_u64 crc type d off incl : is_ack type = true ∨ type = VAL_PKT_DATA_NAK → 0 <= off →
  packet_frame crc type d (u64 off) incl = packet_frame crc type d off incl.
Proof.
  intros Ht Ho. unfold packet_frame, type_data_of, content_of. rewrite high32_u64, low32_u64 by done.
  by rewrite (proj2 (ack_or_nak _ Ht)).
Qed.
Lemma truthful_control p type d off incl : is_ack type = true ∨ type = VAL_PKT_DATA_NAK → 0 <= off <= p → bytes_ok d →
  zlen d <= 4 → truthful val_crc32 p (packet_frame val_crc32 type d off incl).
Proof.
  intros Ht Ho Hd Hl. pose proof (u64_range off) as Hr. rewrite <- packet_frame_u64 by (done || lia).
  assert (Hle : u64 off <= off) by (unfold u64; apply Z.mod_le; lia).
  exists type, d, (u64 off), incl. split; [done|]. split; [|split; [exact Hr|split; [done|split; [|lia]]]].
  - by apply ack_or_nak.
  - unfold content_of. rewrite (proj2 (ack_or_nak _ Ht)). repeat case_match; autorewrite with zlen; rewrite ?zlen_put32; lia.
Qed.
Lemma reply_truthful fr F : ∃ frs, fst (peer_reply fr (zlen F)) = concat frs ∧
  Forall (truthful val_crc32 (zlen (F ++ peer_writes fr (zlen F)))) frs.
Proof.
  set (p := zlen F). rewrite zlen_app. fold p. pose proof (zlen_nonneg F) as H0. fold p in H0.
  pose proof (zlen_nonneg (peer_writes fr p)) as Hw. revert Hw. unfold peer_reply, peer_writes.
  assert (Ha : ∀ type off q, is_ack type = true → 0 <= off <= q →
    Forall (truthful val_crc32 q) [packet_frame val_crc32 type [] off true]).
  { intros type off q Ht Ho. constructor; [|constructor]. apply truthful_control; try done; [by left|constructor]. }
  destruct (carried fr) as [|[o d] l]; cbv zeta.
  - destruct (_ =? VAL_PKT_DONE); cbn [fst]; intros _; [|by exists []].
    eexists [_]. cbn [concat]. rewrite app_nil_r. split; [done|]. apply Ha; [done|]. change (zlen []) with 0. lia.
  - destruct (Z.eqb_spec (default p o) p); intros Hd; [|destruct (_ <? p)]; cbn [fst]; change (zlen []) with 0.
    + eexists [_]. cbn [concat]. rewrite app_nil_r. split; [done|]. apply Ha; [done|lia].
    + eexists [_]. cbn [concat]. rewrite app_nil_r. split; [done|]. apply Ha; [done|lia].
    + eexists [_; _]. cbn [concat]. rewrite app_nil_r. split; [done|]. constructor; [|apply Ha; [done|lia]].
      apply truthful_control; [by right|lia|apply put32_ok|by cbv].
Qed.
Lemma reply_absorbed fr F : absorbed (carried fr) (mk_net F []) (mk_net (F ++ peer_writes fr (zlen F)) []).
Proof.
  split; [intros x Hx; by apply elem_of_nil in Hx|]. cbn [nt_file nt_sent]. rewrite app_nil_r. unfold peer_writes.
  destruct (carried fr) as [|[o d] l]; [rewrite app_nil_r; constructor|].
  destruct (Z.eqb_spec (default (zlen F) o) (zlen F)) as [Eo|]; [|rewrite app_nil_r; constructor].
  eapply ab_data; [by left| |constructor]. by intros off ->.
Qed.

(** Nothing sent and nothing arrived. *)
Ltac still := split; [done|]; split; [done|]; split; [apply absorbed_refl|]; exists []; split; [by rewrite app_nil_r|constructor].
#[export] Program Instance peer_lossy f : LossyLink peer f := {|
  ll_ok e := bytes_ok (pe_in e);
  ll_net e := mk_net (pe_file e) [];
  ll_crc := val_crc32
|}.
Next Obligation. done. Qed.
Next Obligation.
  intros f n t e Hb Hne. cbn in *. unfold peer_recv. destruct (pe_in e) as [|z l]; [done|].
  split; [by apply bytes_ok_zdrop|]. by split.
Qed.
Next Obligation.
  intros f n t e Hb Hin. cbn in *. unfold peer_recv. rewrite Hin. split; [done|]. split; [constructor|]. split; [done|].
  split; [apply absorbed_refl|]. exists []. split; [done|constructor].
Qed.
Next Obligation.
  intros f fr e Hb. cbn in *. unfold peer_send. set (F := pe_file e).
  assert (Hsame : ∀ e', pe_sim e' = pe_sim e → same_file f e e') by (intros e' Es; unfold same_file; cbn; by rewrite Es).
  destruct (pe_drop e) as [|[|] dr]; cbn [head tail snd].
  2:{ split; [done|]. split; [by apply Hsame|]. split; [apply (absorbed_mono []); [intros x Hx; by apply elem_of_nil in Hx|apply absorbed_refl]|].
      exists []. split; [by rewrite app_nil_r|constructor]. }
  all: (split; [apply bytes_ok_app; split; [done|apply reply_bytes]|]; split; [by apply Hsame|]; split; [apply reply_absorbed|];
        destruct (reply_truthful fr F) as (frs & Er & Ht); exists frs; cbn; by rewrite Er).
Qed.
Next Obligation. intros. by still. Qed.
Next Obligation. done. Qed.
Next Obligation. done. Qed.
Next Obligation. intros. by still. Qed.
Next Obligation. done. Qed.
Next Obligation. intros. by still. Qed.
Next Obligation. intros. by still. Qed.
Next Obligation. intros. by still. Qed.
Next Obligation. intros f e Hb. split; [done|]. split; [apply absorbed_refl|done]. Qed.
Next Obligation. intros f o e Hb. cbn. unfold on_sim. by destruct (sim_fseek f o SEEK_SET (pe_sim e)). Qed.
Next Obligation. intros f n e Hb. cbn. unfold on_sim. by destruct (sim_fread f n (pe_sim e)). Qed.
Next Obligation. done. Qed.

(** The first two of the packets that bring 700 of 1300 bytes are lost, and the third
    the second time; each comes again after a timeout. *)
Definition lossy_w : world peer :=
  mk_world demo_s (mk_peer (mk_sim [] 1000 [([102], region_file)] [([102], 600, ModeRead)]) [] (ztake 600 region_file)
    [true; true; false; true]) [].
Definition lossy_run : option (Z * option val_send_progress_ctx_t * world peer) :=
  send_file_body (Z.to_nat 3000) 0 [102] [102] (zlen (fs_data (E:=peer) 0 (w_e lossy_w))) 600 1 None lossy_w.
Lemma stop_and_wait_safe_witness :
  match lossy_run with
  | Some (st, _, w') => st = VAL_OK ∧ length (sent_frames w') = 6%nat ∧ pe_file (w_e w') = region_file
  | None => False
  end.
Proof.
  assert (Hrun : match lossy_run with Some (st, _, w') => st = VAL_OK ∧ length (sent_frames w') = 6%nat | None => False end)
    by (vm_compute; done).
  assert (Hlen : zlen region_file = 1300) by (vm_compute; reflexivity).
  assert (Hw : wpp (send_file_body (Z.to_nat 3000) 0 [102] [102] (zlen (fs_data (E:=peer) 0 (w_e lossy_w))) 600 1 None)
    (λ r w', fst r = VAL_OK → pe_file (w_e w') = region_file) lossy_w).
  { eapply wp_mono; [apply (@stop_and_wait_safe peer peer_hooks peer_link peer_store 0 (peer_lossy 0) demo_build)|].
    - exact demo_s_ok.
    - by vm_compute.
    - reflexivity.
    - reflexivity.
    - constructor.
    - reflexivity.
    - reflexivity.
    - exact region_file_ok.
    - reflexivity.
    - change (0 <= 600 <= zlen region_file). rewrite Hlen. lia.
    - change (zlen region_file < 2 ^ 63). rewrite Hlen. lia.
    - cbv beta zeta. intros r w' [_ Hend]. exact Hend. }
  pose proof (wpp_result _ _ _ lossy_run Hw eq_refl) as Hres. clear Hw.
  destruct lossy_run as [[[st p] w']|]; [|destruct Hrun].
  destruct Hrun as [-> Hsent]. split; [reflexivity|]. split; [exact Hsent|]. exact (Hres eq_refl).
Defined.
