(* ===== verification/Transfer.v ===== *)
(** Whole transfers ([val_send_files] and [val_receive_files]): what a call leaves of the session, and
    complete runs of both ends against each other. *)
From S2P Require Import Prelude ByteOrder Wire Errors Crc Sanitize Timing Session Simulation Window Packet Frame.
From S2P Require Import Control Handshake Resume Sender Receiver Trace Typestate Callbacks.

(** What a call may change of the session. *)
Definition session_kept {E} (w w' : world E) : Prop := stable 0 (w_s w) (w_s w').

(** C1: a call leaves the session usable, whatever the peer and the hooks do. A sender
    or receiver call that starts from a session satisfying the invariant ends with one:
    same configuration, packet size and window within what was configured and
    negotiated, timing and counters in range, the caller's buffers never written past
    their end, and the recursive mutex released as often as it was taken on every
    return path. *)
Theorem transfer_keeps_session {E} `{!Hooks E} `{!BuildOptions} fuel files sp dir (w : world E) :
  session_ok (w_s w) →
  wpp (val_send_files fuel files sp) (λ _ w', session_kept w w') w ∧
  wpp (val_receive_files fuel dir) (λ _ w', session_kept w w') w.
Proof. intros Hok. split.
  - by apply (safe_send_files (c := s_cfg (w_s w))).
  - by apply (safe_receive_files (c := s_cfg (w_s w))). Qed.

(** ** Two sessions against each other *)

Definition frames_in (l : list arrival) : list (list Z) :=
  omap (λ a, match a with Bytes d => Some d | Silence _ => None end) l.
Definition frames_out (r : option (Z * world sim)) : list (list Z) :=
  match r with Some (_, w) => sent_frames w | None => [] end.
Definition demo_fr (type : Z) (data : list Z) (off : Z) : list Z := session_frame (E:=sim) demo_s type data off true.
Definition demo_path : list Z := [102].
Definition demo_file : list Z := map (λ i, Z.of_nat i mod 251) (seq 0 992).
Definition demo_hello : list Z := val_serialize_handshake (val__fill_local_hello demo_s 512).
Definition demo_fuel : nat := 3000.

(** What the sender hears: [acks] during the data phase, the rest of a normal transfer around. *)
Definition to_sender (acks : list arrival) : list arrival :=
  [Bytes (demo_fr VAL_PKT_HELLO demo_hello 0);
   Bytes (demo_fr VAL_PKT_RESUME_RESP (val_serialize_resume_resp (mk_resume_resp 0 0 0 0)) 0)] ++ acks ++
  [Bytes (demo_fr VAL_PKT_DONE_ACK [] 992); Bytes (demo_fr VAL_PKT_EOT_ACK [] 0)].
Definition sender_run (acks : list arrival) : option (Z * world sim) :=
  val_send_files demo_fuel [demo_path] None (sim_world demo_s (sim_start (to_sender acks) [(demo_path, demo_file)])).
Definition receiver_run (frames : list (list Z)) : option (Z * world sim) :=
  val_receive_files demo_fuel None (sim_world demo_s (sim_start (map Bytes frames) [])).

(** A transfer in which nothing is lost: two DATA packets, acknowledged one by one. *)
Definition good_acks : list arrival :=
  [Bytes (demo_fr VAL_PKT_DATA_ACK [] 492); Bytes (demo_fr VAL_PKT_DATA_ACK [] 992)].
(** The first DATA packet is lost: the sender hears of a position it never sent to, then
    nothing until it times out. *)
Definition bad_acks : list arrival :=
  [Bytes (demo_fr VAL_PKT_DATA_ACK [] 500); Silence 2000; Bytes (demo_fr VAL_PKT_DATA_ACK [] 992)].

(** Without loss, a complete run of both ends - handshake, metadata, resume
    negotiation, data, DONE, EOT - is consistent: the receiver hears exactly the
    frames the sender sent and the sender exactly those the receiver sent, both
    calls return VAL_OK with the whole script consumed, and the file arrives. *)
Theorem lossless_transfer :
  match sender_run good_acks with
  | Some (st_s, ws) =>
      match receiver_run (sent_frames ws) with
      | Some (st_r, wr) =>
          st_s = VAL_OK ∧ st_r = VAL_OK ∧ sim_in (w_e ws) = [] ∧ sim_in (w_e wr) = [] ∧
          sent_frames wr = frames_in (to_sender good_acks) ∧
          sim_content demo_path (w_e wr) = demo_file
      | None => False
      end
  | None => False
  end.
Proof. vm_compute. repeat split. Qed.

(** One lost DATA packet corrupts the file silently ([lost_packet_corrupts] for any file), in a
    complete run of both ends. Of the frames the sender sends,
    the receiver misses one: the first DATA packet, the only one of its window to carry
    an offset. The second is taken at the receiver's position, the sender accepts the
    acknowledgement of a position that is no packet boundary, resends from there, and
    both calls return VAL_OK, each having heard all other frames of the other, with a
    file of the right length and the wrong content. *)
Theorem lost_packet_run :
  match sender_run bad_acks with
  | Some (st_s, ws) =>
      match receiver_run (delete 3%nat (sent_frames ws)) with
      | Some (st_r, wr) =>
          st_s = VAL_OK ∧ st_r = VAL_OK ∧ sim_in (w_e ws) = [] ∧ sim_in (w_e wr) = [] ∧
          sent_frames wr = frames_in (to_sender bad_acks) ∧
          zlen (sim_content demo_path (w_e wr)) = zlen demo_file ∧
          sim_content demo_path (w_e wr) = drop 492 demo_file ++ drop 500 demo_file ∧
          sim_content demo_path (w_e wr) ≠ demo_file
      | None => False
      end
  | None => False
  end.
Proof. vm_compute. repeat split. discriminate. Qed.

Lemma transfer_keeps_session_witness :
  match sender_run good_acks with Some (st, w) => st = VAL_OK ∧ s_lock_depth (w_s w) = 0 | None => False end.
Proof.
  assert (Hs : match sender_run good_acks with Some (st, _) => st = VAL_OK | None => False end)
    by (vm_compute; reflexivity).
  pose proof (wpp_result _ _ _ (sender_run good_acks)
    (proj1 (transfer_keeps_session demo_fuel [demo_path] None None
       (sim_world demo_s (sim_start (to_sender good_acks) [(demo_path, demo_file)])) demo_s_ok)) eq_refl) as Hw.
  destruct (sender_run good_acks) as [[st w]|]; [|destruct Hs]. split; [exact Hs|].
  destruct Hw as (_ & _ & Hl & _). exact Hl.
Defined.

(** ** What the two ends do not agree on *)

Definition big_file : list Z := map (λ i, Z.of_nat i mod 251) (seq 0 4000).
Definition frame_type (fr : list Z) : Z := nth 0 fr 0.

(** An acknowledgement is believed whatever it claims. Nothing compares the offset of
    a DATA_ACK with what was sent or with the size of the file: a single one beyond the
    end makes the sender skip the rest of a file of 4000 bytes, of which two packets
    of 512 bytes went out, and report it as sent. *)
Theorem ack_not_checked :
  match val_send_files demo_fuel [demo_path] None
          (sim_world demo_s (sim_start (to_sender [Bytes (demo_fr VAL_PKT_DATA_ACK [] (2 ^ 40))]) [(demo_path, big_file)])) with
  | Some (st, w) =>
      st = VAL_OK ∧ sim_in (w_e w) = [] ∧
      map zlen (filter (λ fr, frame_type fr = VAL_PKT_DATA) (sent_frames w)) = [512; 512] ∧
      m_files_sent (s_metrics (w_s w)) = 1
  | None => False
  end.
Proof. vm_compute. repeat split. Qed.

(** A control packet that is repeated because its answer was lost ends the call
    ([repeated_control_fatal] in general), with the frames of a sender's run. The sender
    repeats HELLO and DONE when their answers do not come, but the receiver, who has answered
    and waits for metadata, takes the second one for a protocol error - after DONE with the
    whole file already in place. *)
Theorem repeated_control_run :
  let fr := frames_out (sender_run good_acks) in
  let again k := receiver_run (take (S k) fr ++ take 1 (drop k fr) ++ drop (S k) fr) in
  map frame_type fr = [VAL_PKT_HELLO; VAL_PKT_SEND_META; VAL_PKT_RESUME_REQ; VAL_PKT_DATA; VAL_PKT_DATA;
                       VAL_PKT_DONE; VAL_PKT_EOT] ∧
  (match again 0%nat with Some (st, _) => st = VAL_ERR_PROTOCOL | None => False end) ∧
  (match again 5%nat with
   | Some (st, w) => st = VAL_ERR_PROTOCOL ∧ sim_content demo_path (w_e w) = demo_file ∧
                     In (demo_fr VAL_PKT_DONE_ACK [] 992) (sent_frames w)
   | None => False end).
Proof. vm_compute. repeat split. by repeat (first [left; reflexivity | right]). Qed.

(** A transfer of an empty file, for a receiver in the given mode. *)
Definition empty_acks : list arrival :=
  [Bytes (demo_fr VAL_PKT_HELLO demo_hello 0);
   Bytes (demo_fr VAL_PKT_RESUME_RESP (val_serialize_resume_resp (mk_resume_resp 0 0 0 0)) 0);
   Bytes (demo_fr VAL_PKT_DONE_ACK [] 0); Bytes (demo_fr VAL_PKT_EOT_ACK [] 0)].
Definition send_empty : option (Z * world sim) :=
  val_send_files demo_fuel [demo_path] None (sim_world demo_s (sim_start empty_acks [(demo_path, [])])).
Definition receive_empty (mode : Z) : option (Z * world sim) :=
  val_receive_files demo_fuel None
    (sim_world (sim_session (demo_config <| cfg_resume_mode := mode |>))
       (sim_start (map Bytes (frames_out send_empty)) [])).

(** An empty file does not arrive when resuming is on. The receiver takes "nothing
    left to receive" for "skip", so in every mode but NEVER a new file of length zero
    is not created; both calls return VAL_OK, the sender's application is told that the
    file is complete and the receiver's that it was skipped. *)
Theorem empty_file_not_created :
  match send_empty with
  | Some (st, w) => st = VAL_OK ∧ In (EvFileComplete demo_path demo_path VAL_OK) (w_tr w)
  | None => False end ∧
  Forall (λ mode,
    match receive_empty mode with
    | Some (st, w) => st = VAL_OK ∧ sim_in (w_e w) = [] ∧ sim_lookup demo_path (sim_files (w_e w)) = None ∧
                      In (EvFileComplete demo_path demo_path VAL_SKIPPED) (w_tr w)
    | None => False end)
    [VAL_RESUME_SKIP_EXISTING; VAL_RESUME_TAIL] ∧
  match receive_empty VAL_RESUME_NEVER with
  | Some (st, w) => st = VAL_OK ∧ sim_lookup demo_path (sim_files (w_e w)) = Some []
  | None => False end.
Proof.
  split; [vm_compute; split; [reflexivity|by repeat (first [left; reflexivity | right])]|].
  split; [|by vm_compute].
  repeat (constructor; [vm_compute; repeat split; by repeat (first [left; reflexivity | right])|]). constructor.
Qed.

(** Two files of one batch. *)
Definition one_file (n : Z) : list arrival :=
  [Bytes (demo_fr VAL_PKT_RESUME_RESP (val_serialize_resume_resp (mk_resume_resp 0 0 0 0)) 0);
   Bytes (demo_fr VAL_PKT_DATA_ACK [] n); Bytes (demo_fr VAL_PKT_DONE_ACK [] n)].
Definition batch_run : option (Z * world sim) :=
  val_send_files demo_fuel [demo_path; [103]] None
    (sim_world demo_s (sim_start
      (Bytes (demo_fr VAL_PKT_HELLO demo_hello 0) :: one_file 300 ++ one_file 200 ++ [Bytes (demo_fr VAL_PKT_EOT_ACK [] 0)])
      [(demo_path, ztake 300 demo_file); ([103], ztake 200 demo_file)])).
Definition progress_infos (w : world sim) : list val_progress_info_t :=
  rev (omap (λ ev, match ev with EvProgress i => Some i | _ => None end) (w_tr w)).

(** The sender's progress reports forget the files before. Neither the number of
    files completed nor the bytes of completed files is ever updated: in a batch of 300
    and 200 bytes, sent in full, the bytes reported as transferred fall back to 0 at
    the second file and end at 200 of 500, with no file completed. *)
Theorem progress_forgets_files :
  match batch_run with
  | Some (st, w) =>
      st = VAL_OK ∧ sim_in (w_e w) = [] ∧ m_files_sent (s_metrics (w_s w)) = 2 ∧
      map pi_bytes_transferred (progress_infos w) = [0; 300; 0; 200] ∧
      map pi_total_bytes (progress_infos w) = [500; 500; 500; 500] ∧
      map pi_files_completed (progress_infos w) = [0; 0; 0; 0]
  | None => False
  end.
Proof. vm_compute. repeat split. Qed.

(** The receiver of the lossless transfer is in mode TAIL. *)
Definition good_receiver : option (Z * world sim) := receiver_run (frames_out (sender_run good_acks)).
Lemma validator_ignored_witness :
  match good_receiver with
  | Some (st, w) => st = VAL_OK ∧ ∃ evs, w_tr w = evs ++ [] ∧ Forall not_validated evs
  | None => False
  end.
Proof.
  assert (Hrun : match good_receiver with Some (st, w) => st = VAL_OK | None => False end) by (vm_compute; reflexivity).
  pose proof (wpp_result _ _ _ good_receiver
    (validator_ignored demo_fuel None
       (sim_world demo_s (sim_start (map Bytes (frames_out (sender_run good_acks))) []))
       ltac:(vm_compute; discriminate)) eq_refl) as Hw.
  destruct good_receiver as [[st w]|]; [|destruct Hrun]. split; [exact Hrun|exact Hw].
Defined.

(** The batch of two files and the receiver above, as their applications see them. *)
Lemma files_announced_witness :
  match batch_run, good_receiver with
  | Some (st, w), Some (st', w') =>
      st = VAL_OK ∧ st' = VAL_OK ∧
      trace_run announce_step (w_tr w) (mk_announced [] None) = Some (mk_announced [(demo_path, VAL_OK); ([103], VAL_OK)] None) ∧
      (∃ a, trace_run announce_step (w_tr w) (mk_announced [] None) = Some a ∧ announced_batch [demo_path; [103]] st (an_done a) (an_open a)) ∧
      ∃ a, trace_run announce_step (w_tr w') (mk_announced [] None) = Some a ∧ outcomes a
  | _, _ => False
  end.
Proof.
  assert (Hrun : match batch_run, good_receiver with
    | Some (st, w), Some (st', w') => st = VAL_OK ∧ st' = VAL_OK ∧
        trace_run announce_step (w_tr w) (mk_announced [] None) = Some (mk_announced [(demo_path, VAL_OK); ([103], VAL_OK)] None)
    | _, _ => False end) by (vm_compute; repeat split).
  pose proof (wpp_result _ _ _ batch_run (proj1 (files_announced demo_fuel [demo_path; [103]] None None
       (sim_world demo_s (sim_start
         (Bytes (demo_fr VAL_PKT_HELLO demo_hello 0) :: one_file 300 ++ one_file 200 ++ [Bytes (demo_fr VAL_PKT_EOT_ACK [] 0)])
         [(demo_path, ztake 300 demo_file); ([103], ztake 200 demo_file)])) eq_refl eq_refl)) eq_refl) as Hw.
  pose proof (wpp_result _ _ _ good_receiver (proj2 (files_announced demo_fuel [] None None
       (sim_world demo_s (sim_start (map Bytes (frames_out (sender_run good_acks))) [])) eq_refl eq_refl)
       ltac:(vm_compute; discriminate)) eq_refl) as Hw'.
  destruct batch_run as [[st w]|]; [|destruct Hrun]. destruct good_receiver as [[st' w']|]; [|destruct Hrun].
  destruct Hrun as (H1 & H2 & H3). split; [exact H1|]. split; [exact H2|]. split; [exact H3|].
  destruct Hw as (a & (evs & E1 & R1) & Hb), Hw' as (a' & (evs' & E2 & R2) & Ho).
  rewrite app_nil_r in E1, E2. subst evs evs'. split; [by exists a|by exists a'].
Defined.

(** The same receiver in mode NEVER, with an application whose validator skips every file. *)
Definition skipping_hooks : Hooks sim := {|
  hk_send := hk_send; hk_recv := hk_recv; hk_is_connected := hk_is_connected; hk_flush := hk_flush;
  hk_fopen := hk_fopen; hk_fread := hk_fread; hk_fwrite := hk_fwrite; hk_fseek := hk_fseek; hk_ftell := hk_ftell;
  hk_fclose := hk_fclose; hk_crc32 := hk_crc32; hk_get_ticks_ms := hk_get_ticks_ms; hk_delay_ms := hk_delay_ms;
  hk_on_file_start := hk_on_file_start; hk_on_file_complete := hk_on_file_complete; hk_on_progress := hk_on_progress;
  hk_validator _ _ e := (VAL_VALIDATION_SKIP, e);
  hk_on_packet := hk_on_packet; hk_append := hk_append
|}.
Definition skipping_run : option (Z * world sim) :=
  val_receive_files (Hooks0:=skipping_hooks) demo_fuel None
    (sim_world (sim_session (demo_config <| cfg_resume_mode := VAL_RESUME_NEVER |>))
       (sim_start (map Bytes (frames_out (sender_run good_acks))) [])).
Definition announcements (w : world sim) : list event :=
  rev (omap (λ ev, match ev with EvFileStart _ _ _ _ | EvFileComplete _ _ _ => Some ev | _ => None end) (w_tr w)).

(** A file that the validator skips is announced twice in mode NEVER - by the resume exchange,
    from offset 0, and again as skipped - and ends once: the discipline of
    [announce_step] does not hold there. *)
Theorem skipped_file_announced_twice :
  match skipping_run with
  | Some (st, w) =>
      st = VAL_OK ∧ trace_run announce_step (w_tr w) (mk_announced [] None) = None ∧
      announcements w = [EvFileStart demo_path demo_path 992 0; EvFileStart demo_path demo_path 992 992;
                         EvFileComplete demo_path demo_path VAL_SKIPPED]
  | None => False
  end.
Proof. vm_compute. repeat split. Qed.
