(* ===== verification/Host.v ===== *)
(** A host at one end of a faultless link: its file system and the application's
    callbacks.

    [Host] lists what either end of a transfer relies on, for all of its files at once:
    a store of named files, a cursor for every open handle, and [ho_reply], what the
    other end answers to a frame.  From it come the environments of the data phases, for
    the file that is open: [host_delivery] for the receiver ([Assembly]) and
    [host_honest] for the sender ([Windows]). *)
From stdpp Require Import gmap.
From S2P Require Import Prelude ByteOrder Wire Errors Crc Sanitize Timing Session Simulation Window Packet Frame.
From S2P Require Import Control Resume Sender Receiver DataPhase Link Assembly Windows.

Abbreviation store := (gmap (list Z) (list Z)).

(** What a host shows: the state of the other end, the files, and for an open handle the
    file's name and the position in it. *)
Record host (P : Type) := mk_host { ho_peer : P; ho_files : store; ho_cursor : handle → option (list Z * Z) }.
Arguments mk_host {P}.
Arguments ho_peer {P}.
Arguments ho_files {P}.
Arguments ho_cursor {P}.

(** What opening a file does to the store, and where the cursor is then. *)
Definition opened (p : list Z) (m : fmode) (fs : store) : option (store * Z) :=
  match m, fs !! p with
  | ModeRead, None => None
  | ModeRead, Some _ => Some (fs, 0)
  | ModeWrite, _ => Some (<[p := []]> fs, 0)
  | ModeAppend, None => Some (<[p := []]> fs, 0)
  | ModeAppend, Some d => Some (fs, zlen d)
  end.
Definition seek_target (d : list Z) (o : Z) (wh : whence) : Z :=
  match wh with SEEK_SET => o | SEEK_END => zlen d + o end.

Class Host (E P : Type) `{!Hooks E} `{!StreamLink E} := {
  ho_reply : list Z → P → list Z * P;
  ho_link :: Faultless E (host P);
  ho_answer fr L v : fl_answer fr (L, v) =
    (L ++ fst (ho_reply fr (ho_peer v)), mk_host (snd (ho_reply fr (ho_peer v))) (ho_files v) (ho_cursor v));
  ho_bytes e p d : fl_ok e → ho_files (fl_view e) !! p = Some d → bytes_ok d;
  (** The file system was asked: the store is [fs] now, and [f] points as [cur] says. *)
  ho_disk (fs : store) (f : handle) (cur : list Z * Z) (e e' : E) : Prop :=
    fl_ok e' ∧ link_in e' = link_in e ∧ ho_peer (fl_view e') = ho_peer (fl_view e) ∧
    ho_files (fl_view e') = fs ∧ ho_cursor (fl_view e') f = Some cur;
  ho_open p m e : fl_ok e → let '(h, e') := hk_fopen p m e in
    match opened p m (ho_files (fl_view e)) with
    | None => h = None ∧ fl_same e e'
    | Some (fs, pos) => ∃ f, h = Some f ∧ ho_disk fs f (p, pos) e e'
    end;
  ho_seek f o wh p pos d e : fl_ok e → ho_cursor (fl_view e) f = Some (p, pos) → ho_files (fl_view e) !! p = Some d →
    0 <= seek_target d o wh <= zlen d → let '(r, e') := hk_fseek f o wh e in
    r = 0 ∧ ho_disk (ho_files (fl_view e)) f (p, seek_target d o wh) e e';
  ho_tell f p pos e : fl_ok e → ho_cursor (fl_view e) f = Some (p, pos) →
    let '(t, e') := hk_ftell f e in t = pos ∧ fl_same e e';
  ho_read f n p pos d e : fl_ok e → ho_cursor (fl_view e) f = Some (p, pos) → ho_files (fl_view e) !! p = Some d →
    0 <= pos → 0 <= n → let '(got, e') := hk_fread f n e in
    got = zslice d pos n ∧ ho_disk (ho_files (fl_view e)) f (p, pos + zlen got) e e';
  (** Writing at the end of the file. *)
  ho_write f x p d e : fl_ok e → ho_cursor (fl_view e) f = Some (p, zlen d) → ho_files (fl_view e) !! p = Some d →
    bytes_ok x → let '(rc, e') := hk_fwrite f x e in
    rc = zlen x ∧ ho_disk (<[p := d ++ x]> (ho_files (fl_view e))) f (p, zlen d + zlen x) e e';
  ho_close f e : fl_ok e → let e' := hk_fclose f e in
    fl_ok e' ∧ link_in e' = link_in e ∧ ho_peer (fl_view e') = ho_peer (fl_view e) ∧
    ho_files (fl_view e') = ho_files (fl_view e);
  ho_start n p s o e : fl_ok e →
    fst (hk_on_file_start n p s o e) = false ∧ fl_same e (snd (hk_on_file_start n p s o e));
  ho_complete n p r e : fst (hk_on_file_complete n p r e) = false ∧
    (fl_ok e → fl_same e (snd (hk_on_file_complete n p r e)));
  (** stdio may append to files of the store, and changes none but the one it is given. *)
  ho_append p x e : fl_ok e → bytes_ok x → let e' := hk_append p x e in
    fl_ok e' ∧ link_in e' = link_in e ∧ ho_peer (fl_view e') = ho_peer (fl_view e) ∧
    ∀ q, q ≠ p → ho_files (fl_view e') !! q = ho_files (fl_view e) !! q
}.

(** ** Asking the file system *)

Section files.
Context {E P : Type} `{!Hooks E} `{!StreamLink E} `{!Host E P}.

(** Only the file system was asked, and the store is [fs] now. *)
Definition filed (fs : store) (w w' : world E) : Prop :=
  w_s w' = w_s w ∧ link_in (w_e w') = link_in (w_e w) ∧ ho_peer (view w') = ho_peer (view w) ∧
  ho_files (view w') = fs ∧ sends [] w w'.
Lemma filed_refl w : filed (ho_files (view w)) w w.
Proof. split; [done|]. do 3 (split; [done|]). apply sends_refl. Qed.
Lemma filed_trans fs fs' w w' w'' : filed fs w w' → filed fs' w' w'' → filed fs' w w''.
Proof.
  intros (S1 & L1 & P1 & F1 & T1) (S2 & L2 & P2 & F2 & T2). split; [congruence|]. split; [congruence|].
  split; [congruence|]. split; [done|by eapply sends_none].
Qed.
Lemma standing_env c mtu w e evs : standing c mtu w → fl_ok e → standing c mtu (mk_world (w_s w) e evs).
Proof. intros [? ? ? [_ ?]] Ho. by constructor. Qed.

Lemma open_ok c mtu p m w : standing c mtu w →
  wpt (fs_fopen p m) (λ h w', standing c mtu w' ∧
    match opened p m (ho_files (view w)) with
    | None => h = None ∧ filed (ho_files (view w)) w w'
    | Some (fs, pos) => ∃ f, h = Some f ∧ filed fs w w' ∧ ho_cursor (view w') f = Some (p, pos)
    end) w.
Proof.
  intros Hw. apply wp_lift. pose proof (ho_open p m _ (proj1 (st_fine _ _ _ Hw))) as Ho. unfold view.
  destruct (hk_fopen p m (w_e w)) as [h e]. destruct (opened p m _) as [[fs pos]|].
  - destruct Ho as (f & -> & Ho & L & Pe & F & C). split; [by apply standing_env|]. exists f. split; [done|]. split; [|done].
    split; [done|]. do 3 (split; [done|]). by eexists [_].
  - destruct Ho as (-> & Ho & L & V). split; [by apply standing_env|]. split; [done|]. split; [done|].
    split; [done|]. unfold view. cbn. rewrite V. split; [done|]. split; [done|]. by eexists [_].
Qed.
Lemma seek_ok c mtu f o wh p pos d w : standing c mtu w → ho_cursor (view w) f = Some (p, pos) →
  ho_files (view w) !! p = Some d → 0 <= seek_target d o wh <= zlen d →
  wpt (fs_fseek f o wh) (λ r w', standing c mtu w' ∧ r = 0 ∧ filed (ho_files (view w)) w w' ∧
    ho_cursor (view w') f = Some (p, seek_target d o wh)) w.
Proof.
  intros Hw Hc Hd Ht. apply wp_lift. pose proof (ho_seek f o wh p pos d _ (proj1 (st_fine _ _ _ Hw)) Hc Hd Ht) as Hs.
  destruct (hk_fseek f o wh (w_e w)) as [r e]. destruct Hs as (-> & Ho & L & Pe & F & C).
  split; [by apply standing_env|]. split; [done|]. split; [|done]. split; [done|]. do 3 (split; [done|]). by eexists [_].
Qed.
Lemma tell_ok c mtu f p pos w : standing c mtu w → ho_cursor (view w) f = Some (p, pos) →
  wpt (fs_ftell f) (λ t w', standing c mtu w' ∧ t = pos ∧ filed (ho_files (view w)) w w' ∧ view w' = view w) w.
Proof.
  intros Hw Hc. apply wp_lift. pose proof (ho_tell f p pos _ (proj1 (st_fine _ _ _ Hw)) Hc) as Ht. unfold view.
  destruct (hk_ftell f (w_e w)) as [t e]. destruct Ht as (-> & Ho & L & V). split; [by apply standing_env|].
  split; [done|]. split; [|done]. split; [done|]. split; [done|]. unfold view. cbn. rewrite V. do 2 (split; [done|]). by exists [].
Qed.
Lemma close_ok c mtu f w : standing c mtu w →
  wpt (fs_fclose f) (λ _ w', standing c mtu w' ∧ filed (ho_files (view w)) w w') w.
Proof.
  intros Hw. apply wp_mod. destruct (ho_close f _ (proj1 (st_fine _ _ _ Hw))) as (Ho & L & Pe & F).
  split; [by apply standing_env|]. split; [done|]. do 3 (split; [done|]). by eexists [_].
Qed.
Lemma append_ok c mtu p x w : standing c mtu w → bytes_ok x →
  wpt (call_unit (hk_append p x) (EvAppend p x)) (λ _ w', standing c mtu w' ∧ filed (ho_files (view w')) w w' ∧
    ∀ q, q ≠ p → ho_files (view w') !! q = ho_files (view w) !! q) w.
Proof.
  intros Hw Hx. apply wp_mod. destruct (ho_append p x _ (proj1 (st_fine _ _ _ Hw)) Hx) as (Ho & L & Pe & F).
  split; [by apply standing_env|]. split; [|done]. split; [done|]. do 3 (split; [done|]). by eexists [_].
Qed.
Lemma start_smooth n p s o : smooth (on_file_start n p s o).
Proof.
  intros c mtu w Hw. unfold on_file_start. apply wp_bind, wp_gets.
  destruct (cfg_has_on_file_start _); [|by apply smooth_ret]. apply (callback_smooth c mtu); [done|done|].
  pose proof (ho_start n p s o _ (proj1 (st_fine _ _ _ Hw))) as Hs. by destruct (hk_on_file_start _ _ _ _ _).
Qed.
Lemma complete_smooth n p r : smooth (on_file_complete n p r).
Proof.
  intros c mtu w Hw. unfold on_file_complete. apply wp_bind, wp_gets.
  destruct (cfg_has_on_file_complete _); [|by apply smooth_ret]. apply (callback_smooth c mtu); [done|done|].
  destruct (ho_complete n p r (w_e w)) as [Hf Hs]. specialize (Hs (proj1 (st_fine _ _ _ Hw))). by destruct (hk_on_file_complete _ _ _ _).
Qed.
End files.

(** ** The receiver's file *)

Section delivery.
Context {E : Type} `{!Hooks E} `{!StreamLink E} `{!Host E unit}.

(** [f] is [p], open at its end; the other files are [others]. *)
Definition appending (f : handle) (p : list Z) (others : store) (e : E) : Prop :=
  fl_ok e ∧ ∃ d, ho_files (fl_view e) = <[p := d]> others ∧ ho_cursor (fl_view e) f = Some (p, zlen d).
Definition appended (p : list Z) (e : E) : list Z := default [] (ho_files (fl_view e) !! p).

(** Nothing the receiver sends provokes an answer. *)
Definition unanswered : Prop := ∀ fr, ho_reply (E:=E) fr tt = ([], tt).
Lemma unanswered_id fr x : unanswered → fl_answer (E:=E) (V:=host unit) fr x = x.
Proof.
  intros Hu. destruct x as [L [[] fs c]]. rewrite ho_answer. cbn. rewrite Hu. cbn. by rewrite app_nil_r.
Qed.
Lemma appending_same f p others e e' : appending f p others e → fl_same (V:=host unit) e e' →
  appending f p others e' ∧ link_in e' = link_in e ∧ appended p e' = appended p e.
Proof.
  intros [_ Hd] (Ho & EL & EV). unfold appending, appended. by rewrite EV.
Qed.

#[export] Program Instance host_delivery (Hu : unanswered) (f : handle) (p : list Z) (others : store) : Delivery E f := {|
  dv_link := {| fl_ok := appending f p others; fl_view := appended p; fl_answer _ x := x |}
|}.
Next Obligation. intros Hu f p others e [Ho _]. by apply (fl_link (V:=host unit)). Qed.
Next Obligation.
  intros Hu f p others n t e [Ho Hd]. destruct (fl_recv (V:=host unit) n t e Ho) as [Ho' EV].
  unfold appending, appended. by rewrite EV.
Qed.
Next Obligation.
  intros Hu f p others fr e [Ho Hd] Hz. pose proof (fl_send (V:=host unit) fr e Ho Hz) as Hs.
  destruct (hk_send fr e) as [rc e']. destruct Hs as (-> & Ho' & Ea). rewrite (unanswered_id _ _ Hu) in Ea.
  pose proof (f_equal fst Ea) as EL. pose proof (f_equal snd Ea) as EV. cbn in EL, EV.
  unfold appending, appended. rewrite EV, EL. done.
Qed.
Next Obligation. intros Hu f p others e Ha. by apply (appending_same f p others e), fl_ticks, Ha. Qed.
Next Obligation.
  intros Hu f p others e Ha. pose proof (fl_connected (V:=host unit) e (proj1 Ha)) as [? ?]. split; [done|].
  by apply (appending_same f p others e).
Qed.
Next Obligation. intros Hu f p others e Ha. by apply (appending_same f p others e), fl_flush, Ha. Qed.
Next Obligation. intros Hu f p others r e Ha. by apply (appending_same f p others e), fl_packet, Ha. Qed.
Next Obligation.
  intros Hu f p others i e Ha. pose proof (fl_progress (V:=host unit) i e (proj1 Ha)) as [? ?]. split; [done|].
  by apply (appending_same f p others e).
Qed.
Next Obligation. done. Qed.
Next Obligation.
  intros Hu f p others x e (Ho & d & Ef & Ec) Hx.
  assert (El : ho_files (fl_view e) !! p = Some d) by (rewrite Ef; apply lookup_insert_eq).
  pose proof (ho_write f x p d e Ho Ec El Hx) as Hwr. destruct (hk_fwrite f x e) as [rc e'].
  destruct Hwr as (-> & Ho' & EL & _ & Ef' & Ec'). rewrite Ef, insert_insert_eq in Ef'.
  split; [done|]. split.
  - split; [done|]. exists (d ++ x). split; [done|]. by rewrite zlen_app.
  - split; [done|]. change (appended p e' = appended p e ++ x). unfold appended. by rewrite Ef', El, lookup_insert_eq.
Qed.
End delivery.

(** ** The sender's file *)

(** The other end is a receiver that has none of the files: [hh_hello] is its HELLO, and
    its state is the position in the file of the last metadata. *)
Class HonestHost (E : Type) `{!Hooks E} `{!StreamLink E} `{!Host E Z} := {
  hh_crc : list Z → Z;
  hh_hello : list Z;
  hh_reply_hello d pos : ho_reply (packet_frame hh_crc VAL_PKT_HELLO d 0 true) pos =
    (packet_frame hh_crc VAL_PKT_HELLO hh_hello 0 true, pos);
  hh_reply_meta d pos : ho_reply (packet_frame hh_crc VAL_PKT_SEND_META d 0 true) pos = ([], 0);
  hh_reply_resume pos : ho_reply (packet_frame hh_crc VAL_PKT_RESUME_REQ [] 0 true) pos =
    (packet_frame hh_crc VAL_PKT_RESUME_RESP (val_serialize_resume_resp (mk_resume_resp VAL_RESUME_START_ZERO 0 0 0)) 0 true, pos);
  hh_reply_data d off incl pos : bytes_ok d → 0 <= off < 2 ^ 64 → (incl = true → off = pos) →
    ho_reply (packet_frame hh_crc VAL_PKT_DATA d off incl) pos =
    (packet_frame hh_crc VAL_PKT_DATA_ACK [] (pos + zlen d) true, pos + zlen d);
  hh_reply_done off pos : ho_reply (packet_frame hh_crc VAL_PKT_DONE [] off true) pos =
    (packet_frame hh_crc VAL_PKT_DONE_ACK [] pos true, pos);
  hh_reply_eot pos : ho_reply (packet_frame hh_crc VAL_PKT_EOT [] 0 true) pos =
    (packet_frame hh_crc VAL_PKT_EOT_ACK [] 0 true, pos)
}.

Section honest.
Context {E : Type} `{!Hooks E} `{!StreamLink E} `{!Host E Z} `{!HonestHost E}.

Definition cursor_data (f : handle) (v : host Z) : list Z :=
  match ho_cursor v f with Some (p, _) => default [] (ho_files v !! p) | None => [] end.
Definition cursor_pos (f : handle) (v : host Z) : Z :=
  match ho_cursor v f with Some (_, pos) => pos | None => 0 end.
Definition reading (f : handle) (e : E) : Prop :=
  fl_ok e ∧ ∃ p pos d, ho_cursor (fl_view e) f = Some (p, pos) ∧ ho_files (fl_view e) !! p = Some d ∧ 0 <= pos.
Lemma reading_at f p pos d (v : host Z) : ho_cursor v f = Some (p, pos) → ho_files v !! p = Some d →
  cursor_data f v = d ∧ cursor_pos f v = pos.
Proof. intros Ec Ed. unfold cursor_data, cursor_pos. by rewrite Ec, Ed. Qed.
Lemma reading_disk f p pos d e e' : 0 <= pos → ho_files (fl_view e) !! p = Some d → ho_disk (ho_files (fl_view e)) f (p, pos) e e' →
  reading f e' ∧ cursor_pos f (fl_view e') = pos ∧ cursor_data f (fl_view e') = d.
Proof.
  intros Hp Ed (Ho & _ & _ & Ef & Ec). rewrite <- Ef in Ed. destruct (reading_at _ _ _ _ _ Ec Ed). split; [|done].
  split; [done|]. by exists p, pos, d.
Qed.

#[export] Program Instance host_store : FileStore E := {|
  fs_ok := reading;
  fs_data f e := cursor_data f (fl_view e);
  fs_pos f e := cursor_pos f (fl_view e)
|}.
Next Obligation.
  intros f e (Ho & p & pos & d & Ec & Ed & Hpos). destruct (reading_at _ _ _ _ _ Ec Ed) as [-> _]. by eapply ho_bytes.
Qed.
Next Obligation.
  intros f o e (Ho & p & pos & d & Ec & Ed & Hpos) Hr. destruct (reading_at _ _ _ _ _ Ec Ed) as [Edt _]. rewrite Edt in *.
  pose proof (ho_seek f o SEEK_SET p pos d e Ho Ec Ed Hr) as Hs. destruct (hk_fseek f o SEEK_SET e) as [r e'].
  destruct Hs as [-> Hd]. by destruct (reading_disk _ _ _ _ _ _ (proj1 Hr) Ed Hd) as (? & ? & ?).
Qed.
Next Obligation.
  intros f n e (Ho & p & pos & d & Ec & Ed & Hpos) Hp Hn. destruct (reading_at _ _ _ _ _ Ec Ed) as [Edt Ept]. rewrite Edt, Ept in *.
  pose proof (ho_read f n p pos d e Ho Ec Ed Hp Hn) as Hs. destruct (hk_fread f n e) as [got e'].
  destruct Hs as [-> Hd]. pose proof (zlen_nonneg (zslice d pos n)).
  by destruct (reading_disk f p (pos + zlen (zslice d pos n)) d e e' ltac:(lia) Ed Hd) as (? & ? & ?).
Qed.

Definition host_desk (f : handle) (v : host Z) : desk := mk_desk (ho_peer v) (cursor_data f v) (cursor_pos f v).
Definition host_answer (fr : list Z) (x : list Z * desk) : list Z * desk :=
  (fst x ++ fst (ho_reply fr (dk_peer (snd x))),
   mk_desk (snd (ho_reply fr (dk_peer (snd x)))) (dk_data (snd x)) (dk_pos (snd x))).
Definition reading_from (fs : store) (f : handle) (e : E) : Prop := reading f e ∧ ho_files (fl_view e) = fs.
Lemma reading_same fs f e e' : reading_from fs f e → fl_same (V:=host Z) e e' →
  reading_from fs f e' ∧ link_in e' = link_in e ∧ host_desk f (fl_view e') = host_desk f (fl_view e).
Proof. intros [[_ Hd] Hf] (Ho & EL & EV). unfold reading_from, reading. by rewrite EV. Qed.

#[export] Program Instance host_honest (fs : store) (f : handle) : HonestPeer E f := {|
  hp_link := {| fl_ok := reading_from fs f; fl_view e := host_desk f (fl_view e); fl_answer := host_answer |};
  hp_crc := hh_crc
|}.
Next Obligation. intros fs f e [[Ho _] _]. by apply (fl_link (V:=host Z)). Qed.
Next Obligation.
  intros fs f n t e [[Ho Hd] Hf]. destruct (fl_recv (V:=host Z) n t e Ho) as [Ho' EV]. unfold reading_from, reading. by rewrite EV.
Qed.
Next Obligation.
  intros fs f fr e [[Ho Hd] Hf] Hz. pose proof (fl_send (V:=host Z) fr e Ho Hz) as Hs.
  destruct (hk_send fr e) as [rc e']. destruct Hs as (-> & Ho' & Ea). rewrite ho_answer in Ea.
  pose proof (f_equal fst Ea) as EL. pose proof (f_equal snd Ea) as EV. cbn in EL, EV.
  unfold reading_from, reading, host_desk, host_answer. rewrite EV, EL. done.
Qed.
Next Obligation. intros fs f e Ha. by apply (reading_same fs f e), fl_ticks, Ha. Qed.
Next Obligation.
  intros fs f e Ha. pose proof (fl_connected (V:=host Z) e (proj1 (proj1 Ha))) as [? ?]. split; [done|]. by apply (reading_same fs f e).
Qed.
Next Obligation. intros fs f e Ha. by apply (reading_same fs f e), fl_flush, Ha. Qed.
Next Obligation. intros fs f r e Ha. by apply (reading_same fs f e), fl_packet, Ha. Qed.
Next Obligation.
  intros fs f i e Ha. pose proof (fl_progress (V:=host Z) i e (proj1 (proj1 Ha))) as [? ?]. split; [done|]. by apply (reading_same fs f e).
Qed.
Next Obligation. intros fs f e Ha. split; [apply Ha|done]. Qed.
Next Obligation.
  intros fs f n e [(Ho & p & pos & d & Ec & Ed & Hpos) Hf] Hn.
  pose proof (ho_read f n p pos d e Ho Ec Ed Hpos Hn) as Hs. destruct (hk_fread f n e) as [got e'].
  destruct Hs as [-> Hd]. pose proof (zlen_nonneg (zslice d pos n)).
  destruct (reading_disk f p (pos + zlen (zslice d pos n)) d e e' ltac:(lia) Ed Hd) as (? & _).
  destruct Hd as (_ & ? & ? & Ef & _). by rewrite Hf in Ef.
Qed.
Next Obligation.
  intros fs f d off incl L v Hd Ho Hi. change (host_answer (packet_frame hh_crc VAL_PKT_DATA d off incl) (L, v) =
    (L ++ packet_frame hh_crc VAL_PKT_DATA_ACK [] (dk_peer v + zlen d) true, mk_desk (dk_peer v + zlen d) (dk_data v) (dk_pos v))).
  unfold host_answer. cbn [fst snd]. by rewrite hh_reply_data.
Qed.
Next Obligation.
  intros fs f off L v. change (host_answer (packet_frame hh_crc VAL_PKT_DONE [] off true) (L, v) =
    (L ++ packet_frame hh_crc VAL_PKT_DONE_ACK [] (dk_peer v) true, v)).
  unfold host_answer. cbn [fst snd]. rewrite hh_reply_done. by destruct v.
Qed.
Next Obligation.
  intros fs f n p s o e Ha. pose proof (ho_start n p s o e (proj1 (proj1 Ha))) as [? ?]. split; [done|]. by apply (reading_same fs f e).
Qed.
Next Obligation. intros fs f n p r e. apply ho_complete. Qed.
End honest.
