(* ===== verification/Exchange.v ===== *)
(** What surrounds the data phase on a faultless link, at both ends: HELLO, metadata and
    the negotiation of the resume offset.

    The sender's other end is an [HonestHost]; the receiver finds the sender's packets in
    its stream, and what it sends provokes nothing ([unanswered]). *)
From stdpp Require Import gmap.
From S2P Require Import Prelude ByteOrder Wire Errors Crc Sanitize Timing Session Simulation Window Packet Frame.
From S2P Require Import Control Handshake Resume Sender Receiver Trace DataPhase Link Assembly Windows Host.

(** The packet types whose content is their payload. *)
Definition plain (type : Z) : Prop :=
  0 <= type < 256 ∧ type ≠ VAL_PKT_DATA ∧ is_ack type = false ∧ type ≠ VAL_PKT_DATA_NAK.
Lemma plain_content type d off : plain type → content_of type d off true = d.
Proof.
  intros (_ & Hd & Ha & Hn). unfold content_of. rewrite Ha. replace (type =? VAL_PKT_DATA) with false by lia.
  by replace (type =? VAL_PKT_DATA_NAK) with false by lia.
Qed.
Lemma plain_offset type off : plain type → seen_offset type off true = 0.
Proof.
  intros (_ & Hd & Ha & Hn). unfold seen_offset. rewrite Ha. replace (type =? VAL_PKT_DATA) with false by lia.
  by replace (type =? VAL_PKT_DATA_NAK) with false by lia.
Qed.

(** ** One packet *)

Section packets.
Context {E V : Type} `{!Hooks E} `{!StreamLink E} `{!Faultless E V} `{!BuildOptions}.

Lemma standing_mtu c mtu w : standing c mtu w → 512 <= mtu <= cfg_packet_size c.
Proof. intros [Hok <- <- _]. exact (sok_mtu _ Hok). Qed.

Lemma send_plain_ok c mtu type p n d w : standing c mtu w → plain type →
  payload_data (s_send_buffer (w_s w)) p n d → 0 <= n <= 488 →
  wpt (val_internal_send_packet type p n 0)
    (λ st w', standing c mtu w' ∧ st = VAL_OK ∧ posted (packet_frame (cfg_crc c) type d 0 true) w w') w.
Proof.
  intros Hw Ht Hp Hn. pose proof (standing_mtu _ _ _ Hw) as Hm. pose proof (sok_send _ (st_ok _ _ _ Hw)) as Hb.
  rewrite (st_cfg _ _ _ Hw) in Hb. destruct (zlen_payload_data _ _ _ _ Hp) as [_ Hz].
  eapply wp_mono; [apply (send_ok c mtu type p n 0 true d w); rewrite ?plain_content; try done; try lia|].
  - by apply safe_send_packet.
  - destruct Ht as (_ & Hd & Ha & Hnk). unfold content_room. replace (type =? VAL_PKT_DATA) with false by lia. cbn [andb]. lia.
  - intros st w' (Hw' & -> & Hpost). split; [done|]. split; [done|]. unfold session_frame in Hpost.
    by rewrite (packet_frame_ext _ (cfg_crc c)) in Hpost by (intros l; by rewrite crc_of_cfg, (st_cfg _ _ _ Hw)).
Qed.
End packets.

(** ** HELLO *)

Definition hello_bytes (s : val_session_t) (n : Z) : list Z := val_serialize_handshake (val__fill_local_hello s n).
Lemma hello_len s n : zlen (hello_bytes s n) = VAL_WIRE_HANDSHAKE_SIZE.
Proof. apply handshake_put_size. Qed.
Lemma plain_hello : plain VAL_PKT_HELLO.
Proof. by split. Qed.

(** A local array of the payload's size holds the payload and nothing else. *)
Lemma zwrite_all n (buf d : list Z) : zlen buf = n → zlen d = n → zwrite buf 0 d = d.
Proof.
  intros Hb Hd. rewrite zwrite_0. unfold zdrop, zlen in *. rewrite drop_ge by lia. by rewrite app_nil_r.
Qed.
Lemma local_all `{!BuildOptions} n d : zlen d = n → zwrite (local_array n) 0 d = d.
Proof. intros Hd. pose proof (zlen_nonneg d). apply (zwrite_all n); [apply zlen_local; lia|done]. Qed.

Section hello.
Context {E V : Type} `{!Hooks E} `{!StreamLink E} `{!Faultless E V} `{!BuildOptions}.

Lemma adopt_untouched h : keeps untouched (val__adopt_peer_hello h).
Proof.
  unfold val__adopt_peer_hello. change val__negotiable_mask with 0.
  destruct (negb _); [repeat untouched_step|]. destruct (negb _); [repeat untouched_step|].
  untouched_step; [untouched_step|]. cbv zeta. destruct (_ || _); [repeat untouched_step|].
  rewrite Z.land_0_r, Z.land_0_l. cbn [Z.eqb negb]. repeat untouched_step.
Qed.
Lemma adopt_ok c mtu p n w : standing c mtu w → config_ok (s_cfg p) → 512 <= n <= 2097152 →
  wpt (val__adopt_peer_hello (received (val__fill_local_hello p n)))
    (λ st w', standing c (Z.min n (cfg_packet_size c)) w' ∧ beside w w' ∧ st = VAL_OK) w.
Proof.
  intros [Hok Hc Hm Hf] Hp Hn. pose proof (adopt_local p n w Hok Hp Hn) as Ha.
  pose proof (adopt_untouched (received (val__fill_local_hello p n)) w) as Hu.
  assert (Hs : safe c 0 (val__adopt_peer_hello (E:=E) (received (val__fill_local_hello p n)))).
  { apply safe_adopt. rewrite received_local, hello_window by (done || lia).
    pose proof (cok_wcap _ Hp) as Hwc. unfold u16_ok in Hwc. case_match; lia. }
  specialize (Hs w Hok Hc). unfold wp in *.
  destruct (val__adopt_peer_hello _ w) as [[st w']|]; [|done].
  destruct Ha as (-> & _ & E1 & _), Hs as (Hok' & Hc' & _), (Hu Hf) as [Hf' B].
  rewrite Hc in *. split; [by constructor|done].
Qed.
Lemma handshake_done_smooth : smooth (E:=E) handshake_done.
Proof. unfold handshake_done. smooth_auto. Qed.

(** The HELLO that is awaited. *)
Lemma hello_comes fuel c mtu d deadline crc rest w : standing c mtu w → (∀ l, crc l = cfg_crc c l) →
  bytes_ok d → zlen d = VAL_WIRE_HANDSHAKE_SIZE →
  link_in (w_e w) = packet_frame crc VAL_PKT_HELLO d 0 true ++ rest → (Z.to_nat (zlen (link_in (w_e w))) < fuel)%nat →
  wpt (val_internal_recv_until_deadline fuel deadline 20 (local_array VAL_WIRE_HANDSHAKE_SIZE))
    (λ r w', standing c mtu w' ∧ reads rest w w' ∧ r = (VAL_OK, mk_packet VAL_PKT_HELLO VAL_WIRE_HANDSHAKE_SIZE 0 [], d)) w.
Proof.
  intros Hw Hcrc Hb Hd EL Hf. pose proof (standing_mtu _ _ _ Hw) as Hm.
  assert (H52 : VAL_WIRE_HANDSHAKE_SIZE = 44) by done.
  eapply wp_mono; [apply (control_comes fuel c mtu (w_s w) VAL_PKT_HELLO d 0 deadline 20 _ rest w);
    rewrite ?(plain_content _ _ _ plain_hello), ?zlen_local, ?Hd; try done; try lia|].
  - intros l. by rewrite crc_of_cfg, (st_cfg _ _ _ Hw).
  - rewrite EL. unfold session_frame. f_equal. apply packet_frame_ext. intros l.
    by rewrite Hcrc, crc_of_cfg, (st_cfg _ _ _ Hw).
  - cbv zeta beta. intros r w' (Hw' & R & sc & -> & Hsc). rewrite (plain_content _ _ _ plain_hello) in *.
    split; [done|]. split; [done|]. rewrite Hd, Hsc, local_all by (done || by intros ->). done.
Qed.
End hello.

(** The first turn of each side's wait, when the HELLO is there. *)
Section greeting.
Context {E V : Type} `{!Hooks E} `{!StreamLink E} `{!Faultless E V} `{!BuildOptions}.
Context {c : val_config_t} {mtu n : Z} {p : val_session_t} {crc : list Z → Z}.
Context (Hcrc : ∀ l, crc l = cfg_crc c l) (Hp : config_ok (s_cfg p)) (Hn : 512 <= n <= 2097152).

Lemma sender_turn fuel wire gd base m l rest w : standing c mtu w →
  link_in (w_e w) = packet_frame crc VAL_PKT_HELLO (hello_bytes p n) 0 true ++ rest →
  (Z.to_nat (zlen (link_in (w_e w))) < fuel)%nat →
  wpt (handshake_sender_body fuel wire gd base m l)
    (λ r w', standing c (Z.min n (cfg_packet_size c)) w' ∧ r = inr VAL_OK ∧ reads rest w w') w.
Proof.
  intros Hw EL Hf. unfold handshake_sender_body. apply wp_bind. eapply wp_mono; [by eapply not_cancelled|]. intros cc w0 [-> ->].
  eapply smooth_then; [apply smooth_ticks|done|]. intros now w1 Hw1 B1. cbv zeta. pose proof B1 as (_ & L1 & _).
  apply wp_bind. eapply wp_mono.
  { apply (hello_comes fuel c mtu (hello_bytes p n) _ crc rest w1); rewrite ?L1; try done. apply handshake_put_bytes. }
  intros r w2 (Hw2 & R2 & ->). rewrite Z.eqb_refl. cbn [pkt_type pkt_len].
  change (VAL_PKT_HELLO =? VAL_PKT_CANCEL) with false. change (VAL_PKT_HELLO =? VAL_PKT_ERROR) with false. cbv iota.
  change (accept_hello_cb VAL_PKT_HELLO VAL_WIRE_HANDSHAKE_SIZE) with (mret (W:=world E) 1).
  apply wp_bind, wp_ret. change (0 <? 1) with true. cbv iota. apply wp_bind.
  eapply wp_mono; [apply (adopt_ok c mtu p n); done|]. intros st w3 (Hw3 & B3 & ->). rewrite Z.eqb_refl. cbn [negb].
  eapply smooth_then; [apply handshake_done_smooth|done|]. intros _ w4 Hw4 B4. apply wp_ret.
  split; [done|]. split; [done|]. eapply reads_beside; [exact B1|exact R2|by etrans].
Qed.
Lemma receiver_turn fuel gd base rest w : standing c mtu w →
  link_in (w_e w) = packet_frame crc VAL_PKT_HELLO (hello_bytes p n) 0 true ++ rest →
  (Z.to_nat (zlen (link_in (w_e w))) < fuel)%nat →
  wpt (handshake_receiver_body fuel gd base (local_array VAL_WIRE_HANDSHAKE_SIZE))
    (λ r w', standing c mtu w' ∧ r = inr (inr (hello_bytes p n)) ∧ reads rest w w') w.
Proof.
  intros Hw EL Hf. unfold handshake_receiver_body. apply wp_bind. eapply wp_mono; [by eapply not_cancelled|]. intros cc w0 [-> ->].
  eapply smooth_then; [apply smooth_ticks|done|]. intros now w1 Hw1 B1. cbv zeta. pose proof B1 as (_ & L1 & _).
  apply wp_bind. eapply wp_mono.
  { apply (hello_comes fuel c mtu (hello_bytes p n) _ crc rest w1); rewrite ?L1; try done. apply handshake_put_bytes. }
  intros r w2 (Hw2 & R2 & ->). rewrite Z.eqb_refl. cbn [pkt_type pkt_len].
  change (VAL_PKT_HELLO =? VAL_PKT_CANCEL) with false. change (VAL_PKT_HELLO =? VAL_PKT_ERROR) with false. cbv iota.
  change (accept_hello_rx_cb VAL_PKT_HELLO VAL_WIRE_HANDSHAKE_SIZE) with (mret (W:=world E) 1).
  apply wp_bind, wp_ret. change (0 <? 1) with true. cbv iota. apply wp_ret.
  split; [done|]. split; [done|]. eapply reads_beside; [exact B1|exact R2|reflexivity].
Qed.

(** What the receiver answers is its own HELLO at the packet size agreed on. *)
Lemma answer_goes w : standing c mtu w →
  let size := Z.min n (cfg_packet_size c) in
  wpt (answer_hello (received (val__fill_local_hello p n)))
    (λ st w', standing c size w' ∧ st = VAL_OK ∧
       posted (packet_frame (cfg_crc c) VAL_PKT_HELLO (hello_bytes (w_s w) size) 0 true) w w') w.
Proof.
  intros Hw size. unfold answer_hello. rewrite received_local by (done || lia).
  change (hs_magic _ =? VAL_MAGIC) with true. change (hs_version_major _ =? VAL_VERSION_MAJOR) with true. cbn [negb].
  apply wp_bind. rewrite <- (received_local p n) by (done || lia).
  eapply wp_mono; [apply (adopt_ok c mtu p n); done|]. fold size. intros st w1 (Hw1 & B1 & ->). rewrite Z.eqb_refl. cbn [negb].
  apply wp_bind, wp_gets. cbv zeta. change val__negotiable_mask with 0. rewrite Z.land_0_r, Z.land_0_l. cbn [Z.eqb negb].
  set (sh := w_s w1). eapply smooth_then; [smooth_auto|exact Hw1|]. intros _ w2 Hw2 B2.
  assert (Esh : hello_bytes sh (s_effective_packet_size sh) = hello_bytes (w_s w) size).
  { unfold hello_bytes. f_equal. unfold sh. rewrite (st_mtu _ _ _ Hw1). unfold val__fill_local_hello.
    by rewrite (st_cfg _ _ _ Hw1), (st_cfg _ _ _ Hw). }
  fold (hello_bytes sh (s_effective_packet_size sh)). rewrite Esh. apply wp_bind. eapply wp_mono.
  { apply (send_plain_ok c size VAL_PKT_HELLO _ _ (hello_bytes (w_s w) size)); [done|apply plain_hello| |done].
    split; [by rewrite hello_len|]. symmetry. apply ztake_all. by rewrite hello_len. }
  intros st w3 (Hw3 & -> & [Eo S3]). rewrite Z.eqb_refl.
  eapply smooth_then; [apply handshake_done_smooth|done|]. intros _ w4 Hw4 B4. apply wp_ret. split; [done|]. split; [done|].
  destruct B1 as (V1 & L1 & S1), B2 as (V2 & L2 & S2), B4 as (V4 & L4 & S4).
  split; [unfold outside in *; rewrite V4, L4, Eo, L2, L1; by rewrite V2, V1|].
  eapply sends_none; [exact S1|]. eapply sends_none; [exact S2|]. rewrite <- (app_nil_r [_]). by eapply sends_trans.
Qed.
End greeting.

Lemma features_valid (c : val_config_t) : fst (val_internal_validate_local_features c) = VAL_OK.
Proof. unfold val_internal_validate_local_features. change val__negotiable_mask with 0. by rewrite Z.land_0_r. Qed.

(** ** The sender before its data phase *)

Section uploading.
Context {E : Type} `{!Hooks E} `{!StreamLink E} `{!Host E Z} `{!HonestHost E} `{!BuildOptions} {c : val_config_t}.
Context (Hcrc : ∀ l, cfg_crc c l = hh_crc l).

(** What a frame brings back. *)
Lemma posted_reply type d off incl a pos w w' : posted (packet_frame (cfg_crc c) type d off incl) w w' →
  ho_reply (packet_frame hh_crc type d off incl) (ho_peer (view w)) = (a, pos) →
  link_in (w_e w') = link_in (w_e w) ++ a ∧ ho_peer (view w') = pos ∧ ho_files (view w') = ho_files (view w) ∧
  sends [packet_frame (cfg_crc c) type d off incl] w w'.
Proof.
  intros [Eo Hs] Hr. unfold outside in Eo. rewrite (packet_frame_ext _ _ _ _ _ _ Hcrc) in Eo.
  pose proof (ho_answer (packet_frame hh_crc type d off incl) (link_in (w_e w)) (view w)) as Ha.
  rewrite Hr in Ha. rewrite Ha in Eo. pose proof (f_equal fst Eo) as EL. pose proof (f_equal snd Eo) as EV. cbn in EL, EV.
  by rewrite EV.
Qed.

(** The session between two files: nothing is on its way. *)
Definition at_rest (mtu : Z) (fs : store) (w : world E) : Prop :=
  standing c mtu w ∧ ho_files (view w) = fs ∧ link_in (w_e w) = [].
Lemma at_rest_beside mtu mtu' fs w w' : at_rest mtu fs w → standing c mtu' w' → beside w w' → at_rest mtu' fs w'.
Proof. intros (_ & Hf & EL) Hw' (V & L & _). split; [done|]. split; congruence. Qed.
Lemma at_rest_filed mtu fs w w' : at_rest mtu fs w → standing c mtu w' → filed fs w w' → at_rest mtu fs w'.
Proof. intros (_ & Hf & EL) Hw' (_ & L & _ & F & _). split; [done|]. split; congruence. Qed.

Lemma sender_handshake fuel mtu fs p n w : at_rest mtu fs w → s_handshake_done (w_s w) = false →
  config_ok (s_cfg p) → 512 <= n <= 2097152 → hh_hello = hello_bytes p n → (64 < fuel)%nat →
  wpt (val_internal_do_handshake_sender fuel)
    (λ st w', st = VAL_OK ∧ at_rest (Z.min n (cfg_packet_size c)) fs w' ∧
       sends [packet_frame (cfg_crc c) VAL_PKT_HELLO (hello_bytes (w_s w) (cfg_packet_size c)) 0 true] w w') w.
Proof.
  intros (Hw & Ef & EL) Hnew Hp Hn Hh Hf. unfold val_internal_do_handshake_sender. apply wp_bind, wp_gets. rewrite Hnew.
  pose proof (features_valid (s_cfg (w_s w))) as Hv. destruct (val_internal_validate_local_features _) as [vr ?].
  cbn in Hv. subst vr. rewrite Z.eqb_refl. cbn [negb]. rewrite (st_cfg _ _ _ Hw). cbv zeta.
  fold (hello_bytes (w_s w) (cfg_packet_size c)). set (hello := hello_bytes (w_s w) (cfg_packet_size c)).
  eapply smooth_then; [apply smooth_ticks|done|]. intros now0 w1 Hw1 B1. apply wp_bind, wp_gets, wp_bind.
  eapply wp_mono.
  { apply (send_plain_ok c mtu VAL_PKT_HELLO _ _ hello); [done|apply plain_hello| |done].
    unfold hello. split; [by rewrite hello_len|]. symmetry. apply ztake_all. by rewrite hello_len. }
  intros st w2 (Hw2 & -> & Hpost). rewrite Z.eqb_refl. cbn [negb]. destruct B1 as (V1 & L1 & S1).
  destruct (posted_reply _ _ _ _ _ _ _ _ Hpost (hh_reply_hello _ _)) as (L2 & _ & F2 & S2).
  rewrite L1, EL, Hh in L2. cbn [app] in L2.
  eapply smooth_then; [apply smooth_ticks|done|]. intros last w3 Hw3 (V3 & L3 & S3).
  assert (Hlen : zlen (packet_frame hh_crc VAL_PKT_HELLO (hello_bytes p n) 0 true) = 56).
  { unfold packet_frame. rewrite zlen_frame, plain_content, hello_len by apply plain_hello. done. }
  destruct fuel as [|fuel]; [lia|]. cbn [loop]. apply wp_bind.
  eapply wp_mono; [apply (sender_turn (mtu:=mtu) (p:=p) (n:=n) (crc:=hh_crc) ltac:(done) Hp Hn (S fuel)) with (rest:=[]);
    rewrite ?app_nil_r, ?L3, ?L2, ?Hlen; try done; lia|].
  intros r w4 (Hw4 & -> & V4 & L4 & S4). apply wp_ret. split; [done|]. split.
  - split; [done|]. split; [|done]. by rewrite V4, V3, F2, V1.
  - eapply sends_none; [exact S1|]. rewrite <- (app_nil_r [_]). eapply sends_trans; [exact S2|]. by eapply sends_none.
Qed.

(** ** Metadata and RESUME_REQ *)

Lemma plain_resume : plain VAL_PKT_RESUME_RESP.
Proof. by split. Qed.
Lemma negotiated_zero fuel mtu fs size path w : at_rest mtu fs w → (36 < fuel)%nat →
  wpt (handle_resume_negotiation fuel size path)
    (λ r w', r = (VAL_OK, 0) ∧ at_rest mtu fs w' ∧ ho_peer (view w') = ho_peer (view w) ∧
       sends [packet_frame (cfg_crc c) VAL_PKT_RESUME_REQ [] 0 true] w w') w.
Proof.
  intros (Hw & Ef & EL) Hf. unfold handle_resume_negotiation. apply wp_bind. eapply wp_mono.
  { by apply (send_plain_ok c mtu VAL_PKT_RESUME_REQ PNull 0 []). }
  intros st w1 (Hw1 & -> & Hpost). rewrite Z.eqb_refl. cbn [negb].
  destruct (posted_reply _ _ _ _ _ _ _ _ Hpost (hh_reply_resume _)) as (L1 & P1 & F1 & S1). rewrite EL in L1. cbn [app] in L1.
  apply wp_bind, wp_gets, wp_bind, wp_gets. unfold val_internal_wait_resume_resp.
  change VAL_WIRE_RESUME_RESP_SIZE with 24. rewrite zlen_local by lia. change (24 =? 0) with false. cbv iota.
  pose proof (standing_mtu _ _ _ Hw) as Hm. set (resp := val_serialize_resume_resp _) in *.
  assert (Hr24 : zlen resp = 24) by done.
  apply wp_bind. eapply wp_mono.
  { apply (answer_comes fuel c mtu (w_s w1) VAL_PKT_RESUME_RESP resp 0 _ _ _ _ _ _ [] w1);
      rewrite ?(plain_content _ _ _ plain_resume), ?Hr24, ?zlen_local, ?app_nil_r; try done; try lia.
    - intros l. by rewrite crc_of_cfg, (st_cfg _ _ _ Hw1).
    - apply resume_resp_put_bytes.
    - rewrite L1. apply packet_frame_ext. intros l. by rewrite <- Hcrc, crc_of_cfg, (st_cfg _ _ _ Hw1).
    - rewrite L1. unfold packet_frame. rewrite zlen_frame, (plain_content _ _ _ plain_resume), Hr24. lia. }
  cbv zeta beta. intros r w2 (Hw2 & (V2 & L2 & S2) & sc & -> & Hsc). rewrite (plain_content _ _ _ plain_resume) in *.
  rewrite Z.eqb_refl. cbn [negb pkt_len]. rewrite Hr24. change (24 <? 24) with false. cbv iota.
  rewrite Hsc, local_all by (done || by intros ->). unfold resp. rewrite <- (app_nil_r (val_serialize_resume_resp _)).
  rewrite resume_resp_roundtrip by (by vm_compute). apply wp_ret. split; [done|]. split.
  - split; [done|]. split; [|done]. by rewrite V2, F1.
  - split; [by rewrite V2|]. rewrite <- (app_nil_r [_]). by eapply sends_trans.
Qed.
End uploading.

(** ** Names on their way *)

(** What the sender calls the file. *)
Definition file_name (path : list Z) : list Z :=
  fst (snprintf_text (VAL_MAX_FILENAME + 1)
         (match val_clean_filename (Some (basename path)) (VAL_MAX_FILENAME + 1) with Some t => t | None => [] end)).
Lemma file_name_clean path : safe_chars (file_name path) ∧ 0 < zlen (file_name path) < VAL_MAX_FILENAME + 1.
Proof.
  unfold file_name. assert (Hc : ∃ t, val_clean_filename (Some (basename path)) (VAL_MAX_FILENAME + 1) = Some t).
  { unfold val_clean_filename. change (VAL_MAX_FILENAME + 1 =? 0) with false. cbv iota zeta. case_match; eauto. }
  destruct Hc as [t Ht]. rewrite Ht. destruct (clean_filename_ok _ (VAL_MAX_FILENAME + 1) _ eq_refl Ht) as (Hs & Hl & _).
  cbn [snprintf_text fst]. rewrite ztake_all by lia. done.
Qed.
Lemma safe_chars_bytes l : safe_chars l → bytes_ok l.
Proof. apply List.Forall_impl. intros z Hz. by destruct (safe_not_sep z Hz) as (_ & _ & ?). Qed.

Lemma char_array_ok n txt : 0 < n → bytes_ok txt → zlen (char_array n txt) = n ∧ bytes_ok (char_array n txt).
Proof.
  intros Hn Hb. unfold char_array, snprintf_text. cbn [fst]. pose proof (zlen_ztake_le (n - 1) txt ltac:(lia)) as Ht.
  pose proof (zlen_nonneg (ztake (n - 1) txt)). split.
  - rewrite zlen_app. unfold zlen at 2. rewrite repeat_length. lia.
  - apply bytes_ok_app. split; [by apply bytes_ok_ztake|apply bytes_ok_zeros].
Qed.
Lemma clean_path_bytes p size out : val_clean_path (Some p) size = Some out → bytes_ok out.
Proof.
  unfold val_clean_path. destruct (size =? 0); [by intros [=]|]. intros [= <-].
  assert (Hloop : ∀ fuel p o prev, bytes_ok o → bytes_ok (clean_path_loop fuel p o prev size)).
  { induction fuel as [|fuel IH]; intros q o prev Ho; [by destruct q|]. destruct q as [|z q]; [done|]. cbn [clean_path_loop].
    destruct (_ && _); [|done]. destruct (is_sep z).
    - destruct prev; apply IH; [done|]. by constructor.
    - destruct (_ && _); apply IH; [done|]. constructor; [|done]. by destruct (safe_not_sep _ (emit_safe z)) as (_ & _ & ?). }
  specialize (Hloop (length p) p [] true ltac:(constructor)). apply Forall_rev.
  induction Hloop as [|z l Hz Hl IH]; [constructor|]. cbn. destruct (z =? slash); [done|by constructor].
Qed.
Lemma build_meta_wf sp size name : bytes_ok name → 0 <= size < 2 ^ 64 → meta_wf (build_meta (Some sp) size name).
Proof.
  intros Hn Hs. unfold meta_wf, build_meta. cbn [meta_filename meta_sender_path meta_file_size].
  destruct (char_array_ok (VAL_MAX_FILENAME + 1) name eq_refl Hn). split; [done|]. split; [done|].
  assert (Hb : bytes_ok (match val_clean_path (Some sp) (VAL_MAX_PATH + 1) with Some c => c | None => [] end)).
  { destruct (val_clean_path _ _) eqn:E; [by eapply clean_path_bytes|constructor]. }
  by destruct (char_array_ok (VAL_MAX_PATH + 1) _ eq_refl Hb).
Qed.

(** ... is what the receiver calls it, and what it makes of the name is one path. *)
Lemma clean_filename_stops t rest size : safe_chars t → 0 < zlen t < size →
  val_clean_filename (Some (t ++ 0 :: rest)) size = Some t.
Proof.
  intros Ht Hl. unfold val_clean_filename. replace (size =? 0) with false by lia.
  assert (Hloop : ∀ t w, safe_chars t → 0 <= w → w + zlen t < size → clean_filename_loop (t ++ 0 :: rest) w size = t).
  { clear. induction t as [|z t IH]; intros w Ht Hw Hs; cbn [app clean_filename_loop]; [done|].
    apply Forall_cons_1 in Ht as [Hz Ht]. rewrite zlen_cons in Hs. pose proof (zlen_nonneg t).
    destruct (safe_not_sep z Hz) as (-> & Hz0 & _). replace (negb (z =? 0) && (w + 1 <? size)) with true by lia.
    by rewrite Hz, IH by (done || lia). }
  rewrite Hloop by (done || lia). by replace (zlen t =? 0) with false by lia.
Qed.
Lemma name_arrives sp size path : meta_clean_name (build_meta sp size (file_name path)) = file_name path.
Proof.
  destruct (file_name_clean path) as [Hs Hl]. unfold meta_clean_name, meta_memory, build_meta.
  cbn [meta_filename]. unfold char_array, snprintf_text. cbn [fst]. rewrite (ztake_all (_ - 1)) by lia.
  set (k := Z.to_nat _). assert (Hk : k = S (Z.to_nat (VAL_MAX_FILENAME - zlen (file_name path)))) by (unfold k; lia).
  rewrite Hk. cbn [repeat]. rewrite <- (assoc_L (++)). cbn [app]. by rewrite clean_filename_stops.
Qed.
