(* ===== verification/Upload.v ===== *)
(** The sender's whole call on a faultless link: [val_send_files] with a batch of
    arbitrary files, against a receiver that has none of them.

    [file_goes] is one file, [batch_goes] a complete session, from HELLO to EOT. *)
From stdpp Require Import gmap.
From S2P Require Import Prelude ByteOrder Wire Errors Crc Sanitize Timing Session Simulation Window Packet Frame.
From S2P Require Import Control Handshake Resume Sender Receiver Trace DataPhase Link Assembly Windows Host Exchange.

Lemma opened_read p d fs : fs !! p = Some d → opened p ModeRead fs = Some (fs, 0).
Proof. intros Hd. unfold opened. by rewrite Hd. Qed.

(** ** The sender *)

Section sender.
Context {E : Type} `{!Hooks E} `{!StreamLink E} `{!Host E Z} `{!HonestHost E} `{!BuildOptions}.
Context {c : val_config_t} {mtu : Z} {fs : store}.
Context (Hcrc : ∀ l, cfg_crc c l = hh_crc l) (Hmtu : mtu < 2 ^ 16 + 12).

Lemma size_and_name_ok path d w : at_rest (c:=c) mtu fs w → fs !! path = Some d → zlen d < 2 ^ 63 →
  wpt (get_file_size_and_name path)
    (λ r w', r = (VAL_OK, zlen d, file_name path) ∧ at_rest (c:=c) mtu fs w' ∧ sends [] w w') w.
Proof.
  intros Hr Hd Hbig. pose proof Hr as (Hw & Ef & _). pose proof (zlen_nonneg d). unfold get_file_size_and_name.
  apply wp_bind. eapply wp_mono; [by apply (open_ok c mtu)|]. rewrite Ef, (opened_read _ _ _ Hd).
  intros h w1 (Hw1 & f & -> & I1 & C1). pose proof I1 as (_ & _ & _ & F1 & _). cbv zeta.
  apply wp_bind. eapply wp_mono; [apply (seek_ok c mtu f 0 SEEK_END path 0 d w1); rewrite ?F1; try done; cbn; lia|].
  intros r w2 (Hw2 & -> & I2 & C2). cbn [seek_target] in C2. rewrite Z.add_0_r in C2. rewrite F1 in I2. pose proof I2 as (_ & _ & _ & F2 & _).
  change (negb (0 =? 0)) with false. cbv iota.
  apply wp_bind. eapply wp_mono; [by apply (tell_ok c mtu f path (zlen d) w2)|]. intros t w3 (Hw3 & -> & I3 & V3).
  rewrite F2 in I3. pose proof I3 as (_ & _ & _ & F3 & _). replace (zlen d <? 0) with false by lia.
  apply wp_bind. eapply wp_mono; [apply (seek_ok c mtu f 0 SEEK_SET path (zlen d) d w3); rewrite ?F3, ?V3; try done; cbn; lia|].
  intros r w4 (Hw4 & -> & I4 & _). rewrite F3 in I4. pose proof I4 as (_ & _ & _ & F4 & _). cbn [negb Z.eqb].
  apply wp_bind. eapply wp_mono; [by apply (close_ok c mtu f w4)|]. intros _ w5 [Hw5 I5]. rewrite F4 in I5.
  pose proof (filed_trans _ _ _ _ _ I1 (filed_trans _ _ _ _ _ I2 (filed_trans _ _ _ _ _ I3 (filed_trans _ _ _ _ _ I4 I5)))) as I.
  apply wp_ret. split; [by rewrite u64_small by lia|]. split; [by eapply at_rest_filed|]. by destruct I as (_ & _ & _ & _ & ?).
Qed.

(** What goes out for a file: metadata, the question where to start, the pieces, DONE. *)
Definition reported (sender_path : option (list Z)) (path : list Z) : list Z :=
  match sender_path with Some (z :: p) => if z =? 0 then path else z :: p | _ => path end.
Definition file_meta (sender_path : option (list Z)) (path d : list Z) : val_meta_payload_t :=
  build_meta (Some (reported sender_path path)) (zlen d) (file_name path).
Record parcel := mk_parcel { pa_meta : val_meta_payload_t; pa_pieces : list (list Z * bool) }.
Definition parcel_frames (crc : list Z → Z) (x : parcel) : list (list Z) :=
  [packet_frame crc VAL_PKT_SEND_META (val_serialize_meta (pa_meta x)) 0 true;
   packet_frame crc VAL_PKT_RESUME_REQ [] 0 true] ++
  data_frames crc 0 (pa_pieces x) ++
  [packet_frame crc VAL_PKT_DONE [] (zlen (payload (pa_pieces x))) true].

Lemma level_of f path d pos w : at_rest (c:=c) mtu fs w → ho_peer (view w) = pos → ho_cursor (view w) f = Some (path, pos) →
  fs !! path = Some d → 0 <= pos →
  level (f:=f) (HonestPeer0:=host_honest fs f) (c:=c) (mtu:=mtu) (data:=d) pos w.
Proof.
  intros ([Hok Hc Hm [Ho Hu]] & Ef & EL) Hp Hcur Hd H0. unfold view in *. split.
  - constructor; try done. split; [|done]. split; [|done]. split; [done|]. exists path, pos, d. by rewrite Ef.
  - rewrite <- Ef in Hd. unfold view. cbn. unfold host_desk. destruct (reading_at _ _ _ _ _ Hcur Hd) as [-> ->]. by rewrite Hp.
Qed.
Lemma rest_of f d pos w : level (f:=f) (HonestPeer0:=host_honest fs f) (c:=c) (mtu:=mtu) (data:=d) pos w →
  link_in (w_e w) = [] → at_rest (c:=c) mtu fs w.
Proof. intros [[Hok Hc Hm [[[Ho _] Hf] Hu]] _] EL. by split; [constructor|]. Qed.

Lemma plain_meta : plain VAL_PKT_SEND_META.
Proof. by split. Qed.
Lemma closed_rests f name path w : at_rest (c:=c) mtu fs w →
  wpt (file_closed (f:=f) name path) (λ st w', st = VAL_OK ∧ at_rest (c:=c) mtu fs w' ∧ sends [] w w') w.
Proof.
  intros Hr. pose proof Hr as (Hw & Ef & _). unfold file_closed. apply wp_bind.
  eapply wp_mono; [by apply (close_ok c mtu f)|]. intros _ w1 [Hw1 I1]. rewrite Ef in I1.
  pose proof (at_rest_filed _ _ _ _ Hr Hw1 I1) as Hr1.
  eapply smooth_then; [apply complete_smooth|done|]. intros _ w2 Hw2 B2.
  eapply smooth_then; [apply smooth_metrics|done|]. intros _ w3 Hw3 B3.
  eapply smooth_then; [apply smooth_success|done|]. intros _ w4 Hw4 B4. apply wp_ret. split; [done|].
  assert (B : beside w1 w4) by (etrans; [exact B2|by etrans]). split; [by eapply at_rest_beside|].
  destruct I1 as (_ & _ & _ & _ & S1), B as (_ & _ & S). by eapply sends_none.
Qed.

(** One file. *)
Lemma file_goes fuel path sp prog d w : at_rest (c:=c) mtu fs w → fs !! path = Some d → zlen d < 2 ^ 63 →
  16 * zlen d + 36 < Z.of_nat fuel →
  wpt (val_internal_send_file fuel path sp prog)
    (λ r w', fst r = VAL_OK ∧ at_rest (c:=c) mtu fs w' ∧ ∃ ps, Forall (piece_ok mtu) ps ∧ payload ps = d ∧
       sends (parcel_frames (cfg_crc c) (mk_parcel (file_meta sp path d) ps)) w w') w.
Proof.
  intros Hr Hd Hbig Hf. pose proof Hr as (Hw & Ef & EL). pose proof (zlen_nonneg d).
  unfold val_internal_send_file, send_file_data_adaptive. apply wp_bind, wp_gets. cbv zeta.
  pose proof (sok_window _ (st_ok _ _ _ Hw)) as Hwin. set (win := if negb _ then _ else _).
  assert (Hwin1 : 1 <= win) by (unfold win; replace (s_current_window_packets (w_s w) =? 0) with false by lia; cbn; lia).
  clearbody win. apply wp_bind. eapply wp_mono; [by apply (size_and_name_ok path d)|]. intros r w1 (-> & Hr1 & S1).
  rewrite Z.eqb_refl. cbn [negb]. fold (reported sp path). unfold send_metadata. fold (file_meta sp path d). pose proof Hr1 as (Hw1 & Ef1 & EL1).
  assert (Hwf : meta_wf (file_meta sp path d)).
  { apply build_meta_wf; [|lia]. apply safe_chars_bytes, file_name_clean. }
  pose proof (meta_put_size _ Hwf) as Hz. apply wp_bind. eapply wp_mono.
  { apply (send_plain_ok c mtu VAL_PKT_SEND_META _ _ (val_serialize_meta (file_meta sp path d))); [done|apply plain_meta| |done].
    split; [by rewrite Hz|]. symmetry. apply ztake_all. by rewrite Hz. }
  intros st w2 (Hw2 & -> & Hpost). rewrite Z.eqb_refl. cbn [negb].
  destruct (posted_reply Hcrc _ _ _ _ _ _ _ _ Hpost (hh_reply_meta _ _)) as (L2 & P2 & F2 & S2).
  rewrite EL1, app_nil_r in L2. assert (Hr2 : at_rest (c:=c) mtu fs w2) by (split; [done|split; [congruence|done]]).
  apply wp_bind. eapply wp_mono; [apply (negotiated_zero Hcrc fuel mtu fs); [done|lia]|].
  intros r w3 (-> & Hr3 & P3 & S3). rewrite Z.eqb_refl. cbn [negb]. change (0 =? UINT64_MAX) with false. cbv iota.
  pose proof Hr3 as (Hw3 & Ef3 & _). apply wp_bind. eapply wp_mono; [by apply (open_ok c mtu)|].
  rewrite Ef3, (opened_read _ _ _ Hd). intros h w4 (Hw4 & f & -> & I4 & C4).
  pose proof (at_rest_filed _ _ _ _ Hr3 Hw4 I4) as Hr4. destruct I4 as (_ & _ & P4 & _ & S4).
  apply wp_bind, wp_ret. change (negb (0 =? 0)) with false. cbv iota.
  apply (file_rule (f:=f) (HonestPeer0:=host_honest fs f) (c:=c) (mtu:=mtu) (data:=d) Hcrc Hmtu); try done; try lia.
  - apply (level_of f path d 0); try done. congruence.
  - by destruct Hr4 as (_ & _ & ?).
  - intros prog' ps w5 Hlv L5 Hp Epay S5. apply wp_bind. eapply wp_mono; [apply closed_rests; by eapply rest_of|].
    intros st w6 (-> & Hr6 & S6). apply wp_ret. split; [done|]. split; [done|]. exists ps.
    rewrite Z.sub_0_r in Epay. unfold zslice in Epay. rewrite ztake_all, zdrop_0 in Epay by done.
    split; [eapply List.Forall_impl; [|exact Hp]; by intros p [? _]|]. split; [done|].
    unfold parcel_frames. cbn [pa_meta pa_pieces]. rewrite Epay.
    eapply sends_none; [exact S1|]. rewrite (assoc_L (++)).
    pose proof (sends_trans _ _ _ _ _ S2 (sends_trans _ _ _ _ _ S3 (sends_none _ _ _ _ S4 (sends_trans _ _ _ _ _ S5 S6)))) as S.
    rewrite app_nil_r in S. exact S.
Qed.

(** All files. *)
Definition sendable (fuel : nat) (path : list Z) : Prop :=
  ∃ d, fs !! path = Some d ∧ zlen d < 2 ^ 63 ∧ 16 * zlen d + 36 < Z.of_nat fuel.
Definition carries (sp : option (list Z)) (path : list Z) (x : parcel) : Prop :=
  let d := payload (pa_pieces x) in
  fs !! path = Some d ∧ pa_meta x = file_meta sp path d ∧ Forall (piece_ok mtu) (pa_pieces x).
Definition parcels_frames (crc : list Z → Z) (xs : list parcel) : list (list Z) := concat (map (parcel_frames crc) xs).

Lemma sizes_scanned fuel paths total w : at_rest (c:=c) mtu fs w → Forall (sendable fuel) paths →
  wpt (scan_sizes paths total) (λ _ w', at_rest (c:=c) mtu fs w' ∧ sends [] w w') w.
Proof.
  intros Hr Hp. revert total w Hr. induction Hp as [|path paths (d & Hd & Hb & _) _ IH]; intros total w Hr; cbn [scan_sizes].
  { apply wp_ret. split; [done|apply sends_refl]. }
  apply wp_bind. eapply wp_mono; [by apply (size_and_name_ok path d)|]. intros r w1 (-> & Hr1 & S1).
  eapply wp_mono; [by apply IH|]. intros t w2 [Hr2 S2]. split; [done|by eapply sends_none].
Qed.
Lemma files_go fuel sp paths prog w : at_rest (c:=c) mtu fs w → Forall (sendable fuel) paths →
  wpt (send_all fuel paths sp prog)
    (λ st w', st = VAL_OK ∧ at_rest (c:=c) mtu fs w' ∧
       ∃ xs, Forall2 (carries sp) paths xs ∧ sends (parcels_frames (cfg_crc c) xs) w w') w.
Proof.
  intros Hr Hp. revert prog w Hr. induction Hp as [|path paths (d & Hd & Hb & Hf) _ IH]; intros prog w Hr; cbn [send_all].
  { apply wp_ret. split; [done|]. split; [done|]. exists []. split; [constructor|apply sends_refl]. }
  apply wp_bind. eapply wp_mono; [by apply (file_goes fuel path sp prog d)|].
  intros [st prog'] w1 (Est & Hr1 & ps & Hps & Epay & S1). cbn [fst] in Est. subst st. rewrite Z.eqb_refl. cbn [negb].
  eapply wp_mono; [by apply IH|]. intros st w2 (-> & Hr2 & xs & Hxs & S2). split; [done|]. split; [done|].
  exists (mk_parcel (file_meta sp path d) ps :: xs). split; [|exact (sends_trans _ _ _ _ _ S1 S2)].
  constructor; [|done]. split; cbn [pa_pieces pa_meta]; rewrite Epay; done.
Qed.
Lemma eot_goes fuel w : at_rest (c:=c) mtu fs w → (16 < fuel)%nat →
  wpt (let! st := val_internal_send_packet VAL_PKT_EOT PNull 0 0 in
       if negb (st =? VAL_OK) then mret st else val_internal_wait_eot_ack fuel)
    (λ st w', st = VAL_OK ∧ at_rest (c:=c) mtu fs w' ∧ sends [packet_frame (cfg_crc c) VAL_PKT_EOT [] 0 true] w w') w.
Proof.
  intros (Hw & Ef & EL) Hf. apply wp_bind. eapply wp_mono; [by apply (send_plain_ok c mtu VAL_PKT_EOT PNull 0 [])|].
  intros st w1 (Hw1 & -> & Hpost). rewrite Z.eqb_refl. cbn [negb].
  destruct (posted_reply Hcrc _ _ _ _ _ _ _ _ Hpost (hh_reply_eot _)) as (L1 & P1 & F1 & S1).
  rewrite EL in L1. cbn [app] in L1. rewrite <- (packet_frame_ext _ _ _ _ _ _ Hcrc) in L1. fold (ctrl_frame c VAL_PKT_EOT_ACK 0) in L1.
  assert (Hlen : zlen (link_in (w_e w1)) <= 16).
  { rewrite L1. unfold ctrl_frame, packet_frame. rewrite zlen_frame.
    destruct (bare_content_len VAL_PKT_EOT_ACK 0 (or_introl eq_refl)). lia. }
  eapply wp_mono; [apply (eot_ack_comes fuel c mtu 0 [] w1); rewrite ?app_nil_r; try done; lia|].
  intros st w2 (Hw2 & -> & V2 & L2 & S2). split; [done|]. split; [split; [done|split; [congruence|done]]|].
  rewrite <- (app_nil_r [_]). by eapply sends_trans.
Qed.

End sender.

(** A batch on the wire. *)
Definition batch_frames (crc : list Z → Z) (hello : list Z) (xs : list parcel) : list (list Z) :=
  [packet_frame crc VAL_PKT_HELLO hello 0 true] ++ parcels_frames crc xs ++ [packet_frame crc VAL_PKT_EOT [] 0 true].

Lemma batch_goes {E} `{!Hooks E} `{!StreamLink E} `{!Host E Z} `{!HonestHost E} `{!BuildOptions}
    fuel c mtu0 fs p n paths sp (w : world E) :
  let mtu := Z.min n (cfg_packet_size c) in
  at_rest (c:=c) mtu0 fs w → s_handshake_done (w_s w) = false → (∀ l, cfg_crc c l = hh_crc l) → mtu < 2 ^ 16 + 12 →
  config_ok (s_cfg p) → 512 <= n <= 2097152 → hh_hello = hello_bytes p n →
  paths ≠ [] → Forall (sendable (fs:=fs) fuel) paths → (64 < fuel)%nat →
  wpt (val_send_files fuel paths sp)
    (λ st w', st = VAL_OK ∧ at_rest (c:=c) mtu fs w' ∧ ∃ xs, Forall2 (carries (mtu:=mtu) (fs:=fs) sp) paths xs ∧
       sends (batch_frames (cfg_crc c) (hello_bytes (w_s w) (cfg_packet_size c)) xs) w w') w.
Proof.
  intros mtu Hr Hnew Hcrc Hmtu Hp Hn Hh Hne Hpaths Hf. unfold val_send_files.
  assert (Hlen : zlen paths ≠ 0) by (destruct paths as [|q l]; [done|rewrite zlen_cons; pose proof (zlen_nonneg l); lia]).
  replace (zlen paths =? 0) with false by lia. apply wp_bind, wp_mod.
  set (w1 := mk_world _ _ _).
  assert (Hr1 : at_rest (c:=c) mtu0 fs w1).
  { destruct Hr as ([Hok Hc Hm Hfine] & Ef & EL). split; [|done]. constructor; try done. by destruct Hok. }
  apply wp_bind. unfold send_batch. apply wp_bind.
  eapply wp_mono; [by apply (sender_handshake Hcrc fuel mtu0 fs p n)|]. intros st w2 (-> & Hr2 & S2). fold mtu in Hr2.
  change (hello_bytes (w_s w1) (cfg_packet_size c)) with (hello_bytes (w_s w) (cfg_packet_size c)) in S2.
  rewrite Z.eqb_refl. cbn [negb]. apply wp_bind. eapply wp_mono; [by apply (sizes_scanned (c:=c) (mtu:=mtu) (fs:=fs) fuel)|].
  intros total w3 [Hr3 S3]. eapply smooth_then; [apply smooth_ticks|apply Hr3|]. intros now w4 Hw4 B4.
  pose proof (at_rest_beside _ _ _ _ _ Hr3 Hw4 B4) as Hr4. destruct B4 as (_ & _ & S4). cbv zeta. apply wp_bind.
  eapply wp_mono; [by apply (files_go (c:=c) (mtu:=mtu) (fs:=fs) Hcrc Hmtu fuel sp paths)|]. intros st w5 (-> & Hr5 & xs & Hxs & S5).
  rewrite Z.eqb_refl. cbn [negb]. eapply wp_mono; [apply (eot_goes (c:=c) (mtu:=mtu) (fs:=fs) Hcrc fuel w5 Hr5); lia|]. intros st w6 (-> & Hr6 & S6).
  apply wp_bind, wp_mod, wp_ret. split; [done|]. split.
  { destruct Hr6 as ([Hok Hc Hm Hfine] & Ef & EL). split; [|done]. constructor; try done. by destruct Hok. }
  exists xs. split; [done|].
  destruct (sends_trans _ _ _ _ _ S2 (sends_none _ _ _ _ S3 (sends_none _ _ _ _ S4 (sends_trans _ _ _ _ _ S5 S6)))) as (evs & Ee & Efr).
  by exists evs.
Qed.
