(* ===== verification/Download.v ===== *)
(** The receiver's whole call on a faultless link: [val_receive_files] with the stream of
    a batch of files that all start over: files that it does not have, or any in mode NEVER.

    [parcel_received] is one file, [call_received] a call that some frame ends, [batch_received]
    a complete session, which EOT ends.  In mode NEVER the
    call also appends to [resume_trace.log], so that there the store is known up to that file
    ([alike]). *)
From stdpp Require Import gmap.
From S2P Require Import Prelude ByteOrder Wire Errors Crc Sanitize Timing Session Records Simulation Window Packet Frame.
From S2P Require Import Control Handshake Resume Sender Receiver Trace DataPhase Link Assembly Windows Host Exchange Upload.

(** The output directory stays through anything that a trace can be written of. *)
Definition anything (ev : event) : Prop := True.
#[export] Instance anything_permits : Permits anything.
Proof. done. Qed.
#[export] Instance anything_reads : Reads anything.
Proof. done. Qed.
#[export] Instance anything_sends : Sends anything.
Proof. done. Qed.
#[export] Instance anything_announces : Announces anything.
Proof. done. Qed.
#[export] Instance anything_notes : Notes anything.
Proof. done. Qed.
#[local] Hint Resolve anything_permits anything_reads anything_sends anything_announces anything_notes : emits.
Lemma directory_stays {E A} c (m : M (world E) A) Q w : (∀ d, emits c d anything m) → s_cfg (w_s w) = c → wpt m Q w →
  wpt m (λ a w', Q a w' ∧ s_output_directory (w_s w') = s_output_directory (w_s w)) w.
Proof.
  intros Hm Hc HQ. specialize (Hm _ w Hc eq_refl). unfold wp in *. destruct (m w) as [[a w']|]; [|done].
  by destruct Hm as (_ & ? & _).
Qed.

(** Stores that differ in [resume_trace.log] at most, and that in mode NEVER only. *)
Definition alike (mode : Z) (fs fs' : store) : Prop :=
  ∀ q, (mode = VAL_RESUME_NEVER → q ≠ trace_log) → fs' !! q = fs !! q.
#[export] Instance alike_preorder mode : PreOrder (alike mode).
Proof. split; [done|]. intros a b d Hab Hbd q Hq. by rewrite Hbd, Hab. Qed.
Lemma alike_insert mode p d fs fs' : alike mode fs fs' → alike mode (<[p := d]> fs) (<[p := d]> fs').
Proof.
  intros Ha q Hq. destruct (decide (q = p)) as [->|Hne]; [by rewrite !lookup_insert_eq|].
  rewrite !lookup_insert_ne by done. by apply Ha.
Qed.

Section receiver.
Context {E : Type} `{!Hooks E} `{!StreamLink E} `{!Host E unit} `{!BuildOptions}.
Context {c : val_config_t} {mtu : Z} {crc : list Z → Z}.
Context (Hu : unanswered (E:=E)) (Hcrc : ∀ l, cfg_crc c l = crc l).

(** The receiver between two packets: the store, and what has arrived. *)
Definition awaiting (fs : store) (L : list Z) (w : world E) : Prop :=
  standing c mtu w ∧ ho_files (view w) = fs ∧ link_in (w_e w) = L.
Lemma awaiting_beside fs L w w' : awaiting fs L w → standing c mtu w' → beside w w' → awaiting fs L w'.
Proof. intros (_ & Hf & EL) Hw' (V & L' & _). split; [done|]. split; congruence. Qed.
Lemma awaiting_reads fs L rest w w' : awaiting fs L w → standing c mtu w' → reads rest w w' → awaiting fs rest w'.
Proof. intros (_ & Hf & EL) Hw' (V & L' & _). split; [done|]. split; congruence. Qed.
Lemma awaiting_filed fs fs' L w w' : awaiting fs L w → standing c mtu w' → filed fs' w w' → awaiting fs' L w'.
Proof. intros (_ & Hf & EL) Hw' (_ & L' & _ & F & _). split; [done|]. split; congruence. Qed.
(** What is sent provokes nothing. *)
Lemma awaiting_posted fs L fr w w' : awaiting fs L w → standing c mtu w' → posted fr w w' →
  awaiting fs L w' ∧ sends [fr] w w'.
Proof.
  intros (_ & Hf & EL) Hw' [Eo Hs]. rewrite unanswered_id in Eo by done. unfold outside in Eo.
  pose proof (f_equal fst Eo) as E1. pose proof (f_equal snd Eo) as E2. cbn in E1, E2.
  split; [|done]. split; [done|]. split; congruence.
Qed.

(** ** Metadata and EOT *)

Lemma slot_filled fuel fuel' to_ms l type d rest fs w : awaiting fs (packet_frame crc type d 0 true ++ rest) w → 0 < to_ms →
  plain type → type ≠ VAL_PKT_CANCEL → bytes_ok d → zlen d <= 488 → (Z.to_nat (zlen (link_in (w_e w))) < fuel')%nat →
  wpt (loop (S fuel) (wait_meta_body fuel' mtu to_ms) l)
    (λ r w', r = inr (mk_packet type (zlen d) 0 d) ∧ awaiting fs rest w' ∧ sends [] w w' ∧
       ztake (zlen d) (s_recv_buffer (w_s w')) = d) w.
Proof.
  intros Ha Hto Ht Hn Hb Hd Hf. pose proof Ha as (Hw & _ & EL). pose proof (standing_mtu _ _ _ Hw) as Hm.
  cbn [loop]. apply wp_bind. destruct l as [tries backoff].
  unfold wait_meta_body at 1. eapply smooth_then; [apply smooth_operation|done|]. intros _ w1 Hw1 B1.
  apply wp_bind. eapply wp_mono; [by eapply healthy|]. intros h w1' [-> ->]. change (negb (VAL_OK =? VAL_OK)) with false. cbv iota.
  apply wp_bind. eapply wp_mono; [by eapply connected_ok|]. intros cn w2 (Hw2 & -> & B2). cbn [negb].
  apply wp_bind. eapply wp_mono; [by eapply not_cancelled|]. intros cc w2' [-> ->].
  assert (B : beside w w2) by (by etrans). pose proof B as (EV & EL2 & Hs2).
  apply wp_bind. eapply wp_mono.
  { apply (packet_comes fuel' c mtu (w_s w) type d 0 true (DstRecvBuffer mtu) to_ms rest w2);
      rewrite ?EL2, ?plain_content; try done; try lia; try apply Ht.
    - intros l. by rewrite crc_of_cfg, (st_cfg _ _ _ Hw).
    - rewrite EL. unfold session_frame. f_equal. apply packet_frame_ext. intros l.
      by rewrite <- Hcrc, crc_of_cfg, (st_cfg _ _ _ Hw). }
  cbv zeta beta. intros r w3 (Hw3 & -> & EV3 & EL3 & Hs3 & Hbuf).
  assert (Hseen : seen_payload type d 0 = d).
  { unfold seen_payload. destruct (type =? VAL_PKT_DATA); [done|by apply plain_content]. }
  rewrite outcome_of_packet by (rewrite ?Hseen; cbn; lia). rewrite Hseen, plain_offset by done.
  change (VAL_OK =? VAL_OK) with true. cbv iota. apply wp_ret, wp_ret. split; [done|]. split; [|split].
  - eapply awaiting_reads; [exact (awaiting_beside _ _ _ _ Ha Hw2 B)|done|]. done.
  - by eapply sends_none.
  - cbn in Hbuf. rewrite explicit_offset_flags in Hbuf. pose proof Ht as (_ & Hnd & _).
    replace (type =? VAL_PKT_DATA) with false in Hbuf by lia. cbn [andb] in Hbuf.
    rewrite plain_content in Hbuf by done. apply Hbuf; lia.
Qed.
Lemma meta_comes fuel meta rest fs w :
  awaiting fs (packet_frame crc VAL_PKT_SEND_META (val_serialize_meta meta) 0 true ++ rest) w → meta_wf meta →
  (Z.to_nat (zlen (link_in (w_e w))) < fuel)%nat →
  wpt (wait_meta fuel mtu) (λ r w', r = inr meta ∧ awaiting fs rest w' ∧ sends [] w w') w.
Proof.
  intros Ha Hm Hf. pose proof Ha as (Hw & _ & _). pose proof (meta_put_size _ Hm) as Hz.
  unfold wait_meta. apply wp_bind, wp_gets, wp_bind, wp_gets, wp_bind. destruct fuel as [|fuel]; [lia|].
  pose proof (timeout_of_range (s_timing (w_s w)) VAL_OP_META (sok_timing _ (st_ok _ _ _ Hw))) as Hto.
  eapply wp_mono; [apply (slot_filled fuel (S fuel) _ _ VAL_PKT_SEND_META (val_serialize_meta meta) rest fs w);
    rewrite ?Hz; try done; try lia; by apply meta_put_bytes|].
  intros r w1 (-> & Ha1 & S1 & Hbuf). unfold classify_meta. cbn [pkt_type pkt_len].
  change (VAL_PKT_SEND_META =? VAL_PKT_EOT) with false. change (VAL_PKT_SEND_META =? VAL_PKT_CANCEL) with false.
  change (VAL_PKT_SEND_META =? VAL_PKT_SEND_META) with true. rewrite Hz, Z.ltb_irrefl. cbn [negb orb].
  apply wp_bind, wp_gets, wp_ret. split; [|done]. f_equal.
  rewrite <- (ztake_zdrop VAL_WIRE_META_SIZE (s_recv_buffer (w_s w1))), <- Hz, Hbuf. by apply meta_roundtrip.
Qed.
Lemma plain_eot : plain VAL_PKT_EOT.
Proof. by split. Qed.
Lemma eot_comes fuel rest fs w : awaiting fs (packet_frame crc VAL_PKT_EOT [] 0 true ++ rest) w →
  (Z.to_nat (zlen (link_in (w_e w))) < fuel)%nat →
  wpt (wait_meta fuel mtu)
    (λ r w', r = inl VAL_OK ∧ awaiting fs rest w' ∧ sends [ctrl_frame c VAL_PKT_EOT_ACK 0] w w') w.
Proof.
  intros Ha Hf. pose proof Ha as (Hw & _ & _).
  unfold wait_meta. apply wp_bind, wp_gets, wp_bind, wp_gets, wp_bind. destruct fuel as [|fuel]; [lia|].
  pose proof (timeout_of_range (s_timing (w_s w)) VAL_OP_META (sok_timing _ (st_ok _ _ _ Hw))) as Hto.
  eapply wp_mono; [apply (slot_filled fuel (S fuel) _ _ VAL_PKT_EOT [] rest fs w); try done; try lia; constructor|].
  intros r w1 (-> & Ha1 & S1 & _). unfold classify_meta. cbn [pkt_type].
  change (VAL_PKT_EOT =? VAL_PKT_EOT) with true. cbv iota. apply wp_bind.
  eapply wp_mono; [apply (send_bare_ok c mtu); [apply Ha1|by left]|]. intros st w2 (Hw2 & -> & Hpost).
  destruct (awaiting_posted _ _ _ _ _ Ha1 Hw2 Hpost) as [Ha2 S2]. apply wp_ret. split; [done|]. split; [done|].
  eapply sends_none; [exact S1|]. unfold session_frame in S2. unfold ctrl_frame.
  by rewrite (packet_frame_ext _ (cfg_crc c)) in S2 by (intros l; by rewrite crc_of_cfg, (st_cfg _ _ _ (proj1 Ha1))).
Qed.

Lemma smooth_protocol d : smooth (VAL_SET_PROTOCOL_ERROR d).
Proof. apply smooth_upd; [intros c'; apply safe_set_error|done|by intros s []]. Qed.
(** What may stand where metadata is expected: a frame that ends the call, with this status and
    these answers. *)
Definition ends_call (fr : list Z) (st : Z) (ans : list (list Z)) : Prop :=
  ∀ fuel rest fs w, awaiting fs (fr ++ rest) w → (Z.to_nat (zlen (link_in (w_e w))) < fuel)%nat →
  wpt (wait_meta fuel mtu) (λ r w', r = inl st ∧ awaiting fs rest w' ∧ sends ans w w') w.
Lemma eot_ends : ends_call (packet_frame crc VAL_PKT_EOT [] 0 true) VAL_OK [ctrl_frame c VAL_PKT_EOT_ACK 0].
Proof. intros fuel rest fs w. apply eot_comes. Qed.
(** Any packet of another kind is a protocol error, and is not answered. *)
Lemma stray_ends type d : plain type → type ≠ VAL_PKT_SEND_META → type ≠ VAL_PKT_EOT → type ≠ VAL_PKT_CANCEL →
  bytes_ok d → zlen d <= 488 → ends_call (packet_frame crc type d 0 true) VAL_ERR_PROTOCOL [].
Proof.
  intros Ht Hm Heot Hc Hb Hd fuel rest fs w Ha Hf. pose proof Ha as (Hw & _ & _).
  unfold wait_meta. apply wp_bind, wp_gets, wp_bind, wp_gets, wp_bind. destruct fuel as [|fuel]; [lia|].
  pose proof (timeout_of_range (s_timing (w_s w)) VAL_OP_META (sok_timing _ (st_ok _ _ _ Hw))) as Hto.
  eapply wp_mono; [apply (slot_filled fuel (S fuel) _ _ type d rest fs w); done || lia|].
  intros r w1 (-> & Ha1 & S1 & _). unfold classify_meta. cbn [pkt_type].
  replace (type =? VAL_PKT_EOT) with false by lia. replace (type =? VAL_PKT_CANCEL) with false by lia.
  replace (type =? VAL_PKT_SEND_META) with false by lia. cbn [negb orb].
  eapply smooth_then; [apply smooth_protocol|apply Ha1|]. intros _ w2 Hw2 B2. apply wp_ret. split; [done|].
  split; [by eapply awaiting_beside|]. destruct B2 as (_ & _ & S2). by eapply sends_none.
Qed.

(** ** The negotiation *)

Lemma resume_req_comes fuel fuel' to_ms l rest fs w : awaiting fs (packet_frame crc VAL_PKT_RESUME_REQ [] 0 true ++ rest) w →
  0 < to_ms → (Z.to_nat (zlen (link_in (w_e w))) < fuel')%nat →
  wpt (loop (S fuel) (wait_resume_req_body fuel' to_ms) l)
    (λ r w', r = VAL_OK ∧ awaiting fs rest w' ∧ sends [] w w') w.
Proof.
  intros Ha Hto Hf. pose proof Ha as (Hw & _ & EL). pose proof (standing_mtu _ _ _ Hw) as Hm.
  cbn [loop]. apply wp_bind. destruct l as [tries backoff]. unfold wait_resume_req_body at 1. apply wp_bind. eapply wp_mono.
  { apply (packet_comes fuel' c mtu (w_s w) VAL_PKT_RESUME_REQ [] 0 true DstNull to_ms rest w);
      try done; try (change (content_of VAL_PKT_RESUME_REQ [] 0 true) with (@nil Z); rewrite zlen_nil; lia); [| |constructor].
    - intros l. by rewrite crc_of_cfg, (st_cfg _ _ _ Hw).
    - rewrite EL. unfold session_frame. f_equal. apply packet_frame_ext. intros l.
      by rewrite <- Hcrc, crc_of_cfg, (st_cfg _ _ _ Hw). }
  cbv zeta beta. intros r w1 (Hw1 & -> & EV & EL1 & S1 & _). cbn [outcome].
  change (dst_cap DstNull =? 0) with true. cbv iota. rewrite Z.eqb_refl. cbn [pkt_type].
  change (VAL_PKT_RESUME_REQ =? VAL_PKT_RESUME_REQ) with true. cbv iota. apply wp_ret, wp_ret. split; [done|].
  split; [|done]. by eapply awaiting_reads.
Qed.
Definition resume_zero : list Z := val_serialize_resume_resp (mk_resume_resp VAL_RESUME_START_ZERO 0 0 0).

(** Files that are sent from their start: those that are not there, empty ones, and in mode NEVER
    all of them. *)
Definition restarts (fs : store) (path : list Z) : Prop :=
  cfg_resume_mode c = VAL_RESUME_NEVER ∨ default [] (fs !! path) = [].
Lemma restarts_zero fuel name size fs L w : awaiting fs L w → restarts fs (output_path (w_s w) name) →
  wpt (determine_resume_action fuel name size) (λ d w', d = start_zero ∧ awaiting fs L w' ∧ sends [] w w') w.
Proof.
  intros Ha Hre. pose proof Ha as (Hw & Ef & _). unfold determine_resume_action. apply wp_bind, wp_gets. cbv zeta.
  apply wp_bind. eapply wp_mono; [by apply (open_ok c mtu)|]. unfold opened, restarts in *. rewrite Ef.
  destruct (fs !! output_path (w_s w) name) as [d|] eqn:Ed.
  2:{ intros h w1 (Hw1 & -> & I1). apply wp_ret. split; [done|]. split; [by eapply awaiting_filed|]. apply I1. }
  intros h w1 (Hw1 & f & -> & I1 & C1). pose proof (awaiting_filed _ _ _ _ _ Ha Hw1 I1) as Ha1. pose proof Ha1 as (_ & Ef1 & _).
  pose proof (zlen_nonneg d). apply wp_bind. eapply wp_mono.
  { apply (seek_ok c mtu f 0 SEEK_END _ 0 d w1 Hw1 C1); [by rewrite Ef1|cbn; lia]. }
  intros r w2 (Hw2 & _ & I2 & C2). rewrite Ef1 in I2. pose proof (awaiting_filed _ _ _ _ _ Ha1 Hw2 I2) as Ha2.
  cbn [seek_target] in C2. rewrite Z.add_0_r in C2. pose proof Ha2 as (_ & Ef2 & _). apply wp_bind.
  eapply wp_mono; [by apply (tell_ok c mtu f _ _ w2 Hw2 C2)|]. intros t w3 (Hw3 & -> & I3 & _). rewrite Ef2 in I3.
  pose proof (awaiting_filed _ _ _ _ _ Ha2 Hw3 I3) as Ha3. pose proof Ha3 as (_ & Ef3 & _). replace (zlen d <? 0) with false by lia.
  assert (Hclose : wpt (do! fs_fclose f in mret start_zero) (λ d w', d = start_zero ∧ awaiting fs L w' ∧ sends [] w w') w3).
  { apply wp_bind. eapply wp_mono; [by apply (close_ok c mtu f)|]. intros _ w4 [Hw4 I4]. rewrite Ef3 in I4. apply wp_ret.
    split; [done|]. split; [by eapply awaiting_filed|].
    by destruct (filed_trans _ _ _ _ _ (filed_trans _ _ _ _ _ I1 I2) (filed_trans _ _ _ _ _ I3 I4)) as (_ & _ & _ & _ & ?). }
  cbv zeta. rewrite (st_cfg _ _ _ Hw). destruct (cfg_resume_mode c =? VAL_RESUME_NEVER) eqn:Em; [done|].
  destruct Hre as [Hn|Hz]; [by rewrite Hn in Em|]. cbn in Hz. subst d. change (u64 (zlen [])) with 0. rewrite Z.ltb_irrefl, Z.eqb_refl.
  destruct (cfg_resume_mode c =? VAL_RESUME_SKIP_EXISTING); exact Hclose.
Qed.

(** The note in [resume_trace.log] before the answer. *)
Lemma noted (never : bool) r fs L w : awaiting fs L w → (never = true → cfg_resume_mode c = VAL_RESUME_NEVER) →
  wpt (if never then append_trace r else mret tt)
    (λ _ w', ∃ fs', alike (cfg_resume_mode c) fs fs' ∧ awaiting fs' L w' ∧ sends [] w w') w.
Proof.
  intros Ha Hn. destruct never; [|by apply wp_ret; exists fs; split; [|split; [|apply sends_refl]]].
  pose proof Ha as (Hw & Ef & _). eapply wp_mono; [apply (append_ok c mtu); [done|apply trace_line_bytes]|].
  intros _ w1 (Hw1 & I1 & F1). exists (ho_files (view w1)). split; [|split; [by eapply awaiting_filed|apply I1]].
  intros q Hq. rewrite F1, Ef; [done|auto].
Qed.

Lemma exchange_zero fuel (never : bool) name path full size fs L w : awaiting fs L w → restarts fs (output_path (w_s w) name) →
  (never = true → cfg_resume_mode c = VAL_RESUME_NEVER) →
  wpt (resume_exchange fuel never name path full size)
    (λ r w', r = inr (0, false) ∧ (∃ fs', alike (cfg_resume_mode c) fs fs' ∧ awaiting fs' L w') ∧
       sends [packet_frame (cfg_crc c) VAL_PKT_RESUME_RESP resume_zero 0 true] w w') w.
Proof.
  intros Ha Hno Hnv. unfold resume_exchange. apply wp_bind.
  eapply wp_mono; [by apply restarts_zero|]. intros d w0 (-> & Ha0 & S0). cbv zeta.
  cbn [start_zero rd_action rd_offset rd_verify_crc rd_verify_length]. apply wp_bind.
  eapply wp_mono; [by eapply noted|]. intros _ w1 (fs1 & Hl & Ha1 & S1'). pose proof (sends_none _ _ _ _ S0 S1') as S1.
  change (u32 VAL_RESUME_START_ZERO) with VAL_RESUME_START_ZERO. fold resume_zero. apply wp_bind. eapply wp_mono.
  { apply (send_plain_ok c mtu VAL_PKT_RESUME_RESP (PBytes resume_zero) VAL_WIRE_RESUME_RESP_SIZE resume_zero); try done; apply Ha1. }
  intros st w2 (Hw2 & -> & Hpost). destruct (awaiting_posted _ _ _ _ _ Ha1 Hw2 Hpost) as [Ha2 S2].
  change (negb (VAL_OK =? VAL_OK)) with false. cbv iota.
  change (VAL_RESUME_START_ZERO =? VAL_RESUME_SKIP_FILE) with false. change (VAL_RESUME_START_ZERO =? VAL_RESUME_START_ZERO) with true. cbv iota.
  eapply smooth_then; [apply start_smooth|done|]. intros _ w3 Hw3 B3. apply wp_ret. split; [done|].
  split; [exists fs1; split; [done|by eapply awaiting_beside]|]. destruct B3 as (_ & _ & S3). eapply sends_none; [exact S1|].
  rewrite <- (app_nil_r [_]). by eapply sends_trans.
Qed.

Lemma output_path_ext s s' name : s_output_directory s = s_output_directory s' → output_path s name = output_path s' name.
Proof. intros Hd. unfold output_path. by rewrite Hd. Qed.

Lemma negotiated fuel meta name full rest fs w :
  awaiting fs (packet_frame crc VAL_PKT_RESUME_REQ [] 0 true ++ rest) w → restarts fs (output_path (w_s w) name) →
  0 < meta_file_size meta → (Z.to_nat (zlen (link_in (w_e w))) < fuel)%nat →
  wpt (negotiate_resume fuel meta name full)
    (λ r w', r = inr (0, false) ∧ (∃ fs', alike (cfg_resume_mode c) fs fs' ∧ awaiting fs' rest w') ∧
       sends [packet_frame (cfg_crc c) VAL_PKT_RESUME_RESP resume_zero 0 true] w w') w.
Proof.
  intros Ha Hno Hsz Hf. pose proof Ha as (Hw & _ & _). unfold negotiate_resume. apply wp_bind, wp_gets, wp_bind, wp_gets, wp_bind.
  pose proof (timeout_of_range (s_timing (w_s w)) VAL_OP_META (sok_timing _ (st_ok _ _ _ Hw))) as Hto.
  eapply wp_mono.
  { apply (directory_stays c); [|apply Hw|].
    - intros d. apply emits_loop. intros l. unfold wait_resume_req_body, plain_backoff. emits_auto.
    - destruct fuel as [|fuel]; [lia|]. apply (resume_req_comes fuel (S fuel)); [exact Ha|lia|done]. }
  intros st w1 [(-> & Ha1 & S1) Ed1]. change (negb (VAL_OK =? VAL_OK)) with false. cbv iota. apply wp_bind.
  eapply wp_mono; [apply (exchange_zero fuel false name (meta_sender_string meta) full (meta_file_size meta) fs rest w1 Ha1)|]; [|done|].
  { by rewrite (output_path_ext _ (w_s w)). }
  intros r w2 (-> & Ha2 & S2). apply wp_ret. split; [by replace (meta_file_size meta <=? 0) with false by lia|].
  split; [done|by eapply sends_none].
Qed.

(** In mode NEVER the application is asked too; without a validator it accepts. *)
Lemma c_string_le l : zlen (c_string l) <= zlen l.
Proof. induction l as [|z l IH]; [done|]. cbn [c_string]. pose proof (zlen_nonneg l). destruct (z =? 0); rewrite ?zlen_cons, ?zlen_nil; lia. Qed.
Lemma target_path_fits s name : zlen (s_output_directory s) <= VAL_MAX_PATH →
  fst (val_construct_target_path s name (VAL_MAX_PATH * 2 + 8)) = VAL_OK.
Proof.
  unfold VAL_MAX_PATH. intros Hd. unfold val_construct_target_path, VAL_MAX_FILENAME. change (127 * 2 + 8 =? 0) with false. cbv iota zeta.
  set (t := match val_clean_filename _ _ with Some t => t | None => [] end).
  assert (Ht : zlen t <= 127).
  { unfold t. destruct (val_clean_filename _ _) as [o|] eqn:Eo; [|done]. apply clean_filename_ok in Eo as (_ & ? & _); lia. }
  clearbody t. pose proof (c_string_le t). pose proof (c_string_le (s_output_directory s)). pose proof (zlen_nonneg (c_string t)).
  unfold val_internal_join_path, snprintf_text. change (127 * 2 + 8 =? 0) with false. cbv iota.
  assert (Hn : ∀ p n, 0 <= n < 262 → fst (if (n <? 0) || (127 * 2 + 8 <=? n) then (VAL_ERR_INVALID_ARG, p) else (VAL_OK, p : list Z)) = VAL_OK).
  { intros p n Hn. by replace ((n <? 0) || (127 * 2 + 8 <=? n)) with false by lia. }
  destruct (s_output_directory s) as [|z d]; [apply Hn; lia|]. destruct (z =? 0); [apply Hn; lia|].
  apply Hn. rewrite !zlen_app. change (zlen [val_internal_path_sep]) with 1. pose proof (zlen_nonneg (c_string (z :: d))). lia.
Qed.
Lemma target_accepted meta name fs L w : awaiting fs L w → cfg_has_validator c = false →
  zlen (s_output_directory (w_s w)) <= VAL_MAX_PATH → wpt (validate_target meta name) (λ r w', r = inr false ∧ w' = w) w.
Proof.
  intros (Hw & _) Hv Hd. unfold validate_target. apply wp_bind, wp_gets. pose proof (target_path_fits (w_s w) name Hd) as Hp.
  destruct (val_construct_target_path _ _ _) as [pr path]. cbn [fst] in Hp. subst pr. change (negb (VAL_OK =? VAL_OK)) with false. cbv iota.
  unfold val_validate_metadata. apply wp_bind, wp_bind, wp_gets. rewrite (st_cfg _ _ _ Hw), Hv. by apply wp_ret, wp_bind, wp_ret, wp_ret.
Qed.
Lemma negotiated_never fuel meta name full rest fs w :
  awaiting fs (packet_frame crc VAL_PKT_RESUME_REQ [] 0 true ++ rest) w → cfg_resume_mode c = VAL_RESUME_NEVER →
  cfg_has_validator c = false → zlen (s_output_directory (w_s w)) <= VAL_MAX_PATH → (Z.to_nat (zlen (link_in (w_e w))) < fuel)%nat →
  wpt (negotiate_never fuel meta name full)
    (λ r w', r = inr (0, false) ∧ (∃ fs', alike (cfg_resume_mode c) fs fs' ∧ awaiting fs' rest w') ∧
       sends [packet_frame (cfg_crc c) VAL_PKT_RESUME_RESP resume_zero 0 true] w w') w.
Proof.
  intros Ha Hm Hv Hd Hf. pose proof Ha as (Hw & _ & EL). pose proof (standing_mtu _ _ _ Hw) as Hmtu.
  unfold negotiate_never. apply wp_bind, wp_gets, wp_bind.
  pose proof (timeout_of_range (s_timing (w_s w)) VAL_OP_META (sok_timing _ (st_ok _ _ _ Hw))) as Hto. eapply wp_mono.
  { apply (directory_stays c); [intros d; apply emits_recv_packet|apply Hw|].
    apply (packet_comes fuel c mtu (w_s w) VAL_PKT_RESUME_REQ [] 0 true DstNull _ rest w);
      try done; try (change (content_of VAL_PKT_RESUME_REQ [] 0 true) with (@nil Z); rewrite zlen_nil; lia); [lia| | |constructor].
    - intros l. by rewrite crc_of_cfg, (st_cfg _ _ _ Hw).
    - rewrite EL. unfold session_frame. f_equal. apply packet_frame_ext. intros l.
      by rewrite <- Hcrc, crc_of_cfg, (st_cfg _ _ _ Hw). }
  cbv zeta beta. intros r w1 [(Hw1 & -> & EV & EL1 & S1 & _) Ed1]. cbn [outcome].
  change (dst_cap DstNull =? 0) with true. cbv iota. rewrite Z.eqb_refl. cbn [pkt_type andb].
  change (VAL_PKT_RESUME_REQ =? VAL_PKT_RESUME_REQ) with true. cbv iota.
  assert (Ha1 : awaiting fs rest w1) by (by eapply awaiting_reads). apply wp_bind.
  eapply wp_mono.
  { apply (directory_stays c); [intros d; by apply emits_exchange|apply Hw1|].
    apply (exchange_zero fuel true name (meta_sender_string meta) full (meta_file_size meta) fs rest w1 Ha1); [by left|done]. }
  intros r w2 [(-> & (fs2 & Hl & Ha2) & S2) Ed2]. apply wp_bind.
  eapply wp_mono; [by apply (target_accepted meta name fs2 rest w2 Ha2 Hv); rewrite Ed2, Ed1|]. intros v w3 [-> ->].
  apply wp_ret. split; [done|]. split; [by exists fs2|by eapply sends_none].
Qed.

(** ** One file *)

Definition parcel_answers (x : parcel) : list (list Z) :=
  packet_frame (cfg_crc c) VAL_PKT_RESUME_RESP resume_zero 0 true ::
  data_acks c 0 (pa_pieces x) ++ [ctrl_frame c VAL_PKT_DONE_ACK (zlen (payload (pa_pieces x)))].
Definition parcel_ok (x : parcel) : Prop :=
  meta_wf (pa_meta x) ∧ meta_file_size (pa_meta x) = zlen (payload (pa_pieces x)) ∧
  0 < zlen (payload (pa_pieces x)) < 2 ^ 63 ∧ Forall (piece_ok mtu) (pa_pieces x).

Lemma appending_at f path fs w : standing (V:=host unit) c mtu w → ho_files (view w) = <[path := []]> fs →
  ho_cursor (view w) f = Some (path, 0) →
  standing (Faultless0:=dv_link (Delivery:=host_delivery Hu f path fs)) c mtu w.
Proof. intros [Hok Hc Hm [Ho Hun]] Hf Hcur. constructor; try done. split; [|done]. split; [done|]. by exists []. Qed.

(** The data phase writes the file. *)
Lemma file_written fuel f name path fname b start_ms size ps rest fs w :
  awaiting (<[path := []]> fs) (concat (data_frames crc 0 ps) ++ packet_frame crc VAL_PKT_DONE [] size true ++ rest) w →
  ho_cursor (view w) f = Some (path, 0) → Forall (piece_ok mtu) ps → zlen (payload ps) < 2 ^ 63 → 0 <= size < 2 ^ 64 →
  zlen (link_in (w_e w)) < Z.of_nat fuel →
  wpt (loop fuel (data_body fuel f name fname b mtu start_ms size) (mk_rx 0 val_crc32_init_state 0))
    (λ r w', (∃ l, r = inr l) ∧ awaiting (<[path := payload ps]> fs) rest w' ∧
       sends (data_acks c 0 ps ++ [ctrl_frame c VAL_PKT_DONE_ACK (zlen (payload ps))]) w w') w.
Proof.
  intros (Hw & Ef & EL) Hcur Hp Hbig Hsize Hf. set (D := host_delivery Hu f path fs).
  pose proof (appending_at f path fs w Hw Ef Hcur) as Hd.
  assert (Hext : ∀ l, crc l = val_internal_crc32 (w_s w) l) by (intros l; by rewrite <- Hcrc, crc_of_cfg, (st_cfg _ _ _ Hw)).
  assert (Hframes : concat (data_frames crc 0 ps) = data_stream (w_s w) 0 ps).
  { by rewrite <- concat_data_frames, (data_frames_ext crc (val_internal_crc32 (w_s w))). }
  rewrite Hframes, (packet_frame_ext _ _ _ _ _ _ Hext) in EL.
  pose proof (zlen_stream (w_s w) 0 ps) as Hcount.
  assert (Hlen : zlen (data_stream (w_s w) 0 ps) < zlen (link_in (w_e w))).
  { rewrite EL, !zlen_app. unfold packet_frame. rewrite zlen_frame.
    pose proof (zlen_nonneg (content_of VAL_PKT_DONE [] size true)). pose proof (zlen_nonneg rest). lia. }
  pose proof (zlen_nonneg (link_in (w_e w))).
  eapply wp_mono; [apply (assemble (f:=f) (Delivery0:=D) fuel c mtu (w_s w) name fname b start_ms size size rest ps fuel
    (mk_rx 0 val_crc32_init_state 0) w); cbn [rx_written rx_pkts_since_ack]; try done; try lia|].
  { intros l. by rewrite crc_of_cfg, (st_cfg _ _ _ Hw). }
  cbv beta zeta. cbn [rx_written rx_crc_state]. rewrite Z.add_0_l.
  intros r w' ([Hok Hc Hm [[Ho (d & Efd & Ecd)] Hun]] & -> & EV & EL' & S). split; [by eexists|]. split; [|exact S].
  split; [by constructor|]. split; [|exact EL'].
  change (appended path (w_e w') = appended path (w_e w) ++ payload ps) in EV. unfold appended, view in EV, Ef |- *.
  rewrite Efd, Ef, !lookup_insert_eq in EV. cbn in EV. by rewrite Efd, EV.
Qed.

Lemma body_received fuel meta name path start_ms b ps rest fs w :
  awaiting fs (concat (data_frames crc 0 ps) ++ packet_frame crc VAL_PKT_DONE [] (meta_file_size meta) true ++ rest) w →
  Forall (piece_ok mtu) ps → zlen (payload ps) < 2 ^ 63 → 0 <= meta_file_size meta < 2 ^ 64 →
  zlen (link_in (w_e w)) < Z.of_nat fuel →
  wpt (receive_body fuel meta name path mtu start_ms 0 false b)
    (λ r w', (∃ b', r = inr b') ∧ awaiting (<[path := payload ps]> fs) rest w' ∧
       sends (data_acks c 0 ps ++ [ctrl_frame c VAL_PKT_DONE_ACK (zlen (payload ps))]) w w') w.
Proof.
  intros Ha Hp Hbig Hsz Hf. pose proof Ha as (Hw & Ef & EL). unfold receive_body. change (0 =? 0) with true. cbv iota zeta.
  apply wp_bind. eapply wp_mono; [by apply (open_ok c mtu)|].
  assert (Eo : opened path ModeWrite (ho_files (view w)) = Some (<[path := []]> fs, 0)).
  { unfold opened. rewrite Ef. by destruct (fs !! path). }
  rewrite Eo. intros h w1 (Hw1 & f & -> & I1 & C1). pose proof (awaiting_filed _ _ _ _ _ Ha Hw1 I1) as Ha1.
  pose proof I1 as (_ & L1 & _ & _ & S1). apply wp_bind.
  eapply wp_mono; [apply (file_written fuel f name path _ b start_ms (meta_file_size meta) ps rest fs w1); rewrite ?L1; done|].
  intros r w2 ((l & ->) & Ha2 & S2). pose proof Ha2 as (Hw2 & Ef2 & _). apply wp_bind.
  eapply wp_mono; [by apply (close_ok c mtu f)|]. intros _ w3 [Hw3 I3]. rewrite Ef2 in I3.
  pose proof (awaiting_filed _ _ _ _ _ Ha2 Hw3 I3) as Ha3. destruct I3 as (_ & _ & _ & _ & S3). unfold file_received.
  eapply smooth_then; [apply complete_smooth|done|]. intros _ w4 Hw4 B4.
  eapply smooth_then; [apply smooth_metrics|done|]. intros _ w5 Hw5 B5. apply wp_ret. split; [by eexists|].
  assert (B : beside w3 w5) by (by etrans). split; [by eapply awaiting_beside|]. destruct B as (_ & _ & S).
  eapply sends_none; [exact S1|]. rewrite <- (app_nil_r (_ ++ _)). eapply sends_trans; [exact S2|by eapply sends_none].
Qed.

(** What mode NEVER needs on top: no validator, and a directory that leaves room for a name. *)
Definition unasked (w : world E) : Prop :=
  cfg_resume_mode c = VAL_RESUME_NEVER → cfg_has_validator c = false ∧ zlen (s_output_directory (w_s w)) <= VAL_MAX_PATH.
Lemma agreed fuel meta name full rest fs w :
  awaiting fs (packet_frame crc VAL_PKT_RESUME_REQ [] 0 true ++ rest) w → restarts fs (output_path (w_s w) name) → unasked w →
  0 < meta_file_size meta → (Z.to_nat (zlen (link_in (w_e w))) < fuel)%nat →
  wpt (if cfg_resume_mode (s_cfg (w_s w)) =? VAL_RESUME_NEVER then negotiate_never fuel meta name full else negotiate_resume fuel meta name full)
    (λ r w', r = inr (0, false) ∧ (∃ fs', alike (cfg_resume_mode c) fs fs' ∧ awaiting fs' rest w') ∧
       sends [packet_frame (cfg_crc c) VAL_PKT_RESUME_RESP resume_zero 0 true] w w') w.
Proof.
  intros Ha Hre Hun Hsz Hf. rewrite (st_cfg _ _ _ (proj1 Ha)). destruct (Z.eqb_spec (cfg_resume_mode c) VAL_RESUME_NEVER) as [Hm|_].
  - destruct (Hun Hm). by apply negotiated_never.
  - by apply negotiated.
Qed.

Lemma parcel_received fuel start_ms b x rest fs w :
  awaiting fs (concat (parcel_frames crc x) ++ rest) w → parcel_ok x →
  unasked w → restarts fs (output_path (w_s w) (meta_clean_name (pa_meta x))) →
  zlen (link_in (w_e w)) < Z.of_nat fuel →
  wpt (receive_one fuel mtu start_ms b)
    (λ r w', (∃ b', r = inl b') ∧
       (∃ fs', alike (cfg_resume_mode c) (<[output_path (w_s w) (meta_clean_name (pa_meta x)) := payload (pa_pieces x)]> fs) fs' ∧
          awaiting fs' rest w') ∧
       sends (parcel_answers x) w w') w.
Proof.
  intros Ha (Hm & Hsz & Hpay & Hp) Hun Hno Hf. pose proof Ha as (Hw & _ & EL).
  set (name := meta_clean_name (pa_meta x)) in *. set (path := output_path (w_s w) name) in *. unfold receive_one.
  unfold parcel_frames in Ha. rewrite !concat_app in Ha. cbn [concat] in Ha. rewrite !app_nil_r, <- !(assoc_L (++)) in Ha.
  set (R := concat _ ++ _ ++ rest) in Ha. pose proof (zlen_nonneg (link_in (w_e w))). apply wp_bind.
  eapply wp_mono; [apply (directory_stays c); [intros d; apply emits_wait_meta|apply Hw|apply (meta_comes fuel _ _ _ _ Ha Hm); lia]|].
  intros r w1 [(-> & Ha1 & S1) Ed1]. apply wp_bind, wp_gets. cbv zeta. pose proof Ha1 as (Hw1 & _ & EL1).
  fold name. rewrite (output_path_ext _ (w_s w)) by done. fold path.
  assert (Hshort : zlen (link_in (w_e w1)) <= zlen (link_in (w_e w))).
  { destruct Ha as (_ & _ & EL2). rewrite EL1, EL2, !zlen_app. 
    pose proof (zlen_nonneg (packet_frame crc VAL_PKT_SEND_META (val_serialize_meta (pa_meta x)) 0 true)). lia. }
  apply wp_bind. eapply wp_mono; [apply (agreed fuel (pa_meta x) name path R fs w1 Ha1); [| |lia|lia]|].
  { by rewrite (output_path_ext _ (w_s w)). }
  { unfold unasked. by rewrite Ed1. }
  intros r w2 (-> & (fs2 & Hl & Ha2) & S2). pose proof Ha2 as (Hw2 & _ & EL2). apply wp_bind.
  assert (Hshort2 : zlen (link_in (w_e w2)) <= zlen (link_in (w_e w1))).
  { rewrite EL2, EL1, zlen_app. pose proof (zlen_nonneg (packet_frame crc VAL_PKT_RESUME_REQ [] 0 true)). lia. }
  unfold R in Ha2. rewrite <- Hsz in Ha2.
  eapply wp_mono; [apply (body_received fuel (pa_meta x) name path start_ms b (pa_pieces x) rest fs2 w2 Ha2); try done; lia|].
  intros r w3 ((b' & ->) & Ha3 & S3). apply wp_ret. split; [by eexists|]. split; [eexists; split; [by apply alike_insert|exact Ha3]|].
  exact (sends_none _ _ _ _ S1 (sends_trans _ _ _ _ _ S2 S3)).
Qed.

(** ** A batch *)

Definition target (s : val_session_t) (x : parcel) : list Z := output_path s (meta_clean_name (pa_meta x)).
Definition stored (s : val_session_t) (xs : list parcel) (fs : store) : store :=
  foldl (λ fs x, <[target s x := payload (pa_pieces x)]> fs) fs xs.
Definition parcels_answers (xs : list parcel) : list (list Z) := concat (map parcel_answers xs) ++ [ctrl_frame c VAL_PKT_EOT_ACK 0].
(** All of the files start over, and no two are the same. *)
Definition all_restart (s : val_session_t) (fs : store) (xs : list parcel) : Prop :=
  NoDup (map (target s) xs) ∧ Forall (λ x, restarts fs (target s x)) xs.

Lemma target_ext s s' : s_output_directory s = s_output_directory s' → ∀ x, target s x = target s' x.
Proof. intros Hd x. by apply output_path_ext. Qed.
Lemma all_restart_ext s s' fs xs : s_output_directory s = s_output_directory s' → all_restart s fs xs → all_restart s' fs xs.
Proof.
  intros Hd [Hn Hf]. split.
  - by rewrite <- (map_ext _ _ (target_ext _ _ Hd)).
  - eapply List.Forall_impl; [|exact Hf]. intros x Hx. cbv beta in *. by rewrite <- (target_ext _ _ Hd).
Qed.
Lemma stored_ext s s' xs fs : s_output_directory s = s_output_directory s' → stored s xs fs = stored s' xs fs.
Proof.
  intros Hd. unfold stored. revert fs. induction xs as [|x xs IH]; intros fs; [done|]. cbn [foldl]. by rewrite (target_ext _ _ Hd).
Qed.
Lemma all_restart_next s fs x xs d : all_restart s fs (x :: xs) → all_restart s (<[target s x := d]> fs) xs.
Proof.
  intros [[Hx Hn]%list.NoDup_cons [_ Hf]%Forall_cons_1]. split; [done|]. apply list.Forall_forall. intros y Hy.
  rewrite list.Forall_forall in Hf. unfold restarts. rewrite lookup_insert_ne; [by apply Hf|]. intros He. apply Hx. rewrite He.
  apply list_elem_of_fmap. by exists y.
Qed.

Lemma stored_alike s xs fs fs' : alike (cfg_resume_mode c) fs fs' → alike (cfg_resume_mode c) (stored s xs fs) (stored s xs fs').
Proof.
  unfold stored. revert fs fs'. induction xs as [|x xs IH]; intros fs fs' Hl; [done|]. cbn [foldl]. apply IH. by apply alike_insert.
Qed.
Lemma all_restart_alike s xs fs fs' : alike (cfg_resume_mode c) fs fs' → all_restart s fs xs → all_restart s fs' xs.
Proof.
  intros Hl [Hn Hf]. split; [done|]. eapply List.Forall_impl; [|exact Hf]. intros x Hx. cbv beta in *. unfold restarts in *.
  destruct (decide (cfg_resume_mode c = VAL_RESUME_NEVER)) as [Hm|Hm]; [by left|]. destruct Hx as [Hx|Hx]; [by left|]. right. by rewrite Hl.
Qed.

Lemma parcels_received fr st ans fuel' start_ms rest : ends_call fr st ans → ∀ xs fuel b fs w,
  awaiting fs (concat (parcels_frames crc xs) ++ fr ++ rest) w → Forall parcel_ok xs →
  all_restart (w_s w) fs xs → unasked w → (length xs < fuel)%nat →
  zlen (link_in (w_e w)) < Z.of_nat fuel' →
  wpt (loop fuel (receive_one fuel' mtu start_ms) b)
    (λ st' w', st' = st ∧ (∃ fs', alike (cfg_resume_mode c) (stored (w_s w) xs fs) fs' ∧ awaiting fs' rest w') ∧
       sends (concat (map parcel_answers xs) ++ ans) w w') w.
Proof.
  intros Hend. induction xs as [|x xs IH]; intros fuel b fs w Ha Hok Hnew Hun Hf Hf'; (destruct fuel as [|fuel]; [cbn in Hf; lia|]);
    cbn [loop]; apply wp_bind; pose proof Ha as (Hw & _ & EL); pose proof (zlen_nonneg (link_in (w_e w))).
  - unfold receive_one. apply wp_bind. eapply wp_mono; [apply (Hend fuel' rest fs w Ha); lia|].
    intros r w1 (-> & Ha1 & S1). apply wp_ret, wp_ret. split; [done|]. split; [by exists fs|done].
  - apply Forall_cons_1 in Hok as [Hx Hok]. unfold parcels_frames in Ha. cbn [map concat] in Ha.
    rewrite concat_app, <- (assoc_L (++)) in Ha. pose proof Hnew as [_ [Hxn _]%Forall_cons_1].
    eapply wp_mono.
    { apply (directory_stays c); [intros d; by apply emits_receive_one|apply Hw|].
      by apply (parcel_received fuel' start_ms b x _ fs w Ha). }
    intros r w1 [((b' & ->) & (fs1 & Hl & Ha1) & S1) Ed1]. fold (target (w_s w) x) in Hl. pose proof Ha1 as (Hw1 & _ & EL1).
    assert (Hshort : zlen (link_in (w_e w1)) <= zlen (link_in (w_e w))).
    { destruct Ha as (_ & _ & EL2). rewrite EL1, EL2, !zlen_app. pose proof (zlen_nonneg (concat (parcel_frames crc x))). lia. }
    eapply wp_mono; [apply (IH fuel b' _ w1 Ha1 Hok); [|unfold unasked; by rewrite Ed1|cbn in Hf; lia|lia]|].
    { eapply all_restart_ext; [symmetry; exact Ed1|]. eapply all_restart_alike; [exact Hl|by apply all_restart_next]. }
    intros st' w2 (-> & (fs2 & Hl2 & Ha2) & S2). split; [done|]. rewrite (stored_ext _ _ _ _ Ed1) in Hl2. split.
    { exists fs2. split; [|done]. exact (transitivity (stored_alike _ xs _ _ Hl) Hl2). }
    cbn [map concat]. rewrite <- (assoc_L (++)). by eapply sends_trans.
Qed.
End receiver.

(** ** The whole call *)

Lemma parcels_count crc xs : Z.of_nat (length xs) <= zlen (concat (parcels_frames crc xs)).
Proof.
  unfold parcels_frames. induction xs as [|x xs IH]; [done|]. cbn [map concat length]. rewrite concat_app, zlen_app.
  unfold parcel_frames at 1. cbn [app concat]. unfold packet_frame at 1. rewrite zlen_app, zlen_frame.
  pose proof (zlen_nonneg (content_of VAL_PKT_SEND_META (val_serialize_meta (pa_meta x)) 0 true)).
  match goal with |- context [zlen (?a ++ ?b)] => pose proof (zlen_nonneg (a ++ b)) end. lia.
Qed.

Section handshake.
Context {E : Type} `{!Hooks E} `{!StreamLink E} `{!Host E unit} `{!BuildOptions} {c : val_config_t} {crc : list Z → Z}.
Context (Hu : unanswered (E:=E)) (Hcrc : ∀ l, cfg_crc c l = crc l).

Lemma receiver_handshake fuel mtu fs p n rest w :
  awaiting (c:=c) (mtu:=mtu) fs (packet_frame crc VAL_PKT_HELLO (hello_bytes p n) 0 true ++ rest) w →
  s_handshake_done (w_s w) = false → config_ok (s_cfg p) → 512 <= n <= 2097152 →
  zlen (link_in (w_e w)) < Z.of_nat fuel →
  let size := Z.min n (cfg_packet_size c) in
  wpt (val_internal_do_handshake_receiver fuel)
    (λ st w', st = VAL_OK ∧ awaiting (c:=c) (mtu:=size) fs rest w' ∧
       sends [packet_frame (cfg_crc c) VAL_PKT_HELLO (hello_bytes (w_s w) size) 0 true] w w') w.
Proof.
  intros Ha Hnew Hp Hn Hf size. pose proof Ha as (Hw & Ef & EL). unfold val_internal_do_handshake_receiver.
  apply wp_bind, wp_gets. rewrite Hnew. eapply smooth_then; [apply smooth_ticks|done|]. intros now0 w1 Hw1 B1. cbv zeta.
  pose proof B1 as (V1 & L1 & S1). apply wp_bind, wp_gets, wp_bind. pose proof (zlen_nonneg (link_in (w_e w))).
  destruct fuel as [|fuel]; [lia|]. cbn [loop]. apply wp_bind.
  eapply wp_mono; [apply (receiver_turn (c:=c) (mtu:=mtu) (p:=p) (n:=n) (crc:=crc) ltac:(done) (S fuel) _ _ rest w1);
    rewrite ?L1; try done; lia|].
  intros r w2 (Hw2 & -> & V2 & L2 & S2). apply wp_ret.
  change (val_deserialize_handshake (hello_bytes p n)) with (received (val__fill_local_hello p n)).
  eapply wp_mono; [by apply (answer_goes (c:=c) (mtu:=mtu) (p:=p) (n:=n) Hp Hn w2)|]. fold size. intros st w3 (Hw3 & -> & [Eo S3]).
  split; [done|]. rewrite unanswered_id in Eo by done. unfold outside in Eo.
  pose proof (f_equal fst Eo) as E1. pose proof (f_equal snd Eo) as E2. cbn in E1, E2.
  split; [split; [done|split; congruence]|].
  assert (Eh : hello_bytes (w_s w2) size = hello_bytes (w_s w) size).
  { unfold hello_bytes, val__fill_local_hello. by rewrite (st_cfg _ _ _ Hw2), (st_cfg _ _ _ Hw). }
  rewrite Eh in S3. exact (sends_none _ _ _ _ S1 (sends_none _ _ _ _ S2 S3)).
Qed.

(** The session as [val_receive_files] sets it up, for the names of the files. *)
Definition into (dir : option (list Z)) (s : val_session_t) : val_session_t :=
  s <| s_output_directory := target_directory dir |>.

(** A call that takes some files and then the frame that ends it. *)
Lemma call_received fr st ans fuel mtu0 dir fs p n xs rest w :
  let size := Z.min n (cfg_packet_size c) in
  ends_call (c:=c) (mtu:=size) fr st ans →
  awaiting (c:=c) (mtu:=mtu0) fs
    (packet_frame crc VAL_PKT_HELLO (hello_bytes p n) 0 true ++ concat (parcels_frames crc xs) ++ fr ++ rest) w →
  s_handshake_done (w_s w) = false → config_ok (s_cfg p) → 512 <= n <= 2097152 →
  (cfg_resume_mode c = VAL_RESUME_NEVER → cfg_has_validator c = false) → Forall (parcel_ok (mtu:=size)) xs →
  all_restart (c:=c) (into dir (w_s w)) fs xs →
  zlen (link_in (w_e w)) < Z.of_nat fuel →
  wpt (val_receive_files fuel dir)
    (λ st' w', st' = st ∧
       (∃ fs', alike (cfg_resume_mode c) (stored (into dir (w_s w)) xs fs) fs' ∧ awaiting (c:=c) (mtu:=size) fs' rest w') ∧
       sends (packet_frame (cfg_crc c) VAL_PKT_HELLO (hello_bytes (w_s w) size) 0 true ::
         concat (map (parcel_answers (c:=c)) xs) ++ ans) w w') w.
Proof.
  intros size Hend Ha Hnew Hp Hn Hmode Hok Hall Hf. unfold val_receive_files. apply wp_bind, wp_mod, wp_bind, wp_mod.
  set (w1 := mk_world _ _ _).
  assert (Ha1 : awaiting (c:=c) (mtu:=mtu0) fs
    (packet_frame crc VAL_PKT_HELLO (hello_bytes p n) 0 true ++ concat (parcels_frames crc xs) ++ fr ++ rest) w1).
  { destruct Ha as ([Hok' Hc Hm Hfine] & Ef & EL). split; [|done]. constructor; try done. by destruct Hok'. }
  apply wp_bind. eapply wp_mono.
  { apply (directory_stays c); [intros d; apply emits_handshake_receiver|apply Ha1|].
    by apply (receiver_handshake fuel mtu0 fs p n _ w1 Ha1). }
  fold size. intros hs w2 [(-> & Ha2 & S2) Ed2]. rewrite Z.eqb_refl. cbn [negb]. apply wp_bind. unfold val_internal_receive_files.
  pose proof Ha2 as (Hw2 & _ & _). apply wp_bind, wp_gets. cbv zeta.
  rewrite (session_mtu_ok _ (st_ok _ _ _ Hw2)), (st_mtu _ _ _ Hw2). apply wp_bind.
  eapply wp_mono; [apply (directory_stays c); [intros d; apply emits_ticks|apply Hw2|by apply smooth_ticks]|].
  intros now w3 [[Hw3 B3] Ed3]. pose proof (awaiting_beside _ _ _ _ Ha2 Hw3 B3) as Ha3. destruct B3 as (_ & _ & S3).
  assert (Ed : s_output_directory (w_s w3) = s_output_directory (into dir (w_s w))) by (rewrite Ed3, Ed2; reflexivity).
  assert (Hlen : zlen (link_in (w_e w3)) <= zlen (link_in (w_e w))).
  { destruct Ha1 as (_ & _ & E1), Ha3 as (_ & _ & E3). change (link_in (w_e w)) with (link_in (w_e w1)). rewrite E1, E3, !zlen_app.
    pose proof (zlen_nonneg (packet_frame crc VAL_PKT_HELLO (hello_bytes p n) 0 true)). lia. }
  assert (Hcount : Z.of_nat (length xs) <= zlen (link_in (w_e w3))).
  { destruct Ha3 as (_ & _ & ->). rewrite !zlen_app. pose proof (zlen_nonneg fr).
    pose proof (zlen_nonneg rest). pose proof (parcels_count crc xs). lia. }
  eapply wp_mono; [apply (parcels_received (mtu:=size) Hu Hcrc fr st ans fuel now rest Hend xs fuel (mk_batch 0 0) fs w3 Ha3 Hok); try done; try lia|].
  { by eapply all_restart_ext; [symmetry; exact Ed|]. }
  { intros Hnv. split; [by apply Hmode|]. rewrite Ed. by apply target_directory_ok. }
  intros st' w4 (-> & (fs4 & Hl & Ha4) & S4). apply wp_bind, wp_mod, wp_ret. split; [done|]. split.
  - rewrite (stored_ext _ _ _ _ Ed) in Hl. exists fs4. split; [exact Hl|].
    destruct Ha4 as ([Hok' Hc Hm Hfine] & Ef & EL). split; [|done]. constructor; try done. by destruct Hok'.
  - destruct (sends_trans _ _ _ _ _ S2 (sends_none _ _ _ _ S3 S4)) as (evs & Ee & Efr). by exists evs.
Qed.
Lemma batch_received fuel mtu0 dir fs p n xs rest w :
  let size := Z.min n (cfg_packet_size c) in
  awaiting (c:=c) (mtu:=mtu0) fs (concat (batch_frames crc (hello_bytes p n) xs) ++ rest) w →
  s_handshake_done (w_s w) = false → config_ok (s_cfg p) → 512 <= n <= 2097152 →
  (cfg_resume_mode c = VAL_RESUME_NEVER → cfg_has_validator c = false) → Forall (parcel_ok (mtu:=size)) xs →
  all_restart (c:=c) (into dir (w_s w)) fs xs →
  zlen (link_in (w_e w)) < Z.of_nat fuel →
  wpt (val_receive_files fuel dir)
    (λ st w', st = VAL_OK ∧
       (∃ fs', alike (cfg_resume_mode c) (stored (into dir (w_s w)) xs fs) fs' ∧ awaiting (c:=c) (mtu:=size) fs' rest w') ∧
       sends (packet_frame (cfg_crc c) VAL_PKT_HELLO (hello_bytes (w_s w) size) 0 true :: parcels_answers (c:=c) xs) w w') w.
Proof.
  intros size Ha. unfold batch_frames in Ha. rewrite !concat_app in Ha. cbn [concat] in Ha.
  rewrite !app_nil_r, <- !(assoc_L (++)) in Ha. apply (call_received (packet_frame crc VAL_PKT_EOT [] 0 true) VAL_OK [ctrl_frame c VAL_PKT_EOT_ACK 0] fuel mtu0);
    [by apply eot_ends|exact Ha].
Qed.
End handshake.
