(* ===== verification/Station.v ===== *)
(** Concrete hosts for both ends of a batch: the simulated one of [Simulation] as the
    receiver's, and for the sender one whose other end answers like a receiver that has
    none of the files.  They model no code: the witnesses run in them. *)
From stdpp Require Import gmap.
From S2P Require Import Prelude ByteOrder Wire Errors Crc Sanitize Timing Session Simulation Window Packet Frame.
From S2P Require Import Control Handshake Resume Sender Receiver DataPhase Link Assembly Peer Windows Host Exchange.

(** ** The file system of [sim] *)

Definition sim_disk (e : sim) : store := list_to_map (sim_files e).
Definition sim_cursor (e : sim) (f : handle) : option (list Z * Z) :=
  if (0 <=? f) && (f <? zlen (sim_open e)) then Some (fst (sim_get f e)) else None.
Definition files_ok (e : sim) : Prop := Forall (λ x, bytes_ok (snd x)) (sim_files e).
(** From [e] to [e'] only the file system changed. *)
Definition sim_asked (fs : store) (f : handle) (cur : list Z * Z) (e e' : sim) : Prop :=
  sim_in e' = sim_in e ∧ sim_now e' = sim_now e ∧ files_ok e' ∧ sim_disk e' = fs ∧ sim_cursor e' f = Some cur.

Lemma sim_disk_lookup p e : sim_disk e !! p = sim_lookup p (sim_files e).
Proof.
  unfold sim_disk. induction (sim_files e) as [|[q d] l IH]; [apply lookup_empty|]. cbn [list_to_map foldr sim_lookup fst snd].
  destruct (decide (p = q)) as [->|Hn]; [apply lookup_insert_eq|]. by rewrite lookup_insert_ne.
Qed.
Lemma sim_disk_store p d e : sim_disk (sim_store p d e) = <[p := d]> (sim_disk e).
Proof.
  apply map_eq. intros q. rewrite sim_disk_lookup. destruct (decide (q = p)) as [->|Hn].
  - rewrite lookup_insert_eq. cbn. by rewrite decide_True.
  - rewrite lookup_insert_ne, sim_disk_lookup by done. cbn. rewrite decide_False by done.
    induction (sim_files e) as [|[r x] l IH]; [done|]. cbn [sim_lookup]. rewrite filter_cons. cbn [fst].
    destruct (decide (r ≠ p)) as [Hr|Hr]; cbn [sim_lookup]; [by destruct (decide (q = r))|].
    rewrite IH. rewrite decide_False; [done|]. intros ->. by apply Hr.
Qed.
Lemma files_ok_store p d e : files_ok e → bytes_ok d → files_ok (sim_store p d e).
Proof.
  intros He Hd. unfold files_ok. cbn. constructor; [done|]. unfold files_ok in He. rewrite list.Forall_forall in He |- *.
  intros x [_ Hx]%list_elem_of_filter. by apply He.
Qed.
Lemma files_ok_lookup p d e : files_ok e → sim_disk e !! p = Some d → bytes_ok d.
Proof.
  rewrite sim_disk_lookup. unfold files_ok. induction 1 as [|[q x] l Hx _ IH]; [done|]. cbn. destruct (decide (p = q)); [by intros [= <-]|done].
Qed.
Lemma sim_content_disk p d e : sim_disk e !! p = Some d → sim_content p e = d.
Proof. rewrite sim_disk_lookup. unfold sim_content. by intros ->. Qed.

Lemma sim_cursor_get e f p pos : sim_cursor e f = Some (p, pos) →
  0 <= f < zlen (sim_open e) ∧ fst (fst (sim_get f e)) = p ∧ snd (fst (sim_get f e)) = pos.
Proof.
  unfold sim_cursor. destruct (_ && _) eqn:Ef; [|done]. intros [= Eg]. destruct (sim_get f e) as [[q o] m]. cbn in *.
  split; [lia|]. by injection Eg.
Qed.
Lemma sim_cursor_seek f o e : 0 <= f < zlen (sim_open e) →
  sim_cursor (sim_seek f o e) f = Some (fst (fst (sim_get f e)), o).
Proof.
  intros Hf. unfold sim_cursor. rewrite sim_seek_get by done. cbn. unfold zlen in *. rewrite length_insert.
  by replace ((0 <=? f) && (f <? Z.of_nat (length (sim_open e)))) with true by lia.
Qed.

Lemma sim_open_law p m e : files_ok e → let '(h, e') := sim_fopen p m e in
  match opened p m (sim_disk e) with
  | None => h = None ∧ e' = e
  | Some (fs, pos) => ∃ f, h = Some f ∧ sim_asked fs f (p, pos) e e'
  end.
Proof.
  intros He. unfold opened. rewrite sim_disk_lookup.
  assert (Ho : ∀ pos m e1, sim_in e1 = sim_in e → sim_now e1 = sim_now e → files_ok e1 → ∀ fs, sim_disk e1 = fs →
    ∃ f, Some (zlen (sim_open e1)) = Some f ∧
      sim_asked fs f (p, pos) e (mk_sim (sim_in e1) (sim_now e1) (sim_files e1) (sim_open e1 ++ [(p, pos, m)]))).
  { intros pos m' e1 E1 E2 Hok fs Hfs. eexists. split; [done|]. split; [done|]. split; [done|]. split; [done|]. split; [done|].
    unfold sim_cursor, sim_get. cbn [sim_open]. pose proof (zlen_nonneg (sim_open e1)). rewrite zlen_app.
    replace (_ && _) with true by (change (zlen [(p, pos, m')]) with 1; lia). unfold zlen. rewrite Nat2Z.id.
    by rewrite app_nth2, Nat.sub_diag by lia. }
  unfold sim_fopen. destruct m; destruct (sim_lookup p (sim_files e)) as [d|] eqn:El; try done; apply Ho; try done.
  all: try (by rewrite sim_disk_store). all: apply files_ok_store; [done|constructor].
Qed.
Lemma sim_seek_law f o wh p pos d e : files_ok e → sim_cursor e f = Some (p, pos) → sim_disk e !! p = Some d →
  let '(r, e') := sim_fseek f o wh e in r = 0 ∧ sim_asked (sim_disk e) f (p, seek_target d o wh) e e'.
Proof.
  intros He (Hf & <- & <-)%sim_cursor_get Hd. unfold sim_fseek. destruct (sim_get f e) as [[p pos] m] eqn:Eg. cbn [fst snd] in *.
  rewrite (sim_content_disk _ _ _ Hd). split; [done|]. split; [done|]. split; [done|]. split; [done|]. split; [done|].
  rewrite sim_cursor_seek by done. by rewrite Eg.
Qed.
Lemma sim_read_law f n p pos d e : files_ok e → sim_cursor e f = Some (p, pos) → sim_disk e !! p = Some d →
  let '(got, e') := sim_fread f n e in
  got = zslice d pos n ∧ sim_asked (sim_disk e) f (p, pos + zlen got) e e'.
Proof.
  intros He (Hf & <- & <-)%sim_cursor_get Hd. unfold sim_fread. destruct (sim_get f e) as [[p pos] m] eqn:Eg. cbn [fst snd] in *.
  rewrite (sim_content_disk _ _ _ Hd). split; [done|]. split; [done|]. split; [done|]. split; [done|]. split; [done|].
  rewrite sim_cursor_seek by done. by rewrite Eg.
Qed.
Lemma sim_write_law f x p d e : files_ok e → sim_cursor e f = Some (p, zlen d) → sim_disk e !! p = Some d → bytes_ok x →
  let '(rc, e') := sim_fwrite f x e in
  rc = zlen x ∧ sim_asked (<[p := d ++ x]> (sim_disk e)) f (p, zlen d + zlen x) e e'.
Proof.
  intros He (Hf & Ep & Epos)%sim_cursor_get Hd Hx. unfold sim_fwrite. destruct (sim_get f e) as [[q pos] m] eqn:Eg. cbn [fst snd] in *.
  subst q pos. rewrite (sim_content_disk _ _ _ Hd).
  assert (Ew : zwrite d (zlen d) x = d ++ x).
  { pose proof (zwrite_app_r d [] 0 x) as Hw. rewrite app_nil_r, Z.add_0_r in Hw. rewrite Hw by done.
    rewrite zwrite_0. unfold zdrop. rewrite drop_nil. by rewrite app_nil_r. }
  rewrite Ew. split; [done|]. split; [done|]. split; [done|].
  split; [apply files_ok_store; [done|]; apply bytes_ok_app; split; [by eapply files_ok_lookup|done]|].
  split; [exact (sim_disk_store p (d ++ x) e)|].
  rewrite sim_cursor_seek by done. unfold sim_get. cbn. unfold sim_get in Eg. by rewrite Eg.
Qed.

Lemma sim_append_law p x e : files_ok e → bytes_ok x →
  files_ok (sim_append p x e) ∧ ∀ q, q ≠ p → sim_disk (sim_append p x e) !! q = sim_disk e !! q.
Proof.
  intros He Hx. unfold sim_append. split.
  - apply files_ok_store; [done|]. apply bytes_ok_app. split; [|done]. unfold sim_content.
    destruct (sim_lookup p (sim_files e)) as [d|] eqn:El; [|constructor]. apply (files_ok_lookup p d e He). by rewrite sim_disk_lookup.
  - intros q Hq. by rewrite sim_disk_store, lookup_insert_ne.
Qed.

(** ** The receiver's host *)

Definition sim_shows {P} (p : P) (e : sim) : host P := mk_host p (sim_disk e) (sim_cursor e).
Lemma sim_asked_shows {P} (p : P) fs f cur e e' : sim_asked fs f cur e e' →
  ho_files (sim_shows p e') = fs ∧ ho_cursor (sim_shows p e') f = Some cur.
Proof. by intros (_ & _ & _ & ? & ?). Qed.

#[export] Program Instance sim_host : Host sim unit := {|
  ho_reply _ p := ([], p);
  ho_link := {| fl_ok e := sim_ok e ∧ files_ok e; fl_view := sim_shows tt; fl_answer _ x := x |}
|}.
Next Obligation. by intros e []. Qed.
Next Obligation.
  intros n t e [Ho Hf]. pose proof (sim_recv_ok n t e Ho) as (Ho' & Ef & Eo). cbn. unfold sim_shows, files_ok, sim_disk.
  rewrite Ef. split; [done|]. f_equal. unfold sim_cursor, sim_get. by rewrite Eo.
Qed.
Next Obligation. done. Qed.
Next Obligation. done. Qed.
Next Obligation. done. Qed.
Next Obligation. done. Qed.
Next Obligation. done. Qed.
Next Obligation. done. Qed.
Next Obligation. intros fr L [[] fs cur]. cbn. by rewrite app_nil_r. Qed.
Next Obligation. intros e p d [_ Hf] Hd. by apply (files_ok_lookup p d e). Qed.
Next Obligation.
  intros p m e [Ho Hf]. cbn. pose proof (sim_open_law p m e Hf) as Hl. destruct (sim_fopen p m e) as [h e'].
  destruct (opened p m (sim_disk e)) as [[fs pos]|]; [|by destruct Hl as [-> ->]].
  destruct Hl as (f & -> & EL & En & Hf' & Ed & Ec). exists f. split; [done|]. split; [|by rewrite EL].
  split; [|done]. unfold sim_ok. by rewrite EL.
Qed.
Next Obligation.
  intros f o wh p pos d e [Ho Hf] Hc Hd _. cbn in Hc, Hd |- *. pose proof (sim_seek_law f o wh p pos d e Hf Hc Hd) as Hl.
  destruct (sim_fseek f o wh e) as [r e']. destruct Hl as (-> & EL & En & Hf' & Ed & Ec). split; [done|]. split; [|by rewrite EL].
  split; [|done]. unfold sim_ok. by rewrite EL.
Qed.
Next Obligation. intros f p pos e Ho Hc. cbn in Ho, Hc |- *. by apply sim_cursor_get in Hc as (_ & _ & ->). Qed.
Next Obligation.
  intros f n p pos d e [Ho Hf] Hc Hd _ _. cbn in Hc, Hd |- *. pose proof (sim_read_law f n p pos d e Hf Hc Hd) as Hl.
  destruct (sim_fread f n e) as [got e']. destruct Hl as (-> & EL & En & Hf' & Ed & Ec). split; [done|]. split; [|by rewrite EL].
  split; [|done]. unfold sim_ok. by rewrite EL.
Qed.
Next Obligation.
  intros f x p d e [Ho Hf] Hc Hd Hx. cbn in Hc, Hd |- *. pose proof (sim_write_law f x p d e Hf Hc Hd Hx) as Hl.
  destruct (sim_fwrite f x e) as [rc e']. destruct Hl as (-> & EL & En & Hf' & Ed & Ec). split; [done|]. split; [|by rewrite EL].
  split; [|done]. unfold sim_ok. by rewrite EL.
Qed.
Next Obligation. done. Qed.
Next Obligation. done. Qed.
Next Obligation. done. Qed.
Next Obligation. intros p x e [Ho Hf] Hx. cbn. by destruct (sim_append_law p x e Hf Hx). Qed.

(** ** The sender's host *)

(** Files and a clock, the stream that arrives, and the position of the receiver that
    answers; [hello] is that receiver's HELLO. *)
Record caller (hello : val_handshake_t) := mk_guest { gu_sim : sim; gu_in : list Z; gu_pos : Z }.
Arguments mk_guest {hello}.
Arguments gu_sim {hello}.
Arguments gu_in {hello}.
Arguments gu_pos {hello}.

Section guest.
Context {hello : val_handshake_t}.
Abbreviation guest := (caller hello).
Definition guest_reply (fr : list Z) (pos : Z) : list Z * Z :=
  let answer type d := packet_frame val_crc32 type d 0 true in
  let type := zget fr 0 in
  if type =? VAL_PKT_HELLO then (answer VAL_PKT_HELLO (val_serialize_handshake hello), pos)
  else if type =? VAL_PKT_SEND_META then ([], 0)
  else if type =? VAL_PKT_RESUME_REQ then
    (answer VAL_PKT_RESUME_RESP (val_serialize_resume_resp (mk_resume_resp VAL_RESUME_START_ZERO 0 0 0)), pos)
  else if type =? VAL_PKT_EOT then (answer VAL_PKT_EOT_ACK [], pos)
  else peer_reply fr pos.
Lemma guest_reply_bytes fr pos : bytes_ok (fst (guest_reply fr pos)).
Proof.
  assert (Ha : ∀ type d, bytes_ok d → bytes_ok (packet_frame val_crc32 type d 0 true)) by (intros; by apply packet_frame_bytes).
  unfold guest_reply. destruct (_ =? VAL_PKT_HELLO); [apply Ha, handshake_put_bytes|].
  destruct (_ =? VAL_PKT_SEND_META); [constructor|]. destruct (_ =? VAL_PKT_RESUME_REQ); [apply Ha, resume_resp_put_bytes|].
  destruct (_ =? VAL_PKT_EOT); [apply Ha; constructor|apply reply_bytes].
Qed.

Definition on_disk {A} (h : sim → A * sim) (e : guest) : A * guest :=
  let '(a, s) := h (gu_sim e) in (a, mk_guest s (gu_in e) (gu_pos e)).
Definition guest_send (fr : list Z) (e : guest) : Z * guest :=
  let '(a, pos) := guest_reply fr (gu_pos e) in (zlen fr, mk_guest (gu_sim e) (gu_in e ++ a) pos).
Definition guest_recv (n t : Z) (e : guest) : (Z * list Z) * guest :=
  match gu_in e with
  | [] => ((0, []), mk_guest (sim_ticks (Z.max 1 t) (gu_sim e)) [] (gu_pos e))
  | l => ((0, ztake n l), mk_guest (gu_sim e) (zdrop n l) (gu_pos e))
  end.
#[export] Instance guest_hooks : Hooks guest := {|
  hk_send := guest_send;
  hk_recv := guest_recv;
  hk_is_connected e := (1, e);
  hk_flush e := e;
  hk_fopen p m := on_disk (sim_fopen p m);
  hk_fread h n := on_disk (sim_fread h n);
  hk_fwrite h d := on_disk (sim_fwrite h d);
  hk_fseek h o wh := on_disk (sim_fseek h o wh);
  hk_ftell h e := (snd (fst (sim_get h (gu_sim e))), e);
  hk_fclose _ e := e;
  hk_crc32 _ data := val_crc32 data;
  hk_get_ticks_ms e := (sim_now (gu_sim e), e);
  hk_delay_ms ms e := mk_guest (sim_ticks ms (gu_sim e)) (gu_in e) (gu_pos e);
  hk_on_file_start _ _ _ _ e := (false, e);
  hk_on_file_complete _ _ _ e := (false, e);
  hk_on_progress _ e := (false, e);
  hk_validator _ _ e := (0, e);
  hk_on_packet _ e := e;
  hk_append p d e := mk_guest (sim_append p d (gu_sim e)) (gu_in e) (gu_pos e)
|}.
#[export] Program Instance guest_link : StreamLink guest := {|
  link_ok e := bytes_ok (gu_in e);
  link_in := gu_in;
  link_now e := u32 (sim_now (gu_sim e))
|}.
Next Obligation. done. Qed.
Next Obligation.
  intros n t [s l p] Hb Hn Ht. pose proof (link_recv (E:=peer) n t (mk_peer s l [] []) Hb Hn Ht) as Hl.
  cbn in Hl |- *. unfold peer_recv in Hl. unfold guest_recv. cbn in *. by destruct l.
Qed.
Next Obligation. done. Qed.
Next Obligation. done. Qed.

Definition guest_shows (e : guest) : host Z := sim_shows (gu_pos e) (gu_sim e).
#[export] Program Instance guest_host : Host guest Z := {|
  ho_reply := guest_reply;
  ho_link := {|
    fl_ok e := bytes_ok (gu_in e) ∧ files_ok (gu_sim e);
    fl_view := guest_shows;
    fl_answer fr x := (fst x ++ fst (guest_reply fr (ho_peer (snd x))),
                       mk_host (snd (guest_reply fr (ho_peer (snd x)))) (ho_files (snd x)) (ho_cursor (snd x)))
  |}
|}.
Next Obligation. by intros e []. Qed.
Next Obligation.
  intros n t [s l p] [Hb Hf]. cbn in *. unfold guest_recv. destruct l; cbn [gu_in fst snd]; [done|].
  split; [split; [by apply bytes_ok_zdrop|done]|done].
Qed.
Next Obligation.
  intros fr [s l p] [Hb Hf] _. cbn. unfold guest_send, guest_shows, sim_shows. cbn [gu_pos gu_in gu_sim].
  pose proof (guest_reply_bytes fr p) as Hr. destruct (guest_reply fr p) as [a pos]. cbn in *.
  split; [done|]. split; [|done]. split; [by apply bytes_ok_app|done].
Qed.
Next Obligation. done. Qed.
Next Obligation. done. Qed.
Next Obligation. done. Qed.
Next Obligation. done. Qed.
Next Obligation. done. Qed.
Next Obligation. done. Qed.
Next Obligation. intros e p d [_ Hf] Hd. by apply (files_ok_lookup p d (gu_sim e)). Qed.
Next Obligation.
  intros p m e [Ho Hf]. cbn. pose proof (sim_open_law p m (gu_sim e) Hf) as Hl. unfold on_disk. destruct (sim_fopen p m (gu_sim e)) as [h e'].
  destruct (opened p m (sim_disk (gu_sim e))) as [[fs pos]|]; [|destruct Hl as [-> ->]; by destruct e].
  destruct Hl as (f & -> & EL & En & Hf' & Ed & Ec). by exists f.
Qed.
Next Obligation.
  intros f o wh p pos d e [Ho Hf] Hc Hd _. cbn in Hc, Hd |- *. pose proof (sim_seek_law f o wh p pos d (gu_sim e) Hf Hc Hd) as Hl.
  unfold on_disk. destruct (sim_fseek f o wh (gu_sim e)) as [r e']. by destruct Hl as (-> & EL & En & Hf' & Ed & Ec).
Qed.
Next Obligation. intros f p pos e Ho Hc. cbn in Ho, Hc |- *. by apply sim_cursor_get in Hc as (_ & _ & ->). Qed.
Next Obligation.
  intros f n p pos d e [Ho Hf] Hc Hd _ _. cbn in Hc, Hd |- *. pose proof (sim_read_law f n p pos d (gu_sim e) Hf Hc Hd) as Hl.
  unfold on_disk. destruct (sim_fread f n (gu_sim e)) as [got e']. by destruct Hl as (-> & EL & En & Hf' & Ed & Ec).
Qed.
Next Obligation.
  intros f x p d e [Ho Hf] Hc Hd Hx. cbn in Hc, Hd |- *. pose proof (sim_write_law f x p d (gu_sim e) Hf Hc Hd Hx) as Hl.
  unfold on_disk. destruct (sim_fwrite f x (gu_sim e)) as [rc e']. by destruct Hl as (-> & EL & En & Hf' & Ed & Ec).
Qed.
Next Obligation. done. Qed.
Next Obligation. done. Qed.
Next Obligation. done. Qed.

Next Obligation.
  intros p x [s l pos] [Ho Hf] Hx. cbn in *. by destruct (sim_append_law p x s Hf Hx).
Qed.

Lemma guest_reply_type crc type d off incl pos : guest_reply (packet_frame crc type d off incl) pos =
  let t := u8 (u8 type) in
  if t =? VAL_PKT_HELLO then (packet_frame val_crc32 VAL_PKT_HELLO (val_serialize_handshake hello) 0 true, pos)
  else if t =? VAL_PKT_SEND_META then ([], 0)
  else if t =? VAL_PKT_RESUME_REQ then
    (packet_frame val_crc32 VAL_PKT_RESUME_RESP (val_serialize_resume_resp (mk_resume_resp VAL_RESUME_START_ZERO 0 0 0)) 0 true, pos)
  else if t =? VAL_PKT_EOT then (packet_frame val_crc32 VAL_PKT_EOT_ACK [] 0 true, pos)
  else peer_reply (packet_frame crc type d off incl) pos.
Proof. unfold guest_reply. by rewrite frame_head. Qed.
#[export] Program Instance guest_honest : HonestHost guest := {| hh_crc := val_crc32; hh_hello := (val_serialize_handshake hello) |}.
Next Obligation. intros d pos. exact (guest_reply_type _ VAL_PKT_HELLO _ _ _ _). Qed.
Next Obligation. intros d pos. exact (guest_reply_type _ VAL_PKT_SEND_META _ _ _ _). Qed.
Next Obligation. intros pos. exact (guest_reply_type _ VAL_PKT_RESUME_REQ _ _ _ _). Qed.
Next Obligation.
  intros d off incl pos Hd Ho Hi. transitivity (peer_reply (packet_frame val_crc32 VAL_PKT_DATA d off incl) pos);
    [exact (guest_reply_type _ VAL_PKT_DATA _ _ _ _)|by apply reply_data].
Qed.
Next Obligation. intros off pos. exact (guest_reply_type _ VAL_PKT_DONE _ _ _ _). Qed.
Next Obligation. intros pos. exact (guest_reply_type _ VAL_PKT_EOT _ _ _ _). Qed.
End guest.

(** The receiver is the demo session, at 512 bytes. *)
Definition demo_greeting : val_handshake_t := val__fill_local_hello demo_s 512.
Abbreviation guest := (caller demo_greeting).
