(* ===== verification/Batch.v ===== *)
(** A whole session on a faultless link: [val_send_files] on one side and
    [val_receive_files] on the other, with a batch of arbitrary files.

    [Upload] and [Download] are the two calls, each against its own environment; here they
    are put together.  What the receiver sends is what the sender was taken to hear. *)
From stdpp Require Import gmap.
From S2P Require Import Prelude ByteOrder Wire Errors Crc Sanitize Timing Session Records Simulation Window Packet Frame.
From S2P Require Import Control Handshake Resume Sender Receiver Trace DataPhase Link Assembly Windows Host Exchange.
From S2P Require Import Peer Upload Download Station.

(** ** What the sender hears *)

(** All answers to a list of frames, and the position of the other end after them. *)
Fixpoint replies {E} `{!Hooks E} `{!StreamLink E} `{!Host E Z} (frs : list (list Z)) (pos : Z) : list Z * Z :=
  match frs with
  | [] => ([], pos)
  | fr :: frs =>
      let '(a, pos) := ho_reply fr pos in
      let '(b, pos) := replies frs pos in (a ++ b, pos)
  end.

Section replies.
Context {E : Type} `{!Hooks E} `{!StreamLink E} `{!Host E Z} `{!HonestHost E}.

Lemma replies_cons fr frs pos a pos' : ho_reply fr pos = (a, pos') →
  replies (fr :: frs) pos = (a ++ fst (replies frs pos'), snd (replies frs pos')).
Proof. intros Ha. cbn [replies]. rewrite Ha. by destruct (replies frs pos'). Qed.
Lemma replies_app a b pos :
  replies (a ++ b) pos = (fst (replies a pos) ++ fst (replies b (snd (replies a pos))), snd (replies b (snd (replies a pos)))).
Proof.
  revert pos. induction a as [|fr a IH]; intros pos; cbn [app replies fst snd].
  - by destruct (replies b pos).
  - destruct (ho_reply fr pos) as [x pos1]. rewrite IH. destruct (replies a pos1) as [y pos2]. cbn [fst snd].
    by rewrite (assoc_L (++)).
Qed.

(** The acknowledgements of a stream of pieces. *)
Fixpoint acks (crc : list Z → Z) (pos : Z) (l : list (list Z * bool)) : list (list Z) :=
  match l with
  | [] => []
  | (d, _) :: l => packet_frame crc VAL_PKT_DATA_ACK [] (pos + zlen d) true :: acks crc (pos + zlen d) l
  end.
Lemma replies_data mtu ps pos : Forall (piece_ok mtu) ps → 0 <= pos → pos + zlen (payload ps) < 2 ^ 64 →
  replies (data_frames hh_crc pos ps) pos = (concat (acks hh_crc pos ps), pos + zlen (payload ps)).
Proof.
  intros Hp. revert pos. induction Hp as [|[d incl] ps [Hb _] _ IH]; intros pos H0 Hbig; cbn [data_frames].
  - cbn. by rewrite Z.add_0_r.
  - unfold payload in Hbig. cbn [map fst concat] in Hbig. rewrite zlen_app in Hbig. fold (payload ps) in Hbig.
    pose proof (zlen_nonneg d). pose proof (zlen_nonneg (payload ps)).
    rewrite (replies_cons _ _ _ _ _ (hh_reply_data d pos incl pos Hb ltac:(lia) ltac:(done))), IH by lia. cbn [fst snd acks concat].
    unfold payload. cbn [map fst concat]. by rewrite zlen_app, Z.add_assoc.
Qed.
Definition parcel_replies (crc : list Z → Z) (x : parcel) : list (list Z) :=
  packet_frame crc VAL_PKT_RESUME_RESP resume_zero 0 true ::
  acks crc 0 (pa_pieces x) ++ [packet_frame crc VAL_PKT_DONE_ACK [] (zlen (payload (pa_pieces x))) true].
Lemma replies_parcel mtu x pos : Forall (piece_ok mtu) (pa_pieces x) → zlen (payload (pa_pieces x)) < 2 ^ 64 →
  fst (replies (parcel_frames hh_crc x) pos) = concat (parcel_replies hh_crc x).
Proof.
  intros Hp Hbig. unfold parcel_frames. cbn [app].
  rewrite (replies_cons _ _ _ _ _ (hh_reply_meta _ _)), (replies_cons _ _ _ _ _ (hh_reply_resume _)). cbn [fst snd app].
  rewrite replies_app, (replies_data mtu) by (done || lia). cbn [fst snd].
  rewrite (replies_cons _ _ _ _ _ (hh_reply_done _ _)). cbn [replies fst snd]. unfold parcel_replies. cbn [concat].
  by rewrite concat_app, Z.add_0_l.
Qed.
Lemma replies_batch mtu hello xs pos : Forall (parcel_ok (mtu:=mtu)) xs →
  fst (replies (batch_frames hh_crc hello xs) pos) =
  packet_frame hh_crc VAL_PKT_HELLO hh_hello 0 true ++ concat (concat (map (parcel_replies hh_crc) xs)) ++
  packet_frame hh_crc VAL_PKT_EOT_ACK [] 0 true.
Proof.
  intros Hxs. unfold batch_frames. cbn [app]. rewrite (replies_cons _ _ _ _ _ (hh_reply_hello _ _)). cbn [fst]. f_equal.
  unfold parcels_frames. revert pos. induction Hxs as [|x xs (_ & _ & Hbig & Hp) _ IH]; intros pos; cbn [map concat app].
  - rewrite (replies_cons _ _ _ _ _ (hh_reply_eot _)). cbn. by rewrite app_nil_r.
  - rewrite <- (assoc_L (++)), replies_app. cbn [fst snd]. rewrite IH, (replies_parcel mtu) by (done || lia).
    by rewrite concat_app, <- (assoc_L (++)).
Qed.
End replies.

(** ... is what the receiver sends. *)
Lemma acks_ext {R} `{!Hooks R} c crc ps pos : (∀ l, cfg_crc (E:=R) c l = crc l) → data_acks (E:=R) c pos ps = acks crc pos ps.
Proof.
  intros Hc. revert pos. induction ps as [|[d incl] ps IH]; intros pos; [done|]. cbn [data_acks acks].
  rewrite IH. f_equal. by apply packet_frame_ext.
Qed.
Lemma answers_ext {R} `{!Hooks R} c crc x : (∀ l, cfg_crc (E:=R) c l = crc l) →
  parcel_answers (E:=R) (c:=c) x = parcel_replies crc x.
Proof.
  intros Hc. unfold parcel_answers, parcel_replies. rewrite (acks_ext c crc) by done.
  rewrite (packet_frame_ext _ _ _ _ _ _ Hc). unfold ctrl_frame. by rewrite (packet_frame_ext _ _ VAL_PKT_DONE_ACK _ _ _ Hc).
Qed.

Lemma batch_frames_ext crc crc' hello xs : (∀ l, crc l = crc' l) → batch_frames crc hello xs = batch_frames crc' hello xs.
Proof.
  intros Hc. unfold batch_frames, parcels_frames. f_equal; [by rewrite (packet_frame_ext crc crc')|]. f_equal.
  - f_equal. apply map_ext. intros x. unfold parcel_frames. by rewrite (data_frames_ext crc crc'), !(packet_frame_ext crc crc' _ _ _ _ Hc).
  - by rewrite (packet_frame_ext crc crc').
Qed.

(** ** The files at the end *)

Lemma stored_other s xs fs q : q ∉ map (target s) xs → stored s xs fs !! q = fs !! q.
Proof.
  unfold stored. revert fs. induction xs as [|x xs IH]; intros fs Hq; [done|]. cbn [map foldl] in *.
  apply not_elem_of_cons in Hq as [Hx Hq]. rewrite IH by done. by rewrite lookup_insert_ne.
Qed.
Lemma stored_lookup s xs fs x : NoDup (map (target s) xs) → x ∈ xs → stored s xs fs !! target s x = Some (payload (pa_pieces x)).
Proof.
  revert fs. induction xs as [|y xs IH]; intros fs Hn Hx; [by apply not_elem_of_nil in Hx|].
  apply list.NoDup_cons in Hn as [Hy Hn]. change (stored s (y :: xs) fs) with (stored s xs (<[target s y := payload (pa_pieces y)]> fs)).
  apply elem_of_cons in Hx as [->|Hx]; [|by apply IH]. rewrite stored_other by done. apply lookup_insert_eq.
Qed.

(** Where the receiver puts a file. *)
Definition placed (s : val_session_t) (path : list Z) : list Z := output_path s (file_name path).
Lemma carries_placed {mtu fs sp path x} s : carries (mtu:=mtu) (fs:=fs) sp path x → target s x = placed s path.
Proof. intros (_ & Hm & _). unfold target, placed. rewrite Hm. unfold file_meta. by rewrite name_arrives. Qed.
Lemma carries_ok {mtu fs sp path x} : carries (mtu:=mtu) (fs:=fs) sp path x →
  0 < zlen (default [] (fs !! path)) < 2 ^ 63 → parcel_ok (mtu:=mtu) x.
Proof.
  intros (Hd & Hm & Hp). rewrite Hd. intros Hsz. change (default [] (Some ?d)) with d in Hsz. split; [|split; [|done]].
  - rewrite Hm. apply build_meta_wf; [apply safe_chars_bytes, file_name_clean|lia].
  - by rewrite Hm.
Qed.
Lemma all_placed {mtu fs sp paths xs} s : Forall2 (carries (mtu:=mtu) (fs:=fs) sp) paths xs →
  map (target s) xs = map (placed s) paths.
Proof. induction 1 as [|path x paths xs Hc _ IH]; [done|]. cbn. by rewrite IH, (carries_placed s Hc). Qed.
Lemma all_ok {mtu fs sp paths xs} : Forall2 (carries (mtu:=mtu) (fs:=fs) sp) paths xs →
  Forall (λ p, 0 < zlen (default [] (fs !! p)) < 2 ^ 63) paths → Forall (parcel_ok (mtu:=mtu)) xs.
Proof.
  induction 1 as [|path x paths xs Hc _ IH]; [constructor|]. intros [Hsz Hszs]%Forall_cons_1.
  constructor; [by eapply carries_ok|by apply IH].
Qed.
Lemma files_placed {mtu src sp paths xs} s fs : Forall2 (carries (mtu:=mtu) (fs:=src) sp) paths xs → NoDup (map (placed s) paths) →
  (∀ path, path ∈ paths → stored s xs fs !! placed s path = src !! path) ∧
  (∀ q, q ∉ map (placed s) paths → stored s xs fs !! q = fs !! q).
Proof.
  intros Hc Hn. rewrite <- (all_placed s Hc) in Hn |- *. split; [|intros q; apply stored_other].
  intros path Hpath. apply list_elem_of_lookup in Hpath as [i Hi]. destruct (Forall2_lookup_l _ _ _ _ _ Hc Hi) as (x & Hx%list_elem_of_lookup_2 & Hcx).
  rewrite <- (carries_placed s Hcx), (stored_lookup s xs fs x Hn Hx). by destruct Hcx as [-> _].
Qed.

Lemma parcel_bytes {mtu} crc x : parcel_ok (mtu:=mtu) x → bytes_ok (concat (parcel_frames crc x)).
Proof.
  intros (Hm & _ & _ & Hp). unfold parcel_frames. rewrite !concat_app. cbn [concat]. rewrite !app_nil_r.
  apply bytes_ok_app. split; [apply bytes_ok_app; split; apply packet_frame_bytes; [by apply meta_put_bytes|constructor]|].
  apply bytes_ok_app. split; [by eapply data_frames_bytes|apply packet_frame_bytes; constructor].
Qed.
Lemma batch_bytes {mtu} crc hello xs : bytes_ok hello → Forall (parcel_ok (mtu:=mtu)) xs → bytes_ok (concat (batch_frames crc hello xs)).
Proof.
  intros Hh Hxs. unfold batch_frames. rewrite !concat_app. cbn [concat]. rewrite !app_nil_r.
  apply bytes_ok_app. split; [by apply packet_frame_bytes|]. apply bytes_ok_app. split; [|apply packet_frame_bytes; constructor].
  unfold parcels_frames. induction Hxs as [|x xs Hx _ IH]; [constructor|]. cbn [map concat]. rewrite concat_app.
  apply bytes_ok_app. split; [by eapply parcel_bytes|done].
Qed.

(** ** The session *)

(** The packet size both ends will agree on. *)
Definition common_size (s s' : val_session_t) : Z := Z.min (cfg_packet_size (s_cfg s)) (cfg_packet_size (s_cfg s')).

(** A sender before its call: the files are there, none is empty, and the other end is a
    session like [sr]. *)
Record sends_batch {E} `{!Hooks E} `{!StreamLink E} `{!Host E Z} `{!HonestHost E}
    (fuel : nat) (sr : val_session_t) (paths : list (list Z)) (w : world E) : Prop := {
  sb_ok : session_ok (w_s w);
  sb_env : fl_ok (w_e w);
  sb_calm : undisturbed (w_s w);
  sb_new : s_handshake_done (w_s w) = false;
  sb_link : link_in (w_e w) = [];
  sb_crc l : val_internal_crc32 (E:=E) (w_s w) l = hh_crc l;
  sb_peer : hh_hello = hello_bytes sr (common_size (w_s w) sr);
  sb_size : common_size (w_s w) sr < 2 ^ 16 + 12;
  sb_some : paths ≠ [];
  sb_files : Forall (λ p, ∃ d, ho_files (fl_view (w_e w)) !! p = Some d ∧ 0 < zlen d < 2 ^ 63 ∧ 16 * zlen d + 36 < Z.of_nat fuel) paths;
  sb_fuel : (64 < fuel)%nat
}.
(** A receiver before its call: all files start over - it does not have them, or they are empty,
    or its mode is NEVER and no validator is set - no two of them get the same name, and in mode
    NEVER none gets that of [resume_trace.log]. *)
Record receives_batch {R} `{!Hooks R} `{!StreamLink R} `{!Host R unit}
    (fuel : nat) (crc : list Z → Z) (dir : option (list Z)) (paths : list (list Z)) (v : world R) : Prop := {
  rb_ok : session_ok (w_s v);
  rb_env : fl_ok (w_e v);
  rb_calm : undisturbed (w_s v);
  rb_new : s_handshake_done (w_s v) = false;
  rb_silent : unanswered (E:=R);
  rb_crc l : val_internal_crc32 (E:=R) (w_s v) l = crc l;
  rb_unasked : cfg_resume_mode (s_cfg (w_s v)) = VAL_RESUME_NEVER → cfg_has_validator (s_cfg (w_s v)) = false;
  rb_names : NoDup (map (placed (into dir (w_s v))) paths);
  rb_unlogged : cfg_resume_mode (s_cfg (w_s v)) = VAL_RESUME_NEVER → trace_log ∉ map (placed (into dir (w_s v))) paths;
  rb_restart : Forall (λ p, restarts (c:=s_cfg (w_s v)) (ho_files (fl_view (w_e v))) (placed (into dir (w_s v)) p)) paths;
  rb_fuel : zlen (link_in (w_e v)) < Z.of_nat fuel
}.

Section session.
Context {E : Type} `{!Hooks E} `{!StreamLink E} `{!Host E Z} `{!HonestHost E} `{!BuildOptions}.
Context {R : Type} `{!Hooks R} `{!StreamLink R} `{!Host R unit}.

Lemma batch_sent fuel sr paths sp (w : world E) : sends_batch fuel sr paths w → config_ok (s_cfg sr) →
  let mtu := common_size (w_s w) sr in
  wpt (val_send_files fuel paths sp)
    (λ st w', st = VAL_OK ∧ ∃ xs, Forall2 (carries (mtu:=mtu) (fs:=ho_files (fl_view (w_e w))) sp) paths xs ∧
       sends (batch_frames (cfg_crc (E:=E) (s_cfg (w_s w))) (hello_bytes (w_s w) (cfg_packet_size (s_cfg (w_s w)))) xs) w w') w.
Proof.
  intros [Hok Ho Hu Hnew EL Hcrc Hh Hsz Hne Hfiles Hf] Hr mtu. set (c := s_cfg (w_s w)).
  pose proof (cok_packet _ (sok_cfg _ Hok)) as Pw. pose proof (cok_packet _ Hr) as Pr.
  unfold VAL_MIN_PACKET_SIZE, VAL_MAX_PACKET_SIZE in *.
  assert (Emin : Z.min mtu (cfg_packet_size c) = mtu) by (unfold mtu, common_size, c; lia).
  pose proof (batch_goes fuel c (s_effective_packet_size (w_s w)) (ho_files (fl_view (w_e w))) sr mtu paths sp w) as Hgo.
  cbv zeta in Hgo. rewrite Emin in Hgo. eapply wp_mono; [apply Hgo|]; try done.
  - unfold mtu, common_size. lia.
  - eapply List.Forall_impl; [|exact Hfiles]. intros p (d & Hd & Hz & Hfu). exists d. split; [done|]. lia.
  - intros st w' (-> & _ & xs & Hxs & S). split; [done|]. by exists xs.
Qed.

Lemma batch_taken fuel dir paths sp src p xs crc rest (v : world R) :
  let mtu := common_size p (w_s v) in
  receives_batch fuel crc dir paths v → config_ok (s_cfg p) → Forall2 (carries (mtu:=mtu) (fs:=src) sp) paths xs →
  Forall (λ p, 0 < zlen (default [] (src !! p)) < 2 ^ 63) paths →
  link_in (w_e v) = concat (batch_frames crc (hello_bytes p (cfg_packet_size (s_cfg p))) xs) ++ rest →
  let s := into dir (w_s v) in let fs := ho_files (fl_view (w_e v)) in
  wpt (val_receive_files fuel dir)
    (λ st v', st = VAL_OK ∧ session_ok (w_s v') ∧ link_in (w_e v') = rest ∧
       alike (cfg_resume_mode (s_cfg (w_s v))) (stored s xs fs) (ho_files (fl_view (w_e v'))) ∧
       sends (packet_frame (cfg_crc (E:=R) (s_cfg (w_s v))) VAL_PKT_HELLO (hello_bytes (w_s v) mtu) 0 true ::
              parcels_answers (E:=R) (c:=s_cfg (w_s v)) xs) v v') v.
Proof.
  intros mtu [Hok Ho Hu Hnew Hun Hcrc Hmode Hnames Hlog Habs Hf] Hp Hc Hsz EL s fs. set (c := s_cfg (w_s v)).
  pose proof (cok_packet _ Hp) as Pp. unfold VAL_MIN_PACKET_SIZE, VAL_MAX_PACKET_SIZE in Pp.
  eapply wp_mono; [apply (batch_received (c:=c) (crc:=crc) Hun Hcrc fuel (s_effective_packet_size (w_s v)) dir fs p (cfg_packet_size (s_cfg p)) xs rest v)|];
    try done.
  - by eapply all_ok.
  - split; [by rewrite (all_placed _ Hc)|].
    pose proof (all_placed s Hc) as Hall. clear -Habs Hall. revert xs Hall.
    induction Habs as [|q paths Hq _ IH]; intros [|x xs]; try done. cbn [map]. intros [= E1 E2].
    constructor; [|by apply IH]. change (into dir (w_s v)) with s. rewrite E1. exact Hq.
  - intros st v' (-> & (fs' & Hl & [Hok' _ _ _] & <- & EL') & S). done.
Qed.
(** A receiver's call that has ended as it should: [frs], from a sender with [src]'s files, have
    been read, and [rest] has not.  What else has changed is [resume_trace.log], in mode NEVER. *)
Definition arrived (src : E) (frs : list (list Z)) (dir : option (list Z)) (paths : list (list Z)) (rest : list Z) (pos : Z)
    (v : world R) (st' : Z) (v' : world R) : Prop :=
  st' = VAL_OK ∧ session_ok (w_s v') ∧ link_in (w_e v') = rest ∧
  let at_end := ho_files (fl_view (w_e v')) in
  (∀ path, path ∈ paths → at_end !! placed (into dir (w_s v)) path = ho_files (fl_view src) !! path) ∧
  (∀ q, q ∉ map (placed (into dir (w_s v))) paths → (cfg_resume_mode (s_cfg (w_s v)) = VAL_RESUME_NEVER → q ≠ trace_log) →
     at_end !! q = ho_files (fl_view (w_e v)) !! q) ∧
  ∃ heard, sends heard v v' ∧ concat heard = fst (replies frs pos).

(** What the sender has left on the wire, at a receiver. *)
Lemma batch_arrives fuel sr paths sp xs (w : world E) : sends_batch fuel sr paths w → config_ok (s_cfg sr) →
  Forall2 (carries (mtu:=common_size (w_s w) sr) (fs:=ho_files (fl_view (w_e w))) sp) paths xs →
  let frs := batch_frames (cfg_crc (E:=E) (s_cfg (w_s w))) (hello_bytes (w_s w) (cfg_packet_size (s_cfg (w_s w)))) xs in
  bytes_ok (concat frs) ∧
  ∀ fuel' dir rest pos (v : world R), s_cfg (w_s v) = s_cfg sr → receives_batch fuel' hh_crc dir paths v →
    link_in (w_e v) = concat frs ++ rest → wpt (val_receive_files fuel' dir) (arrived (w_e w) frs dir paths rest pos v) v.
Proof.
  intros Hsb Hr Hxs. pose proof Hsb as [Hok _ _ _ _ Hcrc Hh _ _ Hfiles _]. set (src := ho_files (fl_view (w_e w))) in *.
  assert (Hsz : Forall (λ p, 0 < zlen (default [] (src !! p)) < 2 ^ 63) paths).
  { eapply List.Forall_impl; [|exact Hfiles]. cbv beta. by intros p (d & -> & Hz & _). }
  assert (Hxok : Forall (parcel_ok (mtu:=common_size (w_s w) sr)) xs) by (by eapply all_ok). intros frs. split.
  { apply (batch_bytes (mtu:=common_size (w_s w) sr)); [apply handshake_put_bytes|done]. }
  intros fuel' dir rest pos v Ecfg Hrb EL.
  assert (Emtu : common_size (w_s w) sr = common_size (w_s w) (w_s v)) by (unfold common_size; by rewrite Ecfg).
  assert (Hfr : frs = batch_frames hh_crc (hello_bytes (w_s w) (cfg_packet_size (s_cfg (w_s w)))) xs) by (by apply batch_frames_ext).
  clearbody frs. subst frs. rewrite Emtu in *.
  eapply wp_mono; [apply (batch_taken fuel' dir paths sp src (w_s w) xs hh_crc rest v); try done; apply Hok|].
  cbv zeta. intros st' v' (-> & Hok' & EL' & Ef & S'). split; [done|]. split; [done|]. split; [done|].
  destruct (files_placed (into dir (w_s v)) (ho_files (fl_view (w_e v))) Hxs (rb_names _ _ _ _ _ Hrb)) as [Hin Hout].
  cbv zeta. split; [|split].
  { intros path Hpath. rewrite (Ef (placed (into dir (w_s v)) path)); [by apply Hin|]. intros Hm He.
    apply (rb_unlogged _ _ _ _ _ Hrb Hm). rewrite <- He. by apply list_elem_of_fmap_2. }
  { intros q Hq Hm. rewrite (Ef q Hm). by apply Hout. }
  eexists. split; [exact S'|].
  rewrite (replies_batch (common_size (w_s w) (w_s v))) by done. rewrite Hh.
  assert (Hello : hello_bytes (w_s v) (common_size (w_s w) (w_s v)) = hello_bytes sr (common_size (w_s w) (w_s v))).
  { unfold hello_bytes, val__fill_local_hello. by rewrite Ecfg. }
  assert (Hcv : ∀ l, cfg_crc (E:=R) (s_cfg (w_s v)) l = hh_crc l) by apply Hrb.
  cbn [concat]. rewrite Hello, (packet_frame_ext _ _ _ _ _ _ Hcv). f_equal.
  unfold parcels_answers, ctrl_frame. rewrite (packet_frame_ext _ _ _ _ _ _ Hcv), concat_app. cbn [concat]. rewrite app_nil_r.
  do 3 f_equal. apply map_ext. intros x. by apply answers_ext.
Qed.
End session.

(** C2: a batch of files crosses a link without faults, whole calls at both ends. If a
    sender's files are there and not empty, the smaller of the two packet sizes is below
    2^16 + 12 = 65548 bytes (above, DATA is truncated: [large_data_truncated]) and the other
    end answers like a receiver that takes the files from their start, then [val_send_files]
    terminates with VAL_OK, whatever the number, sizes (below 2^63) and contents of the files
    and the windows, and leaves a sequence of frames on the wire. Every receiver of that
    configuration that has none of the files, or empty ones, or is in mode NEVER without a
    validator and whatever its files are, that gives no two of them the same name and in mode
    NEVER none of them that of [resume_trace.log], and that gets these frames, cut anywhere,
    terminates [val_receive_files] with VAL_OK, the session intact and the rest of the stream
    unread: each file is where its name puts it, with the sender's content; no other file has
    changed, but in mode NEVER [resume_trace.log], to which the library appends its
    diagnostic records; and what the receiver has sent is exactly what the sender was taken to
    hear. *)
Theorem batch_transferred {E} `{!Hooks E} `{!StreamLink E} `{!Host E Z} `{!HonestHost E} `{!BuildOptions}
    {R} `{!Hooks R} `{!StreamLink R} `{!Host R unit} fuel sr paths sp (w : world E) :
  sends_batch fuel sr paths w → config_ok (s_cfg sr) →
  wpt (val_send_files fuel paths sp)
    (λ st w', st = VAL_OK ∧ ∃ frs, sends frs w w' ∧ bytes_ok (concat frs) ∧
       ∀ fuel' dir rest pos (v : world R), s_cfg (w_s v) = s_cfg sr → receives_batch fuel' hh_crc dir paths v →
         link_in (w_e v) = concat frs ++ rest →
         wpt (val_receive_files fuel' dir)
           (λ st' v', st' = VAL_OK ∧ session_ok (w_s v') ∧ link_in (w_e v') = rest ∧
              let at_end := ho_files (fl_view (w_e v')) in
              (∀ path, path ∈ paths → at_end !! placed (into dir (w_s v)) path = ho_files (fl_view (w_e w)) !! path) ∧
              (∀ q, q ∉ map (placed (into dir (w_s v))) paths → (cfg_resume_mode (s_cfg (w_s v)) = VAL_RESUME_NEVER → q ≠ trace_log) →
                 at_end !! q = ho_files (fl_view (w_e v)) !! q) ∧
              ∃ heard, sends heard v v' ∧ concat heard = fst (replies frs pos)) v) w.
Proof.
  intros Hsb Hr. eapply wp_mono; [by apply (batch_sent (E:=E) fuel sr paths sp w)|]. cbv zeta. intros st w' (-> & xs & Hxs & S).
  split; [done|]. eexists. split; [exact S|]. by apply (batch_arrives (E:=E) (R:=R) fuel sr paths sp xs w).
Qed.

(** Two files, of 1300 and 200 bytes, from the host whose other end answers like the demo
    session, to that session's host. *)
Definition batch_files : list (list Z * list Z) := [([102], region_file); ([103], ztake 200 region_file)].
Definition batch_paths : list (list Z) := [[102]; [103]].
Definition batch_w : world guest := mk_world demo_s (mk_guest (sim_start [] batch_files) [] 0) [].
Definition target_w (l : list Z) : world sim :=
  sim_world demo_s (sim_start (match l with [] => [] | _ => [Bytes l] end) [([104], [1; 2])]).
Lemma target_link l : link_in (w_e (target_w l)) = l.
Proof. unfold target_w. destruct l as [|z l]; [done|]. cbn. by rewrite app_nil_r. Qed.
Lemma batch_w_ready : sends_batch (Z.to_nat 30000) demo_s batch_paths batch_w.
Proof.
  constructor; [exact demo_s_ok| |split; [by vm_compute|reflexivity]|reflexivity|reflexivity|reflexivity|reflexivity
    |by vm_compute|discriminate| |lia].
  - split; [constructor|]. apply Forall_cons_2; [exact region_bytes|]. apply Forall_cons_2; [|constructor].
    exact (bytes_ok_ztake 200 _ region_bytes).
  - unfold batch_paths. constructor; [exists region_file|constructor; [exists (ztake 200 region_file)|constructor]].
    + split; [change (sim_disk (sim_start [] batch_files) !! [102] = Some region_file); by rewrite sim_disk_lookup|].
      split; [split; by vm_compute|by vm_compute].
    + split; [change (sim_disk (sim_start [] batch_files) !! [103] = Some (ztake 200 region_file)); by rewrite sim_disk_lookup|].
      split; [split; by vm_compute|by vm_compute].
Qed.
Lemma target_w_ready l : bytes_ok l → receives_batch (S (Z.to_nat (zlen l))) val_crc32 None batch_paths (target_w l).
Proof.
  intros Hl. constructor; [exact demo_s_ok| |split; [by vm_compute|reflexivity]|reflexivity|done|reflexivity|by vm_compute| |by vm_compute| |].
  - split; [|repeat constructor; by vm_compute]. unfold target_w, sim_ok. destruct l; [constructor|]. by constructor.
  - apply (bool_decide_unpack _). by vm_compute.
  - unfold batch_paths. constructor; [|constructor; [|constructor]].
    all: right; change (ho_files (fl_view (w_e (target_w l)))) with (sim_disk (w_e (target_w l))); by rewrite sim_disk_lookup.
  - rewrite target_link. pose proof (zlen_nonneg l). lia.
Qed.
Lemma batch_transferred_witness :
  wpt (val_send_files (Z.to_nat 30000) batch_paths None)
    (λ st w', st = VAL_OK ∧ ∃ frs, sends frs batch_w w' ∧
       wpt (val_receive_files (S (Z.to_nat (zlen (concat frs)))) None)
         (λ st' v', st' = VAL_OK ∧ sim_disk (w_e v') !! [102] = Some region_file ∧
            sim_disk (w_e v') !! [103] = Some (ztake 200 region_file) ∧ sim_disk (w_e v') !! [104] = Some [1; 2])
         (target_w (concat frs))) batch_w.
Proof.
  eapply wp_mono; [apply (batch_transferred (E:=guest) (R:=sim) (Z.to_nat 30000) demo_s batch_paths None batch_w batch_w_ready (sok_cfg _ demo_s_ok))|].
  cbv beta. intros st w' (-> & frs & Hs & Hb & Hrecv). split; [reflexivity|]. exists frs. split; [exact Hs|].
  eapply wp_mono; [apply (Hrecv (S (Z.to_nat (zlen (concat frs)))) None [] 0 (target_w (concat frs)) eq_refl (target_w_ready _ Hb))|].
  - rewrite app_nil_r. apply target_link.
  - cbv beta zeta. intros st' v' (-> & _ & _ & Hin & Hout & _). split; [reflexivity|].
    change (ho_files (fl_view (w_e v'))) with (sim_disk (w_e v')) in *.
    split; [|split].
    + pose proof (Hin [102] ltac:(by left)) as H1. exact H1.
    + pose proof (Hin [103] ltac:(by right; left)) as H2. exact H2.
    + pose proof (Hout [104] ltac:(by apply (bool_decide_unpack _); vm_compute) ltac:(done)) as H3. exact H3.
Defined.
