(* ===== verification/Faults.v ===== *)
(** What one fault does to a whole call of the receiver: a DATA packet that is lost, and a control
    packet that comes a second time.  [Transfer] has a complete run of both ends for each. *)
From stdpp Require Import gmap.
From S2P Require Import Prelude ByteOrder Wire Errors Crc Sanitize Timing Session Records Simulation Window Packet Frame.
From S2P Require Import Control Handshake Resume Sender Receiver Trace DataPhase Link Assembly Windows Host Exchange.
From S2P Require Import Peer Upload Download Station Batch.


Section receiver.
Context {R : Type} `{!Hooks R} `{!StreamLink R} `{!Host R unit} `{!BuildOptions}.




End receiver.

Section sender.
Context {E : Type} `{!Hooks E} `{!BuildOptions}.

End sender.




