(* ===== verification/Tcp.v ===== *)
(** The transport of the example programs ([src/examples/tcp/common/tcp_util.c], POSIX
    branches; [tp_send], [tp_recv], [tp_is_connected], [tp_flush] of
    [src/examples/tcp/val_example_send_tcp.c], which the receiver's program repeats): how the
    library's transport functions are made of socket calls.

    The operating system is the class [Sockets]; what a connected stream socket does, as far
    as the theorems need it, is [TcpStream].  With it the example's transport is one that the
    library's theorems are about: [tcp_link] is an instance of [Frame.StreamLink]. *)
From stdpp Require Import gmap.
From S2P Require Import Prelude ByteOrder Wire Errors Crc Timing Session Window Packet Frame.

Record timeval := mk_timeval { tv_sec : Z; tv_usec : Z }.
Record sockaddr := mk_sockaddr { sin_addr : Z; sin_port : Z }.

(** The calls: return values, and what they put in the buffers they are given.  A [select] is
    always for reading on one descriptor; [sk_fionread] is the value of [avail] after the
    [ioctl]; [sk_gethostbyname] is the first address of the entry, if there is one. *)
Class Sockets (E : Type) := {
  sk_send : Z → list Z → E → Z * E;
  sk_select : Z → option timeval → E → Z * E;
  sk_recv : Z → Z → bool → E → (Z * list Z) * E;
  sk_peek : Z → E → Z * E;
  sk_fionread : Z → E → Z * E;
  sk_so_error : Z → E → (Z * Z) * E;
  sk_nodelay : Z → E → E;
  sk_clock : E → (Z * Z) * E;
  sk_nanosleep : Z → Z → E → E;
  sk_socket : E → Z * E;
  sk_reuseaddr : Z → E → E;
  sk_bind : Z → sockaddr → E → Z * E;
  sk_listen : Z → Z → E → Z * E;
  sk_accept : Z → E → Z * E;
  sk_connect : Z → sockaddr → E → Z * E;
  sk_close : Z → E → E;
  sk_htonl : Z → Z;
  sk_htons : Z → Z;
  sk_inet_addr : list Z → Z;
  sk_gethostbyname : list Z → E → option Z * E
}.
Definition INADDR_ANY : Z := 0.
Definition INADDR_LOOPBACK : Z := 0x7f000001.
Definition INADDR_NONE : Z := 0xffffffff.

Section tcp_util.
Context {E : Type} `{!Sockets E}.

(** ** Helpers *)

Definition tcp_is_connected (fd : Z) : M E Z :=
  let! ' (rc, err) := mlift (sk_so_error fd) in
  if rc <? 0 then mret (-1)
  else if negb (err =? 0) then mret 0
  else
    let! r := mlift (sk_select fd (Some (mk_timeval 0 0))) in
    if 0 <? r then
      let! n := mlift (sk_peek fd) in
      if n =? 0 then mret 0 else mret 1
    else mret 1.
Definition tcp_flush (fd : Z) : M E unit := mmod (sk_nodelay fd).
(** The milliseconds of a [struct timespec]. *)
Definition timespec_ms (ts : Z * Z) : Z :=
  let ms := u64 (u64 (u64 (fst ts) * 1000) + u64 (snd ts / 1000000)) in u32 (Z.land ms 0xFFFFFFFF).
Definition tcp_now_ms : M E Z := let! ts := mlift sk_clock in mret (timespec_ms ts).
Definition tcp_sleep_ms (ms : Z) : M E unit := mmod (sk_nanosleep (ms / 1000) (ms mod 1000 * 1000000)).

(** ** Connections *)

Definition tcp_close (fd : Z) : M E unit := if 0 <=? fd then mmod (sk_close fd) else mret tt.
Definition tcp_listen (port backlog : Z) : M E Z :=
  let! fd := mlift sk_socket in
  if fd <? 0 then mret (-1)
  else
    do! mmod (sk_reuseaddr fd) in
    let! b := mlift (sk_bind fd (mk_sockaddr (sk_htonl INADDR_ANY) (sk_htons port))) in
    if negb (b =? 0) then do! tcp_close fd in mret (-1)
    else
      let! l := mlift (sk_listen fd backlog) in
      if negb (l =? 0) then do! tcp_close fd in mret (-1) else mret fd.
Definition tcp_accept (listen_fd : Z) : M E Z := mlift (sk_accept listen_fd).
(** [host] without its NUL; [None] for a null pointer. *)
Definition tcp_connect (host : option (list Z)) (port : Z) : M E Z :=
  let! fd := mlift sk_socket in
  if fd <? 0 then mret (-1)
  else
    let! addr :=
      match host with
      | Some (ch :: h) =>
        let ip := sk_inet_addr (ch :: h) in
        if ip =? INADDR_NONE then mlift (sk_gethostbyname (ch :: h)) else mret (Some ip)
      | _ => mret (Some (sk_htonl INADDR_LOOPBACK))
      end in
    match addr with
    | None => do! tcp_close fd in mret (-1)
    | Some ip =>
      let! r := mlift (sk_connect fd (mk_sockaddr ip (sk_htons port))) in
      if negb (r =? 0) then do! tcp_close fd in mret (-1) else mret fd
    end.

(** ** Sending and receiving *)

(** [p] points at the rest of the buffer; [nleft] is the size_t that counts it. *)
Definition send_all_body (fd : Z) (l : list Z * Z) : M E (list Z * Z + Z) :=
  let '(p, nleft) := l in
  if nleft =? 0 then mret (inr 0)
  else
    let! n := mlift (sk_send fd (ztake nleft p)) in
    if n <=? 0 then mret (inr (-1)) else mret (inl (zdrop n p, u64 (nleft - n))).
Definition tcp_send_all (fuel : nat) (fd : Z) (buf : list Z) : M E Z :=
  loop fuel (send_all_body fd) (buf, zlen buf).

(** [timeout_ms ? &tv : NULL]. *)
Definition select_timeout (timeout_ms remaining : Z) : option timeval :=
  if timeout_ms =? 0 then None else Some (mk_timeval (remaining / 1000) (remaining mod 1000 * 1000)).

(** The result and what is in the buffer. *)
Definition recv_all_body (fd timeout_ms : Z) (l : list Z * Z) : M E (list Z * Z + Z * list Z) :=
  let '(got, nleft) := l in
  if nleft =? 0 then mret (inr (0, got))
  else
    let! r := mlift (sk_select fd (select_timeout timeout_ms timeout_ms)) in
    if r <=? 0 then mret (inr (-1, got))
    else
      let! ' (n, d) := mlift (sk_recv fd nleft true) in
      if n <=? 0 then mret (inr (-1, got)) else mret (inl (got ++ d, u64 (nleft - n))).
Definition tcp_recv_all (fuel : nat) (fd len timeout_ms : Z) : M E (Z * list Z) :=
  loop fuel (recv_all_body fd timeout_ms) ([], len).

Definition elapsed_since (start now : Z) : Z := if start <=? now then now - start else 0.

(** The data and [*out_got]; the function's own result is 0 on every path. *)
Definition recv_up_to_body (fd len timeout_ms start : Z) (l : list Z * Z) : M E (list Z * Z + list Z * Z) :=
  let '(data, got) := l in
  let! now := tcp_now_ms in
  let remaining := if negb (timeout_ms =? 0) then
                     let elapsed := elapsed_since start now in
                     if timeout_ms <=? elapsed then 0 else timeout_ms - elapsed
                   else timeout_ms in
  let! r := mlift (sk_select fd (select_timeout timeout_ms remaining)) in
  if r <=? 0 then mret (inr (data, got))
  else
    let! ' (n, d) := mlift (sk_recv fd (u64 (len - got)) false) in
    if n <=? 0 then mret (inr (data, got))
    else
      let got := u64 (got + n) in
      if len <=? got then mret (inr (data ++ d, got)) else mret (inl (data ++ d, got)).
Definition tcp_recv_up_to (fuel : nat) (fd len timeout_ms : Z) : M E (Z * (list Z * Z)) :=
  let! start := tcp_now_ms in
  let! r := loop fuel (recv_up_to_body fd len timeout_ms start) ([], 0) in
  mret (0, r).

(** What is left of the time; [None] when it is used up. *)
Definition recv_exact_budget (timeout_ms start : Z) : M E (option Z) :=
  if negb (timeout_ms =? 0) then
    let! now := tcp_now_ms in
    let elapsed := elapsed_since start now in
    mret (if timeout_ms <=? elapsed then None else Some (timeout_ms - elapsed))
  else mret (Some timeout_ms).
Definition recv_exact_body (fd len timeout_ms start : Z) (_ : unit) : M E (unit + Z * list Z) :=
  let! rem := recv_exact_budget timeout_ms start in
  match rem with
  | None => mret (inr (-1, []))
  | Some remaining =>
    let! avail := mlift (sk_fionread fd) in
    if avail <? i32 len then
      let! r := mlift (sk_select fd (select_timeout timeout_ms remaining)) in
      if r <=? 0 then mret (inr (-1, [])) else mret (inl tt)
    else
      let! ' (n, d) := mlift (sk_recv fd len true) in
      mret (inr (if n =? len then 0 else -1, d))
  end.
Definition tcp_recv_exact (fuel : nat) (fd len timeout_ms : Z) : M E (Z * list Z) :=
  if len =? 0 then mret (0, [])
  else
    let! start := tcp_now_ms in
    loop fuel (recv_exact_body fd len timeout_ms start) tt.

(** ** The transport functions of the programs *)

Definition tp_send (fuel : nat) (fd : Z) (data : list Z) : M E Z :=
  let! rc := tcp_send_all fuel fd data in
  mret (if rc =? 0 then i32 (zlen data) else -1).
(** The return code, and the [*received] bytes of the buffer. *)
Definition tp_recv (fuel : nat) (fd buffer_size timeout_ms : Z) : M E (Z * list Z) :=
  let! ' (rc, d) := tcp_recv_exact fuel fd buffer_size timeout_ms in
  mret (0, if negb (rc =? 0) then [] else d).
Definition tp_is_connected (fd : Z) : M E Z := tcp_is_connected fd.
Definition tp_flush (fd : Z) : M E unit := tcp_flush fd.
End tcp_util.

(** ** A connected stream socket *)

(** [ts_in] is the receive queue of [fd], [ts_out] what the stream has accepted.  Bytes may
    arrive during every wait; [FIONREAD] counts the queue, and a [recv] with MSG_WAITALL of no
    more than is queued gives all of it. *)
Class TcpStream (E : Type) `{!Sockets E} (fd : Z) := {
  ts_ok : E → Prop;
  ts_in : E → list Z;
  ts_out : E → list Z;
  ts_bytes e : ts_ok e → bytes_ok (ts_in e) ∧ zlen (ts_in e) < 2 ^ 31;
  ts_send l e : ts_ok e → let '(n, e') := sk_send fd l e in
    n <= zlen l ∧ ts_ok e' ∧ ts_in e' = ts_in e ∧ ts_out e' = ts_out e ++ ztake n l;
  ts_select tv e : ts_ok e → let e' := snd (sk_select fd tv e) in
    ts_ok e' ∧ ts_out e' = ts_out e ∧ ∃ more, ts_in e' = ts_in e ++ more;
  ts_recv n all e : ts_ok e → 0 < n → let '((k, d), e') := sk_recv fd n all e in
    ts_ok e' ∧ ts_out e' = ts_out e ∧ k <= n ∧ ∃ more, d = ztake k (ts_in e ++ more) ∧
    ts_in e' = zdrop k (ts_in e ++ more) ∧ (n <= zlen (ts_in e) → more = [] ∧ (all = true → k = n));
  ts_fionread e : ts_ok e → let '(a, e') := sk_fionread fd e in
    a = zlen (ts_in e) ∧ ts_ok e' ∧ ts_in e' = ts_in e ∧ ts_out e' = ts_out e;
  ts_clock e : ts_ok e → let e' := snd (sk_clock e) in
    ts_ok e' ∧ ts_in e' = ts_in e ∧ ts_out e' = ts_out e
}.

Section stream.
Context {E : Type} `{!Sockets E} {fd : Z} `{!TcpStream E fd}.
Abbreviation ok := (ts_ok (fd:=fd)).
Abbreviation queue := (ts_in (fd:=fd)).
Abbreviation accepted := (ts_out (fd:=fd)).

(** Everything or an error, and then a proper part. *)
Lemma send_all_spec fuel buf e : ok e → zlen buf < 2 ^ 64 → (Z.to_nat (zlen buf) < fuel)%nat →
  wpt (tcp_send_all fuel fd buf)
    (λ rc e', ok e' ∧ queue e' = queue e ∧
       (rc = 0 ∧ accepted e' = accepted e ++ buf ∨
        rc = -1 ∧ ∃ k, 0 <= k < zlen buf ∧ accepted e' = accepted e ++ ztake k buf)) e.
Proof.
  intros He H64 Hf. unfold tcp_send_all.
  apply (wp_loop False (λ l e', ok e' ∧ queue e' = queue e ∧ snd l = zlen (fst l) ∧
           ∃ sent, buf = sent ++ fst l ∧ accepted e' = accepted e ++ sent)
           (λ l _, Z.to_nat (snd l))).
  2:{ split; [done|]. split; [done|]. split; [done|]. exists []. by rewrite app_nil_r. }
  2:{ by right. }
  intros [p n] e1 (H1 & Q1 & En & sent & -> & A1). cbn [fst snd] in *. subst n. unfold send_all_body.
  rewrite zlen_app in *. pose proof (zlen_nonneg p). pose proof (zlen_nonneg sent). destruct (Z.eqb_spec (zlen p) 0) as [E0|Hne].
  { apply wp_ret. split; [done|]. split; [done|]. left. split; [done|]. by rewrite (zlen_0_nil p), app_nil_r in * by done. }
  rewrite ztake_all by lia. apply wp_bind, wp_lift. pose proof (ts_send (fd:=fd) p e1 H1) as Hs.
  destruct (sk_send fd p e1) as [n e2]. cbn [fst snd]. destruct Hs as (Hn & H2 & Q2 & A2). destruct (Z.leb_spec n 0); apply wp_ret.
  - split; [done|]. split; [congruence|]. right. split; [done|]. exists (zlen sent). split; [lia|].
    rewrite ztake_app_exact by done. rewrite A2, A1. replace (ztake n p) with (@nil Z) by (unfold ztake; by replace (Z.to_nat n) with 0%nat by lia).
    by rewrite app_nil_r.
  - rewrite u64_small by lia. split; [|right; cbn; lia]. cbn [fst snd]. split; [done|]. split; [congruence|].
    split; [by rewrite zlen_zdrop by lia|]. exists (sent ++ ztake n p).
    by rewrite <- !(assoc_L (++)), ztake_zdrop, A2, A1, <- (assoc_L (++)).
Qed.

(** The clock does not touch the stream. *)
Lemma now_ms_keeps e : ok e → wpt tcp_now_ms (λ _ e', ok e' ∧ queue e' = queue e ∧ accepted e' = accepted e) e.
Proof.
  intros He. apply wp_bind, wp_lift. pose proof (ts_clock (fd:=fd) e He) as Hc. destruct (sk_clock e) as [ts e1].
  by apply wp_ret.
Qed.

(** All or nothing: an error has left the queue as it was, but for what arrived behind it. *)
Definition exactly (len : Z) (e : E) (r : Z * list Z) (e' : E) : Prop :=
  ok e' ∧ accepted e' = accepted e ∧ ∃ more,
    (fst r = 0 ∧ snd r = ztake len (queue e ++ more) ∧ zlen (snd r) = len ∧ queue e' = zdrop len (queue e ++ more)) ∨
    (fst r = -1 ∧ snd r = [] ∧ queue e' = queue e ++ more).

(** The budget of one turn: [None] when it is used up. *)
Lemma recv_exact_rem timeout_ms start (Q : option Z → E → Prop) e : ok e →
  (∀ r e', ok e' → queue e' = queue e → accepted e' = accepted e → (timeout_ms = 0 → r ≠ None) → Q r e') →
  wpt (recv_exact_budget timeout_ms start) Q e.
Proof.
  intros He HQ. unfold recv_exact_budget. destruct (Z.eqb_spec timeout_ms 0); cbn [negb]; [apply wp_ret; by apply HQ|].
  apply wp_bind. eapply wp_mono; [by apply now_ms_keeps|]. intros now e1 (H1 & Q1 & A1). apply wp_ret. by apply HQ.
Qed.
(** The read itself, once enough is queued. *)
Lemma recv_exact_read len e : ok e → 0 < len <= zlen (queue e) →
  wpt (let! ' (n, d) := mlift (sk_recv fd len true) in mret (W:=E) (A:=unit + Z * list Z) (inr (if n =? len then 0 else -1, d)))
    (λ r e', r = inr (0, ztake len (queue e)) ∧ ok e' ∧ accepted e' = accepted e ∧ queue e' = zdrop len (queue e)) e.
Proof.
  intros He Hl. apply wp_bind, wp_lift. pose proof (ts_recv (fd:=fd) len true e He ltac:(lia)) as Hr.
  destruct (sk_recv fd len true e) as [[k d] e1]. cbn [fst snd]. destruct Hr as (H1 & A1 & _ & more & -> & Q1 & Hall).
  destruct Hall as [-> Hk]; [lia|]. rewrite (Hk eq_refl), app_nil_r in *. apply wp_ret. by rewrite Z.eqb_refl.
Qed.

Lemma recv_exact_spec fuel len timeout_ms e : ok e → 0 <= len < 2 ^ 31 →
  wpp (tcp_recv_exact fuel fd len timeout_ms) (exactly len e) e.
Proof.
  intros He Hlen. unfold tcp_recv_exact, exactly. destruct (Z.eqb_spec len 0) as [->|Hne].
  { apply wp_ret. split; [done|]. split; [done|]. exists []. left. rewrite app_nil_r. done. }
  apply wp_bind, wpt_wpp. eapply wp_mono; [by apply now_ms_keeps|]. intros start e0 (H0 & Q0 & A0).
  apply (wpp_loop (λ _ e', ok e' ∧ accepted e' = accepted e ∧ ∃ more, queue e' = queue e ++ more)).
  2:{ split; [done|]. split; [done|]. exists []. by rewrite app_nil_r. }
  clear e0 H0 Q0 A0. intros [] e1 (H1 & A1 & more & Q1). apply wp_bind, wpt_wpp, recv_exact_rem; [done|].
  intros [rem|] e2 H2 Q2 A2 _.
  2:{ apply wp_ret. split; [done|]. split; [congruence|]. exists more. right. by rewrite Q2. }
  pose proof (ts_bytes (fd:=fd) e2 H2) as [_ H31]. apply wp_bind, wp_lift.
  pose proof (ts_fionread (fd:=fd) e2 H2) as Hf. destruct (sk_fionread fd e2) as [avail e3]. cbn [fst snd].
  destruct Hf as (-> & H3 & Q3 & A3). rewrite i32_small by lia. destruct (Z.ltb_spec (zlen (queue e2)) len).
  - apply wp_bind, wp_lift. pose proof (ts_select (fd:=fd) (select_timeout timeout_ms rem) e3 H3) as Hs.
    destruct (sk_select fd _ e3) as [r e4]. cbn [fst snd] in *. destruct Hs as (H4 & A4 & more' & Q4).
    assert (Qe : queue e4 = queue e ++ (more ++ more')) by (by rewrite Q4, Q3, Q2, Q1, (assoc_L (++))).
    destruct (r <=? 0); apply wp_ret; (split; [done|]; split; [congruence|]; eexists); [right; done|exact Qe].
  - eapply wp_mono; [apply wpt_wpp, recv_exact_read; [done|rewrite Q3; lia]|].
    intros r e4 (-> & H4 & A4 & Q4). split; [done|]. split; [congruence|]. exists more. left.
    assert (Eq : queue e3 = queue e ++ more) by congruence. assert (len <= zlen (queue e ++ more)) by (rewrite <- Eq, Q3; lia).
    rewrite Eq in *. cbn [fst snd]. split; [done|]. split; [done|]. split; [rewrite zlen_ztake; lia|done].
Qed.
End stream.

(** ** The library's transport *)

(** Calls that do not have to wait take no time that the millisecond clock shows. *)
Class TcpPrompt (E : Type) `{!Sockets E} (fd : Z) `{!TcpStream E fd} := {
  ts_now : E → Z;
  tp_clock e : ts_ok e → timespec_ms (fst (sk_clock e)) = ts_now e ∧ ts_now (snd (sk_clock e)) = ts_now e;
  tp_fionread e : ts_ok e → ts_now (snd (sk_fionread fd e)) = ts_now e;
  tp_read n e : ts_ok e → 0 < n <= zlen (ts_in e) → ts_now (snd (sk_recv fd n true e)) = ts_now e
}.

Section transport.
Context {E : Type} `{!Sockets E} (fd : Z) `{!TcpStream E fd} `{!TcpPrompt E fd}.
Abbreviation ok := (ts_ok (fd:=fd)).
Abbreviation queue := (ts_in (fd:=fd)).

(** With enough in the queue it is read at once. *)
Lemma recv_exact_ready fuel len t e : ok e → 0 < len <= zlen (queue e) → 0 <= t →
  wpt (tcp_recv_exact (S fuel) fd len t)
    (λ r e', r = (0, ztake len (queue e)) ∧ ok e' ∧ queue e' = zdrop len (queue e) ∧ ts_now e' = ts_now e) e.
Proof.
  intros He Hlen Ht. unfold tcp_recv_exact. replace (len =? 0) with false by lia.
  assert (Hnow : ∀ e, ok e → wpt tcp_now_ms (λ t' e', t' = ts_now e ∧ ok e' ∧ queue e' = queue e ∧ ts_now e' = ts_now e) e).
  { intros e0 H0. apply wp_bind, wp_lift. pose proof (ts_clock (fd:=fd) e0 H0) as H. pose proof (tp_clock e0 H0) as H0'.
    destruct (sk_clock e0) as [ts e1]. cbn [fst snd] in *. destruct H as (? & ? & _), H0' as [? ?]. by apply wp_ret. }
  apply wp_bind. eapply wp_mono; [by apply Hnow|]. intros start e1 (-> & H1 & Q1 & N1). cbn [loop]. apply wp_bind.
  unfold recv_exact_body. apply wp_bind.
  assert (Hrem : wpt (recv_exact_budget t (ts_now e))
    (λ r e', (∃ n, r = Some n) ∧ ok e' ∧ queue e' = queue e ∧ ts_now e' = ts_now e) e1).
  { unfold recv_exact_budget. destruct (Z.eqb_spec t 0); cbn [negb]; [apply wp_ret; by split; [eexists|]|]. apply wp_bind.
    eapply wp_mono; [by apply Hnow|]. intros now e2 (-> & H2 & Q2 & N2). apply wp_ret. unfold elapsed_since.
    rewrite N1, Z.leb_refl, Z.sub_diag. replace (t <=? 0) with false by lia. split; [by eexists|]. split; [done|]. split; congruence. }
  eapply wp_mono; [exact Hrem|]. intros r e2 ([n ->] & H2 & Q2 & N2). cbv beta iota.
  pose proof (ts_bytes (fd:=fd) e2 H2) as [_ H31]. apply wp_bind, wp_lift.
  pose proof (ts_fionread (fd:=fd) e2 H2) as Hf. pose proof (tp_fionread e2 H2) as Nf.
  destruct (sk_fionread fd e2) as [avail e3]. cbn [fst snd] in *. destruct Hf as (-> & H3 & Q3 & _).
  rewrite Q2 in *. rewrite i32_small by lia. replace (zlen (queue e) <? len) with false by lia.
  pose proof (tp_read len e3 H3) as Nr. rewrite Q3 in Nr. specialize (Nr Hlen).
  pose proof (recv_exact_read len e3 H3) as Hr. rewrite Q3 in Hr. specialize (Hr Hlen).
  unfold wp, mbind, mlift in *. destruct (sk_recv fd len true e3) as [[k d] e4]. cbn in *.
  destruct Hr as ([= Er ->] & H4 & _ & Q4). rewrite Er. split; [done|]. split; [done|]. split; [done|]. congruence.
Qed.

(** The table of functions that the programs hand to [val_session_create]: their own
    transport and clock, and the rest of a table [app].  A run without end is a call that
    does not come back; [fuel] is enough where the theorems say so. *)
Definition run {A} (a : A) (m : M E A) (e : E) : A * E := match m e with Some r => r | None => (a, e) end.
Definition tcp_hooks (fuel : nat) (app : Hooks E) : Hooks E := {|
  hk_send fr := run (-1) (tp_send fuel fd fr);
  hk_recv n t := run (0, []) (tp_recv fuel fd n (u32 t));
  hk_is_connected := run 1 (tp_is_connected fd);
  hk_flush e := snd (run tt (tp_flush fd) e);
  hk_fopen := hk_fopen; hk_fread := hk_fread; hk_fwrite := hk_fwrite; hk_fseek := hk_fseek;
  hk_ftell := hk_ftell; hk_fclose := hk_fclose; hk_crc32 := hk_crc32;
  hk_get_ticks_ms := run 0 tcp_now_ms;
  hk_delay_ms ms e := snd (run tt (tcp_sleep_ms ms) e);
  hk_on_file_start := hk_on_file_start; hk_on_file_complete := hk_on_file_complete;
  hk_on_progress := hk_on_progress; hk_validator := hk_validator; hk_on_packet := hk_on_packet;
  hk_append := hk_append
|}.

Lemma wpt_run {A} (a : A) (m : M E A) Q e : wpt m Q e → Q (fst (run a m e)) (snd (run a m e)).
Proof. unfold wp, run. destruct (m e) as [[a' e']|]; [exact (λ H, H)|intros []]. Qed.

(** A frame handed to [tp_send] is on the stream, or the library is told of an error. *)
Lemma tp_send_spec fuel fr e : ok e → zlen fr < 2 ^ 31 → (Z.to_nat (zlen fr) < fuel)%nat →
  wpt (tp_send fuel fd fr)
    (λ rc e', ok e' ∧ queue e' = queue e ∧
       (rc = zlen fr ∧ ts_out e' = ts_out e ++ fr ∨
        rc = -1 ∧ ∃ k, 0 <= k < zlen fr ∧ ts_out e' = ts_out e ++ ztake k fr)) e.
Proof.
  intros He Hz Hf. pose proof (zlen_nonneg fr). apply wp_bind.
  eapply wp_mono; [apply send_all_spec; [done|lia|done]|]. intros rc e' (H' & Q' & Hrc). apply wp_ret.
  split; [done|]. split; [done|]. destruct Hrc as [[-> ?]|[-> ?]]; [left; by rewrite i32_small by lia|by right].
Qed.

(** The programs' transport is one that the theorems on frames are about. *)
Context (fuel : nat) (app : Hooks E).
Context (Happ : ∀ rec e, ok e → let e' := hk_on_packet (Hooks:=app) rec e in ok e' ∧ queue e' = queue e ∧ ts_now e' = ts_now e).
#[local] Instance hooks : Hooks E := tcp_hooks (S fuel) app.

Lemma tcp_recv_law n t e : ok e → 0 < n <= zlen (queue e) →
  let '((r, got), e') := hk_recv n t e in
  0 <= r ∧ ok e' ∧ ts_now e' = ts_now e ∧
  ∃ k, 1 <= k <= n ∧ got = ztake k (queue e) ∧ queue e' = zdrop k (queue e).
Proof.
  intros He Hn. pose proof (u32_range t). cbn [hk_recv hooks tcp_hooks].
  assert (Hr : wpt (tp_recv (S fuel) fd n (u32 t))
    (λ r e', r = (0, ztake n (queue e)) ∧ ok e' ∧ queue e' = zdrop n (queue e) ∧ ts_now e' = ts_now e) e).
  { apply wp_bind. eapply wp_mono; [apply recv_exact_ready; [done|done|lia]|]. intros r e' (-> & H'). by apply wp_ret. }
  apply (wpt_run (0, [])) in Hr. destruct (run _ _ e) as [[r got] e']. cbn [fst snd] in Hr. destruct Hr as ([= -> ->] & H' & Q' & N').
  split; [lia|]. split; [done|]. split; [done|]. exists n. split; [lia|done].
Qed.
Lemma tcp_ticks_law e : ok e → let '(t, e') := hk_get_ticks_ms e in
  u32 t = ts_now e ∧ ok e' ∧ queue e' = queue e ∧ ts_now e' = ts_now e.
Proof.
  intros He. cbn [hk_get_ticks_ms hooks tcp_hooks]. unfold run, tcp_now_ms, mbind, mlift, mret.
  pose proof (ts_clock (fd:=fd) e He) as Hc. pose proof (tp_clock e He) as Hp. destruct (sk_clock e) as [ts e']. cbn [fst snd] in *.
  destruct Hc as (H1 & Q1 & _), Hp as [Hp N1]. split; [|done]. rewrite <- Hp. unfold timespec_ms. by rewrite u32_small by apply u32_range.
Qed.
Definition tcp_link : StreamLink E := {|
  link_ok := ok; link_in := queue; link_now := ts_now;
  link_bytes e He := proj1 (ts_bytes e He);
  link_recv n t e He Hn _ := tcp_recv_law n t e He Hn; link_ticks := tcp_ticks_law; link_packet := Happ
|}.
End transport.

(** ** Descriptors *)

(** The descriptors of the process that are open. *)
Class Descriptors (E : Type) `{!Sockets E} := {
  ds_open : E → gset Z;
  ds_socket e : let '(fd, e') := sk_socket e in
    fd < 0 ∧ ds_open e' = ds_open e ∨ 0 <= fd ∧ (fd ∉ ds_open e) ∧ ds_open e' = ({[fd]} ∪ ds_open e);
  ds_close fd e : ds_open (sk_close fd e) = ds_open e ∖ {[fd]};
  ds_reuseaddr fd e : ds_open (sk_reuseaddr fd e) = ds_open e;
  ds_bind fd a e : ds_open (snd (sk_bind fd a e)) = ds_open e;
  ds_listen fd n e : ds_open (snd (sk_listen fd n e)) = ds_open e;
  ds_connect fd a e : ds_open (snd (sk_connect fd a e)) = ds_open e;
  ds_resolve h e : ds_open (snd (sk_gethostbyname h e)) = ds_open e
}.

Section descriptors.
Context {E : Type} `{!Sockets E} `{!Descriptors E}.

(** One descriptor more on success, the same ones on failure. *)
Definition one_more (e : E) (r : Z) (e' : E) : Prop :=
  r = -1 ∧ ds_open e' = ds_open e ∨ 0 <= r ∧ (r ∉ ds_open e) ∧ ds_open e' = ({[r]} ∪ ds_open e).
(** [fd] is open on top of what was open in [e0]. *)
Definition holds_fd (e0 : E) (fd : Z) (e : E) : Prop :=
  0 <= fd ∧ (fd ∉ ds_open e0) ∧ ds_open e = ({[fd]} ∪ ds_open e0).

Lemma close_back e0 fd e : holds_fd e0 fd e → wpt ((do! tcp_close fd in mret (-1)) : M E Z) (one_more e0) e.
Proof.
  intros (H0 & Hn & Ho). unfold tcp_close. replace (0 <=? fd) with true by lia. apply wp_bind, wp_mod, wp_ret. left.
  split; [done|]. rewrite ds_close, Ho. set_solver.
Qed.
Lemma holds_lift {A B} e0 fd (f : E → A * E) (k : A → M E B) Q e : (∀ e, ds_open (snd (f e)) = ds_open e) →
  holds_fd e0 fd e → (∀ a e', holds_fd e0 fd e' → wpt (k a) Q e') → wpt ((let! a := mlift f in k a) : M E B) Q e.
Proof.
  intros Hf (H0 & Hn & Ho) Hk. apply wp_bind, wp_lift. apply Hk. split; [done|]. split; [done|]. by rewrite Hf.
Qed.
Lemma socket_opens e (k : Z → M E Z) : (∀ fd e', holds_fd e fd e' → wpt (k fd) (one_more e) e') →
  wpt ((let! fd := mlift sk_socket in if fd <? 0 then mret (-1) else k fd) : M E Z) (one_more e) e.
Proof.
  intros Hk. apply wp_bind, wp_lift. pose proof (ds_socket e) as Hs. destruct (sk_socket e) as [fd e']. cbn [fst snd].
  destruct Hs as [[Hneg Ho]|(Hp & Hn & Ho)].
  - replace (fd <? 0) with true by lia. apply wp_ret. by left.
  - replace (fd <? 0) with false by lia. by apply Hk.
Qed.
Lemma held_result e fd e' : holds_fd e fd e' → wpt (mret fd) (one_more e) e'.
Proof. intros. apply wp_ret. by right. Qed.
End descriptors.

(** The example's connections leak no descriptor. [tcp_listen] and [tcp_connect] return -1
    with the same descriptors open as before - whichever of [socket], [bind], [listen], the
    name lookup and [connect] failed - or a new descriptor, the only one they opened. *)
Theorem tcp_no_descriptor_leak {E} `{!Sockets E} `{!Descriptors E} port backlog host (e : E) :
  wpt (tcp_listen port backlog) (one_more e) e ∧ wpt (tcp_connect host port) (one_more e) e.
Proof.
  split; apply socket_opens; intros fd e1 H1.
  - apply wp_bind, wp_mod. assert (H2 : holds_fd e fd (sk_reuseaddr fd e1)).
    { destruct H1 as (?&?&?). split; [done|]. split; [done|]. by rewrite ds_reuseaddr. }
    eapply holds_lift; [intros; apply ds_bind|exact H2|]. intros b e3 H3. destruct (negb _); [by apply close_back|].
    eapply holds_lift; [intros; apply ds_listen|exact H3|]. intros l e4 H4. destruct (negb _); [by apply close_back|by apply held_result].
  - assert (Hc : ∀ a e2, holds_fd e fd e2 → wpt
      match a with
      | None => do! tcp_close fd in mret (-1)
      | Some ip =>
        let! r := mlift (sk_connect fd (mk_sockaddr ip (sk_htons port))) in
        if negb (r =? 0) then do! tcp_close fd in mret (-1) else mret fd
      end (one_more e) e2).
    { intros [ip|] e2 H2; [|by apply close_back]. eapply holds_lift; [intros; apply ds_connect|exact H2|].
      intros r e3 H3. destruct (negb _); [by apply close_back|by apply held_result]. }
    destruct host as [[|ch h]|]; [by apply wp_bind, wp_ret, (Hc (Some (sk_htonl INADDR_LOOPBACK)))|
      |by apply wp_bind, wp_ret, (Hc (Some (sk_htonl INADDR_LOOPBACK)))].
    cbv zeta. destruct (sk_inet_addr (ch :: h) =? INADDR_NONE); [|by apply wp_bind, wp_ret, (Hc (Some (sk_inet_addr (ch :: h))))].
    eapply holds_lift; [intros; apply ds_resolve|exact H1|exact Hc].
Qed.

(** ** The theorems on data *)

(** [tcp_recv_exact] is all or nothing, as its header promises. Whatever arrives while it
    waits, it returns 0 with exactly the next [len] bytes of the stream, which it has taken off
    the socket's queue, or -1 with the queue as it was. (Nothing is said of a run that never
    ends: with a timeout of 0 it waits for as long as it takes.) *)
Theorem tcp_read_all_or_nothing {E} `{!Sockets E} fd `{!TcpStream E fd} fuel len timeout_ms (e : E) :
  ts_ok e → 0 <= len < 2 ^ 31 → wpp (tcp_recv_exact fuel fd len timeout_ms) (exactly (fd:=fd) len e) e.
Proof. apply recv_exact_spec. Qed.

(** C36: frames cross TCP by way of the example programs' transport. The frame of any packet,
    handed to the library's [send] as the programs implement it, is on the stream in full when
    the function returns its length, and otherwise -1 is returned with a proper part of it on
    the stream. A session at the other end whose socket's queue begins with that frame receives
    the packet that was sent - type, offset and payload - through the programs' [recv], and
    leaves the rest in the queue. *)
Theorem tcp_frame_crosses {E1} `{!Sockets E1} fd1 `{!TcpStream E1 fd1} fuel1 (app1 : Hooks E1)
    {E2} `{!Sockets E2} fd2 `{!TcpStream E2 fd2} `{!TcpPrompt E2 fd2} fuel2 (app2 : Hooks E2)
    s0 type data off incl (e : E1) :
  let fr := session_frame (E:=E1) (Hooks0:=tcp_hooks fd1 fuel1 app1) s0 type data off incl in
  ts_ok e → zlen fr < 2 ^ 31 → (Z.to_nat (zlen fr) < fuel1)%nat →
  (∀ rec e, ts_ok e → let e' := hk_on_packet (Hooks:=app2) rec e in
     ts_ok e' ∧ ts_in (fd:=fd2) e' = ts_in (fd:=fd2) e ∧ ts_now (fd:=fd2) e' = ts_now (fd:=fd2) e) →
  0 <= type < 256 → 0 <= off < 2 ^ 64 → bytes_ok data → zlen (content_of type data off incl) < 2 ^ 16 →
  (let '(rc, e') := hk_send (Hooks:=tcp_hooks fd1 fuel1 app1) fr e in
   rc = zlen fr ∧ ts_out (fd:=fd1) e' = ts_out (fd:=fd1) e ++ fr ∨
   rc = -1 ∧ ∃ k, 0 <= k < zlen fr ∧ ts_out (fd:=fd1) e' = ts_out (fd:=fd1) e ++ ztake k fr) ∧
  ∀ fuel dst to_ms (w : world E2) rest, session_ok (w_s w) → ts_ok (w_e w) → 0 < to_ms →
    (∀ l, val_internal_crc32 (Hooks0:=tcp_hooks fd1 fuel1 app1) s0 l =
          val_internal_crc32 (Hooks0:=tcp_hooks fd2 (S fuel2) app2) (w_s w) l) →
    ts_in (fd:=fd2) (w_e w) = fr ++ rest → fits (w_s w) type data off incl →
    dst_cap dst ≠ 0 → zlen (seen_payload type data off) <= dst_cap dst →
    (Z.to_nat (zlen (fr ++ rest)) < fuel)%nat →
    wpt (val_internal_recv_packet (Hooks0:=tcp_hooks fd2 (S fuel2) app2) fuel dst to_ms)
      (λ r w', r = (VAL_OK, mk_packet type (zlen (seen_payload type data off)) (seen_offset type off incl)
                              (seen_payload type data off)) ∧ ts_in (fd:=fd2) (w_e w') = rest) w.
Proof.
  intros fr He Hz Hf Happ Hty Hoff Hb H16. split.
  - cbn [hk_send tcp_hooks]. pose proof (wpt_run (-1) _ _ _ (tp_send_spec fd1 fuel1 fr e He Hz Hf)) as Hs.
    destruct (run _ _ e) as [rc e']. by destruct Hs as (_ & _ & Hs).
  - intros fuel dst to_ms w rest Hok Hq Hto Hcrc EL Hfits Hd Hcap Hfuel.
    assert (Efr : fr = session_frame (Hooks0:=tcp_hooks fd2 (S fuel2) app2) (w_s w) type data off incl) by by apply packet_frame_ext.
    pose proof (frame_received (Hooks0:=tcp_hooks fd2 (S fuel2) app2) (StreamLink0:=tcp_link fd2 fuel2 app2 Happ)
      (w_s w) type data off incl fuel dst to_ms w rest) as Hr.
    change (@link_in _ _ (tcp_link fd2 fuel2 app2 Happ) (w_e w)) with (ts_in (fd:=fd2) (w_e w)) in Hr. rewrite EL, Efr in Hr.
    rewrite Efr in Hfuel. eapply wp_mono; [by apply Hr|]. cbv beta. by intros r w' (Hpkt & (_ & Hq' & _) & _).
Qed.

(** ** One end of a connection, to run the witnesses in *)

(** What has arrived on descriptor 3, what was sent there, the clock, and what is open. *)
Record cable := mk_cable { cb_in : list Z; cb_out : list Z; cb_now : Z; cb_fds : gset Z }.
#[export] Instance cable_sockets : Sockets cable := {|
  sk_send _ l e := let n := Z.min 1000 (zlen l) in (n, mk_cable (cb_in e) (cb_out e ++ ztake n l) (cb_now e) (cb_fds e));
  sk_select _ tv e := (if zlen (cb_in e) =? 0 then 0 else 1, e);
  sk_recv _ n _ e := let k := Z.min n (zlen (cb_in e)) in
    ((k, ztake k (cb_in e)), mk_cable (zdrop k (cb_in e)) (cb_out e) (cb_now e) (cb_fds e));
  sk_peek _ e := (Z.min 1 (zlen (cb_in e)), e);
  sk_fionread _ e := (zlen (cb_in e), e);
  sk_so_error _ e := ((0, 0), e);
  sk_nodelay _ e := e;
  sk_clock e := ((cb_now e / 1000, cb_now e mod 1000 * 1000000), e);
  sk_nanosleep s ns e := mk_cable (cb_in e) (cb_out e) (cb_now e + s * 1000 + ns / 1000000) (cb_fds e);
  sk_socket e := if decide (3 ∈ cb_fds e) then (-1, e) else (3, mk_cable (cb_in e) (cb_out e) (cb_now e) ({[3]} ∪ cb_fds e));
  sk_reuseaddr _ e := e;
  sk_bind _ _ e := (0, e);
  sk_listen _ _ e := (0, e);
  sk_accept _ e := (-1, e);
  sk_connect _ _ e := (-1, e);
  sk_close fd e := mk_cable (cb_in e) (cb_out e) (cb_now e) (cb_fds e ∖ {[fd]});
  sk_htonl z := z;
  sk_htons z := z;
  sk_inet_addr _ := INADDR_NONE;
  sk_gethostbyname _ e := (None, e)
|}.
#[export] Program Instance cable_stream : TcpStream cable 3 := {|
  ts_ok e := bytes_ok (cb_in e) ∧ zlen (cb_in e) < 2 ^ 31;
  ts_in := cb_in;
  ts_out := cb_out
|}.
Next Obligation. done. Qed.
Next Obligation. intros l e He. cbn. split; [lia|done]. Qed.
Next Obligation. intros tv e He. cbn. split; [done|]. split; [done|]. exists []. by rewrite app_nil_r. Qed.
Next Obligation.
  intros n all e [Hb Hz] Hn. cbn. pose proof (zlen_nonneg (cb_in e)). split.
  - split; [by apply bytes_ok_zdrop|]. rewrite zlen_zdrop by lia. lia.
  - split; [done|]. split; [lia|]. exists []. rewrite app_nil_r. split; [done|]. split; [done|].
    intros Hle. split; [done|]. intros _. lia.
Qed.
Next Obligation. by intros e He. Qed.
Next Obligation. by intros e He. Qed.
#[export] Program Instance cable_prompt : TcpPrompt cable 3 := {| ts_now e := timespec_ms (cb_now e / 1000, cb_now e mod 1000 * 1000000) |}.
Next Obligation. done. Qed.
Next Obligation. done. Qed.
Next Obligation. done. Qed.

#[export] Program Instance cable_descriptors : Descriptors cable := {| ds_open := cb_fds |}.
Next Obligation. intros e. cbn. destruct (decide (3 ∈ cb_fds e)); [left; split; [lia|done]|right; split; [lia|done]]. Qed.
Next Obligation. done. Qed.
Next Obligation. done. Qed.
Next Obligation. done. Qed.
Next Obligation. done. Qed.
Next Obligation. done. Qed.
Next Obligation. done. Qed.

(** No files and no callbacks. *)
Definition bare_app : Hooks cable := {|
  hk_send _ e := (-1, e); hk_recv _ _ e := ((-1, []), e); hk_is_connected e := (1, e); hk_flush e := e;
  hk_fopen _ _ e := (None, e); hk_fread _ _ e := ([], e); hk_fwrite _ _ e := (0, e); hk_fseek _ _ _ e := (-1, e);
  hk_ftell _ e := (-1, e); hk_fclose _ e := e; hk_crc32 _ l := val_crc32 l; hk_get_ticks_ms e := (0, e); hk_delay_ms _ e := e;
  hk_on_file_start _ _ _ _ e := (false, e); hk_on_file_complete _ _ _ e := (false, e); hk_on_progress _ e := (false, e);
  hk_validator _ _ e := (0, e); hk_on_packet _ e := e; hk_append _ _ e := e
|}.
Definition cable_hooks : Hooks cable := tcp_hooks 3 (Z.to_nat 3000) bare_app.
Definition cable_frame : list Z := session_frame (Hooks0:=cable_hooks) demo_s VAL_PKT_DATA [1; 2; 3] 7 true.

Lemma tcp_no_descriptor_leak_witness :
  let e := mk_cable [] [] 5 {[7]} in
  wpt (tcp_listen 80 1) (one_more e) e ∧ wpt (tcp_connect (Some [120]) 80) (one_more e) e ∧
  tcp_listen 80 1 e = Some (3, mk_cable [] [] 5 ({[3]} ∪ {[7]})).
Proof.
  destruct (tcp_no_descriptor_leak 80 1 (Some [120]) (mk_cable [] [] 5 {[7]})) as [H1 H2].
  split; [exact H1|]. split; [exact H2|reflexivity].
Defined.
Lemma tcp_read_all_or_nothing_witness :
  let e := mk_cable [1; 2; 3] [] 5 ∅ in
  wpp (tcp_recv_exact 9 3 2 100) (exactly (fd:=3) 2 e) e ∧
  tcp_recv_exact 9 3 2 100 e = Some ((0, [1; 2]), mk_cable [3] [] 5 ∅).
Proof.
  split; [|vm_compute; reflexivity]. apply tcp_read_all_or_nothing; [|lia].
  split; [apply (bool_decide_unpack _); vm_compute; reflexivity|vm_compute; reflexivity].
Defined.
Lemma tcp_frame_crosses_witness :
  let '(rc, e') := hk_send (Hooks:=cable_hooks) cable_frame (mk_cable [] [] 5 ∅) in
  rc = 23 ∧ cb_out e' = cable_frame ∧
  wpt (val_internal_recv_packet (Hooks0:=cable_hooks) 100 (DstRecvBuffer 512) 50)
    (λ r w', r = (VAL_OK, mk_packet VAL_PKT_DATA 3 7 [1; 2; 3]) ∧ cb_in (w_e w') = [9])
    (mk_world demo_s (mk_cable (cb_out e' ++ [9]) [] 5 ∅) []).
Proof.
  assert (Ek : ts_ok (fd:=3) (mk_cable [] [] 5 ∅)) by (split; [constructor|vm_compute; reflexivity]).
  assert (Eb : bytes_ok [1; 2; 3]) by (apply (bool_decide_unpack _); vm_compute; reflexivity).
  pose proof (tcp_frame_crosses 3 (Z.to_nat 3000) bare_app 3 (pred (Z.to_nat 3000)) bare_app demo_s VAL_PKT_DATA [1; 2; 3] 7 true
    (mk_cable [] [] 5 ∅)) as Hw. cbv zeta in Hw.
  destruct Hw as [_ Hw]; [exact Ek|vm_compute; reflexivity|apply (bool_decide_unpack _); vm_compute; reflexivity|done
    |split; vm_compute; congruence|split; vm_compute; congruence|exact Eb|vm_compute; reflexivity|].
  assert (E2 : hk_send (Hooks:=cable_hooks) cable_frame (mk_cable [] [] 5 ∅) = (23, mk_cable [] cable_frame 5 ∅)) by (vm_compute; reflexivity).
  rewrite E2. cbv iota beta. split; [reflexivity|]. split; [reflexivity|].
  apply (Hw 100%nat (DstRecvBuffer 512) 50 (mk_world demo_s (mk_cable (cable_frame ++ [9]) [] 5 ∅) []) [9]); try reflexivity.
  - exact demo_s_ok.
  - split; [apply (bool_decide_unpack _); vm_compute; reflexivity|vm_compute; reflexivity].
  - unfold fits. vm_compute. congruence.
  - vm_compute. congruence.
  - vm_compute. congruence.
  - apply (bool_decide_unpack _). vm_compute. reflexivity.
Defined.
