(* ===== verification/Wired.v ===== *)
(** The TCP programs' transport at one end of a faultless connection: a socket whose other end
    is a host as [Host] describes one.

    [Wired] says of the socket calls what [Host] says of an ideal transport; with it the
    functions of [Tcp] are again such a transport ([wired_host]), so that the theorems on
    whole batches are about the library as the programs use it. *)
From stdpp Require Import gmap.
From S2P Require Import Prelude ByteOrder Wire Errors Crc Sanitize Timing Session Simulation Window Packet Frame.
From S2P Require Import Control Sender Receiver DataPhase Link Assembly Windows Host Tcp.

(** [Host]'s transport is the ideal one that the sockets are compared with: a socket that is not
    full takes all it is given, the host at the other end answers, and what is queued can be
    read at once.  Files, clock and callbacks are the same. *)
Class Wired (E P : Type) `{!Hooks E} `{!StreamLink E} `{!Host E P} `{!Sockets E} (fd : Z) := {
  wi_nil p : ho_reply (E:=E) (P:=P) [] p = ([], p);
  wi_send l e : fl_ok e → l ≠ [] → let '(n, e') := sk_send fd l e in
    n = zlen l ∧ fl_ok e' ∧ (link_in e', fl_view e') = fl_answer (E:=E) (V:=host P) l (link_in e, fl_view e);
  wi_select tv e : fl_ok e → let '(r, e') := sk_select fd tv e in
    fl_same (V:=host P) e e' ∧ (0 < r → link_in e ≠ []);
  wi_recv n all e : fl_ok e → let '((k, d), e') := sk_recv fd n all e in
    fl_ok e' ∧ fl_view (V:=host P) e' = fl_view e ∧
    (0 < n <= zlen (link_in e) → all = true →
     k = n ∧ d = ztake n (link_in e) ∧ link_in e' = zdrop n (link_in e) ∧ link_now e' = link_now e);
  wi_fionread e : fl_ok e → let '(a, e') := sk_fionread fd e in
    a = Z.min (zlen (link_in e)) (2 ^ 31 - 1) ∧ fl_same (V:=host P) e e' ∧ link_now e' = link_now e;
  wi_clock e : fl_ok e → let '(ts, e') := sk_clock e in
    timespec_ms ts = link_now e ∧ fl_same (V:=host P) e e' ∧ link_now e' = link_now e;
  wi_so_error e : fl_ok e → let '((rc, err), e') := sk_so_error fd e in
    0 <= rc ∧ err = 0 ∧ fl_same (V:=host P) e e';
  wi_peek e : fl_ok e → let '(n, e') := sk_peek fd e in
    fl_same (V:=host P) e e' ∧ (link_in e ≠ [] → n ≠ 0);
  wi_nodelay e : fl_ok e → fl_same (V:=host P) e (sk_nodelay fd e)
}.

Section wired.
Context {E P : Type} {app : Hooks E} {ideal : StreamLink E} `{!Host E P} `{!Sockets E} (fd : Z) `{!Wired E P fd} (fuel : nat).
Abbreviation ok := (fl_ok (E:=E) (V:=host P)).
Abbreviation same := (fl_same (E:=E) (V:=host P)).
(** Two turns are enough for a send: the one that sends, and the one that sees nothing left. *)
Definition wired : Hooks E := tcp_hooks fd (S (S fuel)) app.

Lemma same_trans e e1 e2 : same e e1 → same e1 e2 → same e e2.
Proof. intros (_ & L1 & V1) (H2 & L2 & V2). split; [done|]. split; congruence. Qed.
Lemma same_refl e : ok e → same e e.
Proof. by intros. Qed.

(** *** The clock and the state of the connection *)

Lemma wired_now e : ok e →
  wpt tcp_now_ms (λ t e', t = link_now e ∧ same e e' ∧ link_now e' = link_now e) e.
Proof.
  intros He. apply wp_bind, wp_lift. pose proof (wi_clock (fd:=fd) e He) as Hc. destruct (sk_clock e) as [ts e'].
  by apply wp_ret.
Qed.
Lemma wired_connected e : ok e → wpt (tcp_is_connected fd) (λ r e', r = 1 ∧ same e e') e.
Proof.
  intros He. apply wp_bind, wp_lift. pose proof (wi_so_error (fd:=fd) e He) as H1. destruct (sk_so_error fd e) as [[rc err] e1].
  destruct H1 as (Hrc & -> & H1). cbn [fst snd]. replace (rc <? 0) with false by lia. cbn [negb Z.eqb].
  apply wp_bind, wp_lift. pose proof (wi_select (fd:=fd) (Some (mk_timeval 0 0)) e1 (proj1 H1)) as H2.
  destruct (sk_select fd _ e1) as [r e2]. cbn [fst snd]. destruct H2 as [H2 Hr]. pose proof (same_trans _ _ _ H1 H2) as H02.
  destruct (Z.ltb_spec 0 r); [|by apply wp_ret]. apply wp_bind, wp_lift.
  pose proof (wi_peek (fd:=fd) e2 (proj1 H2)) as H3. destruct (sk_peek fd e2) as [n e3]. cbn [fst snd]. destruct H3 as [H3 Hn].
  assert (n ≠ 0) as Hn0 by (apply Hn; destruct H2 as (_ & -> & _); auto).
  apply Z.eqb_neq in Hn0. rewrite Hn0. apply wp_ret. split; [done|by eapply same_trans].
Qed.

(** *** Sending *)

Lemma wired_send fr e : ok e → zlen fr < 2 ^ 31 →
  wpt (tp_send (S (S fuel)) fd fr)
    (λ rc e', rc = zlen fr ∧ ok e' ∧ (link_in e', fl_view e') = fl_answer (E:=E) (V:=host P) fr (link_in e, fl_view e)) e.
Proof.
  intros He Hz. pose proof (zlen_nonneg fr) as H0. unfold tp_send, tcp_send_all.
  assert (Hrest : ∀ e', wpt (loop (S fuel) (send_all_body fd) ([], 0)) (λ rc e1, rc = 0 ∧ e1 = e') e') by (intros; by apply wp_ret).
  destruct (decide (fr = [])) as [->|Hne].
  { apply wp_bind, wp_ret. apply wp_ret. cbn. split; [done|]. split; [done|]. rewrite ho_answer, wi_nil.
    destruct (fl_view e). cbn. by rewrite app_nil_r. }
  pose proof (zlen_ne_pos fr Hne). cbn [loop]. apply wp_bind, wp_bind. unfold send_all_body at 1.
  replace (zlen fr =? 0) with false by lia. rewrite ztake_all by lia. apply wp_bind, wp_lift.
  pose proof (wi_send (fd:=fd) fr e He Hne) as Hs. destruct (sk_send fd fr e) as [n e1]. cbn [fst snd]. destruct Hs as (-> & H1 & Ha).
  replace (zlen fr <=? 0) with false by lia. apply wp_ret. rewrite Z.sub_diag.
  assert (zdrop (zlen fr) fr = []) as -> by (unfold zdrop, zlen; apply drop_ge; lia).
  eapply wp_mono; [apply Hrest|]. intros rc e' [-> ->]. apply wp_ret. cbn. by rewrite i32_small by lia.
Qed.

(** *** Receiving *)

Lemma i32_le len : 0 <= len → i32 len <= Z.min len (2 ^ 31 - 1).
Proof.
  intros H0. unfold i32. pose proof (u32_range len) as Hr. pose proof (Z.mod_le len (2 ^ 32) H0 ltac:(lia)) as Hle. unfold u32 in *.
  cbv zeta. destruct (Z.ltb_spec (len mod 2 ^ 32) (2 ^ 31)); lia.
Qed.
Lemma wired_budget t start e : ok e → wpt (recv_exact_budget t start) (λ _ e', same e e') e.
Proof.
  intros He. unfold recv_exact_budget. destruct (negb _); [|by apply wp_ret]. apply wp_bind.
  eapply wp_mono; [by apply wired_now|]. cbv beta. intros now e1 (_ & H1 & _). by apply wp_ret.
Qed.
(** Whatever a read does, the host stays as it is. *)
Lemma wired_recv_any n t e : ok e →
  wpp (tp_recv (S (S fuel)) fd n t) (λ _ e', ok e' ∧ fl_view (V:=host P) e' = fl_view e) e.
Proof.
  intros He. unfold tp_recv, tcp_recv_exact. destruct (n =? 0); [by apply wp_bind, wp_ret, wp_ret|].
  apply wp_bind, wp_bind, wpt_wpp. eapply wp_mono; [by apply wired_now|]. cbv beta. intros start e0 (_ & H0 & _).
  assert (Hk : ∀ r e', ok e' ∧ fl_view (V:=host P) e' = fl_view e →
    wpp (let '(rc, d) := r : Z * list Z in mret (W:=E) (0, if negb (rc =? 0) then [] else d))
      (λ _ e', ok e' ∧ fl_view (V:=host P) e' = fl_view e) e') by (intros [rc d] e' H'; by apply wp_ret).
  eapply wp_mono; [|exact Hk].
  apply (wpp_loop (λ _ e', ok e' ∧ fl_view (V:=host P) e' = fl_view e) (recv_exact_body fd n t start)
    (λ _ e', ok e' ∧ fl_view (V:=host P) e' = fl_view e)); [|split; apply H0].
  intros [] e1 [H1 V1]. unfold recv_exact_body. apply wp_bind, wpt_wpp. eapply wp_mono; [by apply wired_budget|].
  intros r e2 (H2 & _ & V2). destruct r as [rem|]; [|apply wp_ret; split; [done|congruence]].
  apply wp_bind, wp_lift. pose proof (wi_fionread (fd:=fd) e2 H2) as Hf. destruct (sk_fionread fd e2) as [a e3]. cbn [fst snd].
  destruct Hf as (_ & (H3 & _ & V3) & _). destruct (a <? i32 n).
  - apply wp_bind, wp_lift. pose proof (wi_select (fd:=fd) (select_timeout t rem) e3 H3) as Hs.
    destruct (sk_select fd _ e3) as [r e4]. cbn [fst snd]. destruct Hs as [(H4 & _ & V4) _].
    destruct (r <=? 0); apply wp_ret; (split; [done|congruence]).
  - apply wp_bind, wp_lift. pose proof (wi_recv (fd:=fd) n true e3 H3) as Hr.
    destruct (sk_recv fd n true e3) as [[k d] e4]. cbn [fst snd]. destruct Hr as (H4 & V4 & _). apply wp_ret. split; [done|congruence].
Qed.
(** What is queued is read at once. *)
Lemma wired_recv n t e : ok e → 0 < n <= zlen (link_in e) → 0 <= t →
  wpt (tp_recv (S (S fuel)) fd n t)
    (λ r e', r = (0, ztake n (link_in e)) ∧ ok e' ∧ link_in e' = zdrop n (link_in e) ∧ link_now e' = link_now e) e.
Proof.
  intros He Hn Ht. unfold tp_recv, tcp_recv_exact. replace (n =? 0) with false by lia.
  apply wp_bind, wp_bind. eapply wp_mono; [by apply wired_now|]. cbv beta. intros start e1 (-> & (H1 & L1 & V1) & N1).
  cbn [loop]. apply wp_bind. unfold recv_exact_body at 1. apply wp_bind.
  assert (Hb : wpt (recv_exact_budget t (link_now e)) (λ r e', r = Some t ∧ same e1 e' ∧ link_now e' = link_now e) e1).
  { unfold recv_exact_budget. destruct (Z.eqb_spec t 0) as [->|Ht0]; cbn [negb]; [by apply wp_ret|]. apply wp_bind.
    eapply wp_mono; [by apply wired_now|]. cbv beta. intros now e2 (-> & H2 & N2). apply wp_ret. unfold elapsed_since.
    rewrite N1, Z.leb_refl, Z.sub_diag, Z.sub_0_r. replace (t <=? 0) with false by lia. split; [done|]. split; [done|congruence]. }
  eapply wp_mono; [exact Hb|]. cbv beta. intros r e2 (-> & (H2 & L2 & V2) & N2). apply wp_bind, wp_lift.
  pose proof (wi_fionread (fd:=fd) e2 H2) as Hf. destruct (sk_fionread fd e2) as [a e3]. cbn [fst snd].
  destruct Hf as (-> & (H3 & L3 & V3) & N3). rewrite L2, L1 in *. pose proof (i32_le n ltac:(lia)).
  replace (_ <? i32 n) with false by lia. apply wp_bind, wp_lift. pose proof (wi_recv (fd:=fd) n true e3 H3) as Hr.
  destruct (sk_recv fd n true e3) as [[k d] e4]. cbn [fst snd]. destruct Hr as (H4 & _ & Hr). rewrite L3 in Hr.
  destruct Hr as (-> & -> & L4 & N4); [done..|]. apply wp_ret. rewrite Z.eqb_refl. apply wp_ret, wp_ret. cbn.
  split; [done|]. split; [done|]. split; [done|congruence].
Qed.

(** ** The library's view of it *)

Lemma run_wpp {A} (a : A) (m : M E A) (Q : A → E → Prop) e : wpp m Q e → Q a e → Q (fst (run a m e)) (snd (run a m e)).
Proof. unfold wp, run. destruct (m e) as [[a' e']|]; by intros. Qed.

Program Definition wired_link : @StreamLink E wired := {|
  link_ok := ok; link_in := link_in (E:=E); link_now := link_now (E:=E)
|}.
Next Obligation. intros e He. apply (link_bytes (Hooks0:=app)), fl_link, He. Qed.
Next Obligation.
  intros n t e He Hn _. cbn [hk_recv wired tcp_hooks].
  pose proof (wpt_run (0, []) _ _ _ (wired_recv n (u32 t) e He Hn (proj1 (u32_range t)))) as Hr.
  destruct (run _ _ e) as [[r got] e']. cbn [fst snd] in Hr. destruct Hr as ([= -> ->] & H' & L' & N').
  split; [lia|]. split; [done|]. split; [done|]. exists n. split; [lia|done].
Qed.
Next Obligation.
  intros e He. cbn [hk_get_ticks_ms wired tcp_hooks]. pose proof (wpt_run 0 _ _ _ (wired_now e He)) as Hr.
  destruct (run _ _ e) as [t e']. cbn [fst snd] in Hr. destruct Hr as (-> & (H' & L' & _) & N'). split; [|done].
  pose proof (link_ticks (Hooks0:=app) e (fl_link e He)) as Ht. destruct (hk_get_ticks_ms e) as [t0 e0]. destruct Ht as (<- & _).
  apply u32_small, u32_range.
Qed.
Next Obligation.
  intros rec e He. cbn [hk_on_packet wired tcp_hooks]. destruct (fl_packet (V:=host P) rec e He) as (H' & L' & _).
  destruct (link_packet (Hooks0:=app) rec e (fl_link e He)) as (_ & _ & N'). done.
Qed.

#[local] Existing Instance wired_link.
Program Definition wired_host : @Host E P wired wired_link := {|
  ho_reply := ho_reply (Hooks0:=app);
  ho_link := {| fl_ok := ok; fl_view := fl_view (Hooks0:=app); fl_answer := fl_answer (Hooks0:=app) |}
|}.
Next Obligation. done. Qed.
Next Obligation.
  intros n t e He. cbn [hk_recv wired tcp_hooks].
  apply (run_wpp (0, []) _ (λ _ e', ok e' ∧ fl_view (V:=host P) e' = fl_view e)); [by apply wired_recv_any|done].
Qed.
Next Obligation.
  intros fr e He Hz. cbn [hk_send wired tcp_hooks]. pose proof (wpt_run (-1) _ _ _ (wired_send fr e He Hz)) as Hs.
  by destruct (run _ _ e) as [rc e'].
Qed.
Next Obligation.
  intros e He. cbn [hk_get_ticks_ms wired tcp_hooks]. by apply (wpt_run 0 _ _ _ (wired_now e He)).
Qed.
Next Obligation.
  intros e He. cbn [hk_is_connected wired tcp_hooks]. change (tp_is_connected fd) with (tcp_is_connected fd).
  pose proof (wpt_run 1 _ _ _ (wired_connected e He)) as [Er H']. rewrite Er. by split.
Qed.
Next Obligation. intros e He. cbn [hk_flush wired tcp_hooks]. exact (wi_nodelay (fd:=fd) e He). Qed.
Next Obligation. intros r e He. exact (fl_packet (Hooks0:=app) r e He). Qed.
Next Obligation. intros i e He. exact (fl_progress (Hooks0:=app) i e He). Qed.
Next Obligation. intros fr L v. apply (ho_answer (Hooks0:=app)). Qed.
Next Obligation. intros e p d. apply (ho_bytes (Hooks0:=app)). Qed.
Next Obligation. intros p m e. exact (ho_open (Hooks0:=app) p m e). Qed.
Next Obligation. intros f o wh p pos d e. exact (ho_seek (Hooks0:=app) f o wh p pos d e). Qed.
Next Obligation. intros f p pos e. exact (ho_tell (Hooks0:=app) f p pos e). Qed.
Next Obligation. intros f n p pos d e. exact (ho_read (Hooks0:=app) f n p pos d e). Qed.
Next Obligation. intros f x p d e. exact (ho_write (Hooks0:=app) f x p d e). Qed.
Next Obligation. intros f e. exact (ho_close (Hooks0:=app) f e). Qed.
Next Obligation. intros n p s o e. exact (ho_start (Hooks0:=app) n p s o e). Qed.
Next Obligation. intros n p r e. exact (ho_complete (Hooks0:=app) n p r e). Qed.
Next Obligation. intros p x e. exact (ho_append (Hooks0:=app) p x e). Qed.
End wired.

(** The other end is the same, so it is as honest. *)
Program Definition wired_honest {E} {app : Hooks E} {ideal : StreamLink E} `{!Host E Z} `{!HonestHost E} `{!Sockets E}
    (fd : Z) `{!Wired E Z fd} (fuel : nat) :
  @HonestHost E (wired fd fuel) (wired_link fd fuel) (wired_host fd fuel) := {|
  hh_crc := hh_crc (Hooks0:=app); hh_hello := hh_hello (Hooks0:=app)
|}.
Next Obligation. intros E app ideal Ho Hh So fd Wi fuel d pos. exact (hh_reply_hello (Hooks0:=app) d pos). Qed.
Next Obligation. intros E app ideal Ho Hh So fd Wi fuel d pos. exact (hh_reply_meta (Hooks0:=app) d pos). Qed.
Next Obligation. intros E app ideal Ho Hh So fd Wi fuel pos. exact (hh_reply_resume (Hooks0:=app) pos). Qed.
Next Obligation. intros E app ideal Ho Hh So fd Wi fuel d off incl pos. exact (hh_reply_data (Hooks0:=app) d off incl pos). Qed.
Next Obligation. intros E app ideal Ho Hh So fd Wi fuel off pos. exact (hh_reply_done (Hooks0:=app) off pos). Qed.
Next Obligation. intros E app ideal Ho Hh So fd Wi fuel pos. exact (hh_reply_eot (Hooks0:=app) pos). Qed.
