(* ===== verification/Serial.v ===== *)
(** The serial port of the example programs ([src/examples/tcp/val_example_send_com.c] and
    [val_example_receive_com.c], POSIX branches): opening and configuring it, the pseudo
    terminal of [--host], the loops around [write], [select] and [read], and the transport
    functions that the programs give to the library.

    The operating system is the class [SerialPort]; what a line does, as far as the theorems
    need it, is [SerialLine] and [LinePrompt].  With them this transport, too, is one that the
    library's theorems are about: [serial_link] is an instance of [Frame.StreamLink].  The
    diagnostics on stderr are left out, but not the reading of the clock for them. *)
From S2P Require Import Prelude ByteOrder Wire Errors Crc Timing Session Window Packet Frame Tcp.

(** [errno] after a failed [read] or [write], as the loops tell it apart. *)
Inductive io_error : Type := EINTR | EAGAIN | EFatal.

(** The fields that the programs set; the flags have the values of Linux. *)
Record termios := mk_termios {
  c_iflag : Z; c_oflag : Z; c_cflag : Z; c_lflag : Z; cc_vmin : Z; cc_vtime : Z; c_ispeed : Z; c_ospeed : Z }.
Definition CSIZE : Z := 0x30.
Definition CS8 : Z := 0x30.
Definition CSTOPB : Z := 0x40.
Definition CREAD : Z := 0x80.
Definition PARENB : Z := 0x100.
Definition PARODD : Z := 0x200.
Definition CLOCAL : Z := 0x800.
Definition CRTSCTS : Z := 0x80000000.
Definition B115200 : Z := 0x1002.

(** The calls, as in [Tcp.Sockets]: return values and what they put in the buffers; a negative
    result of [read] or [write] is an error, any other result of [read] the bytes. *)
Class SerialPort (E : Type) := {
  se_open : list Z → E → Z * E;
  se_close : Z → E → E;
  se_write : Z → list Z → E → (io_error + Z) * E;
  se_select : Z → timeval → E → Z * E;
  se_read : Z → Z → E → (io_error + list Z) * E;
  se_usleep : Z → E → E;
  se_monotonic : E → option (Z * Z) * E;
  se_realtime : E → (Z * Z) * E;
  se_nanosleep : Z → Z → E → E;
  se_tcgetattr : Z → E → option termios * E;
  se_tcsetattr : Z → termios → E → Z * E;
  se_posix_openpt : E → Z * E;
  se_grantpt : Z → E → Z * E;
  se_unlockpt : Z → E → Z * E;
  se_ptsname : Z → E → option (list Z) * E;
  se_cfsetospeed : Z → termios → termios;
  se_cfsetispeed : Z → termios → termios;
  se_cfmakeraw : termios → termios
}.

Section port.
Context {E : Type} `{!SerialPort E}.

(** ** Time *)

Definition ticks_of (ts : Z * Z) : Z := u32 (u64 (u64 (u64 (fst ts) * 1000) + u64 (snd ts) / 1000000)).
Definition get_ticks_ms : M E Z :=
  let! mono := mlift se_monotonic in
  match mono with
  | Some ts => mret (ticks_of ts)
  | None => let! ts := mlift se_realtime in mret (ticks_of ts)
  end.
Definition delay_ms (ms : Z) : M E unit := mmod (se_nanosleep (ms / 1000) (ms mod 1000 * 1000000)).

(** ** Opening *)

(** 8 data bits, no parity, one stop bit, no flow control. *)
Definition line_8n1 (tty : termios) : termios :=
  let f := Z.lor (Z.land (c_cflag tty) (Z.lnot CSIZE)) CS8 in
  let f := Z.lor f (Z.lor CLOCAL CREAD) in
  let f := Z.land f (Z.lnot (Z.lor PARENB PARODD)) in
  let f := Z.land f (Z.lnot CSTOPB) in
  let f := Z.land f (Z.lnot CRTSCTS) in
  mk_termios (c_iflag tty) (c_oflag tty) f (c_lflag tty) (cc_vmin tty) (cc_vtime tty) (c_ispeed tty) (c_ospeed tty).
Definition read_wait (vmin vtime : Z) (tty : termios) : termios :=
  mk_termios (c_iflag tty) (c_oflag tty) (c_cflag tty) (c_lflag tty) vmin vtime (c_ispeed tty) (c_ospeed tty).
Definition no_processing (tty : termios) : termios :=
  mk_termios 0 0 (c_cflag tty) 0 (cc_vmin tty) (cc_vtime tty) (c_ispeed tty) (c_ospeed tty).
Definition at_speed (baud : Z) (tty : termios) : termios := se_cfsetispeed baud (se_cfsetospeed baud tty).

(** The sender's: the result, and the descriptor that is left in the structure. *)
Definition serial_open_tx (port : list Z) (baud : Z) : M E (Z * Z) :=
  let! fd := mlift (se_open port) in
  if fd <? 0 then mret (-1, fd)
  else
    let! tty := mlift (se_tcgetattr fd) in
    match tty with
    | None => mret (-2, fd)
    | Some tty =>
      let tty := line_8n1 (read_wait 0 5 (no_processing (at_speed baud tty))) in
      let! rc := mlift (se_tcsetattr fd tty) in
      if negb (rc =? 0) then mret (-3, fd)
      else
        let! raw := mlift (se_tcgetattr fd) in
        match raw with
        | Some raw => let! _ := mlift (se_tcsetattr fd (se_cfmakeraw raw)) in mret (0, fd)
        | None => mret (0, fd)
        end
    end.
(** The receiver's: a port, or with [host_mode] the master of a new pseudo terminal. *)
Definition open_pty : M E (Z * Z) :=
  let! fd := mlift se_posix_openpt in
  if fd =? -1 then mret (-1, fd)
  else
    let! g := mlift (se_grantpt fd) in
    if g =? -1 then do! mmod (se_close fd) in mret (-2, fd)
    else
      let! u := mlift (se_unlockpt fd) in
      if u =? -1 then do! mmod (se_close fd) in mret (-3, fd)
      else
        let! name := mlift (se_ptsname fd) in
        match name with
        | None => do! mmod (se_close fd) in mret (-4, fd)
        | Some slave_name =>
          let! slave_fd := mlift (se_open slave_name) in
          if slave_fd <? 0 then do! mmod (se_close fd) in mret (-5, fd)
          else
            let! tty := mlift (se_tcgetattr slave_fd) in
            match tty with
            | None => do! mmod (se_close slave_fd) in do! mmod (se_close fd) in mret (-6, fd)
            | Some tty =>
              let! rc := mlift (se_tcsetattr slave_fd (read_wait 0 5 (se_cfmakeraw (at_speed B115200 tty)))) in
              if negb (rc =? 0) then do! mmod (se_close slave_fd) in do! mmod (se_close fd) in mret (-7, fd)
              else do! mmod (se_close slave_fd) in mret (0, fd)
            end
        end.
Definition serial_open_rx (port : option (list Z)) (baud : Z) : M E (Z * Z) :=
  match port with
  | None => open_pty
  | Some port =>
    let! fd := mlift (se_open port) in
    if fd <? 0 then mret (-1, fd)
    else
      let! tty := mlift (se_tcgetattr fd) in
      match tty with
      | None => mret (-2, fd)
      | Some tty =>
        let! rc := mlift (se_tcsetattr fd (line_8n1 (read_wait 0 5 (se_cfmakeraw (at_speed baud tty))))) in
        if negb (rc =? 0) then mret (-3, fd) else mret (0, fd)
      end
  end.
Definition serial_close (fd : Z) : M E unit := if 0 <=? fd then mmod (se_close fd) else mret tt.

(** ** Writing and reading *)

Definition serial_write_body (fd len : Z) (l : list Z * Z) : M E (list Z * Z + Z) :=
  let '(p, remaining) := l in
  if remaining =? 0 then mret (inr (i32 (u64 (len - remaining))))
  else
    let! r := mlift (se_write fd (ztake remaining p)) in
    match r with
    | inr rc =>
      if 0 <? rc then mret (inl (zdrop rc p, u64 (remaining - rc)))
      else do! mmod (se_usleep 1000) in mret (inl (p, remaining))
    | inl EINTR => mret (inl (p, remaining))
    | inl EAGAIN => do! mmod (se_usleep 1000) in mret (inl (p, remaining))
    | inl EFatal => let! _ := get_ticks_ms in mret (inr (-1))
    end.
Definition serial_write (fuel : nat) (fd : Z) (data : list Z) : M E Z :=
  loop fuel (serial_write_body fd (zlen data)) (data, zlen data).

(** One turn; [data] is what is in the buffer, and its length is [total]. *)
Definition serial_read_body (fd len timeout_ms start : Z) (data : list Z) : M E (list Z + list Z) :=
  let! now := get_ticks_ms in
  let elapsed := elapsed_since start now in
  if timeout_ms <=? elapsed then mret (inr data)
  else
    let remain_ms := timeout_ms - elapsed in
    let! sel_ret := mlift (se_select fd (mk_timeval (remain_ms / 1000) (remain_ms mod 1000 * 1000))) in
    if sel_ret <=? 0 then mret (inr data)
    else
      let! r := mlift (se_read fd (u64 (len - zlen data))) in
      match r with
      | inr d =>
        if 0 <? zlen d then
          let data := data ++ d in
          if len <=? zlen data then mret (inr data) else mret (inl data)
        else mret (inl data)
      | inl EINTR => mret (inl data)
      | inl EAGAIN => do! mmod (se_usleep 1000) in mret (inl data)
      | inl EFatal => let! _ := get_ticks_ms in mret (inr data)
      end.
Definition serial_read (fuel : nat) (fd len timeout_ms : Z) : M E (Z * list Z) :=
  let! start := get_ticks_ms in
  let! data := loop fuel (serial_read_body fd len timeout_ms start) [] in
  if zlen data =? 0 then let! _ := get_ticks_ms in mret (0, data)
  else mret (i32 (zlen data), data).

(** ** The transport functions *)

Definition tp_send (fuel : nat) (fd : Z) (data : list Z) : M E Z :=
  let! rc := serial_write fuel fd data in
  mret (if rc =? i32 (zlen data) then i32 (zlen data) else -1).
(** The return code, and the [*received] bytes of the buffer. *)
Definition tp_recv (fuel : nat) (fd buffer_size timeout_ms : Z) : M E (Z * list Z) :=
  let! ' (rc, d) := serial_read fuel fd buffer_size timeout_ms in
  if rc <? 0 then mret (0, []) else mret (0, ztake rc d).
Definition tp_is_connected : Z := 1.
Definition tp_flush (e : E) : E := e.

(** The table that the programs hand to [val_session_create]; see [Tcp.tcp_hooks]. *)
Definition serial_hooks (fuel : nat) (fd : Z) (app : Hooks E) : Hooks E := {|
  hk_send fr := run (-1) (tp_send fuel fd fr);
  hk_recv n t := run (0, []) (tp_recv fuel fd n t);
  hk_is_connected e := (tp_is_connected, e);
  hk_flush := tp_flush;
  hk_fopen := hk_fopen; hk_fread := hk_fread; hk_fwrite := hk_fwrite; hk_fseek := hk_fseek;
  hk_ftell := hk_ftell; hk_fclose := hk_fclose; hk_crc32 := hk_crc32;
  hk_get_ticks_ms := run 0 get_ticks_ms;
  hk_delay_ms ms e := snd (run tt (delay_ms ms) e);
  hk_on_file_start := hk_on_file_start; hk_on_file_complete := hk_on_file_complete;
  hk_on_progress := hk_on_progress; hk_validator := hk_validator; hk_on_packet := hk_on_packet;
  hk_append := hk_append
|}.
End port.

(** ** What the settings are *)

(** 8 data bits, no parity, one stop bit, no hardware flow control; the port is read and its
    modem lines are ignored. *)
Definition is_8n1 (tty : termios) : Prop :=
  Z.land (c_cflag tty) (Z.lor CSIZE (Z.lor CSTOPB (Z.lor PARENB (Z.lor PARODD CRTSCTS)))) = CS8 ∧
  Z.land (c_cflag tty) (Z.lor CLOCAL CREAD) = Z.lor CLOCAL CREAD.
Lemma line_8n1_ok tty : is_8n1 (line_8n1 tty).
Proof.
  split; cbn [c_cflag line_8n1]; apply Z.bits_inj'; intros n Hn;
    rewrite !Z.land_spec, !Z.lor_spec, !Z.lnot_spec, ?Z.land_spec, ?Z.lor_spec by done;
    change CSIZE with (Z.lor (2 ^ 4) (2 ^ 5)); change CS8 with (Z.lor (2 ^ 4) (2 ^ 5)); change CSTOPB with (2 ^ 6);
    change CREAD with (2 ^ 7); change PARENB with (2 ^ 8); change PARODD with (2 ^ 9); change CLOCAL with (2 ^ 11);
    change CRTSCTS with (2 ^ 31); rewrite ?Z.lor_spec, !Z.pow2_bits_eqb by lia;
    destruct (Z.testbit (c_cflag tty) n);
    repeat match goal with |- context [?k =? n] => destruct (Z.eqb_spec k n) end; subst; first [reflexivity|lia].
Qed.

(** ** A line *)

(** [sl_in] is what has arrived on [fd], [sl_out] what the line has accepted.  Bytes may
    arrive at any time.  [sl_patience] bounds the calls that can still come back with nothing
    done - no byte, an interrupt, a full buffer; without a bound of that kind the loops need
    not end. *)
Class SerialLine (E : Type) `{!SerialPort E} (fd : Z) := {
  sl_ok : E → Prop;
  sl_in : E → list Z;
  sl_out : E → list Z;
  sl_patience : E → nat;
  sl_idle (e e' : E) : Prop :=
    sl_ok e' ∧ sl_out e' = sl_out e ∧ (sl_patience e' <= sl_patience e)%nat ∧ ∃ more, sl_in e' = sl_in e ++ more;
  sl_stall (e e' : E) : Prop := sl_idle e e' ∧ (sl_patience e' < sl_patience e)%nat;
  sl_bytes e : sl_ok e → bytes_ok (sl_in e) ∧ zlen (sl_in e) < 2 ^ 31;
  sl_write l e : sl_ok e → let e' := snd (se_write fd l e) in
    match fst (se_write fd l e) with
    | inr n => if 0 <? n then n <= zlen l ∧ sl_ok e' ∧ sl_out e' = sl_out e ++ ztake n l ∧
                              (sl_patience e' <= sl_patience e)%nat ∧ ∃ more, sl_in e' = sl_in e ++ more
               else sl_stall e e'
    | inl EFatal => sl_idle e e'
    | inl _ => sl_stall e e'
    end;
  sl_read n e : sl_ok e → 0 < n → let e' := snd (se_read fd n e) in
    match fst (se_read fd n e) with
    | inr d => if 0 <? zlen d then zlen d <= n ∧ sl_ok e' ∧ sl_out e' = sl_out e ∧
                                   (sl_patience e' <= sl_patience e)%nat ∧ ∃ more, d ++ sl_in e' = sl_in e ++ more
               else sl_stall e e'
    | inl EFatal => sl_idle e e'
    | inl _ => sl_stall e e'
    end;
  sl_select tv e : sl_ok e → sl_idle e (snd (se_select fd tv e));
  sl_usleep us e : sl_ok e → sl_idle e (se_usleep us e);
  sl_monotonic e : sl_ok e → sl_idle e (snd (se_monotonic e));
  sl_realtime e : sl_ok e → sl_idle e (snd (se_realtime e))
}.

Section line.
Context {E : Type} `{!SerialPort E} {fd : Z} `{!SerialLine E fd}.
Abbreviation ok := (sl_ok (fd:=fd)).
Abbreviation queue := (sl_in (fd:=fd)).
Abbreviation accepted := (sl_out (fd:=fd)).
Abbreviation patience := (sl_patience (fd:=fd)).
Abbreviation idle := (sl_idle (fd:=fd)).
Abbreviation stall := (sl_stall (fd:=fd)).

Lemma idle_refl e : ok e → idle e e.
Proof. intros He. split; [done|]. split; [done|]. split; [lia|]. exists []. by rewrite app_nil_r. Qed.
Lemma idle_trans e e1 e2 : idle e e1 → idle e1 e2 → idle e e2.
Proof.
  intros (_ & O1 & P1 & m1 & Q1) (H2 & O2 & P2 & m2 & Q2). split; [done|]. split; [congruence|]. split; [lia|].
  exists (m1 ++ m2). by rewrite Q2, Q1, (assoc_L (++)).
Qed.
Lemma stall_idle e e1 e2 : stall e e1 → idle e1 e2 → stall e e2.
Proof. intros [H1 P1] H2. split; [by eapply idle_trans|]. destruct H2 as (_ & _ & ? & _). lia. Qed.
Lemma ticks_idle e : ok e → wpt get_ticks_ms (λ _ e', idle e e') e.
Proof.
  intros He. apply wp_bind, wp_lift. pose proof (sl_monotonic (fd:=fd) e He) as Hm. destruct (se_monotonic e) as [[ts|] e1]; cbn [fst snd] in *.
  - apply wp_ret. exact Hm.
  - apply wp_bind, wp_lift. assert (H1 : ok e1) by apply Hm. pose proof (sl_realtime (fd:=fd) e1 H1) as Hr.
    destruct (se_realtime e1) as [ts e2]. cbn [fst snd] in *. apply wp_ret. exact (idle_trans _ _ _ Hm Hr).
Qed.
(** A call that did nothing, with or without the millisecond's sleep. *)
Lemma stall_turn {A} (a : A) (Q : A → E → Prop) e e1 : (∀ e2, stall e e2 → Q a e2) → stall e e1 → wpt (mret a) Q e1.
Proof. intros HQ Hs. by apply wp_ret, HQ. Qed.
Lemma stall_sleep {A} (a : A) us (Q : A → E → Prop) e e1 : (∀ e2, stall e e2 → Q a e2) → stall e e1 →
  wpt ((do! mmod (se_usleep us) in mret a) : M E A) Q e1.
Proof.
  intros HQ Hs. apply wp_bind, wp_mod, wp_ret, HQ. eapply stall_idle; [done|]. apply sl_usleep. by destruct Hs as [[? _] _].
Qed.

(** Everything, or an error and then a proper part. *)
Definition written (data : list Z) (e : E) (rc : Z) (e' : E) : Prop :=
  ok e' ∧ (∃ more, queue e' = queue e ++ more) ∧
  (rc = zlen data ∧ accepted e' = accepted e ++ data ∨
   rc = -1 ∧ ∃ k, 0 <= k < zlen data ∧ accepted e' = accepted e ++ ztake k data).
(** Part of it written: what is left, and how the line got here. *)
Definition part_written (data : list Z) (e : E) (l : list Z * Z) (e' : E) : Prop :=
  ok e' ∧ (∃ more, queue e' = queue e ++ more) ∧ snd l = zlen (fst l) ∧
  ∃ sent, data = sent ++ fst l ∧ accepted e' = accepted e ++ sent.
Lemma part_idle data e l e1 e2 : part_written data e l e1 → idle e1 e2 → part_written data e l e2.
Proof.
  intros (_ & (m1 & Q1) & Hn & sent & Hd & O1) (H2 & O2 & _ & m2 & Q2). split; [done|].
  split; [exists (m1 ++ m2); by rewrite Q2, Q1, (assoc_L (++))|]. split; [done|]. exists sent. split; [done|congruence].
Qed.

Lemma serial_write_turn data e l e1 : zlen data < 2 ^ 31 → part_written data e l e1 →
  wpt (serial_write_body fd (zlen data) l)
    (λ r e', match r with
             | inl l' => part_written data e l' e' ∧
                 (Z.to_nat (snd l') + patience e' < Z.to_nat (snd l) + patience e1)%nat
             | inr rc => written data e rc e'
             end) e1.
Proof.
  destruct l as [p n]. intros H31 Hp. pose proof Hp as (H1 & Hq & En & sent & Ed & O1). cbn [fst snd] in En, Ed |- *. subst n.
  pose proof (zlen_nonneg p). pose proof (zlen_nonneg sent). assert (El : zlen data = zlen sent + zlen p) by (by rewrite Ed, zlen_app).
  unfold serial_write_body. destruct (Z.eqb_spec (zlen p) 0) as [E0|Hne].
  { apply wp_ret. split; [done|]. split; [done|]. left. rewrite E0, u64_small, i32_small by lia. split; [lia|].
    by rewrite O1, Ed, (zlen_0_nil p E0), app_nil_r. }
  rewrite ztake_all by lia. apply wp_bind, wp_lift. pose proof (sl_write (fd:=fd) p e1 H1) as Hw.
  destruct (se_write fd p e1) as [r e2]. cbn [fst snd] in *. cbv zeta in Hw.
  assert (Hstall : ∀ e3, stall e1 e3 → part_written data e (p, zlen p) e3 ∧
    (Z.to_nat (zlen p) + patience e3 < Z.to_nat (zlen p) + patience e1)%nat).
  { intros e3 [Hi Hlt]. split; [by eapply part_idle|lia]. }
  destruct r as [[| |]|n].
  - apply (stall_turn _ _ e1); [exact Hstall|exact Hw].
  - apply (stall_sleep _ _ _ e1); [exact Hstall|exact Hw].
  - apply wp_bind. eapply wp_mono; [apply ticks_idle; apply Hw|]. cbv beta. intros _ e3 H3. apply wp_ret.
    pose proof (idle_trans _ _ _ Hw H3) as Hi. pose proof (part_idle _ _ _ _ _ Hp Hi) as (H4 & Hq3 & _ & sent' & Ed' & O3).
    cbn [fst] in Ed'. split; [done|]. split; [done|]. right. split; [done|]. exists (zlen sent'). pose proof (zlen_nonneg sent').
    rewrite O3, Ed', zlen_app, ztake_app_exact by done. split; [lia|done].
  - destruct (Z.ltb_spec 0 n) as [Hp0|_]; [|apply (stall_sleep _ _ _ e1); [exact Hstall|exact Hw]].
    destruct Hw as (Hn & H2 & O2 & P2 & more & Q2). rewrite u64_small by lia. apply wp_ret. cbn [fst snd].
    split; [|lia]. destruct Hq as [m Q1]. split; [done|]. split; [exists (m ++ more); by rewrite Q2, Q1, (assoc_L (++))|].
    cbn [fst snd]. split; [by rewrite zlen_zdrop by lia|]. exists (sent ++ ztake n p).
    by rewrite <- !(assoc_L (++)), ztake_zdrop, O2, O1, <- (assoc_L (++)).
Qed.
Lemma serial_write_spec fuel data e : ok e → zlen data < 2 ^ 31 → (Z.to_nat (zlen data) + patience e < fuel)%nat →
  wpt (serial_write fuel fd data) (written data e) e.
Proof.
  intros He H31 Hf. apply (wp_loop False (part_written data e) (λ l e', Z.to_nat (snd l) + patience e')%nat); [| |by right].
  - intros l e1 Hp. eapply wp_mono; [by apply serial_write_turn|]. intros [l'|rc] e2 H2; [|done]. split; [apply H2|right; apply H2].
  - split; [done|]. split; [exists []; by rewrite app_nil_r|]. split; [done|]. exists []. by rewrite app_nil_r.
Qed.

(** What was taken off the line, with what is left there, is what had arrived and more. *)
Definition taken (e : E) (data : list Z) (e' : E) : Prop :=
  ok e' ∧ accepted e' = accepted e ∧ ∃ more, data ++ queue e' = queue e ++ more.
Lemma taken_idle e data e1 e2 : taken e data e1 → idle e1 e2 → taken e data e2.
Proof.
  intros (_ & O1 & m1 & Q1) (H2 & O2 & _ & m2 & Q2). split; [done|]. split; [congruence|]. exists (m1 ++ m2).
  by rewrite Q2, (assoc_L (++)), Q1, (assoc_L (++)).
Qed.
Lemma taken_more e data d e1 e2 more : taken e data e1 → ok e2 → accepted e2 = accepted e1 →
  d ++ queue e2 = queue e1 ++ more → taken e (data ++ d) e2.
Proof.
  intros (_ & O1 & m1 & Q1) H2 O2 Q2. split; [done|]. split; [congruence|]. exists (m1 ++ more).
  by rewrite <- (assoc_L (++)), Q2, (assoc_L (++)), Q1, (assoc_L (++)).
Qed.

Definition reading (len timeout_ms : Z) (e : E) (data : list Z) (e' : E) : Prop :=
  taken e data e' ∧ zlen data < len ∧ (timeout_ms <= 0 → data = []).
Definition read_result (len timeout_ms : Z) (e : E) (data : list Z) (e' : E) : Prop :=
  taken e data e' ∧ zlen data <= len ∧ (timeout_ms <= 0 → data = []).
Lemma reading_idle len t e data e1 e2 : reading len t e data e1 → idle e1 e2 → reading len t e data e2.
Proof. intros (H1 & ?) H2. split; [by eapply taken_idle|done]. Qed.
Lemma reading_result len t e data e1 : reading len t e data e1 → read_result len t e data e1.
Proof. intros (? & ? & ?). split; [done|]. split; [lia|done]. Qed.
Lemma elapsed_nonneg start now : 0 <= elapsed_since start now.
Proof. unfold elapsed_since. case_match; lia. Qed.

Lemma serial_read_turn len t start e data e1 : 0 < len < 2 ^ 64 → reading len t e data e1 →
  wpt (serial_read_body fd len t start data)
    (λ r e', match r with
             | inl data' => reading len t e data' e' ∧
                 (Z.to_nat (len - zlen data') + patience e' < Z.to_nat (len - zlen data) + patience e1)%nat
             | inr data' => read_result len t e data' e'
             end) e1.
Proof.
  intros Hlen HR. pose proof HR as ((H1 & _) & Hd & _). pose proof (zlen_nonneg data). unfold serial_read_body.
  apply wp_bind. eapply wp_mono; [by apply ticks_idle|]. cbv beta. intros now e2 I2. pose proof (reading_idle _ _ _ _ _ _ HR I2) as HR2.
  cbv zeta. destruct (Z.leb_spec t (elapsed_since start now)) as [|Hlate]; [apply wp_ret; by apply reading_result|].
  pose proof (elapsed_nonneg start now). apply wp_bind, wp_lift. set (tv := mk_timeval _ _).
  pose proof (sl_select (fd:=fd) tv e2 (proj1 I2)) as Is. destruct (se_select fd tv e2) as [sel e3]. cbn [fst snd] in *.
  pose proof (idle_trans _ _ _ I2 Is) as I3. pose proof (reading_idle _ _ _ _ _ _ HR I3) as HR3.
  destruct (sel <=? 0); [apply wp_ret; by apply reading_result|]. rewrite u64_small by lia. apply wp_bind, wp_lift.
  pose proof (sl_read (fd:=fd) (len - zlen data) e3 (proj1 I3) ltac:(lia)) as Hr.
  destruct (se_read fd (len - zlen data) e3) as [r e4]. cbn [fst snd] in *. cbv zeta in Hr.
  pose proof (proj1 (proj2 (proj2 I3))) as P3.
  assert (Hstall : ∀ e5, stall e3 e5 → reading len t e data e5 ∧
    (Z.to_nat (len - zlen data) + patience e5 < Z.to_nat (len - zlen data) + patience e1)%nat).
  { intros e5 [Hi Hlt]. split; [by eapply reading_idle|lia]. }
  destruct r as [[| |]|d].
  - apply (stall_turn _ _ e3); [exact Hstall|exact Hr].
  - apply (stall_sleep _ _ _ e3); [exact Hstall|exact Hr].
  - apply wp_bind. eapply wp_mono; [apply ticks_idle; apply Hr|]. cbv beta. intros _ e5 I5. apply wp_ret, reading_result.
    exact (reading_idle _ _ _ _ _ _ HR3 (idle_trans _ _ _ Hr I5)).
  - destruct (Z.ltb_spec 0 (zlen d)) as [Hpos|_]; [|apply (stall_turn _ _ e3); [exact Hstall|exact Hr]].
    destruct Hr as (Hz & H4 & O4 & P4 & more & Q4). destruct HR3 as (T3 & _ & _).
    pose proof (taken_more _ _ _ _ _ _ T3 H4 O4 Q4) as T4. rewrite zlen_app.
    destruct (Z.leb_spec len (zlen data + zlen d)); apply wp_ret.
    + split; [done|]. rewrite zlen_app. split; [lia|]. intros. exfalso. lia.
    + unfold reading. rewrite zlen_app. split; [split; [done|split; [lia|intros; exfalso; lia]]|lia].
Qed.
(** Whatever came in is given to the caller, in order, or is still there. *)
Lemma serial_read_spec fuel len t e : ok e → 0 < len < 2 ^ 31 → (Z.to_nat len + patience e < fuel)%nat →
  wpt (serial_read fuel fd len t)
    (λ r e', fst r = zlen (snd r) ∧ read_result len t e (snd r) e') e.
Proof.
  intros He Hlen Hf. unfold serial_read. apply wp_bind. eapply wp_mono; [by apply ticks_idle|]. cbv beta. intros start e0 I0.
  assert (HR0 : reading len t e [] e0).
  { destruct I0 as (H0 & O0 & _ & more & Q0). split; [split; [done|split; [done|by exists more]]|]. rewrite zlen_nil. split; [lia|done]. }
  apply wp_bind. eapply wp_mono.
  - apply (wp_loop False (reading len t e) (λ data e', Z.to_nat (len - zlen data) + patience e')%nat _ (read_result len t e)).
    + intros data e1 H1. eapply wp_mono; [apply serial_read_turn; [lia|done]|]. intros [d|d] e2 H2; [|done].
      split; [apply H2|right; apply H2].
    + exact HR0.
    + right. rewrite zlen_nil. destruct I0 as (_ & _ & ? & _). lia.
  - cbv beta. intros data e1 H1. pose proof H1 as (T1 & Hz & Ht). pose proof (zlen_nonneg data).
    destruct (Z.eqb_spec (zlen data) 0) as [E0|Hne].
    + apply wp_bind. eapply wp_mono; [apply ticks_idle; apply T1|]. cbv beta. intros _ e2 I2. apply wp_ret. cbn [fst snd].
      split; [done|]. split; [by eapply taken_idle|done].
    + apply wp_ret. cbn [fst snd]. by rewrite i32_small by lia.
Qed.
End line.

(** ** The library's transport *)

(** Calls that do not have to wait take no time that the millisecond clock shows, and nothing
    arrives while they run. *)
Class LinePrompt (E : Type) `{!SerialPort E} (fd : Z) `{!SerialLine E fd} := {
  lp_now : E → Z;
  lp_clock e : sl_ok e → let e' := snd (se_monotonic e) in
    ticks_of <$> fst (se_monotonic e) = Some (lp_now e) ∧ lp_now e' = lp_now e ∧ sl_in e' = sl_in e;
  lp_select tv e : sl_ok e → sl_in e ≠ [] → let e' := snd (se_select fd tv e) in
    0 < fst (se_select fd tv e) ∧ lp_now e' = lp_now e ∧ sl_in e' = sl_in e;
  lp_read n e : sl_ok e → 0 < n → sl_in e ≠ [] → let e' := snd (se_read fd n e) in
    ∃ d, fst (se_read fd n e) = inr d ∧ d ≠ [] ∧ sl_in e = d ++ sl_in e' ∧ lp_now e' = lp_now e
}.

Section transport.
Context {E : Type} `{!SerialPort E} (fd : Z) `{!SerialLine E fd} `{!LinePrompt E fd}.
Abbreviation ok := (sl_ok (fd:=fd)).
Abbreviation queue := (sl_in (fd:=fd)).

Lemma ticks_prompt e : ok e →
  wpt get_ticks_ms (λ t e', t = lp_now e ∧ ok e' ∧ queue e' = queue e ∧ lp_now e' = lp_now e) e.
Proof.
  intros He. apply wp_bind, wp_lift. pose proof (lp_clock e He) as (Ec & En & Eq). pose proof (sl_monotonic (fd:=fd) e He) as (H1 & _).
  destruct (se_monotonic e) as [[ts|] e1]; [|done]. cbn [fst snd] in *. injection Ec as Ec. by apply wp_ret.
Qed.
(** With enough on the line it is read at once, in however many pieces. *)
Lemma serial_read_ready fuel n t e : ok e → 0 < n <= zlen (queue e) → 0 < t → (Z.to_nat n < fuel)%nat →
  wpt (serial_read fuel fd n t)
    (λ r e', r = (n, ztake n (queue e)) ∧ ok e' ∧ queue e' = zdrop n (queue e) ∧ lp_now e' = lp_now e) e.
Proof.
  intros He Hn Ht Hf. pose proof (sl_bytes (fd:=fd) e He) as [_ H31]. unfold serial_read.
  apply wp_bind. eapply wp_mono; [by apply ticks_prompt|]. cbv beta. intros start e0 (-> & H0 & Q0 & N0). apply wp_bind.
  eapply wp_mono.
  - apply (wp_loop False (λ data e', ok e' ∧ queue e = data ++ queue e' ∧ zlen data < n ∧ lp_now e' = lp_now e)
      (λ data _, Z.to_nat (n - zlen data)) _
      (λ data e', data = ztake n (queue e) ∧ ok e' ∧ queue e' = zdrop n (queue e) ∧ lp_now e' = lp_now e)).
    2:{ rewrite zlen_nil, Q0. repeat (split; [done|]). split; [lia|done]. }
    2:{ right. rewrite zlen_nil. lia. }
    intros data e1 (H1 & Q1 & Hd & N1). pose proof (zlen_nonneg data). unfold serial_read_body.
    assert (Hz : zlen (queue e) = zlen data + zlen (queue e1)) by (by rewrite Q1, zlen_app).
    apply wp_bind. eapply wp_mono; [by apply ticks_prompt|]. cbv beta. intros now e2 (-> & H2 & Q2 & N2). cbv zeta.
    unfold elapsed_since. rewrite N1, Z.leb_refl, Z.sub_diag. replace (t <=? 0) with false by lia.
    assert (Hne : queue e2 ≠ []) by (rewrite Q2; apply zlen_pos_ne; lia). apply wp_bind, wp_lift. set (tv := mk_timeval _ _).
    pose proof (lp_select tv e2 H2 Hne) as (Hs & N3 & Q3). pose proof (sl_select (fd:=fd) tv e2 H2) as (H3 & _).
    destruct (se_select fd tv e2) as [sel e3]. cbn [fst snd] in *. replace (sel <=? 0) with false by lia.
    rewrite <- Q3 in Hne. rewrite u64_small by lia. apply wp_bind, wp_lift.
    pose proof (lp_read (n - zlen data) e3 H3 ltac:(lia) Hne) as (d & Er & Hdne & Q4 & N4).
    pose proof (sl_read (fd:=fd) (n - zlen data) e3 H3 ltac:(lia)) as Hr.
    destruct (se_read fd (n - zlen data) e3) as [r e4]. cbn [fst snd] in *. subst r. cbv zeta in Hr.
    assert (Hpos : 0 < zlen d) by by apply zlen_ne_pos.
    replace (0 <? zlen d) with true in * by lia. destruct Hr as (Hzd & H4 & _).
    assert (Q5 : queue e = (data ++ d) ++ queue e4) by (by rewrite <- (assoc_L (++)), <- Q4, Q3, Q2).
    rewrite zlen_app. destruct (Z.leb_spec n (zlen data + zlen d)); apply wp_ret.
    + assert (n = zlen (data ++ d)) as -> by (rewrite zlen_app; lia).
      rewrite Q5, ztake_app_exact, zdrop_app_exact by done. repeat (split; [done|]). congruence.
    + rewrite zlen_app. split; [|right; lia]. repeat (split; [done|]). congruence.
  - cbv beta. intros data e1 (-> & H1 & Q1 & N1). rewrite zlen_ztake by lia. replace (n =? 0) with false by lia.
    apply wp_ret. by rewrite i32_small by lia.
Qed.

(** A frame handed to [tp_send] is on the line, or the library is told of an error. *)
Lemma serial_send_spec fuel fr e : ok e → zlen fr < 2 ^ 31 → (Z.to_nat (zlen fr) + sl_patience e < fuel)%nat →
  wpt (tp_send fuel fd fr) (written (fd:=fd) fr e) e.
Proof.
  intros He Hz Hf. pose proof (zlen_nonneg fr). apply wp_bind. eapply wp_mono; [by apply serial_write_spec|].
  intros rc e' (H' & Q' & Hrc). apply wp_ret. rewrite i32_small by lia. split; [done|]. split; [done|].
  destruct Hrc as [[-> ?]|[-> ?]]; [rewrite Z.eqb_refl; by left|right]. replace (-1 =? zlen fr) with false by lia. done.
Qed.

(** A session reads from the line as from any stream; [fuel] covers what may be queued. *)
Context (fuel : nat) (app : Hooks E).
Context (Happ : ∀ rec e, ok e → let e' := hk_on_packet (Hooks:=app) rec e in ok e' ∧ queue e' = queue e ∧ lp_now e' = lp_now e).
#[local] Instance hooks : Hooks E := serial_hooks fuel fd app.
Definition serial_ok (e : E) : Prop := ok e ∧ (Z.to_nat (zlen (queue e)) < fuel)%nat.

Lemma serial_recv_law n t e : serial_ok e → 0 < n <= zlen (queue e) → 0 < t →
  let '((r, got), e') := hk_recv n t e in
  0 <= r ∧ serial_ok e' ∧ lp_now e' = lp_now e ∧
  ∃ k, 1 <= k <= n ∧ got = ztake k (queue e) ∧ queue e' = zdrop k (queue e).
Proof.
  intros [He Hf] Hn Ht. cbn [hk_recv hooks serial_hooks].
  assert (Hr : wpt (tp_recv fuel fd n t)
    (λ r e', r = (0, ztake n (queue e)) ∧ ok e' ∧ queue e' = zdrop n (queue e) ∧ lp_now e' = lp_now e) e).
  { apply wp_bind. eapply wp_mono; [apply serial_read_ready; [done|done|done|lia]|]. intros r e' (-> & H').
    replace (n <? 0) with false by lia. apply wp_ret. rewrite (ztake_all n (ztake n _)) by (rewrite zlen_ztake by lia; lia). done. }
  apply (wpt_run (0, [])) in Hr. destruct (run _ _ e) as [[r got] e']. cbn [fst snd] in Hr. destruct Hr as ([= -> ->] & H' & Q' & N').
  split; [lia|]. split; [split; [done|rewrite Q', zlen_zdrop by lia; lia]|]. split; [done|]. exists n. split; [lia|done].
Qed.
Lemma serial_ticks_law e : serial_ok e → let '(t, e') := hk_get_ticks_ms e in
  u32 t = u32 (lp_now e) ∧ serial_ok e' ∧ queue e' = queue e ∧ u32 (lp_now e') = u32 (lp_now e).
Proof.
  intros [He Hf]. cbn [hk_get_ticks_ms hooks serial_hooks]. pose proof (wpt_run 0 _ _ _ (ticks_prompt e He)) as Hr.
  destruct (run 0 get_ticks_ms e) as [t e']. cbn [fst snd] in Hr. destruct Hr as (-> & H' & Q' & N').
  split; [done|]. unfold serial_ok. by rewrite Q', N'.
Qed.
Program Definition serial_link : StreamLink E := {|
  link_ok := serial_ok; link_in := queue; link_now e := u32 (lp_now e)
|}.
Next Obligation. intros e [He _]. exact (proj1 (sl_bytes e He)). Qed.
Next Obligation.
  intros n t e He Hn Ht. pose proof (serial_recv_law n t e He Hn Ht) as H. destruct (hk_recv n t e) as [[r got] e'].
  destruct H as (? & ? & En & ?). by rewrite En.
Qed.
Next Obligation. exact serial_ticks_law. Qed.
Next Obligation.
  intros rec e [He Hf]. cbn [hk_on_packet hooks serial_hooks]. destruct (Happ rec e He) as (H' & Q' & N').
  unfold serial_ok. by rewrite Q', N'.
Qed.
End transport.

(** ** The theorems *)

(** The port is opened with 8 data bits, no parity, one stop bit and no flow control, whatever
    its settings were: that is what the sender's and the receiver's [serial_open] ask for
    before they return 0.  (A sender asks once more, for what [cfmakeraw] makes of the
    settings it has; the pseudo terminal is only made raw.) *)
Definition asked {E} `{!SerialPort E} (asks : E → list termios) : Prop :=
  (∀ p e, asks (snd (se_open p e)) = asks e) ∧ (∀ fd e, asks (snd (se_tcgetattr fd e)) = asks e) ∧
  ∀ fd t e, asks (snd (se_tcsetattr fd t e)) = t :: asks e.
Lemma serial_opened_8n1 {E} `{!SerialPort E} (asks : E → list termios) port baud (e : E) : asked asks → asks e = [] →
  wpt (serial_open_tx port baud) (λ r e', fst r = 0 → 0 <= snd r ∧ Exists is_8n1 (asks e')) e ∧
  wpt (serial_open_rx (Some port) baud) (λ r e', fst r = 0 → 0 <= snd r ∧ Forall is_8n1 (asks e') ∧ asks e' ≠ []) e.
Proof.
  intros (Ho & Hg & Hs) H0. split; unfold serial_open_tx, serial_open_rx; apply wp_bind, wp_lift;
    pose proof (Ho port e) as E1; destruct (se_open port e) as [fd e1]; cbn [fst snd] in *;
    (destruct (Z.ltb_spec fd 0); [apply wp_ret; cbn; lia|]); apply wp_bind, wp_lift;
    pose proof (Hg fd e1) as E2; destruct (se_tcgetattr fd e1) as [[tty|] e2]; cbn [fst snd] in *; try (apply wp_ret; cbn; lia);
    apply wp_bind, wp_lift.
  - set (t := line_8n1 _). pose proof (Hs fd t e2) as E3. destruct (se_tcsetattr fd t e2) as [rc e3]. cbn [fst snd] in *.
    destruct (negb (rc =? 0)); [apply wp_ret; cbn; lia|]. apply wp_bind, wp_lift.
    pose proof (Hg fd e3) as E4. destruct (se_tcgetattr fd e3) as [[raw|] e4]; cbn [fst snd] in *.
    + apply wp_bind, wp_lift. pose proof (Hs fd (se_cfmakeraw raw) e4) as E5.
      destruct (se_tcsetattr fd (se_cfmakeraw raw) e4) as [rc' e5]. cbn [fst snd] in *. apply wp_ret. cbn [fst snd].
      intros _. split; [done|]. rewrite E5, E4, E3. apply Exists_cons_tl, Exists_cons_hd, line_8n1_ok.
    + apply wp_ret. cbn [fst snd]. intros _. split; [done|]. rewrite E4, E3. apply Exists_cons_hd, line_8n1_ok.
  - set (t := line_8n1 _). pose proof (Hs fd t e2) as E3. destruct (se_tcsetattr fd t e2) as [rc e3]. cbn [fst snd] in *.
    destruct (negb (rc =? 0)); apply wp_ret; cbn [fst snd]; [lia|]. intros _. split; [done|].
    rewrite E3, E2, E1, H0. split; [|done]. repeat constructor; apply line_8n1_ok.
Qed.

(** What the loops of [serial_write] and [serial_read] promise, in the presence of short
    counts, interruptions, full buffers and errors. A write that does not fail has put all of
    its bytes on the line, in order, and one that fails a proper part. A read gives at most
    [len] bytes, and they are the next ones of the line: nothing that arrives is lost or
    reordered, also when time runs out or an error occurs half way. A read with a timeout of 0
    takes nothing, however much has arrived. Both return: after a turn for every byte and
    one for every call that can come back with nothing done. *)
Theorem serial_io_in_order {E} `{!SerialPort E} fd `{!SerialLine E fd} fuel (data : list Z) len timeout_ms (e : E) :
  sl_ok e → (zlen data < 2 ^ 31 → (Z.to_nat (zlen data) + sl_patience e < fuel)%nat →
    wpt (serial_write fuel fd data) (written (fd:=fd) data e) e) ∧
  (0 < len < 2 ^ 31 → (Z.to_nat len + sl_patience e < fuel)%nat →
    wpt (serial_read fuel fd len timeout_ms)
      (λ r e', fst r = zlen (snd r) ∧ read_result (fd:=fd) len timeout_ms e (snd r) e') e).
Proof. intros He. split; intros; [by apply serial_write_spec|by apply serial_read_spec]. Qed.

(** C37: Frames cross a serial line by way of the example programs' transport. The frame of
    any packet, handed to the library's [send] as the programs implement it, is on the line in
    full when the function returns its length, and otherwise -1 is returned with a proper part
    of it on the line. A session at the other end whose port's queue begins with that frame
    receives the packet that was sent - type, offset and payload - in however many pieces the
    port gives it, and leaves the rest in the queue. *)
Theorem serial_frame_crosses {E1} `{!SerialPort E1} fd1 `{!SerialLine E1 fd1} fuel1 (app1 : Hooks E1)
    {E2} `{!SerialPort E2} fd2 `{!SerialLine E2 fd2} `{!LinePrompt E2 fd2} fuel2 (app2 : Hooks E2)
    s0 type data off incl (e : E1) :
  let fr := session_frame (E:=E1) (Hooks0:=serial_hooks fuel1 fd1 app1) s0 type data off incl in
  sl_ok e → zlen fr < 2 ^ 31 → (Z.to_nat (zlen fr) + sl_patience e < fuel1)%nat →
  (∀ rec e, sl_ok e → let e' := hk_on_packet (Hooks:=app2) rec e in
     sl_ok e' ∧ sl_in (fd:=fd2) e' = sl_in (fd:=fd2) e ∧ lp_now (fd:=fd2) e' = lp_now (fd:=fd2) e) →
  0 <= type < 256 → 0 <= off < 2 ^ 64 → bytes_ok data → zlen (content_of type data off incl) < 2 ^ 16 →
  (let '(rc, e') := hk_send (Hooks:=serial_hooks fuel1 fd1 app1) fr e in written (fd:=fd1) fr e rc e') ∧
  ∀ fuel dst to_ms (w : world E2) rest, session_ok (w_s w) → sl_ok (w_e w) → 0 < to_ms →
    (∀ l, val_internal_crc32 (Hooks0:=serial_hooks fuel1 fd1 app1) s0 l =
          val_internal_crc32 (Hooks0:=serial_hooks fuel2 fd2 app2) (w_s w) l) →
    sl_in (fd:=fd2) (w_e w) = fr ++ rest → fits (w_s w) type data off incl →
    dst_cap dst ≠ 0 → zlen (seen_payload type data off) <= dst_cap dst →
    (Z.to_nat (zlen (fr ++ rest)) < fuel)%nat → (Z.to_nat (zlen (fr ++ rest)) < fuel2)%nat →
    wpt (val_internal_recv_packet (Hooks0:=serial_hooks fuel2 fd2 app2) fuel dst to_ms)
      (λ r w', r = (VAL_OK, mk_packet type (zlen (seen_payload type data off)) (seen_offset type off incl)
                              (seen_payload type data off)) ∧ sl_in (fd:=fd2) (w_e w') = rest) w.
Proof.
  intros fr He Hz Hf Happ Hty Hoff Hb H16. split.
  - cbn [hk_send serial_hooks]. pose proof (wpt_run (-1) _ _ _ (serial_send_spec fd1 fuel1 fr e He Hz Hf)) as Hs.
    by destruct (run _ _ e) as [rc e'].
  - intros fuel dst to_ms w rest Hok Hq Hto Hcrc EL Hfits Hd Hcap Hfuel Hfuel2.
    assert (Efr : fr = session_frame (Hooks0:=serial_hooks fuel2 fd2 app2) (w_s w) type data off incl) by by apply packet_frame_ext.
    pose proof (frame_received (Hooks0:=serial_hooks fuel2 fd2 app2) (StreamLink0:=serial_link fd2 fuel2 app2 Happ)
      (w_s w) type data off incl fuel dst to_ms w rest) as Hr.
    change (@link_in _ _ (serial_link fd2 fuel2 app2 Happ) (w_e w)) with (sl_in (fd:=fd2) (w_e w)) in Hr. rewrite EL, Efr in Hr.
    rewrite Efr in Hfuel, EL, Hfuel2. eapply wp_mono; [apply Hr; try done; split; [done|by rewrite EL]|]. cbv beta.
    by intros r w' (Hpkt & (_ & Hq' & _) & _).
Qed.

(** ** One end of a line, to run the witnesses in *)

(** What has arrived on descriptor 3, what the line has taken, the clock, and how many writes
    will still find the buffer full.  A write takes 5 bytes, a read gives 3. *)
Record line_end := mk_line { ln_in : list Z; ln_out : list Z; ln_now : Z; ln_full : nat; ln_asked : list termios }.
#[export] Instance line_port : SerialPort line_end := {|
  se_open _ e := (3, e);
  se_close _ e := e;
  se_write _ l e :=
    match ln_full e with
    | S n => (inl EAGAIN, mk_line (ln_in e) (ln_out e) (ln_now e) n (ln_asked e))
    | O => let n := Z.min 5 (zlen l) in
           if 0 <? n then (inr n, mk_line (ln_in e) (ln_out e ++ ztake n l) (ln_now e) 0 (ln_asked e)) else (inl EFatal, e)
    end;
  se_select _ tv e := (if zlen (ln_in e) =? 0 then 0 else 1, e);
  se_read _ n e :=
    let k := Z.min (Z.min 3 n) (zlen (ln_in e)) in
    if 0 <? k then (inr (ztake k (ln_in e)), mk_line (zdrop k (ln_in e)) (ln_out e) (ln_now e) (ln_full e) (ln_asked e))
    else (inl EFatal, e);
  se_usleep us e := mk_line (ln_in e) (ln_out e) (ln_now e + us / 1000) (ln_full e) (ln_asked e);
  se_monotonic e := (Some (ln_now e / 1000, ln_now e mod 1000 * 1000000), e);
  se_realtime e := ((0, 0), e);
  se_nanosleep _ _ e := e;
  se_tcgetattr _ e := (Some (mk_termios 0 0 0 0 1 0 0 0), e);
  se_tcsetattr _ t e := (0, mk_line (ln_in e) (ln_out e) (ln_now e) (ln_full e) (t :: ln_asked e));
  se_posix_openpt e := (3, e); se_grantpt _ e := (0, e); se_unlockpt _ e := (0, e); se_ptsname _ e := (None, e);
  se_cfsetospeed _ t := t; se_cfsetispeed _ t := t; se_cfmakeraw t := t
|}.
#[export] Program Instance line_serial : SerialLine line_end 3 := {|
  sl_ok e := bytes_ok (ln_in e) ∧ zlen (ln_in e) < 2 ^ 31;
  sl_in := ln_in;
  sl_out := ln_out;
  sl_patience := ln_full
|}.
Next Obligation. done. Qed.
Next Obligation.
  intros l e He. cbn [se_write line_port]. pose proof (zlen_nonneg l). destruct (ln_full e) as [|n] eqn:En; cbn [fst snd].
  - cbv zeta. destruct (Z.ltb_spec 0 (Z.min 5 (zlen l))) as [Hp|_]; cbn [fst snd].
    + replace (0 <? Z.min 5 (zlen l)) with true by lia. cbn. split; [lia|]. split; [done|]. split; [done|]. split; [lia|].
      exists []. by rewrite app_nil_r.
    + split; [done|]. split; [done|]. split; [lia|]. exists []. by rewrite app_nil_r.
  - unfold sl_stall, sl_idle. cbn. rewrite ?En. split; [|lia]. split; [done|]. split; [done|]. split; [lia|]. exists []. by rewrite app_nil_r.
Qed.
Next Obligation.
  intros n e [Hb Hz] Hn. cbn [se_read line_port]. pose proof (zlen_nonneg (ln_in e)). cbv zeta. set (k := Z.min _ _).
  destruct (Z.ltb_spec 0 k) as [Hp|_]; cbn [fst snd].
  - rewrite zlen_ztake by lia. replace (0 <? k) with true by lia. cbn. split; [lia|]. split.
    { split; [by apply bytes_ok_zdrop|]. rewrite zlen_zdrop by lia. lia. }
    split; [done|]. split; [lia|]. exists []. by rewrite ztake_zdrop, app_nil_r.
  - split; [done|]. split; [done|]. split; [lia|]. exists []. by rewrite app_nil_r.
Qed.
Next Obligation. intros tv e He. split; [done|]. split; [done|]. split; [cbn; lia|]. exists []. by rewrite app_nil_r. Qed.
Next Obligation. intros us e He. split; [done|]. split; [done|]. split; [cbn; lia|]. exists []. by rewrite app_nil_r. Qed.
Next Obligation. intros e He. split; [done|]. split; [done|]. split; [cbn; lia|]. exists []. by rewrite app_nil_r. Qed.
Next Obligation. intros e He. split; [done|]. split; [done|]. split; [cbn; lia|]. exists []. by rewrite app_nil_r. Qed.
#[export] Program Instance line_prompt : LinePrompt line_end 3 := {| lp_now e := ticks_of (ln_now e / 1000, ln_now e mod 1000 * 1000000) |}.
Next Obligation. done. Qed.
Next Obligation.
  intros tv e He Hne%zlen_ne_pos. cbn in *. split; [|done]. by replace (zlen (ln_in e) =? 0) with false by lia.
Qed.
Next Obligation.
  intros n e He Hn Hne. cbn [se_read line_port]. cbv zeta. set (k := Z.min _ _).
  assert (1 <= zlen (ln_in e)) by (apply zlen_ne_pos in Hne; cbn in Hne; lia).
  replace (0 <? k) with true by lia. cbn. eexists. split; [done|]. split; [|by rewrite ztake_zdrop].
  intros E0. assert (zlen (ztake k (ln_in e)) = k) as Hk by (apply zlen_ztake; lia). rewrite E0, zlen_nil in Hk. lia.
Qed.

(** No files and no callbacks. *)
Definition bare_line : Hooks line_end := {|
  hk_send _ e := (-1, e); hk_recv _ _ e := ((-1, []), e); hk_is_connected e := (1, e); hk_flush e := e;
  hk_fopen _ _ e := (None, e); hk_fread _ _ e := ([], e); hk_fwrite _ _ e := (0, e); hk_fseek _ _ _ e := (-1, e);
  hk_ftell _ e := (-1, e); hk_fclose _ e := e; hk_crc32 _ l := val_crc32 l; hk_get_ticks_ms e := (0, e); hk_delay_ms _ e := e;
  hk_on_file_start _ _ _ _ e := (false, e); hk_on_file_complete _ _ _ e := (false, e); hk_on_progress _ e := (false, e);
  hk_validator _ _ e := (0, e); hk_on_packet _ e := e; hk_append _ _ e := e
|}.
Definition line_hooks : Hooks line_end := serial_hooks 200 3 bare_line.
Definition line_frame : list Z := session_frame (Hooks0:=line_hooks) demo_s VAL_PKT_DATA [1; 2; 3] 7 true.
(** Two full buffers before the first byte is taken. *)
Definition idle_line : line_end := mk_line [] [] 5 2 [].
Lemma line_ok l out full : bool_decide (bytes_ok l) = true → zlen l < 2 ^ 31 → sl_ok (fd:=3) (mk_line l out 5 full []).
Proof. intros Hl%bool_decide_eq_true_1 Hz. by split. Qed.

Lemma serial_opened_8n1_witness : let e := mk_line [] [] 5 0 [] in
  wpt (serial_open_rx (Some [116]) 9600) (λ r e', fst r = 0 → 0 <= snd r ∧ Forall is_8n1 (ln_asked e') ∧ ln_asked e' ≠ []) e ∧
  fst <$> serial_open_rx (Some [116]) 9600 e = Some (0, 3).
Proof.
  split; [|vm_compute; reflexivity]. apply (serial_opened_8n1 ln_asked [116] 9600); [|reflexivity].
  split; [intros; reflexivity|split; intros; reflexivity].
Defined.
Lemma serial_io_in_order_witness :
  (wpt (serial_write 20 3 [1; 2; 3; 4; 5; 6; 7]) (written (fd:=3) [1; 2; 3; 4; 5; 6; 7] idle_line) idle_line ∧
   match serial_write 20 3 [1; 2; 3; 4; 5; 6; 7] idle_line with
   | Some (rc, e') => rc = 7 ∧ ln_out e' = [1; 2; 3; 4; 5; 6; 7] | None => False end) ∧
  (let e := mk_line [1; 2; 3; 4; 5] [] 5 0 [] in
   wpt (serial_read 20 3 4 100) (λ r e', fst r = zlen (snd r) ∧ read_result (fd:=3) 4 100 e (snd r) e') e ∧
   fst <$> serial_read 20 3 4 100 e = Some (4, [1; 2; 3; 4])).
Proof.
  split; (split; [|vm_compute; auto]).
  - apply (serial_io_in_order 3 20 [1; 2; 3; 4; 5; 6; 7] 1 0 idle_line); [apply line_ok; reflexivity|vm_compute; reflexivity|].
    apply (bool_decide_unpack _). vm_compute. reflexivity.
  - apply (serial_io_in_order 3 20 [] 4 100 (mk_line [1; 2; 3; 4; 5] [] 5 0 [])); [apply line_ok; reflexivity|lia|].
    apply (bool_decide_unpack _). vm_compute. reflexivity.
Defined.
Lemma serial_frame_crosses_witness :
  let '(rc, e') := hk_send (Hooks:=line_hooks) line_frame idle_line in
  rc = 23 ∧ ln_out e' = line_frame ∧
  wpt (val_internal_recv_packet (Hooks0:=line_hooks) 100 (DstRecvBuffer 512) 50)
    (λ r w', r = (VAL_OK, mk_packet VAL_PKT_DATA 3 7 [1; 2; 3]) ∧ ln_in (w_e w') = [9])
    (mk_world demo_s (mk_line (ln_out e' ++ [9]) [] 5 0 []) []).
Proof.
  pose proof (serial_frame_crosses 3 200 bare_line 3 200 bare_line demo_s VAL_PKT_DATA [1; 2; 3] 7 true idle_line) as Hw.
  cbv zeta in Hw.
  destruct Hw as [_ Hw]; [apply line_ok; reflexivity|vm_compute; reflexivity|apply (bool_decide_unpack _); vm_compute; reflexivity|done
    |split; vm_compute; congruence|split; vm_compute; congruence
    |apply (bool_decide_unpack _); vm_compute; reflexivity|vm_compute; reflexivity|].
  assert (E2 : hk_send (Hooks:=line_hooks) line_frame idle_line = (23, mk_line [] line_frame 7 0 [])) by (vm_compute; reflexivity).
  rewrite E2. cbv iota beta. split; [reflexivity|]. split; [reflexivity|].
  apply (Hw 100%nat (DstRecvBuffer 512) 50 (mk_world demo_s (mk_line (line_frame ++ [9]) [] 5 0 []) []) [9]); try reflexivity.
  - exact demo_s_ok.
  - apply line_ok; vm_compute; reflexivity.
  - unfold fits. vm_compute. congruence.
  - vm_compute. congruence.
  - vm_compute. congruence.
  - apply (bool_decide_unpack _). vm_compute. reflexivity.
  - apply (bool_decide_unpack _). vm_compute. reflexivity.
Defined.
