(* ===== verification/Watchdog.v ===== *)
(** The watchdog of the serial programs ([watchdog_thread_tx] of
    [src/examples/tcp/val_example_send_com.c] and [watchdog_thread_rx] of
    [val_example_receive_com.c]): when it cancels, and what it shares with [main].

    The decision is a function of the polls, one every half second: the clock and the four
    counters.  The sharing is a step relation on the two threads' program points, the global
    variables and the session's memory. *)
From stdpp Require Import relations.
From S2P Require Import Prelude Wire Errors Timing Session.

(** ** The decision *)

(** The counters that are compared. *)
Record counters := mk_counters { ct_packets_sent : Z; ct_packets_recv : Z; ct_bytes_sent : Z; ct_bytes_recv : Z }.
#[export] Instance counters_eq_dec : EqDecision counters.
Proof. solve_decision. Defined.
Definition counters_of (m : val_metrics_t) : counters :=
  mk_counters (m_packets_sent m) (m_packets_recv m) (m_bytes_sent m) (m_bytes_recv m).
(** [last], [last_change_ms], [first]. *)
Record progress := mk_progress { pg_last : counters; pg_change_ms : Z; pg_first : bool }.
Definition no_progress (start_ms : Z) : progress := mk_progress (mk_counters 0 0 0 0) start_ms true.

(** One poll: [None] is the cancellation, after which the thread ends. *)
Definition watchdog_poll (now : Z) (cur : counters) (p : progress) : option progress :=
  if pg_first p || bool_decide (cur ≠ pg_last p) then Some (mk_progress cur now false)
  else if 20000 <? u32 (now - pg_change_ms p) then None
  else Some p.
(** The polls in order, with the time in milliseconds; the clock shows its last 32 bits. *)
Fixpoint watchdog_cancels (polls : list (Z * counters)) (p : progress) : bool :=
  match polls with
  | [] => false
  | (t, cur) :: polls =>
    match watchdog_poll (u32 t) cur p with Some p => watchdog_cancels polls p | None => true end
  end.

(** More than 20 s between two polls, and no change seen from the one to the other. *)
Definition quiet_spell (polls : list (Z * counters)) : Prop :=
  ∃ pre mid post t0 t1 c, polls = pre ++ (t0, c) :: mid ++ (t1, c) :: post ∧
    Forall (λ p, snd p = c) mid ∧ 20000 < t1 - t0.
(** No two polls are further apart than the clock can tell. *)
Fixpoint timely (t : Z) (polls : list (Z * counters)) : Prop :=
  match polls with [] => True | (t', _) :: polls => t <= t' <= t + 2 ^ 31 ∧ timely t' polls end.

Lemma spell_here t c mid t1 post polls : polls = (t, c) :: mid ++ (t1, c) :: post → Forall (λ p, snd p = c) mid →
  20000 < t1 - t → quiet_spell polls.
Proof. intros -> Hm Ht. by exists [], mid, post, t, t1, c. Qed.
Lemma spell_later p polls : quiet_spell polls → quiet_spell (p :: polls).
Proof. intros (pre & mid & post & t0 & t1 & c & -> & H). by exists (p :: pre), mid, post, t0, t1, c. Qed.
Lemma spell_cons t c polls : quiet_spell ((t, c) :: polls) ↔
  quiet_spell polls ∨ ∃ mid post t1, polls = mid ++ (t1, c) :: post ∧ Forall (λ p, snd p = c) mid ∧ 20000 < t1 - t.
Proof.
  split.
  - intros ([|p pre] & mid & post & t0 & t1 & c' & E & Hm & Ht); simplify_eq/=.
    + right. by exists mid, post, t1.
    + left. by exists pre, mid, post, t0, t1, c'.
  - intros [H|(mid & post & t1 & -> & Hm & Ht)]; [by apply spell_later|by eapply spell_here].
Qed.
Lemma spell_changed t c t' c' polls : c' ≠ c → quiet_spell ((t, c) :: (t', c') :: polls) ↔ quiet_spell ((t', c') :: polls).
Proof.
  intros Hc. rewrite spell_cons. split; [|by left]. intros [H|(mid & post & t1 & E & Hm & _)]; [done|].
  destruct mid as [|p mid]; simplify_eq/=. by apply Forall_cons_1 in Hm as [Hp _].
Qed.
Lemma spell_same t t' c polls : t <= t' <= t + 20000 → quiet_spell ((t, c) :: (t', c) :: polls) ↔ quiet_spell ((t, c) :: polls).
Proof.
  intros Ht. split.
  - intros [[H|(mid & post & t1 & -> & Hm & H1)]%spell_cons|(mid & post & t1 & E & Hm & H1)]%spell_cons.
    + by apply spell_later.
    + eapply spell_here; [done|done|lia].
    + destruct mid as [|p mid]; simplify_eq/=; [lia|]. apply Forall_cons_1 in Hm as [_ Hm]. by eapply spell_here.
  - intros [H|(mid & post & t1 & -> & Hm & H1)]%spell_cons; [by do 2 apply spell_later|].
    apply (spell_here t c ((t', c) :: mid) t1 post); [done| |done]. by constructor.
Qed.

(** The 32-bit difference is the time since the last change, because a longer one would have
    ended the thread a poll earlier. *)
Lemma watchdog_run polls : ∀ c s tp, s <= tp <= s + 20000 → timely tp polls →
  watchdog_cancels polls (mk_progress c (u32 s) false) = true ↔ quiet_spell ((s, c) :: polls).
Proof.
  induction polls as [|[t cur] polls IH]; intros c s tp Hs Ht.
  - split; [done|]. intros [(pre & ? & ? & ? & ? & ? & E & _)|(mid & ? & ? & E & _)]%spell_cons;
      [by destruct pre|by destruct mid].
  - destruct Ht as [Ht Hts]. cbn [watchdog_cancels]. unfold watchdog_poll. cbn [pg_first pg_last pg_change_ms orb].
    case_bool_decide as Hc; [|subst cur].
    + rewrite (IH cur t t) by (done || lia). by rewrite spell_changed.
    + assert (Ed : u32 (u32 t - u32 s) = t - s).
      { unfold u32. rewrite <- Zminus_mod. apply Z.mod_small. lia. }
      rewrite Ed. destruct (Z.ltb_spec 20000 (t - s)).
      * split; [intros _|done]. by apply (spell_here s c [] t polls).
      * rewrite (IH c s t) by (done || lia). by rewrite spell_same by lia.
Qed.

(** C14: The watchdog cancels a session exactly when it has seen no progress for more than 20 s:
    there are two polls more than 20 s apart such that neither the packets nor the bytes, sent
    or received, changed at any poll from the one to the other. So a session that moves is
    never cancelled, and one that stands still is cancelled at the first poll after 20 s.
    This holds across the wrap of the millisecond clock. *)
Theorem watchdog_cancels_stalled start_ms polls :
  timely (hd 0 (map fst polls)) polls →
  watchdog_cancels polls (no_progress start_ms) = true ↔ quiet_spell polls.
Proof.
  intros Ht. destruct polls as [|[t c] polls]; [split; [done|intros (pre & ? & ? & ? & ? & ? & E & _); by destruct pre]|].
  cbn [watchdog_cancels]. unfold watchdog_poll. cbn [pg_first no_progress orb]. apply (watchdog_run polls c t t); [lia|].
  by destruct Ht.
Qed.

(** ** The threads *)

(** What [main] does with what it shares, in order; [Exit] is its return. *)
Inductive main_act : Type := SetSession | ClearStop | StartThread | Transfer | Destroy | SetStop | ClearSession | Exit.
#[export] Instance main_act_eq_dec : EqDecision main_act.
Proof. solve_decision. Defined.
(** The sender after a transfer that ended with OK or failed; after one that ended with
    VAL_ERR_IO; and the receiver. *)
Definition sender_main : list main_act := [SetSession; ClearStop; StartThread; Transfer; Destroy; Exit].
Definition sender_main_io : list main_act :=
  [SetSession; ClearStop; StartThread; Transfer; Destroy; SetStop; ClearSession; Exit].
Definition receiver_main : list main_act :=
  [SetSession; ClearStop; StartThread; Transfer; Destroy; SetStop; ClearSession; Exit].

(** Where the watchdog is: the loop condition, the test of the session pointer,
    [val_get_metrics], [val_emergency_cancel], [usleep]. *)
Inductive dog_point : Type := NotStarted | AtCondition | AtPointer | AtMetrics | AtCancel | AtSleep | Ended.
Record threads := mk_threads {
  th_main : list main_act; th_dog : dog_point;
  th_alive : bool;  (** the session has not been freed *)
  th_session : bool;  (** [g_watchdog_session] is not NULL *)
  th_stop : bool;
  th_freed_use : bool  (** a freed session has been passed to the library *)
}.
(** Who runs next; the watchdog's decision is the choice's. *)
Inductive choice : Type := RunMain | RunDog (cancel : bool).

Definition main_step (th : threads) : option threads :=
  match th_main th with
  | [] => None
  | a :: rest =>
    let '(mk_threads _ dog alive session stop used) := th in
    Some (match a with
          | SetSession => mk_threads rest dog alive true stop used
          | ClearStop => mk_threads rest dog alive session false used
          | StartThread => mk_threads rest AtCondition alive session stop used
          | Transfer | Exit => mk_threads rest dog alive session stop used
          | Destroy => mk_threads rest dog false session stop used
          | SetStop => mk_threads rest dog alive session true used
          | ClearSession => mk_threads rest dog alive false stop used
          end)
  end.
(** The library gets the pointer as it is then: NULL is refused. *)
Definition dog_step (cancel : bool) (th : threads) : option threads :=
  match th_main th with
  | [] => None
  | _ =>
    let '(mk_threads m dog alive session stop used) := th in
    let go := λ dog, Some (mk_threads m dog alive session stop used) in
    let use := λ dog, Some (mk_threads m dog alive session stop (used || session && negb alive)) in
    match dog with
    | NotStarted | Ended => None
    | AtCondition => go (if stop then Ended else AtPointer)
    | AtPointer => go (if session then AtMetrics else AtCondition)
    | AtMetrics => use (if session && cancel then AtCancel else AtSleep)
    | AtCancel => use Ended
    | AtSleep => go AtCondition
    end
  end.
Definition thread_step (ch : choice) : threads → option threads :=
  match ch with RunMain => main_step | RunDog cancel => dog_step cancel end.
Definition step (th th' : threads) : Prop := ∃ ch, thread_step ch th = Some th'.
(** The session exists when [main] comes here. *)
Definition started (m : list main_act) : threads := mk_threads m NotStarted true false false false.
Fixpoint schedule (chs : list choice) (th : threads) : option threads :=
  match chs with
  | [] => Some th
  | ch :: chs => match thread_step ch th with Some th => schedule chs th | None => None end
  end.
Lemma schedule_reaches chs th th' : schedule chs th = Some th' → rtc step th th'.
Proof.
  revert th. induction chs as [|ch chs IH]; intros th; cbn; [intros [= ->]; apply rtc_refl|].
  destruct (thread_step ch th) as [th1|] eqn:E; [|done]. intros H. eapply rtc_l; [by exists ch|by apply IH].
Qed.

(** Until [main] destroys the session it is there, and nothing freed has been used. *)
Definition intact (th : threads) : Prop :=
  NoDup (th_main th) ∧ (Destroy ∈ th_main th → th_alive th = true ∧ th_freed_use th = false).
Lemma intact_step th th' : step th th' → intact th → intact th'.
Proof.
  intros [[|cancel] Hs] [Hnd Hi]; destruct th as [m dog alive session stop used]; unfold intact in *; cbn in *.
  - unfold main_step in Hs. cbn in Hs. destruct m as [|a rest]; [done|]. inversion Hnd as [|? ? Ha Hnd']; subst.
    assert (Hr : Destroy ∈ rest → alive = true ∧ used = false) by (intros; apply Hi; by right).
    injection Hs as <-. destruct a; cbn; (split; [exact Hnd'|]); try exact Hr. by intros.
  - unfold dog_step in Hs. cbn in Hs. destruct m as [|a rest]; [done|].
    destruct dog; try done; injection Hs as <-; cbn; (split; [done|]); intros Hd; destruct (Hi Hd) as [-> ->]; by rewrite ?andb_false_r.
Qed.
Lemma intact_reached th th' : rtc step th th' → intact th → intact th'.
Proof. induction 1; [done|]. eauto using intact_step. Qed.

(** C13: The watchdog outlives the session. As long as [main] has not destroyed it, the
    watchdog uses a live session only, however the threads interleave. But no path of the
    programs waits for the watchdog to end, nor withdraws the session before destroying it:
    in the sender - which on two of its three paths does not even ask the watchdog to stop -
    and in the receiver there is a schedule in which the watchdog passes the freed session to
    the library. *)
Theorem watchdog_outlives_session m : m ∈ [sender_main; sender_main_io; receiver_main] →
  (∀ th, rtc step (started m) th → Destroy ∈ th_main th → th_alive th = true ∧ th_freed_use th = false) ∧
  ∃ th, rtc step (started m) th ∧ th_freed_use th = true.
Proof.
  intros Hm. split.
  - intros th Hr. apply (intact_reached _ _ Hr). split; [|done]. cbn.
    repeat (apply elem_of_cons in Hm as [->|Hm]; [apply (bool_decide_unpack _); vm_compute; reflexivity|]). by apply elem_of_nil in Hm.
  - set (chs := [RunMain; RunMain; RunMain; RunDog false; RunDog false; RunMain; RunMain; RunDog false]).
    assert (H : match schedule chs (started m) with Some th => th_freed_use th = true | None => False end).
    { repeat (apply elem_of_cons in Hm as [->|Hm]; [reflexivity|]). by apply elem_of_nil in Hm. }
    destruct (schedule chs (started m)) as [th|] eqn:E; [|done]. exists th. split; [by eapply schedule_reaches|done].
Qed.

(** ** Runs *)

(** Half a minute without a packet, and a change just in time. *)
Definition steady (n : nat) (t : Z) (c : counters) : list (Z * counters) := map (λ i, (t + 500 * Z.of_nat i, c)) (seq 0 n).
Definition some_sent : counters := mk_counters 3 2 900 40.
Definition more_sent : counters := mk_counters 4 2 1400 40.
Lemma watchdog_cancels_stalled_witness :
  let late := steady 60 (2 ^ 32 - 8000) some_sent in
  let moving := steady 39 0 some_sent ++ steady 39 20000 more_sent in
  (watchdog_cancels late (no_progress 5) = true ∧ quiet_spell late) ∧
  (watchdog_cancels moving (no_progress 5) = false ∧ ¬ quiet_spell moving).
Proof.
  cbv zeta. assert (Hl : watchdog_cancels (steady 60 (2 ^ 32 - 8000) some_sent) (no_progress 5) = true) by (vm_compute; reflexivity).
  assert (Hm : watchdog_cancels (steady 39 0 some_sent ++ steady 39 20000 more_sent) (no_progress 5) = false) by (vm_compute; reflexivity).
  split; split; [exact Hl| |exact Hm|].
  - apply (watchdog_cancels_stalled 5); [|exact Hl]. vm_compute. repeat split; congruence.
  - intros Hq. assert (Ht : watchdog_cancels (steady 39 0 some_sent ++ steady 39 20000 more_sent) (no_progress 5) = true).
    { apply (watchdog_cancels_stalled 5); [vm_compute; repeat split; congruence|exact Hq]. }
    rewrite Hm in Ht. discriminate Ht.
Defined.
Lemma watchdog_outlives_session_witness :
  (∀ th, rtc step (started sender_main) th → Destroy ∈ th_main th → th_alive th = true ∧ th_freed_use th = false) ∧
  ∃ th, rtc step (started sender_main) th ∧ th_freed_use th = true.
Proof. apply (watchdog_outlives_session sender_main). apply (bool_decide_unpack _). vm_compute. reflexivity. Defined.
