(* ===== verification/Cli.v ===== *)
(** The command lines of the example programs ([src/examples/tcp]): number and mode parsing,
    the option loops of the four [main]s, and the configurations they make of the options.

    Texts are byte lists without their NUL.  A pointer that the programs never pass as NULL
    (arguments, a set environment variable) is its text.  What is printed is left out. *)
From stdpp Require Import strings.
From Stdlib Require Import String Ascii.
From S2P Require Import Prelude Wire Errors Timing Session Records.
#[local] Open Scope string_scope.
#[local] Open Scope list_scope.
#[local] Open Scope Z_scope.

Definition same (a b : list Z) : bool := bool_decide (a = b).

(** ** Parsing *)

Definition is_digit (c : Z) : bool := (48 <=? c) && (c <=? 57).
Fixpoint parse_digits (p : list Z) (v : Z) : option Z :=
  match p with
  | [] => Some v
  | c :: p =>
    if (c <? 48) || (57 <? c) then None
    else
      let d := u32 (c - 48) in
      let nv := u32 (u32 (v * 10) + d) in
      if nv <? v then None else parse_digits p nv
  end.
Definition parse_uint (s : list Z) : option Z := match s with [] => None | _ => parse_digits s 0 end.

Definition tolower (c : Z) : Z := if (65 <=? c) && (c <=? 90) then c + 32 else c.
Fixpoint strieq (a b : list Z) : bool :=
  match a, b with
  | x :: a, y :: b => if tolower x =? tolower y then strieq a b else false
  | [], [] => true
  | _, _ => false
  end.
Definition parse_resume_mode (s : list Z) : option Z :=
  if strieq s (text "never") then Some VAL_RESUME_NEVER
  else if strieq s (text "skip") || strieq s (text "skip_existing") then Some VAL_RESUME_SKIP_EXISTING
  else if strieq s (text "tail") then Some VAL_RESUME_TAIL
  else None.

(** The standard library's [atoi]: [strtol], which stops at the ends of a [long], as an [int]. *)
Definition is_space (c : Z) : bool := (c =? 32) || ((9 <=? c) && (c <=? 13)).
Fixpoint decimal (p : list Z) (v : Z) : Z :=
  match p with c :: p => if is_digit c then decimal p (v * 10 + (c - 48)) else v | [] => v end.
Fixpoint atoi (s : list Z) : Z :=
  match s with
  | c :: r =>
    if is_space c then atoi r
    else if c =? 45 then i32 (u32 (Z.max (- decimal r 0) (- 2 ^ 63)))
    else i32 (u32 (Z.min (decimal (if c =? 43 then r else s) 0) (2 ^ 63 - 1)))
  | [] => 0
  end.
Definition parse_level (s : list Z) : Z :=
  if match s with c :: _ => is_digit c | [] => false end then
    let v := atoi s in
    let v := if v <? 0 then 0 else v in
    if 5 <? v then 5 else v
  else if strieq s (text "off") then 0
  else if strieq s (text "crit") || strieq s (text "critical") then 1
  else if strieq s (text "warn") || strieq s (text "warning") then 2
  else if strieq s (text "info") then 3
  else if strieq s (text "debug") then 4
  else if strieq s (text "trace") || strieq s (text "verbose") then 5
  else 0.
Definition lvl_name (lvl : Z) : string :=
  if lvl =? 1 then "CRIT" else if lvl =? 2 then "WARN" else if lvl =? 3 then "INFO"
  else if lvl =? 4 then "DEBUG" else if lvl =? 5 then "TRACE" else "OFF".

(** ** Options *)

(** The local variables of [main] that the options set. *)
Record options := mk_options {
  op_packet : Z; op_resume_mode : Z; op_tail_bytes : Z; op_log_level : Z; op_log_file : option (list Z);
  op_degrade : Z; op_upgrade : Z; op_min_timeout : Z; op_max_timeout : Z;
  op_meta_retries : Z; op_data_retries : Z; op_ack_retries : Z; op_backoff_ms : Z;
  op_serial_verbose : bool; op_host_mode : bool
}.
#[export] Instance eta_options : Eta options := λ r, mk_options (op_packet r) (op_resume_mode r) (op_tail_bytes r)
  (op_log_level r) (op_log_file r) (op_degrade r) (op_upgrade r) (op_min_timeout r) (op_max_timeout r)
  (op_meta_retries r) (op_data_retries r) (op_ack_retries r) (op_backoff_ms r) (op_serial_verbose r) (op_host_mode r).
#[export] Instance set_op_packet : Setter op_packet. Proof. derive_setter. Defined.
#[export] Instance set_op_resume_mode : Setter op_resume_mode. Proof. derive_setter. Defined.
#[export] Instance set_op_tail_bytes : Setter op_tail_bytes. Proof. derive_setter. Defined.
#[export] Instance set_op_log_level : Setter op_log_level. Proof. derive_setter. Defined.
#[export] Instance set_op_log_file : Setter op_log_file. Proof. derive_setter. Defined.
#[export] Instance set_op_degrade : Setter op_degrade. Proof. derive_setter. Defined.
#[export] Instance set_op_upgrade : Setter op_upgrade. Proof. derive_setter. Defined.
#[export] Instance set_op_min_timeout : Setter op_min_timeout. Proof. derive_setter. Defined.
#[export] Instance set_op_max_timeout : Setter op_max_timeout. Proof. derive_setter. Defined.
#[export] Instance set_op_meta_retries : Setter op_meta_retries. Proof. derive_setter. Defined.
#[export] Instance set_op_data_retries : Setter op_data_retries. Proof. derive_setter. Defined.
#[export] Instance set_op_ack_retries : Setter op_ack_retries. Proof. derive_setter. Defined.
#[export] Instance set_op_backoff_ms : Setter op_backoff_ms. Proof. derive_setter. Defined.
#[export] Instance set_op_serial_verbose : Setter op_serial_verbose. Proof. derive_setter. Defined.
#[export] Instance set_op_host_mode : Setter op_host_mode. Proof. derive_setter. Defined.

(** The defaults of the TCP programs, and of the serial ones. *)
Definition tcp_defaults : options :=
  mk_options 4096 VAL_RESUME_TAIL 16384 (-1) None 3 10 100 10000 4 3 3 100 false false.
Definition com_defaults : options :=
  mk_options 4096 VAL_RESUME_TAIL 1024 (-1) None 3 10 500 20000 4 4 4 100 false false.

(** What an option does: set something, take the next argument (and maybe reject it), or end
    the program with an exit code. *)
Inductive option_kind : Type :=
  | OptFlag (f : options → options)
  | OptValue (f : list Z → options → option options)
  | OptStop (code : Z).
Definition opt_uint (set : Z → options → options) : option_kind :=
  OptValue (λ v o, match parse_uint v with Some n => Some (set n o) | None => None end).
Definition opt_stop (arg : list Z) : option_kind :=
  if same arg (text "--help") || same arg (text "-h") then OptStop 0 else OptStop 1.

Definition is_option (arg : list Z) : bool := match arg with 45 :: _ => true | _ => false end.
(** The loop: the exit code, or the options and the arguments that are left. A missing value
    and a rejected one both end the program with 1. *)
Fixpoint parse_options (step : list Z → option_kind) (args : list (list Z)) (o : options)
    : Z + options * list (list Z) :=
  match args with
  | [] => inr (o, [])
  | arg :: rest =>
    if is_option arg then
      match step arg with
      | OptStop code => inl code
      | OptFlag f => parse_options step rest (f o)
      | OptValue f =>
        match rest with
        | [] => inl 1
        | v :: rest => match f v o with Some o => parse_options step rest o | None => inl 1 end
        end
      end
    else inr (o, arg :: rest)
  end.

(** [val_example_send_tcp.c]. *)
Definition tx_option (arg : list Z) : option_kind :=
  if same arg (text "--mtu") then
    OptValue (λ a o, match parse_uint a with
                     | None => None
                     | Some v => if (v <? VAL_MIN_PACKET_SIZE) || (VAL_MAX_PACKET_SIZE <? v) then None
                                 else Some (o <| op_packet := v |>)
                     end)
  else if same arg (text "--resume") then
    OptValue (λ a o, match parse_resume_mode a with Some m => Some (o <| op_resume_mode := m |>) | None => None end)
  else if same arg (text "--tail-bytes") then opt_uint (λ v o, o <| op_tail_bytes := v |>)
  else if same arg (text "--log-level") then OptValue (λ a o, Some (o <| op_log_level := parse_level a |>))
  else if same arg (text "--log-file") then OptValue (λ a o, Some (o <| op_log_file := Some a |>))
  else if same arg (text "--verbose") then OptFlag (λ o, o <| op_log_level := 4 |>)
  else if same arg (text "--degrade") then opt_uint (λ v o, o <| op_degrade := v |>)
  else if same arg (text "--upgrade") then opt_uint (λ v o, o <| op_upgrade := v |>)
  else if same arg (text "--min-timeout") then opt_uint (λ v o, o <| op_min_timeout := v |>)
  else if same arg (text "--max-timeout") then opt_uint (λ v o, o <| op_max_timeout := v |>)
  else if same arg (text "--meta-retries") then opt_uint (λ v o, o <| op_meta_retries := v |>)
  else if same arg (text "--data-retries") then opt_uint (λ v o, o <| op_data_retries := v |>)
  else if same arg (text "--ack-retries") then opt_uint (λ v o, o <| op_ack_retries := v |>)
  else if same arg (text "--backoff") then opt_uint (λ v o, o <| op_backoff_ms := v |>)
  else opt_stop arg.

(** [val_example_receive_tcp.c]: the same, and [--validation], which is looked for again later. *)
Definition rx_option (arg : list Z) : option_kind :=
  if same arg (text "--mtu") then
    OptValue (λ a o, match parse_uint a with
                     | None => None
                     | Some v => if (v <? VAL_MIN_PACKET_SIZE) || (VAL_MAX_PACKET_SIZE <? v) then None
                                 else Some (o <| op_packet := v |>)
                     end)
  else if same arg (text "--resume") then
    OptValue (λ a o, match parse_resume_mode a with Some m => Some (o <| op_resume_mode := m |>) | None => None end)
  else if same arg (text "--tail-bytes") then opt_uint (λ v o, o <| op_tail_bytes := v |>)
  else if same arg (text "--validation") then OptFlag (λ o, o)
  else if same arg (text "--log-level") then OptValue (λ a o, Some (o <| op_log_level := parse_level a |>))
  else if same arg (text "--min-timeout") then opt_uint (λ v o, o <| op_min_timeout := v |>)
  else if same arg (text "--max-timeout") then opt_uint (λ v o, o <| op_max_timeout := v |>)
  else if same arg (text "--meta-retries") then opt_uint (λ v o, o <| op_meta_retries := v |>)
  else if same arg (text "--data-retries") then opt_uint (λ v o, o <| op_data_retries := v |>)
  else if same arg (text "--ack-retries") then opt_uint (λ v o, o <| op_ack_retries := v |>)
  else if same arg (text "--backoff") then opt_uint (λ v o, o <| op_backoff_ms := v |>)
  else if same arg (text "--log-file") then OptValue (λ a o, Some (o <| op_log_file := Some a |>))
  else if same arg (text "--verbose") then OptFlag (λ o, o <| op_log_level := 4 |>)
  else if same arg (text "--degrade") then opt_uint (λ v o, o <| op_degrade := v |>)
  else if same arg (text "--upgrade") then opt_uint (λ v o, o <| op_upgrade := v |>)
  else opt_stop arg.

(** The serial programs know fewer options, compare the modes exactly and do not bound the
    packet size. *)
Definition com_resume_mode (mode : list Z) : option Z :=
  if same mode (text "never") then Some VAL_RESUME_NEVER
  else if same mode (text "skip") then Some VAL_RESUME_SKIP_EXISTING
  else if same mode (text "tail") then Some VAL_RESUME_TAIL
  else None.
Definition com_tx_option (arg : list Z) : option_kind :=
  if same arg (text "--mtu") then opt_uint (λ v o, o <| op_packet := v |>)
  else if same arg (text "--resume") then
    OptValue (λ a o, match com_resume_mode a with Some m => Some (o <| op_resume_mode := m |>) | None => None end)
  else if same arg (text "--tail-bytes") then opt_uint (λ v o, o <| op_tail_bytes := v |>)
  else if same arg (text "--log-level") then OptValue (λ a o, Some (o <| op_log_level := parse_level a |>))
  else if same arg (text "--log-file") then OptValue (λ a o, Some (o <| op_log_file := Some a |>))
  else if same arg (text "--verbose") then OptFlag (λ o, o <| op_log_level := 4 |>)
  else if same arg (text "--serial-verbose") then OptFlag (λ o, o <| op_serial_verbose := true |>)
  else opt_stop arg.
Definition com_rx_option (arg : list Z) : option_kind :=
  if same arg (text "--mtu") then opt_uint (λ v o, o <| op_packet := v |>)
  else if same arg (text "--resume") then
    OptValue (λ a o, match com_resume_mode a with Some m => Some (o <| op_resume_mode := m |>) | None => None end)
  else if same arg (text "--tail-bytes") then opt_uint (λ v o, o <| op_tail_bytes := v |>)
  else if same arg (text "--log-level") then OptValue (λ a o, Some (o <| op_log_level := parse_level a |>))
  else if same arg (text "--log-file") then OptValue (λ a o, Some (o <| op_log_file := Some a |>))
  else if same arg (text "--verbose") then OptFlag (λ o, o <| op_log_level := 4 |>)
  else if same arg (text "--serial-verbose") then OptFlag (λ o, o <| op_serial_verbose := true |>)
  else if same arg (text "--host") then OptFlag (λ o, o <| op_host_mode := true |>)
  else if same arg (text "--validation") then OptFlag (λ o, o)
  else opt_stop arg.

(** ** Configurations

    [getenv] is the environment.  The hooks are all set, but those the programs leave out:
    the CRC provider and the allocator. *)

Definition log_level_of (getenv : list Z → option (list Z)) (o : options) : Z :=
  let level := op_log_level o in
  let level := if level <? 0 then
                 match getenv (text "VAL_LOG_LEVEL") with Some l => parse_level l | None => level end
               else level in
  if 0 <=? level then level else 3.
(** '1', 'y', 'Y', 't', 'T' *)
Definition capture_wanted (getenv : list Z → option (list Z)) : bool :=
  match getenv (text "VAL_CAPTURE") with
  | Some (c :: _) => (c =? 49) || (c =? 121) || (c =? 89) || (c =? 116) || (c =? 84)
  | _ => false
  end.

Definition tx_config (getenv : list Z → option (list Z)) (o : options) : val_config_t := {|
  cfg_has_send := true; cfg_has_recv := true; cfg_has_is_connected := true; cfg_has_flush := true;
  cfg_has_crc32_provider := false; cfg_has_get_ticks_ms := true; cfg_has_delay_ms := true;
  cfg_min_timeout_ms := op_min_timeout o; cfg_max_timeout_ms := op_max_timeout o; cfg_handshake_budget_ms := 0;
  cfg_required := 0; cfg_requested := 0;
  cfg_meta_retries := u8 (op_meta_retries o); cfg_data_retries := u8 (op_data_retries o);
  cfg_ack_retries := u8 (op_ack_retries o); cfg_handshake_retries := 4; cfg_backoff_ms_base := op_backoff_ms o;
  cfg_has_send_buffer := true; cfg_has_recv_buffer := true; cfg_packet_size := op_packet o;
  cfg_resume_mode := op_resume_mode o; cfg_tail_cap_bytes := op_tail_bytes o; cfg_min_verify_bytes := 0;
  cfg_mismatch_skip := false; cfg_window_cap_packets := 512; cfg_initial_cwnd_packets := 0;
  cfg_degrade_error_threshold := u16 (op_degrade o); cfg_recovery_success_threshold := u16 (op_upgrade o);
  cfg_has_alloc := false; cfg_has_free := false; cfg_has_on_file_start := true; cfg_has_on_file_complete := true;
  cfg_has_on_progress := true; cfg_has_validator := false; cfg_min_level := log_level_of getenv o;
  cfg_has_on_packet := capture_wanted getenv
|}.

(** [use_validation]: the argument anywhere on the command line. *)
Definition use_validation (args : list (list Z)) : bool := existsb (λ a, same a (text "--validation")) args.
Definition rx_config (getenv : list Z → option (list Z)) (args : list (list Z)) (o : options) : val_config_t :=
  let cfg := tx_config getenv o in
  if use_validation args then val_config_set_validator cfg true else val_config_validation_disabled cfg.

Definition com_tx_config (getenv : list Z → option (list Z)) (o : options) : val_config_t := {|
  cfg_has_send := true; cfg_has_recv := true; cfg_has_is_connected := true; cfg_has_flush := true;
  cfg_has_crc32_provider := false; cfg_has_get_ticks_ms := true; cfg_has_delay_ms := true;
  cfg_min_timeout_ms := 500; cfg_max_timeout_ms := 20000; cfg_handshake_budget_ms := 0;
  cfg_required := 0; cfg_requested := 0;
  cfg_meta_retries := 4; cfg_data_retries := 4; cfg_ack_retries := 4; cfg_handshake_retries := 5; cfg_backoff_ms_base := 100;
  cfg_has_send_buffer := true; cfg_has_recv_buffer := true; cfg_packet_size := op_packet o;
  cfg_resume_mode := op_resume_mode o; cfg_tail_cap_bytes := op_tail_bytes o; cfg_min_verify_bytes := 0;
  cfg_mismatch_skip := false; cfg_window_cap_packets := 512; cfg_initial_cwnd_packets := 0;
  cfg_degrade_error_threshold := 3; cfg_recovery_success_threshold := 10;
  cfg_has_alloc := false; cfg_has_free := false; cfg_has_on_file_start := true; cfg_has_on_file_complete := true;
  cfg_has_on_progress := true; cfg_has_validator := false; cfg_min_level := log_level_of getenv o;
  cfg_has_on_packet := capture_wanted getenv
|}.
(** The serial receiver: a window of 4 to begin with, no capture, and no validator with or
    without [--validation]. *)
Definition com_rx_config (getenv : list Z → option (list Z)) (args : list (list Z)) (o : options) : val_config_t :=
  let cfg := com_tx_config getenv o <| cfg_initial_cwnd_packets := 4 |> <| cfg_has_on_packet := false |> in
  if use_validation args then val_config_set_validator cfg false else val_config_validation_disabled cfg.

(** ** Numbers *)

Lemma decimal_nonneg p v : 0 <= v → v <= decimal p v.
Proof.
  revert v. induction p as [|c p IH]; intros v Hv; cbn [decimal]; [lia|]. destruct (is_digit c) eqn:Hd; [|lia].
  unfold is_digit in Hd. specialize (IH (v * 10 + (c - 48)) ltac:(lia)). lia.
Qed.
Definition digits (p : list Z) : Prop := Forall (λ c, is_digit c = true) p.
Lemma decimal_congr p v v' : digits p → u32 v = u32 v' → u32 (decimal p v) = u32 (decimal p v').
Proof.
  intros Hp. revert v v'. induction Hp as [|c p Hc _ IH]; intros v v' Hv; cbn [decimal]; [done|]. rewrite Hc. apply IH.
  unfold u32 in *. rewrite Z.add_mod, Z.mul_mod, Hv, <- Z.mul_mod, <- Z.add_mod by lia. done.
Qed.
Lemma parse_digits_exact p v : digits p → 0 <= v → decimal p v < 2 ^ 32 → parse_digits p v = Some (decimal p v).
Proof.
  intros Hp. revert v. induction Hp as [|c p Hc _ IH]; intros v Hv Hd; cbn [decimal parse_digits] in *; [done|].
  rewrite Hc in Hd |- *. unfold is_digit in Hc. pose proof (decimal_nonneg p (v * 10 + (c - 48)) ltac:(lia)) as Hle.
  replace ((c <? 48) || (57 <? c)) with false by lia. rewrite (u32_small (v * 10)), (u32_small (c - 48)), u32_small by lia.
  replace (_ <? v) with false by lia. by apply IH; lia.
Qed.
Lemma parse_digits_value p v n : 0 <= v < 2 ^ 32 → parse_digits p v = Some n → digits p ∧ n = u32 (decimal p v).
Proof.
  revert v. induction p as [|c p IH]; intros v Hv Hp; cbn [decimal parse_digits] in *.
  { injection Hp as <-. by split; [constructor|rewrite u32_small]. }
  destruct (_ || _) eqn:Hc in Hp; [done|]. assert (is_digit c = true) as Hd by (unfold is_digit; lia). rewrite Hd.
  destruct (_ <? v) in Hp; [done|]. apply IH in Hp as [Hds ->]; [|apply u32_range]. split; [by constructor|].
  apply decimal_congr; [done|]. unfold u32. rewrite Z.mod_mod, (Z.mod_small (c - 48)) by lia.
  by rewrite Z.add_mod_idemp_l by lia.
Qed.

(** ** What the options keep *)

Definition kept (P : options → Prop) (k : option_kind) : Prop :=
  match k with
  | OptFlag f => ∀ o, P o → P (f o)
  | OptValue f => ∀ v o o', P o → f v o = Some o' → P o'
  | OptStop code => code = 0 ∨ code = 1
  end.
Lemma parse_options_keeps (P : options → Prop) step args o : (∀ arg, kept P (step arg)) → P o →
  match parse_options step args o with inl code => code = 0 ∨ code = 1 | inr (o', _) => P o' end.
Proof.
  intros Hk. remember (length args) as n eqn:En. revert args En o.
  induction n as [n IH] using lt_wf_ind. intros [|arg rest] -> o Ho; cbn [parse_options]; [done|]. cbn [length] in IH.
  destruct (is_option arg); [|done]. specialize (Hk arg) as Hs. destruct (step arg) as [f|f|code]; cbn [kept] in Hs; [| |done].
  - eapply IH; [|done|by apply Hs]. lia.
  - destruct rest as [|v rest]; [by right|]. destruct (f v o) as [o'|] eqn:Hf; [|by right].
    eapply IH; [|done|by eapply Hs]. cbn [length]. lia.
Qed.

(** An option loop ends the program with 0 only where help was asked for. *)
Definition asks_help (arg : list Z) : Prop := arg = text "--help" ∨ arg = text "-h".
Definition stops (arg : list Z) (k : option_kind) : Prop :=
  match k with OptStop code => code = 1 ∨ code = 0 ∧ asks_help arg | _ => True end.
Lemma parse_options_stops step args o code : (∀ arg, stops arg (step arg)) →
  parse_options step args o = inl code → code = 1 ∨ code = 0 ∧ Exists asks_help args.
Proof.
  intros Hk. remember (length args) as n eqn:En. revert args En o.
  induction n as [n IH] using lt_wf_ind. intros [|arg rest] -> o; cbn [parse_options]; [done|]. cbn [length] in IH.
  destruct (is_option arg); [|done]. specialize (Hk arg) as Hs. destruct (step arg) as [f|f|c]; cbn [stops] in Hs.
  - intros Hp. destruct (IH (length rest) ltac:(lia) rest eq_refl _ Hp) as [?|[? ?]]; [by left|right; by split; [|right]].
  - destruct rest as [|v rest]; [intros [= <-]; by left|]. destruct (f v o) as [o'|]; [|intros [= <-]; by left].
    intros Hp. destruct (IH (length rest) ltac:(cbn [length] in *; lia) rest eq_refl _ Hp) as [?|[? ?]]; [by left|right].
    split; [done|by right; right].
  - intros [= <-]. destruct Hs as [?|[? ?]]; [by left|right; by split; [|left]].
Qed.
Lemma opt_stop_stops arg : stops arg (opt_stop arg).
Proof.
  unfold opt_stop, same. destruct (bool_decide_reflect (arg = text "--help")); [cbn; right; by split; [|left]|].
  destruct (bool_decide_reflect (arg = text "-h")); cbn; [right; by split; [|right]|by left].
Qed.
Lemma options_stop arg : stops arg (tx_option arg) ∧ stops arg (rx_option arg) ∧ stops arg (com_tx_option arg) ∧ stops arg (com_rx_option arg).
Proof.
  unfold tx_option, rx_option, com_tx_option, com_rx_option.
  split; [|split; [|split]]; repeat (case_match; [exact I|]); apply opt_stop_stops.
Qed.

(** The widths of the variables; [bounded] is the range of the packet size. *)
Record options_ok (bounded : Z → Prop) (o : options) : Prop := {
  ook_packet : bounded (op_packet o);
  ook_mode : 0 <= op_resume_mode o <= 2;
  ook_tail : u32_ok (op_tail_bytes o);
  ook_min : u32_ok (op_min_timeout o);
  ook_max : u32_ok (op_max_timeout o);
  ook_backoff : u32_ok (op_backoff_ms o)
}.
Definition creatable (packet : Z) : Prop := VAL_MIN_PACKET_SIZE <= packet <= VAL_MAX_PACKET_SIZE.
#[export] Instance creatable_dec packet : Decision (creatable packet) := _.

Lemma parse_uint_u32 a v : parse_uint a = Some v → u32_ok v.
Proof.
  unfold parse_uint. destruct a as [|c a]; [done|]. intros Hp. apply parse_digits_value in Hp as [_ ->]; [|lia]. apply u32_range.
Qed.
Lemma resume_mode_range a m : parse_resume_mode a = Some m ∨ com_resume_mode a = Some m → 0 <= m <= 2.
Proof.
  unfold parse_resume_mode, com_resume_mode, VAL_RESUME_NEVER, VAL_RESUME_SKIP_EXISTING, VAL_RESUME_TAIL.
  intros [Hm|Hm]; repeat case_match; simplify_eq; lia.
Qed.
Lemma kept_uint P (set : Z → options → options) : (∀ v o, u32_ok v → P o → P (set v o)) → kept P (opt_uint set).
Proof.
  intros Hs v o o' Ho. destruct (parse_uint v) as [n|] eqn:Hn; [|done]. intros [= <-]. apply Hs; [by eapply parse_uint_u32|done].
Qed.
Lemma kept_stop P arg : kept P (opt_stop arg).
Proof. unfold opt_stop. destruct (_ || _); cbn; tauto. Qed.

Ltac kept_step :=
  lazymatch goal with
  | |- kept _ (if ?b then _ else _) => destruct b
  | |- kept _ (opt_stop _) => apply kept_stop
  | |- kept _ (opt_uint _) => apply kept_uint; intros ? ? ? []; by constructor
  | |- kept _ (OptFlag _) => cbn [kept]; intros ? []; by constructor
  end.
Ltac kept_value :=
  cbn [kept]; intros v o o' [];
  first [ solve [intros [= <-]; by constructor]
        | let m := fresh "m" in let Hm := fresh "Hm" in
          match goal with |- (match ?x with _ => _ end) = _ → _ => destruct x as [m|] eqn:Hm; [|done] end;
          solve [intros [= <-]; constructor; try done; apply (resume_mode_range v); tauto
                | destruct (_ || _) eqn:Hb; [done|]; intros [= <-]; constructor; try done; unfold creatable; cbn; lia] ].
Lemma tx_option_ok arg : kept (options_ok creatable) (tx_option arg).
Proof. unfold tx_option. repeat kept_step; kept_value. Qed.
Lemma rx_option_ok arg : kept (options_ok creatable) (rx_option arg).
Proof. unfold rx_option. repeat kept_step; kept_value. Qed.
Lemma com_tx_option_ok arg : kept (options_ok u32_ok) (com_tx_option arg).
Proof. unfold com_tx_option. repeat kept_step; kept_value. Qed.
Lemma com_rx_option_ok arg : kept (options_ok u32_ok) (com_rx_option arg).
Proof. unfold com_rx_option. repeat kept_step; kept_value. Qed.

(** ** The configurations *)

Lemma tx_config_ok getenv o : options_ok creatable o → config_ok (tx_config getenv o).
Proof. intros []. constructor; cbn; try done; try apply u8_range; try apply u16_range; by vm_compute. Qed.
Lemma com_tx_config_ok getenv o : options_ok u32_ok o → creatable (op_packet o) → config_ok (com_tx_config getenv o).
Proof. intros []. constructor; cbn; try done; by vm_compute. Qed.
Lemma packet_bounds c : negb (bool_decide (creatable c)) = (c <? VAL_MIN_PACKET_SIZE) || (VAL_MAX_PACKET_SIZE <? c).
Proof. unfold creatable. case_bool_decide; lia. Qed.

(** Creation with buffers of the configured size fails for lack of memory, or not at all. *)
Definition creates {E} `{!Allocator E} `{!BuildOptions} (c : val_config_t) : Prop :=
  ∀ sb rb (e : E), cfg_packet_size c <= zlen sb → cfg_packet_size c <= zlen rb → bytes_ok rb →
  let '(st, os, detail, _, _) := val_session_create (Some c) true sb rb e in
  detail = 0 ∧ (st = VAL_ERR_NO_MEMORY ∧ os = None ∨
                st = VAL_OK ∧ os = Some (init_session c sb rb) ∧ session_ok (init_session c sb rb)).
Lemma config_creates {E} `{!Allocator E} `{!BuildOptions} c : config_missing c = false → config_ok c → creates (E:=E) c.
Proof.
  intros Hm Hc sb rb e Hs Hr Hb. rewrite session_create_ok_branch by done. cbv zeta.
  destruct (hk_alloc _ ObjSession e) as [[|] e1]; cbn [negb]; [|by split; [|left]].
  destruct (hk_alloc _ (ObjSlots _) e1) as [[|] e2]; cbn [negb]; [|by split; [|left]].
  split; [done|]. right. split; [done|]. split; [done|]. by apply init_session_ok.
Qed.
Lemma with_validator_ok c b : config_ok c → config_ok (c <| cfg_has_validator := b |>).
Proof. intros []. by constructor. Qed.
Definition refuses {E} `{!Allocator E} `{!BuildOptions} (c : val_config_t) : Prop :=
  ∀ sb rb (e : E), val_session_create (Some c) true sb rb e =
    (if cfg_packet_size c =? 0 then (VAL_ERR_INVALID_ARG, None, VAL_SET_MISSING_HOOKS, e, [])
     else (VAL_ERR_PACKET_SIZE_MISMATCH, None, VAL_ERROR_DETAIL_PACKET_SIZE, e, [])).
Lemma config_refuses {E} `{!Allocator E} `{!BuildOptions} c :
  config_missing c = (cfg_packet_size c =? 0) → ~ creatable (cfg_packet_size c) → refuses (E:=E) c.
Proof.
  intros Hm Hp sb rb e. unfold val_session_create. rewrite Hm. cbn [negb]. destruct (_ =? 0); [done|].
  by replace ((_ <? _) || (_ <? _)) with true by (unfold creatable in Hp; lia).
Qed.
Lemma rx_config_shape getenv args o : rx_config getenv args o = tx_config getenv o <| cfg_has_validator := use_validation args |>.
Proof. unfold rx_config. by destruct (use_validation args). Qed.
Lemma com_rx_config_shape getenv args o : com_rx_config getenv args o =
  com_tx_config getenv o <| cfg_initial_cwnd_packets := 4 |> <| cfg_has_on_packet := false |> <| cfg_has_validator := false |>.
Proof. unfold com_rx_config. by destruct (use_validation args). Qed.
Lemma com_rx_config_ok getenv args o : config_ok (com_tx_config getenv o) → config_ok (com_rx_config getenv args o).
Proof. rewrite com_rx_config_shape. intros []. constructor; done. Qed.

(** C10: the example programs' command lines. Whatever the arguments are, the TCP programs either
    end with exit code 0 or 1, or hand [val_session_create] a configuration that it accepts:
    every option value is checked so far, or cut to the width of its field, that creation can
    only fail for lack of memory. The serial programs do not bound the packet size: with them
    creation refuses exactly the sizes that the TCP programs refuse on the command line. *)
Theorem command_line_accepted {E} `{!Allocator E} `{!BuildOptions} getenv args :
  (match parse_options tx_option args tcp_defaults with
   | inl code => code = 0 ∨ code = 1
   | inr (o, _) => creates (E:=E) (tx_config getenv o)
   end) ∧
  (match parse_options rx_option args tcp_defaults with
   | inl code => code = 0 ∨ code = 1
   | inr (o, _) => creates (E:=E) (rx_config getenv args o)
   end) ∧
  (match parse_options com_tx_option args com_defaults with
   | inl code => code = 0 ∨ code = 1
   | inr (o, _) => let c := com_tx_config getenv o in
       if decide (creatable (op_packet o)) then creates (E:=E) c else refuses (E:=E) c
   end) ∧
  (match parse_options com_rx_option args com_defaults with
   | inl code => code = 0 ∨ code = 1
   | inr (o, _) => let c := com_rx_config getenv args o in
       if decide (creatable (op_packet o)) then creates (E:=E) c else refuses (E:=E) c
   end).
Proof.
  assert (Hd : options_ok creatable tcp_defaults) by (constructor; vm_compute; split; congruence).
  assert (Hd' : options_ok u32_ok com_defaults) by (constructor; vm_compute; split; congruence).
  assert (Hz : ∀ n, creatable n → (n =? 0) = false) by (unfold creatable, VAL_MIN_PACKET_SIZE; lia).
  pose proof (parse_options_keeps _ _ args _ tx_option_ok Hd) as H1.
  pose proof (parse_options_keeps _ _ args _ rx_option_ok Hd) as H2.
  pose proof (parse_options_keeps _ _ args _ com_tx_option_ok Hd') as H3.
  pose proof (parse_options_keeps _ _ args _ com_rx_option_ok Hd') as H4. split; [|split; [|split]].
  - clear -H1 Hz. destruct (parse_options _ _ _) as [code|[o rest]]; [done|]. apply config_creates; [|by apply tx_config_ok].
    apply Hz, H1.
  - clear -H2 Hz. destruct (parse_options _ _ _) as [code|[o rest]]; [done|]. rewrite rx_config_shape.
    apply config_creates; [apply Hz, H2|]. by apply with_validator_ok, tx_config_ok.
  - clear -H3 Hz. destruct (parse_options _ _ _) as [code|[o rest]]; [done|]. cbv zeta. case_decide as Hp; [|by apply config_refuses].
    apply config_creates; [by apply Hz|]. by apply com_tx_config_ok.
  - clear -H4 Hz. destruct (parse_options _ _ _) as [code|[o rest]]; [done|]. cbv zeta. case_decide as Hp.
    + apply config_creates; [rewrite com_rx_config_shape; by apply Hz|]. by apply com_rx_config_ok, com_tx_config_ok.
    + rewrite com_rx_config_shape. by apply config_refuses.
Qed.

(** Numbers on the command line. A text of digits whose value fits 32 bits is read as that
    value, and what is not a text of digits is rejected; but a value that does not fit is
    not always rejected, and what is then taken is its remainder. *)
Theorem parse_uint_value s :
  (s ≠ [] → digits s → decimal s 0 < 2 ^ 32 → parse_uint s = Some (decimal s 0)) ∧
  (∀ v, parse_uint s = Some v → s ≠ [] ∧ digits s ∧ v = decimal s 0 mod 2 ^ 32) ∧
  parse_uint (text "4294967296") = None ∧ parse_uint (text "10000000000") = Some 1410065408.
Proof.
  split; [|split; [|by vm_compute]].
  - intros Hs Hd Hv. destruct s as [|c s]; [done|]. by apply parse_digits_exact.
  - intros v Hv. destruct s as [|c s]; [done|]. apply parse_digits_value in Hv as [? ->]; [done|lia].
Qed.
Lemma parse_uint_value_witness :
  parse_uint (text "4096") = Some 4096 ∧ decimal (text "10000000000") 0 = 10000000000 ∧
  1410065408 = decimal (text "10000000000") 0 mod 2 ^ 32.
Proof.
  destruct (parse_uint_value (text "4096")) as (H1 & _). destruct (parse_uint_value (text "10000000000")) as (_ & H2 & _).
  split; [apply H1; [discriminate|apply (bool_decide_unpack _); vm_compute; reflexivity|vm_compute; reflexivity]|].
  split; [vm_compute; reflexivity|]. apply H2. vm_compute. reflexivity.
Defined.
