(* ===== verification/Report.v ===== *)
(** What the example programs keep for the report at their end: [tx_summary_t],
    [rx_summary_t] and the callbacks that fill them ([src/examples/tcp/val_example_*.c]).

    The arrays of names are modelled with their allocated length: a store past the end is
    undefined in C, and here it is what [na_overrun] records.  The programs of one
    direction share the code up to names; each definition says whose it is. *)
From S2P Require Import Prelude ByteOrder Wire Errors Crc Sanitize Timing Session Simulation Window Packet Frame Control.
From S2P Require Import Handshake Resume Sender Receiver Trace Typestate Callbacks Transfer.

(** Whether an allocation of so many bytes succeeds. *)
Class Malloc (E : Type) := hp_malloc : Z → E → bool * E.

Record name_array := mk_names { na_names : list (option (list Z)); na_room : Z; na_overrun : bool }.
(** [arr[count++] = p]. *)
Definition na_put (p : option (list Z)) (a : name_array) : name_array :=
  mk_names (na_names a ++ [p]) (na_room a) (na_overrun a || (na_room a <=? zlen (na_names a))).

Record file_stat := mk_stat {
  fs_name : option (list Z); fs_bytes : Z; fs_start_ms : Z; fs_elapsed_ms : Z; fs_result : Z }.
(** [su_done] is [sent] or [received]. *)
Record summary := mk_summary {
  su_done : name_array; su_skipped : name_array; su_capacity : Z; su_stats : list file_stat; su_stats_cap : Z }.

Section report.
Context {E : Type} `{!Malloc E} (now_ms : M E Z).

Definition dup_cstr (s : list Z) : M E (option (list Z)) :=
  let! ok := mlift (hp_malloc (zlen s + 1)) in mret (if (ok : bool) then Some s else None).

(** ** The TCP sender *)

Definition tx_summary_add (arr : name_array) (cap : Z) (name : list Z) : M E name_array :=
  if cap <=? zlen (na_names arr) then mret arr
  else
    let! cp := dup_cstr name in
    match cp with None => mret arr | Some cp => mret (na_put (Some cp) arr) end.

Definition stat_size : Z := 32.
Definition tx_stats_start (sum : summary) (filename : list Z) (bytes : Z) : M E summary :=
  let! grown := (if zlen (su_stats sum) =? su_stats_cap sum then
                   let newcap := if su_stats_cap sum =? 0 then 8 else su_stats_cap sum * 2 in
                   let! ok := mlift (hp_malloc (newcap * stat_size)) in
                   mret (if (ok : bool) then Some newcap else None)
                 else mret (Some (su_stats_cap sum))) in
  match grown with
  | None => mret sum
  | Some cap =>
    let! name := dup_cstr filename in
    let! start := now_ms in
    mret (mk_summary (su_done sum) (su_skipped sum) (su_capacity sum)
            (su_stats sum ++ [mk_stat name bytes start 0 0]) cap)
  end.
(** The last entry below [i] with that name and no duration yet. *)
Fixpoint find_running (stats : list file_stat) (filename : list Z) (i : nat) : option nat :=
  match i with
  | O => None
  | S idx =>
    match stats !! idx with
    | Some st => if bool_decide (fs_name st = Some filename) && (fs_elapsed_ms st =? 0) then Some idx
                 else find_running stats filename idx
    | None => None
    end
  end.
(** [stats[idx]] is complete. *)
Definition close_stat (now result : Z) (st : file_stat) : file_stat :=
  mk_stat (fs_name st) (fs_bytes st) (fs_start_ms st)
    (if fs_start_ms st <=? now then now - fs_start_ms st else 0) result.
Definition set_stats (stats : list file_stat) (sum : summary) : summary :=
  mk_summary (su_done sum) (su_skipped sum) (su_capacity sum) stats (su_stats_cap sum).
Definition tx_stats_complete (sum : summary) (filename : list Z) (result : Z) : M E summary :=
  match find_running (su_stats sum) filename (length (su_stats sum)) with
  | None => mret sum
  | Some idx => let! now := now_ms in mret (set_stats (alter (close_stat now result) idx (su_stats sum)) sum)
  end.

(** The bytes that are left to transfer. *)
Definition bytes_left (file_size resume_offset : Z) : Z :=
  if resume_offset <? file_size then file_size - resume_offset else 0.
Definition on_file_start_tx (filename : list Z) (file_size resume_offset : Z) (sum : summary) : M E summary :=
  tx_stats_start sum filename (bytes_left file_size resume_offset).
Definition set_done (a : name_array) (sum : summary) : summary :=
  mk_summary a (su_skipped sum) (su_capacity sum) (su_stats sum) (su_stats_cap sum).
Definition set_skipped (a : name_array) (sum : summary) : summary :=
  mk_summary (su_done sum) a (su_capacity sum) (su_stats sum) (su_stats_cap sum).
Definition on_file_complete_tx (filename : list Z) (result : Z) (sum : summary) : M E summary :=
  let! sum := (if result =? VAL_OK then
                 let! a := tx_summary_add (su_done sum) (su_capacity sum) filename in mret (set_done a sum)
               else if result =? VAL_SKIPPED then
                 let! a := tx_summary_add (su_skipped sum) (su_capacity sum) filename in mret (set_skipped a sum)
               else mret sum) in
  tx_stats_complete sum filename result.
(** [sum] once [main] has allocated the arrays; that [calloc] succeeds is not checked there. *)
Definition tx_summary_init (nfiles : Z) : summary :=
  let arr := mk_names [] (if nfiles =? 0 then 1 else nfiles) false in mk_summary arr arr nfiles [] 0.

(** ** The TCP receiver: arrays that grow by eights, the statistics as above *)

Definition arr_push (arr : name_array) (name : list Z) : M E name_array :=
  let idx := zlen (na_names arr) in
  let! cur := (if idx mod 8 =? 0 then
                 let newcap := idx + 8 in
                 let! ok := mlift (hp_malloc (newcap * 8)) in
                 mret (if (ok : bool) then Some (mk_names (na_names arr) newcap (na_overrun arr)) else None)
               else mret (Some arr)) in
  match cur with
  | None => mret arr
  | Some cur =>
    let! cp := dup_cstr name in
    match cp with None => mret cur | Some cp => mret (na_put (Some cp) cur) end
  end.
Definition rx_stats_start := tx_stats_start.
Definition rx_stats_complete := tx_stats_complete.
Definition on_file_start_rx (filename : list Z) (file_size resume_offset : Z) (sum : summary) : M E summary :=
  rx_stats_start sum filename (bytes_left file_size resume_offset).
Definition on_file_complete_rx (filename : list Z) (result : Z) (sum : summary) : M E summary :=
  let! sum := (if result =? VAL_OK then let! a := arr_push (su_done sum) filename in mret (set_done a sum)
               else if result =? VAL_SKIPPED then let! a := arr_push (su_skipped sum) filename in mret (set_skipped a sum)
               else mret sum) in
  rx_stats_complete sum filename result.
Definition rx_summary_init : summary := mk_summary (mk_names [] 0 false) (mk_names [] 0 false) 0 [] 0.

(** ** The serial programs: [strdup] and [realloc] unchecked, the first entry of a name *)

Definition com_summary_add (arr : name_array) (cap : Z) (name : list Z) : M E name_array :=
  if cap <=? zlen (na_names arr) then mret arr
  else let! cp := dup_cstr name in mret (na_put cp arr).
(** A failure of [realloc] is a null pointer that the program goes on to use; it is taken to succeed. *)
Definition com_stats_start (sum : summary) (filename : list Z) (bytes : Z) : M E summary :=
  let! name := dup_cstr filename in
  let! start := now_ms in
  mret (set_stats (su_stats sum ++ [mk_stat name bytes start 0 (-1)]) sum).
Definition com_stats_complete (sum : summary) (filename : list Z) (result : Z) : M E summary :=
  match list_find (λ st, fs_name st = Some filename) (su_stats sum) with
  | None => mret sum
  | Some (idx, _) => let! now := now_ms in mret (set_stats (alter (close_stat now result) idx (su_stats sum)) sum)
  end.
Definition com_file_start (filename : list Z) (file_size resume_offset : Z) (sum : summary) : M E summary :=
  com_stats_start sum filename (bytes_left file_size resume_offset).
Definition com_file_complete (filename : list Z) (result : Z) (sum : summary) : M E summary :=
  let! sum := (if result =? VAL_OK then
                 let! a := com_summary_add (su_done sum) (su_capacity sum) filename in mret (set_done a sum)
               else if result =? VAL_SKIPPED then
                 let! a := com_summary_add (su_skipped sum) (su_capacity sum) filename in mret (set_skipped a sum)
               else mret sum) in
  com_stats_complete sum filename result.
(** [sum] of the serial receiver's [main]: room for one name each, a capacity of 16. *)
Definition com_rx_summary_init : summary := mk_summary (mk_names [] 1 false) (mk_names [] 1 false) 16 [] 0.
End report.


(** ** The programs' hooks: those of [H], and callbacks that keep a summary beside the environment *)

Definition beside {E S A} (h : E → A * E) (es : E * S) : A * (E * S) := let '(a, e) := h (fst es) in (a, (e, snd es)).
Definition beside_unit {E S} (h : E → E) (es : E * S) : E * S := (h (fst es), snd es).
Definition keep {E} (m : summary → M E summary) (es : E * summary) : bool * (E * summary) :=
  match m (snd es) (fst es) with Some (s, e) => (false, (e, s)) | None => (false, es) end.
Definition with_report {E} (H : Hooks E) (on_start : list Z → Z → Z → summary → M E summary)
    (on_complete : list Z → Z → summary → M E summary) : Hooks (E * summary) := {|
  hk_send fr := beside (hk_send fr); hk_recv n t := beside (hk_recv n t);
  hk_is_connected := beside hk_is_connected; hk_flush := beside_unit hk_flush;
  hk_fopen p m := beside (hk_fopen p m); hk_fread h n := beside (hk_fread h n);
  hk_fwrite h l := beside (hk_fwrite h l); hk_fseek h o wh := beside (hk_fseek h o wh);
  hk_ftell h := beside (hk_ftell h); hk_fclose h := beside_unit (hk_fclose h);
  hk_crc32 := hk_crc32; hk_get_ticks_ms := beside hk_get_ticks_ms; hk_delay_ms ms := beside_unit (hk_delay_ms ms);
  hk_on_file_start n _ sz o := keep (on_start n sz o);
  hk_on_file_complete n _ r := keep (on_complete n r);
  hk_on_progress i := beside (hk_on_progress i);
  hk_validator m p := beside (hk_validator m p);
  hk_on_packet rec := beside_unit (hk_on_packet rec);
  hk_append p l := beside_unit (hk_append p l)
|}.
#[export] Instance report_view {E} : View (E * summary) := {| view_of := summary; view := snd |}.

Section lifted.
Context {E : Type} (H : Hooks E) (on_start : list Z → Z → Z → summary → M E summary)
  (on_complete : list Z → Z → summary → M E summary).
#[local] Instance lifted : Hooks (E * summary) := with_report H on_start on_complete.

Lemma beside_view {A} (h : E → A * E) (es : E * summary) : snd (snd (beside h es)) = snd es.
Proof. unfold beside. by destruct (h (fst es)). Qed.
Lemma lifted_unseen : Unseen (E * summary) (View0:=report_view).
Proof. constructor; intros; cbn; done || apply beside_view. Qed.

(** Callbacks that come back, seen through an invariant of the announcements. *)
Lemma lifted_reports (J : announced → summary → Prop) :
  (∀ d n sz o su e, J (mk_announced d None) su → wpt (on_start n sz o su) (λ su' _, J (mk_announced d (Some n)) su') e) →
  (∀ d n r su e, J (mk_announced d (Some n)) su →
     wpt (on_complete n r su) (λ su' _, J (mk_announced (d ++ [(n, r)]) None) su') e) →
  Reports (E * summary) (View0:=report_view) J.
Proof.
  intros Hs Hc. split.
  - intros d n p sz o [e su] HJ. cbn in *. unfold keep. cbn. specialize (Hs d n sz o su e HJ). unfold wp in Hs.
    by destruct (on_start n sz o su e) as [[su' e']|].
  - intros d n p r [e su] HJ. cbn in *. unfold keep. cbn. specialize (Hc d n r su e HJ). unfold wp in Hc.
    by destruct (on_complete n r su e) as [[su' e']|].
Qed.
End lifted.

(** ** What the summaries come to *)

(** The names that ended with [r], and the entries of the statistics. *)
Definition ended_with (r : Z) (a : announced) : list (list Z) :=
  omap (λ e, if snd e =? r then Some (fst e) else None) (an_done a).
Definition stat_key (st : file_stat) : option (list Z) * Z := (fs_name st, fs_result st).
Definition stats_match (a : announced) (stats : list file_stat) : Prop :=
  ∃ l o, stats = l ++ o ∧ map stat_key l = map (λ e, (Some (fst e), snd e)) (an_done a) ∧
    match an_open a with
    | None => o = []
    | Some n => ∃ st, o = [st] ∧ fs_name st = Some n ∧ fs_elapsed_ms st = 0
    end.
(** An array that has taken exactly these names, inside its bounds. *)
Definition lists_names (names : list (list Z)) (arr : name_array) : Prop :=
  na_names arr = map Some names ∧ na_overrun arr = false.

Lemma ended_with_snoc r d n r' o o' :
  ended_with r (mk_announced (d ++ [(n, r')]) o) = ended_with r (mk_announced d o') ++ (if r' =? r then [n] else []).
Proof. unfold ended_with. cbn. rewrite omap_app. cbn. by destruct (r' =? r). Qed.

Section summaries.
Context {E : Type} `{!Malloc E} (now_ms : M E Z).
Context (Hmalloc : ∀ n e, fst (hp_malloc n e) = true) (Hnow : ∀ e, wpt now_ms (λ _ _, True) e).

Lemma malloc_ok {B} n (k : bool → M E B) Q e : (∀ e', wpt (k true) Q e') → wpt (mbind (mlift (hp_malloc n)) k) Q e.
Proof. intros Hk. apply wp_bind, wp_lift. rewrite Hmalloc. apply Hk. Qed.
Lemma dup_ok {B} s (k : option (list Z) → M E B) Q e : (∀ e', wpt (k (Some s)) Q e') → wpt (mbind (dup_cstr s) k) Q e.
Proof. intros Hk. apply wp_bind. apply malloc_ok. intros e'. by apply wp_ret. Qed.
Lemma now_ok {B} (k : Z → M E B) Q e : (∀ t e', wpt (k t) Q e') → wpt (mbind now_ms k) Q e.
Proof. intros Hk. apply wp_bind. eapply wp_mono; [apply Hnow|]. intros. apply Hk. Qed.

Lemma stats_start_spec su n bytes d e : stats_match (mk_announced d None) (su_stats su) →
  wpt (tx_stats_start now_ms su n bytes)
    (λ su' _, stats_match (mk_announced d (Some n)) (su_stats su') ∧ su_done su' = su_done su ∧
              su_skipped su' = su_skipped su ∧ su_capacity su' = su_capacity su) e.
Proof.
  intros (l & o & Es & Hl & ->). rewrite app_nil_r in Es. subst l. unfold tx_stats_start. apply wp_bind.
  assert (Hg : ∀ c Q, (∀ cap e', Q (Some cap) e') → wpt (if zlen (su_stats su) =? c then
      let newcap := if c =? 0 then 8 else c * 2 in
      let! ok := mlift (hp_malloc (newcap * stat_size)) in mret (if (ok : bool) then Some newcap else None)
    else mret (Some c)) Q e).
  { intros c Q HQ. destruct (_ =? c); [|by apply wp_ret]. cbv zeta. apply malloc_ok. intros e'. by apply wp_ret. }
  apply Hg. intros cap e'. apply dup_ok. intros e1. apply now_ok. intros t e2. apply wp_ret. cbn.
  split; [|done]. exists (su_stats su). eexists. split; [done|]. split; [done|]. by eexists.
Qed.
Lemma find_last l st n : fs_name st = Some n → fs_elapsed_ms st = 0 → find_running (l ++ [st]) n (S (length l)) = Some (length l).
Proof. intros Hn He. cbn [find_running]. rewrite list_lookup_middle by done. by rewrite bool_decide_true, He. Qed.
Lemma stats_complete_spec su n r d e : stats_match (mk_announced d (Some n)) (su_stats su) →
  wpt (tx_stats_complete now_ms su n r)
    (λ su' _, stats_match (mk_announced (d ++ [(n, r)]) None) (su_stats su') ∧ su_done su' = su_done su ∧
              su_skipped su' = su_skipped su ∧ su_capacity su' = su_capacity su) e.
Proof.
  intros (l & o & Es & Hl & st & -> & Hn & He). unfold tx_stats_complete.
  rewrite Es, length_app, Nat.add_1_r, find_last by done. apply now_ok. intros t e1. apply wp_ret. cbn. split; [|done].
  exists (l ++ [close_stat t r st]), []. split.
  { rewrite app_nil_r. replace (length l) with (length l + 0)%nat by lia. by rewrite alter_app_r. }
  split; [|done]. cbn [an_done] in *. rewrite !(map_app _ _ [_]), Hl. unfold stat_key. cbn. by rewrite Hn.
Qed.

(** *** The arrays of names *)

(** The TCP sender's: as many as were declared, with room for them all. *)
Definition tx_array (cap : Z) (names : list (list Z)) (arr : name_array) : Prop :=
  lists_names (ztake cap names) arr ∧ na_room arr = (if cap =? 0 then 1 else cap).
(** The TCP receiver's: room in blocks of eight. *)
Definition rx_array (names : list (list Z)) (arr : name_array) : Prop :=
  lists_names names arr ∧ zlen names <= na_room arr ∧ na_room arr mod 8 = 0.
(** The serial programs': some room, and up to [cap] stores. *)
Definition com_array (room cap : Z) (names : list (list Z)) (arr : name_array) : Prop :=
  na_names arr = map Some (ztake cap names) ∧ na_room arr = room ∧ na_overrun arr = (room <? zlen (ztake cap names)).

Lemma zlen_map_some (l : list (list Z)) : zlen (map Some l) = zlen l.
Proof. apply zlen_map. Qed.
Lemma ztake_snoc_full {A} cap (l : list A) x : 0 <= cap → cap <= zlen (ztake cap l) → ztake cap (l ++ [x]) = ztake cap l.
Proof. intros H0 Hc. unfold ztake, zlen in *. rewrite length_take in Hc. apply take_app_le. lia. Qed.
Lemma ztake_snoc_room {A} cap (l : list A) x : 0 <= cap → zlen (ztake cap l) < cap →
  ztake cap l = l ∧ ztake cap (l ++ [x]) = l ++ [x].
Proof.
  intros H0 Hc. unfold ztake, zlen in *. rewrite length_take in Hc. split; apply take_ge; rewrite ?length_app; cbn; lia.
Qed.

Lemma tx_add_spec cap names arr n e : 0 <= cap → tx_array cap names arr →
  wpt (tx_summary_add arr cap n) (λ arr' _, tx_array cap (names ++ [n]) arr') e.
Proof.
  intros H0 [[Hn Ho] Hr]. unfold tx_summary_add. rewrite Hn, zlen_map_some. destruct (Z.leb_spec cap (zlen (ztake cap names))).
  - apply wp_ret. unfold tx_array, lists_names. by rewrite ztake_snoc_full.
  - apply dup_ok. intros e'. apply wp_ret. destruct (ztake_snoc_room cap names n H0) as [E1 E2]; [lia|].
    unfold tx_array, lists_names, na_put. cbn. rewrite Hn, Ho, E2, E1 in *. rewrite zlen_map_some, Hr, map_app.
    split; [split; [done|]|done]. cbn. destruct (cap =? 0) eqn:?; lia.
Qed.
Lemma rx_push_spec names arr n e : rx_array names arr → wpt (arr_push arr n) (λ arr' _, rx_array (names ++ [n]) arr') e.
Proof.
  intros ([Hn Ho] & Hr & Hm). unfold arr_push. rewrite Hn, zlen_map_some. cbv zeta. apply wp_bind.
  pose proof (zlen_nonneg names) as Hz.
  assert (Hput : ∀ a e', na_names a = map Some names → na_overrun a = false → zlen names < na_room a → na_room a mod 8 = 0 →
    wpt (let! cp := dup_cstr n in match cp with None => mret a | Some cp => mret (na_put (Some cp) a) end)
      (λ arr' _, rx_array (names ++ [n]) arr') e').
  { intros a e' Ha Hoa Hra Hma. apply dup_ok. intros e1. apply wp_ret. unfold rx_array, lists_names, na_put. cbn.
    rewrite Ha, Hoa, map_app, zlen_map_some, zlen_app. cbn. change (zlen [n]) with 1. repeat split; lia || done. }
  destruct (Z.eqb_spec (zlen names mod 8) 0) as [H8|H8].
  - apply malloc_ok. intros e'. apply wp_ret. apply Hput; cbn; [done|done|lia|]. rewrite Z.add_mod, H8 by lia. done.
  - apply wp_ret. apply Hput; [done|done| |done]. assert (zlen names ≠ na_room arr) by congruence. lia.
Qed.
Lemma com_add_spec room cap names arr n e : 0 <= cap → com_array room cap names arr →
  wpt (com_summary_add arr cap n) (λ arr' _, com_array room cap (names ++ [n]) arr') e.
Proof.
  intros H0 (Hn & Hr & Ho). unfold com_summary_add. rewrite Hn, zlen_map_some. destruct (Z.leb_spec cap (zlen (ztake cap names))).
  - apply wp_ret. unfold com_array. by rewrite ztake_snoc_full.
  - apply dup_ok. intros e'. apply wp_ret. destruct (ztake_snoc_room cap names n H0) as [E1 E2]; [lia|].
    unfold com_array, na_put. cbn. rewrite Hn, Ho, E2, E1 in *. rewrite zlen_map_some, Hr, map_app, zlen_app.
    split; [done|]. split; [done|]. change (zlen [n]) with 1. pose proof (zlen_nonneg names).
    destruct (Z.ltb_spec room (zlen names)), (Z.leb_spec room (zlen names)), (Z.ltb_spec room (zlen names + 1)); cbn; lia || done.
Qed.

(** *** The callbacks *)

(** Both arrays of names. *)
Definition names_told (P : list (list Z) → name_array → Prop) (a : announced) (su : summary) : Prop :=
  P (ended_with VAL_OK a) (su_done su) ∧ P (ended_with VAL_SKIPPED a) (su_skipped su).
Lemma names_told_open P d o o' su : names_told P (mk_announced d o) su → names_told P (mk_announced d o') su.
Proof. done. Qed.
Lemma tell_spec (P : list (list Z) → name_array → Prop) add d o o' n r su e :
  (∀ names arr e, P names arr → wpt (add arr) (λ arr' _, P (names ++ [n]) arr') e) →
  names_told P (mk_announced d o) su →
  wpt (if r =? VAL_OK then let! a := add (su_done su) in mret (set_done a su)
       else if r =? VAL_SKIPPED then let! a := add (su_skipped su) in mret (set_skipped a su)
       else mret (W:=E) su)
    (λ su' _, names_told P (mk_announced (d ++ [(n, r)]) o') su' ∧ su_stats su' = su_stats su ∧
              su_capacity su' = su_capacity su) e.
Proof.
  intros Hadd [H1 H2]. unfold names_told. rewrite !(ended_with_snoc _ d n r o' o).
  destruct (Z.eqb_spec r VAL_OK) as [->|Hr].
  - apply wp_bind. eapply wp_mono; [by apply Hadd|]. intros arr e' Ha. apply wp_ret. cbn.
    by rewrite app_nil_r.
  - destruct (Z.eqb_spec r VAL_SKIPPED) as [->|Hr'].
    + apply wp_bind. eapply wp_mono; [by apply Hadd|]. intros arr e' Ha. apply wp_ret. cbn. by rewrite app_nil_r.
    + apply wp_ret. by rewrite !app_nil_r.
Qed.

Definition tx_told (cap : Z) (a : announced) (su : summary) : Prop :=
  su_capacity su = cap ∧ names_told (tx_array cap) a su ∧ stats_match a (su_stats su).
Definition rx_told (a : announced) (su : summary) : Prop := names_told rx_array a su ∧ stats_match a (su_stats su).
Definition com_told (room cap : Z) (a : announced) (su : summary) : Prop :=
  su_capacity su = cap ∧ names_told (com_array room cap) a su.

Lemma tx_start_told cap d n sz o su e : tx_told cap (mk_announced d None) su →
  wpt (on_file_start_tx now_ms n sz o su) (λ su' _, tx_told cap (mk_announced d (Some n)) su') e.
Proof.
  intros (Hc & Hn & Hs). eapply wp_mono; [by apply stats_start_spec|]. cbv beta.
  intros su' e' (Hs' & E1 & E2 & E3). split; [congruence|]. split; [|done]. unfold names_told. by rewrite E1, E2.
Qed.
Lemma tx_complete_told cap d n r su e : 0 <= cap → tx_told cap (mk_announced d (Some n)) su →
  wpt (on_file_complete_tx now_ms n r su) (λ su' _, tx_told cap (mk_announced (d ++ [(n, r)]) None) su') e.
Proof.
  intros H0 (Hc & Hn & Hs). apply wp_bind.
  eapply wp_mono; [apply (tell_spec (tx_array cap) (λ arr, tx_summary_add arr (su_capacity su) n) d (Some n) None n r su e); [|done]|].
  { intros names arr e1 Ha. rewrite Hc. by apply tx_add_spec. }
  intros su1 e1 (Hn1 & Es & Ec). cbv beta. eapply wp_mono; [apply stats_complete_spec; by rewrite Es|]. cbv beta.
  intros su' e' (Hs' & E1 & E2 & E3). split; [congruence|]. split; [|done]. unfold names_told. by rewrite E1, E2.
Qed.
Lemma rx_start_told d n sz o su e : rx_told (mk_announced d None) su →
  wpt (on_file_start_rx now_ms n sz o su) (λ su' _, rx_told (mk_announced d (Some n)) su') e.
Proof.
  intros (Hn & Hs). eapply wp_mono; [by apply stats_start_spec|]. cbv beta.
  intros su' e' (Hs' & E1 & E2 & E3). split; [|done]. unfold names_told. by rewrite E1, E2.
Qed.
Lemma rx_complete_told d n r su e : rx_told (mk_announced d (Some n)) su →
  wpt (on_file_complete_rx now_ms n r su) (λ su' _, rx_told (mk_announced (d ++ [(n, r)]) None) su') e.
Proof.
  intros (Hn & Hs). apply wp_bind.
  eapply wp_mono; [apply (tell_spec rx_array (λ arr, arr_push arr n) d (Some n) None n r su e); [|done]|].
  { intros names arr e1 Ha. by apply rx_push_spec. }
  intros su1 e1 (Hn1 & Es & Ec). cbv beta. eapply wp_mono; [apply stats_complete_spec; by rewrite Es|]. cbv beta.
  intros su' e' (Hs' & E1 & E2 & E3). split; [|done]. unfold names_told. by rewrite E1, E2.
Qed.
Lemma com_start_told room cap d n sz o su e : com_told room cap (mk_announced d None) su →
  wpt (com_file_start now_ms n sz o su) (λ su' _, com_told room cap (mk_announced d (Some n)) su') e.
Proof. intros [Hc Hn]. apply dup_ok. intros e1. apply now_ok. intros t e2. by apply wp_ret. Qed.
Lemma com_complete_told room cap d n r su e : 0 <= cap → com_told room cap (mk_announced d (Some n)) su →
  wpt (com_file_complete now_ms n r su) (λ su' _, com_told room cap (mk_announced (d ++ [(n, r)]) None) su') e.
Proof.
  intros H0 (Hc & Hn). apply wp_bind.
  eapply wp_mono; [apply (tell_spec (com_array room cap) (λ arr, com_summary_add arr (su_capacity su) n) d (Some n) None n r su e); [|done]|].
  { intros names arr e1 Ha. rewrite Hc. by apply com_add_spec. }
  intros su1 e1 (Hn1 & Es & Ec). cbv beta. unfold com_stats_complete.
  destruct (list_find _ _) as [[i st]|]; [apply now_ok; intros t e2|]; apply wp_ret; (split; [cbn; congruence|done]).
Qed.
End summaries.

(** ** The reports *)

(** Every announced file has one entry, with its result, and the names are those that ended well. *)
Definition reports_exactly (a : announced) (su : summary) : Prop :=
  lists_names (ended_with VAL_OK a) (su_done su) ∧ lists_names (ended_with VAL_SKIPPED a) (su_skipped su) ∧
  stats_match a (su_stats su).

Lemma ended_with_length r a : (length (ended_with r a) <= length (an_done a))%nat.
Proof. unfold ended_with. induction (an_done a) as [|[n r'] l IH]; cbn; [done|]. destruct (r' =? r); cbn; lia. Qed.
Lemma tx_told_exactly cap a su : zlen (an_done a) <= cap → tx_told cap a su → reports_exactly a su.
Proof.
  intros Hz (_ & [[H1 _] [H2 _]] & Hs). pose proof (ended_with_length VAL_OK a). pose proof (ended_with_length VAL_SKIPPED a).
  unfold zlen in *. rewrite !ztake_all in * by (unfold zlen; lia). done.
Qed.

Section theorems.
Context {E : Type} `{!Malloc E} `{!BuildOptions} (app : Hooks E) (now_ms : M E Z).
Context (Hmalloc : ∀ n e, fst (hp_malloc n e) = true) (Hnow : ∀ e, wpt now_ms (λ _ _, True) e).
Definition tx_hooks : Hooks (E * summary) := with_report app (on_file_start_tx now_ms) (on_file_complete_tx now_ms).
Definition rx_hooks : Hooks (E * summary) := with_report app (on_file_start_rx now_ms) (on_file_complete_rx now_ms).
Definition com_hooks : Hooks (E * summary) := with_report app (com_file_start now_ms) (com_file_complete now_ms).

(** From an empty summary, an invariant of the announcements holds at the end. *)
Lemma told_at_end {A} J c (m : M (world (E * summary)) A) post (w : world (E * summary)) :
  obeys (View0:=report_view) announce_step J c (mk_announced [] None) m post →
  s_cfg (w_s w) = c → J (mk_announced [] None) (snd (w_e w)) →
  wpp m (λ r w', ∃ a, announced_since w w' a ∧ post r a ∧ J a (snd (w_e w'))) w.
Proof.
  intros Hm Hc HJ. eapply wp_mono; [by apply Hm|]. cbv beta. intros r w' (_ & evs & a & Et & R & P & J').
  exists a. split; [by exists evs|done].
Qed.
(** What is announced, whatever becomes of the report. *)
Lemma send_announced (Hk : Hooks (E * summary)) fuel files sp (w : world (E * summary)) :
  cfg_has_on_file_start (s_cfg (w_s w)) = true → cfg_has_on_file_complete (s_cfg (w_s w)) = true →
  wpp (val_send_files (Hooks0:=Hk) fuel files sp)
    (λ st w', ∃ a, announced_since w w' a ∧ announced_batch files st (an_done a) (an_open a)) w.
Proof. intros Hs Hc. apply tells_run. by apply tells_send_files; try apply no_reports. Qed.
Lemma receive_announced (Hk : Hooks (E * summary)) fuel dir (w : world (E * summary)) :
  cfg_has_on_file_start (s_cfg (w_s w)) = true → cfg_has_on_file_complete (s_cfg (w_s w)) = true →
  cfg_resume_mode (s_cfg (w_s w)) ≠ VAL_RESUME_NEVER →
  wpp (val_receive_files (Hooks0:=Hk) fuel dir) (λ _ w', ∃ a, announced_since w w' a ∧ outcomes a) w.
Proof. intros Hs Hc Hm. apply tells_run. by apply tells_receive_files; try apply no_reports. Qed.
Lemma tx_told_run fuel files sp (w : world (E * summary)) :
  cfg_has_on_file_start (s_cfg (w_s w)) = true → cfg_has_on_file_complete (s_cfg (w_s w)) = true →
  snd (w_e w) = tx_summary_init (zlen files) →
  wpp (val_send_files (Hooks0:=tx_hooks) fuel files sp)
    (λ st w', ∃ a, announced_since w w' a ∧ announced_batch files st (an_done a) (an_open a) ∧
                   tx_told (zlen files) a (snd (w_e w'))) w.
Proof.
  intros Hs Hc Hw. eapply told_at_end; [|done|].
  - assert (Reports (E * summary) (Hooks0:=tx_hooks) (View0:=report_view) (tx_told (zlen files))) as Hr.
    { apply lifted_reports; intros; [by apply tx_start_told|]. apply tx_complete_told; [done..|apply zlen_nonneg|done]. }
    by apply (tells_send_files (Hooks0:=tx_hooks) (View0:=report_view) (Unseen0:=lifted_unseen _ _ _)
      (tx_told (zlen files)) (Reports0:=Hr)).
  - rewrite Hw. split; [done|]. split; [|by exists [], []].
    assert (Ha : ∀ n, tx_array n [] (mk_names [] (if n =? 0 then 1 else n) false)) by (intros n; unfold tx_array, lists_names, ztake; by rewrite take_nil).
    split; apply Ha.
Qed.
(** The serial sender's arrays have room for every file. *)
Lemma com_tx_told_run fuel files sp (w : world (E * summary)) : files ≠ [] →
  cfg_has_on_file_start (s_cfg (w_s w)) = true → cfg_has_on_file_complete (s_cfg (w_s w)) = true →
  snd (w_e w) = tx_summary_init (zlen files) →
  wpp (val_send_files (Hooks0:=com_hooks) fuel files sp)
    (λ st w', ∃ a, announced_since w w' a ∧ announced_batch files st (an_done a) (an_open a) ∧
                   lists_names (ended_with VAL_OK a) (su_done (snd (w_e w'))) ∧
                   lists_names (ended_with VAL_SKIPPED a) (su_skipped (snd (w_e w')))) w.
Proof.
  intros Hne%zlen_ne_pos Hs Hc Hw. set (n := zlen files) in *. eapply wp_mono.
  - apply (told_at_end (com_told n n) (s_cfg (w_s w)) _ (λ st a, announced_batch files st (an_done a) (an_open a)) w); [|done|].
    + assert (Reports (E * summary) (Hooks0:=com_hooks) (View0:=report_view) (com_told n n)) as Hr.
      { apply lifted_reports; intros; [by apply com_start_told|apply com_complete_told; [done..|lia|done]]. }
      by apply (tells_send_files (Hooks0:=com_hooks) (View0:=report_view) (Unseen0:=lifted_unseen _ _ _)
        (com_told n n) (Reports0:=Hr)).
    + rewrite Hw. split; [done|]. unfold tx_summary_init. replace (n =? 0) with false by lia.
      assert (Ha : com_array n n [] (mk_names [] n false)).
      { unfold com_array, ztake. rewrite take_nil. split; [done|]. split; [done|]. change (false = (n <? 0)). lia. }
      by split.
  - cbv beta. intros st w' (a & Ha & Hb & _ & (H1 & _ & O1) & (H2 & _ & O2)). exists a. split; [done|]. split; [done|].
    pose proof (batch_length _ _ _ _ Hb) as Hl. pose proof (ended_with_length VAL_OK a). pose proof (ended_with_length VAL_SKIPPED a).
    assert (Hall : ∀ l : list (list Z), (length l <= length (an_done a))%nat → ztake n l = l ∧ (n <? zlen l) = false).
    { intros l Hle. subst n. unfold zlen in *. split; [apply ztake_all; unfold zlen; lia|lia]. }
    destruct (Hall (ended_with VAL_OK a)) as [E1 E2]; [done|]. destruct (Hall (ended_with VAL_SKIPPED a)) as [E3 E4]; [done|].
    rewrite E1, E2 in *. rewrite E3, E4 in *. done.
Qed.
Lemma receiver_told_run {J : announced → summary → Prop} (Hk : Hooks (E * summary)) fuel dir (w : world (E * summary)) :
  Unseen (E * summary) (Hooks0:=Hk) (View0:=report_view) → Reports (E * summary) (Hooks0:=Hk) (View0:=report_view) J →
  cfg_has_on_file_start (s_cfg (w_s w)) = true → cfg_has_on_file_complete (s_cfg (w_s w)) = true →
  cfg_resume_mode (s_cfg (w_s w)) ≠ VAL_RESUME_NEVER → J (mk_announced [] None) (snd (w_e w)) →
  wpp (val_receive_files (Hooks0:=Hk) fuel dir)
    (λ _ w', ∃ a, announced_since w w' a ∧ outcomes a ∧ J a (snd (w_e w'))) w.
Proof.
  intros Hu Hr Hs Hc Hm HJ. eapply told_at_end; [|done|exact HJ].
  by apply (tells_receive_files (Hooks0:=Hk) (View0:=report_view) J).
Qed.
Lemma rx_told_run fuel dir (w : world (E * summary)) :
  cfg_has_on_file_start (s_cfg (w_s w)) = true → cfg_has_on_file_complete (s_cfg (w_s w)) = true →
  cfg_resume_mode (s_cfg (w_s w)) ≠ VAL_RESUME_NEVER → snd (w_e w) = rx_summary_init →
  wpp (val_receive_files (Hooks0:=rx_hooks) fuel dir)
    (λ _ w', ∃ a, announced_since w w' a ∧ outcomes a ∧ reports_exactly a (snd (w_e w'))) w.
Proof.
  intros Hs Hc Hm Hw. eapply wp_mono; [apply (receiver_told_run (J:=rx_told)); [apply lifted_unseen| |done..|]|].
  - apply lifted_reports; intros; [by apply rx_start_told|by apply rx_complete_told].
  - rewrite Hw. split; [by repeat split|by exists [], []].
  - cbv beta. intros st w' (a & Ha & Ho & [[H1 _] [H2 _]] & Hst). by exists a.
Qed.
(** The serial receiver's have room for one name. *)
Lemma com_rx_told_run fuel dir (w : world (E * summary)) :
  cfg_has_on_file_start (s_cfg (w_s w)) = true → cfg_has_on_file_complete (s_cfg (w_s w)) = true →
  cfg_resume_mode (s_cfg (w_s w)) ≠ VAL_RESUME_NEVER → snd (w_e w) = com_rx_summary_init →
  wpp (val_receive_files (Hooks0:=com_hooks) fuel dir)
    (λ _ w', ∃ a, announced_since w w' a ∧ outcomes a ∧
       na_overrun (su_done (snd (w_e w'))) = (1 <? zlen (ended_with VAL_OK a)) ∧
       na_overrun (su_skipped (snd (w_e w'))) = (1 <? zlen (ended_with VAL_SKIPPED a))) w.
Proof.
  intros Hs Hc Hm Hw.
  assert (Hmin : ∀ l : list (list Z), (1 <? zlen (ztake 16 l)) = (1 <? zlen l)).
  { intros l. unfold zlen, ztake. rewrite length_take.
    destruct (Z.ltb_spec 1 (Z.of_nat (Z.to_nat 16 `min` length l))), (Z.ltb_spec 1 (Z.of_nat (length l))); lia || done. }
  eapply wp_mono; [apply (receiver_told_run (J:=com_told 1 16)); [apply lifted_unseen| |done..|]|].
  - apply lifted_reports; intros; [by apply com_start_told|by apply com_complete_told].
  - rewrite Hw. split; [done|]. by repeat split.
  - cbv beta. intros st w' (a & Ha & Ho & _ & (_ & _ & H1) & (_ & _ & H2)). exists a. by rewrite H1, H2, !Hmin.
Qed.
End theorems.

(** The report at the end of the TCP programs is true, whatever happened on the way, as long
    as memory lasts. After [val_send_files] with the sender's callbacks the names under
    "Files Sent" and "Files Skipped" are exactly those announced as ended with OK and
    SKIPPED, in order - none is dropped for want of room - and the statistics have one
    entry for each announced file, with its result. The same holds of
    [val_receive_files] with the receiver's callbacks, whose arrays grow; and no store into the
    arrays is out of bounds. *)
Theorem reports_faithful {E} `{!Malloc E} `{!BuildOptions} (app : Hooks E) now_ms fuel files sp dir (w : world (E * summary)) :
  (∀ n e, fst (hp_malloc n e) = true) → (∀ e, wpt now_ms (λ _ _, True) e) →
  cfg_has_on_file_start (s_cfg (w_s w)) = true → cfg_has_on_file_complete (s_cfg (w_s w)) = true →
  (snd (w_e w) = tx_summary_init (zlen files) →
   wpp (val_send_files (Hooks0:=tx_hooks app now_ms) fuel files sp)
     (λ st w', ∃ a, announced_since w w' a ∧ announced_batch files st (an_done a) (an_open a) ∧
                    reports_exactly a (snd (w_e w'))) w) ∧
  (cfg_resume_mode (s_cfg (w_s w)) ≠ VAL_RESUME_NEVER → snd (w_e w) = rx_summary_init →
   wpp (val_receive_files (Hooks0:=rx_hooks app now_ms) fuel dir)
     (λ _ w', ∃ a, announced_since w w' a ∧ outcomes a ∧ reports_exactly a (snd (w_e w'))) w).
Proof.
  intros Hmalloc Hnow Hs Hc. split.
  - intros Hw. eapply wp_mono; [by apply tx_told_run|]. cbv beta. intros st w' (a & Ha & Hb & Ht). exists a.
    split; [done|]. split; [done|]. eapply tx_told_exactly; [|exact Ht]. apply batch_length in Hb. unfold zlen. lia.
  - intros Hm Hw. by apply rx_told_run.
Qed.

(** The serial receiver's report writes past its arrays. [main] allocates one pointer for each
    array and gives them a capacity of 16: in any run of [val_receive_files] with its callbacks a
    second received file - or a second skipped one - stores a pointer past the end. *)
Theorem serial_report_overruns {E} `{!Malloc E} `{!BuildOptions} (app : Hooks E) now_ms fuel dir (w : world (E * summary)) :
  (∀ n e, fst (hp_malloc n e) = true) → (∀ e, wpt now_ms (λ _ _, True) e) →
  cfg_has_on_file_start (s_cfg (w_s w)) = true → cfg_has_on_file_complete (s_cfg (w_s w)) = true →
  cfg_resume_mode (s_cfg (w_s w)) ≠ VAL_RESUME_NEVER → snd (w_e w) = com_rx_summary_init →
  wpp (val_receive_files (Hooks0:=com_hooks app now_ms) fuel dir)
    (λ _ w', ∃ a, announced_since w w' a ∧
       na_overrun (su_done (snd (w_e w'))) = (1 <? zlen (ended_with VAL_OK a)) ∧
       na_overrun (su_skipped (snd (w_e w'))) = (1 <? zlen (ended_with VAL_SKIPPED a))) w.
Proof.
  intros Hmalloc Hnow Hs Hc Hm Hw. eapply wp_mono; [by apply com_rx_told_run|]. cbv beta. intros st w' (a & Ha & _ & Hr). by exists a.
Qed.

(** ** Runs: the batch of two files, and its receivers *)

#[export] Instance sim_malloc : Malloc sim := λ _ e, (true, e).
Definition sim_now_ms : M sim Z := λ e, Some (sim_now e, e).
Definition report_world (e : sim) (su : summary) : world (sim * summary) := mk_world demo_s (e, su) [].
Definition batch_script : list arrival :=
  Bytes (demo_fr VAL_PKT_HELLO demo_hello 0) :: one_file 300 ++ one_file 200 ++ [Bytes (demo_fr VAL_PKT_EOT_ACK [] 0)].
Definition batch_paths : list (list Z) := [demo_path; [103]].
Definition tx_start : world (sim * summary) :=
  report_world (sim_start batch_script [(demo_path, ztake 300 demo_file); ([103], ztake 200 demo_file)])
    (tx_summary_init (zlen batch_paths)).
Definition rx_start (su : summary) : world (sim * summary) :=
  report_world (sim_start (map Bytes (frames_out batch_run)) []) su.
Definition tx_report_run := val_send_files (Hooks0:=tx_hooks sim_hooks sim_now_ms) demo_fuel batch_paths None tx_start.
Definition rx_report_run := val_receive_files (Hooks0:=rx_hooks sim_hooks sim_now_ms) demo_fuel None (rx_start rx_summary_init).
Definition com_report_run := val_receive_files (Hooks0:=com_hooks sim_hooks sim_now_ms) demo_fuel None (rx_start com_rx_summary_init).

Definition returns_ok {W} (r : option (Z * W)) : Prop := match r with Some (st, _) => st = VAL_OK | None => False end.
Definition final {W} (r : option (Z * W)) (Q : W → Prop) : Prop := match r with Some (_, w) => Q w | None => False end.
Lemma returned {W} (m : M W Z) w (r : option (Z * W)) (P : Z → W → Prop) (Q : W → Prop) :
  m w = r → returns_ok r → wpp m P w → (∀ w', P VAL_OK w' → Q w') → returns_ok r ∧ final r Q.
Proof.
  intros <- Hr Hw HQ. split; [done|]. unfold wp, returns_ok, final in *. destruct (m w) as [[st w']|]; [|done]. subst st. by apply HQ.
Qed.

Lemma sim_memory n (e : sim) : fst (hp_malloc n e) = true.
Proof. done. Qed.
Lemma sim_clock e : wpt sim_now_ms (λ _ _, True) e.
Proof. done. Qed.
Lemma demo_announces : cfg_has_on_file_start (s_cfg demo_s) = true ∧ cfg_has_on_file_complete (s_cfg demo_s) = true ∧
  cfg_resume_mode (s_cfg demo_s) ≠ VAL_RESUME_NEVER.
Proof. by vm_compute. Qed.
Lemma runs_return : returns_ok tx_report_run ∧ returns_ok rx_report_run ∧ returns_ok com_report_run.
Proof. by vm_compute. Qed.
Lemma runs_result :
  final tx_report_run (λ w', na_names (su_done (snd (w_e w'))) = [Some demo_path; Some [103]]) ∧
  final rx_report_run (λ w', na_names (su_done (snd (w_e w'))) = [Some demo_path; Some [103]]) ∧
  final com_report_run (λ w', na_overrun (su_done (snd (w_e w'))) = true).
Proof. by vm_compute. Qed.

Lemma reports_faithful_witness :
  (returns_ok tx_report_run ∧ final tx_report_run (λ w', ∃ a, announced_since tx_start w' a ∧ reports_exactly a (snd (w_e w')))) ∧
  (returns_ok rx_report_run ∧ final rx_report_run (λ w', ∃ a, announced_since (rx_start rx_summary_init) w' a ∧ reports_exactly a (snd (w_e w')))) ∧
  final tx_report_run (λ w', na_names (su_done (snd (w_e w'))) = [Some demo_path; Some [103]]) ∧
  final rx_report_run (λ w', na_names (su_done (snd (w_e w'))) = [Some demo_path; Some [103]]).
Proof.
  destruct demo_announces as (Hs & Hc & Hm), runs_return as (R1 & R2 & _), runs_result as (F1 & F2 & _).
  destruct (reports_faithful sim_hooks sim_now_ms demo_fuel batch_paths None None tx_start
    sim_memory sim_clock Hs Hc) as [Htx _].
  destruct (reports_faithful sim_hooks sim_now_ms demo_fuel [] None None (rx_start rx_summary_init)
    sim_memory sim_clock Hs Hc) as [_ Hrx].
  split; [|split; [|exact (conj F1 F2)]].
  - apply (returned _ tx_start tx_report_run _ _ eq_refl R1 (Htx eq_refl)). intros w' (a & Ha & _ & Hr). exists a. exact (conj Ha Hr).
  - apply (returned _ (rx_start rx_summary_init) rx_report_run _ _ eq_refl R2 (Hrx Hm eq_refl)).
    intros w' (a & Ha & _ & Hr). exists a. exact (conj Ha Hr).
Defined.
Lemma serial_report_overruns_witness :
  (returns_ok com_report_run ∧ final com_report_run (λ w', ∃ a, announced_since (rx_start com_rx_summary_init) w' a ∧
     na_overrun (su_done (snd (w_e w'))) = (1 <? zlen (ended_with VAL_OK a)))) ∧
  final com_report_run (λ w', na_overrun (su_done (snd (w_e w'))) = true).
Proof.
  destruct demo_announces as (Hs & Hc & Hm), runs_return as (_ & _ & R3), runs_result as (_ & _ & F3).
  split; [|exact F3]. apply (returned _ (rx_start com_rx_summary_init) com_report_run _ _ eq_refl R3
    (serial_report_overruns sim_hooks sim_now_ms demo_fuel None (rx_start com_rx_summary_init)
       sim_memory sim_clock Hs Hc Hm eq_refl)).
  intros w' (a & Ha & Hd & _). exists a. exact (conj Ha Hd).
Defined.
