(* ===== verification/Programs.v ===== *)
(** The two TCP programs ([main] of [src/examples/tcp/val_example_send_tcp.c] and
    [val_example_receive_tcp.c]): command line, connection, session, the call of the library,
    and the report.

    What they print is left out; the report is what would be printed.  [app] is what the C
    library does for them (stdio); memory runs out where [Malloc] says so. *)
From stdpp Require Import strings.
From S2P Require Import Prelude ByteOrder Wire Errors Crc Sanitize Timing Session Records Simulation Window Packet Control.
From S2P Require Import Handshake Resume Sender Receiver Trace Typestate Callbacks Transfer Tcp Cli Report.

(** ** The receiver's example validator *)

Fixpoint strrchr (s : list Z) (c : Z) : option (list Z) :=
  match s with
  | [] => None
  | x :: r => match strrchr r c with Some t => Some t | None => if x =? c then Some s else None end
  end.
Fixpoint strstr (s p : list Z) : bool :=
  bool_decide (p `prefix_of` s) || match s with [] => false | _ :: r => strstr r p end.
Definition example_validator (meta : val_meta_payload_t) : Z :=
  if 10 * 1024 * 1024 <? meta_file_size meta then VAL_VALIDATION_SKIP
  else
    let filename := c_string (meta_memory meta) in
    let ext := strrchr filename 46 in
    if match ext with Some e => strieq e (text ".exe") || strieq e (text ".bat") | None => false end
    then VAL_VALIDATION_ABORT
    else if strstr filename (text "temp") || strstr filename (text ".tmp") then VAL_VALIDATION_SKIP
    else VAL_VALIDATION_ACCEPT.

(** ** The programs *)

(** The environment variables, and [malloc] of a buffer: its contents, if there is room. *)
Class Process (E : Type) := {
  pr_getenv : list Z → option (list Z);
  pr_buffer : Z → E → option (list Z) * E
}.
(** How a call of the library ended: its arguments' files, its status, the report, and what the
    session has done. *)
Record outcome (E : Type) := mk_outcome {
  oc_files : list (list Z); oc_status : Z; oc_report : summary; oc_world : world (E * summary) }.
Arguments mk_outcome {E}.
Arguments oc_files {E}.
Arguments oc_status {E}.
Arguments oc_report {E}.
Arguments oc_world {E}.

Section programs.
Context {E : Type} `{!Sockets E} `{!Malloc E} `{!Allocator E} `{!Process E} `{!BuildOptions} (app : Hooks E).

(** The session's part of [main]: from the new session on. *)
Definition in_session (files : list (list Z)) (s : val_session_t) (sum : summary) (m : M (world (E * summary)) Z)
    : M E (outcome E) :=
  λ e, match m (mk_world s (e, sum) []) with
       | Some (st, w) => Some (mk_outcome files st (snd (w_e w)) w, fst (w_e w))
       | None => None
       end.
Definition create_session (cfg : val_config_t) (sb rb : list Z) : M E (option val_session_t) :=
  mlift (λ e, let '(st, os, _, e', _) := val_session_create (Some cfg) true sb rb e in
              (if st =? VAL_OK then os else None, e')).
Definition two_buffers (packet : Z) : M E (option (list Z * list Z)) :=
  let! send_buf := mlift (pr_buffer packet) in
  let! recv_buf := mlift (pr_buffer packet) in
  mret (match send_buf, recv_buf with Some sb, Some rb => Some (sb, rb) | _, _ => None end).

(** The exit code, and how the transfer ended if there was one. *)
Definition tx_main (fuel : nat) (args : list (list Z)) : M E (Z * option (outcome E)) :=
  match parse_options tx_option args tcp_defaults with
  | inl code => mret (code, None)
  | inr (o, host :: port :: file :: rest) =>
    let files := file :: rest in
    let! fd := tcp_connect (Some host) (u16 (atoi port)) in
    if fd <? 0 then mret (2, None)
    else
      let! bufs := two_buffers (op_packet o) in
      match bufs with
      | None => mret (3, None)
      | Some (send_buf, recv_buf) =>
        let! tx := create_session (tx_config pr_getenv o) send_buf recv_buf in
        match tx with
        | None => mret (4, None)
        | Some tx =>
          let! oc := in_session files tx (tx_summary_init (zlen files))
                       (val_send_files (Hooks0:=tx_hooks (tcp_hooks fd fuel app) tcp_now_ms) fuel files None) in
          do! tcp_close fd in
          mret (if oc_status oc =? VAL_OK then 0 else 5, Some oc)
        end
      end
  | inr _ => mret (1, None)
  end.

(** The receiver's hooks: the validator is the example's. *)
Definition with_validator (H : Hooks E) : Hooks E := {|
  hk_send := hk_send; hk_recv := hk_recv; hk_is_connected := hk_is_connected; hk_flush := hk_flush;
  hk_fopen := hk_fopen; hk_fread := hk_fread; hk_fwrite := hk_fwrite; hk_fseek := hk_fseek; hk_ftell := hk_ftell;
  hk_fclose := hk_fclose; hk_crc32 := hk_crc32; hk_get_ticks_ms := hk_get_ticks_ms; hk_delay_ms := hk_delay_ms;
  hk_on_file_start := hk_on_file_start; hk_on_file_complete := hk_on_file_complete; hk_on_progress := hk_on_progress;
  hk_validator meta _ e := (example_validator meta, e);
  hk_on_packet := hk_on_packet; hk_append := hk_append
|}.
Definition rx_main (fuel : nat) (args : list (list Z)) : M E (Z * option (outcome E)) :=
  match parse_options rx_option args tcp_defaults with
  | inl code => mret (code, None)
  | inr (o, port :: outdir :: _) =>
    let! l := tcp_listen (u16 (atoi port)) 1 in
    if l <? 0 then mret (2, None)
    else
      let! fd := tcp_accept l in
      if fd <? 0 then do! tcp_close l in mret (3, None)
      else
        do! tcp_close l in
        let! bufs := two_buffers (op_packet o) in
        match bufs with
        | None => mret (4, None)
        | Some (send_buf, recv_buf) =>
          let! rx := create_session (rx_config pr_getenv args o) send_buf recv_buf in
          match rx with
          | None => mret (5, None)
          | Some rx =>
            let! oc := in_session [] rx rx_summary_init
                         (val_receive_files
                            (Hooks0:=rx_hooks (with_validator (tcp_hooks fd fuel app)) tcp_now_ms) fuel (Some outdir)) in
            do! tcp_close fd in
            mret (if oc_status oc =? VAL_OK then 0 else 6, Some oc)
          end
        end
  | inr _ => mret (1, None)
  end.

(** ** What they do before the transfer: an exit code, or the session to run *)

Inductive tx_setup (o : options) (host port : list Z) (e : E) : Z + val_session_t → Prop :=
  | tx_unconnected fd e1 : tcp_connect (Some host) (u16 (atoi port)) e = Some (fd, e1) → fd < 0 →
      tx_setup o host port e (inl 2)
  | tx_no_memory fd e1 e2 : tcp_connect (Some host) (u16 (atoi port)) e = Some (fd, e1) → 0 <= fd →
      two_buffers (op_packet o) e1 = Some (None, e2) → tx_setup o host port e (inl 3)
  | tx_no_session fd e1 sb rb e2 e3 : tcp_connect (Some host) (u16 (atoi port)) e = Some (fd, e1) → 0 <= fd →
      two_buffers (op_packet o) e1 = Some (Some (sb, rb), e2) →
      create_session (tx_config pr_getenv o) sb rb e2 = Some (None, e3) → tx_setup o host port e (inl 4)
  | tx_ready fd e1 sb rb e2 s e3 : tcp_connect (Some host) (u16 (atoi port)) e = Some (fd, e1) → 0 <= fd →
      two_buffers (op_packet o) e1 = Some (Some (sb, rb), e2) →
      create_session (tx_config pr_getenv o) sb rb e2 = Some (Some s, e3) → tx_setup o host port e (inr s).

Inductive rx_setup (args : list (list Z)) (o : options) (port : list Z) (e : E) : Z + val_session_t → Prop :=
  | rx_no_listener l e1 : tcp_listen (u16 (atoi port)) 1 e = Some (l, e1) → l < 0 → rx_setup args o port e (inl 2)
  | rx_no_peer l e1 fd e2 : tcp_listen (u16 (atoi port)) 1 e = Some (l, e1) → 0 <= l →
      tcp_accept l e1 = Some (fd, e2) → fd < 0 → rx_setup args o port e (inl 3)
  | rx_no_memory l e1 fd e2 e3 e4 : tcp_listen (u16 (atoi port)) 1 e = Some (l, e1) → 0 <= l →
      tcp_accept l e1 = Some (fd, e2) → 0 <= fd → tcp_close l e2 = Some (tt, e3) →
      two_buffers (op_packet o) e3 = Some (None, e4) → rx_setup args o port e (inl 4)
  | rx_no_session l e1 fd e2 e3 sb rb e4 e5 : tcp_listen (u16 (atoi port)) 1 e = Some (l, e1) → 0 <= l →
      tcp_accept l e1 = Some (fd, e2) → 0 <= fd → tcp_close l e2 = Some (tt, e3) →
      two_buffers (op_packet o) e3 = Some (Some (sb, rb), e4) →
      create_session (rx_config pr_getenv args o) sb rb e4 = Some (None, e5) → rx_setup args o port e (inl 5)
  | rx_ready l e1 fd e2 e3 sb rb e4 s e5 : tcp_listen (u16 (atoi port)) 1 e = Some (l, e1) → 0 <= l →
      tcp_accept l e1 = Some (fd, e2) → 0 <= fd → tcp_close l e2 = Some (tt, e3) →
      two_buffers (op_packet o) e3 = Some (Some (sb, rb), e4) →
      create_session (rx_config pr_getenv args o) sb rb e4 = Some (Some s, e5) → rx_setup args o port e (inr s).

(** ** What they do *)

Lemma now_total e : wpt tcp_now_ms (λ _ _, True) e.
Proof. apply wp_bind, wp_lift. by apply wp_ret. Qed.
Lemma session_created cfg sb rb e :
  wpp (create_session cfg sb rb) (λ os _, ∀ s, os = Some s → s = init_session cfg sb rb) e.
Proof.
  apply wp_lift. unfold val_session_create. cbn [negb]. destruct (config_missing cfg); [done|].
  destruct (orb _ _); [done|]. cbv zeta. destruct (hk_alloc _ ObjSession e) as [[|] e1]; cbn [negb]; [|done].
  destruct (hk_alloc _ (ObjSlots _) e1) as [[|] e2]; cbn; [|done]. by intros s [= <-].
Qed.
Lemma session_is cfg sb rb e s e' : create_session cfg sb rb e = Some (Some s, e') → s = init_session cfg sb rb.
Proof. intros Hc. by apply (wpp_elim _ _ _ _ _ (session_created cfg sb rb e) Hc). Qed.
Lemma tcp_options_ok : options_ok creatable tcp_defaults.
Proof. constructor; vm_compute; split; congruence. Qed.
Lemma init_session_mode cfg sb rb : let c := s_cfg (init_session cfg sb rb) in
  cfg_has_on_file_start c = cfg_has_on_file_start cfg ∧ cfg_has_on_file_complete c = cfg_has_on_file_complete cfg ∧
  cfg_resume_mode c = cfg_resume_mode cfg.
Proof. unfold init_session. by destruct (cfg_min_level cfg =? 0). Qed.
Lemma in_session_spec files s sum m (Q : outcome E → Prop) e :
  wpp m (λ st w, Q (mk_outcome files st (snd (w_e w)) w)) (mk_world s (e, sum) []) →
  wpp (in_session files s sum m) (λ oc _, Q oc) e.
Proof. unfold wp, in_session. by destruct (m _) as [[st w]|]. Qed.
End programs.

(** What a transfer announced. *)
Definition announces {E} (oc : outcome E) (a : announced) : Prop :=
  trace_run announce_step (w_tr (oc_world oc)) (mk_announced [] None) = Some a.
(** Every allocation of the report succeeds. *)
Definition memory_lasts (E : Type) `{!Malloc E} : Prop := ∀ n (e : E), fst (hp_malloc n e) = true.

(** A run from an empty trace: what it announced, and what the report makes of that if memory lasts. *)
Lemma announces_both {E} `{!Malloc E} (m : M (world (E * summary)) Z) (post : Z → announced → Prop)
    (rep : announced → summary → Prop) files s sum (e : E) :
  let w := mk_world s (e, sum) [] in
  wpp m (λ st w', ∃ a, announced_since w w' a ∧ post st a) w →
  (memory_lasts E → wpp m (λ st w', ∃ a, announced_since w w' a ∧ rep a (snd (w_e w'))) w) →
  wpp m (λ st w', let oc := mk_outcome files st (snd (w_e w')) w' in
    ∃ a, announces oc a ∧ post st a ∧ (memory_lasts E → rep a (oc_report oc))) w.
Proof.
  intros w H1 H2. eapply wp_mono; [apply (wpp_and _ _ _ _ H1 (wpp_impl _ _ _ _ H2))|].
  cbv beta. intros st w' [(a & (evs & Et & Hr) & Hp) Hrep]. cbn in Et. rewrite app_nil_r in Et. subst evs.
  exists a. split; [exact Hr|]. split; [done|]. intros Hm. destruct (Hrep Hm) as (a' & (evs & Et & Hr') & HR).
  cbn in Et. rewrite app_nil_r in Et. subst evs. rewrite Hr in Hr'. by injection Hr' as <-.
Qed.

(** C8: the TCP sender as a whole. A command line that the option loop rejects ends it with 1, or
    with 0 and then help was asked for; too few arguments end it with 1; a connection that
    fails, a buffer that cannot be had and a session that cannot be created with 2, 3 and 4,
    and only they; and when all of these are there it ends with 0 if [val_send_files] returned
    OK and with 5 if not. So after a transfer it ends with 0 exactly when that returned OK,
    and before it only when help was asked for. The transfer announces the files of the
    command line in order: all of them as sent or skipped when it returns OK, otherwise up to
    the one that failed. If every allocation of the report succeeds, the report is exactly
    of the files announced, each under its name and with its result. *)
Theorem sender_program {E} `{!Sockets E} `{!Malloc E} `{!Allocator E} `{!Process E} `{!BuildOptions} (app : Hooks E) fuel args (e : E) :
  wpp (tx_main app fuel args)
    (λ r _, match parse_options tx_option args tcp_defaults, r with
            | inl c, (code, None) => code = c ∧ (code = 1 ∨ code = 0 ∧ Exists asks_help args)
            | inr (o, host :: port :: _ :: _), (code, None) => tx_setup o host port e (inl code)
            | inr (o, host :: port :: file :: rest), (code, Some oc) =>
                oc_files oc = file :: rest ∧ (∃ s, tx_setup o host port e (inr s)) ∧
                code = (if oc_status oc =? VAL_OK then 0 else 5) ∧
                ∃ a, announces oc a ∧ announced_batch (file :: rest) (oc_status oc) (an_done a) (an_open a) ∧
                  (memory_lasts E → reports_exactly a (oc_report oc))
            | inr _, (code, None) => code = 1
            | _, (_, Some _) => False
            end) e.
Proof.
  unfold tx_main. pose proof (parse_options_stops tx_option args tcp_defaults) as Hstop.
  destruct (parse_options _ _ _) as [code|[o [|host [|port [|file rest]]]]]; try (by apply wp_ret).
  { apply wp_ret. split; [done|]. apply Hstop; [|done]. intros arg. apply options_stop. }
  clear Hstop. apply wpp_bind_eq. intros fd e1 E1. destruct (Z.ltb_spec fd 0); [apply wp_ret; by eapply tx_unconnected|].
  apply wpp_bind_eq. intros [[sb rb]|] e2 E2; [|apply wp_ret; by eapply tx_no_memory].
  apply wpp_bind_eq. intros [tx|] e3 E3; [|apply wp_ret; by eapply tx_no_session].
  pose proof (tx_ready _ _ _ _ _ _ _ _ _ _ _ E1 ltac:(done) E2 E3) as Hready. apply session_is in E3.
  destruct (init_session_mode (tx_config pr_getenv o) sb rb) as (Hs & Hc & _). rewrite <- E3 in Hs, Hc. cbn in Hs, Hc.
  apply wp_bind. eapply wp_mono; [apply (in_session_spec _ _ _ _ (λ oc, oc_files oc = file :: rest ∧
    ∃ a, announces oc a ∧ announced_batch (file :: rest) (oc_status oc) (an_done a) (an_open a) ∧
         (memory_lasts E → reports_exactly a (oc_report oc))))|].
  - eapply wp_mono; [apply (announces_both _ (λ st a, announced_batch (file :: rest) st (an_done a) (an_open a)) reports_exactly (file :: rest))|].
    + by apply send_announced.
    + intros Hm. eapply wp_mono; [apply (tx_told_run (tcp_hooks fd fuel app) tcp_now_ms Hm now_total); done|].
      cbv beta. intros st w (a & Ha & Hb & Ht). exists a. split; [done|].
      eapply tx_told_exactly; [|exact Ht]. apply batch_length in Hb. unfold zlen. lia.
    + cbv beta zeta. intros st w Ha. split; [done|exact Ha].
  - cbv beta. intros oc e4 [Hf Ha]. apply wpp_bind_any. intros _ e5. apply wp_ret. split; [done|]. split; [by eexists|done].
Qed.

(** C9: the TCP receiver as a whole. A command line that the option loop rejects ends it with 1,
    or with 0 and then help was asked for; too few arguments end it with 1; a socket that cannot
    listen, a connection that fails, a buffer that cannot be had and a session that cannot be
    created with 2, 3, 4 and 5, and only they; and when all of these are there it ends with 0 if
    [val_receive_files] returned OK and with 6 if not. In any resume mode but NEVER, which is not the default, files are announced in an
    orderly way and - if every allocation of the report succeeds - the report is exactly of
    them; but with or without --validation every file is accepted: the example validator that
    --validation installs, and which is announced on the console, is never asked. *)
Theorem receiver_program {E} `{!Sockets E} `{!Malloc E} `{!Allocator E} `{!Process E} `{!BuildOptions} (app : Hooks E) fuel args (e : E) :
  wpp (rx_main app fuel args)
    (λ r _, match parse_options rx_option args tcp_defaults, r with
            | inl c, (code, None) => code = c ∧ (code = 1 ∨ code = 0 ∧ Exists asks_help args)
            | inr (o, port :: _ :: _), (code, None) => rx_setup args o port e (inl code)
            | inr (o, port :: _ :: _), (code, Some oc) =>
                (∃ s, rx_setup args o port e (inr s)) ∧ code = (if oc_status oc =? VAL_OK then 0 else 6) ∧
                (op_resume_mode o ≠ VAL_RESUME_NEVER →
                 (∃ a, announces oc a ∧ outcomes a ∧ (memory_lasts E → reports_exactly a (oc_report oc))) ∧
                 Forall not_validated (w_tr (oc_world oc)))
            | inr _, (code, None) => code = 1
            | _, (_, Some _) => False
            end) e.
Proof.
  unfold rx_main. pose proof (parse_options_stops rx_option args tcp_defaults) as Hstop.
  destruct (parse_options _ _ _) as [code|[o [|port [|outdir rest]]]]; try (by apply wp_ret).
  { apply wp_ret. split; [done|]. apply Hstop; [|done]. intros arg. apply options_stop. }
  clear Hstop. apply wpp_bind_eq. intros l e1 E1. destruct (Z.ltb_spec l 0); [apply wp_ret; by eapply rx_no_listener|].
  apply wpp_bind_eq. intros fd e2 E2. destruct (Z.ltb_spec fd 0).
  { apply wpp_bind_any. intros _ e3. apply wp_ret. by eapply rx_no_peer. }
  apply wpp_bind_eq. intros [] e3 E3. apply wpp_bind_eq. intros [[sb rb]|] e4 E4; [|apply wp_ret; by eapply rx_no_memory].
  apply wpp_bind_eq. intros [rx|] e5 E5; [|apply wp_ret; by eapply rx_no_session].
  pose proof (rx_ready _ _ _ _ _ _ _ _ _ _ _ _ _ _ E1 ltac:(done) E2 ltac:(done) E3 E4 E5) as Hready. apply session_is in E5.
  destruct (init_session_mode (rx_config pr_getenv args o) sb rb) as (Hs & Hc & Hmode). rewrite <- E5 in Hs, Hc, Hmode.
  rewrite rx_config_shape in Hs, Hc, Hmode. cbn in Hs, Hc, Hmode.
  apply wp_bind. eapply wp_mono; [apply (in_session_spec _ _ _ _ (λ oc, op_resume_mode o ≠ VAL_RESUME_NEVER →
    (∃ a, announces oc a ∧ outcomes a ∧ (memory_lasts E → reports_exactly a (oc_report oc))) ∧
    Forall not_validated (w_tr (oc_world oc))))|].
  - apply wpp_impl. rewrite <- Hmode. intros Hn. eapply wp_mono; [apply wpp_and|].
    + apply (announces_both _ (λ _ a, outcomes a) reports_exactly []); [by apply receive_announced|].
      intros Hm. eapply wp_mono; [by apply (rx_told_run (with_validator (tcp_hooks fd fuel app)) tcp_now_ms Hm now_total)|].
      cbv beta. intros st w (a & Ha & _ & Hr). by exists a.
    + by apply (receive_files_emits not_validated).
    + cbv beta zeta. intros st w [Ha (evs & Et & Hf)]. cbn in Et. rewrite app_nil_r in Et. subst evs. by split.
  - cbv beta. intros oc e6 Ha. apply wpp_bind_any. intros _ e7. apply wp_ret. split; [by eexists|done].
Qed.

(** ** Runs of both programs *)

(** A machine with one connection: what has arrived on it and what was sent, and simulated
    files and clock. *)
Record desk := mk_desk { dk_in : list Z; dk_out : list Z; dk_sim : sim }.
Definition desk_wait (tv : option timeval) (e : desk) : Z * desk :=
  if zlen (dk_in e) =? 0
  then (0, mk_desk (dk_in e) (dk_out e)
             (sim_ticks (match tv with Some t => tv_sec t * 1000 + tv_usec t / 1000 | None => 1 end) (dk_sim e)))
  else (1, e).
#[export] Instance desk_sockets : Sockets desk := {|
  sk_send _ l e := (zlen l, mk_desk (dk_in e) (dk_out e ++ l) (dk_sim e));
  sk_select _ := desk_wait;
  sk_recv _ n _ e := let k := Z.min n (zlen (dk_in e)) in ((k, ztake k (dk_in e)), mk_desk (zdrop k (dk_in e)) (dk_out e) (dk_sim e));
  sk_peek _ e := (Z.min 1 (zlen (dk_in e)), e);
  sk_fionread _ e := (zlen (dk_in e), e);
  sk_so_error _ e := ((0, 0), e);
  sk_nodelay _ e := e;
  sk_clock e := ((sim_now (dk_sim e) / 1000, sim_now (dk_sim e) mod 1000 * 1000000), e);
  sk_nanosleep s ns e := mk_desk (dk_in e) (dk_out e) (sim_ticks (s * 1000 + ns / 1000000) (dk_sim e));
  sk_socket e := (3, e); sk_reuseaddr _ e := e; sk_bind _ _ e := (0, e); sk_listen _ _ e := (0, e);
  sk_accept _ e := (4, e); sk_connect _ _ e := (0, e); sk_close _ e := e;
  sk_htonl z := z; sk_htons z := z; sk_inet_addr _ := INADDR_LOOPBACK; sk_gethostbyname _ e := (None, e)
|}.
#[export] Instance desk_malloc : Malloc desk := λ _ e, (true, e).
#[export] Instance desk_allocator : Allocator desk := {| hk_alloc _ _ e := (true, e) |}.
#[export] Instance desk_process : Process desk := {|
  pr_getenv _ := None;
  pr_buffer n e := (Some (repeat 0 (Z.to_nat n)), e)
|}.
Definition on_disk {A} (h : sim → A * sim) (e : desk) : A * desk :=
  let '(a, s) := h (dk_sim e) in (a, mk_desk (dk_in e) (dk_out e) s).
(** The C library's files; what [tcp_hooks] provides itself is idle here. *)
Definition desk_app : Hooks desk := {|
  hk_send _ e := (-1, e); hk_recv _ _ e := ((-1, []), e); hk_is_connected e := (1, e); hk_flush e := e;
  hk_fopen p m := on_disk (sim_fopen p m); hk_fread h n := on_disk (sim_fread h n);
  hk_fwrite h d := on_disk (sim_fwrite h d); hk_fseek h o wh := on_disk (sim_fseek h o wh);
  hk_ftell h e := (snd (fst (sim_get h (dk_sim e))), e); hk_fclose _ e := e;
  hk_crc32 _ l := val_crc32 l; hk_get_ticks_ms e := (0, e); hk_delay_ms _ e := e;
  hk_on_file_start _ _ _ _ e := (false, e); hk_on_file_complete _ _ _ e := (false, e);
  hk_on_progress _ e := (false, e); hk_validator _ _ e := (0, e); hk_on_packet _ e := e; hk_append _ _ e := e
|}.
Definition tx_args : list (list Z) := [text "--mtu"; text "512"; text "10.0.0.1"; text "9000"] ++ batch_paths.
Definition tx_desk : desk :=
  mk_desk (concat (frames_in batch_script)) [] (sim_start [] [(demo_path, ztake 300 demo_file); ([103], ztake 200 demo_file)]).
Definition tx_program := tx_main desk_app demo_fuel tx_args tx_desk.
Definition rx_args : list (list Z) := [text "--validation"; text "--mtu"; text "512"; text "9000"; text "out"].
Definition rx_desk : desk := mk_desk (concat (frames_out batch_run)) [] (sim_start [] []).
Definition rx_program := rx_main desk_app demo_fuel rx_args rx_desk.
Definition ends (r : option ((Z * option (outcome desk)) * desk)) (Q : Z → outcome desk → Prop) : Prop :=
  match r with Some ((code, Some oc), _) => Q code oc | _ => False end.
Lemma programs_end :
  ends tx_program (λ code oc, code = 0 ∧ oc_status oc = VAL_OK ∧ oc_files oc = batch_paths ∧
    na_names (su_done (oc_report oc)) = [Some demo_path; Some [103]]) ∧
  ends rx_program (λ code oc, code = 0 ∧ oc_status oc = VAL_OK ∧
    na_names (su_done (oc_report oc)) = [Some demo_path; Some [103]]).
Proof. by vm_compute. Qed.
Lemma ends_spec (m : M desk (Z * option (outcome desk))) e r (P : Z * option (outcome desk) → desk → Prop) Q Q' :
  m e = r → wpp m P e → ends r Q → (∀ code oc e', P (code, Some oc) e' → Q' code oc) → ends r Q'.
Proof.
  intros <- Hw He HQ. unfold wp, ends in *. destruct (m e) as [[[code [oc|]] e']|]; [|done..]. by eapply HQ.
Qed.
Lemma desk_memory n (e : desk) : fst (hp_malloc n e) = true.
Proof. done. Qed.
Lemma sender_program_witness :
  ends tx_program (λ code oc, code = 0 ∧ oc_status oc = VAL_OK ∧ oc_files oc = batch_paths ∧
    na_names (su_done (oc_report oc)) = [Some demo_path; Some [103]]) ∧
  ends tx_program (λ _ oc, ∃ a, announces oc a ∧ announced_batch (oc_files oc) (oc_status oc) (an_done a) (an_open a) ∧
    reports_exactly a (oc_report oc)).
Proof.
  split; [exact (proj1 programs_end)|].
  apply (ends_spec _ tx_desk tx_program _ _ _ eq_refl (sender_program desk_app demo_fuel tx_args tx_desk) (proj1 programs_end)).
  intros code oc e'. destruct (parse_options tx_option tx_args tcp_defaults) as [c|[o [|host [|port [|file rest]]]]]; try done.
  intros (-> & _ & _ & a & Ha & Hb & Hr). exists a. exact (conj Ha (conj Hb (Hr desk_memory))).
Defined.
Lemma receiver_program_witness :
  ends rx_program (λ code oc, code = 0 ∧ oc_status oc = VAL_OK ∧
    na_names (su_done (oc_report oc)) = [Some demo_path; Some [103]]) ∧
  ends rx_program (λ _ oc, (∃ a, announces oc a ∧ outcomes a ∧ reports_exactly a (oc_report oc)) ∧
    Forall not_validated (w_tr (oc_world oc))).
Proof.
  split; [exact (proj2 programs_end)|].
  assert (Hm : match parse_options rx_option rx_args tcp_defaults with
    inr (o, _) => op_resume_mode o ≠ VAL_RESUME_NEVER | inl _ => True end) by (vm_compute; discriminate).
  apply (ends_spec _ rx_desk rx_program _ _ _ eq_refl (receiver_program desk_app demo_fuel rx_args rx_desk) (proj2 programs_end)).
  intros code oc e'. destruct (parse_options rx_option rx_args tcp_defaults) as [c|[o [|port [|outdir rest]]]]; try done.
  intros (_ & _ & Hr). destruct (Hr Hm) as [(a & Ha & Ho & Hrep) Hf]. split; [|exact Hf].
  exists a. exact (conj Ha (conj Ho (Hrep desk_memory))).
Defined.
