(* ===== verification/Reported.v ===== *)
(** A host beside which a program keeps its report: the library sees the same host
    ([reported_host]), because the callbacks of the report only take memory and the time. *)
From stdpp Require Import gmap.
From S2P Require Import Prelude ByteOrder Wire Errors Crc Sanitize Timing Session Simulation Window Packet Frame.
From S2P Require Import Control Sender Receiver Trace Typestate Callbacks DataPhase Link Assembly Windows Host Report.

Section reported.
Context {E P : Type} {app : Hooks E} {base : StreamLink E} `{!Host E P}.
Abbreviation ok := (fl_ok (E:=E) (V:=host P)).
Abbreviation same := (fl_same (E:=E) (V:=host P)).

(** Code that the host does not notice. *)
Definition unnoticed {A} (m : M E A) : Prop := ∀ e, ok e → wpp m (λ _ e', same e e') e.
Lemma unnoticed_ret {A} (a : A) : unnoticed (mret a).
Proof. intros e He. by apply wp_ret. Qed.
Lemma unnoticed_bind {A B} (m : M E A) (k : A → M E B) : unnoticed m → (∀ a, unnoticed (k a)) → unnoticed (mbind m k).
Proof.
  intros Hm Hk e He. apply wp_bind. eapply wp_mono; [by apply Hm|]. cbv beta. intros a e1 (H1 & L1 & V1).
  eapply wp_mono; [by apply Hk|]. cbv beta. intros b e2 (H2 & L2 & V2). split; [done|]. split; congruence.
Qed.
Lemma unnoticed_lift {A} (f : E → A * E) : (∀ e, ok e → same e (snd (f e))) → unnoticed (mlift f).
Proof. intros Hf e He. apply wp_lift. specialize (Hf e He). by destruct (f e). Qed.

Section callbacks.
Context `{!Malloc E} (now_ms : M E Z) (Hmalloc : ∀ n, unnoticed (mlift (hp_malloc n))) (Hnow : unnoticed now_ms).
Ltac unnoticed_step :=
  lazymatch goal with
  | |- unnoticed (mbind _ _) => apply unnoticed_bind; [|intros ?]
  | |- unnoticed (mret _) => apply unnoticed_ret
  | |- unnoticed (let _ := _ in _) => cbv zeta
  | |- unnoticed (match ?x with _ => _ end) => destruct x
  | |- unnoticed _ => first [exact Hnow | apply Hmalloc]
  end.
Lemma unnoticed_start_tx n sz o su : unnoticed (on_file_start_tx now_ms n sz o su).
Proof. unfold on_file_start_tx, tx_stats_start, dup_cstr. repeat unnoticed_step. Qed.
Lemma unnoticed_complete_tx n r su : unnoticed (on_file_complete_tx now_ms n r su).
Proof. unfold on_file_complete_tx, tx_summary_add, tx_stats_complete, dup_cstr. repeat unnoticed_step. Qed.
Lemma unnoticed_complete_rx n r su : unnoticed (on_file_complete_rx now_ms n r su).
Proof. unfold on_file_complete_rx, arr_push, rx_stats_complete, tx_stats_complete, dup_cstr. repeat unnoticed_step. Qed.
Lemma unnoticed_start_com n sz o su : unnoticed (com_file_start now_ms n sz o su).
Proof. unfold com_file_start, com_stats_start, dup_cstr. repeat unnoticed_step. Qed.
Lemma unnoticed_complete_com n r su : unnoticed (com_file_complete now_ms n r su).
Proof. unfold com_file_complete, com_summary_add, com_stats_complete, dup_cstr. repeat unnoticed_step. Qed.
End callbacks.

(** ** The host with the report beside it *)

Context (on_start : list Z → Z → Z → summary → M E summary) (on_complete : list Z → Z → summary → M E summary).
Context (Hstart : ∀ n sz o su, unnoticed (on_start n sz o su)) (Hcomplete : ∀ n r su, unnoticed (on_complete n r su)).
Definition reporting : Hooks (E * summary) := with_report app on_start on_complete.

Lemma keep_same (m : summary → M E summary) es : (∀ su, unnoticed (m su)) → fst (keep m es) = false ∧ (ok (fst es) → same (fst es) (fst (snd (keep m es)))).
Proof.
  intros Hm. unfold keep. pose proof (Hm (snd es) (fst es)) as H. unfold wp in H.
  destruct (m (snd es) (fst es)) as [[su e']|]; cbn; [by split|]. by split.
Qed.

Program Definition reported_link : @StreamLink (E * summary) reporting := {|
  link_ok es := link_ok (E:=E) (fst es); link_in es := link_in (E:=E) (fst es); link_now es := link_now (E:=E) (fst es)
|}.
Next Obligation. intros es. apply link_bytes. Qed.
Next Obligation.
  intros n t [e su] He Hn Ht. cbn [fst hk_recv reporting with_report] in *. unfold beside. cbn [fst snd].
  pose proof (link_recv n t e He Hn Ht) as H. by destruct (hk_recv n t e) as [[r got] e'].
Qed.
Next Obligation.
  intros [e su] He. cbn [fst hk_get_ticks_ms reporting with_report] in *. unfold beside. cbn [fst snd].
  pose proof (link_ticks e He) as H. by destruct (hk_get_ticks_ms e) as [t e'].
Qed.
Next Obligation. intros rec [e su] He. exact (link_packet rec e He). Qed.

#[local] Existing Instance reported_link.
#[local] Ltac aside :=
  cbn [fst snd reporting with_report hk_recv hk_send hk_get_ticks_ms hk_is_connected hk_on_progress hk_fopen hk_fseek hk_ftell
       hk_fread hk_fwrite] in *;
  unfold beside, beside_unit; cbn [fst snd].
Program Definition reported_host : @Host (E * summary) P reporting reported_link := {|
  ho_reply := ho_reply (Hooks0:=app);
  ho_link := {| fl_ok es := ok (fst es); fl_view es := fl_view (Hooks0:=app) (fst es); fl_answer := fl_answer (Hooks0:=app) |}
|}.
Next Obligation. intros es He. apply (fl_link (Hooks0:=app) (fst es) He). Qed.
Next Obligation.
  intros n t [e su] He. aside. pose proof (fl_recv (V:=host P) n t e He) as H. by destruct (hk_recv n t e).
Qed.
Next Obligation.
  intros fr [e su] He Hz. aside. pose proof (fl_send (V:=host P) fr e He Hz) as H. by destruct (hk_send fr e).
Qed.
Next Obligation.
  intros [e su] He. aside. pose proof (fl_ticks (V:=host P) e He) as H. by destruct (hk_get_ticks_ms e).
Qed.
Next Obligation.
  intros [e su] He. aside. pose proof (fl_connected (V:=host P) e He) as H. by destruct (hk_is_connected e).
Qed.
Next Obligation. intros [e su] He. exact (fl_flush (V:=host P) e He). Qed.
Next Obligation. intros r [e su] He. exact (fl_packet (V:=host P) r e He). Qed.
Next Obligation.
  intros i [e su] He. aside. pose proof (fl_progress (V:=host P) i e He) as H. by destruct (hk_on_progress i e).
Qed.
Next Obligation. intros fr L v. apply (ho_answer (Hooks0:=app)). Qed.
Next Obligation. intros [e su] p d. exact (ho_bytes (Hooks0:=app) e p d). Qed.
Next Obligation.
  intros p m [e su] He. aside. pose proof (ho_open (Hooks0:=app) p m e He) as H. destruct (hk_fopen p m e) as [h e'].
  by destruct (opened p m _) as [[fs pos]|].
Qed.
Next Obligation.
  intros f o wh p pos d [e su] He Hc Hd Ht. aside. pose proof (ho_seek (Hooks0:=app) f o wh p pos d e He Hc Hd Ht) as H.
  by destruct (hk_fseek f o wh e).
Qed.
Next Obligation.
  intros f p pos [e su] He Hc. aside. pose proof (ho_tell (Hooks0:=app) f p pos e He Hc) as H. by destruct (hk_ftell f e).
Qed.
Next Obligation.
  intros f n p pos d [e su] He Hc Hd Hp Hn. aside. pose proof (ho_read (Hooks0:=app) f n p pos d e He Hc Hd Hp Hn) as H.
  by destruct (hk_fread f n e).
Qed.
Next Obligation.
  intros f x p d [e su] He Hc Hd Hx. aside. pose proof (ho_write (Hooks0:=app) f x p d e He Hc Hd Hx) as H.
  by destruct (hk_fwrite f x e).
Qed.
Next Obligation. intros f [e su] He. exact (ho_close (Hooks0:=app) f e He). Qed.
Next Obligation.
  intros n p s o [e su] He. cbn [hk_on_file_start reporting with_report]. destruct (keep_same (on_start n s o) (e, su)) as [H1 H2]; [done|].
  split; [done|]. by apply H2.
Qed.
Next Obligation. intros n p r es. exact (keep_same (on_complete n r) es (Hcomplete n r)). Qed.
Next Obligation. intros p x [e su] He Hx. exact (ho_append (Hooks0:=app) p x e He Hx). Qed.
End reported.

(** The other end is the same, so it is as honest. *)
Program Definition reported_honest {E} {app : Hooks E} {base : StreamLink E} `{!Host E Z} `{!HonestHost E}
    on_start on_complete (Hstart : ∀ n sz o su, unnoticed (on_start n sz o su))
    (Hcomplete : ∀ n r su, unnoticed (on_complete n r su)) :
  @HonestHost (E * summary) (reporting on_start on_complete) (reported_link on_start on_complete)
    (reported_host on_start on_complete Hstart Hcomplete) := {|
  hh_crc := hh_crc (Hooks0:=app); hh_hello := hh_hello (Hooks0:=app)
|}.
Next Obligation. intros E app base Ho Hh on_start on_complete Hs Hc d pos. exact (hh_reply_hello (Hooks0:=app) d pos). Qed.
Next Obligation. intros E app base Ho Hh on_start on_complete Hs Hc d pos. exact (hh_reply_meta (Hooks0:=app) d pos). Qed.
Next Obligation. intros E app base Ho Hh on_start on_complete Hs Hc pos. exact (hh_reply_resume (Hooks0:=app) pos). Qed.
Next Obligation. intros E app base Ho Hh on_start on_complete Hs Hc d off incl pos. exact (hh_reply_data (Hooks0:=app) d off incl pos). Qed.
Next Obligation. intros E app base Ho Hh on_start on_complete Hs Hc off pos. exact (hh_reply_done (Hooks0:=app) off pos). Qed.
Next Obligation. intros E app base Ho Hh on_start on_complete Hs Hc pos. exact (hh_reply_eot (Hooks0:=app) pos). Qed.
