(* ===== verification/Delivered.v ===== *)
(** The TCP programs from end to end: [tx_main] at one end of a faultless connection and [rx_main]
    at the other, from the command line to the files on the receiver's disk.

    [Programs] says how the two end, whatever happens; here nothing fails, and the batch theorem's
    two halves ([batch_sent], [batch_arrives]) are applied to the library as the programs
    set it up: over sockets ([Wired]), with their report beside it ([Reported]). *)
From stdpp Require Import gmap strings.
From S2P Require Import Prelude ByteOrder Wire Errors Crc Sanitize Timing Session Records Simulation Window Packet Frame.
From S2P Require Import Control Handshake Resume Sender Receiver Trace Callbacks DataPhase Link Assembly Windows Host Exchange.
From S2P Require Import Peer Upload Download Station Batch Tcp Wired Cli Report Programs Reported.

(** ** What a program asks its machine for *)

(** There is memory: for the callbacks, for the library, and for the buffers. *)
Class Provides (E P : Type) `{!Hooks E} `{!StreamLink E} `{!Host E P} `{!Malloc E} `{!Allocator E} `{!Process E} := {
  pv_malloc n e : fst (hp_malloc n e) = true ∧ (fl_ok e → fl_same (V:=host P) e (snd (hp_malloc n e)));
  pv_alloc custom o e : fl_ok e → fst (hk_alloc custom o e) = true ∧ fl_same (V:=host P) e (snd (hk_alloc custom o e));
  pv_buffer n e : fl_ok e → let '(b, e') := pr_buffer n e in
    fl_same (V:=host P) e e' ∧ ∃ l, b = Some l ∧ n <= zlen l ∧ bytes_ok l
}.

(** The validator is not part of what [Host] describes. *)
Section validated.
Context {E P : Type} {app : Hooks E} {base : StreamLink E} `{!Host E P}.
Program Definition validated_link : @StreamLink E (with_validator app) := {|
  link_ok := link_ok (E:=E); link_in := link_in (E:=E); link_now := link_now (E:=E)
|}.
Next Obligation. apply link_bytes. Qed.
Next Obligation. intros n t e. exact (link_recv (Hooks0:=app) n t e). Qed.
Next Obligation. intros e. exact (link_ticks (Hooks0:=app) e). Qed.
Next Obligation. intros rec e. exact (link_packet (Hooks0:=app) rec e). Qed.
#[local] Existing Instance validated_link.
Program Definition validated_host : @Host E P (with_validator app) validated_link := {|
  ho_reply := ho_reply (Hooks0:=app);
  ho_link := {| fl_ok := fl_ok (E:=E); fl_view := fl_view (Hooks0:=app); fl_answer := fl_answer (Hooks0:=app) |}
|}.
Next Obligation. exact (fl_link (Hooks0:=app)). Qed.
Next Obligation. exact (fl_recv (Hooks0:=app) (V:=host P)). Qed.
Next Obligation. exact (fl_send (Hooks0:=app) (V:=host P)). Qed.
Next Obligation. exact (fl_ticks (Hooks0:=app) (V:=host P)). Qed.
Next Obligation. exact (fl_connected (Hooks0:=app) (V:=host P)). Qed.
Next Obligation. exact (fl_flush (Hooks0:=app) (V:=host P)). Qed.
Next Obligation. exact (fl_packet (Hooks0:=app) (V:=host P)). Qed.
Next Obligation. exact (fl_progress (Hooks0:=app) (V:=host P)). Qed.
Next Obligation. exact (ho_answer (Hooks0:=app)). Qed.
Next Obligation. exact (ho_bytes (Hooks0:=app)). Qed.
Next Obligation. exact (ho_open (Hooks0:=app)). Qed.
Next Obligation. exact (ho_seek (Hooks0:=app)). Qed.
Next Obligation. exact (ho_tell (Hooks0:=app)). Qed.
Next Obligation. exact (ho_read (Hooks0:=app)). Qed.
Next Obligation. exact (ho_write (Hooks0:=app)). Qed.
Next Obligation. exact (ho_close (Hooks0:=app)). Qed.
Next Obligation. exact (ho_start (Hooks0:=app)). Qed.
Next Obligation. exact (ho_complete (Hooks0:=app)). Qed.
Next Obligation. exact (ho_append (Hooks0:=app)). Qed.
End validated.

(** ** The session's part of [main] *)

Section main.
Context {E P : Type} {app : Hooks E} {base : StreamLink E} `{!Host E P} `{!Sockets E} `{!Malloc E} `{!Allocator E} `{!Process E}
  `{!BuildOptions} `{!Provides E P}.

Lemma runs_in_session files s sum m (Q : outcome E → Prop) e :
  wpt m (λ st w, Q (mk_outcome files st (snd (w_e w)) w)) (mk_world s (e, sum) []) →
  wpt (in_session files s sum m) (λ oc _, Q oc) e.
Proof. unfold wp, in_session. by destruct (m _) as [[st w]|]. Qed.

(** The session that the library starts from. *)
Definition new_session (c : val_config_t) (n : Z) (s : val_session_t) : Prop :=
  session_ok s ∧ undisturbed s ∧ s_handshake_done s = false ∧ cfg_packet_size (s_cfg s) = n ∧
  s_cfg s = s_cfg (init_session c [] []).
Lemma session_is_new c sb rb : config_ok c → cfg_packet_size c <= zlen sb → cfg_packet_size c <= zlen rb → bytes_ok rb →
  new_session c (cfg_packet_size c) (init_session c sb rb).
Proof.
  intros Hc Hs Hr Hb. split; [by apply init_session_ok|]. unfold init_session, undisturbed. destruct (cfg_min_level c =? 0); cbn;
    by repeat split.
Qed.
(** Buffers and session are there for the asking, and the host does not notice. *)
Lemma session_made c n {A} (k1 k2 : M E A) (k : val_session_t → M E A) Q e :
  config_missing c = false → config_ok c → cfg_packet_size c = n → fl_ok e →
  (∀ s e', new_session c n s → fl_same (V:=host P) e e' → wpt (k s) Q e') →
  wpt (let! bufs := two_buffers n in
       match bufs with
       | None => k1
       | Some (sb, rb) => let! s := create_session c sb rb in match s with None => k2 | Some s => k s end
       end) Q e.
Proof.
  intros Hm Hc <- He Hk. unfold two_buffers. apply wp_bind, wp_bind, wp_lift.
  pose proof (pv_buffer (P:=P) (cfg_packet_size c) e He) as H1. destruct (pr_buffer _ e) as [b e1].
  destruct H1 as ((O1 & L1 & V1) & sb & -> & Hs & _). cbn [fst snd]. apply wp_bind, wp_lift.
  pose proof (pv_buffer (P:=P) (cfg_packet_size c) e1 O1) as H2. destruct (pr_buffer _ e1) as [b e2].
  destruct H2 as ((O2 & L2 & V2) & rb & -> & Hr & Hb). cbn [fst snd]. apply wp_ret. cbn [fst snd].
  apply wp_bind, wp_lift. rewrite session_create_ok_branch by done. cbv zeta.
  destruct (pv_alloc (P:=P) (custom_allocator c) ObjSession e2 O2) as [F3 (O3 & L3 & V3)].
  destruct (hk_alloc _ ObjSession e2) as [ok3 e3]. cbn [fst snd] in *. subst ok3. cbn [negb].
  destruct (pv_alloc (P:=P) (custom_allocator c) (ObjSlots (s_max_tracking_slots (init_session c sb rb))) e3 O3) as [F4 (O4 & L4 & V4)].
  destruct (hk_alloc _ (ObjSlots _) e3) as [ok4 e4]. cbn [fst snd] in *. subst ok4. cbn [negb fst snd]. rewrite Z.eqb_refl.
  apply Hk; [by apply session_is_new|]. split; [done|]. split; congruence.
Qed.
End main.

(** ** The sender *)

(** The files of a command line that a sender with [fuel] turns can send. *)
Definition within_reach (fs : store) (fuel : nat) (p : list Z) : Prop :=
  ∃ d, fs !! p = Some d ∧ 0 < zlen d < 2 ^ 63 ∧ 16 * zlen d + 36 < Z.of_nat fuel.

Section sender.
Context {E : Type} {app : Hooks E} {ideal : StreamLink E} `{!Host E Z} `{!HonestHost E} `{!Sockets E} `{!Malloc E}
  `{!Allocator E} `{!Process E} `{!BuildOptions} {fd : Z} `{!Wired E Z fd} `{!Provides E Z} (fuel : nat).

Lemma malloc_unnoticed n : @unnoticed E Z (wired fd fuel) (wired_link fd fuel) (wired_host fd fuel) bool (mlift (hp_malloc n)).
Proof. apply unnoticed_lift. intros e He. destruct (pv_malloc (P:=Z) n e) as [_ Hm]. exact (Hm He). Qed.
Lemma now_unnoticed : @unnoticed E Z (wired fd fuel) (wired_link fd fuel) (wired_host fd fuel) Z tcp_now_ms.
Proof.
  intros e He. apply wpt_wpp. eapply wp_mono; [apply (wired_now (app:=app) (P:=Z) fd e He)|]. by intros t e' (_ & Hs & _).
Qed.

Definition tx_env : Hooks (E * summary) := tx_hooks (wired fd fuel) tcp_now_ms.
#[local] Instance tx_env_link : @StreamLink (E * summary) tx_env := reported_link (base:=wired_link fd fuel) _ _.
#[local] Instance tx_env_host : @Host (E * summary) Z tx_env tx_env_link :=
  reported_host (base:=wired_link fd fuel) (Host0:=wired_host fd fuel) _ _
    (unnoticed_start_tx _ malloc_unnoticed now_unnoticed) (unnoticed_complete_tx _ malloc_unnoticed now_unnoticed).
#[local] Instance tx_env_honest : @HonestHost (E * summary) tx_env tx_env_link tx_env_host :=
  reported_honest (base:=wired_link fd fuel) (HonestHost0:=wired_honest fd fuel) _ _ _ _.

(** [sr]: the session of the receiver that is taken to be at the other end. *)
Lemma sender_ready sr o paths s sum e : fl_ok e → link_in e = [] →
  new_session (tx_config pr_getenv o) (op_packet o) s → (∀ l, hh_crc (E:=E) l = val_crc32 l) →
  let size := Z.min (op_packet o) (cfg_packet_size (s_cfg sr)) in
  hh_hello (E:=E) = hello_bytes sr size → size < 2 ^ 16 + 12 → paths ≠ [] →
  Forall (within_reach (ho_files (fl_view e)) (S (S fuel))) paths → (64 < S (S fuel))%nat →
  sends_batch (Hooks0:=tx_env) (S (S fuel)) sr paths (mk_world s (e, sum) []).
Proof.
  intros He EL (Hok & Hu & Hnew & Ep & Ec) Hcrc size Hh Hsz Hne Hfiles Hf.
  assert (Esz : common_size s sr = size) by (unfold common_size, size; by rewrite Ep).
  constructor; cbn [w_s w_e]; try done; try (by rewrite Esz).
  intros l. unfold val_internal_crc32. rewrite Ec. transitivity (val_crc32 l); [|by rewrite <- Hcrc].
  unfold init_session. by destruct (_ =? 0).
Qed.


(** [tcp_connect] gives the descriptor [fd], and nothing has been said on it. *)
Definition dials (host : list Z) (port : Z) (e : E) : Prop :=
  fl_ok e ∧ link_in e = [] ∧ 0 <= fd ∧ wpt (tcp_connect (Some host) port) (λ r e', r = fd ∧ fl_same (V:=Host.host Z) e e') e.

(** The program sends the whole batch, from a session and in a world [w] as [batch_sent] wants them. *)
Lemma sender_delivers sr args o name port files e : config_ok (s_cfg sr) →
  parse_options tx_option args tcp_defaults = inr (o, name :: port :: files) → dials name (u16 (atoi port)) e →
  (∀ l, hh_crc (E:=E) l = val_crc32 l) → let size := Z.min (op_packet o) (cfg_packet_size (s_cfg sr)) in
  hh_hello (E:=E) = hello_bytes sr size → size < 2 ^ 16 + 12 → files ≠ [] →
  Forall (within_reach (ho_files (fl_view e)) (S (S fuel))) files → (64 < S (S fuel))%nat →
  wpt (tx_main app (S (S fuel)) args)
    (λ r _, ∃ oc w xs, r = (0, Some oc) ∧ w_tr w = [] ∧ fl_view (fst (w_e w)) = fl_view e ∧
       sends_batch (Hooks0:=tx_env) (S (S fuel)) sr files w ∧
       Forall2 (carries (mtu:=common_size (w_s w) sr) (fs:=ho_files (fl_view e)) None) files xs ∧
       sends (batch_frames (cfg_crc (Hooks0:=tx_env) (s_cfg (w_s w))) (hello_bytes (w_s w) (cfg_packet_size (s_cfg (w_s w)))) xs)
         w (oc_world oc)) e.
Proof.
  intros Hsr Hp (He & EL & Hfd & Hdial) Hcrc size Hh Hsz Hne Hfiles Hf. unfold tx_main.
  pose proof (parse_options_keeps _ tx_option args tcp_defaults tx_option_ok tcp_options_ok) as Ho. rewrite Hp in Ho |- *.
  destruct files as [|file rest]; [done|]. apply wp_bind. eapply wp_mono; [exact Hdial|]. cbv beta. intros r e1 (-> & O1 & L1 & V1).
  replace (fd <? 0) with false by lia. pose proof (ook_packet _ _ Ho) as Hpk. unfold creatable, VAL_MIN_PACKET_SIZE in Hpk.
  apply (session_made (P:=Z) (tx_config pr_getenv o)); [cbn; lia|by apply tx_config_ok|done|done|].
  intros tx e2 Hs (O2 & L2 & V2). apply wp_bind.
  set (w := mk_world tx (e2, tx_summary_init (zlen (file :: rest))) [] : world (E * summary)).
  assert (EV : fl_view e2 = fl_view e) by congruence.
  assert (Hsb : sends_batch (Hooks0:=tx_env) (S (S fuel)) sr (file :: rest) w).
  { apply (sender_ready sr o); [done|congruence|done..|by rewrite EV|done]. }
  pose proof (batch_sent (E:=E * summary) (S (S fuel)) sr (file :: rest) None w Hsb Hsr) as Hgo. cbv zeta in Hgo.
  change (ho_files (fl_view (w_e w))) with (ho_files (fl_view e2)) in Hgo. rewrite EV in Hgo.
  eapply wp_mono; [apply runs_in_session; eapply wp_mono; [exact Hgo|]|].
  - cbv beta. intros st w' (-> & xs & Hxs & S).
    instantiate (1:=λ oc, oc_status oc = VAL_OK ∧ ∃ xs, Forall2 _ _ xs ∧ sends _ w (oc_world oc)). cbn. split; [done|]. by exists xs.
  - cbv beta. intros oc e3 (Est & xs & Hxs & S). apply wp_bind.
    assert (wpt (tcp_close fd) (λ _ _, True) e3) as Hc by (unfold tcp_close; by destruct (0 <=? fd)).
    eapply wp_mono; [exact Hc|]. intros _ e4 _. apply wp_ret. rewrite Est. by exists oc, w, xs.
Qed.
End sender.

(** ** The receiver *)

Section receiver.
Context {R : Type} {app : Hooks R} {ideal : StreamLink R} `{!Host R unit} `{!Sockets R} `{!Malloc R}
  `{!Allocator R} `{!Process R} `{!BuildOptions} {fd : Z} `{!Wired R unit fd} `{!Provides R unit} (fuel : nat).
#[local] Instance checked_link : @StreamLink R (with_validator (wired fd fuel)) := validated_link (base:=wired_link fd fuel).
#[local] Instance checked_host : @Host R unit (with_validator (wired fd fuel)) checked_link :=
  validated_host (base:=wired_link fd fuel) (Host0:=wired_host fd fuel).

Lemma malloc_unnoticed_rx n : @unnoticed R unit _ checked_link checked_host bool (mlift (hp_malloc n)).
Proof. apply unnoticed_lift. intros e He. destruct (pv_malloc (P:=unit) n e) as [_ Hm]. exact (Hm He). Qed.
Lemma now_unnoticed_rx : @unnoticed R unit _ checked_link checked_host Z tcp_now_ms.
Proof.
  intros e He. apply wpt_wpp. eapply wp_mono; [apply (wired_now (app:=app) (P:=unit) fd e He)|]. by intros t e' (_ & Hs & _).
Qed.

Definition rx_env : Hooks (R * summary) := rx_hooks (with_validator (wired fd fuel)) tcp_now_ms.
#[local] Instance rx_env_link : @StreamLink (R * summary) rx_env := reported_link (base:=checked_link) _ _.
#[local] Instance rx_env_host : @Host (R * summary) unit rx_env rx_env_link :=
  reported_host (base:=checked_link) (Host0:=checked_host) _ _
    (unnoticed_start_tx _ malloc_unnoticed_rx now_unnoticed_rx) (unnoticed_complete_rx _ malloc_unnoticed_rx now_unnoticed_rx).

(** A connection arrives on [port]: it is [fd]; closing the listening socket leaves it alone. *)
Definition accepts (port : Z) (e : R) : Prop :=
  fl_ok e ∧ 0 <= fd ∧
  wpt (tcp_listen port 1) (λ l e1, 0 <= l ∧
    wpt (tcp_accept l) (λ r e2, r = fd ∧ wpt (tcp_close l) (λ _ e3, fl_same (V:=Host.host unit) e e3) e2) e1) e.
(** The session that the program calls the library with; its buffers are of no interest here. *)
Definition rx_session (args : list (list Z)) (o : options) : val_session_t := init_session (rx_config pr_getenv args o) [] [].
Lemma rx_config_ok args o : options_ok creatable o → config_ok (rx_config pr_getenv args o).
Proof. intros Ho. rewrite rx_config_shape. by apply with_validator_ok, tx_config_ok. Qed.

(** All files start over, in mode NEVER none is taken for [resume_trace.log], and there is a turn
    for every byte. *)
Record receivable (dir : option (list Z)) (sr : val_session_t) (fuel : nat) (paths : list (list Z)) (e : R) : Prop := {
  rv_silent : unanswered (E:=R);
  rv_names : NoDup (map (placed (into dir sr)) paths);
  rv_unlogged : cfg_resume_mode (s_cfg sr) = VAL_RESUME_NEVER → trace_log ∉ map (placed (into dir sr)) paths;
  rv_restart : Forall (λ p, restarts (c:=s_cfg sr) (ho_files (fl_view e)) (placed (into dir sr) p)) paths;
  rv_fuel : zlen (link_in e) < Z.of_nat fuel
}.
Lemma receiver_ready args o crc dir paths s sum e e' :
  new_session (rx_config pr_getenv args o) (op_packet o) s → (op_resume_mode o = VAL_RESUME_NEVER → use_validation args = false) →
  (∀ l, crc l = val_crc32 l) → fl_ok e → fl_same (V:=Host.host unit) e e' →
  receivable dir (rx_session args o) (S (S fuel)) paths e →
  receives_batch (Hooks0:=rx_env) (S (S fuel)) crc dir paths (mk_world s (e', sum) []).
Proof.
  intros (Hok & Hu & Hnew & Ep & Ec) Hmode Hcrc He (He' & EL & EV) [Hun Hn Hlog Ha Hf]. constructor; cbn [w_s w_e]; try done.
  - intros l. unfold val_internal_crc32. rewrite Ec. transitivity (val_crc32 l); [|by rewrite Hcrc].
    unfold init_session. rewrite rx_config_shape. by destruct (_ =? 0).
  - rewrite Ec. unfold init_session. rewrite rx_config_shape. by destruct (_ =? 0).
  - rewrite Ec. exact Hlog.
  - rewrite Ec. change (ho_files (fl_view (e', sum))) with (ho_files (fl_view e')). by rewrite EV.
  - change (link_in (e', sum)) with (link_in e'). by rewrite EL.
Qed.

(** The program ends with 0, in a world where the call of the library has ended as it should. *)
Lemma receiver_takes args o port outdir more e (Q : world (R * summary) → Prop) :
  parse_options rx_option args tcp_defaults = inr (o, port :: outdir :: more) → accepts (u16 (atoi port)) e →
  (∀ s e', new_session (rx_config pr_getenv args o) (op_packet o) s → fl_same (V:=Host.host unit) e e' →
    wpt (val_receive_files (Hooks0:=rx_env) (S (S fuel)) (Some outdir)) (λ st v', st = VAL_OK ∧ Q v')
      (mk_world s (e', rx_summary_init) [])) →
  wpt (rx_main app (S (S fuel)) args) (λ r _, ∃ oc, r = (0, Some oc) ∧ Q (oc_world oc)) e.
Proof.
  intros Hp (He & Hfd & Hl) Hrun. unfold rx_main.
  pose proof (parse_options_keeps _ rx_option args tcp_defaults rx_option_ok tcp_options_ok) as Ho. rewrite Hp in Ho |- *.
  pose proof (ook_packet _ _ Ho) as Hpk. unfold creatable, VAL_MIN_PACKET_SIZE in Hpk.
  apply wp_bind. eapply wp_mono; [exact Hl|]. cbv beta. intros l e1 [Hl0 Ha]. replace (l <? 0) with false by lia.
  apply wp_bind. eapply wp_mono; [exact Ha|]. cbv beta. intros r e2 [-> Hc]. replace (fd <? 0) with false by lia.
  apply wp_bind. eapply wp_mono; [exact Hc|]. cbv beta. intros _ e3 Hs3.
  apply (session_made (P:=unit) (rx_config pr_getenv args o)); [| |by rewrite rx_config_shape|apply Hs3|].
  { rewrite rx_config_shape. cbn. lia. }
  { by apply rx_config_ok. }
  intros rx e4 Hs (O4 & L4 & V4). apply wp_bind. destruct Hs3 as (O3 & L3 & V3).
  eapply wp_mono; [apply runs_in_session; eapply wp_mono; [apply Hrun; [exact Hs|]|]|].
  - split; [done|]. split; congruence.
  - cbv beta. intros st v' HQ. instantiate (1:=λ oc, oc_status oc = VAL_OK ∧ Q (oc_world oc)). exact HQ.
  - cbv beta. intros oc e5 [Est HQ]. apply wp_bind.
    assert (wpt (tcp_close fd) (λ _ _, True) e5) as Hcl by (unfold tcp_close; by destruct (0 <=? fd)).
    eapply wp_mono; [exact Hcl|]. intros _ e6 _. apply wp_ret. rewrite Est. by exists oc.
Qed.
End receiver.

#[local] Existing Instances tx_env_link tx_env_host tx_env_honest rx_env_link rx_env_host.
(** The other end does not see how the program is built. *)
Lemma replies_tx {E} {app : Hooks E} `{!StreamLink E} `{!Host E Z} `{!Sockets E} `{!Malloc E} `{!Allocator E} `{!Process E}
    {fd : Z} `{!Wired E Z fd} `{!Provides E Z} fuel frs pos :
  replies (Hooks0:=tx_env fuel) frs pos = replies (E:=E) frs pos.
Proof.
  revert pos. induction frs as [|fr frs IH]; intros pos; [done|]. cbn [replies].
  change (ho_reply (Hooks0:=tx_env fuel) fr pos) with (ho_reply (E:=E) fr pos).
  destruct (ho_reply (E:=E) fr pos) as [a pos']. by rewrite IH.
Qed.
Lemma sent_from_start {E} frs (w w' : world E) : w_tr w = [] → sends frs w w' → sent_frames w' = frs.
Proof. intros E0 (evs & Et & Ef). unfold sent_frames. by rewrite Et, E0, app_nil_r. Qed.
Lemma new_config_ok `{!BuildOptions} c : config_ok c → config_ok (s_cfg (init_session c [] [])).
Proof.
  intros Hc. pose proof (cok_packet _ Hc) as Hp. unfold VAL_MIN_PACKET_SIZE in Hp. set (b := repeat 0 (Z.to_nat (cfg_packet_size c))).
  assert (Eb : zlen b = cfg_packet_size c) by (unfold b, zlen; rewrite repeat_length; lia).
  pose proof (sok_cfg _ (init_session_ok c b b Hc ltac:(lia) ltac:(lia) (bytes_ok_zeros _))) as H1.
  unfold init_session in *. destruct (cfg_min_level c =? 0); exact H1.
Qed.

(** The end of a transfer at the receiver: it has read the stream up to [rest]; each file is in
    the output directory, under its own name and with the content it has at [src]; no other file
    has changed since [v], but [resume_trace.log] in mode NEVER; and what was sent is what an honest other end answers to [frs]. *)
Definition delivered {E} `{!Hooks E} `{!StreamLink E} `{!Host E Z} {R} `{!Hooks R} `{!StreamLink R} `{!Host R unit} `{!BuildOptions}
    (src : E) (frs : list (list Z)) (landed : list Z → list Z) (mode : Z) (files : list (list Z)) (rest : list Z) (pos : Z) (v : R)
    (w' : world (R * summary)) : Prop :=
  let v' := fst (w_e w') in let at_end := ho_files (fl_view v') in
  link_in v' = rest ∧
  (∀ path, path ∈ files → at_end !! landed path = ho_files (fl_view src) !! path) ∧
  (∀ q, q ∉ map landed files → (mode = VAL_RESUME_NEVER → q ≠ trace_log) → at_end !! q = ho_files (fl_view v) !! q) ∧
  concat (sent_frames w') = fst (replies frs pos).

(** C3: the two TCP programs together. Let the sender's command line name files that are there and
    not empty, the receiver's not ask for mode NEVER and validation at once, and the smaller of
    the two packet sizes be below 2^16 + 12 = 65548 bytes (above, DATA is truncated). On a faultless
    connection, with memory to be had, and with a receiver of that command line at the other end,
    the sender's program terminates with exit code 0. And the receiver's program, on any machine
    where that connection arrives and brings what the sender has sent, and where no two files get
    one name and all are missing or empty - in mode NEVER, whatever they are, but with none that would be taken for
    [resume_trace.log] - terminates with exit code 0: each file is in the output directory, under
    its own name and with the sender's content; no other file has changed, but in mode NEVER
    [resume_trace.log], to which the library appends its diagnostic records; and what the
    receiver has sent is what the sender was taken to hear. *)
Theorem programs_deliver {E} {app : Hooks E} `{!StreamLink E} `{!Host E Z} `{!HonestHost E} `{!Sockets E} `{!Malloc E}
    `{!Allocator E} `{!Process E} `{!BuildOptions} {fd : Z} `{!Wired E Z fd} `{!Provides E Z}
    {R} {app' : Hooks R} `{!StreamLink R} `{!Host R unit} `{!Sockets R} `{!Malloc R}
    `{!Allocator R} `{!Process R} {fd' : Z} `{!Wired R unit fd'} `{!Provides R unit}
    fuel args o host port files args' o' port' outdir more (e : E) :
  parse_options tx_option args tcp_defaults = inr (o, host :: port :: files) → files ≠ [] →
  parse_options rx_option args' tcp_defaults = inr (o', port' :: outdir :: more) → (op_resume_mode o' = VAL_RESUME_NEVER → use_validation args' = false) →
  let sr := rx_session (R:=R) args' o' in let size := Z.min (op_packet o) (op_packet o') in
  size < 2 ^ 16 + 12 → (∀ l, hh_crc (E:=E) l = val_crc32 l) → hh_hello (E:=E) = hello_bytes sr size →
  dials (fd:=fd) host (u16 (atoi port)) e → (64 < S (S fuel))%nat → Forall (within_reach (ho_files (fl_view e)) (S (S fuel))) files →
  wpt (tx_main app (S (S fuel)) args)
    (λ r _, ∃ oc, r = (0, Some oc) ∧ let frs := sent_frames (oc_world oc) in bytes_ok (concat frs) ∧
       ∀ fuel' rest pos (v : R), link_in v = concat frs ++ rest → accepts (fd:=fd') (u16 (atoi port')) v →
         receivable (Some outdir) sr (S (S fuel')) files v →
         wpt (rx_main app' (S (S fuel')) args')
           (λ r' _, ∃ oc', r' = (0, Some oc') ∧
              delivered e frs (placed (into (Some outdir) sr)) (op_resume_mode o') files rest pos v (oc_world oc')) v) e.
Proof.
  intros Hp Hne Hp' Hmode sr size Hsz Hcrc Hh Hdial Hf Hfiles.
  pose proof (parse_options_keeps _ rx_option args' tcp_defaults rx_option_ok tcp_options_ok) as Ho'. rewrite Hp' in Ho'.
  pose proof (rx_config_ok (R:=R) args' o' Ho') as Hc'.
  assert (Epk : cfg_packet_size (s_cfg sr) = op_packet o').
  { unfold sr, rx_session, init_session. rewrite rx_config_shape. by destruct (_ =? 0). }
  eapply wp_mono; [apply (sender_delivers (fd:=fd) fuel sr args o host port files e); try done|].
  { by apply new_config_ok. }
  { by rewrite Epk. }
  { by rewrite Epk. }
  cbv beta. intros r e1 (oc & w & xs & -> & Et & EV & Hsb & Hxs & Hsent). exists oc. split; [done|].
  rewrite (sent_from_start _ _ _ Et Hsent). cbv zeta.
  assert (Har := λ n, batch_arrives (E:=E * summary) (Hooks0:=tx_env fuel) (R:=R * summary) (Hooks1:=rx_env n)
    (S (S fuel)) sr files None xs w Hsb (new_config_ok _ Hc')).
  change (ho_files (fl_view (w_e w))) with (ho_files (fl_view (fst (w_e w)))) in Har. rewrite EV in Har.
  split; [apply (Har O Hxs)|]. intros fuel' rest pos v EL Hacc Hrv. destruct (Har fuel' Hxs) as [_ Hrun].
  apply (receiver_takes (fd:=fd') fuel' args' o' port' outdir more v); [done|done|]. intros s e' Hs Hsame.
  set (v0 := mk_world s (e', rx_summary_init) []).
  assert (Hrb : receives_batch (Hooks0:=rx_env fuel') (S (S fuel')) (hh_crc (E:=E)) (Some outdir) files v0).
  { apply (receiver_ready (fd:=fd') fuel' args' o' (hh_crc (E:=E)) (Some outdir) files s rx_summary_init v e'); try done. apply Hacc. }
  eapply wp_mono; [apply (Hrun (S (S fuel')) (Some outdir) rest pos v0)|].
  - apply Hs.
  - exact Hrb.
  - destruct Hsame as (_ & EL' & _). exact (eq_trans EL' EL).
  - intros st v' (-> & _ & EL' & Hin & Hout & heard & Hsent' & Hheard). split; [done|].
    rewrite <- (sent_from_start _ v0 _ eq_refl Hsent'), replies_tx in Hheard. split; [exact EL'|].
    destruct Hsame as (_ & _ & EV'). split; [|split; [|exact Hheard]].
    + intros path Hpath. rewrite <- EV. exact (Hin path Hpath).
    + intros q Hq Hm. rewrite <- EV'. apply (Hout q Hq). cbn [w_s v0]. destruct Hs as (_ & _ & _ & _ & Ec). rewrite Ec.
      unfold init_session. rewrite rx_config_shape. by destruct (_ =? 0).
Qed.

(** ** Two machines: the hosts of [Station], with sockets *)

(** The clock of [Simulation], as [clock_gettime] gives it. *)
Definition sim_clock (s : sim) : Z * Z := (sim_now s / 1000, sim_now s mod 1000 * 1000000).
Lemma sim_clock_ms s : timespec_ms (sim_clock s) = u32 (sim_now s).
Proof.
  unfold timespec_ms, sim_clock. cbn [fst snd]. rewrite Z.div_mul by lia. unfold u64, u32.
  change 0xFFFFFFFF with (Z.ones 32). rewrite Z.land_ones by lia. rewrite Zmod_mod.
  assert (Hm : ∀ x, (x mod 2 ^ 64) mod 2 ^ 32 = x mod 2 ^ 32) by (intros x; rewrite Z.mod_mod_divide; [done|by exists (2 ^ 32)]).
  rewrite Hm, (Z.add_mod (_ mod _)), !Hm, (Z.mul_mod (_ mod _)), Hm, <- Z.mul_mod, <- Z.add_mod by lia.
  f_equal. pose proof (Z.div_mod (sim_now s) 1000 ltac:(lia)). lia.
Qed.
Definition select_wait (tv : option timeval) : Z := match tv with Some t => tv_sec t * 1000 + tv_usec t / 1000 | None => 1 end.

(** The sender's. *)

Section caller.
Context {hello : val_handshake_t}.
Abbreviation guest := (caller hello).
Definition guest_ticks (t : Z) (e : guest) : guest := mk_guest (sim_ticks t (gu_sim e)) (gu_in e) (gu_pos e).
#[export] Instance guest_sockets : Sockets guest := {|
  sk_send _ := guest_send;
  sk_select _ tv e := match gu_in e with [] => (0, guest_ticks (select_wait tv) e) | _ => (1, e) end;
  sk_recv _ n _ e := let k := Z.min n (zlen (gu_in e)) in ((k, ztake k (gu_in e)), mk_guest (gu_sim e) (zdrop k (gu_in e)) (gu_pos e));
  sk_peek _ e := (Z.min 1 (zlen (gu_in e)), e);
  sk_fionread _ e := (Z.min (zlen (gu_in e)) (2 ^ 31 - 1), e);
  sk_so_error _ e := ((0, 0), e); sk_nodelay _ e := e; sk_clock e := (sim_clock (gu_sim e), e);
  sk_nanosleep s ns := guest_ticks (s * 1000 + ns / 1000000);
  sk_socket e := (3, e); sk_reuseaddr _ e := e; sk_bind _ _ e := (0, e); sk_listen _ _ e := (0, e);
  sk_accept _ e := (4, e); sk_connect _ _ e := (0, e); sk_close _ e := e;
  sk_htonl z := z; sk_htons z := z; sk_inet_addr _ := INADDR_LOOPBACK; sk_gethostbyname _ e := (None, e)
|}.
#[export] Instance guest_malloc : Malloc guest := λ _ e, (true, e).
#[export] Instance guest_allocator : Allocator guest := {| hk_alloc _ _ e := (true, e) |}.
#[export] Instance guest_process : Process guest := {|
  pr_getenv _ := None; pr_buffer n e := (Some (repeat 0 (Z.to_nat n)), e)
|}.
#[export] Program Instance guest_wired : Wired guest Z 3.
Next Obligation. intros p. by vm_compute. Qed.
Next Obligation.
  intros l [s i p] [Hb Hf] Hne. cbn. unfold guest_send. cbn. pose proof (guest_reply_bytes (hello:=hello) l p) as Hr.
  destruct (guest_reply l p) as [a pos]. cbn in *. split; [done|]. split; [|done]. split; [by apply bytes_ok_app|done].
Qed.
Next Obligation. intros tv [s i p] [Hb Hf]. cbn. by destruct i. Qed.
Next Obligation.
  intros n all [s i p] [Hb Hf]. cbn in *. split; [split; [by apply bytes_ok_zdrop|done]|]. split; [done|]. intros Hn _.
  by rewrite Z.min_l by lia.
Qed.
Next Obligation. done. Qed.
Next Obligation. intros e He. cbn. split; [apply sim_clock_ms|done]. Qed.
Next Obligation. done. Qed.
Next Obligation.
  intros [s i p] He. cbn in *. split; [done|]. intros Hne%zlen_ne_pos. lia.
Qed.
Next Obligation. done. Qed.
#[export] Program Instance guest_provides : Provides guest Z.
Next Obligation. done. Qed.
Next Obligation. done. Qed.
Next Obligation.
  intros n e He. cbn. split; [done|]. eexists. split; [done|]. split; [unfold zlen; rewrite repeat_length; lia|apply bytes_ok_zeros].
Qed.
End caller.

(** The receiver's. *)

(** What has arrived, as one piece. *)
Definition one_piece (l : list Z) : list arrival := match l with [] => [] | _ => [Bytes l] end.
Lemma one_piece_pending l : sim_pending (one_piece l) = l.
Proof. destruct l; [done|]. cbn. by rewrite app_nil_r. Qed.
Lemma one_piece_ok l : bytes_ok l → Forall (λ c, match c with Bytes d => d ≠ [] ∧ bytes_ok d | Silence _ => True end) (one_piece l).
Proof. intros Hl. destruct l; [constructor|]. by constructor. Qed.
#[export] Instance sim_sockets : Sockets sim := {|
  sk_send _ l e := (zlen l, e);
  sk_select _ tv e := match link_in e with [] => (0, sim_ticks (select_wait tv) e) | _ => (1, e) end;
  sk_recv _ n _ e := let k := Z.min n (zlen (link_in e)) in ((k, ztake k (link_in e)), sim_feed (one_piece (zdrop k (link_in e))) e);
  sk_peek _ e := (Z.min 1 (zlen (link_in e)), e);
  sk_fionread _ e := (Z.min (zlen (link_in e)) (2 ^ 31 - 1), e);
  sk_so_error _ e := ((0, 0), e); sk_nodelay _ e := e; sk_clock e := (sim_clock e, e);
  sk_nanosleep s ns := sim_ticks (s * 1000 + ns / 1000000);
  sk_socket e := (3, e); sk_reuseaddr _ e := e; sk_bind _ _ e := (0, e); sk_listen _ _ e := (0, e);
  sk_accept _ e := (4, e); sk_connect _ _ e := (0, e); sk_close _ e := e;
  sk_htonl z := z; sk_htons z := z; sk_inet_addr _ := INADDR_LOOPBACK; sk_gethostbyname _ e := (None, e)
|}.
#[export] Instance sim_allocator : Allocator sim := {| hk_alloc _ _ e := (true, e) |}.
#[export] Instance sim_process : Process sim := {| pr_getenv _ := None; pr_buffer n e := (Some (repeat 0 (Z.to_nat n)), e) |}.
#[export] Program Instance sim_wired : Wired sim unit 4.
Next Obligation. done. Qed.
Next Obligation. done. Qed.
Next Obligation. intros tv e He. cbn. by destruct (sim_pending (sim_in e)). Qed.
Next Obligation.
  intros n all e [Ho Hf]. cbn. pose proof (sim_pending_bytes e Ho) as Hb. split.
  { split; [|done]. apply one_piece_ok. by apply bytes_ok_zdrop. }
  split; [done|]. intros Hn _. rewrite Z.min_l by lia. rewrite one_piece_pending. done.
Qed.
Next Obligation. done. Qed.
Next Obligation. intros e He. cbn. split; [apply sim_clock_ms|done]. Qed.
Next Obligation. done. Qed.
Next Obligation. intros e He. cbn. split; [done|]. intros Hne%zlen_ne_pos. lia. Qed.
Next Obligation. done. Qed.
#[export] Program Instance sim_provides : Provides sim unit.
Next Obligation. done. Qed.
Next Obligation. done. Qed.
Next Obligation.
  intros n e He. cbn. split; [done|]. eexists. split; [done|]. split; [unfold zlen; rewrite repeat_length; lia|apply bytes_ok_zeros].
Qed.

(** *** A run *)

Definition tx_line : list (list Z) := [text "--mtu"; text "512"; text "10.0.0.1"; text "9000"; [102]; [103]].
Definition rx_line : list (list Z) := [text "--mtu"; text "4096"; text "--resume"; text "never"; text "9000"; text "out"].
Definition options_of (step : list Z → option_kind) (args : list (list Z)) : options :=
  match parse_options step args tcp_defaults with inr (o, _) => o | inl _ => tcp_defaults end.
Definition rx_hello : val_handshake_t := val__fill_local_hello (rx_session (R:=sim) rx_line (options_of rx_option rx_line)) 512.
Definition tx_machine : caller rx_hello := mk_guest (sim_start [] batch_files) [] 0.
Definition rx_machine (l : list Z) : sim := sim_start (one_piece l) [([104], [1; 2]); (text "out/g", [7; 7; 7])].
Lemma tx_machine_ready :
  dials (fd:=3) (text "10.0.0.1") (u16 (atoi (text "9000"))) tx_machine ∧
  Forall (within_reach (ho_files (fl_view tx_machine)) (S (S (Z.to_nat 30000)))) [[102]; [103]].
Proof.
  assert (Hok : fl_ok tx_machine).
  { split; [constructor|]. apply Forall_cons_2; [exact region_bytes|]. apply Forall_cons_2; [|constructor].
    exact (bytes_ok_ztake 200 _ region_bytes). }
  split; [split; [exact Hok|]; split; [done|]; split; [done|]; by vm_compute|].
  assert (Hs : ∀ p d, sim_disk (sim_start [] batch_files) !! p = Some d → (0 <? zlen d) && (zlen d <? 1500) = true →
    within_reach (ho_files (fl_view tx_machine)) (S (S (Z.to_nat 30000))) p).
  { intros p d Hd Hz. exists d. split; [exact Hd|]. lia. }
  apply Forall_cons_2; [apply (Hs [102] region_file)|apply Forall_cons_2; [apply (Hs [103] (ztake 200 region_file))|constructor]].
  all: try (rewrite sim_disk_lookup; reflexivity). all: vm_compute; reflexivity.
Qed.
Lemma rx_machine_ready l : bytes_ok l →
  link_in (rx_machine l) = l ∧ accepts (fd:=4) (u16 (atoi (text "9000"))) (rx_machine l) ∧
  receivable (Some (text "out")) (rx_session (R:=sim) rx_line (options_of rx_option rx_line)) (S (S (Z.to_nat (zlen l)))) [[102]; [103]] (rx_machine l).
Proof.
  intros Hl. assert (EL : link_in (rx_machine l) = l) by apply one_piece_pending.
  assert (Hok : fl_ok (rx_machine l)) by (split; [by apply one_piece_ok|repeat constructor; by vm_compute]).
  split; [exact EL|]. split; [split; [exact Hok|]; split; [done|]; by split|].
  constructor; [done| | | |].
  - apply (bool_decide_unpack _). by vm_compute.
  - intros _. apply (bool_decide_unpack _). by vm_compute.
  - constructor; [|constructor; [|constructor]]; left; by vm_compute.
  - rewrite EL. pose proof (zlen_nonneg l). lia.
Qed.
(** Two files, of 1300 and 200 bytes, with packets of 512 bytes: the sender's choice. The receiver has one of them
    already, and in mode NEVER writes it anew. *)
Lemma programs_deliver_witness :
  wpt (tx_main (guest_hooks (hello:=rx_hello)) (S (S (Z.to_nat 30000))) tx_line)
    (λ r _, ∃ oc, r = (0, Some oc) ∧ let frs := concat (sent_frames (oc_world oc)) in
       wpt (rx_main sim_hooks (S (S (Z.to_nat (zlen frs)))) rx_line)
         (λ r' _, ∃ oc', r' = (0, Some oc') ∧ let disk := sim_disk (fst (w_e (oc_world oc'))) in
            disk !! text "out/f" = Some region_file ∧ disk !! text "out/g" = Some (ztake 200 region_file) ∧
            disk !! [104] = Some [1; 2]) (rx_machine frs)) tx_machine.
Proof.
  destruct tx_machine_ready as [Hd Hs].
  eapply wp_mono; [apply (programs_deliver (E:=caller rx_hello) (fd:=3) (R:=sim) (app':=sim_hooks) (fd':=4) (Z.to_nat 30000) tx_line
    (options_of tx_option tx_line) (text "10.0.0.1") (text "9000") [[102]; [103]]
    rx_line (options_of rx_option rx_line) (text "9000") (text "out") [] tx_machine)|].
  1, 3: vm_compute; reflexivity. 1: discriminate. 1: intros _; reflexivity. 1: vm_compute; reflexivity.
  1: reflexivity. 1: vm_compute; reflexivity. 1: exact Hd. 1: lia. 1: exact Hs.
  cbv beta zeta. intros r e' (oc & -> & Hb & Hrun). exists oc. split; [reflexivity|].
  destruct (rx_machine_ready _ Hb) as (EL & Ha & Hr).
  eapply wp_mono; [apply (Hrun (Z.to_nat (zlen (concat (sent_frames (oc_world oc))))) [] 0 (rx_machine (concat (sent_frames (oc_world oc)))))|].
  - rewrite app_nil_r. exact EL.
  - exact Ha.
  - exact Hr.
  - cbv beta. intros r' v' (oc' & -> & _ & Hin & Hout & _). exists oc'. split; [reflexivity|].
    split; [|split].
    + exact (Hin [102] ltac:(by left)).
    + exact (Hin [103] ltac:(by right; left)).
    + exact (Hout [104] ltac:(by apply (bool_decide_unpack _); vm_compute) ltac:(intros _; discriminate)).
Defined.
