(* ===== verification/SerialPrograms.v ===== *)
(** The two serial programs ([main] of [src/examples/tcp/val_example_send_com.c] and
    [val_example_receive_com.c]): command line, port, session, the call of the library, the
    report and the exit code.  As in [Programs], what is printed is left out; whether the
    report is printed is part of the result.  The watchdog that runs beside them is
    [Watchdog]'s; here it does not cancel. *)
From stdpp Require Import strings.
From S2P Require Import Prelude ByteOrder Wire Errors Crc Sanitize Timing Session Records Simulation Window Packet Control.
From S2P Require Import Handshake Resume Sender Receiver Trace Typestate Callbacks Transfer Tcp Cli Report Programs Serial.

Section programs.
Context {E : Type} `{!SerialPort E} `{!Malloc E} `{!Allocator E} `{!Process E} `{!BuildOptions} (app : Hooks E).
#[local] Abbreviation com_hooks_on fd fuel := (com_hooks (serial_hooks fuel fd app) Serial.get_ticks_ms).

(** After the transfer: the exit code, and whether the report is printed. *)
Definition com_tx_exit (st : Z) : Z * bool :=
  if st =? VAL_OK then (0, true) else if st =? VAL_ERR_IO then (0, false) else (5, true).
(** The exit code, whether there is a report, and how the transfer ended if there was one. *)
Definition com_tx_main (fuel : nat) (args : list (list Z)) : M E (Z * bool * option (outcome E)) :=
  match parse_options com_tx_option args com_defaults with
  | inl code => mret (code, false, None)
  | inr (o, port :: baud :: file :: rest) =>
    let files := file :: rest in
    match parse_uint baud with
    | None => mret (1, false, None)
    | Some baud =>
      let! ' (rc, fd) := serial_open_tx port baud in
      if negb (rc =? 0) then mret (2, false, None)
      else
        let! bufs := two_buffers (op_packet o) in
        match bufs with
        | None => do! serial_close fd in mret (3, false, None)
        | Some (send_buf, recv_buf) =>
          let! tx := create_session (com_tx_config pr_getenv o) send_buf recv_buf in
          match tx with
          | None => do! serial_close fd in mret (4, false, None)
          | Some tx =>
            let! oc := in_session files tx (tx_summary_init (zlen files))
                         (val_send_files (Hooks0:=com_hooks_on fd fuel) fuel files None) in
            do! serial_close fd in
            mret (com_tx_exit (oc_status oc), Some oc)
          end
        end
    end
  | inr _ => mret (1, false, None)
  end.

(** The port - [None] with [--host] -, the speed and the directory: the exit code if there are
    too few arguments or the speed is not a number. *)
Definition com_rx_arguments (o : options) (rest : list (list Z)) : option (option (list Z) * Z * list Z) :=
  if op_host_mode o then match rest with outdir :: _ => Some (None, 0, outdir) | [] => None end
  else match rest with
       | port :: baud :: outdir :: _ =>
         match parse_uint baud with Some baud => Some (Some port, baud, outdir) | None => None end
       | _ => None
       end.
Definition com_rx_main (fuel : nat) (args : list (list Z)) : M E (Z * option (outcome E)) :=
  match parse_options com_rx_option args com_defaults with
  | inl code => mret (code, None)
  | inr (o, rest) =>
    match com_rx_arguments o rest with
    | None => mret (1, None)
    | Some (port, baud, outdir) =>
      let! ' (rc, fd) := serial_open_rx port baud in
      if negb (rc =? 0) then mret (2, None)
      else
        let! bufs := two_buffers (op_packet o) in
        match bufs with
        | None => do! serial_close fd in mret (3, None)
        | Some (send_buf, recv_buf) =>
          let! rx := create_session (com_rx_config pr_getenv args o) send_buf recv_buf in
          match rx with
          | None => do! serial_close fd in mret (4, None)
          | Some rx =>
            let! oc := in_session [] rx com_rx_summary_init
                         (val_receive_files (Hooks0:=com_hooks_on fd fuel) fuel (Some outdir)) in
            do! Serial.delay_ms 200 in
            do! serial_close fd in
            mret (if oc_status oc =? VAL_OK then 0 else 5, Some oc)
          end
        end
    end
  end.

(** What they do before the transfer: an exit code, or the session to run. *)
Inductive com_setup (open : M E (Z * Z)) (cfg : val_config_t) (e : E) : Z + val_session_t → Prop :=
  | com_no_port rc fd e1 : open e = Some ((rc, fd), e1) → rc ≠ 0 → com_setup open cfg e (inl 2)
  | com_no_memory fd e1 e2 : open e = Some ((0, fd), e1) → two_buffers (cfg_packet_size cfg) e1 = Some (None, e2) →
      com_setup open cfg e (inl 3)
  | com_no_session fd e1 sb rb e2 e3 : open e = Some ((0, fd), e1) →
      two_buffers (cfg_packet_size cfg) e1 = Some (Some (sb, rb), e2) → create_session cfg sb rb e2 = Some (None, e3) →
      com_setup open cfg e (inl 4)
  | com_ready fd e1 sb rb e2 s e3 : open e = Some ((0, fd), e1) →
      two_buffers (cfg_packet_size cfg) e1 = Some (Some (sb, rb), e2) → create_session cfg sb rb e2 = Some (Some s, e3) →
      com_setup open cfg e (inr s).

Lemma ticks_total e : wpt Serial.get_ticks_ms (λ _ _, True) e.
Proof. apply wp_bind, wp_lift. destruct (fst (se_monotonic e)); [by apply wp_ret|]. apply wp_bind, wp_lift. by apply wp_ret. Qed.
Lemma com_tx_exit_spec st : let '(code, printed) := com_tx_exit st in
  code = (if bool_decide (st = VAL_OK ∨ st = VAL_ERR_IO) then 0 else 5) ∧ (printed = true ↔ st ≠ VAL_ERR_IO).
Proof.
  unfold com_tx_exit. destruct (Z.eqb_spec st VAL_OK) as [->|Hok]; [by split|].
  destruct (Z.eqb_spec st VAL_ERR_IO) as [->|Hio]; [by split|]. split; [|done]. rewrite bool_decide_false; [done|]. by intros [|].
Qed.
Lemma com_options_ok : options_ok u32_ok com_defaults.
Proof. constructor; vm_compute; split; congruence. Qed.
End programs.

(** C11: the serial sender as a whole. A command line that the option loop rejects ends it with 1,
    or with 0 and then help was asked for; too few arguments and a speed that is not a number
    end it with 1; a port that does not open, a buffer that cannot be had and a session that
    cannot be created with 2, 3 and 4, and only they. After the transfer - this is what makes
    its exit code useless to a script - it ends with 0 not only when [val_send_files] returned
    OK, but also when it returned VAL_ERR_IO, and then without a report: a file that cannot be
    opened, a read error and a broken line are all taken for "the receiver closed the
    connection after the protocol was complete"; on any other status it ends with 5. The
    transfer announces the files of the command line in order, and if every allocation of the
    report succeeds its two lists of names, sent and skipped, are exactly of the files
    announced as ended so, none dropped for want of room (its statistics are not: of two files
    with one name the second is never completed). *)
Theorem serial_sender_program {E} `{!SerialPort E} `{!Malloc E} `{!Allocator E} `{!Process E} `{!BuildOptions}
    (app : Hooks E) fuel args (e : E) :
  wpp (com_tx_main app fuel args)
    (λ r _, match parse_options com_tx_option args com_defaults, r with
            | inl c, (code, printed, None) => printed = false ∧ code = c ∧ (code = 1 ∨ code = 0 ∧ Exists asks_help args)
            | inr (o, port :: baud :: _ :: _), (code, printed, None) => printed = false ∧
                match parse_uint baud with
                | None => code = 1
                | Some b => com_setup (serial_open_tx port b) (com_tx_config pr_getenv o) e (inl code)
                end
            | inr (o, port :: baud :: file :: rest), (code, printed, Some oc) =>
                oc_files oc = file :: rest ∧
                (∃ b s, parse_uint baud = Some b ∧ com_setup (serial_open_tx port b) (com_tx_config pr_getenv o) e (inr s)) ∧
                code = (if bool_decide (oc_status oc = VAL_OK ∨ oc_status oc = VAL_ERR_IO) then 0 else 5) ∧
                (printed = true ↔ oc_status oc ≠ VAL_ERR_IO) ∧
                ∃ a, announces oc a ∧ announced_batch (file :: rest) (oc_status oc) (an_done a) (an_open a) ∧
                  (memory_lasts E → lists_names (ended_with VAL_OK a) (su_done (oc_report oc)) ∧
                                    lists_names (ended_with VAL_SKIPPED a) (su_skipped (oc_report oc)))
            | inr _, (code, printed, None) => printed = false ∧ code = 1
            | _, (_, _, Some _) => False
            end) e.
Proof.
  unfold com_tx_main. pose proof (parse_options_stops com_tx_option args com_defaults) as Hstop.
  destruct (parse_options _ _ _) as [code|[o [|port [|baud [|file rest]]]]]; try (by apply wp_ret).
  { apply wp_ret. split; [done|]. split; [done|]. apply Hstop; [|done]. intros arg. apply options_stop. }
  clear Hstop. destruct (parse_uint baud) as [b|]; [|by apply wp_ret].
  apply wpp_bind_eq. intros [rc fd] e1 E1. destruct (Z.eqb_spec rc 0) as [->|Hrc]; cbn [negb].
  2:{ apply wp_ret. split; [done|]. by eapply com_no_port. }
  apply wpp_bind_eq. intros [[sb rb]|] e2 E2.
  2:{ apply wpp_bind_any. intros. apply wp_ret. split; [done|]. by eapply com_no_memory. }
  apply wpp_bind_eq. intros [tx|] e3 E3.
  2:{ apply wpp_bind_any. intros. apply wp_ret. split; [done|]. by eapply com_no_session. }
  pose proof (com_ready _ (com_tx_config pr_getenv o) _ _ _ _ _ _ _ _ E1 E2 E3) as Hready. apply session_is in E3.
  destruct (init_session_mode (com_tx_config pr_getenv o) sb rb) as (Hs & Hc & _). rewrite <- E3 in Hs, Hc. cbn in Hs, Hc.
  apply wp_bind. eapply wp_mono; [apply (in_session_spec _ _ _ _ (λ oc, oc_files oc = file :: rest ∧
    ∃ a, announces oc a ∧ announced_batch (file :: rest) (oc_status oc) (an_done a) (an_open a) ∧
         (memory_lasts E → lists_names (ended_with VAL_OK a) (su_done (oc_report oc)) ∧
                           lists_names (ended_with VAL_SKIPPED a) (su_skipped (oc_report oc)))))|].
  - eapply wp_mono; [apply (announces_both _ (λ st a, announced_batch (file :: rest) st (an_done a) (an_open a))
      (λ a su, lists_names (ended_with VAL_OK a) (su_done su) ∧ lists_names (ended_with VAL_SKIPPED a) (su_skipped su)) (file :: rest))|].
    + by apply send_announced.
    + intros Hm. eapply wp_mono; [by apply (com_tx_told_run (serial_hooks fuel fd app) Serial.get_ticks_ms Hm ticks_total)|].
      cbv beta. intros st w (a & Ha & _ & Hl). by exists a.
    + cbv beta zeta. intros st w Ha. split; [done|exact Ha].
  - cbv beta. intros oc e4 [Hf Ha]. apply wpp_bind_any. intros _ e5. apply wp_ret.
    pose proof (com_tx_exit_spec (oc_status oc)) as Hx. destruct (com_tx_exit (oc_status oc)) as [code printed].
    destruct Hx as [-> Hx]. split; [done|]. split; [by exists b, tx|]. split; [done|]. split; [exact Hx|exact Ha].
Qed.

(** C12: the serial receiver as a whole. A command line that the option loop rejects ends it with
    1, or with 0 and then help was asked for; wrong arguments end it with 1; a port that does not
    open, a buffer that cannot be had and a session that cannot be created with 2, 3 and 4,
    and only they; after the transfer it ends with 0 exactly when [val_receive_files] returned
    OK, else with 5. In any resume mode but NEVER no validator is asked, with or without
    --validation; and if every allocation of the report succeeds the report has been written
    past the end of its arrays as soon as two files were received, or two skipped. *)
Theorem serial_receiver_program {E} `{!SerialPort E} `{!Malloc E} `{!Allocator E} `{!Process E} `{!BuildOptions}
    (app : Hooks E) fuel args (e : E) :
  wpp (com_rx_main app fuel args)
    (λ r _, match parse_options com_rx_option args com_defaults, r with
            | inl c, (code, None) => code = c ∧ (code = 1 ∨ code = 0 ∧ Exists asks_help args)
            | inr (o, rest), (code, None) =>
                match com_rx_arguments o rest with
                | None => code = 1
                | Some (port, b, _) => com_setup (serial_open_rx port b) (com_rx_config pr_getenv args o) e (inl code)
                end
            | inr (o, rest), (code, Some oc) =>
                (∃ port b outdir s, com_rx_arguments o rest = Some (port, b, outdir) ∧
                   com_setup (serial_open_rx port b) (com_rx_config pr_getenv args o) e (inr s)) ∧
                code = (if oc_status oc =? VAL_OK then 0 else 5) ∧
                (op_resume_mode o ≠ VAL_RESUME_NEVER →
                 (∃ a, announces oc a ∧ outcomes a ∧
                    (memory_lasts E → na_overrun (su_done (oc_report oc)) = (1 <? zlen (ended_with VAL_OK a)) ∧
                                      na_overrun (su_skipped (oc_report oc)) = (1 <? zlen (ended_with VAL_SKIPPED a)))) ∧
                 Forall not_validated (w_tr (oc_world oc)))
            | _, (_, Some _) => False
            end) e.
Proof.
  unfold com_rx_main. pose proof (parse_options_stops com_rx_option args com_defaults) as Hstop.
  destruct (parse_options _ _ _) as [code|[o rest]].
  { apply wp_ret. split; [done|]. apply Hstop; [|done]. intros arg. apply options_stop. }
  clear Hstop. destruct (com_rx_arguments o rest) as [[[port b] outdir]|]; [|by apply wp_ret].
  assert (Epk : cfg_packet_size (com_rx_config pr_getenv args o) = op_packet o) by (by rewrite com_rx_config_shape).
  apply wpp_bind_eq. intros [rc fd] e1 E1. destruct (Z.eqb_spec rc 0) as [->|Hrc]; cbn [negb].
  2:{ apply wp_ret. by eapply com_no_port. }
  rewrite <- Epk. apply wpp_bind_eq. intros [[sb rb]|] e2 E2.
  2:{ apply wpp_bind_any. intros. apply wp_ret. by eapply com_no_memory. }
  apply wpp_bind_eq. intros [rx|] e3 E3.
  2:{ apply wpp_bind_any. intros. apply wp_ret. by eapply com_no_session. }
  pose proof (com_ready _ _ _ _ _ _ _ _ _ _ E1 E2 E3) as Hready. apply session_is in E3.
  destruct (init_session_mode (com_rx_config pr_getenv args o) sb rb) as (Hs & Hc & Hmode).
  rewrite <- E3 in Hs, Hc, Hmode. rewrite com_rx_config_shape in Hs, Hc, Hmode. cbn in Hs, Hc, Hmode.
  apply wp_bind. eapply wp_mono; [apply (in_session_spec _ _ _ _ (λ oc, op_resume_mode o ≠ VAL_RESUME_NEVER →
    (∃ a, announces oc a ∧ outcomes a ∧
       (memory_lasts E → na_overrun (su_done (oc_report oc)) = (1 <? zlen (ended_with VAL_OK a)) ∧
                         na_overrun (su_skipped (oc_report oc)) = (1 <? zlen (ended_with VAL_SKIPPED a)))) ∧
    Forall not_validated (w_tr (oc_world oc))))|].
  - apply wpp_impl. rewrite <- Hmode. intros Hn. eapply wp_mono; [apply wpp_and|].
    + apply (announces_both _ (λ _ a, outcomes a) (λ a su, na_overrun (su_done su) = (1 <? zlen (ended_with VAL_OK a)) ∧
        na_overrun (su_skipped su) = (1 <? zlen (ended_with VAL_SKIPPED a))) []); [by apply receive_announced|].
      intros Hm. eapply wp_mono; [by apply (com_rx_told_run (serial_hooks fuel fd app) Serial.get_ticks_ms Hm ticks_total)|].
      cbv beta. intros st w (a & Ha & _ & Hr). by exists a.
    + by apply (receive_files_emits not_validated).
    + cbv beta zeta. intros st w [Ha (evs & Et & Hf)]. cbn in Et. rewrite app_nil_r in Et. subst evs. by split.
  - cbv beta. intros oc e6 Ha. do 2 (apply wpp_bind_any; intros ? ?). apply wp_ret. split; [by exists port, b, outdir, rx|done].
Qed.

(** ** Runs of both programs *)

#[export] Instance desk_port : SerialPort desk := {|
  se_open _ e := (3, e);
  se_close _ e := e;
  se_write _ l e := (inr (zlen l), mk_desk (dk_in e) (dk_out e ++ l) (dk_sim e));
  se_select _ tv := desk_wait (Some tv);
  se_read _ n e := let k := Z.min n (zlen (dk_in e)) in
    (inr (ztake k (dk_in e)), mk_desk (zdrop k (dk_in e)) (dk_out e) (dk_sim e));
  se_usleep us e := mk_desk (dk_in e) (dk_out e) (sim_ticks (us / 1000) (dk_sim e));
  se_monotonic e := (Some (sim_now (dk_sim e) / 1000, sim_now (dk_sim e) mod 1000 * 1000000), e);
  se_realtime e := ((0, 0), e);
  se_nanosleep s ns e := mk_desk (dk_in e) (dk_out e) (sim_ticks (s * 1000 + ns / 1000000) (dk_sim e));
  se_tcgetattr _ e := (Some (mk_termios 0 0 0 0 1 0 0 0), e); se_tcsetattr _ _ e := (0, e);
  se_posix_openpt e := (3, e); se_grantpt _ e := (0, e); se_unlockpt _ e := (0, e); se_ptsname _ e := (Some [112], e);
  se_cfsetospeed _ t := t; se_cfsetispeed _ t := t; se_cfmakeraw t := t
|}.
Definition com_tx_args : list (list Z) := [text "--mtu"; text "512"; text "/dev/ttyS0"; text "115200"] ++ batch_paths.
Definition com_tx_program := com_tx_main desk_app demo_fuel com_tx_args tx_desk.
(** The second file is not there. *)
Definition poor_desk : desk := mk_desk (concat (frames_in batch_script)) [] (sim_start [] [(demo_path, ztake 300 demo_file)]).
Definition poor_program := com_tx_main desk_app demo_fuel com_tx_args poor_desk.
Definition com_rx_args : list (list Z) := [text "--validation"; text "--mtu"; text "512"; text "--host"; text "out"].
Definition com_rx_program := com_rx_main desk_app demo_fuel com_rx_args rx_desk.

Definition sends (r : option ((Z * bool * option (outcome desk)) * desk)) (Q : Z → bool → outcome desk → Prop) : Prop :=
  match r with Some ((code, printed, Some oc), _) => Q code printed oc | _ => False end.
Lemma serial_programs_end :
  sends com_tx_program (λ code printed oc, code = 0 ∧ printed = true ∧ oc_status oc = VAL_OK ∧
    na_names (su_done (oc_report oc)) = [Some demo_path; Some [103]]) ∧
  sends poor_program (λ code printed oc, code = 0 ∧ printed = false ∧ oc_status oc = VAL_ERR_IO ∧
    na_names (su_done (oc_report oc)) = [Some demo_path]) ∧
  ends com_rx_program (λ code oc, code = 0 ∧ oc_status oc = VAL_OK ∧
    na_names (su_done (oc_report oc)) = [Some demo_path; Some [103]] ∧ na_overrun (su_done (oc_report oc)) = true).
Proof. vm_compute. repeat split. Qed.
Lemma sends_spec (m : M desk (Z * bool * option (outcome desk))) e r (P : Z * bool * option (outcome desk) → desk → Prop) Q Q' :
  m e = r → wpp m P e → sends r Q → (∀ code printed oc e', P (code, printed, Some oc) e' → Q' code printed oc) → sends r Q'.
Proof.
  intros <- Hw He HQ. unfold wp, sends in *. destruct (m e) as [[[[code printed] [oc|]] e']|]; [|done..]. by eapply HQ.
Qed.
Lemma serial_sender_program_witness :
  sends com_tx_program (λ code printed oc, code = 0 ∧ printed = true ∧ oc_status oc = VAL_OK ∧
    na_names (su_done (oc_report oc)) = [Some demo_path; Some [103]]) ∧
  sends poor_program (λ code printed oc, code = 0 ∧ printed = false ∧ oc_status oc = VAL_ERR_IO ∧
    na_names (su_done (oc_report oc)) = [Some demo_path]) ∧
  sends poor_program (λ _ _ oc, ∃ a, announced_batch (oc_files oc) (oc_status oc) (an_done a) (an_open a) ∧
    lists_names (ended_with VAL_OK a) (su_done (oc_report oc))).
Proof.
  split; [exact (proj1 serial_programs_end)|]. split; [exact (proj1 (proj2 serial_programs_end))|].
  apply (sends_spec _ poor_desk poor_program _ _ _ eq_refl
    (serial_sender_program desk_app demo_fuel com_tx_args poor_desk) (proj1 (proj2 serial_programs_end))).
  intros code printed oc e'.
  destruct (parse_options com_tx_option com_tx_args com_defaults) as [c|[o [|port [|baud [|file rest]]]]]; try done.
  intros (-> & _ & _ & _ & a & _ & Hb & Hl). exists a. exact (conj Hb (proj1 (Hl desk_memory))).
Defined.
Lemma serial_receiver_program_witness :
  ends com_rx_program (λ code oc, code = 0 ∧ oc_status oc = VAL_OK ∧
    na_names (su_done (oc_report oc)) = [Some demo_path; Some [103]] ∧ na_overrun (su_done (oc_report oc)) = true) ∧
  ends com_rx_program (λ _ oc, ∃ a, outcomes a ∧ na_overrun (su_done (oc_report oc)) = (1 <? zlen (ended_with VAL_OK a))).
Proof.
  split; [exact (proj2 (proj2 serial_programs_end))|].
  assert (Hm : match parse_options com_rx_option com_rx_args com_defaults with
    inr (o, _) => op_resume_mode o ≠ VAL_RESUME_NEVER | inl _ => True end) by (vm_compute; discriminate).
  apply (ends_spec _ rx_desk com_rx_program _ _ _ eq_refl
    (serial_receiver_program desk_app demo_fuel com_rx_args rx_desk) (proj2 (proj2 serial_programs_end))).
  intros code oc e'. destruct (parse_options com_rx_option com_rx_args com_defaults) as [c|[o rest]]; try done.
  intros (_ & _ & Hr). destruct (Hr Hm) as [(a & _ & Ho & Hd) _]. exists a. exact (conj Ho (proj1 (Hd desk_memory))).
Defined.
